(* ===== verification/_CoqProject ===== *)
-Q . S2P
Prelude.v
Allocator.v
Bitmap.v
Crc32c.v
Rmw.v
RmwPlan.v
RmwXor.v
RmwXorOk.v
Peering.v
PeeringOk.v
PeeringMain.v
Xdr.v
XdrCodec.v
XdrList.v
XdrSafe.v
XdrRpc.v
XdrPortmap.v
XdrRdma.v
XdrNfs3.v
XdrNfs2.v
XdrMain.v
RpcStream.v
RpcStreamOk.v
RpcServer.v
RpcServerOk.v
Writeback.v
WritebackList.v
WritebackCut.v
WritebackOk.v
WritebackFlush.v
WritebackSpec.v
WritebackSend.v
WritebackStart.v
WritebackRepeat.v
WritebackDone.v
WritebackMain.v
WritebackTrace.v
WritebackRead.v
WritebackDelete.v
Journal.v
JournalCheck.v
Blockstore.v
BlockstoreOps.v
DirtyDb.v
JournalRing.v
JournalBatch.v
JournalItems.v
JournalDemo.v
JournalTrim.v
DirtyBooks.v
DirtyStable.v
JournalMain.v
JournalCompletion.v
BlockstoreWrite.v
WriteFaults.v
Replay.v
ReplayLog.v
ReplayApply.v
ReplayRead.v
ReplayMain.v
ReplayWrite.v
ReplayDisk.v
ReplayRestart.v
ReplayFaults.v
BlockstoreRead.v
ReadHoles.v
ReadCollect.v
ReadOk.v
ReadMain.v
ReadClaims.v
ReadVerify.v
ReadFaults.v
