(* ===== verification/Prelude.v ===== *)
(** * Verification of Vitastor

    Vitastor is a distributed block store.  Clients cut requests into objects; an
    object belongs to a placement group, whose primary OSD plans reads and writes
    of the replicas or chunks of the object (src/src/osd); every OSD keeps its
    chunks in a blockstore (src/src/blockstore) with an allocator and checksums
    (src/src/util); a file server gives access over NFS (src/src/nfs).

    The development translates parts of the C and C++ code into executable
    functions and proves what they compute.  Machine integers are [Z] with the
    wrap-around of their width written out ([u8], [u32], [u64]).  What stops a
    function (an access out of range, an assertion, an exception, undefined
    behaviour) is a value of [fault], so that [Ok] in a theorem also says that
    none of this happens.

    ** Parts

    - Allocator: [allocator_t] of util/allocator.cpp, a 64-ary tree of bit masks,
      refined to a finite set of used blocks ([set], [get], [find_free], the
      constructor and its exception).
    - Bitmap: [bitmap_set], [bitmap_clear] and [bitmap_check] of the same file,
      with their fast paths, against the range of granules they mean.
    - Crc32c: both routines of util/crc32c.c are equal to the bit-by-bit checksum;
      padded checksums; [je_crc32] of blockstore/blockstore_journal.h.
    - Rmw, RmwPlan: [split_stripes], [extend_missing_stripes] and [calc_rmw] of
      osd/osd_rmw.cpp, and the contract of their plans.
    - RmwXor, RmwXorOk: reconstruction and parity of the k+1 XOR scheme on a byte
      memory (osd/osd_rmw.cpp, util/xor.h).  The two parts meet in [rmw_xor_ok]: a
      plan, the reads it asks for and the parity computation keep the object
      consistent.
    - Peering, PeeringOk, PeeringMain: [pg_t::calc_object_states] and
      [pg_obj_state_check_t] of osd/osd_peering_pg.cpp.  The walk over the merged
      lists is refined to one decision per object; the choice of the version, the
      flush actions, counts, state bits and the epoch follow from it.
    - Xdr: the routines of nfs/proto/xdr_impl_inline.h and xdr_impl.cpp.  The class
      [Codec] of XdrCodec (lists: XdrList) says that a routine encodes and decodes;
      [Safe] of XdrSafe says what it does on arbitrary bytes.  XdrRpc, XdrPortmap,
      XdrRdma, XdrNfs3 and XdrNfs2 have every type and routine of rpc.h, portmap.h,
      rpc_rdma.h, nfs.h and their _xdr.cpp files, with instances of the classes.
      XdrMain states the results for whole messages.
    - RpcStream, RpcStreamOk: the reading side of [nfs_client_t] of
      nfs/nfs_proxy.cpp as a state machine; its invariant is proved by induction
      over the reachable states.
    - RpcServer, RpcServerOk: [handle_rpc_message], [create_rpc_op],
      [handle_rpc_op] and [rpc_queue_reply] of nfs/nfs_proxy.cpp, proved against the
      classes of the XDR routines, and the table of nfs/nfs_kv.cpp.
    - Writeback: [writeback_cache_t] of client/cluster_client_wb.cpp, all of it, on a
      heap of reference-counted blocks; iterators are a reversed prefix and a
      suffix of the ordered list of buffers.  WritebackSpec says what every event
      does to every cached byte and to the operations in flight ([promises]).
      WritebackList, WritebackCut and WritebackOk are about writes,
      WritebackFlush, WritebackSend and WritebackStart about write-back,
      WritebackRepeat about repeats, WritebackDone about replies and syncs;
      WritebackMain puts them together: the cache refines the specification.
      WritebackTrace is about whole histories, WritebackRead about reads,
      WritebackDelete about deletions, for which the cache is wrong.
    - Journal: [journal_t] and [blockstore_journal_check_t] of
      blockstore/blockstore_journal.h and .cpp: the space check, entries with chained
      checksums in sector buffers, trimming.  Blockstore has the state of
      [blockstore_impl_t], its database of unflushed versions as an ordered list, the
      flush queue (blockstore_flush.cpp) and the effect of stabilization and rollback
      (blockstore_stable.cpp, blockstore_rollback.cpp).  BlockstoreOps has journal
      writes with their completion, syncs (blockstore_sync.cpp) and the handlers of
      STABLE and ROLLBACK, BlockstoreWrite all of blockstore_write.cpp.  Requests to
      io_uring are appended to [ring]; completions are calls of
      [handle_journal_write] and [handle_write_event] in any order.
    - JournalCheck is about the space check, JournalRing about the invariant of the
      ring ([ring_ok]: used sectors and the open sector are in the used part),
      JournalBatch and JournalItems about batches of entries, JournalMain about
      handlers that write such batches, JournalCompletion about completions,
      JournalTrim about trims that overlap with writes.  DirtyDb is about the
      database; DirtyBooks (rollback) and DirtyStable (stabilization) about its
      agreement with allocator, journal references and counters ([books_ok]);
      WriteFaults about writes that fail.  JournalDemo has the states of examples.
    - Replay: [blockstore_init_journal] of blockstore/blockstore_init.cpp, the start:
      superblock, reads of the ring in parts, and the replay of entries.  ReplayLog
      has the entries as data with their encoding, ReplayApply the effect of an entry
      as a function of its fields.  ReplayRead defines images of the journal that hold
      a log ([log]) and shows that they are replayed, ReplayMain adds the superblock.
      ReplayWrite shows that the writers leave such a log in the memory of the journal
      ([journaled]), ReplayDisk that their requests bring it to the disk ([on_disk]),
      ReplayRestart puts both sides together; ReplayFaults is about starts that go
      wrong.
    - BlockstoreRead: blockstore/blockstore_read.cpp, a read as a state with its
      requests, its parts ([read_vec]) and its buffers.  ReadHoles is about the parts and
      [find_holes], with any callback that fills holes; ReadCollect about the invariant
      that every part has, or will get, the bytes of the object; ReadOk about the walk
      over versions and the clean object, with [expected] as the specification; ReadMain
      about submission and completion with devices as functions ([serve_all]);
      ReadClaims has the results without checksums, ReadVerify those with a checksum per
      granule, ReadFaults the reads that go wrong.

    ** Theorems

    Journal: whatever the space check allows is written without a failed assertion
    and without overwriting what is in use ([versions_batch_ok], [sync_batch_ok]),
    completions in any order complete every operation ([completion_any_order]), a
    trim gives up nothing in use ([trim_safe]).  Restarts: a log on disk is replayed
    entry by entry ([start_replays_log]), and what was journaled is what the next start
    finds ([versions_survive], [sync_survives]).  Reads: the newest visible data is
    returned ([read_returns_newest], [read_not_found]), and with checksums a read succeeds
    exactly when they match ([clean_read_verified]).  Versions: [mark_stable_ok],
    [rollback_ok].  Refinement: [set_ok], [peering_ok], [rpc_stream_messages],
    [writeback_refines].  Equivalence with a reference: [crc32c_ok].  Round trips:
    [nfs3_round_trip], [rpc_round_trip], [readdir_layout], [rpc_reply_frame].
    Arbitrary input: [server_decodes_any_bytes], [rpc_any_message].  Whole
    histories: [no_write_lost], [read_your_writes].  Progress: [peering_total],
    [rpc_stream_progress], [sync_empties], [check_terminates].  Some theorems state what the code does
    where it does not do what it means to: [peering_old_role_out_of_bounds],
    [xdr_bytes_length_wraps], [rdma_segments_overflow],
    [exports_dangling_reference], [rpc_fragments_desync],
    [delete_writeback_fails], [delete_hides_dirty], [check_passes_full_ring],
    [check_misses_last_sector], [completed_before_earlier], [stable_space_leak],
    [cancelled_write_fails], [first_write_hits_superblock], [synced_writes_lost],
    [short_entry_stops_start], [replayed_deletion_miscounts],
    [zero_runs_stop_read], [big_write_fails_checksum], [attributes_hide_data],
    [wrong_block_released], [deleted_bitmap], and cases of [find_free_ok],
    [crc32c_pad_ok], [rpc_call_refused] and [rpc_any_message].

    ** Bounds

    Loops that are not structural take fuel, and running out of it is the fault
    [OutOfFuel].  Theorems that give [Ok] show that it is enough: 8 levels for the
    allocator, as 64^6 exceeds its largest size; the number of bits for bitmaps; the number
    of buffers for XOR; the number of unread bytes for RPC records and lists, since
    every round consumes at least four; the number of sector buffers for the space
    check, which may pass each buffer once; the number of splits for callbacks; the
    number of bytes of a block and of blocks of the journal for its replay; two rounds
    for every part of a read, and the number of granules for its bitmaps.

    ** Assumptions

    [malloc] of RpcStream and Writeback is a parameter that gives memory not in use.
    The handler of a message is a parameter of RpcStream, and which OSDs and
    placement groups a range touches is one of Writeback.  Theorems on histories of
    the cache are about writes, of at most 4 GB in the cache at a time.  In RpcStream a
    submission queue entry is always available.  Memory allocation does not fail
    ([malloc_or_die]).  Requests of the blockstore to io_uring succeed, as any other
    result stops the process.  Theorems on restarts are about journals that are kept in
    memory; the block behind the log is assumed not to continue its chain of checksums,
    and a sector not to end with less bytes than the magic number of an entry needs.
    Reads are of at least one byte, devices do not change while they are served, the
    metadata of clean objects is in memory if there are checksums, and checksum blocks are
    as large as the granularity, except in ReadFaults.

    ** Not modelled

    - Flusher coroutines and metadata of the blockstore, the cluster client, the
      key-value database and the NFS handlers: event-driven code whose state is
      spread over many continuations and over devices.
    - Messenger, RDMA, event loop, block device clients, disk tool: system calls.
    - Cluster state from etcd, command-line tool: JSON, with a parser outside the tree.
    - Matrix erasure codes: the arithmetic is in libraries outside the tree.
    - In the modelled parts: the reference count and the stopping of an NFS
      connection, the queue of parts to send, replies over RDMA, the reference counts
      of [dyn_data], and printing.
    - The monitor, the CSI driver, language bindings and packaging.

    ** This file

    Faults and the result monad, machine integers, bit lemmas on [Z], arrays indexed
    by [Z], and the tactics and hint databases the component files use. *)

From stdpp Require Export base list gmap sorting.
From Stdlib Require Export ZArith Lia.

#[global] Open Scope Z_scope.

(** * Faults and results *)

(** How a modelled C++ function can stop without returning. *)
Inductive fault : Type :=
| OutOfBounds      (* access outside an array or a container *)
| AssertFailed     (* assert() *)
| Thrown           (* a C++ exception *)
| Aborted          (* abort() or exit() *)
| DivByZero        (* integer division by zero *)
| Undefined        (* other undefined behaviour, such as a shift by 32 or more *)
| OutOfFuel.       (* the model's loop bound was too small *)

Inductive res (A : Type) : Type :=
| Ok (a : A)
| Err (e : fault).
Arguments Ok {A} a.
Arguments Err {A} e.

Definition rbind {A B} (m : res A) (k : A -> res B) : res B :=
  match m with Ok a => k a | Err e => Err e end.

Declare Scope res_scope.
Delimit Scope res_scope with res.
Notation "'let*' x ':=' m 'in' k" := (rbind m (fun x => k))
  (at level 200, x pattern, m at level 100, k at level 200, right associativity) : res_scope.
Notation "'assert!' b 'in' k" := (if b then k else Err AssertFailed)
  (at level 200, b at level 100, k at level 200, right associativity) : res_scope.
#[global] Open Scope res_scope.

Lemma rbind_ok {A B} (m : res A) (k : A -> res B) b :
  rbind m k = Ok b <-> exists a, m = Ok a /\ k a = Ok b.
Proof. destruct m; simpl; naive_solver. Qed.

(** * Machine integers *)

Definition UINT8_MAX : Z := 255.
Definition UINT32_MAX : Z := 4294967295.
Definition UINT64_MAX : Z := 18446744073709551615.

Definition u8 (x : Z) : Z := x mod 2 ^ 8.
Definition u32 (x : Z) : Z := x mod 2 ^ 32.
Definition u64 (x : Z) : Z := x mod 2 ^ 64.

Lemma u8_small x : 0 <= x < 256 -> u8 x = x.
Proof. intros. by apply Z.mod_small. Qed.
Lemma u32_small x : 0 <= x < 4294967296 -> u32 x = x.
Proof. intros. by apply Z.mod_small. Qed.
Lemma u64_small x : 0 <= x < 18446744073709551616 -> u64 x = x.
Proof. intros. by apply Z.mod_small. Qed.

Lemma u8_range x : 0 <= u8 x < 256.
Proof. by apply Z.mod_pos_bound. Qed.
Lemma u32_range x : 0 <= u32 x < 4294967296.
Proof. by apply Z.mod_pos_bound. Qed.
Lemma u64_range x : 0 <= u64 x < 18446744073709551616.
Proof. by apply Z.mod_pos_bound. Qed.

(** Drop a wrap-around whose argument [lia] can bound. *)
Ltac nowrap :=
  repeat first
    [ rewrite u64_small by lia
    | rewrite u32_small by lia
    | rewrite u8_small by lia ].

(** * Bits of Z *)

Create HintDb bits discriminated.

Lemma testbit_ge (p x i : Z) : 0 <= x < 2 ^ p -> p <= i -> Z.testbit x i = false.
Proof.
  intros Hx Hi. destruct (decide (x = 0)) as [-> | Hx0]; [apply Z.testbit_0_l |].
  apply Z.bits_above_log2; [lia |].
  apply Z.lt_le_trans with p; [| done]. apply Z.log2_lt_pow2; lia.
Qed.

Lemma testbit_ones_64 i : 0 <= i < 64 -> Z.testbit UINT64_MAX i = true.
Proof. intros. change UINT64_MAX with (Z.ones 64). apply Z.ones_spec_low. lia. Qed.

(** Two numbers below [2^p] are equal when their low [p] bits are. *)
Lemma bits_inj_below (p x y : Z) :
  0 <= x < 2 ^ p -> 0 <= y < 2 ^ p ->
  (forall i, 0 <= i < p -> Z.testbit x i = Z.testbit y i) -> x = y.
Proof.
  intros Hx Hy H. apply Z.bits_inj'. intros i Hi.
  destruct (decide (i < p)); [by apply H |].
  by rewrite (testbit_ge p x), (testbit_ge p y) by lia.
Qed.

Lemma lt_pow2_of_bits (p x : Z) :
  0 <= p -> 0 <= x -> (forall i, p <= i -> Z.testbit x i = false) -> x < 2 ^ p.
Proof.
  intros Hp Hx H.
  destruct (decide (x < 2 ^ p)) as [| Hge]; [done |]. exfalso.
  assert (0 < 2 ^ p) by (apply Z.pow_pos_nonneg; lia).
  assert (p <= Z.log2 x) by (apply Z.log2_le_pow2; lia).
  specialize (H (Z.log2 x) ltac:(lia)). rewrite Z.bit_log2 in H; [done | lia].
Qed.

Lemma lxor_range (p x y : Z) : 0 <= p -> 0 <= x < 2 ^ p -> 0 <= y < 2 ^ p -> 0 <= Z.lxor x y < 2 ^ p.
Proof.
  intros Hp Hx Hy. assert (0 <= Z.lxor x y) by (apply Z.lxor_nonneg; lia).
  split; [done |]. apply lt_pow2_of_bits; [done | done |]. intros i Hi.
  by rewrite Z.lxor_spec, (testbit_ge p x), (testbit_ge p y) by lia.
Qed.

Lemma shiftl1_testbit b i :
  0 <= b -> 0 <= i -> Z.testbit (Z.shiftl 1 b) i = bool_decide (i = b).
Proof.
  intros. rewrite Z.shiftl_1_l, Z.pow2_bits_eqb by lia.
  case_bool_decide; [subst; apply Z.eqb_refl | by apply Z.eqb_neq; intros ->].
Qed.

(** * Arrays indexed by [Z]; an access out of range is a fault *)

Section Arrays.
Context {A : Type}.

Definition aget (l : list A) (i : Z) : res A :=
  if bool_decide (0 <= i) then
    match l !! Z.to_nat i with Some x => Ok x | None => Err OutOfBounds end
  else Err OutOfBounds.

Definition aset (l : list A) (i : Z) (x : A) : res (list A) :=
  if bool_decide (0 <= i < Z.of_nat (length l)) then Ok (<[Z.to_nat i := x]> l)
  else Err OutOfBounds.

Lemma aget_ok (l : list A) i x :
  aget l i = Ok x <-> 0 <= i /\ l !! Z.to_nat i = Some x.
Proof.
  unfold aget. case_bool_decide; [| naive_solver].
  destruct (l !! Z.to_nat i) eqn:E; naive_solver.
Qed.

Lemma aget_lt (l : list A) i x : aget l i = Ok x -> 0 <= i < Z.of_nat (length l).
Proof. rewrite aget_ok. intros [? ?%lookup_lt_Some]. lia. Qed.

Lemma aget_in_range (l : list A) i :
  0 <= i < Z.of_nat (length l) -> exists x, aget l i = Ok x.
Proof.
  intros H. destruct (lookup_lt_is_Some_2 l (Z.to_nat i)) as [x Hx]; [lia |].
  exists x. apply aget_ok. split; [lia | done].
Qed.

Lemma aset_ok (l l' : list A) i x :
  aset l i x = Ok l' <-> 0 <= i < Z.of_nat (length l) /\ l' = <[Z.to_nat i := x]> l.
Proof. unfold aset. case_bool_decide; naive_solver. Qed.

Lemma aset_in_range (l : list A) i x :
  0 <= i < Z.of_nat (length l) -> aset l i x = Ok (<[Z.to_nat i := x]> l).
Proof. intros. apply aset_ok. split; [lia | done]. Qed.

Lemma aget_insert (l : list A) i j x :
  0 <= i < Z.of_nat (length l) ->
  aget (<[Z.to_nat i := x]> l) j = if bool_decide (i = j) then Ok x else aget l j.
Proof.
  intros Hi. unfold aget. case_bool_decide as Hj; case_bool_decide as Hij;
    try (subst; lia); try done.
  - subst. rewrite list_lookup_insert_eq by lia. done.
  - rewrite list_lookup_insert_ne by lia. done.
Qed.
End Arrays.

(** * Byte buffers *)

Definition zlen {A} (l : list A) : Z := Z.of_nat (length l).

Lemma zlen_app {A} (l l' : list A) : zlen (l ++ l') = zlen l + zlen l'.
Proof. unfold zlen. rewrite length_app. lia. Qed.
Lemma zlen_nonneg {A} (l : list A) : 0 <= zlen l.
Proof. unfold zlen. lia. Qed.
Lemma zlen_to_nat {A} (l : list A) : Z.to_nat (zlen l) = length l.
Proof. apply Nat2Z.id. Qed.
Lemma zlen_cons {A} (x : A) l : zlen (x :: l) = 1 + zlen l.
Proof. unfold zlen. simpl. lia. Qed.
Lemma zlen_nil {A} : zlen (@nil A) = 0.
Proof. done. Qed.
Lemma zlen_replicate {A} n (x : A) : zlen (replicate n x) = Z.of_nat n.
Proof. unfold zlen. by rewrite length_replicate. Qed.

(** Overwriting and reading bytes at an offset. *)
Definition poke (c : list Z) (off : Z) (bs : list Z) : res (list Z) :=
  if (off + zlen bs <=? zlen c) then Ok (take (Z.to_nat off) c ++ bs ++ drop (Z.to_nat off + length bs) c) else Err OutOfBounds.
(** [n] bytes at [off]. *)
Definition slice (b : list Z) (off n : Z) : list Z := take (Z.to_nat n) (drop (Z.to_nat off) b).
Definition load (b : list Z) (off n : Z) : res (list Z) :=
  if (0 <=? off) && (off + n <=? zlen b) then Ok (slice b off n) else Err OutOfBounds.
Definition poked (l : list Z) (p : Z) (d : list Z) : list Z := take (Z.to_nat p) l ++ d ++ drop (Z.to_nat p + length d) l.

Lemma poke_poked l p d : 0 <= p -> p + zlen d <= zlen l -> poke l p d = Ok (poked l p d).
Proof. intros Hp Hd. unfold poke. by rewrite (proj2 (Z.leb_le _ _)) by lia. Qed.
Lemma zlen_poked l p d : 0 <= p -> p + zlen d <= zlen l -> zlen (poked l p d) = zlen l.
Proof. intros Hp Hd. unfold poked. rewrite !zlen_app. unfold zlen in *. rewrite length_take, length_drop. lia. Qed.

Lemma zlen_slice l off n : 0 <= off -> 0 <= n -> off + n <= zlen l -> zlen (slice l off n) = n.
Proof. intros. unfold slice, zlen in *. rewrite length_take, length_drop. lia. Qed.
Lemma slice_0 l off : slice l off 0 = [].
Proof. done. Qed.
Lemma slice_split l off n m : 0 <= off -> 0 <= n -> 0 <= m -> slice l off (n + m) = slice l off n ++ slice l (off + n) m.
Proof.
  intros. unfold slice. rewrite !Z2Nat.inj_add by lia. rewrite <- drop_drop.
  rewrite <- (take_drop (Z.to_nat n) (take (Z.to_nat n + Z.to_nat m) _)). f_equal.
  - by rewrite take_take, Nat.min_l by lia.
  - by rewrite <- take_drop_commute.
Qed.
Lemma slice_poked_before l p d off n : 0 <= off -> 0 <= n -> off + n <= p -> p <= zlen l -> slice (poked l p d) off n = slice l off n.
Proof.
  intros. unfold slice, poked, zlen in *. rewrite drop_app_le, take_app_le by (rewrite ?length_drop, ?length_take; lia).
  rewrite <- (take_drop (Z.to_nat p) l) at 2. by rewrite drop_app_le, take_app_le by (rewrite ?length_drop, ?length_take; lia).
Qed.
Lemma slice_poked_at l p d : 0 <= p <= zlen l -> slice (poked l p d) p (zlen d) = d.
Proof.
  intros. unfold slice, poked, zlen in *. rewrite drop_app_length' by (rewrite length_take; lia). rewrite take_app_length'; [done | lia].
Qed.
Lemma load_slice l off n : 0 <= off -> off + n <= zlen l -> load l off n = Ok (slice l off n).
Proof. intros. unfold load. by rewrite (proj2 (Z.leb_le 0 _)), (proj2 (Z.leb_le _ _)) by lia. Qed.
Lemma slice_slice l off n a m : 0 <= off -> 0 <= a -> 0 <= m -> a + m <= n -> slice (slice l off n) a m = slice l (off + a) m.
Proof.
  intros. unfold slice. rewrite skipn_firstn_comm, take_take, drop_drop, Z2Nat.inj_add by lia. by rewrite Nat.min_l by lia.
Qed.
Lemma lookup_slice l a m k : 0 <= a -> slice l a m !! k = if decide (Z.of_nat k < m) then l !! (Z.to_nat a + k)%nat else None.
Proof.
  intros Ha. unfold slice. case_decide.
  - by rewrite lookup_take_lt, lookup_drop by lia.
  - by rewrite lookup_take_ge by lia.
Qed.
Lemma lookup_poked l p d k : 0 <= p -> p + zlen d <= zlen l ->
  poked l p d !! k = if decide (p <= Z.of_nat k < p + zlen d) then d !! Z.to_nat (Z.of_nat k - p) else l !! k.
Proof.
  intros Hp Hd. unfold poked, zlen in *. case_decide.
  - rewrite lookup_app_r, lookup_app_l by (rewrite ?length_take; lia). f_equal. rewrite length_take. lia.
  - destruct (decide (Z.of_nat k < p)).
    + rewrite lookup_app_l, lookup_take_lt by (rewrite ?length_take; lia). done.
    + rewrite lookup_app_r, lookup_app_r by (rewrite ?length_take; lia). rewrite lookup_drop. f_equal. rewrite length_take. lia.
Qed.
(** A slice that is bytes of [l]. *)
Lemma slice_lookup_eq l l' a n : 0 <= a -> 0 <= n -> a + n <= zlen l -> a + n <= zlen l' ->
  slice l a n = slice l' a n <-> forall i, a <= Z.of_nat i < a + n -> l !! i = l' !! i.
Proof.
  intros Ha Hn H1 H2. split.
  - intros E i Hi. assert (forall x, slice x a n !! (i - Z.to_nat a)%nat = x !! i) as H.
    { intros x. rewrite lookup_slice, decide_True by lia. f_equal. lia. }
    by rewrite <- (H l), <- (H l'), E.
  - intros H. apply list_eq. intros k. rewrite !lookup_slice by done. case_decide; [| done]. apply H. lia.
Qed.

(** * Filters *)

Lemma filter_all_true {A} (P : A -> Prop) `{forall x, Decision (P x)} (l : list A) : (forall x, x ∈ l -> P x) -> filter P l = l.
Proof.
  induction l as [| x l IH]; intros Hl; [done |]. rewrite filter_cons_True by (apply Hl, list_elem_of_here).
  f_equal. apply IH. intros y Hy. apply Hl. by apply list_elem_of_further.
Qed.
Lemma filter_all_false {A} (P : A -> Prop) `{forall x, Decision (P x)} (l : list A) : (forall x, x ∈ l -> ~ P x) -> filter P l = [].
Proof.
  induction l as [| x l IH]; intros Hl; [done |]. rewrite filter_cons_False by (apply Hl, list_elem_of_here).
  apply IH. intros y Hy. apply Hl. by apply list_elem_of_further.
Qed.

(** Case split on the boolean tests a C++ condition is made of. *)
Ltac case_tests :=
  repeat match goal with
  | |- context [bool_decide ?P] => case_bool_decide
  | |- context [if decide ?P then _ else _] => case_decide
  | H : context [bool_decide ?P] |- _ => case_bool_decide
  end.
