(* ===== verification/Allocator.v ===== *)
(** Hierarchical bitmap allocator of data blocks (src/src/util/allocator.cpp,
    class [allocator_t]).  The mask array holds a 64-ary tree: level 0 is one
    word, level k has 64^k words, the last level has one bit per block; an
    upper bit is set when the word below it is full.  The theorems refine the
    three operations to a finite set of used block numbers. *)

From S2P Require Import Prelude.

(** * The class and its operations *)

Record allocator_t := mk_allocator {
  a_total : Z;
  a_size : Z;
  a_free : Z;
  a_last_one_mask : Z;
  a_mask : list Z }.

(** [while (p2 * 64 < blocks) { offset += p2; p2 = p2 * 64; }], shared by the
    constructor, [get] and [set]. *)
Fixpoint levels (fuel : nat) (blocks p2 offset : Z) : res (Z * Z) :=
  match fuel with
  | O => Err OutOfFuel
  | S fuel =>
    if bool_decide (u64 (p2 * 64) < blocks)
    then levels fuel blocks (u64 (p2 * 64)) (u64 (offset + p2))
    else Ok (p2, offset)
  end.

(** Loop bound of every loop over tree levels: sizes are below [2^31], so there
    are at most 6 levels ([levels_ok], [set_ok] and [find_free_ok] below show
    that it is enough). *)
Definition level_fuel : nat := 8.

Definition allocator_new (blocks : Z) : res allocator_t :=
  if bool_decide (blocks >= 0x80000000) || bool_decide (blocks <= 1) then Err Thrown
  else
    let* (_, total) := levels level_fuel blocks 1 0 in
    let total := u64 (total + u64 (blocks + 63) / 64) in
    Ok {| a_total := total;
          a_size := blocks;
          a_free := blocks;
          a_last_one_mask :=
            if bool_decide (blocks mod 64 = 0) then UINT64_MAX
            else u64 (u64 (Z.shiftl 1 (blocks mod 64)) - 1);
          a_mask := replicate (Z.to_nat total) 0 |}.

Definition get (a : allocator_t) (addr : Z) : res bool :=
  if bool_decide (addr >= a_size a) then Ok false
  else
    let* (_, offset) := levels level_fuel (a_size a) 1 0 in
    let* m := aget (a_mask a) (u64 (offset + addr / 64)) in
    Ok (bool_decide (Z.land (Z.shiftr m (addr mod 64)) 1 <> 0)).

Fixpoint set_loop (fuel : nat) (a : allocator_t) (value : bool)
    (p2 offset cur_addr : Z) (is_last : bool) : res allocator_t :=
  match fuel with
  | O => Err OutOfFuel
  | S fuel =>
    let value64 := if value then 1 else 0 in
    let last := u64 (offset + cur_addr / 64) in
    let bit := cur_addr mod 64 in
    let* m := aget (a_mask a) last in
    if bool_decide (Z.land (Z.shiftr m bit) 1 <> value64) then
      let free := if is_last then u64 (a_free a + (if value then -1 else 1)) else a_free a in
      let up mask :=
        let a := mk_allocator (a_total a) (a_size a) free (a_last_one_mask a) mask in
        if bool_decide (p2 > 1)
        then set_loop fuel a value (p2 / 64) (u64 (offset - p2 / 64)) (cur_addr / 64) false
        else Ok a in
      if value then
        let m := Z.lor m (u64 (Z.shiftl 1 bit)) in
        let* mask := aset (a_mask a) last m in
        if bool_decide (m <> if negb is_last || bool_decide (cur_addr / 64 < a_size a / 64)
                             then UINT64_MAX else a_last_one_mask a)
        then Ok (mk_allocator (a_total a) (a_size a) free (a_last_one_mask a) mask)
        else up mask
      else
        let m := Z.land m (u64 (Z.lnot (u64 (Z.shiftl 1 bit)))) in
        let* mask := aset (a_mask a) last m in
        up mask
    else Ok a
  end.

Definition set (a : allocator_t) (addr : Z) (value : bool) : res allocator_t :=
  if bool_decide (addr >= a_size a) then Ok a
  else
    let* (p2, offset) := levels level_fuel (a_size a) 1 0 in
    set_loop level_fuel a value p2 offset addr true.

(** [for (i = 0, f = 1; i < 64; i++, f <<= 1) if (!(m & f)) break;] *)
Fixpoint first_zero (n : nat) (m i f : Z) : Z :=
  match n with
  | O => i
  | S n => if bool_decide (Z.land m f = 0) then i
           else first_zero n m (i + 1) (u64 (Z.shiftl f 1))
  end.

Fixpoint find_loop (fuel : nat) (a : allocator_t) (p2 offset addr : Z) : res Z :=
  match fuel with
  | O => Err OutOfFuel
  | S fuel =>
    if bool_decide (p2 < a_size a) then
      if bool_decide (u64 (offset + addr) >= a_total a) then Ok UINT64_MAX
      else
        let* m := aget (a_mask a) (u64 (offset + addr)) in
        let i := first_zero 64 m 0 1 in
        if bool_decide (i = 64) then Ok UINT64_MAX
        else find_loop fuel a (u64 (p2 * 64)) (u64 (offset + p2)) (Z.lor (u64 (addr * 64)) i)
    else Ok addr
  end.

Definition find_free (a : allocator_t) : res Z := find_loop level_fuel a 1 0 0.

Definition get_free_count (a : allocator_t) : Z := a_free a.

(** * The tree behind the array *)

(** Number of words of level [k] when it is not the last one, and the offset of
    its first word. *)
Definition pw (k : nat) : Z := 64 ^ Z.of_nat k.
Fixpoint off (k : nat) : Z :=
  match k with O => 0 | S k => off k + pw k end.

Lemma pw_0 : pw 0 = 1.
Proof. done. Qed.
Lemma pw_S k : pw (S k) = 64 * pw k.
Proof. unfold pw. rewrite Nat2Z.inj_succ, Z.pow_succ_r; lia. Qed.
Lemma pw_pos k : 0 < pw k.
Proof. unfold pw. apply Z.pow_pos_nonneg; lia. Qed.
Lemma pw_mono k l : (k <= l)%nat -> pw k <= pw l.
Proof. intros. unfold pw. apply Z.pow_le_mono_r; lia. Qed.
Lemma off_nonneg k : 0 <= off k.
Proof. induction k; simpl; [lia |]. pose proof (pw_pos k). lia. Qed.
Lemma off_closed k : 63 * off k = pw k - 1.
Proof. induction k; simpl off; [done |]. rewrite pw_S. lia. Qed.
Lemma off_mono k l : (k <= l)%nat -> off k <= off l.
Proof. intros. pose proof (off_closed k). pose proof (off_closed l). pose proof (pw_mono k l). lia. Qed.

(** [n] is the index of the last level for [sz] blocks. *)
Definition depth (sz : Z) (n : nat) : Prop :=
  sz <= pw (S n) /\ (n = 0%nat \/ pw n < sz).

Lemma depth_exists sz : 2 <= sz < 2 ^ 31 -> exists n, depth sz n.
Proof.
  intros Hsz.
  assert (forall n : nat, sz <= pw (S n) -> exists m, depth sz m) as H.
  { induction n as [| n IH]; intros Hn.
    - exists 0%nat. split; [done | by left].
    - destruct (decide (sz <= pw (S n))) as [| Hgt]; [by apply IH |].
      exists (S n). split; [done | right; lia]. }
  apply (H 5%nat). change (pw 6) with 68719476736. lia.
Qed.

Lemma depth_le_5 sz n : sz < 2 ^ 31 -> depth sz n -> (n <= 5)%nat.
Proof.
  intros Hsz [_ [-> | Hn]]; [lia |].
  destruct (decide (n <= 5)%nat) as [| Hgt]; [done |]. exfalso.
  pose proof (pw_mono 6 n ltac:(lia)) as Hm. change (pw 6) with 68719476736 in Hm. lia.
Qed.

Lemma depth_pw sz n : sz < 2 ^ 31 -> depth sz n -> pw n <= 2 ^ 30.
Proof.
  intros Hsz Hd. pose proof (pw_mono n 5 (depth_le_5 _ _ Hsz Hd)) as H.
  change (pw 5) with 1073741824 in H. lia.
Qed.

Lemma levels_from sz n k fuel :
  sz < 2 ^ 31 -> depth sz n -> (k <= n)%nat -> (n - k < fuel)%nat ->
  levels fuel sz (pw k) (off k) = Ok (pw n, off n).
Proof.
  intros Hsz Hd. pose proof (depth_pw _ _ Hsz Hd) as Hp.
  revert k. induction fuel as [| fuel IH]; intros k Hk Hf; [lia |].
  pose proof (pw_mono k n Hk). pose proof (pw_pos k). pose proof (off_closed k).
  pose proof (off_nonneg k). simpl. nowrap.
  replace (pw k * 64) with (pw (S k)) by (rewrite pw_S; lia).
  destruct Hd as [Hd1 Hd2].
  case_bool_decide as Hlt.
  - destruct (decide (k = n)) as [-> | Hne]; [lia |].
    change (off k + pw k) with (off (S k)). apply IH; lia.
  - destruct (decide (k = n)) as [-> | Hne]; [done |].
    pose proof (pw_mono (S k) n ltac:(lia)). destruct Hd2; lia.
Qed.

Lemma levels_ok sz n :
  sz < 2 ^ 31 -> depth sz n -> levels level_fuel sz 1 0 = Ok (pw n, off n).
Proof.
  intros Hsz Hd. pose proof (depth_le_5 _ _ Hsz Hd).
  apply (levels_from sz n 0); unfold level_fuel; auto with lia.
Qed.

(** Word [w] of level [k], and bit [i] of level [k] (bit [i mod 64] of word
    [i / 64]). *)
Definition wd (M : list Z) (k : nat) (w : Z) : Z := default 0 (M !! Z.to_nat (off k + w)).
Definition bt (M : list Z) (k : nat) (i : Z) : bool := Z.testbit (wd M k (i / 64)) (i mod 64).

(** Bit tests as the code writes them. *)
Lemma land_shiftr_1 m b : 0 <= b -> Z.land (Z.shiftr m b) 1 = if Z.testbit m b then 1 else 0.
Proof.
  intros Hb. rewrite (Z.land_ones _ 1) by lia. change (2 ^ 1) with 2.
  rewrite <- Z.bit0_mod, Z.shiftr_spec by lia. done.
Qed.

Lemma u64_shiftl_1 b : 0 <= b < 64 -> u64 (Z.shiftl 1 b) = Z.shiftl 1 b.
Proof.
  intros. apply u64_small. rewrite Z.shiftl_1_l.
  pose proof (Z.pow_pos_nonneg 2 b). pose proof (Z.pow_lt_mono_r 2 b 64). lia.
Qed.

Lemma set_bit_spec m b i :
  0 <= b < 64 -> 0 <= i ->
  Z.testbit (Z.lor m (u64 (Z.shiftl 1 b))) i = bool_decide (i = b) || Z.testbit m i.
Proof.
  intros. rewrite u64_shiftl_1, Z.lor_spec, shiftl1_testbit by lia. apply orb_comm.
Qed.

Lemma clear_bit_spec m b i :
  0 <= b < 64 -> 0 <= i < 64 ->
  Z.testbit (Z.land m (u64 (Z.lnot (u64 (Z.shiftl 1 b))))) i
  = negb (bool_decide (i = b)) && Z.testbit m i.
Proof.
  intros. unfold u64 at 1. rewrite Z.land_spec, Z.mod_pow2_bits_low by lia.
  rewrite Z.lnot_spec, u64_shiftl_1, shiftl1_testbit by lia. apply andb_comm.
Qed.

Lemma set_bit_range m b :
  0 <= m < 2 ^ 64 -> 0 <= b < 64 -> 0 <= Z.lor m (u64 (Z.shiftl 1 b)) < 2 ^ 64.
Proof.
  intros Hm Hb. pose proof (u64_range (Z.shiftl 1 b)).
  assert (0 <= Z.lor m (u64 (Z.shiftl 1 b))) by (apply Z.lor_nonneg; lia).
  split; [done |]. apply lt_pow2_of_bits; [lia | done |]. intros i Hi.
  rewrite set_bit_spec, (testbit_ge 64 m) by lia. rewrite bool_decide_eq_false_2 by lia. done.
Qed.

Lemma clear_bit_range m x : 0 <= m < 2 ^ 64 -> 0 <= Z.land m (u64 x) < 2 ^ 64.
Proof.
  intros Hm. pose proof (u64_range x).
  assert (0 <= Z.land m (u64 x)) by (apply Z.land_nonneg; lia).
  split; [done |]. apply lt_pow2_of_bits; [lia | done |]. intros i Hi.
  by rewrite Z.land_spec, (testbit_ge 64 m) by lia.
Qed.

Lemma lor_low w i : 0 <= w -> 0 <= i < 64 -> Z.lor (w * 64) i = 64 * w + i.
Proof.
  intros. pose proof (Z.add_lor_land (w * 64) i).
  assert (Z.land (w * 64) i = 0); [| lia].
  apply Z.bits_inj'. intros l Hl. rewrite Z.land_spec, Z.testbit_0_l.
  destruct (decide (l < 6)).
  - replace (w * 64) with (Z.shiftl w 6) by (rewrite Z.shiftl_mul_pow2; lia).
    by rewrite Z.shiftl_spec_low by lia.
  - rewrite (testbit_ge 6 i) by lia. apply andb_false_r.
Qed.

Section Tree.
Context (sz : Z) (n : nat).
Hypothesis Hsz : 2 <= sz < 2 ^ 31.
Hypothesis Hdepth : depth sz n.

Definition leaf_words : Z := (sz + 63) / 64.
Definition nwords (k : nat) : Z := if decide (k < n)%nat then pw k else leaf_words.
Definition last_mask : Z := if decide (sz mod 64 = 0) then UINT64_MAX else 2 ^ (sz mod 64) - 1.

(** The value of a full word. *)
Definition full_word (k : nat) (w : Z) : Z :=
  if decide (k < n)%nat then UINT64_MAX
  else if decide (w < sz / 64) then UINT64_MAX else last_mask.
Definition is_full (M : list Z) (k : nat) (w : Z) : Prop :=
  w < nwords k /\ wd M k w = full_word k w.

(** Upper bit [(k, i)] says whether word [i] below it is full. *)
Definition link (M : list Z) (k : nat) (i : Z) : Prop :=
  bt M k i = true <-> is_full M (S k) i.

Record shape (M : list Z) : Prop := {
  sh_len : Z.of_nat (length M) = off n + leaf_words;
  sh_word : forall j x, M !! j = Some x -> 0 <= x < 2 ^ 64;
  sh_tail : forall i, sz <= i < 64 * leaf_words -> bt M n i = false }.

(** All links but possibly the one of bit [(k0, i0)] hold. *)
Definition links_but (M : list Z) (k0 : nat) (i0 : Z) : Prop :=
  forall k i, (k < n)%nat -> 0 <= i < pw (S k) -> ~ (k = k0 /\ i = i0) -> link M k i.
Definition links (M : list Z) : Prop :=
  forall k i, (k < n)%nat -> 0 <= i < pw (S k) -> link M k i.

Lemma leaf_words_bounds : 64 * leaf_words - 64 < sz <= 64 * leaf_words.
Proof. unfold leaf_words. Z.div_mod_to_equations. lia. Qed.

Lemma leaf_words_le : leaf_words <= pw n.
Proof. pose proof leaf_words_bounds. destruct Hdepth as [Hd _]. rewrite pw_S in Hd. lia. Qed.

Lemma nwords_le k : (k <= n)%nat -> 0 < nwords k <= pw k.
Proof.
  intros. unfold nwords. pose proof leaf_words_le. pose proof leaf_words_bounds. pose proof (pw_pos k).
  destruct (decide (k < n)%nat); [lia |]. replace k with n by lia. lia.
Qed.

Lemma word_index k w :
  (k <= n)%nat -> 0 <= w < nwords k -> 0 <= off k + w < off n + leaf_words.
Proof.
  intros Hk Hw. pose proof (off_nonneg k). pose proof leaf_words_bounds.
  unfold nwords in Hw. destruct (decide (k < n)%nat).
  - pose proof (off_mono (S k) n ltac:(lia)) as Ho. simpl in Ho. lia.
  - replace k with n in * by lia. lia.
Qed.

Lemma word_index_inj k k' w w' :
  (k <= n)%nat -> (k' <= n)%nat -> 0 <= w < nwords k -> 0 <= w' < nwords k' ->
  off k + w = off k' + w' -> k = k' /\ w = w'.
Proof.
  intros Hk Hk' Hw Hw' E.
  pose proof (nwords_le k Hk). pose proof (nwords_le k' Hk').
  destruct (lt_eq_lt_dec k k') as [[Hlt | ->] | Hlt].
  - pose proof (off_mono (S k) k' Hlt) as Ho. simpl in Ho. lia.
  - split; [done | lia].
  - pose proof (off_mono (S k') k Hlt) as Ho. simpl in Ho. lia.
Qed.

Lemma aget_wd M k w :
  shape M -> (k <= n)%nat -> 0 <= w < nwords k ->
  aget M (u64 (off k + w)) = Ok (wd M k w) /\ 0 <= wd M k w < 2 ^ 64.
Proof.
  intros HM Hk Hw. pose proof (word_index k w Hk Hw).
  pose proof leaf_words_le. pose proof (depth_pw sz n (proj2 Hsz) Hdepth). pose proof (off_closed n).
  nowrap. destruct (aget_in_range M (off k + w)) as [x Hx]; [rewrite (sh_len _ HM); lia |].
  rewrite Hx. apply aget_ok in Hx as [_ Hx]. unfold wd. rewrite Hx. simpl.
  split; [done |]. by eapply sh_word.
Qed.

(** Writing word [(k, w)] changes that word only. *)
Lemma wd_insert M k w x k' w' :
  shape M -> (k <= n)%nat -> (k' <= n)%nat -> 0 <= w < nwords k -> 0 <= w' < nwords k' ->
  wd (<[Z.to_nat (off k + w) := x]> M) k' w'
  = if decide (k = k' /\ w = w') then x else wd M k' w'.
Proof.
  intros HM Hk Hk' Hw Hw'. unfold wd.
  pose proof (word_index k w Hk Hw). pose proof (word_index k' w' Hk' Hw').
  pose proof (sh_len _ HM).
  case_decide as D.
  - destruct D as [-> ->]. by rewrite list_lookup_insert_eq by lia.
  - rewrite list_lookup_insert_ne; [done |]. intros E. apply D.
    apply word_index_inj; auto; lia.
Qed.

Lemma full_word_bit k w b :
  (k <= n)%nat -> 0 <= w -> 0 <= b < 64 -> (k = n -> 64 * w + b < sz) ->
  Z.testbit (full_word k w) b = true.
Proof.
  intros Hk Hw Hb Hleaf. unfold full_word.
  case_decide; [by apply testbit_ones_64 |].
  case_decide as Hw2; [by apply testbit_ones_64 |].
  unfold last_mask. case_decide; [by apply testbit_ones_64 |].
  replace (2 ^ (sz mod 64) - 1) with (Z.ones (sz mod 64)) by (rewrite Z.ones_equiv; lia).
  apply Z.ones_spec_low. specialize (Hleaf ltac:(lia)). Z.div_mod_to_equations. lia.
Qed.

(** Not full as soon as a bit of the word that a full word has is clear. *)
Lemma not_full M k w b :
  (k <= n)%nat -> 0 <= w -> 0 <= b < 64 -> (k = n -> 64 * w + b < sz) ->
  Z.testbit (wd M k w) b = false -> ~ is_full M k w.
Proof. intros Hk Hw Hb Hl Hf [_ E]. rewrite E, full_word_bit in Hf by auto. done. Qed.

(** Bit [i] of level [k] is stored in an existing word. *)
Lemma bit_word k i :
  (k < n)%nat -> 0 <= i < pw (S k) -> 0 <= i / 64 < nwords k.
Proof.
  intros Hk Hi. rewrite pw_S in Hi. unfold nwords. destruct (decide (k < n)%nat); [| lia].
  Z.div_mod_to_equations. lia.
Qed.

Lemma bt_insert M k w x k' i :
  shape M -> (k <= n)%nat -> (k' <= n)%nat -> 0 <= w < nwords k -> 0 <= i / 64 < nwords k' ->
  bt (<[Z.to_nat (off k + w) := x]> M) k' i
  = if decide (k = k' /\ w = i / 64) then Z.testbit x (i mod 64) else bt M k' i.
Proof. intros. unfold bt. rewrite wd_insert by auto. by case_decide. Qed.

(** ** One bit update *)

Section Update.
Context (M : list Z) (k : nat) (cur x : Z) (value : bool).
Hypothesis HM : shape M.
Hypothesis Hk : (k <= n)%nat.
Hypothesis Hcur : 0 <= cur.
Hypothesis Hword : cur / 64 < nwords k.
Hypothesis Hleaf : k = n -> cur < sz.
Hypothesis Hx : 0 <= x < 2 ^ 64.
Hypothesis Hbits : forall i, 0 <= i < 64 ->
  Z.testbit x i = if decide (i = cur mod 64) then value else Z.testbit (wd M k (cur / 64)) i.

Let M' := <[Z.to_nat (off k + cur / 64) := x]> M.

Lemma upd_word_ok : 0 <= cur / 64 < nwords k.
Proof. split; [apply Z.div_pos; lia | done]. Qed.

Lemma upd_bt k' i :
  (k' <= n)%nat -> 0 <= i / 64 < nwords k' ->
  bt M' k' i = if decide (k' = k /\ i = cur) then value else bt M k' i.
Proof.
  intros Hk' Hi. unfold M'. pose proof upd_word_ok. rewrite bt_insert by auto.
  pose proof (Z.mod_pos_bound i 64). pose proof (Z.div_mod i 64). pose proof (Z.div_mod cur 64).
  destruct (decide (k = k' /\ cur / 64 = i / 64)) as [[-> E] | D].
  - rewrite Hbits by lia. destruct (decide (i mod 64 = cur mod 64)) as [E2 | N2].
    + rewrite decide_True; [done | split; [done | lia]].
    + rewrite decide_False by (intros [_ ->]; lia). unfold bt. by rewrite E.
  - rewrite decide_False; [done |]. intros [-> ->]. by apply D.
Qed.

Lemma upd_full k' w :
  (k' <= n)%nat -> 0 <= w -> ~ (k' = k /\ w = cur / 64) -> is_full M' k' w <-> is_full M k' w.
Proof.
  intros Hk' Hw D. unfold is_full, M'. pose proof upd_word_ok.
  split; intros [Hn E]; (split; [done |]); rewrite wd_insert in *; auto.
  - rewrite decide_False in E; [done | naive_solver].
  - rewrite decide_False; [done | naive_solver].
Qed.

Lemma upd_shape : shape M'.
Proof.
  pose proof upd_word_ok as Hw. pose proof leaf_words_bounds. constructor.
  - unfold M'. rewrite length_insert. by apply sh_len.
  - unfold M'. intros j y Hj. apply list_lookup_insert_Some in Hj as [(_ & <- & _) | [_ Hj]]; [done |].
    by eapply sh_word.
  - intros i Hi. rewrite upd_bt; [| lia |].
    + rewrite decide_False by (intros [-> ->]; specialize (Hleaf eq_refl); lia). by apply sh_tail.
    + unfold nwords. rewrite decide_False by lia. Z.div_mod_to_equations. lia.
Qed.

(** The only link an update can break is the one of its own word's parent. *)
Lemma upd_links :
  links_but M k cur -> ((k < n)%nat -> cur < pw (S k)) ->
  ((k < n)%nat -> (value = true <-> is_full M (S k) cur)) ->
  forall k' i, (k' < n)%nat -> 0 <= i < pw (S k') -> ~ (S k' = k /\ i = cur / 64) -> link M' k' i.
Proof.
  intros HL Hc Hv k' i Hk' Hi D. unfold link.
  rewrite upd_bt by (lia || by apply bit_word). rewrite upd_full by (lia || naive_solver).
  case_decide as E.
  - destruct E as [-> ->]. by apply Hv.
  - apply HL; [done | done | naive_solver].
Qed.

Lemma upd_parent_word : wd M' k (cur / 64) = x.
Proof.
  unfold M'. pose proof upd_word_ok. rewrite wd_insert by auto. by rewrite decide_True by done.
Qed.
End Update.

(** ** The loop of [set] *)

Record good (a : allocator_t) : Prop := {
  g_size : a_size a = sz;
  g_total : a_total a = off n + leaf_words;
  g_lom : a_last_one_mask a = last_mask;
  g_shape : shape (a_mask a) }.

(** What an iteration of [set] started at level [k] leaves behind. *)
Definition set_post (k : nat) (cur : Z) (value : bool) (a a' : allocator_t) : Prop :=
  good a' /\ links (a_mask a') /\
  (forall i, 0 <= i < 64 * leaf_words ->
     bt (a_mask a') n i = if decide (k = n /\ i = cur) then value else bt (a_mask a) n i) /\
  a_free a' = if decide (k = n /\ bt (a_mask a) n cur <> value)
              then u64 (a_free a + (if value then -1 else 1)) else a_free a.

Lemma full_word_code k cur :
  (k <= n)%nat ->
  (if negb (bool_decide (k = n)) || bool_decide (cur / 64 < sz / 64) then UINT64_MAX else last_mask)
  = full_word k (cur / 64).
Proof.
  intros Hk. unfold full_word.
  destruct (decide (k < n)%nat); [by rewrite bool_decide_eq_false_2 by lia |].
  rewrite bool_decide_eq_true_2 by lia. simpl. by case_bool_decide; case_decide.
Qed.

(** The updated word of either branch. *)
Definition new_word (m bit : Z) (value : bool) : Z :=
  if value then Z.lor m (u64 (Z.shiftl 1 bit))
  else Z.land m (u64 (Z.lnot (u64 (Z.shiftl 1 bit)))).

Lemma new_word_range m b value :
  0 <= m < 2 ^ 64 -> 0 <= b < 64 -> 0 <= new_word m b value < 2 ^ 64.
Proof.
  intros. destruct value; [by apply set_bit_range | by apply clear_bit_range].
Qed.

Lemma new_word_spec m b value i :
  0 <= b < 64 -> 0 <= i < 64 ->
  Z.testbit (new_word m b value) i = if decide (i = b) then value else Z.testbit m i.
Proof.
  intros. destruct value; simpl; [rewrite set_bit_spec by lia | rewrite clear_bit_spec by lia];
    case_bool_decide; case_decide; simpl; congruence || done.
Qed.

(** One iteration: the word is rewritten and the walk goes up, or stops with
    every link in place. *)
Lemma set_loop_step fuel a k cur value :
  good a -> (k <= n)%nat -> 0 <= cur -> cur / 64 < nwords k ->
  bt (a_mask a) k cur <> value ->
  let x := new_word (wd (a_mask a) k (cur / 64)) (cur mod 64) value in
  let a' := mk_allocator (a_total a) (a_size a)
    (if bool_decide (k = n) then u64 (a_free a + (if value then -1 else 1)) else a_free a)
    (a_last_one_mask a) (<[Z.to_nat (off k + cur / 64) := x]> (a_mask a)) in
  set_loop (S fuel) a value (pw k) (off k) cur (bool_decide (k = n))
  = if value && bool_decide (x <> full_word k (cur / 64)) then Ok a'
    else match k with
         | O => Ok a'
         | S j => set_loop fuel a' value (pw j) (off j) (cur / 64) false
         end.
Proof.
  intros Hg Hk Hc Hw Hbt x a'. pose proof (g_shape _ Hg) as HM.
  assert (0 <= cur / 64 < nwords k) as Hw' by (split; [apply Z.div_pos; lia | done]).
  destruct (aget_wd _ k (cur / 64) HM Hk Hw') as [Hget Hr].
  pose proof (word_index k (cur / 64) Hk Hw'). pose proof (sh_len _ HM).
  pose proof leaf_words_le. pose proof (depth_pw sz n (proj2 Hsz) Hdepth). pose proof (off_closed n).
  pose proof (off_nonneg k). pose proof (pw_mono k n Hk). pose proof (pw_pos k).
  cbn [set_loop]. rewrite Hget. cbn [rbind]. rewrite land_shiftr_1 by (apply Z.mod_pos_bound; lia).
  fold (bt (a_mask a) k cur).
  rewrite bool_decide_eq_true_2 by (destruct (bt (a_mask a) k cur), value; done).
  rewrite (g_size _ Hg), (g_lom _ Hg), full_word_code by done. nowrap.
  rewrite aset_in_range by lia.
  assert (forall f : allocator_t -> Z -> Z -> res allocator_t,
    (if bool_decide (pw k > 1) then f a' (pw k / 64) (u64 (off k - pw k / 64)) else Ok a')
    = match k with O => Ok a' | S j => f a' (pw j) (off j) end) as Hup.
  { intros f. destruct k as [| j]; [done |]. pose proof (pw_pos j). pose proof (off_nonneg j).
    simpl off in *. rewrite pw_S in *. rewrite bool_decide_eq_true_2 by lia.
    replace (64 * pw j / 64) with (pw j) by (Z.div_mod_to_equations; lia).
    nowrap. do 2 f_equal. lia. }
  unfold a', x, new_word in *. rewrite (g_size _ Hg), (g_lom _ Hg) in *.
  destruct value; cbn [rbind andb].
  - match goal with |- context [bool_decide (?m <> full_word ?i ?w)] =>
      destruct (bool_decide (m <> full_word i w)) end; [done |].
    apply (Hup (fun a p o => set_loop fuel a true p o (cur / 64) false)).
  - rewrite aset_in_range by lia.
    apply (Hup (fun a p o => set_loop fuel a false p o (cur / 64) false)).
Qed.

Lemma set_loop_break fuel a k cur value :
  good a -> (k <= n)%nat -> 0 <= cur -> cur / 64 < nwords k ->
  bt (a_mask a) k cur = value ->
  set_loop (S fuel) a value (pw k) (off k) cur (bool_decide (k = n)) = Ok a.
Proof.
  intros Hg Hk Hc Hw Hbt.
  assert (0 <= cur / 64 < nwords k) as Hw' by (split; [apply Z.div_pos; lia | done]).
  destruct (aget_wd _ k (cur / 64) (g_shape _ Hg) Hk Hw') as [Hget Hr].
  cbn [set_loop]. rewrite Hget. cbn [rbind]. rewrite land_shiftr_1 by (apply Z.mod_pos_bound; lia).
  fold (bt (a_mask a) k cur).
  by rewrite bool_decide_eq_false_2 by (rewrite Hbt; destruct value; lia).
Qed.

(** Precondition of an iteration at bit [(k, cur)]: all other links hold and,
    above the leaves, [value] is what the word below asks for. *)
Definition set_pre (k : nat) (cur : Z) (value : bool) (a : allocator_t) : Prop :=
  good a /\ links_but (a_mask a) k cur /\ 0 <= cur /\ cur / 64 < nwords k /\
  (k = n -> cur < sz) /\
  ((k < n)%nat -> cur < pw (S k) /\ (value = true <-> is_full (a_mask a) (S k) cur)).

Lemma set_post_break k cur value a :
  (k <= n)%nat -> set_pre k cur value a -> bt (a_mask a) k cur = value -> set_post k cur value a a.
Proof.
  intros Hk (Hg & HL & Hc & Hw & Hl & Hv) Hbt. split; [done |]. split; [| split].
  - intros k' i Hk' Hi. destruct (decide (k' = k /\ i = cur)) as [[-> ->] | D]; [| by apply HL].
    unfold link. rewrite Hbt. by apply Hv.
  - intros i Hi. case_decide as D; [| done]. by destruct D as [-> ->].
  - rewrite decide_False; [done |]. intros [-> D]. by apply D.
Qed.

Section Iteration.
Context (k : nat) (cur : Z) (value : bool) (a : allocator_t).
Hypothesis Hk : (k <= n)%nat.
Hypothesis Hpre : set_pre k cur value a.
Hypothesis Hflip : bt (a_mask a) k cur <> value.

Let x := new_word (wd (a_mask a) k (cur / 64)) (cur mod 64) value.
Let a' := mk_allocator (a_total a) (a_size a)
  (if bool_decide (k = n) then u64 (a_free a + (if value then -1 else 1)) else a_free a)
  (a_last_one_mask a) (<[Z.to_nat (off k + cur / 64) := x]> (a_mask a)).

Lemma iter_word : 0 <= cur / 64 < nwords k.
Proof. destruct Hpre as (_ & _ & Hc & Hw & _). split; [apply Z.div_pos; lia | done]. Qed.

Lemma iter_x_range : 0 <= x < 2 ^ 64.
Proof.
  apply new_word_range; [| apply Z.mod_pos_bound; lia].
  destruct Hpre as (Hg & _). by apply (aget_wd _ k (cur / 64) (g_shape _ Hg) Hk iter_word).
Qed.

Lemma iter_x_bits i : 0 <= i < 64 ->
  Z.testbit x i = if decide (i = cur mod 64) then value else Z.testbit (wd (a_mask a) k (cur / 64)) i.
Proof. intros. apply new_word_spec; [apply Z.mod_pos_bound; lia | done]. Qed.

Lemma iter_good : good a'.
Proof.
  destruct Hpre as (Hg & _ & Hc & Hw & Hl & _). destruct Hg. constructor; try done.
  apply (upd_shape _ _ _ _ value); auto using iter_x_range, iter_x_bits.
Qed.

Lemma iter_links k' i :
  (k' < n)%nat -> 0 <= i < pw (S k') -> ~ (S k' = k /\ i = cur / 64) -> link (a_mask a') k' i.
Proof.
  destruct Hpre as (Hg & HL & Hc & Hw & Hl & Hv). intros.
  apply (upd_links _ _ _ _ value); auto using iter_x_bits, iter_x_range, g_shape; intros; by apply Hv.
Qed.

Lemma iter_bt k' i :
  (k' <= n)%nat -> 0 <= i / 64 < nwords k' ->
  bt (a_mask a') k' i = if decide (k' = k /\ i = cur) then value else bt (a_mask a) k' i.
Proof.
  destruct Hpre as (Hg & HL & Hc & Hw & Hl & Hv). intros.
  apply upd_bt; auto using iter_x_bits, iter_x_range, g_shape.
Qed.

Lemma iter_leaf i :
  0 <= i < 64 * leaf_words ->
  bt (a_mask a') n i = if decide (k = n /\ i = cur) then value else bt (a_mask a) n i.
Proof.
  intros Hi. rewrite iter_bt; [| done |].
  - by rewrite (decide_ext (n = k /\ i = cur) (k = n /\ i = cur)) by intuition congruence.
  - unfold nwords. rewrite decide_False by lia. Z.div_mod_to_equations. lia.
Qed.

Lemma iter_free :
  a_free a' = if decide (k = n /\ bt (a_mask a) n cur <> value)
              then u64 (a_free a + (if value then -1 else 1)) else a_free a.
Proof. simpl. case_bool_decide; case_decide; naive_solver. Qed.

Lemma iter_parent_word : wd (a_mask a') k (cur / 64) = x.
Proof.
  destruct Hpre as (Hg & HL & Hc & Hw & Hl & Hv).
  apply upd_parent_word; auto using iter_x_bits, iter_x_range, g_shape.
Qed.

Lemma iter_clear_not_full : value = false -> ~ is_full (a_mask a') k (cur / 64).
Proof.
  destruct Hpre as (Hg & HL & Hc & Hw & Hl & Hv). intros Hf.
  pose proof iter_word. pose proof (Z.mod_pos_bound cur 64 ltac:(lia)).
  apply (not_full _ _ _ (cur mod 64)); auto; try lia.
  - intros ->. pose proof (Z.div_mod cur 64). lia.
  - rewrite iter_parent_word, iter_x_bits by done. by rewrite decide_True by done.
Qed.

Lemma iter_was_not_full : value = true -> ~ is_full (a_mask a) k (cur / 64).
Proof.
  destruct Hpre as (Hg & HL & Hc & Hw & Hl & Hv). intros Hf.
  pose proof iter_word. pose proof (Z.mod_pos_bound cur 64 ltac:(lia)).
  apply (not_full _ _ _ (cur mod 64)); auto; try lia.
  - intros ->. pose proof (Z.div_mod cur 64). lia.
  - fold (bt (a_mask a) k cur). by destruct (bt (a_mask a) k cur), value.
Qed.

(** Setting a bit that leaves its word not full ends the walk. *)
Lemma iter_stop : value = true -> x <> full_word k (cur / 64) -> set_post k cur value a a'.
Proof.
  intros Hv Hx. destruct Hpre as (Hg & HL & _). split; [apply iter_good |].
  split; [| split; [apply iter_leaf | apply iter_free]].
  intros k' i Hk' Hi. destruct (decide (S k' = k /\ i = cur / 64)) as [[Ek Ei] | D];
    [| by apply iter_links].
  unfold link. rewrite iter_bt by (lia || by apply bit_word).
  rewrite decide_False by lia. rewrite Ek, Ei. rewrite Ei in Hi. split.
  - intros Hb. exfalso. apply iter_was_not_full; [done |]. rewrite <- Ek.
    apply HL; [done | done | lia | done].
  - intros [_ E]. rewrite iter_parent_word in E. done.
Qed.

Lemma iter_root : k = 0%nat -> set_post k cur value a a'.
Proof.
  intros E. split; [apply iter_good |]. split; [| split; [apply iter_leaf | apply iter_free]].
  intros k' i Hk' Hi. apply iter_links; [done | done | lia].
Qed.

Lemma iter_up j :
  k = S j -> (value = true -> x = full_word k (cur / 64)) -> set_pre j (cur / 64) value a'.
Proof.
  intros E Hx. pose proof iter_word as Hw. pose proof (nwords_le k Hk).
  split; [apply iter_good |]. split.
  { intros k' i Hk' Hi D. apply iter_links; [done | done |]. intros [E' ->]. apply D. split; [lia | done]. }
  split; [lia |]. split.
  { apply bit_word; [lia |]. rewrite <- E. lia. }
  split; [lia |]. intros _. rewrite <- E. split; [lia |]. split.
  - intros Hv. split; [lia |]. rewrite iter_parent_word. by apply Hx.
  - intros Hf. destruct (decide (value = false)) as [Ev | Ev];
      [exfalso; by apply iter_clear_not_full | by destruct value].
Qed.
End Iteration.

Lemma set_loop_spec k fuel a cur value :
  (k < fuel)%nat -> (k <= n)%nat -> set_pre k cur value a ->
  exists a', set_loop fuel a value (pw k) (off k) cur (bool_decide (k = n)) = Ok a' /\
             set_post k cur value a a'.
Proof.
  revert fuel a cur. induction k as [| k IH]; intros [| fuel] a cur Hf Hk Hpre; try lia;
    pose proof Hpre as (Hg & _ & Hc & Hw & _).
  all: match goal with |- context [bool_decide (?k = n)] =>
         destruct (decide (bt (a_mask a) k cur = value)) as [E | E];
         [exists a; split; [by apply set_loop_break | by apply set_post_break] |] end.
  all: rewrite set_loop_step by auto; destruct (value && _) eqn:B.
  - apply andb_true_iff in B as [Hv ?%bool_decide_eq_true]. eexists; split; [done |].
    by apply iter_stop.
  - eexists; split; [done |]. by apply iter_root.
  - apply andb_true_iff in B as [Hv ?%bool_decide_eq_true]. eexists; split; [done |].
    by apply iter_stop.
  - pose proof (iter_up (S k) cur value a Hk Hpre E k eq_refl) as Hup.
    edestruct (IH fuel) as (a'' & Hrun & Hg'' & HL'' & Hb'' & Hf''); [lia | lia | apply Hup |].
    + intros ->. by apply andb_false_iff in B as [| ?%bool_decide_eq_false%dec_stable].
    + rewrite (bool_decide_eq_false_2 (k = n)) in Hrun by lia.
      eexists; split; [apply Hrun |]. split; [done |]. split; [done |]. split.
      * intros i Hi. rewrite Hb'', decide_False by lia. by apply iter_leaf.
      * rewrite Hf'', decide_False by lia. by apply iter_free.
Qed.

(** ** The walk of [find_free] *)

Section Find.
Context (M : list Z).
Hypothesis HM : shape M.
Hypothesis HL : links M.

(** Every block below a full word is used. *)
Lemma full_used d k w x :
  (k + d = n)%nat -> 0 <= w -> is_full M k w -> 0 <= x < sz -> x / pw (S d) = w -> bt M n x = true.
Proof.
  revert k w. induction d as [| d IH]; intros k w Hkd Hw [Hw2 Hfull] Hx E.
  - assert (k = n) as -> by lia. change (pw 1) with 64 in E. unfold bt. rewrite E, Hfull.
    apply full_word_bit; [lia | lia | apply Z.mod_pos_bound; lia |].
    intros _. pose proof (Z.div_mod x 64). lia.
  - assert (x / pw (S d) / 64 = w) as Hc.
    { rewrite Z.div_div by (pose proof (pw_pos (S d)); lia).
      rewrite <- E. f_equal. rewrite (pw_S (S d)). lia. }
    assert (0 <= x / pw (S d)) by (apply Z.div_pos; [lia | apply pw_pos]).
    pose proof (nwords_le k ltac:(lia)).
    apply (IH (S k) (x / pw (S d))); [lia | done | | done | done].
    apply HL; [lia | |].
    + rewrite (pw_S k). split; [done |].
      pose proof (Z.div_mod (x / pw (S d)) 64). pose proof (Z.mod_pos_bound (x / pw (S d)) 64). lia.
    + unfold bt. rewrite Hc, Hfull. apply full_word_bit; [lia | lia | apply Z.mod_pos_bound; lia | lia].
Qed.

(** A leaf word with every block of it used is full. *)
Lemma used_word_full w :
  0 <= w < leaf_words -> (forall x, 0 <= x < sz -> x / 64 = w -> bt M n x = true) -> is_full M n w.
Proof.
  intros Hw Hu. pose proof leaf_words_bounds. pose proof (nwords_le n ltac:(lia)).
  assert (0 <= w < nwords n) as Hw' by (unfold nwords; rewrite decide_False by lia; done).
  split; [lia |]. apply (bits_inj_below 64).
  - by apply (aget_wd M n w).
  - unfold full_word. rewrite decide_False by lia.
    case_decide; [unfold UINT64_MAX; lia |]. unfold last_mask.
    case_decide; [unfold UINT64_MAX; lia |].
    pose proof (Z.mod_pos_bound sz 64). pose proof (Z.pow_pos_nonneg 2 (sz mod 64)).
    pose proof (Z.pow_lt_mono_r 2 (sz mod 64) 64). lia.
  - intros b Hb.
    assert ((64 * w + b) / 64 = w /\ (64 * w + b) mod 64 = b) as [E1 E2]
      by (Z.div_mod_to_equations; lia).
    replace (Z.testbit (wd M n w) b) with (bt M n (64 * w + b)) by (unfold bt; by rewrite E1, E2).
    destruct (decide (64 * w + b < sz)) as [Hlt | Hge].
    + rewrite full_word_bit by (auto; lia). apply Hu; lia.
    + rewrite (sh_tail _ HM) by lia. symmetry. unfold full_word.
      rewrite decide_False by lia. rewrite decide_False by (Z.div_mod_to_equations; lia).
      unfold last_mask. rewrite decide_False by (Z.div_mod_to_equations; lia).
      replace (2 ^ (sz mod 64) - 1) with (Z.ones (sz mod 64)) by (rewrite Z.ones_equiv; lia).
      apply Z.ones_spec_high. Z.div_mod_to_equations; lia.
Qed.

(** A word with all 64 bits set is full, and is not the cut last word. *)
Lemma ones_full k w :
  (k <= n)%nat -> 0 <= w < nwords k -> (forall b, 0 <= b < 64 -> Z.testbit (wd M k w) b = true) ->
  is_full M k w /\ (k = n -> 64 * w + 64 <= sz).
Proof.
  intros Hk Hw Hb. pose proof leaf_words_bounds.
  assert (k = n -> 64 * w + 64 <= sz) as Hcut.
  { intros ->. destruct (decide (64 * w + 64 <= sz)); [done |]. exfalso.
    unfold nwords in Hw. rewrite decide_False in Hw by lia.
    specialize (Hb 63 ltac:(lia)).
    pose proof (sh_tail _ HM (64 * w + 63) ltac:(lia)) as Ht. unfold bt in Ht.
    replace ((64 * w + 63) / 64) with w in Ht by (Z.div_mod_to_equations; lia).
    replace ((64 * w + 63) mod 64) with 63 in Ht by (Z.div_mod_to_equations; lia). congruence. }
  split; [| done]. split; [lia |].
  assert (full_word k w = UINT64_MAX) as ->.
  { unfold full_word. case_decide; [done |]. rewrite decide_True; [done |].
    specialize (Hcut ltac:(lia)). Z.div_mod_to_equations. lia. }
  apply (bits_inj_below 64); [by apply (aget_wd M k w) | unfold UINT64_MAX; lia |].
  intros b Hb'. by rewrite Hb, testbit_ones_64.
Qed.

(** The specification of the result: the lowest free block, or no free block. *)
Definition find_result (r : Z) : Prop :=
  (0 <= r < sz /\ bt M n r = false /\ forall x, 0 <= x < r -> bt M n x = true) \/
  ((forall x, 0 <= x < sz -> bt M n x = true) /\ r = if decide (sz < 64) then sz else UINT64_MAX).

Definition find_inv (k : nat) (w : Z) : Prop :=
  0 <= w < pw k /\
  (forall x, 0 <= x < sz -> x / pw (S n - k) < w -> bt M n x = true) /\
  ((0 < k)%nat -> ~ is_full M k w).
End Find.

Lemma first_zero_spec N m i :
  0 <= i -> i + Z.of_nat N = 64 ->
  let j := first_zero N m i (u64 (2 ^ i)) in
  i <= j <= 64 /\ (forall l, i <= l < j -> Z.testbit m l = true) /\
  (j < 64 -> Z.testbit m j = false).
Proof.
  revert i. induction N as [| N IH]; intros i Hi HN; cbn [first_zero].
  - repeat split; lia.
  - assert (u64 (2 ^ i) = 2 ^ i) as Hp.
    { apply u64_small. pose proof (Z.pow_pos_nonneg 2 i). pose proof (Z.pow_lt_mono_r 2 i 64). lia. }
    rewrite Hp.
    assert (Z.land m (2 ^ i) = 0 <-> Z.testbit m i = false) as Hbit.
    { split; intros H.
      - pose proof (Z.land_spec m (2 ^ i) i) as Hs. rewrite H, Z.testbit_0_l, Z.pow2_bits_true in Hs by lia.
        by rewrite andb_true_r in Hs.
      - apply Z.bits_inj'. intros l Hl. rewrite Z.land_spec, Z.pow2_bits_eqb, Z.testbit_0_l by lia.
        destruct (Z.eqb_spec i l) as [<- |]; [by rewrite H | apply andb_false_r]. }
    case_bool_decide as Hz.
    + repeat split; [lia | lia | intros; lia |]. intros _. by apply Hbit.
    + replace (Z.shiftl (2 ^ i) 1) with (2 ^ (i + 1)) by (rewrite Z.shiftl_mul_pow2, Z.pow_add_r; lia).
      destruct (IH (i + 1) ltac:(lia) ltac:(lia)) as (H1 & H2 & H3).
      split; [lia |]. split; [| done]. intros l Hl.
      destruct (decide (l = i)) as [-> | Hne]; [| apply H2; lia].
      destruct (Z.testbit m i) eqn:E; [done |]. exfalso. by apply Hz, Hbit.
Qed.

Section FindStep.
Context (a : allocator_t).
Hypothesis Hg : good a.
Hypothesis HL : links (a_mask a).
Let M := a_mask a.

Lemma find_off_tree k w :
  (k <= n)%nat -> find_inv M k w -> off k + w >= off n + leaf_words -> find_result M UINT64_MAX.
Proof.
  intros Hk (Hw & Hp & _) Hge. pose proof leaf_words_bounds.
  assert (k = n) as ->.
  { destruct (decide (k = n)); [done |]. exfalso.
    pose proof (word_index k w Hk) as Hi. unfold nwords in Hi. rewrite decide_True in Hi by lia. lia. }
  right. split.
  - intros x Hx. apply Hp; [done |]. replace (S n - n)%nat with 1%nat by lia. change (pw 1) with 64.
    Z.div_mod_to_equations; lia.
  - rewrite decide_False; [done |]. destruct Hdepth as [_ [E | E]].
    + rewrite E in Hw. rewrite pw_0 in Hw. lia.
    + pose proof (pw_mono 1 n). change (pw 1) with 64 in *. destruct (decide (n = 0)%nat) as [E0 |]; [| lia].
      rewrite E0, pw_0 in Hw. lia.
Qed.

Lemma find_all_ones k w :
  (k <= n)%nat -> 0 <= w < nwords k -> find_inv M k w ->
  (forall b, 0 <= b < 64 -> Z.testbit (wd M k w) b = true) -> find_result M UINT64_MAX.
Proof.
  intros Hk Hw (Hw' & Hp & Hnf) Hb. pose proof (g_shape _ Hg) as HM. fold M in HM, HL.
  destruct (ones_full M HM k w Hk Hw Hb) as [Hfull Hcut].
  destruct k as [| k]; [| exfalso; apply Hnf; [lia | done]].
  rewrite pw_0 in Hw'. assert (w = 0) as -> by lia.
  destruct Hdepth as [Hd1 Hd2]. right. split.
  - intros x Hx. apply (full_used M HL n 0 0 x); [done | done | done | done |].
    apply Z.div_small. lia.
  - rewrite decide_False; [done |]. destruct Hd2 as [E | E].
    + specialize (Hcut (eq_sym E)). lia.
    + pose proof (pw_mono 1 n). change (pw 1) with 64 in *. destruct (decide (n = 0)%nat) as [E0 |]; [| lia].
      specialize (Hcut (eq_sym E0)). lia.
Qed.

(** Blocks below bit [i], the first clear one of word [(k, w)], are all used. *)
Lemma find_prefix k w i x :
  (k <= n)%nat -> 0 <= w < nwords k -> find_inv M k w -> 0 <= i < 64 ->
  (forall b, 0 <= b < i -> Z.testbit (wd M k w) b = true) ->
  0 <= x < sz -> x / pw (n - k) < 64 * w + i -> bt M n x = true.
Proof.
  intros Hk Hw (Hw' & Hp & _) Hi Hb Hx Hlt. fold M in HL.
  pose proof (pw_pos (n - k)). set (c := x / pw (n - k)) in *.
  assert (0 <= c) by (apply Z.div_pos; lia).
  assert (x / pw (S n - k) = c / 64) as Ec.
  { replace (S n - k)%nat with (S (n - k)) by lia. unfold c.
    rewrite Z.div_div by lia. f_equal. rewrite pw_S. lia. }
  pose proof (Z.div_mod c 64). pose proof (Z.mod_pos_bound c 64).
  destruct (decide (c / 64 < w)); [apply Hp; [done | lia] |].
  assert (c / 64 = w) as E by (Z.div_mod_to_equations; lia).
  assert (bt M k c = true) as Hbc by (unfold bt; rewrite E; apply Hb; lia).
  pose proof (nwords_le k Hk).
  destruct (decide (k = n)) as [-> | Hne].
  - unfold c in *. by rewrite Nat.sub_diag, pw_0, Z.div_1_r in Hbc.
  - apply (full_used M HL (n - k - 1) (S k) c); [lia | done | | done | unfold c; do 2 f_equal; lia].
    apply HL; [lia | rewrite pw_S; lia | done].
Qed.

(** The leaf reached through a clear bit is the answer. *)
Lemma find_leaf w i :
  0 <= w < leaf_words -> find_inv M n w -> 0 <= i < 64 ->
  (forall b, 0 <= b < i -> Z.testbit (wd M n w) b = true) -> Z.testbit (wd M n w) i = false ->
  find_result M (64 * w + i).
Proof.
  intros Hw Hinv Hi Hb Hz. pose proof (g_shape _ Hg) as HM. fold M in HM, HL.
  pose proof leaf_words_bounds.
  assert (forall x, 0 <= x < sz -> x < 64 * w + i -> bt M n x = true) as Hpre.
  { intros x Hx Hlt. apply (find_prefix n w i x); auto.
    - unfold nwords. by rewrite decide_False by lia.
    - rewrite Nat.sub_diag, pw_0, Z.div_1_r. done. }
  assert ((64 * w + i) / 64 = w /\ (64 * w + i) mod 64 = i) as [E1 E2] by (Z.div_mod_to_equations; lia).
  destruct (decide (64 * w + i < sz)) as [Hlt | Hge].
  - left. repeat split; [lia | lia | | intros; apply Hpre; lia].
    unfold bt. by rewrite E1, E2.
  - right. split; [intros; apply Hpre; lia |].
    assert (is_full M n w) as Hfull.
    { apply used_word_full; [done | lia |]. intros x Hx _. apply Hpre; lia. }
    destruct Hinv as (Hw' & _ & Hnf).
    destruct (decide (n = 0%nat)) as [E | E]; [| exfalso; apply Hnf; [lia | done]].
    rewrite E, pw_0 in Hw'. assert (w = 0) as -> by lia.
    rewrite decide_True by lia. destruct (decide (i = sz)) as [-> | Hne]; [lia |]. exfalso.
    specialize (Hb sz ltac:(lia)).
    pose proof (sh_tail _ HM sz) as Ht. unfold bt in Ht.
    rewrite (Z.div_small sz), (Z.mod_small sz) in Ht by lia. rewrite Ht in Hb; [done | lia].
Qed.

(** One iteration at an existing level: an answer, or one level down through
    the first clear bit of the word. *)
Lemma find_loop_step fuel k w :
  (k <= n)%nat -> find_inv M k w ->
  (exists r, find_loop (S fuel) a (pw k) (off k) w = Ok r /\ find_result M r) \/
  (exists i, 0 <= i < 64 /\ 0 <= w < nwords k /\
     (forall b, 0 <= b < i -> Z.testbit (wd M k w) b = true) /\ Z.testbit (wd M k w) i = false /\
     find_loop (S fuel) a (pw k) (off k) w = find_loop fuel a (pw (S k)) (off (S k)) (64 * w + i)).
Proof.
  pose proof (g_shape _ Hg) as HM. fold M in HM, HL. intros Hk Hinv.
  pose proof Hinv as (Hw & Hp & Hnf). pose proof leaf_words_le.
  pose proof (depth_pw sz n (proj2 Hsz) Hdepth).
  pose proof (off_closed n). pose proof (off_closed k). pose proof (pw_mono k n Hk).
  pose proof (pw_pos k). pose proof leaf_words_bounds.
  assert (pw k < sz) by
    (destruct Hdepth as [_ [E |]]; [replace k with 0%nat by lia; rewrite pw_0 |]; lia).
  cbn [find_loop]. rewrite (g_size _ Hg), (g_total _ Hg), (bool_decide_eq_true_2 (pw k < sz)) by done.
  rewrite (u64_small (off k + w)) by lia.
  case_bool_decide; [left; eexists; split; [done |]; by apply (find_off_tree k w) |].
  assert (0 <= w < nwords k) as Hw2.
  { unfold nwords. destruct (decide (k < n)%nat); [lia |]. replace k with n in * by lia. lia. }
  destruct (aget_wd _ k w HM Hk Hw2) as [Hget Hr].
  rewrite (u64_small (off k + w)) in Hget by lia. fold M. rewrite Hget. cbn [rbind].
  destruct (first_zero_spec 64 (wd M k w) 0 ltac:(lia) ltac:(lia)) as (Hi & Hones & Hz).
  change (u64 (2 ^ 0)) with 1 in *. set (i := first_zero 64 (wd M k w) 0 1) in *.
  case_bool_decide as E64.
  - left. eexists; split; [done |]. apply (find_all_ones k w); auto. intros; apply Hones; lia.
  - right. exists i. repeat split; try (lia || done); [apply Hz; lia |].
    nowrap. f_equal; [rewrite pw_S; lia | apply lor_low; lia].
Qed.

Lemma find_inv_down k w i :
  (k < n)%nat -> find_inv M k w -> 0 <= i < 64 -> 0 <= w < nwords k ->
  (forall b, 0 <= b < i -> Z.testbit (wd M k w) b = true) -> Z.testbit (wd M k w) i = false ->
  find_inv M (S k) (64 * w + i).
Proof.
  intros Hk Hinv Hi Hw Hones Hz. pose proof Hinv as (Hw' & _). fold M in HL.
  assert (0 <= 64 * w + i < pw (S k)) as Hr by (rewrite pw_S; lia).
  split; [done |]. split.
  - intros x Hx Hlt. apply (find_prefix k w i x); auto; lia.
  - intros _ Hfull. apply HL in Hfull; [| done | done]. unfold bt in Hfull.
    replace ((64 * w + i) / 64) with w in Hfull by (Z.div_mod_to_equations; lia).
    replace ((64 * w + i) mod 64) with i in Hfull by (Z.div_mod_to_equations; lia). congruence.
Qed.

Lemma find_loop_spec d k fuel w :
  (k + d = n)%nat -> (d + 1 < fuel)%nat -> find_inv M k w ->
  exists r, find_loop fuel a (pw k) (off k) w = Ok r /\ find_result M r.
Proof.
  revert k fuel w. induction d as [| d IH]; intros k [| fuel] w Hkd Hf Hinv; try lia;
    destruct (find_loop_step fuel k w ltac:(lia) Hinv) as [H | (i & Hi & Hw & Ho & Hz & ->)]; try done.
  - assert (k = n) as -> by lia. destruct fuel as [| fuel]; [lia |]. cbn [find_loop].
    rewrite (g_size _ Hg), bool_decide_eq_false_2 by (destruct Hdepth; lia).
    eexists; split; [done |]. unfold nwords in Hw. rewrite decide_False in Hw by lia.
    by apply find_leaf.
  - apply IH; [lia | lia |]. by apply find_inv_down; [lia | ..].
Qed.

Lemma find_free_tree : exists r, find_free a = Ok r /\ find_result M r.
Proof.
  pose proof (depth_le_5 sz n (proj2 Hsz) Hdepth).
  apply (find_loop_spec n 0); [done | unfold level_fuel; lia |].
  split; [rewrite pw_0; lia |]. split; [| lia].
  intros x Hx Hlt. exfalso. assert (0 <= x / pw (S n - 0)); [| lia].
  apply Z.div_pos; [lia | apply pw_pos].
Qed.
End FindStep.
End Tree.

(** * Refinement to a set of used blocks *)

(** [rep a U]: the allocator stores the set [U] of used blocks, its free counter
    is exact and its tree is consistent. *)
Definition rep (a : allocator_t) (U : gset Z) : Prop :=
  2 <= a_size a < 2 ^ 31 /\
  exists n, depth (a_size a) n /\ good (a_size a) n a /\ links (a_size a) n (a_mask a) /\
    (forall x, x ∈ U <-> 0 <= x < a_size a /\ bt (a_mask a) n x = true) /\
    a_free a = a_size a - Z.of_nat (base.size U).

Lemma bounded_set_size (U : gset Z) (N : Z) :
  0 <= N -> (forall x, x ∈ U -> 0 <= x < N) -> Z.of_nat (base.size U) <= N.
Proof.
  intros HN HU.
  assert (U ⊆ list_to_set (seqZ 0 N)) as Hsub.
  { intros x Hx. apply elem_of_list_to_set, elem_of_seqZ. specialize (HU x Hx). lia. }
  apply subseteq_size in Hsub.
  rewrite size_list_to_set in Hsub by apply NoDup_seqZ. rewrite length_seqZ in Hsub. lia.
Qed.

(** The free counter follows the set through one [set]. *)
Lemma free_counter (U : gset Z) (N addr : Z) (used value : bool) :
  0 <= addr < N -> N < 2 ^ 31 -> (forall x, x ∈ U -> 0 <= x < N) -> (used = true <-> addr ∈ U) ->
  (if decide (used <> value)
   then u64 (N - Z.of_nat (base.size U) + (if value then -1 else 1))
   else N - Z.of_nat (base.size U))
  = N - Z.of_nat (base.size (if value then {[addr]} ∪ U else U ∖ {[addr]})).
Proof.
  intros Ha HN HU Hused.
  pose proof (bounded_set_size U N ltac:(lia) HU) as Hb.
  assert (forall x, x ∈ {[addr]} ∪ U -> 0 <= x < N) as HU'.
  { intros x [->%elem_of_singleton | Hx]%elem_of_union; [lia | by apply HU]. }
  pose proof (bounded_set_size ({[addr]} ∪ U) N ltac:(lia) HU') as Hb'.
  destruct (decide (addr ∈ U)) as [Hin | Hnin].
  - replace used with true by (symmetry; by apply Hused). destruct value.
    + rewrite decide_False by (intros E; by apply E).
      by replace ({[addr]} ∪ U) with U by set_solver.
    + rewrite decide_True by done.
      pose proof (size_difference U {[addr]} ltac:(set_solver)) as Hsd. rewrite size_singleton in Hsd.
      assert (base.size U <> 0%nat) by (intros E0%size_empty_inv; set_solver).
      rewrite u64_small by lia. lia.
  - replace used with false by (destruct used; [exfalso; by apply Hnin, Hused | done]). destruct value.
    + rewrite decide_True by done. rewrite size_union, size_singleton in * by set_solver.
      rewrite u64_small by lia. lia.
    + rewrite decide_False by (intros E; by apply E).
      by replace (U ∖ {[addr]}) with U by set_solver.
Qed.

Lemma last_mask_code blocks :
  2 <= blocks ->
  (if bool_decide (blocks mod 64 = 0) then UINT64_MAX
   else u64 (u64 (Z.shiftl 1 (blocks mod 64)) - 1)) = last_mask blocks.
Proof.
  intros Hb. unfold last_mask. pose proof (Z.mod_pos_bound blocks 64 ltac:(lia)).
  case_bool_decide; case_decide; try done.
  rewrite u64_shiftl_1, Z.shiftl_1_l by lia. apply u64_small.
  pose proof (Z.pow_pos_nonneg 2 (blocks mod 64)). pose proof (Z.pow_lt_mono_r 2 (blocks mod 64) 64). lia.
Qed.

Lemma new_rep (blocks : Z) :
  2 <= blocks < 2 ^ 31 ->
  exists a, allocator_new blocks = Ok a /\ a_size a = blocks /\ rep a ∅.
Proof.
  intros Hb.
  destruct (depth_exists blocks Hb) as [n Hn].
  pose proof (depth_pw blocks n (proj2 Hb) Hn). pose proof (off_closed n). pose proof (off_nonneg n).
  pose proof (leaf_words_le blocks n Hn). pose proof (leaf_words_bounds blocks).
  unfold allocator_new. rewrite !bool_decide_eq_false_2 by lia. simpl orb.
  rewrite (levels_ok blocks n) by (done || lia). cbn [rbind].
  rewrite (u64_small (blocks + 63)) by lia. fold (leaf_words blocks).
  rewrite last_mask_code, u64_small by lia.
  eexists; split; [done |]. split; [done |]. split; [simpl; lia |].
  exists n. simpl.
  assert (forall k i, bt (replicate (Z.to_nat (off n + leaf_words blocks)) 0) k i = false) as Hbt.
  { intros. unfold bt, wd.
    destruct (replicate _ _ !! _) as [x |] eqn:E; simpl; [| apply Z.testbit_0_l].
    apply lookup_replicate in E as [-> _]. apply Z.testbit_0_l. }
  split; [done |]. split; [| split; [| split]].
  - constructor; try done. constructor; simpl.
    + rewrite length_replicate. lia.
    + intros j x Hx%lookup_replicate. lia.
    + intros. apply Hbt.
  - intros k i Hk Hi. unfold link. rewrite Hbt. split; [done |]. intros Hf. exfalso.
    apply (not_full blocks n (replicate (Z.to_nat (off n + leaf_words blocks)) 0) (S k) i 0); auto; try lia.
    + intros E. destruct Hf as [Hf _]. unfold nwords in Hf.
      rewrite decide_False in Hf by lia. lia.
    + pose proof (Hbt (S k) (64 * i)) as Hz. unfold bt in Hz.
      by rewrite (Z.mul_comm 64 i), Z.div_mul, Z.mod_mul in Hz by lia.
  - intros x. rewrite Hbt. set_solver.
  - change (blocks = blocks - Z.of_nat (base.size (∅ : gset Z))). rewrite size_empty. lia.
Qed.

(** The constructor rejects sizes outside [2 .. 2^31-1] with an exception and
    otherwise builds an allocator of that size with every block free. *)
Theorem allocator_new_ok (blocks : Z) :
  if decide (2 <= blocks < 2 ^ 31)
  then exists a, allocator_new blocks = Ok a /\ a_size a = blocks /\ rep a ∅
  else allocator_new blocks = Err Thrown.
Proof.
  case_decide as Hb; [by apply new_rep |]. unfold allocator_new.
  destruct (bool_decide (blocks >= 2147483648) || bool_decide (blocks <= 1)) eqn:E; [done |].
  apply orb_false_iff in E as [?%bool_decide_eq_false ?%bool_decide_eq_false]; lia.
Qed.

Lemma get_rep (a : allocator_t) (U : gset Z) (addr : Z) :
  rep a U -> 0 <= addr -> get a addr = Ok (bool_decide (addr ∈ U)).
Proof.
  intros (Hs & n & Hd & Hg & HL & HU & Hf) Ha. unfold get.
  case_bool_decide.
  { rewrite bool_decide_eq_false_2; [done |]. rewrite HU. lia. }
  rewrite (levels_ok _ n) by (done || lia). cbn [rbind].
  pose proof (leaf_words_bounds (a_size a)).
  destruct (aget_wd (a_size a) n Hs Hd _ n (addr / 64) (g_shape _ _ _ Hg)) as [-> _]; [lia | |].
  { unfold nwords. rewrite decide_False by lia. Z.div_mod_to_equations; lia. }
  cbn [rbind]. rewrite land_shiftr_1 by (apply Z.mod_pos_bound; lia).
  fold (bt (a_mask a) n addr). f_equal. apply bool_decide_ext. rewrite HU.
  destruct (bt (a_mask a) n addr); intuition (lia || congruence).
Qed.

Lemma set_rep (a : allocator_t) (U : gset Z) (addr : Z) (value : bool) :
  rep a U -> 0 <= addr ->
  exists a', set a addr value = Ok a' /\ a_size a' = a_size a /\
    rep a' (if decide (addr < a_size a) then (if value then {[addr]} ∪ U else U ∖ {[addr]}) else U).
Proof.
  intros Hrep Ha. unfold set. pose proof Hrep as (Hs & n & Hd & Hg & HL & HU & Hf).
  case_bool_decide.
  { rewrite decide_False by lia. by exists a. }
  rewrite decide_True by lia. rewrite (levels_ok _ n) by (done || lia). cbn [rbind].
  pose proof (depth_le_5 _ _ (proj2 Hs) Hd). pose proof (leaf_words_bounds (a_size a)).
  destruct (set_loop_spec (a_size a) n Hs Hd n level_fuel a addr value) as (a' & Hrun & Hg' & HL' & Hb' & Hf').
  { unfold level_fuel. lia. } { done. }
  { split; [done |]. split; [by intros k i Hk Hi _; apply HL |]. split; [done |].
    split; [| split; lia]. unfold nwords. rewrite decide_False by lia. Z.div_mod_to_equations; lia. }
  rewrite bool_decide_eq_true_2 in Hrun by done.
  exists a'. split; [done |]. pose proof (g_size _ _ _ Hg') as Hsz'. split; [done |].
  split; [lia |]. exists n. rewrite Hsz'. split; [done |]. split; [done |]. split; [done |].
  assert (forall x, 0 <= x < a_size a ->
    bt (a_mask a') n x = if decide (x = addr) then value else bt (a_mask a) n x) as Hbits.
  { intros x Hx. rewrite Hb' by lia. by rewrite (decide_ext (n = n /\ x = addr) (x = addr)) by intuition. }
  split.
  - intros x. destruct (decide (0 <= x < a_size a)) as [Hx | Hx].
    + rewrite Hbits by done. clear Hf' Hb' HL' HL Hrep.
      destruct value; rewrite ?elem_of_union, ?elem_of_difference, elem_of_singleton, HU;
        destruct (decide (x = addr)); intuition (congruence || lia).
    + destruct value; rewrite ?elem_of_union, ?elem_of_difference, elem_of_singleton, HU;
        intuition lia.
  - rewrite Hf', Hf, (decide_ext (n = n /\ bt (a_mask a) n addr <> value) (bt (a_mask a) n addr <> value))
      by intuition.
    apply free_counter; [lia | lia | intros x Hx; by apply HU | rewrite HU; intuition lia].
Qed.

(** C37: [get] answers membership in the set of used blocks, for any address; [set] adds the block to it, or removes it
    (and ignores addresses past the end).  Both always return, within their array, and [set] keeps the whole tree and
    the free counter consistent. *)
Theorem set_ok (a : allocator_t) (U : gset Z) (addr : Z) (value : bool) :
  rep a U -> 0 <= addr ->
  get a addr = Ok (bool_decide (addr ∈ U)) /\
  exists a', set a addr value = Ok a' /\ a_size a' = a_size a /\
    rep a' (if decide (addr < a_size a) then (if value then {[addr]} ∪ U else U ∖ {[addr]}) else U).
Proof. intros Hrep Ha. split; [by apply get_rep | by apply set_rep]. Qed.

(** C38: [find_free] always returns; with a free block it returns the lowest free
    one; without any it returns [UINT64_MAX], except for allocators of fewer
    than 64 blocks, where it returns the out-of-range address [size]. *)
Theorem find_free_ok (a : allocator_t) (U : gset Z) :
  rep a U ->
  exists r, find_free a = Ok r /\
    ((0 <= r < a_size a /\ r ∉ U /\ forall x, 0 <= x < r -> x ∈ U) \/
     ((forall x, 0 <= x < a_size a -> x ∈ U) /\
      r = if decide (a_size a < 64) then a_size a else UINT64_MAX)).
Proof.
  intros (Hs & n & Hd & Hg & HL & HU & Hf).
  destruct (find_free_tree (a_size a) n Hs Hd a Hg HL) as (r & Hr & [(Hr1 & Hb & Hlt) | [Hall Er]]);
    exists r; (split; [done |]).
  - left. split; [done |]. split.
    + rewrite HU. intros [_ E]. congruence.
    + intros x Hx. apply HU. split; [lia | by apply Hlt].
  - right. split; [| done]. intros x Hx. apply HU. split; [done | by apply Hall].
Qed.

(** * Concrete instances *)

(** A fresh allocator of three blocks. *)
Definition fresh3 : allocator_t :=
  match allocator_new 3 with Ok a => a | Err _ => mk_allocator 0 0 0 0 [] end.

Lemma fresh3_rep : rep fresh3 ∅.
Proof. destruct (new_rep 3) as (a & E & _ & H); [lia |]. unfold fresh3. by rewrite E. Qed.

Definition none_used : gset Z := ∅.

Lemma set_ok_witness :
  get fresh3 1 = Ok (bool_decide (1 ∈ none_used)) /\
  exists a', set fresh3 1 true = Ok a' /\ a_size a' = a_size fresh3 /\
    rep a' (if decide (1 < a_size fresh3) then {[1]} ∪ none_used else none_used).
Proof. apply (set_ok fresh3 none_used 1 true); [apply fresh3_rep | lia]. Defined.

Lemma find_free_ok_witness :
  exists r, find_free fresh3 = Ok r /\
    ((0 <= r < a_size fresh3 /\ r ∉ none_used /\ forall x, 0 <= x < r -> x ∈ none_used) \/
     ((forall x, 0 <= x < a_size fresh3 -> x ∈ none_used) /\
      r = if decide (a_size fresh3 < 64) then a_size fresh3 else UINT64_MAX)).
Proof. apply (find_free_ok fresh3 none_used). apply fresh3_rep. Defined.
