(* ===== verification/Bitmap.v ===== *)
(** Object bitmaps: one bit per [bitmap_granularity] bytes of a block
    (src/src/util/allocator.cpp, [bitmap_set], [bitmap_clear] and
    [bitmap_check]).  A bitmap is the array of its bytes; the 32- and 64-bit
    stores and loads of the fast paths touch its first 4 or 8 bytes. *)

From S2P Require Import Prelude.

(** Bit [i] of a byte array. *)
Definition bm_bit (bm : list Z) (i : Z) : bool :=
  Z.testbit (default 0 (bm !! Z.to_nat (i / 8))) (i mod 8).

(** A machine word store or load at the start of the array, byte by byte. *)
Definition store_low (bm : list Z) (n : nat) (byte : Z) : res (list Z) :=
  if bool_decide (n <= length bm)%nat then Ok (replicate n byte ++ drop n bm) else Err OutOfBounds.
Definition low_nonzero (bm : list Z) (n : nat) : res bool :=
  if bool_decide (n <= length bm)%nat then Ok (existsb (fun b => bool_decide (b <> 0)) (take n bm))
  else Err OutOfBounds.

(** The [while (bit_start < bit_end)] loop of [bitmap_set] and [bitmap_clear]:
    whole bytes become [full], single bits are updated with [one]. *)
Fixpoint bitmap_loop (full : Z) (one : Z -> Z -> Z) (fuel : nat) (bm : list Z)
    (bit_start bit_end : Z) : res (list Z) :=
  match fuel with
  | O => Err OutOfFuel
  | S fuel =>
    if bool_decide (bit_start < bit_end) then
      if bool_decide (Z.land bit_start 7 = 0) && bool_decide (bit_end >= u32 (bit_start + 8)) then
        let* bm := aset bm (bit_start / 8) full in
        bitmap_loop full one fuel bm (u32 (bit_start + 8)) bit_end
      else
        let* b := aget bm (bit_start / 8) in
        let* bm := aset bm (bit_start / 8) (one b (bit_start mod 8)) in
        bitmap_loop full one fuel bm (u32 (bit_start + 1)) bit_end
    else Ok bm
  end.

(** [|= 1 << k] and [&= (0xFF ^ (1 << k))] on a byte. *)
Definition byte_set (b k : Z) : Z := u8 (Z.lor b (Z.shiftl 1 k)).
Definition byte_clear (b k : Z) : Z := u8 (Z.land b (Z.lxor 0xFF (Z.shiftl 1 k))).

(** [start / granularity] and [((start + len) + granularity - 1) / granularity],
    stored in [unsigned] variables. *)
Definition bit_range (start len bitmap_granularity : Z) : res (Z * Z) :=
  if bool_decide (bitmap_granularity = 0) then Err DivByZero
  else Ok (u32 (start / bitmap_granularity),
           u32 (u64 (start + len + bitmap_granularity - 1) / bitmap_granularity)).

Definition bitmap_set (bitmap : list Z) (start len bitmap_granularity : Z) : res (list Z) :=
  if bool_decide (start = 0) && bool_decide (len = u64 (32 * bitmap_granularity)) then
    store_low bitmap 4 UINT8_MAX
  else if bool_decide (start = 0) && bool_decide (len = u64 (64 * bitmap_granularity)) then
    store_low bitmap 8 UINT8_MAX
  else
    let* (bit_start, bit_end) := bit_range start len bitmap_granularity in
    bitmap_loop UINT8_MAX byte_set (S (Z.to_nat bit_end)) bitmap bit_start bit_end.

Definition bitmap_clear (bitmap : list Z) (start len bitmap_granularity : Z) : res (list Z) :=
  if bool_decide (start = 0) && bool_decide (len = u64 (32 * bitmap_granularity)) then
    store_low bitmap 4 0
  else if bool_decide (start = 0) && bool_decide (len = u64 (64 * bitmap_granularity)) then
    store_low bitmap 8 0
  else
    let* (bit_start, bit_end) := bit_range start len bitmap_granularity in
    bitmap_loop 0 byte_clear (S (Z.to_nat bit_end)) bitmap bit_start bit_end.

(** The loop of [bitmap_check]; [r || ...] does not read the byte once [r] is
    true. *)
Fixpoint check_loop (fuel : nat) (bm : list Z) (r : bool) (bit_start bit_end : Z) : res bool :=
  match fuel with
  | O => Err OutOfFuel
  | S fuel =>
    if bool_decide (bit_start < bit_end) then
      if bool_decide (Z.land bit_start 7 = 0) && bool_decide (bit_end >= u32 (bit_start + 8)) then
        let* r := if r then Ok true else
          let* b := aget bm (bit_start / 8) in Ok (bool_decide (b <> 0)) in
        check_loop fuel bm r (u32 (bit_start + 8)) bit_end
      else
        let* r := if r then Ok true else
          let* b := aget bm (bit_start / 8) in
          Ok (bool_decide (Z.land b (Z.shiftl 1 (bit_start mod 8)) <> 0)) in
        check_loop fuel bm r (u32 (bit_start + 1)) bit_end
    else Ok r
  end.

Definition bitmap_check (bitmap : list Z) (start len bitmap_granularity : Z) : res bool :=
  if bool_decide (start = 0) && bool_decide (len = u64 (32 * bitmap_granularity)) then
    low_nonzero bitmap 4
  else if bool_decide (start = 0) && bool_decide (len = u64 (64 * bitmap_granularity)) then
    low_nonzero bitmap 8
  else
    let* (bit_start, bit_end) := bit_range start len bitmap_granularity in
    check_loop (S (Z.to_nat bit_end)) bitmap false bit_start bit_end.

(** * Proofs *)

Definition bytes_ok (bm : list Z) : Prop := Forall (fun b => 0 <= b < 256) bm.

Lemma land_7 x : Z.land x 7 = x mod 8.
Proof. change 7 with (Z.ones 3). by rewrite Z.land_ones by lia. Qed.

Lemma land_shiftl1_nz b k : 0 <= k -> Z.land b (Z.shiftl 1 k) <> 0 <-> Z.testbit b k = true.
Proof.
  intros Hk. split.
  - intros H. destruct (Z.testbit b k) eqn:E; [done |]. exfalso. apply H.
    apply Z.bits_inj'. intros l Hl. rewrite Z.land_spec, shiftl1_testbit, Z.testbit_0_l by lia.
    case_bool_decide; [subst; by rewrite E | apply andb_false_r].
  - intros H E. pose proof (Z.land_spec b (Z.shiftl 1 k) k) as Hs.
    by rewrite E, Z.testbit_0_l, H, shiftl1_testbit, bool_decide_eq_true_2 in Hs.
Qed.

Lemma byte_nonzero b : 0 <= b < 256 -> b <> 0 -> exists k, 0 <= k < 8 /\ Z.testbit b k = true.
Proof.
  intros Hb Hnz. exists (Z.log2 b). split; [| apply Z.bit_log2; lia].
  split; [apply Z.log2_nonneg |]. apply Z.log2_lt_pow2; lia.
Qed.

(** What a whole-byte store and a single-bit update have to do for the loop to
    give every bit of the range the value [v]. *)
Record bit_writer (full : Z) (one : Z -> Z -> Z) (v : bool) : Prop := {
  bw_full : forall k, 0 <= k < 8 -> Z.testbit full k = v;
  bw_one : forall b k l, 0 <= b < 256 -> 0 <= k < 8 -> 0 <= l < 8 ->
    Z.testbit (one b k) l = if decide (l = k) then v else Z.testbit b l;
  bw_full_range : 0 <= full < 256;
  bw_one_range : forall b k, 0 <= one b k < 256 }.

Lemma set_writer : bit_writer UINT8_MAX byte_set true.
Proof.
  constructor.
  - intros k Hk. change UINT8_MAX with (Z.ones 8). apply Z.ones_spec_low. lia.
  - intros b k l Hb Hk Hl. unfold byte_set, u8.
    rewrite Z.mod_pow2_bits_low, Z.lor_spec, shiftl1_testbit by lia.
    case_bool_decide; case_decide; try done; [apply orb_true_r | apply orb_false_r].
  - unfold UINT8_MAX. lia.
  - intros. apply u8_range.
Qed.

Lemma clear_writer : bit_writer 0 byte_clear false.
Proof.
  constructor.
  - intros. apply Z.testbit_0_l.
  - intros b k l Hb Hk Hl. unfold byte_clear, u8.
    rewrite Z.mod_pow2_bits_low, Z.land_spec, Z.lxor_spec, shiftl1_testbit by lia.
    change 255 with (Z.ones 8). rewrite Z.ones_spec_low by lia.
    case_bool_decide; case_decide; try done; [apply andb_false_r | apply andb_true_r].
  - lia.
  - intros. apply u8_range.
Qed.

Lemma bm_bit_insert bm j x i :
  0 <= j < Z.of_nat (length bm) -> 0 <= i ->
  bm_bit (<[Z.to_nat j := x]> bm) i = if decide (i / 8 = j) then Z.testbit x (i mod 8) else bm_bit bm i.
Proof.
  intros Hj Hi. unfold bm_bit. assert (0 <= i / 8) by (apply Z.div_pos; lia).
  case_decide as E.
  - subst. by rewrite list_lookup_insert_eq by lia.
  - by rewrite list_lookup_insert_ne by lia.
Qed.

Section Loop.
Context (full : Z) (one : Z -> Z -> Z) (v : bool).
Hypothesis W : bit_writer full one v.

Lemma bitmap_loop_ok fuel bm s e :
  bytes_ok bm -> 0 <= s -> e <= 8 * Z.of_nat (length bm) -> 8 * Z.of_nat (length bm) < 2 ^ 32 ->
  (Z.to_nat (e - s) < fuel)%nat ->
  exists bm', bitmap_loop full one fuel bm s e = Ok bm' /\ bytes_ok bm' /\ length bm' = length bm /\
    forall i, 0 <= i -> bm_bit bm' i = if decide (s <= i < e) then v else bm_bit bm i.
Proof.
  revert bm s. induction fuel as [| fuel IH]; intros bm s Hb Hs He Hlen Hf; [lia |].
  cbn [bitmap_loop]. case_bool_decide as Hlt.
  2:{ exists bm. repeat split; try done. intros i Hi. by rewrite decide_False by lia. }
  rewrite land_7. pose proof (Z.mod_pos_bound s 8 ltac:(lia)). pose proof (Z.div_mod s 8 ltac:(lia)).
  destruct (bool_decide (s mod 8 = 0) && bool_decide (e >= u32 (s + 8))) eqn:C.
  - apply andb_true_iff in C as [E8%bool_decide_eq_true Ee%bool_decide_eq_true].
    rewrite u32_small in * by (destruct (decide (s + 8 < 2 ^ 32)); [lia |]; lia).
    rewrite aset_in_range by lia. cbn [rbind].
    destruct (IH (<[Z.to_nat (s / 8) := full]> bm) (s + 8)) as (bm' & -> & Hb' & Hl' & Hbit');
      rewrite ?length_insert; try lia.
    { apply Forall_insert; [done | apply W]. }
    exists bm'. rewrite length_insert in Hl'. repeat split; try done.
    intros i Hi. rewrite Hbit', bm_bit_insert by lia.
    assert (i / 8 = s / 8 <-> s <= i < s + 8) as Hiff by (Z.div_mod_to_equations; lia).
    destruct (decide (s + 8 <= i < e)), (decide (s <= i < e)), (decide (i / 8 = s / 8)); try lia; try done.
    apply W. apply Z.mod_pos_bound. lia.
  - destruct (aget_in_range bm (s / 8)) as [b Hget]; [lia |]. rewrite Hget. cbn [rbind].
    apply aget_ok in Hget as [_ Hget].
    assert (0 <= b < 256) as Hbr by (by eapply Forall_lookup_1 in Hb).
    rewrite aset_in_range by lia. cbn [rbind]. rewrite u32_small by lia.
    destruct (IH (<[Z.to_nat (s / 8) := one b (s mod 8)]> bm) (s + 1)) as (bm' & -> & Hb' & Hl' & Hbit');
      rewrite ?length_insert; try lia.
    { apply Forall_insert; [done | apply W]. }
    exists bm'. rewrite length_insert in Hl'. repeat split; try done.
    intros i Hi. rewrite Hbit', bm_bit_insert by lia.
    pose proof (Z.mod_pos_bound i 8 ltac:(lia)). pose proof (Z.div_mod i 8 ltac:(lia)).
    destruct (decide (i / 8 = s / 8)) as [E |].
    + rewrite (bw_one _ _ _ W) by lia. unfold bm_bit. rewrite E, Hget. simpl.
      destruct (decide (s + 1 <= i < e)), (decide (s <= i < e)), (decide (i mod 8 = s mod 8)); done || lia.
    + destruct (decide (s + 1 <= i < e)), (decide (s <= i < e)); try done; lia.
Qed.
End Loop.

Lemma store_low_ok full one v bm (n : nat) :
  bit_writer full one v -> bytes_ok bm -> (n <= length bm)%nat ->
  exists bm', store_low bm n full = Ok bm' /\ bytes_ok bm' /\ length bm' = length bm /\
    forall i, 0 <= i -> bm_bit bm' i = if decide (0 <= i < 8 * Z.of_nat n) then v else bm_bit bm i.
Proof.
  intros W Hb Hn. unfold store_low. rewrite bool_decide_eq_true_2 by done.
  eexists; split; [done |]. split; [| split].
  - apply Forall_app. split; [apply Forall_replicate, W | by apply Forall_drop].
  - rewrite length_app, length_replicate, length_drop. lia.
  - intros i Hi. unfold bm_bit. pose proof (Z.mod_pos_bound i 8 ltac:(lia)).
    pose proof (Z.div_mod i 8 ltac:(lia)).
    case_decide.
    + rewrite lookup_app_l by (rewrite length_replicate; lia).
      rewrite lookup_replicate_2 by lia. simpl. by apply W.
    + rewrite lookup_app_r by (rewrite length_replicate; lia).
      rewrite length_replicate, lookup_drop. do 4 f_equal. lia.
Qed.

(** The range of bits a request covers: from the granule that holds its first
    byte to the one that holds its last. *)
Definition covered (start len g i : Z) : Prop := start / g <= i < (start + len + g - 1) / g.
#[export] Instance covered_dec start len g i : Decision (covered start len g i).
Proof. unfold covered. apply _. Defined.

(** Requests inside the bitmap, with no 64-bit overflow. *)
Record in_bitmap (bm : list Z) (start len g : Z) : Prop := {
  ib_bytes : bytes_ok bm;
  ib_size : 8 * Z.of_nat (length bm) < 2 ^ 32;
  ib_gran : 0 < g;
  ib_start : 0 <= start;
  ib_len : 0 <= len;
  ib_over : start + len + g - 1 < 2 ^ 64;
  ib_gran64 : 64 * g < 2 ^ 64;
  ib_end : (start + len + g - 1) / g <= 8 * Z.of_nat (length bm) }.

Lemma bit_range_ok bm start len g :
  in_bitmap bm start len g ->
  bit_range start len g = Ok (start / g, (start + len + g - 1) / g) /\
  0 <= start / g /\ 0 <= (start + len + g - 1) / g.
Proof.
  intros []. unfold bit_range. rewrite bool_decide_eq_false_2 by lia.
  assert (0 <= start / g <= (start + len + g - 1) / g).
  { split; [apply Z.div_pos; lia | apply Z.div_le_mono; lia]. }
  nowrap. split; [done | lia].
Qed.

Lemma covered_fast g c i : 0 < g -> covered 0 (c * g) g i <-> 0 <= i < c.
Proof.
  intros. unfold covered. rewrite Z.div_0_l by lia.
  replace (0 + c * g + g - 1) with (g - 1 + c * g) by lia.
  rewrite Z.div_add, (Z.div_small (g - 1)) by lia. lia.
Qed.

Section Write.
Context (full : Z) (one : Z -> Z -> Z) (v : bool).
Hypothesis W : bit_writer full one v.

Lemma bitmap_write_ok bm start len g :
  in_bitmap bm start len g ->
  exists bm',
    (if bool_decide (start = 0) && bool_decide (len = u64 (32 * g)) then store_low bm 4 full
     else if bool_decide (start = 0) && bool_decide (len = u64 (64 * g)) then store_low bm 8 full
     else let* (bit_start, bit_end) := bit_range start len g in
          bitmap_loop full one (S (Z.to_nat bit_end)) bm bit_start bit_end) = Ok bm' /\
    bytes_ok bm' /\ length bm' = length bm /\
    forall i, 0 <= i -> bm_bit bm' i = if decide (covered start len g i) then v else bm_bit bm i.
Proof.
  intros Hin. pose proof Hin as []. destruct (bit_range_ok _ _ _ _ Hin) as (Hr & Hlo & Hhi).
  rewrite !u64_small by lia.
  assert (forall c, start = 0 -> len = c * g -> 0 <= c -> c <= 8 * Z.of_nat (length bm)) as Hfit.
  { intros c -> -> Hc.
    replace (0 + c * g + g - 1) with (g - 1 + c * g) in * by lia.
    rewrite Z.div_add, (Z.div_small (g - 1)) in * by lia. lia. }
  destruct (bool_decide (start = 0) && bool_decide (len = 32 * g)) eqn:C1;
    [| destruct (bool_decide (start = 0) && bool_decide (len = 64 * g)) eqn:C2].
  - apply andb_true_iff in C1 as [->%bool_decide_eq_true ->%bool_decide_eq_true].
    destruct (store_low_ok full one v bm 4 W) as (bm' & Hst & Hb' & Hl' & Hbit); [done | |].
    { specialize (Hfit 32 eq_refl eq_refl). lia. }
    exists bm'. repeat split; try done. intros i Hi.
    rewrite Hbit by done. by rewrite (decide_ext _ _ _ _ (covered_fast g 32 i ib_gran0)).
  - apply andb_true_iff in C2 as [->%bool_decide_eq_true ->%bool_decide_eq_true].
    destruct (store_low_ok full one v bm 8 W) as (bm' & Hst & Hb' & Hl' & Hbit); [done | |].
    { specialize (Hfit 64 eq_refl eq_refl). lia. }
    exists bm'. repeat split; try done. intros i Hi.
    rewrite Hbit by done. by rewrite (decide_ext _ _ _ _ (covered_fast g 64 i ib_gran0)).
  - rewrite Hr. cbn [rbind].
    destruct (bitmap_loop_ok full one v W (S (Z.to_nat ((start + len + g - 1) / g))) bm (start / g)
      ((start + len + g - 1) / g)) as (bm' & Hst & Hb' & Hl' & Hbit); auto; lia || eauto.
Qed.
End Write.

Lemma bitmap_set_spec bm start len g :
  in_bitmap bm start len g ->
  exists bm', bitmap_set bm start len g = Ok bm' /\ bytes_ok bm' /\ length bm' = length bm /\
    forall i, 0 <= i -> bm_bit bm' i = if decide (covered start len g i) then true else bm_bit bm i.
Proof. intros. by apply (bitmap_write_ok UINT8_MAX byte_set true set_writer). Qed.

Lemma bitmap_clear_spec (bm : list Z) (start len g : Z) :
  in_bitmap bm start len g ->
  exists bm', bitmap_clear bm start len g = Ok bm' /\ bytes_ok bm' /\ length bm' = length bm /\
    forall i, 0 <= i -> bm_bit bm' i = if decide (covered start len g i) then false else bm_bit bm i.
Proof. intros. by apply (bitmap_write_ok 0 byte_clear false clear_writer). Qed.

Lemma check_loop_ok fuel bm r s e :
  bytes_ok bm -> 0 <= s -> e <= 8 * Z.of_nat (length bm) -> 8 * Z.of_nat (length bm) < 2 ^ 32 ->
  (Z.to_nat (e - s) < fuel)%nat ->
  exists r', check_loop fuel bm r s e = Ok r' /\
    (r' = true <-> r = true \/ exists i, s <= i < e /\ bm_bit bm i = true).
Proof.
  revert r s. induction fuel as [| fuel IH]; intros r s Hb Hs He Hlen Hf; [lia |].
  cbn [check_loop]. case_bool_decide as Hlt.
  2:{ exists r. split; [done |]. split; [by left |]. intros [| (i & ? & _)]; [done | lia]. }
  rewrite land_7. pose proof (Z.mod_pos_bound s 8 ltac:(lia)). pose proof (Z.div_mod s 8 ltac:(lia)).
  destruct (aget_in_range bm (s / 8)) as [b Hget]; [lia |]. rewrite Hget. cbn [rbind].
  apply aget_ok in Hget as [_ Hget].
  assert (0 <= b < 256) as Hbr by (by eapply Forall_lookup_1 in Hb).
  assert (forall i, i / 8 = s / 8 -> bm_bit bm i = Z.testbit b (i mod 8)) as Hbit.
  { intros i E. unfold bm_bit. by rewrite E, Hget. }
  destruct (bool_decide (s mod 8 = 0) && bool_decide (e >= u32 (s + 8))) eqn:C.
  - apply andb_true_iff in C as [E8%bool_decide_eq_true Ee%bool_decide_eq_true].
    rewrite u32_small in * by (destruct (decide (s + 8 < 2 ^ 32)); lia).
    replace (if r then Ok true else Ok (bool_decide (b <> 0))) with (Ok (r || bool_decide (b <> 0)))
      by (by destruct r).
    cbn [rbind]. destruct (IH (r || bool_decide (b <> 0)) (s + 8)) as (r' & -> & Hr'); try lia; [done |].
    exists r'. split; [done |]. rewrite Hr', orb_true_iff, bool_decide_eq_true. split.
    + intros [[? | Hnz] | (i & Hi & Hv)]; [by left | right | right; exists i; split; [lia | done]].
      destruct (byte_nonzero b Hbr Hnz) as (k & Hk & Hv). exists (s + k). split; [lia |].
      rewrite Hbit by (Z.div_mod_to_equations; lia).
      by replace ((s + k) mod 8) with k by (Z.div_mod_to_equations; lia).
    + intros [? | (i & Hi & Hv)]; [by left; left |].
      destruct (decide (i < s + 8)) as [Hi8 |]; [| right; exists i; split; [lia | done]].
      left; right. intros ->. rewrite Hbit, Z.testbit_0_l in Hv by (Z.div_mod_to_equations; lia). done.
  - replace (if r then Ok true else Ok (bool_decide (Z.land b (1 ≪ (s mod 8)) <> 0)))
      with (Ok (r || bool_decide (Z.land b (1 ≪ (s mod 8)) <> 0))) by (by destruct r).
    cbn [rbind]. rewrite u32_small by lia.
    edestruct (IH (r || bool_decide (Z.land b (1 ≪ (s mod 8)) <> 0)) (s + 1)) as (r' & -> & Hr');
      try lia; [done |].
    exists r'. split; [done |]. rewrite Hr', orb_true_iff, bool_decide_eq_true, land_shiftl1_nz by lia.
    rewrite <- (Hbit s) by done. split.
    + intros [[? | Hv] | (i & Hi & Hv)]; [by left | right; exists s; split; [lia | done] |].
      right; exists i; split; [lia | done].
    + intros [? | (i & Hi & Hv)]; [by left; left |].
      destruct (decide (i = s)) as [-> |]; [left; by right | right; exists i; split; [lia | done]].
Qed.

Lemma low_nonzero_ok bm (n : nat) :
  bytes_ok bm -> (n <= length bm)%nat ->
  exists r, low_nonzero bm n = Ok r /\
    (r = true <-> exists i, 0 <= i < 8 * Z.of_nat n /\ bm_bit bm i = true).
Proof.
  intros Hb Hn. unfold low_nonzero. rewrite bool_decide_eq_true_2 by done.
  eexists; split; [done |]. rewrite existsb_exists. split.
  - intros (b & (j & Hj)%list_elem_of_In%list_elem_of_lookup & Hnz%bool_decide_eq_true).
    apply lookup_take_Some in Hj as [Hj Hjn].
    assert (0 <= b < 256) as Hbr by (by eapply Forall_lookup_1 in Hb).
    destruct (byte_nonzero b Hbr Hnz) as (k & Hk & Hv). exists (8 * Z.of_nat j + k).
    split; [lia |]. unfold bm_bit.
    replace ((8 * Z.of_nat j + k) / 8) with (Z.of_nat j) by (Z.div_mod_to_equations; lia).
    replace ((8 * Z.of_nat j + k) mod 8) with k by (Z.div_mod_to_equations; lia).
    rewrite Nat2Z.id, Hj. done.
  - intros (i & Hi & Hv). unfold bm_bit in Hv.
    assert (0 <= i / 8 < Z.of_nat n) as Hj by (Z.div_mod_to_equations; lia).
    destruct (bm !! Z.to_nat (i / 8)) as [b |] eqn:E; simpl in Hv; [| by rewrite Z.testbit_0_l in Hv].
    exists b. split.
    + apply list_elem_of_In, list_elem_of_lookup. exists (Z.to_nat (i / 8)).
      rewrite lookup_take_lt by lia. done.
    + apply bool_decide_eq_true. intros ->. by rewrite Z.testbit_0_l in Hv.
Qed.

Lemma bitmap_check_spec (bm : list Z) (start len g : Z) :
  in_bitmap bm start len g ->
  exists r, bitmap_check bm start len g = Ok r /\
    (r = true <-> exists i, covered start len g i /\ bm_bit bm i = true).
Proof.
  intros Hin. pose proof Hin as []. destruct (bit_range_ok _ _ _ _ Hin) as (Hr & Hlo & Hhi).
  unfold bitmap_check. rewrite !u64_small by lia.
  assert (forall c : nat, start = 0 -> len = Z.of_nat c * g -> (c <= 8 * length bm)%nat) as Hfit.
  { intros c -> ->.
    replace (0 + Z.of_nat c * g + g - 1) with (g - 1 + Z.of_nat c * g) in * by lia.
    rewrite Z.div_add, (Z.div_small (g - 1)) in * by lia. lia. }
  destruct (bool_decide (start = 0) && bool_decide (len = 32 * g)) eqn:C1;
    [| destruct (bool_decide (start = 0) && bool_decide (len = 64 * g)) eqn:C2].
  - apply andb_true_iff in C1 as [->%bool_decide_eq_true ->%bool_decide_eq_true].
    destruct (low_nonzero_ok bm 4) as (r & -> & Hrr); [done | specialize (Hfit 32%nat); lia |].
    exists r. split; [done |]. rewrite Hrr. by setoid_rewrite (covered_fast g 32 _ ib_gran0).
  - apply andb_true_iff in C2 as [->%bool_decide_eq_true ->%bool_decide_eq_true].
    destruct (low_nonzero_ok bm 8) as (r & -> & Hrr); [done | specialize (Hfit 64%nat); lia |].
    exists r. split; [done |]. rewrite Hrr. by setoid_rewrite (covered_fast g 64 _ ib_gran0).
  - rewrite Hr. cbn [rbind].
    destruct (check_loop_ok (S (Z.to_nat ((start + len + g - 1) / g))) bm false (start / g)
      ((start + len + g - 1) / g)) as (r & -> & Hrr); auto; try lia.
    exists r. split; [done |]. rewrite Hrr. unfold covered. naive_solver.
Qed.

(** [bitmap_set] and [bitmap_clear] give exactly the bits of the granules the request covers their value and leave the
    other bits, and [bitmap_check] tells whether any granule the request covers has its bit set, whichever of their code
    paths run. *)
Theorem bitmap_ok (bm : list Z) (start len g : Z) :
  in_bitmap bm start len g ->
  (exists bm', bitmap_set bm start len g = Ok bm' /\ bytes_ok bm' /\ length bm' = length bm /\
     forall i, 0 <= i -> bm_bit bm' i = if decide (covered start len g i) then true else bm_bit bm i) /\
  (exists bm', bitmap_clear bm start len g = Ok bm' /\ bytes_ok bm' /\ length bm' = length bm /\
     forall i, 0 <= i -> bm_bit bm' i = if decide (covered start len g i) then false else bm_bit bm i) /\
  (exists r, bitmap_check bm start len g = Ok r /\ (r = true <-> exists i, covered start len g i /\ bm_bit bm i = true)).
Proof. intros Hin. split; [by apply bitmap_set_spec |]. split; [by apply bitmap_clear_spec | by apply bitmap_check_spec]. Qed.

(** * Concrete instances: 8 KB at offset 4 KB of a two-byte bitmap of 4 KB granules *)

Lemma example_in_bitmap : in_bitmap [5; 255] 4096 8192 4096.
Proof.
  constructor; try (vm_compute; intuition congruence). repeat constructor; lia.
Qed.

Lemma bitmap_ok_witness :
  exists r, bitmap_check [5; 255] 4096 8192 4096 = Ok r /\
    (r = true <-> exists i, covered 4096 8192 4096 i /\ bm_bit [5; 255] i = true).
Proof. apply (bitmap_ok [5; 255] 4096 8192 4096); apply example_in_bitmap. Defined.
