(* ===== verification/Crc32c.v ===== *)
(** CRC-32C (src/src/util/crc32c.c, and [je_crc32] of
    src/src/blockstore/blockstore_journal.h): the table-driven software routine
    that consumes eight bytes per step, the routine for the processor's crc32
    instructions with three interleaved streams joined by "append zeros"
    operators over GF(2), and the padded variants.  Both routines are proved
    equal to the bit-by-bit definition of the checksum.  A buffer is the list of
    its bytes with the address of its first byte, of which the routines test the
    low three bits. *)

From S2P Require Import Prelude.

(** * The code *)

Definition POLY : Z := 0x82f63b78.

(** [crc = crc & 1 ? (crc >> 1) ^ POLY : crc >> 1] *)
Definition crc_bit (crc : Z) : Z :=
  if bool_decide (Z.land crc 1 <> 0) then Z.lxor (Z.shiftr crc 1) POLY else Z.shiftr crc 1.

(** [crc32c_init_sw]: row 0, then rows 1..7 from it. *)
Definition table_row0 : list Z := map (fun n => Nat.iter 8 crc_bit n) (seqZ 0 256).
Definition tbl0 (i : Z) : Z := default 0 (table_row0 !! Z.to_nat i).
Definition next_entry (crc : Z) : Z := Z.lxor (tbl0 (Z.land crc 0xff)) (Z.shiftr crc 8).
Definition crc32c_table : list (list Z) :=
  map (fun k => map (fun n => Nat.iter k next_entry (tbl0 n)) (seqZ 0 256)) (seq 0 8).
Definition tbl (k : nat) (i : Z) : Z := default 0 (default [] (crc32c_table !! k) !! Z.to_nat i).

(** One byte of the leading and trailing loops of [crc32c_sw]. *)
Definition sw_byte (crc b : Z) : Z := Z.lxor (tbl 0 (Z.land (Z.lxor crc b) 0xff)) (Z.shiftr crc 8).

(** [while (len && ((uintptr_t)next & 7) != 0)], for a per-byte step. *)
Fixpoint align_loop (step : Z -> Z -> Z) (addr crc : Z) (bs : list Z) : Z * Z * list Z :=
  match bs with
  | [] => (addr, crc, [])
  | b :: bs' => if bool_decide (Z.land addr 7 = 0) then (addr, crc, bs)
                else align_loop step (addr + 1) (step crc b) bs'
  end.

(** Little-endian value of a byte sequence: what a [uint64_t] load at [next]
    gives. *)
Fixpoint le_word (bs : list Z) : Z :=
  match bs with [] => 0 | b :: bs => Z.lor b (Z.shiftl (le_word bs) 8) end.

(** One eight-byte step of [crc32c_sw]. *)
Definition sw_quad (crc : Z) (w : list Z) : Z :=
  let crc := Z.lxor crc (le_word w) in
  Z.lxor (Z.lxor (Z.lxor (Z.lxor (Z.lxor (Z.lxor (Z.lxor
    (tbl 7 (Z.land crc 0xff))
    (tbl 6 (Z.land (Z.shiftr crc 8) 0xff)))
    (tbl 5 (Z.land (Z.shiftr crc 16) 0xff)))
    (tbl 4 (Z.land (Z.shiftr crc 24) 0xff)))
    (tbl 3 (Z.land (Z.shiftr crc 32) 0xff)))
    (tbl 2 (Z.land (Z.shiftr crc 40) 0xff)))
    (tbl 1 (Z.land (Z.shiftr crc 48) 0xff)))
    (tbl 0 (Z.shiftr crc 56)).

(** [while (len >= 8)]; returns the crc and the bytes left. *)
Fixpoint quad_loop (step : Z -> list Z -> Z) (fuel : nat) (crc : Z) (bs : list Z) : Z * list Z :=
  match fuel with
  | O => (crc, bs)
  | S fuel => if bool_decide (8 <= length bs)%nat
              then quad_loop step fuel (step crc (take 8 bs)) (drop 8 bs) else (crc, bs)
  end.

Definition crc32c_sw (crci addr : Z) (buf : list Z) : Z :=
  let crc := Z.lxor crci 0xffffffff in
  let '(_, crc, bs) := align_loop sw_byte addr crc buf in
  let '(crc, bs) := quad_loop sw_quad (length bs) crc bs in
  let crc := fold_left sw_byte bs crc in
  Z.lxor (u32 crc) 0xffffffff.

(** [gf2_matrix_times]: the loop runs while [vec] is not zero, so at most once
    per bit of a 32-bit vector. *)
Fixpoint gf2_matrix_times (mat : list Z) (vec sum : Z) : Z :=
  match mat with
  | [] => sum
  | row :: mat =>
    if bool_decide (vec = 0) then sum
    else gf2_matrix_times mat (Z.shiftr vec 1)
           (if bool_decide (Z.land vec 1 <> 0) then Z.lxor sum row else sum)
  end.

Definition gf2_matrix_square (mat : list Z) : list Z :=
  map (fun row => gf2_matrix_times mat row 0) mat.

(** The [do ... while (len)] loop of [crc32c_zeros_op] on the pair (even, odd). *)
Fixpoint zeros_loop (fuel : nat) (odd : list Z) (len : Z) : list Z :=
  match fuel with
  | O => odd
  | S fuel =>
    let even := gf2_matrix_square odd in
    let len := Z.shiftr len 1 in
    if bool_decide (len = 0) then even
    else
      let odd := gf2_matrix_square even in
      let len := Z.shiftr len 1 in
      if bool_decide (len = 0) then odd else zeros_loop fuel odd len
  end.

Definition crc32c_zeros_op (len : Z) : list Z :=
  let odd := POLY :: map (fun n => Z.shiftl 1 n) (seqZ 0 31) in
  let even := gf2_matrix_square odd in
  let odd := gf2_matrix_square even in
  zeros_loop 32 odd len.

(** The four tables of [crc32c_zeros], and [crc32c_shift]. *)
Definition crc32c_zeros (len : Z) : list (list Z) :=
  let op := crc32c_zeros_op len in
  map (fun j => map (fun n => gf2_matrix_times op (u32 (Z.shiftl n (8 * j))) 0) (seqZ 0 256)) (seqZ 0 4).
Definition ztbl (zeros : list (list Z)) (j : nat) (i : Z) : Z :=
  default 0 (default [] (zeros !! j) !! Z.to_nat i).
Definition crc32c_shift (zeros : list (list Z)) (crc : Z) : Z :=
  Z.lxor (Z.lxor (Z.lxor (ztbl zeros 0 (Z.land crc 0xff))
    (ztbl zeros 1 (Z.land (Z.shiftr crc 8) 0xff)))
    (ztbl zeros 2 (Z.land (Z.shiftr crc 16) 0xff)))
    (ztbl zeros 3 (Z.shiftr crc 24)).

Definition LONG : nat := 8192.
Definition SHORT : nat := 256.
Definition crc32c_long : list (list Z) := crc32c_zeros 8192.
Definition crc32c_short : list (list Z) := crc32c_zeros 256.

Section Hardware.
(** The processor's [crc32b] and [crc32q] instructions. *)
Context (crc32b : Z -> Z -> Z) (crc32q : Z -> Z -> Z).

(** The inner [do ... while (next < end)] loop over three streams of [n] quads. *)
Fixpoint three_streams (n : nat) (crc0 crc1 crc2 : Z) (b0 b1 b2 : list Z) : Z * Z * Z :=
  match n with
  | O => (crc0, crc1, crc2)
  | S n => three_streams n
             (crc32q crc0 (le_word (take 8 b0)))
             (crc32q crc1 (le_word (take 8 b1)))
             (crc32q crc2 (le_word (take 8 b2)))
             (drop 8 b0) (drop 8 b1) (drop 8 b2)
  end.

(** [while (len >= BLK*3)]: three blocks of [blk] bytes at a time. *)
Fixpoint block_loop (blk : nat) (zeros : list (list Z)) (fuel : nat) (crc0 : Z) (bs : list Z)
    : Z * list Z :=
  match fuel with
  | O => (crc0, bs)
  | S fuel =>
    if bool_decide (3 * blk <= length bs)%nat then
      let '(crc0, crc1, crc2) :=
        three_streams (blk / 8) crc0 0 0 bs (drop blk bs) (drop (2 * blk) bs) in
      let crc0 := Z.lxor (crc32c_shift zeros crc0) crc1 in
      let crc0 := Z.lxor (crc32c_shift zeros crc0) crc2 in
      block_loop blk zeros fuel crc0 (drop (3 * blk) bs)
    else (crc0, bs)
  end.

Definition crc32c_hw (crc addr : Z) (buf : list Z) : Z :=
  let crc0 := Z.lxor crc 0xffffffff in
  let '(_, crc0, bs) := align_loop crc32b addr crc0 buf in
  let '(crc0, bs) := block_loop LONG crc32c_long (length bs) crc0 bs in
  let '(crc0, bs) := block_loop SHORT crc32c_short (length bs) crc0 bs in
  let '(crc0, bs) := quad_loop (fun crc w => crc32q crc (le_word w)) (length bs) crc0 bs in
  let crc0 := fold_left crc32b bs crc0 in
  Z.lxor (u32 crc0) 0xffffffff.

(** [crc32c]: the choice made once from the cpuid flag. *)
Definition crc32c (sse42 : bool) (crc addr : Z) (buf : list Z) : Z :=
  if sse42 then crc32c_hw crc addr buf else crc32c_sw crc addr buf.

Definition zero_page : list Z := replicate (Z.to_nat 4096) 0.

(** [while (pad >= 4096) { r = crc32c(r, zero_page, 4096); pad -= 4096; }] *)
Fixpoint pad_loop (sse42 : bool) (page_addr : Z) (fuel : nat) (r pad : Z) : Z * Z :=
  match fuel with
  | O => (r, pad)
  | S fuel => if bool_decide (pad >= 4096)
              then pad_loop sse42 page_addr fuel (crc32c sse42 r page_addr zero_page) (pad - 4096)
              else (r, pad)
  end.

Definition crc32c_pad (sse42 : bool) (page_addr prev_crc addr : Z) (buf : list Z)
    (left_pad right_pad : Z) : Z :=
  let '(r, left_pad) := pad_loop sse42 page_addr (Z.to_nat (left_pad / 4096)) prev_crc left_pad in
  let r := if bool_decide (left_pad > 0)
           then crc32c sse42 r page_addr (take (Z.to_nat left_pad) zero_page) else r in
  let r := crc32c sse42 r addr buf in
  let '(r, right_pad) := pad_loop sse42 page_addr (Z.to_nat (right_pad / 4096)) r right_pad in
  if bool_decide (left_pad > 0)
  then crc32c sse42 r page_addr (take (Z.to_nat right_pad) zero_page) else r.

Definition crc32c_nopad (sse42 : bool) (prev_crc addr : Z) (buf : list Z) (left_pad right_pad : Z) : Z :=
  crc32c sse42 0 addr buf.

(** [je_crc32]: the checksum of a journal entry without its first field. *)
Definition je_crc32 (sse42 : bool) (addr : Z) (je : list Z) (size : nat) : Z :=
  crc32c sse42 0x48674bc7 (addr + 4) (take (size - 4) (drop 4 je)).
End Hardware.

(** * The checksum, bit by bit *)

(** Eight shifts of the register. *)
Definition F (c : Z) : Z := Nat.iter 8 crc_bit c.

(** Feeding bytes to the register, and the checksum with its pre- and
    post-inversion, continuing from a previous checksum [crc]. *)
Definition crc_bytes (c : Z) (bs : list Z) : Z := fold_left (fun c b => F (Z.lxor c b)) bs c.
Definition crc_ref (crc : Z) (bs : list Z) : Z :=
  Z.lxor (crc_bytes (Z.lxor crc 0xffffffff) bs) 0xffffffff.

Definition is_bytes (bs : list Z) : Prop := Forall (fun b => 0 <= b < 256) bs.

(** ** Linearity *)

Definition linear (L : Z -> Z) : Prop := forall x y, L (Z.lxor x y) = Z.lxor (L x) (L y).

Lemma crc_bit_alt x : crc_bit x = Z.lxor (Z.shiftr x 1) (if Z.testbit x 0 then POLY else 0).
Proof.
  unfold crc_bit. rewrite (Z.land_ones _ 1) by lia. change (2 ^ 1) with 2. rewrite <- Z.bit0_mod.
  destruct (Z.testbit x 0); simpl; [done | by rewrite Z.lxor_0_r].
Qed.

#[local] Opaque crc_bit.

Lemma lxor_swap a b c d : Z.lxor (Z.lxor a b) (Z.lxor c d) = Z.lxor (Z.lxor a c) (Z.lxor b d).
Proof. rewrite !Z.lxor_assoc. f_equal. rewrite <- !Z.lxor_assoc. f_equal. apply Z.lxor_comm. Qed.

Lemma crc_bit_linear : linear crc_bit.
Proof.
  intros x y. rewrite !crc_bit_alt, Z.shiftr_lxor, Z.lxor_spec, lxor_swap. f_equal.
  destruct (Z.testbit x 0), (Z.testbit y 0); simpl;
    by rewrite ?Z.lxor_nilpotent, ?Z.lxor_0_r, ?Z.lxor_0_l.
Qed.

Lemma linear_iter L n : linear L -> linear (Nat.iter n L).
Proof. intros HL. induction n as [| n IH]; intros x y; simpl; [done |]. by rewrite IH, HL. Qed.

Lemma linear_0 L : linear L -> L 0 = 0.
Proof. intros HL. pose proof (HL 0 0) as H. rewrite Z.lxor_0_l in H. by rewrite H, Z.lxor_nilpotent at 1. Qed.

Lemma F_linear : linear F.
Proof. apply linear_iter, crc_bit_linear. Qed.

Lemma iter_shiftl (n : nat) y : Nat.iter n crc_bit (Z.shiftl y (Z.of_nat n)) = y.
Proof.
  revert y. induction n as [| n IH]; intros y; [apply Z.shiftl_0_r |].
  rewrite Nat.iter_succ_r, crc_bit_alt, Z.shiftl_spec_low, Z.lxor_0_r by lia.
  replace (Z.shiftr (Z.shiftl y (Z.of_nat (S n))) 1) with (Z.shiftl y (Z.of_nat n)); [done |].
  rewrite Z.shiftr_shiftl_l by lia. f_equal. lia.
Qed.

Lemma F_shiftl y : F (Z.shiftl y 8) = y.
Proof. apply (iter_shiftl 8). Qed.

Lemma split_low8 x : x = Z.lxor (Z.land x 255) (Z.shiftl (Z.shiftr x 8) 8).
Proof.
  apply Z.bits_inj'. intros i Hi. rewrite Z.lxor_spec, Z.land_spec. change 255 with (Z.ones 8).
  destruct (decide (i < 8)).
  - rewrite Z.ones_spec_low, Z.shiftl_spec_low by lia. by rewrite andb_true_r, xorb_false_r.
  - rewrite Z.ones_spec_high, Z.shiftl_spec_high, Z.shiftr_spec by lia.
    rewrite andb_false_r. simpl. f_equal. lia.
Qed.

Lemma iter_F n x : Nat.iter n F x = Nat.iter (8 * n) crc_bit x.
Proof.
  induction n as [| n IH]; [done |].
  rewrite Nat.mul_succ_r, Nat.add_comm, Nat.iter_add, <- IH. done.
Qed.

Lemma F_split x : F x = Z.lxor (F (Z.land x 255)) (Z.shiftr x 8).
Proof. rewrite (split_low8 x) at 1. by rewrite F_linear, F_shiftl. Qed.

Lemma land_255_range x : 0 <= Z.land x 255 < 256.
Proof. change 255 with (Z.ones 8). rewrite Z.land_ones by lia. by apply Z.mod_pos_bound. Qed.

Lemma byte_shiftr b : 0 <= b < 256 -> Z.shiftr b 8 = 0.
Proof. intros. rewrite Z.shiftr_div_pow2 by lia. by apply Z.div_small. Qed.

(** ** Ranges *)

Definition is32 (x : Z) : Prop := 0 <= x < 2 ^ 32.

Lemma lxor_is32 x y : is32 x -> is32 y -> is32 (Z.lxor x y).
Proof. intros. by apply lxor_range. Qed.

Lemma is32_ffffffff : is32 0xffffffff.
Proof. unfold is32. lia. Qed.

Lemma byte_is32 b : 0 <= b < 256 -> is32 b.
Proof. unfold is32. lia. Qed.

Lemma crc_bit_range x : is32 x -> is32 (crc_bit x).
Proof.
  intros Hx. rewrite crc_bit_alt. apply lxor_is32.
  - unfold is32 in *. rewrite Z.shiftr_div_pow2 by lia. change (2 ^ 1) with 2. Z.div_mod_to_equations. lia.
  - destruct (Z.testbit x 0); unfold is32, POLY; lia.
Qed.

Lemma iter_range L n x : (forall x, is32 x -> is32 (L x)) -> is32 x -> is32 (Nat.iter n L x).
Proof. intros HL Hx. induction n; simpl; auto. Qed.

Lemma F_range x : is32 x -> is32 (F x).
Proof. intros. apply iter_range; auto using crc_bit_range. Qed.

Lemma crc_bytes_range c bs : is32 c -> is_bytes bs -> is32 (crc_bytes c bs).
Proof.
  intros Hc Hb. revert c Hc. induction Hb as [| b bs Hb1 Hb IH]; intros c Hc; [done |].
  apply IH, F_range, lxor_is32; auto using byte_is32.
Qed.

(** ** Tables *)

Lemma lookup_table {A} (f : Z -> A) i : 0 <= i < 256 -> map f (seqZ 0 256) !! Z.to_nat i = Some (f i).
Proof.
  intros Hi. rewrite list_lookup_fmap_Some. exists i. split; [done |].
  apply lookup_seqZ. lia.
Qed.

Lemma tbl0_F i : 0 <= i < 256 -> tbl0 i = F i.
Proof.
  intros Hi. unfold tbl0, table_row0.
  rewrite (lookup_table (fun n => Nat.iter 8 crc_bit n) i Hi).
  unfold F. cbn [from_option id]. reflexivity.
Qed.

Lemma next_entry_F c : next_entry c = F c.
Proof. unfold next_entry. rewrite tbl0_F by apply land_255_range. by rewrite <- F_split. Qed.

Lemma iter_ext {A} (f g : A -> A) n x : (forall x, f x = g x) -> Nat.iter n f x = Nat.iter n g x.
Proof. intros H. induction n; simpl; congruence. Qed.

Lemma tbl_F k i : (k < 8)%nat -> 0 <= i < 256 -> tbl k i = Nat.iter (S k) F i.
Proof.
  intros Hk Hi. unfold tbl, crc32c_table.
  assert (map (fun k => map (fun n => Nat.iter k next_entry (tbl0 n)) (seqZ 0 256)) (seq 0 8) !! k
    = Some (map (fun n => Nat.iter k next_entry (tbl0 n)) (seqZ 0 256))) as ->.
  { rewrite list_lookup_fmap_Some. exists k. split; [done |]. apply lookup_seq. lia. }
  cbn [from_option id]. rewrite (lookup_table (fun n => Nat.iter k next_entry (tbl0 n))) by done.
  cbn [from_option id].
  rewrite tbl0_F, (iter_ext next_entry F), Nat.iter_succ_r by auto using next_entry_F. done.
Qed.

(** ** The software routine *)

Lemma sw_byte_F c b : 0 <= b < 256 -> sw_byte c b = F (Z.lxor c b).
Proof.
  intros Hb. unfold sw_byte. rewrite (F_split (Z.lxor c b)).
  rewrite tbl_F by (auto using land_255_range; lia).
  by rewrite Z.shiftr_lxor, (byte_shiftr b), Z.lxor_0_r.
Qed.

Lemma lor_shift8 b w : 0 <= b < 256 -> Z.lor b (Z.shiftl w 8) = Z.lxor b (Z.shiftl w 8).
Proof.
  intros. apply Z.bits_inj'. intros i Hi. rewrite Z.lor_spec, Z.lxor_spec.
  destruct (decide (i < 8)).
  - rewrite Z.shiftl_spec_low by lia. by destruct (Z.testbit b i).
  - rewrite (testbit_ge 8 b) by lia. by destruct (Z.testbit _ i).
Qed.

(** A whole word goes through the register like its bytes in order. *)
Lemma crc_iter_word c w :
  is_bytes w -> Nat.iter (length w) F (Z.lxor c (le_word w)) = crc_bytes c w.
Proof.
  intros Hw. revert c. induction Hw as [| b w Hb Hw IH]; intros c; [by rewrite Z.lxor_0_r |].
  cbn [length le_word]. rewrite Nat.iter_succ_r, lor_shift8, <- Z.lxor_assoc by done.
  by rewrite F_linear, F_shiftl, IH.
Qed.

Lemma le_word_range w : is_bytes w -> 0 <= le_word w < 2 ^ (8 * Z.of_nat (length w)).
Proof.
  induction 1 as [| b w Hb Hw IH]; [simpl; lia |]. cbn [length le_word].
  replace (8 * Z.of_nat (S (length w))) with (8 + 8 * Z.of_nat (length w)) by lia.
  rewrite lor_shift8 by done. apply lxor_range; [lia | |].
  - rewrite Z.pow_add_r by lia. pose proof (Z.pow_pos_nonneg 2 (8 * Z.of_nat (length w))). nia.
  - rewrite Z.shiftl_mul_pow2, Z.pow_add_r by lia. nia.
Qed.

Lemma iter_peel k x :
  Nat.iter (S k) F x = Z.lxor (Nat.iter (S k) F (Z.land x 255)) (Nat.iter k F (Z.shiftr x 8)).
Proof.
  rewrite !(Nat.iter_succ_r k). rewrite (F_split x).
  by rewrite (linear_iter F k F_linear).
Qed.

Lemma iter_peel_at k x a b :
  0 <= a -> b = a + 8 ->
  Nat.iter (S k) F (Z.shiftr x a)
  = Z.lxor (Nat.iter (S k) F (Z.land (Z.shiftr x a) 255)) (Nat.iter k F (Z.shiftr x b)).
Proof. intros Ha ->. rewrite (iter_peel k (Z.shiftr x a)). by rewrite Z.shiftr_shiftr by lia. Qed.

Lemma sw_quad_F c w :
  is32 c -> is_bytes w -> length w = 8%nat -> sw_quad c w = crc_bytes c w.
Proof.
  intros Hc Hw Hl. rewrite <- crc_iter_word, Hl by done. unfold sw_quad.
  assert (0 <= Z.lxor c (le_word w) < 2 ^ 64) as Hx.
  { pose proof (le_word_range w Hw) as Hr. rewrite Hl in Hr. apply lxor_range; unfold is32 in Hc; lia. }
  set (x := Z.lxor c (le_word w)) in *. clearbody x.
  rewrite !tbl_F by (auto using land_255_range; try lia;
    rewrite ?Z.shiftr_div_pow2 by lia; Z.div_mod_to_equations; lia).
  rewrite (iter_peel 7 x), (iter_peel_at 6 x 8 16), (iter_peel_at 5 x 16 24),
    (iter_peel_at 4 x 24 32), (iter_peel_at 3 x 32 40), (iter_peel_at 2 x 40 48),
    (iter_peel_at 1 x 48 56) by lia.
  by rewrite !Z.lxor_assoc.
Qed.

(** Every loop of the routines keeps the checksum of what is left. *)
Definition residue (c : Z) (bs : list Z) (r : Z * list Z) : Prop :=
  crc_bytes r.1 r.2 = crc_bytes c bs /\ is32 r.1 /\ is_bytes r.2.

Lemma align_loop_ok step addr c bs :
  (forall c b, is32 c -> 0 <= b < 256 -> step c b = F (Z.lxor c b)) ->
  is32 c -> is_bytes bs ->
  let '(_, c', bs') := align_loop step addr c bs in residue c bs (c', bs').
Proof.
  intros Hstep Hc Hb. revert addr c Hc.
  induction Hb as [| b bs Hb1 Hb IH]; intros addr c Hc; simpl;
    [split; [done | split; [done | constructor]] |].
  case_bool_decide; [split; [done | split; [done | by constructor]] |].
  rewrite Hstep by done. specialize (IH (addr + 1) (F (Z.lxor c b))).
  destruct (align_loop step (addr + 1) (F (Z.lxor c b)) bs) as [[? c'] bs'].
  apply IH, F_range, lxor_is32; auto using byte_is32.
Qed.

Lemma is_bytes_take n bs : is_bytes bs -> is_bytes (take n bs).
Proof. apply Forall_take. Qed.
Lemma is_bytes_drop n bs : is_bytes bs -> is_bytes (drop n bs).
Proof. apply Forall_drop. Qed.
#[local] Hint Resolve is_bytes_take is_bytes_drop crc_bytes_range F_range lxor_is32 is32_ffffffff : bits.

Lemma crc_bytes_app c bs1 bs2 : crc_bytes c (bs1 ++ bs2) = crc_bytes (crc_bytes c bs1) bs2.
Proof. apply fold_left_app. Qed.

Lemma crc_bytes_take_drop n c bs : crc_bytes (crc_bytes c (take n bs)) (drop n bs) = crc_bytes c bs.
Proof. by rewrite <- crc_bytes_app, take_drop. Qed.

Lemma quad_loop_ok step fuel c bs :
  (forall c w, is32 c -> is_bytes w -> length w = 8%nat -> step c w = crc_bytes c w) ->
  is32 c -> is_bytes bs -> residue c bs (quad_loop step fuel c bs).
Proof.
  intros Hstep. revert c bs. induction fuel as [| fuel IH]; intros c bs Hc Hb; simpl; [done |].
  case_bool_decide; [| done].
  rewrite Hstep by (auto with bits; rewrite length_take; lia).
  destruct (IH (crc_bytes c (take 8 bs)) (drop 8 bs)) as (H1 & H2 & H3); auto with bits.
  split; [| done]. by rewrite H1, crc_bytes_take_drop.
Qed.

Lemma fold_step_ok step c bs :
  (forall c b, is32 c -> 0 <= b < 256 -> step c b = F (Z.lxor c b)) ->
  is32 c -> is_bytes bs -> fold_left step bs c = crc_bytes c bs.
Proof.
  intros Hstep Hc Hb. revert c Hc. induction Hb as [| b bs Hb1 Hb IH]; intros c Hc; [done |].
  simpl. rewrite Hstep by done. apply IH, F_range, lxor_is32; auto using byte_is32.
Qed.

Lemma crc32c_sw_ref crci addr buf :
  is32 crci -> is_bytes buf -> crc32c_sw crci addr buf = crc_ref crci buf.
Proof.
  intros Hc Hb. unfold crc32c_sw, crc_ref.
  pose proof (align_loop_ok sw_byte addr (Z.lxor crci 0xffffffff) buf) as Ha.
  destruct (align_loop _ _ _ _) as [[? c1] b1].
  destruct Ha as (E1 & R1 & B1); auto using sw_byte_F with bits. simpl in *.
  destruct (quad_loop_ok sw_quad (length b1) c1 b1) as (E2 & R2 & B2); auto using sw_quad_F.
  destruct (quad_loop _ _ _ _) as [c2 b2]. simpl in *.
  rewrite (fold_step_ok sw_byte) by auto using sw_byte_F.
  rewrite u32_small; [congruence |]. by apply crc_bytes_range.
Qed.

(** ** Operators over GF(2) as 32-row matrices *)

Definition maps32 (L : Z -> Z) : Prop := forall x, is32 x -> is32 (L x).
Definition mat_of (L : Z -> Z) : list Z := map (fun n => L (Z.shiftl 1 n)) (seqZ 0 32).

Lemma split_low1 v s :
  0 <= s ->
  Z.shiftl v s = Z.lxor (Z.shiftl (if Z.testbit v 0 then 1 else 0) s) (Z.shiftl (Z.shiftr v 1) (s + 1)).
Proof.
  intros Hs. apply Z.bits_inj'. intros i Hi. rewrite Z.lxor_spec.
  destruct (decide (i < s)); [by rewrite !Z.shiftl_spec_low by lia |].
  rewrite !Z.shiftl_spec by lia.
  destruct (decide (i = s)) as [-> | Hne].
  - rewrite Z.sub_diag, (Z.testbit_neg_r _ (s - (s + 1))) by lia. by destruct (Z.testbit v 0).
  - rewrite Z.shiftr_spec by lia. replace (i - (s + 1) + 1) with (i - s) by lia.
    destruct (Z.testbit v 0); [| by rewrite Z.testbit_0_l].
    by rewrite (testbit_ge 1 1) by lia.
Qed.

Lemma times_from L n s v sum :
  linear L -> 0 <= s -> 0 <= v < 2 ^ Z.of_nat n ->
  gf2_matrix_times (map (fun n => L (Z.shiftl 1 n)) (seqZ s (Z.of_nat n))) v sum
  = Z.lxor sum (L (Z.shiftl v s)).
Proof.
  intros HL. revert s v sum. induction n as [| n IH]; intros s v sum Hs Hv.
  - assert (v = 0) as -> by (simpl in Hv; lia). rewrite Z.shiftl_0_l, linear_0, Z.lxor_0_r by done. done.
  - rewrite seqZ_cons by lia.
    replace (Z.pred (Z.of_nat (S n))) with (Z.of_nat n) by lia. cbn [map gf2_matrix_times].
    case_bool_decide as Hv0.
    { subst v. by rewrite Z.shiftl_0_l, linear_0, Z.lxor_0_r. }
    rewrite <- Z.add_1_r, IH; [| lia |].
    2:{ rewrite Nat2Z.inj_succ, Z.pow_succ_r in Hv by lia.
        rewrite Z.shiftr_div_pow2 by lia. change (2 ^ 1) with 2. Z.div_mod_to_equations; lia. }
    rewrite (split_low1 v s) by done. rewrite HL.
    rewrite (Z.land_ones _ 1) by lia. change (2 ^ 1) with 2. rewrite <- Z.bit0_mod.
    destruct (Z.testbit v 0); cbn [Z.b2z].
    + rewrite bool_decide_eq_true_2 by lia. by rewrite Z.lxor_assoc.
    + rewrite bool_decide_eq_false_2 by lia. by rewrite Z.shiftl_0_l, (linear_0 L HL), Z.lxor_0_l.
Qed.

Lemma times_mat_of L v : linear L -> is32 v -> gf2_matrix_times (mat_of L) v 0 = L v.
Proof.
  intros HL Hv. unfold mat_of. rewrite (times_from L 32 0) by (done || lia).
  by rewrite Z.shiftl_0_r, Z.lxor_0_l.
Qed.

Lemma square_mat_of L : linear L -> maps32 L -> gf2_matrix_square (mat_of L) = mat_of (fun x => L (L x)).
Proof.
  intros HL HR. unfold gf2_matrix_square. unfold mat_of at 2 3. rewrite map_map.
  apply map_ext_in. intros n Hn%list_elem_of_In%elem_of_seqZ.
  apply times_mat_of; [done |]. apply HR. unfold is32. rewrite Z.shiftl_1_l.
  pose proof (Z.pow_pos_nonneg 2 n). pose proof (Z.pow_lt_mono_r 2 n 32). lia.
Qed.

(** The operator that appends [p] zero bits. *)
Definition zbits (p : nat) : Z -> Z := Nat.iter p crc_bit.

Lemma zbits_linear p : linear (zbits p).
Proof. apply linear_iter, crc_bit_linear. Qed.
Lemma zbits_maps32 p : maps32 (zbits p).
Proof. intros x Hx. apply iter_range; auto using crc_bit_range. Qed.

Lemma mat_of_ext L L' : (forall x, L x = L' x) -> mat_of L = mat_of L'.
Proof. intros H. apply map_ext. auto. Qed.

Lemma square_zbits p : gf2_matrix_square (mat_of (zbits p)) = mat_of (zbits (p + p)).
Proof.
  rewrite square_mat_of by auto using zbits_linear, zbits_maps32.
  apply mat_of_ext. intros x. unfold zbits. by rewrite Nat.iter_add.
Qed.

Lemma shiftr_pow2 m : Z.shiftr (2 ^ Z.of_nat (S m)) 1 = 2 ^ Z.of_nat m.
Proof.
  rewrite Z.shiftr_div_pow2 by lia. change (2 ^ 1) with 2.
  rewrite Nat2Z.inj_succ, Z.pow_succ_r, Z.mul_comm, Z.div_mul by lia. done.
Qed.

Lemma zeros_loop_ok fuel p m :
  (m < 2 * fuel)%nat ->
  zeros_loop fuel (mat_of (zbits p)) (2 ^ Z.of_nat m) = mat_of (zbits (2 * p * 2 ^ m)).
Proof.
  revert p m. induction fuel as [| fuel IH]; intros p m Hm; [lia |].
  cbn [zeros_loop]. rewrite square_zbits. destruct m as [| m].
  { change (Z.shiftr (2 ^ Z.of_nat 0) 1) with 0. rewrite bool_decide_eq_true_2 by done.
    do 2 f_equal. rewrite Nat.pow_0_r. lia. }
  rewrite shiftr_pow2, bool_decide_eq_false_2 by (pose proof (Z.pow_pos_nonneg 2 (Z.of_nat m)); lia).
  rewrite square_zbits. destruct m as [| m].
  { change (Z.shiftr (2 ^ Z.of_nat 0) 1) with 0. rewrite bool_decide_eq_true_2 by done.
    do 2 f_equal. rewrite Nat.pow_1_r. lia. }
  rewrite shiftr_pow2, bool_decide_eq_false_2 by (pose proof (Z.pow_pos_nonneg 2 (Z.of_nat m)); lia).
  rewrite IH by lia. do 2 f_equal. rewrite !Nat.pow_succ_r'. lia.
Qed.

#[local] Transparent crc_bit.
Lemma odd_is_zbits1 : POLY :: map (fun n => Z.shiftl 1 n) (seqZ 0 31) = mat_of (zbits 1).
Proof. vm_compute. reflexivity. Qed.
#[local] Opaque crc_bit.

Lemma zeros_op_ok m :
  (m < 64)%nat -> crc32c_zeros_op (2 ^ Z.of_nat m) = mat_of (Nat.iter (2 ^ m) F).
Proof.
  intros Hm. unfold crc32c_zeros_op. rewrite odd_is_zbits1, !square_zbits, zeros_loop_ok by lia.
  apply mat_of_ext. intros x. symmetry. apply iter_F.
Qed.

Lemma ztbl_ok len j i :
  (j < 4)%nat -> 0 <= i < 256 ->
  ztbl (crc32c_zeros len) j i = gf2_matrix_times (crc32c_zeros_op len) (u32 (Z.shiftl i (8 * Z.of_nat j))) 0.
Proof.
  intros Hj Hi. unfold ztbl, crc32c_zeros. generalize (crc32c_zeros_op len) as op. intros op.
  assert (map (fun j => map (fun n => gf2_matrix_times op (u32 (Z.shiftl n (8 * j))) 0) (seqZ 0 256)) (seqZ 0 4) !! j
    = Some (map (fun n => gf2_matrix_times op (u32 (Z.shiftl n (8 * Z.of_nat j))) 0) (seqZ 0 256))) as ->.
  { rewrite list_lookup_fmap_Some. exists (Z.of_nat j). split; [done |]. apply lookup_seqZ. lia. }
  cbn [from_option id].
  by rewrite (lookup_table (fun n => gf2_matrix_times op (u32 (Z.shiftl n (8 * Z.of_nat j))) 0)).
Qed.

Lemma shift_byte_range i j : 0 <= i < 256 -> (j < 4)%nat -> is32 (Z.shiftl i (8 * Z.of_nat j)).
Proof.
  intros Hi Hj. unfold is32. rewrite Z.shiftl_mul_pow2 by lia.
  pose proof (Z.pow_pos_nonneg 2 (8 * Z.of_nat j)).
  pose proof (Z.pow_le_mono_r 2 (8 * Z.of_nat j) 24). nia.
Qed.

Lemma split_bytes c :
  c = Z.lxor (Z.land c 255) (Z.lxor (Z.shiftl (Z.land (Z.shiftr c 8) 255) 8)
       (Z.lxor (Z.shiftl (Z.land (Z.shiftr c 16) 255) 16) (Z.shiftl (Z.shiftr c 24) 24))).
Proof.
  rewrite (split_low8 c) at 1. f_equal.
  etransitivity; [apply (f_equal (fun z => Z.shiftl z 8)), (split_low8 (Z.shiftr c 8)) |].
  rewrite Z.shiftl_lxor, !Z.shiftr_shiftr, Z.shiftl_shiftl by lia. f_equal. change (8 + 8) with 16.
  etransitivity; [apply (f_equal (fun z => Z.shiftl z 16)), (split_low8 (Z.shiftr c 16)) |].
  by rewrite Z.shiftl_lxor, !Z.shiftr_shiftr, Z.shiftl_shiftl by lia.
Qed.

(** [crc32c_shift] appends [2^m] zero bytes to a checksum. *)
Lemma crc32c_shift_ok m c :
  (m < 64)%nat -> is32 c -> crc32c_shift (crc32c_zeros (2 ^ Z.of_nat m)) c = Nat.iter (2 ^ m) F c.
Proof.
  intros Hm Hc. pose proof (linear_iter F (2 ^ m) F_linear) as HL.
  assert (0 <= Z.shiftr c 24 < 256) as H24.
  { unfold is32 in Hc. rewrite Z.shiftr_div_pow2 by lia. Z.div_mod_to_equations; lia. }
  unfold crc32c_shift.
  rewrite !ztbl_ok by (lia || auto using land_255_range).
  rewrite !u32_small by (apply shift_byte_range; [auto using land_255_range | lia]).
  rewrite !zeros_op_ok, !times_mat_of by first [done | apply shift_byte_range; [auto using land_255_range | lia]].
  rewrite <- !HL. f_equal. change (8 * Z.of_nat 0) with 0. rewrite Z.shiftl_0_r.
  rewrite !Z.lxor_assoc. symmetry. apply split_bytes.
Qed.

Lemma crc_bytes_cons c b bs : crc_bytes c (b :: bs) = crc_bytes (F (Z.lxor c b)) bs.
Proof. done. Qed.

Lemma crc_bytes_lxor c d bs :
  crc_bytes (Z.lxor c d) bs = Z.lxor (Nat.iter (length bs) F c) (crc_bytes d bs).
Proof.
  revert c d. induction bs as [| b bs IH]; intros c d; [done |].
  cbn [length]. rewrite Nat.iter_succ_r, !crc_bytes_cons.
  rewrite Z.lxor_assoc, F_linear. rewrite IH. done.
Qed.

(** Joining a checksum with one computed from a zero register. *)
Lemma crc_bytes_join c bs :
  crc_bytes c bs = Z.lxor (Nat.iter (length bs) F c) (crc_bytes 0 bs).
Proof. rewrite <- crc_bytes_lxor. by rewrite Z.lxor_0_r. Qed.

(** ** The routine for the crc32 instructions *)

(** What the processor manual says of the instructions: [crc32b] feeds eight
    bits to the register, [crc32q] feeds sixty-four. *)
Record crc32_instructions (crc32b crc32q : Z -> Z -> Z) : Prop := {
  crc32b_doc : forall c b, 0 <= c < 2 ^ 32 -> 0 <= b < 256 ->
    crc32b c b = Nat.iter 8 crc_bit (Z.lxor c b);
  crc32q_doc : forall c w, 0 <= c < 2 ^ 32 -> 0 <= w < 2 ^ 64 ->
    crc32q c w = Nat.iter 64 crc_bit (Z.lxor c w) }.

Section HardwareProofs.
Context (crc32b crc32q : Z -> Z -> Z).
Hypothesis Hinstr : crc32_instructions crc32b crc32q.

Lemma crc32b_F c b : is32 c -> 0 <= b < 256 -> crc32b c b = F (Z.lxor c b).
Proof. intros. by apply Hinstr. Qed.

Lemma crc32q_bytes c w :
  is32 c -> is_bytes w -> length w = 8%nat -> crc32q c (le_word w) = crc_bytes c w.
Proof.
  intros Hc Hw Hl. pose proof (le_word_range w Hw) as Hr. rewrite Hl in Hr.
  rewrite (crc32q_doc _ _ Hinstr) by done. rewrite <- crc_iter_word, Hl by done.
  by rewrite iter_F.
Qed.

Lemma three_streams_ok n c0 c1 c2 b0 b1 b2 :
  is32 c0 -> is32 c1 -> is32 c2 -> is_bytes b0 -> is_bytes b1 -> is_bytes b2 ->
  (8 * n <= length b0)%nat -> (8 * n <= length b1)%nat -> (8 * n <= length b2)%nat ->
  three_streams crc32q n c0 c1 c2 b0 b1 b2
  = (crc_bytes c0 (take (8 * n) b0), crc_bytes c1 (take (8 * n) b1), crc_bytes c2 (take (8 * n) b2)).
Proof.
  revert c0 c1 c2 b0 b1 b2. induction n as [| n IH]; intros c0 c1 c2 b0 b1 b2 R0 R1 R2 B0 B1 B2 L0 L1 L2.
  { by rewrite Nat.mul_0_r. }
  cbn [three_streams].
  rewrite !crc32q_bytes by (auto with bits; rewrite length_take; lia).
  rewrite IH by (auto with bits; rewrite ?length_drop; lia).
  assert (forall c b, crc_bytes c (take (8 * S n) b) = crc_bytes (crc_bytes c (take 8 b)) (take (8 * n) (drop 8 b)))
    as Hsplit.
  { intros c b. rewrite <- crc_bytes_app. f_equal. replace (8 * S n)%nat with (8 + 8 * n)%nat by lia.
    by rewrite take_take_drop. }
  by rewrite !Hsplit.
Qed.

(** Three blocks at once: shift-and-join gives the sequential checksum. *)
Lemma block_loop_ok m q fuel c bs :
  (m < 64)%nat -> (2 ^ m = 8 * q)%nat -> is32 c -> is_bytes bs ->
  residue c bs (block_loop crc32q (2 ^ m) (crc32c_zeros (2 ^ Z.of_nat m)) fuel c bs).
Proof.
  intros Hm Hq. assert (2 ^ m <> 0)%nat as Hnz by (apply Nat.pow_nonzero; lia).
  remember (2 ^ m)%nat as blk eqn:Eblk.
  revert c bs. induction fuel as [| fuel IH]; intros c bs Hc Hb; [done |].
  cbn [block_loop]. case_bool_decide as Hlen; [| done].
  assert (is32 0) as R0 by (unfold is32; lia).
  replace (blk / 8)%nat with q by (rewrite Hq, Nat.mul_comm, Nat.div_mul; lia).
  rewrite three_streams_ok by (auto with bits; rewrite ?length_drop; lia).
  rewrite <- Hq. set (A := take blk bs). set (B := take blk (drop blk bs)).
  set (C := take blk (drop (2 * blk) bs)).
  assert (is_bytes A /\ is_bytes B /\ is_bytes C) as (HA & HB & HC) by (unfold A, B, C; auto with bits).
  assert (length B = blk /\ length C = blk) as [LB LC].
  { unfold B, C. rewrite !length_take, !length_drop. lia. }
  assert (Z.lxor (crc32c_shift (crc32c_zeros (2 ^ Z.of_nat m)) (crc_bytes c A)) (crc_bytes 0 B)
    = crc_bytes (crc_bytes c A) B) as ->.
  { rewrite crc32c_shift_ok, <- Eblk, (crc_bytes_join (crc_bytes c A) B), LB by auto with bits. done. }
  assert (Z.lxor (crc32c_shift (crc32c_zeros (2 ^ Z.of_nat m)) (crc_bytes (crc_bytes c A) B)) (crc_bytes 0 C)
    = crc_bytes (crc_bytes (crc_bytes c A) B) C) as ->.
  { rewrite crc32c_shift_ok, <- Eblk, (crc_bytes_join (crc_bytes (crc_bytes c A) B) C), LC by auto with bits. done. }
  rewrite <- !crc_bytes_app.
  destruct (IH (crc_bytes c (A ++ B ++ C)) (drop (3 * blk) bs)) as (E & R & S').
  { apply crc_bytes_range; [done |]. unfold is_bytes. rewrite !Forall_app. done. }
  { auto with bits. }
  split; [| done]. rewrite E, <- crc_bytes_app. f_equal. rewrite <- !app_assoc.
  transitivity (A ++ drop blk bs); [| apply take_drop]. f_equal.
  transitivity (B ++ drop blk (drop blk bs)); [| apply take_drop]. f_equal.
  replace (drop blk (drop blk bs)) with (drop (2 * blk) bs) by (rewrite drop_drop; f_equal; lia).
  transitivity (C ++ drop blk (drop (2 * blk) bs)); [| apply take_drop]. f_equal.
  rewrite drop_drop. f_equal. lia.
Qed.

Lemma crc32c_hw_ref crc addr buf :
  is32 crc -> is_bytes buf -> crc32c_hw crc32b crc32q crc addr buf = crc_ref crc buf.
Proof.
  intros Hc Hb. unfold crc32c_hw, crc_ref.
  pose proof (align_loop_ok crc32b addr (Z.lxor crc 0xffffffff) buf crc32b_F) as Ha.
  destruct (align_loop _ _ _ _) as [[? c1] b1].
  destruct Ha as (E1 & R1 & B1); auto with bits. simpl in E1, R1, B1.
  assert (LONG = 2 ^ 13)%nat as -> by (vm_compute; reflexivity).
  unfold crc32c_long. change 8192 with (2 ^ Z.of_nat 13).
  assert (2 ^ 13 = 8 * 2 ^ 10)%nat as H13 by (vm_compute; reflexivity).
  destruct (block_loop_ok 13 (2 ^ 10) (length b1) c1 b1 ltac:(lia) H13 R1 B1) as (E2 & R2 & B2).
  destruct (block_loop _ _ _ _ _ b1) as [c2 b2]. simpl in E2, R2, B2.
  assert (SHORT = 2 ^ 8)%nat as -> by (vm_compute; reflexivity).
  unfold crc32c_short. change 256 with (2 ^ Z.of_nat 8).
  assert (2 ^ 8 = 8 * 2 ^ 5)%nat as H8 by (vm_compute; reflexivity).
  destruct (block_loop_ok 8 (2 ^ 5) (length b2) c2 b2 ltac:(lia) H8 R2 B2) as (E3 & R3 & B3).
  destruct (block_loop _ _ _ _ _ b2) as [c3 b3]. simpl in E3, R3, B3.
  destruct (quad_loop_ok (fun crc w => crc32q crc (le_word w)) (length b3) c3 b3) as (E4 & R4 & B4);
    auto using crc32q_bytes.
  destruct (quad_loop _ _ _ _) as [c4 b4]. simpl in E4, R4, B4.
  rewrite (fold_step_ok crc32b) by auto using crc32b_F.
  rewrite u32_small; [congruence |]. by apply crc_bytes_range.
Qed.

Lemma crc32c_ref sse42 crc addr buf :
  is32 crc -> is_bytes buf -> crc32c crc32b crc32q sse42 crc addr buf = crc_ref crc buf.
Proof. intros. destruct sse42; [by apply crc32c_hw_ref | by apply crc32c_sw_ref]. Qed.
End HardwareProofs.

(** ** Composition, padding and journal entries *)

Lemma crc_ref_range c bs : is32 c -> is_bytes bs -> is32 (crc_ref c bs).
Proof. intros. unfold crc_ref. auto with bits. Qed.

Lemma crc_ref_app c bs1 bs2 : crc_ref (crc_ref c bs1) bs2 = crc_ref c (bs1 ++ bs2).
Proof.
  unfold crc_ref. by rewrite Z.lxor_assoc, Z.lxor_nilpotent, Z.lxor_0_r, crc_bytes_app.
Qed.

Lemma crc_ref_nil c : crc_ref c [] = c.
Proof. unfold crc_ref, crc_bytes. simpl. by rewrite Z.lxor_assoc, Z.lxor_nilpotent, Z.lxor_0_r. Qed.

Definition zeros (n : Z) : list Z := replicate (Z.to_nat n) 0.

Lemma zeros_bytes n : is_bytes (zeros n).
Proof. apply Forall_replicate. lia. Qed.
#[local] Hint Resolve zeros_bytes crc_ref_range : bits.

Lemma zeros_app n m : 0 <= n -> 0 <= m -> zeros n ++ zeros m = zeros (n + m).
Proof. intros. unfold zeros. by rewrite <- replicate_add, Z2Nat.inj_add. Qed.

Lemma take_zero_page n : 0 <= n < 4096 -> take (Z.to_nat n) zero_page = zeros n.
Proof. intros. unfold zero_page, zeros. rewrite take_replicate. f_equal. lia. Qed.

Section Padding.
Context (crc32b crc32q : Z -> Z -> Z).
Hypothesis Hinstr : crc32_instructions crc32b crc32q.

Lemma crc32c_range sse42 crc addr buf :
  is32 crc -> is_bytes buf -> is32 (crc32c crc32b crc32q sse42 crc addr buf).
Proof. intros. rewrite (crc32c_ref _ _ Hinstr) by done. auto with bits. Qed.
#[local] Hint Resolve crc32c_range : bits.

Lemma pad_loop_ok sse42 page_addr fuel r pad :
  is32 r -> 0 <= pad -> Z.to_nat (pad / 4096) = fuel ->
  pad_loop crc32b crc32q sse42 page_addr fuel r pad
  = (crc_ref r (zeros (pad - pad mod 4096)), pad mod 4096).
Proof.
  revert r pad. induction fuel as [| fuel IH]; intros r pad Hr Hp Hf; cbn [pad_loop].
  { assert (0 <= pad < 4096) by (Z.div_mod_to_equations; lia).
    rewrite (Z.mod_small pad) by done. by rewrite Z.sub_diag, crc_ref_nil. }
  rewrite bool_decide_eq_true_2 by (Z.div_mod_to_equations; lia).
  change zero_page with (zeros 4096).
  rewrite (crc32c_ref _ _ Hinstr) by auto with bits.
  rewrite IH by (auto with bits; Z.div_mod_to_equations; lia).
  assert ((pad - 4096) mod 4096 = pad mod 4096) as -> by (Z.div_mod_to_equations; lia).
  rewrite crc_ref_app, zeros_app by (Z.div_mod_to_equations; lia).
  by replace (4096 + (pad - 4096 - pad mod 4096)) with (pad - pad mod 4096) by lia.
Qed.

Lemma crc32c_pad_ref sse42 page_addr prev addr buf left_pad right_pad :
  is32 prev -> is_bytes buf -> 0 <= left_pad -> 0 <= right_pad ->
  crc32c_pad crc32b crc32q sse42 page_addr prev addr buf left_pad right_pad
  = crc_ref prev (zeros left_pad ++ buf ++
      zeros (if decide (left_pad mod 4096 = 0) then right_pad - right_pad mod 4096 else right_pad)).
Proof.
  intros Hp Hb Hl Hr. unfold crc32c_pad. rewrite pad_loop_ok by done.
  pose proof (Z.mod_pos_bound left_pad 4096 ltac:(lia)).
  pose proof (Z.mod_pos_bound right_pad 4096 ltac:(lia)).
  pose proof (Z.mod_le left_pad 4096). pose proof (Z.mod_le right_pad 4096).
  rewrite (take_zero_page (left_pad mod 4096)) by done.
  case_bool_decide; case_decide; try lia.
  - rewrite !(crc32c_ref _ _ Hinstr) by auto with bits.
    rewrite pad_loop_ok by auto with bits.
    rewrite (take_zero_page (right_pad mod 4096)), (crc32c_ref _ _ Hinstr) by auto 9 with bits.
    rewrite !crc_ref_app, (app_assoc (zeros _) (zeros _) (buf ++ _)), !zeros_app by lia.
    f_equal. f_equal; [f_equal; lia |]. f_equal. f_equal. lia.
  - rewrite !(crc32c_ref _ _ Hinstr) by auto with bits.
    rewrite pad_loop_ok by auto with bits.
    rewrite !crc_ref_app, <- ?app_assoc. f_equal. f_equal. f_equal. lia.
Qed.
End Padding.

(** C39: Both routines compute CRC-32C: the table-driven one, and the three-stream one with crc32 instructions that do what
    the processor manual says, give what the bit-by-bit definition gives, for any buffer, alignment and previous checksum.
    So checksums can be computed piecewise, and a piece computed by one routine can be continued by the other. *)
Theorem crc32c_ok (crc32b crc32q : Z -> Z -> Z) (s1 s2 : bool) (crc a1 a2 : Z) (buf1 buf2 : list Z) :
  crc32_instructions crc32b crc32q -> 0 <= crc < 2 ^ 32 ->
  Forall (fun b => 0 <= b < 256) buf1 -> Forall (fun b => 0 <= b < 256) buf2 ->
  crc32c crc32b crc32q s1 crc a1 buf1 = crc_ref crc buf1 /\
  crc32c crc32b crc32q s2 (crc32c crc32b crc32q s1 crc a1 buf1) a2 buf2 = crc_ref crc (buf1 ++ buf2).
Proof.
  intros Hi Hc H1 H2. pose proof (crc32c_range _ _ Hi s1 crc a1 buf1 Hc H1) as Hr. rewrite (crc32c_ref _ _ Hi s1 crc a1 buf1 Hc H1) in *.
  split; [done |]. rewrite (crc32c_ref _ _ Hi s2 _ a2 buf2 Hr H2). by rewrite crc_ref_app.
Qed.

(** [crc32c_pad] is the checksum of the buffer between its zero paddings, except
    that a right padding is cut down to a multiple of 4096 bytes whenever the
    left padding is a multiple of 4096 bytes. *)
Theorem crc32c_pad_ok (crc32b crc32q : Z -> Z -> Z) (sse42 : bool) (page_addr prev addr : Z) (buf : list Z)
    (left_pad right_pad : Z) :
  crc32_instructions crc32b crc32q -> 0 <= prev < 2 ^ 32 -> Forall (fun b => 0 <= b < 256) buf ->
  0 <= left_pad -> 0 <= right_pad ->
  crc32c_pad crc32b crc32q sse42 page_addr prev addr buf left_pad right_pad
  = crc_ref prev (zeros left_pad ++ buf ++
      zeros (if decide (left_pad mod 4096 = 0) then right_pad - right_pad mod 4096 else right_pad)).
Proof. intros H. apply (crc32c_pad_ref _ _ H). Qed.

(** The checksum of a journal entry is the CRC-32C of the whole entry with its
    own checksum field read as zero. *)
Theorem je_crc32_ok (crc32b crc32q : Z -> Z -> Z) (sse42 : bool) (addr : Z) (je : list Z) (size : nat) :
  crc32_instructions crc32b crc32q -> Forall (fun b => 0 <= b < 256) je ->
  (4 <= size <= length je)%nat ->
  je_crc32 crc32b crc32q sse42 addr je size = crc_ref 0 (replicate 4 0 ++ drop 4 (take size je)).
Proof.
  intros Hi Hb Hs. unfold je_crc32.
  rewrite (crc32c_ref _ _ Hi); [| unfold is32; lia | by apply is_bytes_take, is_bytes_drop].
  assert (crc_ref 0 (replicate 4 0) = 0x48674bc7) as E by (vm_compute; reflexivity).
  rewrite <- crc_ref_app, E. by rewrite skipn_firstn_comm.
Qed.

(** * Concrete instances: the check string of the CRC catalogue *)

(** The instructions as the manual defines them, and the bytes of 123456789. *)
Definition manual_crc32b (c b : Z) : Z := Nat.iter 8 crc_bit (Z.lxor c b).
Definition manual_crc32q (c w : Z) : Z := Nat.iter 64 crc_bit (Z.lxor c w).
Definition check_string : list Z := [0x31; 0x32; 0x33; 0x34; 0x35; 0x36; 0x37; 0x38; 0x39].

Lemma manual_instructions : crc32_instructions manual_crc32b manual_crc32q.
Proof. by constructor. Qed.
Lemma check_string_bytes : Forall (fun b => 0 <= b < 256) check_string.
Proof. repeat constructor; lia. Qed.

Lemma crc32c_ok_witness :
  crc32c manual_crc32b manual_crc32q false 0 5 check_string = crc_ref 0 check_string /\
  crc32c manual_crc32b manual_crc32q true (crc32c manual_crc32b manual_crc32q false 0 5 check_string) 2 check_string
    = crc_ref 0 (check_string ++ check_string).
Proof.
  apply (crc32c_ok manual_crc32b manual_crc32q false true 0 5 2 check_string check_string);
    [apply manual_instructions | lia | apply check_string_bytes | apply check_string_bytes].
Defined.
Lemma check_value : crc_ref 0 check_string = 0xE3069283.
Proof. vm_compute. reflexivity. Qed.

Lemma crc32c_pad_ok_witness :
  crc32c_pad manual_crc32b manual_crc32q true 0 0 5 check_string 0 7
  = crc_ref 0 (zeros 0 ++ check_string ++ zeros (if decide (0 mod 4096 = 0) then 7 - 7 mod 4096 else 7)).
Proof.
  apply (crc32c_pad_ok manual_crc32b manual_crc32q true 0 0 5 check_string 0 7);
    [apply manual_instructions | lia | apply check_string_bytes | lia | lia].
Defined.

Lemma je_crc32_ok_witness :
  je_crc32 manual_crc32b manual_crc32q true 0 check_string 9
  = crc_ref 0 (replicate 4 0 ++ drop 4 (take 9 check_string)).
Proof.
  apply (je_crc32_ok manual_crc32b manual_crc32q true 0 check_string 9);
    [apply manual_instructions | apply check_string_bytes | simpl; lia].
Defined.
