(* ===== verification/Rmw.v ===== *)
(** Planning of erasure-coded reads and writes (src/src/osd/osd_rmw.cpp): which
    ranges of which chunks ("stripes") a request touches, which extra ranges
    must be read to rebuild missing chunks or to recompute parity, and where the
    read and write buffers are placed.  Pointers are addresses; the set of
    stripes of an object is the array [stripes], one element per role. *)

From S2P Require Import Prelude.

(** * Data *)

Record osd_rmw_stripe_t := mk_stripe {
  read_buf : Z; write_buf : Z; bmp_buf : Z;
  req_start : Z; req_end : Z;
  read_start : Z; read_end : Z;
  write_start : Z; write_end : Z;
  osd_num : Z; role : Z;
  missing : bool; read_error : bool; not_exists : bool }.

Definition stripe0 : osd_rmw_stripe_t := mk_stripe 0 0 0 0 0 0 0 0 0 0 0 false false false.

Definition set_req (s : osd_rmw_stripe_t) (a b : Z) : osd_rmw_stripe_t :=
  mk_stripe (read_buf s) (write_buf s) (bmp_buf s) a b (read_start s) (read_end s)
    (write_start s) (write_end s) (osd_num s) (role s) (missing s) (read_error s) (not_exists s).
Definition set_read (s : osd_rmw_stripe_t) (a b : Z) : osd_rmw_stripe_t :=
  mk_stripe (read_buf s) (write_buf s) (bmp_buf s) (req_start s) (req_end s) a b
    (write_start s) (write_end s) (osd_num s) (role s) (missing s) (read_error s) (not_exists s).
Definition set_write (s : osd_rmw_stripe_t) (a b : Z) : osd_rmw_stripe_t :=
  mk_stripe (read_buf s) (write_buf s) (bmp_buf s) (req_start s) (req_end s) (read_start s) (read_end s)
    a b (osd_num s) (role s) (missing s) (read_error s) (not_exists s).
Definition set_missing (s : osd_rmw_stripe_t) : osd_rmw_stripe_t :=
  mk_stripe (read_buf s) (write_buf s) (bmp_buf s) (req_start s) (req_end s) (read_start s) (read_end s)
    (write_start s) (write_end s) (osd_num s) (role s) true (read_error s) (not_exists s).
Definition set_read_buf (s : osd_rmw_stripe_t) (p : Z) : osd_rmw_stripe_t :=
  mk_stripe p (write_buf s) (bmp_buf s) (req_start s) (req_end s) (read_start s) (read_end s)
    (write_start s) (write_end s) (osd_num s) (role s) (missing s) (read_error s) (not_exists s).
Definition set_write_buf (s : osd_rmw_stripe_t) (p : Z) : osd_rmw_stripe_t :=
  mk_stripe (read_buf s) p (bmp_buf s) (req_start s) (req_end s) (read_start s) (read_end s)
    (write_start s) (write_end s) (osd_num s) (role s) (missing s) (read_error s) (not_exists s).

(** [stripes[i]], [osd_set[i]] and an update of [stripes[i]]. *)
Definition sget (st : list osd_rmw_stripe_t) (i : nat) : osd_rmw_stripe_t := default stripe0 (st !! i).
Definition oget (set : list Z) (i : nat) : Z := default 0 (set !! i).
Definition supd (st : list osd_rmw_stripe_t) (i : nat) (f : osd_rmw_stripe_t -> osd_rmw_stripe_t)
    : list osd_rmw_stripe_t := alter f i st.

(** * Operations *)

Definition extend_read (start end_ : Z) (s : osd_rmw_stripe_t) : osd_rmw_stripe_t :=
  if bool_decide (end_ = UINT32_MAX) then
    (* only the bitmap is needed *)
    if bool_decide (read_end s = 0) then set_read s 0 UINT32_MAX else s
  else if bool_decide (read_end s = UINT32_MAX) then
    if bool_decide (end_ > 0) then set_read s start end_ else s
  else if bool_decide (read_end s = 0) then set_read s start end_
  else
    let s := if bool_decide (read_end s < end_) then set_read s (read_start s) end_ else s in
    if bool_decide (read_start s > start) then set_read s start (read_end s) else s.

(** The part of [start, end) that the request does not overwrite. *)
Definition uncovered (start end_ : Z) (s : osd_rmw_stripe_t) : Z * Z :=
  if bool_decide (start <= req_start s) && bool_decide (end_ >= req_start s) && bool_decide (end_ <= req_end s)
  then (start, req_start s)
  else if bool_decide (start >= req_start s) && bool_decide (start <= req_end s) && bool_decide (end_ >= req_end s)
  then (req_end s, end_)
  else (start, end_).

Definition cover_read (start end_ : Z) (s : osd_rmw_stripe_t) : osd_rmw_stripe_t :=
  if bool_decide (start >= req_start s) && bool_decide (end_ <= req_end s) then s
  else
    let '(start, end_) := uncovered start end_ s in
    if bool_decide (read_end s = 0) then set_read s start end_
    else
      let s := if bool_decide (read_end s < end_) then set_read s (read_start s) end_ else s in
      if bool_decide (read_start s > start) then set_read s start (read_end s) else s.

Definition split_stripes (pg_minsize : nat) (bs_block_size start len : Z)
    (stripes : list osd_rmw_stripe_t) : list osd_rmw_stripe_t :=
  if bool_decide (len = 0) then stripes
  else
    let end_ := u32 (start + len) in
    foldl (fun st role =>
      let lo := u32 (Z.of_nat role * bs_block_size) in
      let hi := u32 ((1 + Z.of_nat role) * bs_block_size) in
      if bool_decide (start < hi) && bool_decide (end_ > lo) then
        supd st role (fun s => set_req s
          (if bool_decide (start < lo) then 0 else u32 (start - lo))
          (if bool_decide (end_ > hi) then bs_block_size else u32 (end_ - lo)))
      else st) stripes (seq 0 pg_minsize).

(** The inner loop of [extend_missing_stripes]; stops at [pg_minsize] sources. *)
Fixpoint extend_sources (role : nat) (osd_set : list Z) (pg_minsize : nat) (js : list nat)
    (st : list osd_rmw_stripe_t) (nexist : nat) : list osd_rmw_stripe_t * nat :=
  match js with
  | [] => (st, nexist)
  | j :: js =>
    if bool_decide (oget osd_set j <> 0) then
      let r := sget st role in
      let st := supd st j (extend_read (read_start r) (read_end r)) in
      let nexist := S nexist in
      if bool_decide (pg_minsize <= nexist)%nat then (st, nexist)
      else extend_sources role osd_set pg_minsize js st nexist
    else extend_sources role osd_set pg_minsize js st nexist
  end.

Fixpoint extend_missing_loop (osd_set : list Z) (pg_minsize pg_size : nat) (roles : list nat)
    (st : list osd_rmw_stripe_t) : list osd_rmw_stripe_t * Z :=
  match roles with
  | [] => (st, 0)
  | role :: roles =>
    if bool_decide (read_end (sget st role) <> 0) && bool_decide (oget osd_set role = 0) then
      let st := supd st role set_missing in
      let '(st, nexist) := extend_sources role osd_set pg_minsize (seq 0 pg_size) st 0 in
      if bool_decide (nexist < pg_minsize)%nat then (st, -1)
      else extend_missing_loop osd_set pg_minsize pg_size roles st
    else extend_missing_loop osd_set pg_minsize pg_size roles st
  end.

Definition extend_missing_stripes (stripes : list osd_rmw_stripe_t) (osd_set : list Z)
    (pg_minsize pg_size : nat) : list osd_rmw_stripe_t * Z :=
  extend_missing_loop osd_set pg_minsize pg_size (seq 0 pg_minsize) stripes.

(** Bytes of data a stripe reads: none for an unread or bitmap-only stripe. *)
Definition read_len (s : osd_rmw_stripe_t) : Z :=
  if bool_decide (read_end s <> 0) && bool_decide (read_end s <> UINT32_MAX)
  then u32 (read_end s - read_start s) else 0.

(** [alloc_read_buffer], where [buf] is what the allocation of [buf_size] bytes
    returns. *)
Definition read_buf_size (stripes : list osd_rmw_stripe_t) (read_pg_size : nat) (add_size : Z) : Z :=
  foldl (fun buf_size role => u64 (buf_size + read_len (sget stripes role))) add_size (seq 0 read_pg_size).

Definition alloc_read_buffer (buf : Z) (stripes : list osd_rmw_stripe_t) (read_pg_size : nat) (add_size : Z)
    : list osd_rmw_stripe_t :=
  (foldl (fun '(st, buf_pos) role =>
     let s := sget st role in
     if bool_decide (read_end s <> 0) && bool_decide (read_end s <> UINT32_MAX)
     then (supd st role (fun s => set_read_buf s (buf + buf_pos)), u64 (buf_pos + u32 (read_end s - read_start s)))
     else (st, buf_pos)) (stripes, add_size) (seq 0 read_pg_size)).1.

(** ** [calc_rmw], in the order of its steps *)

(** Widening a range to the request range of one more role. *)
Definition hull_step (p : Z * Z) (s : osd_rmw_stripe_t) : Z * Z :=
  if bool_decide (req_end s <> 0)
  then ((if bool_decide (p.2 = 0) || bool_decide (req_start s < p.1) then req_start s else p.1),
        Z.max (req_end s) p.2)
  else p.

(** The range of the request over the data roles; write ranges of data roles. *)
Definition rmw_request (pg_minsize : nat) (st : list osd_rmw_stripe_t) : list osd_rmw_stripe_t * Z * Z :=
  foldl (fun '(st, start, end_) role =>
    let s := sget st role in
    if bool_decide (req_end s <> 0) then
      (supd st role (fun s => set_write s (req_start s) (req_end s)),
       (if bool_decide (end_ = 0) || bool_decide (req_start s < start) then req_start s else start),
       Z.max (req_end s) end_)
    else (st, start, end_)) (st, 0, 0) (seq 0 pg_minsize).

(** Write ranges of parity roles; a moved parity chunk widens the range to the
    whole chunk, also for the parity roles already seen. *)
Definition rmw_parity (read_osd_set write_osd_set : list Z) (pg_size pg_minsize : nat) (chunk_size : Z)
    (st : list osd_rmw_stripe_t) (start end_ : Z) : list osd_rmw_stripe_t * Z * Z * Z :=
  foldl (fun '(st, start, end_, write_parity) role =>
    if bool_decide (oget write_osd_set role <> 0) then
      let '(st, start, end_) :=
        if bool_decide (oget write_osd_set role <> oget read_osd_set role) then
          (foldl (fun st r2 => if bool_decide (oget write_osd_set r2 <> 0)
                               then supd st r2 (fun s => set_write s 0 (u32 chunk_size)) else st)
             st (seq pg_minsize (role - pg_minsize)),
           0, u32 chunk_size)
        else (st, start, end_) in
      (supd st role (fun s => set_write s start end_), start, end_, write_parity + 1)
    else (st, start, end_, write_parity)) (st, start, end_, 0) (seq pg_minsize (pg_size - pg_minsize)).

(** Ranges of data roles that parity needs, and their bitmaps. *)
Definition rmw_cover (pg_minsize : nat) (chunk_size start end_ : Z) (st : list osd_rmw_stripe_t)
    : list osd_rmw_stripe_t :=
  foldl (fun st role =>
    supd st role (fun s =>
      let s := cover_read start end_ s in
      if bool_decide (read_end s = 0) && (bool_decide (req_start s <> 0) || bool_decide (req_end s <> chunk_size))
      then set_read s (read_start s) UINT32_MAX else s)) st (seq 0 pg_minsize).

(** Whole chunks of moved data roles, and the number of readable chunks. *)
Definition rmw_moved (read_osd_set write_osd_set : list Z) (pg_size pg_minsize : nat) (chunk_size : Z)
    (st : list osd_rmw_stripe_t) : list osd_rmw_stripe_t * nat :=
  foldl (fun '(st, cursize) role =>
    let s := sget st role in
    let st :=
      if bool_decide (role < pg_minsize)%nat && bool_decide (oget write_osd_set role <> oget read_osd_set role) &&
         bool_decide (oget write_osd_set role <> 0) &&
         (bool_decide (req_start s <> 0) || bool_decide (req_end s <> chunk_size))
      then supd st role (fun s => set_read s 0 (u32 chunk_size)) else st in
    (st, if bool_decide (oget read_osd_set role <> 0) then S cursize else cursize)) (st, 0%nat) (seq 0 pg_size).

(** [for (r2 = 0; r2 < pg_size && found < pg_minsize; r2++)] *)
Fixpoint rmw_sources (role : nat) (read_osd_set : list Z) (pg_minsize : nat) (r2s : list nat)
    (st : list osd_rmw_stripe_t) (found : nat) : list osd_rmw_stripe_t * nat :=
  match r2s with
  | [] => (st, found)
  | r2 :: r2s =>
    if bool_decide (found < pg_minsize)%nat then
      if bool_decide (oget read_osd_set r2 <> 0) then
        let r := sget st role in
        rmw_sources role read_osd_set pg_minsize r2s (supd st r2 (extend_read (read_start r) (read_end r))) (S found)
      else rmw_sources role read_osd_set pg_minsize r2s st found
    else (st, found)
  end.

Fixpoint rmw_missing (read_osd_set : list Z) (pg_size pg_minsize : nat) (roles : list nat)
    (st : list osd_rmw_stripe_t) : option (list osd_rmw_stripe_t) :=
  match roles with
  | [] => Some st
  | role :: roles =>
    if bool_decide (oget read_osd_set role = 0) then
      let st := supd st role set_missing in
      if bool_decide (read_end (sget st role) <> 0) then
        let '(st, found) := rmw_sources role read_osd_set pg_minsize (seq 0 pg_size) st 0 in
        if bool_decide (found < pg_minsize)%nat then None
        else rmw_missing read_osd_set pg_size pg_minsize roles st
      else rmw_missing read_osd_set pg_size pg_minsize roles st
    else rmw_missing read_osd_set pg_size pg_minsize roles st
  end.

(** Write buffers: consecutive pieces of the request for data roles,
    consecutive pieces of the new buffer for parity roles. *)
Definition rmw_write_bufs (request_buf rmw_buf : Z) (write_osd_set : list Z) (pg_size pg_minsize : nat)
    (start end_ : Z) (st : list osd_rmw_stripe_t) : list osd_rmw_stripe_t :=
  (foldl (fun '(st, buf_pos, in_pos) role =>
     let s := sget st role in
     if bool_decide (req_end s <> 0) then
       (supd st role (fun s => set_write_buf s (request_buf + in_pos)), buf_pos, u64 (in_pos + u32 (req_end s - req_start s)))
     else if bool_decide (pg_minsize <= role)%nat && bool_decide (oget write_osd_set role <> 0) && bool_decide (end_ <> 0) then
       (supd st role (fun s => set_write_buf s (rmw_buf + buf_pos)), u64 (buf_pos + u32 (end_ - start)), in_pos)
     else (st, buf_pos, in_pos)) (st, 0, 0) (seq 0 pg_size)).1.1.

(** [calc_rmw]: [same_set] is the pointer comparison [write_osd_set == read_osd_set];
    [rmw_buf] is what the allocation returns.  [None] stands for the [NULL] result. *)
Definition calc_rmw (request_buf rmw_buf : Z) (stripes : list osd_rmw_stripe_t) (read_osd_set : list Z)
    (pg_size pg_minsize pg_cursize : nat) (write_osd_set : list Z) (same_set : bool) (chunk_size : Z)
    : option (list osd_rmw_stripe_t) :=
  let '(st, start, end_) := rmw_request pg_minsize stripes in
  let '(st, start, end_, write_parity) :=
    rmw_parity read_osd_set write_osd_set pg_size pg_minsize chunk_size st start end_ in
  let st := if bool_decide (write_parity <> 0) then rmw_cover pg_minsize chunk_size start end_ st else st in
  let '(st, pg_cursize) :=
    if same_set then (st, pg_cursize)
    else rmw_moved read_osd_set write_osd_set pg_size pg_minsize chunk_size st in
  match (if bool_decide (pg_cursize < pg_size)%nat
         then rmw_missing read_osd_set pg_size pg_minsize (seq 0 pg_size) st else Some st) with
  | None => None
  | Some st =>
    let st := alloc_read_buffer rmw_buf st pg_size (u32 (write_parity * u32 (end_ - start))) in
    Some (rmw_write_bufs request_buf rmw_buf write_osd_set pg_size pg_minsize start end_ st)
  end.

(** * Arrays of stripes *)

Lemma length_supd st i f : length (supd st i f) = length st.
Proof. apply length_alter. Qed.

Lemma sget_supd st i f j :
  (i < length st)%nat -> sget (supd st i f) j = if decide (j = i) then f (sget st i) else sget st j.
Proof.
  intros Hi. unfold sget, supd. case_decide as E.
  - subst. rewrite list_lookup_alter, decide_True by done.
    destruct (lookup_lt_is_Some_2 st i Hi) as [x ->]. done.
  - by rewrite list_lookup_alter_ne by done.
Qed.

Lemma sget_ext st st' :
  length st = length st' -> (forall j, sget st j = sget st' j) -> st = st'.
Proof.
  intros Hl H. apply list_eq_same_length with (length st); [done | done |].
  intros i x y Hi Hx Hy. specialize (H i). unfold sget in H. by rewrite Hx, Hy in H.
Qed.

(** [st'] is [st] with element [r] replaced by [s]. *)
Definition upd1 (st : list osd_rmw_stripe_t) (r : nat) (s : osd_rmw_stripe_t)
    (st' : list osd_rmw_stripe_t) : Prop :=
  length st' = length st /\ forall j, sget st' j = if decide (j = r) then s else sget st j.

Lemma upd1_supd st r f s : (r < length st)%nat -> f (sget st r) = s -> upd1 st r s (supd st r f).
Proof. intros ? <-. split; [apply length_supd | intros; by apply sget_supd]. Qed.
Lemma upd1_id st r : upd1 st r (sget st r) st.
Proof. split; [done | intros j; by case_decide as E; [rewrite E |]]. Qed.

(** A loop over the roles from [a] that changes each element on its own. *)
Lemma own_loop (step : list osd_rmw_stripe_t -> nat -> list osd_rmw_stripe_t)
    (f : nat -> osd_rmw_stripe_t -> osd_rmw_stripe_t) st a n :
  (forall st r, (r < a + n)%nat -> (r < length st)%nat -> upd1 st r (f r (sget st r)) (step st r)) ->
  (a + n <= length st)%nat ->
  let st' := foldl step st (seq a n) in
  length st' = length st /\
  forall j, sget st' j = if decide (a <= j < a + n)%nat then f j (sget st j) else sget st j.
Proof.
  induction n as [| n IH]; intros Hstep Hn; cbv zeta.
  - split; [done | intros j; by rewrite decide_False by lia].
  - rewrite seq_S, foldl_snoc. destruct IH as [Hl Hg]; [intros; apply Hstep; lia | lia |].
    destruct (Hstep (foldl step st (seq a n)) (a + n)%nat) as [Hl' Hg']; [lia | rewrite Hl; lia |].
    split; [by rewrite Hl' |]. intros j. rewrite Hg', !Hg.
    rewrite (decide_False (P := (a <= a + n < a + n)%nat)) by lia.
    destruct (decide (j = a + n)%nat) as [-> |]; [by rewrite decide_True by lia |].
    apply decide_ext. lia.
Qed.

Ltac run_own_loop f Hl Hg :=
  lazymatch goal with
  | |- context [foldl ?g ?st (seq ?a ?n)] => destruct (own_loop g f st a n) as [Hl Hg]
  end.

(** * Ranges *)

(** What a stripe reads: nothing, its bitmap only, or the bytes [a, b). *)
Definition read_range (s : osd_rmw_stripe_t) : Z * Z := (read_start s, read_end s).
Definition range_ok (chunk_size : Z) (p : Z * Z) : Prop :=
  p = (0, 0) \/ p = (0, UINT32_MAX) \/ 0 <= p.1 < p.2 /\ p.2 <= chunk_size.

(** [p] asks for no more than [q]. *)
Definition range_le (p q : Z * Z) : Prop :=
  p.2 = 0 \/ (p.2 = UINT32_MAX /\ q.2 <> 0) \/
  (p.2 <> UINT32_MAX /\ q.2 <> UINT32_MAX /\ q.1 <= p.1 /\ p.2 <= q.2).

(** The stripe reads the byte at [x]. *)
Definition reads (s : osd_rmw_stripe_t) (x : Z) : Prop :=
  read_end s <> UINT32_MAX /\ read_start s <= x < read_end s.

Definition join (p q : Z * Z) : Z * Z :=
  if decide (p.2 = UINT32_MAX) then (if decide (q.2 = 0) then (0, UINT32_MAX) else q)
  else if decide (q.2 = UINT32_MAX) then (if decide (p.2 > 0) then p else q)
  else if decide (q.2 = 0) then p
  else (Z.min p.1 q.1, Z.max p.2 q.2).

Lemma set_read_same s : set_read s (read_start s) (read_end s) = s.
Proof. by destruct s. Qed.

Lemma extend_read_join a b s :
  extend_read a b s = set_read s (join (a, b) (read_range s)).1 (join (a, b) (read_range s)).2.
Proof.
  destruct s; unfold extend_read, join, read_range; simpl.
  repeat case_bool_decide; repeat case_decide; try lia; simpl; rewrite ?set_read_same; try done;
    unfold set_read; simpl in *; f_equal; lia.
Qed.

Section Ranges.
Context (C : Z).
Hypothesis HC : 0 < C < UINT32_MAX.

Ltac ranges :=
  unfold range_ok, range_le, join in *; simpl in *;
  repeat match goal with
  | H : _ \/ _ |- _ => destruct H
  | p : Z * Z |- _ => destruct p
  end; simpl in *; simplify_eq/=; repeat case_decide; simpl; try lia.

Lemma join_ok p q : range_ok C p -> range_ok C q -> range_ok C (join p q).
Proof using HC.
  intros Hp Hq. unfold UINT32_MAX in *. ranges; first [by auto | right; right; simpl; lia].
Qed.
Lemma join_ub_l p q : range_ok C p -> range_ok C q -> range_le p (join p q).
Proof using HC. intros Hp Hq. unfold UINT32_MAX in *. ranges. Qed.
Lemma join_ub_r p q : range_ok C p -> range_ok C q -> range_le q (join p q).
Proof using HC. intros Hp Hq. unfold UINT32_MAX in *. ranges. Qed.
Lemma range_le_refl p : range_ok C p -> range_le p p.
Proof using HC. intros Hp. unfold UINT32_MAX in *. ranges. Qed.
Lemma range_le_trans p q r :
  range_ok C p -> range_ok C q -> range_ok C r -> range_le p q -> range_le q r -> range_le p r.
Proof using HC. intros Hp Hq Hr H1 H2. unfold UINT32_MAX in *. ranges. Qed.
End Ranges.

(** * Splitting a request over the data chunks *)

(** The request range of a data chunk: absent or nonempty and inside the chunk. *)
Definition req_ok (chunk_size : Z) (s : osd_rmw_stripe_t) : Prop :=
  (req_start s = 0 /\ req_end s = 0) \/ (0 <= req_start s < req_end s /\ req_end s <= chunk_size).
Definition requested (s : osd_rmw_stripe_t) (x : Z) : Prop := req_start s <= x < req_end s.

Lemma split_stripes_spec (pg_minsize : nat) (bs start len : Z) st :
  0 < bs -> Z.of_nat pg_minsize * bs < 2 ^ 32 -> 0 <= start -> 0 <= len ->
  start + len <= Z.of_nat pg_minsize * bs -> (pg_minsize <= length st)%nat ->
  (forall r, req_start (sget st r) = 0 /\ req_end (sget st r) = 0) ->
  let st' := split_stripes pg_minsize bs start len st in
  length st' = length st /\
  (forall r, exists a b, sget st' r = set_req (sget st r) a b /\ req_ok bs (sget st' r)) /\
  forall r x, (r < pg_minsize)%nat -> 0 <= x < bs ->
    (requested (sget st' r) x <-> start <= Z.of_nat r * bs + x < start + len).
Proof.
  intros Hbs Hsz Hs Hl Hfit Hlen H0 st'.
  assert (forall s, set_req s (req_start s) (req_end s) = s) as Hid by (by intros []).
  subst st'. unfold split_stripes. case_bool_decide as El.
  { split; [done |]. split.
    - intros r. exists (req_start (sget st r)), (req_end (sget st r)).
      split; [by rewrite Hid | left; apply H0].
    - intros r x _ Hx. unfold requested. destruct (H0 r) as [-> ->]. lia. }
  rewrite (u32_small (start + len)) by lia.
  set (f := fun (r : nat) (s : osd_rmw_stripe_t) =>
    if decide (start < (1 + Z.of_nat r) * bs /\ start + len > Z.of_nat r * bs)
    then set_req s (Z.max 0 (start - Z.of_nat r * bs)) (Z.min bs (start + len - Z.of_nat r * bs)) else s).
  run_own_loop f Hl' Hg; [| exact Hlen | split; [exact Hl' |]].
  { intros st1 r Hr Hr1. unfold f.
    rewrite (u32_small (Z.of_nat r * bs)), (u32_small ((1 + Z.of_nat r) * bs)) by nia.
    case_decide as D.
    - rewrite !(bool_decide_eq_true_2 _ (proj1 D)), !(bool_decide_eq_true_2 _ (proj2 D)). simpl.
      apply upd1_supd; [done |]. f_equal; case_bool_decide; rewrite ?u32_small; lia.
    - replace (_ && _) with false; [apply upd1_id |].
      symmetry. apply andb_false_iff. rewrite !bool_decide_eq_false. lia. }
  split.
  - intros r. rewrite Hg. unfold f. unfold req_ok. repeat case_decide; simpl.
    all: eexists _, _; split; [done || by rewrite Hid |]; simpl.
    + right. nia.
    + left. apply H0.
    + left. apply H0.
  - intros r x Hr Hx. rewrite Hg, decide_True by lia. unfold f, requested. case_decide; simpl; [lia |].
    destruct (H0 r) as [-> ->]. nia.
Qed.
