(* ===== verification/RmwPlan.v ===== *)
(** Correctness of the plans made by src/src/osd/osd_rmw.cpp ([Rmw.v]):
    [extend_missing_stripes] and [calc_rmw].  Every step of [calc_rmw] is given
    a closed form, role by role; the closed forms give the contract [rmw_plan]
    that the parity computation and the reconstruction rely on. *)

From S2P Require Import Prelude.
From S2P Require Import Rmw.

(** * Sources for the reconstruction of missing chunks *)

Definition available (osd_set : list Z) (js : list nat) : list nat := filter (fun j => oget osd_set j <> 0) js.
(** The first [pg_minsize] readable roles. *)
Definition sources (osd_set : list Z) (pg_minsize pg_size : nat) : list nat :=
  take pg_minsize (available osd_set (seq 0 pg_size)).

Lemma elem_of_sources osd_set k n j :
  j ∈ sources osd_set k n -> oget osd_set j <> 0 /\ (j < n)%nat.
Proof.
  intros (i & Hi%list_elem_of_lookup_2 & _)%elem_of_take.
  apply list_elem_of_filter in Hi as [? Hi%elem_of_seq]. split; [done | lia].
Qed.

Lemma rmw_sources_spec role osd_set k js st found :
  NoDup js -> oget osd_set role = 0 -> Forall (fun j => (j < length st)%nat) js -> (found <= k)%nat ->
  let r := sget st role in
  let '(st', found') := rmw_sources role osd_set k js st found in
  length st' = length st /\ found' = Nat.min k (found + length (available osd_set js)) /\
  forall j, sget st' j = if decide (j ∈ take (k - found) (available osd_set js))
                         then extend_read (read_start r) (read_end r) (sget st j) else sget st j.
Proof.
  revert st found. induction js as [| r2 js IH]; intros st found Hnd Hrole Hin Hf; cbv zeta.
  { cbn [rmw_sources]. change (available osd_set []) with (@nil nat). rewrite take_nil.
    split; [done |]. split; [simpl; lia |]. intros j. rewrite decide_False; [done |]. apply not_elem_of_nil. }
  apply NoDup_cons in Hnd as [Hn Hnd]. apply Forall_cons in Hin as [Hr2 Hin].
  cbn [rmw_sources]. case_bool_decide as Hk.
  2:{ split; [done |]. split; [lia |]. intros j. replace (k - found)%nat with 0%nat by lia.
      rewrite decide_False; [done |]. apply not_elem_of_nil. }
  unfold available. case_bool_decide as Ha.
  2:{ rewrite filter_cons_False by auto. apply (IH st found); auto. }
  rewrite filter_cons_True by done.
  set (st2 := supd st r2 _).
  assert (sget st2 role = sget st role) as Er.
  { unfold st2. rewrite sget_supd by done. by rewrite decide_False by (intros ->; congruence). }
  specialize (IH st2 (S found)). cbv zeta in IH. rewrite Er in IH.
  destruct (rmw_sources role osd_set k js st2 (S found)) as [st' found'].
  destruct IH as (Hl & Hc & Hg); [done | done | unfold st2; by rewrite length_supd | lia |].
  split; [rewrite Hl; apply length_supd |]. split; [simpl; unfold available in Hc; lia |].
  intros j. rewrite Hg. replace (k - found)%nat with (S (k - S found)) by lia. simpl take.
  unfold st2. rewrite sget_supd by done.
  destruct (decide (j = r2)) as [-> | Hj].
  - rewrite decide_False, (decide_True (P := (r2 ∈ _))); [done | apply list_elem_of_here |].
    intros (i & Hi%list_elem_of_lookup_2 & _)%elem_of_take. by apply list_elem_of_filter in Hi as [_ Hi].
  - apply decide_ext. rewrite elem_of_cons. naive_solver.
Qed.

(** The inner loop of [extend_missing_stripes] picks the same sources. *)
Lemma extend_sources_eq role osd_set k js st n :
  (n < k)%nat -> extend_sources role osd_set k js st n = rmw_sources role osd_set k js st n.
Proof.
  revert st n. induction js as [| j js IH]; intros st n Hn; [done |].
  cbn [extend_sources rmw_sources]. rewrite (bool_decide_eq_true_2 (n < k)%nat) by done.
  case_bool_decide as Hj; [| by apply IH].
  case_bool_decide as Hk; [| apply IH; lia].
  destruct js; simpl; [done |]. by rewrite bool_decide_eq_false_2 by lia.
Qed.

(** The missing chunks that must be rebuilt, in order. *)
Definition wanted (osd_set : list Z) (st : list osd_rmw_stripe_t) (roles : list nat) : list nat :=
  filter (fun r => oget osd_set r = 0 /\ read_end (sget st r) <> 0) roles.

(** What a readable role reads in the end, when it is a source for [ms]. *)
Definition extended (st : list osd_rmw_stripe_t) (ms : list nat) (s : osd_rmw_stripe_t) : osd_rmw_stripe_t :=
  foldl (fun s m => extend_read (read_start (sget st m)) (read_end (sget st m)) s) s ms.

(** What rebuilding the missing chunks among [ms] does to each stripe. *)
Definition rebuilt (osd_set : list Z) (k n : nat) (ms : list nat) (st : list osd_rmw_stripe_t) (flag : bool)
    (j : nat) : osd_rmw_stripe_t :=
  let s := if flag then set_missing (sget st j) else sget st j in
  if decide (j ∈ sources osd_set k n) then extended st ms s else s.

Lemma extend_read_missing a b s : extend_read a b (set_missing s) = set_missing (extend_read a b s).
Proof. unfold extend_read, set_missing; simpl. by repeat case_bool_decide. Qed.

(** One missing chunk: mark it, then extend the reads of its sources. *)
Lemma rebuild_step osd_set k n role st (Hn : length st = n) :
  (role < n)%nat -> oget osd_set role = 0 ->
  let st1 := supd st role set_missing in
  let '(st', found) := rmw_sources role osd_set k (seq 0 n) st1 0 in
  length st' = n /\ found = Nat.min k (length (available osd_set (seq 0 n))) /\
  forall j, sget st' j = rebuilt osd_set k n [role] st (bool_decide (j = role)) j.
Proof.
  intros Hr Ho st1.
  pose proof (rmw_sources_spec role osd_set k (seq 0 n) st1 0) as H. cbv zeta in H.
  destruct (rmw_sources role osd_set k (seq 0 n) st1 0) as [st' found].
  destruct H as (Hl & Hc & Hg); [apply NoDup_seq | done | | lia |].
  { apply Forall_seq. unfold st1. rewrite length_supd. lia. }
  split; [rewrite Hl; unfold st1; by rewrite length_supd |]. split; [done |].
  intros j. rewrite Hg, Nat.sub_0_r. fold (sources osd_set k n).
  unfold st1, rebuilt, extended. rewrite !sget_supd by lia. rewrite (decide_True (P := role = role)) by done.
  simpl foldl. case_bool_decide as E; [| by rewrite (decide_False (P := j = role)) by done].
  rewrite (decide_True (P := j = role)) by done. subst. done.
Qed.

(** Roles of [roles] that get the [missing] mark. *)
Definition marked (osd_set : list Z) (roles : list nat) (j : nat) : bool :=
  bool_decide (j ∈ roles /\ oget osd_set j = 0).

Lemma rebuilt_missing_range osd_set k n ms st b j :
  oget osd_set j = 0 -> read_range (rebuilt osd_set k n ms st b j) = read_range (sget st j).
Proof.
  intros Ho. unfold rebuilt. rewrite decide_False by (intros []%elem_of_sources; done).
  by destruct b.
Qed.

Lemma extended_set_missing st ms s : extended st ms (set_missing s) = set_missing (extended st ms s).
Proof.
  unfold extended. revert s. induction ms as [| m ms IH]; intros s; [done |].
  simpl. by rewrite extend_read_missing, IH.
Qed.

Lemma extended_ranges st st' ms s :
  Forall (fun m => read_range (sget st' m) = read_range (sget st m)) ms -> extended st' ms s = extended st ms s.
Proof.
  intros H. unfold extended. revert s. induction H as [| m ms Hm _ IH]; intros s; [done |].
  simpl. rewrite IH. unfold read_range in Hm. by injection Hm as -> ->.
Qed.

(** Rebuilding in two rounds is rebuilding in one. *)
Lemma rebuilt_compose osd_set k n ms1 ms2 st st' f1 b j :
  (forall j, sget st' j = rebuilt osd_set k n ms1 st (f1 j) j) ->
  Forall (fun m => oget osd_set m = 0) ms2 ->
  rebuilt osd_set k n ms2 st' b j = rebuilt osd_set k n (ms1 ++ ms2) st (f1 j || b) j.
Proof.
  intros Hst Hms. unfold rebuilt at 1. rewrite Hst.
  assert (forall s, extended st' ms2 s = extended st ms2 s) as He.
  { intros s. apply extended_ranges. eapply Forall_impl; [done |].
    intros m Hm. rewrite Hst. by apply rebuilt_missing_range. }
  unfold rebuilt. case_decide; destruct (f1 j), b; simpl;
    rewrite ?He, ?extended_set_missing; unfold extended; rewrite ?foldl_app; try done;
    try (f_equal; by destruct (foldl _ _ _)).
Qed.

Lemma wanted_ranges osd_set st st' roles :
  (forall j, oget osd_set j = 0 -> read_range (sget st' j) = read_range (sget st j)) ->
  wanted osd_set st' roles = wanted osd_set st roles.
Proof.
  intros H. unfold wanted. apply list_filter_iff. intros r. split; intros [Ho Hr]; (split; [done |]);
    specialize (H r Ho); unfold read_range in H; congruence.
Qed.

Lemma wanted_cons osd_set st role roles :
  wanted osd_set st (role :: roles) =
  if decide (oget osd_set role = 0 /\ read_end (sget st role) <> 0)
  then role :: wanted osd_set st roles else wanted osd_set st roles.
Proof. unfold wanted. rewrite filter_cons. apply decide_ext. tauto. Qed.

Lemma wanted_missing osd_set st roles : Forall (fun m => oget osd_set m = 0) (wanted osd_set st roles).
Proof. apply Forall_forall. intros m [[Hm _] _]%list_elem_of_filter. done. Qed.

Lemma rebuilt_ext osd_set k n ms st b b' j :
  b = b' -> rebuilt osd_set k n ms st b j = rebuilt osd_set k n ms st b' j.
Proof. by intros ->. Qed.

Lemma marked_cons osd_set role roles j :
  oget osd_set role = 0 -> bool_decide (j = role) || marked osd_set roles j = marked osd_set (role :: roles) j.
Proof.
  intros Ho. unfold marked. destruct (decide (j = role)) as [-> | Hj].
  - rewrite (bool_decide_eq_true_2 (role = role)) by done. simpl. symmetry. apply bool_decide_eq_true_2.
    split; [apply list_elem_of_here | done].
  - rewrite (bool_decide_eq_false_2 (j = role)) by done. simpl. apply bool_decide_ext.
    rewrite elem_of_cons. naive_solver.
Qed.

Lemma rmw_missing_spec osd_set k n roles st :
  length st = n -> Forall (fun r => (r < n)%nat) roles ->
  if decide (wanted osd_set st roles <> [] /\ (length (available osd_set (seq 0 n)) < k)%nat)
  then rmw_missing osd_set n k roles st = None
  else exists st', rmw_missing osd_set n k roles st = Some st' /\ length st' = n /\
    forall j, sget st' j = rebuilt osd_set k n (wanted osd_set st roles) st (marked osd_set roles j) j.
Proof.
  revert st. induction roles as [| role roles IH]; intros st Hl Hin.
  { rewrite decide_False by (intros [[] _]; done). exists st. split; [done |]. split; [done |].
    intros j. unfold rebuilt, marked. rewrite bool_decide_eq_false_2; [by case_decide |].
    intros [[]%not_elem_of_nil _]. }
  apply Forall_cons in Hin as [Hr Hin]. cbn [rmw_missing]. case_bool_decide as Ho.
  2:{ rewrite wanted_cons, (decide_False (P := oget osd_set role = 0 /\ _)) by tauto. specialize (IH st Hl Hin).
      case_decide; [done |]. destruct IH as (st' & Hrun & Hl' & Hg). exists st'. repeat (split; [done |]).
      intros j. rewrite Hg. apply rebuilt_ext. unfold marked. apply bool_decide_ext.
      rewrite elem_of_cons. naive_solver. }
  assert (sget (supd st role set_missing) role = set_missing (sget st role)) as ->
    by (rewrite sget_supd by lia; by apply decide_True).
  change (read_end (set_missing (sget st role))) with (read_end (sget st role)).
  destruct (decide (read_end (sget st role) = 0)) as [He | He];
    [rewrite (bool_decide_eq_false_2 (_ <> _)) by tauto | rewrite (bool_decide_eq_true_2 (_ <> _)) by done].
  2:{
    pose proof (rebuild_step osd_set k n role st Hl Hr Ho) as Hs. cbv zeta in Hs.
    destruct (rmw_sources _ _ _ _ _ _) as [st1 found]. destruct Hs as (Hl1 & Hc & Hg1).
    rewrite wanted_cons, (decide_True (P := oget osd_set role = 0 /\ _)) by done.
    destruct (decide (found < k)%nat) as [Hf | Hf]; [| rewrite (bool_decide_eq_false_2 (found < k)%nat) by done].
    { rewrite (bool_decide_eq_true_2 (found < k)%nat), decide_True by (done || (split; [done | lia])). done. }
    rewrite decide_False by lia. specialize (IH st1 Hl1 Hin).
    rewrite decide_False in IH by lia. destruct IH as (st' & Hrun & Hl' & Hg).
    exists st'. repeat (split; [done |]). intros j.
    rewrite Hg, (rebuilt_compose _ _ _ _ _ st st1 _ _ _ Hg1) by apply wanted_missing.
    rewrite marked_cons by done. simpl app.
    apply (f_equal (fun w => rebuilt osd_set k n (role :: w) st (marked osd_set (role :: roles) j) j)).
    apply wanted_ranges.
    intros i Hi. rewrite Hg1. by apply rebuilt_missing_range. }
  - set (st1 := supd st role set_missing).
    assert (forall j, sget st1 j = rebuilt osd_set k n [] st (bool_decide (j = role)) j) as Hg1.
    { intros j. unfold st1, rebuilt, extended. simpl foldl. rewrite sget_supd by lia.
      destruct (decide (j = role)) as [-> | Hj]; [rewrite bool_decide_eq_true_2 by done | rewrite bool_decide_eq_false_2 by done];
        by destruct (decide (_ ∈ sources osd_set k n)). }
    assert (wanted osd_set st1 roles = wanted osd_set st roles) as Hw.
    { apply wanted_ranges. intros i Hi. rewrite Hg1. by apply rebuilt_missing_range. }
    rewrite wanted_cons, (decide_False (P := oget osd_set role = 0 /\ _)) by tauto.
    specialize (IH st1 ltac:(unfold st1; by rewrite length_supd) Hin). rewrite Hw in IH.
    case_decide; [done |]. destruct IH as (st' & Hrun & Hl' & Hg).
    exists st'. repeat (split; [done |]). intros j.
    rewrite Hg, (rebuilt_compose _ _ _ _ _ st st1 _ _ _ Hg1) by apply wanted_missing.
    by rewrite marked_cons by done.
Qed.

(** [extend_missing_stripes] is the same rebuilding plan, for the missing
    chunks that the read needs. *)
Lemma extend_missing_eq osd_set k n roles st :
  (0 < k)%nat -> length st = n -> Forall (fun r => (r < n)%nat) roles ->
  rmw_missing osd_set n k (wanted osd_set st roles) st =
  let '(st', r) := extend_missing_loop osd_set k n roles st in if decide (r = 0) then Some st' else None.
Proof.
  intros Hk. revert st. induction roles as [| role roles IH]; intros st Hl Hin; [done |].
  apply Forall_cons in Hin as [Hr Hin]. rewrite wanted_cons. cbn [extend_missing_loop].
  case_decide as Hw.
  2:{ replace (_ && _) with false; [by apply IH |].
      symmetry. apply andb_false_iff. rewrite !bool_decide_eq_false. destruct (decide (read_end (sget st role) = 0)); tauto. }
  destruct Hw as [Ho He]. rewrite (bool_decide_eq_true_2 _ He), (bool_decide_eq_true_2 _ Ho). simpl andb.
  cbn [rmw_missing]. rewrite (bool_decide_eq_true_2 _ Ho), extend_sources_eq by done.
  assert (sget (supd st role set_missing) role = set_missing (sget st role)) as ->
    by (rewrite sget_supd by lia; by apply decide_True).
  change (read_end (set_missing (sget st role))) with (read_end (sget st role)).
  rewrite (bool_decide_eq_true_2 _ He).
  pose proof (rebuild_step osd_set k n role st Hl Hr Ho) as Hs. cbv zeta in Hs.
  destruct (rmw_sources _ _ _ _ _ _) as [st1 found]. destruct Hs as (Hl1 & _ & Hg1).
  destruct (decide (found < k)%nat); [by rewrite bool_decide_eq_true_2 | rewrite bool_decide_eq_false_2 by done].
  rewrite <- IH by done. f_equal. symmetry. apply wanted_ranges.
  intros i Hi. rewrite Hg1. by apply rebuilt_missing_range.
Qed.

Lemma extend_missing_ret osd_set k n roles st :
  (extend_missing_loop osd_set k n roles st).2 = 0 \/ (extend_missing_loop osd_set k n roles st).2 = -1.
Proof.
  revert st. induction roles as [| role roles IH]; intros st; [by left |].
  cbn [extend_missing_loop]. destruct (_ && _); [| done].
  destruct (extend_sources _ _ _ _ _ _) as [st1 found]. destruct (bool_decide _); [by right | done].
Qed.

(** * The extended ranges *)

Section Extended.
Context (C : Z) (st : list osd_rmw_stripe_t).
Hypothesis HC : 0 < C < UINT32_MAX.
Hypothesis Hst : forall j, range_ok C (read_range (sget st j)).

Lemma extended_spec ms s :
  range_ok C (read_range s) ->
  exists p, extended st ms s = set_read s p.1 p.2 /\ range_ok C p /\ range_le (read_range s) p /\
    forall m, m ∈ ms -> range_le (read_range (sget st m)) p.
Proof using HC Hst.
  revert s. induction ms as [| m ms IH]; intros s Hs; unfold extended; simpl.
  { exists (read_range s). split; [symmetry; apply set_read_same |].
    split; [done |]. split; [by eapply range_le_refl |]. intros m []%not_elem_of_nil. }
  rewrite extend_read_join. set (q := join _ _).
  assert (range_ok C q) as Hq by (apply join_ok; [done | apply Hst | done]).
  destruct (IH (set_read s q.1 q.2)) as (p & Hp & Hok & Hle & Hms); [by destruct q |].
  assert (range_le q p) as Hqp by (by destruct q).
  exists p. split; [exact Hp |].
  split; [done |]. split.
  - eapply range_le_trans; [done | | exact Hq | done | | exact Hqp]; [done |].
    apply (join_ub_r C HC (read_range (sget st m))); [apply Hst | done].
  - intros i [-> | Hi]%elem_of_cons; [| by apply Hms].
    eapply range_le_trans; [done | apply Hst | exact Hq | done | | exact Hqp].
    apply (join_ub_l C HC (read_range (sget st m))); [apply Hst | done].
Qed.
End Extended.

(** * The steps of [calc_rmw], role by role *)

(** The smallest range that contains every request range. *)
Definition req_hull (k : nat) (st : list osd_rmw_stripe_t) : Z * Z :=
  foldl (fun p r => hull_step p (sget st r)) (0, 0) (seq 0 k).

Definition write_req (s : osd_rmw_stripe_t) : osd_rmw_stripe_t :=
  if bool_decide (req_end s <> 0) then set_write s (req_start s) (req_end s) else s.

Lemma rmw_request_spec k st :
  (k <= length st)%nat ->
  let '(st', start, end_) := rmw_request k st in
  length st' = length st /\ (start, end_) = req_hull k st /\
  forall j, sget st' j = if decide (j < k)%nat then write_req (sget st j) else sget st j.
Proof.
  unfold rmw_request, req_hull. induction k as [| k IH]; intros Hk.
  - split; [done |]. split; [done |]. intros j. by rewrite decide_False by lia.
  - rewrite seq_S, !foldl_snoc. destruct (foldl _ (st, 0, 0) (seq 0 k)) as [[st1 s1] e1].
    destruct IH as (Hl & Hh & Hg); [lia |]. rewrite <- Hh. simpl Nat.add.
    assert (sget st1 k = sget st k) as Ek by (rewrite Hg; apply decide_False; lia).
    assert (upd1 st1 k (write_req (sget st k))
      (if bool_decide (req_end (sget st k) <> 0) then supd st1 k (fun s => set_write s (req_start s) (req_end s)) else st1))
      as [Hl2 Hg2].
    { unfold write_req. case_bool_decide; [apply upd1_supd; [lia | by rewrite Ek] | rewrite <- Ek; apply upd1_id]. }
    rewrite Ek. unfold hull_step. case_bool_decide as E; simpl.
    all: split; [lia |]; split; [done |]; intros j; rewrite Hg2, Hg.
    all: destruct (decide (j = k)) as [-> |]; [by rewrite decide_True by lia | apply decide_ext; lia].
Qed.

Lemma req_hull_spec C k st :
  0 < C -> (forall r, (r < k)%nat -> req_ok C (sget st r)) ->
  let '(s, e) := req_hull k st in
  ((s = 0 /\ e = 0) \/ (0 <= s < e /\ e <= C)) /\
  forall r, (r < k)%nat -> req_end (sget st r) <> 0 -> s <= req_start (sget st r) /\ req_end (sget st r) <= e.
Proof.
  intros HC. unfold req_hull. induction k as [| k IH]; intros Hok; [split; [by left | lia] |].
  rewrite seq_S, foldl_snoc. destruct (foldl _ (0, 0) (seq 0 k)) as [s e].
  destruct IH as [Hr Hin]; [intros; apply Hok; lia |]. simpl Nat.add.
  pose proof (Hok k ltac:(lia)) as Hk. unfold req_ok in Hk. unfold hull_step; simpl.
  case_bool_decide as E.
  - split; [right; repeat case_bool_decide; simpl; lia |]. intros r Hrk Hre.
    destruct (decide (r = k)) as [-> |]; [repeat case_bool_decide; simpl; lia |].
    pose proof (Hin r ltac:(lia) Hre). pose proof (Hok r ltac:(lia)) as Hr'. unfold req_ok in Hr'.
    repeat case_bool_decide; simpl; lia.
  - split; [done |]. intros r Hrk Hre. destruct (decide (r = k)) as [-> |]; [lia |]. apply Hin; [lia | done].
Qed.

Section Sets.
Context (R W : list Z) (k n : nat) (C : Z).
Hypothesis HC : 0 < C < UINT32_MAX.

(** Some parity role among the first [m] is written to another place. *)
Definition parity_moved (m : nat) : bool :=
  existsb (fun r => bool_decide (oget W r <> 0 /\ oget W r <> oget R r)) (seq k m).
Definition parity_writes (m : nat) : Z := Z.of_nat (length (available W (seq k m))).
Definition parity_range (m : nat) (p : Z * Z) : Z * Z := if parity_moved m then (0, C) else p.

Lemma rmw_parity_from m st start end_ :
  (k + m <= length st)%nat ->
  let '(st', start', end', wp) := rmw_parity R W (k + m) k C st start end_ in
  length st' = length st /\ (start', end') = parity_range m (start, end_) /\ wp = parity_writes m /\
  forall j, sget st' j = if decide ((k <= j < k + m)%nat /\ oget W j <> 0)
                         then set_write (sget st j) start' end' else sget st j.
Proof using HC.
  unfold rmw_parity. replace (k + m - k)%nat with m by lia.
  induction m as [| m IH]; intros Hm.
  { repeat (split; [done |]). intros j. by rewrite decide_False by lia. }
  rewrite seq_S, foldl_snoc. destruct (foldl _ _ (seq k m)) as [[[st1 s1] e1] wp1].
  destruct IH as (Hl & Hp & Hwp & Hg); [lia |].
  unfold parity_range, parity_moved, parity_writes, available in *. rewrite seq_S, existsb_app, filter_app, length_app.
  cbn [existsb]. rewrite orb_false_r. destruct (decide (oget W (k + m) = 0)) as [E0 | E0].
  { rewrite (bool_decide_eq_false_2 (_ <> 0)) by tauto. rewrite (bool_decide_eq_false_2 (_ /\ _)) by tauto.
    rewrite orb_false_r, filter_cons_False by tauto. split; [done |]. split; [done |].
    split; [simpl; lia |]. intros j. rewrite Hg. apply decide_ext. split; intros [? ?]; (split; [| done]); [lia |].
    destruct (decide (j = k + m)%nat) as [-> |]; [done | lia]. }
  rewrite (bool_decide_eq_true_2 (oget W (k + m) <> 0)) by done. rewrite filter_cons_True by done.
  assert (exists st2 s2 e2,
    (if bool_decide (oget W (k + m) <> oget R (k + m)) then
       (foldl (fun st r2 => if bool_decide (oget W r2 <> 0) then supd st r2 (fun s => set_write s 0 (u32 C)) else st)
          st1 (seq k (k + m - k)), 0, u32 C)
     else (st1, s1, e1)) = (st2, s2, e2) /\
    (s2, e2) = (if existsb (fun r => bool_decide (oget W r <> 0 /\ oget W r <> oget R r)) (seq k m)
      || bool_decide (oget W (k + m) <> 0 /\ oget W (k + m) <> oget R (k + m)) then (0, C) else (start, end_)) /\
    length st2 = length st /\
    forall j, sget st2 j = if decide ((k <= j < k + m)%nat /\ oget W j <> 0)
                           then set_write (sget st j) s2 e2 else sget st j) as (st2 & s2 & e2 & -> & Hp2 & Hl2 & Hg2).
  { destruct (decide (oget W (k + m) = oget R (k + m))) as [Em | Em].
    - rewrite (bool_decide_eq_false_2 (_ <> oget R _)), (bool_decide_eq_false_2 (_ /\ _)), orb_false_r by tauto. eauto 7.
    - rewrite (bool_decide_eq_true_2 (_ <> oget R _)), (bool_decide_eq_true_2 (_ /\ _)), orb_true_r by tauto.
      rewrite !u32_small by (unfold UINT32_MAX in *; lia).
      eexists _, 0, C. split; [done |]. split; [done |].
      run_own_loop (fun r s => if decide (oget W r <> 0) then set_write s 0 C else s) Hl3 Hg3; [| lia |].
      { intros st3 r _ Hr. case_decide as E.
        - rewrite bool_decide_eq_true_2 by done. by apply upd1_supd.
        - rewrite bool_decide_eq_false_2 by tauto. apply upd1_id. }
      split; [lia |]. intros j. rewrite Hg3, Hg. replace (k + (k + m - k))%nat with (k + m)%nat by lia.
      destruct (decide (k <= j < k + m)%nat); destruct (decide (oget W j = 0)).
      all: repeat case_decide; done || tauto. }
  split; [by rewrite length_supd |]. split; [done |]. split; [simpl; lia |].
  intros j. rewrite sget_supd, !Hg2 by lia. destruct (decide (j = k + m)%nat) as [-> | Hj].
  - rewrite (decide_False (P := (k <= k + m < k + m)%nat /\ _)), decide_True by lia. done.
  - apply decide_ext. lia.
Qed.

Definition covered_read (start end_ : Z) (s : osd_rmw_stripe_t) : osd_rmw_stripe_t :=
  let s := cover_read start end_ s in
  if bool_decide (read_end s = 0) && (bool_decide (req_start s <> 0) || bool_decide (req_end s <> C))
  then set_read s (read_start s) UINT32_MAX else s.

Lemma rmw_cover_spec start end_ st :
  (k <= length st)%nat ->
  let st' := rmw_cover k C start end_ st in
  length st' = length st /\
  forall j, sget st' j = if decide (j < k)%nat then covered_read start end_ (sget st j) else sget st j.
Proof.
  intros Hk. unfold rmw_cover. run_own_loop (fun (_ : nat) => covered_read start end_) Hl Hg; [| done |].
  { intros st1 r _ Hr. by apply upd1_supd. }
  split; [done |]. intros j. rewrite Hg. apply decide_ext. lia.
Qed.

(** A data role whose chunk is moved and not fully overwritten. *)
Definition data_moved (j : nat) (s : osd_rmw_stripe_t) : bool :=
  bool_decide (j < k)%nat && bool_decide (oget W j <> oget R j) && bool_decide (oget W j <> 0) &&
  (bool_decide (req_start s <> 0) || bool_decide (req_end s <> C)).

Lemma rmw_moved_from m st :
  (m <= length st)%nat ->
  let '(st', cursize) := rmw_moved R W m k C st in
  length st' = length st /\ cursize = length (available R (seq 0 m)) /\
  forall j, sget st' j = if decide ((j < m)%nat /\ data_moved j (sget st j) = true)
                         then set_read (sget st j) 0 C else sget st j.
Proof using HC.
  unfold rmw_moved. induction m as [| m IH]; intros Hm.
  { repeat (split; [done |]). intros j. by rewrite decide_False by lia. }
  rewrite seq_S, foldl_snoc. destruct (foldl _ _ (seq 0 m)) as [st1 c1]. simpl Nat.add.
  destruct IH as (Hl & Hc & Hg); [lia |].
  assert (sget st1 m = sget st m) as Em by (rewrite Hg; apply decide_False; lia). rewrite Em.
  change (bool_decide (m < k)%nat && _ && _ && _) with (data_moved m (sget st m)).
  unfold available in *. rewrite filter_app, length_app, <- Hc. rewrite !u32_small by (unfold UINT32_MAX in *; lia).
  split; [destruct (data_moved m _); rewrite ?length_supd; done |]. split.
  { rewrite filter_cons. destruct (decide (oget R m <> 0)) as [E | E];
      [rewrite bool_decide_eq_true_2 by done | rewrite bool_decide_eq_false_2 by done]; simpl; lia. }
  intros j. destruct (data_moved m (sget st m)) eqn:Ed; [rewrite sget_supd by lia |];
    (destruct (decide (j = m)) as [-> | Hj]; [| rewrite Hg; apply decide_ext; split; intros [? ?]; (split; [lia | done])]).
  - rewrite decide_True by (split; [lia | done]). by rewrite Em.
  - rewrite decide_False by (intros []; congruence). done.
Qed.
End Sets.

(** ** Buffers *)

Fixpoint zsum (f : nat -> Z) (n : nat) : Z :=
  match n with O => 0 | S n => zsum f n + f n end.

Lemma zsum_bounds f B n : (forall i, 0 <= f i <= B) -> 0 <= zsum f n <= Z.of_nat n * B.
Proof. intros H. induction n as [| n IH]; cbn [zsum]; [lia | specialize (H n); lia]. Qed.
Lemma zsum_mono f a b : (forall i, 0 <= f i) -> (a <= b)%nat -> zsum f a <= zsum f b.
Proof. intros H Hab. induction Hab; cbn [zsum]; [lia | specialize (H m); lia]. Qed.
Lemma zsum_ext f g n : (forall i, (i < n)%nat -> f i = g i) -> zsum f n = zsum g n.
Proof. intros H. induction n as [| n IH]; cbn [zsum]; [done |]. rewrite IH, H; auto. Qed.

Lemma read_len_range C s : 0 < C < UINT32_MAX -> range_ok C (read_range s) -> 0 <= read_len s <= C.
Proof.
  intros HC H. unfold read_len. unfold UINT32_MAX in *.
  case_bool_decide; [| simpl; lia]. case_bool_decide; simpl; [| lia].
  destruct H as [H | [H | H]]; unfold read_range in H; simplify_eq/=; try congruence. rewrite u32_small; lia.
Qed.

Definition placed (buf : Z) (st : list osd_rmw_stripe_t) (add : Z) (j : nat) : osd_rmw_stripe_t :=
  let s := sget st j in
  if bool_decide (read_end s <> 0) && bool_decide (read_end s <> UINT32_MAX)
  then set_read_buf s (buf + (add + zsum (fun i => read_len (sget st i)) j)) else s.

Lemma alloc_read_buffer_from C buf st m add :
  0 < C < UINT32_MAX -> (forall j, range_ok C (read_range (sget st j))) ->
  0 <= add -> add + Z.of_nat m * C < 2 ^ 64 -> (m <= length st)%nat ->
  let st' := alloc_read_buffer buf st m add in
  length st' = length st /\
  forall j, sget st' j = if decide (j < m)%nat then placed buf st add j else sget st j.
Proof.
  intros HC Hst Hadd Hm64 Hm.
  assert (forall i, 0 <= read_len (sget st i) <= C) as Hlen by (intros; by apply read_len_range).
  enough (let '(st', pos) := foldl (fun '(st, buf_pos) role =>
     let s := sget st role in
     if bool_decide (read_end s <> 0) && bool_decide (read_end s <> UINT32_MAX)
     then (supd st role (fun s => set_read_buf s (buf + buf_pos)), u64 (buf_pos + u32 (read_end s - read_start s)))
     else (st, buf_pos)) (st, add) (seq 0 m) in
    length st' = length st /\ pos = add + zsum (fun i => read_len (sget st i)) m /\
    forall j, sget st' j = if decide (j < m)%nat then placed buf st add j else sget st j) as H.
  { unfold alloc_read_buffer. destruct (foldl _ _ _) as [st' pos]. simpl. tauto. }
  induction m as [| m IH].
  { split; [done |]. split; [simpl; lia |]. intros j. by rewrite decide_False by lia. }
  rewrite seq_S, foldl_snoc. destruct (foldl _ _ (seq 0 m)) as [st1 pos]. simpl Nat.add.
  destruct IH as (Hl & Hp & Hg); [lia | lia |].
  assert (sget st1 m = sget st m) as Em by (rewrite Hg; apply decide_False; lia). cbv zeta. rewrite Em.
  pose proof (zsum_bounds _ C m Hlen). pose proof (Hlen m) as Hlm. unfold read_len in Hlm.
  assert (forall st2, upd1 st1 m (placed buf st add m) st2 ->
    length st2 = length st /\
    forall j, sget st2 j = if decide (j < S m)%nat then placed buf st add j else sget st j) as Hfin.
  { intros st2 [Hl2 Hg2]. split; [lia |]. intros j. rewrite Hg2, Hg.
    destruct (decide (j = m)) as [-> |]; [by rewrite decide_True by lia | apply decide_ext; lia]. }
  cbn [zsum]. unfold read_len at 2. unfold placed in Hfin at 1.
  destruct (_ && _).
  - destruct (Hfin (supd st1 m (fun s => set_read_buf s (buf + pos)))) as [? ?];
      [apply upd1_supd; [lia | by rewrite Em, Hp] |].
    split; [done |]. split; [| done]. rewrite u64_small by lia. lia.
  - destruct (Hfin st1) as [? ?]; [rewrite <- Em; apply upd1_id |]. split; [done |]. split; [lia | done].
Qed.

Definition req_len (s : osd_rmw_stripe_t) : Z := if bool_decide (req_end s <> 0) then req_end s - req_start s else 0.

(** Bytes of new parity that role [i] takes in the allocated buffer. *)
Definition parity_len (W : list Z) (k : nat) (len : Z) (st : list osd_rmw_stripe_t) (i : nat) : Z :=
  if bool_decide (req_end (sget st i) = 0) && bool_decide (k <= i)%nat && bool_decide (oget W i <> 0) then len else 0.

Definition buffered (request_buf rmw_buf : Z) (W : list Z) (k : nat) (end_ len : Z) (st : list osd_rmw_stripe_t)
    (j : nat) : osd_rmw_stripe_t :=
  let s := sget st j in
  if bool_decide (req_end s <> 0) then set_write_buf s (request_buf + zsum (fun i => req_len (sget st i)) j)
  else if bool_decide (k <= j)%nat && bool_decide (oget W j <> 0) && bool_decide (end_ <> 0)
  then set_write_buf s (rmw_buf + zsum (parity_len W k len st) j) else s.

Lemma rmw_write_bufs_from C request_buf rmw_buf W k st m start end_ :
  0 < C < UINT32_MAX -> (forall j, req_ok C (sget st j)) -> 0 <= start <= end_ -> end_ <= C ->
  Z.of_nat m * C < 2 ^ 64 -> (m <= length st)%nat ->
  let st' := rmw_write_bufs request_buf rmw_buf W m k start end_ st in
  length st' = length st /\
  forall j, sget st' j = if decide (j < m)%nat
                         then buffered request_buf rmw_buf W k end_ (end_ - start) st j else sget st j.
Proof.
  intros HC Hst Hse Hec Hm64 Hm.
  assert (forall i, 0 <= req_len (sget st i) <= C) as Hlen.
  { intros i. unfold req_len. specialize (Hst i). unfold req_ok in Hst. case_bool_decide; lia. }
  assert (forall i, 0 <= parity_len W k (end_ - start) st i <= C) as Hpl.
  { intros i. unfold parity_len. destruct (_ && _); lia. }
  unfold rmw_write_bufs. match goal with |- context [foldl ?g (st, 0, 0) _] => set (step := g) end.
  enough (let '(st', bp, ip) := foldl step (st, 0, 0) (seq 0 m) in
    length st' = length st /\ ip = zsum (fun i => req_len (sget st i)) m /\
    (end_ <> 0 -> bp = zsum (parity_len W k (end_ - start) st) m) /\
    forall j, sget st' j = if decide (j < m)%nat
                           then buffered request_buf rmw_buf W k end_ (end_ - start) st j else sget st j) as H.
  { destruct (foldl _ _ _) as [[st' bp] ip]. simpl. tauto. }
  induction m as [| m IH].
  { repeat (split; [done |]). intros j. by rewrite decide_False by lia. }
  rewrite seq_S, foldl_snoc. destruct (foldl _ _ (seq 0 m)) as [[st1 bp] ip]. simpl Nat.add.
  destruct IH as (Hl & Hip & Hbp & Hg); [lia | lia |].
  assert (sget st1 m = sget st m) as Em by (rewrite Hg; apply decide_False; lia).
  pose proof (zsum_bounds _ C m Hlen). pose proof (zsum_bounds _ C m Hpl). pose proof (Hlen m) as Hlm.
  assert (forall st2, upd1 st1 m (buffered request_buf rmw_buf W k end_ (end_ - start) st m) st2 ->
    length st2 = length st /\
    forall j, sget st2 j = if decide (j < S m)%nat
      then buffered request_buf rmw_buf W k end_ (end_ - start) st j else sget st j) as Hfin.
  { intros st2 [Hl2 Hg2]. split; [lia |]. intros j. rewrite Hg2, Hg.
    destruct (decide (j = m)) as [-> |]; [by rewrite decide_True by lia | apply decide_ext; lia]. }
  unfold step. rewrite Em. cbn [zsum]. unfold buffered in Hfin at 1. unfold parity_len at 2. unfold req_len at 2. unfold req_len in Hlm.
  specialize (Hst m). unfold req_ok in Hst. unfold UINT32_MAX in HC.
  destruct (decide (req_end (sget st m) = 0)) as [E | E].
  - rewrite (bool_decide_eq_false_2 (req_end (sget st m) <> 0)) in * by tauto.
    rewrite (bool_decide_eq_true_2 (req_end (sget st m) = 0)) by done. simpl andb.
    destruct (bool_decide (k <= m)%nat && bool_decide (oget W m <> 0)) eqn:Eb; simpl andb in *.
    + destruct (decide (end_ = 0)) as [E0 | E0].
      * rewrite (bool_decide_eq_false_2 (end_ <> 0)) in * by tauto.
        destruct (Hfin st1) as [? ?]; [rewrite <- Em; apply upd1_id |]. repeat (split; [lia || done |]). done.
      * rewrite (bool_decide_eq_true_2 (end_ <> 0)) in * by done.
        destruct (Hfin (supd st1 m (fun s => set_write_buf s (rmw_buf + bp)))) as [? ?];
          [apply upd1_supd; [lia | by rewrite Em, Hbp] |].
        split; [done |]. split; [lia |]. split; [| done]. intros _.
        rewrite Hbp, u32_small, u64_small by lia. lia.
    + destruct (Hfin st1) as [? ?]; [rewrite <- Em; apply upd1_id |].
      split; [done |]. split; [lia |]. split; [| done]. intros ?. rewrite Hbp by done. lia.
  - rewrite (bool_decide_eq_true_2 (req_end (sget st m) <> 0)) in * by done.
    rewrite (bool_decide_eq_false_2 (req_end (sget st m) = 0)) by done. simpl andb. cbv iota.
    destruct (Hfin (supd st1 m (fun s => set_write_buf s (request_buf + ip)))) as [? ?];
      [apply upd1_supd; [lia | by rewrite Em, Hip] |].
    split; [done |]. split; [rewrite Hip, u32_small, u64_small by lia; lia |].
    split; [| done]. intros ?. rewrite Hbp by done. lia.
Qed.

(** ** Covering the parity range *)

Lemma uncovered_spec C a b s :
  (a = 0 /\ b = 0) \/ (0 <= a < b /\ b <= C) -> req_ok C s ->
  (req_end s <> 0 -> a <= req_start s /\ req_end s <= b) -> ~ (a >= req_start s /\ b <= req_end s) ->
  let p := uncovered a b s in
  0 <= p.1 < p.2 /\ p.2 <= C /\ a <= p.1 /\ p.2 <= b /\
  forall x, a <= x < b -> requested s x \/ p.1 <= x < p.2.
Proof.
  unfold req_ok, requested, uncovered. generalize (req_start s) (req_end s). clear s. intros rs re Hab Hr Hi Hn.
  destruct (bool_decide (a <= rs) && _ && _) eqn:E1.
  - apply andb_true_iff in E1 as [[E1 E2]%andb_true_iff E3]. apply bool_decide_eq_true in E1, E2, E3. simpl. repeat split; intros; lia.
  - destruct (bool_decide (a >= rs) && _ && _) eqn:E2; simpl.
    + apply andb_true_iff in E2 as [[E3 E4]%andb_true_iff E5]. apply bool_decide_eq_true in E3, E4, E5. repeat split; intros; lia.
    + repeat split; intros; lia.
Qed.

Lemma cover_read_fresh a b s :
  read_range s = (0, 0) ->
  cover_read a b s = if decide (a >= req_start s /\ b <= req_end s) then s
                     else set_read s (uncovered a b s).1 (uncovered a b s).2.
Proof.
  intros [= H1 H2]. unfold cover_read. destruct (decide (_ /\ _)) as [D | D].
  - by rewrite (bool_decide_eq_true_2 _ (proj1 D)), (bool_decide_eq_true_2 _ (proj2 D)).
  - replace (_ && _) with false; [| symmetry; apply andb_false_iff; rewrite !bool_decide_eq_false; lia].
    destruct (uncovered a b s). by rewrite H2, bool_decide_eq_true_2.
Qed.

Lemma covered_read_spec C a b s :
  0 < C < UINT32_MAX -> ((a = 0 /\ b = 0) \/ (0 <= a < b /\ b <= C)) -> req_ok C s ->
  (req_end s <> 0 -> a <= req_start s /\ req_end s <= b) -> read_range s = (0, 0) ->
  exists p, covered_read C a b s = set_read s p.1 p.2 /\ range_ok C p /\
    (forall x, a <= x < b -> requested s x \/ (p.2 <> UINT32_MAX /\ p.1 <= x < p.2)) /\
    (forall x, p.2 <> UINT32_MAX -> p.1 <= x < p.2 -> a <= x < b) /\
    (p.2 = 0 <-> req_start s = 0 /\ req_end s = C).
Proof.
  intros HC Hab Hr Hi Hs. unfold covered_read. rewrite cover_read_fresh by done.
  injection Hs as Hs1 Hs2. destruct (decide (_ /\ _)) as [D | D].
  - rewrite Hs1, Hs2, (bool_decide_eq_true_2 (0 = 0)) by done. simpl andb.
    destruct (bool_decide (req_start s <> 0) || bool_decide (req_end s <> C)) eqn:E.
    + exists (0, UINT32_MAX). split; [done |]. split; [right; by left |]. unfold requested. simpl.
      split; [lia |]. split; [done |]. apply orb_true_iff in E. rewrite !bool_decide_eq_true in E. unfold UINT32_MAX. lia.
    + apply orb_false_iff in E as [E1%bool_decide_eq_false E2%bool_decide_eq_false].
      exists (0, 0). split; [rewrite <- (set_read_same s) at 1; by rewrite Hs1, Hs2 |].
      split; [by left |]. unfold requested; simpl. repeat split; intros; lia.
  - destruct (uncovered_spec C a b s Hab Hr Hi D) as (Hp1 & Hp2 & Ha & Hb & Hc).
    destruct (uncovered a b s) as [u v]. simpl in *. rewrite bool_decide_eq_false_2 by lia. simpl.
    exists (u, v). unfold UINT32_MAX in *. split; [done |]. split; [right; right; simpl; lia |]. simpl.
    split; [| split; intros; lia]. intros x Hx. destruct (Hc x Hx); [by left | right; lia].
Qed.

(** * The plan of [calc_rmw] *)

(** A chunk layout: [k] data and [n - k] parity chunks of [C] bytes.  The
    stripes describe a request that has been split and nothing else yet. *)
Record rmw_input (st : list osd_rmw_stripe_t) (R W : list Z) (n k cur : nat) (same : bool) (C : Z) : Prop := {
  in_len : length st = n;
  in_k : (0 < k <= n)%nat;
  in_chunk : 0 < C < UINT32_MAX;
  in_size : Z.of_nat n * C < 2 ^ 32;
  in_data : forall r, (r < k)%nat -> req_ok C (sget st r);
  in_parity : forall r, (k <= r)%nat -> req_start (sget st r) = 0 /\ req_end (sget st r) = 0;
  in_fresh : forall r, read_range (sget st r) = (0, 0) /\ write_start (sget st r) = 0 /\
    write_end (sget st r) = 0 /\ missing (sget st r) = false;
  in_same : same = true -> W = R /\ cur = length (available R (seq 0 n)) }.

(** The range of the new parity: the whole chunk when a parity chunk moves. *)
Definition parity_write (st : list osd_rmw_stripe_t) (R W : list Z) (n k : nat) (C : Z) : Z * Z :=
  parity_range R W k C (n - k) (req_hull k st).

(** What a plan promises about its stripes [st']. *)
Record rmw_plan (request_buf rmw_buf : Z) (st : list osd_rmw_stripe_t) (R W : list Z) (n k : nat) (same : bool) (C : Z)
    (st' : list osd_rmw_stripe_t) : Prop := {
  pl_len : length st' = n;
  pl_req : forall r, req_start (sget st' r) = req_start (sget st r) /\ req_end (sget st' r) = req_end (sget st r) /\
    bmp_buf (sget st' r) = bmp_buf (sget st r);
  (* data chunks write what is requested, parity chunks the parity range *)
  pl_write_data : forall r, (r < k)%nat ->
    write_start (sget st' r) = req_start (sget st r) /\ write_end (sget st' r) = req_end (sget st r);
  pl_write_parity : forall r, (k <= r < n)%nat ->
    (write_start (sget st' r), write_end (sget st' r)) =
    if decide (oget W r <> 0) then parity_write st R W n k C else (0, 0);
  pl_ranges : forall r, range_ok C (read_range (sget st' r));
  (* when parity is written, every old byte it depends on is read *)
  pl_cover : forall p r x, (k <= p < n)%nat -> oget W p <> 0 -> (r < k)%nat ->
    (parity_write st R W n k C).1 <= x < (parity_write st R W n k C).2 ->
    requested (sget st r) x \/ reads (sget st' r) x;
  (* a moved data chunk is read as a whole, unless it is overwritten as a whole *)
  pl_moved : forall r, same = false -> (r < k)%nat -> oget W r <> 0 -> oget W r <> oget R r ->
    (req_start (sget st r) = 0 /\ req_end (sget st r) = C) \/ read_range (sget st' r) = (0, C);
  pl_missing : forall r, (r < n)%nat -> missing (sget st' r) = bool_decide (oget R r = 0);
  (* an unreadable chunk that is needed has [k] readable ones that cover it *)
  pl_sources : forall r, (r < n)%nat -> oget R r = 0 -> read_end (sget st' r) <> 0 ->
    length (sources R k n) = k /\
    forall j, j ∈ sources R k n -> range_le (read_range (sget st' r)) (read_range (sget st' j));
  (* parity chunks are read only to rebuild others *)
  pl_parity_read : forall r, (k <= r < n)%nat -> read_end (sget st' r) <> 0 -> oget R r <> 0;
  (* buffers: parity first, then the data that is read *)
  pl_read_buf : forall r, (r < n)%nat -> read_len (sget st' r) <> 0 ->
    read_buf (sget st' r) = rmw_buf +
      (parity_writes W k (n - k) * ((parity_write st R W n k C).2 - (parity_write st R W n k C).1)
       + zsum (fun i => read_len (sget st' i)) r);
  pl_write_buf_data : forall r, (r < k)%nat -> req_end (sget st r) <> 0 ->
    write_buf (sget st' r) = request_buf + zsum (fun i => req_len (sget st i)) r;
  pl_write_buf_parity : forall r, (k <= r < n)%nat -> oget W r <> 0 -> (parity_write st R W n k C).2 <> 0 ->
    write_buf (sget st' r) = rmw_buf +
      zsum (parity_len W k ((parity_write st R W n k C).2 - (parity_write st R W n k C).1) st) r }.

Section Plan.
Context (request_buf rmw_buf : Z) (st : list osd_rmw_stripe_t) (R W : list Z) (n k cur : nat) (same : bool) (C : Z).
Hypothesis Hin : rmw_input st R W n k cur same C.

Let ps : Z := (parity_write st R W n k C).1.
Let pe : Z := (parity_write st R W n k C).2.

(** The stripes before missing chunks are considered. *)
Definition planned (j : nat) : osd_rmw_stripe_t :=
  let s := if decide (j < k)%nat then write_req (sget st j) else sget st j in
  let s := if decide ((k <= j < n)%nat /\ oget W j <> 0) then set_write s ps pe else s in
  let s := if decide (parity_writes W k (n - k) <> 0 /\ (j < k)%nat) then covered_read C ps pe s else s in
  if decide (same = false /\ (j < n)%nat /\ data_moved R W k C j s = true) then set_read s 0 C else s.

Lemma parity_write_ok : (ps = 0 /\ pe = 0) \/ (0 <= ps < pe /\ pe <= C).
Proof using Hin.
  destruct Hin. unfold ps, pe, parity_write, parity_range. destruct (parity_moved _ _ _ _); simpl; [right; lia |].
  pose proof (req_hull_spec C k st (proj1 in_chunk0) in_data0) as H. destruct (req_hull k st). by destruct H.
Qed.

Lemma parity_write_in r : (r < k)%nat -> req_end (sget st r) <> 0 -> ps <= req_start (sget st r) /\ req_end (sget st r) <= pe.
Proof using Hin.
  destruct Hin. intros Hr He. unfold ps, pe, parity_write, parity_range.
  pose proof (in_data0 r Hr) as Hq. unfold req_ok in Hq.
  destruct (parity_moved _ _ _ _); simpl; [lia |].
  pose proof (req_hull_spec C k st (proj1 in_chunk0) in_data0) as H. destruct (req_hull k st). by apply H.
Qed.

(** [calc_rmw] up to the missing chunks. *)
Lemma calc_rmw_planned :
  exists st4, length st4 = n /\ (forall j, sget st4 j = planned j) /\
  calc_rmw request_buf rmw_buf st R n k cur W same C =
  match (if bool_decide (length (available R (seq 0 n)) < n)%nat
         then rmw_missing R n k (seq 0 n) st4 else Some st4) with
  | None => None
  | Some st =>
    Some (rmw_write_bufs request_buf rmw_buf W n k ps pe
      (alloc_read_buffer rmw_buf st n (u32 (parity_writes W k (n - k) * u32 (pe - ps)))))
  end.
Proof using Hin.
  pose proof Hin as [Hl Hk HC Hsz Hd Hp Hf Hsame]. unfold calc_rmw.
  pose proof (rmw_request_spec k st ltac:(lia)) as H1. destruct (rmw_request k st) as [[st1 s1] e1].
  destruct H1 as (Hl1 & Hh1 & Hg1).
  pose proof (rmw_parity_from R W k C HC (n - k) st1 s1 e1 ltac:(lia)) as H2.
  replace (k + (n - k))%nat with n in H2 by lia.
  destruct (rmw_parity R W n k C st1 s1 e1) as [[[st2 s2] e2] wp]. destruct H2 as (Hl2 & Hh2 & Hwp & Hg2).
  rewrite Hh1 in Hh2. change (parity_range R W k C (n - k) (req_hull k st)) with (parity_write st R W n k C) in Hh2.
  assert (s2 = ps) as -> by (unfold ps; by rewrite <- Hh2). assert (e2 = pe) as -> by (unfold pe; by rewrite <- Hh2).
  set (st3 := if bool_decide (wp <> 0) then _ else st2).
  assert (length st3 = n /\ forall j, sget st3 j =
    if decide (parity_writes W k (n - k) <> 0 /\ (j < k)%nat) then covered_read C ps pe (sget st2 j) else sget st2 j) as [Hl3 Hg3].
  { unfold st3. rewrite Hwp. case_bool_decide as E.
    - destruct (rmw_cover_spec k C ps pe st2) as [Hl3 Hg3]; [lia |]. split; [lia |]. intros j. rewrite Hg3. apply decide_ext. tauto.
    - split; [lia |]. intros j. by rewrite decide_False by tauto. }
  clearbody st3. destruct (decide (same = true)) as [Es | Es%not_true_is_false]; rewrite Es.
  - destruct (Hsame Es) as [_ ->]. exists st3. split; [done |]. rewrite Hwp. split; [| done].
    intros j. unfold planned. rewrite (decide_False (P := _ = false /\ _)) by (intros []; congruence).
    rewrite Hg3, Hg2, Hg1. replace (k + (n - k))%nat with n by lia. done.
  - pose proof (rmw_moved_from R W k C HC n st3 ltac:(lia)) as H4.
    destruct (rmw_moved R W n k C st3) as [st4 c4]. destruct H4 as (Hl4 & -> & Hg4).
    exists st4. split; [lia |]. rewrite Hwp. split; [| done].
    intros j. unfold planned. rewrite Hg4, Hg3, Hg2, Hg1. replace (k + (n - k))%nat with n by lia. cbv zeta.
    apply decide_ext. rewrite Es. tauto.
Qed.

(** The write range of every role. *)
Definition write_plan (j : nat) : Z * Z :=
  if decide (j < k)%nat then (req_start (sget st j), req_end (sget st j))
  else if decide ((k <= j < n)%nat /\ oget W j <> 0) then (ps, pe) else (0, 0).

Lemma planned_spec j :
  exists p, planned j = set_read (set_write (sget st j) (write_plan j).1 (write_plan j).2) p.1 p.2 /\
    range_ok C p /\
    ((j < k)%nat -> parity_writes W k (n - k) <> 0 ->
       forall x, ps <= x < pe -> requested (sget st j) x \/ (p.2 <> UINT32_MAX /\ p.1 <= x < p.2)) /\
    (same = false -> (j < k)%nat -> oget W j <> 0 -> oget W j <> oget R j ->
       (req_start (sget st j) = 0 /\ req_end (sget st j) = C) \/ p = (0, C)) /\
    (p.2 <> 0 -> (j < k)%nat /\ ~ (req_start (sget st j) = 0 /\ req_end (sget st j) = C)).
Proof using Hin.
  pose proof Hin as [Hl Hk HC Hsz Hd Hp Hf Hsame]. destruct (Hf j) as (Hfr & Hfw & Hfe & _).
  unfold planned.
  set (s1 := if decide ((k <= j < n)%nat /\ _) then _ else _).
  assert (s1 = set_write (sget st j) (write_plan j).1 (write_plan j).2) as Hs1.
  { unfold s1, write_plan, write_req. assert (set_write (sget st j) 0 0 = sget st j) as Hid
      by (rewrite <- Hfw at 1; rewrite <- Hfe at 1; by destruct (sget st j)).
    destruct (decide (j < k)%nat) as [Hj | Hj].
    - rewrite decide_False by lia. simpl. case_bool_decide as E; [done |].
      destruct (Hd j Hj) as [[-> ->] | ?]; [done | lia].
    - case_decide; [done |]. by simpl. }
  rewrite Hs1. clear s1 Hs1. set (s1 := set_write _ _ _).
  assert (exists p, (if decide (parity_writes W k (n - k) <> 0 /\ (j < k)%nat) then covered_read C ps pe s1 else s1)
      = set_read s1 p.1 p.2 /\ range_ok C p /\
    ((j < k)%nat -> parity_writes W k (n - k) <> 0 ->
       forall x, ps <= x < pe -> requested (sget st j) x \/ (p.2 <> UINT32_MAX /\ p.1 <= x < p.2)) /\
    (p.2 <> 0 -> (j < k)%nat /\ ~ (req_start (sget st j) = 0 /\ req_end (sget st j) = C)))
    as (p & -> & Hok & Hcov & Hnz).
  { destruct (decide (_ /\ _)) as [[Hw Hj] | Hn].
    - destruct (covered_read_spec C ps pe s1) as (p & Hp1 & Hp2 & Hp3 & _ & Hp5);
        [done | apply parity_write_ok | by apply Hd | by apply parity_write_in | done |].
      exists p. split; [done |]. split; [done |]. split; [done |]. change (req_start s1) with (req_start (sget st j)) in Hp5.
      change (req_end s1) with (req_end (sget st j)) in Hp5. tauto.
    - exists (0, 0). split; [| split; [by left |]; split; [tauto | done]].
      unfold read_range in Hfr. injection Hfr as Hf1 Hf2. unfold s1, set_write, set_read; simpl. by rewrite Hf1, Hf2. }
  destruct (decide (same = false /\ _)) as [(Es & Hj & Hm) | Hm].
  - unfold data_moved in Hm. simpl in Hm. rewrite !andb_true_iff, orb_true_iff, !bool_decide_eq_true in Hm.
    exists (0, C). split; [done |]. split; [right; right; simpl; lia |]. simpl. split; [| split; [by right |]].
    + intros _ _ x Hx. right. pose proof parity_write_ok. unfold UINT32_MAX in *. lia.
    + intros _. split; [tauto |]. intros [? ?]. destruct Hm as [_ [Hm | Hm]]; apply Hm; done.
  - exists p. split; [done |]. split; [done |]. split; [done |]. split; [| done].
    intros Es Hj Hw0 Hw. left. destruct (decide (req_start (sget st j) = 0 /\ req_end (sget st j) = C)) as [| E]; [done |].
    exfalso. apply Hm. split; [done |]. split; [lia |]. unfold data_moved. simpl.
    rewrite !andb_true_iff, orb_true_iff, !bool_decide_eq_true.
    destruct (decide (req_start (sget st j) = 0)); tauto.
Qed.

Lemma available_full j :
  (length (available R (seq 0 n)) >= n)%nat -> (j < n)%nat -> oget R j <> 0.
Proof.
  intros Hlen Hj H0. enough (length (available R (seq 0 n)) < n)%nat by lia.
  replace n with (length (seq 0 n)) at 2 by apply length_seq.
  apply (length_filter_lt (fun j => oget R j <> 0) _ j); [apply elem_of_seq; lia | tauto].
Qed.

(** The stage that looks for missing chunks, in both of its cases. *)
Lemma rebuild_stage st4 :
  length st4 = n ->
  match (if bool_decide (length (available R (seq 0 n)) < n)%nat
         then rmw_missing R n k (seq 0 n) st4 else Some st4) with
  | None => wanted R st4 (seq 0 n) <> [] /\ (length (available R (seq 0 n)) < k)%nat
  | Some st5 => length st5 = n /\
      (wanted R st4 (seq 0 n) <> [] -> length (sources R k n) = k) /\
      forall j, sget st5 j = rebuilt R k n (wanted R st4 (seq 0 n)) st4 (marked R (seq 0 n) j) j
  end.
Proof.
  intros Hl. destruct (decide (length (available R (seq 0 n)) < n)%nat) as [Ha | Ha].
  - rewrite bool_decide_eq_true_2 by done.
    pose proof (rmw_missing_spec R k n (seq 0 n) st4 Hl) as H.
    destruct (decide (wanted R st4 (seq 0 n) <> [] /\ (length (available R (seq 0 n)) < k)%nat)) as [D | D].
    + rewrite H by (apply Forall_seq; lia). done.
    + destruct H as (st5 & -> & Hl5 & Hg5); [apply Forall_seq; lia |]. split; [done |]. split; [| done].
      intros Hw. unfold sources. rewrite length_take. assert (~ (length (available R (seq 0 n)) < k)%nat) by tauto. lia.
  - rewrite bool_decide_eq_false_2 by done. split; [done |].
    assert (forall j, (j < n)%nat -> oget R j <> 0) as Hall by (intros; apply available_full; [lia | done]).
    assert (wanted R st4 (seq 0 n) = []) as Hw.
    { destruct (wanted R st4 (seq 0 n)) as [| m ms] eqn:E; [done | exfalso].
      assert (m ∈ wanted R st4 (seq 0 n)) as Hm by (rewrite E; apply list_elem_of_here).
      apply list_elem_of_filter in Hm as [[Hm _] Hi%elem_of_seq]. by apply (Hall m); [lia |]. }
    rewrite Hw. split; [done |]. intros j. unfold rebuilt, extended, marked. simpl foldl.
    rewrite bool_decide_eq_false_2; [by destruct (decide _) |].
    intros [Hj%elem_of_seq H0]. by apply (Hall j); [lia |].
Qed.

Definition mark (b : bool) (s : osd_rmw_stripe_t) : osd_rmw_stripe_t := if b then set_missing s else s.

Lemma rebuilt_spec st4 b j :
  (forall j, sget st4 j = planned j) ->
  exists q, rebuilt R k n (wanted R st4 (seq 0 n)) st4 b j = set_read (mark b (planned j)) q.1 q.2 /\
    range_ok C q /\ range_le (read_range (planned j)) q /\
    (j ∉ sources R k n -> q = read_range (planned j)) /\
    (j ∈ sources R k n -> forall m, m ∈ wanted R st4 (seq 0 n) -> range_le (read_range (planned m)) q).
Proof using Hin.
  intros Hg4. pose proof Hin as [Hl Hk HC Hsz Hd Hp Hf Hsame].
  assert (forall j, range_ok C (read_range (planned j))) as Hok
    by (intros i; destruct (planned_spec i) as ([] & -> & ? & _); done).
  unfold rebuilt. rewrite Hg4. fold (mark b (planned j)).
  assert (read_range (mark b (planned j)) = read_range (planned j)) as Hm by (by destruct b).
  destruct (decide (j ∈ sources R k n)) as [Hs | Hs].
  - destruct (extended_spec C st4 HC) with (ms := wanted R st4 (seq 0 n)) (s := mark b (planned j))
      as (q & Hq & Hqok & Hle & Hall); [intros i; rewrite Hg4; apply Hok | rewrite Hm; apply Hok |].
    exists q. split; [done |]. split; [done |]. split; [by rewrite <- Hm |]. split; [done |].
    intros _ m Hw. rewrite <- Hg4. by apply Hall.
  - exists (read_range (planned j)). split; [rewrite <- Hm; symmetry; apply set_read_same |].
    split; [apply Hok |]. split; [eapply range_le_refl; [done | apply Hok] |]. split; done.
Qed.

Lemma write_bytes_small :
  0 <= parity_writes W k (n - k) <= Z.of_nat n /\
  u32 (parity_writes W k (n - k) * u32 (pe - ps)) = parity_writes W k (n - k) * (pe - ps).
Proof using Hin.
  pose proof Hin as [Hl Hk HC Hsz Hd Hp Hf Hsame]. pose proof parity_write_ok.
  assert (parity_writes W k (n - k) <= Z.of_nat n).
  { unfold parity_writes, available.
    pose proof (length_filter (fun j => oget W j <> 0) (seq k (n - k))) as H'. rewrite length_seq in H'. lia. }
  assert (0 <= parity_writes W k (n - k)) by (unfold parity_writes; lia).
  split; [done |]. unfold UINT32_MAX in *. rewrite (u32_small (pe - ps)) by lia. apply u32_small. nia.
Qed.

(** Placing buffers changes nothing else. *)
Definition same_but_bufs (s s' : osd_rmw_stripe_t) : Prop :=
  s' = set_write_buf (set_read_buf s (read_buf s')) (write_buf s').

Lemma placed_same buf st5 add j : same_but_bufs (sget st5 j) (placed buf st5 add j).
Proof. unfold placed, same_but_bufs. destruct (_ && _); by destruct (sget st5 j). Qed.
Lemma buffered_same e len st5 j : same_but_bufs (sget st5 j) (buffered request_buf rmw_buf W k e len st5 j).
Proof. unfold buffered, same_but_bufs. repeat destruct (bool_decide _); by destruct (sget st5 j). Qed.
Lemma same_but_bufs_trans s1 s2 s3 : same_but_bufs s1 s2 -> same_but_bufs s2 s3 -> same_but_bufs s1 s3.
Proof. unfold same_but_bufs. intros -> ->. by destruct s1. Qed.
Lemma same_but_bufs_refl s : same_but_bufs s s.
Proof. by destruct s. Qed.

Lemma same_read_len s s' : same_but_bufs s s' -> read_len s' = read_len s.
Proof. by intros ->. Qed.

Lemma buffer_stage st5 :
  length st5 = n -> (forall j, range_ok C (read_range (sget st5 j))) ->
  (forall j, req_start (sget st5 j) = req_start (sget st j) /\ req_end (sget st5 j) = req_end (sget st j)) ->
  let wp := parity_writes W k (n - k) in
  let st7 := rmw_write_bufs request_buf rmw_buf W n k ps pe (alloc_read_buffer rmw_buf st5 n (u32 (wp * u32 (pe - ps)))) in
  length st7 = n /\ (forall j, same_but_bufs (sget st5 j) (sget st7 j)) /\
  (forall j, (j < n)%nat -> read_len (sget st5 j) <> 0 ->
     read_buf (sget st7 j) = rmw_buf + (wp * (pe - ps) + zsum (fun i => read_len (sget st5 i)) j)) /\
  (forall j, (j < n)%nat -> req_end (sget st j) <> 0 ->
     write_buf (sget st7 j) = request_buf + zsum (fun i => req_len (sget st i)) j) /\
  (forall j, (k <= j < n)%nat -> oget W j <> 0 -> pe <> 0 ->
     write_buf (sget st7 j) = rmw_buf + zsum (parity_len W k (pe - ps) st) j).
Proof using Hin.
  intros Hl5 Hok Hreq wp st7. pose proof Hin as [Hl Hk HC Hsz Hd Hp Hf Hsame]. pose proof parity_write_ok.
  destruct write_bytes_small as [Hwp Hu]. unfold st7, wp. rewrite Hu. clear st7. fold wp.
  pose proof (u32_range (parity_writes W k (n - k) * u32 (pe - ps))) as Hadd. rewrite Hu in Hadd. fold wp in Hadd.
  destruct (alloc_read_buffer_from C rmw_buf st5 n (wp * (pe - ps)) HC Hok) as [Hl6 Hg6]; [lia | lia | lia |].
  set (st6 := alloc_read_buffer _ _ _ _) in *.
  assert (forall j, same_but_bufs (sget st5 j) (sget st6 j)) as Hs6.
  { intros j. rewrite Hg6. destruct (decide _); [apply placed_same | apply same_but_bufs_refl]. }
  assert (forall j, req_start (sget st6 j) = req_start (sget st j) /\ req_end (sget st6 j) = req_end (sget st j)) as Hreq6.
  { intros j. rewrite (Hs6 j). simpl. apply Hreq. }
  destruct (rmw_write_bufs_from C request_buf rmw_buf W k st6 n ps pe HC) as [Hl7 Hg7]; [| lia | lia | lia | lia |].
  { intros j. unfold req_ok. destruct (Hreq6 j) as [-> ->].
    destruct (decide (j < k)%nat); [by apply Hd | left; apply Hp; lia]. }
  set (st7 := rmw_write_bufs _ _ _ _ _ _ _ _) in *. split; [lia |].
  assert (forall j, same_but_bufs (sget st6 j) (sget st7 j)) as Hs7.
  { intros j. rewrite Hg7. destruct (decide _); [apply buffered_same | apply same_but_bufs_refl]. }
  split; [intros j; by eapply same_but_bufs_trans |]. split; [| split].
  - intros j Hj Hn. rewrite Hg7, decide_True by done.
    replace (read_buf (buffered _ _ _ _ _ _ _ _)) with (read_buf (sget st6 j))
      by (unfold buffered; by repeat destruct (bool_decide _)).
    rewrite Hg6, decide_True by done. unfold placed. unfold read_len in Hn at 1.
    destruct (_ && _); [done | lia].
  - intros j Hj Hn. rewrite Hg7, decide_True by done. unfold buffered.
    rewrite bool_decide_eq_true_2 by (destruct (Hreq6 j); congruence). simpl. f_equal. apply zsum_ext.
    intros i _. unfold req_len. by destruct (Hreq6 i) as [-> ->].
  - intros j Hj Hw He. rewrite Hg7, decide_True by lia. unfold buffered.
    destruct (Hreq6 j) as [_ ->]. destruct (Hp j) as [_ ->]; [lia |].
    rewrite bool_decide_eq_false_2, !bool_decide_eq_true_2 by (done || lia). simpl. f_equal. apply zsum_ext.
    intros i _. unfold parity_len. by destruct (Hreq6 i) as [_ ->].
Qed.

Lemma parity_writes_pos p : (k <= p < n)%nat -> oget W p <> 0 -> parity_writes W k (n - k) <> 0.
Proof.
  intros Hp Hw. unfold parity_writes. intros E.
  assert (p ∈ available W (seq k (n - k))) as H by (apply list_elem_of_filter; split; [done | apply elem_of_seq; lia]).
  destruct (available W (seq k (n - k))); [by apply not_elem_of_nil in H | simpl in E; lia].
Qed.

(** The stripes after the rebuilding stage, before buffers are placed. *)
Definition final (st4 : list osd_rmw_stripe_t) (j : nat) (s : osd_rmw_stripe_t) : Prop :=
  exists p q, sget st4 j = set_read (set_write (sget st j) (write_plan j).1 (write_plan j).2) p.1 p.2 /\
    s = set_read (mark (marked R (seq 0 n) j) (set_write (sget st j) (write_plan j).1 (write_plan j).2)) q.1 q.2 /\
    range_ok C p /\ range_ok C q /\ range_le p q /\
    (j ∉ sources R k n -> q = p) /\
    (j ∈ sources R k n -> forall m, m ∈ wanted R st4 (seq 0 n) -> range_le (read_range (sget st4 m)) q).

Lemma final_ok st4 st5 j :
  (forall j, sget st4 j = planned j) ->
  (forall j, sget st5 j = rebuilt R k n (wanted R st4 (seq 0 n)) st4 (marked R (seq 0 n) j) j) ->
  final st4 j (sget st5 j).
Proof using Hin.
  intros Hg4 Hg5. rewrite Hg5.
  destruct (rebuilt_spec st4 (marked R (seq 0 n) j) j Hg4) as (q & -> & Hq & Hle & Hns & Hs).
  destruct (planned_spec j) as (p & Hpl & Hp & _). unfold final. rewrite Hg4, Hpl in *.
  exists p, q. split; [done |]. split; [by destruct (marked R (seq 0 n) j) |].
  split; [done |]. split; [done |]. split; [by destruct p |]. split; [by destruct p |].
  intros Hj m Hm. rewrite Hg4. by apply Hs.
Qed.

Lemma calc_rmw_none st4 :
  (forall j, sget st4 j = planned j) -> wanted R st4 (seq 0 n) <> [] ->
  exists r, (r < k)%nat /\ oget R r = 0 /\ ~ (req_start (sget st r) = 0 /\ req_end (sget st r) = C).
Proof using Hin.
  intros Hg4 Hw. destruct (wanted R st4 (seq 0 n)) as [| r ms] eqn:E; [done |].
  assert (r ∈ wanted R st4 (seq 0 n)) as Hr by (rewrite E; apply list_elem_of_here).
  apply list_elem_of_filter in Hr as [[Ho He] _]. rewrite Hg4 in He.
  destruct (planned_spec r) as (p & Hpl & _ & _ & _ & Hnz). rewrite Hpl in He. simpl in He.
  exists r. destruct (Hnz He). done.
Qed.

Lemma marked_seq j : (j < n)%nat -> marked R (seq 0 n) j = bool_decide (oget R j = 0).
Proof. intros Hj. apply bool_decide_ext. rewrite elem_of_seq. split; [tauto | split; [lia | done]]. Qed.

(** What the stages give for one role of the result. *)
Record role_ok (st4 : list osd_rmw_stripe_t) (j : nat) (s : osd_rmw_stripe_t) : Prop := {
  ro_missing : missing s = marked R (seq 0 n) j;
  ro_write : (write_start s, write_end s) = write_plan j;
  ro_req : req_start s = req_start (sget st j) /\ req_end s = req_end (sget st j) /\ bmp_buf s = bmp_buf (sget st j);
  ro_range : range_ok C (read_range s);
  ro_le : range_le (read_range (planned j)) (read_range s);
  ro_other : j ∉ sources R k n -> read_range s = read_range (planned j);
  ro_source : j ∈ sources R k n -> forall m, m ∈ wanted R st4 (seq 0 n) -> range_le (read_range (planned m)) (read_range s) }.

Lemma final_role st4 j s s' :
  (forall j, sget st4 j = planned j) -> final st4 j s -> same_but_bufs s s' -> role_ok st4 j s'.
Proof using Hin.
  intros Hg4 ([p1 p2] & [q1 q2] & Hp & Hq & Hpo & Hqo & Hle & Hns & Hs) Heq.
  assert (read_range s' = (q1, q2)) as Hr by (rewrite Heq, Hq; by destruct (marked R (seq 0 n) j)).
  assert (read_range (planned j) = (p1, p2)) as Hr4 by (by rewrite <- Hg4, Hp).
  constructor; rewrite ?Hr, ?Hr4; try done.
  - rewrite Heq, Hq. simpl. destruct (in_fresh _ _ _ _ _ _ _ _ Hin j) as (_ & _ & _ & Hm).
    by destruct (marked R (seq 0 n) j).
  - rewrite Heq, Hq. rewrite surjective_pairing. by destruct (marked R (seq 0 n) j).
  - rewrite Heq, Hq. by destruct (marked R (seq 0 n) j).
  - intros Hj m Hm. rewrite <- Hg4. by apply Hs.
Qed.

Section Contract.
Context (st4 st' : list osd_rmw_stripe_t).
Hypothesis Hg4 : forall j, sget st4 j = planned j.
Hypothesis Hall : forall j, role_ok st4 j (sget st' j).

Lemma contract_cover p r x :
  (k <= p < n)%nat -> oget W p <> 0 -> (r < k)%nat -> ps <= x < pe -> requested (sget st r) x \/ reads (sget st' r) x.
Proof using Hin Hall.
  intros Hp HW Hr Hx. destruct (planned_spec r) as (q & Hq & Hqo & Hcov & _).
  destruct (Hcov Hr (parity_writes_pos p Hp HW) x Hx) as [| [Hm Hqx]]; [by left | right].
  pose proof (ro_le _ _ _ (Hall r)) as Hle. rewrite Hq in Hle. unfold range_le, read_range in Hle. simpl in Hle.
  pose proof parity_write_ok. unfold reads. lia.
Qed.

Lemma contract_moved r :
  same = false -> (r < k)%nat -> oget W r <> 0 -> oget W r <> oget R r ->
  (req_start (sget st r) = 0 /\ req_end (sget st r) = C) \/ read_range (sget st' r) = (0, C).
Proof using Hin Hall.
  intros Es Hr HW HR. destruct (planned_spec r) as (q & Hq & _ & _ & Hm & _).
  destruct (Hm Es Hr HW HR) as [| ->]; [by left | right].
  pose proof (ro_le _ _ _ (Hall r)) as Hle. pose proof (ro_range _ _ _ (Hall r)) as Hok.
  pose proof (in_chunk _ _ _ _ _ _ _ _ Hin) as HC. rewrite Hq in Hle.
  unfold range_le, range_ok, UINT32_MAX in *. destruct (read_range (sget st' r)) as [a b]. simpl in *.
  destruct Hok as [[= -> ->] | [[= -> ->] | Hok]]; f_equal; lia.
Qed.

Lemma missing_unchanged r : oget R r = 0 -> read_range (sget st' r) = read_range (planned r).
Proof using Hall. intros H0. apply (ro_other _ _ _ (Hall r)). by intros []%elem_of_sources. Qed.

Lemma contract_sources r :
  (wanted R st4 (seq 0 n) <> [] -> length (sources R k n) = k) ->
  (r < n)%nat -> oget R r = 0 -> read_end (sget st' r) <> 0 ->
  length (sources R k n) = k /\
  forall j, j ∈ sources R k n -> range_le (read_range (sget st' r)) (read_range (sget st' j)).
Proof using Hg4 Hall.
  intros Hsrc Hr H0 He. pose proof (missing_unchanged r H0) as Hu.
  assert (r ∈ wanted R st4 (seq 0 n)) as Hw.
  { apply list_elem_of_filter. split; [| apply elem_of_seq; lia]. split; [done |].
    rewrite Hg4. unfold read_range in Hu. congruence. }
  split; [apply Hsrc; intros E; rewrite E in Hw; by apply not_elem_of_nil in Hw |].
  intros j Hj. rewrite Hu. by apply (ro_source _ _ _ (Hall j)).
Qed.

Lemma contract_parity_read r : (k <= r < n)%nat -> read_end (sget st' r) <> 0 -> oget R r <> 0.
Proof using Hin Hall.
  intros Hr He H0. pose proof (missing_unchanged r H0) as Hu.
  destruct (planned_spec r) as (q & Hq & _ & _ & _ & Hnz).
  destruct Hnz; [| lia]. rewrite Hq in Hu. injection Hu as _ Hu. congruence.
Qed.
End Contract.

(** From the stages to the contract. *)
Lemma plan_of_stages st4 st5 st' :
  (forall j, sget st4 j = planned j) -> (forall j, final st4 j (sget st5 j)) ->
  (wanted R st4 (seq 0 n) <> [] -> length (sources R k n) = k) ->
  length st' = n -> (forall j, same_but_bufs (sget st5 j) (sget st' j)) ->
  (forall j, (j < n)%nat -> read_len (sget st5 j) <> 0 ->
     read_buf (sget st' j) = rmw_buf + (parity_writes W k (n - k) * (pe - ps) + zsum (fun i => read_len (sget st5 i)) j)) ->
  (forall j, (j < n)%nat -> req_end (sget st j) <> 0 ->
     write_buf (sget st' j) = request_buf + zsum (fun i => req_len (sget st i)) j) ->
  (forall j, (k <= j < n)%nat -> oget W j <> 0 -> pe <> 0 ->
     write_buf (sget st' j) = rmw_buf + zsum (parity_len W k (pe - ps) st) j) ->
  rmw_plan request_buf rmw_buf st R W n k same C st'.
Proof using Hin.
  intros Hg4 Hfin Hsrc Hl Hsame5 Hrb Hwd Hwp. pose proof Hin as [_ Hk HC _ _ _ Hf _].
  assert (forall j, role_ok st4 j (sget st' j)) as Hall by (intros j; by eapply final_role).
  constructor.
  - done.
  - intros r. apply (ro_req _ _ _ (Hall r)).
  - intros r Hr. pose proof (ro_write _ _ _ (Hall r)) as Hw. unfold write_plan in Hw.
    rewrite decide_True in Hw by done. by injection Hw.
  - intros r Hr. rewrite (ro_write _ _ _ (Hall r)). unfold write_plan.
    rewrite decide_False by lia. unfold ps, pe. rewrite <- surjective_pairing. apply decide_ext. tauto.
  - intros r. apply (ro_range _ _ _ (Hall r)).
  - by apply (contract_cover st4).
  - by apply (contract_moved st4).
  - intros r Hr. rewrite (ro_missing _ _ _ (Hall r)). by apply marked_seq.
  - intros r. by apply (contract_sources st4).
  - by apply (contract_parity_read st4).
  - intros r Hr Hn. rewrite (same_read_len _ _ (Hsame5 r)) in Hn. rewrite (Hrb r Hr Hn). do 2 f_equal.
    apply zsum_ext. intros i _. symmetry. by apply same_read_len.
  - intros r Hr He. apply Hwd; [lia | done].
  - done.
Qed.

Lemma calc_rmw_spec :
  match calc_rmw request_buf rmw_buf st R n k cur W same C with
  | Some st' => rmw_plan request_buf rmw_buf st R W n k same C st'
  | None => (length (available R (seq 0 n)) < k)%nat /\
      exists r, (r < k)%nat /\ oget R r = 0 /\ ~ (req_start (sget st r) = 0 /\ req_end (sget st r) = C)
  end.
Proof using Hin.
  destruct calc_rmw_planned as (st4 & Hl4 & Hg4 & ->).
  pose proof (rebuild_stage st4 Hl4) as Hst. destruct (if bool_decide _ then _ else _) as [st5 |].
  2:{ destruct Hst as [Hw Ha]. split; [done |]. by apply (calc_rmw_none st4). }
  destruct Hst as (Hl5 & Hsrc & Hg5).
  assert (forall j, final st4 j (sget st5 j)) as Hfin by (intros j; by apply final_ok).
  destruct (buffer_stage st5) as (Hl7 & Hs7 & Hrb & Hwd & Hwp); [done | | |].
  - intros j. destruct (Hfin j) as (p & q & _ & -> & _ & Hq & _). by destruct q, (marked R (seq 0 n) j).
  - intros j. destruct (Hfin j) as (p & q & _ & -> & _). by destruct (marked R (seq 0 n) j).
  - by apply (plan_of_stages st4 st5).
Qed.
End Plan.

(** * Theorems *)

Lemma wanted_nonempty osd_set st k :
  wanted osd_set st (seq 0 k) <> [] <-> exists m, (m < k)%nat /\ oget osd_set m = 0 /\ read_end (sget st m) <> 0.
Proof.
  split.
  - intros H. destruct (wanted osd_set st (seq 0 k)) as [| m ms] eqn:E; [done |].
    assert (m ∈ wanted osd_set st (seq 0 k)) as [? Hi%elem_of_seq]%list_elem_of_filter
      by (rewrite E; apply list_elem_of_here).
    exists m. split; [lia | done].
  - intros (m & Hm & H) E. assert (m ∈ wanted osd_set st (seq 0 k)) as Hw.
    { apply list_elem_of_filter. split; [done | apply elem_of_seq; lia]. }
    rewrite E in Hw. by apply not_elem_of_nil in Hw.
Qed.

Lemma wanted_idem osd_set st l : wanted osd_set st (wanted osd_set st l) = wanted osd_set st l.
Proof. apply list_filter_filter_r. tauto. Qed.

Lemma wanted_below osd_set st k n :
  (k <= n)%nat -> Forall (fun r => (r < n)%nat) (wanted osd_set st (seq 0 k)).
Proof. intros. apply Forall_forall. intros m [_ Hm%elem_of_seq]%list_elem_of_filter. lia. Qed.

Section Rebuilt.
Context (C : Z) (st : list osd_rmw_stripe_t) (osd_set : list Z) (k n : nat) (ms : list nat) (b : bool) (j : nat).
Hypothesis HC : 0 < C < UINT32_MAX.
Hypothesis Hok : forall j, range_ok C (read_range (sget st j)).

Lemma rebuilt_extended :
  exists q, read_range (rebuilt osd_set k n ms st b j) = q /\ range_ok C q /\ range_le (read_range (sget st j)) q /\
    (j ∈ sources osd_set k n -> forall m, m ∈ ms -> range_le (read_range (sget st m)) q).
Proof using HC Hok.
  unfold rebuilt. assert (read_range (if b then set_missing (sget st j) else sget st j) = read_range (sget st j)) as Hr
    by (by destruct b).
  destruct (decide _) as [Hs | Hs].
  - destruct (extended_spec C st HC Hok ms (if b then set_missing (sget st j) else sget st j)) as ([q1 q2] & -> & Hq & Hle & Hall);
      [rewrite Hr; apply Hok |]. rewrite Hr in Hle. exists (q1, q2). done.
  - exists (read_range (sget st j)). split; [exact Hr |]. split; [apply Hok |]. split; [by eapply range_le_refl | done].
Qed.

Lemma rebuilt_range :
  range_ok C (read_range (rebuilt osd_set k n ms st b j)) /\
  range_le (read_range (sget st j)) (read_range (rebuilt osd_set k n ms st b j)).
Proof using HC Hok. destruct rebuilt_extended as (q & -> & Hq & Hle & _). done. Qed.

Lemma rebuilt_source m :
  j ∈ sources osd_set k n -> m ∈ ms ->
  range_le (read_range (sget st m)) (read_range (rebuilt osd_set k n ms st b j)).
Proof using HC Hok. intros Hj Hm. destruct rebuilt_extended as (q & -> & _ & _ & Hall). by apply Hall. Qed.
End Rebuilt.

(** [split_stripes] gives every data chunk exactly the bytes of the request that
    fall into it: chunk [r] holds the bytes [r*bs .. (r+1)*bs) of the object. *)
Theorem split_stripes_ok (pg_minsize : nat) (bs start len : Z) (st : list osd_rmw_stripe_t) :
  0 < bs -> Z.of_nat pg_minsize * bs < 2 ^ 32 -> 0 <= start -> 0 <= len ->
  start + len <= Z.of_nat pg_minsize * bs -> (pg_minsize <= length st)%nat ->
  (forall r, req_start (sget st r) = 0 /\ req_end (sget st r) = 0) ->
  let st' := split_stripes pg_minsize bs start len st in
  (forall r, req_ok bs (sget st' r)) /\
  forall r x, (r < pg_minsize)%nat -> 0 <= x < bs ->
    (requested (sget st' r) x <-> start <= Z.of_nat r * bs + x < start + len).
Proof.
  intros Hbs Hsz Hs Hl Hfit Hlen H0 st'.
  destruct (split_stripes_spec pg_minsize bs start len st) as (_ & Hok & Hx); auto.
  split; [| done]. intros r. by destruct (Hok r) as (a & b & _ & Hr).
Qed.

(** [extend_missing_stripes] fails exactly when a chunk that is to be read is
    unreadable and fewer than [k] chunks are readable.  Otherwise no read
    shrinks, and each of the [k] source chunks covers the whole range of every
    unreadable chunk, which is marked missing. *)
Theorem extend_missing_ok (st : list osd_rmw_stripe_t) (osd_set : list Z) (k n : nat) (C : Z) :
  0 < C < UINT32_MAX -> (0 < k <= n)%nat -> length st = n ->
  (forall j, range_ok C (read_range (sget st j))) ->
  let '(st', r) := extend_missing_stripes st osd_set k n in
  let fails := (exists m, (m < k)%nat /\ oget osd_set m = 0 /\ read_end (sget st m) <> 0) /\
    (length (available osd_set (seq 0 n)) < k)%nat in
  (fails /\ r = -1) \/
  (~ fails /\ r = 0 /\ length st' = n /\
   (forall j, range_ok C (read_range (sget st' j)) /\ range_le (read_range (sget st j)) (read_range (sget st' j))) /\
   forall m, (m < k)%nat -> oget osd_set m = 0 -> read_end (sget st m) <> 0 ->
     missing (sget st' m) = true /\ length (sources osd_set k n) = k /\
     forall j, j ∈ sources osd_set k n -> range_le (read_range (sget st m)) (read_range (sget st' j))).
Proof.
  intros HC Hk Hl Hok. unfold extend_missing_stripes.
  pose proof (extend_missing_eq osd_set k n (seq 0 k) st ltac:(lia) Hl) as Heq.
  pose proof (extend_missing_ret osd_set k n (seq 0 k) st) as Hret.
  pose proof (rmw_missing_spec osd_set k n (wanted osd_set st (seq 0 k)) st Hl) as Hspec.
  destruct (extend_missing_loop _ _ _ _ _) as [st' r]. simpl in Hret. cbv zeta.
  rewrite <- wanted_nonempty. rewrite wanted_idem in Hspec. set (ws := wanted osd_set st (seq 0 k)) in *.
  rewrite Heq in Hspec by (apply Forall_seq; lia). specialize (Hspec ltac:(apply wanted_below; lia)).
  destruct (decide (ws <> [] /\ _)) as [Hf | Hf]; [left | right; split; [done |]].
  { split; [done |]. destruct Hret as [-> | ->]; [done | done]. }
  destruct Hspec as (st1 & Hrun & Hl1 & Hg). destruct (decide (r = 0)) as [-> |]; [| done].
  injection Hrun as ->. split; [done |]. split; [done |]. split.
  - intros j. rewrite Hg. by apply (rebuilt_range C).
  - intros m Hm Ho He. assert (m ∈ ws) as Hmw.
    { apply list_elem_of_filter. split; [done | apply elem_of_seq; lia]. }
    assert (length (sources osd_set k n) = k) as Hlen.
    { unfold sources. rewrite length_take. destruct ws; [by apply not_elem_of_nil in Hmw |].
      assert (~ (length (available osd_set (seq 0 n)) < k)%nat) by naive_solver. lia. }
    split; [| split; [done |]].
    + rewrite Hg. unfold rebuilt, marked. rewrite decide_False by (by intros []%elem_of_sources).
      by rewrite bool_decide_eq_true_2.
    + intros j Hj. rewrite Hg. by apply (rebuilt_source C).
Qed.

(** C23: [calc_rmw] refuses a write only when fewer than [k] chunks are readable and an
    unreadable data chunk is not overwritten as a whole.  Otherwise its plan
    is sufficient: every old byte that new parity or a moved chunk depends on
    is read or can be rebuilt from [k] readable chunks, and the buffers are
    laid out one after another. *)
Theorem calc_rmw_ok (request_buf rmw_buf : Z) (st : list osd_rmw_stripe_t) (R W : list Z) (n k cur : nat)
    (same : bool) (C : Z) :
  rmw_input st R W n k cur same C ->
  match calc_rmw request_buf rmw_buf st R n k cur W same C with
  | Some st' => rmw_plan request_buf rmw_buf st R W n k same C st'
  | None => (length (available R (seq 0 n)) < k)%nat /\
      exists r, (r < k)%nat /\ oget R r = 0 /\ ~ (req_start (sget st r) = 0 /\ req_end (sget st r) = C)
  end.
Proof. intros Hin. by apply calc_rmw_spec. Qed.

(** * Concrete instances: two data chunks and one parity chunk of 8 bytes *)

Definition example_set : list Z := [0; 2; 3].
Definition example_stripes : list osd_rmw_stripe_t := [set_req stripe0 2 6; stripe0; stripe0].

(** The first chunk is unreadable, so bytes of it must be rebuilt. *)
Lemma example_input : rmw_input example_stripes example_set example_set 3 2 2 true 8.
Proof.
  constructor; try done; try (unfold UINT32_MAX; lia).
  - intros [| [| r]] Hr; [right; simpl; lia | by left | lia].
  - intros [| [| [| r]]] Hr; (lia || done).
  - by intros [| [| [| r]]].
Qed.

Lemma split_stripes_ok_witness :
  (forall r, req_ok 8 (sget (split_stripes 2 8 5 6 [stripe0; stripe0; stripe0]) r)) /\
  forall r x, (r < 2)%nat -> 0 <= x < 8 ->
    (requested (sget (split_stripes 2 8 5 6 [stripe0; stripe0; stripe0]) r) x <-> 5 <= Z.of_nat r * 8 + x < 5 + 6).
Proof.
  apply (split_stripes_ok 2 8 5 6 [stripe0; stripe0; stripe0]); try lia; [simpl; lia |].
  by intros [| [| [| r]]].
Defined.

Lemma extend_missing_ok_witness :
  let st := [set_read stripe0 2 6; set_read stripe0 0 UINT32_MAX; stripe0] in
  let '(st', r) := extend_missing_stripes st example_set 2 3 in
  let fails := (exists m, (m < 2)%nat /\ oget example_set m = 0 /\ read_end (sget st m) <> 0) /\
    (length (available example_set (seq 0 3)) < 2)%nat in
  (fails /\ r = -1) \/
  (~ fails /\ r = 0 /\ length st' = 3%nat /\
   (forall j, range_ok 8 (read_range (sget st' j)) /\ range_le (read_range (sget st j)) (read_range (sget st' j))) /\
   forall m, (m < 2)%nat -> oget example_set m = 0 -> read_end (sget st m) <> 0 ->
     missing (sget st' m) = true /\ length (sources example_set 2 3) = 2%nat /\
     forall j, j ∈ sources example_set 2 3 -> range_le (read_range (sget st m)) (read_range (sget st' j))).
Proof.
  apply (extend_missing_ok [set_read stripe0 2 6; set_read stripe0 0 UINT32_MAX; stripe0] example_set 2 3 8);
    [unfold UINT32_MAX; lia | lia | done |].
  intros [| [| [| j]]]; [right; right; simpl; lia | right; by left | by left | by left].
Defined.

Lemma calc_rmw_ok_witness :
  rmw_input example_stripes example_set example_set 3 2 2 true 8 /\
  match calc_rmw 1000 2000 example_stripes example_set 3 2 2 example_set true 8 with
  | Some st' => rmw_plan 1000 2000 example_stripes example_set example_set 3 2 true 8 st'
  | None => (length (available example_set (seq 0 3)) < 2)%nat /\
      exists r, (r < 2)%nat /\ oget example_set r = 0 /\
        ~ (req_start (sget example_stripes r) = 0 /\ req_end (sget example_stripes r) = 8)
  end.
Proof.
  split; [apply example_input |].
  apply (calc_rmw_ok 1000 2000 example_stripes example_set example_set 3 2 2 true 8). apply example_input.
Defined.
