(* ===== verification/RmwXor.v ===== *)
(** The k+1 XOR scheme of src/src/osd/osd_rmw.cpp on a byte memory:
    reconstruction of a missing chunk, the new parity of a partial write, and
    the end-to-end theorem that the writes that result keep the parity chunk
    equal to the XOR of the data chunks. *)

From S2P Require Import Prelude.
From S2P Require Import Bitmap.
From S2P Require Import Rmw.
From S2P Require Import RmwPlan.

(** * Memory *)

(** Byte-addressed memory. *)
Definition mem : Type := Z -> Z.
Definition mset (m : mem) (a v : Z) : mem := fun x => if x =? a then v else m x.

(** [memxor] of src/src/util/xor.h, byte after byte. *)
Definition memxor (m : mem) (r1 r2 res len : Z) : mem :=
  foldl (fun m i => mset m (res + i) (Z.lxor (m (r1 + i)) (m (r2 + i)))) m (seqZ 0 len).

(** The C library's [memcpy] between regions that do not overlap. *)
Definition memcpy (m : mem) (dst src len : Z) : mem :=
  fun x => if (dst <=? x) && (x <? dst + len) then m (src + (x - dst)) else m x.

(** [len] bytes as a list, and back. *)
Definition mread (m : mem) (p len : Z) : list Z := map (fun i => m (p + i)) (seqZ 0 len).
Definition mwrite (m : mem) (p : Z) (bs : list Z) : mem :=
  fun x => if (p <=? x) && (x <? p + Z.of_nat (length bs)) then default 0 (bs !! Z.to_nat (x - p)) else m x.

(** * Reconstruction *)

(** What the inner loop has seen so far: nothing ([-2]), one other chunk
    ([prev]), or an accumulated result ([-1]). *)
Inductive xor_prev : Type :=
| NoneYet
| Prev (role : nat)
| Accumulated.

Fixpoint reconstruct_loop (stripes : list osd_rmw_stripe_t) (role : nat) (bitmap_size : Z) (others : list nat)
    (prev : xor_prev) (m : mem) : res mem :=
  match others with
  | [] => Ok m
  | other :: others =>
    let s := sget stripes role in
    let o := sget stripes other in
    let len := u32 (read_end s - read_start s) in
    if bool_decide (other <> role) then
      match prev with
      | NoneYet => reconstruct_loop stripes role bitmap_size others (Prev other) m
      | Prev prev =>
        let p := sget stripes prev in
        let* m :=
          (if bool_decide (read_end s <> UINT32_MAX) then
             assert! bool_decide (read_start s >= read_start p) && bool_decide (read_start s >= read_start o) in
             Ok (memxor m (read_buf p + u32 (read_start s - read_start p)) (read_buf o + u32 (read_start s - read_start o))
                   (read_buf s) len)
           else Ok m) in
        let m := memxor m (bmp_buf p) (bmp_buf o) (bmp_buf s) bitmap_size in
        reconstruct_loop stripes role bitmap_size others Accumulated m
      | Accumulated =>
        let* m :=
          (if bool_decide (read_end s <> UINT32_MAX) then
             assert! bool_decide (read_start s >= read_start o) in
             Ok (memxor m (read_buf s) (read_buf o + u32 (read_start s - read_start o)) (read_buf s) len)
           else Ok m) in
        let m := memxor m (bmp_buf s) (bmp_buf o) (bmp_buf s) bitmap_size in
        reconstruct_loop stripes role bitmap_size others Accumulated m
      end
    else reconstruct_loop stripes role bitmap_size others prev m
  end.

Definition reconstruct_stripes_xor (stripes : list osd_rmw_stripe_t) (pg_size : nat) (bitmap_size : Z) (m : mem)
    : res mem :=
  foldl (fun r role =>
    let* m := r in
    let s := sget stripes role in
    if bool_decide (read_end s <> 0) && missing s
    then reconstruct_loop stripes role bitmap_size (seq 0 pg_size) NoneYet m
    else Ok m) (Ok m) (seq 0 pg_size).

(** * New parity *)

(** [buf_len_t] *)
Notation buf_len_t := (Z * Z)%type (only parsing).

(** The buffers that hold the new contents of [wr_start, wr_end) of a chunk. *)
Definition get_old_new_buffers (s : osd_rmw_stripe_t) (wr_start wr_end : Z) : list buf_len_t :=
  let '(ns, ne) :=
    if bool_decide (write_end s > wr_start) && bool_decide (write_start s < wr_end)
    then (Z.max (write_start s) wr_start, Z.min (write_end s) wr_end) else (0, 0) in
  let '(os, oe) :=
    if bool_decide (read_end s > wr_start) && bool_decide (read_start s < wr_end)
    then (Z.max (read_start s) wr_start, Z.min (read_end s) wr_end) else (0, 0) in
  if bool_decide (ne <> 0) && (bool_decide (oe = 0) || bool_decide (ns <= os)) then
    (* NEW or NEW->OLD *)
    let os := if bool_decide (os < ne) then ne else os in
    (write_buf s + ns - write_start s, u32 (ne - ns)) ::
    (if bool_decide (oe > os) then [(read_buf s + os - read_start s, u32 (oe - os))] else [])
  else if bool_decide (oe <> 0) then
    if bool_decide (ne <> 0) then
      (* OLD->NEW or OLD->NEW->OLD *)
      (read_buf s + os - read_start s, u32 (ns - os)) ::
      (write_buf s + ns - write_start s, u32 (ne - ns)) ::
      (if bool_decide (oe > ne) then [(read_buf s + ne - read_start s, u32 (oe - ne))] else [])
    else
      (* OLD *)
      [(read_buf s + os - read_start s, u32 (oe - os))]
  else [].

Definition buf_at (bufs : list buf_len_t) (i : nat) : res buf_len_t :=
  match bufs !! i with Some b => Ok b | None => Err OutOfBounds end.

(** The loop of [xor_multiple_buffers]; every turn finishes a buffer. *)
Fixpoint xor_loop (fuel : nat) (xor1 xor2 : list buf_len_t) (dest len : Z)
    (i1 i2 : nat) (start1 start2 end1 end2 pos : Z) (m : mem) : res mem :=
  match fuel with
  | O => Err OutOfFuel
  | S fuel =>
    if bool_decide (pos < len) then
      let end_ := Z.min end1 end2 in
      let* b1 := buf_at xor1 i1 in
      let* b2 := buf_at xor2 i2 in
      let m := memxor m (b1.1 + pos - start1) (b2.1 + pos - start2) (dest + pos) (u32 (end_ - pos)) in
      let pos := end_ in
      let second (i1 : nat) (start1 end1 : Z) :=
        if bool_decide (pos >= end2) then
          let* b2 := buf_at xor2 (S i2) in
          xor_loop fuel xor1 xor2 dest len i1 (S i2) start1 end2 end1 (u32 (end2 + b2.2)) pos m
        else xor_loop fuel xor1 xor2 dest len i1 i2 start1 start2 end1 end2 pos m in
      if bool_decide (pos >= end1) then
        if bool_decide (length xor1 <= S i1)%nat then
          assert! bool_decide (pos >= end2) in Ok m
        else
          let* b1 := buf_at xor1 (S i1) in
          second (S i1) end1 (u32 (end1 + b1.2))
      else second i1 start1 end1
    else Ok m
  end.

Definition xor_multiple_buffers (xor1 xor2 : list buf_len_t) (dest len : Z) (m : mem) : res mem :=
  assert! bool_decide (0 < length xor1)%nat && bool_decide (0 < length xor2)%nat in
  let* b1 := buf_at xor1 0 in
  let* b2 := buf_at xor2 0 in
  xor_loop (length xor1 + length xor2 + 1) xor1 xor2 dest len 0 0 0 0 (u32 b1.2) (u32 b2.2) 0 m.

(** [bitmap_set] on the [size] bytes of memory at [p]. *)
Definition mem_bitmap_set (m : mem) (p size start len granularity : Z) : res mem :=
  let* bm := bitmap_set (mread m p size) start len granularity in
  Ok (mwrite m p bm).

(** [calc_rmw_parity_copy_mod]: the parity range, as [calc_rmw] chose it. *)
Definition copy_mod_range (stripes : list osd_rmw_stripe_t) (pg_size pg_minsize : nat)
    (read_osd_set write_osd_set : list Z) (chunk_size : Z) : Z * Z :=
  let '(end_, required) :=
    foldl (fun '(end_, required) role =>
      if bool_decide (oget write_osd_set role <> 0) then
        ((if bool_decide (oget write_osd_set role <> oget read_osd_set role) then chunk_size else end_), true)
      else (end_, required)) (0, false) (seq pg_minsize (pg_size - pg_minsize)) in
  if required && bool_decide (end_ <> chunk_size) then
    foldl (fun p role => hull_step p (sget stripes role)) (0, end_) (seq 0 pg_minsize)
  else (0, end_).

Definition copy_mod_bitmaps (stripes : list osd_rmw_stripe_t) (pg_minsize : nat) (bitmap_size bitmap_granularity : Z)
    (m : mem) : res mem :=
  if bool_decide (bitmap_granularity > 0) then
    foldl (fun r role =>
      let* m := r in
      let s := sget stripes role in
      if bool_decide (req_end s <> 0)
      then mem_bitmap_set m (bmp_buf s) bitmap_size (req_start s) (u32 (req_end s - req_start s)) bitmap_granularity
      else Ok m) (Ok m) (seq 0 pg_minsize)
  else Ok m.

(** Moved chunks are written as a whole, from the read buffer. *)
Definition copy_mod_moved (stripes : list osd_rmw_stripe_t) (pg_minsize : nat) (read_osd_set write_osd_set : list Z)
    (same_set : bool) (chunk_size : Z) (m : mem) : list osd_rmw_stripe_t * mem :=
  if same_set then (stripes, m)
  else
    foldl (fun '(st, m) role =>
      let s := sget st role in
      if bool_decide (oget write_osd_set role <> oget read_osd_set role) && bool_decide (oget write_osd_set role <> 0) &&
         (bool_decide (req_start s <> 0) || bool_decide (req_end s <> chunk_size))
      then (supd st role (fun s => set_write (set_write_buf s (read_buf s)) 0 chunk_size),
            memcpy m (read_buf s + req_start s) (write_buf s) (u32 (req_end s - req_start s)))
      else (st, m)) (stripes, m) (seq 0 pg_minsize).

Definition calc_rmw_parity_copy_mod (stripes : list osd_rmw_stripe_t) (pg_size pg_minsize : nat)
    (read_osd_set write_osd_set : list Z) (same_set : bool) (chunk_size bitmap_size bitmap_granularity : Z) (m : mem)
    : res (list osd_rmw_stripe_t * mem * Z * Z) :=
  let '(start, end_) := copy_mod_range stripes pg_size pg_minsize read_osd_set write_osd_set chunk_size in
  let* m := copy_mod_bitmaps stripes pg_minsize bitmap_size bitmap_granularity m in
  let '(stripes, m) := copy_mod_moved stripes pg_minsize read_osd_set write_osd_set same_set chunk_size m in
  Ok (stripes, m, start, end_).

Definition calc_rmw_parity_copy_parity (stripes : list osd_rmw_stripe_t) (pg_size pg_minsize : nat)
    (read_osd_set write_osd_set : list Z) (same_set : bool) (chunk_size start end_ : Z) (m : mem)
    : list osd_rmw_stripe_t * mem :=
  if negb same_set && bool_decide (end_ <> 0) then
    foldl (fun '(st, m) role =>
      let s := sget st role in
      if bool_decide (oget write_osd_set role <> oget read_osd_set role) && bool_decide (oget write_osd_set role <> 0) &&
         (bool_decide (start <> 0) || bool_decide (end_ <> chunk_size))
      then (supd st role (fun s => set_write (set_write_buf s (read_buf s)) 0 chunk_size),
            memcpy m (read_buf s + start - read_start s) (write_buf s) (u32 (end_ - start)))
      else (st, m)) (stripes, m) (seq pg_minsize (pg_size - pg_minsize))
  else (stripes, m).

(** The loop of [calc_rmw_parity_xor] over the data roles. *)
Fixpoint parity_loop (stripes : list osd_rmw_stripe_t) (parity : nat) (bitmap_size start end_ : Z)
    (others : list nat) (prev : xor_prev) (m : mem) : res mem :=
  match others with
  | [] => Ok m
  | other :: others =>
    let p := sget stripes parity in
    let o := sget stripes other in
    match prev with
    | NoneYet => parity_loop stripes parity bitmap_size start end_ others (Prev other) m
    | _ =>
      let '(xor1, m) :=
        match prev with
        | Prev prev =>
          (get_old_new_buffers (sget stripes prev) start end_,
           memxor m (bmp_buf (sget stripes prev)) (bmp_buf o) (bmp_buf p) bitmap_size)
        | _ => ([(write_buf p, u32 (end_ - start))], memxor m (bmp_buf p) (bmp_buf o) (bmp_buf p) bitmap_size)
        end in
      let* m := xor_multiple_buffers xor1 (get_old_new_buffers o start end_) (write_buf p) (u32 (end_ - start)) m in
      parity_loop stripes parity bitmap_size start end_ others Accumulated m
    end
  end.

Definition calc_rmw_parity_xor (stripes : list osd_rmw_stripe_t) (pg_size : nat) (read_osd_set write_osd_set : list Z)
    (same_set : bool) (chunk_size bitmap_size : Z) (m : mem) : res (list osd_rmw_stripe_t * mem) :=
  let bitmap_granularity := if bool_decide (bitmap_size > 0) then chunk_size / bitmap_size / 8 else 0 in
  let pg_minsize := (pg_size - 1)%nat in
  let* m := reconstruct_stripes_xor stripes pg_size bitmap_size m in
  let* (stripes, m, start, end_) :=
    calc_rmw_parity_copy_mod stripes pg_size pg_minsize read_osd_set write_osd_set same_set chunk_size
      bitmap_size bitmap_granularity m in
  let* m :=
    (if bool_decide (oget write_osd_set pg_minsize <> 0) && bool_decide (end_ <> 0)
     then parity_loop stripes pg_minsize bitmap_size start end_ (seq 0 pg_minsize) NoneYet m
     else Ok m) in
  Ok (calc_rmw_parity_copy_parity stripes pg_size pg_minsize read_osd_set write_osd_set same_set chunk_size start end_ m).

(** * Memory lemmas *)

(** Writing [len] bytes at [res] in increasing order never destroys a byte that
    is still to be read at [r]. *)
Definition ahead (res r len : Z) : Prop := res <= r \/ r + len <= res.

Lemma memxor_spec m r1 r2 res len x :
  0 <= len -> ahead res r1 len -> ahead res r2 len ->
  memxor m r1 r2 res len x =
  if decide (res <= x < res + len) then Z.lxor (m (r1 + (x - res))) (m (r2 + (x - res))) else m x.
Proof.
  intros Hlen H1 H2. unfold memxor, ahead in *. replace len with (Z.of_nat (Z.to_nat len)) in * by lia.
  generalize (Z.to_nat len) as n, H1, H2. clear Hlen H1 H2. intros n. revert x.
  induction n as [| n IH]; intros x H1 H2; [by rewrite decide_False by lia |].
  rewrite seqZ_S, foldl_snoc, Z.add_0_l. unfold mset at 1. rewrite !IH by lia.
  destruct (Z.eqb_spec x (res + Z.of_nat n)) as [-> | Hx].
  - rewrite !(decide_False (P := _ <= _ < res + Z.of_nat n)) by lia. rewrite decide_True by lia. f_equal; f_equal; lia.
  - apply decide_ext. lia.
Qed.

Definition in_region (p len x : Z) : Prop := p <= x < p + len.
Definition disjoint_regions (p1 len1 p2 len2 : Z) : Prop := forall x, in_region p1 len1 x -> ~ in_region p2 len2 x.

Lemma memcpy_spec m dst src len x :
  memcpy m dst src len x = if decide (in_region dst len x) then m (src + (x - dst)) else m x.
Proof.
  unfold memcpy, in_region. destruct (decide _).
  - by replace (_ && _) with true by lia.
  - by replace (_ && _) with false by lia.
Qed.

Lemma mwrite_spec m p bs x :
  mwrite m p bs x = if decide (in_region p (Z.of_nat (length bs)) x) then default 0 (bs !! Z.to_nat (x - p)) else m x.
Proof.
  unfold mwrite, in_region. destruct (decide _).
  - by replace (_ && _) with true by lia.
  - by replace (_ && _) with false by lia.
Qed.

Lemma length_mread m p len : length (mread m p len) = Z.to_nat len.
Proof. unfold mread. by rewrite length_map, length_seqZ. Qed.

(** * Lists of buffers *)

Fixpoint bufs_len (bufs : list buf_len_t) : Z :=
  match bufs with [] => 0 | b :: bufs => b.2 + bufs_len bufs end.

(** The address of byte [p] of the concatenated buffers. *)
Fixpoint addr_at (bufs : list buf_len_t) (p : Z) : Z :=
  match bufs with
  | [] => 0
  | b :: bufs => if decide (p < b.2) then b.1 + p else addr_at bufs (p - b.2)
  end.

Definition bufs_ok (bufs : list buf_len_t) : Prop := Forall (fun b => 0 < b.2) bufs.

Lemma bufs_len_nonneg bufs : bufs_ok bufs -> 0 <= bufs_len bufs.
Proof. induction 1; simpl; lia. Qed.

Lemma bufs_len_app b1 b2 : bufs_len (b1 ++ b2) = bufs_len b1 + bufs_len b2.
Proof. induction b1 as [| b b1 IH]; simpl; lia. Qed.

Lemma addr_at_lookup bufs i b p :
  bufs_ok bufs -> bufs !! i = Some b -> bufs_len (take i bufs) <= p < bufs_len (take i bufs) + b.2 ->
  addr_at bufs p = b.1 + (p - bufs_len (take i bufs)).
Proof.
  intros Hok. revert i p. induction Hok as [| c bufs Hc Hok IH]; intros [| i] p Hi Hp; simplify_eq/=.
  - rewrite decide_True by lia. lia.
  - pose proof (bufs_len_nonneg (take i bufs) ltac:(by apply Forall_take)).
    rewrite decide_False by lia. rewrite (IH i) by (done || lia). lia.
Qed.

Lemma bufs_len_take_S bufs i b : bufs !! i = Some b -> bufs_len (take (S i) bufs) = bufs_len (take i bufs) + b.2.
Proof. intros H. rewrite (take_S_r _ _ _ H), bufs_len_app. simpl. lia. Qed.

Lemma bufs_len_take_le bufs i : bufs_ok bufs -> bufs_len (take i bufs) <= bufs_len bufs.
Proof.
  intros H. rewrite <- (take_drop i bufs) at 2. rewrite bufs_len_app.
  pose proof (bufs_len_nonneg (drop i bufs) ltac:(by apply Forall_drop)). lia.
Qed.

(** A cursor [(i, start, end)] of the loop stands on buffer [i]. *)
Definition cursor (bufs : list buf_len_t) (i : nat) (start end_ pos : Z) : Prop :=
  exists b, bufs !! i = Some b /\ start = bufs_len (take i bufs) /\ end_ = start + b.2 /\ start <= pos < end_.

(** Every byte of the buffers is outside the destination or at its own place in it. *)
Definition safe_source (bufs : list buf_len_t) (dest len : Z) : Prop :=
  forall p, 0 <= p < len -> addr_at bufs p = dest + p \/ ~ in_region dest len (addr_at bufs p).

Section XorLoop.
Context (xor1 xor2 : list buf_len_t) (dest len : Z) (m0 : mem).
Hypothesis Hok1 : bufs_ok xor1.
Hypothesis Hok2 : bufs_ok xor2.
Hypothesis Hlen1 : bufs_len xor1 = len.
Hypothesis Hlen2 : bufs_len xor2 = len.
Hypothesis Hlen : len < 2 ^ 32.
Hypothesis Hs1 : safe_source xor1 dest len.
Hypothesis Hs2 : safe_source xor2 dest len.

(** The first [pos] bytes are done, the rest of memory is as before. *)
Definition xored (pos : Z) (m : mem) : Prop :=
  forall x, m x = if decide (in_region dest pos x)
                  then Z.lxor (m0 (addr_at xor1 (x - dest))) (m0 (addr_at xor2 (x - dest))) else m0 x.

(** A chunk of a buffer that starts at [pos] is read before it is overwritten. *)
Lemma chunk_ahead bufs i start end_ pos e b :
  bufs_ok bufs -> bufs_len bufs = len -> safe_source bufs dest len ->
  cursor bufs i start end_ pos -> bufs !! i = Some b -> pos <= e <= end_ ->
  ahead (dest + pos) (b.1 + pos - start) (e - pos) /\
  forall p, pos <= p < e -> addr_at bufs p = b.1 + pos - start + (p - pos).
Proof using.
  intros Hok Hl Hsafe (b' & Hb & Hst & He & Hp) Hb' Hpe. assert (b' = b) as -> by congruence.
  assert (forall p, pos <= p < e -> addr_at bufs p = b.1 + pos - start + (p - pos)) as Ha.
  { intros p Hpp. rewrite (addr_at_lookup bufs i b) by (done || lia). lia. }
  split; [| done]. unfold ahead. destruct (decide (e = pos)) as [-> | Hne]; [lia |].
  pose proof (bufs_len_take_le bufs (S i) Hok) as Hle. rewrite (bufs_len_take_S _ _ _ Hb) in Hle.
  pose proof (bufs_len_nonneg (take i bufs) ltac:(by apply Forall_take)).
  pose proof (Hsafe pos ltac:(lia)) as H1. pose proof (Hsafe (e - 1) ltac:(lia)) as H2.
  rewrite Ha in H1, H2 by lia. unfold in_region in *. lia.
Qed.

Lemma xored_source bufs pos p m :
  safe_source bufs dest len -> xored pos m -> 0 <= pos <= p -> p < len -> m (addr_at bufs p) = m0 (addr_at bufs p).
Proof using.
  intros Hsafe Hm Hp Hpl. rewrite Hm. apply decide_False. unfold in_region in *.
  destruct (Hsafe p ltac:(lia)) as [-> | Hn]; [lia |]. unfold in_region in Hn. lia.
Qed.

Lemma xored_step m i1 i2 start1 start2 end1 end2 pos b1 b2 :
  cursor xor1 i1 start1 end1 pos -> cursor xor2 i2 start2 end2 pos ->
  xor1 !! i1 = Some b1 -> xor2 !! i2 = Some b2 -> 0 <= pos -> Z.min end1 end2 <= len -> xored pos m ->
  xored (Z.min end1 end2)
    (memxor m (b1.1 + pos - start1) (b2.1 + pos - start2) (dest + pos) (Z.min end1 end2 - pos)).
Proof using Hok1 Hok2 Hlen1 Hlen2 Hs1 Hs2.
  intros Hc1 Hc2 Hb1 Hb2 Hpos He Hm.
  destruct (chunk_ahead xor1 i1 start1 end1 pos (Z.min end1 end2) b1) as [Ha1 Hd1]; try done.
  { destruct Hc1 as (? & _ & _ & _ & ?), Hc2 as (? & _ & _ & _ & ?). lia. }
  destruct (chunk_ahead xor2 i2 start2 end2 pos (Z.min end1 end2) b2) as [Ha2 Hd2]; try done.
  { destruct Hc1 as (? & _ & _ & _ & ?), Hc2 as (? & _ & _ & _ & ?). lia. }
  destruct Hc1 as (_ & _ & _ & _ & Hp1), Hc2 as (_ & _ & _ & _ & Hp2).
  intros x. rewrite memxor_spec by (done || lia). unfold in_region.
  destruct (decide (dest + pos <= x < dest + pos + (Z.min end1 end2 - pos))) as [Hx | Hx].
  - rewrite decide_True by lia. replace (x - (dest + pos)) with (x - dest - pos) by lia.
    rewrite <- Hd1, <- Hd2 by lia. f_equal; apply (xored_source _ pos); done || lia.
  - rewrite Hm. unfold in_region. apply decide_ext. lia.
Qed.

(** The cursor after [e] bytes: on the same buffer, on the next one, or at the end. *)
Lemma cursor_next bufs i start end_ pos e :
  bufs_ok bufs -> bufs_len bufs = len -> cursor bufs i start end_ pos -> pos <= e <= end_ ->
  if decide (e >= end_) then
    if decide (length bufs <= S i)%nat then e = len
    else exists b, bufs !! S i = Some b /\ cursor bufs (S i) end_ (u32 (end_ + b.2)) e /\ e < len
  else cursor bufs i start end_ e /\ e < len.
Proof using Hlen.
  intros Hok Hl (b & Hb & Hst & He & Hp) Hpe.
  pose proof (bufs_len_take_le bufs (S i) Hok) as Hle. rewrite (bufs_len_take_S _ _ _ Hb) in Hle.
  destruct (decide (e >= end_)); [destruct (decide (length bufs <= S i)%nat) as [Hi | Hi] |].
  - pose proof (bufs_len_take_S _ _ _ Hb) as HS. rewrite take_ge in HS by done. lia.
  - destruct (lookup_lt_is_Some_2 bufs (S i)) as [c Hc]; [lia |]. exists c. split; [done |].
    pose proof (bufs_len_take_S _ _ _ Hb) as HS. pose proof (bufs_len_take_S _ _ _ Hc) as HS'.
    pose proof (bufs_len_take_le bufs (S (S i)) Hok) as Hle'.
    assert (0 < c.2) by (by apply (Forall_lookup_1 _ _ _ _ Hok Hc)).
    pose proof (bufs_len_nonneg (take i bufs) ltac:(by apply Forall_take)).
    assert (0 < b.2) by (by apply (Forall_lookup_1 _ _ _ _ Hok Hb)).
    rewrite u32_small by lia. split; [| lia]. exists c. repeat (split; [done || lia |]). lia.
  - split; [| lia]. exists b. repeat (split; [done |]). lia.
Qed.

Lemma xor_loop_ok fuel m i1 i2 start1 start2 end1 end2 pos :
  cursor xor1 i1 start1 end1 pos -> cursor xor2 i2 start2 end2 pos -> 0 <= pos -> pos < len ->
  (length xor1 - i1 + (length xor2 - i2) < fuel)%nat -> xored pos m ->
  exists m', xor_loop fuel xor1 xor2 dest len i1 i2 start1 start2 end1 end2 pos m = Ok m' /\ xored len m'.
Proof using Hok1 Hok2 Hlen1 Hlen2 Hlen Hs1 Hs2.
  revert m i1 i2 start1 start2 end1 end2 pos.
  induction fuel as [| fuel IH]; intros m i1 i2 start1 start2 end1 end2 pos Hc1 Hc2 Hpos Hpl Hf Hm; [lia |].
  cbn [xor_loop]. rewrite bool_decide_eq_true_2 by done.
  pose proof Hc1 as (b1 & Hb1 & _ & _ & Hp1). pose proof Hc2 as (b2 & Hb2 & _ & _ & Hp2).
  pose proof (lookup_lt_Some _ _ _ Hb1). pose proof (lookup_lt_Some _ _ _ Hb2).
  unfold buf_at at 1 2. rewrite Hb1, Hb2. cbn [rbind].
  pose proof (cursor_next xor1 _ _ _ _ (Z.min end1 end2) Hok1 Hlen1 Hc1 ltac:(lia)) as Hn1.
  pose proof (cursor_next xor2 _ _ _ _ (Z.min end1 end2) Hok2 Hlen2 Hc2 ltac:(lia)) as Hn2.
  assert (Z.min end1 end2 <= len) as Hel.
  { repeat case_decide; try lia; try (destruct Hn1 as (? & _ & _ & ?); lia); destruct Hn1; lia. }
  rewrite u32_small by lia.
  pose proof (xored_step m i1 i2 start1 start2 end1 end2 pos b1 b2 Hc1 Hc2 Hb1 Hb2 Hpos Hel Hm) as Hm'.
  set (m' := memxor _ _ _ _ _) in *. assert (0 <= Z.min end1 end2) as He0 by lia.
  assert (e_turn : Z.min end1 end2 >= end1 \/ Z.min end1 end2 >= end2) by lia.
  set (e := Z.min end1 end2) in *. clearbody m' e.
  destruct (decide (e >= end1)) as [E1 | E1];
    [rewrite (bool_decide_eq_true_2 (e >= end1)) by done | rewrite (bool_decide_eq_false_2 (e >= end1)) by done].
  - destruct (decide (length xor1 <= S i1)%nat) as [L1 | L1];
      [rewrite (bool_decide_eq_true_2 (length xor1 <= S i1)%nat) by done
      | rewrite (bool_decide_eq_false_2 (length xor1 <= S i1)%nat) by done].
    { subst e. destruct (decide (len >= end2)); [| destruct Hn2; lia].
      rewrite bool_decide_eq_true_2 by done. by exists m'. }
    destruct Hn1 as (c1 & Hc1' & Hcur1 & He1). unfold buf_at at 1. rewrite Hc1'. cbn [rbind].
    destruct (decide (e >= end2)) as [E2 | E2].
    + rewrite bool_decide_eq_true_2 by done. destruct (decide (length xor2 <= S i2)%nat); [lia |].
      destruct Hn2 as (c2 & Hc2' & Hcur2 & _). unfold buf_at. rewrite Hc2'. cbn [rbind]. apply IH; done || lia.
    + rewrite bool_decide_eq_false_2 by done. destruct Hn2 as [Hcur2 _]. apply IH; done || lia.
  - destruct Hn1 as [Hcur1 He1]. destruct (decide (e >= end2)) as [E2 | E2]; [| lia].
    rewrite bool_decide_eq_true_2 by done. destruct (decide (length xor2 <= S i2)%nat); [lia |].
    destruct Hn2 as (c2 & Hc2' & Hcur2 & _). unfold buf_at. rewrite Hc2'. cbn [rbind]. apply IH; done || lia.
Qed.

Lemma first_cursor bufs :
  bufs_ok bufs -> bufs_len bufs = len -> 0 < len ->
  exists b, bufs !! 0%nat = Some b /\ (0 < length bufs)%nat /\ cursor bufs 0 0 (u32 b.2) 0.
Proof using Hlen.
  intros Hok Hl Hpos. destruct bufs as [| b t]; simpl in Hl; [lia |]. exists b. split; [done |].
  apply Forall_cons in Hok as [Hb Ht]. pose proof (bufs_len_nonneg t Ht).
  split; [simpl; lia |]. rewrite u32_small by lia. exists b. simpl. repeat (split; [done |]). lia.
Qed.

Lemma xor_multiple_buffers_ok :
  0 < len ->
  exists m', xor_multiple_buffers xor1 xor2 dest len m0 = Ok m' /\ xored len m'.
Proof using Hok1 Hok2 Hlen1 Hlen2 Hlen Hs1 Hs2.
  intros Hpos. unfold xor_multiple_buffers, buf_at.
  destruct (first_cursor xor1 Hok1 Hlen1 Hpos) as (b1 & -> & Hl1 & Hc1).
  destruct (first_cursor xor2 Hok2 Hlen2 Hpos) as (b2 & -> & Hl2 & Hc2).
  rewrite !bool_decide_eq_true_2 by done. cbn [andb rbind].
  apply xor_loop_ok; try done; try lia. intros x. rewrite decide_False; [done |]. unfold in_region. lia.
Qed.
End XorLoop.

(** * The contents of a chunk after a write *)

(** The address of the new byte at [x]: in the write buffer when [x] is written,
    in the read buffer otherwise. *)
Definition new_addr (s : osd_rmw_stripe_t) (x : Z) : Z :=
  if decide (write_start s <= x < write_end s) then write_buf s + (x - write_start s)
  else read_buf s + (x - read_start s).

(** What a list of buffers must hold for the range [a, b) of a chunk. *)
Definition holds_new (s : osd_rmw_stripe_t) (a b : Z) (bufs : list buf_len_t) : Prop :=
  bufs_ok bufs /\ bufs_len bufs = b - a /\ forall p, 0 <= p < b - a -> addr_at bufs p = new_addr s (a + p).

Lemma and_decide (P Q : Prop) `{Decision P, Decision Q} : bool_decide P && bool_decide Q = bool_decide (P /\ Q).
Proof. repeat case_bool_decide; tauto. Qed.
Lemma or_decide (P Q : Prop) `{Decision P, Decision Q} : bool_decide P || bool_decide Q = bool_decide (P \/ Q).
Proof. repeat case_bool_decide; tauto. Qed.

Ltac test P :=
  let H := fresh in
  destruct (decide P) as [H | H];
  [rewrite (bool_decide_eq_true_2 P) by exact H | rewrite (bool_decide_eq_false_2 P) by exact H]; cbv iota.

Lemma new_addr_written s x :
  write_start s <= x < write_end s -> new_addr s x = write_buf s + (x - write_start s).
Proof. intros. unfold new_addr. by rewrite decide_True. Qed.
Lemma new_addr_read s x :
  ~ (write_start s <= x < write_end s) -> new_addr s x = read_buf s + (x - read_start s).
Proof. intros. unfold new_addr. by rewrite decide_False. Qed.

(** The shapes that a chunk can have: [NEW], [NEW->OLD], [OLD], [OLD->NEW] and
    [OLD->NEW->OLD]. *)
Lemma holds_cons s a c b bufs (p : Z) :
  a < c <= b -> (forall x, a <= x < c -> new_addr s x = p + (x - a)) -> holds_new s c b bufs ->
  holds_new s a b ((p, c - a) :: bufs).
Proof.
  intros Hc Hp (Hok & Hl & Ha). split; [by constructor; [simpl; lia |] |]. split; [simpl; lia |].
  intros q Hq. simpl. destruct (decide (q < c - a)).
  - rewrite Hp by lia. lia.
  - rewrite Ha by lia. f_equal. lia.
Qed.
Lemma holds_nil s b : holds_new s b b [].
Proof. split; [constructor |]. split; [simpl; lia |]. lia. Qed.

Lemma holds_tail s c b (p : Z) :
  c <= b -> (forall x, c <= x < b -> new_addr s x = p + (x - c)) ->
  holds_new s c b (if bool_decide (b > c) then [(p, b - c)] else []).
Proof.
  intros Hc Hp. case_bool_decide; [apply holds_cons; [lia | done | apply holds_nil] |].
  replace c with b by lia. apply holds_nil.
Qed.

Lemma get_old_new_buffers_ok C s a b :
  0 < C < UINT32_MAX -> 0 <= a < b -> b <= C -> range_ok C (read_range s) ->
  (write_start s = 0 /\ write_end s = 0) \/ (0 <= write_start s < write_end s /\ write_end s <= C) ->
  (forall x, a <= x < b -> write_start s <= x < write_end s \/ reads s x) ->
  holds_new s a b (get_old_new_buffers s a b).
Proof.
  intros HC Hab Hb Hr Hw Hcov. unfold get_old_new_buffers, reads, UINT32_MAX in *.
  assert (0 <= read_start s /\ (read_end s = 0 \/ read_start s < read_end s)) as Hr'.
  { unfold range_ok, read_range in Hr. destruct Hr as [[= -> ->] | [[= -> ->] | ?]]; simpl in *; unfold UINT32_MAX; lia. }
  clear Hr. pose proof (Hcov a) as Ca. pose proof (Hcov (b - 1)) as Cb. pose proof (Hcov (write_end s)) as Cwe.
  pose proof (Hcov (write_start s - 1)) as Cws. clear Hcov. rewrite !and_decide.
  test (write_end s > a /\ write_start s < b); test (read_end s > a /\ read_start s < b).
  all: rewrite ?or_decide, ?and_decide.
  - test (Z.min (write_end s) b <> 0 /\ (Z.min (read_end s) b = 0 \/
      Z.max (write_start s) a <= Z.max (read_start s) a)).
    + assert (write_start s <= a) by lia. replace (Z.max (write_start s) a) with a by lia.
      destruct (decide (write_end s < b)) as [Hwe | Hwe].
      * assert (read_end s >= b /\ read_start s <= write_end s) by lia.
        replace (Z.min (write_end s) b) with (write_end s) by lia. replace (Z.min (read_end s) b) with b by lia.
        clear Ca Cb Cwe Cws.
        replace (if bool_decide (_ < write_end s) then write_end s else Z.max (read_start s) a) with (write_end s)
          by (case_bool_decide; lia).
        rewrite !u32_small by lia. apply holds_cons; [lia | intros; rewrite new_addr_written; lia |].
        apply holds_tail; [lia | intros; rewrite new_addr_read; lia].
      * replace (Z.min (write_end s) b) with b by lia. clear Ca Cb Cwe Cws.
        rewrite (bool_decide_eq_false_2 (Z.min (read_end s) b > _)) by (case_bool_decide; lia).
        rewrite !u32_small by lia. apply holds_cons; [lia | intros; rewrite new_addr_written; lia | apply holds_nil].
    + assert (a < write_start s /\ read_start s <= a /\ read_end s >= write_start s) by lia.
      rewrite !(bool_decide_eq_true_2 (_ <> 0)) by lia.
      replace (Z.max (write_start s) a) with (write_start s) by lia. replace (Z.max (read_start s) a) with a by lia.
      destruct (decide (write_end s < b)) as [Hwe | Hwe].
      * assert (read_end s >= b) by lia.
        replace (Z.min (write_end s) b) with (write_end s) by lia. replace (Z.min (read_end s) b) with b by lia.
        clear Ca Cb Cwe Cws. rewrite !u32_small by lia.
        apply holds_cons; [lia | intros; rewrite new_addr_read; lia |].
        apply holds_cons; [lia | intros; rewrite new_addr_written; lia |].
        apply holds_tail; [lia | intros; rewrite new_addr_read; lia].
      * replace (Z.min (write_end s) b) with b by lia. clear Ca Cb Cwe Cws.
        rewrite (bool_decide_eq_false_2 (Z.min (read_end s) b > b)) by lia. rewrite !u32_small by lia.
        apply holds_cons; [lia | intros; rewrite new_addr_read; lia |].
        apply holds_cons; [lia | intros; rewrite new_addr_written; lia | apply holds_nil].
  - assert (write_start s <= a /\ write_end s >= b) by lia. clear Ca Cb Cwe Cws.
    replace (Z.max (write_start s) a) with a by lia. replace (Z.min (write_end s) b) with b by lia.
    rewrite bool_decide_eq_true_2 by lia. cbv iota. rewrite (bool_decide_eq_false_2 (0 > _)) by (case_bool_decide; lia).
    rewrite u32_small by lia. apply holds_cons; [lia | intros; rewrite new_addr_written; lia | apply holds_nil].
  - assert (read_start s <= a /\ read_end s >= b) by lia. clear Ca Cb Cwe Cws.
    replace (Z.max (read_start s) a) with a by lia. replace (Z.min (read_end s) b) with b by lia.
    rewrite bool_decide_eq_false_2, (bool_decide_eq_true_2 (b <> 0)), bool_decide_eq_false_2 by lia.
    rewrite u32_small by lia. apply holds_cons; [lia | intros; rewrite new_addr_read; lia | apply holds_nil].
  - lia.
Qed.

(** * Accumulating an XOR in memory *)

Fixpoint xorl (f : nat -> Z) (l : list nat) : Z :=
  match l with [] => 0 | r :: l => Z.lxor (f r) (xorl f l) end.

Lemma xorl_app f l1 l2 : xorl f (l1 ++ l2) = Z.lxor (xorl f l1) (xorl f l2).
Proof. induction l1 as [| r l1 IH]; simpl; [done |]. by rewrite IH, Z.lxor_assoc. Qed.
Lemma xorl_snoc f l r : xorl f (l ++ [r]) = Z.lxor (xorl f l) (f r).
Proof. rewrite xorl_app. simpl. by rewrite Z.lxor_0_r. Qed.
Lemma xorl_ext f g l : (forall r, r ∈ l -> f r = g r) -> xorl f l = xorl g l.
Proof.
  induction l as [| r l IH]; intros H; simpl; [done |].
  rewrite H by apply list_elem_of_here. rewrite IH; [done |]. intros i Hi. apply H. by apply list_elem_of_further.
Qed.

Section Accumulate.
(** Two regions, of [len1] bytes at [d1] and of [len2] bytes at [d2]; byte [p]
    that role [r] contributes to them is at [src1 r p] and [src2 r p]. *)
Context (d1 len1 d2 len2 : Z) (src1 src2 : nat -> Z -> Z) (m0 : mem).
Hypothesis Hsep : disjoint_regions d1 len1 d2 len2.

(** The roles of [l] are accumulated and nothing else has changed. *)
Definition acc (l : list nat) (m : mem) : Prop :=
  forall x, m x = if decide (in_region d1 len1 x) then xorl (fun r => m0 (src1 r (x - d1))) l
                  else if decide (in_region d2 len2 x) then xorl (fun r => m0 (src2 r (x - d2))) l
                  else m0 x.

(** The bytes of a source role are outside both regions. *)
Definition source_ok (r : nat) : Prop :=
  (forall p, 0 <= p < len1 -> ~ in_region d1 len1 (src1 r p) /\ ~ in_region d2 len2 (src1 r p)) /\
  (forall p, 0 <= p < len2 -> ~ in_region d1 len1 (src2 r p) /\ ~ in_region d2 len2 (src2 r p)).

(** The first two roles start the accumulation, region 1 first. *)
Lemma acc_start r1 r2 m1 m2 :
  source_ok r1 -> source_ok r2 ->
  (forall x, m1 x = if decide (in_region d1 len1 x) then Z.lxor (m0 (src1 r1 (x - d1))) (m0 (src1 r2 (x - d1))) else m0 x) ->
  (forall x, m2 x = if decide (in_region d2 len2 x) then Z.lxor (m1 (src2 r1 (x - d2))) (m1 (src2 r2 (x - d2))) else m1 x) ->
  acc [r1; r2] m2.
Proof using Hsep.
  intros [_ Hr1] [_ Hr2] H1 H2 x. rewrite H2. simpl. rewrite !Z.lxor_0_r.
  destruct (decide (in_region d1 len1 x)) as [Hx | Hx].
  - rewrite (decide_False (P := in_region d2 len2 x)) by (by apply Hsep). by rewrite H1, decide_True.
  - destruct (decide (in_region d2 len2 x)) as [Hx2 | Hx2]; [| by rewrite H1, decide_False].
    rewrite !H1. unfold in_region in Hx2.
    destruct (Hr1 (x - d2) ltac:(lia)) as [? _]. destruct (Hr2 (x - d2) ltac:(lia)) as [? _].
    by rewrite !decide_False.
Qed.

(** Each further role is added to both regions. *)
Lemma acc_step l r m m1 m2 :
  source_ok r -> acc l m ->
  (forall x, m1 x = if decide (in_region d1 len1 x) then Z.lxor (m x) (m (src1 r (x - d1))) else m x) ->
  (forall x, m2 x = if decide (in_region d2 len2 x) then Z.lxor (m1 x) (m1 (src2 r (x - d2))) else m1 x) ->
  acc (l ++ [r]) m2.
Proof using Hsep.
  intros [Hr1 Hr2] Hm H1 H2 x. rewrite H2, !xorl_snoc.
  destruct (decide (in_region d1 len1 x)) as [Hx | Hx].
  - rewrite (decide_False (P := in_region d2 len2 x)) by (by apply Hsep).
    rewrite H1, decide_True by done. unfold in_region in Hx. destruct (Hr1 (x - d1) ltac:(lia)) as [? ?].
    f_equal; rewrite Hm; [by rewrite decide_True | by rewrite !decide_False].
  - destruct (decide (in_region d2 len2 x)) as [Hx2 | Hx2].
    + rewrite !H1. unfold in_region in Hx2. destruct (Hr2 (x - d2) ltac:(lia)) as [? ?].
      rewrite !decide_False by done.
      f_equal; rewrite Hm; [by rewrite decide_False, decide_True | by rewrite !decide_False].
    + rewrite H1, decide_False by done. rewrite Hm. by rewrite !decide_False.
Qed.
End Accumulate.

Lemma disjoint_sym p1 l1 p2 l2 : disjoint_regions p1 l1 p2 l2 -> disjoint_regions p2 l2 p1 l1.
Proof. intros H x H2 H1. by apply (H x). Qed.

Lemma acc_swap d1 len1 d2 len2 src1 src2 m0 l m :
  disjoint_regions d1 len1 d2 len2 -> acc d1 len1 d2 len2 src1 src2 m0 l m -> acc d2 len2 d1 len1 src2 src1 m0 l m.
Proof.
  intros Hsep H x. rewrite H. destruct (decide (in_region d1 len1 x)) as [H1 | H1]; [| done].
  rewrite decide_False; [done |]. by apply Hsep.
Qed.

Lemma source_swap d1 len1 d2 len2 src1 src2 r :
  source_ok d1 len1 d2 len2 src1 src2 r -> source_ok d2 len2 d1 len1 src2 src1 r.
Proof. intros [H1 H2]. split; intros p Hp; [destruct (H2 p Hp) | destruct (H1 p Hp)]; done. Qed.

(** [memxor] of two pieces that do not overlap the destination, or of the
    destination itself with such a piece. *)
Lemma outside_ahead d len a :
  0 <= len -> (forall p, 0 <= p < len -> ~ in_region d len (a + p)) -> ahead d a len.
Proof.
  intros Hl H. unfold ahead, in_region in *. destruct (decide (len = 0)) as [-> |]; [lia |].
  destruct (decide (d <= a)); [by left |]. right. specialize (H (d - a)). lia.
Qed.

Lemma memxor_two m a1 a2 d len :
  0 <= len -> (forall p, 0 <= p < len -> ~ in_region d len (a1 + p)) ->
  (forall p, 0 <= p < len -> ~ in_region d len (a2 + p)) ->
  forall x, memxor m a1 a2 d len x =
    if decide (in_region d len x) then Z.lxor (m (a1 + (x - d))) (m (a2 + (x - d))) else m x.
Proof. intros Hl H1 H2 x. apply memxor_spec; [done | by apply outside_ahead | by apply outside_ahead]. Qed.

Lemma memxor_into m a d len :
  0 <= len -> (forall p, 0 <= p < len -> ~ in_region d len (a + p)) ->
  forall x, memxor m d a d len x = if decide (in_region d len x) then Z.lxor (m x) (m (a + (x - d))) else m x.
Proof.
  intros Hl H x. rewrite memxor_spec; [| done | unfold ahead; lia | by apply outside_ahead].
  unfold in_region. destruct (decide _); [| done]. do 2 f_equal. lia.
Qed.

(** * Reconstruction of a missing chunk *)

(** Bytes of data that a stripe reads. *)
Definition data_len (s : osd_rmw_stripe_t) : Z :=
  if decide (read_end s = UINT32_MAX) then 0 else read_end s - read_start s.

Section Reconstruct.
Context (C : Z) (st : list osd_rmw_stripe_t) (role : nat) (bs : Z).
Let s : osd_rmw_stripe_t := sget st role.
Hypothesis HC : 0 < C < UINT32_MAX.
Hypothesis Hbs : 0 <= bs.
Hypothesis Hrange : range_ok C (read_range s).
Hypothesis Hread : read_end s <> 0.
Hypothesis Hsep : disjoint_regions (read_buf s) (data_len s) (bmp_buf s) bs.

Definition rsrc (r : nat) (p : Z) : Z := read_buf (sget st r) + (read_start s - read_start (sget st r)) + p.
Definition bsrc (r : nat) (p : Z) : Z := bmp_buf (sget st r) + p.

(** Another chunk whose read covers the missing one. *)
Definition covers (r : nat) : Prop :=
  source_ok (read_buf s) (data_len s) (bmp_buf s) bs rsrc bsrc r /\
  (read_end s <> UINT32_MAX -> 0 <= read_start (sget st r) <= read_start s).

Let done_with (m0 : mem) : list nat -> mem -> Prop := acc (read_buf s) (data_len s) (bmp_buf s) bs rsrc bsrc m0.

Lemma data_len_nonneg : 0 <= data_len s < 2 ^ 32 /\ read_start s < 2 ^ 32.
Proof.
  unfold data_len, range_ok, read_range, UINT32_MAX in *.
  destruct Hrange as [[= -> ->] | [[= -> ->] | H]]; simpl in *; destruct (decide _); lia.
Qed.

Lemma data_len_real : read_end s <> UINT32_MAX -> u32 (read_end s - read_start s) = data_len s.
Proof.
  intros Hm. pose proof data_len_nonneg as [H _]. unfold data_len in *. rewrite decide_False in * by done. by apply u32_small.
Qed.

(** The data of the first two chunks. *)
Lemma reconstruct_data_two m p o :
  covers p -> covers o ->
  exists m1, (if bool_decide (read_end s <> UINT32_MAX) then
      assert! bool_decide (read_start s >= read_start (sget st p)) && bool_decide (read_start s >= read_start (sget st o)) in
      Ok (memxor m (read_buf (sget st p) + u32 (read_start s - read_start (sget st p)))
            (read_buf (sget st o) + u32 (read_start s - read_start (sget st o))) (read_buf s)
            (u32 (read_end s - read_start s)))
    else Ok m) = Ok m1 /\
    forall x, m1 x = if decide (in_region (read_buf s) (data_len s) x)
                     then Z.lxor (m (rsrc p (x - read_buf s))) (m (rsrc o (x - read_buf s))) else m x.
Proof.
  intros [[Hp _] Hps] [[Ho _] Hos]. pose proof data_len_nonneg as [Hn Hs]. case_bool_decide as Hm.
  - specialize (Hps Hm). specialize (Hos Hm). rewrite !bool_decide_eq_true_2 by lia. simpl andb. cbv iota.
    eexists. split; [done |]. rewrite data_len_real by done. rewrite !u32_small by lia.
    apply memxor_two; [lia | intros q Hq; by apply Hp | intros q Hq; by apply Ho].
  - exists m. split; [done |]. intros x. rewrite decide_False; [done |].
    unfold in_region, data_len. rewrite decide_True by tauto. lia.
Qed.

Lemma reconstruct_data_into m o :
  covers o ->
  exists m1, (if bool_decide (read_end s <> UINT32_MAX) then
      assert! bool_decide (read_start s >= read_start (sget st o)) in
      Ok (memxor m (read_buf s) (read_buf (sget st o) + u32 (read_start s - read_start (sget st o))) (read_buf s)
            (u32 (read_end s - read_start s)))
    else Ok m) = Ok m1 /\
    forall x, m1 x = if decide (in_region (read_buf s) (data_len s) x)
                     then Z.lxor (m x) (m (rsrc o (x - read_buf s))) else m x.
Proof.
  intros [[Ho _] Hos]. pose proof data_len_nonneg as [Hn Hs]. case_bool_decide as Hm.
  - specialize (Hos Hm). rewrite !bool_decide_eq_true_2 by lia. cbv iota.
    eexists. split; [done |]. rewrite data_len_real by done. rewrite !u32_small by lia.
    apply memxor_into; [lia | intros q Hq; by apply Ho].
  - exists m. split; [done |]. intros x. rewrite decide_False; [done |].
    unfold in_region, data_len. rewrite decide_True by tauto. lia.
Qed.

Lemma reconstruct_rest m0 others l m :
  Forall (fun o => o <> role -> covers o) others -> done_with m0 l m ->
  exists m', reconstruct_loop st role bs others Accumulated m = Ok m' /\
    done_with m0 (l ++ filter (fun o => o <> role) others) m'.
Proof.
  intros Hall. revert l m. induction Hall as [| o others Ho Hall IH]; intros l m Hm; cbn [reconstruct_loop].
  { exists m. by rewrite filter_nil, app_nil_r. }
  rewrite filter_cons. destruct (decide (o <> role)) as [E | E];
    [rewrite bool_decide_eq_true_2 by done | rewrite bool_decide_eq_false_2 by done; by apply IH].
  fold s. destruct (reconstruct_data_into m o (Ho E)) as (m1 & -> & H1). cbn [rbind].
  destruct (IH (l ++ [o]) (memxor m1 (bmp_buf s) (bmp_buf (sget st o)) (bmp_buf s) bs)) as (m' & Hrun & Hm').
  { destruct (Ho E) as [Hso _]. eapply acc_step; [exact Hsep | exact Hso | exact Hm | exact H1 |].
    apply memxor_into; [done |]. intros q Hq. by apply Hso. }
  exists m'. split; [done |]. by rewrite <- app_assoc in Hm'.
Qed.

Lemma reconstruct_prev m0 others p :
  Forall (fun o => o <> role -> covers o) others -> covers p -> filter (fun o => o <> role) others <> [] ->
  exists m', reconstruct_loop st role bs others (Prev p) m0 = Ok m' /\
    done_with m0 (p :: filter (fun o => o <> role) others) m'.
Proof.
  intros Hall Hp. induction Hall as [| o others Ho Hall IH]; intros Hne; cbn [reconstruct_loop]; [done |].
  rewrite filter_cons in *. destruct (decide (o <> role)) as [E | E];
    [rewrite bool_decide_eq_true_2 by done | rewrite bool_decide_eq_false_2 by done; by apply IH].
  fold s. destruct (reconstruct_data_two m0 p o Hp (Ho E)) as (m1 & -> & H1). cbn [rbind].
  apply (reconstruct_rest m0 others [p; o]); [done |].
  destruct (Ho E) as [Hso _], Hp as [Hsp _]. eapply acc_start; [exact Hsep | exact Hsp | exact Hso | exact H1 |].
  apply memxor_two; [done | intros q Hq; by apply Hsp | intros q Hq; by apply Hso].
Qed.

(** The loop over the other chunks leaves their XOR in the missing one. *)
Lemma reconstruct_loop_ok m0 others :
  Forall (fun o => o <> role -> covers o) others -> (2 <= length (filter (fun o => o <> role) others))%nat ->
  exists m', reconstruct_loop st role bs others NoneYet m0 = Ok m' /\
    done_with m0 (filter (fun o => o <> role) others) m'.
Proof.
  intros Hall. induction Hall as [| o others Ho Hall IH]; intros Hne; cbn [reconstruct_loop]; [simpl in Hne; lia |].
  rewrite filter_cons in *. destruct (decide (o <> role)) as [E | E];
    [rewrite bool_decide_eq_true_2 by done | rewrite bool_decide_eq_false_2 by done; by apply IH].
  apply reconstruct_prev; [done | by apply Ho |]. intros H0. rewrite H0 in Hne. simpl in Hne. lia.
Qed.
End Reconstruct.

(** * New parity *)

Section Parity.
Context (st : list osd_rmw_stripe_t) (parity : nat) (bs a b : Z).
Let p : osd_rmw_stripe_t := sget st parity.
Hypothesis Hbs : 0 <= bs.
Hypothesis Hab : 0 <= a < b /\ b < 2 ^ 32.
Hypothesis Hsep : disjoint_regions (bmp_buf p) bs (write_buf p) (b - a).

Definition new_src (r : nat) (q : Z) : Z := new_addr (sget st r) (a + q).

(** A data role whose new contents over [a, b) are in its buffers. *)
Definition ready (r : nat) : Prop :=
  source_ok (bmp_buf p) bs (write_buf p) (b - a) (bsrc st) new_src r /\
  holds_new (sget st r) a b (get_old_new_buffers (sget st r) a b).

Let done_with (m0 : mem) : list nat -> mem -> Prop :=
  acc (bmp_buf p) bs (write_buf p) (b - a) (bsrc st) new_src m0.

Lemma ready_safe r : ready r -> safe_source (get_old_new_buffers (sget st r) a b) (write_buf p) (b - a).
Proof.
  intros [[_ Hs] (_ & _ & Ha)] q Hq. right. rewrite Ha by done. by apply Hs.
Qed.

(** XOR of two lists of buffers that hold two chunks. *)
Lemma parity_data bufs1 r2 f m :
  bufs_ok bufs1 -> bufs_len bufs1 = b - a -> safe_source bufs1 (write_buf p) (b - a) ->
  (forall q, 0 <= q < b - a -> addr_at bufs1 q = f q) -> ready r2 ->
  exists m', xor_multiple_buffers bufs1 (get_old_new_buffers (sget st r2) a b) (write_buf p) (b - a) m = Ok m' /\
    forall x, m' x = if decide (in_region (write_buf p) (b - a) x)
                     then Z.lxor (m (f (x - write_buf p))) (m (new_src r2 (x - write_buf p))) else m x.
Proof.
  intros Hok1 Hl1 Hs1 Hf Hr2. pose proof (ready_safe r2 Hr2) as Hs2. destruct Hr2 as [_ (Hok2 & Hl2 & Ha2)].
  destruct (xor_multiple_buffers_ok bufs1 (get_old_new_buffers (sget st r2) a b) (write_buf p) (b - a) m)
    as (m' & Hrun & Hx); try done; try lia.
  exists m'. split; [done |]. intros x. rewrite Hx. destruct (decide _) as [Hi | Hi]; [| done].
  unfold in_region in Hi. by rewrite Hf, Ha2 by lia.
Qed.

Lemma parity_rest m0 others l m :
  Forall ready others -> done_with m0 l m ->
  exists m', parity_loop st parity bs a b others Accumulated m = Ok m' /\ done_with m0 (l ++ others) m'.
Proof.
  intros Hall. revert l m. induction Hall as [| o others Ho Hall IH]; intros l m Hm; cbn [parity_loop].
  { exists m. by rewrite app_nil_r. }
  rewrite u32_small by lia. fold p.
  set (m1 := memxor m _ _ _ _).
  destruct (parity_data [(write_buf p, b - a)] o (fun q => write_buf p + q) m1) as (m2 & -> & H2); try done.
  { repeat constructor. simpl. lia. } { simpl. lia. }
  { intros q Hq. left. simpl. by rewrite decide_True by lia. }
  { intros q Hq. simpl. by rewrite decide_True by lia. }
  cbn [rbind]. destruct (IH (l ++ [o]) m2) as (m' & Hrun & Hm'); [| by exists m'; rewrite <- app_assoc in Hm'].
  eapply (acc_step _ _ _ _ _ _ _ Hsep l o m m1); [apply Ho | exact Hm | |].
  - apply memxor_into; [done |]. intros q Hq. by apply Ho.
  - intros x. rewrite H2. destruct (decide _); [| done]. do 2 f_equal. lia.
Qed.

(** The loop over the data roles leaves the XOR of their new contents, and of
    their bitmaps, in the parity chunk. *)
Lemma parity_loop_ok m0 r1 r2 others :
  ready r1 -> ready r2 -> Forall ready others ->
  exists m', parity_loop st parity bs a b (r1 :: r2 :: others) NoneYet m0 = Ok m' /\
    done_with m0 (r1 :: r2 :: others) m'.
Proof.
  intros Hr1 Hr2 Hall. cbn [parity_loop]. rewrite u32_small by lia. fold p.
  set (m1 := memxor m0 _ _ _ _). pose proof Hr1 as [Hs1 (Hok1 & Hl1 & Ha1)].
  destruct (parity_data (get_old_new_buffers (sget st r1) a b) r2 (new_src r1) m1) as (m2 & -> & H2); try done.
  { by apply ready_safe. }
  cbn [rbind]. apply (parity_rest m0 others [r1; r2]); [done |].
  eapply acc_start; [exact Hsep | exact Hs1 | apply Hr2 | | exact H2].
  apply memxor_two; [done | intros q Hq; by apply Hs1 | intros q Hq; by apply Hr2].
Qed.
End Parity.
