(* ===== verification/RmwXorOk.v ===== *)
(** End-to-end correctness of a write to a k+1 XOR object: a plan made by
    [calc_rmw] ([RmwPlan.v]), the reads it asks for, and [calc_rmw_parity_xor]
    ([RmwXor.v]) leave write buffers such that, after the writes, every data
    chunk holds the old bytes overwritten by the request and the parity chunk
    is the XOR of the data chunks. *)

From S2P Require Import Prelude.
From S2P Require Import Bitmap.
From S2P Require Import Rmw.
From S2P Require Import RmwPlan.
From S2P Require Import RmwXor.

(** The contents of a chunk after its write has been applied to [old]. *)
Definition chunk_after (m : mem) (s : osd_rmw_stripe_t) (old : Z -> Z) (x : Z) : Z :=
  if decide (write_start s <= x < write_end s) then m (write_buf s + (x - write_start s)) else old x.

Lemma zsum_zero f n : (forall i, (i < n)%nat -> f i = 0) -> zsum f n = 0.
Proof. intros H. induction n as [| n IH]; cbn [zsum]; [done |]. rewrite IH, H by (auto; lia). done. Qed.

Lemma seq_two k : (2 <= k)%nat -> seq 0 k = 0%nat :: 1%nat :: seq 2 (k - 2).
Proof. intros H. destruct k as [| [| j]]; [lia | lia |]. simpl. by rewrite Nat.sub_0_r. Qed.

(** * All roles but one *)

Definition others (mu n : nat) : list nat := filter (fun r => r <> mu) (seq 0 n).

Lemma filter_all (P : nat -> Prop) `{forall x, Decision (P x)} l : Forall P l -> filter P l = l.
Proof. intros Hl. apply filter_all_true. by apply Forall_forall. Qed.

Lemma others_split mu n : (mu < n)%nat -> others mu n = seq 0 mu ++ seq (S mu) (n - S mu).
Proof.
  intros H. unfold others. replace (seq 0 n) with (seq 0 mu ++ mu :: seq (S mu) (n - S mu)).
  - rewrite filter_app, filter_cons_False by auto. f_equal; apply filter_all; apply Forall_seq; lia.
  - replace n with (mu + S (n - S mu))%nat at 2 by lia. by rewrite seq_app.
Qed.

Lemma length_others mu n : (mu < n)%nat -> length (others mu n) = (n - 1)%nat.
Proof. intros H. rewrite others_split by done. rewrite length_app, !length_seq. lia. Qed.

Lemma elem_of_others mu n r : r ∈ others mu n <-> r <> mu /\ (r < n)%nat.
Proof. unfold others. rewrite list_elem_of_filter, elem_of_seq. lia. Qed.

(** When the XOR of all chunks is zero, a chunk is the XOR of the others. *)
Lemma xorl_others f mu n : (mu < n)%nat -> xorl f (seq 0 n) = 0 -> xorl f (others mu n) = f mu.
Proof.
  intros H. rewrite others_split by done.
  replace (seq 0 n) with (seq 0 mu ++ mu :: seq (S mu) (n - S mu))
    by (replace n with (mu + S (n - S mu))%nat at 2 by lia; by rewrite seq_app).
  rewrite !xorl_app. simpl. intros E. apply Z.lxor_eq.
  rewrite <- E. rewrite (Z.lxor_comm (f mu)), <- !Z.lxor_assoc. done.
Qed.

Lemma xorl_bytes f l : (forall r, r ∈ l -> 0 <= f r < 256) -> 0 <= xorl f l < 256.
Proof.
  induction l as [| r l IH]; intros H; simpl; [lia |].
  pose proof (H r (list_elem_of_here _ _)) as H1. specialize (IH (fun i Hi => H i (list_elem_of_further _ _ _ Hi))).
  by apply (lxor_range 8).
Qed.

Section Write.
Context (request_buf rmw_buf : Z) (st st' : list osd_rmw_stripe_t) (R W : list Z) (k cur : nat) (same : bool) (C bs : Z).
Context (m0 : mem) (D : nat -> Z -> Z).
Let n : nat := S k.
Let ps : Z := (parity_write st R W n k C).1.
Let pe : Z := (parity_write st R W n k C).2.
Let rmw_size : Z := parity_writes W k (n - k) * (pe - ps) + zsum (fun i => read_len (sget st' i)) n.
Let req_size : Z := zsum (fun i => req_len (sget st i)) k.

Hypothesis Hk : (2 <= k)%nat.
Hypothesis Hin : rmw_input st R W n k cur same C.
Hypothesis Hplan : rmw_plan request_buf rmw_buf st R W n k same C st'.

(** Where the buffers are: the allocated block, the request and the bitmaps of
    the roles do not overlap, and memory holds bytes. *)
Record xor_layout : Prop := {
  ly_bs : 0 <= bs;
  ly_gran : bs = 0 \/ C = 8 * bs * (C / bs / 8);
  ly_bs_max : 8 * bs < 2 ^ 32;
  ly_bytes : forall x, 0 <= m0 x < 256;
  ly_rmw_req : disjoint_regions rmw_buf rmw_size request_buf req_size;
  ly_bmp_rmw : forall r, (r < n)%nat -> disjoint_regions (bmp_buf (sget st r)) bs rmw_buf rmw_size;
  ly_bmp_req : forall r, (r < n)%nat -> disjoint_regions (bmp_buf (sget st r)) bs request_buf req_size;
  ly_bmp : forall r r', (r < n)%nat -> (r' < n)%nat -> r <> r' ->
    disjoint_regions (bmp_buf (sget st r)) bs (bmp_buf (sget st r')) bs }.
Hypothesis Hly : xor_layout.

(** The object before the write: parity is the XOR of the data, and the planned
    reads have been done on the readable chunks. *)
Hypothesis Hparity : forall x, 0 <= x < C -> D k x = xorl (fun r => D r x) (seq 0 k).
Hypothesis Hreads : forall r x, (r < n)%nat -> oget R r <> 0 -> reads (sget st' r) x ->
  m0 (read_buf (sget st' r) + (x - read_start (sget st' r))) = D r x.

(** The data the client wants chunk [r] to hold. *)
Definition new_data (r : nat) (x : Z) : Z :=
  if decide (requested (sget st r) x)
  then m0 (request_buf + zsum (fun i => req_len (sget st i)) r + (x - req_start (sget st r)))
  else D r x.

(** ** Regions *)

Lemma reads_len r : (exists x, reads (sget st' r) x) ->
  read_len (sget st' r) = read_end (sget st' r) - read_start (sget st' r) /\ read_len (sget st' r) <> 0.
Proof.
  intros (x & Hm & Hx). pose proof (pl_ranges _ _ _ _ _ _ _ _ _ _ Hplan r) as Hr.
  pose proof (in_chunk _ _ _ _ _ _ _ _ Hin) as HC. unfold read_len, range_ok, read_range, UINT32_MAX in *.
  destruct Hr as [[= E1 E2] | [[= E1 E2] | Hr]]; simpl in *; [lia | lia |].
  rewrite !bool_decide_eq_true_2 by lia. simpl. rewrite u32_small; lia.
Qed.

Lemma read_lens_nonneg i : 0 <= read_len (sget st' i).
Proof.
  destruct (read_len_range C (sget st' i)); [apply (in_chunk _ _ _ _ _ _ _ _ Hin) | apply (pl_ranges _ _ _ _ _ _ _ _ _ _ Hplan) | done].
Qed.

Let base (r : nat) : Z := parity_writes W k (n - k) * (pe - ps) + zsum (fun i => read_len (sget st' i)) r.
Definition read_addr (r : nat) (x : Z) : Z := read_buf (sget st' r) + (x - read_start (sget st' r)).

Lemma read_addr_region r x :
  (r < n)%nat -> reads (sget st' r) x ->
  read_addr r x = rmw_buf + base r + (x - read_start (sget st' r)) /\
  in_region (rmw_buf + base r) (read_len (sget st' r)) (read_addr r x).
Proof.
  intros Hr Hx. destruct (reads_len r (ex_intro _ x Hx)) as [Hl Hn].
  unfold read_addr. rewrite (pl_read_buf _ _ _ _ _ _ _ _ _ _ Hplan r Hr Hn). fold pe ps. unfold base.
  split; [lia |]. unfold in_region, reads in *. lia.
Qed.

Lemma base_lt r r' : (r < r')%nat -> base r + read_len (sget st' r) <= base r'.
Proof.
  intros H. unfold base. pose proof (zsum_mono (fun i => read_len (sget st' i)) (S r) r' read_lens_nonneg H) as Hm.
  cbn [zsum] in Hm. lia.
Qed.

Lemma read_addr_inj r r' x y :
  (r < n)%nat -> (r' < n)%nat -> r <> r' -> reads (sget st' r) x -> reads (sget st' r') y -> read_addr r x <> read_addr r' y.
Proof.
  intros Hr Hr' Hne Hx Hy. destruct (read_addr_region r x Hr Hx) as [_ H1]. destruct (read_addr_region r' y Hr' Hy) as [_ H2].
  unfold in_region in *. destruct (decide (r < r')%nat) as [H | H].
  - pose proof (base_lt r r' H). lia.
  - pose proof (base_lt r' r ltac:(lia)). lia.
Qed.

Lemma parity_bytes_nonneg : 0 <= parity_writes W k (n - k) * (pe - ps) /\ 0 <= ps <= pe /\ pe <= C.
Proof.
  pose proof (parity_write_ok st R W n k cur same C Hin) as H. fold ps pe in H.
  pose proof (in_chunk _ _ _ _ _ _ _ _ Hin). unfold parity_writes. nia.
Qed.

Lemma read_addr_rmw r x : (r < n)%nat -> reads (sget st' r) x -> in_region rmw_buf rmw_size (read_addr r x).
Proof.
  intros Hr Hx. destruct (read_addr_region r x Hr Hx) as [_ H1]. pose proof (base_lt r n Hr) as Hb.
  change (base n) with rmw_size in Hb. unfold base in *.
  pose proof parity_bytes_nonneg. pose proof (zsum_mono (fun i => read_len (sget st' i)) 0 r read_lens_nonneg ltac:(lia)) as Hz.
  cbn [zsum] in Hz. unfold in_region in *. lia.
Qed.

(** The request bytes of a role. *)
Definition req_addr (r : nat) (x : Z) : Z := request_buf + zsum (fun i => req_len (sget st i)) r + (x - req_start (sget st r)).

Lemma req_lens_nonneg i : 0 <= req_len (sget st i).
Proof.
  unfold req_len. case_bool_decide; [| lia]. destruct (decide (i < k)%nat) as [Hi | Hi].
  - destruct (in_data _ _ _ _ _ _ _ _ Hin i Hi) as [[? ?] | ?]; lia.
  - destruct (in_parity _ _ _ _ _ _ _ _ Hin i ltac:(lia)). lia.
Qed.

Lemma req_addr_region r x : (r < k)%nat -> requested (sget st r) x -> in_region request_buf req_size (req_addr r x).
Proof.
  intros Hr Hx. unfold requested in Hx. pose proof (zsum_mono (fun i => req_len (sget st i)) (S r) k req_lens_nonneg ltac:(lia)) as Hm.
  pose proof (zsum_mono (fun i => req_len (sget st i)) 0 r req_lens_nonneg ltac:(lia)) as H0. cbn [zsum] in Hm, H0.
  assert (req_len (sget st r) = req_end (sget st r) - req_start (sget st r)) as Hl.
  { unfold req_len. rewrite bool_decide_eq_true_2; [done |].
    destruct (in_data _ _ _ _ _ _ _ _ Hin r Hr) as [[? ?] | ?]; lia. }
  unfold in_region, req_addr, req_size. lia.
Qed.

(** ** Reconstruction *)

(** A chunk that must be rebuilt. *)
Definition rebuild (r : nat) : Prop := (r < n)%nat /\ oget R r = 0 /\ read_end (sget st' r) <> 0.

(** There is at most one, and all others are read and cover it. *)
Lemma rebuild_sources mu r :
  rebuild mu -> (r < n)%nat -> r <> mu -> oget R r <> 0 /\ range_le (read_range (sget st' mu)) (read_range (sget st' r)).
Proof.
  intros (Hmu & H0 & He) Hr Hne.
  destruct (pl_sources _ _ _ _ _ _ _ _ _ _ Hplan mu Hmu H0 He) as [Hlen Hle].
  assert (NoDup (sources R k n)) as Hnd.
  { unfold sources. eapply sublist_NoDup; [| apply sublist_take]. apply NoDup_filter, NoDup_seq. }
  assert (sources R k n ≡ₚ others mu n) as Hperm.
  { apply submseteq_length_Permutation; [| rewrite length_others, Hlen by done; unfold n; lia].
    apply NoDup_submseteq; [done |]. intros i Hi. apply elem_of_sources in Hi as [Hi Hin']. apply elem_of_others.
    split; [intros ->; done | done]. }
  assert (r ∈ sources R k n) as Hs by (rewrite Hperm; by apply elem_of_others).
  split; [by apply (elem_of_sources R k n) | by apply Hle].
Qed.

Lemma covers_reads mu r p :
  rebuild mu -> (r < n)%nat -> r <> mu -> 0 <= p < data_len (sget st' mu) ->
  reads (sget st' mu) (read_start (sget st' mu) + p) /\ reads (sget st' r) (read_start (sget st' mu) + p) /\
  rsrc st' mu r p = read_addr r (read_start (sget st' mu) + p).
Proof.
  intros Hmu Hr Hne Hp. destruct (rebuild_sources mu r Hmu Hr Hne) as [_ Hle].
  unfold data_len in Hp. destruct (decide _) as [| Hm]; [lia |]. unfold range_le, read_range, reads in *. simpl in *.
  destruct Hmu as (_ & _ & He). split; [lia |]. split; [lia |]. unfold rsrc, read_addr. lia.
Qed.

Lemma bmp_same r : bmp_buf (sget st' r) = bmp_buf (sget st r).
Proof. apply (pl_req _ _ _ _ _ _ _ _ _ _ Hplan r). Qed.

(** The region of a chunk that is rebuilt consists of the addresses it reads. *)
Lemma rebuild_region mu a :
  rebuild mu -> in_region (read_buf (sget st' mu)) (data_len (sget st' mu)) a ->
  let x := read_start (sget st' mu) + (a - read_buf (sget st' mu)) in reads (sget st' mu) x /\ a = read_addr mu x.
Proof.
  intros (_ & _ & He) Ha. unfold in_region, data_len, reads, read_addr in *. destruct (decide _); lia.
Qed.

Lemma rebuild_covers mu r :
  rebuild mu -> (r < n)%nat -> r <> mu -> covers st' mu bs r.
Proof.
  intros Hmu Hr Hne. destruct Hly. pose proof (in_chunk _ _ _ _ _ _ _ _ Hin) as HC.
  assert (mu < n)%nat as Hmun by apply Hmu. split; [split; intros p Hp |].
  - destruct (covers_reads mu r p Hmu Hr Hne Hp) as (Hx & Hxr & ->). split.
    + intros Hreg. destruct (rebuild_region mu _ Hmu Hreg) as [Hy Heq].
      by apply (read_addr_inj r mu _ _ Hr Hmun Hne Hxr Hy).
    + rewrite bmp_same. intros Hb. by apply (ly_bmp_rmw0 mu Hmun _ Hb), read_addr_rmw.
  - unfold bsrc. rewrite !bmp_same.
    assert (in_region (bmp_buf (sget st r)) bs (bmp_buf (sget st r) + p)) as Hb by (unfold in_region; lia). split.
    + intros Hreg. destruct (rebuild_region mu _ Hmu Hreg) as [Hy Heq].
      apply (ly_bmp_rmw0 r Hr _ Hb). rewrite Heq. by apply read_addr_rmw.
    + apply (ly_bmp0 r mu Hr Hmun Hne _ Hb).
  - intros Hm. destruct (rebuild_sources mu r Hmu Hr Hne) as [_ Hle].
    pose proof (pl_ranges _ _ _ _ _ _ _ _ _ _ Hplan r) as Hrr. destruct Hmu as (_ & _ & He).
    unfold range_le, range_ok, read_range, UINT32_MAX in *. simpl in *.
    destruct Hrr as [[= E1 E2] | [[= E1 E2] | ?]]; lia.
Qed.

(** Memory after the reconstruction: every planned read is in its buffer. *)
Definition reconstructed (m : mem) : Prop :=
  (forall r x, (r < n)%nat -> reads (sget st' r) x -> m (read_addr r x) = D r x) /\
  (forall a, ~ in_region rmw_buf rmw_size a -> (forall r, (r < n)%nat -> ~ in_region (bmp_buf (sget st r)) bs a) -> m a = m0 a) /\
  (forall a, 0 <= m a < 256).

Lemma xorl_all_zero x : 0 <= x < C -> xorl (fun r => D r x) (seq 0 n) = 0.
Proof.
  intros Hx. unfold n. rewrite seq_S, xorl_snoc. simpl. rewrite (Hparity x Hx). apply Z.lxor_nilpotent.
Qed.

Lemma reads_in_chunk r x : reads (sget st' r) x -> 0 <= x < C.
Proof.
  intros [Hm Hx]. pose proof (pl_ranges _ _ _ _ _ _ _ _ _ _ Hplan r) as Hrr.
  unfold range_ok, read_range, UINT32_MAX in *. destruct Hrr as [[= E1 E2] | [[= E1 E2] | ?]]; simpl in *; lia.
Qed.

Lemma rebuild_result mu m :
  rebuild mu ->
  acc (read_buf (sget st' mu)) (data_len (sget st' mu)) (bmp_buf (sget st' mu)) bs (rsrc st' mu) (bsrc st') m0 (others mu n) m ->
  reconstructed m.
Proof.
  intros Hmu Hm. destruct Hly. assert (mu < n)%nat as Hmun by apply Hmu.
  split; [| split].
  - intros r x Hr Hx. rewrite Hm. destruct (decide (r = mu)) as [-> | Hne].
    + unfold read_addr. rewrite decide_True by (unfold in_region, data_len, reads in *; destruct (decide _); lia).
      rewrite <- (xorl_others (fun r => D r x) mu n Hmun (xorl_all_zero x (reads_in_chunk _ _ Hx))).
      apply xorl_ext. intros r [Hne Hr']%elem_of_others.
      destruct (covers_reads mu r (x - read_start (sget st' mu)) Hmu Hr' Hne) as (_ & Hxr & Hrs).
      { unfold data_len, reads in *. destruct (decide _); lia. }
      replace (read_buf (sget st' mu) + (x - read_start (sget st' mu)) - read_buf (sget st' mu))
        with (x - read_start (sget st' mu)) by lia.
      rewrite Hrs. replace (read_start (sget st' mu) + (x - read_start (sget st' mu))) with x in * by lia.
      apply Hreads; [done | | done]. by apply (rebuild_sources mu r).
    + rewrite !decide_False; [apply Hreads; [done | by apply (rebuild_sources mu r) | done] | |].
      * rewrite bmp_same. intros Hb. by apply (ly_bmp_rmw0 mu Hmun _ Hb), read_addr_rmw.
      * intros Hreg. destruct (rebuild_region mu _ Hmu Hreg) as [Hy Heq]. by apply (read_addr_inj r mu _ _ Hr Hmun Hne Hx Hy).
  - intros a Ha Hb. rewrite Hm. rewrite !decide_False; [done | |].
    + rewrite bmp_same. by apply Hb.
    + intros Hreg. destruct (rebuild_region mu _ Hmu Hreg) as [Hy Heq]. apply Ha. rewrite Heq. by apply read_addr_rmw.
  - intros a. rewrite Hm. repeat destruct (decide _); try (apply xorl_bytes; intros; apply ly_bytes0); apply ly_bytes0.
Qed.

Lemma missing_flag r : (r < n)%nat -> missing (sget st' r) = bool_decide (oget R r = 0).
Proof. apply (pl_missing _ _ _ _ _ _ _ _ _ _ Hplan). Qed.

Lemma reconstruct_skip l m :
  Forall (fun r => (r < n)%nat /\ ~ rebuild r) l ->
  foldl (fun r role =>
    let* m := r in
    let s := sget st' role in
    if bool_decide (read_end s <> 0) && missing s
    then reconstruct_loop st' role bs (seq 0 n) NoneYet m
    else Ok m) (Ok m) l = Ok m.
Proof.
  induction 1 as [| r l [Hr Hn] _ IH]; [done |]. cbn [foldl rbind].
  rewrite missing_flag by done. rewrite and_decide, bool_decide_eq_false_2; [done |].
  intros [? ?]. by apply Hn.
Qed.

Lemma reconstruct_loop_rebuild mu :
  rebuild mu ->
  exists m, reconstruct_loop st' mu bs (seq 0 n) NoneYet m0 = Ok m /\ reconstructed m.
Proof.
  intros Hmu. pose proof (in_chunk _ _ _ _ _ _ _ _ Hin) as HC. assert (mu < n)%nat as Hmun by apply Hmu.
  destruct (reconstruct_loop_ok C st' mu bs HC) with (m0 := m0) (others := seq 0 n) as (m & Hrun & Hm).
  - apply Hly.
  - apply (pl_ranges _ _ _ _ _ _ _ _ _ _ Hplan).
  - apply Hmu.
  - intros a Ha. rewrite bmp_same. intros Hb. destruct (rebuild_region mu a Hmu Ha) as [Hy Heq].
    apply (ly_bmp_rmw Hly mu Hmun _ Hb). rewrite Heq. by apply read_addr_rmw.
  - apply Forall_seq. intros r Hr Hne. apply rebuild_covers; [done | lia | done].
  - fold (others mu n). rewrite length_others by done. unfold n. lia.
  - exists m. split; [done |]. by apply (rebuild_result mu).
Qed.

Lemma reconstruct_ok : exists m, reconstruct_stripes_xor st' n bs m0 = Ok m /\ reconstructed m.
Proof.
  unfold reconstruct_stripes_xor.
  destruct (decide (Exists (fun r => oget R r = 0 /\ read_end (sget st' r) <> 0) (seq 0 n))) as [He | He].
  - apply Exists_exists in He as (mu & Hmu%elem_of_seq & H0 & He).
    assert (rebuild mu) as Hreb by (split; [lia | done]).
    assert (forall a b, Forall (fun r => r <> mu /\ (r < n)%nat) (seq a b) ->
      Forall (fun r => (r < n)%nat /\ ~ rebuild r) (seq a b)) as Hskip.
    { intros a b Hf. eapply Forall_impl; [exact Hf |]. intros r [Hne Hr]. split; [done |].
      intros (_ & Hr0 & _). by destruct (rebuild_sources mu r Hreb Hr Hne). }
    destruct (reconstruct_loop_rebuild mu Hreb) as (m & Hrun & Hm). exists m. split; [| done].
    replace (seq 0 n) with (seq 0 mu ++ mu :: seq (S mu) (n - S mu)) at 1
      by (replace n with (mu + S (n - S mu))%nat at 2 by lia; by rewrite seq_app).
    rewrite foldl_app, reconstruct_skip by (apply Hskip, Forall_seq; lia). cbn [foldl rbind].
    rewrite missing_flag, and_decide, bool_decide_eq_true_2, Hrun by (done || lia).
    apply reconstruct_skip. apply Hskip, Forall_seq. lia.
  - assert (forall r, (r < n)%nat -> ~ rebuild r) as Hno.
    { intros r Hr (_ & H0 & Hre). apply He, Exists_exists. exists r. split; [apply elem_of_seq; lia | done]. }
    exists m0. split; [apply reconstruct_skip, Forall_seq; intros; split; [lia | apply Hno; lia] |].
    split; [| split; [done | apply Hly]]. intros r x Hr Hx. apply Hreads; [done | | done].
    intros H0. apply (Hno r Hr). split; [done |]. split; [done |]. unfold reads in Hx.
    pose proof (reads_in_chunk r x). unfold reads in *. lia.
Qed.

(** ** Bitmaps *)

Let gran : Z := if bool_decide (bs > 0) then C / bs / 8 else 0.

(** Only the bitmaps of data roles change. *)
Definition bitmaps_changed (m m' : mem) : Prop :=
  (forall a, (forall r, (r < n)%nat -> ~ in_region (bmp_buf (sget st r)) bs a) -> m' a = m a) /\ (forall a, 0 <= m' a < 256).

Lemma mem_bitmap_set_ok m r :
  (r < k)%nat -> req_end (sget st r) <> 0 -> 0 < bs -> (forall a, 0 <= m a < 256) ->
  exists m', mem_bitmap_set m (bmp_buf (sget st r)) bs (req_start (sget st r))
      (u32 (req_end (sget st r) - req_start (sget st r))) gran = Ok m' /\ bitmaps_changed m m'.
Proof.
  intros Hr He Hbs Hm. pose proof (in_chunk _ _ _ _ _ _ _ _ Hin) as HC. unfold UINT32_MAX in HC.
  destruct (in_data _ _ _ _ _ _ _ _ Hin r Hr) as [[? ?] | Hq]; [done |]. destruct Hly.
  assert (C = 8 * bs * gran) as Hg by (unfold gran; rewrite bool_decide_eq_true_2 by lia; lia).
  assert (0 < gran) as Hg0 by nia. rewrite u32_small by lia.
  set (len := req_end (sget st r) - req_start (sget st r)).
  destruct (bitmap_set_spec (mread m (bmp_buf (sget st r)) bs) (req_start (sget st r)) len gran) as (bm & Hrun & Hok & Hl & _).
  { rewrite <- (Z2Nat.id bs) in Hg by lia. constructor; rewrite ?length_mread; try lia; try nia.
    - unfold bytes_ok, mread. apply Forall_map, Forall_forall. intros i _. apply Hm.
    - apply Z.lt_succ_r. apply Z.div_lt_upper_bound; [lia |]. unfold len. nia. }
  unfold mem_bitmap_set. rewrite Hrun. cbn [rbind]. rewrite length_mread in Hl. eexists. split; [done |].
  split; intros a; rewrite mwrite_spec, Hl, Z2Nat.id by lia.
  - intros Hno. rewrite decide_False; [done |]. apply Hno. unfold n. lia.
  - destruct (decide _) as [Ha |]; [| done]. destruct (bm !! Z.to_nat (a - bmp_buf (sget st r))) as [v |] eqn:Ev; simpl; [| lia].
    by apply (Forall_lookup_1 _ _ _ _ Hok Ev).
Qed.

Lemma bitmaps_changed_trans m1 m2 m3 : bitmaps_changed m1 m2 -> bitmaps_changed m2 m3 -> bitmaps_changed m1 m3.
Proof. intros [H1 _] [H2 H3]. split; [| done]. intros a Ha. rewrite H2, H1; done. Qed.

Lemma req_same r : req_start (sget st' r) = req_start (sget st r) /\ req_end (sget st' r) = req_end (sget st r).
Proof. destruct (pl_req _ _ _ _ _ _ _ _ _ _ Hplan r) as (? & ? & _). done. Qed.

Lemma copy_mod_bitmaps_ok m :
  (forall a, 0 <= m a < 256) ->
  exists m', copy_mod_bitmaps st' k bs gran m = Ok m' /\ bitmaps_changed m m'.
Proof.
  intros Hm. unfold copy_mod_bitmaps. case_bool_decide as Hg; [| by exists m].
  assert (0 < bs) as Hbs by (unfold gran in Hg; case_bool_decide; lia).
  enough (forall j, (j <= k)%nat -> exists m', foldl (fun r role =>
      let* m := r in
      let s := sget st' role in
      if bool_decide (req_end s <> 0)
      then mem_bitmap_set m (bmp_buf s) bs (req_start s) (u32 (req_end s - req_start s)) gran
      else Ok m) (Ok m) (seq 0 j) = Ok m' /\ bitmaps_changed m m') as H by (by apply H).
  induction j as [| j IH]; intros Hj; [by exists m |].
  rewrite seq_S, foldl_snoc. destruct IH as (m1 & -> & Hm1); [lia |]. cbn [rbind]. simpl Nat.add.
  rewrite bmp_same. destruct (req_same j) as [-> ->]. case_bool_decide as He; [| by exists m1].
  destruct (mem_bitmap_set_ok m1 j) as (m2 & -> & Hm2); [lia | done | done | apply Hm1 |].
  exists m2. split; [done |]. by apply (bitmaps_changed_trans m m1).
Qed.

(** ** Moved chunks *)

(** Old bytes in the read buffers, new bytes in the request. *)
Definition loaded (m : mem) : Prop :=
  (forall r x, (r < n)%nat -> reads (sget st' r) x -> m (read_addr r x) = D r x) /\
  (forall r x, (r < k)%nat -> requested (sget st r) x -> m (req_addr r x) = m0 (req_addr r x)).

Lemma not_in_bitmap a :
  in_region rmw_buf rmw_size a \/ in_region request_buf req_size a ->
  forall r, (r < n)%nat -> ~ in_region (bmp_buf (sget st r)) bs a.
Proof. intros Ha r Hr Hb. destruct Ha; [by apply (ly_bmp_rmw Hly r Hr _ Hb) | by apply (ly_bmp_req Hly r Hr _ Hb)]. Qed.

Lemma loaded_after_bitmaps m1 m2 : reconstructed m1 -> bitmaps_changed m1 m2 -> loaded m2.
Proof.
  intros (Hd & Ho & _) [Hb _]. split.
  - intros r x Hr Hx. rewrite Hb; [by apply Hd |]. apply not_in_bitmap. left. by apply read_addr_rmw.
  - intros r x Hr Hx. pose proof (req_addr_region r x Hr Hx) as Hreg.
    rewrite Hb, Ho; [done | | |].
    + intros H. by apply (ly_rmw_req Hly _ H).
    + apply not_in_bitmap. by right.
    + apply not_in_bitmap. by right.
Qed.

Definition moved (r : nat) : bool := negb same && data_moved R W k C r (sget st r).

Lemma moved_read r : moved r = true -> (r < k)%nat /\ read_range (sget st' r) = (0, C).
Proof.
  unfold moved, data_moved. rewrite !andb_true_iff, orb_true_iff, !bool_decide_eq_true, negb_true_iff.
  intros (Es & ((Hr & HWR) & HW) & Hfull). split; [done |].
  destruct (pl_moved _ _ _ _ _ _ _ _ _ _ Hplan r Es Hr HW HWR) as [[H0 H1] | ]; [| done].
  by destruct Hfull as [Hf | Hf]; [destruct Hf | destruct Hf].
Qed.

(** What a moved chunk looks like afterwards. *)
Definition whole (s : osd_rmw_stripe_t) : osd_rmw_stripe_t := set_write (set_write_buf s (read_buf s)) 0 C.

Definition moved_state (j : nat) (m : mem) (st3 : list osd_rmw_stripe_t) (m3 : mem) : Prop :=
  length st3 = n /\
  (forall r, sget st3 r = if decide ((r < j)%nat /\ moved r = true) then whole (sget st' r) else sget st' r) /\
  (forall r x, (r < n)%nat -> reads (sget st' r) x ->
     m3 (read_addr r x) = if decide ((r < j)%nat /\ moved r = true) then new_data r x else D r x) /\
  (forall a, ~ in_region rmw_buf rmw_size a -> m3 a = m a).

Lemma write_buf_req r x : (r < k)%nat -> requested (sget st r) x ->
  write_buf (sget st' r) + (x - req_start (sget st r)) = req_addr r x.
Proof.
  intros Hr Hx. rewrite (pl_write_buf_data _ _ _ _ _ _ _ _ _ _ Hplan r Hr); [done |].
  unfold requested in Hx. destruct (in_data _ _ _ _ _ _ _ _ Hin r Hr) as [[? ?] | ?]; lia.
Qed.

(** The copy of the request into the read buffer of one moved chunk. *)
Lemma moved_copy m j st3 m3 :
  loaded m -> (j < k)%nat -> moved j = true -> moved_state j m st3 m3 ->
  moved_state (S j) m (supd st3 j (fun s => set_write (set_write_buf s (read_buf s)) 0 C))
    (memcpy m3 (read_buf (sget st' j) + req_start (sget st j)) (write_buf (sget st' j))
       (req_end (sget st j) - req_start (sget st j))).
Proof.
  intros Hld Hj Hmv (Hl & Hg & Hm & Ho). destruct (moved_read j Hmv) as [_ Hrr]. injection Hrr as Hrs Hre.
  pose proof (in_chunk _ _ _ _ _ _ _ _ Hin) as HC. unfold UINT32_MAX in HC.
  assert (forall a, in_region (read_buf (sget st' j) + req_start (sget st j)) (req_end (sget st j) - req_start (sget st j)) a ->
    exists x, requested (sget st j) x /\ reads (sget st' j) x /\ a = read_addr j x) as Hreg.
  { intros a Ha. exists (a - read_buf (sget st' j)). unfold in_region, requested, reads, read_addr, UINT32_MAX in *.
    destruct (in_data _ _ _ _ _ _ _ _ Hin j Hj) as [[? ?] | ?]; lia. }
  split; [by rewrite length_supd |]. split; [| split].
  - intros r. rewrite sget_supd, !Hg by (unfold n in *; lia). destruct (decide (r = j)) as [-> | Hne].
    + rewrite decide_False by lia. by rewrite decide_True by (split; [lia | done]).
    + apply decide_ext. split; intros [? ?]; (split; [lia | done]).
  - intros r x Hr Hx. rewrite memcpy_spec. destruct (decide (in_region _ _ _)) as [Ha | Ha].
    + destruct (Hreg _ Ha) as (y & Hy1 & Hy2 & Heq).
      assert (r = j) as -> by (destruct (decide (r = j)) as [| Hne]; [done |]; exfalso;
        by apply (read_addr_inj r j x y Hr ltac:(unfold n; lia) Hne Hx Hy2)).
      assert (x = y) as -> by (unfold read_addr in Heq; lia).
      rewrite decide_True by (split; [lia | done]). unfold new_data. rewrite decide_True by done.
      replace (write_buf (sget st' j) + _) with (req_addr j y)
        by (rewrite <- write_buf_req by done; unfold read_addr; lia).
      rewrite Ho; [by apply (proj2 Hld) |].
      intros Hr'. by apply (ly_rmw_req Hly _ Hr'), req_addr_region.
    + rewrite Hm by done. destruct (decide (r = j)) as [-> | Hne].
      * rewrite decide_False by lia. rewrite decide_True by (split; [lia | done]). unfold new_data.
        rewrite decide_False; [done |]. intros Hq. apply Ha. unfold in_region, read_addr, requested in *. lia.
      * apply decide_ext. split; intros [? ?]; (split; [lia | done]).
  - intros a Ha. rewrite memcpy_spec, decide_False; [by apply Ho |]. intros Hin'.
    destruct (Hreg a Hin') as (x & _ & Hx & ->). apply Ha, read_addr_rmw; [unfold n; lia | done].
Qed.

Lemma moved_stay m j st3 m3 : moved j = false -> moved_state j m st3 m3 -> moved_state (S j) m st3 m3.
Proof.
  intros Hmv (Hl & Hg & Hm & Ho). split; [done |]. split; [| split; [| done]].
  - intros r. rewrite Hg. apply decide_ext. split; intros [? ?]; (split; [| done]); [lia |].
    destruct (decide (r = j)) as [-> |]; [congruence | lia].
  - intros r x Hr Hx. rewrite Hm by done. apply decide_ext. split; intros [? ?]; (split; [| done]); [lia |].
    destruct (decide (r = j)) as [-> |]; [congruence | lia].
Qed.

Lemma copy_mod_moved_ok m :
  loaded m -> exists st3 m3, copy_mod_moved st' k R W same C m = (st3, m3) /\ moved_state k m st3 m3.
Proof.
  intros Hld. assert (moved_state 0 m st' m) as H0.
  { split; [apply (pl_len _ _ _ _ _ _ _ _ _ _ Hplan) |]. split; [| split; [| done]].
    - intros r. by rewrite decide_False by lia.
    - intros r x Hr Hx. rewrite decide_False by lia. by apply Hld. }
  unfold copy_mod_moved. destruct (decide (same = true)) as [Es | Es%not_true_is_false]; rewrite Es.
  - exists st', m. split; [done |]. assert (forall j, moved_state j m st' m) as Hall; [| apply Hall].
    induction j as [| j IH]; [done |]. apply moved_stay; [| done]. unfold moved. by rewrite Es.
  - match goal with |- context [foldl ?f (st', m) _] =>
      enough (forall j, (j <= k)%nat -> exists st3 m3, foldl f (st', m) (seq 0 j) = (st3, m3) /\ moved_state j m st3 m3)
        as H by (by apply H) end.
    induction j as [| j IH]; intros Hj; [by exists st', m |].
    rewrite seq_S, foldl_snoc. destruct IH as (st3 & m3 & -> & Hs); [lia |]. simpl Nat.add.
    assert (sget st3 j = sget st' j) as Ej.
    { destruct Hs as (_ & Hg & _). rewrite Hg. apply decide_False. lia. }
    rewrite Ej. destruct (req_same j) as [-> ->].
    assert (moved j = bool_decide (oget W j <> oget R j) && bool_decide (oget W j <> 0) &&
      (bool_decide (req_start (sget st j) <> 0) || bool_decide (req_end (sget st j) <> C))) as <-.
    { unfold moved, data_moved. rewrite Es. simpl. by rewrite bool_decide_eq_true_2 by lia. }
    destruct (moved j) eqn:Em; [| exists st3, m3; split; [done | by apply moved_stay]].
    pose proof (in_chunk _ _ _ _ _ _ _ _ Hin) as HC. unfold UINT32_MAX in HC.
    rewrite u32_small by (destruct (in_data _ _ _ _ _ _ _ _ Hin j ltac:(lia)) as [[? ?] | ?]; lia).
    eexists _, _. split; [done |]. by apply moved_copy.
Qed.

(** ** The parity range *)

Lemma hull_same : foldl (fun p role => hull_step p (sget st' role)) (0, 0) (seq 0 k) = req_hull k st.
Proof.
  unfold req_hull. generalize (0, 0) (seq 0 k). intros p0 l. revert p0. induction l as [| r l IH]; intros p0; [done |]. simpl.
  replace (hull_step p0 (sget st' r)) with (hull_step p0 (sget st r)); [apply IH |].
  unfold hull_step. by destruct (req_same r) as [-> ->].
Qed.

Lemma copy_mod_range_ok :
  oget W k <> 0 -> copy_mod_range st' n k R W C = (ps, pe).
Proof.
  intros HW. unfold copy_mod_range, ps, pe, parity_write, parity_range, parity_moved, n.
  rewrite <- surjective_pairing. replace (S k - k)%nat with 1%nat by lia. simpl seq. cbn [foldl existsb].
  pose proof (in_chunk _ _ _ _ _ _ _ _ Hin) as HC. rewrite (bool_decide_eq_true_2 (oget W k <> 0)) by done.
  destruct (decide (oget W k = oget R k)) as [E | E].
  - rewrite (bool_decide_eq_false_2 (oget W k <> oget R k)), (bool_decide_eq_false_2 (_ /\ _)) by tauto.
    rewrite bool_decide_eq_true_2 by lia. simpl. apply hull_same.
  - rewrite (bool_decide_eq_true_2 (oget W k <> oget R k)), (bool_decide_eq_true_2 (_ /\ _)) by tauto.
    by rewrite bool_decide_eq_false_2 by tauto.
Qed.

(** ** New parity *)

Lemma one_parity : oget W k <> 0 -> parity_writes W k (n - k) = 1.
Proof.
  intros HW. unfold parity_writes, available, n. replace (S k - k)%nat with 1%nat by lia. simpl seq.
  by rewrite filter_cons_True.
Qed.

Lemma parity_buf : oget W k <> 0 -> pe <> 0 -> write_buf (sget st' k) = rmw_buf.
Proof.
  intros HW He. rewrite (pl_write_buf_parity _ _ _ _ _ _ _ _ _ _ Hplan k); [| unfold n; lia | done | done].
  fold ps pe. rewrite zsum_zero; [lia |].
  intros i Hi. unfold parity_len. rewrite (bool_decide_eq_false_2 (k <= i)%nat) by lia. by rewrite andb_false_r.
Qed.

Section NewParity.
Context (m2 m3 : mem) (st3 : list osd_rmw_stripe_t).
Hypothesis Hld : loaded m2.
Hypothesis Hmv : moved_state k m2 st3 m3.
Hypothesis HW : oget W k <> 0.
Hypothesis Hpe : pe <> 0.

(** Where the new byte of a data chunk is. *)
Lemma new_addr_ok r x :
  (r < k)%nat -> write_start (sget st3 r) <= x < write_end (sget st3 r) \/ reads (sget st' r) x ->
  m3 (new_addr (sget st3 r) x) = new_data r x /\
  ((new_addr (sget st3 r) x = read_addr r x /\ reads (sget st' r) x) \/
   (new_addr (sget st3 r) x = req_addr r x /\ requested (sget st r) x)).
Proof.
  intros Hr Hx. destruct Hmv as (_ & Hg & Hm & Ho). rewrite Hg in *. unfold new_addr.
  destruct (decide ((r < k)%nat /\ moved r = true)) as [[_ Em] | Em].
  - destruct (moved_read r Em) as [_ [= Hrs Hre]]. pose proof (in_chunk _ _ _ _ _ _ _ _ Hin) as HC.
    simpl in *. assert (0 <= x < C) as Hxc by (unfold reads in Hx; lia). rewrite decide_True by done.
    assert (reads (sget st' r) x) as Hrd by (unfold reads, UINT32_MAX in *; lia).
    replace (read_buf (sget st' r) + (x - 0)) with (read_addr r x) by (unfold read_addr; lia).
    split; [| by left]. rewrite Hm by (done || unfold n; lia). by rewrite decide_True.
  - destruct (pl_write_data _ _ _ _ _ _ _ _ _ _ Hplan r Hr) as [Hws Hwe]. rewrite Hws, Hwe in *.
    destruct (decide (req_start (sget st r) <= x < req_end (sget st r))) as [Hq | Hq].
    + rewrite (write_buf_req r x Hr Hq). split; [| by right]. unfold new_data. rewrite decide_True by done.
      rewrite Ho; [by apply (proj2 Hld) |]. intros Ha. by apply (ly_rmw_req Hly _ Ha), req_addr_region.
    + destruct Hx as [| Hx]; [done |]. fold (read_addr r x). split; [| by left].
      rewrite Hm by (done || unfold n; lia). rewrite decide_False by done. unfold new_data. by rewrite decide_False.
Qed.

Lemma st3_parity : sget st3 k = sget st' k.
Proof. destruct Hmv as (_ & Hg & _). rewrite Hg. apply decide_False. lia. Qed.
Lemma st3_bmp r : bmp_buf (sget st3 r) = bmp_buf (sget st r).
Proof. destruct Hmv as (_ & Hg & _). rewrite Hg, <- bmp_same. by destruct (decide _). Qed.
Lemma st3_read r : read_range (sget st3 r) = read_range (sget st' r).
Proof. destruct Hmv as (_ & Hg & _). rewrite Hg. by destruct (decide _). Qed.

(** The write range of a data chunk: the request, or the whole chunk. *)
Lemma st3_write r : (r < k)%nat ->
  (moved r = true /\ write_start (sget st3 r) = 0 /\ write_end (sget st3 r) = C) \/
  (moved r = false /\ write_start (sget st3 r) = req_start (sget st r) /\ write_end (sget st3 r) = req_end (sget st r)).
Proof.
  intros Hr. destruct Hmv as (_ & Hg & _). rewrite Hg. destruct (moved r) eqn:Em.
  - left. by rewrite decide_True.
  - right. rewrite decide_False by (intros []; done). split; [done |]. by apply (pl_write_data _ _ _ _ _ _ _ _ _ _ Hplan).
Qed.

Lemma parity_range_real : 0 <= ps < pe /\ pe <= C.
Proof. pose proof (parity_write_ok st R W n k cur same C Hin) as H. fold ps pe in H. lia. Qed.

Lemma st3_cover r x : (r < k)%nat -> ps <= x < pe ->
  write_start (sget st3 r) <= x < write_end (sget st3 r) \/ reads (sget st' r) x.
Proof.
  intros Hr Hx. pose proof parity_range_real.
  destruct (pl_cover _ _ _ _ _ _ _ _ _ _ Hplan k r x ltac:(unfold n; lia) HW Hr Hx) as [Hq | Hq]; [left | by right].
  unfold requested in Hq. destruct (st3_write r Hr) as [(_ & -> & ->) | (_ & -> & ->)]; lia.
Qed.

(** Bytes of data chunks are outside the parity buffer and the bitmaps. *)
Lemma source_outside r x : (r < k)%nat ->
  write_start (sget st3 r) <= x < write_end (sget st3 r) \/ reads (sget st' r) x ->
  ~ in_region rmw_buf (pe - ps) (new_addr (sget st3 r) x) /\
  forall i, (i < n)%nat -> ~ in_region (bmp_buf (sget st i)) bs (new_addr (sget st3 r) x).
Proof.
  intros Hr Hx. destruct (new_addr_ok r x Hr Hx) as [_ [[-> Hrd] | [-> Hq]]].
  - split; [| apply not_in_bitmap; left; apply read_addr_rmw; [unfold n; lia | done]].
    destruct (read_addr_region r x ltac:(unfold n; lia) Hrd) as [_ Hreg]. unfold base in Hreg.
    rewrite one_parity in Hreg by done.
    pose proof (zsum_mono (fun i => read_len (sget st' i)) 0 r read_lens_nonneg ltac:(lia)) as Hz. cbn [zsum] in Hz.
    unfold in_region in *. lia.
  - pose proof (req_addr_region r x Hr Hq) as Hreg. split; [| by apply not_in_bitmap; right].
    intros Ha. apply (ly_rmw_req Hly (req_addr r x)); [| done]. unfold rmw_size. rewrite one_parity by done.
    pose proof (zsum_mono (fun i => read_len (sget st' i)) 0 n read_lens_nonneg ltac:(lia)) as Hz. cbn [zsum] in Hz.
    unfold in_region in *. lia.
Qed.

Lemma parity_in_rmw x : in_region rmw_buf (pe - ps) x -> in_region rmw_buf rmw_size x.
Proof.
  intros Hx. unfold rmw_size. rewrite one_parity by done.
  pose proof (zsum_mono (fun i => read_len (sget st' i)) 0 n read_lens_nonneg ltac:(lia)) as Hz. cbn [zsum] in Hz.
  unfold in_region in *. lia.
Qed.

Lemma data_ready r : (r < k)%nat -> ready st3 k bs ps pe r.
Proof.
  intros Hr. pose proof parity_range_real as Hpr. pose proof (in_chunk _ _ _ _ _ _ _ _ Hin) as HC.
  unfold ready. rewrite st3_bmp, st3_parity, parity_buf by done. split; [split |].
  - intros q Hq. unfold bsrc. rewrite st3_bmp.
    assert (in_region (bmp_buf (sget st r)) bs (bmp_buf (sget st r) + q)) as Hb by (unfold in_region; lia). split.
    + intros Hb'. apply (ly_bmp Hly r k ltac:(unfold n; lia) ltac:(unfold n; lia) ltac:(lia) _ Hb Hb').
    + intros Hd. apply (ly_bmp_rmw Hly r ltac:(unfold n; lia) _ Hb). by apply parity_in_rmw.
  - intros q Hq. unfold new_src. destruct (source_outside r (ps + q) Hr) as [H1 H2]; [apply st3_cover; lia || done |].
    split; [apply H2; unfold n; lia | done].
  - apply (get_old_new_buffers_ok C); [done | lia | lia | rewrite st3_read; apply (pl_ranges _ _ _ _ _ _ _ _ _ _ Hplan) | |].
    + destruct (st3_write r Hr) as [(_ & -> & ->) | (_ & -> & ->)]; [right; lia | apply (in_data _ _ _ _ _ _ _ _ Hin r Hr)].
    + intros x Hx. destruct (st3_cover r x Hr Hx) as [| Hrd]; [by left | right].
      pose proof (st3_read r) as [= E1 E2]. unfold reads in *. by rewrite E1, E2.
Qed.

Lemma new_parity_ok :
  exists m4, parity_loop st3 k bs ps pe (seq 0 k) NoneYet m3 = Ok m4 /\
    acc (bmp_buf (sget st k)) bs rmw_buf (pe - ps) (bsrc st3) (new_src st3 ps) m3 (seq 0 k) m4.
Proof.
  pose proof parity_range_real as Hpr. pose proof (in_chunk _ _ _ _ _ _ _ _ Hin) as HC. unfold UINT32_MAX in HC.
  assert (seq 0 k = 0%nat :: 1%nat :: seq 2 (k - 2)) as Es by (by apply seq_two).
  destruct (parity_loop_ok st3 k bs ps pe) with (m0 := m3) (r1 := 0%nat) (r2 := 1%nat) (others := seq 2 (k - 2)) as (m4 & Hrun & Hacc).
  - apply Hly.
  - lia.
  - rewrite st3_bmp, st3_parity, parity_buf by done. intros x Hx Hd.
    apply (ly_bmp_rmw Hly k ltac:(unfold n; lia) _ Hx). by apply parity_in_rmw.
  - apply data_ready. lia.
  - apply data_ready. lia.
  - apply Forall_seq. intros r Hr. apply data_ready. lia.
  - exists m4. rewrite Es. split; [done |]. rewrite st3_bmp, st3_parity, parity_buf in Hacc by done. done.
Qed.
End NewParity.

(** ** The whole computation *)

Lemma copy_parity_noop st3 m4 start end_ :
  (oget W k <> 0 -> (start, end_) = (ps, pe)) ->
  calc_rmw_parity_copy_parity st3 n k R W same C start end_ m4 = (st3, m4).
Proof.
  intros Hr. unfold calc_rmw_parity_copy_parity, n. destruct (_ && _); [| done].
  replace (S k - k)%nat with 1%nat by lia. simpl seq. cbn [foldl].
  destruct (decide (oget W k = 0)) as [E0 | E0].
  { rewrite (bool_decide_eq_false_2 (oget W k <> 0)) by tauto. by rewrite andb_false_r. }
  destruct (decide (oget W k = oget R k)) as [E | E].
  { by rewrite (bool_decide_eq_false_2 (oget W k <> oget R k)) by tauto. }
  specialize (Hr E0). unfold ps, pe, parity_write, parity_range, parity_moved, n in Hr.
  replace (S k - k)%nat with 1%nat in Hr by lia. simpl in Hr. rewrite bool_decide_eq_true_2 in Hr by done.
  injection Hr as -> ->. rewrite (bool_decide_eq_false_2 (0 <> 0)), (bool_decide_eq_false_2 (C <> C)) by tauto.
  by rewrite andb_false_r.
Qed.

(** Data chunks whose buffers [m4] keeps as they were in [m3]. *)
Lemma data_after m2 m3 st3 m4 r x :
  loaded m2 -> moved_state k m2 st3 m3 -> (r < k)%nat -> 0 <= x < C ->
  (write_start (sget st3 r) <= x < write_end (sget st3 r) -> m4 (new_addr (sget st3 r) x) = m3 (new_addr (sget st3 r) x)) ->
  chunk_after m4 (sget st3 r) (D r) x = new_data r x.
Proof.
  intros Hld Hmv Hr Hx Hsame. unfold chunk_after. destruct (decide _) as [Hw | Hw].
  - specialize (Hsame Hw). rewrite (new_addr_written _ _ Hw) in Hsame. rewrite Hsame, <- (new_addr_written _ _ Hw).
    apply (new_addr_ok m2 m3 st3 Hld Hmv r x Hr). by left.
  - unfold new_data. rewrite decide_False; [done |]. intros Hq. apply Hw. unfold requested in Hq.
    destruct (st3_write m2 m3 st3 Hmv r Hr) as [(_ & -> & ->) | (_ & -> & ->)]; lia.
Qed.

(** The result of the computation. *)
Record write_result (st3 : list osd_rmw_stripe_t) (m4 : mem) : Prop := {
  (* data chunks hold the old bytes overwritten by the request *)
  wr_data : forall r x, (r < k)%nat -> 0 <= x < C -> chunk_after m4 (sget st3 r) (D r) x = new_data r x;
  (* parity is the XOR of the new data *)
  wr_parity : forall x, oget W k <> 0 -> 0 <= x < C ->
    chunk_after m4 (sget st3 k) (D k) x = xorl (fun r => new_data r x) (seq 0 k);
  (* chunks that go to another place are written as a whole *)
  wr_moved : forall r, (r < n)%nat -> same = false -> oget W r <> 0 -> oget W r <> oget R r ->
    write_start (sget st3 r) = 0 /\ write_end (sget st3 r) = C;
  (* the parity bitmap is the XOR of the data bitmaps *)
  wr_bitmap : forall i, oget W k <> 0 -> pe <> 0 -> 0 <= i < bs ->
    m4 (bmp_buf (sget st k) + i) = xorl (fun r => m4 (bmp_buf (sget st r) + i)) (seq 0 k) }.

Lemma moved_whole m2 m3 st3 r :
  moved_state k m2 st3 m3 -> (r < n)%nat -> same = false -> oget W r <> 0 -> oget W r <> oget R r ->
  write_start (sget st3 r) = 0 /\ write_end (sget st3 r) = C.
Proof.
  intros Hmv Hr Es HW HR. destruct (decide (r < k)%nat) as [Hrk | Hrk].
  - destruct (st3_write m2 m3 st3 Hmv r Hrk) as [(_ & ? & ?) | (Em & -> & ->)]; [done |].
    unfold moved, data_moved in Em. rewrite Es, !bool_decide_eq_true_2 in Em by done. simpl in Em.
    apply orb_false_iff in Em as [E1%bool_decide_eq_false E2%bool_decide_eq_false]. split; lia.
  - assert (r = k) as -> by (unfold n in Hr; lia). rewrite (st3_parity m2 m3 st3 Hmv).
    pose proof (pl_write_parity _ _ _ _ _ _ _ _ _ _ Hplan k ltac:(unfold n; lia)) as Hw. rewrite decide_True in Hw by done.
    unfold parity_write, parity_range, parity_moved, n in Hw. replace (S k - k)%nat with 1%nat in Hw by lia. simpl in Hw.
    rewrite bool_decide_eq_true_2 in Hw by done. by injection Hw.
Qed.

Lemma outside_parity r x : (r < k)%nat -> ~ (ps <= x < pe) -> new_data r x = D r x.
Proof.
  intros Hr Hx. unfold new_data. rewrite decide_False; [done |]. intros Hq. unfold requested in Hq.
  pose proof (parity_write_in st R W n k cur same C Hin r Hr) as Hpi. fold ps pe in Hpi.
  destruct (in_data _ _ _ _ _ _ _ _ Hin r Hr) as [[? ?] | ?]; lia.
Qed.

(** When no parity is computed. *)
Lemma result_without_parity m2 m3 st3 :
  loaded m2 -> moved_state k m2 st3 m3 -> oget W k = 0 \/ pe = 0 -> write_result st3 m3.
Proof.
  intros Hld Hmv Hno. constructor.
  - intros r x Hr Hx. by apply (data_after m2 m3).
  - intros x HW Hx. destruct Hno as [| He]; [done |]. unfold chunk_after. rewrite (st3_parity m2 m3 st3 Hmv).
    pose proof (pl_write_parity _ _ _ _ _ _ _ _ _ _ Hplan k ltac:(unfold n; lia)) as Hw.
    rewrite decide_True in Hw by done. rewrite (surjective_pairing (parity_write _ _ _ _ _ _)) in Hw. fold ps pe in Hw.
    pose proof parity_bytes_nonneg. injection Hw as -> ->. rewrite decide_False by lia. rewrite Hparity by done.
    apply xorl_ext. intros r Hr%elem_of_seq. symmetry. apply outside_parity; lia.
  - intros r. by apply (moved_whole m2 m3).
  - intros i HW He. by destruct Hno.
Qed.

(** When new parity is computed. *)
Lemma result_with_parity m2 m3 st3 m4 :
  loaded m2 -> moved_state k m2 st3 m3 -> oget W k <> 0 -> pe <> 0 ->
  acc (bmp_buf (sget st k)) bs rmw_buf (pe - ps) (bsrc st3) (new_src st3 ps) m3 (seq 0 k) m4 -> write_result st3 m4.
Proof.
  intros Hld Hmv HW He Hacc. constructor.
  - intros r x Hr Hx. apply (data_after m2 m3); [done | done | done | done |]. intros Hw.
    destruct (source_outside m2 m3 st3 Hld Hmv HW r x Hr (or_introl Hw)) as [H1 H2].
    rewrite Hacc. rewrite !decide_False; [done | done |]. apply H2. unfold n. lia.
  - intros x _ Hx. unfold chunk_after. rewrite (st3_parity m2 m3 st3 Hmv).
    pose proof (pl_write_parity _ _ _ _ _ _ _ _ _ _ Hplan k ltac:(unfold n; lia)) as Hw.
    rewrite decide_True in Hw by done. rewrite (surjective_pairing (parity_write _ _ _ _ _ _)) in Hw. fold ps pe in Hw.
    injection Hw as -> ->. destruct (decide (ps <= x < pe)) as [Hi | Hi].
    + rewrite parity_buf by done. rewrite Hacc. rewrite decide_False, decide_True.
      * apply xorl_ext. intros r Hr%elem_of_seq. unfold new_src.
        replace (ps + (rmw_buf + (x - ps) - rmw_buf)) with x by lia.
        apply (new_addr_ok m2 m3 st3 Hld Hmv r x ltac:(lia)). apply (st3_cover m2 m3 st3 Hmv HW He); lia.
      * unfold in_region. lia.
      * intros Hb. apply (ly_bmp_rmw Hly k ltac:(unfold n; lia) _ Hb). apply parity_in_rmw; [done | unfold in_region; lia].
    + rewrite Hparity by done. apply xorl_ext. intros r Hr%elem_of_seq. symmetry. apply outside_parity; [lia | done].
  - intros r. by apply (moved_whole m2 m3).
  - intros i _ _ Hi. rewrite Hacc, decide_True by (unfold in_region; lia).
    apply xorl_ext. intros r Hr%elem_of_seq. unfold bsrc. rewrite (st3_bmp m2 m3 st3 Hmv).
    replace (bmp_buf (sget st k) + i - bmp_buf (sget st k)) with i by lia. rewrite Hacc. rewrite !decide_False; [done | |].
    + assert (in_region (bmp_buf (sget st r)) bs (bmp_buf (sget st r) + i)) as Hb by (unfold in_region; lia).
      intros Hd. apply (ly_bmp_rmw Hly r ltac:(unfold n; lia) _ Hb). by apply parity_in_rmw.
    + assert (in_region (bmp_buf (sget st r)) bs (bmp_buf (sget st r) + i)) as Hb by (unfold in_region; lia).
      apply (ly_bmp Hly r k ltac:(unfold n; lia) ltac:(unfold n; lia) ltac:(lia) _ Hb).
Qed.

Lemma parity_xor_spec :
  exists st3 m4, calc_rmw_parity_xor st' n R W same C bs m0 = Ok (st3, m4) /\ write_result st3 m4.
Proof.
  unfold calc_rmw_parity_xor. replace (n - 1)%nat with k by (unfold n; lia). fold gran.
  destruct reconstruct_ok as (m1 & -> & Hm1). cbn [rbind].
  unfold calc_rmw_parity_copy_mod.
  destruct (copy_mod_range st' n k R W C) as [start end_] eqn:Er.
  destruct (copy_mod_bitmaps_ok m1) as (m2 & -> & Hm2); [apply Hm1 |]. cbn [rbind].
  pose proof (loaded_after_bitmaps m1 m2 Hm1 Hm2) as Hld.
  destruct (copy_mod_moved_ok m2 Hld) as (st3 & m3 & -> & Hmv). cbn [rbind].
  assert (oget W k <> 0 -> (start, end_) = (ps, pe)) as Hse by (intros HW; rewrite <- Er; by apply copy_mod_range_ok).
  destruct (decide (oget W k = 0)) as [E0 | E0].
  - rewrite (bool_decide_eq_false_2 (oget W k <> 0)) by tauto. cbn [andb rbind].
    exists st3, m3. split; [by rewrite copy_parity_noop | by apply (result_without_parity m2); [| | left]].
  - rewrite (bool_decide_eq_true_2 (oget W k <> 0)) by done. pose proof (Hse E0) as [= -> ->].
    destruct (decide (pe = 0)) as [E1 | E1].
    + rewrite (bool_decide_eq_false_2 (pe <> 0)) by tauto. cbn [andb rbind].
      exists st3, m3. split; [by rewrite copy_parity_noop | by apply (result_without_parity m2); [| | right]].
    + rewrite (bool_decide_eq_true_2 (pe <> 0)) by done. cbn [andb].
      destruct (new_parity_ok m2 m3 st3 Hld Hmv E0 E1) as (m4 & -> & Hacc). cbn [rbind].
      exists st3, m4. split; [by rewrite copy_parity_noop | by apply (result_with_parity m2 m3)].
Qed.
End Write.

(** C1: A partial write of a k+1 XOR object.  If the reads that [calc_rmw] planned have
    returned the old chunks, [calc_rmw_parity_xor] returns, and applying its
    writes leaves every data chunk with the old bytes overwritten by the request
    and the parity chunk and its bitmap equal to the XOR of the data chunks and
    theirs, whether or not one chunk is unreadable and whether or not chunks move to
    other places, which are then written as a whole. *)
Theorem rmw_xor_ok (request_buf rmw_buf : Z) (st st' : list osd_rmw_stripe_t) (R W : list Z) (k cur : nat)
    (same : bool) (C bs : Z) (m0 : mem) (D : nat -> Z -> Z) :
  (2 <= k)%nat -> rmw_input st R W (S k) k cur same C ->
  calc_rmw request_buf rmw_buf st R (S k) k cur W same C = Some st' ->
  xor_layout request_buf rmw_buf st st' R W k C bs m0 ->
  (forall x, 0 <= x < C -> D k x = xorl (fun r => D r x) (seq 0 k)) ->
  (forall r x, (r < S k)%nat -> oget R r <> 0 -> reads (sget st' r) x ->
     m0 (read_buf (sget st' r) + (x - read_start (sget st' r))) = D r x) ->
  exists st3 m4, calc_rmw_parity_xor st' (S k) R W same C bs m0 = Ok (st3, m4) /\
    write_result request_buf st R W k same C bs m0 D st3 m4.
Proof.
  intros Hk Hin Hcalc Hly Hpar Hrd. pose proof (calc_rmw_spec request_buf rmw_buf st R W (S k) k cur same C Hin) as Hplan.
  rewrite Hcalc in Hplan. by apply (parity_xor_spec request_buf rmw_buf st st' R W k cur same C bs m0 D).
Qed.

(** * A concrete write *)

(** Two data chunks and a parity chunk of 8 bytes with one-byte bitmaps; chunk 0
    is unreadable and moves to OSD 9; bytes 2 to 6 of it are overwritten. *)
Definition move_set : list Z := [9; 2; 3].
Definition move_stripes : list osd_rmw_stripe_t :=
  [mk_stripe 0 0 3000 2 6 0 0 0 0 0 0 false false false;
   mk_stripe 0 0 3001 0 0 0 0 0 0 0 0 false false false;
   mk_stripe 0 0 3002 0 0 0 0 0 0 0 0 false false false].
Definition move_plan : list osd_rmw_stripe_t :=
  default [] (calc_rmw 1000 2000 move_stripes example_set 3 2 2 move_set false 8).
Definition move_data (r : nat) (x : Z) : Z :=
  match r with 0%nat => x | 1%nat => 2 * x | _ => Z.lxor x (2 * x) end.
(** Request bytes at 1000, chunk 1 at 2012 and parity at 2020. *)
Definition move_mem : mem := fun a =>
  if decide (1000 <= a < 1004) then a - 900
  else if decide (2012 <= a < 2020) then move_data 1 (a - 2012)
  else if decide (2020 <= a < 2028) then move_data 2 (a - 2020)
  else 0.

Lemma move_input : rmw_input move_stripes example_set move_set 3 2 2 false 8.
Proof.
  constructor; try done; try (unfold UINT32_MAX; lia).
  - intros [| [| r]] Hr; [right; simpl; lia | by left | lia].
  - intros [| [| [| r]]] Hr; (lia || done).
  - by intros [| [| [| r]]].
Qed.

Lemma move_mem_bytes x : 0 <= move_mem x < 256.
Proof.
  unfold move_mem, move_data. repeat case_decide; try lia.
  pose proof (lxor_range 8 (x - 2020) (2 * (x - 2020))). lia.
Qed.

Lemma move_rmw_size :
  parity_writes move_set 2 1 *
    ((parity_write move_stripes example_set move_set 3 2 8).2 - (parity_write move_stripes example_set move_set 3 2 8).1)
  + zsum (fun i => read_len (sget move_plan i)) 3 = 28.
Proof. vm_compute. reflexivity. Qed.
Lemma move_req_size : zsum (fun i => req_len (sget move_stripes i)) 2 = 4.
Proof. vm_compute. reflexivity. Qed.

Lemma move_layout : xor_layout 1000 2000 move_stripes move_plan example_set move_set 2 8 1 move_mem.
Proof.
  constructor; try lia; try apply move_mem_bytes.
  all: cbn [Nat.sub]; rewrite ?move_rmw_size, ?move_req_size; unfold disjoint_regions, in_region.
  - by right.
  - lia.
  - intros [| [| [| r]]] Hr x; simpl; lia.
  - intros [| [| [| r]]] Hr x; simpl; lia.
  - intros [| [| [| r]]] [| [| [| r']]] Hr Hr' Hne x; simpl; lia.
Qed.

Lemma move_reads r x :
  (r < 3)%nat -> oget example_set r <> 0 -> reads (sget move_plan r) x ->
  move_mem (read_buf (sget move_plan r) + (x - read_start (sget move_plan r))) = move_data r x.
Proof.
  intros Hr H0 [_ Hx]. destruct r as [| [| [| r]]]; [done | | | lia].
  - replace (read_start (sget move_plan 1)) with 0 in * by (vm_compute; reflexivity).
    replace (read_end (sget move_plan 1)) with 8 in Hx by (vm_compute; reflexivity).
    replace (read_buf (sget move_plan 1)) with 2012 by (vm_compute; reflexivity).
    unfold move_mem. rewrite decide_False, decide_True by lia. f_equal. lia.
  - replace (read_start (sget move_plan 2)) with 0 in * by (vm_compute; reflexivity).
    replace (read_end (sget move_plan 2)) with 8 in Hx by (vm_compute; reflexivity).
    replace (read_buf (sget move_plan 2)) with 2020 by (vm_compute; reflexivity).
    unfold move_mem. rewrite !decide_False, decide_True by lia. f_equal. lia.
Qed.

Lemma rmw_xor_ok_witness :
  xor_layout 1000 2000 move_stripes move_plan example_set move_set 2 8 1 move_mem /\
  exists st3 m4, calc_rmw_parity_xor move_plan 3 example_set move_set false 8 1 move_mem = Ok (st3, m4) /\
    write_result 1000 move_stripes example_set move_set 2 false 8 1 move_mem move_data st3 m4.
Proof.
  split; [apply move_layout |].
  apply (rmw_xor_ok 1000 2000 move_stripes move_plan example_set move_set 2 2 false 8 1 move_mem move_data).
  - lia.
  - apply move_input.
  - vm_compute. reflexivity.
  - apply move_layout.
  - intros x Hx. simpl. by rewrite Z.lxor_0_r.
  - apply move_reads.
Defined.
