(* ===== verification/Peering.v ===== *)
(** Peering of a placement group (src/src/osd/osd_peering_pg.cpp): the object
    lists of all OSDs are merged, sorted and walked; for every object the walk
    chooses the version to keep, classifies the object and schedules the
    stabilization or rollback of its unstable copies. *)

From S2P Require Import Prelude.

(** * Data *)

Definition STRIPE_MASK : Z := 4095.
Definition PG_EPOCH_BITS : Z := 48.
Definition POOL_SCHEME_REPLICATED : Z := 1.

(** States of a placement group. *)
Definition PG_INCOMPLETE : Z := Z.shiftl 1 2.
Definition PG_ACTIVE : Z := Z.shiftl 1 3.
Definition PG_DEGRADED : Z := Z.shiftl 1 7.
Definition PG_HAS_INCOMPLETE : Z := Z.shiftl 1 8.
Definition PG_HAS_DEGRADED : Z := Z.shiftl 1 9.
Definition PG_HAS_MISPLACED : Z := Z.shiftl 1 10.
Definition PG_HAS_UNCLEAN : Z := Z.shiftl 1 11.
Definition PG_HAS_INVALID : Z := Z.shiftl 1 12.
Definition PG_LEFT_ON_DEAD : Z := Z.shiftl 1 15.

(** States of an object and of one of its locations. *)
Definition OBJ_DEGRADED : Z := 0x02.
Definition OBJ_INCOMPLETE : Z := 0x04.
Definition OBJ_MISPLACED : Z := 0x08.
Definition OBJ_INCONSISTENT : Z := 0x20.
Definition LOC_OUTDATED : Z := 1.
Definition LOC_CORRUPTED : Z := 2.

(** [object_id]: inode and stripe; the low bits of a stripe are the role. *)
Notation object_id := (Z * Z)%type (only parsing).
Definition inode (oid : object_id) : Z := oid.1.
Definition stripe (oid : object_id) : Z := oid.2.
Definition masked (s : Z) : Z := Z.land s (UINT64_MAX - STRIPE_MASK).
Definition role_of (s : Z) : Z := Z.land s STRIPE_MASK.

Record obj_ver_role := mk_ovr { o_oid : object_id; o_version : Z; o_osd : Z; o_stable : bool }.

(** [operator <] of [obj_ver_role]: by inode, by object, by version downwards,
    by role, by OSD. *)
Definition ovr_lt (a b : obj_ver_role) : bool :=
  let '(ai, as_) := o_oid a in
  let '(bi, bs) := o_oid b in
  (ai <? bi) || (ai =? bi) && (
    (masked as_ <? masked bs) || (masked as_ =? masked bs) && (
      (o_version b <? o_version a) || (o_version a =? o_version b) && (
        (as_ <? bs) || (as_ =? bs) && (o_osd a <? o_osd b)))).

(** [obj_piece_id_t]: one chunk or replica on one OSD. *)
Notation obj_piece_id_t := ((Z * Z) * Z)%type (only parsing).
Record obj_piece_ver_t := mk_piece { p_max_ver : Z; p_stable_ver : Z; p_max_target : Z }.
Definition no_piece : obj_piece_ver_t := mk_piece 0 0 0.

Record flush_action_t := mk_action { rollback : bool; make_stable : bool; stable_to : Z; rollback_to : Z; submitted : bool }.
Definition no_action : flush_action_t := mk_action false false 0 0 false.

(** [pg_obj_loc_t]: role, OSD and what is wrong with the copy. *)
Notation pg_obj_loc_t := (Z * Z * Z)%type (only parsing).
Notation pg_osd_set_t := (list (Z * Z * Z)) (only parsing).
Record pg_osd_set_state_t := mk_set_state {
  read_target : list Z; set_osd_set : pg_osd_set_t; set_state : Z; object_count : Z }.

(** The fields of [pg_t] that peering reads only. *)
Record pg_config := mk_pg_config {
  scheme : Z; pg_cursize : Z; pg_size : Z; pg_data_size : Z;
  cur_set : list Z; cur_peers : list Z; all_peers : list Z }.

(** The fields of [pg_t] that peering computes.  The object maps point into
    [state_dict]; a pointer is the key of the entry. *)
Record pg_t := mk_pg {
  pg_state : Z; clean_count : Z; total_count : Z;
  state_dict : gmap (list (Z * Z * Z)) pg_osd_set_state_t;
  inconsistent_objects : gmap (Z * Z) (list (Z * Z * Z));
  incomplete_objects : gmap (Z * Z) (list (Z * Z * Z));
  degraded_objects : gmap (Z * Z) (list (Z * Z * Z));
  misplaced_objects : gmap (Z * Z) (list (Z * Z * Z));
  flush_actions : gmap ((Z * Z) * Z) flush_action_t;
  ver_override : gmap (Z * Z) Z }.

Definition set_pg_state (pg : pg_t) (s : Z) : pg_t :=
  mk_pg s (clean_count pg) (total_count pg) (state_dict pg) (inconsistent_objects pg) (incomplete_objects pg)
    (degraded_objects pg) (misplaced_objects pg) (flush_actions pg) (ver_override pg).
Definition or_pg_state (pg : pg_t) (s : Z) : pg_t := set_pg_state pg (Z.lor (pg_state pg) s).
Definition set_counts (pg : pg_t) (clean total : Z) : pg_t :=
  mk_pg (pg_state pg) clean total (state_dict pg) (inconsistent_objects pg) (incomplete_objects pg)
    (degraded_objects pg) (misplaced_objects pg) (flush_actions pg) (ver_override pg).
Definition set_flush (pg : pg_t) (f : gmap ((Z * Z) * Z) flush_action_t) : pg_t :=
  mk_pg (pg_state pg) (clean_count pg) (total_count pg) (state_dict pg) (inconsistent_objects pg)
    (incomplete_objects pg) (degraded_objects pg) (misplaced_objects pg) f (ver_override pg).
Definition set_override (pg : pg_t) (oid : object_id) (v : Z) : pg_t :=
  mk_pg (pg_state pg) (clean_count pg) (total_count pg) (state_dict pg) (inconsistent_objects pg)
    (incomplete_objects pg) (degraded_objects pg) (misplaced_objects pg) (flush_actions pg) (<[oid := v]> (ver_override pg)).

(** [pg_t::add_object_to_state] *)
Definition loc_good (o : pg_obj_loc_t) : bool := Z.land o.2 (Z.lor LOC_OUTDATED LOC_CORRUPTED) =? 0.

Definition read_target_of (cfg : pg_config) (osd_set : pg_osd_set_t) : res (list Z) :=
  if scheme cfg =? POOL_SCHEME_REPLICATED then
    let good := map (fun o => o.1.2) (filter (fun o => loc_good o = true) osd_set) in
    Ok (good ++ replicate (Z.to_nat (pg_size cfg) - length good) 0)
  else
    foldl (fun r o =>
      let* t := r in
      if loc_good o then aset t o.1.1 o.1.2 else Ok t) (Ok (replicate (Z.to_nat (pg_size cfg)) 0)) osd_set.

Definition add_object_to_state (cfg : pg_config) (pg : pg_t) (oid : object_id) (state : Z) (osd_set : pg_osd_set_t) : res pg_t :=
  let* entry :=
    (match state_dict pg !! osd_set with
     | None => let* t := read_target_of cfg osd_set in Ok (mk_set_state t osd_set state 1)
     | Some e => Ok (mk_set_state (read_target e) (set_osd_set e) (set_state e) (u64 (object_count e + 1)))
     end) in
  let has b := negb (Z.land state b =? 0) in
  let ins (b : bool) (m : gmap (Z * Z) (list (Z * Z * Z))) := if b then <[oid := osd_set]> m else m in
  let c1 := has OBJ_INCONSISTENT in
  let c2 := negb c1 && has OBJ_INCOMPLETE in
  let c3 := negb c1 && negb c2 && has OBJ_DEGRADED in
  Ok (mk_pg (pg_state pg) (clean_count pg) (total_count pg) (<[osd_set := entry]> (state_dict pg))
        (ins c1 (inconsistent_objects pg)) (ins c2 (incomplete_objects pg)) (ins c3 (degraded_objects pg))
        (ins (negb c1 && negb c2 && negb c3) (misplaced_objects pg)) (flush_actions pg) (ver_override pg)).

(** * The walk *)

(** [pg_obj_state_check_t] without the list, the configuration and the log level. *)
Record check_t := mk_check {
  c_pg : pg_t;
  list_pos : nat; obj_start : nat; obj_end : nat; ver_start : nat; ver_end : nat;
  c_oid : object_id; max_ver : Z; last_ver : Z; target_ver : Z;
  n_copies : Z; has_roles : Z; n_roles : Z; n_stable : Z; n_mismatched : Z;
  n_unstable : Z; n_invalid : Z; c_osd_set : pg_osd_set_t }.

Definition no_entry : obj_ver_role := mk_ovr (0, 0) 0 0 false.

Section Walk.
Context (cfg : pg_config) (replicated : bool) (list : list obj_ver_role).

Definition entry (i : nat) : obj_ver_role := default no_entry (list !! i).

Definition start_object (c : check_t) : check_t :=
  let e := entry (list_pos c) in
  mk_check (c_pg c) (list_pos c) (list_pos c) (obj_end c) (list_pos c) (ver_end c)
    (inode (o_oid e), masked (stripe (o_oid e))) (o_version e) (o_version e) 0
    0 0 0 0 0 0 0 (c_osd_set c).

(** [1 << replica] is an [int]; the result is converted to [uint64_t]. *)
Definition role_bit (replica : Z) : res Z :=
  if replica <? 31 then Ok (Z.shiftl 1 replica)
  else if replica =? 31 then Ok (UINT64_MAX - (2 ^ 31 - 1))
  else Err Undefined.

(** The counters of the version being walked. *)
Record ver_counts := mk_counts { v_copies : Z; v_has : Z; v_roles : Z; v_stable : Z; v_mismatched : Z; v_invalid : Z }.

(** One entry of the version that may become the target. *)
Definition count_entry (e : obj_ver_role) (n : ver_counts) : res ver_counts :=
  let replica := role_of (stripe (o_oid e)) in
  let copies := v_copies n + 1 in
  if replicated && (0 <? replica) || (pg_size cfg <=? replica) then
    Ok (mk_counts copies (v_has n) (v_roles n) (v_stable n) (v_mismatched n) (v_invalid n + 1))
  else
    let stable := if o_stable e then v_stable n + 1 else v_stable n in
    if replicated then
      let mism := if bool_decide (o_osd e ∈ cur_set cfg) then v_mismatched n else v_mismatched n + 1 in
      Ok (mk_counts copies (v_has n) (v_roles n) stable mism (v_invalid n))
    else
      let* cur := aget (cur_set cfg) replica in
      let mism := if cur =? o_osd e then v_mismatched n else v_mismatched n + 1 in
      let* bit := role_bit replica in
      let '(has, roles) :=
        if Z.land (v_has n) bit =? 0 then (Z.lor (v_has n) bit, v_roles n + 1) else (v_has n, v_roles n) in
      Ok (mk_counts copies has roles stable mism (v_invalid n)).

Definition counts_of (c : check_t) : ver_counts :=
  mk_counts (n_copies c) (has_roles c) (n_roles c) (n_stable c) (n_mismatched c) (n_invalid c).

Definition handle_version (c : check_t) : res check_t :=
  let e := entry (list_pos c) in
  let '(target, vend) :=
    if (target_ver c =? 0) && negb (last_ver c =? o_version e) &&
       ((0 <? n_stable c) || (pg_data_size cfg <=? n_roles c))
    then (last_ver c, list_pos c) else (target_ver c, ver_end c) in
  let unstable := if o_stable e then n_unstable c else n_unstable c + 1 in
  if target =? 0 then
    let '(vstart, counts, last) :=
      if negb (last_ver c =? o_version e)
      then (list_pos c, mk_counts 0 0 0 0 0 (n_invalid c), o_version e)
      else (ver_start c, counts_of c, last_ver c) in
    let* n := count_entry e counts in
    Ok (mk_check (c_pg c) (list_pos c) (obj_start c) (obj_end c) vstart vend (c_oid c) (max_ver c) last target
          (v_copies n) (v_has n) (v_roles n) (v_stable n) (v_mismatched n) unstable (v_invalid n) (c_osd_set c))
  else
    Ok (mk_check (c_pg c) (list_pos c) (obj_start c) (obj_end c) (ver_start c) vend (c_oid c) (max_ver c) (last_ver c) target
          (n_copies c) (has_roles c) (n_roles c) (n_stable c) (n_mismatched c) unstable (n_invalid c) (c_osd_set c)).

(** ** [finish_object] *)

(** Versions of each piece of the object. *)
Definition add_piece (target : Z) (pieces : gmap ((Z * Z) * Z) obj_piece_ver_t) (e : obj_ver_role)
    : gmap ((Z * Z) * Z) obj_piece_ver_t :=
  let key := (o_oid e, o_osd e) in
  let p := default no_piece (pieces !! key) in
  <[key := mk_piece
     (if p_max_ver p =? 0 then o_version e else p_max_ver p)
     (if o_stable e && (p_stable_ver p =? 0) then o_version e else p_stable_ver p)
     (if (o_version e <=? target) && (p_max_target p =? 0) then o_version e else p_max_target p)]> pieces.

Definition piece_action (target : Z) (old : flush_action_t) (p : obj_piece_ver_t) : flush_action_t :=
  let above := target <? p_max_ver p in
  let to := if above then p_max_target p else p_max_ver p in
  let stab := p_stable_ver p <? to in
  mk_action (above || rollback old) (stab || make_stable old)
    (if stab then to else stable_to old) (if above then p_max_target p else rollback_to old) (submitted old).

(** The loop over the unordered map of pieces touches one key at a time. *)
Definition add_actions (target : Z) (pieces : gmap ((Z * Z) * Z) obj_piece_ver_t)
    (acts : gmap ((Z * Z) * Z) flush_action_t) : gmap ((Z * Z) * Z) flush_action_t :=
  merge (fun old p =>
    match p with
    | Some p => if p_stable_ver p <? p_max_ver p then Some (piece_action target (default no_action old) p) else old
    | None => old
    end) acts pieces.

Definition entries (a b : nat) : Datatypes.list obj_ver_role := take (b - a) (drop a list).

Definition loc_of (e : obj_ver_role) (bad : Z) : pg_obj_loc_t := (role_of (stripe (o_oid e)), o_osd e, bad).

(** Outdated copies that are neither in the set nor in their place. *)
Definition add_outdated (r : res (pg_osd_set_t * Z * pg_t)) (e : obj_ver_role) : res (pg_osd_set_t * Z * pg_t) :=
  let* (osd_set, state, pg) := r in
  if existsb (fun o => o.1.2 =? o_osd e) osd_set then Ok (osd_set, state, pg)
  else
    let* cur := aget (cur_set cfg) (role_of (stripe (o_oid e))) in
    if cur =? o_osd e then Ok (osd_set, state, pg)
    else
      let '(state, pg) :=
        if Z.land state (Z.lor OBJ_INCOMPLETE OBJ_DEGRADED) =? 0
        then (Z.lor state OBJ_MISPLACED, or_pg_state pg PG_HAS_MISPLACED) else (state, pg) in
      Ok (osd_set ++ [loc_of e LOC_OUTDATED], state, pg).

Definition object_state (c : check_t) (pg : pg_t) : Z * pg_t :=
  if negb replicated && (n_roles c <? pg_data_size cfg) then (OBJ_INCOMPLETE, or_pg_state pg PG_HAS_INCOMPLETE)
  else if (if replicated then n_copies c else n_roles c) <? pg_cursize cfg then (OBJ_DEGRADED, or_pg_state pg PG_HAS_DEGRADED)
  else if 0 <? n_mismatched c then (OBJ_MISPLACED, or_pg_state pg PG_HAS_MISPLACED)
  else (0, pg).

Definition finish_object (c : check_t) : res check_t :=
  let '(target, vend) :=
    if (target_ver c =? 0) && ((0 <? n_stable c) || (pg_data_size cfg <=? n_roles c))
    then (last_ver c, list_pos c) else (target_ver c, ver_end c) in
  let oend := list_pos c in
  let finished (pg : pg_t) (osd_set : pg_osd_set_t) :=
    mk_check pg (list_pos c) (obj_start c) oend (ver_start c) vend (c_oid c) (max_ver c) (last_ver c) target
      (n_copies c) (has_roles c) (n_roles c) (n_stable c) (n_mismatched c) (n_unstable c) (n_invalid c) osd_set in
  let pg := c_pg c in
  if 0 <? n_invalid c then
    Ok (finished (set_counts (or_pg_state pg PG_HAS_INVALID) (clean_count pg) (total_count pg + 1)) (c_osd_set c))
  else
    let pg :=
      if 0 <? n_unstable c then
        let pieces := foldl (add_piece target) ∅ (entries (obj_start c) oend) in
        set_flush (or_pg_state pg PG_HAS_UNCLEAN) (add_actions target pieces (flush_actions pg))
      else pg in
    if target =? 0 then Ok (finished pg (c_osd_set c))
    else
      let '(state, pg) := object_state c pg in
      let pg := set_counts pg (clean_count pg) (total_count pg + 1) in
      let osd_set :=
        if negb (state =? 0) || (vend <? oend)%nat
        then map (fun e => loc_of e 0) (entries (ver_start c) vend) else c_osd_set c in
      let* (osd_set, state, pg) :=
        (if (vend <? oend)%nat then foldl add_outdated (Ok (osd_set, state, pg)) (entries vend oend)
         else Ok (osd_set, state, pg)) in
      let pg := if target <? max_ver c then set_override pg (c_oid c) target else pg in
      let* pg :=
        (if state =? 0 then Ok (set_counts pg (clean_count pg + 1) (total_count pg))
         else add_object_to_state cfg pg (c_oid c) state osd_set) in
      Ok (finished pg osd_set).

Definition at_pos (c : check_t) (i : nat) : check_t :=
  mk_check (c_pg c) i (obj_start c) (obj_end c) (ver_start c) (ver_end c) (c_oid c) (max_ver c) (last_ver c) (target_ver c)
    (n_copies c) (has_roles c) (n_roles c) (n_stable c) (n_mismatched c) (n_unstable c) (n_invalid c) (c_osd_set c).
Definition with_pg (c : check_t) (pg : pg_t) : check_t :=
  mk_check pg (list_pos c) (obj_start c) (obj_end c) (ver_start c) (ver_end c) (c_oid c) (max_ver c) (last_ver c) (target_ver c)
    (n_copies c) (has_roles c) (n_roles c) (n_stable c) (n_mismatched c) (n_unstable c) (n_invalid c) (c_osd_set c).

Definition finish_if_started (c : check_t) : res check_t :=
  if inode (c_oid c) =? 0 then Ok c else finish_object c.

Definition walk_step (r : res check_t) (i : nat) : res check_t :=
  let* c := r in
  let c := at_pos c i in
  let e := entry i in
  let* c :=
    (if negb (inode (c_oid c) =? inode (o_oid e)) || negb (stripe (c_oid c) =? masked (stripe (o_oid e)))
     then let* c := finish_if_started c in Ok (start_object c)
     else Ok c) in
  handle_version c.

(** The state bits the walk sets after the last object. *)
Definition walk_state (pg : pg_t) : pg_t :=
  if negb (Z.land (pg_state pg) PG_HAS_INVALID =? 0) then set_pg_state pg (Z.lor PG_INCOMPLETE PG_HAS_INVALID)
  else
    let pg := if pg_cursize cfg <? pg_size cfg then or_pg_state pg PG_DEGRADED else pg in
    let pg := or_pg_state pg PG_ACTIVE in
    if (length (cur_peers cfg) <? length (all_peers cfg))%nat then or_pg_state pg PG_LEFT_ON_DEAD else pg.

Definition check0 (pg : pg_t) : check_t := mk_check pg 0 0 0 0 0 (0, 0) 0 0 0 0 0 0 0 0 0 0 [].

Definition walk (pg : pg_t) : res pg_t :=
  let pg := set_counts (set_pg_state pg 0) 0 0 in
  let* c := foldl walk_step (Ok (check0 pg)) (seq 0 (length list)) in
  let* c := finish_if_started (at_pos c (length list)) in
  Ok (walk_state (c_pg c)).
End Walk.

(** * [pg_t::calc_object_states] *)

(** One OSD's answer: the first [stable_count] versions are stable. *)
Record pg_list_result_t := mk_list_result { lr_buf : list (object_id * Z); stable_count : Z }.

Definition result_entries (osd_num : Z) (r : pg_list_result_t) : list obj_ver_role :=
  imap (fun i ov => mk_ovr ov.1 ov.2 osd_num (Z.of_nat i <? stable_count r)) (lr_buf r).

Definition merge_lists (results : list (Z * pg_list_result_t)) : list obj_ver_role :=
  concat (map (fun it => result_entries it.1 it.2) results).

Definition max_epoch (results : list (Z * pg_list_result_t)) : Z :=
  foldl (fun epoch it =>
    foldl (fun epoch ov =>
      let e := Z.shiftr ov.2 (64 - PG_EPOCH_BITS) in if epoch <? e then e else epoch) epoch (lr_buf it.2))
    0 results.

(** [std::sort] by [operator <]. *)
Definition ovr_le (a b : obj_ver_role) : Prop := ovr_lt b a = false.
#[global] Instance ovr_le_dec a b : Decision (ovr_le a b) := decide (ovr_lt b a = false).

Definition calc_object_states (cfg : pg_config) (results : list (Z * pg_list_result_t)) (pg : pg_t) : res (pg_t * Z) :=
  let epoch := max_epoch results in
  let l := merge_sort ovr_le (merge_lists results) in
  let* pg := walk cfg (scheme cfg =? POOL_SCHEME_REPLICATED) l pg in
  if pg_state pg =? PG_ACTIVE then Ok (pg, epoch)
  else assert! negb (epoch =? 2 ^ PG_EPOCH_BITS - 1) in Ok (pg, epoch + 1).

Definition can_stop (inflight inflight_locks : Z) (lock_peers : list Z) (flush_batch : bool) : bool :=
  (inflight =? 0) && (inflight_locks =? 0) && (match lock_peers with [] => true | _ => false end) && negb flush_batch.
Definition can_repeer (inflight : Z) (flush_batch : bool) : bool := (inflight =? 0) && negb flush_batch.
