(* ===== verification/PeeringOk.v ===== *)
(** Correctness of peering ([Peering.v]): what the walk over the sorted object
    lists decides for one object is given in closed form, on the entries of the
    object; the whole walk is shown to be the composition of these decisions. *)

From S2P Require Import Prelude.
From S2P Require Import Peering.

Lemma or_decide_bool (P Q : Prop) `{Decision P, Decision Q} : bool_decide P || bool_decide Q = bool_decide (P \/ Q).
Proof. repeat case_bool_decide; tauto. Qed.

(** * Entries of one object *)

Section Object.
Context (cfg : pg_config) (replicated : bool).

Definition role_num (e : obj_ver_role) : Z := role_of (stripe (o_oid e)).
Definition valid (e : obj_ver_role) : bool :=
  negb (replicated && (0 <? role_num e) || (pg_size cfg <=? role_num e)).
Definition well_placed (e : obj_ver_role) : bool :=
  if replicated then bool_decide (o_osd e ∈ cur_set cfg)
  else bool_decide (cur_set cfg !! Z.to_nat (role_num e) = Some (o_osd e)).

Definition count (P : obj_ver_role -> bool) (l : list obj_ver_role) : Z :=
  Z.of_nat (length (filter (fun e => P e = true) l)).
Definition at_version (v : Z) (l : list obj_ver_role) : list obj_ver_role := filter (fun e => o_version e = v) l.

(** The roles present in valid entries of an erasure-coded object. *)
Definition roles (l : list obj_ver_role) : gset Z :=
  if replicated then ∅ else list_to_set (map role_num (filter (fun e => valid e = true) l)).

(** A version is kept when a copy of it is stable or when enough chunks of it exist. *)
Definition recoverable (l : list obj_ver_role) (v : Z) : Prop :=
  0 < count (fun e => valid e && o_stable e) (at_version v l) \/
  pg_data_size cfg <= Z.of_nat (size (roles (at_version v l))).

Record config_ok : Prop := {
  cf_size : 0 < pg_size cfg <= 32;
  cf_data : 0 < pg_data_size cfg;
  cf_set : Z.of_nat (length (cur_set cfg)) = pg_size cfg }.
Hypothesis Hcfg : config_ok.

(** ** Counting *)

Lemma count_nil P : count P [] = 0.
Proof. done. Qed.
Lemma count_app P l1 l2 : count P (l1 ++ l2) = count P l1 + count P l2.
Proof. unfold count. rewrite filter_app, length_app. lia. Qed.
Lemma count_one P e : count P [e] = if P e then 1 else 0.
Proof. unfold count. rewrite filter_cons. destruct (P e) eqn:E; [by rewrite decide_True | by rewrite decide_False by congruence]. Qed.
Lemma count_snoc P l e : count P (l ++ [e]) = count P l + if P e then 1 else 0.
Proof. by rewrite count_app, count_one. Qed.
Lemma count_nonneg P l : 0 <= count P l.
Proof. unfold count. lia. Qed.

Lemma roles_snoc l e :
  roles (l ++ [e]) = if negb replicated && valid e then {[role_num e]} ∪ roles l else roles l.
Proof.
  unfold roles. destruct replicated; [done |]. simpl. rewrite filter_app, map_app, list_to_set_app_L, filter_cons.
  destruct (valid e); [rewrite decide_True by done | rewrite decide_False by done]; set_solver.
Qed.

(** The bit mask of the roles seen: role 31 sets all the high bits. *)
Definition mask_of (rs : gset Z) (has : Z) : Prop :=
  0 <= has < 2 ^ 64 /\
  (forall r, 0 <= r < 31 -> Z.testbit has r = bool_decide (r ∈ rs)) /\
  (forall i, 31 <= i < 64 -> Z.testbit has i = bool_decide (31 ∈ rs)).

Lemma role_bit_spec r :
  0 <= r < 32 -> exists b, role_bit r = Ok b /\ 0 <= b < 2 ^ 64 /\
    forall i, 0 <= i < 64 -> Z.testbit b i = bool_decide (i = r \/ (r = 31 /\ 31 <= i)).
Proof.
  intros Hr. unfold role_bit. destruct (Z.ltb_spec r 31) as [H | H].
  - exists (Z.shiftl 1 r). split; [done |]. split.
    { rewrite Z.shiftl_1_l. pose proof (Z.pow_pos_nonneg 2 r). pose proof (Z.pow_lt_mono_r 2 r 64). lia. }
    intros i Hi. rewrite shiftl1_testbit by lia. apply bool_decide_ext. lia.
  - replace r with 31 by lia. simpl. exists (UINT64_MAX - (2 ^ 31 - 1)). split; [done |]. split; [vm_compute; lia || (split; congruence) |].
    intros i Hi. replace (UINT64_MAX - (2 ^ 31 - 1)) with (Z.shiftl (Z.ones 33) 31) by reflexivity.
    rewrite Z.shiftl_spec by lia. destruct (decide (31 <= i)).
    + rewrite Z.ones_spec_low by lia. symmetry. apply bool_decide_eq_true_2. lia.
    + rewrite Z.testbit_neg_r by lia. symmetry. apply bool_decide_eq_false_2. lia.
Qed.

Lemma mask_test rs has r b :
  mask_of rs has -> 0 <= r < 32 -> role_bit r = Ok b -> (Z.land has b =? 0) = negb (bool_decide (r ∈ rs)).
Proof.
  intros (Hb & Hlow & Hhigh) Hr Ebit. destruct (role_bit_spec r Hr) as (b' & E' & Hb' & Hbit). assert (b' = b) as -> by congruence.
  assert (Z.testbit has r = bool_decide (r ∈ rs)) as Hrs.
  { destruct (decide (r = 31)) as [-> |]; [apply Hhigh; lia | apply Hlow; lia]. }
  destruct (bool_decide (r ∈ rs)) eqn:Er; simpl.
  - apply Z.eqb_neq. intros H0. assert (Z.testbit (Z.land has b) r = true) as Ht.
    { rewrite Z.land_spec, Hrs, Hbit by lia. simpl. apply bool_decide_eq_true_2. by left. }
    by rewrite H0, Z.testbit_0_l in Ht.
  - apply Z.eqb_eq. apply (bits_inj_below 64); try lia.
    { split; [apply Z.land_nonneg; lia |]. apply lt_pow2_of_bits; [lia | apply Z.land_nonneg; lia |].
      intros i Hi. by rewrite Z.land_spec, (testbit_ge 64) by lia. }
    intros i Hi. rewrite Z.land_spec, Z.testbit_0_l, Hbit by lia. destruct (bool_decide (i = r \/ _)) eqn:Hc; [| apply andb_false_r].
    apply bool_decide_eq_true in Hc. destruct Hc as [-> | [-> ?]]; [by rewrite Hrs |]. by rewrite Hhigh, Er by lia.
Qed.

Lemma mask_add rs has r b :
  mask_of rs has -> 0 <= r < 32 -> role_bit r = Ok b -> mask_of ({[r]} ∪ rs) (Z.lor has b).
Proof.
  intros (Hb & Hlow & Hhigh) Hr Ebit. destruct (role_bit_spec r Hr) as (b' & E' & Hb' & Hbit).
  assert (b' = b) as -> by congruence. split; [| split].
  - split; [apply Z.lor_nonneg; lia |]. apply lt_pow2_of_bits; [lia | apply Z.lor_nonneg; lia |].
    intros i Hi. by rewrite Z.lor_spec, !(testbit_ge 64) by lia.
  - intros i Hi. rewrite Z.lor_spec, Hlow, Hbit, or_decide_bool by lia. apply bool_decide_ext.
    rewrite elem_of_union, elem_of_singleton. intuition lia.
  - intros i Hi. rewrite Z.lor_spec, Hhigh, Hbit, or_decide_bool by lia. apply bool_decide_ext.
    rewrite elem_of_union, elem_of_singleton. intuition lia.
Qed.

Lemma mask_empty : mask_of ∅ 0.
Proof.
  split; [lia |]. split; intros; rewrite Z.testbit_0_l; symmetry; apply bool_decide_eq_false_2; set_solver.
Qed.

(** The counters describe the entries [l] of one version and [inv] invalid entries. *)
Definition counted (l : list obj_ver_role) (inv : Z) (n : ver_counts) : Prop :=
  v_copies n = Z.of_nat (length l) /\ mask_of (roles l) (v_has n) /\ v_roles n = Z.of_nat (size (roles l)) /\
  v_stable n = count (fun e => valid e && o_stable e) l /\
  v_mismatched n = count (fun e => valid e && negb (well_placed e)) l /\ v_invalid n = inv.

Lemma counted_nil inv : counted [] inv (mk_counts 0 0 0 0 0 inv).
Proof.
  unfold counted, roles. split; [done |]. destruct replicated; simpl; (split; [apply mask_empty |]); done.
Qed.

Definition role_ok (e : obj_ver_role) : Prop := 0 <= role_num e.

Lemma count_entry_ok l inv n e :
  role_ok e -> counted l inv n ->
  exists n', count_entry cfg replicated e n = Ok n' /\ counted (l ++ [e]) (inv + if valid e then 0 else 1) n'.
Proof using Hcfg.
  intros He (Hc & Hh & Hr & Hs & Hm & Hi). destruct Hcfg as [Hsz _ Hset]. unfold count_entry, counted.
  rewrite roles_snoc, !count_snoc, length_app. fold (role_num e). unfold role_ok in He.
  destruct (replicated && (0 <? role_num e) || (pg_size cfg <=? role_num e)) eqn:Ev.
  { assert (valid e = false) as -> by (unfold valid; by rewrite Ev). rewrite andb_false_r. simpl.
    eexists. split; [done |]. simpl. repeat (split; [done || lia |]). lia. }
  assert (valid e = true) as Hv by (unfold valid; by rewrite Ev). rewrite Hv. simpl andb. rewrite andb_true_r.
  apply orb_false_iff in Ev as [_ Ev%Z.leb_gt].
  assert (well_placed e = if replicated then bool_decide (o_osd e ∈ cur_set cfg)
    else bool_decide (cur_set cfg !! Z.to_nat (role_num e) = Some (o_osd e))) as -> by done.
  destruct replicated eqn:Erep; simpl.
  - eexists. split; [done |]. simpl. destruct (o_stable e); case_bool_decide; simpl; repeat (split; [done || lia |]); lia.
  - destruct (aget_in_range (cur_set cfg) (role_num e)) as [cur Hcur]; [lia |]. rewrite Hcur. cbn [rbind].
    apply aget_ok in Hcur as [_ Hcur]. rewrite Hcur.
    destruct (role_bit_spec (role_num e) ltac:(lia)) as (b & Eb & _). rewrite Eb. cbn [rbind].
    rewrite (mask_test (roles l) (v_has n) (role_num e) b) by (done || lia).
    assert ((cur =? o_osd e) = bool_decide (Some cur = Some (o_osd e))) as Ecur.
    { destruct (Z.eqb_spec cur (o_osd e)); symmetry; [apply bool_decide_eq_true_2 | apply bool_decide_eq_false_2]; congruence. }
    rewrite Ecur. pose proof (mask_add (roles l) (v_has n) (role_num e) b Hh ltac:(lia) Eb) as Hadd.
    destruct (decide (role_num e ∈ roles l)) as [Hin | Hin].
    + rewrite (bool_decide_eq_true_2 (_ ∈ _)) by done. simpl. eexists. split; [done |]. simpl.
      replace ({[role_num e]} ∪ roles l) with (roles l) by set_solver.
      destruct (o_stable e), (bool_decide (Some cur = _)); simpl; repeat (split; [done || lia |]); lia.
    + rewrite (bool_decide_eq_false_2 (_ ∈ _)) by done. simpl. eexists. split; [done |]. simpl.
      rewrite size_union, size_singleton by set_solver.
      destruct (o_stable e), (bool_decide (Some cur = _)); simpl; repeat (split; [done || lia |]); lia.
Qed.

(** ** The entries of one object, one after another *)

Definition newer (v : Z) (l : list obj_ver_role) : list obj_ver_role := filter (fun e => v < o_version e) l.
Definition not_older (v : Z) (l : list obj_ver_role) : list obj_ver_role := filter (fun e => v <= o_version e) l.
Definition invalid (e : obj_ver_role) : bool := negb (valid e).

Lemma at_version_snoc v l e : at_version v (l ++ [e]) = if decide (o_version e = v) then at_version v l ++ [e] else at_version v l.
Proof. unfold at_version. rewrite filter_app, filter_cons. destruct (decide _); simpl; [done | apply app_nil_r]. Qed.
Lemma newer_snoc v l e : newer v (l ++ [e]) = if decide (v < o_version e) then newer v l ++ [e] else newer v l.
Proof. unfold newer. rewrite filter_app, filter_cons. destruct (decide _); simpl; [done | apply app_nil_r]. Qed.
Lemma not_older_snoc v l e : not_older v (l ++ [e]) = if decide (v <= o_version e) then not_older v l ++ [e] else not_older v l.
Proof. unfold not_older. rewrite filter_app, filter_cons. destruct (decide _); simpl; [done | apply app_nil_r]. Qed.

Lemma recoverable_snoc l e v : o_version e <> v -> recoverable (l ++ [e]) v <-> recoverable l v.
Proof. intros H. unfold recoverable. rewrite at_version_snoc. by rewrite decide_False. Qed.

(** The counters tell whether their version can be kept. *)
Lemma counted_recoverable l v inv n :
  counted (at_version v l) inv n ->
  (0 <? v_stable n) || (pg_data_size cfg <=? v_roles n) = bool_decide (recoverable l v).
Proof.
  intros (_ & _ & Hr & Hs & _). unfold recoverable. rewrite Hr, Hs.
  destruct (Z.ltb_spec 0 (count (fun e => valid e && o_stable e) (at_version v l))) as [H | H];
    [symmetry; apply bool_decide_eq_true_2; by left |].
  destruct (Z.leb_spec (pg_data_size cfg) (Z.of_nat (size (roles (at_version v l))))) as [H' | H'].
  - symmetry. apply bool_decide_eq_true_2. by right.
  - symmetry. apply bool_decide_eq_false_2. lia.
Qed.

(** While no version has been chosen. *)
Definition choosing (start : nat) (l : list obj_ver_role) (c : check_t) : Prop :=
  target_ver c = 0 /\ (forall x, x ∈ l -> last_ver c <= o_version x) /\
  ((l = [] /\ last_ver c = max_ver c) \/ exists x, x ∈ l /\ o_version x = last_ver c) /\
  ver_start c = (start + length (newer (last_ver c) l))%nat /\
  (forall v, v <> last_ver c -> ~ recoverable l v) /\
  counted (at_version (last_ver c) l) (count invalid l) (counts_of c).

(** When version [t] has been chosen. *)
Definition chosen (start : nat) (l : list obj_ver_role) (t : Z) (vstart vend : nat) (n : ver_counts) : Prop :=
  t <> 0 /\ recoverable l t /\ (forall v, recoverable l v -> v <= t) /\
  vstart = (start + length (newer t l))%nat /\ vend = (start + length (not_older t l))%nat /\
  counted (at_version t l) (count invalid (not_older t l)) n.

Record in_object (pg : pg_t) (start : nat) (oid : object_id) (first : Z) (osd_set : pg_osd_set_t) (l : list obj_ver_role) (c : check_t) : Prop := {
  io_pg : c_pg c = pg;
  io_start : obj_start c = start;
  io_oid : c_oid c = oid;
  io_max : max_ver c = first;
  io_osd_set : c_osd_set c = osd_set;
  io_unstable : n_unstable c = count (fun e => negb (o_stable e)) l;
  io_version : choosing start l c \/
    (chosen start l (target_ver c) (ver_start c) (ver_end c) (counts_of c) /\ exists x, x ∈ l /\ o_version x < target_ver c) }.

(** Once a version is chosen, older entries do not matter. *)
Lemma chosen_older start l t vs ve n e :
  o_version e < t -> chosen start l t vs ve n -> chosen start (l ++ [e]) t vs ve n.
Proof.
  intros He (Ht & Hr & Hmax & Hvs & Hve & Hn). unfold chosen. rewrite newer_snoc, not_older_snoc, at_version_snoc.
  rewrite !decide_False by lia. split; [done |]. split; [apply recoverable_snoc; [lia | done] |]. split; [| done].
  intros v Hv. destruct (decide (o_version e = v)); [lia |]. apply recoverable_snoc in Hv; auto.
Qed.

Lemma newer_all v l : (forall x, x ∈ l -> v < o_version x) -> newer v l = l.
Proof. apply filter_all_true. Qed.
Lemma not_older_all v l : (forall x, x ∈ l -> v <= o_version x) -> not_older v l = l.
Proof. apply filter_all_true. Qed.
Lemma at_version_none v l : (forall x, x ∈ l -> v < o_version x) -> at_version v l = [].
Proof. intros H. apply filter_all_false. intros x Hx. specialize (H x Hx). lia. Qed.

(** The version being walked is chosen. *)
Lemma choosing_choose start l c :
  choosing start l c -> last_ver c <> 0 -> recoverable l (last_ver c) ->
  chosen start l (last_ver c) (ver_start c) (start + length l) (counts_of c).
Proof.
  intros (_ & Hle & _ & Hvs & Hno & Hn) H0 Hr. unfold chosen. rewrite not_older_all by done.
  repeat (split; [done |]). split; [| done]. intros v Hv. destruct (decide (v = last_ver c)) as [-> |]; [lia |].
  by apply Hno in Hv.
Qed.

Lemma nothing_recoverable_nil v : ~ recoverable [] v.
Proof using Hcfg.
  destruct Hcfg. unfold recoverable. change (at_version v []) with (@nil obj_ver_role). rewrite count_nil.
  assert (roles [] = ∅) as -> by (unfold roles; by destruct replicated). rewrite size_empty. lia.
Qed.

Section Handle.
Context (lst : list obj_ver_role) (pg : pg_t) (start : nat) (oid : object_id) (first : Z) (os : pg_osd_set_t).
Context (l : list obj_ver_role) (c : check_t) (e : obj_ver_role).
Hypothesis Hio : in_object pg start oid first os l c.
Hypothesis Hentry : entry lst (list_pos c) = e.
Hypothesis Hpos : list_pos c = (start + length l)%nat.
Hypothesis Hrole : role_ok e.
Hypothesis Hver : 0 < o_version e.
Hypothesis Hsorted : forall x, x ∈ l -> o_version e <= o_version x.
Hypothesis Hfirst : l = [] -> o_version e = first.

Lemma handle_same :
  choosing start l c -> last_ver c = o_version e ->
  exists c', handle_version cfg replicated lst c = Ok c' /\ list_pos c' = list_pos c /\ in_object pg start oid first os (l ++ [e]) c'.
Proof.
  intros (Ht & Hle & Hlast & Hvs & Hno & Hn) Hv. unfold handle_version. rewrite Hentry, Ht, Hv, !Z.eqb_refl. cbn [andb negb].
  destruct (count_entry_ok _ _ _ e Hrole Hn) as (n' & -> & Hn'). cbn [rbind].
  eexists. split; [done |]. split; [done |]. destruct Hio. constructor; try done; simpl.
  - rewrite count_snoc, io_unstable0. destruct (o_stable e); simpl; lia.
  - left. unfold choosing. simpl. split; [done |]. split.
    { intros x [Hx | ->%list_elem_of_singleton]%elem_of_app; [rewrite <- Hv; by apply Hle | lia]. }
    split; [right; exists e; split; [apply elem_of_app; right; by apply list_elem_of_singleton | done] |].
    rewrite newer_snoc, at_version_snoc, decide_False, decide_True by lia. split; [by rewrite <- Hv |].
    split; [| rewrite count_snoc; unfold invalid at 2; rewrite <- Hv; destruct (valid e); simpl in *; by destruct n'].
    intros v Hne. rewrite recoverable_snoc by done. apply Hno. congruence.
Qed.

Lemma handle_choose :
  choosing start l c -> last_ver c <> o_version e -> last_ver c <> 0 -> recoverable l (last_ver c) ->
  exists c', handle_version cfg replicated lst c = Ok c' /\ list_pos c' = list_pos c /\ in_object pg start oid first os (l ++ [e]) c'.
Proof.
  intros Hch Hv H0 Hr. pose proof (choosing_choose _ _ _ Hch H0 Hr) as Hchosen.
  destruct Hch as (Ht & Hle & Hlast & _ & _ & Hn).
  assert (o_version e < last_ver c) as Hlt.
  { destruct Hlast as [[Hnil Hl] | (x & Hx & Hxv)]; [destruct Hio; specialize (Hfirst Hnil); congruence |].
    specialize (Hsorted x Hx). lia. }
  pose proof (counted_recoverable l (last_ver c) _ _ Hn) as Hc. rewrite bool_decide_eq_true_2 in Hc by done. simpl in Hc.
  unfold handle_version. rewrite Hentry, Ht, (proj2 (Z.eqb_neq _ _) Hv), Hc, !Z.eqb_refl. cbn [andb negb].
  rewrite (proj2 (Z.eqb_neq _ _) H0). eexists. split; [done |]. split; [done |].
  destruct Hio. constructor; try done; simpl.
  - rewrite count_snoc, io_unstable0. destruct (o_stable e); simpl; lia.
  - right. rewrite Hpos. split; [by apply chosen_older |]. exists e.
    split; [apply elem_of_app; right; by apply list_elem_of_singleton | done].
Qed.

Lemma handle_next :
  choosing start l c -> last_ver c <> o_version e -> ~ recoverable l (last_ver c) ->
  exists c', handle_version cfg replicated lst c = Ok c' /\ list_pos c' = list_pos c /\ in_object pg start oid first os (l ++ [e]) c'.
Proof.
  intros (Ht & Hle & Hlast & Hvs & Hno & Hn) Hv Hr.
  assert (o_version e < last_ver c) as Hlt.
  { destruct Hlast as [[Hnil Hl] | (x & Hx & Hxv)]; [destruct Hio; specialize (Hfirst Hnil); congruence |].
    specialize (Hsorted x Hx). lia. }
  pose proof (counted_recoverable l (last_ver c) _ _ Hn) as Hc. rewrite bool_decide_eq_false_2 in Hc by done. simpl in Hc.
  assert (forall x, x ∈ l -> o_version e < o_version x) as Hnew by (intros x Hx; specialize (Hle x Hx); lia).
  unfold handle_version. rewrite Hentry, Ht, (proj2 (Z.eqb_neq _ _) Hv), Hc, !Z.eqb_refl. cbn [andb negb].
  destruct (count_entry_ok [] (n_invalid c) (mk_counts 0 0 0 0 0 (n_invalid c)) e Hrole (counted_nil _)) as (n' & -> & Hn').
  cbn [rbind]. eexists. split; [done |]. split; [done |]. destruct Hio. constructor; try done; simpl.
  - rewrite count_snoc, io_unstable0. destruct (o_stable e); simpl; lia.
  - left. unfold choosing. simpl. split; [done |]. split.
    { intros x [Hx | ->%list_elem_of_singleton]%elem_of_app; [specialize (Hnew x Hx); lia | lia]. }
    split; [right; exists e; split; [apply elem_of_app; right; by apply list_elem_of_singleton | done] |].
    rewrite newer_snoc, at_version_snoc, decide_False, decide_True by lia.
    rewrite newer_all, at_version_none by done. split; [done |].
    destruct Hn as (_ & _ & _ & _ & _ & Hinv). simpl in Hinv. split.
    + intros v Hne. rewrite recoverable_snoc by done.
      destruct (decide (v = last_ver c)) as [-> |]; [done | by apply Hno].
    + rewrite count_snoc, <- Hinv. unfold invalid at 1. destruct (valid e); simpl in *; by destruct n'.
Qed.

Lemma handle_after :
  chosen start l (target_ver c) (ver_start c) (ver_end c) (counts_of c) -> (exists x, x ∈ l /\ o_version x < target_ver c) ->
  exists c', handle_version cfg replicated lst c = Ok c' /\ list_pos c' = list_pos c /\ in_object pg start oid first os (l ++ [e]) c'.
Proof.
  intros Hch (x & Hx & Hlt). pose proof Hch as (H0 & _). specialize (Hsorted x Hx).
  unfold handle_version. rewrite Hentry, (proj2 (Z.eqb_neq _ _) H0). simpl. rewrite (proj2 (Z.eqb_neq _ _) H0).
  eexists. split; [done |]. split; [done |]. destruct Hio. constructor; try done; simpl.
  - rewrite count_snoc, io_unstable0. destruct (o_stable e); simpl; lia.
  - right. split; [apply chosen_older; [lia | done] |]. exists x. split; [apply elem_of_app; by left | done].
Qed.

Lemma handle_ok :
  (0 < first) ->
  exists c', handle_version cfg replicated lst c = Ok c' /\ list_pos c' = list_pos c /\ in_object pg start oid first os (l ++ [e]) c'.
Proof.
  intros Hf. destruct (io_version _ _ _ _ _ _ _ Hio) as [Hch | [Hch Hx]]; [| by apply handle_after].
  destruct (decide (last_ver c = o_version e)) as [Hv | Hv]; [by apply handle_same |].
  destruct (decide (recoverable l (last_ver c))) as [Hr | Hr]; [| by apply handle_next].
  apply handle_choose; [done | done | | done]. intros H0. rewrite H0 in Hr.
  pose proof Hch as (_ & Hle & [[-> _] | (x & Hx & Hxv)] & _); [by apply nothing_recoverable_nil in Hr |].
  specialize (Hsorted x Hx). lia.
Qed.
End Handle.

(** ** The decision for an object, in closed form *)

(** The newest version that can be kept, 0 when there is none. *)
Definition target_of (g : list obj_ver_role) : Z :=
  foldr (fun e t => if decide (recoverable g (o_version e)) then Z.max (o_version e) t else t) 0 g.

Definition older (v : Z) (l : list obj_ver_role) : list obj_ver_role := filter (fun e => o_version e < v) l.

(** The state of an object whose kept version has the copies [a]. *)
Definition classify (a : list obj_ver_role) : Z :=
  if negb replicated && (Z.of_nat (size (roles a)) <? pg_data_size cfg) then OBJ_INCOMPLETE
  else if (if replicated then Z.of_nat (length a) else Z.of_nat (size (roles a))) <? pg_cursize cfg then OBJ_DEGRADED
  else if 0 <? count (fun e => valid e && negb (well_placed e)) a then OBJ_MISPLACED
  else 0.

Definition state_flag (state : Z) : Z :=
  if state =? OBJ_INCOMPLETE then PG_HAS_INCOMPLETE else if state =? OBJ_DEGRADED then PG_HAS_DEGRADED
  else if state =? OBJ_MISPLACED then PG_HAS_MISPLACED else 0.

Definition decide_object (oid : object_id) (first : Z) (g : list obj_ver_role) (pg : pg_t) : res pg_t :=
  let t := target_of g in
  if 0 <? count invalid (if t =? 0 then g else not_older t g) then
    Ok (set_counts (or_pg_state pg PG_HAS_INVALID) (clean_count pg) (total_count pg + 1))
  else
    let pg :=
      if 0 <? count (fun e => negb (o_stable e)) g
      then set_flush (or_pg_state pg PG_HAS_UNCLEAN) (add_actions t (foldl (add_piece t) ∅ g) (flush_actions pg))
      else pg in
    if t =? 0 then Ok pg
    else
      let a := at_version t g in
      let state := classify a in
      let pg := or_pg_state pg (state_flag state) in
      let pg := set_counts pg (clean_count pg) (total_count pg + 1) in
      let* (osd_set, state, pg) := foldl (add_outdated cfg) (Ok (map (fun e => loc_of e 0) a, state, pg)) (older t g) in
      let pg := if t <? first then set_override pg oid t else pg in
      if state =? 0 then Ok (set_counts pg (clean_count pg + 1) (total_count pg))
      else add_object_to_state cfg pg oid state osd_set.

Lemma target_of_bound g l :
  (forall e, e ∈ l -> recoverable g (o_version e) ->
     o_version e <= foldr (fun e t => if decide (recoverable g (o_version e)) then Z.max (o_version e) t else t) 0 l) /\
  (foldr (fun e t => if decide (recoverable g (o_version e)) then Z.max (o_version e) t else t) 0 l = 0 \/
   exists e, e ∈ l /\ recoverable g (o_version e) /\
     o_version e = foldr (fun e t => if decide (recoverable g (o_version e)) then Z.max (o_version e) t else t) 0 l).
Proof.
  induction l as [| x l [IH1 IH2]]; simpl; [split; [by intros e []%not_elem_of_nil | by left] |].
  destruct (decide (recoverable g (o_version x))) as [Hx | Hx]; (split; [intros e [-> | He]%elem_of_cons Hr |]).
  - lia.
  - specialize (IH1 e He Hr). lia.
  - destruct IH2 as [-> | (e & He & Hr & <-)].
    + destruct (decide (0 <= o_version x)); [right; exists x | left; lia].
      split; [apply list_elem_of_here |]. split; [done | lia].
    + right. destruct (decide (o_version e <= o_version x)).
      * exists x. split; [apply list_elem_of_here |]. split; [done | lia].
      * exists e. split; [by apply list_elem_of_further |]. split; [done | lia].
  - done.
  - by apply IH1.
  - destruct IH2 as [| (e & He & Hr & ?)]; [by left | right]. exists e. split; [by apply list_elem_of_further | done].
Qed.

Lemma recoverable_present g v : recoverable g v -> exists e, e ∈ g /\ o_version e = v.
Proof using Hcfg.
  intros Hr. destruct (at_version v g) as [| e l] eqn:E.
  - exfalso. apply (nothing_recoverable_nil v). unfold recoverable in *. rewrite E in Hr. done.
  - assert (e ∈ at_version v g) as [? ?]%list_elem_of_filter by (rewrite E; apply list_elem_of_here). by exists e.
Qed.

Lemma target_max g t : 0 < t -> recoverable g t -> (forall v, recoverable g v -> v <= t) -> target_of g = t.
Proof using Hcfg.
  intros H0 Hr Hmax. destruct (target_of_bound g g) as [H1 H2]. fold (target_of g) in *.
  destruct (recoverable_present g t Hr) as (e & He & <-). specialize (H1 e He Hr).
  destruct H2 as [H2 | (e' & He' & Hr' & E)]; [lia |]. specialize (Hmax _ Hr'). lia.
Qed.
Lemma target_none g : (forall v, ~ recoverable g v) -> target_of g = 0.
Proof.
  intros H. destruct (target_of_bound g g) as [_ [H2 | (e & _ & Hr & _)]]; [done |]. by apply H in Hr.
Qed.

(** Entries sorted by version, newest first. *)
Definition desc (g : list obj_ver_role) : Prop := StronglySorted (fun a b => o_version b <= o_version a) g.

Lemma desc_split g t : desc g -> g = newer t g ++ at_version t g ++ older t g.
Proof.
  induction 1 as [| x g Hs IH Hx]; [done |]. rewrite Forall_forall in Hx.
  unfold newer, at_version, older in *. rewrite !filter_cons.
  destruct (decide (t < o_version x)).
  - rewrite !decide_False by lia. simpl. by rewrite <- IH.
  - assert (filter (fun e => t < o_version e) g = []) as E by (apply filter_all_false; intros y Hy; specialize (Hx y Hy); lia).
    rewrite E in IH |- *. simpl in *. destruct (decide (o_version x = t)).
    + rewrite decide_False by lia. simpl. by rewrite <- IH.
    + assert (filter (fun e => o_version e = t) g = []) as E2 by (apply filter_all_false; intros y Hy; specialize (Hx y Hy); lia).
      rewrite E2 in IH |- *. rewrite decide_True by lia. simpl in *. by rewrite <- IH.
Qed.

Lemma not_older_length g t : desc g -> length (not_older t g) = (length (newer t g) + length (at_version t g))%nat.
Proof.
  intros _. induction g as [| x g IH]; [done |]. unfold not_older, newer, at_version in *. rewrite !filter_cons.
  repeat destruct (decide _); simpl; lia.
Qed.

Lemma or_pg_state_0 pg : or_pg_state pg 0 = pg.
Proof. unfold or_pg_state. rewrite Z.lor_0_r. by destruct pg. Qed.

Lemma object_state_eq a inv c pg :
  counted a inv (counts_of c) -> object_state cfg replicated c pg = (classify a, or_pg_state pg (state_flag (classify a))).
Proof.
  intros (Hc & _ & Hr & _ & Hm & _). simpl in *. unfold object_state, classify. rewrite Hc, Hr, Hm.
  destruct (negb replicated && _); [done |]. destruct (_ <? pg_cursize cfg); [done |].
  destruct (0 <? _); [done |]. unfold state_flag. simpl. by rewrite or_pg_state_0.
Qed.

Section Finish.
Context (pre g post : list obj_ver_role) (pg : pg_t) (oid : object_id) (first : Z) (os : pg_osd_set_t) (c : check_t).
Let lst : list obj_ver_role := pre ++ g ++ post.
Hypothesis Hio : in_object pg (length pre) oid first os g c.
Hypothesis Hpos : list_pos c = (length pre + length g)%nat.
Hypothesis Hdesc : desc g.
Hypothesis Hvers : forall x, x ∈ g -> 0 < o_version x.

Lemma entries_at a b : entries lst (length pre + a) (length pre + b) = take (b - a) (drop a (g ++ post)).
Proof.
  unfold entries, lst. rewrite drop_app_add. f_equal. lia.
Qed.

Lemma entries_object : entries lst (length pre) (length pre + length g) = g.
Proof.
  pose proof (entries_at 0 (length g)) as H. rewrite Nat.add_0_r in H. rewrite H, Nat.sub_0_r, drop_0. by rewrite take_app_length.
Qed.

Lemma split_post t : g ++ post = newer t g ++ at_version t g ++ older t g ++ post.
Proof. rewrite (desc_split g t Hdesc) at 1. by rewrite <- !app_assoc. Qed.

Lemma entries_target t : entries lst (length pre + length (newer t g)) (length pre + length (not_older t g)) = at_version t g.
Proof.
  rewrite entries_at, not_older_length, (split_post t) by done. rewrite drop_app_length. replace (_ + _ - _)%nat with (length (at_version t g)) by lia. by rewrite take_app_length.
Qed.

Lemma entries_older t : entries lst (length pre + length (not_older t g)) (length pre + length g) = older t g.
Proof.
  pose proof (f_equal length (desc_split g t Hdesc)) as Hlen. rewrite !length_app in Hlen.
  rewrite entries_at, not_older_length, (split_post t) by done.
  rewrite <- drop_drop, !drop_app_length.
  replace (length g - _)%nat with (length (older t g)) by lia. by rewrite take_app_length.
Qed.

(** What [finish_object] knows about the object. *)
Lemma finish_target :
  exists t ve,
    (if (target_ver c =? 0) && ((0 <? n_stable c) || (pg_data_size cfg <=? n_roles c))
     then (last_ver c, list_pos c) else (target_ver c, ver_end c)) = (t, ve) /\ t = target_of g /\
    n_invalid c = count invalid (if t =? 0 then g else not_older t g) /\
    (t <> 0 -> ver_start c = (length pre + length (newer t g))%nat /\ ve = (length pre + length (not_older t g))%nat /\
       counted (at_version t g) (n_invalid c) (counts_of c)).
Proof using Hcfg Hio Hpos Hvers.
  assert (forall t vs ve n, chosen (length pre) g t vs ve n -> target_of g = t) as Htgt.
  { intros t vs ve n (H0 & Hr & Hmax & _). apply target_max; [| done | done].
    destruct (recoverable_present g t Hr) as (e & He & <-). by apply Hvers. }
  destruct (io_version _ _ _ _ _ _ _ Hio) as [Hch | [Hch _]].
  - pose proof Hch as (Ht & _ & _ & _ & Hno & Hn). rewrite Ht. simpl.
    pose proof (counted_recoverable g (last_ver c) _ _ Hn) as Hc. simpl in Hc. rewrite Hc.
    case_bool_decide as Hr; eexists _, _; (split; [done |]).
    + assert (last_ver c <> 0) as H0 by (destruct (recoverable_present g _ Hr) as (e & He & <-); specialize (Hvers e He); lia).
      pose proof (choosing_choose _ _ _ Hch H0 Hr) as Hc'. split; [symmetry; by eapply Htgt |].
      rewrite (proj2 (Z.eqb_neq _ _) H0). destruct Hc' as (_ & _ & _ & Hvs & Hve & Hn').
      pose proof Hn' as (_ & _ & _ & _ & _ & Hinv). simpl in Hinv. split; [done |]. intros _.
      split; [done |]. split; [rewrite Hpos; congruence |]. by rewrite Hinv.
    + split; [symmetry; apply target_none; intros v; destruct (decide (v = last_ver c)) as [-> |]; [done | by apply Hno] |].
      destruct Hn as (_ & _ & _ & _ & _ & Hinv). simpl in *. done.
  - pose proof Hch as (H0 & _ & _ & Hvs & Hve & Hn'). rewrite (proj2 (Z.eqb_neq _ _) H0). simpl.
    eexists _, _. split; [done |]. split; [symmetry; by eapply Htgt |]. rewrite (proj2 (Z.eqb_neq _ _) H0).
    pose proof Hn' as (_ & _ & _ & _ & _ & Hinv). simpl in Hinv. split; [done |]. intros _.
    split; [done |]. split; [done |]. by rewrite Hinv.
Qed.

Lemma finish_ok :
  match decide_object oid first g pg with
  | Ok pg' => exists c', finish_object cfg replicated lst c = Ok c' /\ c_pg c' = pg' /\ list_pos c' = list_pos c
  | Err e => finish_object cfg replicated lst c = Err e
  end.
Proof using Hcfg Hio Hpos Hvers Hdesc.
  unfold finish_object, decide_object. destruct finish_target as (t & ve & -> & Et & Hinv & Hch). rewrite <- Et.
  destruct Hio as [Hpg Hst Hoid Hmax Hos Huns _]. rewrite Hinv, Hpg, Hst, Hoid, Hmax, Huns, ?Hpos.
  destruct (0 <? count invalid _); [by eexists |]. rewrite entries_object.
  destruct (Z.eqb_spec t 0) as [E0 | E0]; [by eexists |].
  destruct (Hch E0) as (Hvs & -> & Hn). rewrite Hvs.
  set (pg1 := if 0 <? count _ g then _ else pg).
  rewrite (object_state_eq _ _ _ _ Hn), entries_target, entries_older. cbv zeta.
  set (st := classify (at_version t g)). set (pg2 := set_counts _ _ _).
  destruct (Nat.ltb_spec (length pre + length (not_older t g)) (length pre + length g)) as [Hlt | Hge].
  - rewrite orb_true_r. destruct (foldl (add_outdated cfg) _ _) as [[[osd_set state] pg3] | e]; cbn [rbind]; [| done].
    destruct (state =? 0); cbn [rbind]; [by eexists |].
    destruct (add_object_to_state _ _ _ _ _); cbn [rbind]; [by eexists | done].
  - assert (older t g = []) as ->.
    { pose proof (f_equal length (desc_split g t Hdesc)) as Hlen. rewrite !length_app in Hlen.
      rewrite not_older_length in Hge by done. apply nil_length_inv. lia. }
    cbn [foldl rbind]. rewrite orb_false_r. destruct (st =? 0); cbn [rbind negb]; [by eexists |].
    destruct (add_object_to_state _ _ _ _ _); cbn [rbind]; [by eexists | done].
Qed.
End Finish.

(** ** The walk over all objects *)

Definition okey (e : obj_ver_role) : object_id := (inode (o_oid e), masked (stripe (o_oid e))).
Definition gkey (g : list obj_ver_role) : object_id := okey (default no_entry (head g)).
Definition gfirst (g : list obj_ver_role) : Z := o_version (default no_entry (head g)).

(** All entries of one object, newest version first. *)
Record group_ok (g : list obj_ver_role) : Prop := {
  go_nonempty : g <> [];
  go_key : forall e, e ∈ g -> okey e = gkey g;
  go_inode : inode (gkey g) <> 0;
  go_desc : desc g;
  go_version : forall e, e ∈ g -> 0 < o_version e }.

Definition decide_group (r : res pg_t) (g : list obj_ver_role) : res pg_t :=
  let* pg := r in decide_object (gkey g) (gfirst g) g pg.

Lemma role_always_ok e : role_ok e.
Proof. unfold role_ok, role_num, role_of. apply Z.land_nonneg. right. unfold STRIPE_MASK. lia. Qed.

Lemma in_object_at_pos pg start oid first os l c i :
  in_object pg start oid first os l c -> in_object pg start oid first os l (at_pos c i).
Proof. intros []. by constructor. Qed.

Lemma desc_app_le l l' x y : desc (l ++ l') -> x ∈ l -> y ∈ l' -> o_version y <= o_version x.
Proof.
  induction l as [| z l IH]; intros Hd Hx Hy; [by apply not_elem_of_nil in Hx |].
  apply StronglySorted_inv in Hd as [Hd Hz]. rewrite Forall_forall in Hz.
  apply elem_of_cons in Hx as [-> | Hx]; [apply Hz, elem_of_app; by right | by apply IH].
Qed.

Lemma walk_step_err e l idx : foldl (walk_step cfg replicated l) (Err e) idx = Err e.
Proof. by induction idx. Qed.
Lemma decide_group_err e gs : foldl decide_group (Err e) gs = Err e.
Proof. by induction gs. Qed.

Section Walk.
Context (lst : list obj_ver_role).

(** The first entry of an object. *)
Lemma walk_start c start e :
  list_pos c = start -> entry lst start = e -> 0 < o_version e ->
  exists c', handle_version cfg replicated lst (start_object lst c) = Ok c' /\
    in_object (c_pg c) start (okey e) (o_version e) (c_osd_set c) [e] c'.
Proof using Hcfg.
  intros Hp He Hv.
  destruct (handle_ok lst (c_pg c) start (okey e) (o_version e) (c_osd_set c) [] (start_object lst c) e)
    as (c' & Hrun & _ & Hio); [| | | apply role_always_ok | | | | | by exists c']; simpl; rewrite ?Hp; try done.
  - constructor; simpl; rewrite ?Hp, ?He; try done. left. unfold choosing. simpl. rewrite ?Hp, ?He.
    split; [done |]. split; [by intros x []%not_elem_of_nil |]. split; [by left |]. split; [lia |].
    split; [intros v _; apply nothing_recoverable_nil | apply counted_nil].
  - by intros x []%not_elem_of_nil.
Qed.

(** The other entries of an object. *)
Lemma walk_rest pg start oid first os l rest c :
  in_object pg start oid first os l c -> l <> [] -> 0 < first ->
  (forall e, e ∈ rest -> okey e = oid) -> (forall e, e ∈ rest -> 0 < o_version e) -> desc (l ++ rest) ->
  (forall j, (j < length rest)%nat -> entry lst (start + length l + j) = default no_entry (rest !! j)) ->
  exists c', foldl (walk_step cfg replicated lst) (Ok c) (seq (start + length l) (length rest)) = Ok c' /\
    in_object pg start oid first os (l ++ rest) c'.
Proof using Hcfg.
  revert l c. induction rest as [| e rest IH]; intros l c Hio Hne Hf Hkey Hver Hdesc Hent.
  { exists c. rewrite app_nil_r. done. }
  pose proof (Hent 0%nat ltac:(simpl; lia)) as He. rewrite Nat.add_0_r in He. simpl in He.
  cbn [length seq foldl]. unfold walk_step at 2. cbn [rbind].
  assert (inode (c_oid (at_pos c (start + length l))) = inode (o_oid e) /\
    stripe (c_oid (at_pos c (start + length l))) = masked (stripe (o_oid e))) as [Hi Hs].
  { pose proof (io_oid _ _ _ _ _ _ _ Hio) as Ho. simpl. rewrite Ho, <- (Hkey e (list_elem_of_here _ _)). done. }
  rewrite He, Hi, Hs, !Z.eqb_refl. cbn [negb orb rbind].
  destruct (handle_ok lst pg start oid first os l (at_pos c (start + length l)) e) as (c1 & Hrun & _ & Hio1);
    [by apply in_object_at_pos | done | done | apply role_always_ok | apply Hver, list_elem_of_here | | done | done |].
  { intros x Hx. by apply (desc_app_le l (e :: rest)); [| | apply list_elem_of_here]. }
  rewrite Hrun. destruct (IH (l ++ [e]) c1) as (c' & Hrun' & Hio'); [done | by destruct l | done | | | | |].
  - intros x Hx. apply Hkey. by apply list_elem_of_further.
  - intros x Hx. apply Hver. by apply list_elem_of_further.
  - by rewrite <- app_assoc.
  - intros j Hj. rewrite length_app. simpl. specialize (Hent (S j) ltac:(simpl; lia)). simpl in Hent.
    rewrite <- Hent. f_equal. lia.
  - rewrite length_app in Hrun'. simpl in Hrun'. replace (start + (length l + 1))%nat with (S (start + length l)) in Hrun' by lia.
    exists c'. split; [done |]. by rewrite <- app_assoc in Hio'.
Qed.
End Walk.

Lemma entry_head (pre g post : list obj_ver_role) e : entry (pre ++ (e :: g) ++ post) (length pre) = e.
Proof. unfold entry. cbn [app]. by rewrite list_lookup_middle. Qed.

(** The first entry of an object closes the previous object. *)
Lemma walk_step_new lst c i :
  c_oid c <> okey (entry lst i) ->
  walk_step cfg replicated lst (Ok c) i =
  let* c := finish_if_started cfg replicated lst (at_pos c i) in handle_version cfg replicated lst (start_object lst c).
Proof.
  intros Hk. unfold walk_step. cbn [rbind].
  assert (negb (inode (c_oid (at_pos c i)) =? inode (o_oid (entry lst i))) ||
    negb (stripe (c_oid (at_pos c i)) =? masked (stripe (o_oid (entry lst i)))) = true) as ->.
  { apply orb_true_iff. rewrite !negb_true_iff, !Z.eqb_neq. simpl.
    destruct (decide (inode (c_oid c) = inode (o_oid (entry lst i)))) as [Hi | Hi]; [right | by left]. intros Hs. apply Hk.
    unfold okey. rewrite <- Hi, <- Hs. by destruct (c_oid c). }
  by destruct (finish_if_started _ _ _ _).
Qed.

(** One whole object, from a state in which the previous one is still open. *)
Lemma walk_group (pre g post : list obj_ver_role) c c0 (lst := pre ++ g ++ post) :
  group_ok g -> list_pos c0 = length pre ->
  finish_if_started cfg replicated lst (at_pos c (length pre)) = Ok c0 ->
  c_oid c <> gkey g ->
  exists c', foldl (walk_step cfg replicated lst) (Ok c) (seq (length pre) (length g)) = Ok c' /\
    in_object (c_pg c0) (length pre) (gkey g) (gfirst g) (c_osd_set c0) g c'.
Proof using Hcfg.
  intros Hg Hp Hfin Hk. destruct g as [| e g]; [by destruct (go_nonempty _ Hg) |].
  assert (entry lst (length pre) = e) as He by apply entry_head.
  destruct (walk_start lst c0 (length pre) e Hp He (go_version _ Hg e (list_elem_of_here _ _))) as (c1 & Hrun1 & Hio1).
  destruct (walk_rest lst _ _ _ _ _ [e] g c1 Hio1) as (c' & Hrun & Hio); [done | | | | | |].
  - apply (go_version _ Hg), list_elem_of_here.
  - intros x Hx. apply (go_key _ Hg). by apply list_elem_of_further.
  - intros x Hx. apply (go_version _ Hg). by apply list_elem_of_further.
  - apply (go_desc _ Hg).
  - intros j Hj. unfold entry, lst. rewrite lookup_app_r by (simpl; lia).
    replace (length pre + length [e] + j - length pre)%nat with (S j) by (simpl; lia). simpl. rewrite lookup_app_l by lia. done.
  - exists c'. split; [| done]. cbn [length seq foldl]. rewrite walk_step_new by (by rewrite He).
    rewrite Hfin. cbn [rbind]. rewrite Hrun1. simpl in Hrun. by rewrite Nat.add_1_r in Hrun.
Qed.

(** Consecutive groups belong to different objects. *)
Fixpoint keys_differ (gs : list (list obj_ver_role)) : Prop :=
  match gs with
  | g :: (g' :: _) as gs' => gkey g <> gkey g' /\ keys_differ gs'
  | _ => True
  end.

Lemma walk_groups_from gs : forall pre g c pg os (lst := pre ++ g ++ concat gs),
  group_ok g -> Forall group_ok gs -> keys_differ (g :: gs) ->
  in_object pg (length pre) (gkey g) (gfirst g) os g c ->
  (let* c := foldl (walk_step cfg replicated lst) (Ok c) (seq (length pre + length g) (length (concat gs))) in
   let* c := finish_if_started cfg replicated lst (at_pos c (length lst)) in Ok (walk_state cfg (c_pg c))) =
  let* pg := foldl decide_group (Ok pg) (g :: gs) in Ok (walk_state cfg pg).
Proof using Hcfg.
  induction gs as [| g' gs IH]; intros pre g c pg os lst Hg Hgs Hk Hio.
  - cbn [concat length seq foldl rbind decide_group]. unfold finish_if_started.
    pose proof (io_oid _ _ _ _ _ _ _ Hio) as Ho. simpl. rewrite Ho, (proj2 (Z.eqb_neq _ _) (go_inode _ Hg)).
    pose proof (finish_ok pre g [] pg _ _ os (at_pos c (length lst)) (in_object_at_pos _ _ _ _ _ _ _ _ Hio)) as H.
    specialize (H ltac:(unfold lst; simpl; rewrite !length_app; simpl; lia) (go_desc _ Hg) (go_version _ Hg)).
    unfold lst in *. cbn [concat] in *. destruct (decide_object _ _ _ _) as [pg' | e]; [| by rewrite H].
    destruct H as (c' & -> & <- & _). done.
  - apply Forall_cons in Hgs as [Hg' Hgs]. destruct Hk as [Hk Hks].
    cbn [concat]. rewrite length_app, seq_app, foldl_app.
    pose proof (io_oid _ _ _ _ _ _ _ Hio) as Ho.
    pose proof (finish_ok pre g (g' ++ concat gs) pg _ _ os (at_pos c (length pre + length g)) (in_object_at_pos _ _ _ _ _ _ _ _ Hio)) as H.
    specialize (H eq_refl (go_desc _ Hg) (go_version _ Hg)).
    cbn [foldl decide_group rbind]. unfold decide_group at 2. cbn [rbind].
    destruct (decide_object _ _ _ _) as [pg' | e].
    + destruct H as (c0 & Hfin & Hpg & Hpos).
      destruct (walk_group (pre ++ g) g' (concat gs) c c0) as (c' & Hrun & Hio'); [done | by rewrite Hpos, length_app | | congruence |].
      { rewrite <- app_assoc, length_app. unfold finish_if_started. simpl. by rewrite Ho, (proj2 (Z.eqb_neq _ _) (go_inode _ Hg)), Hfin. }
      rewrite Hpg in Hio'. specialize (IH (pre ++ g) g' c' pg' _ Hg' Hgs Hks Hio').
      rewrite <- app_assoc, length_app in Hrun, IH. unfold lst. cbn [concat]. rewrite Hrun. exact IH.
    + cbn [decide_group rbind]; rewrite decide_group_err. destruct g' as [| e' g']; [by destruct (go_nonempty _ Hg') |].
      pose proof (entry_head (pre ++ g) g' (concat gs) e') as He. rewrite <- app_assoc, length_app in He.
      cbn [length seq foldl]. unfold lst. cbn [concat]. rewrite walk_step_new by (rewrite He; rewrite Ho; exact Hk).
      unfold finish_if_started at 1. simpl c_oid. rewrite Ho, (proj2 (Z.eqb_neq _ _) (go_inode _ Hg)), H. cbn [rbind].
      by rewrite !walk_step_err.
Qed.

End Object.
