(* ===== verification/PeeringMain.v ===== *)
(** The theorems about peering: merging, sorting and walking the object lists
    of all OSDs decides every object from its own entries; what is decided for
    an object; the flush actions; the object counts; the new epoch. *)

From stdpp Require Import sorting.
From S2P Require Import Prelude.
From S2P Require Import Peering.
From S2P Require Import PeeringOk.

(** * The sort order *)

Lemma ovr_lt_spec a b :
  ovr_lt a b = true <->
  inode (o_oid a) < inode (o_oid b) \/ inode (o_oid a) = inode (o_oid b) /\
  (masked (stripe (o_oid a)) < masked (stripe (o_oid b)) \/ masked (stripe (o_oid a)) = masked (stripe (o_oid b)) /\
   (o_version b < o_version a \/ o_version a = o_version b /\
    (stripe (o_oid a) < stripe (o_oid b) \/ stripe (o_oid a) = stripe (o_oid b) /\ o_osd a < o_osd b))).
Proof.
  unfold ovr_lt, inode, stripe. destruct (o_oid a) as [ai as_], (o_oid b) as [bi bs]. simpl.
  by rewrite !orb_true_iff, !andb_true_iff, !orb_true_iff, !andb_true_iff, !orb_true_iff, !andb_true_iff, !orb_true_iff, !andb_true_iff, !Z.ltb_lt, !Z.eqb_eq.
Qed.

Lemma ovr_le_spec a b : ovr_le a b <-> ~ ovr_lt b a = true.
Proof. unfold ovr_le. by rewrite not_true_iff_false. Qed.

#[global] Instance ovr_le_total : Total ovr_le.
Proof. intros a b. rewrite !ovr_le_spec, !ovr_lt_spec. lia. Qed.
#[global] Instance ovr_le_trans : Transitive ovr_le.
Proof. intros a b c. rewrite !ovr_le_spec, !ovr_lt_spec. lia. Qed.

Definition key_lt (a b : Z * Z) : Prop := a.1 < b.1 \/ a.1 = b.1 /\ a.2 < b.2.

Lemma ovr_le_key a b : ovr_le a b -> okey a = okey b \/ key_lt (okey a) (okey b).
Proof.
  rewrite ovr_le_spec, ovr_lt_spec. unfold key_lt, okey. simpl. intros H.
  destruct (decide (inode (o_oid a) = inode (o_oid b))) as [Hi |]; [| right; lia].
  destruct (decide (masked (stripe (o_oid a)) = masked (stripe (o_oid b)))) as [Hs |]; [| right; lia].
  left. by rewrite Hi, Hs.
Qed.
Lemma ovr_le_version a b : ovr_le a b -> okey a = okey b -> o_version b <= o_version a.
Proof. rewrite ovr_le_spec, ovr_lt_spec. unfold okey. intros H [= Hi Hs]. lia. Qed.

Lemma key_lt_trans a b c : key_lt a b -> key_lt b c -> key_lt a c.
Proof. unfold key_lt. lia. Qed.
Lemma key_lt_irrefl a : ~ key_lt a a.
Proof. unfold key_lt. lia. Qed.

(** * The objects of a list *)

Fixpoint objects (l : list obj_ver_role) : list (list obj_ver_role) :=
  match l with
  | [] => []
  | e :: l =>
    match objects l with
    | [] => [[e]]
    | g :: gs => if decide (okey e = gkey g) then (e :: g) :: gs else [e] :: g :: gs
    end
  end.

Lemma objects_concat l : concat (objects l) = l.
Proof.
  induction l as [| e l IH]; [done |]. simpl. destruct (objects l) as [| g gs] eqn:E; simpl in *; [by rewrite <- IH |].
  destruct (decide _); simpl; by rewrite <- IH.
Qed.

Lemma objects_members l g e : g ∈ objects l -> e ∈ g -> e ∈ l.
Proof. intros Hg He. rewrite <- (objects_concat l). apply list_elem_of_In, in_concat. exists g. by rewrite <- !list_elem_of_In. Qed.

Lemma objects_nonempty l : Forall (fun g => g <> []) (objects l).
Proof.
  induction l as [| e l IH]; simpl; [done |]. destruct (objects l) as [| g gs]; [by repeat constructor |].
  apply Forall_cons in IH as [? ?]. destruct (decide _); by repeat constructor.
Qed.

Lemma objects_key l : Forall (fun g => forall e, e ∈ g -> okey e = gkey g) (objects l).
Proof.
  assert (forall e : obj_ver_role, forall x, x ∈ [e] -> okey x = gkey [e]) as Hone.
  { intros e x Hx. by apply list_elem_of_singleton in Hx as ->. }
  induction l as [| e l IH]; simpl; [done |]. destruct (objects l) as [| g gs]; [constructor; [apply Hone | done] |].
  apply Forall_cons in IH as [Hg ?]. destruct (decide _) as [He |]; [| constructor; [apply Hone | by constructor]]. constructor; [| done].
  intros x [-> | Hx]%elem_of_cons; [done |]. rewrite Hg by done. by rewrite <- He.
Qed.

Definition sorted (l : list obj_ver_role) : Prop := StronglySorted ovr_le l.

Lemma gkey_member l g : g ∈ objects l -> exists e, e ∈ g /\ okey e = gkey g.
Proof.
  intros Hg. pose proof (proj1 (Forall_forall _ _) (objects_nonempty l) g Hg) as Hne.
  destruct g as [| e g]; [done |]. exists e. split; [apply list_elem_of_here | done].
Qed.

Lemma objects_sorted l : sorted l -> StronglySorted key_lt (map gkey (objects l)) /\ Forall desc (objects l).
Proof.
  induction l as [| e l IH]; intros Hl; simpl; [by split; constructor |].
  apply StronglySorted_inv in Hl as [Hl He]. destruct (IH Hl) as [Hk Hd]. rewrite Forall_forall in He.
  pose proof (objects_members l) as Hmem. pose proof (gkey_member l) as Hkm. pose proof (objects_key l) as Hkey.
  destruct (objects l) as [| g gs]; [by repeat constructor |].
  simpl in Hk. apply StronglySorted_inv in Hk as [Hk Hg]. apply Forall_cons in Hd as [Hdg Hds].
  apply Forall_cons in Hkey as [Hkey _]. destruct (decide (okey e = gkey g)) as [E | E].
  - split; simpl; [constructor; [done | by rewrite <- E in Hg] |].
    constructor; [| done]. constructor; [done |]. apply Forall_forall. intros x Hx.
    apply ovr_le_version; [apply He, (Hmem g); [apply list_elem_of_here | done] | by rewrite E, Hkey].
  - assert (key_lt (okey e) (gkey g)) as Hlt.
    { destruct (Hkm g (list_elem_of_here _ _)) as (x & Hx & <-).
      destruct (ovr_le_key e x) as [? |]; [apply He, (Hmem g); [apply list_elem_of_here | done] | | done].
      destruct E. by rewrite <- (Hkey x Hx). }
    split; simpl; [| constructor; [repeat constructor | by constructor]].
    constructor; [by constructor |]. constructor; [done |].
    apply Forall_forall. intros k Hin. rewrite Forall_forall in Hg. eapply key_lt_trans; [done | by apply Hg].
Qed.

Lemma increasing_nodup ks : StronglySorted key_lt ks -> NoDup ks.
Proof.
  induction ks as [| k ks IH]; intros H; [constructor |]. apply StronglySorted_inv in H as [H Hk]. constructor; [| by apply IH].
  intros Hin. rewrite Forall_forall in Hk. by apply (key_lt_irrefl k), Hk.
Qed.

Lemma nodup_keys_differ gs : NoDup (map gkey gs) -> keys_differ gs.
Proof.
  induction gs as [| g [| g' gs] IH]; intros H; simpl; try done. apply NoDup_cons in H as [Hg H]. split; [| by apply IH].
  intros E. apply Hg. simpl. rewrite E. apply list_elem_of_here.
Qed.

(** * Merging, sorting and walking *)

Definition listed_ok (results : list (Z * pg_list_result_t)) : Prop :=
  forall e, e ∈ merge_lists results -> inode (o_oid e) <> 0 /\ 0 < o_version e.

Lemma objects_ok l :
  sorted l -> (forall e, e ∈ l -> inode (o_oid e) <> 0 /\ 0 < o_version e) -> Forall group_ok (objects l).
Proof.
  intros Hs Hl. destruct (objects_sorted l Hs) as [_ Hd]. rewrite Forall_forall in *.
  pose proof (proj1 (Forall_forall _ _) (objects_nonempty l)) as Hne. pose proof (proj1 (Forall_forall _ _) (objects_key l)) as Hk.
  intros g Hg. constructor; [by apply Hne | by apply Hk | | by apply Hd |].
  - destruct (gkey_member l g Hg) as (e & He & <-). by apply Hl, (objects_members l g).
  - intros e He. by apply Hl, (objects_members l g).
Qed.

(** The walk is the composition of the decisions for its objects. *)
Lemma walk_objects cfg replicated gs pg :
  config_ok cfg -> Forall group_ok gs -> keys_differ gs ->
  walk cfg replicated (concat gs) pg =
  let* pg := foldl (decide_group cfg replicated) (Ok (set_counts (set_pg_state pg 0) 0 0)) gs in Ok (walk_state cfg pg).
Proof.
  intros Hcfg Hgs Hk. unfold walk. destruct gs as [| g gs]; [done |]. pose proof Hgs as [Hg Hgs']%Forall_cons.
  set (pg0 := set_counts _ _ _). cbn [concat]. rewrite length_app, seq_app, foldl_app.
  destruct (walk_group cfg replicated Hcfg [] g (concat gs) (check0 pg0) (at_pos (check0 pg0) 0)) as (c & Hrun & Hio); [done | done | done | |].
  - intros E. apply (go_inode _ Hg). by rewrite <- E.
  - cbn [app] in Hrun. change (length (@nil obj_ver_role)) with 0%nat in Hrun. rewrite Hrun.
    pose proof (walk_groups_from cfg replicated Hcfg gs [] g c _ _ Hg Hgs' Hk Hio) as H. cbn [app] in H.
    rewrite length_app in H. exact H.
Qed.

Lemma calc_objects cfg results pg (replicated := scheme cfg =? POOL_SCHEME_REPLICATED) :
  config_ok cfg -> listed_ok results ->
  exists gs,
    concat gs ≡ₚ merge_lists results /\ NoDup (map gkey gs) /\ Forall group_ok gs /\
    calc_object_states cfg results pg =
      let* pg := foldl (decide_group cfg replicated) (Ok (set_counts (set_pg_state pg 0) 0 0)) gs in
      let pg := walk_state cfg pg in
      if pg_state pg =? PG_ACTIVE then Ok (pg, max_epoch results)
      else assert! negb (max_epoch results =? 2 ^ PG_EPOCH_BITS - 1) in Ok (pg, max_epoch results + 1).
Proof.
  intros Hcfg Hl. pose proof (merge_sort_Permutation ovr_le (merge_lists results)) as Hp.
  pose proof (StronglySorted_merge_sort ovr_le (merge_lists results)) as Hs.
  assert (Forall group_ok (objects (merge_sort ovr_le (merge_lists results)))) as Hgs.
  { apply objects_ok; [done |]. intros e He. apply Hl. by rewrite <- Hp. }
  pose proof (increasing_nodup _ (proj1 (objects_sorted _ Hs))) as Hnd.
  exists (objects (merge_sort ovr_le (merge_lists results))). rewrite objects_concat. do 3 (split; [done |]).
  unfold calc_object_states. rewrite <- (objects_concat (merge_sort _ _)) at 1.
  rewrite walk_objects by (done || by apply nodup_keys_differ). by destruct (foldl _ _ _).
Qed.

(** C2: peering decides every object from the entries of that object alone.
    The merged lists of all OSDs split into groups, one per object and each
    holding all entries of its object with the newest version first, and the
    result of [calc_object_states] is the composition of [decide_object] over
    the groups, followed by the state bits of the whole group and the choice of
    the epoch. *)
Theorem peering_ok cfg results pg (replicated := scheme cfg =? POOL_SCHEME_REPLICATED) :
  config_ok cfg -> listed_ok results ->
  exists gs,
    concat gs ≡ₚ merge_lists results /\ NoDup (map gkey gs) /\ Forall group_ok gs /\
    calc_object_states cfg results pg =
      let* pg := foldl (decide_group cfg replicated) (Ok (set_counts (set_pg_state pg 0) 0 0)) gs in
      let pg := walk_state cfg pg in
      if pg_state pg =? PG_ACTIVE then Ok (pg, max_epoch results)
      else assert! negb (max_epoch results =? 2 ^ PG_EPOCH_BITS - 1) in Ok (pg, max_epoch results + 1).
Proof. apply calc_objects. Qed.

(** The list of a single object. *)
Lemma walk_one cfg replicated g pg :
  config_ok cfg -> group_ok g ->
  walk cfg replicated g pg =
  let* pg := decide_object cfg replicated (gkey g) (gfirst g) g (set_counts (set_pg_state pg 0) 0 0) in Ok (walk_state cfg pg).
Proof.
  intros Hcfg Hg. pose proof (walk_objects cfg replicated [g] pg Hcfg) as H. cbn [concat] in H. rewrite app_nil_r in H.
  rewrite H; [done | by apply Forall_singleton | done].
Qed.

(** * Flush actions *)

Definition piece_of (e : obj_ver_role) : (Z * Z) * Z := (o_oid e, o_osd e).
Definition of_piece (k : (Z * Z) * Z) (g : list obj_ver_role) : list obj_ver_role := filter (fun e => piece_of e = k) g.
Definition newest (l : list obj_ver_role) : Z := from_option o_version 0 (head l).

Lemma newest_app l l' : newest (l ++ l') = if decide (l = []) then newest l' else newest l.
Proof. by destruct l. Qed.
Lemma newest_zero l : (forall e, e ∈ l -> 0 < o_version e) -> newest l = 0 <-> l = [].
Proof.
  destruct l as [| e l]; [done |]. intros H. specialize (H e (list_elem_of_here _ _)). simpl. unfold newest. simpl. split; [lia | done].
Qed.

Lemma newest_snoc (P : obj_ver_role -> Prop) `{forall x, Decision (P x)} l e :
  (forall x, x ∈ l -> 0 < o_version x) ->
  newest (filter P (l ++ [e])) =
  if decide (P e) then if newest (filter P l) =? 0 then o_version e else newest (filter P l) else newest (filter P l).
Proof.
  intros Hl. rewrite filter_app, filter_cons, newest_app. 
  assert (newest (filter P l) = 0 <-> filter P l = []) as Hz.
  { apply newest_zero. intros x [_ Hx]%list_elem_of_filter. by apply Hl. }
  destruct (decide (P e)) as [He | He]; (destruct (decide (filter P l = [])) as [E | E]; [rewrite E |]); simpl; try done.
  rewrite (proj2 (Z.eqb_neq _ _)) by tauto. done.
Qed.

Definition versions_of (t : Z) (l : list obj_ver_role) : obj_piece_ver_t :=
  mk_piece (newest l) (newest (filter (fun e => o_stable e = true) l)) (newest (filter (fun e => o_version e <= t) l)).

(** What is collected for each piece of the object. *)
Lemma pieces_ok t g k :
  (forall e, e ∈ g -> 0 < o_version e) ->
  foldl (add_piece t) ∅ g !! k = if decide (of_piece k g = []) then None else Some (versions_of t (of_piece k g)).
Proof.
  induction g as [| e g IH] using rev_ind; intros Hg; [done |].
  rewrite foldl_app. cbn [foldl]. specialize (IH ltac:(intros x Hx; apply Hg, elem_of_app; by left)).
  assert (of_piece k (g ++ [e]) = if decide (piece_of e = k) then of_piece k g ++ [e] else of_piece k g) as ->.
  { unfold of_piece. rewrite filter_app. destruct (decide (piece_of e = k)); [by rewrite filter_cons_True |].
    rewrite filter_cons_False by done. apply app_nil_r. }
  unfold add_piece at 1. cbv zeta. fold (piece_of e). destruct (decide (piece_of e = k)) as [<- | Hk]; [| by rewrite lookup_insert_ne].
  rewrite lookup_insert_eq, IH. rewrite (decide_False (P := of_piece _ _ ++ [e] = [])) by (by intros [_ ?]%app_eq_nil).
  assert (forall x, x ∈ of_piece (piece_of e) g -> 0 < o_version x) as Hpos.
  { intros x [_ Hx]%list_elem_of_filter. apply Hg, elem_of_app. by left. }
  revert Hpos. generalize (of_piece (piece_of e) g). intros l Hl. f_equal. unfold versions_of. rewrite !newest_snoc, newest_app by done.
  destruct (decide (l = [])) as [-> | Hne]; simpl.
  - rewrite andb_true_r. f_equal.
    + destruct (o_stable e); [by rewrite decide_True | by rewrite decide_False].
    + rewrite andb_true_r. destruct (Z.leb_spec (o_version e) t); [by rewrite decide_True | by rewrite decide_False by lia].
  - rewrite (proj2 (Z.eqb_neq (newest l) 0)) by (by rewrite newest_zero). f_equal.
    + destruct (o_stable e); done.
    + destruct (Z.leb_spec (o_version e) t); simpl; [rewrite decide_True by done | rewrite decide_False by lia]; done.
Qed.

(** * The decision for one object *)

(** An outdated copy that is on no OSD of the kept version and not in its place. *)
Definition stray (cfg : pg_config) (osd_set : list (Z * Z * Z)) (e : obj_ver_role) : bool :=
  negb (existsb (fun o => o.1.2 =? o_osd e) osd_set) &&
  negb (bool_decide (cur_set cfg !! Z.to_nat (role_num e) = Some (o_osd e))).

Definition kept (g : list obj_ver_role) (t : Z) : list (Z * Z * Z) := map (fun e => loc_of e 0) (at_version t g).

Definition final_state (cfg : pg_config) (replicated : bool) (g : list obj_ver_role) (t : Z) : Z :=
  let s := classify cfg replicated (at_version t g) in
  if existsb (stray cfg (kept g t)) (older t g) && (Z.land s (Z.lor OBJ_INCOMPLETE OBJ_DEGRADED) =? 0) then OBJ_MISPLACED else s.

Lemma or_pg_state_twice pg s : or_pg_state (or_pg_state pg s) s = or_pg_state pg s.
Proof. unfold or_pg_state, set_pg_state. simpl. by rewrite <- Z.lor_assoc, Z.lor_diag. Qed.

Lemma outdated_shape cfg l : forall osd_set st pg osd_set' st' pg'
    (b := existsb (stray cfg osd_set) l && (Z.land st (Z.lor OBJ_INCOMPLETE OBJ_DEGRADED) =? 0)),
  foldl (add_outdated cfg) (Ok (osd_set, st, pg)) l = Ok (osd_set', st', pg') ->
  st' = (if b then Z.lor st OBJ_MISPLACED else st) /\ pg' = (if b then or_pg_state pg PG_HAS_MISPLACED else pg).
Proof.
  assert (forall e l, foldl (add_outdated cfg) (Err e) l = Err e) as Herr by (intros e l'; by induction l').
  induction l as [| e l IH]; intros osd_set st pg osd_set' st' pg' b H; cbn [foldl] in H.
  { unfold b. simpl. by injection H. }
  subst b. cbn [existsb]. unfold add_outdated at 2 in H. cbn [rbind] in H. unfold stray at 1 3.
  destruct (existsb _ osd_set) eqn:Es; [by apply IH in H |].
  destruct (aget _ _) as [cur | er] eqn:Ec; cbn [rbind] in H; [| by rewrite Herr in H].
  apply aget_ok in Ec as [_ Ec]. fold (role_num e) in Ec. rewrite Ec.
  destruct (Z.eqb_spec cur (o_osd e)) as [-> | Hne]; [rewrite bool_decide_eq_true_2 by done; by apply IH in H |].
  rewrite bool_decide_eq_false_2 by congruence. cbn [negb andb orb].
  destruct (Z.land st _ =? 0) eqn:E; cbn [rbind] in H; apply IH in H as [-> ->].
  - rewrite Z.land_lor_distr_l, (proj1 (Z.eqb_eq _ _) E). simpl. rewrite andb_true_r.
    destruct (existsb _ l); [| done]. by rewrite or_pg_state_twice, <- Z.lor_assoc, Z.lor_diag.
  - by rewrite E, !andb_false_r.
Qed.

Record decided (oid : Z * Z) (first t st : Z) (pg pg' : pg_t) : Prop := {
  de_state : pg_state pg' = Z.lor (pg_state pg) (state_flag st);
  de_total : total_count pg' = total_count pg + 1;
  de_clean : clean_count pg' = clean_count pg + (if st =? 0 then 1 else 0);
  de_inconsistent : inconsistent_objects pg' = inconsistent_objects pg;
  de_incomplete : exists s, incomplete_objects pg' = if st =? OBJ_INCOMPLETE then <[oid := s]> (incomplete_objects pg) else incomplete_objects pg;
  de_degraded : exists s, degraded_objects pg' = if st =? OBJ_DEGRADED then <[oid := s]> (degraded_objects pg) else degraded_objects pg;
  de_misplaced : exists s, misplaced_objects pg' = if st =? OBJ_MISPLACED then <[oid := s]> (misplaced_objects pg) else misplaced_objects pg;
  de_flush : flush_actions pg' = flush_actions pg;
  de_override : ver_override pg' = if t <? first then <[oid := t]> (ver_override pg) else ver_override pg }.

Lemma classify_cases cfg replicated a (s := classify cfg replicated a) : s = 0 \/ s = OBJ_INCOMPLETE \/ s = OBJ_DEGRADED \/ s = OBJ_MISPLACED.
Proof. unfold s, classify. repeat case_match; tauto. Qed.

(** The part of the decision that schedules the flush. *)
Definition flush_part (g : list obj_ver_role) (t : Z) (pg : pg_t) : pg_t :=
  if 0 <? count (fun e => negb (o_stable e)) g
  then set_flush (or_pg_state pg PG_HAS_UNCLEAN) (add_actions t (foldl (add_piece t) ∅ g) (flush_actions pg)) else pg.

(** The object with its final state is recorded in the map of that state. *)
Lemma settle_shape cfg oid first t st osd_set pgf pg pg' :
  st = 0 \/ st = OBJ_INCOMPLETE \/ st = OBJ_DEGRADED \/ st = OBJ_MISPLACED ->
  pg = set_counts (or_pg_state pgf (state_flag st)) (clean_count pgf) (total_count pgf + 1) ->
  (let pg := if t <? first then set_override pg oid t else pg in
   if st =? 0 then Ok (set_counts pg (clean_count pg + 1) (total_count pg))
   else add_object_to_state cfg pg oid st osd_set) = Ok pg' ->
  decided oid first t st pgf pg'.
Proof.
  intros Hst -> H. unfold add_object_to_state in H.
  destruct Hst as [-> | [-> | [-> | ->]]]; cbn -[Z.lor] in H;
    [| destruct (match state_dict _ !! _ with Some _ => _ | None => _ end); [| done]..]; injection H as <-;
    destruct (t <? first) eqn:Et; constructor; simpl; rewrite ?Et, ?Z.add_0_r; done || by exists osd_set.
Qed.

Lemma decide_shape cfg replicated oid first g pg pg' (t := target_of cfg replicated g) :
  decide_object cfg replicated oid first g pg = Ok pg' ->
  count (invalid cfg replicated) (if t =? 0 then g else not_older t g) <= 0 ->
  if t =? 0 then pg' = flush_part g t pg
  else decided oid first t (final_state cfg replicated g t) (flush_part g t pg) pg'.
Proof.
  unfold decide_object. fold t. intros H Hinv. rewrite (proj2 (Z.ltb_ge _ _) Hinv) in H. cbv zeta in H.
  fold (flush_part g t pg) in H. revert H. generalize (flush_part g t pg). intros pgf H.
  destruct (t =? 0); [by injection H |].
  destruct (foldl _ _ _) as [[[set st] pg2] |] eqn:E; cbn [rbind] in H; [| done].
  apply outdated_shape in E as [-> ->]. fold (kept g t) in H. unfold final_state.
  revert H. generalize (existsb (stray cfg (kept g t)) (older t g)). intros b H.
  destruct (classify_cases cfg replicated (at_version t g)) as [E | [E | [E | E]]]; rewrite E in H |- *; destruct b;
    (eapply (settle_shape cfg _ _ _ _ set); [| | exact H]); clear H; cbn; auto;
    unfold or_pg_state, set_pg_state, set_counts; simpl; by rewrite ?Z.lor_0_r, <- ?Z.lor_assoc.
Qed.

Definition all_valid (cfg : pg_config) (replicated : bool) (g : list obj_ver_role) : Prop :=
  forall e, e ∈ g -> valid cfg replicated e = true.

Lemma all_valid_count cfg replicated g l :
  all_valid cfg replicated g -> (forall e, e ∈ l -> e ∈ g) -> count (invalid cfg replicated) l <= 0.
Proof.
  intros Hv Hl. unfold count. rewrite (filter_all_false _ l); [done |]. intros e He. unfold invalid. by rewrite Hv by auto.
Qed.

Lemma all_valid_target cfg replicated g t :
  all_valid cfg replicated g -> count (invalid cfg replicated) (if t =? 0 then g else not_older t g) <= 0.
Proof. intros Hv. apply (all_valid_count _ _ g _ Hv). intros e. destruct (t =? 0); [done |]. by intros [_ ?]%list_elem_of_filter. Qed.

Lemma walk_state_maps cfg pg (pg' := walk_state cfg pg) :
  clean_count pg' = clean_count pg /\ total_count pg' = total_count pg /\ inconsistent_objects pg' = inconsistent_objects pg /\
  incomplete_objects pg' = incomplete_objects pg /\ degraded_objects pg' = degraded_objects pg /\
  misplaced_objects pg' = misplaced_objects pg /\ flush_actions pg' = flush_actions pg /\ ver_override pg' = ver_override pg.
Proof. unfold pg', walk_state. repeat case_match; done. Qed.

Lemma flush_part_maps g t pg (pg' := flush_part g t pg) :
  clean_count pg' = clean_count pg /\ total_count pg' = total_count pg /\ inconsistent_objects pg' = inconsistent_objects pg /\
  incomplete_objects pg' = incomplete_objects pg /\ degraded_objects pg' = degraded_objects pg /\
  misplaced_objects pg' = misplaced_objects pg /\ ver_override pg' = ver_override pg.
Proof. unfold pg', flush_part. by destruct (0 <? _). Qed.

Definition newest_recoverable (cfg : pg_config) (replicated : bool) (g : list obj_ver_role) (t : Z) : Prop :=
  recoverable cfg replicated g t /\ forall v, recoverable cfg replicated g v -> v <= t.

Lemma newest_recoverable_target cfg replicated g t :
  config_ok cfg -> group_ok g -> newest_recoverable cfg replicated g t -> target_of cfg replicated g = t /\ 0 < t.
Proof.
  intros Hcfg Hg [Hr Hmax]. destruct (recoverable_present _ _ Hcfg g t Hr) as (e & He & <-).
  pose proof (go_version _ Hg e He). split; [by apply target_max | done].
Qed.

(** C22: the object is judged by its newest recoverable version, that is the
    newest version with a stable copy or with enough different chunks: that
    version is recorded as an override when newer ones are to be dropped, and
    the object is counted as clean or put into exactly the map that the number
    and the places of the copies of that version call for. *)
Theorem peering_object cfg replicated g pg pg' t (key := gkey g) (st := final_state cfg replicated g t) :
  config_ok cfg -> group_ok g -> all_valid cfg replicated g -> newest_recoverable cfg replicated g t ->
  incomplete_objects pg !! key = None -> degraded_objects pg !! key = None -> misplaced_objects pg !! key = None ->
  walk cfg replicated g pg = Ok pg' ->
  total_count pg' = 1 /\ clean_count pg' = (if st =? 0 then 1 else 0) /\
  ver_override pg' = (if t <? gfirst g then <[key := t]> (ver_override pg) else ver_override pg) /\
  (is_Some (incomplete_objects pg' !! key) <-> st = OBJ_INCOMPLETE) /\
  (is_Some (degraded_objects pg' !! key) <-> st = OBJ_DEGRADED) /\
  (is_Some (misplaced_objects pg' !! key) <-> st = OBJ_MISPLACED).
Proof.
  intros Hcfg Hg Hv Hr H1 H2 H3 H. destruct (newest_recoverable_target _ _ _ _ Hcfg Hg Hr) as [Et H0].
  rewrite walk_one in H by done. destruct (decide_object _ _ _ _ _ _) as [pg1 |] eqn:E; [| done]. injection H as <-.
  apply decide_shape in E; [| by apply all_valid_target]. rewrite Et, (proj2 (Z.eqb_neq t 0)) in E by lia.
  destruct (walk_state_maps cfg pg1) as (-> & -> & _ & -> & -> & -> & _ & ->).
  destruct E as [_ Htot Hcl _ [s1 Hi] [s2 Hd] [s3 Hm] _ Ho]. fold key st in Hi, Hd, Hm, Hcl, Ho.
  destruct (flush_part_maps g t (set_counts (set_pg_state pg 0) 0 0)) as (Ec & Eto & _ & Ei & Ed & Em & Eo).
  rewrite Ec in Hcl. rewrite Eto in Htot. rewrite Ei in Hi. rewrite Ed in Hd. rewrite Em in Hm. rewrite Eo in Ho.
  simpl in *. rewrite Htot, Hcl, Ho, Hi, Hd, Hm.
  assert (forall (b : Z) s (m : gmap (Z * Z) (list (Z * Z * Z))), m !! key = None ->
    is_Some ((if st =? b then <[key := s]> m else m) !! key) <-> st = b) as Hmap.
  { intros b s m Hn. destruct (Z.eqb_spec st b); [rewrite lookup_insert_eq | rewrite Hn]; split; done. }
  rewrite !Hmap by done. done.
Qed.

(** ** Flush actions of an object *)

Lemma newest_max l e : desc l -> e ∈ l -> o_version e <= newest l.
Proof.
  intros Hd He. destruct l as [| x l]; [by apply not_elem_of_nil in He |]. unfold newest. simpl.
  apply StronglySorted_inv in Hd as [_ Hx]. rewrite Forall_forall in Hx. apply elem_of_cons in He as [-> | He]; [done | by apply Hx].
Qed.
Lemma newest_in l : l <> [] -> exists e, e ∈ l /\ o_version e = newest l.
Proof. destruct l as [| e l]; [done |]. exists e. split; [apply list_elem_of_here | done]. Qed.
Lemma desc_filter (P : obj_ver_role -> Prop) `{forall x, Decision (P x)} l : desc l -> desc (filter P l).
Proof.
  induction l as [| x l IH]; intros Hd; [done |]. apply StronglySorted_inv in Hd as [Hd Hx]. rewrite filter_cons.
  destruct (decide (P x)); [| by apply IH]. constructor; [by apply IH |].
  rewrite Forall_forall in *. intros y [_ Hy]%list_elem_of_filter. by apply Hx.
Qed.

Lemma count_zero g e : count (fun e => negb (o_stable e)) g <= 0 -> e ∈ g -> o_stable e = true.
Proof.
  unfold count. intros Hc He. destruct (o_stable e) eqn:Es; [done |].
  assert (e ∈ filter (fun e => negb (o_stable e) = true) g) as Hin by (apply list_elem_of_filter; by rewrite Es).
  destruct (filter _ g); [by apply not_elem_of_nil in Hin | simpl in Hc; lia].
Qed.

(** A valid stable copy makes its version recoverable. *)
Lemma stable_recoverable cfg replicated g e :
  e ∈ g -> valid cfg replicated e = true -> o_stable e = true -> recoverable cfg replicated g (o_version e).
Proof.
  intros He Hv Hs. left. unfold count.
  assert (e ∈ filter (fun e => valid cfg replicated e && o_stable e = true) (at_version (o_version e) g)) as Hin.
  { apply list_elem_of_filter. rewrite Hv, Hs. split; [done |]. by apply list_elem_of_filter. }
  destruct (filter _ _); [by apply not_elem_of_nil in Hin | simpl; lia].
Qed.

(** What becomes of a copy: dropped by a rollback, or covered by a stable
    version of the same piece, listed or to be made stable. *)
Definition dropped (a : flush_action_t) (e : obj_ver_role) : Prop := rollback a = true /\ rollback_to a < o_version e.
Definition settled (a : flush_action_t) (g : list obj_ver_role) (e : obj_ver_role) : Prop :=
  (make_stable a = true /\ o_version e <= stable_to a) \/
  exists s, s ∈ g /\ piece_of s = piece_of e /\ o_stable s = true /\ o_version e <= o_version s.

Lemma action_of_piece t g k :
  (forall e, e ∈ g -> 0 < o_version e) -> of_piece k g <> [] ->
  let p := versions_of t (of_piece k g) in
  default no_action (add_actions t (foldl (add_piece t) ∅ g) ∅ !! k) =
  if p_stable_ver p <? p_max_ver p then piece_action t no_action p else no_action.
Proof.
  intros Hg Hk p. unfold add_actions. rewrite lookup_merge, pieces_ok, decide_False by done. unfold diag_None. simpl.
  rewrite lookup_empty. fold p. by destruct (_ <? _).
Qed.

Section Flush.
Context (cfg : pg_config) (replicated : bool) (g : list obj_ver_role) (t : Z) (e : obj_ver_role).
Hypothesis Hg : group_ok g.
Hypothesis Ht0 : 0 <= t.
Hypothesis Hstable : forall s, s ∈ g -> o_stable s = true -> o_version s <= t.
Hypothesis He : e ∈ g.
Let l : list obj_ver_role := of_piece (piece_of e) g.
Let p : obj_piece_ver_t := versions_of t l.

Lemma piece_in s : s ∈ l <-> s ∈ g /\ piece_of s = piece_of e.
Proof. unfold l, of_piece. rewrite list_elem_of_filter. tauto. Qed.

Lemma piece_max_ver : o_version e <= p_max_ver p.
Proof. apply newest_max; [apply desc_filter, go_desc, Hg | by apply piece_in]. Qed.
Lemma piece_stable_ver : p_stable_ver p = 0 \/ exists s, s ∈ g /\ piece_of s = piece_of e /\ o_stable s = true /\ o_version s = p_stable_ver p.
Proof.
  unfold p. simpl. destruct (decide (filter (fun e => o_stable e = true) l = [])) as [-> | Hne]; [by left | right].
  destruct (newest_in _ Hne) as (s & [Hs [Hsg Hk]%piece_in]%list_elem_of_filter & <-). by exists s.
Qed.
Lemma settled_by_listed a : o_version e <= p_stable_ver p -> settled a g e.
Proof.
  intros Hle. pose proof (go_version _ Hg e He). destruct piece_stable_ver as [E | (s & Hs & Hk & Hst & E)]; [lia |].
  right. exists s. rewrite E. done.
Qed.
Lemma piece_target : p_max_target p <= Z.max 0 t /\ (o_version e <= t -> o_version e <= p_max_target p).
Proof.
  unfold p. simpl. split.
  - destruct (decide (filter (fun e => o_version e <= t) l = [])) as [-> | Hne]; [unfold newest; simpl; lia |].
    destruct (newest_in _ Hne) as (s & [Hs _]%list_elem_of_filter & <-). lia.
  - intros Ht. apply newest_max; [do 2 apply desc_filter; apply go_desc, Hg |]. apply list_elem_of_filter. by rewrite piece_in.
Qed.

Lemma flush_one (a := if p_stable_ver p <? p_max_ver p then piece_action t no_action p else no_action) :
  (dropped a e -> o_stable e = false /\ t < o_version e) /\
  (~ dropped a e -> o_version e <= t /\ settled a g e) /\ (make_stable a = true -> stable_to a <= t).
Proof.
  pose proof piece_max_ver as HM. destruct piece_target as [HT1 HT2]. pose proof settled_by_listed as Hls.
  assert (p_stable_ver p <= t) as HS.
  { destruct piece_stable_ver as [-> | (s & Hs & _ & Hst & <-)]; [done | by apply Hstable]. }
  unfold a. clear a. destruct (Z.ltb_spec (p_stable_ver p) (p_max_ver p)) as [Hlt | Hge].
  - unfold piece_action, dropped. cbn [rollback rollback_to make_stable stable_to no_action]. rewrite !orb_false_r.
    destruct (Z.ltb_spec t (p_max_ver p)) as [Ha | Ha].
    + split; [intros [_ Hd]; split; [destruct (o_stable e) eqn:Es; [specialize (Hstable e He Es); lia | done] | lia] |].
      split; [| destruct (Z.ltb_spec (p_stable_ver p) (p_max_target p)); lia || done].
      intros Hd. assert (o_version e <= p_max_target p) as Hv by (apply Z.nlt_ge; tauto). split; [lia |].
      destruct (Z.ltb_spec (p_stable_ver p) (p_max_target p)); [left; done | apply Hls; lia].
    + rewrite (proj2 (Z.ltb_lt _ _) Hlt). split; [by intros [? ?] |]. split; [| done]. intros _. split; [lia | by left].
  - unfold dropped. simpl. split; [by intros [? ?] |]. split; [| done]. intros _. split; [lia | apply Hls; lia].
Qed.
End Flush.

(** the flush actions leave no disagreement behind.  Carrying them out
    drops only unstable copies newer than the version kept, every copy that
    stays is of that version or older and is stable or made stable, itself or
    through a later version of the same piece, and nothing newer than the
    version kept is made stable. *)
Theorem peering_flush cfg replicated g pg pg' e (t := target_of cfg replicated g)
    (a := default no_action (flush_actions pg' !! piece_of e)) :
  config_ok cfg -> group_ok g -> all_valid cfg replicated g -> flush_actions pg = ∅ ->
  walk cfg replicated g pg = Ok pg' -> e ∈ g ->
  (dropped a e -> o_stable e = false /\ t < o_version e) /\
  (~ dropped a e -> o_version e <= t /\ settled a g e) /\ (make_stable a = true -> stable_to a <= t).
Proof.
  intros Hcfg Hg Hv Hf H He. rewrite walk_one in H by done. destruct (decide_object _ _ _ _ _ _) as [pg1 |] eqn:E; [| done].
  injection H as <-. subst a. destruct (walk_state_maps cfg pg1) as (_ & _ & _ & _ & _ & _ & -> & _).
  apply decide_shape in E; [| by apply all_valid_target]. fold t in E.
  assert (flush_actions pg1 = flush_actions (flush_part g t (set_counts (set_pg_state pg 0) 0 0))) as ->.
  { destruct (t =? 0); [by rewrite E | by rewrite (de_flush _ _ _ _ _ _ E)]. }
  destruct (target_of_bound cfg replicated g g) as [Hmax Hex].
  fold (target_of cfg replicated g) in Hmax, Hex. fold t in Hmax, Hex.
  assert (0 <= t) as H0. { destruct Hex as [-> | (x & Hx & _ & <-)]; [done |]. pose proof (go_version _ Hg x Hx). lia. }
  assert (forall s, s ∈ g -> o_stable s = true -> o_version s <= t) as Hst.
  { intros s Hs Hss. apply Hmax; [done |]. apply stable_recoverable; auto. }
  unfold flush_part. destruct (Z.ltb_spec 0 (count (fun e => negb (o_stable e)) g)) as [Hu | Hu].
  - simpl. rewrite Hf, action_of_piece.
    + by apply flush_one.
    + apply (go_version _ Hg).
    + intros Hn. assert (e ∈ of_piece (piece_of e) g) as Hin by by apply list_elem_of_filter. rewrite Hn in Hin. by apply not_elem_of_nil in Hin.
  - simpl. rewrite Hf, lookup_empty. simpl. unfold dropped. simpl. split; [by intros [? ?] |]. split; [| done].
    assert (o_stable e = true) as Hs by by apply (count_zero g).
    intros _. split; [by apply Hst |]. right. by exists e.
Qed.

(** * Counts and states of the whole group *)

Lemma land_bit x i : 0 <= i -> (Z.land x (Z.shiftl 1 i) =? 0) = negb (Z.testbit x i).
Proof.
  intros Hi. rewrite Z.shiftl_1_l. destruct (Z.testbit x i) eqn:E; simpl.
  - apply Z.eqb_neq. intros H. apply (f_equal (fun z => Z.testbit z i)) in H. rewrite Z.land_spec, E, Z.pow2_bits_true, Z.bits_0 in H; done.
  - apply Z.eqb_eq, Z.bits_inj_0. intros j. rewrite Z.land_spec. destruct (decide (j = i)) as [-> |]; [by rewrite E |].
    by rewrite Z.pow2_bits_false, andb_false_r by done.
Qed.

(** Evaluate the bits of the state constants. *)
Ltac known_bits :=
  cbn -[Z.testbit Z.lor]; rewrite ?Z.lor_spec;
  repeat match goal with
  | |- context [Z.testbit ?c ?i] =>
    let v := eval vm_compute in (Z.testbit c i) in
    match v with true => change (Z.testbit c i) with true | false => change (Z.testbit c i) with false end
  end; rewrite ?orb_false_r, ?orb_true_r.

Definition has_bad (m : gmap (Z * Z) (list (Z * Z * Z))) : bool := bool_decide (m <> ∅).

Record tally (ks : list (Z * Z)) (invalids : Z) (pg : pg_t) : Prop := {
  ta_invalids : 0 <= invalids;
  ta_total : total_count pg =
    clean_count pg + Z.of_nat (size (incomplete_objects pg)) + Z.of_nat (size (degraded_objects pg)) +
    Z.of_nat (size (misplaced_objects pg)) + invalids;
  ta_incomplete : Z.testbit (pg_state pg) 8 = has_bad (incomplete_objects pg);
  ta_degraded : Z.testbit (pg_state pg) 9 = has_bad (degraded_objects pg);
  ta_misplaced : Z.testbit (pg_state pg) 10 = has_bad (misplaced_objects pg);
  ta_unclean : Z.testbit (pg_state pg) 11 = false -> flush_actions pg = ∅;
  ta_invalid : Z.testbit (pg_state pg) 12 = (0 <? invalids);
  ta_fresh : forall k, k ∉ ks -> incomplete_objects pg !! k = None /\ degraded_objects pg !! k = None /\ misplaced_objects pg !! k = None }.

Lemma has_bad_insert k s m : has_bad (<[k := s]> m) = true.
Proof. apply bool_decide_eq_true_2, insert_non_empty. Qed.

Lemma tally_flush ks n g t pg : tally ks n pg -> tally ks n (flush_part g t pg).
Proof.
  intros H. unfold flush_part. destruct (0 <? _); [| done]. destruct H.
  constructor; known_bits; done.
Qed.

Lemma tally_decided ks n oid first t st pg pg' :
  oid ∉ ks -> st = 0 \/ st = OBJ_INCOMPLETE \/ st = OBJ_DEGRADED \/ st = OBJ_MISPLACED ->
  decided oid first t st pg pg' -> tally ks n pg -> tally (oid :: ks) n pg'.
Proof.
  intros Hk Hst [Es Et Ec _ [s1 Ei] [s2 Ed] [s3 Em] Ef _] [? Ht Hi Hd Hm Hu Hn Hf]. destruct (Hf oid Hk) as (F1 & F2 & F3).
  destruct Hst as [-> | [-> | [-> | ->]]]; cbn -[Z.lor Z.testbit] in *; constructor; rewrite ?Es, ?Ei, ?Ed, ?Em, ?Ef, ?Et, ?Ec;
    known_bits; rewrite ?map_size_insert_None, ?has_bad_insert by done; try done; try lia.
  all: intros k [Hne Hks]%not_elem_of_cons; rewrite ?lookup_insert_ne by done; by apply Hf.
Qed.

(** A copy in an impossible role, not older than the version kept. *)
Definition has_invalid (cfg : pg_config) (replicated : bool) (g : list obj_ver_role) : bool :=
  let t := target_of cfg replicated g in 0 <? count (invalid cfg replicated) (if t =? 0 then g else not_older t g).

Lemma tally_weaken k ks n pg : tally ks n pg -> tally (k :: ks) n pg.
Proof. intros []. constructor; try done. intros k' [_ Hk]%not_elem_of_cons. auto. Qed.

Lemma final_state_cases cfg replicated g t (s := final_state cfg replicated g t) :
  s = 0 \/ s = OBJ_INCOMPLETE \/ s = OBJ_DEGRADED \/ s = OBJ_MISPLACED.
Proof. unfold s, final_state. destruct (_ && _); [tauto | apply classify_cases]. Qed.

Lemma tally_group cfg replicated g ks n pg pg' :
  tally ks n pg -> gkey g ∉ ks -> decide_object cfg replicated (gkey g) (gfirst g) g pg = Ok pg' ->
  tally (gkey g :: ks) (n + if has_invalid cfg replicated g then 1 else 0) pg'.
Proof.
  intros Ht Hk H. destruct (has_invalid cfg replicated g) eqn:Ei.
  - unfold decide_object in H. unfold has_invalid in Ei. rewrite Ei in H. injection H as <-. apply tally_weaken.
    destruct Ht. constructor; known_bits; try done; try lia.
  - rewrite Z.add_0_r. apply Z.ltb_ge in Ei. pose proof (decide_shape _ _ _ _ _ _ _ H Ei) as Hs.
    destruct (_ =? 0); [rewrite Hs; apply tally_weaken | eapply tally_decided; [done | | done |]; [apply final_state_cases |]]; by apply tally_flush.
Qed.

Lemma tally_groups cfg replicated gs : forall ks n pg pg',
  NoDup (map gkey gs) -> (forall g, g ∈ gs -> gkey g ∉ ks) -> tally ks n pg ->
  foldl (decide_group cfg replicated) (Ok pg) gs = Ok pg' ->
  exists ks', tally ks' (n + Z.of_nat (length (filter (fun g => has_invalid cfg replicated g = true) gs))) pg'.
Proof.
  induction gs as [| g gs IH]; intros ks n pg pg' Hnd Hks Ht H.
  { injection H as <-. exists ks. by rewrite Z.add_0_r. }
  apply NoDup_cons in Hnd as [Hg Hnd]. cbn [foldl] in H. unfold decide_group at 2 in H. cbn [rbind] in H.
  destruct (decide_object _ _ _ _ _ _) as [pg1 | er] eqn:E; [| by rewrite decide_group_err in H].
  apply (tally_group _ _ _ _ _ _ _ Ht) in E; [| apply Hks, list_elem_of_here].
  destruct (IH (gkey g :: ks) (n + if has_invalid cfg replicated g then 1 else 0) pg1 pg' Hnd) as [ks' Ht']; [| exact E | exact H |].
  - intros g' Hg'. apply not_elem_of_cons. split; [| by apply Hks, list_elem_of_further].
    intros Ek. apply Hg. change (map gkey gs) with (gkey <$> gs). rewrite <- Ek. by apply list_elem_of_fmap_2.
  - exists ks'. rewrite filter_cons. destruct (has_invalid cfg replicated g) eqn:Ei;
      [rewrite decide_True by done | rewrite decide_False by done].
    + cbn [length]. by replace (n + _) with (n + 1 + Z.of_nat (length (filter (fun g => has_invalid cfg replicated g = true) gs))) by lia.
    + by rewrite Z.add_0_r in Ht'.
Qed.

(** Nothing is recorded before peering. *)
Definition empty_maps (pg : pg_t) : Prop :=
  incomplete_objects pg = ∅ /\ degraded_objects pg = ∅ /\ misplaced_objects pg = ∅ /\ flush_actions pg = ∅.

Lemma tally_start pg : empty_maps pg -> tally [] 0 (set_counts (set_pg_state pg 0) 0 0).
Proof.
  intros (E1 & E2 & E3 & E4). constructor; known_bits; rewrite ?E1, ?E2, ?E3, ?E4; try done.
Qed.

Lemma calc_tally cfg results pg pg' epoch :
  config_ok cfg -> listed_ok results -> empty_maps pg -> calc_object_states cfg results pg = Ok (pg', epoch) ->
  exists ks n pg1, tally ks n pg1 /\ pg' = walk_state cfg pg1.
Proof.
  intros Hcfg Hl He H. destruct (calc_objects cfg results pg Hcfg Hl) as (gs & _ & Hnd & _ & E). rewrite E in H.
  destruct (foldl _ _ _) as [pg1 |] eqn:Ef; cbn [rbind] in H; [| done].
  apply (tally_groups _ _ _ [] 0) in Ef as [ks Ht]; [| done | by intros g _ []%not_elem_of_nil | by apply tally_start].
  eexists ks, _, pg1. split; [done |]. cbv zeta in H. destruct (_ =? PG_ACTIVE); [congruence |]. by destruct (negb _); [simplify_eq H |].
Qed.

Lemma walk_state_bits cfg pg (s := pg_state (walk_state cfg pg)) :
  if Z.testbit (pg_state pg) 12 then s = Z.lor PG_INCOMPLETE PG_HAS_INVALID
  else (forall i, 8 <= i <= 12 -> Z.testbit s i = Z.testbit (pg_state pg) i) /\
    Z.testbit s 3 = true /\ (pg_cursize cfg < pg_size cfg -> Z.testbit s 7 = true) /\
    ((length (cur_peers cfg) < length (all_peers cfg))%nat -> Z.testbit s 15 = true).
Proof.
  unfold s, walk_state. assert ((Z.land (pg_state pg) PG_HAS_INVALID =? 0) = negb (Z.testbit (pg_state pg) 12)) as -> by by apply land_bit.
  destruct (Z.testbit (pg_state pg) 12); [done |]. cbn [negb].
  destruct (Z.ltb_spec (pg_cursize cfg) (pg_size cfg)), (Nat.ltb_spec (length (cur_peers cfg)) (length (all_peers cfg))); known_bits;
    (split; [| repeat split; intros; done || lia]); intros i Hi;
    (assert (i = 8 \/ i = 9 \/ i = 10 \/ i = 11 \/ i = 12) as [-> | [-> | [-> | [-> | ->]]]] by lia); known_bits; done.
Qed.

(** the counters and state bits agree with the object maps: every object
    is counted once, as clean, in one of the maps or as invalid, and the bits
    for incomplete, degraded and misplaced objects are set exactly when such
    objects are recorded, unless an invalid object makes the group incomplete. *)
Theorem peering_counts cfg results pg pg' epoch :
  config_ok cfg -> listed_ok results -> empty_maps pg -> calc_object_states cfg results pg = Ok (pg', epoch) ->
  exists invalids, 0 <= invalids /\
    total_count pg' = clean_count pg' + Z.of_nat (size (incomplete_objects pg')) + Z.of_nat (size (degraded_objects pg')) +
      Z.of_nat (size (misplaced_objects pg')) + invalids /\
    (invalids = 0 -> Z.testbit (pg_state pg') 3 = true /\ Z.testbit (pg_state pg') 8 = has_bad (incomplete_objects pg') /\
      Z.testbit (pg_state pg') 9 = has_bad (degraded_objects pg') /\ Z.testbit (pg_state pg') 10 = has_bad (misplaced_objects pg')) /\
    (0 < invalids -> pg_state pg' = Z.lor PG_INCOMPLETE PG_HAS_INVALID).
Proof.
  intros Hcfg Hl He H. destruct (calc_tally _ _ _ _ _ Hcfg Hl He H) as (ks & n & pg1 & [Hn Ht Hi Hd Hm _ Hb _] & ->).
  destruct (walk_state_maps cfg pg1) as (-> & -> & _ & -> & -> & -> & _). pose proof (walk_state_bits cfg pg1) as Hw. rewrite Hb in Hw.
  exists n. split; [done |]. split; [done |]. destruct (Z.ltb_spec 0 n).
  - split; [intros; lia | done].
  - destruct Hw as (Hbits & H3 & _). split; [| intros; lia]. intros _. rewrite H3, (Hbits 8), (Hbits 9), (Hbits 10) by lia. done.
Qed.

(** a group that comes out as just active is really clean: every listed
    object is clean, nothing is to be flushed, all OSDs of the group are in
    place and none of the previous ones is missing. *)
Theorem peering_active_clean cfg results pg pg' epoch :
  config_ok cfg -> listed_ok results -> empty_maps pg -> calc_object_states cfg results pg = Ok (pg', epoch) ->
  pg_state pg' = PG_ACTIVE ->
  clean_count pg' = total_count pg' /\ incomplete_objects pg' = ∅ /\ degraded_objects pg' = ∅ /\ misplaced_objects pg' = ∅ /\
  flush_actions pg' = ∅ /\ pg_size cfg <= pg_cursize cfg /\ (length (all_peers cfg) <= length (cur_peers cfg))%nat.
Proof.
  intros Hcfg Hl He H Ha. destruct (calc_tally _ _ _ _ _ Hcfg Hl He H) as (ks & n & pg1 & [Hn Ht Hi Hd Hm Hu Hb _] & ->).
  destruct (walk_state_maps cfg pg1) as (-> & -> & _ & -> & -> & -> & -> & _). pose proof (walk_state_bits cfg pg1) as Hw.
  rewrite Ha in Hw. destruct (Z.testbit (pg_state pg1) 12) eqn:E; [done |]. destruct Hw as (Hbits & _ & H7 & H15).
  rewrite <- Hbits in Hi, Hd, Hm, Hu by lia.
  assert (forall m, false = has_bad m -> m = ∅) as Hempty.
  { intros m Hm'. symmetry in Hm'. apply bool_decide_eq_false in Hm'. by apply dec_stable in Hm'. }
  apply Hempty in Hi as Ei, Hd as Ed, Hm as Em. rewrite Ei, Ed, Em in *. symmetry in Hb. apply Z.ltb_ge in Hb.
  rewrite Ht, !map_size_empty. repeat split; [simpl; lia | auto | |].
  - apply Z.nlt_ge. intros Hlt. by apply H7 in Hlt.
  - apply Nat.nlt_ge. intros Hlt. by apply H15 in Hlt.
Qed.

(** ** The epoch *)

Lemma max_epoch_ge results osd r ov :
  (osd, r) ∈ results -> ov ∈ lr_buf r -> Z.shiftr ov.2 (64 - PG_EPOCH_BITS) <= max_epoch results.
Proof.
  unfold max_epoch.
  set (inner := fun e (ov : object_id * Z) => let e' := Z.shiftr ov.2 (64 - PG_EPOCH_BITS) in if e <? e' then e' else e).
  assert (forall l e, e <= foldl inner e l /\ forall ov, ov ∈ l -> Z.shiftr ov.2 (64 - PG_EPOCH_BITS) <= foldl inner e l) as Hin.
  { induction l as [| x l IH]; intros e; cbn [foldl]; [split; [done | by intros ? []%not_elem_of_nil] |].
    destruct (IH (inner e x)) as [H1 H2]. assert (e <= inner e x /\ Z.shiftr x.2 (64 - PG_EPOCH_BITS) <= inner e x) as [H3 H4].
    { unfold inner. destruct (Z.ltb_spec e (Z.shiftr x.2 (64 - PG_EPOCH_BITS))); lia. }
    split; [lia |]. intros y [-> | Hy]%elem_of_cons; [lia | by apply H2]. }
  generalize 0. intros e0. revert e0. induction results as [| x l IH]; intros e0 Hr Ho; [by apply not_elem_of_nil in Hr |].
  cbn [foldl]. apply elem_of_cons in Hr as [<- | Hr]; [| by apply IH].
  pose proof (proj2 (Hin (lr_buf r) e0) ov Ho) as Hge. cbn [snd].
  assert (forall l e, e <= foldl (fun e (it : Z * pg_list_result_t) => foldl inner e (lr_buf it.2)) e l) as Hmono.
  { clear -Hin. induction l as [| y l IH]; intros e; cbn [foldl]; [done |].
    pose proof (proj1 (Hin (lr_buf y.2) e)). specialize (IH (foldl inner e (lr_buf y.2))). lia. }
  specialize (Hmono l (foldl inner e0 (lr_buf r))). unfold inner in *. lia.
Qed.

Lemma epoch_above cfg results pg pg' epoch osd r ov :
  calc_object_states cfg results pg = Ok (pg', epoch) -> (osd, r) ∈ results -> ov ∈ lr_buf r ->
  Z.shiftr ov.2 (64 - PG_EPOCH_BITS) <= epoch /\ (pg_state pg' <> PG_ACTIVE -> Z.shiftr ov.2 (64 - PG_EPOCH_BITS) < epoch).
Proof.
  intros H Hr Ho. pose proof (max_epoch_ge _ _ _ _ Hr Ho) as Hge. unfold calc_object_states in H.
  destruct (walk _ _ _ _) as [pg1 |]; cbn [rbind] in H; [| done]. destruct (Z.eqb_spec (pg_state pg1) PG_ACTIVE) as [E | E].
  - injection H as <- <-. done.
  - destruct (negb _); [| done]. injection H as <- <-. lia.
Qed.

(** ** When peering succeeds *)

Definition in_set_range (cfg : pg_config) (o : Z * Z * Z) : Prop := 0 <= o.1.1 < pg_size cfg.

Lemma valid_role cfg replicated e : valid cfg replicated e = true -> in_set_range cfg (loc_of e 0) /\ in_set_range cfg (loc_of e LOC_OUTDATED).
Proof.
  unfold valid, in_set_range, loc_of. simpl. fold (role_num e). rewrite negb_true_iff, orb_false_iff, Z.leb_gt.
  intros [_ ?]. pose proof (role_always_ok e). done.
Qed.

Lemma read_target_total cfg osd_set : 0 <= pg_size cfg -> Forall (in_set_range cfg) osd_set -> exists t, read_target_of cfg osd_set = Ok t.
Proof.
  intros Hsz Hs. unfold read_target_of. destruct (_ =? _); [by eexists |].
  assert (Z.of_nat (length (replicate (Z.to_nat (pg_size cfg)) 0)) = pg_size cfg) as Hlen by (rewrite length_replicate; lia).
  revert Hlen. generalize (replicate (Z.to_nat (pg_size cfg)) 0). induction Hs as [| o l Ho Hl IH]; intros t Hlen; cbn [foldl]; [by eexists |].
  cbn [rbind]. destruct (loc_good o); [| by apply IH]. unfold in_set_range in Ho. rewrite aset_in_range by lia. apply IH. by rewrite length_insert.
Qed.

Lemma outdated_total cfg replicated l : forall osd_set st pg,
  config_ok cfg -> all_valid cfg replicated l -> Forall (in_set_range cfg) osd_set ->
  exists osd_set' st' pg', foldl (add_outdated cfg) (Ok (osd_set, st, pg)) l = Ok (osd_set', st', pg') /\ Forall (in_set_range cfg) osd_set'.
Proof.
  induction l as [| e l IH]; intros osd_set st pg Hcfg Hv Hs; cbn [foldl]; [by repeat eexists |].
  assert (all_valid cfg replicated l) as Hl by (intros x Hx; by apply Hv, list_elem_of_further).
  destruct (valid_role cfg replicated e (Hv e (list_elem_of_here _ _))) as [Hr Hr'].
  unfold add_outdated at 2. cbn [rbind]. destruct (existsb _ _); [by apply IH |].
  destruct (aget_in_range (cur_set cfg) (role_of (stripe (o_oid e)))) as [cur ->].
  { rewrite (cf_set _ Hcfg). exact Hr. }
  cbn [rbind]. destruct (_ =? o_osd e); [by apply IH |].
  destruct (Z.land st _ =? 0); cbn [rbind]; apply IH; try done; apply Forall_app; (split; [done | by apply Forall_singleton]).
Qed.

Lemma decide_total cfg replicated oid first g pg :
  config_ok cfg -> all_valid cfg replicated g -> exists pg', decide_object cfg replicated oid first g pg = Ok pg'.
Proof.
  intros Hcfg Hv. unfold decide_object. destruct (0 <? _); [by eexists |]. set (t := target_of cfg replicated g). cbv zeta.
  generalize (if 0 <? count (fun e => negb (o_stable e)) g then set_flush (or_pg_state pg PG_HAS_UNCLEAN) (add_actions t (foldl (add_piece t) ∅ g) (flush_actions pg)) else pg).
  intros pg1. destruct (t =? 0); [by eexists |].
  destruct (outdated_total cfg replicated (older t g) (map (fun e => loc_of e 0) (at_version t g)) (classify cfg replicated (at_version t g))
    (set_counts (or_pg_state pg1 (state_flag (classify cfg replicated (at_version t g)))) (clean_count (or_pg_state pg1 (state_flag (classify cfg replicated (at_version t g)))))
       (total_count (or_pg_state pg1 (state_flag (classify cfg replicated (at_version t g)))) + 1)) Hcfg) as (s & st & pg2 & -> & Hs).
  - intros e [_ He]%list_elem_of_filter. by apply Hv.
  - apply Forall_map, Forall_forall. intros e [_ He]%list_elem_of_filter. by apply (valid_role cfg replicated), Hv.
  - cbn [rbind]. destruct (st =? 0); [by eexists |]. unfold add_object_to_state.
    destruct (state_dict _ !! s); cbn [rbind]; [by eexists |].
    destruct (read_target_total cfg s) as [t' ->]; [pose proof (cf_size _ Hcfg); lia | done | by eexists].
Qed.

Lemma peering_returns cfg results pg (replicated := scheme cfg =? POOL_SCHEME_REPLICATED) :
  config_ok cfg -> listed_ok results -> all_valid cfg replicated (merge_lists results) -> max_epoch results < 2 ^ PG_EPOCH_BITS - 1 ->
  exists pg' epoch, calc_object_states cfg results pg = Ok (pg', epoch).
Proof.
  intros Hcfg Hl Hv Hep. destruct (calc_objects cfg results pg Hcfg Hl) as (gs & Hp & _ & _ & ->). fold replicated.
  assert (forall pg, exists pg', foldl (decide_group cfg replicated) (Ok pg) gs = Ok pg') as Hfold.
  { assert (forall g, g ∈ gs -> all_valid cfg replicated g) as Hgs.
    { intros g Hg e He. apply Hv. rewrite <- Hp. apply list_elem_of_In, in_concat. exists g. by rewrite <- !list_elem_of_In. }
    clear Hp. induction gs as [| g gs IH]; intros pg1; cbn [foldl]; [by eexists |]. unfold decide_group at 2. cbn [rbind].
    destruct (decide_total cfg replicated (gkey g) (gfirst g) g pg1 Hcfg) as [pg2 ->]; [apply Hgs, list_elem_of_here |].
    apply IH. intros g' Hg'. by apply Hgs, list_elem_of_further. }
  destruct (Hfold (set_counts (set_pg_state pg 0) 0 0)) as [pg1 ->]. cbn [rbind]. destruct (_ =? PG_ACTIVE); [by repeat eexists |].
  rewrite (proj2 (Z.eqb_neq _ _)) by lia. by repeat eexists.
Qed.

(** Peering always comes to a result when every listed copy is in a role the group has and the epochs are not
    exhausted.  The epoch it gives the group is at least that of every listed version, and above it unless the group is
    just active, so that new versions are newer than all that have been seen. *)
Theorem peering_total cfg results pg (replicated := scheme cfg =? POOL_SCHEME_REPLICATED) :
  config_ok cfg -> listed_ok results -> all_valid cfg replicated (merge_lists results) -> max_epoch results < 2 ^ PG_EPOCH_BITS - 1 ->
  exists pg' epoch, calc_object_states cfg results pg = Ok (pg', epoch) /\
    forall osd r ov, (osd, r) ∈ results -> ov ∈ lr_buf r ->
      Z.shiftr ov.2 (64 - PG_EPOCH_BITS) <= epoch /\ (pg_state pg' <> PG_ACTIVE -> Z.shiftr ov.2 (64 - PG_EPOCH_BITS) < epoch).
Proof.
  intros Hcfg Hl Hv Hep. destruct (peering_returns cfg results pg Hcfg Hl Hv Hep) as (pg' & epoch & E). exists pg', epoch. split; [done |].
  intros osd r ov. by apply (epoch_above cfg results pg).
Qed.

(** the role check does not cover copies older than the version kept: an
    old chunk in a role the group does not have, on an OSD that has no newer
    chunk, makes the walk read outside the set of current OSDs. *)
Theorem peering_old_role_out_of_bounds :
  calc_object_states (mk_pg_config 2 3 3 2 [1; 2; 3] [1; 2; 3] [1; 2; 3])
    [(1, mk_list_result [((5, 0), 2)] 1); (2, mk_list_result [((5, 1), 2)] 1);
     (3, mk_list_result [((5, 2), 2)] 1); (9, mk_list_result [((5, 7), 1)] 1)]
    (mk_pg 0 0 0 ∅ ∅ ∅ ∅ ∅ ∅ ∅) = Err OutOfBounds.
Proof. vm_compute. reflexivity. Qed.

(** * Examples *)

(** A group of two data chunks and one parity chunk. *)
Definition ec_config : pg_config := mk_pg_config 2 3 3 2 [1; 2; 3] [1; 2; 3] [1; 2; 3].
Definition start_pg : pg_t := mk_pg 0 0 0 ∅ ∅ ∅ ∅ ∅ ∅ ∅.

(** An interrupted write of one chunk over a complete stable version. *)
Definition ec_group : list obj_ver_role :=
  [mk_ovr (5, 0) 131072 1 false; mk_ovr (5, 0) 65536 1 true; mk_ovr (5, 1) 65536 2 true; mk_ovr (5, 2) 65536 3 true].
Definition ec_results : list (Z * pg_list_result_t) :=
  [(1, mk_list_result [((5, 0), 65536); ((5, 0), 131072)] 1); (2, mk_list_result [((5, 1), 65536)] 1); (3, mk_list_result [((5, 2), 65536)] 1)].
(** The same object when everything is in place. *)
Definition clean_results : list (Z * pg_list_result_t) :=
  [(1, mk_list_result [((5, 0), 65536)] 1); (2, mk_list_result [((5, 1), 65536)] 1); (3, mk_list_result [((5, 2), 65536)] 1)].

Ltac each_member :=
  intros ? H; repeat (apply elem_of_cons in H as [-> | H]); [.. | by apply not_elem_of_nil in H].

Lemma ec_config_ok : config_ok ec_config.
Proof. by constructor. Qed.
Lemma ec_group_ok : group_ok ec_group.
Proof. constructor; [done | each_member; done | done | by repeat constructor | each_member; done]. Qed.
Lemma ec_listed_ok : listed_ok ec_results.
Proof. unfold listed_ok. change (merge_lists ec_results) with [mk_ovr (5, 0) 65536 1 true; mk_ovr (5, 0) 131072 1 false; mk_ovr (5, 1) 65536 2 true; mk_ovr (5, 2) 65536 3 true]. each_member; done. Qed.
Lemma clean_listed_ok : listed_ok clean_results.
Proof. unfold listed_ok. change (merge_lists clean_results) with [mk_ovr (5, 0) 65536 1 true; mk_ovr (5, 1) 65536 2 true; mk_ovr (5, 2) 65536 3 true]. each_member; done. Qed.
Lemma start_pg_empty : empty_maps start_pg.
Proof. by repeat split. Qed.
Lemma ec_group_valid : all_valid ec_config false ec_group.
Proof. unfold all_valid. each_member; done. Qed.

Lemma target_newest cfg replicated g t :
  config_ok cfg -> target_of cfg replicated g = t -> t <> 0 -> newest_recoverable cfg replicated g t.
Proof.
  intros Hcfg <- H0. destruct (target_of_bound cfg replicated g g) as [Hmax Hex]. fold (target_of cfg replicated g) in Hmax, Hex.
  destruct Hex as [? | (e & _ & Hr & E)]; [done |]. rewrite E in Hr. split; [done |].
  intros v Hv. destruct (recoverable_present _ _ Hcfg g v Hv) as (x & Hx & <-). by apply Hmax.
Qed.

Lemma ec_group_target : target_of ec_config false ec_group = 65536.
Proof. by vm_compute. Qed.

(** The interrupted write is rolled back, and the object is clean otherwise. *)
Lemma peering_object_witness :
  exists pg', walk ec_config false ec_group start_pg = Ok pg' /\ total_count pg' = 1 /\ clean_count pg' = 1 /\
    ver_override pg' = {[(5, 0) := 65536]}.
Proof.
  destruct (walk ec_config false ec_group start_pg) as [pg' |] eqn:E; [| by vm_compute in E].
  exists pg'. split; [done |].
  pose proof (peering_object ec_config false ec_group start_pg pg' 65536 ec_config_ok ec_group_ok ec_group_valid
    (target_newest _ _ _ _ ec_config_ok ec_group_target ltac:(discriminate)) eq_refl eq_refl eq_refl E) as (H1 & H2 & H3 & _).
  rewrite H1, H2, H3. split; [reflexivity |]. split; vm_compute; reflexivity.
Defined.

Lemma peering_flush_witness :
  exists pg', walk ec_config false ec_group start_pg = Ok pg' /\
    let a := default no_action (flush_actions pg' !! piece_of (mk_ovr (5, 0) 131072 1 false)) in
    dropped a (mk_ovr (5, 0) 131072 1 false) /\ ~ dropped a (mk_ovr (5, 0) 65536 1 true) /\
    settled a ec_group (mk_ovr (5, 0) 65536 1 true).
Proof.
  destruct (walk ec_config false ec_group start_pg) as [pg' |] eqn:E; [| by vm_compute in E].
  exists pg'. split; [done |]. vm_compute in E. injection E as E.
  assert (~ dropped (default no_action (flush_actions pg' !! piece_of (mk_ovr (5, 0) 131072 1 false))) (mk_ovr (5, 0) 65536 1 true)) as Hd.
  { rewrite <- E. by intros [_ ?]. }
  split; [by rewrite <- E |]. split; [exact Hd |].
  eapply (peering_flush ec_config false ec_group start_pg pg' (mk_ovr (5, 0) 65536 1 true)).
  - apply ec_config_ok.
  - apply ec_group_ok.
  - apply ec_group_valid.
  - done.
  - rewrite <- E. by vm_compute.
  - apply list_elem_of_further, list_elem_of_here.
  - exact Hd.
Defined.

Lemma peering_ok_witness :
  config_ok ec_config /\ exists gs, concat gs ≡ₚ merge_lists ec_results /\ NoDup (map gkey gs) /\ Forall group_ok gs.
Proof.
  split; [apply ec_config_ok |].
  destruct (peering_ok ec_config ec_results start_pg ec_config_ok ec_listed_ok) as (gs & H1 & H2 & H3 & _). by exists gs.
Defined.

Lemma peering_counts_witness :
  exists pg' epoch, calc_object_states ec_config ec_results start_pg = Ok (pg', epoch) /\ Z.testbit (pg_state pg') 8 = has_bad (incomplete_objects pg').
Proof.
  destruct (calc_object_states ec_config ec_results start_pg) as [[pg' epoch] |] eqn:E; [| by vm_compute in E].
  exists pg', epoch. split; [done |].
  destruct (peering_counts ec_config ec_results start_pg pg' epoch ec_config_ok ec_listed_ok start_pg_empty E) as (n & Hn & Ht & H0 & _).
  apply H0. vm_compute in E. injection E as <- <-. change (1 = 1 + 0 + 0 + 0 + n) in Ht. lia.
Defined.

Lemma peering_active_clean_witness :
  exists pg' epoch, calc_object_states ec_config clean_results start_pg = Ok (pg', epoch) /\ clean_count pg' = total_count pg' /\ flush_actions pg' = ∅.
Proof.
  destruct (calc_object_states ec_config clean_results start_pg) as [[pg' epoch] |] eqn:E; [| by vm_compute in E].
  exists pg', epoch. split; [done |].
  destruct (peering_active_clean ec_config clean_results start_pg pg' epoch ec_config_ok clean_listed_ok start_pg_empty E) as (H1 & _ & _ & _ & H2 & _); [| by split].
  vm_compute in E. by injection E as <- <-.
Defined.

Lemma peering_total_witness :
  all_valid ec_config false (merge_lists ec_results) /\
  exists pg' epoch, calc_object_states ec_config ec_results start_pg = Ok (pg', epoch) /\
    forall osd r ov, (osd, r) ∈ ec_results -> ov ∈ lr_buf r ->
      Z.shiftr ov.2 (64 - PG_EPOCH_BITS) <= epoch /\ (pg_state pg' <> PG_ACTIVE -> Z.shiftr ov.2 (64 - PG_EPOCH_BITS) < epoch).
Proof.
  assert (all_valid ec_config false (merge_lists ec_results)) as Hv.
  { change (merge_lists ec_results) with [mk_ovr (5, 0) 65536 1 true; mk_ovr (5, 0) 131072 1 false; mk_ovr (5, 1) 65536 2 true; mk_ovr (5, 2) 65536 3 true].
    unfold all_valid. each_member; done. }
  split; [exact Hv |]. apply (peering_total ec_config ec_results start_pg ec_config_ok ec_listed_ok); [exact Hv | by vm_compute].
Defined.
