(* ===== verification/Xdr.v ===== *)
(** The XDR runtime of the NFS server (src/src/nfs/proto/xdr_impl_inline.h and
    xdr_impl.cpp): one routine per type that decodes from or encodes into an
    [XDR] object, as its [x_op] says.  A routine gets the object it works on and
    returns the object after the call, the [XDR] after the call and whether it
    returned TRUE.  Memory behind pointers is given by value: a string is its
    bytes, a linked list is a chain of [option]s. *)

From stdpp Require Import strings.
From S2P Require Import Prelude.

(** * State *)

Definition XDR_ENCODE : Z := 0.
Definition XDR_DECODE : Z := 1.
Definition XDR_COPY_LENGTH : Z := 128.

(** [size] bytes are claimed, [data] are the bytes that really are behind the
    pointer, up to [size]. *)
Record xdr_string_t := mk_string { s_size : Z; s_data : list Z }.
#[global] Instance xdr_string_inhabited : Inhabited xdr_string_t := populate (mk_string 0 []).

(** A list being decoded: the routine of its entries (by name) and what the last
    entry said about the next one.  The array the entries are collected in is
    the argument [acc] of the loop. *)
Record xdr_linked_list_t := mk_ll { ll_fn : string; ll_has_next : Z }.

(** A part of the output: a piece of [cur_out] ([iov_base] is NULL until
    [xdr_encode_finish]) or a buffer of the caller. *)
Record iovec := mk_iovec { iov_base : option (list Z); iov_len : Z }.

(** [ll_cap] is the capacity of the vector [in_linked_list], whose [back()] is
    the head of the list here.  [buf] holds the bytes from the pointer on. *)
Record XDR := mk_XDR {
  x_op : Z; rdma : bool; rdma_chunk : option (list Z); rdma_chunk_used : bool;
  buf : list Z; avail : Z; in_linked_list : list xdr_linked_list_t; ll_cap : nat;
  cur_out : list Z; last_end : Z; buf_list : list iovec }.

Definition with_buf (x : XDR) (b : list Z) (a : Z) : XDR :=
  mk_XDR (x_op x) (rdma x) (rdma_chunk x) (rdma_chunk_used x) b a (in_linked_list x) (ll_cap x) (cur_out x) (last_end x) (buf_list x).
Definition with_ll (x : XDR) (l : list xdr_linked_list_t) (cap : nat) : XDR :=
  mk_XDR (x_op x) (rdma x) (rdma_chunk x) (rdma_chunk_used x) (buf x) (avail x) l cap (cur_out x) (last_end x) (buf_list x).
Definition with_out (x : XDR) (o : list Z) (e : Z) (l : list iovec) : XDR :=
  mk_XDR (x_op x) (rdma x) (rdma_chunk x) (rdma_chunk_used x) (buf x) (avail x) (in_linked_list x) (ll_cap x) o e l.
Definition with_op (x : XDR) (op : Z) : XDR :=
  mk_XDR op (rdma x) (rdma_chunk x) (rdma_chunk_used x) (buf x) (avail x) (in_linked_list x) (ll_cap x) (cur_out x) (last_end x) (buf_list x).
Definition with_rdma (x : XDR) (r : bool) (c : option (list Z)) (used : bool) : XDR :=
  mk_XDR (x_op x) r c used (buf x) (avail x) (in_linked_list x) (ll_cap x) (cur_out x) (last_end x) (buf_list x).

(** The routine of a type: [bool_t xdr_T(XDR *xdrs, T *objp)]. *)
Definition xdrproc (A : Type) : Type := XDR -> A -> res (bool * XDR * A).

(** * Bytes *)

(** [htobe32], [htobe64], [be32toh] and [be64toh]. *)
Definition be (n : nat) (v : Z) : list Z := map (fun i => Z.land (Z.shiftr v (8 * Z.of_nat i)) 255) (rev (seq 0 n)).
Definition of_be (l : list Z) : Z := foldl (fun acc b => acc * 256 + b) 0 l.

#[global] Arguments be : simpl never.
#[global] Arguments of_be : simpl never.

Definition resize (c : list Z) (n : Z) : list Z := take (Z.to_nat n) c ++ replicate (Z.to_nat n - length c) 0.

(** The first [n] bytes at a pointer. *)
Definition bytes_at (l : list Z) (n : Z) : res (list Z) :=
  if n <=? zlen l then Ok (take (Z.to_nat n) l) else Err OutOfBounds.

Definition len_pad4 (len : Z) : Z := u32 (u32 (len + 3) / 4 * 4).

(** [xdrs->buf += n; xdrs->avail -= n;] *)
Definition skip (x : XDR) (n : Z) : XDR := with_buf x (drop (Z.to_nat n) (buf x)) (u32 (avail x - n)).

(** Make room for [n] bytes, computed in 32 bits, and store [bs] there. *)
Definition put (x : XDR) (bs : list Z) : res XDR :=
  let old := u32 (zlen (cur_out x)) in
  let* c := poke (resize (cur_out x) (u32 (old + zlen bs))) old bs in
  Ok (with_out x c (last_end x) (buf_list x)).

(** * Basic types *)

Definition xdr_u_int : xdrproc Z := fun xdrs data =>
  if x_op xdrs =? XDR_DECODE then
    if avail xdrs <? 4 then Ok (false, xdrs, data)
    else
      let* b := bytes_at (buf xdrs) 4 in
      Ok (true, skip xdrs 4, of_be b)
  else
    let* xdrs := put xdrs (be 4 data) in
    Ok (true, xdrs, data).

Definition xdr_uint32_t : xdrproc Z := xdr_u_int.
Definition xdr_enum : xdrproc Z := xdr_u_int.
Definition xdr_bool : xdrproc Z := xdr_u_int.

Definition xdr_uint64_t : xdrproc Z := fun xdrs data =>
  if x_op xdrs =? XDR_DECODE then
    if avail xdrs <? 8 then Ok (false, xdrs, data)
    else
      let* b := bytes_at (buf xdrs) 8 in
      Ok (true, skip xdrs 8, of_be b)
  else
    let* xdrs := put xdrs (be 8 data) in
    Ok (true, xdrs, data).

(** A fixed array of [len] bytes. *)
Definition xdr_opaque (len : Z) : xdrproc (list Z) := fun xdrs data =>
  if len <=? 0 then Ok (true, xdrs, data)
  else if x_op xdrs =? XDR_DECODE then
    let padded := len_pad4 len in
    if avail xdrs <? padded then Ok (false, xdrs, data)
    else
      let* b := bytes_at (buf xdrs) len in
      Ok (true, skip xdrs padded, b)
  else
    let old := u32 (zlen (cur_out xdrs)) in
    let pad := if Z.land len 3 =? 0 then 0 else 4 - Z.land len 3 in
    let c := resize (cur_out xdrs) (u32 (old + len + pad)) in
    let* b := bytes_at data len in
    let* c := poke c old b in
    let* c := poke c old (replicate (Z.to_nat pad) 0) in
    Ok (true, with_out xdrs c (last_end xdrs) (buf_list xdrs), data).

(** Short data is copied into [cur_out]. *)
Definition copy_bytes (xdrs : XDR) (data : xdr_string_t) : res XDR :=
  let old := u32 (zlen (cur_out xdrs)) in
  let* d := bytes_at (s_data data) (s_size data) in
  let* c := poke (resize (cur_out xdrs) (old + 4 + s_size data)) old (be 4 (s_size data)) in
  let* c := poke c (old + 4) d in
  Ok (with_out xdrs c (last_end xdrs) (buf_list xdrs)).

(** Long data and RDMA chunks are sent from where they are. *)
Definition part_bytes (xdrs : XDR) (data : xdr_string_t) : res XDR :=
  let* xdrs := put xdrs (be 4 (s_size data)) in
  let size := zlen (cur_out xdrs) in
  Ok (with_out xdrs (cur_out xdrs) (u32 size)
        (buf_list xdrs ++ [mk_iovec None (size - last_end xdrs); mk_iovec (Some (s_data data)) (s_size data)])).

(** [maxlen] is not looked at. *)
Definition xdr_bytes (maxlen : Z) (chunk : bool) : xdrproc xdr_string_t := fun xdrs data =>
  if x_op xdrs =? XDR_DECODE then
    if avail xdrs <? 4 then Ok (false, xdrs, data)
    else
      let* b := bytes_at (buf xdrs) 4 in
      let len := of_be b in
      match chunk && rdma xdrs, rdma_chunk xdrs with
      | true, Some c =>
        assert! negb (rdma_chunk_used xdrs) in
        Ok (true, with_rdma xdrs (rdma xdrs) (rdma_chunk xdrs) true, mk_string len (take (Z.to_nat len) c))
      | _, _ =>
        let padded := len_pad4 len in
        let n := u32 (4 + padded) in
        if avail xdrs <? n then Ok (false, xdrs, data)
        else Ok (true, skip xdrs n, mk_string len (take (Z.to_nat len) (drop 4 (buf xdrs))))
      end
  else
    let plain := negb chunk || negb (rdma xdrs) in
    let* xdrs := (if (s_size data <? XDR_COPY_LENGTH) && plain then copy_bytes xdrs data else part_bytes xdrs data) in
    let* xdrs :=
      (if negb (Z.land (s_size data) 3 =? 0) && plain
       then put xdrs (replicate (Z.to_nat (4 - Z.land (s_size data) 3)) 0)
       else Ok xdrs) in
    Ok (true, xdrs, data).

Definition xdr_string (maxlen : Z) (chunk : bool) : xdrproc xdr_string_t := xdr_bytes maxlen chunk.

(** * Linked lists and arrays *)

Section Lists.
Context {A : Type}.

(** [push_back] moves the vector when its capacity is exhausted. *)
Definition push_ll (x : XDR) (l : xdr_linked_list_t) : XDR :=
  let n := length (in_linked_list x) in
  with_ll x (l :: in_linked_list x) (if (n <? ll_cap x)%nat then ll_cap x else Nat.max 1 (2 * n)).
Definition pop_ll (x : XDR) : XDR := with_ll x (tail (in_linked_list x)) (ll_cap x).

(** [back().has_next = has_next] *)
Definition set_has_next (x : XDR) (v : Z) : XDR :=
  match in_linked_list x with
  | [] => x
  | l :: ls => with_ll x (mk_ll (ll_fn l) v :: ls) (ll_cap x)
  end.

(** The loop over the further entries.  It keeps a reference to [back()] across
    the calls, which is lost when the vector has moved meanwhile ([cap]). *)
Fixpoint list_loop (fuel : nat) (entry_fn : xdrproc A) (dflt : A) (cap : nat) (x : XDR) (acc : list A)
    : res (bool * XDR * list A) :=
  match in_linked_list x with
  | [] => Err Undefined
  | l :: _ =>
    if ll_has_next l =? 0 then Ok (true, x, acc)
    else
      match fuel with
      | O => Err OutOfFuel
      | S fuel =>
        let* (ok, x, e) := entry_fn (set_has_next x 0) dflt in
        if ok then
          if Nat.eqb (ll_cap x) cap then list_loop fuel entry_fn dflt cap x (acc ++ [e]) else Err Undefined
        else Ok (false, x, acc)
      end
  end.

(** The link of every entry but the last is set to the next entry. *)
Fixpoint link_entries (link : A -> option A -> A) (l : list A) : option A :=
  match l with
  | [] => None
  | e :: l => Some (match link_entries link l with None => e | n => link e n end)
  end.

(** [link] stores into the field the recursive call comes from; [dflt] is the
    content of fresh memory. *)
Definition xdr_pointer (link : A -> option A -> A) (dflt : A) (fn : string) (entry_fn : xdrproc A) : xdrproc (option A) :=
  fun xdrs data =>
  if x_op xdrs =? XDR_DECODE then
    if avail xdrs <? 4 then Ok (false, xdrs, data)
    else
      let* b := bytes_at (buf xdrs) 4 in
      let has_next := of_be b in
      let xdrs := skip xdrs 4 in
      if existsb (fun l => bool_decide (ll_fn l = fn)) (take 1 (in_linked_list xdrs))
      then Ok (true, set_has_next xdrs has_next, None)
      else if has_next =? 0 then Ok (true, xdrs, None)
      else
        let* (ok, xdrs, e) := entry_fn (push_ll xdrs (mk_ll fn 0)) dflt in
        if ok then
          let* (ok, xdrs, es) := list_loop (S (length (buf xdrs))) entry_fn dflt (ll_cap xdrs) xdrs [e] in
          if ok then Ok (true, pop_ll xdrs, link_entries link es) else Ok (false, xdrs, head es)
        else Ok (false, xdrs, Some e)
  else
    let* xdrs := put xdrs (be 4 (match data with Some _ => 1 | None => 0 end)) in
    match data with
    | Some e => let* (_, xdrs, e) := entry_fn xdrs e in Ok (true, xdrs, Some e)
    | None => Ok (true, xdrs, None)
    end.

(** [n] entries are decoded into [alloc] bytes; what the routine of an entry
    returns is not looked at.  A routine that has taken bytes has stored. *)
Fixpoint array_decode (n : nat) (i alloc entry_size : Z) (fn : xdrproc A) (dflt : A) (x : XDR) : res (XDR * list A) :=
  match n with
  | O => Ok (x, [])
  | S n =>
    let* (_, x', e) := fn x dflt in
    if negb (avail x' =? avail x) && (alloc <? u32 (entry_size * i) + entry_size) then Err OutOfBounds
    else
      let* (x', es) := array_decode n (i + 1) alloc entry_size fn dflt x' in
      Ok (x', e :: es)
  end.

Fixpoint array_encode (fn : xdrproc A) (l : list A) (x : XDR) : res (XDR * list A) :=
  match l with
  | [] => Ok (x, [])
  | e :: l =>
    let* (_, x, e) := fn x e in
    let* (x, l) := array_encode fn l x in
    Ok (x, e :: l)
  end.

Definition xdr_array (maxlen entry_size : Z) (dflt : A) (fn : xdrproc A) : xdrproc (list A) := fun xdrs data =>
  if x_op xdrs =? XDR_DECODE then
    if avail xdrs <? 4 then Ok (false, xdrs, data)
    else
      let* b := bytes_at (buf xdrs) 4 in
      let len := of_be b in
      if maxlen <? len then Ok (false, xdrs, data)
      else
        let* (xdrs, l) := array_decode (Z.to_nat len) 0 (u32 (entry_size * len)) entry_size fn dflt (skip xdrs 4) in
        Ok (true, xdrs, l)
  else
    let* xdrs := put xdrs (be 4 (zlen data)) in
    let* (xdrs, l) := array_encode fn data xdrs in
    Ok (true, xdrs, l).
End Lists.

(** * Structures and unions: what the generated routines are made of *)

Section Fields.
Context {S F : Type}.

(** The setter that goes with a field. *)
Class Field (get : S -> F) := { set : S -> F -> S; set_get : forall o, set o (get o) = o }.
(** A member of a union: only the active one can be read. *)
Class Arm (get : S -> option F) := { set_arm : S -> F -> S; set_arm_get : forall o v, get o = Some v -> set_arm o v = o }.

(** [if (!p(xdrs, &objp->get)) return FALSE;] *)
Definition field (get : S -> F) `{Field get} (p : xdrproc F) (k : xdrproc S) : xdrproc S := fun xdrs objp =>
  let* (ok, xdrs, v) := p xdrs (get objp) in
  if ok then k xdrs (set objp v) else Ok (false, xdrs, set objp v).
(** The same for a member of a union. *)
Definition arm (get : S -> option F) `{Inhabited F, Arm get} (p : xdrproc F) (k : xdrproc S) : xdrproc S := fun xdrs objp =>
  match get objp, x_op xdrs =? XDR_DECODE with
  | None, false => Err Undefined
  | o, _ =>
    let* (ok, xdrs, v) := p xdrs (default inhabitant o) in
    if ok then k xdrs (set_arm objp v) else Ok (false, xdrs, set_arm objp v)
  end.
End Fields.

Section Switch.
Context {S : Type}.

Definition RETURN_TRUE : xdrproc S := fun xdrs objp => Ok (true, xdrs, objp).
Definition RETURN_FALSE : xdrproc S := fun xdrs objp => Ok (false, xdrs, objp).

(** [switch (objp->tag) { case v: k; default or further cases: rest }] *)
Definition case_of (tag : S -> Z) (v : Z) (k rest : xdrproc S) : xdrproc S := fun xdrs objp =>
  if tag objp =? v then k xdrs objp else rest xdrs objp.

(** No member of the union is active after decoding this case. *)
Definition no_arm (clear : S -> S) : xdrproc S := fun xdrs objp =>
  if x_op xdrs =? XDR_DECODE then Ok (true, xdrs, clear objp) else Ok (true, xdrs, objp).
End Switch.

(** A field with its setter; a member of a union with the setter that makes it the active one. *)
Notation updates get upd := (@Build_Field _ _ get upd ltac:(intros []; reflexivity)) (only parsing).
Ltac arm_law := let E := fresh in intros [] ? E; cbv in E; repeat case_match; by inversion E.
Notation activates get upd := (@Build_Arm _ _ get upd ltac:(arm_law)) (only parsing).

#[global] Typeclasses Opaque field arm RETURN_TRUE RETURN_FALSE case_of no_arm
  xdr_u_int xdr_uint32_t xdr_enum xdr_bool xdr_uint64_t xdr_opaque xdr_bytes xdr_string xdr_pointer xdr_array.

Declare Scope xdr_scope.
Delimit Scope xdr_scope with xdr.
Notation "p @ f ;; k" := (field f p k) (at level 60, f at level 0, right associativity, format "p  @  f  ;; '//' k") : xdr_scope.
Notation "p @| f ;; k" := (arm f p k) (at level 60, f at level 0, right associativity, format "p  @|  f  ;; '//' k") : xdr_scope.
Notation "'case!' v 'of' tag ':' k 'else' rest" := (case_of tag v k rest) (at level 60, v at level 0, tag at level 0, k at level 59, right associativity) : xdr_scope.
#[global] Open Scope xdr_scope.

(** * Whole messages (xdr_impl.cpp) *)

Definition xdr_create : XDR := mk_XDR 0 false None false [] 0 [] 0 [] 0 [].

(** The vectors keep their capacity. *)
Definition xdr_reset (x : XDR) : XDR := mk_XDR (x_op x) false None false [] 0 [] (ll_cap x) [] 0 [].
Definition xdr_set_rdma (x : XDR) : XDR := with_rdma x true (rdma_chunk x) (rdma_chunk_used x).
Definition xdr_set_rdma_chunk (x : XDR) (c : option (list Z)) : res XDR :=
  assert! negb (match rdma_chunk x with Some _ => true | None => false end) || (match c with None => true | Some _ => false end) in
  Ok (with_rdma x (rdma x) c (rdma_chunk_used x)).

Definition xdr_decode {A} (x : XDR) (b : list Z) (size : Z) (fn : xdrproc A) (data : A) : res (bool * XDR * A) :=
  fn (with_buf (with_op x XDR_DECODE) b size) data.
Definition xdr_encode {A} (x : XDR) (fn : xdrproc A) (data : A) : res (bool * XDR * A) :=
  fn (with_op x XDR_ENCODE) data.

Definition xdr_encode_get_size (x : XDR) : Z :=
  foldl (fun len v => len + iov_len v) 0 (buf_list x) +
  (if last_end x <? zlen (cur_out x) then zlen (cur_out x) - last_end x else 0).

(** The parts without a base are consecutive pieces of [cur_out]. *)
Fixpoint assign_bases (cur : list Z) (l : list iovec) : list iovec :=
  match l with
  | [] => []
  | v :: l =>
    match iov_base v with
    | None => mk_iovec (Some cur) (iov_len v) :: assign_bases (drop (Z.to_nat (iov_len v)) cur) l
    | Some _ => v :: assign_bases cur l
    end
  end.

Definition xdr_encode_finish (x : XDR) : XDR * list iovec :=
  let x :=
    if last_end x <? zlen (cur_out x)
    then with_out x (cur_out x) (u32 (zlen (cur_out x))) (buf_list x ++ [mk_iovec None (zlen (cur_out x) - last_end x)])
    else x in
  let l := assign_bases (cur_out x) (buf_list x) in
  (with_out x (cur_out x) (last_end x) l, l).

(** The bytes [writev] sends for a list of parts. *)
Definition iov_bytes (l : list iovec) : list Z :=
  concat (map (fun v => take (Z.to_nat (iov_len v)) (default [] (iov_base v))) l).
