(* ===== verification/XdrCodec.v ===== *)
(** What an XDR routine must satisfy to be a codec: encoding appends the XDR
    representation of the object to the output and decoding that representation
    gives the object back.  Instances for the basic types, and for structures,
    unions, arrays and linked lists made of codecs. *)

From stdpp Require Import strings.
From S2P Require Import Prelude.
From S2P Require Import Xdr.

(** * Bytes *)

Definition is_bytes (l : list Z) : Prop := Forall (fun b => 0 <= b < 256) l.

Lemma be_length n v : length (be n v) = n.
Proof. unfold be. by rewrite length_map, length_rev, length_seq. Qed.
Lemma be_zlen n v : zlen (be n v) = Z.of_nat n.
Proof. unfold zlen. by rewrite be_length. Qed.

Lemma be_succ n v : be (S n) v = Z.land (Z.shiftr v (8 * Z.of_nat n)) 255 :: be n v.
Proof. unfold be. by rewrite seq_S, rev_app_distr. Qed.

Lemma of_be_acc l a : foldl (fun acc b => acc * 256 + b) a l = a * 256 ^ zlen l + of_be l.
Proof.
  unfold of_be. revert a. induction l as [| b l IH]; intros a; [unfold zlen; simpl; lia |].
  cbn [foldl]. rewrite IH, (IH (0 * 256 + b)), zlen_cons, Z.pow_add_r by (pose proof (zlen_nonneg l); lia). lia.
Qed.

Lemma of_be_be n v : of_be (be n v) = v mod 256 ^ Z.of_nat n.
Proof.
  induction n as [| n IH]; [by rewrite Z.mod_1_r |].
  rewrite be_succ. unfold of_be. cbn [foldl]. rewrite of_be_acc, IH, be_zlen. change 255 with (Z.ones 8).
  rewrite Z.land_ones, Z.shiftr_div_pow2 by lia. replace (2 ^ (8 * Z.of_nat n)) with (256 ^ Z.of_nat n).
  - rewrite Nat2Z.inj_succ, Z.pow_succ_r, (Z.mul_comm 256) by lia. change (2 ^ 8) with 256.
    rewrite (Z.rem_mul_r v (256 ^ Z.of_nat n) 256) by (lia || apply Z.pow_nonzero; lia). lia.
  - rewrite Z.pow_mul_r by lia. done.
Qed.

Lemma of_be_u32 v : 0 <= v < 4294967296 -> of_be (be 4 v) = v.
Proof. intros. rewrite of_be_be. by apply Z.mod_small. Qed.
Lemma of_be_u64 v : 0 <= v < 18446744073709551616 -> of_be (be 8 v) = v.
Proof. intros. rewrite of_be_be. by apply Z.mod_small. Qed.

Lemma bytes_at_app l l' : bytes_at (l ++ l') (zlen l) = Ok l.
Proof.
  unfold bytes_at. rewrite zlen_app. pose proof (zlen_nonneg l'). rewrite (proj2 (Z.leb_le _ _)) by lia.
  f_equal. unfold zlen. rewrite Nat2Z.id. apply take_app_length.
Qed.
Lemma bytes_at_be n v l : bytes_at (be n v ++ l) (Z.of_nat n) = Ok (be n v).
Proof. rewrite <- (be_zlen n v). apply bytes_at_app. Qed.

Lemma poke_app (c bs tl : list Z) : poke (c ++ replicate (length bs) 0 ++ tl) (zlen c) bs = Ok (c ++ bs ++ tl).
Proof.
  unfold poke. rewrite !zlen_app, zlen_replicate. pose proof (zlen_nonneg tl). rewrite (proj2 (Z.leb_le _ _)) by (unfold zlen; lia).
  f_equal. unfold zlen. rewrite Nat2Z.id, take_app_length. do 2 f_equal.
  rewrite drop_app_ge, drop_app_ge by (rewrite ?length_replicate; lia). f_equal.
  rewrite length_replicate. replace (_ - _ - _)%nat with 0%nat by lia. apply drop_0.
Qed.

Lemma resize_grow c n : 0 <= n -> resize c (zlen c + n) = c ++ replicate (Z.to_nat n) 0.
Proof.
  intros Hn. unfold resize, zlen. rewrite take_ge by lia. f_equal. f_equal. lia.
Qed.

Definition small (x : XDR) (n : Z) : Prop := zlen (cur_out x) + n < 4294967296.

Lemma put_ok x bs :
  small x (zlen bs) -> put x bs = Ok (with_out x (cur_out x ++ bs) (last_end x) (buf_list x)).
Proof.
  unfold small, put. intros Hs. pose proof (zlen_nonneg (cur_out x)). pose proof (zlen_nonneg bs). rewrite !u32_small by (rewrite ?u32_small; lia).
  rewrite resize_grow, zlen_to_nat by lia.
  pose proof (poke_app (cur_out x) bs []) as H1. rewrite !app_nil_r in H1. by rewrite H1.
Qed.

(** * The output *)

Fixpoint emit (cur : list Z) (l : list iovec) : list Z :=
  match l with
  | [] => []
  | v :: l =>
    match iov_base v with
    | None => take (Z.to_nat (iov_len v)) cur ++ emit (drop (Z.to_nat (iov_len v)) cur) l
    | Some d => take (Z.to_nat (iov_len v)) d ++ emit cur l
    end
  end.

(** What has been encoded so far. *)
Definition output (x : XDR) : list Z := emit (cur_out x) (buf_list x) ++ drop (Z.to_nat (last_end x)) (cur_out x).

Fixpoint pieces (l : list iovec) : Z :=
  match l with
  | [] => 0
  | v :: l => match iov_base v with None => iov_len v + pieces l | Some _ => pieces l end
  end.

Record out_ok (x : XDR) : Prop := {
  oo_end : last_end x = pieces (buf_list x);
  oo_len : Forall (fun v => 0 <= iov_len v) (buf_list x);
  oo_base : Forall (fun v => forall d, iov_base v = Some d -> iov_len v <= zlen d) (buf_list x);
  oo_cur : last_end x <= zlen (cur_out x) }.

Lemma pieces_nonneg l : Forall (fun v => 0 <= iov_len v) l -> 0 <= pieces l.
Proof. induction 1 as [| v l ? _ IH]; simpl; [done | destruct (iov_base v); lia]. Qed.
Lemma pieces_app l l' : pieces (l ++ l') = pieces l + pieces l'.
Proof. induction l as [| v l IH]; simpl; [done |]. destruct (iov_base v); lia. Qed.

Lemma emit_app cur l l' :
  Forall (fun v => 0 <= iov_len v) l -> emit cur (l ++ l') = emit cur l ++ emit (drop (Z.to_nat (pieces l)) cur) l'.
Proof.
  intros Hl. revert cur. induction Hl as [| v l Hv Hl IH]; intros cur; simpl; [by rewrite drop_0 |].
  pose proof (pieces_nonneg l Hl). destruct (iov_base v); rewrite IH, app_assoc; [done |].
  do 2 f_equal. rewrite drop_drop. f_equal. lia.
Qed.

Lemma emit_more cur b l :
  Forall (fun v => 0 <= iov_len v) l -> pieces l <= zlen cur -> emit (cur ++ b) l = emit cur l.
Proof.
  intros Hl. revert cur. induction Hl as [| v l Hv Hl IH]; intros cur Hp; simpl in *; [done |].
  pose proof (pieces_nonneg l Hl). unfold zlen in *. destruct (iov_base v); [by rewrite IH |].
  rewrite take_app_le, drop_app_le by lia. f_equal. apply IH. rewrite length_drop. lia.
Qed.

Lemma drop_last_end x b : out_ok x -> drop (Z.to_nat (last_end x)) (cur_out x ++ b) = drop (Z.to_nat (last_end x)) (cur_out x) ++ b.
Proof. intros []. rewrite drop_app_le; [done |]. unfold zlen in *. lia. Qed.

(** Storing into [cur_out] appends to the output. *)
Lemma output_put x bs (x' := with_out x (cur_out x ++ bs) (last_end x) (buf_list x)) :
  out_ok x -> out_ok x' /\ output x' = output x ++ bs.
Proof.
  intros Hx. unfold output, x'. cbn [cur_out buf_list last_end with_out].
  rewrite drop_last_end, emit_more, app_assoc by (done || destruct Hx; try congruence; try lia).
  split; [| done]. destruct Hx. constructor; simpl; try done. rewrite zlen_app. pose proof (zlen_nonneg bs). lia.
Qed.

(** A buffer of the caller becomes a part of its own. *)
Lemma output_part x d n
    (x' := with_out x (cur_out x) (zlen (cur_out x)) (buf_list x ++ [mk_iovec None (zlen (cur_out x) - last_end x); mk_iovec (Some d) n])) :
  out_ok x -> 0 <= n <= zlen d -> out_ok x' /\ output x' = output x ++ take (Z.to_nat n) d.
Proof.
  intros [He Hl Hb Hc] Hn. pose proof (pieces_nonneg _ Hl) as Hp. split.
  - constructor; simpl; rewrite ?pieces_app; simpl; [lia | | | done].
    + apply Forall_app. split; [done |]. repeat constructor; simpl; lia.
    + apply Forall_app. split; [done |]. repeat constructor; simpl; [done |]. intros ? [= <-]. lia.
  - unfold output, x'. cbn [cur_out buf_list last_end with_out]. rewrite emit_app by done. cbn [emit iov_base iov_len].
    rewrite (drop_ge _ (Z.to_nat (zlen (cur_out x)))) by (unfold zlen; lia). rewrite !app_nil_r, <- !app_assoc. f_equal.
    rewrite <- He. f_equal. apply take_ge. rewrite length_drop. unfold zlen. lia.
Qed.

Lemma out_small x : out_ok x -> zlen (cur_out x) <= zlen (output x).
Proof.
  intros [He Hl _ Hc]. pose proof (pieces_nonneg _ Hl). unfold output. rewrite zlen_app. unfold zlen at 3. rewrite length_drop.
  assert (forall cur, pieces (buf_list x) <= zlen cur -> pieces (buf_list x) <= zlen (emit cur (buf_list x))) as Hle.
  { clear -Hl. induction Hl as [| v l Hv Hl IH]; intros cur Hp; simpl in *; [done |].
    pose proof (pieces_nonneg l Hl). destruct (iov_base v); rewrite zlen_app; unfold zlen in *; rewrite length_take.
    - specialize (IH cur Hp). lia.
    - specialize (IH (drop (Z.to_nat (iov_len v)) cur)). rewrite length_drop in IH. lia. }
  specialize (Hle (cur_out x) ltac:(lia)). unfold zlen in *. lia.
Qed.

(** * Codecs *)

(** Encoding leaves the decoding side alone. *)
Definition same_input (x x' : XDR) : Prop :=
  x_op x' = x_op x /\ rdma x' = rdma x /\ rdma_chunk x' = rdma_chunk x /\ rdma_chunk_used x' = rdma_chunk_used x /\
  buf x' = buf x /\ avail x' = avail x /\ in_linked_list x' = in_linked_list x /\ ll_cap x' = ll_cap x.

(** Ready to encode [n] more bytes over a connection without RDMA. *)
Record writing (x : XDR) (n : Z) : Prop := {
  wr_op : x_op x = XDR_ENCODE;
  wr_rdma : rdma x = false;
  wr_out : out_ok x;
  wr_small : zlen (output x) + n < 4294967296 }.

(** Ready to decode the bytes [b]. *)
Record reading (x : XDR) (b : list Z) : Prop := {
  rd_op : x_op x = XDR_DECODE;
  rd_rdma : rdma x = false;
  rd_buf : buf x = b;
  rd_avail : avail x = zlen b;
  rd_small : zlen b < 4294967296;
  rd_cap : (length (in_linked_list x) <= ll_cap x)%nat }.

(** Decoding [depth] lists within one another does not move the vector of open lists. *)
Definition room (depth : nat) (x : XDR) : Prop := (depth <= 1)%nat \/ (length (in_linked_list x) + depth <= ll_cap x)%nat.
(** The innermost open list is of none of these types. *)
Definition outside (fns : list string) (x : XDR) : Prop := forall l, head (in_linked_list x) = Some l -> ll_fn l ∉ fns.

Definition read_up_to (x : XDR) (rest : list Z) (cap : nat) : XDR := with_ll (with_buf x rest (zlen rest)) (in_linked_list x) cap.

(** The capacity after decoding with nesting [depth]. *)
Definition cap_after (depth : nat) (x : XDR) (cap : nat) : Prop :=
  (ll_cap x <= cap)%nat /\ (depth = 0%nat \/ (length (in_linked_list x) + depth <= ll_cap x)%nat -> cap = ll_cap x).

Definition encodes {A} (p : xdrproc A) (wire : A -> list Z) (fits : A -> Prop) : Prop := forall x a,
  fits a -> writing x (zlen (wire a)) ->
  exists x', p x a = Ok (true, x', a) /\ same_input x x' /\ out_ok x' /\ output x' = output x ++ wire a.

Definition decodes {A} (p : xdrproc A) (wire : A -> list Z) (fits : A -> Prop) (depth : nat) (fns : list string) : Prop :=
  forall x a a0 rest,
  fits a -> reading x (wire a ++ rest) -> room depth x -> outside fns x ->
  exists cap, p x a0 = Ok (true, read_up_to x rest cap, a) /\ cap_after depth x cap.

(** The interface between a routine and the routines that call it: the XDR
    representation of an object, the objects it can hold, how deep it nests
    lists, and that encoding and decoding are inverse to each other. *)
Class Codec {A} (p : xdrproc A) := {
  wire : A -> list Z;
  fits : A -> Prop;
  depth : nat;
  fns : list string;
  wire_units : forall a, fits a -> zlen (wire a) mod 4 = 0;
  encode_ok : encodes p wire fits;
  decode_ok : decodes p wire fits depth fns }.
#[global] Hint Mode Codec + + : typeclass_instances.
Arguments wire {A} p {_}.
Arguments fits {A} p {_}.
Arguments depth {A} p {_}.
Arguments fns {A} p {_}.

Lemma same_input_refl x : same_input x x.
Proof. by repeat split. Qed.
Lemma same_input_trans x y z : same_input x y -> same_input y z -> same_input x z.
Proof. intros (?&?&?&?&?&?&?&?) (?&?&?&?&?&?&?&?). repeat split; congruence. Qed.

Lemma writing_next x x' n m bs :
  writing x n -> same_input x x' -> out_ok x' -> output x' = output x ++ bs -> zlen bs + m <= n -> writing x' m.
Proof.
  intros [H1 H2 H3 H4] (E1 & E2 & _) Ho Eo Hn. constructor; [congruence | congruence | done |]. rewrite Eo, zlen_app. lia.
Qed.

Lemma writing_small x n m : writing x n -> m <= n -> small x m.
Proof. intros [_ _ Ho Hs] Hm. unfold small. pose proof (out_small x Ho). lia. Qed.

(** Encoding by one store. *)
Lemma put_encodes x bs n :
  writing x n -> zlen bs <= n ->
  exists x', put x bs = Ok x' /\ same_input x x' /\ out_ok x' /\ output x' = output x ++ bs.
Proof.
  intros Hw Hn. rewrite put_ok by by eapply writing_small. eexists. split; [done |]. split; [by repeat split |].
  apply output_put, Hw.
Qed.

Lemma skip_read x b rest : reading x (b ++ rest) -> skip x (zlen b) = read_up_to x rest (ll_cap x).
Proof.
  intros [_ _ Hb Ha Hs _]. rewrite zlen_app in *. pose proof (zlen_nonneg b). pose proof (zlen_nonneg rest).
  unfold skip, read_up_to, with_ll, with_buf. simpl. rewrite Hb, Ha, zlen_to_nat, drop_app_length, u32_small by lia.
  do 2 f_equal. lia.
Qed.

Lemma cap_same depth x : cap_after depth x (ll_cap x).
Proof. split; [lia | done]. Qed.

Lemma reading_up_to x b rest cap : reading x (b ++ rest) -> (length (in_linked_list x) <= cap)%nat -> reading (read_up_to x rest cap) rest.
Proof.
  intros [H1 H2 H3 H4 H5 H6] Hc. rewrite zlen_app in H5. pose proof (zlen_nonneg b). constructor; try done. lia.
Qed.

Lemma read_up_to_twice x r1 c1 r2 c2 : read_up_to (read_up_to x r1 c1) r2 c2 = read_up_to x r2 c2.
Proof. done. Qed.

(** ** Basic types *)

Lemma be_units n v : Z.of_nat n mod 4 = 0 -> zlen (be n v) mod 4 = 0.
Proof. by rewrite be_zlen. Qed.

Section Number.
Context (n : nat) (p : xdrproc Z).
Hypothesis Hp : forall x v, p x v =
  if x_op x =? XDR_DECODE then
    if avail x <? Z.of_nat n then Ok (false, x, v) else let* b := bytes_at (buf x) (Z.of_nat n) in Ok (true, skip x (Z.of_nat n), of_be b)
  else let* x := put x (be n v) in Ok (true, x, v).

Lemma number_encodes : encodes p (be n) (fun v => 0 <= v < 256 ^ Z.of_nat n).
Proof.
  intros x v _ Hw. rewrite Hp, (wr_op _ _ Hw). change (XDR_ENCODE =? XDR_DECODE) with false.
  destruct (put_encodes x (be n v) _ Hw ltac:(lia)) as (x' & -> & Hx'). by exists x'.
Qed.
Lemma number_decodes : decodes p (be n) (fun v => 0 <= v < 256 ^ Z.of_nat n) 0 [].
Proof.
  intros x v v0 rest Hv Hr _ _. exists (ll_cap x). split; [| apply cap_same].
  rewrite Hp, (rd_op _ _ Hr), (rd_avail _ _ Hr), (rd_buf _ _ Hr). rewrite Z.eqb_refl.
  pose proof (zlen_nonneg rest). rewrite zlen_app, be_zlen, (proj2 (Z.ltb_ge _ _)) by lia. rewrite bytes_at_be. cbn [rbind].
  pose proof (skip_read _ _ _ Hr) as E. rewrite be_zlen in E. by rewrite E, of_be_be, Z.mod_small by lia.
Qed.
End Number.

#[global] Instance xdr_u_int_codec : Codec xdr_u_int := {
  wire := be 4; fits v := 0 <= v < 4294967296; depth := 0; fns := [];
  wire_units v _ := be_units 4 v eq_refl;
  encode_ok := number_encodes 4 xdr_u_int (fun _ _ => eq_refl);
  decode_ok := number_decodes 4 xdr_u_int (fun _ _ => eq_refl) }.
#[global] Instance xdr_uint64_t_codec : Codec xdr_uint64_t := {
  wire := be 8; fits v := 0 <= v < 18446744073709551616; depth := 0; fns := [];
  wire_units v _ := be_units 8 v eq_refl;
  encode_ok := number_encodes 8 xdr_uint64_t (fun _ _ => eq_refl);
  decode_ok := number_decodes 8 xdr_uint64_t (fun _ _ => eq_refl) }.
#[global] Instance xdr_uint32_t_codec : Codec xdr_uint32_t := xdr_u_int_codec.
#[global] Instance xdr_enum_codec : Codec xdr_enum := xdr_u_int_codec.
#[global] Instance xdr_bool_codec : Codec xdr_bool := xdr_u_int_codec.

(** *** Opaque data and strings *)

Definition padding (n : Z) : list Z := replicate (Z.to_nat ((4 - n mod 4) mod 4)) 0.

Lemma land3 n : Z.land n 3 = n mod 4.
Proof. change 3 with (Z.ones 2). by rewrite Z.land_ones. Qed.
Lemma padding_cases n : (if Z.land n 3 =? 0 then 0 else 4 - Z.land n 3) = (4 - n mod 4) mod 4.
Proof.
  rewrite land3. pose proof (Z.mod_pos_bound n 4 ltac:(lia)). destruct (Z.eqb_spec (n mod 4) 0) as [-> |]; [done |].
  symmetry. apply Z.mod_small. lia.
Qed.
Lemma padded_units n : 0 <= n -> (n + (4 - n mod 4) mod 4) mod 4 = 0.
Proof.
  intros Hn. pose proof (Z.div_mod n 4 ltac:(lia)) as E. pose proof (Z.mod_pos_bound n 4 ltac:(lia)).
  destruct (Z.eq_dec (n mod 4) 0) as [E0 | E0]; [rewrite E0; change ((4 - 0) mod 4) with 0; by rewrite Z.add_0_r |].
  rewrite (Z.mod_small (4 - _)) by lia. replace (n + (4 - n mod 4)) with ((n / 4 + 1) * 4) by lia. apply Z.mod_mul. lia.
Qed.
Lemma len_pad4_ok n : 0 <= n <= 4294967292 -> len_pad4 n = n + (4 - n mod 4) mod 4.
Proof.
  intros Hn. unfold len_pad4. rewrite (u32_small (n + 3)) by lia.
  pose proof (Z.div_mod n 4 ltac:(lia)) as E. pose proof (Z.mod_pos_bound n 4 ltac:(lia)).
  assert ((n + 3) / 4 = if n mod 4 =? 0 then n / 4 else n / 4 + 1) as ->.
  { symmetry. destruct (Z.eqb_spec (n mod 4) 0); [apply (Z.div_unique_pos _ _ _ 3) | apply (Z.div_unique_pos _ _ _ (n mod 4 - 1))]; lia. }
  destruct (Z.eqb_spec (n mod 4) 0) as [E0 | E0].
  - rewrite E0. change ((4 - 0) mod 4) with 0. rewrite u32_small by lia. lia.
  - rewrite (Z.mod_small (4 - _)) by lia. rewrite u32_small by lia. lia.
Qed.

(** Fixed arrays whose length is a multiple of 4; for other lengths see
    [xdr_opaque_padding]. *)
Section Opaque.
Context (len : Z).
Hypothesis Hlen : 0 < len < 4294967292 /\ len mod 4 = 0.

Lemma opaque_encodes : encodes (xdr_opaque len) (fun d => d) (fun d => zlen d = len).
Proof.
  intros x d Hd Hw. unfold xdr_opaque. rewrite (proj2 (Z.leb_gt _ _)) by lia. rewrite (wr_op _ _ Hw).
  change (XDR_ENCODE =? XDR_DECODE) with false. cbv iota zeta.
  assert (Z.land len 3 =? 0 = true) as -> by (rewrite land3; apply Z.eqb_eq; lia). cbv iota.
  pose proof (writing_small _ _ len Hw ltac:(lia)) as Hs. unfold small in Hs. pose proof (zlen_nonneg (cur_out x)).
  assert (bytes_at d len = Ok d) as -> by (rewrite <- Hd, <- (app_nil_r d) at 1; apply bytes_at_app). cbn [rbind].
  rewrite !u32_small, Z.add_0_r by (rewrite ?u32_small; lia). rewrite resize_grow, <- Hd, zlen_to_nat by lia.
  pose proof (poke_app (cur_out x) d []) as E. rewrite !app_nil_r in E. rewrite E. cbn [rbind].
  pose proof (poke_app (cur_out x) [] d) as E2. cbn [length replicate app] in E2. change (replicate (Z.to_nat 0) 0) with (@nil Z). rewrite E2. cbn [rbind].
  eexists. split; [done |]. split; [by repeat split |]. apply output_put, Hw.
Qed.
Lemma opaque_decodes : decodes (xdr_opaque len) (fun d => d) (fun d => zlen d = len) 0 [].
Proof.
  intros x d d0 rest Hd Hr _ _. exists (ll_cap x). split; [| apply cap_same]. unfold xdr_opaque.
  rewrite (proj2 (Z.leb_gt _ _)) by lia. rewrite (rd_op _ _ Hr), Z.eqb_refl, (rd_avail _ _ Hr), (rd_buf _ _ Hr), zlen_app.
  rewrite len_pad4_ok, (proj2 Hlen) by lia. change ((4 - 0) mod 4) with 0. rewrite Z.add_0_r.
  pose proof (zlen_nonneg rest). rewrite (proj2 (Z.ltb_ge _ _)) by lia. rewrite <- Hd, bytes_at_app. cbn [rbind].
  by rewrite (skip_read _ _ _ Hr).
Qed.
End Opaque.

Class Units (len : Z) := units_ok : 0 < len < 4294967292 /\ len mod 4 = 0.
#[global] Instance xdr_opaque_codec len `{Units len} : Codec (xdr_opaque len) := {
  wire d := d; fits d := zlen d = len; depth := 0; fns := [];
  wire_units d Hd := eq_trans (f_equal (fun z => z mod 4) Hd) (proj2 units_ok);
  encode_ok := opaque_encodes len units_ok; decode_ok := opaque_decodes len units_ok }.

Definition string_wire (s : xdr_string_t) : list Z := be 4 (s_size s) ++ s_data s ++ padding (s_size s).
Definition string_fits (s : xdr_string_t) : Prop := s_size s = zlen (s_data s) /\ s_size s <= 4294967284.

Lemma string_wire_len s : string_fits s -> zlen (string_wire s) = 4 + s_size s + (4 - s_size s mod 4) mod 4.
Proof.
  intros [E _]. unfold string_wire, padding. rewrite !zlen_app, be_zlen, zlen_replicate, E.
  pose proof (Z.mod_pos_bound (4 - zlen (s_data s) mod 4) 4 ltac:(lia)). lia.
Qed.
Lemma string_units s : string_fits s -> zlen (string_wire s) mod 4 = 0.
Proof.
  intros Hs. rewrite string_wire_len by done. destruct Hs as [E _]. pose proof (zlen_nonneg (s_data s)).
  rewrite <- Z.add_assoc, Z.add_comm, <- Z.add_mod_idemp_l, padded_units by lia. done.
Qed.

Section Bytes.
Context (maxlen : Z) (chunk : bool).

(** Short strings are copied, long ones become parts of their own. *)
Lemma bytes_copy x s :
  string_fits s -> out_ok x -> small x (4 + s_size s) ->
  exists x', copy_bytes x s = Ok x' /\
    same_input x x' /\ out_ok x' /\ output x' = output x ++ be 4 (s_size s) ++ s_data s.
Proof.
  intros [Es Hsz] Ho Hs. unfold small in Hs. pose proof (zlen_nonneg (cur_out x)). pose proof (zlen_nonneg (s_data s)).
  unfold copy_bytes. rewrite u32_small by lia.
  assert (bytes_at (s_data s) (s_size s) = Ok (s_data s)) as -> by (rewrite Es, <- (app_nil_r (s_data s)) at 1; apply bytes_at_app).
  cbn [rbind]. rewrite <- Z.add_assoc, resize_grow, Z2Nat.inj_add, replicate_add by lia.
  change (Z.to_nat 4) with (length (be 4 (s_size s))). rewrite poke_app. cbn [rbind].
  change (zlen (cur_out x) + 4) with (zlen (cur_out x) + Z.of_nat 4). rewrite (app_assoc (cur_out x)), <- (be_zlen 4 (s_size s)), <- zlen_app, Es, zlen_to_nat.
  pose proof (poke_app (cur_out x ++ be 4 (zlen (s_data s))) (s_data s) []) as E. rewrite !app_nil_r in E. rewrite E. cbn [rbind].
  eexists. split; [done |]. split; [by repeat split |]. rewrite <- app_assoc. by apply output_put.
Qed.

Lemma bytes_part x s :
  string_fits s -> out_ok x -> small x 4 ->
  exists x', part_bytes x s = Ok x' /\
    same_input x x' /\ out_ok x' /\ output x' = output x ++ be 4 (s_size s) ++ s_data s.
Proof.
  intros [Es Hsz] Ho Hs. unfold part_bytes. rewrite put_ok by by rewrite be_zlen. cbn [rbind].
  destruct (output_put x (be 4 (s_size s)) Ho) as [Ho1 E1]. revert Ho1 E1.
  set (x1 := with_out x _ _ _). intros Ho1 E1. unfold small in Hs. pose proof (zlen_nonneg (cur_out x)). pose proof (zlen_nonneg (s_data s)).
  assert (zlen (cur_out x1) = zlen (cur_out x) + 4) as El by (unfold x1; simpl; by rewrite zlen_app, be_zlen).
  rewrite u32_small by lia.
  destruct (output_part x1 (s_data s) (s_size s) Ho1 ltac:(lia)) as [Ho2 E2].
  eexists. split; [done |]. split; [by repeat split |]. split; [exact Ho2 |]. rewrite E2, E1, <- app_assoc.
  do 2 f_equal. rewrite Es, zlen_to_nat. by apply take_ge.
Qed.

Lemma bytes_encodes : encodes (xdr_bytes maxlen chunk) string_wire string_fits.
Proof.
  intros x s Hs Hw. unfold xdr_bytes. rewrite (wr_op _ _ Hw), (wr_rdma _ _ Hw), orb_true_r, !andb_true_r.
  change (XDR_ENCODE =? XDR_DECODE) with false. cbv iota zeta.
  pose proof (string_wire_len s Hs) as Hl. pose proof (Z.mod_pos_bound (4 - s_size s mod 4) 4 ltac:(lia)) as Hm.
  pose proof (proj1 Hs) as Es. pose proof (zlen_nonneg (s_data s)).
  assert (exists x1, (if s_size s <? XDR_COPY_LENGTH then copy_bytes x s else part_bytes x s) = Ok x1 /\
      same_input x x1 /\ out_ok x1 /\ output x1 = output x ++ be 4 (s_size s) ++ s_data s) as (x1 & -> & Hi & Ho & Eo).
  { destruct (_ <? _); [apply bytes_copy | apply bytes_part]; try done; try apply Hw; eapply writing_small; try done; lia. }
  cbn [rbind].
  assert (exists x2, (if negb (Z.land (s_size s) 3 =? 0) then put x1 (replicate (Z.to_nat (4 - Z.land (s_size s) 3)) 0) else Ok x1) = Ok x2 /\
      same_input x1 x2 /\ out_ok x2 /\ output x2 = output x1 ++ padding (s_size s)) as (x2 & -> & Hi2 & Ho2 & Eo2).
  { pose proof (padding_cases (s_size s)) as Hp. unfold padding. destruct (Z.land (s_size s) 3 =? 0).
    - exists x1. split; [done |]. split; [apply same_input_refl |]. split; [done |]. by rewrite <- Hp, app_nil_r.
    - rewrite Hp. eapply put_encodes; [| apply Z.le_refl]. eapply writing_next; [exact Hw | done | done | done |].
      rewrite zlen_app, be_zlen, zlen_replicate. lia. }
  exists x2. split; [done |]. split; [by eapply same_input_trans |]. split; [done |].
  rewrite Eo2, Eo. unfold string_wire. by rewrite <- !app_assoc.
Qed.

Lemma bytes_decodes : decodes (xdr_bytes maxlen chunk) string_wire string_fits 0 [].
Proof.
  intros x s s0 rest Hs Hr _ _. exists (ll_cap x). split; [| apply cap_same]. unfold xdr_bytes.
  pose proof (string_wire_len s Hs) as Hl. pose proof (Z.mod_pos_bound (4 - s_size s mod 4) 4 ltac:(lia)) as Hm.
  pose proof (zlen_nonneg (s_data s)). pose proof (zlen_nonneg rest). destruct Hs as [Es Hsz].
  rewrite (rd_op _ _ Hr), Z.eqb_refl, (rd_avail _ _ Hr), (rd_rdma _ _ Hr), andb_false_r, (rd_buf _ _ Hr), zlen_app, Hl.
  rewrite (proj2 (Z.ltb_ge _ _)) by lia. unfold string_wire at 1. rewrite <- app_assoc. change 4 with (Z.of_nat 4) at 1. rewrite bytes_at_be. cbn [rbind].
  rewrite of_be_u32 by lia. rewrite len_pad4_ok by lia. rewrite u32_small by lia. rewrite (proj2 (Z.ltb_ge _ _)) by lia.
  rewrite Z.add_assoc, <- Hl, (skip_read _ _ _ Hr). do 2 f_equal. unfold string_wire.
  rewrite <- !app_assoc. change (drop 4) with (@drop Z (length (be 4 (s_size s)))). rewrite drop_app_length.
  destruct s as [sz d]. simpl in *. f_equal. rewrite Es, zlen_to_nat. apply take_app_length.
Qed.
End Bytes.

#[global] Instance xdr_bytes_codec maxlen chunk : Codec (xdr_bytes maxlen chunk) := {
  wire := string_wire; fits := string_fits; depth := 0; fns := [];
  wire_units := string_units; encode_ok := bytes_encodes maxlen chunk; decode_ok := bytes_decodes maxlen chunk }.
#[global] Instance xdr_string_codec maxlen chunk : Codec (xdr_string maxlen chunk) := xdr_bytes_codec maxlen chunk.

(** ** Structures and unions *)

(** What is left of the routine of a structure: [bdone o0 o] says that decoding
    the rest of [o] into [o0] completes it to [o]. *)
Class Body {S} (k : xdrproc S) := {
  bwire : S -> list Z;
  bfits : S -> Prop;
  bdepth : nat;
  bfns : list string;
  bdone : S -> S -> Prop;
  body_units : forall o, bfits o -> zlen (bwire o) mod 4 = 0;
  body_encodes : encodes k bwire bfits;
  body_decodes : forall x o o0 rest,
    bfits o -> bdone o0 o -> reading x (bwire o ++ rest) -> room bdepth x -> outside bfns x ->
    exists cap, k x o0 = Ok (true, read_up_to x rest cap, o) /\ cap_after bdepth x cap }.
#[global] Hint Mode Body + + : typeclass_instances.
Arguments bwire {S} k {_}.
Arguments bfits {S} k {_}.
Arguments bdepth {S} k {_}.
Arguments bfns {S} k {_}.
Arguments bdone {S} k {_}.

Lemma room_max d1 d2 x : room (Nat.max d1 d2) x -> room d1 x /\ forall rest cap, (ll_cap x <= cap)%nat -> room d2 (read_up_to x rest cap).
Proof. unfold room. simpl. intros H. split; [lia | intros; lia]. Qed.
Lemma cap_after_max d1 d2 x rest c1 c2 : cap_after d1 x c1 -> cap_after d2 (read_up_to x rest c1) c2 -> cap_after (Nat.max d1 d2) x c2.
Proof. unfold cap_after. simpl. intros [H1 H2] [H3 H4]. split; [lia |]. intros H. specialize (H2 ltac:(lia)). subst c1. apply H4. lia. Qed.
Lemma outside_app f1 f2 x : outside (f1 ++ f2) x -> outside f1 x /\ forall rest cap, outside f2 (read_up_to x rest cap).
Proof. unfold outside. simpl. intros H. split; [| intros _ _]; intros l Hl Hin; apply (H l Hl), elem_of_app; tauto. Qed.
Lemma units_app (a b : list Z) : zlen a mod 4 = 0 -> zlen b mod 4 = 0 -> zlen (a ++ b) mod 4 = 0.
Proof. intros Ha Hb. rewrite zlen_app, Z.add_mod, Ha, Hb by lia. done. Qed.

(** One routine after another. *)
Section Sequence.
Context {S F : Type} (p : xdrproc F) (k : xdrproc S) `{Codec F p, Body S k}.

Lemma sequence_encodes x (v : F) (o : S) n :
  fits p v -> bfits k o -> writing x n -> zlen (wire p v) + zlen (bwire k o) <= n ->
  exists x1 x2, p x v = Ok (true, x1, v) /\ k x1 o = Ok (true, x2, o) /\ same_input x x2 /\ out_ok x2 /\
    output x2 = output x ++ wire p v ++ bwire k o.
Proof.
  intros Hv Ho Hw Hn. pose proof (zlen_nonneg (bwire k o)).
  destruct (encode_ok x v Hv) as (x1 & E1 & Hi1 & Ho1 & Eo1). { destruct Hw. constructor; try done. lia. }
  destruct (body_encodes x1 o Ho) as (x2 & E2 & Hi2 & Ho2 & Eo2). { eapply writing_next; [exact Hw | done | done | done | lia]. }
  exists x1, x2. split; [done |]. split; [done |]. split; [by eapply same_input_trans |]. split; [done |].
  rewrite Eo2, Eo1. by rewrite app_assoc.
Qed.

Lemma sequence_decodes x (v v0 : F) (o o0 : S) rest (d := Nat.max (depth p) (bdepth k)) (fs := fns p ++ bfns k) :
  fits p v -> bfits k o -> bdone k o0 o -> reading x (wire p v ++ bwire k o ++ rest) -> room d x -> outside fs x ->
  exists c1 c2, p x v0 = Ok (true, read_up_to x (bwire k o ++ rest) c1, v) /\
    k (read_up_to x (bwire k o ++ rest) c1) o0 = Ok (true, read_up_to x rest c2, o) /\ cap_after d x c2.
Proof.
  intros Hv Ho Hd Hr [Hr1 Hr2]%room_max [Hf1 Hf2]%outside_app.
  destruct (decode_ok x v v0 _ Hv Hr Hr1 Hf1) as (c1 & E1 & Hc1).
  assert (reading (read_up_to x (bwire k o ++ rest) c1) (bwire k o ++ rest)) as Hr'.
  { eapply reading_up_to; [exact Hr |]. destruct Hc1. pose proof (rd_cap _ _ Hr). lia. }
  destruct (body_decodes _ o o0 rest Ho Hd Hr' (Hr2 _ _ (proj1 Hc1)) (Hf2 _ _)) as (c2 & E2 & Hc2).
  exists c1, c2. split; [done |]. split; [done |]. by eapply cap_after_max.
Qed.
End Sequence.

Section BodyInstances.
Context {S F : Type}.

Lemma return_true_encodes : encodes (@RETURN_TRUE S) (fun _ => []) (fun _ => True).
Proof. intros x o _ Hw. exists x. rewrite app_nil_r. split; [done |]. split; [apply same_input_refl |]. split; [apply Hw | done]. Qed.
Lemma return_true_decodes x (o o0 : S) rest :
  True -> o0 = o -> reading x ([] ++ rest) -> room 0 x -> outside [] x ->
  exists cap, RETURN_TRUE x o0 = Ok (true, read_up_to x rest cap, o) /\ cap_after 0 x cap.
Proof.
  intros _ -> Hr _ _. exists (ll_cap x). split; [| apply cap_same]. rewrite <- (skip_read x [] rest Hr). unfold RETURN_TRUE, skip.
  destruct Hr as [_ _ Eb Ea Hs _]. simpl in *. rewrite Z.sub_0_r, drop_0, u32_small by (rewrite Ea; pose proof (zlen_nonneg rest); lia).
  by destruct x.
Qed.
#[global] Instance return_true_body : Body (@RETURN_TRUE S) := {
  bwire _ := []; bfits _ := True; bdepth := 0; bfns := []; bdone o0 o := o0 = o;
  body_units _ _ := eq_refl; body_encodes := return_true_encodes; body_decodes := return_true_decodes }.

(** Nothing can be encoded or decoded where the routine returns FALSE. *)
#[global] Instance return_false_body : Body (@RETURN_FALSE S).
Proof.
  refine {| bwire _ := []; bfits _ := False; bdepth := 0; bfns := []; bdone _ _ := True |}; [done | by intros ??? | by intros].
Defined.

Section FieldBody.
Context (get : S -> F) `{Field S F get} (p : xdrproc F) (k : xdrproc S) `{Codec F p, Body S k}.

Lemma field_encodes : encodes (field get p k) (fun o => wire p (get o) ++ bwire k o) (fun o => fits p (get o) /\ bfits k o).
Proof.
  intros x o [Hv Ho] Hw. destruct (sequence_encodes p k x (get o) o _ Hv Ho Hw) as (x1 & x2 & E1 & E2 & Hx2); [rewrite zlen_app; lia |].
  exists x2. split; [| done]. unfold field. rewrite E1. cbn [rbind]. by rewrite set_get.
Qed.
Lemma field_decodes x o o0 rest :
  fits p (get o) /\ bfits k o -> bdone k (set o0 (get o)) o -> reading x ((wire p (get o) ++ bwire k o) ++ rest) ->
  room (Nat.max (depth p) (bdepth k)) x -> outside (fns p ++ bfns k) x ->
  exists cap, field get p k x o0 = Ok (true, read_up_to x rest cap, o) /\ cap_after (Nat.max (depth p) (bdepth k)) x cap.
Proof.
  intros [Hv Ho] Hd Hr Hrm Hf. rewrite <- app_assoc in Hr.
  destruct (sequence_decodes p k x (get o) (get o0) o _ rest Hv Ho Hd Hr Hrm Hf) as (c1 & c2 & E1 & E2 & Hc).
  exists c2. split; [| done]. unfold field. by rewrite E1.
Qed.
#[global] Instance field_body : Body (field get p k) := {
  bwire o := wire p (get o) ++ bwire k o; bfits o := fits p (get o) /\ bfits k o;
  bdepth := Nat.max (depth p) (bdepth k); bfns := fns p ++ bfns k; bdone o0 o := bdone k (set o0 (get o)) o;
  body_units o Ho := units_app _ _ (wire_units _ (proj1 Ho)) (body_units _ (proj2 Ho));
  body_encodes := field_encodes; body_decodes := field_decodes }.
End FieldBody.

Section ArmBody.
Context (get : S -> option F) `{Inhabited F, Arm S F get} (p : xdrproc F) (k : xdrproc S) `{Codec F p, Body S k}.

Definition arm_wire (o : S) : list Z := match get o with Some v => wire p v ++ bwire k o | None => [] end.
Definition arm_fits (o : S) : Prop := match get o with Some v => fits p v /\ bfits k o | None => False end.
Definition arm_done (o0 o : S) : Prop := match get o with Some v => bdone k (set_arm o0 v) o | None => False end.

Lemma arm_units o : arm_fits o -> zlen (arm_wire o) mod 4 = 0.
Proof. unfold arm_fits, arm_wire. destruct (get o); [| done]. intros [Hv Ho]. apply units_app; [by apply wire_units | by apply body_units]. Qed.
Lemma arm_encodes : encodes (arm get p k) arm_wire arm_fits.
Proof.
  intros x o Ho Hw. unfold arm_wire, arm_fits in *. destruct (get o) as [v |] eqn:E; [| done]. destruct Ho as [Hv Ho].
  destruct (sequence_encodes p k x v o _ Hv Ho Hw) as (x1 & x2 & E1 & E2 & Hx2); [rewrite zlen_app; lia |].
  exists x2. split; [| done]. unfold arm. rewrite E. simpl. rewrite E1. cbn [rbind]. by rewrite (set_arm_get o v E).
Qed.
Lemma arm_decodes x o o0 rest :
  arm_fits o -> arm_done o0 o -> reading x (arm_wire o ++ rest) ->
  room (Nat.max (depth p) (bdepth k)) x -> outside (fns p ++ bfns k) x ->
  exists cap, arm get p k x o0 = Ok (true, read_up_to x rest cap, o) /\ cap_after (Nat.max (depth p) (bdepth k)) x cap.
Proof.
  unfold arm_wire, arm_fits, arm_done. intros Ho Hd Hr Hrm Hf. destruct (get o) as [v |] eqn:E; [| done]. destruct Ho as [Hv Ho].
  rewrite <- app_assoc in Hr.
  destruct (sequence_decodes p k x v (default inhabitant (get o0)) o _ rest Hv Ho Hd Hr Hrm Hf) as (c1 & c2 & E1 & E2 & Hc).
  exists c2. split; [| done]. unfold arm. rewrite (rd_op _ _ Hr), Z.eqb_refl.
  transitivity (let* (ok, xdrs, v) := p x (default inhabitant (get o0)) in
    if ok then k xdrs (set_arm o0 v) else Ok (false, xdrs, set_arm o0 v)); [by destruct (get o0) | by rewrite E1].
Qed.
#[global] Instance arm_body : Body (arm get p k) := {
  bwire := arm_wire; bfits := arm_fits; bdepth := Nat.max (depth p) (bdepth k); bfns := fns p ++ bfns k; bdone := arm_done;
  body_units := arm_units; body_encodes := arm_encodes; body_decodes := arm_decodes }.
End ArmBody.
End BodyInstances.

Section Cases.
Context {S : Type}.

Lemma room_le d1 d2 x : (d1 <= d2)%nat -> room d2 x -> room d1 x.
Proof. unfold room. lia. Qed.
Lemma cap_after_le d1 d2 x c : (d1 <= d2)%nat -> cap_after d1 x c -> cap_after d2 x c.
Proof. unfold cap_after. intros Hd [H1 H2]. split; [done |]. intros H. apply H2. lia. Qed.
Lemma outside_sub f1 f2 x : (forall f, f ∈ f1 -> f ∈ f2) -> outside f2 x -> outside f1 x.
Proof. unfold outside. intros Hs H l Hl Hin. by apply (H l Hl), Hs. Qed.

Section CaseBody.
Context (tag : S -> Z) (v : Z) (k rest : xdrproc S) `{Body S k} `{Body S rest}.

Lemma case_units o :
  (if tag o =? v then bfits k o else bfits rest o) -> zlen (if tag o =? v then bwire k o else bwire rest o) mod 4 = 0.
Proof. destruct (tag o =? v); apply body_units. Qed.
Lemma case_encodes :
  encodes (case_of tag v k rest) (fun o => if tag o =? v then bwire k o else bwire rest o) (fun o => if tag o =? v then bfits k o else bfits rest o).
Proof. intros x o Ho Hw. unfold case_of. destruct (tag o =? v); by apply body_encodes. Qed.
Lemma case_decodes x o o0 tl :
  (if tag o =? v then bfits k o else bfits rest o) -> (tag o0 = tag o /\ if tag o =? v then bdone k o0 o else bdone rest o0 o) ->
  reading x ((if tag o =? v then bwire k o else bwire rest o) ++ tl) ->
  room (Nat.max (bdepth k) (bdepth rest)) x -> outside (bfns k ++ bfns rest) x ->
  exists cap, case_of tag v k rest x o0 = Ok (true, read_up_to x tl cap, o) /\ cap_after (Nat.max (bdepth k) (bdepth rest)) x cap.
Proof.
  intros Ho [Et Hd] Hr Hm Hf. unfold case_of. rewrite Et. destruct (tag o =? v).
  - destruct (body_decodes (k := k) x o o0 tl Ho Hd Hr) as (c & E & Hc); [eapply room_le; [| done]; lia | eapply outside_sub; [| done]; set_solver |].
    exists c. split; [done |]. eapply cap_after_le; [| done]. lia.
  - destruct (body_decodes (k := rest) x o o0 tl Ho Hd Hr) as (c & E & Hc); [eapply room_le; [| done]; lia | eapply outside_sub; [| done]; set_solver |].
    exists c. split; [done |]. eapply cap_after_le; [| done]. lia.
Qed.
#[global] Instance case_body : Body (case_of tag v k rest) := {
  bwire o := if tag o =? v then bwire k o else bwire rest o; bfits o := if tag o =? v then bfits k o else bfits rest o;
  bdepth := Nat.max (bdepth k) (bdepth rest); bfns := bfns k ++ bfns rest;
  bdone o0 o := tag o0 = tag o /\ if tag o =? v then bdone k o0 o else bdone rest o0 o;
  body_units := case_units; body_encodes := case_encodes; body_decodes := case_decodes }.
End CaseBody.

Section NoArmBody.
Context (clear : S -> S).
Lemma no_arm_encodes : encodes (no_arm clear) (fun _ => []) (fun o => clear o = o).
Proof.
  intros x o _ Hw. unfold no_arm. rewrite (wr_op _ _ Hw). change (XDR_ENCODE =? XDR_DECODE) with false.
  destruct (return_true_encodes x o I Hw) as (x' & E & H). by exists x'.
Qed.
Lemma no_arm_decodes x (o o0 : S) rest :
  clear o = o -> clear o0 = o -> reading x ([] ++ rest) -> room 0 x -> outside [] x ->
  exists cap, no_arm clear x o0 = Ok (true, read_up_to x rest cap, o) /\ cap_after 0 x cap.
Proof.
  intros _ Ho Hr Hm Hf. unfold no_arm. rewrite (rd_op _ _ Hr), Z.eqb_refl. by apply (return_true_decodes x o (clear o0) rest I).
Qed.
#[global] Instance no_arm_body : Body (no_arm clear) := {
  bwire _ := []; bfits o := clear o = o; bdepth := 0; bfns := []; bdone o0 o := clear o0 = o;
  body_units _ _ := eq_refl; body_encodes := no_arm_encodes; body_decodes := no_arm_decodes }.
End NoArmBody.

(** A routine that decodes every field is a codec. *)
Lemma struct_decodes (k : xdrproc S) `{Body S k} :
  (forall o0 o, bfits k o -> bdone k o0 o) -> decodes k (bwire k) (bfits k) (bdepth k) (bfns k).
Proof. intros Hd x o o0 rest Ho Hr Hm Hf. apply body_decodes; auto. Qed.
Definition struct_codec (k : xdrproc S) `{Body S k} (Hd : forall o0 o, bfits k o -> bdone k o0 o) : Codec k := {|
  wire := bwire k; fits := bfits k; depth := bdepth k; fns := bfns k;
  wire_units := body_units; encode_ok := body_encodes; decode_ok := struct_decodes k Hd |}.
End Cases.

(** ** Every field is decoded *)

Section Done.
Context {S F : Type}.

Lemma field_complete (get : S -> F) `{Field S F get} (p : xdrproc F) (k : xdrproc S) `{Codec F p, Body S k} (o0 o : S) :
  (bfits k o -> bdone k (set o0 (get o)) o) -> bfits (field get p k) o -> bdone (field get p k) o0 o.
Proof. intros Hk [_ Ho]. by apply Hk. Qed.
Lemma arm_complete (get : S -> option F) `{Inhabited F, Arm S F get} (p : xdrproc F) (k : xdrproc S) `{Codec F p, Body S k} (o0 o : S) :
  (forall v, get o = Some v -> bfits k o -> bdone k (set_arm o0 v) o) -> bfits (arm get p k) o -> bdone (arm get p k) o0 o.
Proof. simpl. unfold arm_fits, arm_done. intros Hk. destruct (get o) as [v |]; [| done]. intros [_ Ho]. by apply Hk. Qed.
Lemma case_complete (tag : S -> Z) v (k rest : xdrproc S) `{Body S k, Body S rest} (o0 o : S) :
  tag o0 = tag o -> (bfits k o -> bdone k o0 o) -> (bfits rest o -> bdone rest o0 o) ->
  bfits (case_of tag v k rest) o -> bdone (case_of tag v k rest) o0 o.
Proof. simpl. intros Ht Hk Hr. destruct (tag o =? v); auto. Qed.
Lemma no_arm_complete (clear : S -> S) (o0 o : S) : (clear o = o -> clear o0 = o) -> bfits (no_arm clear) o -> bdone (no_arm clear) o0 o.
Proof. done. Qed.
Lemma return_true_complete (o0 o : S) : o0 = o -> bfits RETURN_TRUE o -> bdone RETURN_TRUE o0 o.
Proof. done. Qed.
Lemma return_false_complete (o0 o : S) : bfits RETURN_FALSE o -> bdone RETURN_FALSE o0 o.
Proof. done. Qed.
End Done.

(** Decoding a structure sets all its fields, decoding a union its tag and its member. *)
Ltac all_fields :=
  let o0 := fresh "o0" in let o := fresh "o" in
  intros o0 o;
  repeat match goal with
  | |- bfits (field _ _ _) _ -> _ => refine (field_complete _ _ _ _ _ _)
  | |- bfits (arm _ _ _) _ -> _ => refine (arm_complete _ _ _ _ _ _); let v := fresh in let E := fresh "E" in intros v E
  | |- bfits (case_of _ _ _ _) _ -> _ => refine (case_complete _ _ _ _ _ _ eq_refl _ _)
  | |- bfits (no_arm _) _ -> _ => refine (no_arm_complete _ _ _ _); let E := fresh "E" in intros E
  | |- bfits RETURN_TRUE _ -> _ => refine (return_true_complete _ _ _)
  | |- bfits RETURN_FALSE _ -> _ => exact (return_false_complete _ _)
  end;
  destruct o; repeat match goal with E : _ = _ |- _ => progress cbv in E end; repeat case_match; simplify_eq; reflexivity.
Ltac struct := match goal with |- Codec ?k => let b := eval unfold k in k in exact (struct_codec b ltac:(all_fields)) end.

(** ** Arrays *)

Section Array.
Context {A : Type} (maxlen entry_size : Z) (dflt : A) (fn : xdrproc A) `{Codec A fn}.

Definition array_wire (l : list A) : list Z := be 4 (zlen l) ++ concat (map (wire fn) l).
Definition array_fits (l : list A) : Prop :=
  Forall (fits fn) l /\ zlen l <= maxlen /\ zlen l < 4294967296 /\ 0 <= entry_size /\ entry_size * zlen l < 4294967296.

Lemma array_units l : array_fits l -> zlen (array_wire l) mod 4 = 0.
Proof.
  intros [Hl _]. apply units_app; [by rewrite be_zlen |]. induction Hl; [done |]. simpl. apply units_app; [by apply wire_units | done].
Qed.

Lemma array_encode_ok l : forall x n,
  Forall (fits fn) l -> writing x n -> zlen (concat (map (wire fn) l)) <= n ->
  exists x', array_encode fn l x = Ok (x', l) /\ same_input x x' /\ out_ok x' /\ output x' = output x ++ concat (map (wire fn) l).
Proof.
  induction l as [| a l IH]; intros x n Hl Hw Hn; cbn [array_encode map concat] in *.
  { exists x. rewrite app_nil_r. split; [done |]. split; [apply same_input_refl |]. split; [apply Hw | done]. }
  apply Forall_cons in Hl as [Ha Hl]. rewrite zlen_app in Hn. pose proof (zlen_nonneg (concat (map (wire fn) l))).
  destruct (encode_ok x a Ha) as (x1 & E1 & Hi1 & Ho1 & Eo1). { destruct Hw. constructor; try done. lia. }
  destruct (IH x1 (n - zlen (wire fn a)) Hl) as (x2 & E2 & Hi2 & Ho2 & Eo2); [eapply writing_next; [exact Hw | done | done | done | lia] | lia |].
  exists x2. rewrite E1. cbn [rbind]. rewrite E2. cbn [rbind]. split; [done |]. split; [by eapply same_input_trans |]. split; [done |].
  by rewrite Eo2, Eo1, app_assoc.
Qed.

Lemma array_encodes : encodes (xdr_array maxlen entry_size dflt fn) array_wire array_fits.
Proof.
  intros x l [Hl _] Hw. unfold xdr_array, array_wire in *. rewrite (wr_op _ _ Hw). change (XDR_ENCODE =? XDR_DECODE) with false.
  pose proof (zlen_nonneg (concat (map (wire fn) l))).
  destruct (put_encodes x (be 4 (zlen l)) _ Hw) as (x1 & -> & Hi1 & Ho1 & Eo1); [rewrite zlen_app; lia |]. cbn [rbind].
  destruct (array_encode_ok l x1 (zlen (concat (map (wire fn) l))) Hl) as (x2 & -> & Hi2 & Ho2 & Eo2); [| done |].
  { eapply writing_next; [exact Hw | done | done | done |]. rewrite zlen_app. lia. }
  cbn [rbind]. exists x2. split; [done |]. split; [by eapply same_input_trans |]. split; [done |]. by rewrite Eo2, Eo1, app_assoc.
Qed.

Lemma array_decode_ok l : forall x i alloc rest,
  Forall (fits fn) l -> 0 <= i -> 0 <= entry_size -> entry_size * (i + zlen l) <= alloc -> alloc < 4294967296 ->
  reading x (concat (map (wire fn) l) ++ rest) -> room (depth fn) x -> outside (fns fn) x ->
  exists cap, array_decode (length l) i alloc entry_size fn dflt x = Ok (read_up_to x rest cap, l) /\ cap_after (depth fn) x cap.
Proof.
  induction l as [| a l IH]; intros x i alloc rest Hl Hi Hes Ha Hal Hr Hm Hf; cbn [array_decode map concat length] in *.
  { destruct (return_true_decodes x tt tt rest I eq_refl Hr) as (c & E & Hc); [left; lia | intros ? ? []%not_elem_of_nil |].
    exists c. unfold RETURN_TRUE in E. injection E as E. rewrite <- E. split; [done |]. eapply cap_after_le; [| done]. lia. }
  apply Forall_cons in Hl as [Hfa Hl]. rewrite <- app_assoc in Hr. rewrite zlen_cons in Ha. pose proof (zlen_nonneg l).
  destruct (decode_ok x a dflt _ Hfa Hr Hm Hf) as (c1 & -> & Hc1). cbn [rbind].
  rewrite (u32_small (entry_size * i)) by nia. rewrite (proj2 (Z.ltb_ge alloc _)) by nia. rewrite andb_false_r.
  set (x1 := read_up_to x _ c1).
  destruct (IH x1 (i + 1) alloc rest Hl ltac:(lia) Hes) as (c2 & -> & Hc2); [nia | done | | | | ].
  - eapply reading_up_to; [exact Hr |]. destruct Hc1. pose proof (rd_cap _ _ Hr). lia.
  - revert Hm Hc1. unfold room, cap_after. simpl. lia.
  - exact Hf.
  - cbn [rbind]. exists c2. split; [done |]. revert Hc1 Hc2. unfold cap_after. simpl. intros [Hle1 Hsame1] [Hle2 Hsame2].
    split; [lia |]. intros Hd. specialize (Hsame1 Hd). subst c1. apply Hsame2. lia.
Qed.

Lemma array_decodes : decodes (xdr_array maxlen entry_size dflt fn) array_wire array_fits (depth fn) (fns fn).
Proof.
  intros x l l0 rest (Hl & Hm & Hu & Hes & Ha) Hr Hrm Hf. unfold xdr_array. pose proof (zlen_nonneg l). pose proof (zlen_nonneg rest).
  pose proof (zlen_nonneg (concat (map (wire fn) l))). unfold array_wire in *. rewrite <- app_assoc in Hr.
  rewrite (rd_op _ _ Hr), Z.eqb_refl, (rd_avail _ _ Hr), (rd_buf _ _ Hr), !zlen_app, be_zlen. rewrite (proj2 (Z.ltb_ge _ 4)) by lia.
  change 4 with (Z.of_nat 4) at 1. rewrite bytes_at_be. cbn [rbind]. rewrite of_be_u32, (proj2 (Z.ltb_ge maxlen _)) by lia.
  pose proof (skip_read _ _ _ Hr) as E. rewrite be_zlen in E. change (Z.of_nat 4) with 4 in E. rewrite E.
  rewrite zlen_to_nat, u32_small by nia.
  destruct (array_decode_ok l (read_up_to x (concat (map (wire fn) l) ++ rest) (ll_cap x)) 0 (entry_size * zlen l) rest) as (c & -> & Hc); try done; try lia.
  { eapply reading_up_to; [exact Hr | apply (rd_cap _ _ Hr)]. }
  cbn [rbind]. by exists c.
Qed.
End Array.

#[global] Instance xdr_array_codec {A} maxlen entry_size dflt (fn : xdrproc A) `{Codec A fn} : Codec (xdr_array maxlen entry_size dflt fn) := {
  wire := array_wire fn; fits := array_fits maxlen entry_size fn; depth := depth fn; fns := fns fn;
  wire_units := array_units maxlen entry_size fn; encode_ok := array_encodes maxlen entry_size dflt fn;
  decode_ok := array_decodes maxlen entry_size dflt fn }.
