(* ===== verification/XdrList.v ===== *)
(** Linked lists are codecs: [xdr_pointer] encodes a chain of entries one by one
    and decodes it into an array whose entries it links afterwards. *)

From stdpp Require Import strings.
From S2P Require Import Prelude.
From S2P Require Import Xdr.
From S2P Require Import XdrCodec.

(** * The fields of an entry before the link *)

Class Prefix {E} (P : xdrproc E -> xdrproc E) := {
  pwire : E -> list Z;
  pfits : E -> Prop;
  pdepth : nat;
  pfns : list string;
  pset : E -> E -> E;
  prefix_units : forall e, pfits e -> zlen (pwire e) mod 4 = 0;
  prefix_encodes : forall K x e n, pfits e -> writing x n -> zlen (pwire e) <= n ->
    exists x', P K x e = K x' e /\ same_input x x' /\ out_ok x' /\ output x' = output x ++ pwire e;
  prefix_decodes : forall K x e e0 rest, pfits e -> reading x (pwire e ++ rest) -> room pdepth x -> outside pfns x ->
    exists cap, P K x e0 = K (read_up_to x rest cap) (pset e0 e) /\ cap_after pdepth x cap }.
Arguments pwire {E} P {_}.
Arguments pfits {E} P {_}.
Arguments pdepth {E} P {_}.
Arguments pfns {E} P {_}.
Arguments pset {E} P {_}.

Section PrefixInstances.
Context {E F : Type}.

Lemma prefix_nil_decodes (K : xdrproc E) x (e e0 : E) rest :
  True -> reading x ([] ++ rest) -> room 0 x -> outside [] x ->
  exists cap, K x e0 = K (read_up_to x rest cap) e0 /\ cap_after 0 x cap.
Proof.
  intros _ Hr Hm Hf. destruct (return_true_decodes x tt tt rest I eq_refl Hr Hm Hf) as (c & Ec & Hc). unfold RETURN_TRUE in Ec. injection Ec as Ec.
  exists c. by rewrite <- Ec.
Qed.
Definition prefix_nil : Prefix (fun K : xdrproc E => K).
Proof.
  refine {| pwire _ := []; pfits _ := True; pdepth := 0; pfns := []; pset e0 _ := e0; prefix_decodes := prefix_nil_decodes |}; [done |].
  intros K x e n _ Hw _. exists x. rewrite app_nil_r. split; [done |]. split; [apply same_input_refl |]. split; [apply Hw | done].
Defined.

Section PrefixField.
Context (get : E -> F) `{Field E F get} (p : xdrproc F) (P : xdrproc E -> xdrproc E) `{Codec F p, Prefix E P}.

Lemma prefix_field_encodes K x e n :
  fits p (get e) /\ pfits P e -> writing x n -> zlen (wire p (get e) ++ pwire P e) <= n ->
  exists x', field get p (P K) x e = K x' e /\ same_input x x' /\ out_ok x' /\ output x' = output x ++ wire p (get e) ++ pwire P e.
Proof.
  intros [Hv He] Hw Hn. rewrite zlen_app in Hn. pose proof (zlen_nonneg (pwire P e)).
  destruct (encode_ok x (get e) Hv) as (x1 & E1 & Hi1 & Ho1 & Eo1). { destruct Hw. constructor; try done. lia. }
  destruct (prefix_encodes K x1 e (n - zlen (wire p (get e))) He) as (x2 & E2 & Hi2 & Ho2 & Eo2);
    [eapply writing_next; [exact Hw | done | done | done | lia] | lia |].
  exists x2. split; [unfold field; rewrite E1; cbn [rbind]; by rewrite set_get |]. split; [by eapply same_input_trans |]. split; [done |].
  by rewrite Eo2, Eo1, app_assoc.
Qed.
Lemma prefix_field_decodes K x e e0 rest (d := Nat.max (depth p) (pdepth P)) :
  fits p (get e) /\ pfits P e -> reading x ((wire p (get e) ++ pwire P e) ++ rest) -> room d x -> outside (fns p ++ pfns P) x ->
  exists cap, field get p (P K) x e0 = K (read_up_to x rest cap) (pset P (set e0 (get e)) e) /\ cap_after d x cap.
Proof.
  intros [Hv He] Hr [Hr1 Hr2]%room_max [Hf1 Hf2]%outside_app. rewrite <- app_assoc in Hr.
  destruct (decode_ok x (get e) (get e0) _ Hv Hr Hr1 Hf1) as (c1 & E1 & Hc1).
  assert (reading (read_up_to x (pwire P e ++ rest) c1) (pwire P e ++ rest)) as Hr'.
  { eapply reading_up_to; [exact Hr |]. destruct Hc1. pose proof (rd_cap _ _ Hr). lia. }
  destruct (prefix_decodes K _ e (set e0 (get e)) rest He Hr' (Hr2 _ _ (proj1 Hc1)) (Hf2 _ _)) as (c2 & E2 & Hc2).
  exists c2. split; [unfold field; rewrite E1; cbn [rbind]; exact E2 |]. by eapply cap_after_max.
Qed.
Definition prefix_field : Prefix (fun K => field get p (P K)) := {|
  pwire e := wire p (get e) ++ pwire P e; pfits e := fits p (get e) /\ pfits P e;
  pdepth := Nat.max (depth p) (pdepth P); pfns := fns p ++ pfns P; pset e0 e := pset P (set e0 (get e)) e;
  prefix_units e He := units_app _ _ (wire_units _ (proj1 He)) (prefix_units _ (proj2 He));
  prefix_encodes := prefix_field_encodes; prefix_decodes := prefix_field_decodes |}.
End PrefixField.
End PrefixInstances.

(** * Chains of entries *)

(** The entry type of a list: its link, the routine of an entry in terms of the
    routine for the link, and the entries of a chain. *)
Class Linked {E} (next : E -> option E) (link : E -> option E -> E) (entries : option E -> list E) := {
  next_link : forall e v, next (link e v) = v;
  link_link : forall e v w, link (link e v) w = link e w;
  link_next : forall e, link e (next e) = e;
  entries_none : entries None = [];
  entries_some : forall e, entries (Some e) = e :: entries (next e) }.

Section Chain.
Context {E : Type} (next : E -> option E) (link : E -> option E -> E) (entries : option E -> list E) `{Linked E next link entries}.
Context `{Field E (option E) next} (Hset : forall e v, set (get := next) e v = link e v).
Context (dflt : E) (fn : string) (P : xdrproc E -> xdrproc E) `{Prefix E P}.
Hypothesis Hpset : forall e0 e v, link (pset P e0 e) v = link e v.
Hypothesis Hfn : fn ∉ pfns P.
Context (entry : nat -> xdrproc E).
Hypothesis Hentry : forall n x e, entry (S n) x e = P (field next (xdr_pointer link dflt fn (entry n)) RETURN_TRUE) x e.

Definition flag (l : list E) : Z := match l with [] => 0 | _ => 1 end.
(** The representation of a chain, and what follows its first flag. *)
Fixpoint chain_tail (l : list E) : list Z :=
  match l with [] => [] | e :: l => pwire P e ++ be 4 (flag l) ++ chain_tail l end.
Definition chain_wire (l : list E) : list Z := be 4 (flag l) ++ chain_tail l.

Lemma chain_units l : Forall (pfits P) l -> zlen (chain_wire l) mod 4 = 0.
Proof.
  intros Hl. apply units_app; [by rewrite be_zlen |]. induction Hl as [| e l He _ IH]; [done |]. cbn [chain_tail].
  apply units_app; [by apply prefix_units |]. apply units_app; [by rewrite be_zlen | done].
Qed.

Lemma flag_of o : (match o with Some _ => 1 | None => 0 end) = flag (entries o).
Proof. destruct o as [e |]; [by rewrite (entries_some e) | by rewrite entries_none]. Qed.

(** ** Encoding *)

Lemma chain_encodes n : forall o x m,
  (length (entries o) <= n)%nat -> Forall (pfits P) (entries o) -> writing x m -> zlen (chain_wire (entries o)) <= m ->
  exists x', xdr_pointer link dflt fn (entry n) x o = Ok (true, x', o) /\ same_input x x' /\ out_ok x' /\
    output x' = output x ++ chain_wire (entries o).
Proof.
  induction n as [| n IH]; intros o x m Hn Hfit Hw Hm; unfold xdr_pointer; rewrite (wr_op _ _ Hw), flag_of;
    change (XDR_ENCODE =? XDR_DECODE) with false; cbv iota; unfold chain_wire in *; rewrite zlen_app, be_zlen in Hm;
    pose proof (zlen_nonneg (chain_tail (entries o)));
    destruct (put_encodes x (be 4 (flag (entries o))) m Hw) as (x1 & -> & Hi1 & Ho1 & Eo1); rewrite ?be_zlen; try lia; cbn [rbind].
  - destruct o as [e |]; [rewrite (entries_some e) in Hn; simpl in Hn; lia |].
    exists x1. rewrite entries_none in *. split; [done |]. split; [done |]. split; [done |]. by rewrite Eo1.
  - destruct o as [e |]; [| exists x1; rewrite entries_none in *; split; [done |]; split; [done |]; split; [done |]; by rewrite Eo1].
    rewrite (entries_some e) in *. apply Forall_cons in Hfit as [He Hfit]. cbn [chain_tail length] in *. rewrite !zlen_app, be_zlen in Hm.
    pose proof (zlen_nonneg (chain_tail (entries (next e)))). rewrite Hentry.
    destruct (prefix_encodes (field next (xdr_pointer link dflt fn (entry n)) RETURN_TRUE) x1 e (m - 4) He) as (x2 & -> & Hi2 & Ho2 & Eo2);
      [eapply writing_next; [exact Hw | done | done | done | rewrite be_zlen; lia] | lia |].
    destruct (IH (next e) x2 (m - 4 - zlen (pwire P e))) as (x3 & E3 & Hi3 & Ho3 & Eo3); [lia | done | | unfold chain_wire; rewrite zlen_app, be_zlen; lia |].
    { eapply (writing_next x1 _ (m - 4)); [eapply (writing_next x); [exact Hw | done | done | done | rewrite be_zlen; lia] | done | done | done | lia]. }
    exists x3. split; [unfold field; rewrite E3; cbn [rbind]; by rewrite set_get |].
    split; [by do 2 (eapply same_input_trans; [done |]) |]. split; [done |].
    rewrite Eo3, Eo2, Eo1. unfold chain_wire. by rewrite <- !app_assoc.
Qed.

(** ** Decoding *)

Lemma flag_range l : 0 <= flag l < 4294967296.
Proof. by destruct l. Qed.

(** Reading a flag. *)
Lemma read_flag x l rest :
  reading x (be 4 (flag l) ++ rest) ->
  (avail x <? 4) = false /\ bytes_at (buf x) 4 = Ok (be 4 (flag l)) /\ skip x 4 = read_up_to x rest (ll_cap x).
Proof.
  intros Hr. rewrite (rd_avail _ _ Hr), (rd_buf _ _ Hr), zlen_app, be_zlen. pose proof (zlen_nonneg rest). split; [apply Z.ltb_ge; lia |].
  split; [apply (bytes_at_be 4) |]. pose proof (skip_read _ _ _ Hr) as E'. by rewrite be_zlen in E'.
Qed.

(** Inside the list the routine of an entry leaves its link empty and notes
    whether another entry follows. *)
Lemma entry_decodes n x l0 ls e e0 l rest :
  in_linked_list x = l0 :: ls -> ll_fn l0 = fn -> pfits P e -> reading x (pwire P e ++ be 4 (flag l) ++ rest) -> room (pdepth P) x ->
  exists cap, entry (S n) x e0 = Ok (true, set_has_next (read_up_to x rest cap) (flag l), link e None) /\ cap_after (pdepth P) x cap.
Proof.
  intros Ell Efn He Hr Hm.
  destruct (prefix_decodes (field next (xdr_pointer link dflt fn (entry n)) RETURN_TRUE) x e e0 _ He Hr Hm) as (c & Ec & Hc).
  { intros l' Hl' Hin. rewrite Ell in Hl'. injection Hl' as <-. by rewrite Efn in Hin. }
  exists c. split; [| done]. rewrite Hentry, Ec. unfold field, xdr_pointer.
  assert (reading (read_up_to x (be 4 (flag l) ++ rest) c) (be 4 (flag l) ++ rest)) as Hr'.
  { eapply reading_up_to; [exact Hr |]. destruct Hc. pose proof (rd_cap _ _ Hr). lia. }
  destruct (read_flag _ _ _ Hr') as (-> & -> & ->). rewrite (rd_op _ _ Hr'), Z.eqb_refl. cbn [rbind].
  change (in_linked_list (read_up_to _ _ _)) with (in_linked_list x). rewrite Ell. cbn [take existsb].
  rewrite bool_decide_eq_true_2 by done. cbn [orb rbind]. rewrite Hset, Hpset, of_be_u32 by apply flag_range. done.
Qed.

Lemma chain_tail_length l : (length l <= length (chain_tail l))%nat.
Proof. induction l as [| e l IH]; [done |]. cbn [chain_tail length]. rewrite !length_app, be_length. lia. Qed.

(** The state of the loop: the entries [l] are still to come. *)
Definition in_list (x : XDR) (ls : list xdr_linked_list_t) (cap : nat) (l : list E) (rest : list Z) : XDR :=
  with_ll (with_buf x (chain_tail l ++ rest) (zlen (chain_tail l ++ rest))) (mk_ll fn (flag l) :: ls) cap.

Lemma list_loop_decodes (f : xdrproc E) x ls cap : forall l fuel acc rest,
  (forall x e0, exists n, f x e0 = entry (S n) x e0) ->
  (length l <= fuel)%nat -> Forall (pfits P) l -> reading (in_list x ls cap l rest) (chain_tail l ++ rest) ->
  (pdepth P = 0%nat \/ (S (length ls) + pdepth P <= cap)%nat) ->
  list_loop fuel f dflt cap (in_list x ls cap l rest) acc =
  Ok (true, in_list x ls cap [] rest, acc ++ map (fun e => link e None) l).
Proof.
  induction l as [| e l IH]; intros fuel acc rest Hf Hl Hfit Hr Hcap; (destruct fuel as [| fuel]; [try (simpl in Hl; lia) |]);
    cbn [list_loop in_list in_linked_list with_ll ll_has_next flag]; try (rewrite Z.eqb_refl, app_nil_r; done).
  change (1 =? 0) with false. cbv iota. apply Forall_cons in Hfit as [He Hfit].
  set (y := set_has_next _ 0). destruct (Hf y dflt) as [n ->].
  assert (reading y (pwire P e ++ be 4 (flag l) ++ chain_tail l ++ rest)) as Hy.
  { destruct Hr as [R1 R2 R3 R4 R5 R6]. cbn [chain_tail] in *. rewrite <- !app_assoc in *. by constructor. }
  destruct (entry_decodes n y (mk_ll fn 0) ls e dflt l (chain_tail l ++ rest) eq_refl eq_refl He Hy) as (c & -> & Hc).
  { unfold room. destruct Hcap as [-> | Hcap]; [left; lia | right; simpl; lia]. }
  cbn [rbind]. assert (c = cap) as -> by (apply Hc; destruct Hcap; [by left | right; simpl; lia]).
  change (ll_cap (set_has_next _ _)) with cap. rewrite Nat.eqb_refl.
  change (set_has_next (read_up_to y (chain_tail l ++ rest) cap) (flag l)) with (in_list x ls cap l rest).
  rewrite IH; [cbn [map]; by rewrite <- app_assoc | done | simpl in Hl; lia | done | | done].
  pose proof (reading_up_to y (pwire P e ++ be 4 (flag l)) (chain_tail l ++ rest) cap) as Hn. rewrite <- app_assoc in Hn. specialize (Hn Hy).
  destruct Hn as [R1 R2 R3 R4 R5 R6]; [destruct Hy; simpl in *; lia |]. by constructor.
Qed.

Lemma link_entries_ok n : forall o, length (entries o) = n -> link_entries link (map (fun e => link e None) (entries o)) = o.
Proof.
  induction n as [| n IH]; intros [e |] Hn; rewrite ?entries_some, ?entries_none in Hn |- *; try done. cbn [map link_entries].
  rewrite IH by (simpl in Hn; lia). f_equal. destruct (next e) as [e' |] eqn:En; [rewrite link_link |]; by rewrite <- En, link_next.
Qed.

(** ** The codec *)

Context (f : xdrproc E) (Hf : forall x e, exists n, (length (entries (Some e)) <= S n)%nat /\ f x e = entry (S n) x e).

Lemma pointer_encodes : encodes (xdr_pointer link dflt fn f) (fun o => chain_wire (entries o)) (fun o => Forall (pfits P) (entries o)).
Proof.
  intros x o Hfit Hw.
  assert (exists n, (length (entries o) <= n)%nat /\ xdr_pointer link dflt fn f x o = xdr_pointer link dflt fn (entry n) x o) as (n & Hn & ->).
  { unfold xdr_pointer. rewrite (wr_op _ _ Hw). change (XDR_ENCODE =? XDR_DECODE) with false. destruct o as [e |].
    - destruct (put_encodes x (be 4 1) _ Hw) as (x1 & -> & _).
      { unfold chain_wire. rewrite zlen_app, !be_zlen. pose proof (zlen_nonneg (chain_tail (entries (Some e)))). lia. }
      destruct (Hf x1 e) as (n & Hn & E'). exists (S n). split; [done |]. cbn [rbind]. by rewrite E'.
    - exists 0%nat. rewrite entries_none. split; [simpl; lia | done]. }
  by apply (chain_encodes n o x (zlen (chain_wire (entries o)))).
Qed.

Lemma push_cap x d (l : xdr_linked_list_t) :
  room (S d) x -> (length (in_linked_list x) <= ll_cap x)%nat ->
  cap_after (S d) x (ll_cap (push_ll x l)) /\ (d = 0%nat \/ (S (length (in_linked_list x)) + d <= ll_cap (push_ll x l))%nat) /\
  (S (length (in_linked_list x)) <= ll_cap (push_ll x l))%nat.
Proof.
  unfold room, cap_after, push_ll. simpl. intros Hm Hc. destruct (Nat.ltb_spec (length (in_linked_list x)) (ll_cap x)); lia.
Qed.

Lemma pointer_decodes :
  decodes (xdr_pointer link dflt fn f) (fun o => chain_wire (entries o)) (fun o => Forall (pfits P) (entries o)) (S (pdepth P)) (fn :: pfns P).
Proof.
  intros x o o0 rest Hfit Hr Hm Ho. unfold xdr_pointer. unfold chain_wire in Hr. rewrite <- app_assoc in Hr.
  destruct (read_flag _ _ _ Hr) as (-> & -> & ->). rewrite (rd_op _ _ Hr), Z.eqb_refl. cbn [rbind]. rewrite of_be_u32 by apply flag_range.
  change (in_linked_list (read_up_to x _ _)) with (in_linked_list x).
  assert (existsb (fun l => bool_decide (ll_fn l = fn)) (take 1 (in_linked_list x)) = false) as ->.
  { unfold outside in Ho. destruct (in_linked_list x) as [| l ls]; [done |]. simpl. rewrite orb_false_r. apply bool_decide_eq_false_2.
    intros E'. apply (Ho l eq_refl). rewrite E'. apply list_elem_of_here. }
  destruct o as [e |]; [| rewrite entries_none in *; exists (ll_cap x); split; [done | apply cap_same]].
  rewrite entries_some in *. apply Forall_cons in Hfit as [He Hfit]. set (l := entries (next e)) in *. cbn [flag chain_tail] in *.
  change (1 =? 0) with false. cbv iota. rewrite <- !app_assoc in Hr.
  destruct (push_cap x (pdepth P) (mk_ll fn 0) Hm (rd_cap _ _ Hr)) as (Hc1 & Hc2 & Hc3).
  set (c := ll_cap (push_ll x (mk_ll fn 0))) in *. rewrite <- !app_assoc.
  set (y := push_ll (read_up_to x _ _) (mk_ll fn 0)).
  assert (reading y (pwire P e ++ be 4 (flag l) ++ chain_tail l ++ rest)) as Hy.
  { destruct (reading_up_to _ _ _ (ll_cap x) Hr (rd_cap _ _ Hr)) as [R1 R2 R3 R4 R5 R6]. by constructor. }
  destruct (Hf y dflt) as (n & _ & ->).
  destruct (entry_decodes n y (mk_ll fn 0) (in_linked_list x) e dflt l (chain_tail l ++ rest) eq_refl eq_refl He Hy) as (c' & -> & Hc').
  { unfold room. destruct Hc2 as [-> | Hc2]; [left; lia | right; exact Hc2]. }
  cbn [rbind]. assert (c' = c) as -> by (apply Hc'; destruct Hc2; [by left | right; done]).
  change (set_has_next (read_up_to y (chain_tail l ++ rest) c) (flag l)) with (in_list x (in_linked_list x) c l rest).
  change (ll_cap (in_list _ _ c _ _)) with c. rewrite (list_loop_decodes f).
  - cbn [rbind]. exists c. split; [| done].
    change ([link e None] ++ map (fun e => link e None) l) with (map (fun e => link e None) (e :: l)).
    unfold l. rewrite <- entries_some. by rewrite (link_entries_ok _ _ eq_refl).
  - intros x' e0. destruct (Hf x' e0) as (m & _ & E'). by exists m.
  - change (buf (in_list x (in_linked_list x) c l rest)) with (chain_tail l ++ rest). rewrite length_app. pose proof (chain_tail_length l). lia.
  - done.
  - pose proof (reading_up_to y (pwire P e ++ be 4 (flag l)) (chain_tail l ++ rest) c) as Hn. rewrite <- app_assoc in Hn. specialize (Hn Hy).
    destruct Hn as [R1 R2 R3 R4 R5 R6]; [destruct Hy; simpl in *; lia |]. by constructor.
  - destruct Hc2; [by left | right; done].
Qed.

Definition pointer_codec : Codec (xdr_pointer link dflt fn f) := {|
  wire o := chain_wire (entries o); fits o := Forall (pfits P) (entries o); depth := S (pdepth P); fns := fn :: pfns P;
  wire_units o := chain_units (entries o); encode_ok := pointer_encodes; decode_ok := pointer_decodes |}.
End Chain.

Ltac list_prefix :=
  match goal with |- Prefix ?P => unfold P end; repeat (eapply prefix_field; [apply _ |]); apply prefix_nil.

(** The entries of a list are codecs when the fields before the link are. *)
Ltac not_listed := refine (bool_decide_unpack _ _); vm_compute; exact I.
Ltac list_codec next entries P entry :=
  unshelve eapply (pointer_codec next _ entries _ inhabitant _ P _ _ entry);
  [ done | by intros [] [] | not_listed | done
  | let e := fresh in intros ? e; exists (length (entries (Some e))); split; [lia | reflexivity] ].

(** * A pointer to an object that is not a list *)

Section Optional.
Context {A : Type} (link : A -> option A -> A) (dflt : A) (fn : string) (p : xdrproc A) `{Codec A p}.
Hypothesis Hfn : fn ∉ fns p.

Definition opt_wire (o : option A) : list Z := match o with None => be 4 0 | Some a => be 4 1 ++ wire p a end.
Definition opt_fits (o : option A) : Prop := match o with None => True | Some a => fits p a end.

Lemma opt_units o : opt_fits o -> zlen (opt_wire o) mod 4 = 0.
Proof. destruct o; cbn [opt_wire opt_fits]; [| by rewrite be_zlen]. intros. apply units_app; [by rewrite be_zlen | by apply wire_units]. Qed.

Lemma opt_encodes : encodes (xdr_pointer link dflt fn p) opt_wire opt_fits.
Proof.
  intros x o Ho Hw. unfold xdr_pointer. rewrite (wr_op _ _ Hw). change (XDR_ENCODE =? XDR_DECODE) with false. cbv iota.
  destruct o as [a |]; cbn [opt_wire opt_fits] in *.
  - pose proof (zlen_nonneg (wire p a)). rewrite zlen_app, be_zlen in Hw.
    destruct (put_encodes x (be 4 1) _ Hw) as (x1 & -> & Hi1 & Ho1 & Eo1); [rewrite be_zlen; lia |]. cbn [rbind].
    destruct (encode_ok x1 a Ho) as (x2 & -> & Hi2 & Ho2 & Eo2); [eapply writing_next; [exact Hw | done | done | done | rewrite be_zlen; lia] |].
    cbn [rbind]. exists x2. split; [done |]. split; [by eapply same_input_trans |]. split; [done |]. by rewrite Eo2, Eo1, app_assoc.
  - destruct (put_encodes x (be 4 0) _ Hw) as (x1 & -> & Hx1); [done |]. by exists x1.
Qed.

Lemma opt_decodes : decodes (xdr_pointer link dflt fn p) opt_wire opt_fits (S (depth p)) (fn :: fns p).
Proof.
  intros x o o0 rest Ho Hr Hm Hout. unfold xdr_pointer.
  set (l := match o with None => [] | Some a => [a] end). set (tl := match o with None => rest | Some a => wire p a ++ rest end).
  assert (reading x (be 4 (flag l) ++ tl)) as Hr'. { unfold l, tl. destruct o; cbn [opt_wire] in Hr; [by rewrite <- app_assoc in Hr | done]. }
  destruct (read_flag _ _ _ Hr') as (-> & -> & ->). rewrite (rd_op _ _ Hr), Z.eqb_refl. cbn [rbind]. rewrite of_be_u32 by apply flag_range.
  change (in_linked_list (read_up_to x _ _)) with (in_linked_list x).
  assert (existsb (fun l => bool_decide (ll_fn l = fn)) (take 1 (in_linked_list x)) = false) as ->.
  { unfold outside in Hout. destruct (in_linked_list x) as [| l' ls]; [done |]. simpl. rewrite orb_false_r. apply bool_decide_eq_false_2.
    intros E'. apply (Hout l' eq_refl). rewrite E'. apply list_elem_of_here. }
  destruct o as [a |]; [| exists (ll_cap x); split; [done | apply cap_same]]. unfold l, tl in *. cbn [flag] in *.
  change (1 =? 0) with false. cbv iota.
  destruct (push_cap x (depth p) (mk_ll fn 0) Hm (rd_cap _ _ Hr)) as (Hc1 & Hc2 & Hc3).
  set (c := ll_cap (push_ll x (mk_ll fn 0))) in *. set (y := push_ll (read_up_to x _ _) (mk_ll fn 0)).
  assert (reading y (wire p a ++ rest)) as Hy.
  { destruct (reading_up_to _ _ _ (ll_cap x) Hr' (rd_cap _ _ Hr)) as [R1 R2 R3 R4 R5 R6]. by constructor. }
  destruct (decode_ok y a dflt rest Ho Hy) as (c' & -> & Hc').
  { unfold room. destruct Hc2 as [-> | Hc2]; [left; lia | right; exact Hc2]. }
  { intros l' [= <-]. exact Hfn. }
  cbn [rbind]. exists c'. split; [done |]. assert (c' = c) as -> by (apply Hc'; destruct Hc2; [by left | right; done]). done.
Qed.
Definition optional_codec : Codec (xdr_pointer link dflt fn p) := {|
  wire := opt_wire; fits := opt_fits; depth := S (depth p); fns := fn :: fns p;
  wire_units := opt_units; encode_ok := opt_encodes; decode_ok := opt_decodes |}.
End Optional.
