(* ===== verification/XdrSafe.v ===== *)
(** Decoding arbitrary bytes: whatever a client sends, a routine without linked
    lists returns, reads only the bytes it was given and leaves values of their
    machine types behind.  The instances follow the structure of the routines. *)

From stdpp Require Import strings.
From S2P Require Import Prelude.
From S2P Require Import Xdr.
From S2P Require Import XdrCodec.

(** * The interface *)

(** A buffer of [avail] bytes over a connection without RDMA. *)
Record input_ok (x : XDR) : Prop := {
  in_op : x_op x = XDR_DECODE;
  in_rdma : rdma x = false;
  in_avail : avail x = zlen (buf x);
  in_small : zlen (buf x) < 4294967296;
  in_bytes : is_bytes (buf x) }.

(** Only the position in the buffer has changed. *)
Definition advanced (x x' : XDR) : Prop := exists b, b `suffix_of` buf x /\ x' = with_buf x b (zlen b).

Definition decodes_safely {A} (p : xdrproc A) (sound : A -> Prop) : Prop := forall x o0,
  input_ok x -> exists ok x' o, p x o0 = Ok (ok, x', o) /\ advanced x x' /\ (ok = true -> sound o).

Class Safe {A} (p : xdrproc A) := { sound : A -> Prop; decode_safe : decodes_safely p sound }.
#[global] Hint Mode Safe + + : typeclass_instances.
Arguments sound {A} p {_}.
Arguments decode_safe {A} p {_}.

(** A routine that goes on from a half decoded structure: [breach Q o] holds when
    every object it can make of [o] satisfies [Q]. *)
Class SafeBody {S} (k : xdrproc S) := {
  bsound : S -> Prop;
  breach : (S -> Prop) -> S -> Prop;
  body_safe : forall (Q : S -> Prop) x o0, input_ok x -> breach Q o0 ->
    exists ok x' o, k x o0 = Ok (ok, x', o) /\ advanced x x' /\ (ok = true -> Q o) }.
#[global] Hint Mode SafeBody + + : typeclass_instances.
Arguments bsound {S} k {_}.
Arguments breach {S} k {_}.
Arguments body_safe {S} k {_}.

(** * Positions *)

Lemma with_buf_self x : input_ok x -> with_buf x (buf x) (zlen (buf x)) = x.
Proof. intros [_ _ <- _ _]. by destruct x. Qed.
Lemma advanced_refl x : input_ok x -> advanced x x.
Proof. intros Hx. exists (buf x). split; [done |]. by rewrite with_buf_self. Qed.
Lemma advanced_trans x y z : advanced x y -> advanced y z -> advanced x z.
Proof. intros (b & Hb & ->) (c & Hc & ->). exists c. split; [| done]. by trans b. Qed.

Lemma advanced_ok x x' : input_ok x -> advanced x x' -> input_ok x'.
Proof.
  intros [H1 H2 H3 H4 H5] (b & [c Hc] & ->). unfold is_bytes in *. rewrite Hc in *. apply Forall_app in H5 as [_ H5]. rewrite zlen_app in H4. pose proof (zlen_nonneg c).
  constructor; simpl; try done. lia.
Qed.

Lemma skip_advanced x n : input_ok x -> 0 <= n <= avail x -> advanced x (skip x n) /\ avail (skip x n) = avail x - n.
Proof.
  intros [_ _ Ha Hs _] Hn. rewrite Ha in *. unfold skip. rewrite Ha, u32_small by lia. split; [| done].
  exists (drop (Z.to_nat n) (buf x)). split; [apply suffix_drop |]. f_equal. unfold zlen in *. rewrite length_drop. lia.
Qed.

Lemma bytes_at_ok x n : input_ok x -> 0 <= n <= avail x -> exists b, bytes_at (buf x) n = Ok b /\ zlen b = n /\ is_bytes b.
Proof.
  intros [_ _ Ha Hs Hb] Hn. unfold bytes_at. rewrite (proj2 (Z.leb_le _ _)) by lia. eexists. split; [done |].
  split; [unfold zlen in *; rewrite length_take; lia | by apply Forall_take].
Qed.

Lemma of_be_bound l : is_bytes l -> 0 <= of_be l < 256 ^ zlen l.
Proof.
  unfold of_be. intros Hl. induction l as [| b l IH] using rev_ind; [done |]. apply Forall_app in Hl as [Hl Hb]. inversion Hb; subst.
  specialize (IH Hl). rewrite foldl_app, zlen_app. cbn [foldl]. change (zlen [b]) with 1. rewrite Z.pow_add_r, Z.pow_1_r by (unfold zlen; lia). lia.
Qed.

(** * Basic types *)

Section SafeNumber.
Context (n : nat) (p : xdrproc Z).
Hypothesis Hp : forall x v, p x v =
  if x_op x =? XDR_DECODE then
    if avail x <? Z.of_nat n then Ok (false, x, v) else let* b := bytes_at (buf x) (Z.of_nat n) in Ok (true, skip x (Z.of_nat n), of_be b)
  else let* x := put x (be n v) in Ok (true, x, v).

Lemma number_safe : decodes_safely p (fun v => 0 <= v < 256 ^ Z.of_nat n).
Proof.
  intros x v Hx. rewrite Hp, (in_op _ Hx), Z.eqb_refl. destruct (Z.ltb_spec (avail x) (Z.of_nat n)).
  - eexists _, _, _. split; [done |]. split; [by apply advanced_refl | done].
  - destruct (bytes_at_ok x (Z.of_nat n) Hx ltac:(lia)) as (b & -> & Eb & Hb). cbn [rbind]. eexists _, _, _. split; [done |].
    split; [apply skip_advanced; [done | lia] |]. intros _. rewrite <- Eb. by apply of_be_bound.
Qed.
End SafeNumber.

#[global] Instance xdr_u_int_safe : Safe xdr_u_int := { sound v := 0 <= v < 4294967296; decode_safe := number_safe 4 xdr_u_int (fun _ _ => eq_refl) }.
#[global] Instance xdr_uint64_t_safe : Safe xdr_uint64_t :=
  { sound v := 0 <= v < 18446744073709551616; decode_safe := number_safe 8 xdr_uint64_t (fun _ _ => eq_refl) }.
#[global] Instance xdr_uint32_t_safe : Safe xdr_uint32_t := xdr_u_int_safe.
#[global] Instance xdr_enum_safe : Safe xdr_enum := xdr_u_int_safe.
#[global] Instance xdr_bool_safe : Safe xdr_bool := xdr_u_int_safe.

Lemma opaque_safe len `{Units len} : decodes_safely (xdr_opaque len) (fun l => zlen l = len /\ is_bytes l).
Proof.
  intros x v Hx. destruct H as [Hl Hm]. unfold xdr_opaque. rewrite (in_op _ Hx), Z.eqb_refl, (proj2 (Z.leb_gt _ _)) by lia.
  rewrite len_pad4_ok, Hm by lia. change ((4 - 0) mod 4) with 0. rewrite Z.add_0_r.
  destruct (Z.ltb_spec (avail x) len).
  - eexists _, _, _. split; [done |]. split; [by apply advanced_refl | done].
  - destruct (bytes_at_ok x len Hx ltac:(lia)) as (b & -> & Eb & Hb). cbn [rbind]. eexists _, _, _. split; [done |].
    split; [apply skip_advanced; [done | lia] | done].
Qed.
#[global] Instance xdr_opaque_safe len `{Units len} : Safe (xdr_opaque len) := { sound l := zlen l = len /\ is_bytes l; decode_safe := opaque_safe len }.

(** The data of a string lies in the buffer, unless the length is one of the seven largest ones. *)
Definition string_sound (s : xdr_string_t) : Prop :=
  0 <= s_size s < 4294967296 /\ is_bytes (s_data s) /\ (s_size s < 4294967289 -> zlen (s_data s) = s_size s).

Lemma bytes_safe maxlen chunk : decodes_safely (xdr_bytes maxlen chunk) string_sound.
Proof.
  intros x v Hx. unfold xdr_bytes. rewrite (in_op _ Hx), Z.eqb_refl, (in_rdma _ Hx), andb_false_r. destruct (Z.ltb_spec (avail x) 4).
  { eexists _, _, _. split; [done |]. split; [by apply advanced_refl | done]. }
  destruct (bytes_at_ok x 4 Hx ltac:(lia)) as (b & -> & Eb & Hb). cbn [rbind]. pose proof (of_be_bound b Hb) as Hl. rewrite Eb in Hl.
  set (len := of_be b) in *. change (256 ^ 4) with 4294967296 in Hl. pose proof (u32_range (4 + len_pad4 len)).
  destruct (Z.ltb_spec (avail x) (u32 (4 + len_pad4 len))) as [| H2].
  - eexists _, _, _. split; [done |]. split; [by apply advanced_refl | done].
  - eexists _, _, _. split; [done |]. split; [apply skip_advanced; [done | lia] |]. intros _. split; [done |]. simpl.
    split; [apply Forall_take, Forall_drop, Hx |]. intros Hs. rewrite (in_avail _ Hx) in *.
    pose proof (Z.mod_pos_bound (4 - len mod 4) 4 eq_refl). rewrite len_pad4_ok, u32_small in H2 by lia. unfold zlen in *. rewrite length_take, length_drop. lia.
Qed.
#[global] Instance xdr_bytes_safe maxlen chunk : Safe (xdr_bytes maxlen chunk) := { sound := string_sound; decode_safe := bytes_safe maxlen chunk }.
#[global] Instance xdr_string_safe maxlen chunk : Safe (xdr_string maxlen chunk) := xdr_bytes_safe maxlen chunk.

(** * Arrays *)

Section SafeArray.
Context {A : Type} (maxlen entry_size : Z) (dflt : A) (fn : xdrproc A) `{Safe A fn}.
Hypothesis Hsize : 0 < entry_size /\ entry_size * maxlen < 4294967296.

Lemma array_decode_safe n len i x :
  input_ok x -> 0 <= i -> i + Z.of_nat n = len -> len <= maxlen ->
  exists x' l, array_decode n i (entry_size * len) entry_size fn dflt x = Ok (x', l) /\ advanced x x' /\ length l = n.
Proof.
  revert i x. induction n as [| n IH]; intros i x Hx Hi Hn Hm; cbn [array_decode].
  - exists x, []. split; [done |]. split; [by apply advanced_refl | done].
  - destruct (decode_safe fn x dflt Hx) as (ok & x1 & e & -> & Ha & _). cbn [rbind]. rewrite u32_small by nia.
    rewrite (proj2 (Z.ltb_ge _ _)), andb_false_r by nia.
    destruct (IH (i + 1) x1) as (x2 & l & -> & Ha2 & El); [by eapply advanced_ok | lia | lia | done |]. cbn [rbind].
    exists x2, (e :: l). split; [done |]. split; [by eapply advanced_trans | simpl; lia].
Qed.

(** The entries may be left as they were: what their routine returns is dropped. *)
Lemma array_safe : decodes_safely (xdr_array maxlen entry_size dflt fn) (fun l => zlen l <= maxlen).
Proof.
  intros x v Hx. unfold xdr_array. rewrite (in_op _ Hx), Z.eqb_refl. destruct (Z.ltb_spec (avail x) 4).
  { eexists _, _, _. split; [done |]. split; [by apply advanced_refl | done]. }
  destruct (bytes_at_ok x 4 Hx ltac:(lia)) as (b & -> & Eb & Hb). cbn [rbind]. pose proof (of_be_bound b Hb) as Hl. rewrite Eb in Hl.
  destruct (Z.ltb_spec maxlen (of_be b)).
  { eexists _, _, _. split; [done |]. split; [by apply advanced_refl | done]. }
  destruct (skip_advanced x 4 Hx ltac:(lia)) as [Ha _]. rewrite u32_small by nia.
  destruct (array_decode_safe (Z.to_nat (of_be b)) (of_be b) 0 (skip x 4)) as (x' & l & -> & Ha' & El); [by eapply advanced_ok | done | lia | lia |].
  cbn [rbind]. exists true, x', l. split; [done |]. split; [by eapply advanced_trans |]. intros _. unfold zlen. lia.
Qed.
End SafeArray.

(** An array whose size in bytes fits into 32 bits. *)
Class Fits32 (maxlen entry_size : Z) : Prop := fits32 : 0 < entry_size /\ entry_size * maxlen < 4294967296.
#[global] Instance xdr_array_safe {A} maxlen entry_size dflt (fn : xdrproc A) `{Safe A fn, Fits32 maxlen entry_size} :
  Safe (xdr_array maxlen entry_size dflt fn) := { sound l := zlen l <= maxlen; decode_safe := array_safe maxlen entry_size dflt fn fits32 }.

(** * Structures and unions *)

Section SafeBodies.
Context {S F : Type}.

Lemma safe_stop (Q : S -> Prop) x ok o : input_ok x -> (ok = true -> Q o) ->
  exists ok' x' o', Ok (ok, x, o) = Ok (ok', x', o') /\ advanced x x' /\ (ok' = true -> Q o').
Proof. intros Hx Hq. exists ok, x, o. split; [done |]. split; [by apply advanced_refl | done]. Qed.

#[global, refine] Instance return_true_safe : SafeBody (@RETURN_TRUE S) :=
  { bsound _ := True; breach Q o := Q o; body_safe := _ }.
Proof. intros Q x o Hx Hq. by apply safe_stop. Defined.
#[global, refine] Instance return_false_safe : SafeBody (@RETURN_FALSE S) :=
  { bsound _ := False; breach _ _ := True; body_safe := _ }.
Proof. intros Q x o Hx Hq. by apply safe_stop. Defined.
#[global, refine] Instance no_arm_safe (clear : S -> S) : SafeBody (no_arm clear) :=
  { bsound _ := True; breach Q o := Q (clear o); body_safe := _ }.
Proof. intros Q x o Hx Hq. unfold no_arm. rewrite (in_op _ Hx), Z.eqb_refl. by apply safe_stop. Defined.

(** The routine of a member, then the rest with the object [upd v]. *)
Lemma member_safe (p : xdrproc F) `{Safe F p} (k : xdrproc S) `{SafeBody S k} (Q : S -> Prop) x v0 (upd : F -> S) :
  input_ok x -> (forall v, sound p v -> breach k Q (upd v)) ->
  exists ok x' o, (let* (ok, x, v) := p x v0 in if ok then k x (upd v) else Ok (false, x, upd v)) = Ok (ok, x', o) /\
    advanced x x' /\ (ok = true -> Q o).
Proof.
  intros Hx Hk. destruct (decode_safe p x v0 Hx) as (ok & x1 & v & -> & Ha & Hv). cbn [rbind]. pose proof (advanced_ok _ _ Hx Ha) as Hx1.
  destruct ok.
  - destruct (body_safe k Q x1 (upd v) Hx1 (Hk v (Hv eq_refl))) as (ok & x2 & o & -> & Ha2 & Ho).
    exists ok, x2, o. split; [done |]. split; [by eapply advanced_trans | done].
  - by exists false, x1, (upd v).
Qed.

#[global, refine] Instance field_safe (get : S -> F) `{Field S F get} (p : xdrproc F) `{Safe F p} (k : xdrproc S) `{SafeBody S k} : SafeBody (field get p k) :=
  { bsound o := sound p (get o) /\ bsound k o; breach Q o0 := forall v, sound p v -> breach k Q (set o0 v); body_safe := _ }.
Proof. intros Q x o0 Hx Hq. exact (member_safe p k Q x _ _ Hx Hq). Defined.

#[global, refine] Instance arm_safe (get : S -> option F) `{Inhabited F, Arm S F get} (p : xdrproc F) `{Safe F p} (k : xdrproc S) `{SafeBody S k} : SafeBody (arm get p k) :=
  { bsound o := (exists v, get o = Some v /\ sound p v) /\ bsound k o; breach Q o0 := forall v, sound p v -> breach k Q (set_arm o0 v); body_safe := _ }.
Proof. intros Q x o0 Hx Hq. unfold arm. rewrite (in_op _ Hx), Z.eqb_refl. destruct (get o0); exact (member_safe p k Q x _ _ Hx Hq). Defined.

#[global, refine] Instance case_safe (tag : S -> Z) v (k rest : xdrproc S) `{SafeBody S k, SafeBody S rest} : SafeBody (case_of tag v k rest) :=
  { bsound o := if tag o =? v then bsound k o else bsound rest o;
    breach Q o := (tag o = v -> breach k Q o) /\ (tag o <> v -> breach rest Q o); body_safe := _ }.
Proof. intros Q x o0 Hx [Hk Hr]. unfold case_of. destruct (Z.eqb_spec (tag o0) v); apply (body_safe _ Q); auto. Defined.

Definition struct_safe (k : xdrproc S) `{SafeBody S k} (Hk : forall o0, breach k (bsound k) o0) : Safe k :=
  {| sound := bsound k; decode_safe x o0 Hx := body_safe k (bsound k) x o0 Hx (Hk o0) |}.
End SafeBodies.

Ltac reach :=
  repeat match goal with
  | |- breach (field _ _ _) _ _ => refine (fun v Hv => _)
  | |- breach (arm _ _ _) _ _ => refine (fun v Hv => _)
  | |- breach (case_of _ _ _ _) _ _ => split; intros ?
  | |- breach (no_arm _) ?Q ?o => match goal with |- breach (no_arm ?c) _ _ => change (Q (c o)) end
  | |- breach RETURN_TRUE ?Q ?o => change (Q o)
  | |- breach RETURN_FALSE _ _ => exact I
  end.
Ltac same_tag E := exfalso; match goal with H : _ |- _ => exact (H E) | H : _ |- _ => exact (E H) end.
Ltac all_sound :=
  repeat match goal with
  | |- bsound (field _ _ _) _ => split; [eassumption |]
  | |- bsound (arm _ _ _) _ => split; [eexists; split; [reflexivity | eassumption] |]
  | |- bsound (case_of ?tag ?v ?k ?r) ?o =>
    change (if tag o =? v then bsound k o else bsound r o); let E := fresh in destruct (Z.eqb_spec (tag o) v) as [E | E]; try (same_tag E)
  | |- bsound (no_arm _) _ => exact I
  | |- bsound RETURN_TRUE _ => exact I
  end.
Ltac safe := match goal with |- Safe ?k => let b := eval unfold k in k in refine (struct_safe b _); intros ?; reach; all_sound end.
