(* ===== verification/XdrRpc.v ===== *)
(** The messages of ONC RPC: calls, replies and credentials (rpc.h, rpc_xdr.cpp). *)

From stdpp Require Import strings.
From S2P Require Import Prelude.
From S2P Require Import Xdr.
From S2P Require Import XdrCodec.
From S2P Require Import XdrList.
From S2P Require Import XdrSafe.

(** * Constants *)

Definition RPC_CALL : Z := 0.
Definition RPC_REPLY : Z := 1.
Definition RPC_MSG_ACCEPTED : Z := 0.
Definition RPC_MSG_DENIED : Z := 1.
Definition RPC_SUCCESS : Z := 0.
Definition RPC_PROG_MISMATCH : Z := 2.
Definition RPC_MISMATCH : Z := 0.
Definition RPC_AUTH_ERROR : Z := 1.

(** * Data *)

Record rpc_opaque_auth : Type := mk_rpc_opaque_auth { rpc_opaque_auth_flavor : Z; rpc_opaque_auth_body : xdr_string_t }.
#[global] Instance rpc_opaque_auth_inhabited : Inhabited rpc_opaque_auth := populate (mk_rpc_opaque_auth inhabitant inhabitant).
#[global] Instance rpc_opaque_auth_flavor_field : Field rpc_opaque_auth_flavor := updates rpc_opaque_auth_flavor (fun (o : rpc_opaque_auth) v =>
  mk_rpc_opaque_auth v (rpc_opaque_auth_body o)).
#[global] Instance rpc_opaque_auth_body_field : Field rpc_opaque_auth_body := updates rpc_opaque_auth_body (fun (o : rpc_opaque_auth) v =>
  mk_rpc_opaque_auth (rpc_opaque_auth_flavor o) v).

Record rpc_call_body : Type := mk_rpc_call_body { rpc_call_body_rpcvers : Z; rpc_call_body_prog : Z; rpc_call_body_vers : Z; rpc_call_body_proc : Z;
  rpc_call_body_cred : rpc_opaque_auth; rpc_call_body_verf : rpc_opaque_auth }.
#[global] Instance rpc_call_body_inhabited : Inhabited rpc_call_body := populate (mk_rpc_call_body inhabitant inhabitant inhabitant inhabitant
  inhabitant inhabitant).
#[global] Instance rpc_call_body_rpcvers_field : Field rpc_call_body_rpcvers := updates rpc_call_body_rpcvers (fun (o : rpc_call_body) v =>
  mk_rpc_call_body v (rpc_call_body_prog o) (rpc_call_body_vers o) (rpc_call_body_proc o) (rpc_call_body_cred o) (rpc_call_body_verf o)).
#[global] Instance rpc_call_body_prog_field : Field rpc_call_body_prog := updates rpc_call_body_prog (fun (o : rpc_call_body) v => mk_rpc_call_body
  (rpc_call_body_rpcvers o) v (rpc_call_body_vers o) (rpc_call_body_proc o) (rpc_call_body_cred o) (rpc_call_body_verf o)).
#[global] Instance rpc_call_body_vers_field : Field rpc_call_body_vers := updates rpc_call_body_vers (fun (o : rpc_call_body) v => mk_rpc_call_body
  (rpc_call_body_rpcvers o) (rpc_call_body_prog o) v (rpc_call_body_proc o) (rpc_call_body_cred o) (rpc_call_body_verf o)).
#[global] Instance rpc_call_body_proc_field : Field rpc_call_body_proc := updates rpc_call_body_proc (fun (o : rpc_call_body) v => mk_rpc_call_body
  (rpc_call_body_rpcvers o) (rpc_call_body_prog o) (rpc_call_body_vers o) v (rpc_call_body_cred o) (rpc_call_body_verf o)).
#[global] Instance rpc_call_body_cred_field : Field rpc_call_body_cred := updates rpc_call_body_cred (fun (o : rpc_call_body) v => mk_rpc_call_body
  (rpc_call_body_rpcvers o) (rpc_call_body_prog o) (rpc_call_body_vers o) (rpc_call_body_proc o) v (rpc_call_body_verf o)).
#[global] Instance rpc_call_body_verf_field : Field rpc_call_body_verf := updates rpc_call_body_verf (fun (o : rpc_call_body) v => mk_rpc_call_body
  (rpc_call_body_rpcvers o) (rpc_call_body_prog o) (rpc_call_body_vers o) (rpc_call_body_proc o) (rpc_call_body_cred o) v).

Record rpc_mismatch_info : Type := mk_rpc_mismatch_info { rpc_mismatch_info_min_version : Z; rpc_mismatch_info_max_version : Z }.
#[global] Instance rpc_mismatch_info_inhabited : Inhabited rpc_mismatch_info := populate (mk_rpc_mismatch_info inhabitant inhabitant).
#[global] Instance rpc_mismatch_info_min_version_field : Field rpc_mismatch_info_min_version := updates rpc_mismatch_info_min_version (fun (o :
  rpc_mismatch_info) v => mk_rpc_mismatch_info v (rpc_mismatch_info_max_version o)).
#[global] Instance rpc_mismatch_info_max_version_field : Field rpc_mismatch_info_max_version := updates rpc_mismatch_info_max_version (fun (o :
  rpc_mismatch_info) v => mk_rpc_mismatch_info (rpc_mismatch_info_min_version o) v).

Inductive rpc_accepted_reply_body_union : Type :=
| rpc_accepted_reply_body_is_mismatch_info (v : rpc_mismatch_info)
| rpc_accepted_reply_body_none.
Record rpc_accepted_reply_body : Type := mk_rpc_accepted_reply_body { rpc_accepted_reply_body_stat : Z; rpc_accepted_reply_body_u :
  rpc_accepted_reply_body_union }.
#[global] Instance rpc_accepted_reply_body_inhabited : Inhabited rpc_accepted_reply_body := populate (mk_rpc_accepted_reply_body inhabitant
  rpc_accepted_reply_body_none).
#[global] Instance rpc_accepted_reply_body_stat_field : Field rpc_accepted_reply_body_stat := updates rpc_accepted_reply_body_stat (fun (o :
  rpc_accepted_reply_body) v => mk_rpc_accepted_reply_body v (rpc_accepted_reply_body_u o)).
Definition rpc_accepted_reply_body_mismatch_info (o : rpc_accepted_reply_body) : option rpc_mismatch_info := match rpc_accepted_reply_body_u o with
  rpc_accepted_reply_body_is_mismatch_info v => Some v | _ => None end.
#[global] Instance rpc_accepted_reply_body_mismatch_info_arm : Arm rpc_accepted_reply_body_mismatch_info := activates
  rpc_accepted_reply_body_mismatch_info (fun o v => mk_rpc_accepted_reply_body (rpc_accepted_reply_body_stat o)
  (rpc_accepted_reply_body_is_mismatch_info v)).
Definition clear_rpc_accepted_reply_body (o : rpc_accepted_reply_body) : rpc_accepted_reply_body := mk_rpc_accepted_reply_body
  (rpc_accepted_reply_body_stat o) rpc_accepted_reply_body_none.

Record rpc_accepted_reply : Type := mk_rpc_accepted_reply { rpc_accepted_reply_verf : rpc_opaque_auth; rpc_accepted_reply_reply_data :
  rpc_accepted_reply_body }.
#[global] Instance rpc_accepted_reply_inhabited : Inhabited rpc_accepted_reply := populate (mk_rpc_accepted_reply inhabitant inhabitant).
#[global] Instance rpc_accepted_reply_verf_field : Field rpc_accepted_reply_verf := updates rpc_accepted_reply_verf (fun (o : rpc_accepted_reply) v =>
  mk_rpc_accepted_reply v (rpc_accepted_reply_reply_data o)).
#[global] Instance rpc_accepted_reply_reply_data_field : Field rpc_accepted_reply_reply_data := updates rpc_accepted_reply_reply_data (fun (o :
  rpc_accepted_reply) v => mk_rpc_accepted_reply (rpc_accepted_reply_verf o) v).

Inductive rpc_rejected_reply_union : Type :=
| rpc_rejected_reply_is_mismatch_info (v : rpc_mismatch_info)
| rpc_rejected_reply_is_auth_stat (v : Z)
| rpc_rejected_reply_none.
Record rpc_rejected_reply : Type := mk_rpc_rejected_reply { rpc_rejected_reply_stat : Z; rpc_rejected_reply_u : rpc_rejected_reply_union }.
#[global] Instance rpc_rejected_reply_inhabited : Inhabited rpc_rejected_reply := populate (mk_rpc_rejected_reply inhabitant rpc_rejected_reply_none).
#[global] Instance rpc_rejected_reply_stat_field : Field rpc_rejected_reply_stat := updates rpc_rejected_reply_stat (fun (o : rpc_rejected_reply) v =>
  mk_rpc_rejected_reply v (rpc_rejected_reply_u o)).
Definition rpc_rejected_reply_mismatch_info (o : rpc_rejected_reply) : option rpc_mismatch_info := match rpc_rejected_reply_u o with
  rpc_rejected_reply_is_mismatch_info v => Some v | _ => None end.
#[global] Instance rpc_rejected_reply_mismatch_info_arm : Arm rpc_rejected_reply_mismatch_info := activates rpc_rejected_reply_mismatch_info (fun o v
  => mk_rpc_rejected_reply (rpc_rejected_reply_stat o) (rpc_rejected_reply_is_mismatch_info v)).
Definition rpc_rejected_reply_auth_stat (o : rpc_rejected_reply) : option Z := match rpc_rejected_reply_u o with rpc_rejected_reply_is_auth_stat v =>
  Some v | _ => None end.
#[global] Instance rpc_rejected_reply_auth_stat_arm : Arm rpc_rejected_reply_auth_stat := activates rpc_rejected_reply_auth_stat (fun o v =>
  mk_rpc_rejected_reply (rpc_rejected_reply_stat o) (rpc_rejected_reply_is_auth_stat v)).
Definition clear_rpc_rejected_reply (o : rpc_rejected_reply) : rpc_rejected_reply := mk_rpc_rejected_reply (rpc_rejected_reply_stat o)
  rpc_rejected_reply_none.

Inductive rpc_reply_body_union : Type :=
| rpc_reply_body_is_areply (v : rpc_accepted_reply)
| rpc_reply_body_is_rreply (v : rpc_rejected_reply)
| rpc_reply_body_none.
Record rpc_reply_body : Type := mk_rpc_reply_body { rpc_reply_body_stat : Z; rpc_reply_body_u : rpc_reply_body_union }.
#[global] Instance rpc_reply_body_inhabited : Inhabited rpc_reply_body := populate (mk_rpc_reply_body inhabitant rpc_reply_body_none).
#[global] Instance rpc_reply_body_stat_field : Field rpc_reply_body_stat := updates rpc_reply_body_stat (fun (o : rpc_reply_body) v =>
  mk_rpc_reply_body v (rpc_reply_body_u o)).
Definition rpc_reply_body_areply (o : rpc_reply_body) : option rpc_accepted_reply := match rpc_reply_body_u o with rpc_reply_body_is_areply v => Some
  v | _ => None end.
#[global] Instance rpc_reply_body_areply_arm : Arm rpc_reply_body_areply := activates rpc_reply_body_areply (fun o v => mk_rpc_reply_body
  (rpc_reply_body_stat o) (rpc_reply_body_is_areply v)).
Definition rpc_reply_body_rreply (o : rpc_reply_body) : option rpc_rejected_reply := match rpc_reply_body_u o with rpc_reply_body_is_rreply v => Some
  v | _ => None end.
#[global] Instance rpc_reply_body_rreply_arm : Arm rpc_reply_body_rreply := activates rpc_reply_body_rreply (fun o v => mk_rpc_reply_body
  (rpc_reply_body_stat o) (rpc_reply_body_is_rreply v)).
Definition clear_rpc_reply_body (o : rpc_reply_body) : rpc_reply_body := mk_rpc_reply_body (rpc_reply_body_stat o) rpc_reply_body_none.

Inductive rpc_msg_body_union : Type :=
| rpc_msg_body_is_cbody (v : rpc_call_body)
| rpc_msg_body_is_rbody (v : rpc_reply_body)
| rpc_msg_body_none.
Record rpc_msg_body : Type := mk_rpc_msg_body { rpc_msg_body_dir : Z; rpc_msg_body_u : rpc_msg_body_union }.
#[global] Instance rpc_msg_body_inhabited : Inhabited rpc_msg_body := populate (mk_rpc_msg_body inhabitant rpc_msg_body_none).
#[global] Instance rpc_msg_body_dir_field : Field rpc_msg_body_dir := updates rpc_msg_body_dir (fun (o : rpc_msg_body) v => mk_rpc_msg_body v
  (rpc_msg_body_u o)).
Definition rpc_msg_body_cbody (o : rpc_msg_body) : option rpc_call_body := match rpc_msg_body_u o with rpc_msg_body_is_cbody v => Some v | _ => None
  end.
#[global] Instance rpc_msg_body_cbody_arm : Arm rpc_msg_body_cbody := activates rpc_msg_body_cbody (fun o v => mk_rpc_msg_body (rpc_msg_body_dir o)
  (rpc_msg_body_is_cbody v)).
Definition rpc_msg_body_rbody (o : rpc_msg_body) : option rpc_reply_body := match rpc_msg_body_u o with rpc_msg_body_is_rbody v => Some v | _ => None
  end.
#[global] Instance rpc_msg_body_rbody_arm : Arm rpc_msg_body_rbody := activates rpc_msg_body_rbody (fun o v => mk_rpc_msg_body (rpc_msg_body_dir o)
  (rpc_msg_body_is_rbody v)).
Definition clear_rpc_msg_body (o : rpc_msg_body) : rpc_msg_body := mk_rpc_msg_body (rpc_msg_body_dir o) rpc_msg_body_none.

Record rpc_msg : Type := mk_rpc_msg { rpc_msg_xid : Z; rpc_msg_body_data : rpc_msg_body }.
#[global] Instance rpc_msg_inhabited : Inhabited rpc_msg := populate (mk_rpc_msg inhabitant inhabitant).
#[global] Instance rpc_msg_xid_field : Field rpc_msg_xid := updates rpc_msg_xid (fun (o : rpc_msg) v => mk_rpc_msg v (rpc_msg_body_data o)).
#[global] Instance rpc_msg_body_data_field : Field rpc_msg_body_data := updates rpc_msg_body_data (fun (o : rpc_msg) v => mk_rpc_msg (rpc_msg_xid o)
  v).

Record authsys_parms : Type := mk_authsys_parms { authsys_parms_stamp : Z; authsys_parms_machinename : xdr_string_t; authsys_parms_uid : Z;
  authsys_parms_gid : Z; authsys_parms_gids : list Z }.
#[global] Instance authsys_parms_inhabited : Inhabited authsys_parms := populate (mk_authsys_parms inhabitant inhabitant inhabitant inhabitant
  inhabitant).
#[global] Instance authsys_parms_stamp_field : Field authsys_parms_stamp := updates authsys_parms_stamp (fun (o : authsys_parms) v => mk_authsys_parms
  v (authsys_parms_machinename o) (authsys_parms_uid o) (authsys_parms_gid o) (authsys_parms_gids o)).
#[global] Instance authsys_parms_machinename_field : Field authsys_parms_machinename := updates authsys_parms_machinename (fun (o : authsys_parms) v
  => mk_authsys_parms (authsys_parms_stamp o) v (authsys_parms_uid o) (authsys_parms_gid o) (authsys_parms_gids o)).
#[global] Instance authsys_parms_uid_field : Field authsys_parms_uid := updates authsys_parms_uid (fun (o : authsys_parms) v => mk_authsys_parms
  (authsys_parms_stamp o) (authsys_parms_machinename o) v (authsys_parms_gid o) (authsys_parms_gids o)).
#[global] Instance authsys_parms_gid_field : Field authsys_parms_gid := updates authsys_parms_gid (fun (o : authsys_parms) v => mk_authsys_parms
  (authsys_parms_stamp o) (authsys_parms_machinename o) (authsys_parms_uid o) v (authsys_parms_gids o)).
#[global] Instance authsys_parms_gids_field : Field authsys_parms_gids := updates authsys_parms_gids (fun (o : authsys_parms) v => mk_authsys_parms
  (authsys_parms_stamp o) (authsys_parms_machinename o) (authsys_parms_uid o) (authsys_parms_gid o) v).

(** * Routines *)

Definition xdr_rpc_auth_flavor : xdrproc Z := xdr_enum.

Definition xdr_rpc_msg_type : xdrproc Z := xdr_enum.

Definition xdr_rpc_reply_stat : xdrproc Z := xdr_enum.

Definition xdr_rpc_accept_stat : xdrproc Z := xdr_enum.

Definition xdr_rpc_reject_stat : xdrproc Z := xdr_enum.

Definition xdr_rpc_auth_stat : xdrproc Z := xdr_enum.

Definition xdr_rpc_opaque_auth : xdrproc rpc_opaque_auth :=
  xdr_rpc_auth_flavor @ rpc_opaque_auth_flavor ;;
  (xdr_bytes 400 false) @ rpc_opaque_auth_body ;;
  RETURN_TRUE.

Definition xdr_rpc_call_body : xdrproc rpc_call_body :=
  xdr_u_int @ rpc_call_body_rpcvers ;;
  xdr_u_int @ rpc_call_body_prog ;;
  xdr_u_int @ rpc_call_body_vers ;;
  xdr_u_int @ rpc_call_body_proc ;;
  xdr_rpc_opaque_auth @ rpc_call_body_cred ;;
  xdr_rpc_opaque_auth @ rpc_call_body_verf ;;
  RETURN_TRUE.

Definition xdr_rpc_mismatch_info : xdrproc rpc_mismatch_info :=
  xdr_u_int @ rpc_mismatch_info_min_version ;;
  xdr_u_int @ rpc_mismatch_info_max_version ;;
  RETURN_TRUE.

Definition xdr_rpc_accepted_reply_body : xdrproc rpc_accepted_reply_body :=
  xdr_rpc_accept_stat @ rpc_accepted_reply_body_stat ;;
  case! RPC_SUCCESS of rpc_accepted_reply_body_stat : (no_arm clear_rpc_accepted_reply_body) else
  case! RPC_PROG_MISMATCH of rpc_accepted_reply_body_stat : (xdr_rpc_mismatch_info @| rpc_accepted_reply_body_mismatch_info ;; RETURN_TRUE) else
  (no_arm clear_rpc_accepted_reply_body).

Definition xdr_rpc_accepted_reply : xdrproc rpc_accepted_reply :=
  xdr_rpc_opaque_auth @ rpc_accepted_reply_verf ;;
  xdr_rpc_accepted_reply_body @ rpc_accepted_reply_reply_data ;;
  RETURN_TRUE.

Definition xdr_rpc_rejected_reply : xdrproc rpc_rejected_reply :=
  xdr_rpc_reject_stat @ rpc_rejected_reply_stat ;;
  case! RPC_MISMATCH of rpc_rejected_reply_stat : (xdr_rpc_mismatch_info @| rpc_rejected_reply_mismatch_info ;; RETURN_TRUE) else
  case! RPC_AUTH_ERROR of rpc_rejected_reply_stat : (xdr_rpc_auth_stat @| rpc_rejected_reply_auth_stat ;; RETURN_TRUE) else
  RETURN_FALSE.

Definition xdr_rpc_reply_body : xdrproc rpc_reply_body :=
  xdr_rpc_reply_stat @ rpc_reply_body_stat ;;
  case! RPC_MSG_ACCEPTED of rpc_reply_body_stat : (xdr_rpc_accepted_reply @| rpc_reply_body_areply ;; RETURN_TRUE) else
  case! RPC_MSG_DENIED of rpc_reply_body_stat : (xdr_rpc_rejected_reply @| rpc_reply_body_rreply ;; RETURN_TRUE) else
  RETURN_FALSE.

Definition xdr_rpc_msg_body : xdrproc rpc_msg_body :=
  xdr_rpc_msg_type @ rpc_msg_body_dir ;;
  case! RPC_CALL of rpc_msg_body_dir : (xdr_rpc_call_body @| rpc_msg_body_cbody ;; RETURN_TRUE) else
  case! RPC_REPLY of rpc_msg_body_dir : (xdr_rpc_reply_body @| rpc_msg_body_rbody ;; RETURN_TRUE) else
  RETURN_FALSE.

Definition xdr_rpc_msg : xdrproc rpc_msg :=
  xdr_u_int @ rpc_msg_xid ;;
  xdr_rpc_msg_body @ rpc_msg_body_data ;;
  RETURN_TRUE.

Definition xdr_authsys_parms : xdrproc authsys_parms :=
  xdr_u_int @ authsys_parms_stamp ;;
  (xdr_string 255 false) @ authsys_parms_machinename ;;
  xdr_u_int @ authsys_parms_uid ;;
  xdr_u_int @ authsys_parms_gid ;;
  (xdr_array 16 4 inhabitant xdr_u_int) @ authsys_parms_gids ;;
  RETURN_TRUE.

(** * Codecs *)

#[global] Typeclasses Opaque xdr_rpc_auth_flavor xdr_rpc_msg_type xdr_rpc_reply_stat xdr_rpc_accept_stat xdr_rpc_reject_stat
  xdr_rpc_auth_stat xdr_rpc_opaque_auth xdr_rpc_call_body xdr_rpc_mismatch_info xdr_rpc_accepted_reply_body xdr_rpc_accepted_reply
  xdr_rpc_rejected_reply xdr_rpc_reply_body xdr_rpc_msg_body xdr_rpc_msg xdr_authsys_parms.
#[global] Instance xdr_rpc_auth_flavor_codec : Codec xdr_rpc_auth_flavor := _ : Codec xdr_enum.
#[global] Instance xdr_rpc_msg_type_codec : Codec xdr_rpc_msg_type := _ : Codec xdr_enum.
#[global] Instance xdr_rpc_reply_stat_codec : Codec xdr_rpc_reply_stat := _ : Codec xdr_enum.
#[global] Instance xdr_rpc_accept_stat_codec : Codec xdr_rpc_accept_stat := _ : Codec xdr_enum.
#[global] Instance xdr_rpc_reject_stat_codec : Codec xdr_rpc_reject_stat := _ : Codec xdr_enum.
#[global] Instance xdr_rpc_auth_stat_codec : Codec xdr_rpc_auth_stat := _ : Codec xdr_enum.
#[global] Instance xdr_rpc_opaque_auth_codec : Codec xdr_rpc_opaque_auth.
Proof. struct. Defined.
#[global] Instance xdr_rpc_call_body_codec : Codec xdr_rpc_call_body.
Proof. struct. Defined.
#[global] Instance xdr_rpc_mismatch_info_codec : Codec xdr_rpc_mismatch_info.
Proof. struct. Defined.
#[global] Instance xdr_rpc_accepted_reply_body_codec : Codec xdr_rpc_accepted_reply_body.
Proof. struct. Defined.
#[global] Instance xdr_rpc_accepted_reply_codec : Codec xdr_rpc_accepted_reply.
Proof. struct. Defined.
#[global] Instance xdr_rpc_rejected_reply_codec : Codec xdr_rpc_rejected_reply.
Proof. struct. Defined.
#[global] Instance xdr_rpc_reply_body_codec : Codec xdr_rpc_reply_body.
Proof. struct. Defined.
#[global] Instance xdr_rpc_msg_body_codec : Codec xdr_rpc_msg_body.
Proof. struct. Defined.
#[global] Instance xdr_rpc_msg_codec : Codec xdr_rpc_msg.
Proof. struct. Defined.
#[global] Instance xdr_authsys_parms_codec : Codec xdr_authsys_parms.
Proof. struct. Defined.

(** * Safety of decoding *)

#[global] Instance gids_fit : Fits32 16 4.
Proof. done. Qed.
#[global] Instance xdr_rpc_auth_flavor_safe : Safe xdr_rpc_auth_flavor := _ : Safe xdr_enum.
#[global] Instance xdr_rpc_msg_type_safe : Safe xdr_rpc_msg_type := _ : Safe xdr_enum.
#[global] Instance xdr_rpc_reply_stat_safe : Safe xdr_rpc_reply_stat := _ : Safe xdr_enum.
#[global] Instance xdr_rpc_accept_stat_safe : Safe xdr_rpc_accept_stat := _ : Safe xdr_enum.
#[global] Instance xdr_rpc_reject_stat_safe : Safe xdr_rpc_reject_stat := _ : Safe xdr_enum.
#[global] Instance xdr_rpc_auth_stat_safe : Safe xdr_rpc_auth_stat := _ : Safe xdr_enum.
#[global] Instance xdr_rpc_opaque_auth_safe : Safe xdr_rpc_opaque_auth.
Proof. safe. Defined.
#[global] Instance xdr_rpc_call_body_safe : Safe xdr_rpc_call_body.
Proof. safe. Defined.
#[global] Instance xdr_rpc_mismatch_info_safe : Safe xdr_rpc_mismatch_info.
Proof. safe. Defined.
#[global] Instance xdr_rpc_accepted_reply_body_safe : Safe xdr_rpc_accepted_reply_body.
Proof. safe. Defined.
#[global] Instance xdr_rpc_accepted_reply_safe : Safe xdr_rpc_accepted_reply.
Proof. safe. Defined.
#[global] Instance xdr_rpc_rejected_reply_safe : Safe xdr_rpc_rejected_reply.
Proof. safe. Defined.
#[global] Instance xdr_rpc_reply_body_safe : Safe xdr_rpc_reply_body.
Proof. safe. Defined.
#[global] Instance xdr_rpc_msg_body_safe : Safe xdr_rpc_msg_body.
Proof. safe. Defined.
#[global] Instance xdr_rpc_msg_safe : Safe xdr_rpc_msg.
Proof. safe. Defined.
#[global] Instance xdr_authsys_parms_safe : Safe xdr_authsys_parms.
Proof. safe. Defined.
