(* ===== verification/XdrPortmap.v ===== *)
(** The messages of the port mapper (portmap.h, portmap_xdr.cpp). *)

From stdpp Require Import strings.
From S2P Require Import Prelude.
From S2P Require Import Xdr.
From S2P Require Import XdrCodec.
From S2P Require Import XdrList.
From S2P Require Import XdrSafe.

(** * Constants *)


(** * Data *)

Record pmap2_mapping : Type := mk_pmap2_mapping { pmap2_mapping_prog : Z; pmap2_mapping_vers : Z; pmap2_mapping_prot : Z; pmap2_mapping_port : Z }.
#[global] Instance pmap2_mapping_inhabited : Inhabited pmap2_mapping := populate (mk_pmap2_mapping inhabitant inhabitant inhabitant inhabitant).
#[global] Instance pmap2_mapping_prog_field : Field pmap2_mapping_prog := updates pmap2_mapping_prog (fun (o : pmap2_mapping) v => mk_pmap2_mapping v
  (pmap2_mapping_vers o) (pmap2_mapping_prot o) (pmap2_mapping_port o)).
#[global] Instance pmap2_mapping_vers_field : Field pmap2_mapping_vers := updates pmap2_mapping_vers (fun (o : pmap2_mapping) v => mk_pmap2_mapping
  (pmap2_mapping_prog o) v (pmap2_mapping_prot o) (pmap2_mapping_port o)).
#[global] Instance pmap2_mapping_prot_field : Field pmap2_mapping_prot := updates pmap2_mapping_prot (fun (o : pmap2_mapping) v => mk_pmap2_mapping
  (pmap2_mapping_prog o) (pmap2_mapping_vers o) v (pmap2_mapping_port o)).
#[global] Instance pmap2_mapping_port_field : Field pmap2_mapping_port := updates pmap2_mapping_port (fun (o : pmap2_mapping) v => mk_pmap2_mapping
  (pmap2_mapping_prog o) (pmap2_mapping_vers o) (pmap2_mapping_prot o) v).

Record pmap2_call_args : Type := mk_pmap2_call_args { pmap2_call_args_prog : Z; pmap2_call_args_vers : Z; pmap2_call_args_proc : Z;
  pmap2_call_args_args : xdr_string_t }.
#[global] Instance pmap2_call_args_inhabited : Inhabited pmap2_call_args := populate (mk_pmap2_call_args inhabitant inhabitant inhabitant inhabitant).
#[global] Instance pmap2_call_args_prog_field : Field pmap2_call_args_prog := updates pmap2_call_args_prog (fun (o : pmap2_call_args) v =>
  mk_pmap2_call_args v (pmap2_call_args_vers o) (pmap2_call_args_proc o) (pmap2_call_args_args o)).
#[global] Instance pmap2_call_args_vers_field : Field pmap2_call_args_vers := updates pmap2_call_args_vers (fun (o : pmap2_call_args) v =>
  mk_pmap2_call_args (pmap2_call_args_prog o) v (pmap2_call_args_proc o) (pmap2_call_args_args o)).
#[global] Instance pmap2_call_args_proc_field : Field pmap2_call_args_proc := updates pmap2_call_args_proc (fun (o : pmap2_call_args) v =>
  mk_pmap2_call_args (pmap2_call_args_prog o) (pmap2_call_args_vers o) v (pmap2_call_args_args o)).
#[global] Instance pmap2_call_args_args_field : Field pmap2_call_args_args := updates pmap2_call_args_args (fun (o : pmap2_call_args) v =>
  mk_pmap2_call_args (pmap2_call_args_prog o) (pmap2_call_args_vers o) (pmap2_call_args_proc o) v).

Record pmap2_call_result : Type := mk_pmap2_call_result { pmap2_call_result_port : Z; pmap2_call_result_res : xdr_string_t }.
#[global] Instance pmap2_call_result_inhabited : Inhabited pmap2_call_result := populate (mk_pmap2_call_result inhabitant inhabitant).
#[global] Instance pmap2_call_result_port_field : Field pmap2_call_result_port := updates pmap2_call_result_port (fun (o : pmap2_call_result) v =>
  mk_pmap2_call_result v (pmap2_call_result_res o)).
#[global] Instance pmap2_call_result_res_field : Field pmap2_call_result_res := updates pmap2_call_result_res (fun (o : pmap2_call_result) v =>
  mk_pmap2_call_result (pmap2_call_result_port o) v).

Inductive pmap2_mapping_list : Type := mk_pmap2_mapping_list { pmap2_mapping_list_map : pmap2_mapping; pmap2_mapping_list_next : option
  pmap2_mapping_list }.
#[global] Instance pmap2_mapping_list_inhabited : Inhabited pmap2_mapping_list := populate (mk_pmap2_mapping_list inhabitant inhabitant).
#[global] Instance pmap2_mapping_list_map_field : Field pmap2_mapping_list_map := updates pmap2_mapping_list_map (fun (o : pmap2_mapping_list) v =>
  mk_pmap2_mapping_list v (pmap2_mapping_list_next o)).
Definition set_pmap2_mapping_list_next (o : pmap2_mapping_list) (v : (option pmap2_mapping_list)) : pmap2_mapping_list := mk_pmap2_mapping_list
  (pmap2_mapping_list_map o) v.
#[global] Instance pmap2_mapping_list_next_field : Field pmap2_mapping_list_next := updates pmap2_mapping_list_next set_pmap2_mapping_list_next.

Record pmap2_dump_result : Type := mk_pmap2_dump_result { pmap2_dump_result_list : option pmap2_mapping_list }.
#[global] Instance pmap2_dump_result_inhabited : Inhabited pmap2_dump_result := populate (mk_pmap2_dump_result inhabitant).
#[global] Instance pmap2_dump_result_list_field : Field pmap2_dump_result_list := updates pmap2_dump_result_list (fun (o : pmap2_dump_result) v =>
  mk_pmap2_dump_result v).

Record pmap3_string_result : Type := mk_pmap3_string_result { pmap3_string_result_addr : xdr_string_t }.
#[global] Instance pmap3_string_result_inhabited : Inhabited pmap3_string_result := populate (mk_pmap3_string_result inhabitant).
#[global] Instance pmap3_string_result_addr_field : Field pmap3_string_result_addr := updates pmap3_string_result_addr (fun (o : pmap3_string_result)
  v => mk_pmap3_string_result v).

Record pmap3_mapping : Type := mk_pmap3_mapping { pmap3_mapping_prog : Z; pmap3_mapping_vers : Z; pmap3_mapping_netid : xdr_string_t;
  pmap3_mapping_addr : xdr_string_t; pmap3_mapping_owner : xdr_string_t }.
#[global] Instance pmap3_mapping_inhabited : Inhabited pmap3_mapping := populate (mk_pmap3_mapping inhabitant inhabitant inhabitant inhabitant
  inhabitant).
#[global] Instance pmap3_mapping_prog_field : Field pmap3_mapping_prog := updates pmap3_mapping_prog (fun (o : pmap3_mapping) v => mk_pmap3_mapping v
  (pmap3_mapping_vers o) (pmap3_mapping_netid o) (pmap3_mapping_addr o) (pmap3_mapping_owner o)).
#[global] Instance pmap3_mapping_vers_field : Field pmap3_mapping_vers := updates pmap3_mapping_vers (fun (o : pmap3_mapping) v => mk_pmap3_mapping
  (pmap3_mapping_prog o) v (pmap3_mapping_netid o) (pmap3_mapping_addr o) (pmap3_mapping_owner o)).
#[global] Instance pmap3_mapping_netid_field : Field pmap3_mapping_netid := updates pmap3_mapping_netid (fun (o : pmap3_mapping) v => mk_pmap3_mapping
  (pmap3_mapping_prog o) (pmap3_mapping_vers o) v (pmap3_mapping_addr o) (pmap3_mapping_owner o)).
#[global] Instance pmap3_mapping_addr_field : Field pmap3_mapping_addr := updates pmap3_mapping_addr (fun (o : pmap3_mapping) v => mk_pmap3_mapping
  (pmap3_mapping_prog o) (pmap3_mapping_vers o) (pmap3_mapping_netid o) v (pmap3_mapping_owner o)).
#[global] Instance pmap3_mapping_owner_field : Field pmap3_mapping_owner := updates pmap3_mapping_owner (fun (o : pmap3_mapping) v => mk_pmap3_mapping
  (pmap3_mapping_prog o) (pmap3_mapping_vers o) (pmap3_mapping_netid o) (pmap3_mapping_addr o) v).

Inductive pmap3_mapping_list : Type := mk_pmap3_mapping_list { pmap3_mapping_list_map : pmap3_mapping; pmap3_mapping_list_next : option
  pmap3_mapping_list }.
#[global] Instance pmap3_mapping_list_inhabited : Inhabited pmap3_mapping_list := populate (mk_pmap3_mapping_list inhabitant inhabitant).
#[global] Instance pmap3_mapping_list_map_field : Field pmap3_mapping_list_map := updates pmap3_mapping_list_map (fun (o : pmap3_mapping_list) v =>
  mk_pmap3_mapping_list v (pmap3_mapping_list_next o)).
Definition set_pmap3_mapping_list_next (o : pmap3_mapping_list) (v : (option pmap3_mapping_list)) : pmap3_mapping_list := mk_pmap3_mapping_list
  (pmap3_mapping_list_map o) v.
#[global] Instance pmap3_mapping_list_next_field : Field pmap3_mapping_list_next := updates pmap3_mapping_list_next set_pmap3_mapping_list_next.

Record pmap3_dump_result : Type := mk_pmap3_dump_result { pmap3_dump_result_list : option pmap3_mapping_list }.
#[global] Instance pmap3_dump_result_inhabited : Inhabited pmap3_dump_result := populate (mk_pmap3_dump_result inhabitant).
#[global] Instance pmap3_dump_result_list_field : Field pmap3_dump_result_list := updates pmap3_dump_result_list (fun (o : pmap3_dump_result) v =>
  mk_pmap3_dump_result v).

Record pmap3_call_args : Type := mk_pmap3_call_args { pmap3_call_args_prog : Z; pmap3_call_args_vers : Z; pmap3_call_args_proc : Z;
  pmap3_call_args_args : xdr_string_t }.
#[global] Instance pmap3_call_args_inhabited : Inhabited pmap3_call_args := populate (mk_pmap3_call_args inhabitant inhabitant inhabitant inhabitant).
#[global] Instance pmap3_call_args_prog_field : Field pmap3_call_args_prog := updates pmap3_call_args_prog (fun (o : pmap3_call_args) v =>
  mk_pmap3_call_args v (pmap3_call_args_vers o) (pmap3_call_args_proc o) (pmap3_call_args_args o)).
#[global] Instance pmap3_call_args_vers_field : Field pmap3_call_args_vers := updates pmap3_call_args_vers (fun (o : pmap3_call_args) v =>
  mk_pmap3_call_args (pmap3_call_args_prog o) v (pmap3_call_args_proc o) (pmap3_call_args_args o)).
#[global] Instance pmap3_call_args_proc_field : Field pmap3_call_args_proc := updates pmap3_call_args_proc (fun (o : pmap3_call_args) v =>
  mk_pmap3_call_args (pmap3_call_args_prog o) (pmap3_call_args_vers o) v (pmap3_call_args_args o)).
#[global] Instance pmap3_call_args_args_field : Field pmap3_call_args_args := updates pmap3_call_args_args (fun (o : pmap3_call_args) v =>
  mk_pmap3_call_args (pmap3_call_args_prog o) (pmap3_call_args_vers o) (pmap3_call_args_proc o) v).

Record pmap3_call_result : Type := mk_pmap3_call_result { pmap3_call_result_port : Z; pmap3_call_result_res : xdr_string_t }.
#[global] Instance pmap3_call_result_inhabited : Inhabited pmap3_call_result := populate (mk_pmap3_call_result inhabitant inhabitant).
#[global] Instance pmap3_call_result_port_field : Field pmap3_call_result_port := updates pmap3_call_result_port (fun (o : pmap3_call_result) v =>
  mk_pmap3_call_result v (pmap3_call_result_res o)).
#[global] Instance pmap3_call_result_res_field : Field pmap3_call_result_res := updates pmap3_call_result_res (fun (o : pmap3_call_result) v =>
  mk_pmap3_call_result (pmap3_call_result_port o) v).

Record pmap3_netbuf : Type := mk_pmap3_netbuf { pmap3_netbuf_maxlen : Z; pmap3_netbuf_buf : xdr_string_t }.
#[global] Instance pmap3_netbuf_inhabited : Inhabited pmap3_netbuf := populate (mk_pmap3_netbuf inhabitant inhabitant).
#[global] Instance pmap3_netbuf_maxlen_field : Field pmap3_netbuf_maxlen := updates pmap3_netbuf_maxlen (fun (o : pmap3_netbuf) v => mk_pmap3_netbuf v
  (pmap3_netbuf_buf o)).
#[global] Instance pmap3_netbuf_buf_field : Field pmap3_netbuf_buf := updates pmap3_netbuf_buf (fun (o : pmap3_netbuf) v => mk_pmap3_netbuf
  (pmap3_netbuf_maxlen o) v).

(** * Routines *)

Definition xdr_pmap2_mapping : xdrproc pmap2_mapping :=
  xdr_u_int @ pmap2_mapping_prog ;;
  xdr_u_int @ pmap2_mapping_vers ;;
  xdr_u_int @ pmap2_mapping_prot ;;
  xdr_u_int @ pmap2_mapping_port ;;
  RETURN_TRUE.

Definition xdr_pmap2_call_args : xdrproc pmap2_call_args :=
  xdr_u_int @ pmap2_call_args_prog ;;
  xdr_u_int @ pmap2_call_args_vers ;;
  xdr_u_int @ pmap2_call_args_proc ;;
  (xdr_bytes UINT32_MAX false) @ pmap2_call_args_args ;;
  RETURN_TRUE.

Definition xdr_pmap2_call_result : xdrproc pmap2_call_result :=
  xdr_u_int @ pmap2_call_result_port ;;
  (xdr_bytes UINT32_MAX false) @ pmap2_call_result_res ;;
  RETURN_TRUE.

Definition pmap2_mapping_list_prefix (K : xdrproc pmap2_mapping_list) : xdrproc pmap2_mapping_list :=
  xdr_pmap2_mapping @ pmap2_mapping_list_map ;;
  K.
Fixpoint xdr_pmap2_mapping_list_fuel (n : nat) : xdrproc pmap2_mapping_list :=
  match n with
  | O => fun _ _ => Err OutOfFuel
  | S n => pmap2_mapping_list_prefix ((xdr_pointer set_pmap2_mapping_list_next inhabitant "xdr_pmap2_mapping_list" (xdr_pmap2_mapping_list_fuel n)) @ pmap2_mapping_list_next ;; RETURN_TRUE)
  end.
Fixpoint pmap2_mapping_list_chain (e : pmap2_mapping_list) : list pmap2_mapping_list :=
  match e with mk_pmap2_mapping_list _ n => e :: match n with Some e => pmap2_mapping_list_chain e | None => [] end end.
Definition pmap2_mapping_list_entries (o : option pmap2_mapping_list) : list pmap2_mapping_list := match o with Some e => pmap2_mapping_list_chain e |
  None => [] end.
(** Every entry takes one level of calls. *)
Definition xdr_pmap2_mapping_list : xdrproc pmap2_mapping_list := fun xdrs objp => xdr_pmap2_mapping_list_fuel (S (length (pmap2_mapping_list_chain
  objp))) xdrs objp.

Definition xdr_pmap2_dump_result : xdrproc pmap2_dump_result :=
  (xdr_pointer set_pmap2_mapping_list_next inhabitant "xdr_pmap2_mapping_list" xdr_pmap2_mapping_list) @ pmap2_dump_result_list ;;
  RETURN_TRUE.

Definition xdr_pmap3_string_result : xdrproc pmap3_string_result :=
  (xdr_string UINT32_MAX false) @ pmap3_string_result_addr ;;
  RETURN_TRUE.

Definition xdr_pmap3_mapping : xdrproc pmap3_mapping :=
  xdr_u_int @ pmap3_mapping_prog ;;
  xdr_u_int @ pmap3_mapping_vers ;;
  (xdr_string UINT32_MAX false) @ pmap3_mapping_netid ;;
  (xdr_string UINT32_MAX false) @ pmap3_mapping_addr ;;
  (xdr_string UINT32_MAX false) @ pmap3_mapping_owner ;;
  RETURN_TRUE.

Definition pmap3_mapping_list_prefix (K : xdrproc pmap3_mapping_list) : xdrproc pmap3_mapping_list :=
  xdr_pmap3_mapping @ pmap3_mapping_list_map ;;
  K.
Fixpoint xdr_pmap3_mapping_list_fuel (n : nat) : xdrproc pmap3_mapping_list :=
  match n with
  | O => fun _ _ => Err OutOfFuel
  | S n => pmap3_mapping_list_prefix ((xdr_pointer set_pmap3_mapping_list_next inhabitant "xdr_pmap3_mapping_list" (xdr_pmap3_mapping_list_fuel n)) @ pmap3_mapping_list_next ;; RETURN_TRUE)
  end.
Fixpoint pmap3_mapping_list_chain (e : pmap3_mapping_list) : list pmap3_mapping_list :=
  match e with mk_pmap3_mapping_list _ n => e :: match n with Some e => pmap3_mapping_list_chain e | None => [] end end.
Definition pmap3_mapping_list_entries (o : option pmap3_mapping_list) : list pmap3_mapping_list := match o with Some e => pmap3_mapping_list_chain e |
  None => [] end.
(** Every entry takes one level of calls. *)
Definition xdr_pmap3_mapping_list : xdrproc pmap3_mapping_list := fun xdrs objp => xdr_pmap3_mapping_list_fuel (S (length (pmap3_mapping_list_chain
  objp))) xdrs objp.

Definition xdr_pmap3_dump_result : xdrproc pmap3_dump_result :=
  (xdr_pointer set_pmap3_mapping_list_next inhabitant "xdr_pmap3_mapping_list" xdr_pmap3_mapping_list) @ pmap3_dump_result_list ;;
  RETURN_TRUE.

Definition xdr_pmap3_call_args : xdrproc pmap3_call_args :=
  xdr_u_int @ pmap3_call_args_prog ;;
  xdr_u_int @ pmap3_call_args_vers ;;
  xdr_u_int @ pmap3_call_args_proc ;;
  (xdr_bytes UINT32_MAX false) @ pmap3_call_args_args ;;
  RETURN_TRUE.

Definition xdr_pmap3_call_result : xdrproc pmap3_call_result :=
  xdr_u_int @ pmap3_call_result_port ;;
  (xdr_bytes UINT32_MAX false) @ pmap3_call_result_res ;;
  RETURN_TRUE.

Definition xdr_pmap3_netbuf : xdrproc pmap3_netbuf :=
  xdr_u_int @ pmap3_netbuf_maxlen ;;
  (xdr_bytes UINT32_MAX false) @ pmap3_netbuf_buf ;;
  RETURN_TRUE.

Definition xdr_PMAP2SETargs : xdrproc pmap2_mapping := xdr_pmap2_mapping.

Definition xdr_PMAP2UNSETargs : xdrproc pmap2_mapping := xdr_pmap2_mapping.

Definition xdr_PMAP2GETPORTargs : xdrproc pmap2_mapping := xdr_pmap2_mapping.

Definition xdr_PMAP2CALLITargs : xdrproc pmap2_call_args := xdr_pmap2_call_args.

Definition xdr_PMAP2CALLITres : xdrproc pmap2_call_result := xdr_pmap2_call_result.

Definition xdr_PMAP2DUMPres : xdrproc pmap2_dump_result := xdr_pmap2_dump_result.

Definition xdr_PMAP3SETargs : xdrproc pmap3_mapping := xdr_pmap3_mapping.

Definition xdr_PMAP3UNSETargs : xdrproc pmap3_mapping := xdr_pmap3_mapping.

Definition xdr_PMAP3GETADDRargs : xdrproc pmap3_mapping := xdr_pmap3_mapping.

Definition xdr_PMAP3GETADDRres : xdrproc pmap3_string_result := xdr_pmap3_string_result.

Definition xdr_PMAP3DUMPres : xdrproc pmap3_dump_result := xdr_pmap3_dump_result.

Definition xdr_PMAP3CALLITargs : xdrproc pmap3_call_result := xdr_pmap3_call_result.

Definition xdr_PMAP3CALLITres : xdrproc pmap3_call_result := xdr_pmap3_call_result.

Definition xdr_PMAP3UADDR2TADDRres : xdrproc pmap3_netbuf := xdr_pmap3_netbuf.

Definition xdr_PMAP3TADDR2UADDRargs : xdrproc pmap3_netbuf := xdr_pmap3_netbuf.

Definition xdr_PMAP3TADDR2UADDRres : xdrproc pmap3_string_result := xdr_pmap3_string_result.

(** * Codecs *)

#[global] Typeclasses Opaque xdr_pmap2_mapping xdr_pmap2_call_args xdr_pmap2_call_result xdr_pmap2_mapping_list xdr_pmap2_dump_result
  xdr_pmap3_string_result xdr_pmap3_mapping xdr_pmap3_mapping_list xdr_pmap3_dump_result xdr_pmap3_call_args xdr_pmap3_call_result
  xdr_pmap3_netbuf xdr_PMAP2SETargs xdr_PMAP2UNSETargs xdr_PMAP2GETPORTargs xdr_PMAP2CALLITargs xdr_PMAP2CALLITres xdr_PMAP2DUMPres
  xdr_PMAP3SETargs xdr_PMAP3UNSETargs xdr_PMAP3GETADDRargs xdr_PMAP3GETADDRres xdr_PMAP3DUMPres xdr_PMAP3CALLITargs xdr_PMAP3CALLITres
  xdr_PMAP3UADDR2TADDRres xdr_PMAP3TADDR2UADDRargs xdr_PMAP3TADDR2UADDRres.
#[global] Instance xdr_pmap2_mapping_codec : Codec xdr_pmap2_mapping.
Proof. struct. Defined.
#[global] Instance xdr_pmap2_call_args_codec : Codec xdr_pmap2_call_args.
Proof. struct. Defined.
#[global] Instance xdr_pmap2_call_result_codec : Codec xdr_pmap2_call_result.
Proof. struct. Defined.
#[global] Instance pmap2_mapping_list_linked : Linked pmap2_mapping_list_next set_pmap2_mapping_list_next pmap2_mapping_list_entries.
Proof. constructor; try done; by intros []. Qed.
#[global] Instance pmap2_mapping_list_prefix_ok : Prefix pmap2_mapping_list_prefix.
Proof. list_prefix. Defined.
#[global] Instance xdr_pmap2_mapping_list_list_codec : Codec (xdr_pointer set_pmap2_mapping_list_next inhabitant "xdr_pmap2_mapping_list"
  xdr_pmap2_mapping_list).
Proof. list_codec pmap2_mapping_list_next pmap2_mapping_list_entries pmap2_mapping_list_prefix xdr_pmap2_mapping_list_fuel. Defined.
#[global] Instance xdr_pmap2_dump_result_codec : Codec xdr_pmap2_dump_result.
Proof. struct. Defined.
#[global] Instance xdr_pmap3_string_result_codec : Codec xdr_pmap3_string_result.
Proof. struct. Defined.
#[global] Instance xdr_pmap3_mapping_codec : Codec xdr_pmap3_mapping.
Proof. struct. Defined.
#[global] Instance pmap3_mapping_list_linked : Linked pmap3_mapping_list_next set_pmap3_mapping_list_next pmap3_mapping_list_entries.
Proof. constructor; try done; by intros []. Qed.
#[global] Instance pmap3_mapping_list_prefix_ok : Prefix pmap3_mapping_list_prefix.
Proof. list_prefix. Defined.
#[global] Instance xdr_pmap3_mapping_list_list_codec : Codec (xdr_pointer set_pmap3_mapping_list_next inhabitant "xdr_pmap3_mapping_list"
  xdr_pmap3_mapping_list).
Proof. list_codec pmap3_mapping_list_next pmap3_mapping_list_entries pmap3_mapping_list_prefix xdr_pmap3_mapping_list_fuel. Defined.
#[global] Instance xdr_pmap3_dump_result_codec : Codec xdr_pmap3_dump_result.
Proof. struct. Defined.
#[global] Instance xdr_pmap3_call_args_codec : Codec xdr_pmap3_call_args.
Proof. struct. Defined.
#[global] Instance xdr_pmap3_call_result_codec : Codec xdr_pmap3_call_result.
Proof. struct. Defined.
#[global] Instance xdr_pmap3_netbuf_codec : Codec xdr_pmap3_netbuf.
Proof. struct. Defined.
#[global] Instance xdr_PMAP2SETargs_codec : Codec xdr_PMAP2SETargs := _ : Codec xdr_pmap2_mapping.
#[global] Instance xdr_PMAP2UNSETargs_codec : Codec xdr_PMAP2UNSETargs := _ : Codec xdr_pmap2_mapping.
#[global] Instance xdr_PMAP2GETPORTargs_codec : Codec xdr_PMAP2GETPORTargs := _ : Codec xdr_pmap2_mapping.
#[global] Instance xdr_PMAP2CALLITargs_codec : Codec xdr_PMAP2CALLITargs := _ : Codec xdr_pmap2_call_args.
#[global] Instance xdr_PMAP2CALLITres_codec : Codec xdr_PMAP2CALLITres := _ : Codec xdr_pmap2_call_result.
#[global] Instance xdr_PMAP2DUMPres_codec : Codec xdr_PMAP2DUMPres := _ : Codec xdr_pmap2_dump_result.
#[global] Instance xdr_PMAP3SETargs_codec : Codec xdr_PMAP3SETargs := _ : Codec xdr_pmap3_mapping.
#[global] Instance xdr_PMAP3UNSETargs_codec : Codec xdr_PMAP3UNSETargs := _ : Codec xdr_pmap3_mapping.
#[global] Instance xdr_PMAP3GETADDRargs_codec : Codec xdr_PMAP3GETADDRargs := _ : Codec xdr_pmap3_mapping.
#[global] Instance xdr_PMAP3GETADDRres_codec : Codec xdr_PMAP3GETADDRres := _ : Codec xdr_pmap3_string_result.
#[global] Instance xdr_PMAP3DUMPres_codec : Codec xdr_PMAP3DUMPres := _ : Codec xdr_pmap3_dump_result.
#[global] Instance xdr_PMAP3CALLITargs_codec : Codec xdr_PMAP3CALLITargs := _ : Codec xdr_pmap3_call_result.
#[global] Instance xdr_PMAP3CALLITres_codec : Codec xdr_PMAP3CALLITres := _ : Codec xdr_pmap3_call_result.
#[global] Instance xdr_PMAP3UADDR2TADDRres_codec : Codec xdr_PMAP3UADDR2TADDRres := _ : Codec xdr_pmap3_netbuf.
#[global] Instance xdr_PMAP3TADDR2UADDRargs_codec : Codec xdr_PMAP3TADDR2UADDRargs := _ : Codec xdr_pmap3_netbuf.
#[global] Instance xdr_PMAP3TADDR2UADDRres_codec : Codec xdr_PMAP3TADDR2UADDRres := _ : Codec xdr_pmap3_string_result.

(** * Safety of decoding *)

#[global] Instance xdr_pmap2_mapping_safe : Safe xdr_pmap2_mapping.
Proof. safe. Defined.
#[global] Instance xdr_pmap2_call_args_safe : Safe xdr_pmap2_call_args.
Proof. safe. Defined.
#[global] Instance xdr_pmap2_call_result_safe : Safe xdr_pmap2_call_result.
Proof. safe. Defined.
#[global] Instance xdr_pmap3_string_result_safe : Safe xdr_pmap3_string_result.
Proof. safe. Defined.
#[global] Instance xdr_pmap3_mapping_safe : Safe xdr_pmap3_mapping.
Proof. safe. Defined.
#[global] Instance xdr_pmap3_call_args_safe : Safe xdr_pmap3_call_args.
Proof. safe. Defined.
#[global] Instance xdr_pmap3_call_result_safe : Safe xdr_pmap3_call_result.
Proof. safe. Defined.
#[global] Instance xdr_pmap3_netbuf_safe : Safe xdr_pmap3_netbuf.
Proof. safe. Defined.
#[global] Instance xdr_PMAP2SETargs_safe : Safe xdr_PMAP2SETargs := _ : Safe xdr_pmap2_mapping.
#[global] Instance xdr_PMAP2UNSETargs_safe : Safe xdr_PMAP2UNSETargs := _ : Safe xdr_pmap2_mapping.
#[global] Instance xdr_PMAP2GETPORTargs_safe : Safe xdr_PMAP2GETPORTargs := _ : Safe xdr_pmap2_mapping.
#[global] Instance xdr_PMAP2CALLITargs_safe : Safe xdr_PMAP2CALLITargs := _ : Safe xdr_pmap2_call_args.
#[global] Instance xdr_PMAP2CALLITres_safe : Safe xdr_PMAP2CALLITres := _ : Safe xdr_pmap2_call_result.
#[global] Instance xdr_PMAP3SETargs_safe : Safe xdr_PMAP3SETargs := _ : Safe xdr_pmap3_mapping.
#[global] Instance xdr_PMAP3UNSETargs_safe : Safe xdr_PMAP3UNSETargs := _ : Safe xdr_pmap3_mapping.
#[global] Instance xdr_PMAP3GETADDRargs_safe : Safe xdr_PMAP3GETADDRargs := _ : Safe xdr_pmap3_mapping.
#[global] Instance xdr_PMAP3GETADDRres_safe : Safe xdr_PMAP3GETADDRres := _ : Safe xdr_pmap3_string_result.
#[global] Instance xdr_PMAP3CALLITargs_safe : Safe xdr_PMAP3CALLITargs := _ : Safe xdr_pmap3_call_result.
#[global] Instance xdr_PMAP3CALLITres_safe : Safe xdr_PMAP3CALLITres := _ : Safe xdr_pmap3_call_result.
#[global] Instance xdr_PMAP3UADDR2TADDRres_safe : Safe xdr_PMAP3UADDR2TADDRres := _ : Safe xdr_pmap3_netbuf.
#[global] Instance xdr_PMAP3TADDR2UADDRargs_safe : Safe xdr_PMAP3TADDR2UADDRargs := _ : Safe xdr_pmap3_netbuf.
#[global] Instance xdr_PMAP3TADDR2UADDRres_safe : Safe xdr_PMAP3TADDR2UADDRres := _ : Safe xdr_pmap3_string_result.
