(* ===== verification/XdrRdma.v ===== *)
(** The headers of RPC over RDMA: chunk lists and errors (rpc_rdma.h, rpc_rdma_xdr.cpp). *)

From stdpp Require Import strings.
From S2P Require Import Prelude.
From S2P Require Import Xdr.
From S2P Require Import XdrCodec.
From S2P Require Import XdrList.
From S2P Require Import XdrSafe.

(** * Constants *)

Definition ERR_VERS : Z := 1.
Definition ERR_CHUNK : Z := 2.
Definition RDMA_MSG : Z := 0.
Definition RDMA_NOMSG : Z := 1.
Definition RDMA_MSGP : Z := 2.
Definition RDMA_DONE : Z := 3.
Definition RDMA_ERROR : Z := 4.

(** * Data *)

Record xdr_rdma_segment : Type := mk_xdr_rdma_segment { xdr_rdma_segment_handle : Z; xdr_rdma_segment_length : Z; xdr_rdma_segment_offset : Z }.
#[global] Instance xdr_rdma_segment_inhabited : Inhabited xdr_rdma_segment := populate (mk_xdr_rdma_segment inhabitant inhabitant inhabitant).
#[global] Instance xdr_rdma_segment_handle_field : Field xdr_rdma_segment_handle := updates xdr_rdma_segment_handle (fun (o : xdr_rdma_segment) v =>
  mk_xdr_rdma_segment v (xdr_rdma_segment_length o) (xdr_rdma_segment_offset o)).
#[global] Instance xdr_rdma_segment_length_field : Field xdr_rdma_segment_length := updates xdr_rdma_segment_length (fun (o : xdr_rdma_segment) v =>
  mk_xdr_rdma_segment (xdr_rdma_segment_handle o) v (xdr_rdma_segment_offset o)).
#[global] Instance xdr_rdma_segment_offset_field : Field xdr_rdma_segment_offset := updates xdr_rdma_segment_offset (fun (o : xdr_rdma_segment) v =>
  mk_xdr_rdma_segment (xdr_rdma_segment_handle o) (xdr_rdma_segment_length o) v).

Record xdr_read_chunk : Type := mk_xdr_read_chunk { xdr_read_chunk_position : Z; xdr_read_chunk_target : xdr_rdma_segment }.
#[global] Instance xdr_read_chunk_inhabited : Inhabited xdr_read_chunk := populate (mk_xdr_read_chunk inhabitant inhabitant).
#[global] Instance xdr_read_chunk_position_field : Field xdr_read_chunk_position := updates xdr_read_chunk_position (fun (o : xdr_read_chunk) v =>
  mk_xdr_read_chunk v (xdr_read_chunk_target o)).
#[global] Instance xdr_read_chunk_target_field : Field xdr_read_chunk_target := updates xdr_read_chunk_target (fun (o : xdr_read_chunk) v =>
  mk_xdr_read_chunk (xdr_read_chunk_position o) v).

Inductive xdr_read_list : Type := mk_xdr_read_list { xdr_read_list_entry : xdr_read_chunk; xdr_read_list_next : option xdr_read_list }.
#[global] Instance xdr_read_list_inhabited : Inhabited xdr_read_list := populate (mk_xdr_read_list inhabitant inhabitant).
#[global] Instance xdr_read_list_entry_field : Field xdr_read_list_entry := updates xdr_read_list_entry (fun (o : xdr_read_list) v => mk_xdr_read_list
  v (xdr_read_list_next o)).
Definition set_xdr_read_list_next (o : xdr_read_list) (v : (option xdr_read_list)) : xdr_read_list := mk_xdr_read_list (xdr_read_list_entry o) v.
#[global] Instance xdr_read_list_next_field : Field xdr_read_list_next := updates xdr_read_list_next set_xdr_read_list_next.

Record xdr_write_chunk : Type := mk_xdr_write_chunk { xdr_write_chunk_target : list xdr_rdma_segment }.
#[global] Instance xdr_write_chunk_inhabited : Inhabited xdr_write_chunk := populate (mk_xdr_write_chunk inhabitant).
#[global] Instance xdr_write_chunk_target_field : Field xdr_write_chunk_target := updates xdr_write_chunk_target (fun (o : xdr_write_chunk) v =>
  mk_xdr_write_chunk v).

Inductive xdr_write_list : Type := mk_xdr_write_list { xdr_write_list_entry : xdr_write_chunk; xdr_write_list_next : option xdr_write_list }.
#[global] Instance xdr_write_list_inhabited : Inhabited xdr_write_list := populate (mk_xdr_write_list inhabitant inhabitant).
#[global] Instance xdr_write_list_entry_field : Field xdr_write_list_entry := updates xdr_write_list_entry (fun (o : xdr_write_list) v =>
  mk_xdr_write_list v (xdr_write_list_next o)).
Definition set_xdr_write_list_next (o : xdr_write_list) (v : (option xdr_write_list)) : xdr_write_list := mk_xdr_write_list (xdr_write_list_entry o)
  v.
#[global] Instance xdr_write_list_next_field : Field xdr_write_list_next := updates xdr_write_list_next set_xdr_write_list_next.

Record rpc_rdma_header : Type := mk_rpc_rdma_header { rpc_rdma_header_rdma_reads : option xdr_read_list; rpc_rdma_header_rdma_writes : option
  xdr_write_list; rpc_rdma_header_rdma_reply : option xdr_write_chunk }.
#[global] Instance rpc_rdma_header_inhabited : Inhabited rpc_rdma_header := populate (mk_rpc_rdma_header inhabitant inhabitant inhabitant).
#[global] Instance rpc_rdma_header_rdma_reads_field : Field rpc_rdma_header_rdma_reads := updates rpc_rdma_header_rdma_reads (fun (o :
  rpc_rdma_header) v => mk_rpc_rdma_header v (rpc_rdma_header_rdma_writes o) (rpc_rdma_header_rdma_reply o)).
#[global] Instance rpc_rdma_header_rdma_writes_field : Field rpc_rdma_header_rdma_writes := updates rpc_rdma_header_rdma_writes (fun (o :
  rpc_rdma_header) v => mk_rpc_rdma_header (rpc_rdma_header_rdma_reads o) v (rpc_rdma_header_rdma_reply o)).
#[global] Instance rpc_rdma_header_rdma_reply_field : Field rpc_rdma_header_rdma_reply := updates rpc_rdma_header_rdma_reply (fun (o :
  rpc_rdma_header) v => mk_rpc_rdma_header (rpc_rdma_header_rdma_reads o) (rpc_rdma_header_rdma_writes o) v).

Record rpc_rdma_header_nomsg : Type := mk_rpc_rdma_header_nomsg { rpc_rdma_header_nomsg_rdma_reads : option xdr_read_list;
  rpc_rdma_header_nomsg_rdma_writes : option xdr_write_list; rpc_rdma_header_nomsg_rdma_reply : option xdr_write_chunk }.
#[global] Instance rpc_rdma_header_nomsg_inhabited : Inhabited rpc_rdma_header_nomsg := populate (mk_rpc_rdma_header_nomsg inhabitant inhabitant
  inhabitant).
#[global] Instance rpc_rdma_header_nomsg_rdma_reads_field : Field rpc_rdma_header_nomsg_rdma_reads := updates rpc_rdma_header_nomsg_rdma_reads (fun (o
  : rpc_rdma_header_nomsg) v => mk_rpc_rdma_header_nomsg v (rpc_rdma_header_nomsg_rdma_writes o) (rpc_rdma_header_nomsg_rdma_reply o)).
#[global] Instance rpc_rdma_header_nomsg_rdma_writes_field : Field rpc_rdma_header_nomsg_rdma_writes := updates rpc_rdma_header_nomsg_rdma_writes (fun
  (o : rpc_rdma_header_nomsg) v => mk_rpc_rdma_header_nomsg (rpc_rdma_header_nomsg_rdma_reads o) v (rpc_rdma_header_nomsg_rdma_reply o)).
#[global] Instance rpc_rdma_header_nomsg_rdma_reply_field : Field rpc_rdma_header_nomsg_rdma_reply := updates rpc_rdma_header_nomsg_rdma_reply (fun (o
  : rpc_rdma_header_nomsg) v => mk_rpc_rdma_header_nomsg (rpc_rdma_header_nomsg_rdma_reads o) (rpc_rdma_header_nomsg_rdma_writes o) v).

Record rpc_rdma_header_padded : Type := mk_rpc_rdma_header_padded { rpc_rdma_header_padded_rdma_align : Z; rpc_rdma_header_padded_rdma_thresh : Z;
  rpc_rdma_header_padded_rdma_reads : option xdr_read_list; rpc_rdma_header_padded_rdma_writes : option xdr_write_list;
  rpc_rdma_header_padded_rdma_reply : option xdr_write_chunk }.
#[global] Instance rpc_rdma_header_padded_inhabited : Inhabited rpc_rdma_header_padded := populate (mk_rpc_rdma_header_padded inhabitant inhabitant
  inhabitant inhabitant inhabitant).
#[global] Instance rpc_rdma_header_padded_rdma_align_field : Field rpc_rdma_header_padded_rdma_align := updates rpc_rdma_header_padded_rdma_align (fun
  (o : rpc_rdma_header_padded) v => mk_rpc_rdma_header_padded v (rpc_rdma_header_padded_rdma_thresh o) (rpc_rdma_header_padded_rdma_reads o)
  (rpc_rdma_header_padded_rdma_writes o) (rpc_rdma_header_padded_rdma_reply o)).
#[global] Instance rpc_rdma_header_padded_rdma_thresh_field : Field rpc_rdma_header_padded_rdma_thresh := updates rpc_rdma_header_padded_rdma_thresh
  (fun (o : rpc_rdma_header_padded) v => mk_rpc_rdma_header_padded (rpc_rdma_header_padded_rdma_align o) v (rpc_rdma_header_padded_rdma_reads o)
  (rpc_rdma_header_padded_rdma_writes o) (rpc_rdma_header_padded_rdma_reply o)).
#[global] Instance rpc_rdma_header_padded_rdma_reads_field : Field rpc_rdma_header_padded_rdma_reads := updates rpc_rdma_header_padded_rdma_reads (fun
  (o : rpc_rdma_header_padded) v => mk_rpc_rdma_header_padded (rpc_rdma_header_padded_rdma_align o) (rpc_rdma_header_padded_rdma_thresh o) v
  (rpc_rdma_header_padded_rdma_writes o) (rpc_rdma_header_padded_rdma_reply o)).
#[global] Instance rpc_rdma_header_padded_rdma_writes_field : Field rpc_rdma_header_padded_rdma_writes := updates rpc_rdma_header_padded_rdma_writes
  (fun (o : rpc_rdma_header_padded) v => mk_rpc_rdma_header_padded (rpc_rdma_header_padded_rdma_align o) (rpc_rdma_header_padded_rdma_thresh o)
  (rpc_rdma_header_padded_rdma_reads o) v (rpc_rdma_header_padded_rdma_reply o)).
#[global] Instance rpc_rdma_header_padded_rdma_reply_field : Field rpc_rdma_header_padded_rdma_reply := updates rpc_rdma_header_padded_rdma_reply (fun
  (o : rpc_rdma_header_padded) v => mk_rpc_rdma_header_padded (rpc_rdma_header_padded_rdma_align o) (rpc_rdma_header_padded_rdma_thresh o)
  (rpc_rdma_header_padded_rdma_reads o) (rpc_rdma_header_padded_rdma_writes o) v).

Record rpc_rdma_errvers : Type := mk_rpc_rdma_errvers { rpc_rdma_errvers_rdma_vers_low : Z; rpc_rdma_errvers_rdma_vers_high : Z }.
#[global] Instance rpc_rdma_errvers_inhabited : Inhabited rpc_rdma_errvers := populate (mk_rpc_rdma_errvers inhabitant inhabitant).
#[global] Instance rpc_rdma_errvers_rdma_vers_low_field : Field rpc_rdma_errvers_rdma_vers_low := updates rpc_rdma_errvers_rdma_vers_low (fun (o :
  rpc_rdma_errvers) v => mk_rpc_rdma_errvers v (rpc_rdma_errvers_rdma_vers_high o)).
#[global] Instance rpc_rdma_errvers_rdma_vers_high_field : Field rpc_rdma_errvers_rdma_vers_high := updates rpc_rdma_errvers_rdma_vers_high (fun (o :
  rpc_rdma_errvers) v => mk_rpc_rdma_errvers (rpc_rdma_errvers_rdma_vers_low o) v).

Inductive rpc_rdma_error_union : Type :=
| rpc_rdma_error_is_range (v : rpc_rdma_errvers)
| rpc_rdma_error_none.
Record rpc_rdma_error : Type := mk_rpc_rdma_error { rpc_rdma_error_err : Z; rpc_rdma_error_u : rpc_rdma_error_union }.
#[global] Instance rpc_rdma_error_inhabited : Inhabited rpc_rdma_error := populate (mk_rpc_rdma_error inhabitant rpc_rdma_error_none).
#[global] Instance rpc_rdma_error_err_field : Field rpc_rdma_error_err := updates rpc_rdma_error_err (fun (o : rpc_rdma_error) v => mk_rpc_rdma_error
  v (rpc_rdma_error_u o)).
Definition rpc_rdma_error_range (o : rpc_rdma_error) : option rpc_rdma_errvers := match rpc_rdma_error_u o with rpc_rdma_error_is_range v => Some v |
  _ => None end.
#[global] Instance rpc_rdma_error_range_arm : Arm rpc_rdma_error_range := activates rpc_rdma_error_range (fun o v => mk_rpc_rdma_error
  (rpc_rdma_error_err o) (rpc_rdma_error_is_range v)).
Definition clear_rpc_rdma_error (o : rpc_rdma_error) : rpc_rdma_error := mk_rpc_rdma_error (rpc_rdma_error_err o) rpc_rdma_error_none.

Inductive rdma_body_union : Type :=
| rdma_body_is_rdma_msg (v : rpc_rdma_header)
| rdma_body_is_rdma_nomsg (v : rpc_rdma_header_nomsg)
| rdma_body_is_rdma_msgp (v : rpc_rdma_header_padded)
| rdma_body_is_rdma_error (v : rpc_rdma_error)
| rdma_body_none.
Record rdma_body : Type := mk_rdma_body { rdma_body_proc : Z; rdma_body_u : rdma_body_union }.
#[global] Instance rdma_body_inhabited : Inhabited rdma_body := populate (mk_rdma_body inhabitant rdma_body_none).
#[global] Instance rdma_body_proc_field : Field rdma_body_proc := updates rdma_body_proc (fun (o : rdma_body) v => mk_rdma_body v (rdma_body_u o)).
Definition rdma_body_rdma_msg (o : rdma_body) : option rpc_rdma_header := match rdma_body_u o with rdma_body_is_rdma_msg v => Some v | _ => None end.
#[global] Instance rdma_body_rdma_msg_arm : Arm rdma_body_rdma_msg := activates rdma_body_rdma_msg (fun o v => mk_rdma_body (rdma_body_proc o)
  (rdma_body_is_rdma_msg v)).
Definition rdma_body_rdma_nomsg (o : rdma_body) : option rpc_rdma_header_nomsg := match rdma_body_u o with rdma_body_is_rdma_nomsg v => Some v | _ =>
  None end.
#[global] Instance rdma_body_rdma_nomsg_arm : Arm rdma_body_rdma_nomsg := activates rdma_body_rdma_nomsg (fun o v => mk_rdma_body (rdma_body_proc o)
  (rdma_body_is_rdma_nomsg v)).
Definition rdma_body_rdma_msgp (o : rdma_body) : option rpc_rdma_header_padded := match rdma_body_u o with rdma_body_is_rdma_msgp v => Some v | _ =>
  None end.
#[global] Instance rdma_body_rdma_msgp_arm : Arm rdma_body_rdma_msgp := activates rdma_body_rdma_msgp (fun o v => mk_rdma_body (rdma_body_proc o)
  (rdma_body_is_rdma_msgp v)).
Definition rdma_body_rdma_error (o : rdma_body) : option rpc_rdma_error := match rdma_body_u o with rdma_body_is_rdma_error v => Some v | _ => None
  end.
#[global] Instance rdma_body_rdma_error_arm : Arm rdma_body_rdma_error := activates rdma_body_rdma_error (fun o v => mk_rdma_body (rdma_body_proc o)
  (rdma_body_is_rdma_error v)).
Definition clear_rdma_body (o : rdma_body) : rdma_body := mk_rdma_body (rdma_body_proc o) rdma_body_none.

Record rdma_msg : Type := mk_rdma_msg { rdma_msg_rdma_xid : Z; rdma_msg_rdma_vers : Z; rdma_msg_rdma_credit : Z; rdma_msg_rdma_body : rdma_body }.
#[global] Instance rdma_msg_inhabited : Inhabited rdma_msg := populate (mk_rdma_msg inhabitant inhabitant inhabitant inhabitant).
#[global] Instance rdma_msg_rdma_xid_field : Field rdma_msg_rdma_xid := updates rdma_msg_rdma_xid (fun (o : rdma_msg) v => mk_rdma_msg v
  (rdma_msg_rdma_vers o) (rdma_msg_rdma_credit o) (rdma_msg_rdma_body o)).
#[global] Instance rdma_msg_rdma_vers_field : Field rdma_msg_rdma_vers := updates rdma_msg_rdma_vers (fun (o : rdma_msg) v => mk_rdma_msg
  (rdma_msg_rdma_xid o) v (rdma_msg_rdma_credit o) (rdma_msg_rdma_body o)).
#[global] Instance rdma_msg_rdma_credit_field : Field rdma_msg_rdma_credit := updates rdma_msg_rdma_credit (fun (o : rdma_msg) v => mk_rdma_msg
  (rdma_msg_rdma_xid o) (rdma_msg_rdma_vers o) v (rdma_msg_rdma_body o)).
#[global] Instance rdma_msg_rdma_body_field : Field rdma_msg_rdma_body := updates rdma_msg_rdma_body (fun (o : rdma_msg) v => mk_rdma_msg
  (rdma_msg_rdma_xid o) (rdma_msg_rdma_vers o) (rdma_msg_rdma_credit o) v).

(** * Routines *)

Definition xdr_xdr_rdma_segment : xdrproc xdr_rdma_segment :=
  xdr_uint32_t @ xdr_rdma_segment_handle ;;
  xdr_uint32_t @ xdr_rdma_segment_length ;;
  xdr_uint64_t @ xdr_rdma_segment_offset ;;
  RETURN_TRUE.

Definition xdr_xdr_read_chunk : xdrproc xdr_read_chunk :=
  xdr_uint32_t @ xdr_read_chunk_position ;;
  xdr_xdr_rdma_segment @ xdr_read_chunk_target ;;
  RETURN_TRUE.

Definition xdr_read_list_prefix (K : xdrproc xdr_read_list) : xdrproc xdr_read_list :=
  xdr_xdr_read_chunk @ xdr_read_list_entry ;;
  K.
Fixpoint xdr_xdr_read_list_fuel (n : nat) : xdrproc xdr_read_list :=
  match n with
  | O => fun _ _ => Err OutOfFuel
  | S n => xdr_read_list_prefix ((xdr_pointer set_xdr_read_list_next inhabitant "xdr_xdr_read_list" (xdr_xdr_read_list_fuel n)) @ xdr_read_list_next ;; RETURN_TRUE)
  end.
Fixpoint xdr_read_list_chain (e : xdr_read_list) : list xdr_read_list :=
  match e with mk_xdr_read_list _ n => e :: match n with Some e => xdr_read_list_chain e | None => [] end end.
Definition xdr_read_list_entries (o : option xdr_read_list) : list xdr_read_list := match o with Some e => xdr_read_list_chain e | None => [] end.
(** Every entry takes one level of calls. *)
Definition xdr_xdr_read_list : xdrproc xdr_read_list := fun xdrs objp => xdr_xdr_read_list_fuel (S (length (xdr_read_list_chain objp))) xdrs objp.

Definition xdr_xdr_write_chunk : xdrproc xdr_write_chunk :=
  (xdr_array UINT32_MAX 16 inhabitant xdr_xdr_rdma_segment) @ xdr_write_chunk_target ;;
  RETURN_TRUE.

Definition xdr_write_list_prefix (K : xdrproc xdr_write_list) : xdrproc xdr_write_list :=
  xdr_xdr_write_chunk @ xdr_write_list_entry ;;
  K.
Fixpoint xdr_xdr_write_list_fuel (n : nat) : xdrproc xdr_write_list :=
  match n with
  | O => fun _ _ => Err OutOfFuel
  | S n => xdr_write_list_prefix ((xdr_pointer set_xdr_write_list_next inhabitant "xdr_xdr_write_list" (xdr_xdr_write_list_fuel n)) @ xdr_write_list_next ;; RETURN_TRUE)
  end.
Fixpoint xdr_write_list_chain (e : xdr_write_list) : list xdr_write_list :=
  match e with mk_xdr_write_list _ n => e :: match n with Some e => xdr_write_list_chain e | None => [] end end.
Definition xdr_write_list_entries (o : option xdr_write_list) : list xdr_write_list := match o with Some e => xdr_write_list_chain e | None => [] end.
(** Every entry takes one level of calls. *)
Definition xdr_xdr_write_list : xdrproc xdr_write_list := fun xdrs objp => xdr_xdr_write_list_fuel (S (length (xdr_write_list_chain objp))) xdrs objp.

Definition xdr_rpc_rdma_header : xdrproc rpc_rdma_header :=
  (xdr_pointer set_xdr_read_list_next inhabitant "xdr_xdr_read_list" xdr_xdr_read_list) @ rpc_rdma_header_rdma_reads ;;
  (xdr_pointer set_xdr_write_list_next inhabitant "xdr_xdr_write_list" xdr_xdr_write_list) @ rpc_rdma_header_rdma_writes ;;
  (xdr_pointer (fun e _ => e) inhabitant "xdr_xdr_write_chunk" xdr_xdr_write_chunk) @ rpc_rdma_header_rdma_reply ;;
  RETURN_TRUE.

Definition xdr_rpc_rdma_header_nomsg : xdrproc rpc_rdma_header_nomsg :=
  (xdr_pointer set_xdr_read_list_next inhabitant "xdr_xdr_read_list" xdr_xdr_read_list) @ rpc_rdma_header_nomsg_rdma_reads ;;
  (xdr_pointer set_xdr_write_list_next inhabitant "xdr_xdr_write_list" xdr_xdr_write_list) @ rpc_rdma_header_nomsg_rdma_writes ;;
  (xdr_pointer (fun e _ => e) inhabitant "xdr_xdr_write_chunk" xdr_xdr_write_chunk) @ rpc_rdma_header_nomsg_rdma_reply ;;
  RETURN_TRUE.

Definition xdr_rpc_rdma_header_padded : xdrproc rpc_rdma_header_padded :=
  xdr_uint32_t @ rpc_rdma_header_padded_rdma_align ;;
  xdr_uint32_t @ rpc_rdma_header_padded_rdma_thresh ;;
  (xdr_pointer set_xdr_read_list_next inhabitant "xdr_xdr_read_list" xdr_xdr_read_list) @ rpc_rdma_header_padded_rdma_reads ;;
  (xdr_pointer set_xdr_write_list_next inhabitant "xdr_xdr_write_list" xdr_xdr_write_list) @ rpc_rdma_header_padded_rdma_writes ;;
  (xdr_pointer (fun e _ => e) inhabitant "xdr_xdr_write_chunk" xdr_xdr_write_chunk) @ rpc_rdma_header_padded_rdma_reply ;;
  RETURN_TRUE.

Definition xdr_rpc_rdma_errcode : xdrproc Z := xdr_enum.

Definition xdr_rpc_rdma_errvers : xdrproc rpc_rdma_errvers :=
  xdr_uint32_t @ rpc_rdma_errvers_rdma_vers_low ;;
  xdr_uint32_t @ rpc_rdma_errvers_rdma_vers_high ;;
  RETURN_TRUE.

Definition xdr_rpc_rdma_error : xdrproc rpc_rdma_error :=
  xdr_rpc_rdma_errcode @ rpc_rdma_error_err ;;
  case! ERR_VERS of rpc_rdma_error_err : (xdr_rpc_rdma_errvers @| rpc_rdma_error_range ;; RETURN_TRUE) else
  case! ERR_CHUNK of rpc_rdma_error_err : (no_arm clear_rpc_rdma_error) else
  RETURN_FALSE.

Definition xdr_rdma_proc : xdrproc Z := xdr_enum.

Definition xdr_rdma_body : xdrproc rdma_body :=
  xdr_rdma_proc @ rdma_body_proc ;;
  case! RDMA_MSG of rdma_body_proc : (xdr_rpc_rdma_header @| rdma_body_rdma_msg ;; RETURN_TRUE) else
  case! RDMA_NOMSG of rdma_body_proc : (xdr_rpc_rdma_header_nomsg @| rdma_body_rdma_nomsg ;; RETURN_TRUE) else
  case! RDMA_MSGP of rdma_body_proc : (xdr_rpc_rdma_header_padded @| rdma_body_rdma_msgp ;; RETURN_TRUE) else
  case! RDMA_DONE of rdma_body_proc : (no_arm clear_rdma_body) else
  case! RDMA_ERROR of rdma_body_proc : (xdr_rpc_rdma_error @| rdma_body_rdma_error ;; RETURN_TRUE) else
  RETURN_FALSE.

Definition xdr_rdma_msg : xdrproc rdma_msg :=
  xdr_uint32_t @ rdma_msg_rdma_xid ;;
  xdr_uint32_t @ rdma_msg_rdma_vers ;;
  xdr_uint32_t @ rdma_msg_rdma_credit ;;
  xdr_rdma_body @ rdma_msg_rdma_body ;;
  RETURN_TRUE.

(** * Codecs *)

#[global] Typeclasses Opaque xdr_xdr_rdma_segment xdr_xdr_read_chunk xdr_xdr_read_list xdr_xdr_write_chunk xdr_xdr_write_list
  xdr_rpc_rdma_header xdr_rpc_rdma_header_nomsg xdr_rpc_rdma_header_padded xdr_rpc_rdma_errcode xdr_rpc_rdma_errvers xdr_rpc_rdma_error
  xdr_rdma_proc xdr_rdma_body xdr_rdma_msg.
#[global] Instance xdr_xdr_rdma_segment_codec : Codec xdr_xdr_rdma_segment.
Proof. struct. Defined.
#[global] Instance xdr_xdr_read_chunk_codec : Codec xdr_xdr_read_chunk.
Proof. struct. Defined.
#[global] Instance xdr_read_list_linked : Linked xdr_read_list_next set_xdr_read_list_next xdr_read_list_entries.
Proof. constructor; try done; by intros []. Qed.
#[global] Instance xdr_read_list_prefix_ok : Prefix xdr_read_list_prefix.
Proof. list_prefix. Defined.
#[global] Instance xdr_xdr_read_list_list_codec : Codec (xdr_pointer set_xdr_read_list_next inhabitant "xdr_xdr_read_list" xdr_xdr_read_list).
Proof. list_codec xdr_read_list_next xdr_read_list_entries xdr_read_list_prefix xdr_xdr_read_list_fuel. Defined.
#[global] Instance xdr_xdr_write_chunk_codec : Codec xdr_xdr_write_chunk.
Proof. struct. Defined.
#[global] Instance xdr_xdr_write_chunk_optional_codec : Codec (xdr_pointer (fun e _ => e) inhabitant "xdr_xdr_write_chunk" xdr_xdr_write_chunk).
Proof. refine (optional_codec _ _ _ _ _). not_listed. Defined.
#[global] Instance xdr_write_list_linked : Linked xdr_write_list_next set_xdr_write_list_next xdr_write_list_entries.
Proof. constructor; try done; by intros []. Qed.
#[global] Instance xdr_write_list_prefix_ok : Prefix xdr_write_list_prefix.
Proof. list_prefix. Defined.
#[global] Instance xdr_xdr_write_list_list_codec : Codec (xdr_pointer set_xdr_write_list_next inhabitant "xdr_xdr_write_list" xdr_xdr_write_list).
Proof. list_codec xdr_write_list_next xdr_write_list_entries xdr_write_list_prefix xdr_xdr_write_list_fuel. Defined.
#[global] Instance xdr_rpc_rdma_header_codec : Codec xdr_rpc_rdma_header.
Proof. struct. Defined.
#[global] Instance xdr_rpc_rdma_header_nomsg_codec : Codec xdr_rpc_rdma_header_nomsg.
Proof. struct. Defined.
#[global] Instance xdr_rpc_rdma_header_padded_codec : Codec xdr_rpc_rdma_header_padded.
Proof. struct. Defined.
#[global] Instance xdr_rpc_rdma_errcode_codec : Codec xdr_rpc_rdma_errcode := _ : Codec xdr_enum.
#[global] Instance xdr_rpc_rdma_errvers_codec : Codec xdr_rpc_rdma_errvers.
Proof. struct. Defined.
#[global] Instance xdr_rpc_rdma_error_codec : Codec xdr_rpc_rdma_error.
Proof. struct. Defined.
#[global] Instance xdr_rdma_proc_codec : Codec xdr_rdma_proc := _ : Codec xdr_enum.
#[global] Instance xdr_rdma_body_codec : Codec xdr_rdma_body.
Proof. struct. Defined.
#[global] Instance xdr_rdma_msg_codec : Codec xdr_rdma_msg.
Proof. struct. Defined.

(** * Safety of decoding *)

#[global] Instance xdr_xdr_rdma_segment_safe : Safe xdr_xdr_rdma_segment.
Proof. safe. Defined.
#[global] Instance xdr_xdr_read_chunk_safe : Safe xdr_xdr_read_chunk.
Proof. safe. Defined.
#[global] Instance xdr_rpc_rdma_errcode_safe : Safe xdr_rpc_rdma_errcode := _ : Safe xdr_enum.
#[global] Instance xdr_rpc_rdma_errvers_safe : Safe xdr_rpc_rdma_errvers.
Proof. safe. Defined.
#[global] Instance xdr_rpc_rdma_error_safe : Safe xdr_rpc_rdma_error.
Proof. safe. Defined.
#[global] Instance xdr_rdma_proc_safe : Safe xdr_rdma_proc := _ : Safe xdr_enum.
