(* ===== verification/XdrNfs3.v ===== *)
(** The calls and replies of NFSv3 (the first part of nfs.h and nfs_xdr.cpp). *)

From stdpp Require Import strings.
From S2P Require Import Prelude.
From S2P Require Import Xdr.
From S2P Require Import XdrCodec.
From S2P Require Import XdrList.
From S2P Require Import XdrSafe.

(** * Constants *)

Definition NFS3_FHSIZE : Z := 64.
Definition NFS3_WRITEVERFSIZE : Z := 8.
Definition NFS3_CREATEVERFSIZE : Z := 8.
Definition NFS3_COOKIEVERFSIZE : Z := 8.
Definition NF3BLK : Z := 3.
Definition NF3CHR : Z := 4.
Definition NF3SOCK : Z := 6.
Definition NF3FIFO : Z := 7.
Definition NFS3_OK : Z := 0.
Definition SET_TO_CLIENT_TIME : Z := 2.
Definition NFS_UNCHECKED : Z := 0.
Definition NFS_GUARDED : Z := 1.
Definition NFS_EXCLUSIVE : Z := 2.

(** * Data *)

Record diropargs3 : Type := mk_diropargs3 { diropargs3_dir : xdr_string_t; diropargs3_name : xdr_string_t }.
#[global] Instance diropargs3_inhabited : Inhabited diropargs3 := populate (mk_diropargs3 inhabitant inhabitant).
#[global] Instance diropargs3_dir_field : Field diropargs3_dir := updates diropargs3_dir (fun (o : diropargs3) v => mk_diropargs3 v (diropargs3_name
  o)).
#[global] Instance diropargs3_name_field : Field diropargs3_name := updates diropargs3_name (fun (o : diropargs3) v => mk_diropargs3 (diropargs3_dir
  o) v).

Record specdata3 : Type := mk_specdata3 { specdata3_specdata1 : Z; specdata3_specdata2 : Z }.
#[global] Instance specdata3_inhabited : Inhabited specdata3 := populate (mk_specdata3 inhabitant inhabitant).
#[global] Instance specdata3_specdata1_field : Field specdata3_specdata1 := updates specdata3_specdata1 (fun (o : specdata3) v => mk_specdata3 v
  (specdata3_specdata2 o)).
#[global] Instance specdata3_specdata2_field : Field specdata3_specdata2 := updates specdata3_specdata2 (fun (o : specdata3) v => mk_specdata3
  (specdata3_specdata1 o) v).

Record nfstime3 : Type := mk_nfstime3 { nfstime3_seconds : Z; nfstime3_nseconds : Z }.
#[global] Instance nfstime3_inhabited : Inhabited nfstime3 := populate (mk_nfstime3 inhabitant inhabitant).
#[global] Instance nfstime3_seconds_field : Field nfstime3_seconds := updates nfstime3_seconds (fun (o : nfstime3) v => mk_nfstime3 v
  (nfstime3_nseconds o)).
#[global] Instance nfstime3_nseconds_field : Field nfstime3_nseconds := updates nfstime3_nseconds (fun (o : nfstime3) v => mk_nfstime3
  (nfstime3_seconds o) v).

Record fattr3 : Type := mk_fattr3 { fattr3_type : Z; fattr3_mode : Z; fattr3_nlink : Z; fattr3_uid : Z; fattr3_gid : Z; fattr3_size : Z; fattr3_used :
  Z; fattr3_rdev : specdata3; fattr3_fsid : Z; fattr3_fileid : Z; fattr3_atime : nfstime3; fattr3_mtime : nfstime3; fattr3_ctime : nfstime3 }.
#[global] Instance fattr3_inhabited : Inhabited fattr3 := populate (mk_fattr3 inhabitant inhabitant inhabitant inhabitant inhabitant inhabitant
  inhabitant inhabitant inhabitant inhabitant inhabitant inhabitant inhabitant).
#[global] Instance fattr3_type_field : Field fattr3_type := updates fattr3_type (fun (o : fattr3) v => mk_fattr3 v (fattr3_mode o) (fattr3_nlink o)
  (fattr3_uid o) (fattr3_gid o) (fattr3_size o) (fattr3_used o) (fattr3_rdev o) (fattr3_fsid o) (fattr3_fileid o) (fattr3_atime o) (fattr3_mtime o)
  (fattr3_ctime o)).
#[global] Instance fattr3_mode_field : Field fattr3_mode := updates fattr3_mode (fun (o : fattr3) v => mk_fattr3 (fattr3_type o) v (fattr3_nlink o)
  (fattr3_uid o) (fattr3_gid o) (fattr3_size o) (fattr3_used o) (fattr3_rdev o) (fattr3_fsid o) (fattr3_fileid o) (fattr3_atime o) (fattr3_mtime o)
  (fattr3_ctime o)).
#[global] Instance fattr3_nlink_field : Field fattr3_nlink := updates fattr3_nlink (fun (o : fattr3) v => mk_fattr3 (fattr3_type o) (fattr3_mode o) v
  (fattr3_uid o) (fattr3_gid o) (fattr3_size o) (fattr3_used o) (fattr3_rdev o) (fattr3_fsid o) (fattr3_fileid o) (fattr3_atime o) (fattr3_mtime o)
  (fattr3_ctime o)).
#[global] Instance fattr3_uid_field : Field fattr3_uid := updates fattr3_uid (fun (o : fattr3) v => mk_fattr3 (fattr3_type o) (fattr3_mode o)
  (fattr3_nlink o) v (fattr3_gid o) (fattr3_size o) (fattr3_used o) (fattr3_rdev o) (fattr3_fsid o) (fattr3_fileid o) (fattr3_atime o) (fattr3_mtime
  o) (fattr3_ctime o)).
#[global] Instance fattr3_gid_field : Field fattr3_gid := updates fattr3_gid (fun (o : fattr3) v => mk_fattr3 (fattr3_type o) (fattr3_mode o)
  (fattr3_nlink o) (fattr3_uid o) v (fattr3_size o) (fattr3_used o) (fattr3_rdev o) (fattr3_fsid o) (fattr3_fileid o) (fattr3_atime o) (fattr3_mtime
  o) (fattr3_ctime o)).
#[global] Instance fattr3_size_field : Field fattr3_size := updates fattr3_size (fun (o : fattr3) v => mk_fattr3 (fattr3_type o) (fattr3_mode o)
  (fattr3_nlink o) (fattr3_uid o) (fattr3_gid o) v (fattr3_used o) (fattr3_rdev o) (fattr3_fsid o) (fattr3_fileid o) (fattr3_atime o) (fattr3_mtime o)
  (fattr3_ctime o)).
#[global] Instance fattr3_used_field : Field fattr3_used := updates fattr3_used (fun (o : fattr3) v => mk_fattr3 (fattr3_type o) (fattr3_mode o)
  (fattr3_nlink o) (fattr3_uid o) (fattr3_gid o) (fattr3_size o) v (fattr3_rdev o) (fattr3_fsid o) (fattr3_fileid o) (fattr3_atime o) (fattr3_mtime o)
  (fattr3_ctime o)).
#[global] Instance fattr3_rdev_field : Field fattr3_rdev := updates fattr3_rdev (fun (o : fattr3) v => mk_fattr3 (fattr3_type o) (fattr3_mode o)
  (fattr3_nlink o) (fattr3_uid o) (fattr3_gid o) (fattr3_size o) (fattr3_used o) v (fattr3_fsid o) (fattr3_fileid o) (fattr3_atime o) (fattr3_mtime o)
  (fattr3_ctime o)).
#[global] Instance fattr3_fsid_field : Field fattr3_fsid := updates fattr3_fsid (fun (o : fattr3) v => mk_fattr3 (fattr3_type o) (fattr3_mode o)
  (fattr3_nlink o) (fattr3_uid o) (fattr3_gid o) (fattr3_size o) (fattr3_used o) (fattr3_rdev o) v (fattr3_fileid o) (fattr3_atime o) (fattr3_mtime o)
  (fattr3_ctime o)).
#[global] Instance fattr3_fileid_field : Field fattr3_fileid := updates fattr3_fileid (fun (o : fattr3) v => mk_fattr3 (fattr3_type o) (fattr3_mode o)
  (fattr3_nlink o) (fattr3_uid o) (fattr3_gid o) (fattr3_size o) (fattr3_used o) (fattr3_rdev o) (fattr3_fsid o) v (fattr3_atime o) (fattr3_mtime o)
  (fattr3_ctime o)).
#[global] Instance fattr3_atime_field : Field fattr3_atime := updates fattr3_atime (fun (o : fattr3) v => mk_fattr3 (fattr3_type o) (fattr3_mode o)
  (fattr3_nlink o) (fattr3_uid o) (fattr3_gid o) (fattr3_size o) (fattr3_used o) (fattr3_rdev o) (fattr3_fsid o) (fattr3_fileid o) v (fattr3_mtime o)
  (fattr3_ctime o)).
#[global] Instance fattr3_mtime_field : Field fattr3_mtime := updates fattr3_mtime (fun (o : fattr3) v => mk_fattr3 (fattr3_type o) (fattr3_mode o)
  (fattr3_nlink o) (fattr3_uid o) (fattr3_gid o) (fattr3_size o) (fattr3_used o) (fattr3_rdev o) (fattr3_fsid o) (fattr3_fileid o) (fattr3_atime o) v
  (fattr3_ctime o)).
#[global] Instance fattr3_ctime_field : Field fattr3_ctime := updates fattr3_ctime (fun (o : fattr3) v => mk_fattr3 (fattr3_type o) (fattr3_mode o)
  (fattr3_nlink o) (fattr3_uid o) (fattr3_gid o) (fattr3_size o) (fattr3_used o) (fattr3_rdev o) (fattr3_fsid o) (fattr3_fileid o) (fattr3_atime o)
  (fattr3_mtime o) v).

Inductive post_op_attr_union : Type :=
| post_op_attr_is_attributes (v : fattr3)
| post_op_attr_none.
Record post_op_attr : Type := mk_post_op_attr { post_op_attr_attributes_follow : Z; post_op_attr_u : post_op_attr_union }.
#[global] Instance post_op_attr_inhabited : Inhabited post_op_attr := populate (mk_post_op_attr inhabitant post_op_attr_none).
#[global] Instance post_op_attr_attributes_follow_field : Field post_op_attr_attributes_follow := updates post_op_attr_attributes_follow (fun (o :
  post_op_attr) v => mk_post_op_attr v (post_op_attr_u o)).
Definition post_op_attr_attributes (o : post_op_attr) : option fattr3 := match post_op_attr_u o with post_op_attr_is_attributes v => Some v | _ =>
  None end.
#[global] Instance post_op_attr_attributes_arm : Arm post_op_attr_attributes := activates post_op_attr_attributes (fun o v => mk_post_op_attr
  (post_op_attr_attributes_follow o) (post_op_attr_is_attributes v)).
Definition clear_post_op_attr (o : post_op_attr) : post_op_attr := mk_post_op_attr (post_op_attr_attributes_follow o) post_op_attr_none.

Record wcc_attr : Type := mk_wcc_attr { wcc_attr_size : Z; wcc_attr_mtime : nfstime3; wcc_attr_ctime : nfstime3 }.
#[global] Instance wcc_attr_inhabited : Inhabited wcc_attr := populate (mk_wcc_attr inhabitant inhabitant inhabitant).
#[global] Instance wcc_attr_size_field : Field wcc_attr_size := updates wcc_attr_size (fun (o : wcc_attr) v => mk_wcc_attr v (wcc_attr_mtime o)
  (wcc_attr_ctime o)).
#[global] Instance wcc_attr_mtime_field : Field wcc_attr_mtime := updates wcc_attr_mtime (fun (o : wcc_attr) v => mk_wcc_attr (wcc_attr_size o) v
  (wcc_attr_ctime o)).
#[global] Instance wcc_attr_ctime_field : Field wcc_attr_ctime := updates wcc_attr_ctime (fun (o : wcc_attr) v => mk_wcc_attr (wcc_attr_size o)
  (wcc_attr_mtime o) v).

Inductive pre_op_attr_union : Type :=
| pre_op_attr_is_attributes (v : wcc_attr)
| pre_op_attr_none.
Record pre_op_attr : Type := mk_pre_op_attr { pre_op_attr_attributes_follow : Z; pre_op_attr_u : pre_op_attr_union }.
#[global] Instance pre_op_attr_inhabited : Inhabited pre_op_attr := populate (mk_pre_op_attr inhabitant pre_op_attr_none).
#[global] Instance pre_op_attr_attributes_follow_field : Field pre_op_attr_attributes_follow := updates pre_op_attr_attributes_follow (fun (o :
  pre_op_attr) v => mk_pre_op_attr v (pre_op_attr_u o)).
Definition pre_op_attr_attributes (o : pre_op_attr) : option wcc_attr := match pre_op_attr_u o with pre_op_attr_is_attributes v => Some v | _ => None
  end.
#[global] Instance pre_op_attr_attributes_arm : Arm pre_op_attr_attributes := activates pre_op_attr_attributes (fun o v => mk_pre_op_attr
  (pre_op_attr_attributes_follow o) (pre_op_attr_is_attributes v)).
Definition clear_pre_op_attr (o : pre_op_attr) : pre_op_attr := mk_pre_op_attr (pre_op_attr_attributes_follow o) pre_op_attr_none.

Record wcc_data : Type := mk_wcc_data { wcc_data_before : pre_op_attr; wcc_data_after : post_op_attr }.
#[global] Instance wcc_data_inhabited : Inhabited wcc_data := populate (mk_wcc_data inhabitant inhabitant).
#[global] Instance wcc_data_before_field : Field wcc_data_before := updates wcc_data_before (fun (o : wcc_data) v => mk_wcc_data v (wcc_data_after
  o)).
#[global] Instance wcc_data_after_field : Field wcc_data_after := updates wcc_data_after (fun (o : wcc_data) v => mk_wcc_data (wcc_data_before o) v).

Record WRITE3args : Type := mk_WRITE3args { WRITE3args_file : xdr_string_t; WRITE3args_offset : Z; WRITE3args_count : Z; WRITE3args_stable : Z;
  WRITE3args_data : xdr_string_t }.
#[global] Instance WRITE3args_inhabited : Inhabited WRITE3args := populate (mk_WRITE3args inhabitant inhabitant inhabitant inhabitant inhabitant).
#[global] Instance WRITE3args_file_field : Field WRITE3args_file := updates WRITE3args_file (fun (o : WRITE3args) v => mk_WRITE3args v
  (WRITE3args_offset o) (WRITE3args_count o) (WRITE3args_stable o) (WRITE3args_data o)).
#[global] Instance WRITE3args_offset_field : Field WRITE3args_offset := updates WRITE3args_offset (fun (o : WRITE3args) v => mk_WRITE3args
  (WRITE3args_file o) v (WRITE3args_count o) (WRITE3args_stable o) (WRITE3args_data o)).
#[global] Instance WRITE3args_count_field : Field WRITE3args_count := updates WRITE3args_count (fun (o : WRITE3args) v => mk_WRITE3args
  (WRITE3args_file o) (WRITE3args_offset o) v (WRITE3args_stable o) (WRITE3args_data o)).
#[global] Instance WRITE3args_stable_field : Field WRITE3args_stable := updates WRITE3args_stable (fun (o : WRITE3args) v => mk_WRITE3args
  (WRITE3args_file o) (WRITE3args_offset o) (WRITE3args_count o) v (WRITE3args_data o)).
#[global] Instance WRITE3args_data_field : Field WRITE3args_data := updates WRITE3args_data (fun (o : WRITE3args) v => mk_WRITE3args (WRITE3args_file
  o) (WRITE3args_offset o) (WRITE3args_count o) (WRITE3args_stable o) v).

Record WRITE3resok : Type := mk_WRITE3resok { WRITE3resok_file_wcc : wcc_data; WRITE3resok_count : Z; WRITE3resok_committed : Z; WRITE3resok_verf :
  list Z }.
#[global] Instance WRITE3resok_inhabited : Inhabited WRITE3resok := populate (mk_WRITE3resok inhabitant inhabitant inhabitant inhabitant).
#[global] Instance WRITE3resok_file_wcc_field : Field WRITE3resok_file_wcc := updates WRITE3resok_file_wcc (fun (o : WRITE3resok) v => mk_WRITE3resok
  v (WRITE3resok_count o) (WRITE3resok_committed o) (WRITE3resok_verf o)).
#[global] Instance WRITE3resok_count_field : Field WRITE3resok_count := updates WRITE3resok_count (fun (o : WRITE3resok) v => mk_WRITE3resok
  (WRITE3resok_file_wcc o) v (WRITE3resok_committed o) (WRITE3resok_verf o)).
#[global] Instance WRITE3resok_committed_field : Field WRITE3resok_committed := updates WRITE3resok_committed (fun (o : WRITE3resok) v =>
  mk_WRITE3resok (WRITE3resok_file_wcc o) (WRITE3resok_count o) v (WRITE3resok_verf o)).
#[global] Instance WRITE3resok_verf_field : Field WRITE3resok_verf := updates WRITE3resok_verf (fun (o : WRITE3resok) v => mk_WRITE3resok
  (WRITE3resok_file_wcc o) (WRITE3resok_count o) (WRITE3resok_committed o) v).

Record WRITE3resfail : Type := mk_WRITE3resfail { WRITE3resfail_file_wcc : wcc_data }.
#[global] Instance WRITE3resfail_inhabited : Inhabited WRITE3resfail := populate (mk_WRITE3resfail inhabitant).
#[global] Instance WRITE3resfail_file_wcc_field : Field WRITE3resfail_file_wcc := updates WRITE3resfail_file_wcc (fun (o : WRITE3resfail) v =>
  mk_WRITE3resfail v).

Inductive WRITE3res_union : Type :=
| WRITE3res_is_resok (v : WRITE3resok)
| WRITE3res_is_resfail (v : WRITE3resfail)
| WRITE3res_none.
Record WRITE3res : Type := mk_WRITE3res { WRITE3res_status : Z; WRITE3res_u : WRITE3res_union }.
#[global] Instance WRITE3res_inhabited : Inhabited WRITE3res := populate (mk_WRITE3res inhabitant WRITE3res_none).
#[global] Instance WRITE3res_status_field : Field WRITE3res_status := updates WRITE3res_status (fun (o : WRITE3res) v => mk_WRITE3res v (WRITE3res_u
  o)).
Definition WRITE3res_resok (o : WRITE3res) : option WRITE3resok := match WRITE3res_u o with WRITE3res_is_resok v => Some v | _ => None end.
#[global] Instance WRITE3res_resok_arm : Arm WRITE3res_resok := activates WRITE3res_resok (fun o v => mk_WRITE3res (WRITE3res_status o)
  (WRITE3res_is_resok v)).
Definition WRITE3res_resfail (o : WRITE3res) : option WRITE3resfail := match WRITE3res_u o with WRITE3res_is_resfail v => Some v | _ => None end.
#[global] Instance WRITE3res_resfail_arm : Arm WRITE3res_resfail := activates WRITE3res_resfail (fun o v => mk_WRITE3res (WRITE3res_status o)
  (WRITE3res_is_resfail v)).
Definition clear_WRITE3res (o : WRITE3res) : WRITE3res := mk_WRITE3res (WRITE3res_status o) WRITE3res_none.

Record LOOKUP3args : Type := mk_LOOKUP3args { LOOKUP3args_what : diropargs3 }.
#[global] Instance LOOKUP3args_inhabited : Inhabited LOOKUP3args := populate (mk_LOOKUP3args inhabitant).
#[global] Instance LOOKUP3args_what_field : Field LOOKUP3args_what := updates LOOKUP3args_what (fun (o : LOOKUP3args) v => mk_LOOKUP3args v).

Record LOOKUP3resok : Type := mk_LOOKUP3resok { LOOKUP3resok_object : xdr_string_t; LOOKUP3resok_obj_attributes : post_op_attr;
  LOOKUP3resok_dir_attributes : post_op_attr }.
#[global] Instance LOOKUP3resok_inhabited : Inhabited LOOKUP3resok := populate (mk_LOOKUP3resok inhabitant inhabitant inhabitant).
#[global] Instance LOOKUP3resok_object_field : Field LOOKUP3resok_object := updates LOOKUP3resok_object (fun (o : LOOKUP3resok) v => mk_LOOKUP3resok v
  (LOOKUP3resok_obj_attributes o) (LOOKUP3resok_dir_attributes o)).
#[global] Instance LOOKUP3resok_obj_attributes_field : Field LOOKUP3resok_obj_attributes := updates LOOKUP3resok_obj_attributes (fun (o :
  LOOKUP3resok) v => mk_LOOKUP3resok (LOOKUP3resok_object o) v (LOOKUP3resok_dir_attributes o)).
#[global] Instance LOOKUP3resok_dir_attributes_field : Field LOOKUP3resok_dir_attributes := updates LOOKUP3resok_dir_attributes (fun (o :
  LOOKUP3resok) v => mk_LOOKUP3resok (LOOKUP3resok_object o) (LOOKUP3resok_obj_attributes o) v).

Record LOOKUP3resfail : Type := mk_LOOKUP3resfail { LOOKUP3resfail_dir_attributes : post_op_attr }.
#[global] Instance LOOKUP3resfail_inhabited : Inhabited LOOKUP3resfail := populate (mk_LOOKUP3resfail inhabitant).
#[global] Instance LOOKUP3resfail_dir_attributes_field : Field LOOKUP3resfail_dir_attributes := updates LOOKUP3resfail_dir_attributes (fun (o :
  LOOKUP3resfail) v => mk_LOOKUP3resfail v).

Inductive LOOKUP3res_union : Type :=
| LOOKUP3res_is_resok (v : LOOKUP3resok)
| LOOKUP3res_is_resfail (v : LOOKUP3resfail)
| LOOKUP3res_none.
Record LOOKUP3res : Type := mk_LOOKUP3res { LOOKUP3res_status : Z; LOOKUP3res_u : LOOKUP3res_union }.
#[global] Instance LOOKUP3res_inhabited : Inhabited LOOKUP3res := populate (mk_LOOKUP3res inhabitant LOOKUP3res_none).
#[global] Instance LOOKUP3res_status_field : Field LOOKUP3res_status := updates LOOKUP3res_status (fun (o : LOOKUP3res) v => mk_LOOKUP3res v
  (LOOKUP3res_u o)).
Definition LOOKUP3res_resok (o : LOOKUP3res) : option LOOKUP3resok := match LOOKUP3res_u o with LOOKUP3res_is_resok v => Some v | _ => None end.
#[global] Instance LOOKUP3res_resok_arm : Arm LOOKUP3res_resok := activates LOOKUP3res_resok (fun o v => mk_LOOKUP3res (LOOKUP3res_status o)
  (LOOKUP3res_is_resok v)).
Definition LOOKUP3res_resfail (o : LOOKUP3res) : option LOOKUP3resfail := match LOOKUP3res_u o with LOOKUP3res_is_resfail v => Some v | _ => None end.
#[global] Instance LOOKUP3res_resfail_arm : Arm LOOKUP3res_resfail := activates LOOKUP3res_resfail (fun o v => mk_LOOKUP3res (LOOKUP3res_status o)
  (LOOKUP3res_is_resfail v)).
Definition clear_LOOKUP3res (o : LOOKUP3res) : LOOKUP3res := mk_LOOKUP3res (LOOKUP3res_status o) LOOKUP3res_none.

Record COMMIT3args : Type := mk_COMMIT3args { COMMIT3args_file : xdr_string_t; COMMIT3args_offset : Z; COMMIT3args_count : Z }.
#[global] Instance COMMIT3args_inhabited : Inhabited COMMIT3args := populate (mk_COMMIT3args inhabitant inhabitant inhabitant).
#[global] Instance COMMIT3args_file_field : Field COMMIT3args_file := updates COMMIT3args_file (fun (o : COMMIT3args) v => mk_COMMIT3args v
  (COMMIT3args_offset o) (COMMIT3args_count o)).
#[global] Instance COMMIT3args_offset_field : Field COMMIT3args_offset := updates COMMIT3args_offset (fun (o : COMMIT3args) v => mk_COMMIT3args
  (COMMIT3args_file o) v (COMMIT3args_count o)).
#[global] Instance COMMIT3args_count_field : Field COMMIT3args_count := updates COMMIT3args_count (fun (o : COMMIT3args) v => mk_COMMIT3args
  (COMMIT3args_file o) (COMMIT3args_offset o) v).

Record COMMIT3resok : Type := mk_COMMIT3resok { COMMIT3resok_file_wcc : wcc_data; COMMIT3resok_verf : list Z }.
#[global] Instance COMMIT3resok_inhabited : Inhabited COMMIT3resok := populate (mk_COMMIT3resok inhabitant inhabitant).
#[global] Instance COMMIT3resok_file_wcc_field : Field COMMIT3resok_file_wcc := updates COMMIT3resok_file_wcc (fun (o : COMMIT3resok) v =>
  mk_COMMIT3resok v (COMMIT3resok_verf o)).
#[global] Instance COMMIT3resok_verf_field : Field COMMIT3resok_verf := updates COMMIT3resok_verf (fun (o : COMMIT3resok) v => mk_COMMIT3resok
  (COMMIT3resok_file_wcc o) v).

Record COMMIT3resfail : Type := mk_COMMIT3resfail { COMMIT3resfail_file_wcc : wcc_data }.
#[global] Instance COMMIT3resfail_inhabited : Inhabited COMMIT3resfail := populate (mk_COMMIT3resfail inhabitant).
#[global] Instance COMMIT3resfail_file_wcc_field : Field COMMIT3resfail_file_wcc := updates COMMIT3resfail_file_wcc (fun (o : COMMIT3resfail) v =>
  mk_COMMIT3resfail v).

Inductive COMMIT3res_union : Type :=
| COMMIT3res_is_resok (v : COMMIT3resok)
| COMMIT3res_is_resfail (v : COMMIT3resfail)
| COMMIT3res_none.
Record COMMIT3res : Type := mk_COMMIT3res { COMMIT3res_status : Z; COMMIT3res_u : COMMIT3res_union }.
#[global] Instance COMMIT3res_inhabited : Inhabited COMMIT3res := populate (mk_COMMIT3res inhabitant COMMIT3res_none).
#[global] Instance COMMIT3res_status_field : Field COMMIT3res_status := updates COMMIT3res_status (fun (o : COMMIT3res) v => mk_COMMIT3res v
  (COMMIT3res_u o)).
Definition COMMIT3res_resok (o : COMMIT3res) : option COMMIT3resok := match COMMIT3res_u o with COMMIT3res_is_resok v => Some v | _ => None end.
#[global] Instance COMMIT3res_resok_arm : Arm COMMIT3res_resok := activates COMMIT3res_resok (fun o v => mk_COMMIT3res (COMMIT3res_status o)
  (COMMIT3res_is_resok v)).
Definition COMMIT3res_resfail (o : COMMIT3res) : option COMMIT3resfail := match COMMIT3res_u o with COMMIT3res_is_resfail v => Some v | _ => None end.
#[global] Instance COMMIT3res_resfail_arm : Arm COMMIT3res_resfail := activates COMMIT3res_resfail (fun o v => mk_COMMIT3res (COMMIT3res_status o)
  (COMMIT3res_is_resfail v)).
Definition clear_COMMIT3res (o : COMMIT3res) : COMMIT3res := mk_COMMIT3res (COMMIT3res_status o) COMMIT3res_none.

Record ACCESS3args : Type := mk_ACCESS3args { ACCESS3args_object : xdr_string_t; ACCESS3args_access : Z }.
#[global] Instance ACCESS3args_inhabited : Inhabited ACCESS3args := populate (mk_ACCESS3args inhabitant inhabitant).
#[global] Instance ACCESS3args_object_field : Field ACCESS3args_object := updates ACCESS3args_object (fun (o : ACCESS3args) v => mk_ACCESS3args v
  (ACCESS3args_access o)).
#[global] Instance ACCESS3args_access_field : Field ACCESS3args_access := updates ACCESS3args_access (fun (o : ACCESS3args) v => mk_ACCESS3args
  (ACCESS3args_object o) v).

Record ACCESS3resok : Type := mk_ACCESS3resok { ACCESS3resok_obj_attributes : post_op_attr; ACCESS3resok_access : Z }.
#[global] Instance ACCESS3resok_inhabited : Inhabited ACCESS3resok := populate (mk_ACCESS3resok inhabitant inhabitant).
#[global] Instance ACCESS3resok_obj_attributes_field : Field ACCESS3resok_obj_attributes := updates ACCESS3resok_obj_attributes (fun (o :
  ACCESS3resok) v => mk_ACCESS3resok v (ACCESS3resok_access o)).
#[global] Instance ACCESS3resok_access_field : Field ACCESS3resok_access := updates ACCESS3resok_access (fun (o : ACCESS3resok) v => mk_ACCESS3resok
  (ACCESS3resok_obj_attributes o) v).

Record ACCESS3resfail : Type := mk_ACCESS3resfail { ACCESS3resfail_obj_attributes : post_op_attr }.
#[global] Instance ACCESS3resfail_inhabited : Inhabited ACCESS3resfail := populate (mk_ACCESS3resfail inhabitant).
#[global] Instance ACCESS3resfail_obj_attributes_field : Field ACCESS3resfail_obj_attributes := updates ACCESS3resfail_obj_attributes (fun (o :
  ACCESS3resfail) v => mk_ACCESS3resfail v).

Inductive ACCESS3res_union : Type :=
| ACCESS3res_is_resok (v : ACCESS3resok)
| ACCESS3res_is_resfail (v : ACCESS3resfail)
| ACCESS3res_none.
Record ACCESS3res : Type := mk_ACCESS3res { ACCESS3res_status : Z; ACCESS3res_u : ACCESS3res_union }.
#[global] Instance ACCESS3res_inhabited : Inhabited ACCESS3res := populate (mk_ACCESS3res inhabitant ACCESS3res_none).
#[global] Instance ACCESS3res_status_field : Field ACCESS3res_status := updates ACCESS3res_status (fun (o : ACCESS3res) v => mk_ACCESS3res v
  (ACCESS3res_u o)).
Definition ACCESS3res_resok (o : ACCESS3res) : option ACCESS3resok := match ACCESS3res_u o with ACCESS3res_is_resok v => Some v | _ => None end.
#[global] Instance ACCESS3res_resok_arm : Arm ACCESS3res_resok := activates ACCESS3res_resok (fun o v => mk_ACCESS3res (ACCESS3res_status o)
  (ACCESS3res_is_resok v)).
Definition ACCESS3res_resfail (o : ACCESS3res) : option ACCESS3resfail := match ACCESS3res_u o with ACCESS3res_is_resfail v => Some v | _ => None end.
#[global] Instance ACCESS3res_resfail_arm : Arm ACCESS3res_resfail := activates ACCESS3res_resfail (fun o v => mk_ACCESS3res (ACCESS3res_status o)
  (ACCESS3res_is_resfail v)).
Definition clear_ACCESS3res (o : ACCESS3res) : ACCESS3res := mk_ACCESS3res (ACCESS3res_status o) ACCESS3res_none.

Record GETATTR3args : Type := mk_GETATTR3args { GETATTR3args_object : xdr_string_t }.
#[global] Instance GETATTR3args_inhabited : Inhabited GETATTR3args := populate (mk_GETATTR3args inhabitant).
#[global] Instance GETATTR3args_object_field : Field GETATTR3args_object := updates GETATTR3args_object (fun (o : GETATTR3args) v => mk_GETATTR3args
  v).

Record GETATTR3resok : Type := mk_GETATTR3resok { GETATTR3resok_obj_attributes : fattr3 }.
#[global] Instance GETATTR3resok_inhabited : Inhabited GETATTR3resok := populate (mk_GETATTR3resok inhabitant).
#[global] Instance GETATTR3resok_obj_attributes_field : Field GETATTR3resok_obj_attributes := updates GETATTR3resok_obj_attributes (fun (o :
  GETATTR3resok) v => mk_GETATTR3resok v).

Inductive GETATTR3res_union : Type :=
| GETATTR3res_is_resok (v : GETATTR3resok)
| GETATTR3res_none.
Record GETATTR3res : Type := mk_GETATTR3res { GETATTR3res_status : Z; GETATTR3res_u : GETATTR3res_union }.
#[global] Instance GETATTR3res_inhabited : Inhabited GETATTR3res := populate (mk_GETATTR3res inhabitant GETATTR3res_none).
#[global] Instance GETATTR3res_status_field : Field GETATTR3res_status := updates GETATTR3res_status (fun (o : GETATTR3res) v => mk_GETATTR3res v
  (GETATTR3res_u o)).
Definition GETATTR3res_resok (o : GETATTR3res) : option GETATTR3resok := match GETATTR3res_u o with GETATTR3res_is_resok v => Some v | _ => None end.
#[global] Instance GETATTR3res_resok_arm : Arm GETATTR3res_resok := activates GETATTR3res_resok (fun o v => mk_GETATTR3res (GETATTR3res_status o)
  (GETATTR3res_is_resok v)).
Definition clear_GETATTR3res (o : GETATTR3res) : GETATTR3res := mk_GETATTR3res (GETATTR3res_status o) GETATTR3res_none.

Inductive set_mode3_union : Type :=
| set_mode3_is_mode (v : Z)
| set_mode3_none.
Record set_mode3 : Type := mk_set_mode3 { set_mode3_set_it : Z; set_mode3_u : set_mode3_union }.
#[global] Instance set_mode3_inhabited : Inhabited set_mode3 := populate (mk_set_mode3 inhabitant set_mode3_none).
#[global] Instance set_mode3_set_it_field : Field set_mode3_set_it := updates set_mode3_set_it (fun (o : set_mode3) v => mk_set_mode3 v (set_mode3_u
  o)).
Definition set_mode3_mode (o : set_mode3) : option Z := match set_mode3_u o with set_mode3_is_mode v => Some v | _ => None end.
#[global] Instance set_mode3_mode_arm : Arm set_mode3_mode := activates set_mode3_mode (fun o v => mk_set_mode3 (set_mode3_set_it o)
  (set_mode3_is_mode v)).
Definition clear_set_mode3 (o : set_mode3) : set_mode3 := mk_set_mode3 (set_mode3_set_it o) set_mode3_none.

Inductive set_uid3_union : Type :=
| set_uid3_is_uid (v : Z)
| set_uid3_none.
Record set_uid3 : Type := mk_set_uid3 { set_uid3_set_it : Z; set_uid3_u : set_uid3_union }.
#[global] Instance set_uid3_inhabited : Inhabited set_uid3 := populate (mk_set_uid3 inhabitant set_uid3_none).
#[global] Instance set_uid3_set_it_field : Field set_uid3_set_it := updates set_uid3_set_it (fun (o : set_uid3) v => mk_set_uid3 v (set_uid3_u o)).
Definition set_uid3_uid (o : set_uid3) : option Z := match set_uid3_u o with set_uid3_is_uid v => Some v | _ => None end.
#[global] Instance set_uid3_uid_arm : Arm set_uid3_uid := activates set_uid3_uid (fun o v => mk_set_uid3 (set_uid3_set_it o) (set_uid3_is_uid v)).
Definition clear_set_uid3 (o : set_uid3) : set_uid3 := mk_set_uid3 (set_uid3_set_it o) set_uid3_none.

Inductive set_gid3_union : Type :=
| set_gid3_is_gid (v : Z)
| set_gid3_none.
Record set_gid3 : Type := mk_set_gid3 { set_gid3_set_it : Z; set_gid3_u : set_gid3_union }.
#[global] Instance set_gid3_inhabited : Inhabited set_gid3 := populate (mk_set_gid3 inhabitant set_gid3_none).
#[global] Instance set_gid3_set_it_field : Field set_gid3_set_it := updates set_gid3_set_it (fun (o : set_gid3) v => mk_set_gid3 v (set_gid3_u o)).
Definition set_gid3_gid (o : set_gid3) : option Z := match set_gid3_u o with set_gid3_is_gid v => Some v | _ => None end.
#[global] Instance set_gid3_gid_arm : Arm set_gid3_gid := activates set_gid3_gid (fun o v => mk_set_gid3 (set_gid3_set_it o) (set_gid3_is_gid v)).
Definition clear_set_gid3 (o : set_gid3) : set_gid3 := mk_set_gid3 (set_gid3_set_it o) set_gid3_none.

Inductive set_size3_union : Type :=
| set_size3_is_size (v : Z)
| set_size3_none.
Record set_size3 : Type := mk_set_size3 { set_size3_set_it : Z; set_size3_u : set_size3_union }.
#[global] Instance set_size3_inhabited : Inhabited set_size3 := populate (mk_set_size3 inhabitant set_size3_none).
#[global] Instance set_size3_set_it_field : Field set_size3_set_it := updates set_size3_set_it (fun (o : set_size3) v => mk_set_size3 v (set_size3_u
  o)).
Definition set_size3_size (o : set_size3) : option Z := match set_size3_u o with set_size3_is_size v => Some v | _ => None end.
#[global] Instance set_size3_size_arm : Arm set_size3_size := activates set_size3_size (fun o v => mk_set_size3 (set_size3_set_it o)
  (set_size3_is_size v)).
Definition clear_set_size3 (o : set_size3) : set_size3 := mk_set_size3 (set_size3_set_it o) set_size3_none.

Inductive set_atime_union : Type :=
| set_atime_is_atime (v : nfstime3)
| set_atime_none.
Record set_atime : Type := mk_set_atime { set_atime_set_it : Z; set_atime_u : set_atime_union }.
#[global] Instance set_atime_inhabited : Inhabited set_atime := populate (mk_set_atime inhabitant set_atime_none).
#[global] Instance set_atime_set_it_field : Field set_atime_set_it := updates set_atime_set_it (fun (o : set_atime) v => mk_set_atime v (set_atime_u
  o)).
Definition set_atime_atime (o : set_atime) : option nfstime3 := match set_atime_u o with set_atime_is_atime v => Some v | _ => None end.
#[global] Instance set_atime_atime_arm : Arm set_atime_atime := activates set_atime_atime (fun o v => mk_set_atime (set_atime_set_it o)
  (set_atime_is_atime v)).
Definition clear_set_atime (o : set_atime) : set_atime := mk_set_atime (set_atime_set_it o) set_atime_none.

Inductive set_mtime_union : Type :=
| set_mtime_is_mtime (v : nfstime3)
| set_mtime_none.
Record set_mtime : Type := mk_set_mtime { set_mtime_set_it : Z; set_mtime_u : set_mtime_union }.
#[global] Instance set_mtime_inhabited : Inhabited set_mtime := populate (mk_set_mtime inhabitant set_mtime_none).
#[global] Instance set_mtime_set_it_field : Field set_mtime_set_it := updates set_mtime_set_it (fun (o : set_mtime) v => mk_set_mtime v (set_mtime_u
  o)).
Definition set_mtime_mtime (o : set_mtime) : option nfstime3 := match set_mtime_u o with set_mtime_is_mtime v => Some v | _ => None end.
#[global] Instance set_mtime_mtime_arm : Arm set_mtime_mtime := activates set_mtime_mtime (fun o v => mk_set_mtime (set_mtime_set_it o)
  (set_mtime_is_mtime v)).
Definition clear_set_mtime (o : set_mtime) : set_mtime := mk_set_mtime (set_mtime_set_it o) set_mtime_none.

Record sattr3 : Type := mk_sattr3 { sattr3_mode : set_mode3; sattr3_uid : set_uid3; sattr3_gid : set_gid3; sattr3_size : set_size3; sattr3_atime :
  set_atime; sattr3_mtime : set_mtime }.
#[global] Instance sattr3_inhabited : Inhabited sattr3 := populate (mk_sattr3 inhabitant inhabitant inhabitant inhabitant inhabitant inhabitant).
#[global] Instance sattr3_mode_field : Field sattr3_mode := updates sattr3_mode (fun (o : sattr3) v => mk_sattr3 v (sattr3_uid o) (sattr3_gid o)
  (sattr3_size o) (sattr3_atime o) (sattr3_mtime o)).
#[global] Instance sattr3_uid_field : Field sattr3_uid := updates sattr3_uid (fun (o : sattr3) v => mk_sattr3 (sattr3_mode o) v (sattr3_gid o)
  (sattr3_size o) (sattr3_atime o) (sattr3_mtime o)).
#[global] Instance sattr3_gid_field : Field sattr3_gid := updates sattr3_gid (fun (o : sattr3) v => mk_sattr3 (sattr3_mode o) (sattr3_uid o) v
  (sattr3_size o) (sattr3_atime o) (sattr3_mtime o)).
#[global] Instance sattr3_size_field : Field sattr3_size := updates sattr3_size (fun (o : sattr3) v => mk_sattr3 (sattr3_mode o) (sattr3_uid o)
  (sattr3_gid o) v (sattr3_atime o) (sattr3_mtime o)).
#[global] Instance sattr3_atime_field : Field sattr3_atime := updates sattr3_atime (fun (o : sattr3) v => mk_sattr3 (sattr3_mode o) (sattr3_uid o)
  (sattr3_gid o) (sattr3_size o) v (sattr3_mtime o)).
#[global] Instance sattr3_mtime_field : Field sattr3_mtime := updates sattr3_mtime (fun (o : sattr3) v => mk_sattr3 (sattr3_mode o) (sattr3_uid o)
  (sattr3_gid o) (sattr3_size o) (sattr3_atime o) v).

Inductive createhow3_union : Type :=
| createhow3_is_obj_attributes (v : sattr3)
| createhow3_is_g_obj_attributes (v : sattr3)
| createhow3_is_verf (v : (list Z))
| createhow3_none.
Record createhow3 : Type := mk_createhow3 { createhow3_mode : Z; createhow3_u : createhow3_union }.
#[global] Instance createhow3_inhabited : Inhabited createhow3 := populate (mk_createhow3 inhabitant createhow3_none).
#[global] Instance createhow3_mode_field : Field createhow3_mode := updates createhow3_mode (fun (o : createhow3) v => mk_createhow3 v (createhow3_u
  o)).
Definition createhow3_obj_attributes (o : createhow3) : option sattr3 := match createhow3_u o with createhow3_is_obj_attributes v => Some v | _ =>
  None end.
#[global] Instance createhow3_obj_attributes_arm : Arm createhow3_obj_attributes := activates createhow3_obj_attributes (fun o v => mk_createhow3
  (createhow3_mode o) (createhow3_is_obj_attributes v)).
Definition createhow3_g_obj_attributes (o : createhow3) : option sattr3 := match createhow3_u o with createhow3_is_g_obj_attributes v => Some v | _ =>
  None end.
#[global] Instance createhow3_g_obj_attributes_arm : Arm createhow3_g_obj_attributes := activates createhow3_g_obj_attributes (fun o v =>
  mk_createhow3 (createhow3_mode o) (createhow3_is_g_obj_attributes v)).
Definition createhow3_verf (o : createhow3) : option (list Z) := match createhow3_u o with createhow3_is_verf v => Some v | _ => None end.
#[global] Instance createhow3_verf_arm : Arm createhow3_verf := activates createhow3_verf (fun o v => mk_createhow3 (createhow3_mode o)
  (createhow3_is_verf v)).
Definition clear_createhow3 (o : createhow3) : createhow3 := mk_createhow3 (createhow3_mode o) createhow3_none.

Record CREATE3args : Type := mk_CREATE3args { CREATE3args_where : diropargs3; CREATE3args_how : createhow3 }.
#[global] Instance CREATE3args_inhabited : Inhabited CREATE3args := populate (mk_CREATE3args inhabitant inhabitant).
#[global] Instance CREATE3args_where_field : Field CREATE3args_where := updates CREATE3args_where (fun (o : CREATE3args) v => mk_CREATE3args v
  (CREATE3args_how o)).
#[global] Instance CREATE3args_how_field : Field CREATE3args_how := updates CREATE3args_how (fun (o : CREATE3args) v => mk_CREATE3args
  (CREATE3args_where o) v).

Inductive post_op_fh3_union : Type :=
| post_op_fh3_is_handle (v : xdr_string_t)
| post_op_fh3_none.
Record post_op_fh3 : Type := mk_post_op_fh3 { post_op_fh3_handle_follows : Z; post_op_fh3_u : post_op_fh3_union }.
#[global] Instance post_op_fh3_inhabited : Inhabited post_op_fh3 := populate (mk_post_op_fh3 inhabitant post_op_fh3_none).
#[global] Instance post_op_fh3_handle_follows_field : Field post_op_fh3_handle_follows := updates post_op_fh3_handle_follows (fun (o : post_op_fh3) v
  => mk_post_op_fh3 v (post_op_fh3_u o)).
Definition post_op_fh3_handle (o : post_op_fh3) : option xdr_string_t := match post_op_fh3_u o with post_op_fh3_is_handle v => Some v | _ => None end.
#[global] Instance post_op_fh3_handle_arm : Arm post_op_fh3_handle := activates post_op_fh3_handle (fun o v => mk_post_op_fh3
  (post_op_fh3_handle_follows o) (post_op_fh3_is_handle v)).
Definition clear_post_op_fh3 (o : post_op_fh3) : post_op_fh3 := mk_post_op_fh3 (post_op_fh3_handle_follows o) post_op_fh3_none.

Record CREATE3resok : Type := mk_CREATE3resok { CREATE3resok_obj : post_op_fh3; CREATE3resok_obj_attributes : post_op_attr; CREATE3resok_dir_wcc :
  wcc_data }.
#[global] Instance CREATE3resok_inhabited : Inhabited CREATE3resok := populate (mk_CREATE3resok inhabitant inhabitant inhabitant).
#[global] Instance CREATE3resok_obj_field : Field CREATE3resok_obj := updates CREATE3resok_obj (fun (o : CREATE3resok) v => mk_CREATE3resok v
  (CREATE3resok_obj_attributes o) (CREATE3resok_dir_wcc o)).
#[global] Instance CREATE3resok_obj_attributes_field : Field CREATE3resok_obj_attributes := updates CREATE3resok_obj_attributes (fun (o :
  CREATE3resok) v => mk_CREATE3resok (CREATE3resok_obj o) v (CREATE3resok_dir_wcc o)).
#[global] Instance CREATE3resok_dir_wcc_field : Field CREATE3resok_dir_wcc := updates CREATE3resok_dir_wcc (fun (o : CREATE3resok) v =>
  mk_CREATE3resok (CREATE3resok_obj o) (CREATE3resok_obj_attributes o) v).

Record CREATE3resfail : Type := mk_CREATE3resfail { CREATE3resfail_dir_wcc : wcc_data }.
#[global] Instance CREATE3resfail_inhabited : Inhabited CREATE3resfail := populate (mk_CREATE3resfail inhabitant).
#[global] Instance CREATE3resfail_dir_wcc_field : Field CREATE3resfail_dir_wcc := updates CREATE3resfail_dir_wcc (fun (o : CREATE3resfail) v =>
  mk_CREATE3resfail v).

Inductive CREATE3res_union : Type :=
| CREATE3res_is_resok (v : CREATE3resok)
| CREATE3res_is_resfail (v : CREATE3resfail)
| CREATE3res_none.
Record CREATE3res : Type := mk_CREATE3res { CREATE3res_status : Z; CREATE3res_u : CREATE3res_union }.
#[global] Instance CREATE3res_inhabited : Inhabited CREATE3res := populate (mk_CREATE3res inhabitant CREATE3res_none).
#[global] Instance CREATE3res_status_field : Field CREATE3res_status := updates CREATE3res_status (fun (o : CREATE3res) v => mk_CREATE3res v
  (CREATE3res_u o)).
Definition CREATE3res_resok (o : CREATE3res) : option CREATE3resok := match CREATE3res_u o with CREATE3res_is_resok v => Some v | _ => None end.
#[global] Instance CREATE3res_resok_arm : Arm CREATE3res_resok := activates CREATE3res_resok (fun o v => mk_CREATE3res (CREATE3res_status o)
  (CREATE3res_is_resok v)).
Definition CREATE3res_resfail (o : CREATE3res) : option CREATE3resfail := match CREATE3res_u o with CREATE3res_is_resfail v => Some v | _ => None end.
#[global] Instance CREATE3res_resfail_arm : Arm CREATE3res_resfail := activates CREATE3res_resfail (fun o v => mk_CREATE3res (CREATE3res_status o)
  (CREATE3res_is_resfail v)).
Definition clear_CREATE3res (o : CREATE3res) : CREATE3res := mk_CREATE3res (CREATE3res_status o) CREATE3res_none.

Record REMOVE3args : Type := mk_REMOVE3args { REMOVE3args_object : diropargs3 }.
#[global] Instance REMOVE3args_inhabited : Inhabited REMOVE3args := populate (mk_REMOVE3args inhabitant).
#[global] Instance REMOVE3args_object_field : Field REMOVE3args_object := updates REMOVE3args_object (fun (o : REMOVE3args) v => mk_REMOVE3args v).

Record REMOVE3resok : Type := mk_REMOVE3resok { REMOVE3resok_dir_wcc : wcc_data }.
#[global] Instance REMOVE3resok_inhabited : Inhabited REMOVE3resok := populate (mk_REMOVE3resok inhabitant).
#[global] Instance REMOVE3resok_dir_wcc_field : Field REMOVE3resok_dir_wcc := updates REMOVE3resok_dir_wcc (fun (o : REMOVE3resok) v =>
  mk_REMOVE3resok v).

Record REMOVE3resfail : Type := mk_REMOVE3resfail { REMOVE3resfail_dir_wcc : wcc_data }.
#[global] Instance REMOVE3resfail_inhabited : Inhabited REMOVE3resfail := populate (mk_REMOVE3resfail inhabitant).
#[global] Instance REMOVE3resfail_dir_wcc_field : Field REMOVE3resfail_dir_wcc := updates REMOVE3resfail_dir_wcc (fun (o : REMOVE3resfail) v =>
  mk_REMOVE3resfail v).

Inductive REMOVE3res_union : Type :=
| REMOVE3res_is_resok (v : REMOVE3resok)
| REMOVE3res_is_resfail (v : REMOVE3resfail)
| REMOVE3res_none.
Record REMOVE3res : Type := mk_REMOVE3res { REMOVE3res_status : Z; REMOVE3res_u : REMOVE3res_union }.
#[global] Instance REMOVE3res_inhabited : Inhabited REMOVE3res := populate (mk_REMOVE3res inhabitant REMOVE3res_none).
#[global] Instance REMOVE3res_status_field : Field REMOVE3res_status := updates REMOVE3res_status (fun (o : REMOVE3res) v => mk_REMOVE3res v
  (REMOVE3res_u o)).
Definition REMOVE3res_resok (o : REMOVE3res) : option REMOVE3resok := match REMOVE3res_u o with REMOVE3res_is_resok v => Some v | _ => None end.
#[global] Instance REMOVE3res_resok_arm : Arm REMOVE3res_resok := activates REMOVE3res_resok (fun o v => mk_REMOVE3res (REMOVE3res_status o)
  (REMOVE3res_is_resok v)).
Definition REMOVE3res_resfail (o : REMOVE3res) : option REMOVE3resfail := match REMOVE3res_u o with REMOVE3res_is_resfail v => Some v | _ => None end.
#[global] Instance REMOVE3res_resfail_arm : Arm REMOVE3res_resfail := activates REMOVE3res_resfail (fun o v => mk_REMOVE3res (REMOVE3res_status o)
  (REMOVE3res_is_resfail v)).
Definition clear_REMOVE3res (o : REMOVE3res) : REMOVE3res := mk_REMOVE3res (REMOVE3res_status o) REMOVE3res_none.

Record READ3args : Type := mk_READ3args { READ3args_file : xdr_string_t; READ3args_offset : Z; READ3args_count : Z }.
#[global] Instance READ3args_inhabited : Inhabited READ3args := populate (mk_READ3args inhabitant inhabitant inhabitant).
#[global] Instance READ3args_file_field : Field READ3args_file := updates READ3args_file (fun (o : READ3args) v => mk_READ3args v (READ3args_offset o)
  (READ3args_count o)).
#[global] Instance READ3args_offset_field : Field READ3args_offset := updates READ3args_offset (fun (o : READ3args) v => mk_READ3args (READ3args_file
  o) v (READ3args_count o)).
#[global] Instance READ3args_count_field : Field READ3args_count := updates READ3args_count (fun (o : READ3args) v => mk_READ3args (READ3args_file o)
  (READ3args_offset o) v).

Record READ3resok : Type := mk_READ3resok { READ3resok_file_attributes : post_op_attr; READ3resok_count : Z; READ3resok_eof : Z; READ3resok_data :
  xdr_string_t }.
#[global] Instance READ3resok_inhabited : Inhabited READ3resok := populate (mk_READ3resok inhabitant inhabitant inhabitant inhabitant).
#[global] Instance READ3resok_file_attributes_field : Field READ3resok_file_attributes := updates READ3resok_file_attributes (fun (o : READ3resok) v
  => mk_READ3resok v (READ3resok_count o) (READ3resok_eof o) (READ3resok_data o)).
#[global] Instance READ3resok_count_field : Field READ3resok_count := updates READ3resok_count (fun (o : READ3resok) v => mk_READ3resok
  (READ3resok_file_attributes o) v (READ3resok_eof o) (READ3resok_data o)).
#[global] Instance READ3resok_eof_field : Field READ3resok_eof := updates READ3resok_eof (fun (o : READ3resok) v => mk_READ3resok
  (READ3resok_file_attributes o) (READ3resok_count o) v (READ3resok_data o)).
#[global] Instance READ3resok_data_field : Field READ3resok_data := updates READ3resok_data (fun (o : READ3resok) v => mk_READ3resok
  (READ3resok_file_attributes o) (READ3resok_count o) (READ3resok_eof o) v).

Record READ3resfail : Type := mk_READ3resfail { READ3resfail_file_attributes : post_op_attr }.
#[global] Instance READ3resfail_inhabited : Inhabited READ3resfail := populate (mk_READ3resfail inhabitant).
#[global] Instance READ3resfail_file_attributes_field : Field READ3resfail_file_attributes := updates READ3resfail_file_attributes (fun (o :
  READ3resfail) v => mk_READ3resfail v).

Inductive READ3res_union : Type :=
| READ3res_is_resok (v : READ3resok)
| READ3res_is_resfail (v : READ3resfail)
| READ3res_none.
Record READ3res : Type := mk_READ3res { READ3res_status : Z; READ3res_u : READ3res_union }.
#[global] Instance READ3res_inhabited : Inhabited READ3res := populate (mk_READ3res inhabitant READ3res_none).
#[global] Instance READ3res_status_field : Field READ3res_status := updates READ3res_status (fun (o : READ3res) v => mk_READ3res v (READ3res_u o)).
Definition READ3res_resok (o : READ3res) : option READ3resok := match READ3res_u o with READ3res_is_resok v => Some v | _ => None end.
#[global] Instance READ3res_resok_arm : Arm READ3res_resok := activates READ3res_resok (fun o v => mk_READ3res (READ3res_status o) (READ3res_is_resok
  v)).
Definition READ3res_resfail (o : READ3res) : option READ3resfail := match READ3res_u o with READ3res_is_resfail v => Some v | _ => None end.
#[global] Instance READ3res_resfail_arm : Arm READ3res_resfail := activates READ3res_resfail (fun o v => mk_READ3res (READ3res_status o)
  (READ3res_is_resfail v)).
Definition clear_READ3res (o : READ3res) : READ3res := mk_READ3res (READ3res_status o) READ3res_none.

Record FSINFO3args : Type := mk_FSINFO3args { FSINFO3args_fsroot : xdr_string_t }.
#[global] Instance FSINFO3args_inhabited : Inhabited FSINFO3args := populate (mk_FSINFO3args inhabitant).
#[global] Instance FSINFO3args_fsroot_field : Field FSINFO3args_fsroot := updates FSINFO3args_fsroot (fun (o : FSINFO3args) v => mk_FSINFO3args v).

Record FSINFO3resok : Type := mk_FSINFO3resok { FSINFO3resok_obj_attributes : post_op_attr; FSINFO3resok_rtmax : Z; FSINFO3resok_rtpref : Z;
  FSINFO3resok_rtmult : Z; FSINFO3resok_wtmax : Z; FSINFO3resok_wtpref : Z; FSINFO3resok_wtmult : Z; FSINFO3resok_dtpref : Z; FSINFO3resok_maxfilesize
  : Z; FSINFO3resok_time_delta : nfstime3; FSINFO3resok_properties : Z }.
#[global] Instance FSINFO3resok_inhabited : Inhabited FSINFO3resok := populate (mk_FSINFO3resok inhabitant inhabitant inhabitant inhabitant inhabitant
  inhabitant inhabitant inhabitant inhabitant inhabitant inhabitant).
#[global] Instance FSINFO3resok_obj_attributes_field : Field FSINFO3resok_obj_attributes := updates FSINFO3resok_obj_attributes (fun (o :
  FSINFO3resok) v => mk_FSINFO3resok v (FSINFO3resok_rtmax o) (FSINFO3resok_rtpref o) (FSINFO3resok_rtmult o) (FSINFO3resok_wtmax o)
  (FSINFO3resok_wtpref o) (FSINFO3resok_wtmult o) (FSINFO3resok_dtpref o) (FSINFO3resok_maxfilesize o) (FSINFO3resok_time_delta o)
  (FSINFO3resok_properties o)).
#[global] Instance FSINFO3resok_rtmax_field : Field FSINFO3resok_rtmax := updates FSINFO3resok_rtmax (fun (o : FSINFO3resok) v => mk_FSINFO3resok
  (FSINFO3resok_obj_attributes o) v (FSINFO3resok_rtpref o) (FSINFO3resok_rtmult o) (FSINFO3resok_wtmax o) (FSINFO3resok_wtpref o)
  (FSINFO3resok_wtmult o) (FSINFO3resok_dtpref o) (FSINFO3resok_maxfilesize o) (FSINFO3resok_time_delta o) (FSINFO3resok_properties o)).
#[global] Instance FSINFO3resok_rtpref_field : Field FSINFO3resok_rtpref := updates FSINFO3resok_rtpref (fun (o : FSINFO3resok) v => mk_FSINFO3resok
  (FSINFO3resok_obj_attributes o) (FSINFO3resok_rtmax o) v (FSINFO3resok_rtmult o) (FSINFO3resok_wtmax o) (FSINFO3resok_wtpref o) (FSINFO3resok_wtmult
  o) (FSINFO3resok_dtpref o) (FSINFO3resok_maxfilesize o) (FSINFO3resok_time_delta o) (FSINFO3resok_properties o)).
#[global] Instance FSINFO3resok_rtmult_field : Field FSINFO3resok_rtmult := updates FSINFO3resok_rtmult (fun (o : FSINFO3resok) v => mk_FSINFO3resok
  (FSINFO3resok_obj_attributes o) (FSINFO3resok_rtmax o) (FSINFO3resok_rtpref o) v (FSINFO3resok_wtmax o) (FSINFO3resok_wtpref o) (FSINFO3resok_wtmult
  o) (FSINFO3resok_dtpref o) (FSINFO3resok_maxfilesize o) (FSINFO3resok_time_delta o) (FSINFO3resok_properties o)).
#[global] Instance FSINFO3resok_wtmax_field : Field FSINFO3resok_wtmax := updates FSINFO3resok_wtmax (fun (o : FSINFO3resok) v => mk_FSINFO3resok
  (FSINFO3resok_obj_attributes o) (FSINFO3resok_rtmax o) (FSINFO3resok_rtpref o) (FSINFO3resok_rtmult o) v (FSINFO3resok_wtpref o)
  (FSINFO3resok_wtmult o) (FSINFO3resok_dtpref o) (FSINFO3resok_maxfilesize o) (FSINFO3resok_time_delta o) (FSINFO3resok_properties o)).
#[global] Instance FSINFO3resok_wtpref_field : Field FSINFO3resok_wtpref := updates FSINFO3resok_wtpref (fun (o : FSINFO3resok) v => mk_FSINFO3resok
  (FSINFO3resok_obj_attributes o) (FSINFO3resok_rtmax o) (FSINFO3resok_rtpref o) (FSINFO3resok_rtmult o) (FSINFO3resok_wtmax o) v (FSINFO3resok_wtmult
  o) (FSINFO3resok_dtpref o) (FSINFO3resok_maxfilesize o) (FSINFO3resok_time_delta o) (FSINFO3resok_properties o)).
#[global] Instance FSINFO3resok_wtmult_field : Field FSINFO3resok_wtmult := updates FSINFO3resok_wtmult (fun (o : FSINFO3resok) v => mk_FSINFO3resok
  (FSINFO3resok_obj_attributes o) (FSINFO3resok_rtmax o) (FSINFO3resok_rtpref o) (FSINFO3resok_rtmult o) (FSINFO3resok_wtmax o) (FSINFO3resok_wtpref
  o) v (FSINFO3resok_dtpref o) (FSINFO3resok_maxfilesize o) (FSINFO3resok_time_delta o) (FSINFO3resok_properties o)).
#[global] Instance FSINFO3resok_dtpref_field : Field FSINFO3resok_dtpref := updates FSINFO3resok_dtpref (fun (o : FSINFO3resok) v => mk_FSINFO3resok
  (FSINFO3resok_obj_attributes o) (FSINFO3resok_rtmax o) (FSINFO3resok_rtpref o) (FSINFO3resok_rtmult o) (FSINFO3resok_wtmax o) (FSINFO3resok_wtpref
  o) (FSINFO3resok_wtmult o) v (FSINFO3resok_maxfilesize o) (FSINFO3resok_time_delta o) (FSINFO3resok_properties o)).
#[global] Instance FSINFO3resok_maxfilesize_field : Field FSINFO3resok_maxfilesize := updates FSINFO3resok_maxfilesize (fun (o : FSINFO3resok) v =>
  mk_FSINFO3resok (FSINFO3resok_obj_attributes o) (FSINFO3resok_rtmax o) (FSINFO3resok_rtpref o) (FSINFO3resok_rtmult o) (FSINFO3resok_wtmax o)
  (FSINFO3resok_wtpref o) (FSINFO3resok_wtmult o) (FSINFO3resok_dtpref o) v (FSINFO3resok_time_delta o) (FSINFO3resok_properties o)).
#[global] Instance FSINFO3resok_time_delta_field : Field FSINFO3resok_time_delta := updates FSINFO3resok_time_delta (fun (o : FSINFO3resok) v =>
  mk_FSINFO3resok (FSINFO3resok_obj_attributes o) (FSINFO3resok_rtmax o) (FSINFO3resok_rtpref o) (FSINFO3resok_rtmult o) (FSINFO3resok_wtmax o)
  (FSINFO3resok_wtpref o) (FSINFO3resok_wtmult o) (FSINFO3resok_dtpref o) (FSINFO3resok_maxfilesize o) v (FSINFO3resok_properties o)).
#[global] Instance FSINFO3resok_properties_field : Field FSINFO3resok_properties := updates FSINFO3resok_properties (fun (o : FSINFO3resok) v =>
  mk_FSINFO3resok (FSINFO3resok_obj_attributes o) (FSINFO3resok_rtmax o) (FSINFO3resok_rtpref o) (FSINFO3resok_rtmult o) (FSINFO3resok_wtmax o)
  (FSINFO3resok_wtpref o) (FSINFO3resok_wtmult o) (FSINFO3resok_dtpref o) (FSINFO3resok_maxfilesize o) (FSINFO3resok_time_delta o) v).

Record FSINFO3resfail : Type := mk_FSINFO3resfail { FSINFO3resfail_obj_attributes : post_op_attr }.
#[global] Instance FSINFO3resfail_inhabited : Inhabited FSINFO3resfail := populate (mk_FSINFO3resfail inhabitant).
#[global] Instance FSINFO3resfail_obj_attributes_field : Field FSINFO3resfail_obj_attributes := updates FSINFO3resfail_obj_attributes (fun (o :
  FSINFO3resfail) v => mk_FSINFO3resfail v).

Inductive FSINFO3res_union : Type :=
| FSINFO3res_is_resok (v : FSINFO3resok)
| FSINFO3res_is_resfail (v : FSINFO3resfail)
| FSINFO3res_none.
Record FSINFO3res : Type := mk_FSINFO3res { FSINFO3res_status : Z; FSINFO3res_u : FSINFO3res_union }.
#[global] Instance FSINFO3res_inhabited : Inhabited FSINFO3res := populate (mk_FSINFO3res inhabitant FSINFO3res_none).
#[global] Instance FSINFO3res_status_field : Field FSINFO3res_status := updates FSINFO3res_status (fun (o : FSINFO3res) v => mk_FSINFO3res v
  (FSINFO3res_u o)).
Definition FSINFO3res_resok (o : FSINFO3res) : option FSINFO3resok := match FSINFO3res_u o with FSINFO3res_is_resok v => Some v | _ => None end.
#[global] Instance FSINFO3res_resok_arm : Arm FSINFO3res_resok := activates FSINFO3res_resok (fun o v => mk_FSINFO3res (FSINFO3res_status o)
  (FSINFO3res_is_resok v)).
Definition FSINFO3res_resfail (o : FSINFO3res) : option FSINFO3resfail := match FSINFO3res_u o with FSINFO3res_is_resfail v => Some v | _ => None end.
#[global] Instance FSINFO3res_resfail_arm : Arm FSINFO3res_resfail := activates FSINFO3res_resfail (fun o v => mk_FSINFO3res (FSINFO3res_status o)
  (FSINFO3res_is_resfail v)).
Definition clear_FSINFO3res (o : FSINFO3res) : FSINFO3res := mk_FSINFO3res (FSINFO3res_status o) FSINFO3res_none.

Record FSSTAT3args : Type := mk_FSSTAT3args { FSSTAT3args_fsroot : xdr_string_t }.
#[global] Instance FSSTAT3args_inhabited : Inhabited FSSTAT3args := populate (mk_FSSTAT3args inhabitant).
#[global] Instance FSSTAT3args_fsroot_field : Field FSSTAT3args_fsroot := updates FSSTAT3args_fsroot (fun (o : FSSTAT3args) v => mk_FSSTAT3args v).

Record FSSTAT3resok : Type := mk_FSSTAT3resok { FSSTAT3resok_obj_attributes : post_op_attr; FSSTAT3resok_tbytes : Z; FSSTAT3resok_fbytes : Z;
  FSSTAT3resok_abytes : Z; FSSTAT3resok_tfiles : Z; FSSTAT3resok_ffiles : Z; FSSTAT3resok_afiles : Z; FSSTAT3resok_invarsec : Z }.
#[global] Instance FSSTAT3resok_inhabited : Inhabited FSSTAT3resok := populate (mk_FSSTAT3resok inhabitant inhabitant inhabitant inhabitant inhabitant
  inhabitant inhabitant inhabitant).
#[global] Instance FSSTAT3resok_obj_attributes_field : Field FSSTAT3resok_obj_attributes := updates FSSTAT3resok_obj_attributes (fun (o :
  FSSTAT3resok) v => mk_FSSTAT3resok v (FSSTAT3resok_tbytes o) (FSSTAT3resok_fbytes o) (FSSTAT3resok_abytes o) (FSSTAT3resok_tfiles o)
  (FSSTAT3resok_ffiles o) (FSSTAT3resok_afiles o) (FSSTAT3resok_invarsec o)).
#[global] Instance FSSTAT3resok_tbytes_field : Field FSSTAT3resok_tbytes := updates FSSTAT3resok_tbytes (fun (o : FSSTAT3resok) v => mk_FSSTAT3resok
  (FSSTAT3resok_obj_attributes o) v (FSSTAT3resok_fbytes o) (FSSTAT3resok_abytes o) (FSSTAT3resok_tfiles o) (FSSTAT3resok_ffiles o)
  (FSSTAT3resok_afiles o) (FSSTAT3resok_invarsec o)).
#[global] Instance FSSTAT3resok_fbytes_field : Field FSSTAT3resok_fbytes := updates FSSTAT3resok_fbytes (fun (o : FSSTAT3resok) v => mk_FSSTAT3resok
  (FSSTAT3resok_obj_attributes o) (FSSTAT3resok_tbytes o) v (FSSTAT3resok_abytes o) (FSSTAT3resok_tfiles o) (FSSTAT3resok_ffiles o)
  (FSSTAT3resok_afiles o) (FSSTAT3resok_invarsec o)).
#[global] Instance FSSTAT3resok_abytes_field : Field FSSTAT3resok_abytes := updates FSSTAT3resok_abytes (fun (o : FSSTAT3resok) v => mk_FSSTAT3resok
  (FSSTAT3resok_obj_attributes o) (FSSTAT3resok_tbytes o) (FSSTAT3resok_fbytes o) v (FSSTAT3resok_tfiles o) (FSSTAT3resok_ffiles o)
  (FSSTAT3resok_afiles o) (FSSTAT3resok_invarsec o)).
#[global] Instance FSSTAT3resok_tfiles_field : Field FSSTAT3resok_tfiles := updates FSSTAT3resok_tfiles (fun (o : FSSTAT3resok) v => mk_FSSTAT3resok
  (FSSTAT3resok_obj_attributes o) (FSSTAT3resok_tbytes o) (FSSTAT3resok_fbytes o) (FSSTAT3resok_abytes o) v (FSSTAT3resok_ffiles o)
  (FSSTAT3resok_afiles o) (FSSTAT3resok_invarsec o)).
#[global] Instance FSSTAT3resok_ffiles_field : Field FSSTAT3resok_ffiles := updates FSSTAT3resok_ffiles (fun (o : FSSTAT3resok) v => mk_FSSTAT3resok
  (FSSTAT3resok_obj_attributes o) (FSSTAT3resok_tbytes o) (FSSTAT3resok_fbytes o) (FSSTAT3resok_abytes o) (FSSTAT3resok_tfiles o) v
  (FSSTAT3resok_afiles o) (FSSTAT3resok_invarsec o)).
#[global] Instance FSSTAT3resok_afiles_field : Field FSSTAT3resok_afiles := updates FSSTAT3resok_afiles (fun (o : FSSTAT3resok) v => mk_FSSTAT3resok
  (FSSTAT3resok_obj_attributes o) (FSSTAT3resok_tbytes o) (FSSTAT3resok_fbytes o) (FSSTAT3resok_abytes o) (FSSTAT3resok_tfiles o) (FSSTAT3resok_ffiles
  o) v (FSSTAT3resok_invarsec o)).
#[global] Instance FSSTAT3resok_invarsec_field : Field FSSTAT3resok_invarsec := updates FSSTAT3resok_invarsec (fun (o : FSSTAT3resok) v =>
  mk_FSSTAT3resok (FSSTAT3resok_obj_attributes o) (FSSTAT3resok_tbytes o) (FSSTAT3resok_fbytes o) (FSSTAT3resok_abytes o) (FSSTAT3resok_tfiles o)
  (FSSTAT3resok_ffiles o) (FSSTAT3resok_afiles o) v).

Record FSSTAT3resfail : Type := mk_FSSTAT3resfail { FSSTAT3resfail_obj_attributes : post_op_attr }.
#[global] Instance FSSTAT3resfail_inhabited : Inhabited FSSTAT3resfail := populate (mk_FSSTAT3resfail inhabitant).
#[global] Instance FSSTAT3resfail_obj_attributes_field : Field FSSTAT3resfail_obj_attributes := updates FSSTAT3resfail_obj_attributes (fun (o :
  FSSTAT3resfail) v => mk_FSSTAT3resfail v).

Inductive FSSTAT3res_union : Type :=
| FSSTAT3res_is_resok (v : FSSTAT3resok)
| FSSTAT3res_is_resfail (v : FSSTAT3resfail)
| FSSTAT3res_none.
Record FSSTAT3res : Type := mk_FSSTAT3res { FSSTAT3res_status : Z; FSSTAT3res_u : FSSTAT3res_union }.
#[global] Instance FSSTAT3res_inhabited : Inhabited FSSTAT3res := populate (mk_FSSTAT3res inhabitant FSSTAT3res_none).
#[global] Instance FSSTAT3res_status_field : Field FSSTAT3res_status := updates FSSTAT3res_status (fun (o : FSSTAT3res) v => mk_FSSTAT3res v
  (FSSTAT3res_u o)).
Definition FSSTAT3res_resok (o : FSSTAT3res) : option FSSTAT3resok := match FSSTAT3res_u o with FSSTAT3res_is_resok v => Some v | _ => None end.
#[global] Instance FSSTAT3res_resok_arm : Arm FSSTAT3res_resok := activates FSSTAT3res_resok (fun o v => mk_FSSTAT3res (FSSTAT3res_status o)
  (FSSTAT3res_is_resok v)).
Definition FSSTAT3res_resfail (o : FSSTAT3res) : option FSSTAT3resfail := match FSSTAT3res_u o with FSSTAT3res_is_resfail v => Some v | _ => None end.
#[global] Instance FSSTAT3res_resfail_arm : Arm FSSTAT3res_resfail := activates FSSTAT3res_resfail (fun o v => mk_FSSTAT3res (FSSTAT3res_status o)
  (FSSTAT3res_is_resfail v)).
Definition clear_FSSTAT3res (o : FSSTAT3res) : FSSTAT3res := mk_FSSTAT3res (FSSTAT3res_status o) FSSTAT3res_none.

Record PATHCONF3args : Type := mk_PATHCONF3args { PATHCONF3args_object : xdr_string_t }.
#[global] Instance PATHCONF3args_inhabited : Inhabited PATHCONF3args := populate (mk_PATHCONF3args inhabitant).
#[global] Instance PATHCONF3args_object_field : Field PATHCONF3args_object := updates PATHCONF3args_object (fun (o : PATHCONF3args) v =>
  mk_PATHCONF3args v).

Record PATHCONF3resok : Type := mk_PATHCONF3resok { PATHCONF3resok_obj_attributes : post_op_attr; PATHCONF3resok_linkmax : Z; PATHCONF3resok_name_max
  : Z; PATHCONF3resok_no_trunc : Z; PATHCONF3resok_chown_restricted : Z; PATHCONF3resok_case_insensitive : Z; PATHCONF3resok_case_preserving : Z }.
#[global] Instance PATHCONF3resok_inhabited : Inhabited PATHCONF3resok := populate (mk_PATHCONF3resok inhabitant inhabitant inhabitant inhabitant
  inhabitant inhabitant inhabitant).
#[global] Instance PATHCONF3resok_obj_attributes_field : Field PATHCONF3resok_obj_attributes := updates PATHCONF3resok_obj_attributes (fun (o :
  PATHCONF3resok) v => mk_PATHCONF3resok v (PATHCONF3resok_linkmax o) (PATHCONF3resok_name_max o) (PATHCONF3resok_no_trunc o)
  (PATHCONF3resok_chown_restricted o) (PATHCONF3resok_case_insensitive o) (PATHCONF3resok_case_preserving o)).
#[global] Instance PATHCONF3resok_linkmax_field : Field PATHCONF3resok_linkmax := updates PATHCONF3resok_linkmax (fun (o : PATHCONF3resok) v =>
  mk_PATHCONF3resok (PATHCONF3resok_obj_attributes o) v (PATHCONF3resok_name_max o) (PATHCONF3resok_no_trunc o) (PATHCONF3resok_chown_restricted o)
  (PATHCONF3resok_case_insensitive o) (PATHCONF3resok_case_preserving o)).
#[global] Instance PATHCONF3resok_name_max_field : Field PATHCONF3resok_name_max := updates PATHCONF3resok_name_max (fun (o : PATHCONF3resok) v =>
  mk_PATHCONF3resok (PATHCONF3resok_obj_attributes o) (PATHCONF3resok_linkmax o) v (PATHCONF3resok_no_trunc o) (PATHCONF3resok_chown_restricted o)
  (PATHCONF3resok_case_insensitive o) (PATHCONF3resok_case_preserving o)).
#[global] Instance PATHCONF3resok_no_trunc_field : Field PATHCONF3resok_no_trunc := updates PATHCONF3resok_no_trunc (fun (o : PATHCONF3resok) v =>
  mk_PATHCONF3resok (PATHCONF3resok_obj_attributes o) (PATHCONF3resok_linkmax o) (PATHCONF3resok_name_max o) v (PATHCONF3resok_chown_restricted o)
  (PATHCONF3resok_case_insensitive o) (PATHCONF3resok_case_preserving o)).
#[global] Instance PATHCONF3resok_chown_restricted_field : Field PATHCONF3resok_chown_restricted := updates PATHCONF3resok_chown_restricted (fun (o :
  PATHCONF3resok) v => mk_PATHCONF3resok (PATHCONF3resok_obj_attributes o) (PATHCONF3resok_linkmax o) (PATHCONF3resok_name_max o)
  (PATHCONF3resok_no_trunc o) v (PATHCONF3resok_case_insensitive o) (PATHCONF3resok_case_preserving o)).
#[global] Instance PATHCONF3resok_case_insensitive_field : Field PATHCONF3resok_case_insensitive := updates PATHCONF3resok_case_insensitive (fun (o :
  PATHCONF3resok) v => mk_PATHCONF3resok (PATHCONF3resok_obj_attributes o) (PATHCONF3resok_linkmax o) (PATHCONF3resok_name_max o)
  (PATHCONF3resok_no_trunc o) (PATHCONF3resok_chown_restricted o) v (PATHCONF3resok_case_preserving o)).
#[global] Instance PATHCONF3resok_case_preserving_field : Field PATHCONF3resok_case_preserving := updates PATHCONF3resok_case_preserving (fun (o :
  PATHCONF3resok) v => mk_PATHCONF3resok (PATHCONF3resok_obj_attributes o) (PATHCONF3resok_linkmax o) (PATHCONF3resok_name_max o)
  (PATHCONF3resok_no_trunc o) (PATHCONF3resok_chown_restricted o) (PATHCONF3resok_case_insensitive o) v).

Record PATHCONF3resfail : Type := mk_PATHCONF3resfail { PATHCONF3resfail_obj_attributes : post_op_attr }.
#[global] Instance PATHCONF3resfail_inhabited : Inhabited PATHCONF3resfail := populate (mk_PATHCONF3resfail inhabitant).
#[global] Instance PATHCONF3resfail_obj_attributes_field : Field PATHCONF3resfail_obj_attributes := updates PATHCONF3resfail_obj_attributes (fun (o :
  PATHCONF3resfail) v => mk_PATHCONF3resfail v).

Inductive PATHCONF3res_union : Type :=
| PATHCONF3res_is_resok (v : PATHCONF3resok)
| PATHCONF3res_is_resfail (v : PATHCONF3resfail)
| PATHCONF3res_none.
Record PATHCONF3res : Type := mk_PATHCONF3res { PATHCONF3res_status : Z; PATHCONF3res_u : PATHCONF3res_union }.
#[global] Instance PATHCONF3res_inhabited : Inhabited PATHCONF3res := populate (mk_PATHCONF3res inhabitant PATHCONF3res_none).
#[global] Instance PATHCONF3res_status_field : Field PATHCONF3res_status := updates PATHCONF3res_status (fun (o : PATHCONF3res) v => mk_PATHCONF3res v
  (PATHCONF3res_u o)).
Definition PATHCONF3res_resok (o : PATHCONF3res) : option PATHCONF3resok := match PATHCONF3res_u o with PATHCONF3res_is_resok v => Some v | _ => None
  end.
#[global] Instance PATHCONF3res_resok_arm : Arm PATHCONF3res_resok := activates PATHCONF3res_resok (fun o v => mk_PATHCONF3res (PATHCONF3res_status o)
  (PATHCONF3res_is_resok v)).
Definition PATHCONF3res_resfail (o : PATHCONF3res) : option PATHCONF3resfail := match PATHCONF3res_u o with PATHCONF3res_is_resfail v => Some v | _ =>
  None end.
#[global] Instance PATHCONF3res_resfail_arm : Arm PATHCONF3res_resfail := activates PATHCONF3res_resfail (fun o v => mk_PATHCONF3res
  (PATHCONF3res_status o) (PATHCONF3res_is_resfail v)).
Definition clear_PATHCONF3res (o : PATHCONF3res) : PATHCONF3res := mk_PATHCONF3res (PATHCONF3res_status o) PATHCONF3res_none.

Record symlinkdata3 : Type := mk_symlinkdata3 { symlinkdata3_symlink_attributes : sattr3; symlinkdata3_symlink_data : xdr_string_t }.
#[global] Instance symlinkdata3_inhabited : Inhabited symlinkdata3 := populate (mk_symlinkdata3 inhabitant inhabitant).
#[global] Instance symlinkdata3_symlink_attributes_field : Field symlinkdata3_symlink_attributes := updates symlinkdata3_symlink_attributes (fun (o :
  symlinkdata3) v => mk_symlinkdata3 v (symlinkdata3_symlink_data o)).
#[global] Instance symlinkdata3_symlink_data_field : Field symlinkdata3_symlink_data := updates symlinkdata3_symlink_data (fun (o : symlinkdata3) v =>
  mk_symlinkdata3 (symlinkdata3_symlink_attributes o) v).

Record SYMLINK3args : Type := mk_SYMLINK3args { SYMLINK3args_where : diropargs3; SYMLINK3args_symlink : symlinkdata3 }.
#[global] Instance SYMLINK3args_inhabited : Inhabited SYMLINK3args := populate (mk_SYMLINK3args inhabitant inhabitant).
#[global] Instance SYMLINK3args_where_field : Field SYMLINK3args_where := updates SYMLINK3args_where (fun (o : SYMLINK3args) v => mk_SYMLINK3args v
  (SYMLINK3args_symlink o)).
#[global] Instance SYMLINK3args_symlink_field : Field SYMLINK3args_symlink := updates SYMLINK3args_symlink (fun (o : SYMLINK3args) v =>
  mk_SYMLINK3args (SYMLINK3args_where o) v).

Record SYMLINK3resok : Type := mk_SYMLINK3resok { SYMLINK3resok_obj : post_op_fh3; SYMLINK3resok_obj_attributes : post_op_attr; SYMLINK3resok_dir_wcc
  : wcc_data }.
#[global] Instance SYMLINK3resok_inhabited : Inhabited SYMLINK3resok := populate (mk_SYMLINK3resok inhabitant inhabitant inhabitant).
#[global] Instance SYMLINK3resok_obj_field : Field SYMLINK3resok_obj := updates SYMLINK3resok_obj (fun (o : SYMLINK3resok) v => mk_SYMLINK3resok v
  (SYMLINK3resok_obj_attributes o) (SYMLINK3resok_dir_wcc o)).
#[global] Instance SYMLINK3resok_obj_attributes_field : Field SYMLINK3resok_obj_attributes := updates SYMLINK3resok_obj_attributes (fun (o :
  SYMLINK3resok) v => mk_SYMLINK3resok (SYMLINK3resok_obj o) v (SYMLINK3resok_dir_wcc o)).
#[global] Instance SYMLINK3resok_dir_wcc_field : Field SYMLINK3resok_dir_wcc := updates SYMLINK3resok_dir_wcc (fun (o : SYMLINK3resok) v =>
  mk_SYMLINK3resok (SYMLINK3resok_obj o) (SYMLINK3resok_obj_attributes o) v).

Record SYMLINK3resfail : Type := mk_SYMLINK3resfail { SYMLINK3resfail_dir_wcc : wcc_data }.
#[global] Instance SYMLINK3resfail_inhabited : Inhabited SYMLINK3resfail := populate (mk_SYMLINK3resfail inhabitant).
#[global] Instance SYMLINK3resfail_dir_wcc_field : Field SYMLINK3resfail_dir_wcc := updates SYMLINK3resfail_dir_wcc (fun (o : SYMLINK3resfail) v =>
  mk_SYMLINK3resfail v).

Inductive SYMLINK3res_union : Type :=
| SYMLINK3res_is_resok (v : SYMLINK3resok)
| SYMLINK3res_is_resfail (v : SYMLINK3resfail)
| SYMLINK3res_none.
Record SYMLINK3res : Type := mk_SYMLINK3res { SYMLINK3res_status : Z; SYMLINK3res_u : SYMLINK3res_union }.
#[global] Instance SYMLINK3res_inhabited : Inhabited SYMLINK3res := populate (mk_SYMLINK3res inhabitant SYMLINK3res_none).
#[global] Instance SYMLINK3res_status_field : Field SYMLINK3res_status := updates SYMLINK3res_status (fun (o : SYMLINK3res) v => mk_SYMLINK3res v
  (SYMLINK3res_u o)).
Definition SYMLINK3res_resok (o : SYMLINK3res) : option SYMLINK3resok := match SYMLINK3res_u o with SYMLINK3res_is_resok v => Some v | _ => None end.
#[global] Instance SYMLINK3res_resok_arm : Arm SYMLINK3res_resok := activates SYMLINK3res_resok (fun o v => mk_SYMLINK3res (SYMLINK3res_status o)
  (SYMLINK3res_is_resok v)).
Definition SYMLINK3res_resfail (o : SYMLINK3res) : option SYMLINK3resfail := match SYMLINK3res_u o with SYMLINK3res_is_resfail v => Some v | _ => None
  end.
#[global] Instance SYMLINK3res_resfail_arm : Arm SYMLINK3res_resfail := activates SYMLINK3res_resfail (fun o v => mk_SYMLINK3res (SYMLINK3res_status
  o) (SYMLINK3res_is_resfail v)).
Definition clear_SYMLINK3res (o : SYMLINK3res) : SYMLINK3res := mk_SYMLINK3res (SYMLINK3res_status o) SYMLINK3res_none.

Record READLINK3args : Type := mk_READLINK3args { READLINK3args_symlink : xdr_string_t }.
#[global] Instance READLINK3args_inhabited : Inhabited READLINK3args := populate (mk_READLINK3args inhabitant).
#[global] Instance READLINK3args_symlink_field : Field READLINK3args_symlink := updates READLINK3args_symlink (fun (o : READLINK3args) v =>
  mk_READLINK3args v).

Record READLINK3resok : Type := mk_READLINK3resok { READLINK3resok_symlink_attributes : post_op_attr; READLINK3resok_data : xdr_string_t }.
#[global] Instance READLINK3resok_inhabited : Inhabited READLINK3resok := populate (mk_READLINK3resok inhabitant inhabitant).
#[global] Instance READLINK3resok_symlink_attributes_field : Field READLINK3resok_symlink_attributes := updates READLINK3resok_symlink_attributes (fun
  (o : READLINK3resok) v => mk_READLINK3resok v (READLINK3resok_data o)).
#[global] Instance READLINK3resok_data_field : Field READLINK3resok_data := updates READLINK3resok_data (fun (o : READLINK3resok) v =>
  mk_READLINK3resok (READLINK3resok_symlink_attributes o) v).

Record READLINK3resfail : Type := mk_READLINK3resfail { READLINK3resfail_symlink_attributes : post_op_attr }.
#[global] Instance READLINK3resfail_inhabited : Inhabited READLINK3resfail := populate (mk_READLINK3resfail inhabitant).
#[global] Instance READLINK3resfail_symlink_attributes_field : Field READLINK3resfail_symlink_attributes := updates
  READLINK3resfail_symlink_attributes (fun (o : READLINK3resfail) v => mk_READLINK3resfail v).

Inductive READLINK3res_union : Type :=
| READLINK3res_is_resok (v : READLINK3resok)
| READLINK3res_is_resfail (v : READLINK3resfail)
| READLINK3res_none.
Record READLINK3res : Type := mk_READLINK3res { READLINK3res_status : Z; READLINK3res_u : READLINK3res_union }.
#[global] Instance READLINK3res_inhabited : Inhabited READLINK3res := populate (mk_READLINK3res inhabitant READLINK3res_none).
#[global] Instance READLINK3res_status_field : Field READLINK3res_status := updates READLINK3res_status (fun (o : READLINK3res) v => mk_READLINK3res v
  (READLINK3res_u o)).
Definition READLINK3res_resok (o : READLINK3res) : option READLINK3resok := match READLINK3res_u o with READLINK3res_is_resok v => Some v | _ => None
  end.
#[global] Instance READLINK3res_resok_arm : Arm READLINK3res_resok := activates READLINK3res_resok (fun o v => mk_READLINK3res (READLINK3res_status o)
  (READLINK3res_is_resok v)).
Definition READLINK3res_resfail (o : READLINK3res) : option READLINK3resfail := match READLINK3res_u o with READLINK3res_is_resfail v => Some v | _ =>
  None end.
#[global] Instance READLINK3res_resfail_arm : Arm READLINK3res_resfail := activates READLINK3res_resfail (fun o v => mk_READLINK3res
  (READLINK3res_status o) (READLINK3res_is_resfail v)).
Definition clear_READLINK3res (o : READLINK3res) : READLINK3res := mk_READLINK3res (READLINK3res_status o) READLINK3res_none.

Record devicedata3 : Type := mk_devicedata3 { devicedata3_dev_attributes : sattr3; devicedata3_spec : specdata3 }.
#[global] Instance devicedata3_inhabited : Inhabited devicedata3 := populate (mk_devicedata3 inhabitant inhabitant).
#[global] Instance devicedata3_dev_attributes_field : Field devicedata3_dev_attributes := updates devicedata3_dev_attributes (fun (o : devicedata3) v
  => mk_devicedata3 v (devicedata3_spec o)).
#[global] Instance devicedata3_spec_field : Field devicedata3_spec := updates devicedata3_spec (fun (o : devicedata3) v => mk_devicedata3
  (devicedata3_dev_attributes o) v).

Inductive mknoddata3_union : Type :=
| mknoddata3_is_chr_device (v : devicedata3)
| mknoddata3_is_blk_device (v : devicedata3)
| mknoddata3_is_sock_attributes (v : sattr3)
| mknoddata3_is_pipe_attributes (v : sattr3)
| mknoddata3_none.
Record mknoddata3 : Type := mk_mknoddata3 { mknoddata3_type : Z; mknoddata3_u : mknoddata3_union }.
#[global] Instance mknoddata3_inhabited : Inhabited mknoddata3 := populate (mk_mknoddata3 inhabitant mknoddata3_none).
#[global] Instance mknoddata3_type_field : Field mknoddata3_type := updates mknoddata3_type (fun (o : mknoddata3) v => mk_mknoddata3 v (mknoddata3_u
  o)).
Definition mknoddata3_chr_device (o : mknoddata3) : option devicedata3 := match mknoddata3_u o with mknoddata3_is_chr_device v => Some v | _ => None
  end.
#[global] Instance mknoddata3_chr_device_arm : Arm mknoddata3_chr_device := activates mknoddata3_chr_device (fun o v => mk_mknoddata3 (mknoddata3_type
  o) (mknoddata3_is_chr_device v)).
Definition mknoddata3_blk_device (o : mknoddata3) : option devicedata3 := match mknoddata3_u o with mknoddata3_is_blk_device v => Some v | _ => None
  end.
#[global] Instance mknoddata3_blk_device_arm : Arm mknoddata3_blk_device := activates mknoddata3_blk_device (fun o v => mk_mknoddata3 (mknoddata3_type
  o) (mknoddata3_is_blk_device v)).
Definition mknoddata3_sock_attributes (o : mknoddata3) : option sattr3 := match mknoddata3_u o with mknoddata3_is_sock_attributes v => Some v | _ =>
  None end.
#[global] Instance mknoddata3_sock_attributes_arm : Arm mknoddata3_sock_attributes := activates mknoddata3_sock_attributes (fun o v => mk_mknoddata3
  (mknoddata3_type o) (mknoddata3_is_sock_attributes v)).
Definition mknoddata3_pipe_attributes (o : mknoddata3) : option sattr3 := match mknoddata3_u o with mknoddata3_is_pipe_attributes v => Some v | _ =>
  None end.
#[global] Instance mknoddata3_pipe_attributes_arm : Arm mknoddata3_pipe_attributes := activates mknoddata3_pipe_attributes (fun o v => mk_mknoddata3
  (mknoddata3_type o) (mknoddata3_is_pipe_attributes v)).
Definition clear_mknoddata3 (o : mknoddata3) : mknoddata3 := mk_mknoddata3 (mknoddata3_type o) mknoddata3_none.

Record MKNOD3args : Type := mk_MKNOD3args { MKNOD3args_where : diropargs3; MKNOD3args_what : mknoddata3 }.
#[global] Instance MKNOD3args_inhabited : Inhabited MKNOD3args := populate (mk_MKNOD3args inhabitant inhabitant).
#[global] Instance MKNOD3args_where_field : Field MKNOD3args_where := updates MKNOD3args_where (fun (o : MKNOD3args) v => mk_MKNOD3args v
  (MKNOD3args_what o)).
#[global] Instance MKNOD3args_what_field : Field MKNOD3args_what := updates MKNOD3args_what (fun (o : MKNOD3args) v => mk_MKNOD3args (MKNOD3args_where
  o) v).

Record MKNOD3resok : Type := mk_MKNOD3resok { MKNOD3resok_obj : post_op_fh3; MKNOD3resok_obj_attributes : post_op_attr; MKNOD3resok_dir_wcc : wcc_data
  }.
#[global] Instance MKNOD3resok_inhabited : Inhabited MKNOD3resok := populate (mk_MKNOD3resok inhabitant inhabitant inhabitant).
#[global] Instance MKNOD3resok_obj_field : Field MKNOD3resok_obj := updates MKNOD3resok_obj (fun (o : MKNOD3resok) v => mk_MKNOD3resok v
  (MKNOD3resok_obj_attributes o) (MKNOD3resok_dir_wcc o)).
#[global] Instance MKNOD3resok_obj_attributes_field : Field MKNOD3resok_obj_attributes := updates MKNOD3resok_obj_attributes (fun (o : MKNOD3resok) v
  => mk_MKNOD3resok (MKNOD3resok_obj o) v (MKNOD3resok_dir_wcc o)).
#[global] Instance MKNOD3resok_dir_wcc_field : Field MKNOD3resok_dir_wcc := updates MKNOD3resok_dir_wcc (fun (o : MKNOD3resok) v => mk_MKNOD3resok
  (MKNOD3resok_obj o) (MKNOD3resok_obj_attributes o) v).

Record MKNOD3resfail : Type := mk_MKNOD3resfail { MKNOD3resfail_dir_wcc : wcc_data }.
#[global] Instance MKNOD3resfail_inhabited : Inhabited MKNOD3resfail := populate (mk_MKNOD3resfail inhabitant).
#[global] Instance MKNOD3resfail_dir_wcc_field : Field MKNOD3resfail_dir_wcc := updates MKNOD3resfail_dir_wcc (fun (o : MKNOD3resfail) v =>
  mk_MKNOD3resfail v).

Inductive MKNOD3res_union : Type :=
| MKNOD3res_is_resok (v : MKNOD3resok)
| MKNOD3res_is_resfail (v : MKNOD3resfail)
| MKNOD3res_none.
Record MKNOD3res : Type := mk_MKNOD3res { MKNOD3res_status : Z; MKNOD3res_u : MKNOD3res_union }.
#[global] Instance MKNOD3res_inhabited : Inhabited MKNOD3res := populate (mk_MKNOD3res inhabitant MKNOD3res_none).
#[global] Instance MKNOD3res_status_field : Field MKNOD3res_status := updates MKNOD3res_status (fun (o : MKNOD3res) v => mk_MKNOD3res v (MKNOD3res_u
  o)).
Definition MKNOD3res_resok (o : MKNOD3res) : option MKNOD3resok := match MKNOD3res_u o with MKNOD3res_is_resok v => Some v | _ => None end.
#[global] Instance MKNOD3res_resok_arm : Arm MKNOD3res_resok := activates MKNOD3res_resok (fun o v => mk_MKNOD3res (MKNOD3res_status o)
  (MKNOD3res_is_resok v)).
Definition MKNOD3res_resfail (o : MKNOD3res) : option MKNOD3resfail := match MKNOD3res_u o with MKNOD3res_is_resfail v => Some v | _ => None end.
#[global] Instance MKNOD3res_resfail_arm : Arm MKNOD3res_resfail := activates MKNOD3res_resfail (fun o v => mk_MKNOD3res (MKNOD3res_status o)
  (MKNOD3res_is_resfail v)).
Definition clear_MKNOD3res (o : MKNOD3res) : MKNOD3res := mk_MKNOD3res (MKNOD3res_status o) MKNOD3res_none.

Record MKDIR3args : Type := mk_MKDIR3args { MKDIR3args_where : diropargs3; MKDIR3args_attributes : sattr3 }.
#[global] Instance MKDIR3args_inhabited : Inhabited MKDIR3args := populate (mk_MKDIR3args inhabitant inhabitant).
#[global] Instance MKDIR3args_where_field : Field MKDIR3args_where := updates MKDIR3args_where (fun (o : MKDIR3args) v => mk_MKDIR3args v
  (MKDIR3args_attributes o)).
#[global] Instance MKDIR3args_attributes_field : Field MKDIR3args_attributes := updates MKDIR3args_attributes (fun (o : MKDIR3args) v => mk_MKDIR3args
  (MKDIR3args_where o) v).

Record MKDIR3resok : Type := mk_MKDIR3resok { MKDIR3resok_obj : post_op_fh3; MKDIR3resok_obj_attributes : post_op_attr; MKDIR3resok_dir_wcc : wcc_data
  }.
#[global] Instance MKDIR3resok_inhabited : Inhabited MKDIR3resok := populate (mk_MKDIR3resok inhabitant inhabitant inhabitant).
#[global] Instance MKDIR3resok_obj_field : Field MKDIR3resok_obj := updates MKDIR3resok_obj (fun (o : MKDIR3resok) v => mk_MKDIR3resok v
  (MKDIR3resok_obj_attributes o) (MKDIR3resok_dir_wcc o)).
#[global] Instance MKDIR3resok_obj_attributes_field : Field MKDIR3resok_obj_attributes := updates MKDIR3resok_obj_attributes (fun (o : MKDIR3resok) v
  => mk_MKDIR3resok (MKDIR3resok_obj o) v (MKDIR3resok_dir_wcc o)).
#[global] Instance MKDIR3resok_dir_wcc_field : Field MKDIR3resok_dir_wcc := updates MKDIR3resok_dir_wcc (fun (o : MKDIR3resok) v => mk_MKDIR3resok
  (MKDIR3resok_obj o) (MKDIR3resok_obj_attributes o) v).

Record MKDIR3resfail : Type := mk_MKDIR3resfail { MKDIR3resfail_dir_wcc : wcc_data }.
#[global] Instance MKDIR3resfail_inhabited : Inhabited MKDIR3resfail := populate (mk_MKDIR3resfail inhabitant).
#[global] Instance MKDIR3resfail_dir_wcc_field : Field MKDIR3resfail_dir_wcc := updates MKDIR3resfail_dir_wcc (fun (o : MKDIR3resfail) v =>
  mk_MKDIR3resfail v).

Inductive MKDIR3res_union : Type :=
| MKDIR3res_is_resok (v : MKDIR3resok)
| MKDIR3res_is_resfail (v : MKDIR3resfail)
| MKDIR3res_none.
Record MKDIR3res : Type := mk_MKDIR3res { MKDIR3res_status : Z; MKDIR3res_u : MKDIR3res_union }.
#[global] Instance MKDIR3res_inhabited : Inhabited MKDIR3res := populate (mk_MKDIR3res inhabitant MKDIR3res_none).
#[global] Instance MKDIR3res_status_field : Field MKDIR3res_status := updates MKDIR3res_status (fun (o : MKDIR3res) v => mk_MKDIR3res v (MKDIR3res_u
  o)).
Definition MKDIR3res_resok (o : MKDIR3res) : option MKDIR3resok := match MKDIR3res_u o with MKDIR3res_is_resok v => Some v | _ => None end.
#[global] Instance MKDIR3res_resok_arm : Arm MKDIR3res_resok := activates MKDIR3res_resok (fun o v => mk_MKDIR3res (MKDIR3res_status o)
  (MKDIR3res_is_resok v)).
Definition MKDIR3res_resfail (o : MKDIR3res) : option MKDIR3resfail := match MKDIR3res_u o with MKDIR3res_is_resfail v => Some v | _ => None end.
#[global] Instance MKDIR3res_resfail_arm : Arm MKDIR3res_resfail := activates MKDIR3res_resfail (fun o v => mk_MKDIR3res (MKDIR3res_status o)
  (MKDIR3res_is_resfail v)).
Definition clear_MKDIR3res (o : MKDIR3res) : MKDIR3res := mk_MKDIR3res (MKDIR3res_status o) MKDIR3res_none.

Record RMDIR3args : Type := mk_RMDIR3args { RMDIR3args_object : diropargs3 }.
#[global] Instance RMDIR3args_inhabited : Inhabited RMDIR3args := populate (mk_RMDIR3args inhabitant).
#[global] Instance RMDIR3args_object_field : Field RMDIR3args_object := updates RMDIR3args_object (fun (o : RMDIR3args) v => mk_RMDIR3args v).

Record RMDIR3resok : Type := mk_RMDIR3resok { RMDIR3resok_dir_wcc : wcc_data }.
#[global] Instance RMDIR3resok_inhabited : Inhabited RMDIR3resok := populate (mk_RMDIR3resok inhabitant).
#[global] Instance RMDIR3resok_dir_wcc_field : Field RMDIR3resok_dir_wcc := updates RMDIR3resok_dir_wcc (fun (o : RMDIR3resok) v => mk_RMDIR3resok v).

Record RMDIR3resfail : Type := mk_RMDIR3resfail { RMDIR3resfail_dir_wcc : wcc_data }.
#[global] Instance RMDIR3resfail_inhabited : Inhabited RMDIR3resfail := populate (mk_RMDIR3resfail inhabitant).
#[global] Instance RMDIR3resfail_dir_wcc_field : Field RMDIR3resfail_dir_wcc := updates RMDIR3resfail_dir_wcc (fun (o : RMDIR3resfail) v =>
  mk_RMDIR3resfail v).

Inductive RMDIR3res_union : Type :=
| RMDIR3res_is_resok (v : RMDIR3resok)
| RMDIR3res_is_resfail (v : RMDIR3resfail)
| RMDIR3res_none.
Record RMDIR3res : Type := mk_RMDIR3res { RMDIR3res_status : Z; RMDIR3res_u : RMDIR3res_union }.
#[global] Instance RMDIR3res_inhabited : Inhabited RMDIR3res := populate (mk_RMDIR3res inhabitant RMDIR3res_none).
#[global] Instance RMDIR3res_status_field : Field RMDIR3res_status := updates RMDIR3res_status (fun (o : RMDIR3res) v => mk_RMDIR3res v (RMDIR3res_u
  o)).
Definition RMDIR3res_resok (o : RMDIR3res) : option RMDIR3resok := match RMDIR3res_u o with RMDIR3res_is_resok v => Some v | _ => None end.
#[global] Instance RMDIR3res_resok_arm : Arm RMDIR3res_resok := activates RMDIR3res_resok (fun o v => mk_RMDIR3res (RMDIR3res_status o)
  (RMDIR3res_is_resok v)).
Definition RMDIR3res_resfail (o : RMDIR3res) : option RMDIR3resfail := match RMDIR3res_u o with RMDIR3res_is_resfail v => Some v | _ => None end.
#[global] Instance RMDIR3res_resfail_arm : Arm RMDIR3res_resfail := activates RMDIR3res_resfail (fun o v => mk_RMDIR3res (RMDIR3res_status o)
  (RMDIR3res_is_resfail v)).
Definition clear_RMDIR3res (o : RMDIR3res) : RMDIR3res := mk_RMDIR3res (RMDIR3res_status o) RMDIR3res_none.

Record RENAME3args : Type := mk_RENAME3args { RENAME3args_from : diropargs3; RENAME3args_to : diropargs3 }.
#[global] Instance RENAME3args_inhabited : Inhabited RENAME3args := populate (mk_RENAME3args inhabitant inhabitant).
#[global] Instance RENAME3args_from_field : Field RENAME3args_from := updates RENAME3args_from (fun (o : RENAME3args) v => mk_RENAME3args v
  (RENAME3args_to o)).
#[global] Instance RENAME3args_to_field : Field RENAME3args_to := updates RENAME3args_to (fun (o : RENAME3args) v => mk_RENAME3args (RENAME3args_from
  o) v).

Record RENAME3resok : Type := mk_RENAME3resok { RENAME3resok_fromdir_wcc : wcc_data; RENAME3resok_todir_wcc : wcc_data }.
#[global] Instance RENAME3resok_inhabited : Inhabited RENAME3resok := populate (mk_RENAME3resok inhabitant inhabitant).
#[global] Instance RENAME3resok_fromdir_wcc_field : Field RENAME3resok_fromdir_wcc := updates RENAME3resok_fromdir_wcc (fun (o : RENAME3resok) v =>
  mk_RENAME3resok v (RENAME3resok_todir_wcc o)).
#[global] Instance RENAME3resok_todir_wcc_field : Field RENAME3resok_todir_wcc := updates RENAME3resok_todir_wcc (fun (o : RENAME3resok) v =>
  mk_RENAME3resok (RENAME3resok_fromdir_wcc o) v).

Record RENAME3resfail : Type := mk_RENAME3resfail { RENAME3resfail_fromdir_wcc : wcc_data; RENAME3resfail_todir_wcc : wcc_data }.
#[global] Instance RENAME3resfail_inhabited : Inhabited RENAME3resfail := populate (mk_RENAME3resfail inhabitant inhabitant).
#[global] Instance RENAME3resfail_fromdir_wcc_field : Field RENAME3resfail_fromdir_wcc := updates RENAME3resfail_fromdir_wcc (fun (o : RENAME3resfail)
  v => mk_RENAME3resfail v (RENAME3resfail_todir_wcc o)).
#[global] Instance RENAME3resfail_todir_wcc_field : Field RENAME3resfail_todir_wcc := updates RENAME3resfail_todir_wcc (fun (o : RENAME3resfail) v =>
  mk_RENAME3resfail (RENAME3resfail_fromdir_wcc o) v).

Inductive RENAME3res_union : Type :=
| RENAME3res_is_resok (v : RENAME3resok)
| RENAME3res_is_resfail (v : RENAME3resfail)
| RENAME3res_none.
Record RENAME3res : Type := mk_RENAME3res { RENAME3res_status : Z; RENAME3res_u : RENAME3res_union }.
#[global] Instance RENAME3res_inhabited : Inhabited RENAME3res := populate (mk_RENAME3res inhabitant RENAME3res_none).
#[global] Instance RENAME3res_status_field : Field RENAME3res_status := updates RENAME3res_status (fun (o : RENAME3res) v => mk_RENAME3res v
  (RENAME3res_u o)).
Definition RENAME3res_resok (o : RENAME3res) : option RENAME3resok := match RENAME3res_u o with RENAME3res_is_resok v => Some v | _ => None end.
#[global] Instance RENAME3res_resok_arm : Arm RENAME3res_resok := activates RENAME3res_resok (fun o v => mk_RENAME3res (RENAME3res_status o)
  (RENAME3res_is_resok v)).
Definition RENAME3res_resfail (o : RENAME3res) : option RENAME3resfail := match RENAME3res_u o with RENAME3res_is_resfail v => Some v | _ => None end.
#[global] Instance RENAME3res_resfail_arm : Arm RENAME3res_resfail := activates RENAME3res_resfail (fun o v => mk_RENAME3res (RENAME3res_status o)
  (RENAME3res_is_resfail v)).
Definition clear_RENAME3res (o : RENAME3res) : RENAME3res := mk_RENAME3res (RENAME3res_status o) RENAME3res_none.

Record READDIRPLUS3args : Type := mk_READDIRPLUS3args { READDIRPLUS3args_dir : xdr_string_t; READDIRPLUS3args_cookie : Z; READDIRPLUS3args_cookieverf
  : list Z; READDIRPLUS3args_dircount : Z; READDIRPLUS3args_maxcount : Z }.
#[global] Instance READDIRPLUS3args_inhabited : Inhabited READDIRPLUS3args := populate (mk_READDIRPLUS3args inhabitant inhabitant inhabitant
  inhabitant inhabitant).
#[global] Instance READDIRPLUS3args_dir_field : Field READDIRPLUS3args_dir := updates READDIRPLUS3args_dir (fun (o : READDIRPLUS3args) v =>
  mk_READDIRPLUS3args v (READDIRPLUS3args_cookie o) (READDIRPLUS3args_cookieverf o) (READDIRPLUS3args_dircount o) (READDIRPLUS3args_maxcount o)).
#[global] Instance READDIRPLUS3args_cookie_field : Field READDIRPLUS3args_cookie := updates READDIRPLUS3args_cookie (fun (o : READDIRPLUS3args) v =>
  mk_READDIRPLUS3args (READDIRPLUS3args_dir o) v (READDIRPLUS3args_cookieverf o) (READDIRPLUS3args_dircount o) (READDIRPLUS3args_maxcount o)).
#[global] Instance READDIRPLUS3args_cookieverf_field : Field READDIRPLUS3args_cookieverf := updates READDIRPLUS3args_cookieverf (fun (o :
  READDIRPLUS3args) v => mk_READDIRPLUS3args (READDIRPLUS3args_dir o) (READDIRPLUS3args_cookie o) v (READDIRPLUS3args_dircount o)
  (READDIRPLUS3args_maxcount o)).
#[global] Instance READDIRPLUS3args_dircount_field : Field READDIRPLUS3args_dircount := updates READDIRPLUS3args_dircount (fun (o : READDIRPLUS3args)
  v => mk_READDIRPLUS3args (READDIRPLUS3args_dir o) (READDIRPLUS3args_cookie o) (READDIRPLUS3args_cookieverf o) v (READDIRPLUS3args_maxcount o)).
#[global] Instance READDIRPLUS3args_maxcount_field : Field READDIRPLUS3args_maxcount := updates READDIRPLUS3args_maxcount (fun (o : READDIRPLUS3args)
  v => mk_READDIRPLUS3args (READDIRPLUS3args_dir o) (READDIRPLUS3args_cookie o) (READDIRPLUS3args_cookieverf o) (READDIRPLUS3args_dircount o) v).

Inductive entryplus3 : Type := mk_entryplus3 { entryplus3_fileid : Z; entryplus3_name : xdr_string_t; entryplus3_cookie : Z;
  entryplus3_name_attributes : post_op_attr; entryplus3_name_handle : post_op_fh3; entryplus3_nextentry : option entryplus3 }.
#[global] Instance entryplus3_inhabited : Inhabited entryplus3 := populate (mk_entryplus3 inhabitant inhabitant inhabitant inhabitant inhabitant
  inhabitant).
#[global] Instance entryplus3_fileid_field : Field entryplus3_fileid := updates entryplus3_fileid (fun (o : entryplus3) v => mk_entryplus3 v
  (entryplus3_name o) (entryplus3_cookie o) (entryplus3_name_attributes o) (entryplus3_name_handle o) (entryplus3_nextentry o)).
#[global] Instance entryplus3_name_field : Field entryplus3_name := updates entryplus3_name (fun (o : entryplus3) v => mk_entryplus3
  (entryplus3_fileid o) v (entryplus3_cookie o) (entryplus3_name_attributes o) (entryplus3_name_handle o) (entryplus3_nextentry o)).
#[global] Instance entryplus3_cookie_field : Field entryplus3_cookie := updates entryplus3_cookie (fun (o : entryplus3) v => mk_entryplus3
  (entryplus3_fileid o) (entryplus3_name o) v (entryplus3_name_attributes o) (entryplus3_name_handle o) (entryplus3_nextentry o)).
#[global] Instance entryplus3_name_attributes_field : Field entryplus3_name_attributes := updates entryplus3_name_attributes (fun (o : entryplus3) v
  => mk_entryplus3 (entryplus3_fileid o) (entryplus3_name o) (entryplus3_cookie o) v (entryplus3_name_handle o) (entryplus3_nextentry o)).
#[global] Instance entryplus3_name_handle_field : Field entryplus3_name_handle := updates entryplus3_name_handle (fun (o : entryplus3) v =>
  mk_entryplus3 (entryplus3_fileid o) (entryplus3_name o) (entryplus3_cookie o) (entryplus3_name_attributes o) v (entryplus3_nextentry o)).
Definition set_entryplus3_nextentry (o : entryplus3) (v : (option entryplus3)) : entryplus3 := mk_entryplus3 (entryplus3_fileid o) (entryplus3_name o)
  (entryplus3_cookie o) (entryplus3_name_attributes o) (entryplus3_name_handle o) v.
#[global] Instance entryplus3_nextentry_field : Field entryplus3_nextentry := updates entryplus3_nextentry set_entryplus3_nextentry.

Record dirlistplus3 : Type := mk_dirlistplus3 { dirlistplus3_entries : option entryplus3; dirlistplus3_eof : Z }.
#[global] Instance dirlistplus3_inhabited : Inhabited dirlistplus3 := populate (mk_dirlistplus3 inhabitant inhabitant).
#[global] Instance dirlistplus3_entries_field : Field dirlistplus3_entries := updates dirlistplus3_entries (fun (o : dirlistplus3) v =>
  mk_dirlistplus3 v (dirlistplus3_eof o)).
#[global] Instance dirlistplus3_eof_field : Field dirlistplus3_eof := updates dirlistplus3_eof (fun (o : dirlistplus3) v => mk_dirlistplus3
  (dirlistplus3_entries o) v).

Record READDIRPLUS3resok : Type := mk_READDIRPLUS3resok { READDIRPLUS3resok_dir_attributes : post_op_attr; READDIRPLUS3resok_cookieverf : list Z;
  READDIRPLUS3resok_reply : dirlistplus3 }.
#[global] Instance READDIRPLUS3resok_inhabited : Inhabited READDIRPLUS3resok := populate (mk_READDIRPLUS3resok inhabitant inhabitant inhabitant).
#[global] Instance READDIRPLUS3resok_dir_attributes_field : Field READDIRPLUS3resok_dir_attributes := updates READDIRPLUS3resok_dir_attributes (fun (o
  : READDIRPLUS3resok) v => mk_READDIRPLUS3resok v (READDIRPLUS3resok_cookieverf o) (READDIRPLUS3resok_reply o)).
#[global] Instance READDIRPLUS3resok_cookieverf_field : Field READDIRPLUS3resok_cookieverf := updates READDIRPLUS3resok_cookieverf (fun (o :
  READDIRPLUS3resok) v => mk_READDIRPLUS3resok (READDIRPLUS3resok_dir_attributes o) v (READDIRPLUS3resok_reply o)).
#[global] Instance READDIRPLUS3resok_reply_field : Field READDIRPLUS3resok_reply := updates READDIRPLUS3resok_reply (fun (o : READDIRPLUS3resok) v =>
  mk_READDIRPLUS3resok (READDIRPLUS3resok_dir_attributes o) (READDIRPLUS3resok_cookieverf o) v).

Record READDIRPLUS3resfail : Type := mk_READDIRPLUS3resfail { READDIRPLUS3resfail_dir_attributes : post_op_attr }.
#[global] Instance READDIRPLUS3resfail_inhabited : Inhabited READDIRPLUS3resfail := populate (mk_READDIRPLUS3resfail inhabitant).
#[global] Instance READDIRPLUS3resfail_dir_attributes_field : Field READDIRPLUS3resfail_dir_attributes := updates READDIRPLUS3resfail_dir_attributes
  (fun (o : READDIRPLUS3resfail) v => mk_READDIRPLUS3resfail v).

Inductive READDIRPLUS3res_union : Type :=
| READDIRPLUS3res_is_resok (v : READDIRPLUS3resok)
| READDIRPLUS3res_is_resfail (v : READDIRPLUS3resfail)
| READDIRPLUS3res_none.
Record READDIRPLUS3res : Type := mk_READDIRPLUS3res { READDIRPLUS3res_status : Z; READDIRPLUS3res_u : READDIRPLUS3res_union }.
#[global] Instance READDIRPLUS3res_inhabited : Inhabited READDIRPLUS3res := populate (mk_READDIRPLUS3res inhabitant READDIRPLUS3res_none).
#[global] Instance READDIRPLUS3res_status_field : Field READDIRPLUS3res_status := updates READDIRPLUS3res_status (fun (o : READDIRPLUS3res) v =>
  mk_READDIRPLUS3res v (READDIRPLUS3res_u o)).
Definition READDIRPLUS3res_resok (o : READDIRPLUS3res) : option READDIRPLUS3resok := match READDIRPLUS3res_u o with READDIRPLUS3res_is_resok v => Some
  v | _ => None end.
#[global] Instance READDIRPLUS3res_resok_arm : Arm READDIRPLUS3res_resok := activates READDIRPLUS3res_resok (fun o v => mk_READDIRPLUS3res
  (READDIRPLUS3res_status o) (READDIRPLUS3res_is_resok v)).
Definition READDIRPLUS3res_resfail (o : READDIRPLUS3res) : option READDIRPLUS3resfail := match READDIRPLUS3res_u o with READDIRPLUS3res_is_resfail v
  => Some v | _ => None end.
#[global] Instance READDIRPLUS3res_resfail_arm : Arm READDIRPLUS3res_resfail := activates READDIRPLUS3res_resfail (fun o v => mk_READDIRPLUS3res
  (READDIRPLUS3res_status o) (READDIRPLUS3res_is_resfail v)).
Definition clear_READDIRPLUS3res (o : READDIRPLUS3res) : READDIRPLUS3res := mk_READDIRPLUS3res (READDIRPLUS3res_status o) READDIRPLUS3res_none.

Record READDIR3args : Type := mk_READDIR3args { READDIR3args_dir : xdr_string_t; READDIR3args_cookie : Z; READDIR3args_cookieverf : list Z;
  READDIR3args_count : Z }.
#[global] Instance READDIR3args_inhabited : Inhabited READDIR3args := populate (mk_READDIR3args inhabitant inhabitant inhabitant inhabitant).
#[global] Instance READDIR3args_dir_field : Field READDIR3args_dir := updates READDIR3args_dir (fun (o : READDIR3args) v => mk_READDIR3args v
  (READDIR3args_cookie o) (READDIR3args_cookieverf o) (READDIR3args_count o)).
#[global] Instance READDIR3args_cookie_field : Field READDIR3args_cookie := updates READDIR3args_cookie (fun (o : READDIR3args) v => mk_READDIR3args
  (READDIR3args_dir o) v (READDIR3args_cookieverf o) (READDIR3args_count o)).
#[global] Instance READDIR3args_cookieverf_field : Field READDIR3args_cookieverf := updates READDIR3args_cookieverf (fun (o : READDIR3args) v =>
  mk_READDIR3args (READDIR3args_dir o) (READDIR3args_cookie o) v (READDIR3args_count o)).
#[global] Instance READDIR3args_count_field : Field READDIR3args_count := updates READDIR3args_count (fun (o : READDIR3args) v => mk_READDIR3args
  (READDIR3args_dir o) (READDIR3args_cookie o) (READDIR3args_cookieverf o) v).

Inductive entry3 : Type := mk_entry3 { entry3_fileid : Z; entry3_name : xdr_string_t; entry3_cookie : Z; entry3_nextentry : option entry3 }.
#[global] Instance entry3_inhabited : Inhabited entry3 := populate (mk_entry3 inhabitant inhabitant inhabitant inhabitant).
#[global] Instance entry3_fileid_field : Field entry3_fileid := updates entry3_fileid (fun (o : entry3) v => mk_entry3 v (entry3_name o)
  (entry3_cookie o) (entry3_nextentry o)).
#[global] Instance entry3_name_field : Field entry3_name := updates entry3_name (fun (o : entry3) v => mk_entry3 (entry3_fileid o) v (entry3_cookie o)
  (entry3_nextentry o)).
#[global] Instance entry3_cookie_field : Field entry3_cookie := updates entry3_cookie (fun (o : entry3) v => mk_entry3 (entry3_fileid o) (entry3_name
  o) v (entry3_nextentry o)).
Definition set_entry3_nextentry (o : entry3) (v : (option entry3)) : entry3 := mk_entry3 (entry3_fileid o) (entry3_name o) (entry3_cookie o) v.
#[global] Instance entry3_nextentry_field : Field entry3_nextentry := updates entry3_nextentry set_entry3_nextentry.

Record dirlist3 : Type := mk_dirlist3 { dirlist3_entries : option entry3; dirlist3_eof : Z }.
#[global] Instance dirlist3_inhabited : Inhabited dirlist3 := populate (mk_dirlist3 inhabitant inhabitant).
#[global] Instance dirlist3_entries_field : Field dirlist3_entries := updates dirlist3_entries (fun (o : dirlist3) v => mk_dirlist3 v (dirlist3_eof
  o)).
#[global] Instance dirlist3_eof_field : Field dirlist3_eof := updates dirlist3_eof (fun (o : dirlist3) v => mk_dirlist3 (dirlist3_entries o) v).

Record READDIR3resok : Type := mk_READDIR3resok { READDIR3resok_dir_attributes : post_op_attr; READDIR3resok_cookieverf : list Z; READDIR3resok_reply
  : dirlist3 }.
#[global] Instance READDIR3resok_inhabited : Inhabited READDIR3resok := populate (mk_READDIR3resok inhabitant inhabitant inhabitant).
#[global] Instance READDIR3resok_dir_attributes_field : Field READDIR3resok_dir_attributes := updates READDIR3resok_dir_attributes (fun (o :
  READDIR3resok) v => mk_READDIR3resok v (READDIR3resok_cookieverf o) (READDIR3resok_reply o)).
#[global] Instance READDIR3resok_cookieverf_field : Field READDIR3resok_cookieverf := updates READDIR3resok_cookieverf (fun (o : READDIR3resok) v =>
  mk_READDIR3resok (READDIR3resok_dir_attributes o) v (READDIR3resok_reply o)).
#[global] Instance READDIR3resok_reply_field : Field READDIR3resok_reply := updates READDIR3resok_reply (fun (o : READDIR3resok) v => mk_READDIR3resok
  (READDIR3resok_dir_attributes o) (READDIR3resok_cookieverf o) v).

Record READDIR3resfail : Type := mk_READDIR3resfail { READDIR3resfail_dir_attributes : post_op_attr }.
#[global] Instance READDIR3resfail_inhabited : Inhabited READDIR3resfail := populate (mk_READDIR3resfail inhabitant).
#[global] Instance READDIR3resfail_dir_attributes_field : Field READDIR3resfail_dir_attributes := updates READDIR3resfail_dir_attributes (fun (o :
  READDIR3resfail) v => mk_READDIR3resfail v).

Inductive READDIR3res_union : Type :=
| READDIR3res_is_resok (v : READDIR3resok)
| READDIR3res_is_resfail (v : READDIR3resfail)
| READDIR3res_none.
Record READDIR3res : Type := mk_READDIR3res { READDIR3res_status : Z; READDIR3res_u : READDIR3res_union }.
#[global] Instance READDIR3res_inhabited : Inhabited READDIR3res := populate (mk_READDIR3res inhabitant READDIR3res_none).
#[global] Instance READDIR3res_status_field : Field READDIR3res_status := updates READDIR3res_status (fun (o : READDIR3res) v => mk_READDIR3res v
  (READDIR3res_u o)).
Definition READDIR3res_resok (o : READDIR3res) : option READDIR3resok := match READDIR3res_u o with READDIR3res_is_resok v => Some v | _ => None end.
#[global] Instance READDIR3res_resok_arm : Arm READDIR3res_resok := activates READDIR3res_resok (fun o v => mk_READDIR3res (READDIR3res_status o)
  (READDIR3res_is_resok v)).
Definition READDIR3res_resfail (o : READDIR3res) : option READDIR3resfail := match READDIR3res_u o with READDIR3res_is_resfail v => Some v | _ => None
  end.
#[global] Instance READDIR3res_resfail_arm : Arm READDIR3res_resfail := activates READDIR3res_resfail (fun o v => mk_READDIR3res (READDIR3res_status
  o) (READDIR3res_is_resfail v)).
Definition clear_READDIR3res (o : READDIR3res) : READDIR3res := mk_READDIR3res (READDIR3res_status o) READDIR3res_none.

Record LINK3args : Type := mk_LINK3args { LINK3args_file : xdr_string_t; LINK3args_link : diropargs3 }.
#[global] Instance LINK3args_inhabited : Inhabited LINK3args := populate (mk_LINK3args inhabitant inhabitant).
#[global] Instance LINK3args_file_field : Field LINK3args_file := updates LINK3args_file (fun (o : LINK3args) v => mk_LINK3args v (LINK3args_link o)).
#[global] Instance LINK3args_link_field : Field LINK3args_link := updates LINK3args_link (fun (o : LINK3args) v => mk_LINK3args (LINK3args_file o) v).

Record LINK3resok : Type := mk_LINK3resok { LINK3resok_file_attributes : post_op_attr; LINK3resok_linkdir_wcc : wcc_data }.
#[global] Instance LINK3resok_inhabited : Inhabited LINK3resok := populate (mk_LINK3resok inhabitant inhabitant).
#[global] Instance LINK3resok_file_attributes_field : Field LINK3resok_file_attributes := updates LINK3resok_file_attributes (fun (o : LINK3resok) v
  => mk_LINK3resok v (LINK3resok_linkdir_wcc o)).
#[global] Instance LINK3resok_linkdir_wcc_field : Field LINK3resok_linkdir_wcc := updates LINK3resok_linkdir_wcc (fun (o : LINK3resok) v =>
  mk_LINK3resok (LINK3resok_file_attributes o) v).

Record LINK3resfail : Type := mk_LINK3resfail { LINK3resfail_file_attributes : post_op_attr; LINK3resfail_linkdir_wcc : wcc_data }.
#[global] Instance LINK3resfail_inhabited : Inhabited LINK3resfail := populate (mk_LINK3resfail inhabitant inhabitant).
#[global] Instance LINK3resfail_file_attributes_field : Field LINK3resfail_file_attributes := updates LINK3resfail_file_attributes (fun (o :
  LINK3resfail) v => mk_LINK3resfail v (LINK3resfail_linkdir_wcc o)).
#[global] Instance LINK3resfail_linkdir_wcc_field : Field LINK3resfail_linkdir_wcc := updates LINK3resfail_linkdir_wcc (fun (o : LINK3resfail) v =>
  mk_LINK3resfail (LINK3resfail_file_attributes o) v).

Inductive LINK3res_union : Type :=
| LINK3res_is_resok (v : LINK3resok)
| LINK3res_is_resfail (v : LINK3resfail)
| LINK3res_none.
Record LINK3res : Type := mk_LINK3res { LINK3res_status : Z; LINK3res_u : LINK3res_union }.
#[global] Instance LINK3res_inhabited : Inhabited LINK3res := populate (mk_LINK3res inhabitant LINK3res_none).
#[global] Instance LINK3res_status_field : Field LINK3res_status := updates LINK3res_status (fun (o : LINK3res) v => mk_LINK3res v (LINK3res_u o)).
Definition LINK3res_resok (o : LINK3res) : option LINK3resok := match LINK3res_u o with LINK3res_is_resok v => Some v | _ => None end.
#[global] Instance LINK3res_resok_arm : Arm LINK3res_resok := activates LINK3res_resok (fun o v => mk_LINK3res (LINK3res_status o) (LINK3res_is_resok
  v)).
Definition LINK3res_resfail (o : LINK3res) : option LINK3resfail := match LINK3res_u o with LINK3res_is_resfail v => Some v | _ => None end.
#[global] Instance LINK3res_resfail_arm : Arm LINK3res_resfail := activates LINK3res_resfail (fun o v => mk_LINK3res (LINK3res_status o)
  (LINK3res_is_resfail v)).
Definition clear_LINK3res (o : LINK3res) : LINK3res := mk_LINK3res (LINK3res_status o) LINK3res_none.

Inductive sattrguard3_union : Type :=
| sattrguard3_is_obj_ctime (v : nfstime3)
| sattrguard3_none.
Record sattrguard3 : Type := mk_sattrguard3 { sattrguard3_check : Z; sattrguard3_u : sattrguard3_union }.
#[global] Instance sattrguard3_inhabited : Inhabited sattrguard3 := populate (mk_sattrguard3 inhabitant sattrguard3_none).
#[global] Instance sattrguard3_check_field : Field sattrguard3_check := updates sattrguard3_check (fun (o : sattrguard3) v => mk_sattrguard3 v
  (sattrguard3_u o)).
Definition sattrguard3_obj_ctime (o : sattrguard3) : option nfstime3 := match sattrguard3_u o with sattrguard3_is_obj_ctime v => Some v | _ => None
  end.
#[global] Instance sattrguard3_obj_ctime_arm : Arm sattrguard3_obj_ctime := activates sattrguard3_obj_ctime (fun o v => mk_sattrguard3
  (sattrguard3_check o) (sattrguard3_is_obj_ctime v)).
Definition clear_sattrguard3 (o : sattrguard3) : sattrguard3 := mk_sattrguard3 (sattrguard3_check o) sattrguard3_none.

Record SETATTR3args : Type := mk_SETATTR3args { SETATTR3args_object : xdr_string_t; SETATTR3args_new_attributes : sattr3; SETATTR3args_guard :
  sattrguard3 }.
#[global] Instance SETATTR3args_inhabited : Inhabited SETATTR3args := populate (mk_SETATTR3args inhabitant inhabitant inhabitant).
#[global] Instance SETATTR3args_object_field : Field SETATTR3args_object := updates SETATTR3args_object (fun (o : SETATTR3args) v => mk_SETATTR3args v
  (SETATTR3args_new_attributes o) (SETATTR3args_guard o)).
#[global] Instance SETATTR3args_new_attributes_field : Field SETATTR3args_new_attributes := updates SETATTR3args_new_attributes (fun (o :
  SETATTR3args) v => mk_SETATTR3args (SETATTR3args_object o) v (SETATTR3args_guard o)).
#[global] Instance SETATTR3args_guard_field : Field SETATTR3args_guard := updates SETATTR3args_guard (fun (o : SETATTR3args) v => mk_SETATTR3args
  (SETATTR3args_object o) (SETATTR3args_new_attributes o) v).

Record SETATTR3resok : Type := mk_SETATTR3resok { SETATTR3resok_obj_wcc : wcc_data }.
#[global] Instance SETATTR3resok_inhabited : Inhabited SETATTR3resok := populate (mk_SETATTR3resok inhabitant).
#[global] Instance SETATTR3resok_obj_wcc_field : Field SETATTR3resok_obj_wcc := updates SETATTR3resok_obj_wcc (fun (o : SETATTR3resok) v =>
  mk_SETATTR3resok v).

Record SETATTR3resfail : Type := mk_SETATTR3resfail { SETATTR3resfail_obj_wcc : wcc_data }.
#[global] Instance SETATTR3resfail_inhabited : Inhabited SETATTR3resfail := populate (mk_SETATTR3resfail inhabitant).
#[global] Instance SETATTR3resfail_obj_wcc_field : Field SETATTR3resfail_obj_wcc := updates SETATTR3resfail_obj_wcc (fun (o : SETATTR3resfail) v =>
  mk_SETATTR3resfail v).

Inductive SETATTR3res_union : Type :=
| SETATTR3res_is_resok (v : SETATTR3resok)
| SETATTR3res_is_resfail (v : SETATTR3resfail)
| SETATTR3res_none.
Record SETATTR3res : Type := mk_SETATTR3res { SETATTR3res_status : Z; SETATTR3res_u : SETATTR3res_union }.
#[global] Instance SETATTR3res_inhabited : Inhabited SETATTR3res := populate (mk_SETATTR3res inhabitant SETATTR3res_none).
#[global] Instance SETATTR3res_status_field : Field SETATTR3res_status := updates SETATTR3res_status (fun (o : SETATTR3res) v => mk_SETATTR3res v
  (SETATTR3res_u o)).
Definition SETATTR3res_resok (o : SETATTR3res) : option SETATTR3resok := match SETATTR3res_u o with SETATTR3res_is_resok v => Some v | _ => None end.
#[global] Instance SETATTR3res_resok_arm : Arm SETATTR3res_resok := activates SETATTR3res_resok (fun o v => mk_SETATTR3res (SETATTR3res_status o)
  (SETATTR3res_is_resok v)).
Definition SETATTR3res_resfail (o : SETATTR3res) : option SETATTR3resfail := match SETATTR3res_u o with SETATTR3res_is_resfail v => Some v | _ => None
  end.
#[global] Instance SETATTR3res_resfail_arm : Arm SETATTR3res_resfail := activates SETATTR3res_resfail (fun o v => mk_SETATTR3res (SETATTR3res_status
  o) (SETATTR3res_is_resfail v)).
Definition clear_SETATTR3res (o : SETATTR3res) : SETATTR3res := mk_SETATTR3res (SETATTR3res_status o) SETATTR3res_none.

(** * Routines *)

Definition xdr_cookieverf3 : xdrproc (list Z) := xdr_opaque NFS3_COOKIEVERFSIZE.

Definition xdr_cookie3 : xdrproc Z := xdr_uint64_t.

Definition xdr_nfs_fh3 : xdrproc xdr_string_t := xdr_bytes NFS3_FHSIZE false.

Definition xdr_filename3 : xdrproc xdr_string_t := xdr_string UINT32_MAX false.

Definition xdr_diropargs3 : xdrproc diropargs3 :=
  xdr_nfs_fh3 @ diropargs3_dir ;;
  xdr_filename3 @ diropargs3_name ;;
  RETURN_TRUE.

Definition xdr_ftype3 : xdrproc Z := xdr_enum.

Definition xdr_mode3 : xdrproc Z := xdr_u_int.

Definition xdr_uid3 : xdrproc Z := xdr_u_int.

Definition xdr_gid3 : xdrproc Z := xdr_u_int.

Definition xdr_size3 : xdrproc Z := xdr_uint64_t.

Definition xdr_fileid3 : xdrproc Z := xdr_uint64_t.

Definition xdr_specdata3 : xdrproc specdata3 :=
  xdr_u_int @ specdata3_specdata1 ;;
  xdr_u_int @ specdata3_specdata2 ;;
  RETURN_TRUE.

Definition xdr_nfstime3 : xdrproc nfstime3 :=
  xdr_u_int @ nfstime3_seconds ;;
  xdr_u_int @ nfstime3_nseconds ;;
  RETURN_TRUE.

Definition xdr_fattr3 : xdrproc fattr3 :=
  xdr_ftype3 @ fattr3_type ;;
  xdr_mode3 @ fattr3_mode ;;
  xdr_u_int @ fattr3_nlink ;;
  xdr_uid3 @ fattr3_uid ;;
  xdr_gid3 @ fattr3_gid ;;
  xdr_size3 @ fattr3_size ;;
  xdr_size3 @ fattr3_used ;;
  xdr_specdata3 @ fattr3_rdev ;;
  xdr_uint64_t @ fattr3_fsid ;;
  xdr_fileid3 @ fattr3_fileid ;;
  xdr_nfstime3 @ fattr3_atime ;;
  xdr_nfstime3 @ fattr3_mtime ;;
  xdr_nfstime3 @ fattr3_ctime ;;
  RETURN_TRUE.

Definition xdr_post_op_attr : xdrproc post_op_attr :=
  xdr_bool @ post_op_attr_attributes_follow ;;
  case! 1 of post_op_attr_attributes_follow : (xdr_fattr3 @| post_op_attr_attributes ;; RETURN_TRUE) else
  case! 0 of post_op_attr_attributes_follow : (no_arm clear_post_op_attr) else
  RETURN_FALSE.

Definition xdr_nfsstat3 : xdrproc Z := xdr_enum.

Definition xdr_stable_how : xdrproc Z := xdr_enum.

Definition xdr_offset3 : xdrproc Z := xdr_uint64_t.

Definition xdr_count3 : xdrproc Z := xdr_u_int.

Definition xdr_wcc_attr : xdrproc wcc_attr :=
  xdr_size3 @ wcc_attr_size ;;
  xdr_nfstime3 @ wcc_attr_mtime ;;
  xdr_nfstime3 @ wcc_attr_ctime ;;
  RETURN_TRUE.

Definition xdr_pre_op_attr : xdrproc pre_op_attr :=
  xdr_bool @ pre_op_attr_attributes_follow ;;
  case! 1 of pre_op_attr_attributes_follow : (xdr_wcc_attr @| pre_op_attr_attributes ;; RETURN_TRUE) else
  case! 0 of pre_op_attr_attributes_follow : (no_arm clear_pre_op_attr) else
  RETURN_FALSE.

Definition xdr_wcc_data : xdrproc wcc_data :=
  xdr_pre_op_attr @ wcc_data_before ;;
  xdr_post_op_attr @ wcc_data_after ;;
  RETURN_TRUE.

Definition xdr_WRITE3args : xdrproc WRITE3args :=
  xdr_nfs_fh3 @ WRITE3args_file ;;
  xdr_offset3 @ WRITE3args_offset ;;
  xdr_count3 @ WRITE3args_count ;;
  xdr_stable_how @ WRITE3args_stable ;;
  (xdr_bytes UINT32_MAX true) @ WRITE3args_data ;;
  RETURN_TRUE.

Definition xdr_writeverf3 : xdrproc (list Z) := xdr_opaque NFS3_WRITEVERFSIZE.

Definition xdr_WRITE3resok : xdrproc WRITE3resok :=
  xdr_wcc_data @ WRITE3resok_file_wcc ;;
  xdr_count3 @ WRITE3resok_count ;;
  xdr_stable_how @ WRITE3resok_committed ;;
  xdr_writeverf3 @ WRITE3resok_verf ;;
  RETURN_TRUE.

Definition xdr_WRITE3resfail : xdrproc WRITE3resfail :=
  xdr_wcc_data @ WRITE3resfail_file_wcc ;;
  RETURN_TRUE.

Definition xdr_WRITE3res : xdrproc WRITE3res :=
  xdr_nfsstat3 @ WRITE3res_status ;;
  case! NFS3_OK of WRITE3res_status : (xdr_WRITE3resok @| WRITE3res_resok ;; RETURN_TRUE) else
  (xdr_WRITE3resfail @| WRITE3res_resfail ;; RETURN_TRUE).

Definition xdr_LOOKUP3args : xdrproc LOOKUP3args :=
  xdr_diropargs3 @ LOOKUP3args_what ;;
  RETURN_TRUE.

Definition xdr_LOOKUP3resok : xdrproc LOOKUP3resok :=
  xdr_nfs_fh3 @ LOOKUP3resok_object ;;
  xdr_post_op_attr @ LOOKUP3resok_obj_attributes ;;
  xdr_post_op_attr @ LOOKUP3resok_dir_attributes ;;
  RETURN_TRUE.

Definition xdr_LOOKUP3resfail : xdrproc LOOKUP3resfail :=
  xdr_post_op_attr @ LOOKUP3resfail_dir_attributes ;;
  RETURN_TRUE.

Definition xdr_LOOKUP3res : xdrproc LOOKUP3res :=
  xdr_nfsstat3 @ LOOKUP3res_status ;;
  case! NFS3_OK of LOOKUP3res_status : (xdr_LOOKUP3resok @| LOOKUP3res_resok ;; RETURN_TRUE) else
  (xdr_LOOKUP3resfail @| LOOKUP3res_resfail ;; RETURN_TRUE).

Definition xdr_COMMIT3args : xdrproc COMMIT3args :=
  xdr_nfs_fh3 @ COMMIT3args_file ;;
  xdr_offset3 @ COMMIT3args_offset ;;
  xdr_count3 @ COMMIT3args_count ;;
  RETURN_TRUE.

Definition xdr_COMMIT3resok : xdrproc COMMIT3resok :=
  xdr_wcc_data @ COMMIT3resok_file_wcc ;;
  xdr_writeverf3 @ COMMIT3resok_verf ;;
  RETURN_TRUE.

Definition xdr_COMMIT3resfail : xdrproc COMMIT3resfail :=
  xdr_wcc_data @ COMMIT3resfail_file_wcc ;;
  RETURN_TRUE.

Definition xdr_COMMIT3res : xdrproc COMMIT3res :=
  xdr_nfsstat3 @ COMMIT3res_status ;;
  case! NFS3_OK of COMMIT3res_status : (xdr_COMMIT3resok @| COMMIT3res_resok ;; RETURN_TRUE) else
  (xdr_COMMIT3resfail @| COMMIT3res_resfail ;; RETURN_TRUE).

Definition xdr_ACCESS3args : xdrproc ACCESS3args :=
  xdr_nfs_fh3 @ ACCESS3args_object ;;
  xdr_u_int @ ACCESS3args_access ;;
  RETURN_TRUE.

Definition xdr_ACCESS3resok : xdrproc ACCESS3resok :=
  xdr_post_op_attr @ ACCESS3resok_obj_attributes ;;
  xdr_u_int @ ACCESS3resok_access ;;
  RETURN_TRUE.

Definition xdr_ACCESS3resfail : xdrproc ACCESS3resfail :=
  xdr_post_op_attr @ ACCESS3resfail_obj_attributes ;;
  RETURN_TRUE.

Definition xdr_ACCESS3res : xdrproc ACCESS3res :=
  xdr_nfsstat3 @ ACCESS3res_status ;;
  case! NFS3_OK of ACCESS3res_status : (xdr_ACCESS3resok @| ACCESS3res_resok ;; RETURN_TRUE) else
  (xdr_ACCESS3resfail @| ACCESS3res_resfail ;; RETURN_TRUE).

Definition xdr_GETATTR3args : xdrproc GETATTR3args :=
  xdr_nfs_fh3 @ GETATTR3args_object ;;
  RETURN_TRUE.

Definition xdr_GETATTR3resok : xdrproc GETATTR3resok :=
  xdr_fattr3 @ GETATTR3resok_obj_attributes ;;
  RETURN_TRUE.

Definition xdr_GETATTR3res : xdrproc GETATTR3res :=
  xdr_nfsstat3 @ GETATTR3res_status ;;
  case! NFS3_OK of GETATTR3res_status : (xdr_GETATTR3resok @| GETATTR3res_resok ;; RETURN_TRUE) else
  (no_arm clear_GETATTR3res).

Definition xdr_time_how : xdrproc Z := xdr_enum.

Definition xdr_set_mode3 : xdrproc set_mode3 :=
  xdr_bool @ set_mode3_set_it ;;
  case! 1 of set_mode3_set_it : (xdr_mode3 @| set_mode3_mode ;; RETURN_TRUE) else
  (no_arm clear_set_mode3).

Definition xdr_set_uid3 : xdrproc set_uid3 :=
  xdr_bool @ set_uid3_set_it ;;
  case! 1 of set_uid3_set_it : (xdr_uid3 @| set_uid3_uid ;; RETURN_TRUE) else
  (no_arm clear_set_uid3).

Definition xdr_set_gid3 : xdrproc set_gid3 :=
  xdr_bool @ set_gid3_set_it ;;
  case! 1 of set_gid3_set_it : (xdr_gid3 @| set_gid3_gid ;; RETURN_TRUE) else
  (no_arm clear_set_gid3).

Definition xdr_set_size3 : xdrproc set_size3 :=
  xdr_bool @ set_size3_set_it ;;
  case! 1 of set_size3_set_it : (xdr_size3 @| set_size3_size ;; RETURN_TRUE) else
  (no_arm clear_set_size3).

Definition xdr_set_atime : xdrproc set_atime :=
  xdr_time_how @ set_atime_set_it ;;
  case! SET_TO_CLIENT_TIME of set_atime_set_it : (xdr_nfstime3 @| set_atime_atime ;; RETURN_TRUE) else
  (no_arm clear_set_atime).

Definition xdr_set_mtime : xdrproc set_mtime :=
  xdr_time_how @ set_mtime_set_it ;;
  case! SET_TO_CLIENT_TIME of set_mtime_set_it : (xdr_nfstime3 @| set_mtime_mtime ;; RETURN_TRUE) else
  (no_arm clear_set_mtime).

Definition xdr_sattr3 : xdrproc sattr3 :=
  xdr_set_mode3 @ sattr3_mode ;;
  xdr_set_uid3 @ sattr3_uid ;;
  xdr_set_gid3 @ sattr3_gid ;;
  xdr_set_size3 @ sattr3_size ;;
  xdr_set_atime @ sattr3_atime ;;
  xdr_set_mtime @ sattr3_mtime ;;
  RETURN_TRUE.

Definition xdr_createmode3 : xdrproc Z := xdr_enum.

Definition xdr_createverf3 : xdrproc (list Z) := xdr_opaque NFS3_CREATEVERFSIZE.

Definition xdr_createhow3 : xdrproc createhow3 :=
  xdr_createmode3 @ createhow3_mode ;;
  case! NFS_UNCHECKED of createhow3_mode : (xdr_sattr3 @| createhow3_obj_attributes ;; RETURN_TRUE) else
  case! NFS_GUARDED of createhow3_mode : (xdr_sattr3 @| createhow3_g_obj_attributes ;; RETURN_TRUE) else
  case! NFS_EXCLUSIVE of createhow3_mode : (xdr_createverf3 @| createhow3_verf ;; RETURN_TRUE) else
  RETURN_FALSE.

Definition xdr_CREATE3args : xdrproc CREATE3args :=
  xdr_diropargs3 @ CREATE3args_where ;;
  xdr_createhow3 @ CREATE3args_how ;;
  RETURN_TRUE.

Definition xdr_post_op_fh3 : xdrproc post_op_fh3 :=
  xdr_bool @ post_op_fh3_handle_follows ;;
  case! 1 of post_op_fh3_handle_follows : (xdr_nfs_fh3 @| post_op_fh3_handle ;; RETURN_TRUE) else
  case! 0 of post_op_fh3_handle_follows : (no_arm clear_post_op_fh3) else
  RETURN_FALSE.

Definition xdr_CREATE3resok : xdrproc CREATE3resok :=
  xdr_post_op_fh3 @ CREATE3resok_obj ;;
  xdr_post_op_attr @ CREATE3resok_obj_attributes ;;
  xdr_wcc_data @ CREATE3resok_dir_wcc ;;
  RETURN_TRUE.

Definition xdr_CREATE3resfail : xdrproc CREATE3resfail :=
  xdr_wcc_data @ CREATE3resfail_dir_wcc ;;
  RETURN_TRUE.

Definition xdr_CREATE3res : xdrproc CREATE3res :=
  xdr_nfsstat3 @ CREATE3res_status ;;
  case! NFS3_OK of CREATE3res_status : (xdr_CREATE3resok @| CREATE3res_resok ;; RETURN_TRUE) else
  (xdr_CREATE3resfail @| CREATE3res_resfail ;; RETURN_TRUE).

Definition xdr_REMOVE3args : xdrproc REMOVE3args :=
  xdr_diropargs3 @ REMOVE3args_object ;;
  RETURN_TRUE.

Definition xdr_REMOVE3resok : xdrproc REMOVE3resok :=
  xdr_wcc_data @ REMOVE3resok_dir_wcc ;;
  RETURN_TRUE.

Definition xdr_REMOVE3resfail : xdrproc REMOVE3resfail :=
  xdr_wcc_data @ REMOVE3resfail_dir_wcc ;;
  RETURN_TRUE.

Definition xdr_REMOVE3res : xdrproc REMOVE3res :=
  xdr_nfsstat3 @ REMOVE3res_status ;;
  case! NFS3_OK of REMOVE3res_status : (xdr_REMOVE3resok @| REMOVE3res_resok ;; RETURN_TRUE) else
  (xdr_REMOVE3resfail @| REMOVE3res_resfail ;; RETURN_TRUE).

Definition xdr_READ3args : xdrproc READ3args :=
  xdr_nfs_fh3 @ READ3args_file ;;
  xdr_offset3 @ READ3args_offset ;;
  xdr_count3 @ READ3args_count ;;
  RETURN_TRUE.

Definition xdr_READ3resok : xdrproc READ3resok :=
  xdr_post_op_attr @ READ3resok_file_attributes ;;
  xdr_count3 @ READ3resok_count ;;
  xdr_bool @ READ3resok_eof ;;
  (xdr_bytes UINT32_MAX true) @ READ3resok_data ;;
  RETURN_TRUE.

Definition xdr_READ3resfail : xdrproc READ3resfail :=
  xdr_post_op_attr @ READ3resfail_file_attributes ;;
  RETURN_TRUE.

Definition xdr_READ3res : xdrproc READ3res :=
  xdr_nfsstat3 @ READ3res_status ;;
  case! NFS3_OK of READ3res_status : (xdr_READ3resok @| READ3res_resok ;; RETURN_TRUE) else
  (xdr_READ3resfail @| READ3res_resfail ;; RETURN_TRUE).

Definition xdr_FSINFO3args : xdrproc FSINFO3args :=
  xdr_nfs_fh3 @ FSINFO3args_fsroot ;;
  RETURN_TRUE.

Definition xdr_FSINFO3resok : xdrproc FSINFO3resok :=
  xdr_post_op_attr @ FSINFO3resok_obj_attributes ;;
  xdr_u_int @ FSINFO3resok_rtmax ;;
  xdr_u_int @ FSINFO3resok_rtpref ;;
  xdr_u_int @ FSINFO3resok_rtmult ;;
  xdr_u_int @ FSINFO3resok_wtmax ;;
  xdr_u_int @ FSINFO3resok_wtpref ;;
  xdr_u_int @ FSINFO3resok_wtmult ;;
  xdr_u_int @ FSINFO3resok_dtpref ;;
  xdr_size3 @ FSINFO3resok_maxfilesize ;;
  xdr_nfstime3 @ FSINFO3resok_time_delta ;;
  xdr_u_int @ FSINFO3resok_properties ;;
  RETURN_TRUE.

Definition xdr_FSINFO3resfail : xdrproc FSINFO3resfail :=
  xdr_post_op_attr @ FSINFO3resfail_obj_attributes ;;
  RETURN_TRUE.

Definition xdr_FSINFO3res : xdrproc FSINFO3res :=
  xdr_nfsstat3 @ FSINFO3res_status ;;
  case! NFS3_OK of FSINFO3res_status : (xdr_FSINFO3resok @| FSINFO3res_resok ;; RETURN_TRUE) else
  (xdr_FSINFO3resfail @| FSINFO3res_resfail ;; RETURN_TRUE).

Definition xdr_FSSTAT3args : xdrproc FSSTAT3args :=
  xdr_nfs_fh3 @ FSSTAT3args_fsroot ;;
  RETURN_TRUE.

Definition xdr_FSSTAT3resok : xdrproc FSSTAT3resok :=
  xdr_post_op_attr @ FSSTAT3resok_obj_attributes ;;
  xdr_size3 @ FSSTAT3resok_tbytes ;;
  xdr_size3 @ FSSTAT3resok_fbytes ;;
  xdr_size3 @ FSSTAT3resok_abytes ;;
  xdr_size3 @ FSSTAT3resok_tfiles ;;
  xdr_size3 @ FSSTAT3resok_ffiles ;;
  xdr_size3 @ FSSTAT3resok_afiles ;;
  xdr_u_int @ FSSTAT3resok_invarsec ;;
  RETURN_TRUE.

Definition xdr_FSSTAT3resfail : xdrproc FSSTAT3resfail :=
  xdr_post_op_attr @ FSSTAT3resfail_obj_attributes ;;
  RETURN_TRUE.

Definition xdr_FSSTAT3res : xdrproc FSSTAT3res :=
  xdr_nfsstat3 @ FSSTAT3res_status ;;
  case! NFS3_OK of FSSTAT3res_status : (xdr_FSSTAT3resok @| FSSTAT3res_resok ;; RETURN_TRUE) else
  (xdr_FSSTAT3resfail @| FSSTAT3res_resfail ;; RETURN_TRUE).

Definition xdr_PATHCONF3args : xdrproc PATHCONF3args :=
  xdr_nfs_fh3 @ PATHCONF3args_object ;;
  RETURN_TRUE.

Definition xdr_PATHCONF3resok : xdrproc PATHCONF3resok :=
  xdr_post_op_attr @ PATHCONF3resok_obj_attributes ;;
  xdr_u_int @ PATHCONF3resok_linkmax ;;
  xdr_u_int @ PATHCONF3resok_name_max ;;
  xdr_bool @ PATHCONF3resok_no_trunc ;;
  xdr_bool @ PATHCONF3resok_chown_restricted ;;
  xdr_bool @ PATHCONF3resok_case_insensitive ;;
  xdr_bool @ PATHCONF3resok_case_preserving ;;
  RETURN_TRUE.

Definition xdr_PATHCONF3resfail : xdrproc PATHCONF3resfail :=
  xdr_post_op_attr @ PATHCONF3resfail_obj_attributes ;;
  RETURN_TRUE.

Definition xdr_PATHCONF3res : xdrproc PATHCONF3res :=
  xdr_nfsstat3 @ PATHCONF3res_status ;;
  case! NFS3_OK of PATHCONF3res_status : (xdr_PATHCONF3resok @| PATHCONF3res_resok ;; RETURN_TRUE) else
  (xdr_PATHCONF3resfail @| PATHCONF3res_resfail ;; RETURN_TRUE).

Definition xdr_nfspath3 (rdma_chunk : bool) : xdrproc xdr_string_t := xdr_string UINT32_MAX rdma_chunk.

Definition xdr_symlinkdata3 : xdrproc symlinkdata3 :=
  xdr_sattr3 @ symlinkdata3_symlink_attributes ;;
  (xdr_nfspath3 true) @ symlinkdata3_symlink_data ;;
  RETURN_TRUE.

Definition xdr_SYMLINK3args : xdrproc SYMLINK3args :=
  xdr_diropargs3 @ SYMLINK3args_where ;;
  xdr_symlinkdata3 @ SYMLINK3args_symlink ;;
  RETURN_TRUE.

Definition xdr_SYMLINK3resok : xdrproc SYMLINK3resok :=
  xdr_post_op_fh3 @ SYMLINK3resok_obj ;;
  xdr_post_op_attr @ SYMLINK3resok_obj_attributes ;;
  xdr_wcc_data @ SYMLINK3resok_dir_wcc ;;
  RETURN_TRUE.

Definition xdr_SYMLINK3resfail : xdrproc SYMLINK3resfail :=
  xdr_wcc_data @ SYMLINK3resfail_dir_wcc ;;
  RETURN_TRUE.

Definition xdr_SYMLINK3res : xdrproc SYMLINK3res :=
  xdr_nfsstat3 @ SYMLINK3res_status ;;
  case! NFS3_OK of SYMLINK3res_status : (xdr_SYMLINK3resok @| SYMLINK3res_resok ;; RETURN_TRUE) else
  (xdr_SYMLINK3resfail @| SYMLINK3res_resfail ;; RETURN_TRUE).

Definition xdr_READLINK3args : xdrproc READLINK3args :=
  xdr_nfs_fh3 @ READLINK3args_symlink ;;
  RETURN_TRUE.

Definition xdr_READLINK3resok : xdrproc READLINK3resok :=
  xdr_post_op_attr @ READLINK3resok_symlink_attributes ;;
  (xdr_nfspath3 true) @ READLINK3resok_data ;;
  RETURN_TRUE.

Definition xdr_READLINK3resfail : xdrproc READLINK3resfail :=
  xdr_post_op_attr @ READLINK3resfail_symlink_attributes ;;
  RETURN_TRUE.

Definition xdr_READLINK3res : xdrproc READLINK3res :=
  xdr_nfsstat3 @ READLINK3res_status ;;
  case! NFS3_OK of READLINK3res_status : (xdr_READLINK3resok @| READLINK3res_resok ;; RETURN_TRUE) else
  (xdr_READLINK3resfail @| READLINK3res_resfail ;; RETURN_TRUE).

Definition xdr_devicedata3 : xdrproc devicedata3 :=
  xdr_sattr3 @ devicedata3_dev_attributes ;;
  xdr_specdata3 @ devicedata3_spec ;;
  RETURN_TRUE.

Definition xdr_mknoddata3 : xdrproc mknoddata3 :=
  xdr_ftype3 @ mknoddata3_type ;;
  case! NF3CHR of mknoddata3_type : (xdr_devicedata3 @| mknoddata3_chr_device ;; RETURN_TRUE) else
  case! NF3BLK of mknoddata3_type : (xdr_devicedata3 @| mknoddata3_blk_device ;; RETURN_TRUE) else
  case! NF3SOCK of mknoddata3_type : (xdr_sattr3 @| mknoddata3_sock_attributes ;; RETURN_TRUE) else
  case! NF3FIFO of mknoddata3_type : (xdr_sattr3 @| mknoddata3_pipe_attributes ;; RETURN_TRUE) else
  (no_arm clear_mknoddata3).

Definition xdr_MKNOD3args : xdrproc MKNOD3args :=
  xdr_diropargs3 @ MKNOD3args_where ;;
  xdr_mknoddata3 @ MKNOD3args_what ;;
  RETURN_TRUE.

Definition xdr_MKNOD3resok : xdrproc MKNOD3resok :=
  xdr_post_op_fh3 @ MKNOD3resok_obj ;;
  xdr_post_op_attr @ MKNOD3resok_obj_attributes ;;
  xdr_wcc_data @ MKNOD3resok_dir_wcc ;;
  RETURN_TRUE.

Definition xdr_MKNOD3resfail : xdrproc MKNOD3resfail :=
  xdr_wcc_data @ MKNOD3resfail_dir_wcc ;;
  RETURN_TRUE.

Definition xdr_MKNOD3res : xdrproc MKNOD3res :=
  xdr_nfsstat3 @ MKNOD3res_status ;;
  case! NFS3_OK of MKNOD3res_status : (xdr_MKNOD3resok @| MKNOD3res_resok ;; RETURN_TRUE) else
  (xdr_MKNOD3resfail @| MKNOD3res_resfail ;; RETURN_TRUE).

Definition xdr_MKDIR3args : xdrproc MKDIR3args :=
  xdr_diropargs3 @ MKDIR3args_where ;;
  xdr_sattr3 @ MKDIR3args_attributes ;;
  RETURN_TRUE.

Definition xdr_MKDIR3resok : xdrproc MKDIR3resok :=
  xdr_post_op_fh3 @ MKDIR3resok_obj ;;
  xdr_post_op_attr @ MKDIR3resok_obj_attributes ;;
  xdr_wcc_data @ MKDIR3resok_dir_wcc ;;
  RETURN_TRUE.

Definition xdr_MKDIR3resfail : xdrproc MKDIR3resfail :=
  xdr_wcc_data @ MKDIR3resfail_dir_wcc ;;
  RETURN_TRUE.

Definition xdr_MKDIR3res : xdrproc MKDIR3res :=
  xdr_nfsstat3 @ MKDIR3res_status ;;
  case! NFS3_OK of MKDIR3res_status : (xdr_MKDIR3resok @| MKDIR3res_resok ;; RETURN_TRUE) else
  (xdr_MKDIR3resfail @| MKDIR3res_resfail ;; RETURN_TRUE).

Definition xdr_RMDIR3args : xdrproc RMDIR3args :=
  xdr_diropargs3 @ RMDIR3args_object ;;
  RETURN_TRUE.

Definition xdr_RMDIR3resok : xdrproc RMDIR3resok :=
  xdr_wcc_data @ RMDIR3resok_dir_wcc ;;
  RETURN_TRUE.

Definition xdr_RMDIR3resfail : xdrproc RMDIR3resfail :=
  xdr_wcc_data @ RMDIR3resfail_dir_wcc ;;
  RETURN_TRUE.

Definition xdr_RMDIR3res : xdrproc RMDIR3res :=
  xdr_nfsstat3 @ RMDIR3res_status ;;
  case! NFS3_OK of RMDIR3res_status : (xdr_RMDIR3resok @| RMDIR3res_resok ;; RETURN_TRUE) else
  (xdr_RMDIR3resfail @| RMDIR3res_resfail ;; RETURN_TRUE).

Definition xdr_RENAME3args : xdrproc RENAME3args :=
  xdr_diropargs3 @ RENAME3args_from ;;
  xdr_diropargs3 @ RENAME3args_to ;;
  RETURN_TRUE.

Definition xdr_RENAME3resok : xdrproc RENAME3resok :=
  xdr_wcc_data @ RENAME3resok_fromdir_wcc ;;
  xdr_wcc_data @ RENAME3resok_todir_wcc ;;
  RETURN_TRUE.

Definition xdr_RENAME3resfail : xdrproc RENAME3resfail :=
  xdr_wcc_data @ RENAME3resfail_fromdir_wcc ;;
  xdr_wcc_data @ RENAME3resfail_todir_wcc ;;
  RETURN_TRUE.

Definition xdr_RENAME3res : xdrproc RENAME3res :=
  xdr_nfsstat3 @ RENAME3res_status ;;
  case! NFS3_OK of RENAME3res_status : (xdr_RENAME3resok @| RENAME3res_resok ;; RETURN_TRUE) else
  (xdr_RENAME3resfail @| RENAME3res_resfail ;; RETURN_TRUE).

Definition xdr_READDIRPLUS3args : xdrproc READDIRPLUS3args :=
  xdr_nfs_fh3 @ READDIRPLUS3args_dir ;;
  xdr_cookie3 @ READDIRPLUS3args_cookie ;;
  xdr_cookieverf3 @ READDIRPLUS3args_cookieverf ;;
  xdr_count3 @ READDIRPLUS3args_dircount ;;
  xdr_count3 @ READDIRPLUS3args_maxcount ;;
  RETURN_TRUE.

Definition entryplus3_prefix (K : xdrproc entryplus3) : xdrproc entryplus3 :=
  xdr_fileid3 @ entryplus3_fileid ;;
  xdr_filename3 @ entryplus3_name ;;
  xdr_cookie3 @ entryplus3_cookie ;;
  xdr_post_op_attr @ entryplus3_name_attributes ;;
  xdr_post_op_fh3 @ entryplus3_name_handle ;;
  K.
Fixpoint xdr_entryplus3_fuel (n : nat) : xdrproc entryplus3 :=
  match n with
  | O => fun _ _ => Err OutOfFuel
  | S n => entryplus3_prefix ((xdr_pointer set_entryplus3_nextentry inhabitant "xdr_entryplus3" (xdr_entryplus3_fuel n)) @ entryplus3_nextentry ;; RETURN_TRUE)
  end.
Fixpoint entryplus3_chain (e : entryplus3) : list entryplus3 :=
  match e with mk_entryplus3 _ _ _ _ _ n => e :: match n with Some e => entryplus3_chain e | None => [] end end.
Definition entryplus3_entries (o : option entryplus3) : list entryplus3 := match o with Some e => entryplus3_chain e | None => [] end.
(** Every entry takes one level of calls. *)
Definition xdr_entryplus3 : xdrproc entryplus3 := fun xdrs objp => xdr_entryplus3_fuel (S (length (entryplus3_chain objp))) xdrs objp.

Definition xdr_dirlistplus3 : xdrproc dirlistplus3 :=
  (xdr_pointer set_entryplus3_nextentry inhabitant "xdr_entryplus3" xdr_entryplus3) @ dirlistplus3_entries ;;
  xdr_bool @ dirlistplus3_eof ;;
  RETURN_TRUE.

Definition xdr_READDIRPLUS3resok : xdrproc READDIRPLUS3resok :=
  xdr_post_op_attr @ READDIRPLUS3resok_dir_attributes ;;
  xdr_cookieverf3 @ READDIRPLUS3resok_cookieverf ;;
  xdr_dirlistplus3 @ READDIRPLUS3resok_reply ;;
  RETURN_TRUE.

Definition xdr_READDIRPLUS3resfail : xdrproc READDIRPLUS3resfail :=
  xdr_post_op_attr @ READDIRPLUS3resfail_dir_attributes ;;
  RETURN_TRUE.

Definition xdr_READDIRPLUS3res : xdrproc READDIRPLUS3res :=
  xdr_nfsstat3 @ READDIRPLUS3res_status ;;
  case! NFS3_OK of READDIRPLUS3res_status : (xdr_READDIRPLUS3resok @| READDIRPLUS3res_resok ;; RETURN_TRUE) else
  (xdr_READDIRPLUS3resfail @| READDIRPLUS3res_resfail ;; RETURN_TRUE).

Definition xdr_READDIR3args : xdrproc READDIR3args :=
  xdr_nfs_fh3 @ READDIR3args_dir ;;
  xdr_cookie3 @ READDIR3args_cookie ;;
  xdr_cookieverf3 @ READDIR3args_cookieverf ;;
  xdr_count3 @ READDIR3args_count ;;
  RETURN_TRUE.

Definition entry3_prefix (K : xdrproc entry3) : xdrproc entry3 :=
  xdr_fileid3 @ entry3_fileid ;;
  xdr_filename3 @ entry3_name ;;
  xdr_cookie3 @ entry3_cookie ;;
  K.
Fixpoint xdr_entry3_fuel (n : nat) : xdrproc entry3 :=
  match n with
  | O => fun _ _ => Err OutOfFuel
  | S n => entry3_prefix ((xdr_pointer set_entry3_nextentry inhabitant "xdr_entry3" (xdr_entry3_fuel n)) @ entry3_nextentry ;; RETURN_TRUE)
  end.
Fixpoint entry3_chain (e : entry3) : list entry3 :=
  match e with mk_entry3 _ _ _ n => e :: match n with Some e => entry3_chain e | None => [] end end.
Definition entry3_entries (o : option entry3) : list entry3 := match o with Some e => entry3_chain e | None => [] end.
(** Every entry takes one level of calls. *)
Definition xdr_entry3 : xdrproc entry3 := fun xdrs objp => xdr_entry3_fuel (S (length (entry3_chain objp))) xdrs objp.

Definition xdr_dirlist3 : xdrproc dirlist3 :=
  (xdr_pointer set_entry3_nextentry inhabitant "xdr_entry3" xdr_entry3) @ dirlist3_entries ;;
  xdr_bool @ dirlist3_eof ;;
  RETURN_TRUE.

Definition xdr_READDIR3resok : xdrproc READDIR3resok :=
  xdr_post_op_attr @ READDIR3resok_dir_attributes ;;
  xdr_cookieverf3 @ READDIR3resok_cookieverf ;;
  xdr_dirlist3 @ READDIR3resok_reply ;;
  RETURN_TRUE.

Definition xdr_READDIR3resfail : xdrproc READDIR3resfail :=
  xdr_post_op_attr @ READDIR3resfail_dir_attributes ;;
  RETURN_TRUE.

Definition xdr_READDIR3res : xdrproc READDIR3res :=
  xdr_nfsstat3 @ READDIR3res_status ;;
  case! NFS3_OK of READDIR3res_status : (xdr_READDIR3resok @| READDIR3res_resok ;; RETURN_TRUE) else
  (xdr_READDIR3resfail @| READDIR3res_resfail ;; RETURN_TRUE).

Definition xdr_LINK3args : xdrproc LINK3args :=
  xdr_nfs_fh3 @ LINK3args_file ;;
  xdr_diropargs3 @ LINK3args_link ;;
  RETURN_TRUE.

Definition xdr_LINK3resok : xdrproc LINK3resok :=
  xdr_post_op_attr @ LINK3resok_file_attributes ;;
  xdr_wcc_data @ LINK3resok_linkdir_wcc ;;
  RETURN_TRUE.

Definition xdr_LINK3resfail : xdrproc LINK3resfail :=
  xdr_post_op_attr @ LINK3resfail_file_attributes ;;
  xdr_wcc_data @ LINK3resfail_linkdir_wcc ;;
  RETURN_TRUE.

Definition xdr_LINK3res : xdrproc LINK3res :=
  xdr_nfsstat3 @ LINK3res_status ;;
  case! NFS3_OK of LINK3res_status : (xdr_LINK3resok @| LINK3res_resok ;; RETURN_TRUE) else
  (xdr_LINK3resfail @| LINK3res_resfail ;; RETURN_TRUE).

Definition xdr_sattrguard3 : xdrproc sattrguard3 :=
  xdr_bool @ sattrguard3_check ;;
  case! 1 of sattrguard3_check : (xdr_nfstime3 @| sattrguard3_obj_ctime ;; RETURN_TRUE) else
  case! 0 of sattrguard3_check : (no_arm clear_sattrguard3) else
  RETURN_FALSE.

Definition xdr_SETATTR3args : xdrproc SETATTR3args :=
  xdr_nfs_fh3 @ SETATTR3args_object ;;
  xdr_sattr3 @ SETATTR3args_new_attributes ;;
  xdr_sattrguard3 @ SETATTR3args_guard ;;
  RETURN_TRUE.

Definition xdr_SETATTR3resok : xdrproc SETATTR3resok :=
  xdr_wcc_data @ SETATTR3resok_obj_wcc ;;
  RETURN_TRUE.

Definition xdr_SETATTR3resfail : xdrproc SETATTR3resfail :=
  xdr_wcc_data @ SETATTR3resfail_obj_wcc ;;
  RETURN_TRUE.

Definition xdr_SETATTR3res : xdrproc SETATTR3res :=
  xdr_nfsstat3 @ SETATTR3res_status ;;
  case! NFS3_OK of SETATTR3res_status : (xdr_SETATTR3resok @| SETATTR3res_resok ;; RETURN_TRUE) else
  (xdr_SETATTR3resfail @| SETATTR3res_resfail ;; RETURN_TRUE).

(** * Codecs *)

#[global] Typeclasses Opaque xdr_cookieverf3 xdr_cookie3 xdr_nfs_fh3 xdr_filename3 xdr_diropargs3 xdr_ftype3 xdr_mode3 xdr_uid3 xdr_gid3
  xdr_size3 xdr_fileid3 xdr_specdata3 xdr_nfstime3 xdr_fattr3 xdr_post_op_attr xdr_nfsstat3 xdr_stable_how xdr_offset3 xdr_count3 xdr_wcc_attr
  xdr_pre_op_attr xdr_wcc_data xdr_WRITE3args xdr_writeverf3 xdr_WRITE3resok xdr_WRITE3resfail xdr_WRITE3res xdr_LOOKUP3args xdr_LOOKUP3resok
  xdr_LOOKUP3resfail xdr_LOOKUP3res xdr_COMMIT3args xdr_COMMIT3resok xdr_COMMIT3resfail xdr_COMMIT3res xdr_ACCESS3args xdr_ACCESS3resok
  xdr_ACCESS3resfail xdr_ACCESS3res xdr_GETATTR3args xdr_GETATTR3resok xdr_GETATTR3res xdr_time_how xdr_set_mode3 xdr_set_uid3 xdr_set_gid3
  xdr_set_size3 xdr_set_atime xdr_set_mtime xdr_sattr3 xdr_createmode3 xdr_createverf3 xdr_createhow3 xdr_CREATE3args xdr_post_op_fh3
  xdr_CREATE3resok xdr_CREATE3resfail xdr_CREATE3res xdr_REMOVE3args xdr_REMOVE3resok xdr_REMOVE3resfail xdr_REMOVE3res xdr_READ3args
  xdr_READ3resok xdr_READ3resfail xdr_READ3res xdr_FSINFO3args xdr_FSINFO3resok xdr_FSINFO3resfail xdr_FSINFO3res xdr_FSSTAT3args
  xdr_FSSTAT3resok xdr_FSSTAT3resfail xdr_FSSTAT3res xdr_PATHCONF3args xdr_PATHCONF3resok xdr_PATHCONF3resfail xdr_PATHCONF3res xdr_nfspath3
  xdr_symlinkdata3 xdr_SYMLINK3args xdr_SYMLINK3resok xdr_SYMLINK3resfail xdr_SYMLINK3res xdr_READLINK3args xdr_READLINK3resok
  xdr_READLINK3resfail xdr_READLINK3res xdr_devicedata3 xdr_mknoddata3 xdr_MKNOD3args xdr_MKNOD3resok xdr_MKNOD3resfail xdr_MKNOD3res
  xdr_MKDIR3args xdr_MKDIR3resok xdr_MKDIR3resfail xdr_MKDIR3res xdr_RMDIR3args xdr_RMDIR3resok xdr_RMDIR3resfail xdr_RMDIR3res
  xdr_RENAME3args xdr_RENAME3resok xdr_RENAME3resfail xdr_RENAME3res xdr_READDIRPLUS3args xdr_entryplus3 xdr_dirlistplus3
  xdr_READDIRPLUS3resok xdr_READDIRPLUS3resfail xdr_READDIRPLUS3res xdr_READDIR3args xdr_entry3 xdr_dirlist3 xdr_READDIR3resok
  xdr_READDIR3resfail xdr_READDIR3res xdr_LINK3args xdr_LINK3resok xdr_LINK3resfail xdr_LINK3res xdr_sattrguard3 xdr_SETATTR3args
  xdr_SETATTR3resok xdr_SETATTR3resfail xdr_SETATTR3res.
#[global] Instance units_NFS3_COOKIEVERFSIZE : Units NFS3_COOKIEVERFSIZE.
Proof. done. Qed.
#[global] Instance units_NFS3_CREATEVERFSIZE : Units NFS3_CREATEVERFSIZE.
Proof. done. Qed.
#[global] Instance units_NFS3_WRITEVERFSIZE : Units NFS3_WRITEVERFSIZE.
Proof. done. Qed.
#[global] Instance xdr_cookieverf3_codec : Codec xdr_cookieverf3 := _ : Codec (xdr_opaque NFS3_COOKIEVERFSIZE).
#[global] Instance xdr_cookie3_codec : Codec xdr_cookie3 := _ : Codec xdr_uint64_t.
#[global] Instance xdr_nfs_fh3_codec : Codec xdr_nfs_fh3 := _ : Codec (xdr_bytes NFS3_FHSIZE false).
#[global] Instance xdr_filename3_codec : Codec xdr_filename3 := _ : Codec (xdr_string UINT32_MAX false).
#[global] Instance xdr_diropargs3_codec : Codec xdr_diropargs3.
Proof. struct. Defined.
#[global] Instance xdr_ftype3_codec : Codec xdr_ftype3 := _ : Codec xdr_enum.
#[global] Instance xdr_mode3_codec : Codec xdr_mode3 := _ : Codec xdr_u_int.
#[global] Instance xdr_uid3_codec : Codec xdr_uid3 := _ : Codec xdr_u_int.
#[global] Instance xdr_gid3_codec : Codec xdr_gid3 := _ : Codec xdr_u_int.
#[global] Instance xdr_size3_codec : Codec xdr_size3 := _ : Codec xdr_uint64_t.
#[global] Instance xdr_fileid3_codec : Codec xdr_fileid3 := _ : Codec xdr_uint64_t.
#[global] Instance xdr_specdata3_codec : Codec xdr_specdata3.
Proof. struct. Defined.
#[global] Instance xdr_nfstime3_codec : Codec xdr_nfstime3.
Proof. struct. Defined.
#[global] Instance xdr_fattr3_codec : Codec xdr_fattr3.
Proof. struct. Defined.
#[global] Instance xdr_post_op_attr_codec : Codec xdr_post_op_attr.
Proof. struct. Defined.
#[global] Instance xdr_nfsstat3_codec : Codec xdr_nfsstat3 := _ : Codec xdr_enum.
#[global] Instance xdr_stable_how_codec : Codec xdr_stable_how := _ : Codec xdr_enum.
#[global] Instance xdr_offset3_codec : Codec xdr_offset3 := _ : Codec xdr_uint64_t.
#[global] Instance xdr_count3_codec : Codec xdr_count3 := _ : Codec xdr_u_int.
#[global] Instance xdr_wcc_attr_codec : Codec xdr_wcc_attr.
Proof. struct. Defined.
#[global] Instance xdr_pre_op_attr_codec : Codec xdr_pre_op_attr.
Proof. struct. Defined.
#[global] Instance xdr_wcc_data_codec : Codec xdr_wcc_data.
Proof. struct. Defined.
#[global] Instance xdr_WRITE3args_codec : Codec xdr_WRITE3args.
Proof. struct. Defined.
#[global] Instance xdr_writeverf3_codec : Codec xdr_writeverf3 := _ : Codec (xdr_opaque NFS3_WRITEVERFSIZE).
#[global] Instance xdr_WRITE3resok_codec : Codec xdr_WRITE3resok.
Proof. struct. Defined.
#[global] Instance xdr_WRITE3resfail_codec : Codec xdr_WRITE3resfail.
Proof. struct. Defined.
#[global] Instance xdr_WRITE3res_codec : Codec xdr_WRITE3res.
Proof. struct. Defined.
#[global] Instance xdr_LOOKUP3args_codec : Codec xdr_LOOKUP3args.
Proof. struct. Defined.
#[global] Instance xdr_LOOKUP3resok_codec : Codec xdr_LOOKUP3resok.
Proof. struct. Defined.
#[global] Instance xdr_LOOKUP3resfail_codec : Codec xdr_LOOKUP3resfail.
Proof. struct. Defined.
#[global] Instance xdr_LOOKUP3res_codec : Codec xdr_LOOKUP3res.
Proof. struct. Defined.
#[global] Instance xdr_COMMIT3args_codec : Codec xdr_COMMIT3args.
Proof. struct. Defined.
#[global] Instance xdr_COMMIT3resok_codec : Codec xdr_COMMIT3resok.
Proof. struct. Defined.
#[global] Instance xdr_COMMIT3resfail_codec : Codec xdr_COMMIT3resfail.
Proof. struct. Defined.
#[global] Instance xdr_COMMIT3res_codec : Codec xdr_COMMIT3res.
Proof. struct. Defined.
#[global] Instance xdr_ACCESS3args_codec : Codec xdr_ACCESS3args.
Proof. struct. Defined.
#[global] Instance xdr_ACCESS3resok_codec : Codec xdr_ACCESS3resok.
Proof. struct. Defined.
#[global] Instance xdr_ACCESS3resfail_codec : Codec xdr_ACCESS3resfail.
Proof. struct. Defined.
#[global] Instance xdr_ACCESS3res_codec : Codec xdr_ACCESS3res.
Proof. struct. Defined.
#[global] Instance xdr_GETATTR3args_codec : Codec xdr_GETATTR3args.
Proof. struct. Defined.
#[global] Instance xdr_GETATTR3resok_codec : Codec xdr_GETATTR3resok.
Proof. struct. Defined.
#[global] Instance xdr_GETATTR3res_codec : Codec xdr_GETATTR3res.
Proof. struct. Defined.
#[global] Instance xdr_time_how_codec : Codec xdr_time_how := _ : Codec xdr_enum.
#[global] Instance xdr_set_mode3_codec : Codec xdr_set_mode3.
Proof. struct. Defined.
#[global] Instance xdr_set_uid3_codec : Codec xdr_set_uid3.
Proof. struct. Defined.
#[global] Instance xdr_set_gid3_codec : Codec xdr_set_gid3.
Proof. struct. Defined.
#[global] Instance xdr_set_size3_codec : Codec xdr_set_size3.
Proof. struct. Defined.
#[global] Instance xdr_set_atime_codec : Codec xdr_set_atime.
Proof. struct. Defined.
#[global] Instance xdr_set_mtime_codec : Codec xdr_set_mtime.
Proof. struct. Defined.
#[global] Instance xdr_sattr3_codec : Codec xdr_sattr3.
Proof. struct. Defined.
#[global] Instance xdr_createmode3_codec : Codec xdr_createmode3 := _ : Codec xdr_enum.
#[global] Instance xdr_createverf3_codec : Codec xdr_createverf3 := _ : Codec (xdr_opaque NFS3_CREATEVERFSIZE).
#[global] Instance xdr_createhow3_codec : Codec xdr_createhow3.
Proof. struct. Defined.
#[global] Instance xdr_CREATE3args_codec : Codec xdr_CREATE3args.
Proof. struct. Defined.
#[global] Instance xdr_post_op_fh3_codec : Codec xdr_post_op_fh3.
Proof. struct. Defined.
#[global] Instance xdr_CREATE3resok_codec : Codec xdr_CREATE3resok.
Proof. struct. Defined.
#[global] Instance xdr_CREATE3resfail_codec : Codec xdr_CREATE3resfail.
Proof. struct. Defined.
#[global] Instance xdr_CREATE3res_codec : Codec xdr_CREATE3res.
Proof. struct. Defined.
#[global] Instance xdr_REMOVE3args_codec : Codec xdr_REMOVE3args.
Proof. struct. Defined.
#[global] Instance xdr_REMOVE3resok_codec : Codec xdr_REMOVE3resok.
Proof. struct. Defined.
#[global] Instance xdr_REMOVE3resfail_codec : Codec xdr_REMOVE3resfail.
Proof. struct. Defined.
#[global] Instance xdr_REMOVE3res_codec : Codec xdr_REMOVE3res.
Proof. struct. Defined.
#[global] Instance xdr_READ3args_codec : Codec xdr_READ3args.
Proof. struct. Defined.
#[global] Instance xdr_READ3resok_codec : Codec xdr_READ3resok.
Proof. struct. Defined.
#[global] Instance xdr_READ3resfail_codec : Codec xdr_READ3resfail.
Proof. struct. Defined.
#[global] Instance xdr_READ3res_codec : Codec xdr_READ3res.
Proof. struct. Defined.
#[global] Instance xdr_FSINFO3args_codec : Codec xdr_FSINFO3args.
Proof. struct. Defined.
#[global] Instance xdr_FSINFO3resok_codec : Codec xdr_FSINFO3resok.
Proof. struct. Defined.
#[global] Instance xdr_FSINFO3resfail_codec : Codec xdr_FSINFO3resfail.
Proof. struct. Defined.
#[global] Instance xdr_FSINFO3res_codec : Codec xdr_FSINFO3res.
Proof. struct. Defined.
#[global] Instance xdr_FSSTAT3args_codec : Codec xdr_FSSTAT3args.
Proof. struct. Defined.
#[global] Instance xdr_FSSTAT3resok_codec : Codec xdr_FSSTAT3resok.
Proof. struct. Defined.
#[global] Instance xdr_FSSTAT3resfail_codec : Codec xdr_FSSTAT3resfail.
Proof. struct. Defined.
#[global] Instance xdr_FSSTAT3res_codec : Codec xdr_FSSTAT3res.
Proof. struct. Defined.
#[global] Instance xdr_PATHCONF3args_codec : Codec xdr_PATHCONF3args.
Proof. struct. Defined.
#[global] Instance xdr_PATHCONF3resok_codec : Codec xdr_PATHCONF3resok.
Proof. struct. Defined.
#[global] Instance xdr_PATHCONF3resfail_codec : Codec xdr_PATHCONF3resfail.
Proof. struct. Defined.
#[global] Instance xdr_PATHCONF3res_codec : Codec xdr_PATHCONF3res.
Proof. struct. Defined.
#[global] Instance xdr_nfspath3_codec rdma_chunk : Codec (xdr_nfspath3 rdma_chunk) := _ : Codec (xdr_string UINT32_MAX rdma_chunk).
#[global] Instance xdr_symlinkdata3_codec : Codec xdr_symlinkdata3.
Proof. struct. Defined.
#[global] Instance xdr_SYMLINK3args_codec : Codec xdr_SYMLINK3args.
Proof. struct. Defined.
#[global] Instance xdr_SYMLINK3resok_codec : Codec xdr_SYMLINK3resok.
Proof. struct. Defined.
#[global] Instance xdr_SYMLINK3resfail_codec : Codec xdr_SYMLINK3resfail.
Proof. struct. Defined.
#[global] Instance xdr_SYMLINK3res_codec : Codec xdr_SYMLINK3res.
Proof. struct. Defined.
#[global] Instance xdr_READLINK3args_codec : Codec xdr_READLINK3args.
Proof. struct. Defined.
#[global] Instance xdr_READLINK3resok_codec : Codec xdr_READLINK3resok.
Proof. struct. Defined.
#[global] Instance xdr_READLINK3resfail_codec : Codec xdr_READLINK3resfail.
Proof. struct. Defined.
#[global] Instance xdr_READLINK3res_codec : Codec xdr_READLINK3res.
Proof. struct. Defined.
#[global] Instance xdr_devicedata3_codec : Codec xdr_devicedata3.
Proof. struct. Defined.
#[global] Instance xdr_mknoddata3_codec : Codec xdr_mknoddata3.
Proof. struct. Defined.
#[global] Instance xdr_MKNOD3args_codec : Codec xdr_MKNOD3args.
Proof. struct. Defined.
#[global] Instance xdr_MKNOD3resok_codec : Codec xdr_MKNOD3resok.
Proof. struct. Defined.
#[global] Instance xdr_MKNOD3resfail_codec : Codec xdr_MKNOD3resfail.
Proof. struct. Defined.
#[global] Instance xdr_MKNOD3res_codec : Codec xdr_MKNOD3res.
Proof. struct. Defined.
#[global] Instance xdr_MKDIR3args_codec : Codec xdr_MKDIR3args.
Proof. struct. Defined.
#[global] Instance xdr_MKDIR3resok_codec : Codec xdr_MKDIR3resok.
Proof. struct. Defined.
#[global] Instance xdr_MKDIR3resfail_codec : Codec xdr_MKDIR3resfail.
Proof. struct. Defined.
#[global] Instance xdr_MKDIR3res_codec : Codec xdr_MKDIR3res.
Proof. struct. Defined.
#[global] Instance xdr_RMDIR3args_codec : Codec xdr_RMDIR3args.
Proof. struct. Defined.
#[global] Instance xdr_RMDIR3resok_codec : Codec xdr_RMDIR3resok.
Proof. struct. Defined.
#[global] Instance xdr_RMDIR3resfail_codec : Codec xdr_RMDIR3resfail.
Proof. struct. Defined.
#[global] Instance xdr_RMDIR3res_codec : Codec xdr_RMDIR3res.
Proof. struct. Defined.
#[global] Instance xdr_RENAME3args_codec : Codec xdr_RENAME3args.
Proof. struct. Defined.
#[global] Instance xdr_RENAME3resok_codec : Codec xdr_RENAME3resok.
Proof. struct. Defined.
#[global] Instance xdr_RENAME3resfail_codec : Codec xdr_RENAME3resfail.
Proof. struct. Defined.
#[global] Instance xdr_RENAME3res_codec : Codec xdr_RENAME3res.
Proof. struct. Defined.
#[global] Instance xdr_READDIRPLUS3args_codec : Codec xdr_READDIRPLUS3args.
Proof. struct. Defined.
#[global] Instance entryplus3_linked : Linked entryplus3_nextentry set_entryplus3_nextentry entryplus3_entries.
Proof. constructor; try done; by intros []. Qed.
#[global] Instance entryplus3_prefix_ok : Prefix entryplus3_prefix.
Proof. list_prefix. Defined.
#[global] Instance xdr_entryplus3_list_codec : Codec (xdr_pointer set_entryplus3_nextentry inhabitant "xdr_entryplus3" xdr_entryplus3).
Proof. list_codec entryplus3_nextentry entryplus3_entries entryplus3_prefix xdr_entryplus3_fuel. Defined.
#[global] Instance xdr_dirlistplus3_codec : Codec xdr_dirlistplus3.
Proof. struct. Defined.
#[global] Instance xdr_READDIRPLUS3resok_codec : Codec xdr_READDIRPLUS3resok.
Proof. struct. Defined.
#[global] Instance xdr_READDIRPLUS3resfail_codec : Codec xdr_READDIRPLUS3resfail.
Proof. struct. Defined.
#[global] Instance xdr_READDIRPLUS3res_codec : Codec xdr_READDIRPLUS3res.
Proof. struct. Defined.
#[global] Instance xdr_READDIR3args_codec : Codec xdr_READDIR3args.
Proof. struct. Defined.
#[global] Instance entry3_linked : Linked entry3_nextentry set_entry3_nextentry entry3_entries.
Proof. constructor; try done; by intros []. Qed.
#[global] Instance entry3_prefix_ok : Prefix entry3_prefix.
Proof. list_prefix. Defined.
#[global] Instance xdr_entry3_list_codec : Codec (xdr_pointer set_entry3_nextentry inhabitant "xdr_entry3" xdr_entry3).
Proof. list_codec entry3_nextentry entry3_entries entry3_prefix xdr_entry3_fuel. Defined.
#[global] Instance xdr_dirlist3_codec : Codec xdr_dirlist3.
Proof. struct. Defined.
#[global] Instance xdr_READDIR3resok_codec : Codec xdr_READDIR3resok.
Proof. struct. Defined.
#[global] Instance xdr_READDIR3resfail_codec : Codec xdr_READDIR3resfail.
Proof. struct. Defined.
#[global] Instance xdr_READDIR3res_codec : Codec xdr_READDIR3res.
Proof. struct. Defined.
#[global] Instance xdr_LINK3args_codec : Codec xdr_LINK3args.
Proof. struct. Defined.
#[global] Instance xdr_LINK3resok_codec : Codec xdr_LINK3resok.
Proof. struct. Defined.
#[global] Instance xdr_LINK3resfail_codec : Codec xdr_LINK3resfail.
Proof. struct. Defined.
#[global] Instance xdr_LINK3res_codec : Codec xdr_LINK3res.
Proof. struct. Defined.
#[global] Instance xdr_sattrguard3_codec : Codec xdr_sattrguard3.
Proof. struct. Defined.
#[global] Instance xdr_SETATTR3args_codec : Codec xdr_SETATTR3args.
Proof. struct. Defined.
#[global] Instance xdr_SETATTR3resok_codec : Codec xdr_SETATTR3resok.
Proof. struct. Defined.
#[global] Instance xdr_SETATTR3resfail_codec : Codec xdr_SETATTR3resfail.
Proof. struct. Defined.
#[global] Instance xdr_SETATTR3res_codec : Codec xdr_SETATTR3res.
Proof. struct. Defined.

(** * Safety of decoding *)

#[global] Instance xdr_cookieverf3_safe : Safe xdr_cookieverf3 := _ : Safe (xdr_opaque NFS3_COOKIEVERFSIZE).
#[global] Instance xdr_cookie3_safe : Safe xdr_cookie3 := _ : Safe xdr_uint64_t.
#[global] Instance xdr_nfs_fh3_safe : Safe xdr_nfs_fh3 := _ : Safe (xdr_bytes NFS3_FHSIZE false).
#[global] Instance xdr_filename3_safe : Safe xdr_filename3 := _ : Safe (xdr_string UINT32_MAX false).
#[global] Instance xdr_diropargs3_safe : Safe xdr_diropargs3.
Proof. safe. Defined.
#[global] Instance xdr_ftype3_safe : Safe xdr_ftype3 := _ : Safe xdr_enum.
#[global] Instance xdr_mode3_safe : Safe xdr_mode3 := _ : Safe xdr_u_int.
#[global] Instance xdr_uid3_safe : Safe xdr_uid3 := _ : Safe xdr_u_int.
#[global] Instance xdr_gid3_safe : Safe xdr_gid3 := _ : Safe xdr_u_int.
#[global] Instance xdr_size3_safe : Safe xdr_size3 := _ : Safe xdr_uint64_t.
#[global] Instance xdr_fileid3_safe : Safe xdr_fileid3 := _ : Safe xdr_uint64_t.
#[global] Instance xdr_specdata3_safe : Safe xdr_specdata3.
Proof. safe. Defined.
#[global] Instance xdr_nfstime3_safe : Safe xdr_nfstime3.
Proof. safe. Defined.
#[global] Instance xdr_fattr3_safe : Safe xdr_fattr3.
Proof. safe. Defined.
#[global] Instance xdr_post_op_attr_safe : Safe xdr_post_op_attr.
Proof. safe. Defined.
#[global] Instance xdr_nfsstat3_safe : Safe xdr_nfsstat3 := _ : Safe xdr_enum.
#[global] Instance xdr_stable_how_safe : Safe xdr_stable_how := _ : Safe xdr_enum.
#[global] Instance xdr_offset3_safe : Safe xdr_offset3 := _ : Safe xdr_uint64_t.
#[global] Instance xdr_count3_safe : Safe xdr_count3 := _ : Safe xdr_u_int.
#[global] Instance xdr_wcc_attr_safe : Safe xdr_wcc_attr.
Proof. safe. Defined.
#[global] Instance xdr_pre_op_attr_safe : Safe xdr_pre_op_attr.
Proof. safe. Defined.
#[global] Instance xdr_wcc_data_safe : Safe xdr_wcc_data.
Proof. safe. Defined.
#[global] Instance xdr_WRITE3args_safe : Safe xdr_WRITE3args.
Proof. safe. Defined.
#[global] Instance xdr_writeverf3_safe : Safe xdr_writeverf3 := _ : Safe (xdr_opaque NFS3_WRITEVERFSIZE).
#[global] Instance xdr_WRITE3resok_safe : Safe xdr_WRITE3resok.
Proof. safe. Defined.
#[global] Instance xdr_WRITE3resfail_safe : Safe xdr_WRITE3resfail.
Proof. safe. Defined.
#[global] Instance xdr_WRITE3res_safe : Safe xdr_WRITE3res.
Proof. safe. Defined.
#[global] Instance xdr_LOOKUP3args_safe : Safe xdr_LOOKUP3args.
Proof. safe. Defined.
#[global] Instance xdr_LOOKUP3resok_safe : Safe xdr_LOOKUP3resok.
Proof. safe. Defined.
#[global] Instance xdr_LOOKUP3resfail_safe : Safe xdr_LOOKUP3resfail.
Proof. safe. Defined.
#[global] Instance xdr_LOOKUP3res_safe : Safe xdr_LOOKUP3res.
Proof. safe. Defined.
#[global] Instance xdr_COMMIT3args_safe : Safe xdr_COMMIT3args.
Proof. safe. Defined.
#[global] Instance xdr_COMMIT3resok_safe : Safe xdr_COMMIT3resok.
Proof. safe. Defined.
#[global] Instance xdr_COMMIT3resfail_safe : Safe xdr_COMMIT3resfail.
Proof. safe. Defined.
#[global] Instance xdr_COMMIT3res_safe : Safe xdr_COMMIT3res.
Proof. safe. Defined.
#[global] Instance xdr_ACCESS3args_safe : Safe xdr_ACCESS3args.
Proof. safe. Defined.
#[global] Instance xdr_ACCESS3resok_safe : Safe xdr_ACCESS3resok.
Proof. safe. Defined.
#[global] Instance xdr_ACCESS3resfail_safe : Safe xdr_ACCESS3resfail.
Proof. safe. Defined.
#[global] Instance xdr_ACCESS3res_safe : Safe xdr_ACCESS3res.
Proof. safe. Defined.
#[global] Instance xdr_GETATTR3args_safe : Safe xdr_GETATTR3args.
Proof. safe. Defined.
#[global] Instance xdr_GETATTR3resok_safe : Safe xdr_GETATTR3resok.
Proof. safe. Defined.
#[global] Instance xdr_GETATTR3res_safe : Safe xdr_GETATTR3res.
Proof. safe. Defined.
#[global] Instance xdr_time_how_safe : Safe xdr_time_how := _ : Safe xdr_enum.
#[global] Instance xdr_set_mode3_safe : Safe xdr_set_mode3.
Proof. safe. Defined.
#[global] Instance xdr_set_uid3_safe : Safe xdr_set_uid3.
Proof. safe. Defined.
#[global] Instance xdr_set_gid3_safe : Safe xdr_set_gid3.
Proof. safe. Defined.
#[global] Instance xdr_set_size3_safe : Safe xdr_set_size3.
Proof. safe. Defined.
#[global] Instance xdr_set_atime_safe : Safe xdr_set_atime.
Proof. safe. Defined.
#[global] Instance xdr_set_mtime_safe : Safe xdr_set_mtime.
Proof. safe. Defined.
#[global] Instance xdr_sattr3_safe : Safe xdr_sattr3.
Proof. safe. Defined.
#[global] Instance xdr_createmode3_safe : Safe xdr_createmode3 := _ : Safe xdr_enum.
#[global] Instance xdr_createverf3_safe : Safe xdr_createverf3 := _ : Safe (xdr_opaque NFS3_CREATEVERFSIZE).
#[global] Instance xdr_createhow3_safe : Safe xdr_createhow3.
Proof. safe. Defined.
#[global] Instance xdr_CREATE3args_safe : Safe xdr_CREATE3args.
Proof. safe. Defined.
#[global] Instance xdr_post_op_fh3_safe : Safe xdr_post_op_fh3.
Proof. safe. Defined.
#[global] Instance xdr_CREATE3resok_safe : Safe xdr_CREATE3resok.
Proof. safe. Defined.
#[global] Instance xdr_CREATE3resfail_safe : Safe xdr_CREATE3resfail.
Proof. safe. Defined.
#[global] Instance xdr_CREATE3res_safe : Safe xdr_CREATE3res.
Proof. safe. Defined.
#[global] Instance xdr_REMOVE3args_safe : Safe xdr_REMOVE3args.
Proof. safe. Defined.
#[global] Instance xdr_REMOVE3resok_safe : Safe xdr_REMOVE3resok.
Proof. safe. Defined.
#[global] Instance xdr_REMOVE3resfail_safe : Safe xdr_REMOVE3resfail.
Proof. safe. Defined.
#[global] Instance xdr_REMOVE3res_safe : Safe xdr_REMOVE3res.
Proof. safe. Defined.
#[global] Instance xdr_READ3args_safe : Safe xdr_READ3args.
Proof. safe. Defined.
#[global] Instance xdr_READ3resok_safe : Safe xdr_READ3resok.
Proof. safe. Defined.
#[global] Instance xdr_READ3resfail_safe : Safe xdr_READ3resfail.
Proof. safe. Defined.
#[global] Instance xdr_READ3res_safe : Safe xdr_READ3res.
Proof. safe. Defined.
#[global] Instance xdr_FSINFO3args_safe : Safe xdr_FSINFO3args.
Proof. safe. Defined.
#[global] Instance xdr_FSINFO3resok_safe : Safe xdr_FSINFO3resok.
Proof. safe. Defined.
#[global] Instance xdr_FSINFO3resfail_safe : Safe xdr_FSINFO3resfail.
Proof. safe. Defined.
#[global] Instance xdr_FSINFO3res_safe : Safe xdr_FSINFO3res.
Proof. safe. Defined.
#[global] Instance xdr_FSSTAT3args_safe : Safe xdr_FSSTAT3args.
Proof. safe. Defined.
#[global] Instance xdr_FSSTAT3resok_safe : Safe xdr_FSSTAT3resok.
Proof. safe. Defined.
#[global] Instance xdr_FSSTAT3resfail_safe : Safe xdr_FSSTAT3resfail.
Proof. safe. Defined.
#[global] Instance xdr_FSSTAT3res_safe : Safe xdr_FSSTAT3res.
Proof. safe. Defined.
#[global] Instance xdr_PATHCONF3args_safe : Safe xdr_PATHCONF3args.
Proof. safe. Defined.
#[global] Instance xdr_PATHCONF3resok_safe : Safe xdr_PATHCONF3resok.
Proof. safe. Defined.
#[global] Instance xdr_PATHCONF3resfail_safe : Safe xdr_PATHCONF3resfail.
Proof. safe. Defined.
#[global] Instance xdr_PATHCONF3res_safe : Safe xdr_PATHCONF3res.
Proof. safe. Defined.
#[global] Instance xdr_nfspath3_safe rdma_chunk : Safe (xdr_nfspath3 rdma_chunk) := _ : Safe (xdr_string UINT32_MAX rdma_chunk).
#[global] Instance xdr_symlinkdata3_safe : Safe xdr_symlinkdata3.
Proof. safe. Defined.
#[global] Instance xdr_SYMLINK3args_safe : Safe xdr_SYMLINK3args.
Proof. safe. Defined.
#[global] Instance xdr_SYMLINK3resok_safe : Safe xdr_SYMLINK3resok.
Proof. safe. Defined.
#[global] Instance xdr_SYMLINK3resfail_safe : Safe xdr_SYMLINK3resfail.
Proof. safe. Defined.
#[global] Instance xdr_SYMLINK3res_safe : Safe xdr_SYMLINK3res.
Proof. safe. Defined.
#[global] Instance xdr_READLINK3args_safe : Safe xdr_READLINK3args.
Proof. safe. Defined.
#[global] Instance xdr_READLINK3resok_safe : Safe xdr_READLINK3resok.
Proof. safe. Defined.
#[global] Instance xdr_READLINK3resfail_safe : Safe xdr_READLINK3resfail.
Proof. safe. Defined.
#[global] Instance xdr_READLINK3res_safe : Safe xdr_READLINK3res.
Proof. safe. Defined.
#[global] Instance xdr_devicedata3_safe : Safe xdr_devicedata3.
Proof. safe. Defined.
#[global] Instance xdr_mknoddata3_safe : Safe xdr_mknoddata3.
Proof. safe. Defined.
#[global] Instance xdr_MKNOD3args_safe : Safe xdr_MKNOD3args.
Proof. safe. Defined.
#[global] Instance xdr_MKNOD3resok_safe : Safe xdr_MKNOD3resok.
Proof. safe. Defined.
#[global] Instance xdr_MKNOD3resfail_safe : Safe xdr_MKNOD3resfail.
Proof. safe. Defined.
#[global] Instance xdr_MKNOD3res_safe : Safe xdr_MKNOD3res.
Proof. safe. Defined.
#[global] Instance xdr_MKDIR3args_safe : Safe xdr_MKDIR3args.
Proof. safe. Defined.
#[global] Instance xdr_MKDIR3resok_safe : Safe xdr_MKDIR3resok.
Proof. safe. Defined.
#[global] Instance xdr_MKDIR3resfail_safe : Safe xdr_MKDIR3resfail.
Proof. safe. Defined.
#[global] Instance xdr_MKDIR3res_safe : Safe xdr_MKDIR3res.
Proof. safe. Defined.
#[global] Instance xdr_RMDIR3args_safe : Safe xdr_RMDIR3args.
Proof. safe. Defined.
#[global] Instance xdr_RMDIR3resok_safe : Safe xdr_RMDIR3resok.
Proof. safe. Defined.
#[global] Instance xdr_RMDIR3resfail_safe : Safe xdr_RMDIR3resfail.
Proof. safe. Defined.
#[global] Instance xdr_RMDIR3res_safe : Safe xdr_RMDIR3res.
Proof. safe. Defined.
#[global] Instance xdr_RENAME3args_safe : Safe xdr_RENAME3args.
Proof. safe. Defined.
#[global] Instance xdr_RENAME3resok_safe : Safe xdr_RENAME3resok.
Proof. safe. Defined.
#[global] Instance xdr_RENAME3resfail_safe : Safe xdr_RENAME3resfail.
Proof. safe. Defined.
#[global] Instance xdr_RENAME3res_safe : Safe xdr_RENAME3res.
Proof. safe. Defined.
#[global] Instance xdr_READDIRPLUS3args_safe : Safe xdr_READDIRPLUS3args.
Proof. safe. Defined.
#[global] Instance xdr_READDIRPLUS3resfail_safe : Safe xdr_READDIRPLUS3resfail.
Proof. safe. Defined.
#[global] Instance xdr_READDIR3args_safe : Safe xdr_READDIR3args.
Proof. safe. Defined.
#[global] Instance xdr_READDIR3resfail_safe : Safe xdr_READDIR3resfail.
Proof. safe. Defined.
#[global] Instance xdr_LINK3args_safe : Safe xdr_LINK3args.
Proof. safe. Defined.
#[global] Instance xdr_LINK3resok_safe : Safe xdr_LINK3resok.
Proof. safe. Defined.
#[global] Instance xdr_LINK3resfail_safe : Safe xdr_LINK3resfail.
Proof. safe. Defined.
#[global] Instance xdr_LINK3res_safe : Safe xdr_LINK3res.
Proof. safe. Defined.
#[global] Instance xdr_sattrguard3_safe : Safe xdr_sattrguard3.
Proof. safe. Defined.
#[global] Instance xdr_SETATTR3args_safe : Safe xdr_SETATTR3args.
Proof. safe. Defined.
#[global] Instance xdr_SETATTR3resok_safe : Safe xdr_SETATTR3resok.
Proof. safe. Defined.
#[global] Instance xdr_SETATTR3resfail_safe : Safe xdr_SETATTR3resfail.
Proof. safe. Defined.
#[global] Instance xdr_SETATTR3res_safe : Safe xdr_SETATTR3res.
Proof. safe. Defined.
