(* ===== verification/XdrNfs2.v ===== *)
(** NFSv2, the ACL procedures and the mount protocol (the rest of nfs.h and nfs_xdr.cpp). *)

From stdpp Require Import strings.
From S2P Require Import Prelude.
From S2P Require Import Xdr.
From S2P Require Import XdrCodec.
From S2P Require Import XdrList.
From S2P Require Import XdrSafe.
From S2P Require Import XdrNfs3.

(** * Constants *)

Definition FHSIZE2 : Z := 32.
Definition MAXNAMLEN2 : Z := 255.
Definition MAXPATHLEN2 : Z := 1024.
Definition NFSMAXDATA2 : Z := 8192.
Definition NFSCOOKIESIZE2 : Z := 4.
Definition MNTPATHLEN : Z := 1024.
Definition MNTNAMLEN : Z := 255.
Definition MNT3_OK : Z := 0.
Definition MNT1_OK : Z := 0.
Definition FHSIZE : Z := 32.

(** * Data *)

Record fattr2 : Type := mk_fattr2 { fattr2_type : Z; fattr2_mode : Z; fattr2_nlink : Z; fattr2_uid : Z; fattr2_gid : Z; fattr2_size : Z;
  fattr2_blocksize : Z; fattr2_rdev : Z; fattr2_blocks : Z; fattr2_fsid : Z; fattr2_fileid : Z; fattr2_atime : nfstime3; fattr2_mtime : nfstime3;
  fattr2_ctime : nfstime3 }.
#[global] Instance fattr2_inhabited : Inhabited fattr2 := populate (mk_fattr2 inhabitant inhabitant inhabitant inhabitant inhabitant inhabitant
  inhabitant inhabitant inhabitant inhabitant inhabitant inhabitant inhabitant inhabitant).
#[global] Instance fattr2_type_field : Field fattr2_type := updates fattr2_type (fun (o : fattr2) v => mk_fattr2 v (fattr2_mode o) (fattr2_nlink o)
  (fattr2_uid o) (fattr2_gid o) (fattr2_size o) (fattr2_blocksize o) (fattr2_rdev o) (fattr2_blocks o) (fattr2_fsid o) (fattr2_fileid o) (fattr2_atime
  o) (fattr2_mtime o) (fattr2_ctime o)).
#[global] Instance fattr2_mode_field : Field fattr2_mode := updates fattr2_mode (fun (o : fattr2) v => mk_fattr2 (fattr2_type o) v (fattr2_nlink o)
  (fattr2_uid o) (fattr2_gid o) (fattr2_size o) (fattr2_blocksize o) (fattr2_rdev o) (fattr2_blocks o) (fattr2_fsid o) (fattr2_fileid o) (fattr2_atime
  o) (fattr2_mtime o) (fattr2_ctime o)).
#[global] Instance fattr2_nlink_field : Field fattr2_nlink := updates fattr2_nlink (fun (o : fattr2) v => mk_fattr2 (fattr2_type o) (fattr2_mode o) v
  (fattr2_uid o) (fattr2_gid o) (fattr2_size o) (fattr2_blocksize o) (fattr2_rdev o) (fattr2_blocks o) (fattr2_fsid o) (fattr2_fileid o) (fattr2_atime
  o) (fattr2_mtime o) (fattr2_ctime o)).
#[global] Instance fattr2_uid_field : Field fattr2_uid := updates fattr2_uid (fun (o : fattr2) v => mk_fattr2 (fattr2_type o) (fattr2_mode o)
  (fattr2_nlink o) v (fattr2_gid o) (fattr2_size o) (fattr2_blocksize o) (fattr2_rdev o) (fattr2_blocks o) (fattr2_fsid o) (fattr2_fileid o)
  (fattr2_atime o) (fattr2_mtime o) (fattr2_ctime o)).
#[global] Instance fattr2_gid_field : Field fattr2_gid := updates fattr2_gid (fun (o : fattr2) v => mk_fattr2 (fattr2_type o) (fattr2_mode o)
  (fattr2_nlink o) (fattr2_uid o) v (fattr2_size o) (fattr2_blocksize o) (fattr2_rdev o) (fattr2_blocks o) (fattr2_fsid o) (fattr2_fileid o)
  (fattr2_atime o) (fattr2_mtime o) (fattr2_ctime o)).
#[global] Instance fattr2_size_field : Field fattr2_size := updates fattr2_size (fun (o : fattr2) v => mk_fattr2 (fattr2_type o) (fattr2_mode o)
  (fattr2_nlink o) (fattr2_uid o) (fattr2_gid o) v (fattr2_blocksize o) (fattr2_rdev o) (fattr2_blocks o) (fattr2_fsid o) (fattr2_fileid o)
  (fattr2_atime o) (fattr2_mtime o) (fattr2_ctime o)).
#[global] Instance fattr2_blocksize_field : Field fattr2_blocksize := updates fattr2_blocksize (fun (o : fattr2) v => mk_fattr2 (fattr2_type o)
  (fattr2_mode o) (fattr2_nlink o) (fattr2_uid o) (fattr2_gid o) (fattr2_size o) v (fattr2_rdev o) (fattr2_blocks o) (fattr2_fsid o) (fattr2_fileid o)
  (fattr2_atime o) (fattr2_mtime o) (fattr2_ctime o)).
#[global] Instance fattr2_rdev_field : Field fattr2_rdev := updates fattr2_rdev (fun (o : fattr2) v => mk_fattr2 (fattr2_type o) (fattr2_mode o)
  (fattr2_nlink o) (fattr2_uid o) (fattr2_gid o) (fattr2_size o) (fattr2_blocksize o) v (fattr2_blocks o) (fattr2_fsid o) (fattr2_fileid o)
  (fattr2_atime o) (fattr2_mtime o) (fattr2_ctime o)).
#[global] Instance fattr2_blocks_field : Field fattr2_blocks := updates fattr2_blocks (fun (o : fattr2) v => mk_fattr2 (fattr2_type o) (fattr2_mode o)
  (fattr2_nlink o) (fattr2_uid o) (fattr2_gid o) (fattr2_size o) (fattr2_blocksize o) (fattr2_rdev o) v (fattr2_fsid o) (fattr2_fileid o)
  (fattr2_atime o) (fattr2_mtime o) (fattr2_ctime o)).
#[global] Instance fattr2_fsid_field : Field fattr2_fsid := updates fattr2_fsid (fun (o : fattr2) v => mk_fattr2 (fattr2_type o) (fattr2_mode o)
  (fattr2_nlink o) (fattr2_uid o) (fattr2_gid o) (fattr2_size o) (fattr2_blocksize o) (fattr2_rdev o) (fattr2_blocks o) v (fattr2_fileid o)
  (fattr2_atime o) (fattr2_mtime o) (fattr2_ctime o)).
#[global] Instance fattr2_fileid_field : Field fattr2_fileid := updates fattr2_fileid (fun (o : fattr2) v => mk_fattr2 (fattr2_type o) (fattr2_mode o)
  (fattr2_nlink o) (fattr2_uid o) (fattr2_gid o) (fattr2_size o) (fattr2_blocksize o) (fattr2_rdev o) (fattr2_blocks o) (fattr2_fsid o) v
  (fattr2_atime o) (fattr2_mtime o) (fattr2_ctime o)).
#[global] Instance fattr2_atime_field : Field fattr2_atime := updates fattr2_atime (fun (o : fattr2) v => mk_fattr2 (fattr2_type o) (fattr2_mode o)
  (fattr2_nlink o) (fattr2_uid o) (fattr2_gid o) (fattr2_size o) (fattr2_blocksize o) (fattr2_rdev o) (fattr2_blocks o) (fattr2_fsid o) (fattr2_fileid
  o) v (fattr2_mtime o) (fattr2_ctime o)).
#[global] Instance fattr2_mtime_field : Field fattr2_mtime := updates fattr2_mtime (fun (o : fattr2) v => mk_fattr2 (fattr2_type o) (fattr2_mode o)
  (fattr2_nlink o) (fattr2_uid o) (fattr2_gid o) (fattr2_size o) (fattr2_blocksize o) (fattr2_rdev o) (fattr2_blocks o) (fattr2_fsid o) (fattr2_fileid
  o) (fattr2_atime o) v (fattr2_ctime o)).
#[global] Instance fattr2_ctime_field : Field fattr2_ctime := updates fattr2_ctime (fun (o : fattr2) v => mk_fattr2 (fattr2_type o) (fattr2_mode o)
  (fattr2_nlink o) (fattr2_uid o) (fattr2_gid o) (fattr2_size o) (fattr2_blocksize o) (fattr2_rdev o) (fattr2_blocks o) (fattr2_fsid o) (fattr2_fileid
  o) (fattr2_atime o) (fattr2_mtime o) v).

Record sattr2 : Type := mk_sattr2 { sattr2_mode : Z; sattr2_uid : Z; sattr2_gid : Z; sattr2_size : Z; sattr2_atime : nfstime3; sattr2_mtime : nfstime3
  }.
#[global] Instance sattr2_inhabited : Inhabited sattr2 := populate (mk_sattr2 inhabitant inhabitant inhabitant inhabitant inhabitant inhabitant).
#[global] Instance sattr2_mode_field : Field sattr2_mode := updates sattr2_mode (fun (o : sattr2) v => mk_sattr2 v (sattr2_uid o) (sattr2_gid o)
  (sattr2_size o) (sattr2_atime o) (sattr2_mtime o)).
#[global] Instance sattr2_uid_field : Field sattr2_uid := updates sattr2_uid (fun (o : sattr2) v => mk_sattr2 (sattr2_mode o) v (sattr2_gid o)
  (sattr2_size o) (sattr2_atime o) (sattr2_mtime o)).
#[global] Instance sattr2_gid_field : Field sattr2_gid := updates sattr2_gid (fun (o : sattr2) v => mk_sattr2 (sattr2_mode o) (sattr2_uid o) v
  (sattr2_size o) (sattr2_atime o) (sattr2_mtime o)).
#[global] Instance sattr2_size_field : Field sattr2_size := updates sattr2_size (fun (o : sattr2) v => mk_sattr2 (sattr2_mode o) (sattr2_uid o)
  (sattr2_gid o) v (sattr2_atime o) (sattr2_mtime o)).
#[global] Instance sattr2_atime_field : Field sattr2_atime := updates sattr2_atime (fun (o : sattr2) v => mk_sattr2 (sattr2_mode o) (sattr2_uid o)
  (sattr2_gid o) (sattr2_size o) v (sattr2_mtime o)).
#[global] Instance sattr2_mtime_field : Field sattr2_mtime := updates sattr2_mtime (fun (o : sattr2) v => mk_sattr2 (sattr2_mode o) (sattr2_uid o)
  (sattr2_gid o) (sattr2_size o) (sattr2_atime o) v).

Inductive entry2 : Type := mk_entry2 { entry2_fileid : Z; entry2_name : xdr_string_t; entry2_cookie : list Z; entry2_nextentry : option entry2 }.
#[global] Instance entry2_inhabited : Inhabited entry2 := populate (mk_entry2 inhabitant inhabitant inhabitant inhabitant).
#[global] Instance entry2_fileid_field : Field entry2_fileid := updates entry2_fileid (fun (o : entry2) v => mk_entry2 v (entry2_name o)
  (entry2_cookie o) (entry2_nextentry o)).
#[global] Instance entry2_name_field : Field entry2_name := updates entry2_name (fun (o : entry2) v => mk_entry2 (entry2_fileid o) v (entry2_cookie o)
  (entry2_nextentry o)).
#[global] Instance entry2_cookie_field : Field entry2_cookie := updates entry2_cookie (fun (o : entry2) v => mk_entry2 (entry2_fileid o) (entry2_name
  o) v (entry2_nextentry o)).
Definition set_entry2_nextentry (o : entry2) (v : (option entry2)) : entry2 := mk_entry2 (entry2_fileid o) (entry2_name o) (entry2_cookie o) v.
#[global] Instance entry2_nextentry_field : Field entry2_nextentry := updates entry2_nextentry set_entry2_nextentry.

Record diropargs2 : Type := mk_diropargs2 { diropargs2_dir : list Z; diropargs2_name : xdr_string_t }.
#[global] Instance diropargs2_inhabited : Inhabited diropargs2 := populate (mk_diropargs2 inhabitant inhabitant).
#[global] Instance diropargs2_dir_field : Field diropargs2_dir := updates diropargs2_dir (fun (o : diropargs2) v => mk_diropargs2 v (diropargs2_name
  o)).
#[global] Instance diropargs2_name_field : Field diropargs2_name := updates diropargs2_name (fun (o : diropargs2) v => mk_diropargs2 (diropargs2_dir
  o) v).

Record GETATTR2args : Type := mk_GETATTR2args { GETATTR2args_fhandle : list Z }.
#[global] Instance GETATTR2args_inhabited : Inhabited GETATTR2args := populate (mk_GETATTR2args inhabitant).
#[global] Instance GETATTR2args_fhandle_field : Field GETATTR2args_fhandle := updates GETATTR2args_fhandle (fun (o : GETATTR2args) v =>
  mk_GETATTR2args v).

Record GETATTR2resok : Type := mk_GETATTR2resok { GETATTR2resok_attributes : fattr2 }.
#[global] Instance GETATTR2resok_inhabited : Inhabited GETATTR2resok := populate (mk_GETATTR2resok inhabitant).
#[global] Instance GETATTR2resok_attributes_field : Field GETATTR2resok_attributes := updates GETATTR2resok_attributes (fun (o : GETATTR2resok) v =>
  mk_GETATTR2resok v).

Inductive GETATTR2res_union : Type :=
| GETATTR2res_is_resok (v : GETATTR2resok)
| GETATTR2res_none.
Record GETATTR2res : Type := mk_GETATTR2res { GETATTR2res_status : Z; GETATTR2res_u : GETATTR2res_union }.
#[global] Instance GETATTR2res_inhabited : Inhabited GETATTR2res := populate (mk_GETATTR2res inhabitant GETATTR2res_none).
#[global] Instance GETATTR2res_status_field : Field GETATTR2res_status := updates GETATTR2res_status (fun (o : GETATTR2res) v => mk_GETATTR2res v
  (GETATTR2res_u o)).
Definition GETATTR2res_resok (o : GETATTR2res) : option GETATTR2resok := match GETATTR2res_u o with GETATTR2res_is_resok v => Some v | _ => None end.
#[global] Instance GETATTR2res_resok_arm : Arm GETATTR2res_resok := activates GETATTR2res_resok (fun o v => mk_GETATTR2res (GETATTR2res_status o)
  (GETATTR2res_is_resok v)).
Definition clear_GETATTR2res (o : GETATTR2res) : GETATTR2res := mk_GETATTR2res (GETATTR2res_status o) GETATTR2res_none.

Record SETATTR2args : Type := mk_SETATTR2args { SETATTR2args_fhandle : list Z; SETATTR2args_attributes : sattr2 }.
#[global] Instance SETATTR2args_inhabited : Inhabited SETATTR2args := populate (mk_SETATTR2args inhabitant inhabitant).
#[global] Instance SETATTR2args_fhandle_field : Field SETATTR2args_fhandle := updates SETATTR2args_fhandle (fun (o : SETATTR2args) v =>
  mk_SETATTR2args v (SETATTR2args_attributes o)).
#[global] Instance SETATTR2args_attributes_field : Field SETATTR2args_attributes := updates SETATTR2args_attributes (fun (o : SETATTR2args) v =>
  mk_SETATTR2args (SETATTR2args_fhandle o) v).

Record SETATTR2resok : Type := mk_SETATTR2resok { SETATTR2resok_attributes : fattr2 }.
#[global] Instance SETATTR2resok_inhabited : Inhabited SETATTR2resok := populate (mk_SETATTR2resok inhabitant).
#[global] Instance SETATTR2resok_attributes_field : Field SETATTR2resok_attributes := updates SETATTR2resok_attributes (fun (o : SETATTR2resok) v =>
  mk_SETATTR2resok v).

Inductive SETATTR2res_union : Type :=
| SETATTR2res_is_resok (v : SETATTR2resok)
| SETATTR2res_none.
Record SETATTR2res : Type := mk_SETATTR2res { SETATTR2res_status : Z; SETATTR2res_u : SETATTR2res_union }.
#[global] Instance SETATTR2res_inhabited : Inhabited SETATTR2res := populate (mk_SETATTR2res inhabitant SETATTR2res_none).
#[global] Instance SETATTR2res_status_field : Field SETATTR2res_status := updates SETATTR2res_status (fun (o : SETATTR2res) v => mk_SETATTR2res v
  (SETATTR2res_u o)).
Definition SETATTR2res_resok (o : SETATTR2res) : option SETATTR2resok := match SETATTR2res_u o with SETATTR2res_is_resok v => Some v | _ => None end.
#[global] Instance SETATTR2res_resok_arm : Arm SETATTR2res_resok := activates SETATTR2res_resok (fun o v => mk_SETATTR2res (SETATTR2res_status o)
  (SETATTR2res_is_resok v)).
Definition clear_SETATTR2res (o : SETATTR2res) : SETATTR2res := mk_SETATTR2res (SETATTR2res_status o) SETATTR2res_none.

Record LOOKUP2args : Type := mk_LOOKUP2args { LOOKUP2args_what : diropargs2 }.
#[global] Instance LOOKUP2args_inhabited : Inhabited LOOKUP2args := populate (mk_LOOKUP2args inhabitant).
#[global] Instance LOOKUP2args_what_field : Field LOOKUP2args_what := updates LOOKUP2args_what (fun (o : LOOKUP2args) v => mk_LOOKUP2args v).

Record LOOKUP2resok : Type := mk_LOOKUP2resok { LOOKUP2resok_file : list Z; LOOKUP2resok_attributes : fattr2 }.
#[global] Instance LOOKUP2resok_inhabited : Inhabited LOOKUP2resok := populate (mk_LOOKUP2resok inhabitant inhabitant).
#[global] Instance LOOKUP2resok_file_field : Field LOOKUP2resok_file := updates LOOKUP2resok_file (fun (o : LOOKUP2resok) v => mk_LOOKUP2resok v
  (LOOKUP2resok_attributes o)).
#[global] Instance LOOKUP2resok_attributes_field : Field LOOKUP2resok_attributes := updates LOOKUP2resok_attributes (fun (o : LOOKUP2resok) v =>
  mk_LOOKUP2resok (LOOKUP2resok_file o) v).

Inductive LOOKUP2res_union : Type :=
| LOOKUP2res_is_resok (v : LOOKUP2resok)
| LOOKUP2res_none.
Record LOOKUP2res : Type := mk_LOOKUP2res { LOOKUP2res_status : Z; LOOKUP2res_u : LOOKUP2res_union }.
#[global] Instance LOOKUP2res_inhabited : Inhabited LOOKUP2res := populate (mk_LOOKUP2res inhabitant LOOKUP2res_none).
#[global] Instance LOOKUP2res_status_field : Field LOOKUP2res_status := updates LOOKUP2res_status (fun (o : LOOKUP2res) v => mk_LOOKUP2res v
  (LOOKUP2res_u o)).
Definition LOOKUP2res_resok (o : LOOKUP2res) : option LOOKUP2resok := match LOOKUP2res_u o with LOOKUP2res_is_resok v => Some v | _ => None end.
#[global] Instance LOOKUP2res_resok_arm : Arm LOOKUP2res_resok := activates LOOKUP2res_resok (fun o v => mk_LOOKUP2res (LOOKUP2res_status o)
  (LOOKUP2res_is_resok v)).
Definition clear_LOOKUP2res (o : LOOKUP2res) : LOOKUP2res := mk_LOOKUP2res (LOOKUP2res_status o) LOOKUP2res_none.

Record READLINK2args : Type := mk_READLINK2args { READLINK2args_file : list Z }.
#[global] Instance READLINK2args_inhabited : Inhabited READLINK2args := populate (mk_READLINK2args inhabitant).
#[global] Instance READLINK2args_file_field : Field READLINK2args_file := updates READLINK2args_file (fun (o : READLINK2args) v => mk_READLINK2args
  v).

Record READLINK2resok : Type := mk_READLINK2resok { READLINK2resok_data : xdr_string_t }.
#[global] Instance READLINK2resok_inhabited : Inhabited READLINK2resok := populate (mk_READLINK2resok inhabitant).
#[global] Instance READLINK2resok_data_field : Field READLINK2resok_data := updates READLINK2resok_data (fun (o : READLINK2resok) v =>
  mk_READLINK2resok v).

Inductive READLINK2res_union : Type :=
| READLINK2res_is_resok (v : READLINK2resok)
| READLINK2res_none.
Record READLINK2res : Type := mk_READLINK2res { READLINK2res_status : Z; READLINK2res_u : READLINK2res_union }.
#[global] Instance READLINK2res_inhabited : Inhabited READLINK2res := populate (mk_READLINK2res inhabitant READLINK2res_none).
#[global] Instance READLINK2res_status_field : Field READLINK2res_status := updates READLINK2res_status (fun (o : READLINK2res) v => mk_READLINK2res v
  (READLINK2res_u o)).
Definition READLINK2res_resok (o : READLINK2res) : option READLINK2resok := match READLINK2res_u o with READLINK2res_is_resok v => Some v | _ => None
  end.
#[global] Instance READLINK2res_resok_arm : Arm READLINK2res_resok := activates READLINK2res_resok (fun o v => mk_READLINK2res (READLINK2res_status o)
  (READLINK2res_is_resok v)).
Definition clear_READLINK2res (o : READLINK2res) : READLINK2res := mk_READLINK2res (READLINK2res_status o) READLINK2res_none.

Record READ2args : Type := mk_READ2args { READ2args_file : list Z; READ2args_offset : Z; READ2args_count : Z; READ2args_totalcount : Z }.
#[global] Instance READ2args_inhabited : Inhabited READ2args := populate (mk_READ2args inhabitant inhabitant inhabitant inhabitant).
#[global] Instance READ2args_file_field : Field READ2args_file := updates READ2args_file (fun (o : READ2args) v => mk_READ2args v (READ2args_offset o)
  (READ2args_count o) (READ2args_totalcount o)).
#[global] Instance READ2args_offset_field : Field READ2args_offset := updates READ2args_offset (fun (o : READ2args) v => mk_READ2args (READ2args_file
  o) v (READ2args_count o) (READ2args_totalcount o)).
#[global] Instance READ2args_count_field : Field READ2args_count := updates READ2args_count (fun (o : READ2args) v => mk_READ2args (READ2args_file o)
  (READ2args_offset o) v (READ2args_totalcount o)).
#[global] Instance READ2args_totalcount_field : Field READ2args_totalcount := updates READ2args_totalcount (fun (o : READ2args) v => mk_READ2args
  (READ2args_file o) (READ2args_offset o) (READ2args_count o) v).

Record READ2resok : Type := mk_READ2resok { READ2resok_attributes : fattr2; READ2resok_data : xdr_string_t }.
#[global] Instance READ2resok_inhabited : Inhabited READ2resok := populate (mk_READ2resok inhabitant inhabitant).
#[global] Instance READ2resok_attributes_field : Field READ2resok_attributes := updates READ2resok_attributes (fun (o : READ2resok) v => mk_READ2resok
  v (READ2resok_data o)).
#[global] Instance READ2resok_data_field : Field READ2resok_data := updates READ2resok_data (fun (o : READ2resok) v => mk_READ2resok
  (READ2resok_attributes o) v).

Inductive READ2res_union : Type :=
| READ2res_is_resok (v : READ2resok)
| READ2res_none.
Record READ2res : Type := mk_READ2res { READ2res_status : Z; READ2res_u : READ2res_union }.
#[global] Instance READ2res_inhabited : Inhabited READ2res := populate (mk_READ2res inhabitant READ2res_none).
#[global] Instance READ2res_status_field : Field READ2res_status := updates READ2res_status (fun (o : READ2res) v => mk_READ2res v (READ2res_u o)).
Definition READ2res_resok (o : READ2res) : option READ2resok := match READ2res_u o with READ2res_is_resok v => Some v | _ => None end.
#[global] Instance READ2res_resok_arm : Arm READ2res_resok := activates READ2res_resok (fun o v => mk_READ2res (READ2res_status o) (READ2res_is_resok
  v)).
Definition clear_READ2res (o : READ2res) : READ2res := mk_READ2res (READ2res_status o) READ2res_none.

Record WRITE2args : Type := mk_WRITE2args { WRITE2args_file : list Z; WRITE2args_beginoffset : Z; WRITE2args_offset : Z; WRITE2args_totalcount : Z;
  WRITE2args_data : xdr_string_t }.
#[global] Instance WRITE2args_inhabited : Inhabited WRITE2args := populate (mk_WRITE2args inhabitant inhabitant inhabitant inhabitant inhabitant).
#[global] Instance WRITE2args_file_field : Field WRITE2args_file := updates WRITE2args_file (fun (o : WRITE2args) v => mk_WRITE2args v
  (WRITE2args_beginoffset o) (WRITE2args_offset o) (WRITE2args_totalcount o) (WRITE2args_data o)).
#[global] Instance WRITE2args_beginoffset_field : Field WRITE2args_beginoffset := updates WRITE2args_beginoffset (fun (o : WRITE2args) v =>
  mk_WRITE2args (WRITE2args_file o) v (WRITE2args_offset o) (WRITE2args_totalcount o) (WRITE2args_data o)).
#[global] Instance WRITE2args_offset_field : Field WRITE2args_offset := updates WRITE2args_offset (fun (o : WRITE2args) v => mk_WRITE2args
  (WRITE2args_file o) (WRITE2args_beginoffset o) v (WRITE2args_totalcount o) (WRITE2args_data o)).
#[global] Instance WRITE2args_totalcount_field : Field WRITE2args_totalcount := updates WRITE2args_totalcount (fun (o : WRITE2args) v => mk_WRITE2args
  (WRITE2args_file o) (WRITE2args_beginoffset o) (WRITE2args_offset o) v (WRITE2args_data o)).
#[global] Instance WRITE2args_data_field : Field WRITE2args_data := updates WRITE2args_data (fun (o : WRITE2args) v => mk_WRITE2args (WRITE2args_file
  o) (WRITE2args_beginoffset o) (WRITE2args_offset o) (WRITE2args_totalcount o) v).

Record WRITE2resok : Type := mk_WRITE2resok { WRITE2resok_attributes : fattr2 }.
#[global] Instance WRITE2resok_inhabited : Inhabited WRITE2resok := populate (mk_WRITE2resok inhabitant).
#[global] Instance WRITE2resok_attributes_field : Field WRITE2resok_attributes := updates WRITE2resok_attributes (fun (o : WRITE2resok) v =>
  mk_WRITE2resok v).

Inductive WRITE2res_union : Type :=
| WRITE2res_is_resok (v : WRITE2resok)
| WRITE2res_none.
Record WRITE2res : Type := mk_WRITE2res { WRITE2res_status : Z; WRITE2res_u : WRITE2res_union }.
#[global] Instance WRITE2res_inhabited : Inhabited WRITE2res := populate (mk_WRITE2res inhabitant WRITE2res_none).
#[global] Instance WRITE2res_status_field : Field WRITE2res_status := updates WRITE2res_status (fun (o : WRITE2res) v => mk_WRITE2res v (WRITE2res_u
  o)).
Definition WRITE2res_resok (o : WRITE2res) : option WRITE2resok := match WRITE2res_u o with WRITE2res_is_resok v => Some v | _ => None end.
#[global] Instance WRITE2res_resok_arm : Arm WRITE2res_resok := activates WRITE2res_resok (fun o v => mk_WRITE2res (WRITE2res_status o)
  (WRITE2res_is_resok v)).
Definition clear_WRITE2res (o : WRITE2res) : WRITE2res := mk_WRITE2res (WRITE2res_status o) WRITE2res_none.

Record CREATE2args : Type := mk_CREATE2args { CREATE2args_where : diropargs2; CREATE2args_attributes : sattr2 }.
#[global] Instance CREATE2args_inhabited : Inhabited CREATE2args := populate (mk_CREATE2args inhabitant inhabitant).
#[global] Instance CREATE2args_where_field : Field CREATE2args_where := updates CREATE2args_where (fun (o : CREATE2args) v => mk_CREATE2args v
  (CREATE2args_attributes o)).
#[global] Instance CREATE2args_attributes_field : Field CREATE2args_attributes := updates CREATE2args_attributes (fun (o : CREATE2args) v =>
  mk_CREATE2args (CREATE2args_where o) v).

Record CREATE2resok : Type := mk_CREATE2resok { CREATE2resok_file : list Z; CREATE2resok_attributes : fattr2 }.
#[global] Instance CREATE2resok_inhabited : Inhabited CREATE2resok := populate (mk_CREATE2resok inhabitant inhabitant).
#[global] Instance CREATE2resok_file_field : Field CREATE2resok_file := updates CREATE2resok_file (fun (o : CREATE2resok) v => mk_CREATE2resok v
  (CREATE2resok_attributes o)).
#[global] Instance CREATE2resok_attributes_field : Field CREATE2resok_attributes := updates CREATE2resok_attributes (fun (o : CREATE2resok) v =>
  mk_CREATE2resok (CREATE2resok_file o) v).

Inductive CREATE2res_union : Type :=
| CREATE2res_is_resok (v : CREATE2resok)
| CREATE2res_none.
Record CREATE2res : Type := mk_CREATE2res { CREATE2res_status : Z; CREATE2res_u : CREATE2res_union }.
#[global] Instance CREATE2res_inhabited : Inhabited CREATE2res := populate (mk_CREATE2res inhabitant CREATE2res_none).
#[global] Instance CREATE2res_status_field : Field CREATE2res_status := updates CREATE2res_status (fun (o : CREATE2res) v => mk_CREATE2res v
  (CREATE2res_u o)).
Definition CREATE2res_resok (o : CREATE2res) : option CREATE2resok := match CREATE2res_u o with CREATE2res_is_resok v => Some v | _ => None end.
#[global] Instance CREATE2res_resok_arm : Arm CREATE2res_resok := activates CREATE2res_resok (fun o v => mk_CREATE2res (CREATE2res_status o)
  (CREATE2res_is_resok v)).
Definition clear_CREATE2res (o : CREATE2res) : CREATE2res := mk_CREATE2res (CREATE2res_status o) CREATE2res_none.

Record REMOVE2args : Type := mk_REMOVE2args { REMOVE2args_what : diropargs2 }.
#[global] Instance REMOVE2args_inhabited : Inhabited REMOVE2args := populate (mk_REMOVE2args inhabitant).
#[global] Instance REMOVE2args_what_field : Field REMOVE2args_what := updates REMOVE2args_what (fun (o : REMOVE2args) v => mk_REMOVE2args v).

Record REMOVE2res : Type := mk_REMOVE2res { REMOVE2res_status : Z }.
#[global] Instance REMOVE2res_inhabited : Inhabited REMOVE2res := populate (mk_REMOVE2res inhabitant).
#[global] Instance REMOVE2res_status_field : Field REMOVE2res_status := updates REMOVE2res_status (fun (o : REMOVE2res) v => mk_REMOVE2res v).

Record RENAME2args : Type := mk_RENAME2args { RENAME2args_from : diropargs2; RENAME2args_to : diropargs2 }.
#[global] Instance RENAME2args_inhabited : Inhabited RENAME2args := populate (mk_RENAME2args inhabitant inhabitant).
#[global] Instance RENAME2args_from_field : Field RENAME2args_from := updates RENAME2args_from (fun (o : RENAME2args) v => mk_RENAME2args v
  (RENAME2args_to o)).
#[global] Instance RENAME2args_to_field : Field RENAME2args_to := updates RENAME2args_to (fun (o : RENAME2args) v => mk_RENAME2args (RENAME2args_from
  o) v).

Record RENAME2res : Type := mk_RENAME2res { RENAME2res_status : Z }.
#[global] Instance RENAME2res_inhabited : Inhabited RENAME2res := populate (mk_RENAME2res inhabitant).
#[global] Instance RENAME2res_status_field : Field RENAME2res_status := updates RENAME2res_status (fun (o : RENAME2res) v => mk_RENAME2res v).

Record LINK2args : Type := mk_LINK2args { LINK2args_from : list Z; LINK2args_to : diropargs2 }.
#[global] Instance LINK2args_inhabited : Inhabited LINK2args := populate (mk_LINK2args inhabitant inhabitant).
#[global] Instance LINK2args_from_field : Field LINK2args_from := updates LINK2args_from (fun (o : LINK2args) v => mk_LINK2args v (LINK2args_to o)).
#[global] Instance LINK2args_to_field : Field LINK2args_to := updates LINK2args_to (fun (o : LINK2args) v => mk_LINK2args (LINK2args_from o) v).

Record LINK2res : Type := mk_LINK2res { LINK2res_status : Z }.
#[global] Instance LINK2res_inhabited : Inhabited LINK2res := populate (mk_LINK2res inhabitant).
#[global] Instance LINK2res_status_field : Field LINK2res_status := updates LINK2res_status (fun (o : LINK2res) v => mk_LINK2res v).

Record SYMLINK2args : Type := mk_SYMLINK2args { SYMLINK2args_from : diropargs2; SYMLINK2args_to : xdr_string_t; SYMLINK2args_attributes : sattr2 }.
#[global] Instance SYMLINK2args_inhabited : Inhabited SYMLINK2args := populate (mk_SYMLINK2args inhabitant inhabitant inhabitant).
#[global] Instance SYMLINK2args_from_field : Field SYMLINK2args_from := updates SYMLINK2args_from (fun (o : SYMLINK2args) v => mk_SYMLINK2args v
  (SYMLINK2args_to o) (SYMLINK2args_attributes o)).
#[global] Instance SYMLINK2args_to_field : Field SYMLINK2args_to := updates SYMLINK2args_to (fun (o : SYMLINK2args) v => mk_SYMLINK2args
  (SYMLINK2args_from o) v (SYMLINK2args_attributes o)).
#[global] Instance SYMLINK2args_attributes_field : Field SYMLINK2args_attributes := updates SYMLINK2args_attributes (fun (o : SYMLINK2args) v =>
  mk_SYMLINK2args (SYMLINK2args_from o) (SYMLINK2args_to o) v).

Record SYMLINK2res : Type := mk_SYMLINK2res { SYMLINK2res_status : Z }.
#[global] Instance SYMLINK2res_inhabited : Inhabited SYMLINK2res := populate (mk_SYMLINK2res inhabitant).
#[global] Instance SYMLINK2res_status_field : Field SYMLINK2res_status := updates SYMLINK2res_status (fun (o : SYMLINK2res) v => mk_SYMLINK2res v).

Record MKDIR2args : Type := mk_MKDIR2args { MKDIR2args_where : diropargs2; MKDIR2args_attributes : sattr2 }.
#[global] Instance MKDIR2args_inhabited : Inhabited MKDIR2args := populate (mk_MKDIR2args inhabitant inhabitant).
#[global] Instance MKDIR2args_where_field : Field MKDIR2args_where := updates MKDIR2args_where (fun (o : MKDIR2args) v => mk_MKDIR2args v
  (MKDIR2args_attributes o)).
#[global] Instance MKDIR2args_attributes_field : Field MKDIR2args_attributes := updates MKDIR2args_attributes (fun (o : MKDIR2args) v => mk_MKDIR2args
  (MKDIR2args_where o) v).

Record MKDIR2resok : Type := mk_MKDIR2resok { MKDIR2resok_file : list Z; MKDIR2resok_attributes : fattr2 }.
#[global] Instance MKDIR2resok_inhabited : Inhabited MKDIR2resok := populate (mk_MKDIR2resok inhabitant inhabitant).
#[global] Instance MKDIR2resok_file_field : Field MKDIR2resok_file := updates MKDIR2resok_file (fun (o : MKDIR2resok) v => mk_MKDIR2resok v
  (MKDIR2resok_attributes o)).
#[global] Instance MKDIR2resok_attributes_field : Field MKDIR2resok_attributes := updates MKDIR2resok_attributes (fun (o : MKDIR2resok) v =>
  mk_MKDIR2resok (MKDIR2resok_file o) v).

Inductive MKDIR2res_union : Type :=
| MKDIR2res_is_resok (v : MKDIR2resok)
| MKDIR2res_none.
Record MKDIR2res : Type := mk_MKDIR2res { MKDIR2res_status : Z; MKDIR2res_u : MKDIR2res_union }.
#[global] Instance MKDIR2res_inhabited : Inhabited MKDIR2res := populate (mk_MKDIR2res inhabitant MKDIR2res_none).
#[global] Instance MKDIR2res_status_field : Field MKDIR2res_status := updates MKDIR2res_status (fun (o : MKDIR2res) v => mk_MKDIR2res v (MKDIR2res_u
  o)).
Definition MKDIR2res_resok (o : MKDIR2res) : option MKDIR2resok := match MKDIR2res_u o with MKDIR2res_is_resok v => Some v | _ => None end.
#[global] Instance MKDIR2res_resok_arm : Arm MKDIR2res_resok := activates MKDIR2res_resok (fun o v => mk_MKDIR2res (MKDIR2res_status o)
  (MKDIR2res_is_resok v)).
Definition clear_MKDIR2res (o : MKDIR2res) : MKDIR2res := mk_MKDIR2res (MKDIR2res_status o) MKDIR2res_none.

Record RMDIR2args : Type := mk_RMDIR2args { RMDIR2args_what : diropargs2 }.
#[global] Instance RMDIR2args_inhabited : Inhabited RMDIR2args := populate (mk_RMDIR2args inhabitant).
#[global] Instance RMDIR2args_what_field : Field RMDIR2args_what := updates RMDIR2args_what (fun (o : RMDIR2args) v => mk_RMDIR2args v).

Record RMDIR2res : Type := mk_RMDIR2res { RMDIR2res_status : Z }.
#[global] Instance RMDIR2res_inhabited : Inhabited RMDIR2res := populate (mk_RMDIR2res inhabitant).
#[global] Instance RMDIR2res_status_field : Field RMDIR2res_status := updates RMDIR2res_status (fun (o : RMDIR2res) v => mk_RMDIR2res v).

Record READDIR2args : Type := mk_READDIR2args { READDIR2args_dir : list Z; READDIR2args_cookie : list Z; READDIR2args_count : Z }.
#[global] Instance READDIR2args_inhabited : Inhabited READDIR2args := populate (mk_READDIR2args inhabitant inhabitant inhabitant).
#[global] Instance READDIR2args_dir_field : Field READDIR2args_dir := updates READDIR2args_dir (fun (o : READDIR2args) v => mk_READDIR2args v
  (READDIR2args_cookie o) (READDIR2args_count o)).
#[global] Instance READDIR2args_cookie_field : Field READDIR2args_cookie := updates READDIR2args_cookie (fun (o : READDIR2args) v => mk_READDIR2args
  (READDIR2args_dir o) v (READDIR2args_count o)).
#[global] Instance READDIR2args_count_field : Field READDIR2args_count := updates READDIR2args_count (fun (o : READDIR2args) v => mk_READDIR2args
  (READDIR2args_dir o) (READDIR2args_cookie o) v).

Record READDIR2resok : Type := mk_READDIR2resok { READDIR2resok_entries : option entry2; READDIR2resok_eof : Z }.
#[global] Instance READDIR2resok_inhabited : Inhabited READDIR2resok := populate (mk_READDIR2resok inhabitant inhabitant).
#[global] Instance READDIR2resok_entries_field : Field READDIR2resok_entries := updates READDIR2resok_entries (fun (o : READDIR2resok) v =>
  mk_READDIR2resok v (READDIR2resok_eof o)).
#[global] Instance READDIR2resok_eof_field : Field READDIR2resok_eof := updates READDIR2resok_eof (fun (o : READDIR2resok) v => mk_READDIR2resok
  (READDIR2resok_entries o) v).

Inductive READDIR2res_union : Type :=
| READDIR2res_is_resok (v : READDIR2resok)
| READDIR2res_none.
Record READDIR2res : Type := mk_READDIR2res { READDIR2res_status : Z; READDIR2res_u : READDIR2res_union }.
#[global] Instance READDIR2res_inhabited : Inhabited READDIR2res := populate (mk_READDIR2res inhabitant READDIR2res_none).
#[global] Instance READDIR2res_status_field : Field READDIR2res_status := updates READDIR2res_status (fun (o : READDIR2res) v => mk_READDIR2res v
  (READDIR2res_u o)).
Definition READDIR2res_resok (o : READDIR2res) : option READDIR2resok := match READDIR2res_u o with READDIR2res_is_resok v => Some v | _ => None end.
#[global] Instance READDIR2res_resok_arm : Arm READDIR2res_resok := activates READDIR2res_resok (fun o v => mk_READDIR2res (READDIR2res_status o)
  (READDIR2res_is_resok v)).
Definition clear_READDIR2res (o : READDIR2res) : READDIR2res := mk_READDIR2res (READDIR2res_status o) READDIR2res_none.

Record STATFS2args : Type := mk_STATFS2args { STATFS2args_dir : list Z }.
#[global] Instance STATFS2args_inhabited : Inhabited STATFS2args := populate (mk_STATFS2args inhabitant).
#[global] Instance STATFS2args_dir_field : Field STATFS2args_dir := updates STATFS2args_dir (fun (o : STATFS2args) v => mk_STATFS2args v).

Record STATFS2resok : Type := mk_STATFS2resok { STATFS2resok_tsize : Z; STATFS2resok_bsize : Z; STATFS2resok_blocks : Z; STATFS2resok_bfree : Z;
  STATFS2resok_bavail : Z }.
#[global] Instance STATFS2resok_inhabited : Inhabited STATFS2resok := populate (mk_STATFS2resok inhabitant inhabitant inhabitant inhabitant
  inhabitant).
#[global] Instance STATFS2resok_tsize_field : Field STATFS2resok_tsize := updates STATFS2resok_tsize (fun (o : STATFS2resok) v => mk_STATFS2resok v
  (STATFS2resok_bsize o) (STATFS2resok_blocks o) (STATFS2resok_bfree o) (STATFS2resok_bavail o)).
#[global] Instance STATFS2resok_bsize_field : Field STATFS2resok_bsize := updates STATFS2resok_bsize (fun (o : STATFS2resok) v => mk_STATFS2resok
  (STATFS2resok_tsize o) v (STATFS2resok_blocks o) (STATFS2resok_bfree o) (STATFS2resok_bavail o)).
#[global] Instance STATFS2resok_blocks_field : Field STATFS2resok_blocks := updates STATFS2resok_blocks (fun (o : STATFS2resok) v => mk_STATFS2resok
  (STATFS2resok_tsize o) (STATFS2resok_bsize o) v (STATFS2resok_bfree o) (STATFS2resok_bavail o)).
#[global] Instance STATFS2resok_bfree_field : Field STATFS2resok_bfree := updates STATFS2resok_bfree (fun (o : STATFS2resok) v => mk_STATFS2resok
  (STATFS2resok_tsize o) (STATFS2resok_bsize o) (STATFS2resok_blocks o) v (STATFS2resok_bavail o)).
#[global] Instance STATFS2resok_bavail_field : Field STATFS2resok_bavail := updates STATFS2resok_bavail (fun (o : STATFS2resok) v => mk_STATFS2resok
  (STATFS2resok_tsize o) (STATFS2resok_bsize o) (STATFS2resok_blocks o) (STATFS2resok_bfree o) v).

Inductive STATFS2res_union : Type :=
| STATFS2res_is_resok (v : STATFS2resok)
| STATFS2res_none.
Record STATFS2res : Type := mk_STATFS2res { STATFS2res_status : Z; STATFS2res_u : STATFS2res_union }.
#[global] Instance STATFS2res_inhabited : Inhabited STATFS2res := populate (mk_STATFS2res inhabitant STATFS2res_none).
#[global] Instance STATFS2res_status_field : Field STATFS2res_status := updates STATFS2res_status (fun (o : STATFS2res) v => mk_STATFS2res v
  (STATFS2res_u o)).
Definition STATFS2res_resok (o : STATFS2res) : option STATFS2resok := match STATFS2res_u o with STATFS2res_is_resok v => Some v | _ => None end.
#[global] Instance STATFS2res_resok_arm : Arm STATFS2res_resok := activates STATFS2res_resok (fun o v => mk_STATFS2res (STATFS2res_status o)
  (STATFS2res_is_resok v)).
Definition clear_STATFS2res (o : STATFS2res) : STATFS2res := mk_STATFS2res (STATFS2res_status o) STATFS2res_none.

Record nfsacl_ace : Type := mk_nfsacl_ace { nfsacl_ace_type : Z; nfsacl_ace_id : Z; nfsacl_ace_perm : Z }.
#[global] Instance nfsacl_ace_inhabited : Inhabited nfsacl_ace := populate (mk_nfsacl_ace inhabitant inhabitant inhabitant).
#[global] Instance nfsacl_ace_type_field : Field nfsacl_ace_type := updates nfsacl_ace_type (fun (o : nfsacl_ace) v => mk_nfsacl_ace v (nfsacl_ace_id
  o) (nfsacl_ace_perm o)).
#[global] Instance nfsacl_ace_id_field : Field nfsacl_ace_id := updates nfsacl_ace_id (fun (o : nfsacl_ace) v => mk_nfsacl_ace (nfsacl_ace_type o) v
  (nfsacl_ace_perm o)).
#[global] Instance nfsacl_ace_perm_field : Field nfsacl_ace_perm := updates nfsacl_ace_perm (fun (o : nfsacl_ace) v => mk_nfsacl_ace (nfsacl_ace_type
  o) (nfsacl_ace_id o) v).

Record GETACL3args : Type := mk_GETACL3args { GETACL3args_dir : xdr_string_t; GETACL3args_mask : Z }.
#[global] Instance GETACL3args_inhabited : Inhabited GETACL3args := populate (mk_GETACL3args inhabitant inhabitant).
#[global] Instance GETACL3args_dir_field : Field GETACL3args_dir := updates GETACL3args_dir (fun (o : GETACL3args) v => mk_GETACL3args v
  (GETACL3args_mask o)).
#[global] Instance GETACL3args_mask_field : Field GETACL3args_mask := updates GETACL3args_mask (fun (o : GETACL3args) v => mk_GETACL3args
  (GETACL3args_dir o) v).

Record GETACL3resok : Type := mk_GETACL3resok { GETACL3resok_attr : post_op_attr; GETACL3resok_mask : Z; GETACL3resok_ace_count : Z; GETACL3resok_ace
  : list nfsacl_ace; GETACL3resok_default_ace_count : Z; GETACL3resok_default_ace : list nfsacl_ace }.
#[global] Instance GETACL3resok_inhabited : Inhabited GETACL3resok := populate (mk_GETACL3resok inhabitant inhabitant inhabitant inhabitant inhabitant
  inhabitant).
#[global] Instance GETACL3resok_attr_field : Field GETACL3resok_attr := updates GETACL3resok_attr (fun (o : GETACL3resok) v => mk_GETACL3resok v
  (GETACL3resok_mask o) (GETACL3resok_ace_count o) (GETACL3resok_ace o) (GETACL3resok_default_ace_count o) (GETACL3resok_default_ace o)).
#[global] Instance GETACL3resok_mask_field : Field GETACL3resok_mask := updates GETACL3resok_mask (fun (o : GETACL3resok) v => mk_GETACL3resok
  (GETACL3resok_attr o) v (GETACL3resok_ace_count o) (GETACL3resok_ace o) (GETACL3resok_default_ace_count o) (GETACL3resok_default_ace o)).
#[global] Instance GETACL3resok_ace_count_field : Field GETACL3resok_ace_count := updates GETACL3resok_ace_count (fun (o : GETACL3resok) v =>
  mk_GETACL3resok (GETACL3resok_attr o) (GETACL3resok_mask o) v (GETACL3resok_ace o) (GETACL3resok_default_ace_count o) (GETACL3resok_default_ace o)).
#[global] Instance GETACL3resok_ace_field : Field GETACL3resok_ace := updates GETACL3resok_ace (fun (o : GETACL3resok) v => mk_GETACL3resok
  (GETACL3resok_attr o) (GETACL3resok_mask o) (GETACL3resok_ace_count o) v (GETACL3resok_default_ace_count o) (GETACL3resok_default_ace o)).
#[global] Instance GETACL3resok_default_ace_count_field : Field GETACL3resok_default_ace_count := updates GETACL3resok_default_ace_count (fun (o :
  GETACL3resok) v => mk_GETACL3resok (GETACL3resok_attr o) (GETACL3resok_mask o) (GETACL3resok_ace_count o) (GETACL3resok_ace o) v
  (GETACL3resok_default_ace o)).
#[global] Instance GETACL3resok_default_ace_field : Field GETACL3resok_default_ace := updates GETACL3resok_default_ace (fun (o : GETACL3resok) v =>
  mk_GETACL3resok (GETACL3resok_attr o) (GETACL3resok_mask o) (GETACL3resok_ace_count o) (GETACL3resok_ace o) (GETACL3resok_default_ace_count o) v).

Inductive GETACL3res_union : Type :=
| GETACL3res_is_resok (v : GETACL3resok)
| GETACL3res_none.
Record GETACL3res : Type := mk_GETACL3res { GETACL3res_status : Z; GETACL3res_u : GETACL3res_union }.
#[global] Instance GETACL3res_inhabited : Inhabited GETACL3res := populate (mk_GETACL3res inhabitant GETACL3res_none).
#[global] Instance GETACL3res_status_field : Field GETACL3res_status := updates GETACL3res_status (fun (o : GETACL3res) v => mk_GETACL3res v
  (GETACL3res_u o)).
Definition GETACL3res_resok (o : GETACL3res) : option GETACL3resok := match GETACL3res_u o with GETACL3res_is_resok v => Some v | _ => None end.
#[global] Instance GETACL3res_resok_arm : Arm GETACL3res_resok := activates GETACL3res_resok (fun o v => mk_GETACL3res (GETACL3res_status o)
  (GETACL3res_is_resok v)).
Definition clear_GETACL3res (o : GETACL3res) : GETACL3res := mk_GETACL3res (GETACL3res_status o) GETACL3res_none.

Record SETACL3args : Type := mk_SETACL3args { SETACL3args_dir : xdr_string_t; SETACL3args_mask : Z; SETACL3args_ace_count : Z; SETACL3args_ace : list
  nfsacl_ace; SETACL3args_default_ace_count : Z; SETACL3args_default_ace : list nfsacl_ace }.
#[global] Instance SETACL3args_inhabited : Inhabited SETACL3args := populate (mk_SETACL3args inhabitant inhabitant inhabitant inhabitant inhabitant
  inhabitant).
#[global] Instance SETACL3args_dir_field : Field SETACL3args_dir := updates SETACL3args_dir (fun (o : SETACL3args) v => mk_SETACL3args v
  (SETACL3args_mask o) (SETACL3args_ace_count o) (SETACL3args_ace o) (SETACL3args_default_ace_count o) (SETACL3args_default_ace o)).
#[global] Instance SETACL3args_mask_field : Field SETACL3args_mask := updates SETACL3args_mask (fun (o : SETACL3args) v => mk_SETACL3args
  (SETACL3args_dir o) v (SETACL3args_ace_count o) (SETACL3args_ace o) (SETACL3args_default_ace_count o) (SETACL3args_default_ace o)).
#[global] Instance SETACL3args_ace_count_field : Field SETACL3args_ace_count := updates SETACL3args_ace_count (fun (o : SETACL3args) v =>
  mk_SETACL3args (SETACL3args_dir o) (SETACL3args_mask o) v (SETACL3args_ace o) (SETACL3args_default_ace_count o) (SETACL3args_default_ace o)).
#[global] Instance SETACL3args_ace_field : Field SETACL3args_ace := updates SETACL3args_ace (fun (o : SETACL3args) v => mk_SETACL3args
  (SETACL3args_dir o) (SETACL3args_mask o) (SETACL3args_ace_count o) v (SETACL3args_default_ace_count o) (SETACL3args_default_ace o)).
#[global] Instance SETACL3args_default_ace_count_field : Field SETACL3args_default_ace_count := updates SETACL3args_default_ace_count (fun (o :
  SETACL3args) v => mk_SETACL3args (SETACL3args_dir o) (SETACL3args_mask o) (SETACL3args_ace_count o) (SETACL3args_ace o) v (SETACL3args_default_ace
  o)).
#[global] Instance SETACL3args_default_ace_field : Field SETACL3args_default_ace := updates SETACL3args_default_ace (fun (o : SETACL3args) v =>
  mk_SETACL3args (SETACL3args_dir o) (SETACL3args_mask o) (SETACL3args_ace_count o) (SETACL3args_ace o) (SETACL3args_default_ace_count o) v).

Record SETACL3resok : Type := mk_SETACL3resok { SETACL3resok_attr : post_op_attr }.
#[global] Instance SETACL3resok_inhabited : Inhabited SETACL3resok := populate (mk_SETACL3resok inhabitant).
#[global] Instance SETACL3resok_attr_field : Field SETACL3resok_attr := updates SETACL3resok_attr (fun (o : SETACL3resok) v => mk_SETACL3resok v).

Inductive SETACL3res_union : Type :=
| SETACL3res_is_resok (v : SETACL3resok)
| SETACL3res_none.
Record SETACL3res : Type := mk_SETACL3res { SETACL3res_status : Z; SETACL3res_u : SETACL3res_union }.
#[global] Instance SETACL3res_inhabited : Inhabited SETACL3res := populate (mk_SETACL3res inhabitant SETACL3res_none).
#[global] Instance SETACL3res_status_field : Field SETACL3res_status := updates SETACL3res_status (fun (o : SETACL3res) v => mk_SETACL3res v
  (SETACL3res_u o)).
Definition SETACL3res_resok (o : SETACL3res) : option SETACL3resok := match SETACL3res_u o with SETACL3res_is_resok v => Some v | _ => None end.
#[global] Instance SETACL3res_resok_arm : Arm SETACL3res_resok := activates SETACL3res_resok (fun o v => mk_SETACL3res (SETACL3res_status o)
  (SETACL3res_is_resok v)).
Definition clear_SETACL3res (o : SETACL3res) : SETACL3res := mk_SETACL3res (SETACL3res_status o) SETACL3res_none.

Inductive nfs_mountbody : Type := mk_nfs_mountbody { nfs_mountbody_ml_hostname : xdr_string_t; nfs_mountbody_ml_directory : xdr_string_t;
  nfs_mountbody_ml_next : option nfs_mountbody }.
#[global] Instance nfs_mountbody_inhabited : Inhabited nfs_mountbody := populate (mk_nfs_mountbody inhabitant inhabitant inhabitant).
#[global] Instance nfs_mountbody_ml_hostname_field : Field nfs_mountbody_ml_hostname := updates nfs_mountbody_ml_hostname (fun (o : nfs_mountbody) v
  => mk_nfs_mountbody v (nfs_mountbody_ml_directory o) (nfs_mountbody_ml_next o)).
#[global] Instance nfs_mountbody_ml_directory_field : Field nfs_mountbody_ml_directory := updates nfs_mountbody_ml_directory (fun (o : nfs_mountbody)
  v => mk_nfs_mountbody (nfs_mountbody_ml_hostname o) v (nfs_mountbody_ml_next o)).
Definition set_nfs_mountbody_ml_next (o : nfs_mountbody) (v : (option nfs_mountbody)) : nfs_mountbody := mk_nfs_mountbody (nfs_mountbody_ml_hostname
  o) (nfs_mountbody_ml_directory o) v.
#[global] Instance nfs_mountbody_ml_next_field : Field nfs_mountbody_ml_next := updates nfs_mountbody_ml_next set_nfs_mountbody_ml_next.

Inductive nfs_groupnode : Type := mk_nfs_groupnode { nfs_groupnode_gr_name : xdr_string_t; nfs_groupnode_gr_next : option nfs_groupnode }.
#[global] Instance nfs_groupnode_inhabited : Inhabited nfs_groupnode := populate (mk_nfs_groupnode inhabitant inhabitant).
#[global] Instance nfs_groupnode_gr_name_field : Field nfs_groupnode_gr_name := updates nfs_groupnode_gr_name (fun (o : nfs_groupnode) v =>
  mk_nfs_groupnode v (nfs_groupnode_gr_next o)).
Definition set_nfs_groupnode_gr_next (o : nfs_groupnode) (v : (option nfs_groupnode)) : nfs_groupnode := mk_nfs_groupnode (nfs_groupnode_gr_name o) v.
#[global] Instance nfs_groupnode_gr_next_field : Field nfs_groupnode_gr_next := updates nfs_groupnode_gr_next set_nfs_groupnode_gr_next.

Inductive nfs_exportnode : Type := mk_nfs_exportnode { nfs_exportnode_ex_dir : xdr_string_t; nfs_exportnode_ex_groups : option nfs_groupnode;
  nfs_exportnode_ex_next : option nfs_exportnode }.
#[global] Instance nfs_exportnode_inhabited : Inhabited nfs_exportnode := populate (mk_nfs_exportnode inhabitant inhabitant inhabitant).
#[global] Instance nfs_exportnode_ex_dir_field : Field nfs_exportnode_ex_dir := updates nfs_exportnode_ex_dir (fun (o : nfs_exportnode) v =>
  mk_nfs_exportnode v (nfs_exportnode_ex_groups o) (nfs_exportnode_ex_next o)).
#[global] Instance nfs_exportnode_ex_groups_field : Field nfs_exportnode_ex_groups := updates nfs_exportnode_ex_groups (fun (o : nfs_exportnode) v =>
  mk_nfs_exportnode (nfs_exportnode_ex_dir o) v (nfs_exportnode_ex_next o)).
Definition set_nfs_exportnode_ex_next (o : nfs_exportnode) (v : (option nfs_exportnode)) : nfs_exportnode := mk_nfs_exportnode (nfs_exportnode_ex_dir
  o) (nfs_exportnode_ex_groups o) v.
#[global] Instance nfs_exportnode_ex_next_field : Field nfs_exportnode_ex_next := updates nfs_exportnode_ex_next set_nfs_exportnode_ex_next.

Record nfs_mountres3_ok : Type := mk_nfs_mountres3_ok { nfs_mountres3_ok_fhandle : xdr_string_t; nfs_mountres3_ok_auth_flavors : list Z }.
#[global] Instance nfs_mountres3_ok_inhabited : Inhabited nfs_mountres3_ok := populate (mk_nfs_mountres3_ok inhabitant inhabitant).
#[global] Instance nfs_mountres3_ok_fhandle_field : Field nfs_mountres3_ok_fhandle := updates nfs_mountres3_ok_fhandle (fun (o : nfs_mountres3_ok) v
  => mk_nfs_mountres3_ok v (nfs_mountres3_ok_auth_flavors o)).
#[global] Instance nfs_mountres3_ok_auth_flavors_field : Field nfs_mountres3_ok_auth_flavors := updates nfs_mountres3_ok_auth_flavors (fun (o :
  nfs_mountres3_ok) v => mk_nfs_mountres3_ok (nfs_mountres3_ok_fhandle o) v).

Inductive nfs_mountres3_union : Type :=
| nfs_mountres3_is_mountinfo (v : nfs_mountres3_ok)
| nfs_mountres3_none.
Record nfs_mountres3 : Type := mk_nfs_mountres3 { nfs_mountres3_fhs_status : Z; nfs_mountres3_u : nfs_mountres3_union }.
#[global] Instance nfs_mountres3_inhabited : Inhabited nfs_mountres3 := populate (mk_nfs_mountres3 inhabitant nfs_mountres3_none).
#[global] Instance nfs_mountres3_fhs_status_field : Field nfs_mountres3_fhs_status := updates nfs_mountres3_fhs_status (fun (o : nfs_mountres3) v =>
  mk_nfs_mountres3 v (nfs_mountres3_u o)).
Definition nfs_mountres3_mountinfo (o : nfs_mountres3) : option nfs_mountres3_ok := match nfs_mountres3_u o with nfs_mountres3_is_mountinfo v => Some
  v | _ => None end.
#[global] Instance nfs_mountres3_mountinfo_arm : Arm nfs_mountres3_mountinfo := activates nfs_mountres3_mountinfo (fun o v => mk_nfs_mountres3
  (nfs_mountres3_fhs_status o) (nfs_mountres3_is_mountinfo v)).
Definition clear_nfs_mountres3 (o : nfs_mountres3) : nfs_mountres3 := mk_nfs_mountres3 (nfs_mountres3_fhs_status o) nfs_mountres3_none.

Record nfs_mountres1_ok : Type := mk_nfs_mountres1_ok { nfs_mountres1_ok_fhandle : list Z }.
#[global] Instance nfs_mountres1_ok_inhabited : Inhabited nfs_mountres1_ok := populate (mk_nfs_mountres1_ok inhabitant).
#[global] Instance nfs_mountres1_ok_fhandle_field : Field nfs_mountres1_ok_fhandle := updates nfs_mountres1_ok_fhandle (fun (o : nfs_mountres1_ok) v
  => mk_nfs_mountres1_ok v).

Inductive nfs_mountres1_union : Type :=
| nfs_mountres1_is_mountinfo (v : nfs_mountres1_ok)
| nfs_mountres1_none.
Record nfs_mountres1 : Type := mk_nfs_mountres1 { nfs_mountres1_fhs_status : Z; nfs_mountres1_u : nfs_mountres1_union }.
#[global] Instance nfs_mountres1_inhabited : Inhabited nfs_mountres1 := populate (mk_nfs_mountres1 inhabitant nfs_mountres1_none).
#[global] Instance nfs_mountres1_fhs_status_field : Field nfs_mountres1_fhs_status := updates nfs_mountres1_fhs_status (fun (o : nfs_mountres1) v =>
  mk_nfs_mountres1 v (nfs_mountres1_u o)).
Definition nfs_mountres1_mountinfo (o : nfs_mountres1) : option nfs_mountres1_ok := match nfs_mountres1_u o with nfs_mountres1_is_mountinfo v => Some
  v | _ => None end.
#[global] Instance nfs_mountres1_mountinfo_arm : Arm nfs_mountres1_mountinfo := activates nfs_mountres1_mountinfo (fun o v => mk_nfs_mountres1
  (nfs_mountres1_fhs_status o) (nfs_mountres1_is_mountinfo v)).
Definition clear_nfs_mountres1 (o : nfs_mountres1) : nfs_mountres1 := mk_nfs_mountres1 (nfs_mountres1_fhs_status o) nfs_mountres1_none.

(** * Routines *)

Definition xdr_fhandle2 : xdrproc (list Z) := xdr_opaque FHSIZE2.

Definition xdr_ftype2 : xdrproc Z := xdr_enum.

Definition xdr_fattr2 : xdrproc fattr2 :=
  xdr_ftype2 @ fattr2_type ;;
  xdr_u_int @ fattr2_mode ;;
  xdr_u_int @ fattr2_nlink ;;
  xdr_u_int @ fattr2_uid ;;
  xdr_u_int @ fattr2_gid ;;
  xdr_u_int @ fattr2_size ;;
  xdr_u_int @ fattr2_blocksize ;;
  xdr_u_int @ fattr2_rdev ;;
  xdr_u_int @ fattr2_blocks ;;
  xdr_u_int @ fattr2_fsid ;;
  xdr_u_int @ fattr2_fileid ;;
  xdr_nfstime3 @ fattr2_atime ;;
  xdr_nfstime3 @ fattr2_mtime ;;
  xdr_nfstime3 @ fattr2_ctime ;;
  RETURN_TRUE.

Definition xdr_sattr2 : xdrproc sattr2 :=
  xdr_u_int @ sattr2_mode ;;
  xdr_u_int @ sattr2_uid ;;
  xdr_u_int @ sattr2_gid ;;
  xdr_u_int @ sattr2_size ;;
  xdr_nfstime3 @ sattr2_atime ;;
  xdr_nfstime3 @ sattr2_mtime ;;
  RETURN_TRUE.

Definition xdr_filename2 : xdrproc xdr_string_t := xdr_string MAXNAMLEN2 false.

Definition xdr_path2 : xdrproc xdr_string_t := xdr_string MAXPATHLEN2 false.

Definition xdr_nfsdata2 : xdrproc xdr_string_t := xdr_bytes NFSMAXDATA2 false.

Definition xdr_nfscookie2 : xdrproc (list Z) := xdr_opaque NFSCOOKIESIZE2.

Definition entry2_prefix (K : xdrproc entry2) : xdrproc entry2 :=
  xdr_u_int @ entry2_fileid ;;
  xdr_filename2 @ entry2_name ;;
  xdr_nfscookie2 @ entry2_cookie ;;
  K.
Fixpoint xdr_entry2_fuel (n : nat) : xdrproc entry2 :=
  match n with
  | O => fun _ _ => Err OutOfFuel
  | S n => entry2_prefix ((xdr_pointer set_entry2_nextentry inhabitant "xdr_entry2" (xdr_entry2_fuel n)) @ entry2_nextentry ;; RETURN_TRUE)
  end.
Fixpoint entry2_chain (e : entry2) : list entry2 :=
  match e with mk_entry2 _ _ _ n => e :: match n with Some e => entry2_chain e | None => [] end end.
Definition entry2_entries (o : option entry2) : list entry2 := match o with Some e => entry2_chain e | None => [] end.
(** Every entry takes one level of calls. *)
Definition xdr_entry2 : xdrproc entry2 := fun xdrs objp => xdr_entry2_fuel (S (length (entry2_chain objp))) xdrs objp.

Definition xdr_diropargs2 : xdrproc diropargs2 :=
  xdr_fhandle2 @ diropargs2_dir ;;
  xdr_filename2 @ diropargs2_name ;;
  RETURN_TRUE.

Definition xdr_GETATTR2args : xdrproc GETATTR2args :=
  xdr_fhandle2 @ GETATTR2args_fhandle ;;
  RETURN_TRUE.

Definition xdr_GETATTR2resok : xdrproc GETATTR2resok :=
  xdr_fattr2 @ GETATTR2resok_attributes ;;
  RETURN_TRUE.

Definition xdr_GETATTR2res : xdrproc GETATTR2res :=
  xdr_nfsstat3 @ GETATTR2res_status ;;
  case! NFS3_OK of GETATTR2res_status : (xdr_GETATTR2resok @| GETATTR2res_resok ;; RETURN_TRUE) else
  (no_arm clear_GETATTR2res).

Definition xdr_SETATTR2args : xdrproc SETATTR2args :=
  xdr_fhandle2 @ SETATTR2args_fhandle ;;
  xdr_sattr2 @ SETATTR2args_attributes ;;
  RETURN_TRUE.

Definition xdr_SETATTR2resok : xdrproc SETATTR2resok :=
  xdr_fattr2 @ SETATTR2resok_attributes ;;
  RETURN_TRUE.

Definition xdr_SETATTR2res : xdrproc SETATTR2res :=
  xdr_nfsstat3 @ SETATTR2res_status ;;
  case! NFS3_OK of SETATTR2res_status : (xdr_SETATTR2resok @| SETATTR2res_resok ;; RETURN_TRUE) else
  (no_arm clear_SETATTR2res).

Definition xdr_LOOKUP2args : xdrproc LOOKUP2args :=
  xdr_diropargs2 @ LOOKUP2args_what ;;
  RETURN_TRUE.

Definition xdr_LOOKUP2resok : xdrproc LOOKUP2resok :=
  xdr_fhandle2 @ LOOKUP2resok_file ;;
  xdr_fattr2 @ LOOKUP2resok_attributes ;;
  RETURN_TRUE.

Definition xdr_LOOKUP2res : xdrproc LOOKUP2res :=
  xdr_nfsstat3 @ LOOKUP2res_status ;;
  case! NFS3_OK of LOOKUP2res_status : (xdr_LOOKUP2resok @| LOOKUP2res_resok ;; RETURN_TRUE) else
  (no_arm clear_LOOKUP2res).

Definition xdr_READLINK2args : xdrproc READLINK2args :=
  xdr_fhandle2 @ READLINK2args_file ;;
  RETURN_TRUE.

Definition xdr_READLINK2resok : xdrproc READLINK2resok :=
  xdr_path2 @ READLINK2resok_data ;;
  RETURN_TRUE.

Definition xdr_READLINK2res : xdrproc READLINK2res :=
  xdr_nfsstat3 @ READLINK2res_status ;;
  case! NFS3_OK of READLINK2res_status : (xdr_READLINK2resok @| READLINK2res_resok ;; RETURN_TRUE) else
  (no_arm clear_READLINK2res).

Definition xdr_READ2args : xdrproc READ2args :=
  xdr_fhandle2 @ READ2args_file ;;
  xdr_u_int @ READ2args_offset ;;
  xdr_u_int @ READ2args_count ;;
  xdr_u_int @ READ2args_totalcount ;;
  RETURN_TRUE.

Definition xdr_READ2resok : xdrproc READ2resok :=
  xdr_fattr2 @ READ2resok_attributes ;;
  xdr_nfsdata2 @ READ2resok_data ;;
  RETURN_TRUE.

Definition xdr_READ2res : xdrproc READ2res :=
  xdr_nfsstat3 @ READ2res_status ;;
  case! NFS3_OK of READ2res_status : (xdr_READ2resok @| READ2res_resok ;; RETURN_TRUE) else
  (no_arm clear_READ2res).

Definition xdr_WRITE2args : xdrproc WRITE2args :=
  xdr_fhandle2 @ WRITE2args_file ;;
  xdr_u_int @ WRITE2args_beginoffset ;;
  xdr_u_int @ WRITE2args_offset ;;
  xdr_u_int @ WRITE2args_totalcount ;;
  xdr_nfsdata2 @ WRITE2args_data ;;
  RETURN_TRUE.

Definition xdr_WRITE2resok : xdrproc WRITE2resok :=
  xdr_fattr2 @ WRITE2resok_attributes ;;
  RETURN_TRUE.

Definition xdr_WRITE2res : xdrproc WRITE2res :=
  xdr_nfsstat3 @ WRITE2res_status ;;
  case! NFS3_OK of WRITE2res_status : (xdr_WRITE2resok @| WRITE2res_resok ;; RETURN_TRUE) else
  (no_arm clear_WRITE2res).

Definition xdr_CREATE2args : xdrproc CREATE2args :=
  xdr_diropargs2 @ CREATE2args_where ;;
  xdr_sattr2 @ CREATE2args_attributes ;;
  RETURN_TRUE.

Definition xdr_CREATE2resok : xdrproc CREATE2resok :=
  xdr_fhandle2 @ CREATE2resok_file ;;
  xdr_fattr2 @ CREATE2resok_attributes ;;
  RETURN_TRUE.

Definition xdr_CREATE2res : xdrproc CREATE2res :=
  xdr_nfsstat3 @ CREATE2res_status ;;
  case! NFS3_OK of CREATE2res_status : (xdr_CREATE2resok @| CREATE2res_resok ;; RETURN_TRUE) else
  (no_arm clear_CREATE2res).

Definition xdr_REMOVE2args : xdrproc REMOVE2args :=
  xdr_diropargs2 @ REMOVE2args_what ;;
  RETURN_TRUE.

Definition xdr_REMOVE2res : xdrproc REMOVE2res :=
  xdr_nfsstat3 @ REMOVE2res_status ;;
  RETURN_TRUE.

Definition xdr_RENAME2args : xdrproc RENAME2args :=
  xdr_diropargs2 @ RENAME2args_from ;;
  xdr_diropargs2 @ RENAME2args_to ;;
  RETURN_TRUE.

Definition xdr_RENAME2res : xdrproc RENAME2res :=
  xdr_nfsstat3 @ RENAME2res_status ;;
  RETURN_TRUE.

Definition xdr_LINK2args : xdrproc LINK2args :=
  xdr_fhandle2 @ LINK2args_from ;;
  xdr_diropargs2 @ LINK2args_to ;;
  RETURN_TRUE.

Definition xdr_LINK2res : xdrproc LINK2res :=
  xdr_nfsstat3 @ LINK2res_status ;;
  RETURN_TRUE.

Definition xdr_SYMLINK2args : xdrproc SYMLINK2args :=
  xdr_diropargs2 @ SYMLINK2args_from ;;
  xdr_path2 @ SYMLINK2args_to ;;
  xdr_sattr2 @ SYMLINK2args_attributes ;;
  RETURN_TRUE.

Definition xdr_SYMLINK2res : xdrproc SYMLINK2res :=
  xdr_nfsstat3 @ SYMLINK2res_status ;;
  RETURN_TRUE.

Definition xdr_MKDIR2args : xdrproc MKDIR2args :=
  xdr_diropargs2 @ MKDIR2args_where ;;
  xdr_sattr2 @ MKDIR2args_attributes ;;
  RETURN_TRUE.

Definition xdr_MKDIR2resok : xdrproc MKDIR2resok :=
  xdr_fhandle2 @ MKDIR2resok_file ;;
  xdr_fattr2 @ MKDIR2resok_attributes ;;
  RETURN_TRUE.

Definition xdr_MKDIR2res : xdrproc MKDIR2res :=
  xdr_nfsstat3 @ MKDIR2res_status ;;
  case! NFS3_OK of MKDIR2res_status : (xdr_MKDIR2resok @| MKDIR2res_resok ;; RETURN_TRUE) else
  (no_arm clear_MKDIR2res).

Definition xdr_RMDIR2args : xdrproc RMDIR2args :=
  xdr_diropargs2 @ RMDIR2args_what ;;
  RETURN_TRUE.

Definition xdr_RMDIR2res : xdrproc RMDIR2res :=
  xdr_nfsstat3 @ RMDIR2res_status ;;
  RETURN_TRUE.

Definition xdr_READDIR2args : xdrproc READDIR2args :=
  xdr_fhandle2 @ READDIR2args_dir ;;
  xdr_nfscookie2 @ READDIR2args_cookie ;;
  xdr_u_int @ READDIR2args_count ;;
  RETURN_TRUE.

Definition xdr_READDIR2resok : xdrproc READDIR2resok :=
  (xdr_pointer set_entry2_nextentry inhabitant "xdr_entry2" xdr_entry2) @ READDIR2resok_entries ;;
  xdr_bool @ READDIR2resok_eof ;;
  RETURN_TRUE.

Definition xdr_READDIR2res : xdrproc READDIR2res :=
  xdr_nfsstat3 @ READDIR2res_status ;;
  case! NFS3_OK of READDIR2res_status : (xdr_READDIR2resok @| READDIR2res_resok ;; RETURN_TRUE) else
  (no_arm clear_READDIR2res).

Definition xdr_STATFS2args : xdrproc STATFS2args :=
  xdr_fhandle2 @ STATFS2args_dir ;;
  RETURN_TRUE.

Definition xdr_STATFS2resok : xdrproc STATFS2resok :=
  xdr_u_int @ STATFS2resok_tsize ;;
  xdr_u_int @ STATFS2resok_bsize ;;
  xdr_u_int @ STATFS2resok_blocks ;;
  xdr_u_int @ STATFS2resok_bfree ;;
  xdr_u_int @ STATFS2resok_bavail ;;
  RETURN_TRUE.

Definition xdr_STATFS2res : xdrproc STATFS2res :=
  xdr_nfsstat3 @ STATFS2res_status ;;
  case! NFS3_OK of STATFS2res_status : (xdr_STATFS2resok @| STATFS2res_resok ;; RETURN_TRUE) else
  (no_arm clear_STATFS2res).

Definition xdr_nfsacl_type : xdrproc Z := xdr_enum.

Definition xdr_nfsacl_ace : xdrproc nfsacl_ace :=
  xdr_nfsacl_type @ nfsacl_ace_type ;;
  xdr_u_int @ nfsacl_ace_id ;;
  xdr_u_int @ nfsacl_ace_perm ;;
  RETURN_TRUE.

Definition xdr_GETACL3args : xdrproc GETACL3args :=
  xdr_nfs_fh3 @ GETACL3args_dir ;;
  xdr_u_int @ GETACL3args_mask ;;
  RETURN_TRUE.

Definition xdr_GETACL3resok : xdrproc GETACL3resok :=
  xdr_post_op_attr @ GETACL3resok_attr ;;
  xdr_u_int @ GETACL3resok_mask ;;
  xdr_u_int @ GETACL3resok_ace_count ;;
  (xdr_array UINT32_MAX 12 inhabitant xdr_nfsacl_ace) @ GETACL3resok_ace ;;
  xdr_u_int @ GETACL3resok_default_ace_count ;;
  (xdr_array UINT32_MAX 12 inhabitant xdr_nfsacl_ace) @ GETACL3resok_default_ace ;;
  RETURN_TRUE.

Definition xdr_GETACL3res : xdrproc GETACL3res :=
  xdr_nfsstat3 @ GETACL3res_status ;;
  case! NFS3_OK of GETACL3res_status : (xdr_GETACL3resok @| GETACL3res_resok ;; RETURN_TRUE) else
  (no_arm clear_GETACL3res).

Definition xdr_SETACL3args : xdrproc SETACL3args :=
  xdr_nfs_fh3 @ SETACL3args_dir ;;
  xdr_u_int @ SETACL3args_mask ;;
  xdr_u_int @ SETACL3args_ace_count ;;
  (xdr_array UINT32_MAX 12 inhabitant xdr_nfsacl_ace) @ SETACL3args_ace ;;
  xdr_u_int @ SETACL3args_default_ace_count ;;
  (xdr_array UINT32_MAX 12 inhabitant xdr_nfsacl_ace) @ SETACL3args_default_ace ;;
  RETURN_TRUE.

Definition xdr_SETACL3resok : xdrproc SETACL3resok :=
  xdr_post_op_attr @ SETACL3resok_attr ;;
  RETURN_TRUE.

Definition xdr_SETACL3res : xdrproc SETACL3res :=
  xdr_nfsstat3 @ SETACL3res_status ;;
  case! NFS3_OK of SETACL3res_status : (xdr_SETACL3resok @| SETACL3res_resok ;; RETURN_TRUE) else
  (no_arm clear_SETACL3res).

Definition xdr_nfs_dirpath : xdrproc xdr_string_t := xdr_string MNTPATHLEN false.

Definition xdr_nfs_name : xdrproc xdr_string_t := xdr_string MNTNAMLEN false.

Definition xdr_nfs_mountstat3 : xdrproc Z := xdr_enum.

Definition nfs_mountbody_prefix (K : xdrproc nfs_mountbody) : xdrproc nfs_mountbody :=
  xdr_nfs_name @ nfs_mountbody_ml_hostname ;;
  xdr_nfs_dirpath @ nfs_mountbody_ml_directory ;;
  K.
Fixpoint xdr_nfs_mountbody_fuel (n : nat) : xdrproc nfs_mountbody :=
  match n with
  | O => fun _ _ => Err OutOfFuel
  | S n => nfs_mountbody_prefix ((xdr_pointer set_nfs_mountbody_ml_next inhabitant "xdr_nfs_mountbody" (xdr_nfs_mountbody_fuel n)) @ nfs_mountbody_ml_next ;; RETURN_TRUE)
  end.
Fixpoint nfs_mountbody_chain (e : nfs_mountbody) : list nfs_mountbody :=
  match e with mk_nfs_mountbody _ _ n => e :: match n with Some e => nfs_mountbody_chain e | None => [] end end.
Definition nfs_mountbody_entries (o : option nfs_mountbody) : list nfs_mountbody := match o with Some e => nfs_mountbody_chain e | None => [] end.
(** Every entry takes one level of calls. *)
Definition xdr_nfs_mountbody : xdrproc nfs_mountbody := fun xdrs objp => xdr_nfs_mountbody_fuel (S (length (nfs_mountbody_chain objp))) xdrs objp.

Definition xdr_nfs_mountlist : xdrproc (option nfs_mountbody) := xdr_pointer set_nfs_mountbody_ml_next inhabitant "xdr_nfs_mountbody"
  xdr_nfs_mountbody.

Definition nfs_groupnode_prefix (K : xdrproc nfs_groupnode) : xdrproc nfs_groupnode :=
  xdr_nfs_name @ nfs_groupnode_gr_name ;;
  K.
Fixpoint xdr_nfs_groupnode_fuel (n : nat) : xdrproc nfs_groupnode :=
  match n with
  | O => fun _ _ => Err OutOfFuel
  | S n => nfs_groupnode_prefix ((xdr_pointer set_nfs_groupnode_gr_next inhabitant "xdr_nfs_groupnode" (xdr_nfs_groupnode_fuel n)) @ nfs_groupnode_gr_next ;; RETURN_TRUE)
  end.
Fixpoint nfs_groupnode_chain (e : nfs_groupnode) : list nfs_groupnode :=
  match e with mk_nfs_groupnode _ n => e :: match n with Some e => nfs_groupnode_chain e | None => [] end end.
Definition nfs_groupnode_entries (o : option nfs_groupnode) : list nfs_groupnode := match o with Some e => nfs_groupnode_chain e | None => [] end.
(** Every entry takes one level of calls. *)
Definition xdr_nfs_groupnode : xdrproc nfs_groupnode := fun xdrs objp => xdr_nfs_groupnode_fuel (S (length (nfs_groupnode_chain objp))) xdrs objp.

Definition xdr_nfs_groups : xdrproc (option nfs_groupnode) := xdr_pointer set_nfs_groupnode_gr_next inhabitant "xdr_nfs_groupnode" xdr_nfs_groupnode.

Definition nfs_exportnode_prefix (K : xdrproc nfs_exportnode) : xdrproc nfs_exportnode :=
  xdr_nfs_dirpath @ nfs_exportnode_ex_dir ;;
  xdr_nfs_groups @ nfs_exportnode_ex_groups ;;
  K.
Fixpoint xdr_nfs_exportnode_fuel (n : nat) : xdrproc nfs_exportnode :=
  match n with
  | O => fun _ _ => Err OutOfFuel
  | S n => nfs_exportnode_prefix ((xdr_pointer set_nfs_exportnode_ex_next inhabitant "xdr_nfs_exportnode" (xdr_nfs_exportnode_fuel n)) @ nfs_exportnode_ex_next ;; RETURN_TRUE)
  end.
Fixpoint nfs_exportnode_chain (e : nfs_exportnode) : list nfs_exportnode :=
  match e with mk_nfs_exportnode _ _ n => e :: match n with Some e => nfs_exportnode_chain e | None => [] end end.
Definition nfs_exportnode_entries (o : option nfs_exportnode) : list nfs_exportnode := match o with Some e => nfs_exportnode_chain e | None => [] end.
(** Every entry takes one level of calls. *)
Definition xdr_nfs_exportnode : xdrproc nfs_exportnode := fun xdrs objp => xdr_nfs_exportnode_fuel (S (length (nfs_exportnode_chain objp))) xdrs objp.

Definition xdr_nfs_exports : xdrproc (option nfs_exportnode) := xdr_pointer set_nfs_exportnode_ex_next inhabitant "xdr_nfs_exportnode"
  xdr_nfs_exportnode.

Definition xdr_nfs_mountres3_ok : xdrproc nfs_mountres3_ok :=
  xdr_nfs_fh3 @ nfs_mountres3_ok_fhandle ;;
  (xdr_array UINT32_MAX 4 inhabitant xdr_u_int) @ nfs_mountres3_ok_auth_flavors ;;
  RETURN_TRUE.

Definition xdr_nfs_mountres3 : xdrproc nfs_mountres3 :=
  xdr_nfs_mountstat3 @ nfs_mountres3_fhs_status ;;
  case! MNT3_OK of nfs_mountres3_fhs_status : (xdr_nfs_mountres3_ok @| nfs_mountres3_mountinfo ;; RETURN_TRUE) else
  (no_arm clear_nfs_mountres3).

Definition xdr_nfs_mountstat1 : xdrproc Z := xdr_enum.

Definition xdr_nfs_fhandle1 : xdrproc (list Z) := xdr_opaque FHSIZE.

Definition xdr_nfs_mountres1_ok : xdrproc nfs_mountres1_ok :=
  xdr_nfs_fhandle1 @ nfs_mountres1_ok_fhandle ;;
  RETURN_TRUE.

Definition xdr_nfs_mountres1 : xdrproc nfs_mountres1 :=
  xdr_nfs_mountstat1 @ nfs_mountres1_fhs_status ;;
  case! MNT1_OK of nfs_mountres1_fhs_status : (xdr_nfs_mountres1_ok @| nfs_mountres1_mountinfo ;; RETURN_TRUE) else
  (no_arm clear_nfs_mountres1).

(** * Codecs *)

#[global] Typeclasses Opaque xdr_fhandle2 xdr_ftype2 xdr_fattr2 xdr_sattr2 xdr_filename2 xdr_path2 xdr_nfsdata2 xdr_nfscookie2 xdr_entry2
  xdr_diropargs2 xdr_GETATTR2args xdr_GETATTR2resok xdr_GETATTR2res xdr_SETATTR2args xdr_SETATTR2resok xdr_SETATTR2res xdr_LOOKUP2args
  xdr_LOOKUP2resok xdr_LOOKUP2res xdr_READLINK2args xdr_READLINK2resok xdr_READLINK2res xdr_READ2args xdr_READ2resok xdr_READ2res
  xdr_WRITE2args xdr_WRITE2resok xdr_WRITE2res xdr_CREATE2args xdr_CREATE2resok xdr_CREATE2res xdr_REMOVE2args xdr_REMOVE2res xdr_RENAME2args
  xdr_RENAME2res xdr_LINK2args xdr_LINK2res xdr_SYMLINK2args xdr_SYMLINK2res xdr_MKDIR2args xdr_MKDIR2resok xdr_MKDIR2res xdr_RMDIR2args
  xdr_RMDIR2res xdr_READDIR2args xdr_READDIR2resok xdr_READDIR2res xdr_STATFS2args xdr_STATFS2resok xdr_STATFS2res xdr_nfsacl_type
  xdr_nfsacl_ace xdr_GETACL3args xdr_GETACL3resok xdr_GETACL3res xdr_SETACL3args xdr_SETACL3resok xdr_SETACL3res xdr_nfs_dirpath xdr_nfs_name
  xdr_nfs_mountstat3 xdr_nfs_mountbody xdr_nfs_mountlist xdr_nfs_groupnode xdr_nfs_groups xdr_nfs_exportnode xdr_nfs_exports
  xdr_nfs_mountres3_ok xdr_nfs_mountres3 xdr_nfs_mountstat1 xdr_nfs_fhandle1 xdr_nfs_mountres1_ok xdr_nfs_mountres1.
#[global] Instance units_FHSIZE2 : Units FHSIZE2.
Proof. done. Qed.
#[global] Instance units_NFSCOOKIESIZE2 : Units NFSCOOKIESIZE2.
Proof. done. Qed.
#[global] Instance units_FHSIZE : Units FHSIZE.
Proof. done. Qed.
#[global] Instance xdr_fhandle2_codec : Codec xdr_fhandle2 := _ : Codec (xdr_opaque FHSIZE2).
#[global] Instance xdr_ftype2_codec : Codec xdr_ftype2 := _ : Codec xdr_enum.
#[global] Instance xdr_fattr2_codec : Codec xdr_fattr2.
Proof. struct. Defined.
#[global] Instance xdr_sattr2_codec : Codec xdr_sattr2.
Proof. struct. Defined.
#[global] Instance xdr_filename2_codec : Codec xdr_filename2 := _ : Codec (xdr_string MAXNAMLEN2 false).
#[global] Instance xdr_path2_codec : Codec xdr_path2 := _ : Codec (xdr_string MAXPATHLEN2 false).
#[global] Instance xdr_nfsdata2_codec : Codec xdr_nfsdata2 := _ : Codec (xdr_bytes NFSMAXDATA2 false).
#[global] Instance xdr_nfscookie2_codec : Codec xdr_nfscookie2 := _ : Codec (xdr_opaque NFSCOOKIESIZE2).
#[global] Instance entry2_linked : Linked entry2_nextentry set_entry2_nextentry entry2_entries.
Proof. constructor; try done; by intros []. Qed.
#[global] Instance entry2_prefix_ok : Prefix entry2_prefix.
Proof. list_prefix. Defined.
#[global] Instance xdr_entry2_list_codec : Codec (xdr_pointer set_entry2_nextentry inhabitant "xdr_entry2" xdr_entry2).
Proof. list_codec entry2_nextentry entry2_entries entry2_prefix xdr_entry2_fuel. Defined.
#[global] Instance xdr_diropargs2_codec : Codec xdr_diropargs2.
Proof. struct. Defined.
#[global] Instance xdr_GETATTR2args_codec : Codec xdr_GETATTR2args.
Proof. struct. Defined.
#[global] Instance xdr_GETATTR2resok_codec : Codec xdr_GETATTR2resok.
Proof. struct. Defined.
#[global] Instance xdr_GETATTR2res_codec : Codec xdr_GETATTR2res.
Proof. struct. Defined.
#[global] Instance xdr_SETATTR2args_codec : Codec xdr_SETATTR2args.
Proof. struct. Defined.
#[global] Instance xdr_SETATTR2resok_codec : Codec xdr_SETATTR2resok.
Proof. struct. Defined.
#[global] Instance xdr_SETATTR2res_codec : Codec xdr_SETATTR2res.
Proof. struct. Defined.
#[global] Instance xdr_LOOKUP2args_codec : Codec xdr_LOOKUP2args.
Proof. struct. Defined.
#[global] Instance xdr_LOOKUP2resok_codec : Codec xdr_LOOKUP2resok.
Proof. struct. Defined.
#[global] Instance xdr_LOOKUP2res_codec : Codec xdr_LOOKUP2res.
Proof. struct. Defined.
#[global] Instance xdr_READLINK2args_codec : Codec xdr_READLINK2args.
Proof. struct. Defined.
#[global] Instance xdr_READLINK2resok_codec : Codec xdr_READLINK2resok.
Proof. struct. Defined.
#[global] Instance xdr_READLINK2res_codec : Codec xdr_READLINK2res.
Proof. struct. Defined.
#[global] Instance xdr_READ2args_codec : Codec xdr_READ2args.
Proof. struct. Defined.
#[global] Instance xdr_READ2resok_codec : Codec xdr_READ2resok.
Proof. struct. Defined.
#[global] Instance xdr_READ2res_codec : Codec xdr_READ2res.
Proof. struct. Defined.
#[global] Instance xdr_WRITE2args_codec : Codec xdr_WRITE2args.
Proof. struct. Defined.
#[global] Instance xdr_WRITE2resok_codec : Codec xdr_WRITE2resok.
Proof. struct. Defined.
#[global] Instance xdr_WRITE2res_codec : Codec xdr_WRITE2res.
Proof. struct. Defined.
#[global] Instance xdr_CREATE2args_codec : Codec xdr_CREATE2args.
Proof. struct. Defined.
#[global] Instance xdr_CREATE2resok_codec : Codec xdr_CREATE2resok.
Proof. struct. Defined.
#[global] Instance xdr_CREATE2res_codec : Codec xdr_CREATE2res.
Proof. struct. Defined.
#[global] Instance xdr_REMOVE2args_codec : Codec xdr_REMOVE2args.
Proof. struct. Defined.
#[global] Instance xdr_REMOVE2res_codec : Codec xdr_REMOVE2res.
Proof. struct. Defined.
#[global] Instance xdr_RENAME2args_codec : Codec xdr_RENAME2args.
Proof. struct. Defined.
#[global] Instance xdr_RENAME2res_codec : Codec xdr_RENAME2res.
Proof. struct. Defined.
#[global] Instance xdr_LINK2args_codec : Codec xdr_LINK2args.
Proof. struct. Defined.
#[global] Instance xdr_LINK2res_codec : Codec xdr_LINK2res.
Proof. struct. Defined.
#[global] Instance xdr_SYMLINK2args_codec : Codec xdr_SYMLINK2args.
Proof. struct. Defined.
#[global] Instance xdr_SYMLINK2res_codec : Codec xdr_SYMLINK2res.
Proof. struct. Defined.
#[global] Instance xdr_MKDIR2args_codec : Codec xdr_MKDIR2args.
Proof. struct. Defined.
#[global] Instance xdr_MKDIR2resok_codec : Codec xdr_MKDIR2resok.
Proof. struct. Defined.
#[global] Instance xdr_MKDIR2res_codec : Codec xdr_MKDIR2res.
Proof. struct. Defined.
#[global] Instance xdr_RMDIR2args_codec : Codec xdr_RMDIR2args.
Proof. struct. Defined.
#[global] Instance xdr_RMDIR2res_codec : Codec xdr_RMDIR2res.
Proof. struct. Defined.
#[global] Instance xdr_READDIR2args_codec : Codec xdr_READDIR2args.
Proof. struct. Defined.
#[global] Instance xdr_READDIR2resok_codec : Codec xdr_READDIR2resok.
Proof. struct. Defined.
#[global] Instance xdr_READDIR2res_codec : Codec xdr_READDIR2res.
Proof. struct. Defined.
#[global] Instance xdr_STATFS2args_codec : Codec xdr_STATFS2args.
Proof. struct. Defined.
#[global] Instance xdr_STATFS2resok_codec : Codec xdr_STATFS2resok.
Proof. struct. Defined.
#[global] Instance xdr_STATFS2res_codec : Codec xdr_STATFS2res.
Proof. struct. Defined.
#[global] Instance xdr_nfsacl_type_codec : Codec xdr_nfsacl_type := _ : Codec xdr_enum.
#[global] Instance xdr_nfsacl_ace_codec : Codec xdr_nfsacl_ace.
Proof. struct. Defined.
#[global] Instance xdr_GETACL3args_codec : Codec xdr_GETACL3args.
Proof. struct. Defined.
#[global] Instance xdr_GETACL3resok_codec : Codec xdr_GETACL3resok.
Proof. struct. Defined.
#[global] Instance xdr_GETACL3res_codec : Codec xdr_GETACL3res.
Proof. struct. Defined.
#[global] Instance xdr_SETACL3args_codec : Codec xdr_SETACL3args.
Proof. struct. Defined.
#[global] Instance xdr_SETACL3resok_codec : Codec xdr_SETACL3resok.
Proof. struct. Defined.
#[global] Instance xdr_SETACL3res_codec : Codec xdr_SETACL3res.
Proof. struct. Defined.
#[global] Instance xdr_nfs_dirpath_codec : Codec xdr_nfs_dirpath := _ : Codec (xdr_string MNTPATHLEN false).
#[global] Instance xdr_nfs_name_codec : Codec xdr_nfs_name := _ : Codec (xdr_string MNTNAMLEN false).
#[global] Instance xdr_nfs_mountstat3_codec : Codec xdr_nfs_mountstat3 := _ : Codec xdr_enum.
#[global] Instance nfs_mountbody_linked : Linked nfs_mountbody_ml_next set_nfs_mountbody_ml_next nfs_mountbody_entries.
Proof. constructor; try done; by intros []. Qed.
#[global] Instance nfs_mountbody_prefix_ok : Prefix nfs_mountbody_prefix.
Proof. list_prefix. Defined.
#[global] Instance xdr_nfs_mountbody_list_codec : Codec (xdr_pointer set_nfs_mountbody_ml_next inhabitant "xdr_nfs_mountbody" xdr_nfs_mountbody).
Proof. list_codec nfs_mountbody_ml_next nfs_mountbody_entries nfs_mountbody_prefix xdr_nfs_mountbody_fuel. Defined.
#[global] Instance xdr_nfs_mountlist_codec : Codec xdr_nfs_mountlist := _ : Codec (xdr_pointer set_nfs_mountbody_ml_next inhabitant
  "xdr_nfs_mountbody" xdr_nfs_mountbody).
#[global] Instance nfs_groupnode_linked : Linked nfs_groupnode_gr_next set_nfs_groupnode_gr_next nfs_groupnode_entries.
Proof. constructor; try done; by intros []. Qed.
#[global] Instance nfs_groupnode_prefix_ok : Prefix nfs_groupnode_prefix.
Proof. list_prefix. Defined.
#[global] Instance xdr_nfs_groupnode_list_codec : Codec (xdr_pointer set_nfs_groupnode_gr_next inhabitant "xdr_nfs_groupnode" xdr_nfs_groupnode).
Proof. list_codec nfs_groupnode_gr_next nfs_groupnode_entries nfs_groupnode_prefix xdr_nfs_groupnode_fuel. Defined.
#[global] Instance xdr_nfs_groups_codec : Codec xdr_nfs_groups := _ : Codec (xdr_pointer set_nfs_groupnode_gr_next inhabitant "xdr_nfs_groupnode"
  xdr_nfs_groupnode).
#[global] Instance nfs_exportnode_linked : Linked nfs_exportnode_ex_next set_nfs_exportnode_ex_next nfs_exportnode_entries.
Proof. constructor; try done; by intros []. Qed.
#[global] Instance nfs_exportnode_prefix_ok : Prefix nfs_exportnode_prefix.
Proof. list_prefix. Defined.
#[global] Instance xdr_nfs_exportnode_list_codec : Codec (xdr_pointer set_nfs_exportnode_ex_next inhabitant "xdr_nfs_exportnode" xdr_nfs_exportnode).
Proof. list_codec nfs_exportnode_ex_next nfs_exportnode_entries nfs_exportnode_prefix xdr_nfs_exportnode_fuel. Defined.
#[global] Instance xdr_nfs_exports_codec : Codec xdr_nfs_exports := _ : Codec (xdr_pointer set_nfs_exportnode_ex_next inhabitant "xdr_nfs_exportnode"
  xdr_nfs_exportnode).
#[global] Instance xdr_nfs_mountres3_ok_codec : Codec xdr_nfs_mountres3_ok.
Proof. struct. Defined.
#[global] Instance xdr_nfs_mountres3_codec : Codec xdr_nfs_mountres3.
Proof. struct. Defined.
#[global] Instance xdr_nfs_mountstat1_codec : Codec xdr_nfs_mountstat1 := _ : Codec xdr_enum.
#[global] Instance xdr_nfs_fhandle1_codec : Codec xdr_nfs_fhandle1 := _ : Codec (xdr_opaque FHSIZE).
#[global] Instance xdr_nfs_mountres1_ok_codec : Codec xdr_nfs_mountres1_ok.
Proof. struct. Defined.
#[global] Instance xdr_nfs_mountres1_codec : Codec xdr_nfs_mountres1.
Proof. struct. Defined.

(** * Safety of decoding *)

#[global] Instance xdr_fhandle2_safe : Safe xdr_fhandle2 := _ : Safe (xdr_opaque FHSIZE2).
#[global] Instance xdr_ftype2_safe : Safe xdr_ftype2 := _ : Safe xdr_enum.
#[global] Instance xdr_fattr2_safe : Safe xdr_fattr2.
Proof. safe. Defined.
#[global] Instance xdr_sattr2_safe : Safe xdr_sattr2.
Proof. safe. Defined.
#[global] Instance xdr_filename2_safe : Safe xdr_filename2 := _ : Safe (xdr_string MAXNAMLEN2 false).
#[global] Instance xdr_path2_safe : Safe xdr_path2 := _ : Safe (xdr_string MAXPATHLEN2 false).
#[global] Instance xdr_nfsdata2_safe : Safe xdr_nfsdata2 := _ : Safe (xdr_bytes NFSMAXDATA2 false).
#[global] Instance xdr_nfscookie2_safe : Safe xdr_nfscookie2 := _ : Safe (xdr_opaque NFSCOOKIESIZE2).
#[global] Instance xdr_diropargs2_safe : Safe xdr_diropargs2.
Proof. safe. Defined.
#[global] Instance xdr_GETATTR2args_safe : Safe xdr_GETATTR2args.
Proof. safe. Defined.
#[global] Instance xdr_GETATTR2resok_safe : Safe xdr_GETATTR2resok.
Proof. safe. Defined.
#[global] Instance xdr_GETATTR2res_safe : Safe xdr_GETATTR2res.
Proof. safe. Defined.
#[global] Instance xdr_SETATTR2args_safe : Safe xdr_SETATTR2args.
Proof. safe. Defined.
#[global] Instance xdr_SETATTR2resok_safe : Safe xdr_SETATTR2resok.
Proof. safe. Defined.
#[global] Instance xdr_SETATTR2res_safe : Safe xdr_SETATTR2res.
Proof. safe. Defined.
#[global] Instance xdr_LOOKUP2args_safe : Safe xdr_LOOKUP2args.
Proof. safe. Defined.
#[global] Instance xdr_LOOKUP2resok_safe : Safe xdr_LOOKUP2resok.
Proof. safe. Defined.
#[global] Instance xdr_LOOKUP2res_safe : Safe xdr_LOOKUP2res.
Proof. safe. Defined.
#[global] Instance xdr_READLINK2args_safe : Safe xdr_READLINK2args.
Proof. safe. Defined.
#[global] Instance xdr_READLINK2resok_safe : Safe xdr_READLINK2resok.
Proof. safe. Defined.
#[global] Instance xdr_READLINK2res_safe : Safe xdr_READLINK2res.
Proof. safe. Defined.
#[global] Instance xdr_READ2args_safe : Safe xdr_READ2args.
Proof. safe. Defined.
#[global] Instance xdr_READ2resok_safe : Safe xdr_READ2resok.
Proof. safe. Defined.
#[global] Instance xdr_READ2res_safe : Safe xdr_READ2res.
Proof. safe. Defined.
#[global] Instance xdr_WRITE2args_safe : Safe xdr_WRITE2args.
Proof. safe. Defined.
#[global] Instance xdr_WRITE2resok_safe : Safe xdr_WRITE2resok.
Proof. safe. Defined.
#[global] Instance xdr_WRITE2res_safe : Safe xdr_WRITE2res.
Proof. safe. Defined.
#[global] Instance xdr_CREATE2args_safe : Safe xdr_CREATE2args.
Proof. safe. Defined.
#[global] Instance xdr_CREATE2resok_safe : Safe xdr_CREATE2resok.
Proof. safe. Defined.
#[global] Instance xdr_CREATE2res_safe : Safe xdr_CREATE2res.
Proof. safe. Defined.
#[global] Instance xdr_REMOVE2args_safe : Safe xdr_REMOVE2args.
Proof. safe. Defined.
#[global] Instance xdr_REMOVE2res_safe : Safe xdr_REMOVE2res.
Proof. safe. Defined.
#[global] Instance xdr_RENAME2args_safe : Safe xdr_RENAME2args.
Proof. safe. Defined.
#[global] Instance xdr_RENAME2res_safe : Safe xdr_RENAME2res.
Proof. safe. Defined.
#[global] Instance xdr_LINK2args_safe : Safe xdr_LINK2args.
Proof. safe. Defined.
#[global] Instance xdr_LINK2res_safe : Safe xdr_LINK2res.
Proof. safe. Defined.
#[global] Instance xdr_SYMLINK2args_safe : Safe xdr_SYMLINK2args.
Proof. safe. Defined.
#[global] Instance xdr_SYMLINK2res_safe : Safe xdr_SYMLINK2res.
Proof. safe. Defined.
#[global] Instance xdr_MKDIR2args_safe : Safe xdr_MKDIR2args.
Proof. safe. Defined.
#[global] Instance xdr_MKDIR2resok_safe : Safe xdr_MKDIR2resok.
Proof. safe. Defined.
#[global] Instance xdr_MKDIR2res_safe : Safe xdr_MKDIR2res.
Proof. safe. Defined.
#[global] Instance xdr_RMDIR2args_safe : Safe xdr_RMDIR2args.
Proof. safe. Defined.
#[global] Instance xdr_RMDIR2res_safe : Safe xdr_RMDIR2res.
Proof. safe. Defined.
#[global] Instance xdr_READDIR2args_safe : Safe xdr_READDIR2args.
Proof. safe. Defined.
#[global] Instance xdr_STATFS2args_safe : Safe xdr_STATFS2args.
Proof. safe. Defined.
#[global] Instance xdr_STATFS2resok_safe : Safe xdr_STATFS2resok.
Proof. safe. Defined.
#[global] Instance xdr_STATFS2res_safe : Safe xdr_STATFS2res.
Proof. safe. Defined.
#[global] Instance xdr_nfsacl_type_safe : Safe xdr_nfsacl_type := _ : Safe xdr_enum.
#[global] Instance xdr_nfsacl_ace_safe : Safe xdr_nfsacl_ace.
Proof. safe. Defined.
#[global] Instance xdr_GETACL3args_safe : Safe xdr_GETACL3args.
Proof. safe. Defined.
#[global] Instance xdr_SETACL3resok_safe : Safe xdr_SETACL3resok.
Proof. safe. Defined.
#[global] Instance xdr_SETACL3res_safe : Safe xdr_SETACL3res.
Proof. safe. Defined.
#[global] Instance xdr_nfs_dirpath_safe : Safe xdr_nfs_dirpath := _ : Safe (xdr_string MNTPATHLEN false).
#[global] Instance xdr_nfs_name_safe : Safe xdr_nfs_name := _ : Safe (xdr_string MNTNAMLEN false).
#[global] Instance xdr_nfs_mountstat3_safe : Safe xdr_nfs_mountstat3 := _ : Safe xdr_enum.
#[global] Instance xdr_nfs_mountstat1_safe : Safe xdr_nfs_mountstat1 := _ : Safe xdr_enum.
#[global] Instance xdr_nfs_fhandle1_safe : Safe xdr_nfs_fhandle1 := _ : Safe (xdr_opaque FHSIZE).
#[global] Instance xdr_nfs_mountres1_ok_safe : Safe xdr_nfs_mountres1_ok.
Proof. safe. Defined.
#[global] Instance xdr_nfs_mountres1_safe : Safe xdr_nfs_mountres1.
Proof. safe. Defined.
