(* ===== verification/XdrMain.v ===== *)
(** Whole XDR messages: what encoding into a fresh [XDR] object and decoding
    from one do for the messages of NFS, the mount protocol, the port mapper,
    RPC and RPC over RDMA; what decoding does on arbitrary bytes; and the inputs
    the routines do not handle. *)

From stdpp Require Import strings.
From S2P Require Import Prelude.
From S2P Require Import Xdr.
From S2P Require Import XdrCodec.
From S2P Require Import XdrList.
From S2P Require Import XdrSafe.
From S2P Require Import XdrRpc.
From S2P Require Import XdrPortmap.
From S2P Require Import XdrRdma.
From S2P Require Import XdrNfs3.
From S2P Require Import XdrNfs2.

(** * Messages *)

(** A message encoded into a fresh object, as it is sent. *)
Definition send {A} (p : xdrproc A) (o : A) : res (list Z) :=
  let* (_, x, _) := xdr_encode xdr_create p o in Ok (iov_bytes (snd (xdr_encode_finish x))).
(** The object at the start of [b] and the bytes behind it. *)
Definition receive {A} (p : xdrproc A) (b : list Z) (o0 : A) : res (option (A * list Z)) :=
  let* (ok, x, o) := xdr_decode xdr_create b (zlen b) p o0 in Ok (if ok then Some (o, buf x) else None).

(** Every object of the type comes back, whatever follows it and whatever the
    memory it is decoded into held. *)
Definition round_trips {A} (p : xdrproc A) `{Codec A p} : Prop := forall o o0 rest,
  fits p o -> zlen (wire p o ++ rest) < 4294967296 ->
  exists b, send p o = Ok b /\ zlen b mod 4 = 0 /\ receive p (b ++ rest) o0 = Ok (Some (o, rest)).

(** Any bytes are decoded without a fault into a sound object, or refused. *)
Definition decodes_any_bytes {A} (p : xdrproc A) `{Safe A p} : Prop := forall b o0,
  is_bytes b -> zlen b < 4294967296 ->
  receive p b o0 = Ok None \/ exists o rest, receive p b o0 = Ok (Some (o, rest)) /\ rest `suffix_of` b /\ sound p o.

(** ** The parts of the output *)

Lemma iov_bytes_assign cur l :
  Forall (fun v => 0 <= iov_len v) l -> pieces l <= zlen cur -> iov_bytes (assign_bases cur l) = emit cur l.
Proof.
  intros Hl. revert cur. induction Hl as [| [[d |] n] l Hv Hl IH]; intros cur Hp; [done | |]; cbn [pieces iov_base iov_len] in *.
  - cbn [assign_bases iov_base emit]. unfold iov_bytes. simpl. f_equal. by apply IH.
  - cbn [assign_bases iov_base emit]. unfold iov_bytes. simpl. f_equal. apply IH. pose proof (pieces_nonneg l Hl).
    unfold zlen in *. rewrite length_drop. simpl in *. lia.
Qed.

(** [xdr_encode_finish] gives the bytes encoded so far, [xdr_encode_get_size] their number. *)
Lemma finish_output x : out_ok x -> zlen (cur_out x) < 4294967296 -> iov_bytes (snd (xdr_encode_finish x)) = output x.
Proof.
  intros [He Hl Hb Hc] Hs. pose proof (pieces_nonneg _ Hl). unfold xdr_encode_finish. destruct (Z.ltb_spec (last_end x) (zlen (cur_out x))).
  - cbn [cur_out with_out buf_list snd]. rewrite iov_bytes_assign.
    + rewrite emit_app by done. unfold output. f_equal. rewrite <- He. cbn [emit iov_base iov_len]. rewrite app_nil_r.
      apply take_ge. rewrite length_drop. unfold zlen. lia.
    + apply Forall_app. split; [done |]. repeat constructor. simpl. lia.
    + rewrite pieces_app. simpl. lia.
  - cbn [cur_out with_out buf_list snd]. rewrite iov_bytes_assign by (done || lia). unfold output. rewrite (drop_ge (cur_out x)); [by rewrite app_nil_r |].
    unfold zlen in *. lia.
Qed.

Lemma size_acc l n : foldl (fun len v => len + iov_len v) n l = n + foldl (fun len v => len + iov_len v) 0 l.
Proof. revert n. induction l as [| v l IH]; intros n; simpl; [lia |]. rewrite IH, (IH (0 + iov_len v)). lia. Qed.

Lemma emit_zlen cur l :
  Forall (fun v => 0 <= iov_len v) l -> Forall (fun v => forall d, iov_base v = Some d -> iov_len v <= zlen d) l -> pieces l <= zlen cur ->
  zlen (emit cur l) = foldl (fun len v => len + iov_len v) 0 l.
Proof.
  intros Hl. revert cur. induction Hl as [| [[d |] n] l Hv Hl IH]; intros cur Hd Hp; [done | |];
    apply Forall_cons in Hd as [Hd1 Hd]; cbn [pieces iov_base iov_len] in *; cbn [emit iov_base iov_len foldl]; rewrite zlen_app, size_acc.
  - rewrite (IH cur) by (done || lia). specialize (Hd1 d eq_refl). unfold zlen in *. rewrite length_take. lia.
  - pose proof (pieces_nonneg l Hl). rewrite (IH (drop (Z.to_nat n) cur)); [| done | unfold zlen in *; rewrite length_drop; lia].
    unfold zlen in *. rewrite length_take. lia.
Qed.
Lemma size_output x : out_ok x -> xdr_encode_get_size x = zlen (output x).
Proof.
  intros [He Hl Hb Hc]. unfold xdr_encode_get_size, output. pose proof (pieces_nonneg _ Hl). rewrite zlen_app, emit_zlen by (done || lia).
  f_equal. unfold zlen in *. rewrite length_drop. destruct (Z.ltb_spec (last_end x) (Z.of_nat (length (cur_out x)))); lia.
Qed.

(** ** Codecs round trip, safe routines decode any bytes *)

Lemma create_writing n : n < 4294967296 -> writing (with_op xdr_create XDR_ENCODE) n.
Proof. intros Hn. by constructor. Qed.
Lemma create_reading b : zlen b < 4294967296 -> reading (with_buf (with_op xdr_create XDR_DECODE) b (zlen b)) b.
Proof. by constructor. Qed.

Section Messages.
Context {A : Type} (p : xdrproc A).

Lemma send_wire `{Codec A p} o : fits p o -> zlen (wire p o) < 4294967296 -> send p o = Ok (wire p o).
Proof.
  intros Ho Hs. destruct (encode_ok _ o Ho (create_writing _ Hs)) as (x & E & Hi & Hx & Eo). unfold send, xdr_encode. rewrite E. cbn [rbind].
  rewrite finish_output; [by rewrite Eo | done |]. pose proof (out_small x Hx) as Hc. rewrite Eo in Hc. simpl in Hc. lia.
Qed.

Lemma receive_wire `{Codec A p} o o0 rest :
  (depth p <= 1)%nat -> fits p o -> zlen (wire p o ++ rest) < 4294967296 -> receive p (wire p o ++ rest) o0 = Ok (Some (o, rest)).
Proof.
  intros Hd Ho Hs.
  destruct (decode_ok (with_buf (with_op xdr_create XDR_DECODE) (wire p o ++ rest) (zlen (wire p o ++ rest))) o o0 rest Ho) as (cap & E & _);
    [by apply create_reading | by left | done |].
  unfold receive, xdr_decode. by rewrite E.
Qed.
Lemma codec_round_trips `{Codec A p} : (depth p <= 1)%nat -> round_trips p.
Proof.
  intros Hd o o0 rest Ho Hs. exists (wire p o). split; [apply send_wire; [done |]; rewrite zlen_app in Hs; pose proof (zlen_nonneg rest); lia |].
  split; [by apply wire_units | by apply receive_wire].
Qed.

Lemma safe_decodes_any_bytes `{Safe A p} : decodes_any_bytes p.
Proof.
  intros b o0 Hb Hs. destruct (decode_safe p (with_buf (with_op xdr_create XDR_DECODE) b (zlen b)) o0) as (ok & x & o & E & (r & Hr & ->) & Ho);
    [by constructor |]. unfold receive, xdr_decode. rewrite E. cbn [rbind]. destruct ok; [right | by left].
  exists o, r. by specialize (Ho eq_refl).
Qed.
End Messages.

(** * Theorems *)

Ltac all_round_trip := repeat apply conj; apply codec_round_trips, Nat.leb_le; reflexivity.
Ltac all_safe := repeat apply conj; apply safe_decodes_any_bytes.

(** C18: Every call and every reply of NFSv3, the lists of directory entries included, comes back from its encoding. *)
Theorem nfs3_round_trip :
  round_trips xdr_GETATTR3args /\ round_trips xdr_SETATTR3args /\ round_trips xdr_LOOKUP3args /\ round_trips xdr_ACCESS3args /\ round_trips
  xdr_READLINK3args /\ round_trips xdr_READ3args /\ round_trips xdr_WRITE3args /\ round_trips xdr_CREATE3args /\ round_trips xdr_MKDIR3args /\
  round_trips xdr_SYMLINK3args /\ round_trips xdr_MKNOD3args /\ round_trips xdr_REMOVE3args /\ round_trips xdr_RMDIR3args /\ round_trips
  xdr_RENAME3args /\ round_trips xdr_LINK3args /\ round_trips xdr_READDIR3args /\ round_trips xdr_READDIRPLUS3args /\ round_trips xdr_FSSTAT3args /\
  round_trips xdr_FSINFO3args /\ round_trips xdr_PATHCONF3args /\ round_trips xdr_COMMIT3args /\ round_trips xdr_GETATTR3res /\ round_trips
  xdr_SETATTR3res /\ round_trips xdr_LOOKUP3res /\ round_trips xdr_ACCESS3res /\ round_trips xdr_READLINK3res /\ round_trips xdr_READ3res /\
  round_trips xdr_WRITE3res /\ round_trips xdr_CREATE3res /\ round_trips xdr_MKDIR3res /\ round_trips xdr_SYMLINK3res /\ round_trips xdr_MKNOD3res
  /\ round_trips xdr_REMOVE3res /\ round_trips xdr_RMDIR3res /\ round_trips xdr_RENAME3res /\ round_trips xdr_LINK3res /\ round_trips
  xdr_READDIR3res /\ round_trips xdr_READDIRPLUS3res /\ round_trips xdr_FSSTAT3res /\ round_trips xdr_FSINFO3res /\ round_trips xdr_PATHCONF3res /\
  round_trips xdr_COMMIT3res.
Proof. all_round_trip. Qed.

(** The headers of RPC and of RPC over RDMA, the credentials, and the messages of the mount protocol
    and of the port mapper come back from their encoding; lists of exports, which nest two lists, do not. *)
Theorem rpc_round_trip :
  round_trips xdr_rpc_msg /\ round_trips xdr_authsys_parms /\ round_trips xdr_rdma_msg /\ round_trips xdr_nfs_dirpath /\ round_trips
  xdr_nfs_mountres3 /\ round_trips xdr_nfs_mountlist /\ round_trips xdr_nfs_mountres1 /\ round_trips xdr_PMAP2GETPORTargs /\ round_trips
  xdr_PMAP2DUMPres /\ round_trips xdr_PMAP3GETADDRargs /\ round_trips xdr_PMAP3DUMPres /\ round_trips xdr_PMAP2CALLITargs /\ round_trips
  xdr_PMAP3CALLITres /\ round_trips xdr_GETACL3args /\ round_trips xdr_GETACL3res /\ round_trips xdr_SETACL3args /\ round_trips xdr_READDIR2res /\
  round_trips xdr_READ2res.
Proof. all_round_trip. Qed.



(** ** Layouts *)

(** A string of its own bytes. *)
Definition str (l : list Z) : xdr_string_t := mk_string (zlen l) l.

Lemma str_fits l : zlen l <= 4294967284 -> string_fits (str l).
Proof. by split. Qed.

(** A WRITE call: the file handle, the offset, the count, how stable it has to be, and the data, every
    number big endian and every string padded to four bytes, as RFC 1813 has it. *)
Lemma write3_layout fh offset count stable d :
  0 <= offset < 18446744073709551616 -> 0 <= count < 4294967296 -> 0 <= stable < 4294967296 -> zlen fh + zlen d < 4294967200 ->
  send xdr_WRITE3args (mk_WRITE3args (str fh) offset count stable (str d)) =
    Ok (be 4 (zlen fh) ++ fh ++ padding (zlen fh) ++ be 8 offset ++ be 4 count ++ be 4 stable ++ be 4 (zlen d) ++ d ++ padding (zlen d)).
Proof.
  intros Ho Hc Hs Hd. pose proof (zlen_nonneg fh). pose proof (zlen_nonneg d). set (w := mk_WRITE3args _ _ _ _ _).
  assert (Hw : wire xdr_WRITE3args w = string_wire (str fh) ++ be 8 offset ++ be 4 count ++ be 4 stable ++ string_wire (str d) ++ []) by reflexivity.
  assert (fits xdr_WRITE3args w) as Hf.
  { change (string_fits (str fh) /\ 0 <= offset < 18446744073709551616 /\ 0 <= count < 4294967296 /\ 0 <= stable < 4294967296 /\ string_fits (str d) /\ True).
    repeat apply conj; done || lia || apply str_fits; lia. }
  pose proof (Z.mod_pos_bound (4 - zlen fh mod 4) 4 eq_refl). pose proof (Z.mod_pos_bound (4 - zlen d mod 4) 4 eq_refl).
  rewrite (send_wire xdr_WRITE3args); [| done |].
  - rewrite Hw. unfold string_wire, str. simpl. by rewrite app_nil_r, <- !app_assoc.
  - rewrite Hw, !zlen_app, !string_wire_len, !be_zlen by (apply str_fits; lia). simpl. change (zlen []) with 0. lia.
Qed.
Lemma write3_layout_witness :
  send xdr_WRITE3args (mk_WRITE3args (str [7; 8]) 4096 3 2 (str [1; 2; 3])) =
    Ok [0; 0; 0; 2; 7; 8; 0; 0; 0; 0; 0; 0; 0; 0; 16; 0; 0; 0; 0; 3; 0; 0; 0; 2; 0; 0; 0; 3; 1; 2; 3; 0].
Proof. rewrite (write3_layout [7; 8] 4096 3 2 [1; 2; 3]); [reflexivity | lia | lia | lia | vm_compute; reflexivity]. Defined.

Fixpoint entry_list (l : list (Z * list Z * Z)) : option entry3 :=
  match l with [] => None | (id, name, cookie) :: l => Some (mk_entry3 id (str name) cookie (entry_list l)) end.
Fixpoint entry_bytes (l : list (Z * list Z * Z)) : list Z :=
  match l with [] => be 4 0 | (id, name, cookie) :: l => be 4 1 ++ be 8 id ++ string_wire (str name) ++ be 8 cookie ++ entry_bytes l end.
Definition entry_ok (e : Z * list Z * Z) : Prop :=
  0 <= e.1.1 < 18446744073709551616 /\ zlen e.1.2 <= 4294967284 /\ 0 <= e.2 < 18446744073709551616.

Lemma entry_list_wire l : wire (xdr_pointer set_entry3_nextentry inhabitant "xdr_entry3" xdr_entry3) (entry_list l) = entry_bytes l.
Proof.
  assert (forall l, chain_wire entry3_prefix (entry3_entries (entry_list l)) = entry_bytes l) as H; [| exact (H l)].
  clear l. intros l. induction l as [| [[id name] cookie] l IH]; [reflexivity |]. cbn [entry_list entry_bytes entry3_entries entry3_chain].
  rewrite <- IH. unfold chain_wire. cbn [chain_tail]. change (pwire entry3_prefix (mk_entry3 id (str name) cookie (entry_list l))) with (be 8 id ++ string_wire (str name) ++ be 8 cookie ++ []).
  rewrite app_nil_r, <- !app_assoc. reflexivity.
Qed.
Lemma entry_list_fits l : Forall entry_ok l -> fits (xdr_pointer set_entry3_nextentry inhabitant "xdr_entry3" xdr_entry3) (entry_list l).
Proof.
  intros Hl. change (Forall (pfits entry3_prefix) (entry3_entries (entry_list l))).
  induction Hl as [| [[id name] cookie] l (H1 & H2 & H3) Hl IH]; [constructor |]. cbn [entry_list entry3_entries entry3_chain].
  constructor; [| done].
  change (0 <= id < 18446744073709551616 /\ string_fits (str name) /\ 0 <= cookie < 18446744073709551616 /\ True). exact (conj H1 (conj (str_fits name H2) (conj H3 I))).
Qed.

(** A list of directory entries, of any length: every entry behind a 1, a 0 behind the last one, and it is decoded
    into the same list. *)
Theorem readdir_layout l eof rest o0 :
  Forall entry_ok l -> 0 <= eof < 4294967296 -> zlen (entry_bytes l ++ be 4 eof ++ rest) < 4294967296 ->
  send xdr_dirlist3 (mk_dirlist3 (entry_list l) eof) = Ok (entry_bytes l ++ be 4 eof) /\
  receive xdr_dirlist3 ((entry_bytes l ++ be 4 eof) ++ rest) o0 = Ok (Some (mk_dirlist3 (entry_list l) eof, rest)).
Proof.
  intros Hl He Hs. rewrite app_assoc, zlen_app in Hs. pose proof (zlen_nonneg rest).
  set (d := mk_dirlist3 (entry_list l) eof).
  assert (wire xdr_dirlist3 d = entry_bytes l ++ be 4 eof) as Hw.
  { rewrite <- entry_list_wire, <- (app_nil_r (be 4 eof)). reflexivity. }
  assert (fits xdr_dirlist3 d) as Hf. { refine (conj _ (conj _ I)); [by apply entry_list_fits | done]. }
  assert (send xdr_dirlist3 d = Ok (entry_bytes l ++ be 4 eof)) as Es. { rewrite (send_wire xdr_dirlist3), Hw; [done | done | rewrite Hw; lia]. }
  split; [done |]. destruct (codec_round_trips xdr_dirlist3 ltac:(apply Nat.leb_le; reflexivity) d o0 rest Hf) as (b & Eb & _ & Er).
  - rewrite zlen_app, Hw. lia.
  - rewrite Es in Eb. injection Eb as <-. done.
Qed.
Lemma readdir_layout_witness :
  send xdr_dirlist3 (mk_dirlist3 (entry_list [(5, [97], 1); (6, [98; 99], 2)]) 1) = Ok (entry_bytes [(5, [97], 1); (6, [98; 99], 2)] ++ be 4 1).
Proof.
  apply (readdir_layout [(5, [97], 1); (6, [98; 99], 2)] 1 [] inhabitant); [| lia | vm_compute; reflexivity].
  repeat constructor; vm_compute; discriminate || reflexivity.
Defined.

(** ** Inputs that are not handled *)

Lemma segment_wire_len s : zlen (wire xdr_xdr_rdma_segment s) = 16.
Proof. reflexivity. Qed.

Lemma bytes_wrapped_skip len : 4294967289 <= len < 4294967296 -> u32 (4 + len_pad4 len) = if len <? 4294967293 then 0 else 4.
Proof.
  intros Hl. unfold len_pad4, u32. change (2 ^ 32) with 4294967296. destruct (Z.ltb_spec len 4294967293).
  - rewrite (Z.mod_small (len + 3)) by lia. assert ((len + 3) / 4 = 1073741823) as -> by (symmetry; apply (Z.div_unique _ _ _ (len + 3 - 4294967292)); lia).
    reflexivity.
  - assert ((len + 3) mod 4294967296 = len + 3 - 4294967296) as -> by (symmetry; apply (Z.mod_unique _ _ 1); lia).
    assert ((len + 3 - 4294967296) / 4 = 0) as -> by (apply Z.div_small; lia). reflexivity.
Qed.

(** A string whose length is 0xFFFFFFF9 or more is accepted, however short the message is: the padded length
    wraps around to zero.  The string then claims more bytes than the message has. *)
Theorem xdr_bytes_length_wraps maxlen chunk len rest s0 :
  4294967289 <= len < 4294967296 -> zlen rest < 4294967289 ->
  exists s left, receive (xdr_bytes maxlen chunk) (be 4 len ++ rest) s0 = Ok (Some (s, left)) /\
    s_size s = len /\ s_data s = rest /\ zlen (s_data s) < s_size s.
Proof.
  intros Hl Hr. pose proof (zlen_nonneg rest). unfold receive, xdr_decode, xdr_bytes.
  cbn [x_op with_op with_buf avail buf rdma rdma_chunk xdr_create]. rewrite Z.eqb_refl, andb_false_r, zlen_app, be_zlen.
  rewrite (proj2 (Z.ltb_ge _ _)) by lia. change 4 with (Z.of_nat 4) at 1. rewrite bytes_at_be. cbn [rbind].
  rewrite of_be_be, Z.mod_small, bytes_wrapped_skip by lia.
  rewrite (proj2 (Z.ltb_ge _ _)) by (destruct (_ <? _); lia). cbn [rbind]. eexists _, _. split; [done |].
  cbn [s_size s_data]. assert (drop 4 (be 4 len ++ rest) = rest) as -> by (by apply drop_app_length').
  rewrite take_ge by (unfold zlen in *; lia). split; [done |]. split; [done | lia].
Qed.
Lemma xdr_bytes_length_wraps_witness :
  exists s left, receive (xdr_bytes 400 false) (be 4 4294967295 ++ [1; 2]) inhabitant = Ok (Some (s, left)) /\ s_size s = 4294967295 /\ s_data s = [1; 2] /\ zlen (s_data s) < s_size s.
Proof. apply (xdr_bytes_length_wraps 400 false 4294967295 [1; 2] inhabitant); vm_compute; auto; split; auto; discriminate. Defined.

(** A chunk that claims 0x10000001 segments gets memory for one of them, and the second one is stored behind its end. *)
Lemma rdma_segments_overflow s1 s2 rest c0 :
  fits xdr_xdr_rdma_segment s1 -> fits xdr_xdr_rdma_segment s2 -> zlen rest < 4294967200 ->
  receive xdr_xdr_write_chunk (be 4 268435457 ++ wire xdr_xdr_rdma_segment s1 ++ wire xdr_xdr_rdma_segment s2 ++ rest) c0 = Err OutOfBounds.
Proof.
  intros H1 H2 Hr. pose proof (zlen_nonneg rest). set (b := wire xdr_xdr_rdma_segment s1 ++ _). assert (zlen b = 32 + zlen rest) as Hb.
  { unfold b. rewrite !zlen_app, !segment_wire_len. lia. }
  unfold receive, xdr_decode, xdr_xdr_write_chunk, field, xdr_array. set (x := with_buf _ _ _).
  assert (reading x (be 4 268435457 ++ b)) as Hx by (apply create_reading; rewrite zlen_app, be_zlen; lia).
  change (x_op x =? XDR_DECODE) with true. change (avail x) with (zlen (be 4 268435457 ++ b)). change (buf x) with (be 4 268435457 ++ b).
  cbv iota. rewrite zlen_app, be_zlen, (proj2 (Z.ltb_ge _ _)) by lia. change (bytes_at _ 4) with (bytes_at (be 4 268435457 ++ b) (Z.of_nat 4)).
  rewrite bytes_at_be. cbn [rbind]. change (of_be (be 4 268435457)) with 268435457. change (UINT32_MAX <? 268435457) with false. cbv iota.
  pose proof (skip_read _ _ _ Hx) as E. rewrite be_zlen in E. change (Z.of_nat 4) with 4 in E. rewrite E.
  change (u32 (16 * 268435457)) with 16. replace (Z.to_nat 268435457) with (S (S (Z.to_nat 268435455))) by lia. generalize (Z.to_nat 268435455). intros n.
  pose proof (reading_up_to _ _ _ (ll_cap x) Hx ltac:(done)) as Hx1. cbn [array_decode].
  destruct (decode_ok _ s1 inhabitant _ H1 Hx1 ltac:(left; apply Nat.leb_le; reflexivity) ltac:(by intros ? ?)) as (c1 & E1 & _). rewrite E1. cbn [rbind].
  change (u32 (16 * 0) + 16) with 16. rewrite (Z.ltb_irrefl 16), andb_false_r.
  pose proof (reading_up_to _ _ _ c1 Hx1 ltac:(cbn; lia)) as Hx2.
  destruct (decode_ok _ s2 inhabitant _ H2 Hx2 ltac:(left; apply Nat.leb_le; reflexivity) ltac:(by intros ? ?)) as (c2 & E2 & _). rewrite E2. cbn [rbind].
  change (u32 (16 * (0 + 1)) + 16) with 32. cbn [avail read_up_to with_ll with_buf]. rewrite (zlen_app (wire _ s2)), segment_wire_len.
  rewrite (proj2 (Z.eqb_neq _ _)) by lia. done.
Qed.
Lemma rdma_segments_overflow_witness :
  receive xdr_xdr_write_chunk (be 4 268435457 ++ be 4 1 ++ be 4 2 ++ be 8 3 ++ be 4 4 ++ be 4 5 ++ be 8 6) inhabitant = Err OutOfBounds.
Proof.
  apply (rdma_segments_overflow (mk_xdr_rdma_segment 1 2 3) (mk_xdr_rdma_segment 4 5 6) [] inhabitant); [.. | vm_compute; reflexivity];
    repeat apply conj; vm_compute; discriminate || reflexivity || exact I.
Defined.

(** Exports nest lists: when the first export has no groups and a later one has, the vector of open lists
    moves while the loop over the exports keeps a reference into it. *)
Lemma exports_dangling_reference :
  exists b, send xdr_nfs_exports (Some (mk_nfs_exportnode (str [47]) None
      (Some (mk_nfs_exportnode (str [47; 97]) (Some (mk_nfs_groupnode (str [103]) None)) None)))) = Ok b /\
    receive xdr_nfs_exports b None = Err Undefined.
Proof.
  exists (concat (map (be 4) [1; 1; 788529152; 0; 1; 2; 794886144; 1; 1; 1728053248; 0; 0])).
  split; vm_compute; reflexivity.
Qed.

(** A fixed array whose length is no multiple of four loses its first bytes: they are overwritten by the zeros
    that belong behind it. *)
Theorem xdr_opaque_padding (a b c d e : Z) : send (xdr_opaque 5) [a; b; c; d; e] = Ok [0; 0; 0; d; e; 0; 0; 0].
Proof. reflexivity. Qed.
