(* ===== verification/RpcStream.v ===== *)
(** The TCP side of a connection of the NFS server (nfs_client_t in
    src/src/nfs/nfs_proxy.cpp): [handle_read] takes what the kernel has stored in
    the current buffer, cuts it into RPC messages, hands them to
    [handle_rpc_message] and asks for more; buffers with messages that are still
    being processed are kept until their replies have been sent. *)

From stdpp Require Import gmap.
From S2P Require Import Prelude.
From S2P Require Import Xdr.

Definition RPC_INIT_BUF_SIZE : Z := 32768.

(** * State *)

(** A buffer is named by a number; [cb_buf] is NULL before the first read. *)
Record rpc_cur_buffer_t := mk_cur { cb_buf : option nat; cb_size : Z; read_pos : Z; parsed_pos : Z; cb_refs : Z }.
Record rpc_used_buffer_t := mk_used { ub_size : Z; ub_refs : Z }.
Record rpc_free_buffer_t := mk_free { fb_buf : nat; fb_size : Z }.

(** A message whose handler needs it until the reply is sent: where it is, and its bytes at that time. *)
Record live_msg := mk_live { lm_buf : nat; lm_off : Z; lm_bytes : list Z }.

(** [mem] has the allocated buffers, [free_buffers] starts with [back()],
    [read_iov] is the part of the current buffer the kernel may write to
    ([read_msg.msg_iovlen] is 0 when there is none).  [got], [msgs] and [live] are
    the history: the bytes received, the messages handled, and the messages
    whose replies have not been sent. *)
Record nfs_client_t := mk_client {
  mem : gmap nat (list Z);
  cur_buffer : rpc_cur_buffer_t;
  used_buffers : gmap nat rpc_used_buffer_t;
  free_buffers : list rpc_free_buffer_t;
  read_iov : option (Z * Z);
  got : list Z; msgs : list (list Z); live : list live_msg }.

Definition new_client : nfs_client_t := mk_client ∅ (mk_cur None 0 0 0 0) ∅ [] None [] [] [].

Definition with_buffers (c : nfs_client_t) (m : gmap nat (list Z)) (cur : rpc_cur_buffer_t)
    (used : gmap nat rpc_used_buffer_t) (free : list rpc_free_buffer_t) : nfs_client_t :=
  mk_client m cur used free (read_iov c) (got c) (msgs c) (live c).
Definition with_iov (c : nfs_client_t) (v : option (Z * Z)) : nfs_client_t :=
  mk_client (mem c) (cur_buffer c) (used_buffers c) (free_buffers c) v (got c) (msgs c) (live c).
Definition with_history (c : nfs_client_t) (g : list Z) (ms : list (list Z)) (l : list live_msg) : nfs_client_t :=
  mk_client (mem c) (cur_buffer c) (used_buffers c) (free_buffers c) (read_iov c) g ms l.

(** * Memory *)

Definition content (c : nfs_client_t) (b : option nat) : res (nat * list Z) :=
  match b with
  | None => Err Undefined
  | Some i => match mem c !! i with Some l => Ok (i, l) | None => Err Undefined end
  end.

Section Client.
(** [malloc] gives memory that is not in use; what it holds is unknown, zeros here.
    [handle_rpc_message] says whether it needs the message after it has returned;
    it may depend on everything received before. *)
Context (malloc : gset nat -> nat) (handle_rpc_message : list (list Z) -> list Z -> bool).

(** * Buffers *)

Definition select_read_buffer (wanted_size : Z) (c : nfs_client_t) : nfs_client_t :=
  let alloc (size : Z) (free : list rpc_free_buffer_t) :=
    let i := malloc (dom (mem c)) in
    with_buffers c (<[i := replicate (Z.to_nat size) 0]> (mem c)) (mk_cur (Some i) size 0 0 0) (used_buffers c) free in
  match free_buffers c with
  | b :: free =>
    if fb_size b <? wanted_size then alloc wanted_size free
    else with_buffers c (mem c) (mk_cur (Some (fb_buf b)) (fb_size b) 0 0 0) (used_buffers c) free
  | [] => alloc (if RPC_INIT_BUF_SIZE <? wanted_size then wanted_size else RPC_INIT_BUF_SIZE) []
  end.

(** The current buffer is full: put it away. *)
Definition retire_buffer (c : nfs_client_t) : nfs_client_t :=
  let cur := cur_buffer c in
  match cb_buf cur with
  | None => c
  | Some i =>
    if 0 <? cb_refs cur
    then with_buffers c (mem c) cur (<[i := mk_used (cb_size cur) (cb_refs cur)]> (used_buffers c)) (free_buffers c)
    else with_buffers c (mem c) cur (used_buffers c) (mk_free i (cb_size cur) :: free_buffers c)
  end.

(** A submission queue entry is always there. *)
Definition submit_read (wanted_size : Z) (c : nfs_client_t) : res nfs_client_t :=
  match read_iov c with
  | Some _ => Ok c
  | None =>
    let full := match cb_buf (cur_buffer c) with None => true | Some _ => cb_size (cur_buffer c) <=? read_pos (cur_buffer c) end in
    assert! negb full || (wanted_size =? 0) in
    let c := if full then select_read_buffer wanted_size (retire_buffer c) else c in
    let cur := cur_buffer c in
    assert! wanted_size <=? u32 (cb_size cur - read_pos cur) in
    Ok (with_iov c (Some (read_pos cur, if negb (wanted_size =? 0) then wanted_size else u32 (cb_size cur - read_pos cur))))
  end.

(** * Messages *)

(** The length of the next message: fragments up to one with the high bit, or
    as far as the data goes. *)
Fixpoint assemble (fuel : nat) (b : list Z) (pos left fragments wanted : Z) : res (Z * Z) :=
  let fragments := fragments + 1 in
  let wanted := u32 (wanted + 4) in
  if left <? wanted then Ok (fragments, wanted)
  else
    let* h := load b (pos + wanted - 4) 4 in
    let frag_size := of_be h in
    let wanted := u32 (wanted + Z.land frag_size 2147483647) in
    if (left <? wanted) || negb (Z.land frag_size 2147483648 =? 0) then Ok (fragments, wanted)
    else match fuel with O => Err OutOfFuel | S fuel => assemble fuel b pos left fragments wanted end.

(** Move the further fragments next to the first one. *)
Fixpoint merge_fragments (n : nat) (b : list Z) (pos frag_offset dest_offset : Z) : res (list Z) :=
  match n with
  | O => Ok b
  | S n =>
    let* h := load b (pos + frag_offset - 4) 4 in
    let frag_size := Z.land (of_be h) 2147483647 in
    let* d := load b (pos + frag_offset) frag_size in
    let* b := poke b (pos + dest_offset) d in
    merge_fragments n b pos (u32 (frag_offset + 4 + frag_size)) (u32 (dest_offset + frag_size))
  end.
Definition merge (b : list Z) (pos fragments : Z) : res (list Z) :=
  if 1 <? fragments then
    let* h := load b pos 4 in
    merge_fragments (Z.to_nat (fragments - 1)) b pos (u32 (8 + of_be h)) (u32 (4 + of_be h))
  else Ok b.

(** There is no room for the rest of the message behind it: start at the front of a buffer. *)
Definition make_room (c : nfs_client_t) (i : nat) (wanted : Z) : nfs_client_t :=
  let cur := cur_buffer c in
  if 0 <? cb_refs cur then
    select_read_buffer wanted (with_buffers c (mem c) cur (<[i := mk_used (cb_size cur) (cb_refs cur)]> (used_buffers c)) (free_buffers c))
  else if cb_size cur <? wanted then
    let c := select_read_buffer wanted c in
    with_buffers c (delete i (mem c)) (cur_buffer c) (used_buffers c) (free_buffers c)
  else c.
Definition move_tail (c : nfs_client_t) (pos left wanted : Z) : res nfs_client_t :=
  let* (i, b) := content c (cb_buf (cur_buffer c)) in
  let* d := load b pos left in
  let c := make_room c i wanted in
  let cur := cur_buffer c in
  let* (i, b) := content c (cb_buf cur) in
  let* b := poke b 0 d in
  Ok (with_buffers c (<[i := b]> (mem c)) (mk_cur (cb_buf cur) (cb_size cur) left 0 (cb_refs cur)) (used_buffers c) (free_buffers c)).

(** [pos] is [data - cur_buffer.buf]. *)
Fixpoint parse_loop (fuel : nat) (c : nfs_client_t) (pos left : Z) : res nfs_client_t :=
  if left <=? 0 then submit_read 0 c
  else
    let cur := cur_buffer c in
    let* (i, b) := content c (cb_buf cur) in
    let* (fragments, wanted) := assemble (Z.to_nat left) b pos left 0 0 in
    if wanted <=? left then
      let* b := merge b pos fragments in
      let* m := load b (pos + 4) (u32 (wanted - 4 * fragments)) in
      let referenced := handle_rpc_message (msgs c) m in
      let cur := mk_cur (cb_buf cur) (cb_size cur) (read_pos cur) (u32 (parsed_pos cur + 4 + wanted - 4 * fragments))
                   (cb_refs cur + if referenced then 1 else 0) in
      let c := with_buffers c (<[i := b]> (mem c)) cur (used_buffers c) (free_buffers c) in
      let c := with_history c (got c) (msgs c ++ [m]) (if referenced then mk_live i (pos + 4) m :: live c else live c) in
      match fuel with O => Err OutOfFuel | S fuel => parse_loop fuel c (pos + wanted) (left - wanted) end
    else if pos + wanted <=? cb_size cur then submit_read (u32 (wanted - left)) c
    else
      let* c := move_tail c pos left wanted in
      submit_read (u32 (wanted - left)) c.

(** [data] is what the kernel has stored, at most as much as was asked for. *)
Definition handle_read (data : list Z) (c : nfs_client_t) : res nfs_client_t :=
  match read_iov c with
  | None => Err Undefined
  | Some (off, _) =>
    let cur := cur_buffer c in
    let* (i, b) := content c (cb_buf cur) in
    let* b := poke b off data in
    let cur := mk_cur (cb_buf cur) (cb_size cur) (u32 (read_pos cur + zlen data)) (parsed_pos cur) (cb_refs cur) in
    let c := with_history (with_iov (with_buffers c (<[i := b]> (mem c)) cur (used_buffers c) (free_buffers c)) None) (got c ++ data) (msgs c) (live c) in
    assert! read_pos cur <=? cb_size cur in
    let left := u32 (read_pos cur - parsed_pos cur) in
    parse_loop (Z.to_nat left) c (parsed_pos cur) left
  end.

(** The kernel had nothing to store (EAGAIN, EINTR, ECANCELED). *)
Definition handle_read_again (c : nfs_client_t) : res nfs_client_t := submit_read 0 (with_iov c None).

(** A new connection becomes readable: the first read is submitted. *)
Definition accept : res nfs_client_t := submit_read 0 new_client.

(** The reply to the [n]-th message in [live] has been sent ([handle_send]). *)
Definition deref_buffer (i : nat) (c : nfs_client_t) : res nfs_client_t :=
  let cur := cur_buffer c in
  if bool_decide (cb_buf cur = Some i)
  then Ok (with_buffers c (mem c) (mk_cur (cb_buf cur) (cb_size cur) (read_pos cur) (parsed_pos cur) (cb_refs cur - 1)) (used_buffers c) (free_buffers c))
  else
    match used_buffers c !! i with
    | None => Err Thrown
    | Some ub =>
      assert! 0 <? ub_refs ub in
      if ub_refs ub - 1 =? 0
      then Ok (with_buffers c (mem c) cur (delete i (used_buffers c)) (mk_free i (ub_size ub) :: free_buffers c))
      else Ok (with_buffers c (mem c) cur (<[i := mk_used (ub_size ub) (ub_refs ub - 1)]> (used_buffers c)) (free_buffers c))
    end.
Definition reply_sent (n : nat) (c : nfs_client_t) : res nfs_client_t :=
  match live c !! n with
  | None => Err Undefined
  | Some m => deref_buffer (lm_buf m) (with_history c (got c) (msgs c) (delete n (live c)))
  end.
End Client.
