(* ===== verification/RpcStreamOk.v ===== *)
(** What [handle_read] promises for a stream of unfragmented records: however the
    network cuts the stream into pieces, the messages handled are the records,
    in order and as soon as they are complete, and a message stays where it is
    until its reply has been sent. *)

From stdpp Require Import gmap.
From S2P Require Import Prelude.
From S2P Require Import Xdr.
From S2P Require Import XdrCodec.
From S2P Require Import RpcStream.

(** * Records *)

(** A message as one fragment: the high bit of the length marks the last fragment. *)
Definition frame (m : list Z) : list Z := be 4 (2147483648 + zlen m) ++ m.
Definition frames (ms : list (list Z)) : list Z := concat (map frame ms).
Definition short (m : list Z) : Prop := zlen m < 2147483648.

Lemma zlen_frame m : zlen (frame m) = 4 + zlen m.
Proof. unfold frame. by rewrite zlen_app, be_zlen. Qed.
Lemma frames_app a b : frames (a ++ b) = frames a ++ frames b.
Proof. unfold frames. by rewrite map_app, concat_app. Qed.
Lemma frames_cons m ms : frames (m :: ms) = frame m ++ frames ms.
Proof. done. Qed.

Lemma frame_size m : short m -> of_be (be 4 (2147483648 + zlen m)) = 2147483648 + zlen m.
Proof. intros Hm. unfold short in Hm. pose proof (zlen_nonneg m). rewrite of_be_be. apply Z.mod_small. change (256 ^ Z.of_nat 4) with 4294967296. lia. Qed.
Lemma size_bits n : 0 <= n < 2147483648 -> Z.land (2147483648 + n) 2147483647 = n.
Proof.
  intros Hn. change 2147483647 with (Z.ones 31). rewrite Z.land_ones by lia. change (2 ^ 31) with 2147483648.
  symmetry. apply (Z.mod_unique _ _ 1); lia.
Qed.
Lemma last_bit n : 0 <= n < 2147483648 -> Z.land (2147483648 + n) 2147483648 <> 0.
Proof.
  intros Hn E. apply (f_equal (fun x => Z.testbit x 31)) in E. rewrite Z.land_spec, Z.bits_0, andb_true_r in E.
  apply Z.testbit_false in E; [| lia]. change (2 ^ 31) with 2147483648 in E.
  replace ((2147483648 + n) / 2147483648) with 1 in E by (apply (Z.div_unique _ _ _ n); lia). done.
Qed.

(** The bytes at [pos] begin with the record of [m], or are a part of it. *)
Lemma assemble_record fuel b pos m ms left :
  short m -> 0 <= pos -> 0 < left -> pos + left <= zlen b -> slice b pos left `prefix_of` frames (m :: ms) -> left < 4294967296 ->
  assemble fuel b pos left 0 0 = Ok (1, if left <? 4 then 4 else 4 + zlen m).
Proof.
  intros Hm Hp Hl Hb [t Ht] Hs. unfold short in Hm. pose proof (zlen_nonneg m).
  assert (forall f, assemble f b pos left 0 0 = Ok (1, if left <? 4 then 4 else 4 + zlen m)) as Ha; [| apply Ha].
  intros f. destruct f; cbn [assemble]; change (u32 (0 + 4)) with 4; (destruct (Z.ltb_spec left 4); [done |]).
  all: rewrite load_slice by lia; cbn [rbind]; replace (pos + 4 - 4) with pos by lia.
  all: assert (slice b pos 4 = be 4 (2147483648 + zlen m)) as ->.
  1, 3: assert (slice b pos left = slice b pos 4 ++ slice b (pos + 4) (left - 4)) as E by (rewrite <- slice_split by lia; f_equal; lia);
    rewrite frames_cons in Ht; unfold frame in Ht; rewrite E, <- !app_assoc in Ht;
    apply app_inj_1 in Ht as [Ht _]; [done |]; apply Nat2Z.inj; change (zlen (be 4 (2147483648 + zlen m)) = zlen (slice b pos 4)); by rewrite be_zlen, zlen_slice by lia.
  all: rewrite frame_size by done; rewrite size_bits by lia; rewrite u32_small by lia.
  all: rewrite (proj2 (Z.eqb_neq _ _)) by (by apply last_bit); by rewrite orb_true_r.
Qed.

(** * Buffers *)

Definition refs_to (l : list live_msg) (i : nat) : Z := zlen (filter (fun m => lm_buf m = i) l).

Lemma refs_to_cons m l i : refs_to (m :: l) i = (if decide (lm_buf m = i) then 1 else 0) + refs_to l i.
Proof. unfold refs_to. rewrite filter_cons. case_decide; [rewrite zlen_cons |]; lia. Qed.
Lemma refs_to_delete l n m i : l !! n = Some m -> refs_to l i = (if decide (lm_buf m = i) then 1 else 0) + refs_to (delete n l) i.
Proof.
  intros Hm. rewrite <- refs_to_cons. unfold refs_to, zlen. f_equal. apply Permutation_length. apply filter_Permutation. by apply delete_Permutation.
Qed.
Lemma refs_to_none l i : (forall m, m ∈ l -> lm_buf m <> i) -> refs_to l i = 0.
Proof.
  intros H. unfold refs_to. induction l as [| m l IH]; [done |]. rewrite filter_cons_False by (apply H; left). apply IH. intros m' Hm'. apply H. by right.
Qed.
Lemma refs_to_pos l i m : m ∈ l -> lm_buf m = i -> 0 < refs_to l i.
Proof.
  intros Hm Hi. apply list_elem_of_lookup in Hm as [n Hn]. rewrite (refs_to_delete l n m i Hn), decide_True by done. pose proof (zlen_nonneg (filter (fun m => lm_buf m = i) (delete n l))).
  unfold refs_to. lia.
Qed.

(** [n] bytes are allocated at [i]. *)
Definition sized (m : gmap nat (list Z)) (i : nat) (n : Z) : Prop := exists l, m !! i = Some l /\ zlen l = n /\ 0 < n < 4294967296.
(** The bytes of a message are where they were. *)
Definition intact (m : gmap nat (list Z)) (x : live_msg) : Prop :=
  exists l, m !! lm_buf x = Some l /\ 0 <= lm_off x /\ lm_off x + zlen (lm_bytes x) <= zlen l /\ slice l (lm_off x) (zlen (lm_bytes x)) = lm_bytes x.

(** Every buffer is free, or in use by messages, or the current one [o]. *)
Record owned (c : nfs_client_t) (o : option nat) : Prop := {
  ow_free : forall f, f ∈ free_buffers c -> sized (mem c) (fb_buf f) (fb_size f) /\ used_buffers c !! fb_buf f = None /\ o <> Some (fb_buf f);
  ow_nodup : NoDup (map fb_buf (free_buffers c));
  ow_used : forall i u, used_buffers c !! i = Some u -> sized (mem c) i (ub_size u) /\ ub_refs u = refs_to (live c) i /\ 0 < ub_refs u /\ o <> Some i;
  ow_live : forall x, x ∈ live c -> intact (mem c) x /\ (o = Some (lm_buf x) \/ is_Some (used_buffers c !! lm_buf x)) }.

Definition cur_ok (c : nfs_client_t) : Prop :=
  let cur := cur_buffer c in
  match cb_buf cur with
  | None => cur = mk_cur None 0 0 0 0
  | Some i =>
    sized (mem c) i (cb_size cur) /\ 0 <= parsed_pos cur <= read_pos cur /\ read_pos cur <= cb_size cur /\ cb_refs cur = refs_to (live c) i /\
    forall x, x ∈ live c -> lm_buf x = i -> lm_off x + zlen (lm_bytes x) <= parsed_pos cur
  end.
Definition buffers_ok (c : nfs_client_t) : Prop := owned c (cb_buf (cur_buffer c)) /\ cur_ok c.

(** What has been received and not handled. *)
Definition pending (c : nfs_client_t) : list Z :=
  match cb_buf (cur_buffer c) with
  | Some i => slice (default [] (mem c !! i)) (parsed_pos (cur_buffer c)) (read_pos (cur_buffer c) - parsed_pos (cur_buffer c))
  | None => []
  end.
Definition same_history (c c' : nfs_client_t) : Prop := got c' = got c /\ msgs c' = msgs c /\ live c' = live c.

Section Buffers.
Context (malloc : gset nat -> nat) (Hmalloc : forall d, malloc d ∉ d).

Lemma malloc_fresh (m : gmap nat (list Z)) i l : m !! i = Some l -> i <> malloc (dom m).
Proof. intros Hi ->. apply (Hmalloc (dom m)). apply elem_of_dom. by exists l. Qed.

Lemma sized_insert_ne m i n j l : i <> j -> sized m i n -> sized (<[j := l]> m) i n.
Proof. intros Hij (l' & Hl & H). exists l'. by rewrite lookup_insert_ne. Qed.
Lemma intact_insert_ne m x j l : lm_buf x <> j -> intact m x -> intact (<[j := l]> m) x.
Proof. intros Hij (l' & Hl & H). exists l'. by rewrite lookup_insert_ne. Qed.

(** A new buffer becomes the current one. *)
Lemma fresh_buffer_ok c size free :
  owned c None -> 0 < size < 4294967296 -> free `suffix_of` free_buffers c ->
  buffers_ok (with_buffers c (<[malloc (dom (mem c)) := replicate (Z.to_nat size) 0]> (mem c)) (mk_cur (Some (malloc (dom (mem c)))) size 0 0 0) (used_buffers c) free).
Proof.
  intros [Hf Hn Hu Hl] Hs [pre Hpre]. set (i := malloc (dom (mem c))).
  assert (forall f, f ∈ free -> f ∈ free_buffers c) as Hsub by (intros f ?; rewrite Hpre; apply elem_of_app; by right).
  assert (forall j n, sized (mem c) j n -> j <> i) as Hne by (intros j n (l & E & _); by eapply malloc_fresh).
  assert (forall x, x ∈ live c -> lm_buf x <> i) as Hlne by (intros x Hx; destruct (Hl x Hx) as [(l & E & _) _]; by eapply malloc_fresh).
  split; [constructor |]; cbn [mem cur_buffer used_buffers free_buffers live with_buffers cb_buf].
  - intros f Hf0. destruct (Hf f (Hsub f Hf0)) as (H1 & H2 & _). pose proof (Hne _ _ H1). split; [by apply sized_insert_ne |]. split; [done | congruence].
  - rewrite Hpre, map_app in Hn. by apply NoDup_app in Hn as (_ & _ & Hn).
  - intros j u Hj. destruct (Hu j u Hj) as (H1 & H2 & H3 & _). pose proof (Hne _ _ H1). split; [by apply sized_insert_ne |]. split; [done |]. split; [done | congruence].
  - intros x Hx. destruct (Hl x Hx) as [H1 H2]. split; [apply intact_insert_ne; auto |]. destruct H2 as [H2 | H2]; [congruence | by right].
  - unfold cur_ok. cbn. split; [exists (replicate (Z.to_nat size) 0); rewrite lookup_insert_eq; split; [done |]; split; [rewrite zlen_replicate; lia | done] |].
    split; [lia |]. split; [lia |]. split; [rewrite refs_to_none by auto; done |]. intros x Hx E. by destruct (Hlne x Hx).
Qed.

Lemma select_read_buffer_ok w c (c' := select_read_buffer malloc w c) :
  owned c None -> 0 <= w < 4294967296 ->
  buffers_ok c' /\ (exists i, cb_buf (cur_buffer c') = Some i) /\ w <= cb_size (cur_buffer c') /\
  read_pos (cur_buffer c') = 0 /\ parsed_pos (cur_buffer c') = 0 /\ cb_refs (cur_buffer c') = 0 /\
  same_history c c' /\ read_iov c' = read_iov c.
Proof.
  intros Ho Hw. unfold c', select_read_buffer. destruct (free_buffers c) as [| b free] eqn:Ef.
  - split; [apply (fresh_buffer_ok c _ []); [done | | by apply suffix_nil]; destruct (_ <? _) eqn:E; [apply Z.ltb_lt in E |]; unfold RPC_INIT_BUF_SIZE in *; lia |].
    cbn. split; [by eexists |]. split; [destruct (_ <? _) eqn:E; [lia |]; apply Z.ltb_ge in E; lia |]. done.
  - assert (free `suffix_of` free_buffers c) as Hsuf by (rewrite Ef; by exists [b]).
    destruct (Z.ltb_spec (fb_size b) w).
    + split; [apply (fresh_buffer_ok c w free); [done | | done]; destruct (ow_free _ _ Ho b) as [(l & _ & _ & Hb) _]; [rewrite Ef; left | lia] |].
      cbn. split; [by eexists |]. split; [lia | done].
    + destruct Ho as [Hf Hn Hu Hl]. rewrite Ef in *. apply NoDup_cons in Hn as [Hnb Hn].
      destruct (Hf b) as (Hb1 & Hb2 & _); [left |].
      assert (forall x, x ∈ live c -> lm_buf x <> fb_buf b) as Hlne.
      { intros x Hx E. destruct (Hl x Hx) as [_ [| [u Hux]]]; [done |]. rewrite E in Hux. congruence. }
      split; [| cbn; split; [by eexists |]; done].
      split; [constructor |]; cbn [mem cur_buffer used_buffers free_buffers live with_buffers cb_buf].
      * intros f Hf0. destruct (Hf f) as (H1 & H2 & _); [by right |]. split; [done |]. split; [done |]. intros [= E]. apply Hnb. rewrite E. by apply list_elem_of_In, in_map, list_elem_of_In.
      * done.
      * intros j u Hj. destruct (Hu j u Hj) as (H1 & H2 & H3 & _). split; [done |]. split; [done |]. split; [done |]. intros [= E]. subst j. congruence.
      * intros x Hx. destruct (Hl x Hx) as [H1 [| H2]]; [done |]. split; [done | by right].
      * unfold cur_ok. cbn. split; [done |]. destruct Hb1 as (l & _ & _ & Hs). split; [lia |]. split; [lia |].
        split; [by rewrite refs_to_none |]. intros x Hx E. by destruct (Hlne x Hx).
Qed.

(** The current buffer is put away with its messages, or without any. *)
Lemma keep_buffer_ok c i (cur := cur_buffer c) :
  buffers_ok c -> cb_buf cur = Some i -> 0 < cb_refs cur ->
  owned (with_buffers c (mem c) cur (<[i := mk_used (cb_size cur) (cb_refs cur)]> (used_buffers c)) (free_buffers c)) None.
Proof.
  intros [[Hf Hn Hu Hl] Hc] Ei Hr. unfold cur_ok in Hc. subst cur. rewrite Ei in *. destruct Hc as (H1 & H2 & H3 & H4 & H5).
  constructor; cbn [mem used_buffers free_buffers live with_buffers].
  - intros f Hf0. destruct (Hf f Hf0) as (A & B & C). split; [done |]. split; [rewrite lookup_insert_ne; [done | congruence] | done].
  - done.
  - intros j u Hj. destruct (decide (i = j)) as [<- | Hij].
    + rewrite lookup_insert_eq in Hj. injection Hj as <-. by split.
    + rewrite lookup_insert_ne in Hj by done. destruct (Hu j u Hj) as (A & B & C & _). by split.
  - intros x Hx. destruct (Hl x Hx) as [A [B | B]]; (split; [done |]; right); [injection B as ->; by rewrite lookup_insert_eq |].
    destruct (decide (i = lm_buf x)) as [-> |]; [by rewrite lookup_insert_eq | by rewrite lookup_insert_ne].
Qed.

Lemma live_elsewhere c i : buffers_ok c -> cb_buf (cur_buffer c) = Some i -> cb_refs (cur_buffer c) <= 0 -> forall x, x ∈ live c -> lm_buf x <> i.
Proof.
  intros [_ Hc] Ei Hr x Hx E. unfold cur_ok in Hc. rewrite Ei in Hc. destruct Hc as (_ & _ & _ & H4 & _). pose proof (refs_to_pos (live c) i x Hx E). lia.
Qed.
(** Without messages nothing is in the current buffer but what is pending. *)
Lemma drop_buffer_ok c i : buffers_ok c -> cb_buf (cur_buffer c) = Some i -> cb_refs (cur_buffer c) <= 0 -> owned c None.
Proof.
  intros Hb Ei Hr. pose proof (live_elsewhere c i Hb Ei Hr) as Hne. destruct Hb as [[Hf Hn Hu Hl] _]. rewrite Ei in *. constructor.
  - intros f Hf0. destruct (Hf f Hf0) as (A & B & _). by split.
  - done.
  - intros j u Hj. destruct (Hu j u Hj) as (A & B & C & _). by split.
  - intros x Hx. destruct (Hl x Hx) as [A [B | B]]; [injection B as B; by destruct (Hne x Hx) |]. split; [done | by right].
Qed.

Lemma retire_buffer_ok c : buffers_ok c -> owned (retire_buffer c) None /\ same_history c (retire_buffer c) /\ read_iov (retire_buffer c) = read_iov c.
Proof.
  intros Hb. unfold retire_buffer. destruct (cb_buf (cur_buffer c)) as [i |] eqn:Ei; [| destruct Hb as [Hb _]; by rewrite Ei in Hb].
  destruct (Z.ltb_spec 0 (cb_refs (cur_buffer c))); (split; [| done]); [by apply keep_buffer_ok |].
  pose proof (drop_buffer_ok c i Hb Ei ltac:(lia)) as [Hf Hn Hu Hl]. destruct Hb as [[Hf' _ Hu' _] Hc]. unfold cur_ok in Hc. rewrite Ei in *.
  destruct Hc as (H1 & _). constructor; cbn [mem used_buffers free_buffers live with_buffers]; [| | done | done].
  - intros f [-> | Hf0]%elem_of_cons; [| by apply Hf]. cbn. split; [done |]. split; [| done].
    destruct (used_buffers c !! i) as [u |] eqn:Eu; [| done]. by destruct (Hu' i u Eu) as (_ & _ & _ & []).
  - cbn. apply NoDup_cons. split; [| done]. intros (f & Hf0 & Hfi)%list_elem_of_In%in_map_iff.
    destruct (Hf' f) as (_ & _ & []); [by apply list_elem_of_In | by rewrite Hf0].
Qed.

(** * Asking for more *)

Definition waiting (c : nfs_client_t) : Prop :=
  exists i n, cb_buf (cur_buffer c) = Some i /\ read_iov c = Some (read_pos (cur_buffer c), n) /\ 0 < n <= cb_size (cur_buffer c) - read_pos (cur_buffer c).

Lemma with_iov_ok c v : buffers_ok c -> buffers_ok (with_iov c v).
Proof. intros [[] Hc]. by split; [constructor |]. Qed.

(** The rest of the buffer is filled. *)
Lemma submit_read_more c i :
  buffers_ok c -> read_iov c = None -> cb_buf (cur_buffer c) = Some i -> read_pos (cur_buffer c) < cb_size (cur_buffer c) ->
  exists c', submit_read malloc 0 c = Ok c' /\ buffers_ok c' /\ waiting c' /\ same_history c c' /\ pending c' = pending c.
Proof.
  intros Hb Hi Ei Ef. unfold submit_read. rewrite Hi, Ei, orb_true_r, (proj2 (Z.leb_gt (cb_size (cur_buffer c)) _)) by done. pose proof (proj2 Hb) as Hc. unfold cur_ok in Hc.
  rewrite Ei in Hc. destruct Hc as ((l & _ & _ & Hs) & H2 & H3 & _). rewrite u32_small, (proj2 (Z.leb_le 0 _)) by lia. eexists. split; [done |].
  split; [by apply with_iov_ok |]. split; [exists i, (cb_size (cur_buffer c) - read_pos (cur_buffer c)); split; [done |]; split; [done | cbn; lia] |]. done.
Qed.

(** Another buffer is filled. *)
Lemma next_buffer_ok c (c1 := select_read_buffer malloc 0 (retire_buffer c)) (cur := cur_buffer c1) :
  buffers_ok c ->
  exists c', (assert! 0 <=? u32 (cb_size cur - read_pos cur) in
    Ok (with_iov c1 (Some (read_pos cur, if negb (0 =? 0) then 0 else u32 (cb_size cur - read_pos cur))))) = Ok c' /\
    buffers_ok c' /\ waiting c' /\ same_history c c' /\ pending c' = [].
Proof.
  intros Hb. destruct (retire_buffer_ok c Hb) as (Ho & Hh & Hr). destruct (select_read_buffer_ok 0 _ Ho) as (A & (i & B) & C & D & E & _ & F & G); [lia |].
  subst cur. fold c1 in A, B, C, D, E, F, G. clearbody c1. pose proof (proj2 A) as A3. unfold cur_ok in A3. rewrite B in A3.
  destruct A3 as ((l & _ & _ & Hs) & _). rewrite D, Z.sub_0_r, u32_small, (proj2 (Z.leb_le 0 _)) by lia. eexists. split; [done |].
  split; [by apply with_iov_ok |]. split; [exists i, (cb_size (cur_buffer c1)); cbn; rewrite D; split; [done |]; split; [done | lia] |].
  split; [destruct Hh as (? & ? & ?), F as (? & ? & ?); unfold same_history; cbn; repeat split; congruence |]. unfold pending. cbn. by rewrite B, D, E.
Qed.

(** All is handled: the rest of the buffer or a new one is filled. *)
Lemma submit_read_all c :
  buffers_ok c -> read_iov c = None -> pending c = [] ->
  exists c', submit_read malloc 0 c = Ok c' /\ buffers_ok c' /\ waiting c' /\ same_history c c' /\ pending c' = [].
Proof.
  intros Hb Hi Hp. destruct (cb_buf (cur_buffer c)) as [i |] eqn:Ei.
  { destruct (decide (read_pos (cur_buffer c) < cb_size (cur_buffer c))) as [Hlt | Hge].
    - destruct (submit_read_more c i Hb Hi Ei Hlt) as (c' & E & Hb' & Hw & Hh & Hp'). exists c'. by rewrite Hp', Hp.
    - unfold submit_read. rewrite Hi, Ei, orb_true_r, (proj2 (Z.leb_le (cb_size (cur_buffer c)) _)) by lia. by apply next_buffer_ok. }
  unfold submit_read. rewrite Hi, Ei, orb_true_r. by apply next_buffer_ok.
Qed.

(** The rest of a message is asked for, and not more. *)
Lemma submit_read_rest c w i :
  buffers_ok c -> read_iov c = None -> cb_buf (cur_buffer c) = Some i -> 0 < w <= cb_size (cur_buffer c) - read_pos (cur_buffer c) ->
  exists c', submit_read malloc w c = Ok c' /\ buffers_ok c' /\ waiting c' /\ same_history c c' /\ pending c' = pending c.
Proof.
  intros Hb Hi Ei Hw. unfold submit_read. rewrite Hi, Ei. pose proof (proj2 Hb) as Hc'. unfold cur_ok in Hc'. rewrite Ei in Hc'.
  destruct Hc' as ((l & _ & _ & Hs) & H2 & H3 & _). rewrite (proj2 (Z.leb_gt (cb_size _) _)) by lia. cbn [negb orb].
  rewrite u32_small, (proj2 (Z.leb_le w _)), (proj2 (Z.eqb_neq w 0)) by lia. eexists. split; [done |].
  split; [by apply with_iov_ok |]. split; [exists i, w; by split |]. done.
Qed.

(** * Changes of the current buffer *)

Lemma content_ok c i : buffers_ok c -> cb_buf (cur_buffer c) = Some i ->
  exists l, mem c !! i = Some l /\ content c (Some i) = Ok (i, l) /\ zlen l = cb_size (cur_buffer c) /\ cb_size (cur_buffer c) < 4294967296.
Proof.
  intros [_ Hc] Ei. unfold cur_ok in Hc. rewrite Ei in Hc. destruct Hc as ((l & Hl & Hs & Hn) & _). exists l. unfold content. rewrite Hl.
  split; [done |]. split; [done |]. split; [done | lia].
Qed.

(** New bytes, new positions and another list of messages that need the buffer. *)
Lemma update_cur_ok c i l l' r p refs g ms lv :
  buffers_ok c -> cb_buf (cur_buffer c) = Some i -> mem c !! i = Some l -> zlen l' = zlen l -> 0 <= p <= r -> r <= cb_size (cur_buffer c) ->
  (forall x, x ∈ lv -> x ∈ live c \/ lm_buf x = i) -> (forall j, j <> i -> refs_to lv j = refs_to (live c) j) -> refs = refs_to lv i ->
  (forall x, x ∈ lv -> lm_buf x = i -> 0 <= lm_off x /\ lm_off x + zlen (lm_bytes x) <= p /\ slice l' (lm_off x) (zlen (lm_bytes x)) = lm_bytes x) ->
  buffers_ok (with_history (with_buffers c (<[i := l']> (mem c)) (mk_cur (Some i) (cb_size (cur_buffer c)) r p refs) (used_buffers c) (free_buffers c)) g ms lv).
Proof.
  intros [[Hf Hn Hu Hl] Hc] Ei El El' Hp Hr Hlv Hrefs Er Hi. unfold cur_ok in Hc. rewrite Ei in *. destruct Hc as ((l0 & E0 & Hs & Hn0) & _).
  rewrite El in E0. injection E0 as <-.
  assert (forall j, j <> i -> forall n, sized (mem c) j n -> sized (<[i := l']> (mem c)) j n) as Hsz by (intros; by apply sized_insert_ne).
  split; [constructor |]; cbn [mem used_buffers free_buffers live with_buffers with_history cur_buffer cb_buf].
  - intros f Hf0. destruct (Hf f Hf0) as (A & B & C). split; [apply Hsz; [congruence | done] | done].
  - done.
  - intros j u Hj. destruct (Hu j u Hj) as (A & B & C & D). split; [apply Hsz; [congruence | done] |]. split; [rewrite Hrefs; [done | congruence] | done].
  - intros x Hx. destruct (decide (lm_buf x = i)) as [Ex | Ex].
    + destruct (Hi x Hx Ex) as (A & B & C). split; [| left; by f_equal]. exists l'. rewrite Ex, lookup_insert_eq. split; [done |]. split; [done |]. split; [lia | done].
    + destruct (Hlv x Hx) as [Hx' |]; [| done]. destruct (Hl x Hx') as [A B]. split; [by apply intact_insert_ne | done].
  - unfold cur_ok. cbn. split; [exists l'; rewrite lookup_insert_eq; split; [done |]; split; [congruence | done] |].
    split; [done |]. split; [done |]. split; [done |]. intros x Hx Ex. by apply Hi.
Qed.

(** The messages in the current buffer lie before the parsed position. *)
Lemma live_before c i l x : buffers_ok c -> cb_buf (cur_buffer c) = Some i -> mem c !! i = Some l -> x ∈ live c -> lm_buf x = i ->
  0 <= lm_off x /\ lm_off x + zlen (lm_bytes x) <= parsed_pos (cur_buffer c) /\ slice l (lm_off x) (zlen (lm_bytes x)) = lm_bytes x.
Proof.
  intros [[_ _ _ Hl] Hc] Ei El Hx Ex. unfold cur_ok in Hc. rewrite Ei in Hc. destruct Hc as (_ & _ & _ & _ & H). destruct (Hl x Hx) as [(l0 & E0 & A & B & C) _].
  rewrite Ex, El in E0. injection E0 as <-. split; [done |]. split; [by apply H | done].
Qed.

(** The kernel stores [d] behind what has been read. *)
Lemma store_ok c i l d :
  buffers_ok c -> cb_buf (cur_buffer c) = Some i -> mem c !! i = Some l -> zlen d <= cb_size (cur_buffer c) - read_pos (cur_buffer c) ->
  let cur := cur_buffer c in
  let c' := with_history (with_buffers c (<[i := poked l (read_pos cur) d]> (mem c)) (mk_cur (Some i) (cb_size cur) (read_pos cur + zlen d) (parsed_pos cur) (cb_refs cur))
    (used_buffers c) (free_buffers c)) (got c ++ d) (msgs c) (live c) in
  buffers_ok c' /\ pending c' = pending c ++ d.
Proof.
  intros Hb Ei El Hd. pose proof (zlen_nonneg d). destruct (content_ok c i Hb Ei) as (l0 & E0 & _ & Hs & _). rewrite El in E0. injection E0 as <-.
  pose proof (proj2 Hb) as Hc. unfold cur_ok in Hc. rewrite Ei in Hc. destruct Hc as (_ & H2 & H3 & H4 & _). cbv zeta. split.
  - apply (update_cur_ok c i l); try done; [by apply zlen_poked; lia | lia | lia | by left |].
    intros x Hx Ex. destruct (live_before c i l x Hb Ei El Hx Ex) as (A & B & C). split; [done |]. split; [done |].
    rewrite slice_poked_before; [done | lia | apply zlen_nonneg | lia | lia].
  - unfold pending. cbn. rewrite Ei, El, lookup_insert_eq. unfold default, from_option, id.
    replace (read_pos (cur_buffer c) + zlen d - parsed_pos (cur_buffer c)) with ((read_pos (cur_buffer c) - parsed_pos (cur_buffer c)) + zlen d) by lia.
    rewrite slice_split by lia. f_equal; [apply slice_poked_before; lia |].
    replace (parsed_pos _ + (read_pos _ - parsed_pos _)) with (read_pos (cur_buffer c)) by lia. apply slice_poked_at. lia.
Qed.

(** A message at the parsed position is handled. *)
Lemma deliver_ok c i l m q (ref : bool) (cur := cur_buffer c) :
  buffers_ok c -> cb_buf cur = Some i -> mem c !! i = Some l -> pending c = frame m ++ q ->
  let c' := with_history (with_buffers c (<[i := l]> (mem c)) (mk_cur (Some i) (cb_size cur) (read_pos cur) (parsed_pos cur + (4 + zlen m)) (cb_refs cur + if ref then 1 else 0))
    (used_buffers c) (free_buffers c)) (got c) (msgs c ++ [m]) (if ref then mk_live i (parsed_pos cur + 4) m :: live c else live c) in
  slice l (parsed_pos cur + 4) (zlen m) = m /\ parsed_pos cur + (4 + zlen m) <= read_pos cur /\ buffers_ok c' /\ pending c' = q.
Proof.
  intros Hb Ei El Hp. pose proof (zlen_nonneg m). pose proof (zlen_nonneg q). destruct (content_ok c i Hb Ei) as (l0 & E0 & _ & Hs & _). rewrite El in E0. injection E0 as <-.
  pose proof (proj2 Hb) as Hc. unfold cur_ok in Hc. subst cur. rewrite Ei in Hc. destruct Hc as (_ & H2 & H3 & H4 & _).
  unfold pending in Hp. rewrite Ei, El in Hp. unfold default, from_option, id in Hp. set (pos := parsed_pos (cur_buffer c)) in *. set (rp := read_pos (cur_buffer c)) in *.
  assert (rp - pos = 4 + (zlen m + zlen q)) as Hlen.
  { apply (f_equal zlen) in Hp. rewrite zlen_slice, zlen_app, zlen_frame in Hp by lia. lia. }
  assert (slice l (pos + 4) (zlen m) = m /\ slice l (pos + (4 + zlen m)) (zlen q) = q) as [Hm Hq].
  { rewrite Hlen, !slice_split in Hp by lia. unfold frame in Hp. rewrite <- app_assoc in Hp.
    assert (forall a b : list Z, zlen a = zlen b -> length a = length b) as Hz by (unfold zlen; lia).
    apply app_inj_1 in Hp as [_ Hp]; [| apply Hz; rewrite zlen_slice, be_zlen; lia]. apply app_inj_1 in Hp as [Hm Hq]; [| apply Hz; rewrite zlen_slice; lia].
    split; [done |]. by rewrite Z.add_assoc. }
  split; [done |]. split; [lia |]. cbv zeta. split.
  - apply (update_cur_ok c i l); try done; [lia | | | |].
    + intros x Hx. destruct ref; [| by left]. apply elem_of_cons in Hx as [-> | Hx]; [by right | by left].
    + intros j Hj. destruct ref; [| done]. rewrite refs_to_cons, decide_False; [lia |]. by intros <-.
    + destruct ref; [rewrite refs_to_cons, decide_True by done |]; lia.
    + intros x Hx Ex. assert (x ∈ live c -> 0 <= lm_off x /\ lm_off x + zlen (lm_bytes x) <= pos + (4 + zlen m) /\ slice l (lm_off x) (zlen (lm_bytes x)) = lm_bytes x) as Hold.
      { intros Hx'. destruct (live_before c i l x Hb Ei El Hx' Ex) as (A & B & C). split; [done |]. split; [fold pos in B; lia | done]. }
      destruct ref; [| by apply Hold]. apply elem_of_cons in Hx as [-> | Hx]; [| by apply Hold]. cbn. split; [lia |]. split; [lia | done].
  - unfold pending. cbn. rewrite lookup_insert_eq. unfold default, from_option, id. etransitivity; [| exact Hq]. f_equal. lia.
Qed.

(** ** Moving the rest of the data to another buffer *)

Lemma select_other w c i l :
  mem c !! i = Some l -> (forall f, f ∈ free_buffers c -> fb_buf f <> i) ->
  let c' := select_read_buffer malloc w c in
  cb_buf (cur_buffer c') <> Some i /\ used_buffers c' = used_buffers c /\ forall f, f ∈ free_buffers c' -> f ∈ free_buffers c.
Proof.
  intros Hi Hf. pose proof (malloc_fresh _ _ _ Hi). unfold select_read_buffer. destruct (free_buffers c) as [| b free]; cbn.
  - split; [congruence |]. split; [done |]. intros f Hf0. by apply elem_of_nil in Hf0.
  - destruct (_ <? _); cbn; (split; [| split; [done |]; intros; by right]); [congruence |]. intros [= E]. by apply (Hf b); [left |].
Qed.

Lemma forget_buffer_ok c i :
  buffers_ok c -> cb_buf (cur_buffer c) <> Some i -> used_buffers c !! i = None -> (forall f, f ∈ free_buffers c -> fb_buf f <> i) -> (forall x, x ∈ live c -> lm_buf x <> i) ->
  buffers_ok (with_buffers c (delete i (mem c)) (cur_buffer c) (used_buffers c) (free_buffers c)).
Proof.
  intros [[Hf Hn Hu Hl] Hc] Hcur Hui Hfi Hli.
  assert (forall j n, j <> i -> sized (mem c) j n -> sized (delete i (mem c)) j n) as Hsz by (intros j n Hj (l & E & ?); exists l; by rewrite lookup_delete_ne).
  split; [constructor |]; cbn [mem used_buffers free_buffers live with_buffers cur_buffer].
  - intros f Hf0. destruct (Hf f Hf0) as (A & B & C). split; [apply Hsz; [by apply Hfi | done] | done].
  - done.
  - intros j u Hj. destruct (Hu j u Hj) as (A & B & C & D). split; [apply Hsz; [congruence | done] | done].
  - intros x Hx. destruct (Hl x Hx) as [(l & E & A) B]. split; [| done]. exists l. rewrite lookup_delete_ne; [done |]. intros ->. by apply (Hli x).
  - unfold cur_ok in *. cbn. destruct (cb_buf (cur_buffer c)) as [j |]; [| done]. destruct Hc as [A B]. split; [apply Hsz; [congruence | done] | done].
Qed.

(** The data is put at the front of a buffer without messages. *)
Lemma fill_front_ok c i l d :
  buffers_ok c -> cb_buf (cur_buffer c) = Some i -> cb_refs (cur_buffer c) <= 0 -> mem c !! i = Some l -> zlen d <= cb_size (cur_buffer c) ->
  let c' := with_buffers c (<[i := poked l 0 d]> (mem c)) (mk_cur (Some i) (cb_size (cur_buffer c)) (zlen d) 0 (cb_refs (cur_buffer c))) (used_buffers c) (free_buffers c) in
  buffers_ok c' /\ pending c' = d.
Proof.
  intros Hb Ei Hr El Hd. pose proof (zlen_nonneg d). pose proof (live_elsewhere c i Hb Ei Hr) as Hne. destruct (content_ok c i Hb Ei) as (l0 & E0 & _ & Hs & _).
  rewrite El in E0. injection E0 as <-. pose proof (proj2 Hb) as Hc. unfold cur_ok in Hc. rewrite Ei in Hc. destruct Hc as (_ & _ & _ & H4 & _). split.
  - apply (update_cur_ok c i l (poked l 0 d) (zlen d) 0 _ (got c) (msgs c) (live c)); try done; [by apply zlen_poked; lia | by left |].
    intros x Hx Ex. by destruct (Hne x Hx).
  - unfold pending. cbn. rewrite lookup_insert_eq. unfold default, from_option, id. rewrite Z.sub_0_r. apply slice_poked_at. pose proof (zlen_nonneg l). lia.
Qed.

Lemma make_room_ok c i wanted (c1 := make_room malloc c i wanted) :
  buffers_ok c -> cb_buf (cur_buffer c) = Some i -> 0 <= wanted < 4294967296 ->
  exists j l, buffers_ok c1 /\ cb_buf (cur_buffer c1) = Some j /\ mem c1 !! j = Some l /\ cb_refs (cur_buffer c1) <= 0 /\ wanted <= cb_size (cur_buffer c1) /\
    same_history c c1 /\ read_iov c1 = read_iov c.
Proof.
  intros Hb Ei Hw. unfold c1, make_room. destruct (Z.ltb_spec 0 (cb_refs (cur_buffer c))) as [Hr | Hr]; [| destruct (Z.ltb_spec (cb_size (cur_buffer c)) wanted) as [Hs | Hs]].
  - pose proof (keep_buffer_ok c i Hb Ei Hr) as Ho. destruct (select_read_buffer_ok wanted _ Ho Hw) as (A & (j & B) & C & _ & _ & D & E & F).
    destruct (content_ok _ j A B) as (l & El & _). exists j, l. split; [done |]. split; [done |]. split; [done |]. split; [lia |]. split; [lia |]. split; [exact E | exact F].
  - pose proof (drop_buffer_ok c i Hb Ei Hr) as Ho. destruct (select_read_buffer_ok wanted _ Ho Hw) as (A & (j & B) & C & _ & _ & D & E & F).
    destruct (content_ok c i Hb Ei) as (l & El & _). pose proof (live_elsewhere c i Hb Ei Hr) as Hne. destruct Hb as [[Hf _ Hu _] _]. rewrite Ei in *.
    assert (forall f, f ∈ free_buffers c -> fb_buf f <> i) as Hfi by (intros f Hf0 Efi; destruct (Hf f Hf0) as (_ & _ & G); congruence).
    destruct (select_other wanted c i l El Hfi) as (G1 & G2 & G3). pose proof E as (_ & _ & E3).
    assert (buffers_ok (with_buffers (select_read_buffer malloc wanted c) (delete i (mem (select_read_buffer malloc wanted c)))
      (cur_buffer (select_read_buffer malloc wanted c)) (used_buffers (select_read_buffer malloc wanted c)) (free_buffers (select_read_buffer malloc wanted c)))) as Hb'.
    { apply forget_buffer_ok; [done | done | | by auto | by rewrite E3]. rewrite G2.
      destruct (used_buffers c !! i) as [u |] eqn:Eu; [| done]. by destruct (Hu i u Eu) as (_ & _ & _ & []). }
    destruct (content_ok _ j Hb' B) as (l1 & El1 & _). exists j, l1. split; [done |]. split; [done |]. split; [done |]. split; [cbn; lia |]. split; [cbn; lia |]. split; [exact E | exact F].
  - destruct (content_ok c i Hb Ei) as (l & El & _). exists i, l. split; [done |]. split; [done |]. split; [done |]. by split.
Qed.

Lemma move_tail_ok c i wanted (cur := cur_buffer c) :
  buffers_ok c -> cb_buf cur = Some i -> read_pos cur - parsed_pos cur <= wanted < 4294967296 ->
  exists c', move_tail malloc c (parsed_pos cur) (read_pos cur - parsed_pos cur) wanted = Ok c' /\ buffers_ok c' /\ pending c' = pending c /\
    same_history c c' /\ read_iov c' = read_iov c /\
    exists j, cb_buf (cur_buffer c') = Some j /\ read_pos (cur_buffer c') = read_pos cur - parsed_pos cur /\ wanted <= cb_size (cur_buffer c').
Proof.
  intros Hb Ei Hw. destruct (content_ok c i Hb Ei) as (l & El & Ec & Hs & _). pose proof (proj2 Hb) as Hc. unfold cur_ok in Hc. subst cur. rewrite Ei in Hc.
  destruct Hc as (_ & H2 & H3 & _). unfold move_tail. rewrite Ei, Ec. cbn [rbind]. rewrite load_slice by lia. cbn [rbind].
  assert (pending c = slice l (parsed_pos (cur_buffer c)) (read_pos (cur_buffer c) - parsed_pos (cur_buffer c))) as Ep by (unfold pending; by rewrite Ei, El).
  rewrite <- Ep. assert (zlen (pending c) = read_pos (cur_buffer c) - parsed_pos (cur_buffer c)) as Hlen by (rewrite Ep; apply zlen_slice; lia).
  destruct (make_room_ok c i wanted Hb Ei) as (j & l1 & Hb1 & Ej & El1 & Hr1 & Hs1 & Hh & Hi); [lia |].
  set (c1 := make_room malloc c i wanted) in *. rewrite Ej.
  destruct (content_ok c1 j Hb1 Ej) as (l1' & El1' & -> & Hsz & _). rewrite El1 in El1'. injection El1' as <-. cbn [rbind].
  rewrite poke_poked by lia. cbn [rbind]. destruct (fill_front_ok c1 j l1 (pending c) Hb1 Ej Hr1 El1) as [Hb2 Hp2]; [lia |]. rewrite Hlen in Hb2, Hp2.
  eexists. split; [done |]. split; [done |]. split; [done |]. split; [done |]. split; [done |]. exists j. by split.
Qed.
End Buffers.

(** * The loop over the messages *)

Section Loop.
Context (malloc : gset nat -> nat) (Hmalloc : forall d, malloc d ∉ d) (handle_rpc_message : list (list Z) -> list Z -> bool).

(** What is pending is a part of the next record. *)
Definition incomplete (p : list Z) (rest : list (list Z)) : Prop := p = [] \/ exists m ms, rest = m :: ms /\ zlen p < zlen (frame m).

Lemma prefix_shorter (a b c : list Z) : a `prefix_of` b ++ c -> zlen b <= zlen a -> exists q, a = b ++ q /\ q `prefix_of` c.
Proof.
  intros [t Ht] Hl. unfold zlen in Hl. exists (drop (length b) a). assert (take (length b) a = b) as Hb.
  { apply (f_equal (take (length b))) in Ht. rewrite take_app_length, take_app_le in Ht by lia. done. }
  split; [rewrite <- Hb at 1; by rewrite take_drop |]. exists t. rewrite <- (take_drop (length b) a), Hb, <- app_assoc in Ht. by apply app_inv_head in Ht.
Qed.

Lemma positions c (cur := cur_buffer c) : buffers_ok c ->
  0 <= parsed_pos cur <= read_pos cur /\ read_pos cur <= cb_size cur < 4294967296 /\ zlen (pending c) = read_pos cur - parsed_pos cur.
Proof.
  intros [_ Hc]. unfold cur_ok in Hc. unfold pending. subst cur. destruct (cb_buf (cur_buffer c)) as [i |] eqn:Ei; [| by rewrite Hc].
  destruct Hc as ((l & El & Hl & Hs) & H2 & H3 & _). split; [done |]. split; [lia |]. rewrite El. unfold default, from_option, id. apply zlen_slice; lia.
Qed.

(** The rest of the current record is asked for, in this buffer or another one. *)
Lemma wait_rest_ok c i wanted (cur := cur_buffer c) (left := read_pos cur - parsed_pos cur) :
  buffers_ok c -> read_iov c = None -> cb_buf cur = Some i -> left < wanted < 4294967296 ->
  exists c', (if parsed_pos cur + wanted <=? cb_size cur then submit_read malloc (u32 (wanted - left)) c
    else let* c := move_tail malloc c (parsed_pos cur) left wanted in submit_read malloc (u32 (wanted - left)) c) = Ok c' /\
    buffers_ok c' /\ waiting c' /\ same_history c c' /\ pending c' = pending c.
Proof.
  intros Hb Hi Ei Hw. destruct (positions c Hb) as (P1 & P2 & P3). subst cur left. rewrite u32_small by lia. destruct (Z.leb_spec (parsed_pos (cur_buffer c) + wanted) (cb_size (cur_buffer c))).
  - apply (submit_read_rest malloc c _ i); try done. lia.
  - destruct (move_tail_ok malloc Hmalloc c i wanted Hb Ei) as (c1 & -> & Hb1 & Hp1 & Hh & Hi1 & j & Ej & Hr & Hs); [lia |]. cbn [rbind]. rewrite <- Hp1.
    destruct (submit_read_rest malloc c1 (wanted - (read_pos (cur_buffer c) - parsed_pos (cur_buffer c))) j Hb1) as (c2 & E2 & Hb2 & Hw2 & Hh2 & Hp2); [congruence | done | lia |].
    exists c2. split; [done |]. split; [done |]. split; [done |]. split; [| done]. destruct Hh as (? & ? & ?), Hh2 as (? & ? & ?). unfold same_history. repeat split; congruence.
Qed.

Lemma parse_loop_ok fuel c rest (cur := cur_buffer c) :
  buffers_ok c -> read_iov c = None -> Forall short rest -> pending c `prefix_of` frames rest -> (Z.to_nat (read_pos cur - parsed_pos cur) <= fuel)%nat ->
  exists c' now later, parse_loop malloc handle_rpc_message fuel c (parsed_pos cur) (read_pos cur - parsed_pos cur) = Ok c' /\
    rest = now ++ later /\ buffers_ok c' /\ waiting c' /\ got c' = got c /\ msgs c' = msgs c ++ now /\
    pending c = frames now ++ pending c' /\ incomplete (pending c') later.
Proof.
  subst cur. revert c rest. induction fuel as [| fuel IH]; intros c rest Hb Hi Hsh Hp Hfuel; destruct (positions c Hb) as (P1 & P2 & P3);
    cbn [parse_loop]; destruct (Z.leb_spec (read_pos (cur_buffer c) - parsed_pos (cur_buffer c)) 0); try lia.
  1, 2: destruct (submit_read_all malloc Hmalloc c Hb Hi) as (c' & E & Hb' & Hw & (A & B & _) & Hp'); [destruct (pending c); [done | rewrite zlen_cons in P3; pose proof (zlen_nonneg l); lia] |];
    assert (pending c = []) as Hp0 by (destruct (pending c); [done | rewrite zlen_cons in P3; pose proof (zlen_nonneg l); lia]);
    exists c', [], rest; rewrite app_nil_r, Hp', Hp0; split; [done |]; split; [done |]; split; [done |]; split; [done |]; split; [done |]; split; [done |]; split; [done | by left].
  destruct (cb_buf (cur_buffer c)) as [i |] eqn:Ei; [| destruct Hb as [_ Hc]; unfold cur_ok in Hc; rewrite Ei in Hc; rewrite Hc in *; cbn in *; lia].
  destruct (content_ok c i Hb Ei) as (l & El & Ec & Hs & _). rewrite Ec. cbn [rbind].
  destruct rest as [| m ms]; [apply prefix_nil_inv in Hp; rewrite Hp in P3; change (zlen []) with 0 in P3; lia |]. apply Forall_cons in Hsh as [Hm Hsh].
  assert (pending c = slice l (parsed_pos (cur_buffer c)) (read_pos (cur_buffer c) - parsed_pos (cur_buffer c))) as Ep by (unfold pending; by rewrite Ei, El).
  rewrite (assemble_record _ l _ m ms) by (rewrite <- ?Ep; done || lia). cbn [rbind]. set (left := read_pos (cur_buffer c) - parsed_pos (cur_buffer c)) in *.
  set (wanted := if left <? 4 then 4 else 4 + zlen m). unfold short in Hm. pose proof (zlen_nonneg m).
  assert (4 <= wanted <= 4 + zlen m) as Hwm by (unfold wanted; destruct (left <? 4); lia). destruct (Z.leb_spec wanted left) as [Hle | Hgt].
  - assert (wanted = 4 + zlen m) as Hwd by (unfold wanted in *; destruct (Z.ltb_spec left 4); [lia | done]).
    rewrite frames_cons in Hp. destruct (prefix_shorter _ _ _ Hp) as (q & Hq & Hqp); [rewrite zlen_frame; lia |].
    destruct (deliver_ok c i l m q (handle_rpc_message (msgs c) m) Hb Ei El Hq) as (D1 & D2 & D3 & D4). change (merge l (parsed_pos (cur_buffer c)) 1) with (Ok (A := list Z) l). cbn [rbind].
    rewrite (u32_small (wanted - 4 * 1)), (u32_small (parsed_pos _ + 4 + wanted - 4 * 1)), load_slice by lia. cbn [rbind].
    replace (wanted - 4 * 1) with (zlen m) by lia. rewrite D1. replace (parsed_pos (cur_buffer c) + 4 + wanted - 4 * 1) with (parsed_pos (cur_buffer c) + (4 + zlen m)) by lia.
    match type of D3 with buffers_ok ?x => set (c1 := x) in D3, D4 end. destruct (IH c1 ms D3) as (c' & now & later & E & -> & Hb' & Hw' & Hg' & Hm' & Hp' & Hin); [done | done | by rewrite D4 | cbn; lia |].
    exists c', (m :: now), later. cbn in E. replace (read_pos (cur_buffer c) - (parsed_pos (cur_buffer c) + (4 + zlen m))) with (left - wanted) in E by lia.
    replace (parsed_pos (cur_buffer c) + (4 + zlen m)) with (parsed_pos (cur_buffer c) + wanted) in E by lia. split; [exact E |].
    split; [done |]. split; [done |]. split; [done |]. split; [done |]. split; [rewrite Hm'; cbn; by rewrite <- app_assoc |].
    split; [| done]. rewrite Hq, frames_cons, <- app_assoc. f_equal. by rewrite <- D4.
  - destruct (wait_rest_ok c i wanted Hb Hi Ei) as (c' & E & Hb' & Hw & (A & B & _) & Hp'); [fold left; lia |]. fold left in E.
    exists c', [], (m :: ms). rewrite app_nil_r, Hp'. split; [exact E |]. split; [done |]. split; [done |]. split; [done |]. split; [done |]. split; [done |]. split; [done |].
    right. exists m, ms. split; [done |]. rewrite zlen_frame. lia.
Qed.
End Loop.

(** * Sent replies *)

(** A message in a buffer that is not the current one is finished. *)
Lemma release_used_ok c n m u (i := lm_buf m) (lv := delete n (live c)) used free :
  buffers_ok c -> live c !! n = Some m -> used_buffers c !! i = Some u ->
  (used = delete i (used_buffers c) /\ free = mk_free i (ub_size u) :: free_buffers c /\ ub_refs u = 1 \/
   used = <[i := mk_used (ub_size u) (ub_refs u - 1)]> (used_buffers c) /\ free = free_buffers c /\ 1 < ub_refs u) ->
  buffers_ok (with_buffers (with_history c (got c) (msgs c) lv) (mem c) (cur_buffer c) used free).
Proof.
  intros [[Hf Hn Hu Hl] Hc] Hm Hi Hcase. destruct (Hu i u Hi) as (U1 & U2 & U3 & U4).
  assert (forall j, j <> i -> refs_to lv j = refs_to (live c) j) as Hrefs.
  { intros j Hj. rewrite (refs_to_delete (live c) n m j Hm), decide_False; [done |]. by intros <-. }
  assert (refs_to lv i = ub_refs u - 1) as Hri by (rewrite U2, (refs_to_delete (live c) n m i Hm), decide_True by done; unfold lv; lia).
  assert (forall x, x ∈ lv -> x ∈ live c) as Hsub by (intros x; apply list_elem_of_delete_inv).
  assert (forall j, j <> i -> used !! j = used_buffers c !! j) as Hju by (intros j Hj; destruct Hcase as [(-> & _) | (-> & _)]; [by rewrite lookup_delete_ne | by rewrite lookup_insert_ne]).
  split; [constructor |]; cbn [mem used_buffers free_buffers live with_buffers with_history cur_buffer].
  - intros f Hf0. assert (f ∈ free_buffers c -> sized (mem c) (fb_buf f) (fb_size f) /\ used !! fb_buf f = None /\ cb_buf (cur_buffer c) <> Some (fb_buf f)) as Hold.
    { intros Hf1. destruct (Hf f Hf1) as (A & B & C). split; [done |]. split; [| done]. rewrite Hju; [done |]. intros E. rewrite E in B. congruence. }
    destruct Hcase as [(-> & -> & _) | (-> & -> & _)]; [| by apply Hold]. apply elem_of_cons in Hf0 as [-> | Hf0]; [| by apply Hold]. cbn. by rewrite lookup_delete_eq.
  - destruct Hcase as [(-> & -> & _) | (-> & -> & _)]; [| done]. cbn. apply NoDup_cons. split; [| done].
    intros (f & Hf0 & Hfi)%list_elem_of_In%in_map_iff. destruct (Hf f) as (_ & A & _); [by apply list_elem_of_In |]. rewrite Hf0 in A. fold i in A. congruence.
  - intros j v Hj. destruct (decide (j = i)) as [-> | Hji].
    + destruct Hcase as [(-> & _) | (-> & _ & Hr)]; [by rewrite lookup_delete_eq in Hj |]. rewrite lookup_insert_eq in Hj. injection Hj as <-. cbn. split; [done |]. split; [lia |]. split; [lia | done].
    + rewrite Hju in Hj by done. destruct (Hu j v Hj) as (A & B & C & D). rewrite Hrefs by done. by split.
  - intros x Hx. destruct (Hl x (Hsub x Hx)) as [A B]. split; [done |]. destruct B as [B | B]; [by left | right].
    destruct (decide (lm_buf x = i)) as [E | E]; [| by rewrite Hju]. pose proof (refs_to_pos lv i x Hx E). destruct Hcase as [(_ & _ & Hr) | (-> & _)]; [lia |].
    rewrite E, lookup_insert_eq. by eexists.
  - unfold cur_ok in *. cbn. destruct (cb_buf (cur_buffer c)) as [j |]; [| done]. destruct Hc as (A & B & C & D & E).
    rewrite Hrefs by congruence. split; [done |]. split; [done |]. split; [done |]. split; [done |]. intros x Hx. by apply E, Hsub.
Qed.

Lemma reply_sent_buffers c n m : buffers_ok c -> live c !! n = Some m ->
  exists c', reply_sent n c = Ok c' /\ buffers_ok c' /\ got c' = got c /\ msgs c' = msgs c /\ read_iov c' = read_iov c /\ pending c' = pending c /\
    cb_buf (cur_buffer c') = cb_buf (cur_buffer c) /\ read_pos (cur_buffer c') = read_pos (cur_buffer c) /\ cb_size (cur_buffer c') = cb_size (cur_buffer c) /\ live c' = delete n (live c).
Proof.
  intros Hb Hm. unfold reply_sent. rewrite Hm. unfold deref_buffer. cbn [cur_buffer with_history used_buffers]. case_bool_decide as Hcur.
  - destruct (content_ok c (lm_buf m) Hb Hcur) as (l & El & _). destruct (positions c Hb) as (P1 & P2 & _). pose proof (proj2 Hb) as Hc. unfold cur_ok in Hc. rewrite Hcur in Hc.
    destruct Hc as (_ & _ & _ & H4 & _). pose proof (update_cur_ok c (lm_buf m) l l (read_pos (cur_buffer c)) (parsed_pos (cur_buffer c)) (cb_refs (cur_buffer c) - 1)
      (got c) (msgs c) (delete n (live c)) Hb Hcur El eq_refl) as Hup. rewrite insert_id in Hup by done.
    eexists. split; [done |]. rewrite Hcur. split; [apply Hup |]; try done; try lia.
    + intros x Hx. left. by eapply list_elem_of_delete_inv.
    + intros j Hj. rewrite (refs_to_delete (live c) n m j Hm), decide_False; [done |]. by intros <-.
    + rewrite H4, (refs_to_delete (live c) n m _ Hm), decide_True by done. lia.
    + intros x Hx Ex. apply (live_before c (lm_buf m)); try done. by eapply list_elem_of_delete_inv.
    + unfold pending. cbn. by rewrite Hcur.
  - destruct Hb as [Ho Hc]. destruct (ow_live _ _ Ho m) as [_ [? | [u Hu]]]; [by eapply list_elem_of_lookup_2 | done |].
    rewrite Hu. destruct (ow_used _ _ Ho _ _ Hu) as (_ & _ & Hr & _). rewrite (proj2 (Z.ltb_lt _ _)) by done.
    destruct (Z.eqb_spec (ub_refs u - 1) 0) as [E | E]; eexists; (split; [done |]); (split; [| done]).
    + assert (ub_refs u = 1) as E1 by lia. exact (release_used_ok c n m u _ _ (conj Ho Hc) Hm Hu (or_introl (conj eq_refl (conj eq_refl E1)))).
    + assert (1 < ub_refs u) as E1 by lia. exact (release_used_ok c n m u _ _ (conj Ho Hc) Hm Hu (or_intror (conj eq_refl (conj eq_refl E1)))).
Qed.

(** * Connections *)

Section Stream.
Context (malloc : gset nat -> nat) (Hmalloc : forall d, malloc d ∉ d) (handle_rpc_message : list (list Z) -> list Z -> bool).
(** The messages the client sends. *)
Context (all : list (list Z)) (Hall : Forall short all).

(** The kernel may deliver [d]: the next bytes of the stream, at most as many as were asked for. *)
Definition allowed (c : nfs_client_t) (d : list Z) : Prop :=
  d <> [] /\ got c ++ d `prefix_of` frames all /\ exists off n, read_iov c = Some (off, n) /\ zlen d <= n.

Inductive reachable : nfs_client_t -> Prop :=
| reach_accept c : accept malloc = Ok c -> reachable c
| reach_read c d c' : reachable c -> allowed c d -> handle_read malloc handle_rpc_message d c = Ok c' -> reachable c'
| reach_again c c' : reachable c -> handle_read_again malloc c = Ok c' -> reachable c'
| reach_reply c n c' : reachable c -> reply_sent n c = Ok c' -> reachable c'.

Record stream_ok (c : nfs_client_t) : Prop := {
  so_buffers : buffers_ok c;
  so_waiting : waiting c;
  so_rest : exists later, all = msgs c ++ later /\ incomplete (pending c) later;
  so_got : got c = frames (msgs c) ++ pending c }.

Lemma accept_ok : exists c, accept malloc = Ok c /\ stream_ok c.
Proof.
  assert (buffers_ok new_client) as Hb.
  { split; [constructor |]; cbn; [by intros f ?%elem_of_nil | constructor | done | by intros x ?%elem_of_nil | done]. }
  destruct (submit_read_all malloc Hmalloc new_client Hb) as (c & E & Hb' & Hw & (A & B & C) & Hp); [done | done |].
  exists c. split; [exact E |]. constructor; [done | done | exists all; rewrite B, Hp; split; [done | by left] | by rewrite A, B, Hp].
Qed.

Lemma handle_read_ok c d : stream_ok c -> allowed c d ->
  exists c', handle_read malloc handle_rpc_message d c = Ok c' /\ stream_ok c' /\ got c' = got c ++ d.
Proof.
  intros [Hb (i & n & Ei & Hi & Hn) (later & Hl & Hin) Hg] (_ & Hpre & off & n' & Hi' & Hd). rewrite Hi in Hi'. injection Hi' as <- <-.
  destruct (content_ok c i Hb Ei) as (l & El & Ec & Hs & _). destruct (positions c Hb) as (P1 & P2 & P3). pose proof (zlen_nonneg d).
  unfold handle_read. rewrite Hi, Ei, Ec. cbn [rbind]. rewrite poke_poked by lia. cbn [rbind]. cbn [cb_size cb_buf read_pos parsed_pos cb_refs]. rewrite (u32_small (read_pos _ + zlen d)) by lia.
  rewrite (proj2 (Z.leb_le _ _)), u32_small by lia.
  destruct (store_ok c i l d Hb Ei El) as [Hb1 Hp1]; [lia |]. cbv zeta in Hb1, Hp1. apply (with_iov_ok _ None) in Hb1.
  match type of Hb1 with buffers_ok ?x => set (c1 := x) in Hb1 end. change (pending c1 = pending c ++ d) in Hp1.
  assert (pending c1 `prefix_of` frames later) as Hp2.
  { rewrite Hp1. destruct Hpre as [t Ht]. exists t. rewrite Hg, Hl, frames_app, <- !app_assoc in Ht. apply app_inv_head in Ht. by rewrite <- app_assoc. }
  assert (Forall short later) as Hsh by (rewrite Hl in Hall; by apply Forall_app in Hall as [_ ?]).
  destruct (parse_loop_ok malloc Hmalloc handle_rpc_message (Z.to_nat (read_pos (cur_buffer c) + zlen d - parsed_pos (cur_buffer c))) c1 later Hb1 eq_refl Hsh Hp2)
    as (c' & now & lat' & E & -> & Hb' & Hw' & Hg' & Hm' & Hp' & Hin'); [done |].
  exists c'. split; [exact E |]. change (got c1) with (got c ++ d) in Hg'. change (msgs c1) with (msgs c) in Hm'. split; [| done].
  constructor; [done | done | exists lat'; rewrite Hm', <- app_assoc; by split |].
  rewrite Hg', Hm', frames_app, Hg, <- !app_assoc. f_equal. by rewrite <- Hp1, Hp'.
Qed.

Lemma handle_read_again_ok c : stream_ok c -> exists c', handle_read_again malloc c = Ok c' /\ stream_ok c'.
Proof.
  intros [Hb (i & k & Ei & Hi & Hk) (later & Hl & Hin) Hg]. destruct (submit_read_more malloc (with_iov c None) i) as (c' & E & Hb' & Hw & (Eg & Em & _) & Ep);
    [by apply with_iov_ok | done | done | cbn; lia |].
  exists c'. split; [done |]. change (pending (with_iov c None)) with (pending c) in Ep. cbn in Eg, Em.
  constructor; [done | done | exists later; rewrite Em, Ep; by split | by rewrite Eg, Em, Ep].
Qed.

Lemma reply_sent_ok c n : stream_ok c -> (n < length (live c))%nat -> exists c', reply_sent n c = Ok c' /\ stream_ok c'.
Proof.
  intros [Hb (i & k & Ei & Hi & Hk) (later & Hl & Hin) Hg] Hn. apply lookup_lt_is_Some_2 in Hn as [m Hm].
  destruct (reply_sent_buffers c n m Hb Hm) as (c' & E & Hb' & Eg & Em & Eiov & Ep & Eb & Er & Es & _). exists c'. split; [done |].
  constructor; [done | exists i, k; rewrite Eb, Eiov, Er, Es; by split | exists later; rewrite Em, Ep; by split | by rewrite Eg, Em, Ep].
Qed.

Lemma reachable_ok c : reachable c -> stream_ok c.
Proof.
  induction 1 as [c E | c d c' _ IH Hd E | c c' _ IH E | c n c' _ IH E].
  - destruct accept_ok as (c' & E' & Hc'). congruence.
  - destruct (handle_read_ok c d IH Hd) as (c'' & E' & Hc'' & _). congruence.
  - destruct (handle_read_again_ok c IH) as (c'' & E' & Hc''). congruence.
  - assert (n < length (live c))%nat as Hn. { unfold reply_sent in E. destruct (live c !! n) eqn:El; [by eapply lookup_lt_Some | done]. }
    destruct (reply_sent_ok c n IH Hn) as (c'' & E' & Hc''). congruence.
Qed.
End Stream.

(** * Theorems *)


(** A connection never gets stuck: it always asks for at least one byte, inside its buffer; the next bytes of the
    stream are taken without a fault, however many of those asked for come, also when none come; and a reply can be sent for every
    message that is still being processed. *)
Theorem rpc_stream_progress malloc handle_rpc_message all c :
  (forall d, malloc d ∉ d) -> Forall short all -> reachable malloc handle_rpc_message all c ->
  (exists i b off n, cb_buf (cur_buffer c) = Some i /\ mem c !! i = Some b /\ read_iov c = Some (off, n) /\ 0 < n /\ off + n <= zlen b) /\
  (forall d, allowed all c d -> exists c', handle_read malloc handle_rpc_message d c = Ok c') /\
  (exists c', handle_read_again malloc c = Ok c') /\
  (forall n, (n < length (live c))%nat -> exists c', reply_sent n c = Ok c').
Proof.
  intros Hmalloc Hall Hr. pose proof (reachable_ok malloc Hmalloc _ all Hall c Hr) as Hc. split; [| split; [| split]].
  - destruct Hc as [Hb (i & n & Ei & Hi & Hn) _ _]. destruct (content_ok c i Hb Ei) as (l & El & _ & Hs & _). exists i, l, (read_pos (cur_buffer c)), n.
    split; [done |]. split; [done |]. split; [done |]. lia.
  - intros d Hd. destruct (handle_read_ok malloc Hmalloc handle_rpc_message all Hall c d Hc Hd) as (c' & E & _). by exists c'.
  - destruct (handle_read_again_ok malloc all c Hc) as (c' & E & _). by exists c'.
  - intros n Hn. destruct (reply_sent_ok all c n Hc Hn) as (c' & E & _). by exists c'.
Qed.


Definition first_free (d : gset nat) : nat := fresh d.
Lemma first_free_fresh d : first_free d ∉ d.
Proof. apply is_fresh. Qed.

(** After a message in two fragments the position in the buffer is four bytes short: the next record is looked for
    inside the message, and the record that follows is not handled. *)
Theorem rpc_fragments_desync :
  (let* c := accept first_free in
   let* c := handle_read first_free (fun _ _ => false) (be 4 4 ++ [9; 9; 9; 9] ++ be 4 (2147483648 + 4) ++ [0; 0; 0; 20]) c in
   let* c' := handle_read first_free (fun _ _ => false) (frame [7; 7; 7; 7]) c in
   Ok (msgs c, parsed_pos (cur_buffer c), read_pos (cur_buffer c), msgs c', read_iov c')) =
  Ok ([[9; 9; 9; 9; 0; 0; 0; 20]], 12, 16, [[9; 9; 9; 9; 0; 0; 0; 20]], Some (24, 12)).
Proof. vm_compute. reflexivity. Qed.

(** A connection that has got one and a half records of two. *)
Definition result {A} (d : A) (r : res A) : A := match r with Ok a => a | Err _ => d end.
Lemma result_ok {A} (d : A) (r : res A) : (if r then true else false) = true -> r = Ok (result d r).
Proof. by destruct r. Qed.
Definition example_stream : list (list Z) := [[1; 2; 3]; [4; 5]].
Definition example_start : nfs_client_t := result new_client (accept first_free).
Definition example_client : nfs_client_t := result new_client (handle_read first_free (fun _ _ => true) (take 9 (frames example_stream)) example_start).
Lemma example_reachable : reachable first_free (fun _ _ => true) example_stream example_client.
Proof.
  apply (reach_read _ _ _ example_start (take 9 (frames example_stream))).
  - apply reach_accept, result_ok. vm_compute. reflexivity.
  - split; [done |]. split; [exists (drop 9 (frames example_stream)); vm_compute; reflexivity |]. exists 0, 32768. split; vm_compute; [reflexivity | discriminate].
  - apply result_ok. vm_compute. reflexivity.
Qed.
Lemma example_short : Forall short example_stream.
Proof. repeat constructor. Qed.

Lemma rpc_stream_progress_witness : exists c', reply_sent 0 example_client = Ok c'.
Proof.
  apply (rpc_stream_progress first_free (fun _ _ => true) example_stream example_client first_free_fresh example_short example_reachable). vm_compute. constructor.
Defined.
