(* ===== verification/RpcServer.v ===== *)
(** RPC calls over TCP (src/src/nfs/nfs_proxy.cpp): a message is decoded, its
    procedure is looked up, refused with the reply RFC 5531 has for the case or
    handed to the handler of the procedure, and replies are encoded and framed. *)

From stdpp Require Import strings.
From S2P Require Import Prelude.
From S2P Require Import Xdr.
From S2P Require Import XdrRpc.
From S2P Require Import XdrNfs3.
From S2P Require Import XdrNfs2.

Definition RPC_MSG_VERSION : Z := 2.
Definition RPC_AUTH_SYS : Z := 1.
Definition RPC_PROG_UNAVAIL : Z := 1.
Definition RPC_PROC_UNAVAIL : Z := 3.
Definition RPC_GARBAGE_ARGS : Z := 4.

(** * Procedures *)

(** [handler_fn] is given by its name; a routine that is NULL is [None]. *)
Record rpc_service_proc_t := mk_proc {
  prog : Z; vers : Z; proc : Z; handler_fn : string;
  req_type : Type; req_fn : option (xdrproc req_type); req_init : req_type;
  resp_type : Type; resp_fn : option (xdrproc resp_type) }.

(** [operator <]; a key is a program, a version and a procedure. *)
Definition key_of (p : rpc_service_proc_t) : Z * Z * Z := (prog p, vers p, proc p).
Definition key_lt (a b : Z * Z * Z) : bool :=
  let '(p, v, c) := a in let '(p', v', c') := b in
  (p <? p') || ((p =? p') && ((v <? v') || ((v =? v') && (c <? c')))).

(** The table is a [std::set]: a list in ascending order. *)
Definition find_proc (k : Z * Z * Z) (table : list rpc_service_proc_t) : option rpc_service_proc_t :=
  find (fun p => negb (key_lt (key_of p) k) && negb (key_lt k (key_of p))) table.
Fixpoint lower_bound (k : Z * Z * Z) (table : list rpc_service_proc_t) : list rpc_service_proc_t * list rpc_service_proc_t :=
  match table with
  | [] => ([], [])
  | p :: t => if key_lt (key_of p) k then let '(a, b) := lower_bound k t in (p :: a, b) else ([], p :: t)
  end.

(** * Replies *)

(** Nothing is known about the caller: AUTH_NONE. *)
Definition no_auth : rpc_opaque_auth := mk_rpc_opaque_auth 0 (mk_string 0 []).
(** The member [mismatch_info] is only looked at for [RPC_PROG_MISMATCH]. *)
Definition accepted (xid stat min_version max_version : Z) : rpc_msg :=
  mk_rpc_msg xid (mk_rpc_msg_body RPC_REPLY (rpc_msg_body_is_rbody (mk_rpc_reply_body RPC_MSG_ACCEPTED (rpc_reply_body_is_areply
    (mk_rpc_accepted_reply no_auth (mk_rpc_accepted_reply_body stat
      (if stat =? RPC_PROG_MISMATCH then rpc_accepted_reply_body_is_mismatch_info (mk_rpc_mismatch_info min_version max_version)
       else rpc_accepted_reply_body_none))))))).
Definition denied (xid : Z) : rpc_msg :=
  mk_rpc_msg xid (mk_rpc_msg_body RPC_REPLY (rpc_msg_body_is_rbody (mk_rpc_reply_body RPC_MSG_DENIED (rpc_reply_body_is_rreply
    (mk_rpc_rejected_reply RPC_MISMATCH (rpc_rejected_reply_is_mismatch_info (mk_rpc_mismatch_info RPC_MSG_VERSION RPC_MSG_VERSION))))))).

(** The header and the result, behind a record marker. *)
Definition rpc_queue_reply {A} (xdrs : XDR) (out_msg : rpc_msg) (reply_fn : option (xdrproc A)) (reply : A) : res (XDR * list Z) :=
  let* (r, xdrs, _) := xdr_encode xdrs xdr_rpc_msg out_msg in
  assert! r in
  let* xdrs :=
    match reply_fn with
    | None => Ok xdrs
    | Some f => let* (r, xdrs, _) := xdr_encode xdrs f reply in assert! r in Ok xdrs
    end in
  let '(xdrs, iov_list) := xdr_encode_finish xdrs in
  assert! negb (bool_decide (iov_list = [])) in
  let reply_marker := foldl (fun n v => u32 (n + iov_len v)) 0 iov_list in
  Ok (xdrs, be 4 (Z.lor reply_marker 2147483648) ++ iov_bytes iov_list).
Definition queue_error (xdrs : XDR) (out_msg : rpc_msg) : res (XDR * list Z) := rpc_queue_reply xdrs out_msg None tt.

(** * Calls *)

(** The call was dropped, answered with an error, or its handler was called with
    the request, the credentials and the [XDR] object the reply goes to. *)
Inductive outcome :=
| Ignored
| Refused (xdrs : XDR) (sent : list Z)
| Called (p : rpc_service_proc_t) (request : req_type p) (auth_sys : option authsys_parms) (xdrs : XDR) (xid : Z).

Section Server.
Context (proc_table : list rpc_service_proc_t).

(** The versions of a program: of its first and its last entry. *)
Definition served_versions (program : Z) : res (Z * Z) :=
  match snd (lower_bound (program, 0, 0) proc_table) with
  | [] => Ok (0, 0)
  | p :: _ =>
    match last (fst (lower_bound (u32 (program + 1), 0, 0) proc_table)) with
    | None => Err AssertFailed
    | Some q => assert! prog q =? program in Ok (vers p, vers q)
    end
  end.

(** [create_rpc_op] for a procedure that is not there. *)
Definition refuse_proc (xdrs : XDR) (xid program version : Z) : res outcome :=
  let* (min_vers, max_vers) := served_versions program in
  let stat := if min_vers =? 0 then RPC_PROG_UNAVAIL
    else if (min_vers <=? version) && (version <=? max_vers) then RPC_PROC_UNAVAIL else RPC_PROG_MISMATCH in
  let* (xdrs, sent) := queue_error xdrs (accepted xid stat min_vers max_vers) in
  Ok (Refused xdrs sent).

(** Decode the arguments, and the credentials of AUTH_SYS, then call the handler.
    [p] is what a second lookup in the table gives again. *)
Definition handle_rpc_op (p : rpc_service_proc_t) (xdrs : XDR) (xid : Z) (cred : rpc_opaque_auth) : res outcome :=
  let* (ok, xdrs, request) :=
    match req_fn p with None => Ok (true, xdrs, req_init p) | Some f => f xdrs (req_init p) end in
  if negb ok then
    let* (xdrs, sent) := queue_error xdrs (accepted xid RPC_GARBAGE_ARGS 0 0) in Ok (Refused xdrs sent)
  else if rpc_opaque_auth_flavor cred =? RPC_AUTH_SYS then
    let body := rpc_opaque_auth_body cred in
    let* (ok, xdrs, auth) := xdr_decode xdrs (s_data body) (u32 (s_size body)) xdr_authsys_parms inhabitant in
    if negb ok then
      let* (xdrs, sent) := queue_error xdrs (accepted xid RPC_GARBAGE_ARGS 0 0) in Ok (Refused xdrs sent)
    else Ok (Called p request (Some auth) xdrs xid)
  else Ok (Called p request None xdrs xid).

(** [XDR] objects are kept in a pool. *)
Definition get_xdr (xdr_pool : list XDR) : XDR * list XDR := match xdr_pool with [] => (xdr_create, []) | x :: pool => (x, pool) end.
Definition free_xdr (xdrs : XDR) (xdr_pool : list XDR) : list XDR := xdr_reset xdrs :: xdr_pool.

Definition handle_rpc_message (xdr_pool : list XDR) (msg : list Z) : res (list XDR * outcome) :=
  let '(xdrs, xdr_pool) := get_xdr xdr_pool in
  let* (ok, xdrs, inmsg) := xdr_decode xdrs msg (zlen msg) xdr_rpc_msg inhabitant in
  if negb ok then Ok (free_xdr xdrs xdr_pool, Ignored)
  else if negb (rpc_msg_body_dir (rpc_msg_body_data inmsg) =? RPC_CALL) then Ok (free_xdr xdrs xdr_pool, Ignored)
  else
    match rpc_msg_body_cbody (rpc_msg_body_data inmsg) with
    | None => Err Undefined
    | Some call =>
      let xid := rpc_msg_xid inmsg in
      if negb (rpc_call_body_rpcvers call =? RPC_MSG_VERSION) then
        let* (xdrs, sent) := queue_error xdrs (denied xid) in Ok (xdr_pool, Refused xdrs sent)
      else
        let* out :=
          match find_proc (rpc_call_body_prog call, rpc_call_body_vers call, rpc_call_body_proc call) proc_table with
          | None => refuse_proc xdrs xid (rpc_call_body_prog call) (rpc_call_body_vers call)
          | Some p => handle_rpc_op p xdrs xid (rpc_call_body_cred call)
          end in
        Ok (xdr_pool, out)
    end.
End Server.

(** * The procedures of the file system server (nfs_kv.cpp) *)

Definition NFS_PROGRAM : Z := 100003.
Definition NFS_V3 : Z := 3.
Definition MOUNT_PROGRAM : Z := 100005.
Definition MOUNT_V3 : Z := 3.

Definition null_proc (program version number : Z) (handler : string) : rpc_service_proc_t :=
  mk_proc program version number handler unit None tt unit None.
Definition full_proc {A B} `{Inhabited A} (program version number : Z) (handler : string) (req : xdrproc A) (resp : xdrproc B) : rpc_service_proc_t :=
  mk_proc program version number handler A (Some req) inhabitant B (Some resp).

Definition nfs_kv_procs : list rpc_service_proc_t := [
  null_proc NFS_PROGRAM NFS_V3 0 "nfs3_null_proc";
  full_proc NFS_PROGRAM NFS_V3 1 "kv_nfs3_getattr_proc" xdr_GETATTR3args xdr_GETATTR3res;
  full_proc NFS_PROGRAM NFS_V3 2 "kv_nfs3_setattr_proc" xdr_SETATTR3args xdr_SETATTR3res;
  full_proc NFS_PROGRAM NFS_V3 3 "kv_nfs3_lookup_proc" xdr_LOOKUP3args xdr_LOOKUP3res;
  full_proc NFS_PROGRAM NFS_V3 4 "kv_nfs3_access_proc" xdr_ACCESS3args xdr_ACCESS3res;
  full_proc NFS_PROGRAM NFS_V3 5 "kv_nfs3_readlink_proc" xdr_READLINK3args xdr_READLINK3res;
  full_proc NFS_PROGRAM NFS_V3 6 "kv_nfs3_read_proc" xdr_READ3args xdr_READ3res;
  full_proc NFS_PROGRAM NFS_V3 7 "kv_nfs3_write_proc" xdr_WRITE3args xdr_WRITE3res;
  full_proc NFS_PROGRAM NFS_V3 8 "kv_nfs3_create_proc" xdr_CREATE3args xdr_CREATE3res;
  full_proc NFS_PROGRAM NFS_V3 9 "kv_nfs3_mkdir_proc" xdr_MKDIR3args xdr_MKDIR3res;
  full_proc NFS_PROGRAM NFS_V3 10 "kv_nfs3_symlink_proc" xdr_SYMLINK3args xdr_SYMLINK3res;
  full_proc NFS_PROGRAM NFS_V3 11 "kv_nfs3_mknod_proc" xdr_MKNOD3args xdr_MKNOD3res;
  full_proc NFS_PROGRAM NFS_V3 12 "kv_nfs3_remove_proc" xdr_REMOVE3args xdr_REMOVE3res;
  full_proc NFS_PROGRAM NFS_V3 13 "kv_nfs3_rmdir_proc" xdr_RMDIR3args xdr_RMDIR3res;
  full_proc NFS_PROGRAM NFS_V3 14 "kv_nfs3_rename_proc" xdr_RENAME3args xdr_RENAME3res;
  full_proc NFS_PROGRAM NFS_V3 15 "kv_nfs3_link_proc" xdr_LINK3args xdr_LINK3res;
  full_proc NFS_PROGRAM NFS_V3 16 "kv_nfs3_readdir_proc" xdr_READDIR3args xdr_READDIR3res;
  full_proc NFS_PROGRAM NFS_V3 17 "kv_nfs3_readdirplus_proc" xdr_READDIRPLUS3args xdr_READDIRPLUS3res;
  full_proc NFS_PROGRAM NFS_V3 18 "nfs3_fsstat_proc" xdr_FSSTAT3args xdr_FSSTAT3res;
  full_proc NFS_PROGRAM NFS_V3 19 "nfs3_fsinfo_proc" xdr_FSINFO3args xdr_FSINFO3res;
  full_proc NFS_PROGRAM NFS_V3 20 "nfs3_pathconf_proc" xdr_PATHCONF3args xdr_PATHCONF3res;
  full_proc NFS_PROGRAM NFS_V3 21 "nfs3_commit_proc" xdr_COMMIT3args xdr_COMMIT3res;
  null_proc MOUNT_PROGRAM MOUNT_V3 0 "nfs3_null_proc";
  full_proc MOUNT_PROGRAM MOUNT_V3 1 "mount3_mnt_proc" xdr_nfs_dirpath xdr_nfs_mountres3;
  mk_proc MOUNT_PROGRAM MOUNT_V3 2 "mount3_dump_proc" unit None tt (option nfs_mountbody) (Some xdr_nfs_mountlist);
  mk_proc MOUNT_PROGRAM MOUNT_V3 3 "mount3_umnt_proc" xdr_string_t (Some xdr_nfs_dirpath) inhabitant unit None;
  null_proc MOUNT_PROGRAM MOUNT_V3 4 "mount3_umntall_proc";
  mk_proc MOUNT_PROGRAM MOUNT_V3 5 "mount3_export_proc" unit None tt (option nfs_exportnode) (Some xdr_nfs_exports) ].
