(* ===== verification/RpcServerOk.v ===== *)
(** Calls and replies of the RPC server: a handler gets the request the client
    has encoded, the client gets the reply the handler has given, calls that
    cannot be served are refused as RFC 5531 says, and what arbitrary bytes do. *)

From stdpp Require Import gmap strings sorting.
From S2P Require Import Prelude.
From S2P Require Import Xdr.
From S2P Require Import XdrCodec.
From S2P Require Import XdrSafe.
From S2P Require Import XdrRpc.
From S2P Require Import XdrNfs3.
From S2P Require Import XdrNfs2.
From S2P Require Import XdrMain.
From S2P Require Import RpcStream.
From S2P Require Import RpcStreamOk.
From S2P Require Import RpcServer.

(** * Replies *)

(** Nothing has been encoded yet. *)
Record ready (x : XDR) : Prop := {
  re_rdma : rdma x = false; re_out : cur_out x = []; re_end : last_end x = 0; re_list : buf_list x = [] }.

Lemma ready_out x : ready x -> out_ok x /\ output x = [].
Proof. intros [_ H1 H2 H3]. split; [constructor; rewrite ?H1, ?H2, ?H3; try done; constructor | unfold output; by rewrite H1, H2, H3]. Qed.
Lemma ready_writing x n : ready x -> n < 4294967296 -> writing (with_op x XDR_ENCODE) n.
Proof. intros Hx Hn. destruct (ready_out x Hx) as [Ho Eo]. constructor; [done | apply Hx | by destruct Ho | change (output (with_op x XDR_ENCODE)) with (output x); by rewrite Eo]. Qed.
Lemma ready_same x b a l cap op : ready x -> ready (with_ll (with_buf (with_op x op) b a) l cap).
Proof. by intros []. Qed.
Lemma ready_advanced x x' : ready x -> advanced x x' -> ready x'.
Proof. intros [] (b & _ & ->). by constructor. Qed.

Lemma marker_sum l : forall n, 0 <= n -> Forall (fun v => 0 <= iov_len v) l -> foldl (fun len v => len + iov_len v) n l < 4294967296 ->
  foldl (fun n v => u32 (n + iov_len v)) n l = foldl (fun len v => len + iov_len v) n l.
Proof.
  induction l as [| v l IH]; intros n Hn Hl Hs; [done |]. apply Forall_cons in Hl as [Hv Hl]. cbn [foldl] in *. rewrite <- IH by (done || lia).
  f_equal. rewrite size_acc in Hs. rewrite u32_small; [done |]. assert (0 <= foldl (fun len v => len + iov_len v) 0 l); [| lia].
  clear -Hl. induction Hl as [| v l Hv _ IH]; [done |]. cbn [foldl]. rewrite size_acc. lia.
Qed.
Lemma marker_bit n : 0 <= n < 2147483648 -> Z.lor n 2147483648 = 2147483648 + n.
Proof.
  intros Hn. pose proof (Z.add_lor_land n 2147483648) as E. assert (Z.land n 2147483648 = 0) as E0; [| lia].
  apply Z.bits_inj'. intros i Hi. rewrite Z.land_spec, Z.bits_0. change 2147483648 with (2 ^ 31). rewrite Z.pow2_bits_eqb by lia.
  destruct (Z.eqb_spec 31 i) as [<- |]; [| apply andb_false_r]. by rewrite (testbit_ge 31) by (change (2 ^ 31) with 2147483648; lia).
Qed.

Lemma assign_lens (g : Z -> Z -> Z) l : forall cur n, foldl (fun n v => g n (iov_len v)) n (assign_bases cur l) = foldl (fun n v => g n (iov_len v)) n l.
Proof. induction l as [| [[d |] k] l IH]; intros cur n; cbn; [done | apply IH | apply IH]. Qed.

(** The parts add up to the output, and the marker is their length. *)
Lemma finish_marker x : out_ok x -> zlen (output x) < 2147483648 ->
  Z.lor (foldl (fun n v => u32 (n + iov_len v)) 0 (snd (xdr_encode_finish x))) 2147483648 = 2147483648 + zlen (output x).
Proof.
  intros Hx Hs. pose proof (zlen_nonneg (output x)). rewrite <- (size_output x Hx) in *. pose proof (out_small x Hx) as Hc. rewrite <- (size_output x Hx) in Hc.
  rewrite <- marker_bit by lia. f_equal. destruct Hx as [He Hl Hb Hle]. pose proof (pieces_nonneg _ Hl).
  unfold xdr_encode_get_size, xdr_encode_finish in *. destruct (Z.ltb_spec (last_end x) (zlen (cur_out x))); cbn [cur_out buf_list with_out snd].
  - rewrite (assign_lens (fun n k => u32 (n + k))), marker_sum, foldl_app; cbn [foldl iov_len]; [done | lia | | rewrite foldl_app; cbn; lia].
    apply Forall_app. split; [done |]. repeat constructor. cbn. lia.
  - rewrite (assign_lens (fun n k => u32 (n + k))), marker_sum by (done || lia). lia.
Qed.
Lemma finish_nonempty x : out_ok x -> output x <> [] -> snd (xdr_encode_finish x) <> [].
Proof.
  intros Hx Ho E. apply Ho. pose proof (out_small x Hx). unfold xdr_encode_finish in E. unfold output. destruct (Z.ltb_spec (last_end x) (zlen (cur_out x))); cbn in E.
  - by destruct (buf_list x) as [| [[] ?] ?].
  - destruct (buf_list x) as [| [[] ?] ?]; [| done | done]. cbn. apply drop_ge. unfold zlen in *. lia.
Qed.

Lemma rpc_msg_wire_pos hdr : 4 <= zlen (wire xdr_rpc_msg hdr).
Proof.
  assert (exists t, wire xdr_rpc_msg hdr = be 4 (rpc_msg_xid hdr) ++ t) as [t ->] by by eexists. rewrite zlen_app, be_zlen. pose proof (zlen_nonneg t). lia.
Qed.

(** What has been encoded is sent as one record. *)
Lemma finish_frame x b : out_ok x -> output x = b -> 0 < zlen b < 2147483648 ->
  (let '(x', iov_list) := xdr_encode_finish x in
   assert! negb (bool_decide (iov_list = [])) in
   Ok (x', be 4 (Z.lor (foldl (fun n v => u32 (n + iov_len v)) 0 iov_list) 2147483648) ++ iov_bytes iov_list)) = Ok (fst (xdr_encode_finish x), frame b).
Proof.
  intros Hx Eo Hs. destruct (xdr_encode_finish x) as [x' l] eqn:Ef. change l with (snd (x', l)). rewrite <- Ef. rewrite bool_decide_eq_false_2.
  - cbn [negb]. rewrite finish_marker, finish_output, Eo; [by rewrite Ef | done | | done | rewrite Eo; lia]. pose proof (out_small x Hx) as Hc. rewrite Eo in Hc. lia.
  - apply finish_nonempty; [done |]. rewrite Eo. intros ->. change (zlen []) with 0 in Hs. lia.
Qed.

Lemma encode_header_ok x hdr : ready x -> fits xdr_rpc_msg hdr -> zlen (wire xdr_rpc_msg hdr) < 2147483648 ->
  exists x1, xdr_encode x xdr_rpc_msg hdr = Ok (true, x1, hdr) /\ with_op x1 XDR_ENCODE = x1 /\ rdma x1 = false /\ out_ok x1 /\ output x1 = wire xdr_rpc_msg hdr.
Proof.
  intros Hx Hh Hs. destruct (ready_out x Hx) as [_ Ex]. assert (zlen (wire xdr_rpc_msg hdr) < 4294967296) as Hs' by lia.
  destruct (encode_ok _ hdr Hh (ready_writing x _ Hx Hs')) as (x1 & E & (E1 & E2 & _) & Ho & Eo). exists x1. split; [done |].
  split; [cbn in E1; rewrite <- E1; by destruct x1 |]. split; [rewrite E2; apply Hx |]. split; [done |].
  rewrite Eo. change (output (with_op x XDR_ENCODE)) with (output x). by rewrite Ex.
Qed.

(** The header is encoded, then the result. *)
Lemma queue_reply_ok {A} x hdr (f : xdrproc A) `{Codec A f} r :
  ready x -> fits xdr_rpc_msg hdr -> fits f r -> zlen (wire xdr_rpc_msg hdr ++ wire f r) < 2147483648 ->
  exists x', rpc_queue_reply x hdr (Some f) r = Ok (x', frame (wire xdr_rpc_msg hdr ++ wire f r)).
Proof.
  intros Hx Hh Hr Hs. pose proof (rpc_msg_wire_pos hdr). pose proof (zlen_nonneg (wire f r)). rewrite zlen_app in Hs.
  destruct (encode_header_ok x hdr Hx Hh) as (x1 & E & Ew & Er & Ho & Eo); [lia |]. unfold rpc_queue_reply. rewrite E. cbn [rbind]. unfold xdr_encode. rewrite Ew.
  destruct (encode_ok x1 r Hr) as (x2 & -> & _ & Ho2 & Eo2). { constructor; [by rewrite <- Ew | done | done | rewrite Eo; lia]. }
  cbn [rbind]. eexists. apply finish_frame; [done | by rewrite Eo2, Eo | rewrite zlen_app; lia].
Qed.
Lemma queue_error_ok x hdr :
  ready x -> fits xdr_rpc_msg hdr -> zlen (wire xdr_rpc_msg hdr) < 2147483648 -> exists x', queue_error x hdr = Ok (x', frame (wire xdr_rpc_msg hdr)).
Proof.
  intros Hx Hh Hs. pose proof (rpc_msg_wire_pos hdr). destruct (encode_header_ok x hdr Hx Hh Hs) as (x1 & E & _ & _ & Ho & Eo).
  unfold queue_error, rpc_queue_reply. rewrite E. cbn [rbind]. eexists. apply finish_frame; [done | done | lia].
Qed.

Lemma no_auth_fits : fits xdr_rpc_opaque_auth no_auth.
Proof. refine (conj _ (conj _ I)); split; done || (vm_compute; discriminate). Qed.
Ltac header_fits := cbn; repeat apply conj; try apply no_auth_fits; done || lia || (vm_compute; discriminate) || exact I.
Lemma accepted_fits xid stat lo hi :
  0 <= xid < 4294967296 -> 0 <= stat < 4294967296 -> 0 <= lo < 4294967296 -> 0 <= hi < 4294967296 ->
  fits xdr_rpc_msg (accepted xid stat lo hi) /\ zlen (wire xdr_rpc_msg (accepted xid stat lo hi)) < 2147483648.
Proof.
  intros Hx Hs Hl Hh. unfold accepted. destruct (Z.eqb_spec stat RPC_PROG_MISMATCH) as [-> | Hne%Z.eqb_neq]; split.
  - header_fits.
  - reflexivity.
  - cbn. rewrite Hne. destruct (stat =? RPC_SUCCESS); header_fits.
  - cbn. rewrite Hne. destruct (stat =? RPC_SUCCESS); reflexivity.
Qed.
Lemma denied_fits xid : 0 <= xid < 4294967296 -> fits xdr_rpc_msg (denied xid) /\ zlen (wire xdr_rpc_msg (denied xid)) < 2147483648.
Proof. intros Hx. split; [header_fits | reflexivity]. Qed.

(** Both kinds of refusals are sent. *)
Lemma refuse_accepted x xid stat lo hi :
  ready x -> 0 <= xid < 4294967296 -> 0 <= stat < 4294967296 -> 0 <= lo < 4294967296 -> 0 <= hi < 4294967296 ->
  exists x', queue_error x (accepted xid stat lo hi) = Ok (x', frame (wire xdr_rpc_msg (accepted xid stat lo hi))).
Proof. intros Hx H1 H2 H3 H4. destruct (accepted_fits xid stat lo hi H1 H2 H3 H4). by apply queue_error_ok. Qed.
Lemma refuse_denied x xid : ready x -> 0 <= xid < 4294967296 -> exists x', queue_error x (denied xid) = Ok (x', frame (wire xdr_rpc_msg (denied xid))).
Proof. intros Hx H1. destruct (denied_fits xid H1). by apply queue_error_ok. Qed.

(** * The table *)

Definition key_before (a b : rpc_service_proc_t) : Prop := key_lt (key_of a) (key_of b) = true.
(** In ascending order, with versions from 1 on. *)
Definition table_ok (table : list rpc_service_proc_t) : Prop :=
  StronglySorted key_before table /\ Forall (fun p => 0 <= prog p < 4294967295 /\ 0 < vers p < 4294967296 /\ 0 <= proc p) table.

Lemma key_lt_spec p v c p' v' c' : key_lt (p, v, c) (p', v', c') = true <-> p < p' \/ p = p' /\ (v < v' \/ v = v' /\ c < c').
Proof. unfold key_lt. rewrite !orb_true_iff, !andb_true_iff, orb_true_iff, andb_true_iff, !Z.ltb_lt, !Z.eqb_eq. lia. Qed.

(** [lower_bound] splits the table at a program. *)
Lemma lower_bound_prog table P :
  table_ok table -> 0 <= P ->
  lower_bound (P, 0, 0) table = (filter (fun p => prog p < P) table, filter (fun p => P <= prog p) table).
Proof.
  intros [Hs Hr] HP. induction table as [| p t IH]; [done |]. apply StronglySorted_inv in Hs as [Hs Hp]. apply Forall_cons in Hr as [Hp0 Hr].
  cbn [lower_bound]. destruct (key_lt (key_of p) (P, 0, 0)) eqn:E; unfold key_of in E.
  - apply key_lt_spec in E. rewrite IH by done. rewrite filter_cons_True by lia. by rewrite filter_cons_False by lia.
  - assert (P <= prog p) as Hle. { destruct (decide (P <= prog p)); [done |]. rewrite (proj2 (key_lt_spec _ _ _ _ _ _)) in E; [done | lia]. }
    assert (Forall (fun q => P <= prog q) (p :: t)) as Hall.
    { constructor; [done |]. eapply Forall_impl; [exact Hp |]. intros q Hq. unfold key_before, key_of in Hq. apply key_lt_spec in Hq. lia. }
    rewrite Forall_forall in Hall. f_equal; symmetry; [apply filter_all_false | by apply filter_all_true].
    intros q Hq. specialize (Hall q Hq). cbn in *. lia.
Qed.

Lemma lower_bound_app k table : fst (lower_bound k table) ++ snd (lower_bound k table) = table.
Proof. induction table as [| p t IH]; [done |]. cbn [lower_bound]. destruct (key_lt (key_of p) k); [| done]. destruct (lower_bound k t). cbn in *. by rewrite IH. Qed.

Definition of_prog (P : Z) (table : list rpc_service_proc_t) : list rpc_service_proc_t := filter (fun p => prog p = P) table.

Lemma split_at_prog table P : table_ok table -> 0 <= P ->
  filter (fun p => P <= prog p) table = of_prog P table ++ filter (fun p => P < prog p) table /\
  filter (fun p => prog p < P + 1) table = filter (fun p => prog p < P) table ++ of_prog P table.
Proof.
  intros Ht HP. pose proof (lower_bound_app (P + 1, 0, 0) table) as E1. rewrite lower_bound_prog in E1 by (done || lia). cbn [fst snd] in E1.
  pose proof (lower_bound_app (P, 0, 0) table) as E0. rewrite lower_bound_prog in E0 by done. cbn [fst snd] in E0. split.
  - rewrite <- E1 at 1. rewrite filter_app, !list_filter_filter. unfold of_prog. f_equal; apply list_filter_iff; intros p; lia.
  - rewrite <- E0 at 1. rewrite filter_app, !list_filter_filter. unfold of_prog. f_equal; apply list_filter_iff; intros p; lia.
Qed.

(** The versions of a program are those of its entries; without any, the result depends on the other programs. *)
Lemma served_versions_spec table P : table_ok table -> 0 <= P < 4294967296 ->
  served_versions table P =
    match of_prog P table, last (of_prog P table) with
    | p :: _, Some q => Ok (vers p, vers q)
    | _, _ => if bool_decide (Exists (fun p => P < prog p) table) then Err AssertFailed else Ok (0, 0)
    end.
Proof.
  intros Ht HP. unfold served_versions. rewrite lower_bound_prog by (done || lia). cbn [snd]. destruct (split_at_prog table P Ht ltac:(lia)) as [-> E2].
  destruct (decide (P = 4294967295)) as [-> | Hmax].
  - assert (forall p, p ∈ table -> prog p < 4294967295) as Hp by (destruct Ht as [_ Hr]; rewrite Forall_forall in Hr; intros p Hin; by apply Hr).
    unfold of_prog. rewrite (filter_all_false (fun p => prog p = 4294967295)), (filter_all_false (fun p => 4294967295 < prog p)) by (intros p Hin; specialize (Hp p Hin); lia).
    rewrite bool_decide_eq_false_2; [done |]. intros (p & Hin & Hlt)%Exists_exists. specialize (Hp p Hin). lia.
  - rewrite u32_small, lower_bound_prog by (done || lia). cbn [fst]. rewrite E2, last_app. destruct (of_prog P table) as [| p t] eqn:Ep.
    + cbn [app last]. case_bool_decide as Hex.
      * apply Exists_exists in Hex as (p & Hin & Hlt). destruct (filter (fun p => P < prog p) table) as [| q l] eqn:Eq.
        { assert (p ∈ filter (fun p => P < prog p) table) as Hpf by (by apply list_elem_of_filter). rewrite Eq in Hpf. by apply elem_of_nil in Hpf. }
        destruct (last (filter (fun p => prog p < P) table)) as [r |] eqn:Er; [| done].
        assert (r ∈ filter (fun p => prog p < P) table) as [Hr _]%list_elem_of_filter by (by apply last_Some_elem_of). by rewrite (proj2 (Z.eqb_neq _ _)) by lia.
      * rewrite filter_all_false; [done |]. intros p Hin Hlt. apply Hex, Exists_exists. by exists p.
    + destruct (last (p :: t)) as [q |] eqn:Eq; [| by apply last_None in Eq]. cbn [app].
      assert (q ∈ of_prog P table) as [-> _]%list_elem_of_filter by (rewrite Ep; by apply last_Some_elem_of). by rewrite Z.eqb_refl.
Qed.

(** * Calls *)

(** An object of the pool. *)
Definition clean (x : XDR) : Prop := ready x /\ in_linked_list x = [].

Lemma get_xdr_ok pool : Forall clean pool -> clean (fst (get_xdr pool)) /\ Forall clean (snd (get_xdr pool)).
Proof. intros Hp. destruct Hp as [| x pool Hx Hp]; [by repeat constructor | done]. Qed.
Lemma free_xdr_ok x pool : Forall clean pool -> Forall clean (free_xdr x pool).
Proof. intros Hp. constructor; [| done]. by repeat constructor. Qed.

Definition start (x : XDR) (b : list Z) : XDR := with_buf (with_op x XDR_DECODE) b (zlen b).
Lemma start_reading x b : clean x -> zlen b < 4294967296 -> reading (start x b) b.
Proof. intros [[] Hl] Hb. constructor; try done. cbn. rewrite Hl. cbn. lia. Qed.

Lemma ready_read_up_to x rest cap : ready x -> ready (read_up_to x rest cap).
Proof. by intros []. Qed.
Lemma ready_start x b : ready x -> ready (start x b).
Proof. by intros []. Qed.

(** A routine finds the object at the start of the bytes of a clean object. *)
Lemma decode_at {A} (f : xdrproc A) `{Codec A f} x a a0 rest :
  reading x (wire f a ++ rest) -> in_linked_list x = [] -> (depth f <= 1)%nat -> fits f a ->
  exists cap, f x a0 = Ok (true, read_up_to x rest cap, a) /\ reading (read_up_to x rest cap) rest.
Proof.
  intros Hr Hl Hd Ha. destruct (decode_ok x a a0 rest Ha Hr) as (cap & E & _); [by left | intros l Hh; by rewrite Hl in Hh |].
  exists cap. split; [done |]. eapply reading_up_to; [done |]. rewrite Hl. cbn. lia.
Qed.

Definition call_msg (xid : Z) (call : rpc_call_body) : rpc_msg := mk_rpc_msg xid (mk_rpc_msg_body RPC_CALL (rpc_msg_body_is_cbody call)).

(** The header of a call is decoded; what follows depends on the call. *)
Lemma handle_call table pool xid call args :
  Forall clean pool -> fits xdr_rpc_msg (call_msg xid call) -> zlen (wire xdr_rpc_msg (call_msg xid call) ++ args) < 4294967296 ->
  exists cap, let x := read_up_to (start (fst (get_xdr pool)) (wire xdr_rpc_msg (call_msg xid call) ++ args)) args cap in
  reading x args /\
  handle_rpc_message table pool (wire xdr_rpc_msg (call_msg xid call) ++ args) =
    (if negb (rpc_call_body_rpcvers call =? RPC_MSG_VERSION) then
       let* (xdrs, sent) := queue_error x (denied xid) in Ok (snd (get_xdr pool), Refused xdrs sent)
     else
       let* out := match find_proc (rpc_call_body_prog call, rpc_call_body_vers call, rpc_call_body_proc call) table with
         | None => refuse_proc table x xid (rpc_call_body_prog call) (rpc_call_body_vers call)
         | Some p => handle_rpc_op p x xid (rpc_call_body_cred call)
         end in Ok (snd (get_xdr pool), out)).
Proof.
  intros Hp Hf Hs. destruct (get_xdr_ok pool Hp) as [Hx _]. unfold handle_rpc_message. destruct (get_xdr pool) as [x0 pool']. cbn [fst snd] in *.
  pose proof (start_reading x0 _ Hx Hs) as Hr. destruct (decode_at xdr_rpc_msg (start x0 (wire xdr_rpc_msg (call_msg xid call) ++ args)) (call_msg xid call) inhabitant args Hr) as (cap & E & Hr');
    [apply Hx | apply Nat.leb_le; reflexivity | done |].
  exists cap. split; [done |]. unfold xdr_decode. fold (start x0 (wire xdr_rpc_msg (call_msg xid call) ++ args)). rewrite E. reflexivity.
Qed.

(** The credentials the handler gets. *)
Definition auth_of (cred : rpc_opaque_auth) (auth : option authsys_parms) : Prop :=
  match auth with
  | None => rpc_opaque_auth_flavor cred <> RPC_AUTH_SYS
  | Some a => rpc_opaque_auth_flavor cred = RPC_AUTH_SYS /\ fits xdr_authsys_parms a /\
    exists t, s_data (rpc_opaque_auth_body cred) = wire xdr_authsys_parms a ++ t
  end.

(** The arguments and the credentials are decoded. *)
Lemma handle_op_ok p (f : xdrproc (req_type p)) `{Codec (req_type p) f} x request rest xid cred auth :
  ready x -> in_linked_list x = [] -> reading x (wire f request ++ rest) -> req_fn p = Some f -> (depth f <= 1)%nat -> fits f request ->
  string_fits (rpc_opaque_auth_body cred) -> auth_of cred auth ->
  exists x', handle_rpc_op p x xid cred = Ok (Called p request auth x' xid) /\ ready x'.
Proof.
  intros Hx Hl Hr Hf Hd Hfit Hb Ha. unfold handle_rpc_op. rewrite Hf. destruct (decode_at f x request (req_init p) rest Hr Hl Hd Hfit) as (cap & E & Hr'). rewrite E. cbn [rbind negb].
  set (x1 := read_up_to x rest cap) in *. assert (ready x1) as Hx1 by by apply ready_read_up_to. destruct auth as [a |]; cbn [auth_of] in Ha.
  - destruct Ha as (-> & Hfa & t & Et). rewrite Z.eqb_refl. destruct Hb as [Es Hsz]. pose proof (zlen_nonneg (s_data (rpc_opaque_auth_body cred))). rewrite u32_small, Es by lia.
    unfold xdr_decode. fold (start x1 (s_data (rpc_opaque_auth_body cred))).
    assert (reading (start x1 (s_data (rpc_opaque_auth_body cred))) (wire xdr_authsys_parms a ++ t)) as Hra by (rewrite <- Et; apply start_reading; [done | lia]).
    destruct (decode_at xdr_authsys_parms _ a inhabitant t Hra) as (cap2 & E2 & _); [done | apply Nat.leb_le; reflexivity | done |]. rewrite E2. cbn [rbind negb].
    eexists. split; [done |]. by apply ready_read_up_to, ready_start.
  - rewrite (proj2 (Z.eqb_neq _ _)) by done. by exists x1.
Qed.

(** A procedure that is not in the table is refused, or the table lookup asserts. *)
Lemma refuse_proc_ok table x xid P V :
  table_ok table -> ready x -> 0 <= xid < 4294967296 -> 0 <= P < 4294967296 ->
  match of_prog P table, last (of_prog P table) with
  | p :: _, Some q =>
    let stat := if (vers p <=? V) && (V <=? vers q) then RPC_PROC_UNAVAIL else RPC_PROG_MISMATCH in
    exists x', refuse_proc table x xid P V = Ok (Refused x' (frame (wire xdr_rpc_msg (accepted xid stat (vers p) (vers q)))))
  | _, _ =>
    if bool_decide (Exists (fun p => P < prog p) table) then refuse_proc table x xid P V = Err AssertFailed
    else exists x', refuse_proc table x xid P V = Ok (Refused x' (frame (wire xdr_rpc_msg (accepted xid RPC_PROG_UNAVAIL 0 0))))
  end.
Proof.
  intros Ht Hx Hxid HP. unfold refuse_proc. rewrite (served_versions_spec table P Ht HP).
  assert (forall p, p ∈ of_prog P table -> 0 < vers p < 4294967296) as Hv.
  { intros p [_ Hin]%list_elem_of_filter. destruct Ht as [_ Hr]. rewrite Forall_forall in Hr. by apply Hr. }
  destruct (of_prog P table) as [| p t] eqn:Ep; [| destruct (last (p :: t)) as [q |] eqn:Eq; [| by apply last_None in Eq]].
  - cbn [last]. case_bool_decide; [done |]. cbn [rbind]. change (0 =? 0) with true. cbv iota.
    destruct (refuse_accepted x xid RPC_PROG_UNAVAIL 0 0 Hx) as (x' & ->); try (done || lia). by exists x'.
  - pose proof (Hv p (list_elem_of_here _ _)). pose proof (Hv q (last_Some_elem_of _ _ Eq)). cbn [rbind]. rewrite (proj2 (Z.eqb_neq (vers p) 0)) by lia. cbv zeta.
    set (stat := if (vers p <=? V) && (V <=? vers q) then _ else _).
    destruct (refuse_accepted x xid stat (vers p) (vers q) Hx) as (x' & ->); try lia; [subst stat; destruct (_ && _); done |]. by exists x'.
Qed.

(** ** Arbitrary bytes *)

Definition safe_proc (p : rpc_service_proc_t) : Prop := match req_fn p with Some f => exists ok, decodes_safely f ok | None => True end.

Lemma start_input x b : clean x -> is_bytes b -> zlen b < 4294967296 -> input_ok (start x b).
Proof. intros [[] _] Hb Hs. by constructor. Qed.

Lemma handle_op_any p x xid cred :
  safe_proc p -> ready x -> in_linked_list x = [] -> input_ok x -> 0 <= xid < 4294967296 ->
  string_sound (rpc_opaque_auth_body cred) -> s_size (rpc_opaque_auth_body cred) < 4294967289 \/ rpc_opaque_auth_flavor cred <> RPC_AUTH_SYS ->
  exists out, handle_rpc_op p x xid cred = Ok out.
Proof.
  intros Hp Hx Hl Hin Hxid (Hb1 & Hb2 & Hb3) Hcred. unfold handle_rpc_op.
  assert (exists ok x1 request, match req_fn p with None => Ok (true, x, req_init p) | Some f => f x (req_init p) end = Ok (ok, x1, request) /\ advanced x x1) as (ok & x1 & request & -> & Ha).
  { unfold safe_proc in Hp. destruct (req_fn p) as [f |]; [| exists true, x, (req_init p); split; [done | by apply advanced_refl]].
    destruct Hp as [Q Hp]. destruct (Hp x (req_init p) Hin) as (ok & x1 & r & E & Ha & _). by exists ok, x1, r. }
  cbn [rbind]. pose proof (ready_advanced _ _ Hx Ha) as Hx1. assert (in_linked_list x1 = []) as Hl1 by (destruct Ha as (b & _ & ->); done).
  destruct (refuse_accepted x1 xid RPC_GARBAGE_ARGS 0 0 Hx1) as (xe & Ee); [done | unfold RPC_GARBAGE_ARGS; lia | lia | lia |].
  destruct ok; cbn [negb]; [| rewrite Ee; by eexists]. destruct (Z.eqb_spec (rpc_opaque_auth_flavor cred) RPC_AUTH_SYS); [| by eexists].
  assert (s_size (rpc_opaque_auth_body cred) < 4294967289) as Hlt by (by destruct Hcred). rewrite u32_small, <- (Hb3 Hlt) by lia. unfold xdr_decode.
  pose proof (start_input x1 (s_data (rpc_opaque_auth_body cred)) (conj Hx1 Hl1) Hb2 ltac:(rewrite (Hb3 Hlt); lia)) as Hin1.
  destruct (decode_safe xdr_authsys_parms (start x1 (s_data (rpc_opaque_auth_body cred))) inhabitant Hin1) as (ok & x2 & a & E2 & Ha2 & _).
  unfold start in E2. rewrite E2. cbn [rbind]. destruct ok; cbn [negb]; [by eexists |].
  destruct (refuse_accepted x2 xid RPC_GARBAGE_ARGS 0 0) as (xe2 & ->); [by eapply ready_advanced; [apply ready_start |] | done | unfold RPC_GARBAGE_ARGS; lia | lia | lia |]. by eexists.
Qed.

(** * Theorems *)

(** A call of a procedure in the table reaches its handler with the arguments and the credentials the client has
    encoded, whatever follows them in the message, and with an [XDR] object that is ready for the reply. *)
Theorem rpc_call_served table pool xid call p (f : xdrproc (req_type p)) `{Codec (req_type p) f} request auth rest :
  Forall clean pool -> fits xdr_rpc_msg (call_msg xid call) -> rpc_call_body_rpcvers call = RPC_MSG_VERSION ->
  find_proc (rpc_call_body_prog call, rpc_call_body_vers call, rpc_call_body_proc call) table = Some p -> req_fn p = Some f ->
  (depth f <= 1)%nat -> fits f request -> auth_of (rpc_call_body_cred call) auth ->
  zlen (wire xdr_rpc_msg (call_msg xid call) ++ wire f request ++ rest) < 4294967296 ->
  exists x, handle_rpc_message table pool (wire xdr_rpc_msg (call_msg xid call) ++ wire f request ++ rest) =
    Ok (snd (get_xdr pool), Called p request auth x xid) /\ ready x.
Proof.
  intros Hp Hh Hv Hfind Hreq Hd Hfit Ha Hs. destruct (handle_call table pool xid call (wire f request ++ rest) Hp Hh Hs) as (cap & Hr & ->).
  rewrite Hv, Z.eqb_refl, Hfind. cbn [negb]. destruct (get_xdr_ok pool Hp) as [[Hx Hl] _].
  match type of Hr with reading ?x _ => destruct (handle_op_ok p f x request rest xid (rpc_call_body_cred call) auth) as (x' & E & Hx') end; try done.
  - by apply ready_read_up_to, ready_start.
  - destruct Hh as (_ & [_ [Hc _]] & _). cbn in Hc. by destruct Hc as (_ & _ & _ & _ & [_ [Hb _]] & _).
  - rewrite E. cbn [rbind]. by exists x'.
Qed.

(** A reply of a handler is sent as one record, and a client finds in it the reply to its call and the result the
    handler has given. *)
Theorem rpc_reply_frame {A} (f : xdrproc A) `{Codec A f} x xid reply h0 r0 :
  ready x -> 0 <= xid < 4294967296 -> fits f reply -> (depth f <= 1)%nat -> zlen (wire f reply) < 2147483000 ->
  exists x' b rest, rpc_queue_reply x (accepted xid RPC_SUCCESS 0 0) (Some f) reply = Ok (x', frame b) /\
    receive xdr_rpc_msg b h0 = Ok (Some (accepted xid RPC_SUCCESS 0 0, rest)) /\ receive f rest r0 = Ok (Some (reply, [])).
Proof.
  intros Hx Hxid Hr Hd Hs. set (h := accepted xid RPC_SUCCESS 0 0). destruct (accepted_fits xid RPC_SUCCESS 0 0 Hxid) as [Hh _]; [unfold RPC_SUCCESS; lia | lia | lia |].
  assert (zlen (wire xdr_rpc_msg h) = 24) as Hlen by reflexivity. pose proof (zlen_nonneg (wire f reply)).
  destruct (queue_reply_ok x h f reply Hx Hh Hr) as (x' & E); [rewrite zlen_app; lia |]. exists x', (wire xdr_rpc_msg h ++ wire f reply), (wire f reply). split; [done |].
  split; [apply receive_wire; [apply Nat.leb_le; reflexivity | done | rewrite zlen_app; lia] |].
  rewrite <- (app_nil_r (wire f reply)). apply receive_wire; [done | done | rewrite app_nil_r; lia].
Qed.

(** A call of another version of RPC is denied; a call of a procedure that is not in the table is answered by
    PROC_UNAVAIL, or by PROG_MISMATCH with the versions of the program, or by PROG_UNAVAIL when the program is above
    all programs of the table; below one of them, the server stops at an assertion. *)
Theorem rpc_call_refused table pool xid call args (P := rpc_call_body_prog call) (V := rpc_call_body_vers call)
    (run := handle_rpc_message table pool (wire xdr_rpc_msg (call_msg xid call) ++ args)) :
  table_ok table -> Forall clean pool -> fits xdr_rpc_msg (call_msg xid call) -> zlen (wire xdr_rpc_msg (call_msg xid call) ++ args) < 4294967296 ->
  find_proc (P, V, rpc_call_body_proc call) table = None ->
  if negb (rpc_call_body_rpcvers call =? RPC_MSG_VERSION)
  then exists x, run = Ok (snd (get_xdr pool), Refused x (frame (wire xdr_rpc_msg (denied xid))))
  else
    match of_prog P table, last (of_prog P table) with
    | p :: _, Some q => exists x, run = Ok (snd (get_xdr pool), Refused x (frame (wire xdr_rpc_msg
        (accepted xid (if (vers p <=? V) && (V <=? vers q) then RPC_PROC_UNAVAIL else RPC_PROG_MISMATCH) (vers p) (vers q)))))
    | _, _ =>
      if bool_decide (Exists (fun p => P < prog p) table) then run = Err AssertFailed
      else exists x, run = Ok (snd (get_xdr pool), Refused x (frame (wire xdr_rpc_msg (accepted xid RPC_PROG_UNAVAIL 0 0))))
    end.
Proof.
  intros Ht Hp Hh Hs Hfind. destruct (handle_call table pool xid call args Hp Hh Hs) as (cap & _ & E). destruct (get_xdr_ok pool Hp) as [[Hx _] _].
  assert (0 <= xid < 4294967296) as Hxid by (destruct Hh as [Hh _]; exact Hh).
  assert (0 <= P < 4294967296) as HP by (destruct Hh as (_ & [_ [Hc _]] & _); cbn in Hc; by destruct Hc as (_ & Hc & _)).
  set (x := read_up_to _ args cap) in E. assert (ready x) as Hrx by by apply ready_read_up_to, ready_start. subst run P V. rewrite E, Hfind. clearbody x.
  destruct (negb (rpc_call_body_rpcvers call =? RPC_MSG_VERSION)).
  - destruct (refuse_denied x xid Hrx Hxid) as (x' & ->). by exists x'.
  - pose proof (refuse_proc_ok table x xid (rpc_call_body_prog call) (rpc_call_body_vers call) Ht Hrx Hxid HP) as Href.
    destruct (of_prog _ table) as [| p t]; [| destruct (last (p :: t)) as [q |]].
    2: destruct Href as (x' & ->); by exists x'.
    all: destruct (bool_decide _); [by rewrite Href | destruct Href as (x' & ->); by exists x'].
Qed.

(** C19: Any bytes are handled: the message is dropped, refused, or handed to a handler.  The exceptions are calls of
    programs that are not served, below one that is, and credentials that claim a length of 0xFFFFFFF9 or more. *)
Theorem rpc_any_message table pool msg :
  table_ok table -> Forall safe_proc table -> Forall clean pool -> is_bytes msg -> zlen msg < 4294967296 ->
  match handle_rpc_message table pool msg with
  | Ok (pool', _) => Forall clean pool'
  | Err e => exists x xid call, xdr_decode (fst (get_xdr pool)) msg (zlen msg) xdr_rpc_msg inhabitant = Ok (true, x, call_msg xid call) /\
    (e = AssertFailed /\ of_prog (rpc_call_body_prog call) table = [] /\ Exists (fun p => rpc_call_body_prog call < prog p) table \/
     rpc_opaque_auth_flavor (rpc_call_body_cred call) = RPC_AUTH_SYS /\ 4294967289 <= s_size (rpc_opaque_auth_body (rpc_call_body_cred call)))
  end.
Proof.
  intros Ht Hsafe Hp Hb Hs. destruct (get_xdr_ok pool Hp) as [Hx Hp']. unfold handle_rpc_message. destruct (get_xdr pool) as [x0 pool']. cbn [fst snd] in *. unfold xdr_decode.
  pose proof (start_input x0 msg Hx Hb Hs) as Hin. destruct (decode_safe xdr_rpc_msg (start x0 msg) inhabitant Hin) as (ok & x1 & m & E & Ha & Hm).
  fold (start x0 msg). rewrite E. cbn [rbind]. destruct ok; cbn [negb]; [| by apply free_xdr_ok]. specialize (Hm eq_refl).
  destruct m as [xid [dir u]]. cbn [rpc_msg_body_dir rpc_msg_body_data rpc_msg_xid]. destruct (Z.eqb_spec dir RPC_CALL) as [-> |]; cbn [negb]; [| by apply free_xdr_ok].
  destruct Hm as (Hxid & (_ & (call & Ec & Hcall) & _) & _). cbn in Ec. destruct u as [call' | |]; [| done | done]. injection Ec as ->. cbn [rpc_msg_body_cbody rpc_msg_body_u].
  destruct Hcall as (_ & HP & _ & _ & (_ & Hcred & _) & _). cbn in Hxid, HP, Hcred.
  assert (ready x1 /\ in_linked_list x1 = []) as [Hx1 Hl1].
  { destruct Hx as [Hx Hl]. split; [by eapply ready_advanced; [apply ready_start |] | destruct Ha as (b & _ & ->); done]. }
  destruct (negb (rpc_call_body_rpcvers call =? RPC_MSG_VERSION)); [destruct (refuse_denied x1 xid Hx1 Hxid) as (x' & ->); done |].
  destruct (find_proc _ table) as [p |] eqn:Ef.
  - destruct (decide (s_size (rpc_opaque_auth_body (rpc_call_body_cred call)) < 4294967289 \/ rpc_opaque_auth_flavor (rpc_call_body_cred call) <> RPC_AUTH_SYS)) as [Hok | Hbad].
    + destruct (handle_op_any p x1 xid (rpc_call_body_cred call)) as (out & ->); try done; [| by eapply advanced_ok].
      apply find_some in Ef as [Ef _]. rewrite Forall_forall in Hsafe. by apply Hsafe, list_elem_of_In.
    + destruct (handle_rpc_op p x1 xid (rpc_call_body_cred call)); cbn [rbind]; [done |]. exists x1, xid, call. split; [reflexivity |]. right.
      split; [destruct (decide (rpc_opaque_auth_flavor (rpc_call_body_cred call) = RPC_AUTH_SYS)); tauto | lia].
  - pose proof (refuse_proc_ok table x1 xid (rpc_call_body_prog call) (rpc_call_body_vers call) Ht Hx1 Hxid HP) as Href.
    destruct (of_prog _ table) as [| p t] eqn:Ep; [| destruct (last (p :: t)) as [q |] eqn:Eq; [| by apply last_None in Eq]].
    + cbn [last] in Href. case_bool_decide; [rewrite Href; cbn [rbind] | by destruct Href as (x' & ->)]. exists x1, xid, call. split; [reflexivity |]. by left.
    + by destruct Href as (x' & ->).
Qed.

(** ** A server with its own table *)

Lemma kv_table_ok : table_ok nfs_kv_procs.
Proof.
  split; [repeat constructor |].
  repeat (apply Forall_cons; split; [cbn; unfold NFS_PROGRAM, MOUNT_PROGRAM, NFS_V3, MOUNT_V3; lia |]). constructor.
Qed.
Lemma kv_safe : Forall safe_proc nfs_kv_procs.
Proof. repeat constructor; (exact I || (eexists; apply decode_safe)). Qed.

Definition example_call (program : Z) : rpc_call_body := mk_rpc_call_body 2 program 3 1 no_auth no_auth.
Lemma example_call_fits program : 0 <= program < 4294967296 -> fits xdr_rpc_msg (call_msg 7 (example_call program)).
Proof.
  intros HP. refine (conj _ (conj (conj _ (conj _ I)) I)); [cbn; lia | cbn; unfold RPC_CALL; lia |].
  refine (conj _ (conj HP (conj _ (conj _ (conj no_auth_fits (conj no_auth_fits I)))))); cbn; lia.
Qed.
Lemma empty_pool : Forall clean [].
Proof. constructor. Qed.

Lemma rpc_call_served_witness :
  exists x, handle_rpc_message nfs_kv_procs [] (wire xdr_rpc_msg (call_msg 7 (example_call NFS_PROGRAM)) ++ wire xdr_GETATTR3args (mk_GETATTR3args (str [1; 2])) ++ []) =
    Ok ([], Called (full_proc NFS_PROGRAM NFS_V3 1 "kv_nfs3_getattr_proc" xdr_GETATTR3args xdr_GETATTR3res) (mk_GETATTR3args (str [1; 2])) None x 7) /\ ready x.
Proof.
  apply (rpc_call_served nfs_kv_procs [] 7 (example_call NFS_PROGRAM) (full_proc NFS_PROGRAM NFS_V3 1 "kv_nfs3_getattr_proc" xdr_GETATTR3args xdr_GETATTR3res)
    xdr_GETATTR3args (mk_GETATTR3args (str [1; 2])) None []); [constructor | by apply example_call_fits | reflexivity | reflexivity | reflexivity | apply Nat.leb_le; reflexivity | | discriminate | reflexivity].
  refine (conj _ I). by split.
Defined.
Lemma rpc_reply_frame_witness :
  exists x' b rest, rpc_queue_reply xdr_create (accepted 7 RPC_SUCCESS 0 0) (Some xdr_u_int) 2049 = Ok (x', frame b) /\
    receive xdr_rpc_msg b inhabitant = Ok (Some (accepted 7 RPC_SUCCESS 0 0, rest)) /\ receive xdr_u_int rest 0 = Ok (Some (2049, [])).
Proof. apply (rpc_reply_frame xdr_u_int xdr_create 7 2049 inhabitant 0); [by constructor | lia | cbn; lia | apply Nat.leb_le; reflexivity | reflexivity]. Defined.
Lemma rpc_call_refused_witness : handle_rpc_message nfs_kv_procs [] (wire xdr_rpc_msg (call_msg 7 (example_call 100004)) ++ []) = Err AssertFailed.
Proof.
  apply (rpc_call_refused nfs_kv_procs [] 7 (example_call 100004) [] kv_table_ok empty_pool); [by apply example_call_fits | reflexivity | reflexivity].
Defined.
Lemma rpc_any_message_witness : match handle_rpc_message nfs_kv_procs [] [1; 2; 3] with Ok (pool', _) => Forall clean pool' | Err _ => False end.
Proof.
  pose proof (rpc_any_message nfs_kv_procs [] [1; 2; 3] kv_table_ok kv_safe empty_pool ltac:(repeat constructor; lia) ltac:(reflexivity)) as H.
  vm_compute in H. exact H.
Defined.
