(* ===== verification/Writeback.v ===== *)
(** The write-back cache of the cluster client ([writeback_cache_t],
    src/src/client/cluster_client_impl.h and cluster_client_wb.cpp): writes and
    deletions are kept as buffers that do not overlap, reads are answered from
    them, consecutive buffers are flushed together, and buffers are forgotten
    when they are known to be stored.  An iterator into the map of buffers is the
    pair of the elements before it, nearest first, and the elements from it on. *)

From S2P Require Import Prelude.
From S2P Require Import Bitmap.

Definition CACHE_DIRTY : Z := 1.
Definition CACHE_WRITTEN : Z := 2.
Definition CACHE_FLUSHING : Z := 3.
Definition CACHE_REPEATING : Z := 4.
Definition OP_IMMEDIATE_COMMIT : Z := 4.
Definition OSD_OP_READ : Z := 11.
Definition OSD_OP_WRITE : Z := 12.
Definition OSD_OP_DELETE : Z := 14.
Definition OSD_OP_READ_BITMAP : Z := 16.
Definition OSD_OP_READ_CHAIN_BITMAP : Z := 0x102.

(** * State *)

Notation object_id := (Z * Z)%type (only parsing).
Definition oid_lt (a b : object_id) : bool := (a.1 <? b.1) || ((a.1 =? b.1) && (a.2 <? b.2)).

(** [buf] is a place in a block of memory that starts with its reference count
    [refcnt]; the buffers of deletions have neither. *)
Record cluster_buffer_t := mk_buffer { buf : option (nat * Z); len : Z; state : Z; flush_id : Z }.
Record block_t := mk_block { refcnt : Z; bytes : list Z }.

Notation dirty_buf := (Z * Z * cluster_buffer_t)%type (only parsing).
Notation dirty_buf_it := (list (Z * Z * cluster_buffer_t) * list (Z * Z * cluster_buffer_t))%type (only parsing).

(** A write or a deletion passed to the client by [flush_buffers]: [fl_iov] has
    parts of blocks, [fl_front] says that it is put before the operations that
    wait already. *)
Record flush_op_t := mk_flush {
  fl_opcode : Z; fl_inode : Z; fl_offset : Z; fl_len : Z; fl_iov : list (nat * Z * Z); fl_id : Z; fl_front : bool }.

(** [heap] has the blocks that have not been freed, [issued] the operations given
    to the client that have not come back.  The 64-bit numbers that count objects
    in memory and flushes do not wrap around. *)
Record writeback_cache_t := mk_wb {
  writeback_bytes : Z; writeback_queue_size : Z; writebacks_active : Z; last_flush_id : Z;
  dirty_buffers : list (Z * Z * cluster_buffer_t);
  writeback_queue : list (Z * Z);
  flushed_buffers : list (Z * nat);
  heap : gmap nat block_t; issued : list flush_op_t }.

Definition new_cache : writeback_cache_t := mk_wb 0 0 0 0 [] [] [] ∅ [].

Definition with_bufs (c : writeback_cache_t) (l : list (Z * Z * cluster_buffer_t)) : writeback_cache_t :=
  mk_wb (writeback_bytes c) (writeback_queue_size c) (writebacks_active c) (last_flush_id c) l (writeback_queue c)
    (flushed_buffers c) (heap c) (issued c).
Definition with_heap (c : writeback_cache_t) (h : gmap nat block_t) : writeback_cache_t :=
  mk_wb (writeback_bytes c) (writeback_queue_size c) (writebacks_active c) (last_flush_id c) (dirty_buffers c) (writeback_queue c)
    (flushed_buffers c) h (issued c).
Definition with_counts (c : writeback_cache_t) (b q : Z) : writeback_cache_t :=
  mk_wb b q (writebacks_active c) (last_flush_id c) (dirty_buffers c) (writeback_queue c) (flushed_buffers c) (heap c) (issued c).
Definition with_queue (c : writeback_cache_t) (q : list (Z * Z)) : writeback_cache_t :=
  mk_wb (writeback_bytes c) (writeback_queue_size c) (writebacks_active c) (last_flush_id c) (dirty_buffers c) q
    (flushed_buffers c) (heap c) (issued c).
Definition with_flushes (c : writeback_cache_t) (active last : Z) (fl : list (Z * nat)) (ops : list flush_op_t) : writeback_cache_t :=
  mk_wb (writeback_bytes c) (writeback_queue_size c) active last (dirty_buffers c) (writeback_queue c) fl (heap c) ops.

Definition set_len (b : cluster_buffer_t) (n : Z) : cluster_buffer_t := mk_buffer (buf b) n (state b) (flush_id b).
Definition set_state (b : cluster_buffer_t) (s f : Z) : cluster_buffer_t := mk_buffer (buf b) (len b) s f.

(** * Blocks *)

Definition ref (h : gmap nat block_t) (i : nat) : res (gmap nat block_t) :=
  match h !! i with
  | None => Err Undefined
  | Some m => Ok (<[i := mk_block (refcnt m + 1) (bytes m)]> h)
  end.
Definition unref (h : gmap nat block_t) (i : nat) : res (gmap nat block_t) :=
  match h !! i with
  | None => Err Undefined
  | Some m =>
    let n := refcnt m - 1 in
    Ok (if n =? 0 then delete i h else <[i := mk_block n (bytes m)]> h)
  end.
Definition unref_buf (h : gmap nat block_t) (b : cluster_buffer_t) : res (gmap nat block_t) :=
  match buf b with None => Ok h | Some (i, _) => unref h i end.

(** * The map of buffers *)

Definition buf_end (d : dirty_buf) : Z := u64 (d.1.2 + len d.2).
Definition has_buf (b : cluster_buffer_t) : bool := match buf b with None => false | Some _ => true end.

Fixpoint map_lower_bound (k : object_id) (pre l : list (Z * Z * cluster_buffer_t)) : dirty_buf_it :=
  match l with
  | [] => (pre, [])
  | d :: l' => if oid_lt d.1 k then map_lower_bound k (d :: pre) l' else (pre, l)
  end.
(** [emplace] does nothing when the key is there. *)
Fixpoint emplace (k : object_id) (b : cluster_buffer_t) (l : list (Z * Z * cluster_buffer_t)) : list (Z * Z * cluster_buffer_t) :=
  match l with
  | [] => [(k, b)]
  | d :: l' => if oid_lt d.1 k then d :: emplace k b l' else if oid_lt k d.1 then (k, b) :: l else l
  end.
Definition erase (k : object_id) (l : list (Z * Z * cluster_buffer_t)) : list (Z * Z * cluster_buffer_t) :=
  filter (fun d => d.1 <> k) l.

Definition has_inode (c : writeback_cache_t) (inode : Z) : bool :=
  match (map_lower_bound (inode, 0) [] (dirty_buffers c)).2 with [] => false | d :: _ => d.1.1 =? inode end.

Fixpoint step_back (inode offset : Z) (pre post : list (Z * Z * cluster_buffer_t)) : dirty_buf_it :=
  match pre with
  | [] => (pre, post)
  | d :: pre' => if negb (d.1.1 =? inode) || (buf_end d <=? offset) then (pre, post) else step_back inode offset pre' (d :: post)
  end.
Definition find_dirty (c : writeback_cache_t) (inode offset : Z) : dirty_buf_it :=
  let '(pre, post) := map_lower_bound (inode, offset) [] (dirty_buffers c) in
  let '(pre, post) := step_back inode offset pre post in
  match post with
  | d :: _ => if d.1.1 =? inode then (pre, post) else (rev_append post pre, [])
  | [] => (pre, [])
  end.

(** [d] directly follows [p], and [x] of the two is dirty. *)
Definition adjacent (p d x : dirty_buf) : bool :=
  (p.1.1 =? d.1.1) && eqb (has_buf p.2) (has_buf d.2) && (buf_end p =? d.1.2) && (state x.2 =? CACHE_DIRTY).
Definition is_left_merged (pre : list (Z * Z * cluster_buffer_t)) (d : dirty_buf) : bool :=
  match pre with [] => false | p :: _ => adjacent p d p end.
Definition is_right_merged (d : dirty_buf) (rest : list (Z * Z * cluster_buffer_t)) : bool :=
  match rest with [] => false | n :: _ => adjacent d n n end.

(** * Writing *)

(** An operation of the user; [iov] are its buffers, with their contents. *)
Record cluster_op_t := mk_op {
  opcode : Z; inode : Z; cur_inode : Z; offset : Z; op_len : Z; iov : list (list Z); bitmap_buf : list Z }.

(** Bytes taken off the buffer [d], which is dirty, and a change of the number of runs. *)
Definition count_cut (c : writeback_cache_t) (d : dirty_buf) (n q : Z) : writeback_cache_t :=
  if state d.2 =? CACHE_DIRTY
  then with_counts c (if has_buf d.2 then u64 (writeback_bytes c - n) else writeback_bytes c) (writeback_queue_size c + q)
  else c.
Definition b2z (b : bool) : Z := if b then 1 else 0.

(** The part of the buffer [d] from [new_end] on. *)
Definition tail_buf (d : dirty_buf) (new_end : Z) : cluster_buffer_t :=
  mk_buffer (match buf d.2 with None => None | Some (i, o) => Some (i, o + new_end - d.1.2) end)
    (u64 (buf_end d - new_end)) (state d.2) (flush_id d.2).

(** The loop of [copy_write]: remove what overlaps the operation. *)
Fixpoint cut_loop (op : cluster_op_t) (c : writeback_cache_t) (pre post : list (Z * Z * cluster_buffer_t))
    : res (writeback_cache_t * dirty_buf_it) :=
  let new_end := u64 (offset op + op_len op) in
  match post with
  | [] => Ok (c, (pre, post))
  | d :: rest =>
    if (d.1.1 =? inode op) && (d.1.2 <? u64 (offset op + op_len op)) then
      assert! offset op <? buf_end d in
      let old_end := buf_end d in
      if d.1.2 <? offset op then
        let head := (d.1, set_len d.2 (u64 (offset op - d.1.2))) in
        if new_end <? old_end then
          let l := emplace (inode op, new_end) (tail_buf d new_end) (rev_append pre (head :: rest)) in
          let '(pre, post) := map_lower_bound (inode op, new_end) [] l in
          match post with
          | [] => Err Undefined
          | n :: _ =>
            let* h := match buf n.2 with None => Ok (heap c) | Some (i, _) => ref (heap c) i end in
            Ok (count_cut (with_heap c h) n (op_len op) 1, (pre, post))
          end
        else cut_loop op (count_cut c d (old_end - offset op) (b2z (is_right_merged d rest))) (head :: pre) rest
      else if new_end <? old_end then
        let c := count_cut c d (new_end - d.1.2) (b2z (is_left_merged pre d)) in
        let l := erase d.1 (emplace (inode op, new_end) (tail_buf d new_end) (rev_append pre (d :: rest))) in
        Ok (c, map_lower_bound (inode op, new_end) [] l)
      else
        let lm := is_left_merged pre d in
        let rm := is_right_merged d rest in
        assert! negb (state d.2 =? CACHE_DIRTY) || lm || rm || (0 <? writeback_queue_size c) in
        let c := count_cut c d (len d.2) (if lm && rm then 1 else if lm || rm then 0 else -1) in
        let* h := unref_buf (heap c) d.2 in
        cut_loop op (with_heap c h) pre rest
    else Ok (c, (pre, post))
  end.

(** [memcpy] of all parts of the operation, one after another. *)
Fixpoint copy_parts (b : list Z) (pos : Z) (iov : list (list Z)) : res (list Z) :=
  match iov with
  | [] => Ok b
  | v :: iov => let* b := poke b pos v in copy_parts b (u64 (pos + zlen v)) iov
  end.

Section Cache.
(** [malloc] gives a block that is not in use; its contents are unknown, zeros here. *)
Context (malloc : gset nat -> nat).

(** Overlapping buffers are removed, just insert the new one. *)
Definition insert_write (op : cluster_op_t) (new_state new_flush_id : Z) (c : writeback_cache_t) (pre post : list (Z * Z * cluster_buffer_t))
    : res writeback_cache_t :=
  let is_del := opcode op =? OSD_OP_DELETE in
  let i := malloc (dom (heap c)) in
  let b := mk_buffer (if is_del then None else Some (i, 0)) (op_len op) new_state new_flush_id in
  let h := if is_del then heap c else <[i := mk_block 1 (replicate (Z.to_nat (op_len op)) 0)]> (heap c) in
  let key := (inode op, offset op) in
  let '(pre, post) := map_lower_bound key [] (emplace key b (rev_append pre post)) in
  let c := with_heap (with_bufs c (rev_append pre post)) h in
  let* c :=
    (if new_state =? CACHE_DIRTY then
       match post with
       | [] => Err Undefined
       | d :: rest =>
         let lm := is_left_merged pre d in
         let rm := is_right_merged d rest in
         assert! negb (lm && rm) || (0 <? writeback_queue_size c) in
         let q := writeback_queue_size c + (if lm && rm then -1 else if lm || rm then 0 else 1) in
         let c := with_counts c (u64 (writeback_bytes c + if is_del then 0 else op_len op)) q in
         Ok (if lm || rm then c else with_queue c (writeback_queue c ++ [key]))
       end
     else Ok c) in
  if is_del then Ok c
  else
    match heap c !! i with
    | None => Err Undefined
    | Some m => let* b := copy_parts (bytes m) 0 (iov op) in Ok (with_heap c (<[i := mk_block (refcnt m) b]> (heap c)))
    end.
Definition copy_write (op : cluster_op_t) (new_state new_flush_id : Z) (c : writeback_cache_t) : res writeback_cache_t :=
  if op_len op =? 0 then Ok c
  else
    let '(pre, post) := find_dirty c (inode op) (offset op) in
    let* (c, (pre, post)) := cut_loop op c pre post in
    insert_write op new_state new_flush_id c pre post.
End Cache.

(** * Flushing *)

(** The loop of [flush_buffers]. *)
Fixpoint mark_run (id : Z) (h : gmap nat block_t) (run : list (Z * Z * cluster_buffer_t))
    : res (gmap nat block_t * list (nat * Z * Z) * list (Z * Z * cluster_buffer_t)) :=
  match run with
  | [] => Ok (h, [], [])
  | d :: run =>
    let* h := match buf d.2 with None => Ok h | Some (i, _) => ref h i end in
    let* (h, iov, run) := mark_run id h run in
    Ok (h, match buf d.2 with None => iov | Some (i, o) => (i, o, len d.2) :: iov end, (d.1, set_state d.2 CACHE_REPEATING id) :: run)
  end.

(** The buffers of [run] stand between [pre] and [post]. *)
Definition flush_buffers (c : writeback_cache_t) (pre run post : list (Z * Z * cluster_buffer_t)) : res (writeback_cache_t * list (Z * Z * cluster_buffer_t)) :=
  match run, last run with
  | from :: _, Some prev =>
    let length := u64 (u64 (prev.1.2 + len prev.2) - from.1.2) in
    let id := last_flush_id c + 1 in
    let* (h, iov, run) := mark_run id (heap c) run in
    assert! foldl (fun n d => u32 (n + len d.2)) 0 run =? length in
    let op := mk_flush (if has_buf from.2 then OSD_OP_WRITE else OSD_OP_DELETE) from.1.1 from.1.2 length iov id
                (negb (state from.2 =? CACHE_DIRTY)) in
    let c := with_flushes c (writebacks_active c + 1) id (flushed_buffers c ++ map (fun p => (id, p.1.1)) iov)
               (if state from.2 =? CACHE_DIRTY then issued c ++ [op] else op :: issued c) in
    Ok (with_heap (with_bufs c (rev_append pre (run ++ post))) h, run)
  | _, _ => Err Undefined
  end.

(** The loops of [delete_flush] and [mark_flush_written], from an iterator on. *)
Definition in_flush (id : Z) (d : dirty_buf) : bool :=
  (flush_id d.2 =? id) && (state d.2 =? CACHE_REPEATING).
Fixpoint delete_loop (inode offset length id : Z) (h : gmap nat block_t) (post : list (Z * Z * cluster_buffer_t))
    : res (gmap nat block_t * list (Z * Z * cluster_buffer_t)) :=
  match post with
  | [] => Ok (h, [])
  | d :: rest =>
    if (d.1.1 =? inode) && (d.1.2 <? u64 (offset + length)) then
      if in_flush id d then
        let* h := unref_buf h d.2 in delete_loop inode offset length id h rest
      else let* (h, rest) := delete_loop inode offset length id h rest in Ok (h, d :: rest)
    else Ok (h, post)
  end.
Definition delete_flush (inode offset length id : Z) (c : writeback_cache_t) : res writeback_cache_t :=
  let '(pre, post) := find_dirty c inode offset in
  let* (h, post) := delete_loop inode offset length id (heap c) post in
  Ok (with_heap (with_bufs c (rev_append pre post)) h).

Fixpoint written_loop (inode offset length id : Z) (post : list (Z * Z * cluster_buffer_t)) : list (Z * Z * cluster_buffer_t) :=
  match post with
  | [] => []
  | d :: rest =>
    if (d.1.1 =? inode) && (d.1.2 <? u64 (offset + length)) then
      (if in_flush id d then (d.1, set_state d.2 CACHE_WRITTEN 0) else d) :: written_loop inode offset length id rest
    else post
  end.
Definition mark_flush_written (inode offset length id : Z) (c : writeback_cache_t) : writeback_cache_t :=
  let '(pre, post) := find_dirty c inode offset in
  with_bufs c (rev_append pre (written_loop inode offset length id post)).

(** The callback of a flush: it has come back from the client with [op_flags]. *)
Fixpoint unref_flushed (id : Z) (h : gmap nat block_t) (fl : list (Z * nat)) : res (gmap nat block_t) :=
  match fl with
  | [] => Ok h
  | (j, i) :: fl => let* h := (if j =? id then unref h i else Ok h) in unref_flushed id h fl
  end.
Definition flush_done (op : flush_op_t) (op_flags : Z) (c : writeback_cache_t) : res writeback_cache_t :=
  let* h := unref_flushed (fl_id op) (heap c) (flushed_buffers c) in
  let c := with_heap (with_flushes c (writebacks_active c) (last_flush_id c)
             (filter (fun p => p.1 <> fl_id op) (flushed_buffers c)) (filter (fun o => fl_id o <> fl_id op) (issued c))) h in
  let* c :=
    (if negb (Z.land op_flags OP_IMMEDIATE_COMMIT =? 0) then delete_flush (fl_inode op) (fl_offset op) (fl_len op) (fl_id op) c
     else Ok (mark_flush_written (fl_inode op) (fl_offset op) (fl_len op) (fl_id op) c)) in
  Ok (with_flushes c (writebacks_active c - 1) (last_flush_id c) (flushed_buffers c) (issued c)).

(** * Starting write-back *)

Fixpoint grow_left (is_del : bool) (ino off : Z) (pre run : list (Z * Z * cluster_buffer_t)) : dirty_buf_it :=
  match pre with
  | [] => (pre, run)
  | d :: pre' =>
    if negb (state d.2 =? CACHE_DIRTY) || negb (eqb (negb (has_buf d.2)) is_del) || negb (d.1.1 =? ino) || negb (buf_end d =? off)
    then (pre, run) else grow_left is_del ino d.1.2 pre' (d :: run)
  end.
Fixpoint grow_right (is_del : bool) (ino off : Z) (post : list (Z * Z * cluster_buffer_t))
    : list (Z * Z * cluster_buffer_t) * list (Z * Z * cluster_buffer_t) * Z :=
  match post with
  | [] => ([], [], off)
  | d :: post' =>
    if negb (state d.2 =? CACHE_DIRTY) || negb (eqb (negb (has_buf d.2)) is_del) || negb (d.1.1 =? ino) || negb (d.1.2 =? off)
    then ([], post, off) else let '(run, post, off) := grow_right is_del ino (buf_end d) post' in (d :: run, post, off)
  end.

(** One entry of the queue: flush the run of dirty buffers at it, if there is one. *)
Definition start_one (req : object_id) (c : writeback_cache_t) : res (writeback_cache_t * bool) :=
  let '(pre, post) := find_dirty c req.1 req.2 in
  match post with
  | [] => Ok (c, false)
  | d :: rest =>
    if negb (d.1.1 =? req.1) || negb (state d.2 =? CACHE_DIRTY) then Ok (c, false)
    else
      let is_del := negb (has_buf d.2) in
      let '(pre, before) := grow_left is_del req.1 d.1.2 pre [] in
      let '(after, post, off) := grow_right is_del req.1 (buf_end d) rest in
      let run := before ++ d :: after in
      assert! 0 <? writeback_queue_size c in
      match run with
      | [] => Err Undefined
      | from :: _ =>
        let c := with_counts c (u64 (writeback_bytes c - u64 (off - from.1.2))) (writeback_queue_size c - 1) in
        assert! (0 <? writeback_queue_size c) || (writeback_bytes c =? 0) in
        let* (c, _) := flush_buffers c pre run post in Ok (c, true)
      end
  end.
Fixpoint start_loop (count started : Z) (queue : list (Z * Z)) (c : writeback_cache_t) : res (writeback_cache_t * list (Z * Z)) :=
  match queue with
  | [] => Ok (c, [])
  | req :: queue' =>
    if (count =? 0) || (started <? count) then
      let* (c, s) := start_one req c in start_loop count (started + b2z s) queue' c
    else Ok (c, queue)
  end.
Definition start_writebacks (count : Z) (c : writeback_cache_t) : res writeback_cache_t :=
  match writeback_queue c with
  | [] => Ok c
  | queue =>
    let* (c, queue) := start_loop count 0 queue (with_queue c []) in
    Ok (with_queue c (queue ++ writeback_queue c))
  end.

(** * Repeating writes *)

(** [affected] is what [affects_osd] and [affects_pg] say of a range of an inode.
    [done] and [run] are the buffers before the loop's position, nearest first;
    [run] are those that are going to be repeated together. *)
Fixpoint repeat_loop (affected : Z -> Z -> Z -> bool) (c : writeback_cache_t) (repeated : Z)
    (done run post : list (Z * Z * cluster_buffer_t)) : res (writeback_cache_t * Z) :=
  let stop (d : dirty_buf) :=
    match run, last run with
    | prev :: _, Some from => negb (d.1.1 =? from.1.1) || negb (d.1.2 =? buf_end prev)
    | _, _ => false
    end in
  match post with
  | [] =>
    match run with
    | [] => Ok (c, repeated)
    | _ => let* (c, _) := flush_buffers c done (rev run) [] in Ok (c, repeated + 1)
    end
  | d :: rest =>
    let flush_this := negb (state d.2 =? CACHE_REPEATING) && negb (state d.2 =? CACHE_DIRTY) && affected d.1.1 d.1.2 (len d.2) in
    let* (c, repeated, done, run) :=
      match run with
      | [] => Ok (c, repeated, done, run)
      | _ =>
        if negb flush_this || stop d then
          let* (c, flushed) := flush_buffers c done (rev run) post in Ok (c, repeated + 1, rev_append flushed done, [])
        else Ok (c, repeated, done, run)
      end in
    if flush_this then repeat_loop affected c repeated done (d :: run) rest else repeat_loop affected c repeated (d :: done) run rest
  end.
Definition repeat_ops_for (affected : Z -> Z -> Z -> bool) (c : writeback_cache_t) : res (writeback_cache_t * Z) :=
  repeat_loop affected c 0 [] [] (dirty_buffers c).

(** * Syncing and destruction *)

Definition move_state (from to : Z) (c : writeback_cache_t) : writeback_cache_t :=
  with_bufs c (map (fun d => if state d.2 =? from then (d.1, set_state d.2 to (flush_id d.2)) else d) (dirty_buffers c)).
Definition fsync_start (c : writeback_cache_t) : writeback_cache_t := move_state CACHE_WRITTEN CACHE_FLUSHING c.
Definition fsync_error (c : writeback_cache_t) : writeback_cache_t := move_state CACHE_FLUSHING CACHE_WRITTEN c.

Fixpoint unref_all (h : gmap nat block_t) (l : list (Z * Z * cluster_buffer_t)) : res (gmap nat block_t) :=
  match l with
  | [] => Ok h
  | d :: l => let* h := unref_buf h d.2 in unref_all h l
  end.
Definition fsync_ok (c : writeback_cache_t) : res writeback_cache_t :=
  let* h := unref_all (heap c) (filter (fun d => state d.2 = CACHE_FLUSHING) (dirty_buffers c)) in
  Ok (with_heap (with_bufs c (filter (fun d => state d.2 <> CACHE_FLUSHING) (dirty_buffers c))) h).
Definition destroy (c : writeback_cache_t) : res writeback_cache_t :=
  let* h := unref_all (heap c) (dirty_buffers c) in Ok (with_heap (with_bufs c []) h).

(** * Reading *)

(** [n] bytes of a source at position [p]; NULL reads as zeros. *)
Definition src_bytes (h : gmap nat block_t) (b : option (nat * Z)) (p n : Z) : res (list Z) :=
  match b with
  | None => Ok (replicate (Z.to_nat n) 0)
  | Some (i, o) => match h !! i with None => Err Undefined | Some m => load (bytes m) (o + p) n end
  end.

Fixpoint skip_iov (cur_offset off : Z) (iov : list (list Z)) : list (list Z) * list (list Z) * Z :=
  match iov with
  | [] => ([], [], cur_offset)
  | v :: iov' =>
    if u64 (cur_offset + zlen v) <=? off
    then let '(a, b, cur_offset) := skip_iov (u64 (cur_offset + zlen v)) off iov' in (v :: a, b, cur_offset)
    else ([], iov, cur_offset)
  end.
Fixpoint copy_iov (src : Z -> Z -> res (list Z)) (cur_offset off n : Z) (iov : list (list Z)) : res (list (list Z)) :=
  match iov with
  | [] => Ok []
  | v :: iov' =>
    if cur_offset <? u64 (off + n) then
      let begin := if cur_offset <? off then off else cur_offset in
      let end_ := if u64 (off + n) <? u64 (cur_offset + zlen v) then u64 (off + n) else u64 (cur_offset + zlen v) in
      let* d := src (if cur_offset <=? off then 0 else u64 (cur_offset - off)) (u64 (end_ - begin)) in
      let* v' := poke v (begin - cur_offset) d in
      let* iov' := copy_iov src (u64 (cur_offset + zlen v)) off n iov' in
      Ok (v' :: iov')
    else Ok iov
  end.

(** The loop that sets the bits is the one of [bitmap_set]. *)
Definition copy_to_op (h : gmap nat block_t) (op : cluster_op_t) (off : Z) (b : option (nat * Z)) (n bitmap_granularity : Z)
    : res cluster_op_t :=
  let* iov :=
    (if opcode op =? OSD_OP_READ then
       let '(skipped, rest, cur_offset) := skip_iov (offset op) off (iov op) in
       let* copied := copy_iov (src_bytes h b) cur_offset off n rest in
       Ok (skipped ++ copied)
     else Ok (iov op)) in
  let* bm :=
    match b with
    | None => Ok (bitmap_buf op)
    | Some _ =>
      if bitmap_granularity =? 0 then Err DivByZero
      else
        let start_bit := u64 (off - offset op) / bitmap_granularity in
        let end_bit := u64 (off - offset op + n) / bitmap_granularity in
        bitmap_loop UINT8_MAX byte_set (S (Z.to_nat end_bit)) (bitmap_buf op) start_bit end_bit
    end in
  Ok (mk_op (opcode op) (inode op) (cur_inode op) (offset op) (op_len op) iov bm).

Definition copy_from (h : gmap nat block_t) (op : cluster_op_t) (d : dirty_buf) (prev cur bitmap_granularity : Z) : res cluster_op_t :=
  copy_to_op h op prev (match buf d.2 with None => None | Some (i, o) => Some (i, o + prev - d.1.2) end) (u64 (cur - prev)) bitmap_granularity.

(** The loop over the granules of one buffer. *)
Fixpoint scan_loop (fuel : nat) (h : gmap nat block_t) (d : dirty_buf) (bitmap_granularity : Z) (op : cluster_op_t) (copied : bool)
    (cur prev end_ : Z) (skip_prev : bool) : res (cluster_op_t * bool * Z * Z * bool) :=
  if cur <? end_ then
    match fuel with
    | O => Err OutOfFuel
    | S fuel =>
      if bitmap_granularity =? 0 then Err DivByZero else
      let bmp_loc := u32 (u64 (cur - offset op) / bitmap_granularity) in
      let* byte := aget (bitmap_buf op) (bmp_loc / 8) in
      let skip := Z.testbit byte (bmp_loc mod 8) in
      if eqb skip_prev skip then scan_loop fuel h d bitmap_granularity op copied (u64 (cur + bitmap_granularity)) prev end_ skip_prev
      else
        let* (op, copied) :=
          (if (prev <? cur) && negb skip then let* op := copy_from h op d prev cur bitmap_granularity in Ok (op, true) else Ok (op, copied)) in
        scan_loop fuel h d bitmap_granularity op copied (u64 (cur + bitmap_granularity)) cur end_ skip
    end
  else Ok (op, copied, cur, prev, skip_prev).

Fixpoint read_loop (h : gmap nat block_t) (bitmap_granularity : Z) (op : cluster_op_t) (copied : bool) (post : list (Z * Z * cluster_buffer_t))
    : res (cluster_op_t * bool) :=
  match post with
  | [] => Ok (op, copied)
  | d :: rest =>
    if (d.1.1 =? cur_inode op) && (d.1.2 <? u64 (offset op + op_len op)) then
      let begin := if d.1.2 <? offset op then offset op else d.1.2 in
      let end_ := if u64 (offset op + op_len op) <? buf_end d then u64 (offset op + op_len op) else buf_end d in
      let* (op, copied, cur, prev, skip_prev) :=
        scan_loop (S (Z.to_nat (end_ - begin))) h d bitmap_granularity op copied begin begin end_ true in
      assert! prev <? cur in
      let* (op, copied) :=
        (if negb skip_prev then let* op := copy_from h op d prev cur bitmap_granularity in Ok (op, true) else Ok (op, copied)) in
      read_loop h bitmap_granularity op copied rest
    else Ok (op, copied)
  end.
Definition read_from_cache (op : cluster_op_t) (bitmap_granularity : Z) (c : writeback_cache_t) : res (cluster_op_t * bool) :=
  match dirty_buffers c with
  | [] => Ok (op, false)
  | _ =>
    if (opcode op =? OSD_OP_READ) || (opcode op =? OSD_OP_READ_BITMAP) || (opcode op =? OSD_OP_READ_CHAIN_BITMAP)
    then read_loop (heap c) bitmap_granularity op false (find_dirty c (cur_inode op) (offset op)).2
    else Ok (op, false)
  end.
