(* ===== verification/WritebackList.v ===== *)
(** Lists of buffers that do not overlap: what is stored at an offset, how many
    bytes are dirty, how many runs of consecutive dirty buffers there are, and how
    the steps of [copy_write] ([Writeback.v]) change this. *)

From S2P Require Import Prelude.
From S2P Require Import Bitmap.
From S2P Require Import Writeback.

Notation dbuf := (Z * Z * cluster_buffer_t)%type (only parsing).

(** * Order *)

Definition end_of (d : dbuf) : Z := d.1.2 + len d.2.
Definition before (a b : dbuf) : Prop := a.1.1 < b.1.1 \/ (a.1.1 = b.1.1 /\ end_of a <= b.1.2).
Definition buf_ok (d : dbuf) : Prop := 0 <= d.1.2 /\ 0 < len d.2 /\ end_of d < 18446744073709551616.
Definition sorted (l : list dbuf) : Prop := StronglySorted before l /\ Forall buf_ok l.

Lemma buf_end_ok d : buf_ok d -> buf_end d = end_of d.
Proof. intros (? & ? & ?). unfold buf_end, end_of in *. nowrap. lia. Qed.

Lemma before_trans a b c : buf_ok b -> before a b -> before b c -> before a c.
Proof. unfold before, buf_ok, end_of. intros. lia. Qed.

Lemma sorted_app a b : sorted (a ++ b) <-> sorted a /\ sorted b /\ forall x y, x ∈ a -> y ∈ b -> before x y.
Proof.
  unfold sorted. rewrite Forall_app. split.
  - intros [H [Ha Hb]]. split; [split; [by apply StronglySorted_app_1_l in H | done] |].
    split; [split; [by apply StronglySorted_app_1_r in H | done] |]. intros x y Hx Hy. by apply (StronglySorted_app_1_elem_of _ a b).
  - intros ([Ha Hfa] & [Hb Hfb] & Hab). split; [| done]. by apply StronglySorted_app_2.
Qed.
Lemma sorted_cons d l : sorted (d :: l) <-> buf_ok d /\ sorted l /\ forall y, y ∈ l -> before d y.
Proof.
  change (d :: l) with ([d] ++ l). rewrite sorted_app. split.
  - intros ([_ Hd] & Hl & H). inversion Hd; subst. split; [done |]. split; [done |]. intros y. apply H. by apply list_elem_of_singleton.
  - intros (Hd & Hl & H). split; [split; [repeat constructor | by constructor] |]. split; [done |].
    intros x y ->%list_elem_of_singleton. apply H.
Qed.
Lemma sorted_nil : sorted [].
Proof. split; constructor. Qed.

(** Everything in [l] ends before [x] of the inode, or starts from there on. *)
Definition ends_before (ino x : Z) (d : dbuf) : Prop := d.1.1 < ino \/ (d.1.1 = ino /\ end_of d <= x).
Definition starts_from (ino x : Z) (d : dbuf) : Prop := ino < d.1.1 \/ (d.1.1 = ino /\ x <= d.1.2).

(** * What is stored at an offset *)

(** State, number of the flush, and the place of the byte in memory. *)
Notation cell := (Z * Z * option (nat * Z))%type (only parsing).
Definition covers (ino x : Z) (d : dbuf) : Prop := d.1.1 = ino /\ d.1.2 <= x < end_of d.
#[global] Instance covers_dec ino x d : Decision (covers ino x d).
Proof. unfold covers. apply _. Defined.
Definition cell_of (x : Z) (d : dbuf) : cell :=
  (state d.2, flush_id d.2, match buf d.2 with None => None | Some (i, o) => Some (i, o + (x - d.1.2)) end).
Fixpoint look (l : list dbuf) (ino x : Z) : option cell :=
  match l with [] => None | d :: l => if decide (covers ino x d) then Some (cell_of x d) else look l ino x end.

Lemma look_app a b ino x : look (a ++ b) ino x = match look a ino x with Some c => Some c | None => look b ino x end.
Proof. induction a as [| d a IH]; simpl; [done |]. by case_decide. Qed.
Lemma look_none l ino x : (forall d, d ∈ l -> ~ covers ino x d) -> look l ino x = None.
Proof.
  induction l as [| d l IH]; intros H; [done |]. simpl. rewrite decide_False by (apply H, list_elem_of_here).
  apply IH. intros. apply H. by apply list_elem_of_further.
Qed.
Lemma look_some l ino x : sorted l -> forall d, d ∈ l -> covers ino x d -> look l ino x = Some (cell_of x d).
Proof.
  induction l as [| e l IH]; intros Hs d Hd Hc; [by apply not_elem_of_nil in Hd |].
  apply sorted_cons in Hs as (He & Hl & Hb). apply elem_of_cons in Hd as [-> | Hd]; simpl.
  - by rewrite decide_True.
  - rewrite decide_False; [by apply IH |]. specialize (Hb d Hd). unfold covers, before in *. lia.
Qed.
Lemma look_inv l ino x c : look l ino x = Some c -> exists d, d ∈ l /\ covers ino x d /\ c = cell_of x d.
Proof.
  induction l as [| d l IH]; simpl; [done |]. case_decide as H.
  - intros [= <-]. exists d. split; [by apply list_elem_of_here | done].
  - intros (e & He & Hc)%IH. exists e. split; [by apply list_elem_of_further | done].
Qed.

(** * Counting *)

Definition is_dirty (d : dbuf) : bool := state d.2 =? CACHE_DIRTY.
Fixpoint dirty_bytes (l : list dbuf) : Z :=
  match l with [] => 0 | d :: l => (if is_dirty d && has_buf d.2 then len d.2 else 0) + dirty_bytes l end.

(** Two dirty buffers that are flushed together. *)
Definition joined (p d : dbuf) : bool :=
  is_dirty p && is_dirty d && (p.1.1 =? d.1.1) && eqb (has_buf p.2) (has_buf d.2) && (buf_end p =? d.1.2).
Definition link (a b : option dbuf) : Z := match a, b with Some p, Some d => b2z (joined p d) | _, _ => 0 end.
Fixpoint runs (l : list dbuf) : Z :=
  match l with [] => 0 | d :: l => b2z (is_dirty d) - link (Some d) (head l) + runs l end.

Lemma dirty_bytes_app a b : dirty_bytes (a ++ b) = dirty_bytes a + dirty_bytes b.
Proof. induction a as [| d a IH]; simpl; [done |]. lia. Qed.
Lemma runs_app a b : runs (a ++ b) = runs a + runs b - link (last a) (head b).
Proof.
  induction a as [| d a IH]; [simpl; lia |]. cbn [app runs]. rewrite IH.
  destruct a as [| e a]; cbn [app head last runs]; [simpl; lia |]. lia.
Qed.
Lemma joined_dirty p d : joined p d = true -> is_dirty p = true /\ is_dirty d = true.
Proof. unfold joined. rewrite !andb_true_iff. tauto. Qed.
Lemma runs_head l : (match head l with Some d => b2z (is_dirty d) | None => 0 end) <= runs l.
Proof.
  induction l as [| d l IH]; [done |]. cbn [head runs]. destruct (head l) as [e |] eqn:E; cbn [link] in *; [| lia].
  destruct (joined d e) eqn:Hj; [| destruct (is_dirty e); simpl in *; lia]. apply joined_dirty in Hj as [Hd He]. rewrite Hd, He in *. simpl in *. lia.
Qed.
Lemma runs_nonneg l : 0 <= runs l.
Proof. pose proof (runs_head l). destruct (head l) as [d |]; [| lia]. destruct (is_dirty d); simpl in *; lia. Qed.
Lemma runs_pos l d : d ∈ l -> is_dirty d = true -> 0 < runs l.
Proof.
  intros Hl Hd. induction l as [| e l IH]; [by apply not_elem_of_nil in Hl |]. apply elem_of_cons in Hl as [<- | Hl].
  - pose proof (runs_head (d :: l)) as Hh. cbn [head] in Hh. rewrite Hd in Hh. cbn [b2z] in Hh. lia.
  - specialize (IH Hl). cbn [runs]. destruct (head l) as [f |]; cbn [link]; [| destruct (is_dirty e); simpl; lia].
    destruct (joined e f) eqn:Hj; [apply joined_dirty in Hj as [-> _] |]; destruct (is_dirty e); simpl; lia.
Qed.
Lemma runs_zero l : runs l = 0 -> forall d, d ∈ l -> is_dirty d = false.
Proof. intros H d Hd. destruct (is_dirty d) eqn:E; [| done]. pose proof (runs_pos l d Hd E). lia. Qed.
Lemma clean_bytes l : (forall d, d ∈ l -> is_dirty d = false) -> dirty_bytes l = 0.
Proof.
  induction l as [| d l IH]; intros H; [done |]. simpl. rewrite (H d) by apply list_elem_of_here. simpl.
  apply IH. intros. apply H. by apply list_elem_of_further.
Qed.

Lemma last_rev {A} (l : list A) : last (rev l) = head l.
Proof. destruct l as [| x l]; [done |]. simpl. apply last_snoc. Qed.

(** [is_left_merged] and [is_right_merged] of a dirty buffer. *)
Lemma left_merged pre d : is_dirty d = true -> b2z (is_left_merged pre d) = link (head pre) (Some d).
Proof.
  intros Hd. destruct pre as [| p pre]; [done |]. cbn [is_left_merged head link]. f_equal. unfold adjacent, joined. rewrite Hd.
  unfold is_dirty. destruct (state p.2 =? CACHE_DIRTY); simpl; rewrite ?andb_true_r, ?andb_false_r; done.
Qed.
Lemma right_merged d rest : is_dirty d = true -> b2z (is_right_merged d rest) = link (Some d) (head rest).
Proof.
  intros Hd. destruct rest as [| n rest]; [done |]. cbn [is_right_merged head link]. f_equal. unfold adjacent, joined. rewrite Hd.
  unfold is_dirty. destruct (state n.2 =? CACHE_DIRTY); simpl; rewrite ?andb_true_r, ?andb_false_r; done.
Qed.
Lemma link_clean_l p d : is_dirty p = false -> link (Some p) d = 0.
Proof. intros H. destruct d as [d |]; [| done]. unfold link, joined. by rewrite H. Qed.
Lemma link_clean_r p d : is_dirty d = false -> link p (Some d) = 0.
Proof. intros H. destruct p as [p |]; [| done]. unfold link, joined. by rewrite H, andb_false_r. Qed.
Lemma link_gap p d : buf_ok p -> end_of p < d.1.2 -> link (Some p) (Some d) = 0.
Proof.
  intros Hp H. unfold link, joined. rewrite (buf_end_ok p) by done. rewrite (proj2 (Z.eqb_neq (end_of p) d.1.2)) by lia. by rewrite andb_false_r.
Qed.

(** * Keys *)

Lemma oid_lt_spec a b : oid_lt a b = true <-> a.1 < b.1 \/ (a.1 = b.1 /\ a.2 < b.2).
Proof. unfold oid_lt. rewrite orb_true_iff, andb_true_iff, !Z.ltb_lt, Z.eqb_eq. done. Qed.
Lemma oid_lt_false a b : oid_lt a b = false <-> ~ (a.1 < b.1 \/ (a.1 = b.1 /\ a.2 < b.2)).
Proof. rewrite <- oid_lt_spec. destruct (oid_lt a b); naive_solver. Qed.

Lemma map_lower_bound_app k pre a b :
  (forall d, d ∈ a -> oid_lt d.1 k = true) -> (forall d, head b = Some d -> oid_lt d.1 k = false) ->
  map_lower_bound k pre (a ++ b) = (rev a ++ pre, b).
Proof.
  revert pre. induction a as [| d a IH]; intros pre Ha Hb; simpl.
  - destruct b as [| d b]; [done |]. simpl. by rewrite (Hb d).
  - rewrite (Ha d) by apply list_elem_of_here. rewrite IH, <- app_assoc; [done | | done].
    intros. apply Ha. by apply list_elem_of_further.
Qed.
Lemma emplace_app k v a b :
  (forall d, d ∈ a -> oid_lt d.1 k = true) -> (forall d, head b = Some d -> oid_lt k d.1 = true /\ oid_lt d.1 k = false) ->
  emplace k v (a ++ b) = a ++ (k, v) :: b.
Proof.
  induction a as [| d a IH]; intros Ha Hb; simpl.
  - destruct b as [| d b]; [done |]. simpl. destruct (Hb d) as [-> ->]; done.
  - rewrite (Ha d) by apply list_elem_of_here. rewrite IH; [done | | done]. intros. apply Ha. by apply list_elem_of_further.
Qed.

(** A new buffer between [a] and [b]. *)
Lemma emplace_at ino x v a b :
  (forall d, d ∈ a -> buf_ok d /\ ends_before ino x d) -> (forall d, d ∈ b -> ino < d.1.1 \/ (d.1.1 = ino /\ x < d.1.2)) ->
  emplace (ino, x) v (a ++ b) = a ++ (ino, x, v) :: b /\
  map_lower_bound (ino, x) [] (a ++ (ino, x, v) :: b) = (rev a, (ino, x, v) :: b).
Proof.
  intros Ha Hb.
  assert (Hlt : forall d, d ∈ a -> oid_lt d.1 (ino, x) = true).
  { intros d Hd. apply oid_lt_spec. destruct (Ha d Hd) as [(? & ? & ?) ?]. unfold ends_before, end_of in *. simpl. lia. }
  split.
  - apply emplace_app; [done |]. intros d Hd. destruct b; [done |]. injection Hd as ->.
    specialize (Hb d (list_elem_of_here _ _)). rewrite oid_lt_spec, oid_lt_false. simpl. lia.
  - rewrite map_lower_bound_app; [by rewrite app_nil_r | done |]. intros d [= <-]. apply oid_lt_false. simpl. lia.
Qed.

(** * Searching *)

Lemma elem_of_rev {A} (x : A) l : x ∈ rev l <-> x ∈ l.
Proof. by rewrite !list_elem_of_In, <- in_rev. Qed.

Lemma lower_bound_spec k pre l pre' post' :
  map_lower_bound k pre l = (pre', post') ->
  rev pre' ++ post' = rev pre ++ l /\ (forall d, d ∈ pre' -> d ∈ pre \/ oid_lt d.1 k = true) /\
  (forall d, head post' = Some d -> oid_lt d.1 k = false).
Proof.
  revert pre. induction l as [| d l IH]; intros pre; simpl.
  - intros [= <- <-]. split; [done |]. split; [by left | done].
  - destruct (oid_lt d.1 k) eqn:E.
    + intros (Hl & Hp & Hh)%IH. simpl in Hl. rewrite <- app_assoc in Hl. split; [done |]. split; [| done].
      intros e He. destruct (Hp e He) as [[-> | ?]%elem_of_cons | ?]; auto.
    + intros [= <- <-]. split; [done |]. split; [by left |]. by intros e [= <-].
Qed.

Lemma step_back_spec ino off pre post pre' post' :
  sorted (rev pre ++ post) -> (forall d, d ∈ pre -> oid_lt d.1 (ino, off) = true) -> (forall d, d ∈ post -> ino <= d.1.1 /\ (d.1.1 = ino -> off < end_of d)) ->
  step_back ino off pre post = (pre', post') ->
  rev pre' ++ post' = rev pre ++ post /\ (forall d, d ∈ pre' -> d.1.1 = ino -> end_of d <= off) /\
  (forall d, d ∈ post' -> ino <= d.1.1 /\ (d.1.1 = ino -> off < end_of d)).
Proof.
  revert post. induction pre as [| d pre IH]; intros post Hs Hlt Hpost; simpl.
  - intros [= <- <-]. split; [done |]. split; [intros d Hd; by apply not_elem_of_nil in Hd | done].
  - assert (buf_ok d) as Hd by (apply sorted_app in Hs as ([_ Hf] & _ & _); rewrite Forall_forall in Hf; apply Hf; simpl; set_solver).
    rewrite (buf_end_ok d Hd). destruct (_ || _) eqn:E.
    + intros [= <- <-]. split; [done |]. split; [| done]. intros e He Hi.
      apply sorted_app in Hs as (Hs & _ & _). simpl in Hs. apply sorted_app in Hs as (_ & _ & Hb).
      rewrite orb_true_iff, negb_true_iff, Z.eqb_neq, Z.leb_le in E. apply elem_of_cons in He as [-> | He]; [by destruct E |].
      specialize (Hb e d ltac:(by rewrite elem_of_rev) ltac:(by apply list_elem_of_singleton)).
      specialize (Hlt d (list_elem_of_here _ _)). rewrite oid_lt_spec in Hlt. unfold before, buf_ok, end_of in *. simpl in *. lia.
    + rewrite orb_false_iff, negb_false_iff, Z.eqb_eq, Z.leb_gt in E. intros Hb. apply IH in Hb.
      * destruct Hb as (-> & Hb). simpl. by rewrite <- app_assoc.
      * simpl in Hs. by rewrite <- app_assoc in Hs.
      * intros. apply Hlt. by apply list_elem_of_further.
      * intros e [-> | He]%elem_of_cons; [lia | by apply Hpost].
Qed.

Lemma find_dirty_spec c ino off pre post :
  sorted (dirty_buffers c) -> find_dirty c ino off = (pre, post) ->
  rev pre ++ post = dirty_buffers c /\ (forall d, d ∈ pre -> d.1.1 = ino -> end_of d <= off) /\
  (forall d, d ∈ post -> d.1.1 = ino -> off < end_of d) /\ (forall d, head post = Some d -> d.1.1 = ino).
Proof.
  intros Hs. unfold find_dirty. destruct (map_lower_bound _ _ _) as [p q] eqn:E.
  apply lower_bound_spec in E as (El & Ep & Eq). simpl in El. rewrite <- El in Hs.
  assert (Hq : forall d, d ∈ q -> ino <= d.1.1 /\ (d.1.1 = ino -> off < end_of d)).
  { intros d Hd. apply sorted_app in Hs as (_ & Hs & _). destruct q as [| e q]; [by apply not_elem_of_nil in Hd |].
    apply sorted_cons in Hs as (He & Hq & Hb). specialize (Eq e eq_refl). rewrite oid_lt_false in Eq.
    apply elem_of_cons in Hd as [-> | Hd]; [unfold buf_ok, end_of in *; simpl in *; lia |].
    specialize (Hb d Hd). destruct Hq as [_ Hq]. rewrite Forall_forall in Hq. specialize (Hq d Hd).
    unfold before, buf_ok, end_of in *. simpl in *. lia. }
  destruct (step_back _ _ _ _) as [p' q'] eqn:E'.
  apply step_back_spec in E' as (El' & Hp' & Hq'); [| done | by intros d Hd; destruct (Ep d Hd) as [?%not_elem_of_nil |] | done].
  rewrite <- El' in Hs. rewrite El in El'. destruct q' as [| d q']; [| destruct (d.1.1 =? ino) eqn:Ei].
  - intros [= <- <-]. split; [done |]. split; [done |]. split; [intros e He; by apply not_elem_of_nil in He | done].
  - intros [= <- <-]. apply Z.eqb_eq in Ei. split; [done |]. split; [done |]. split; [intros e He; apply Hq', He |]. by intros e [= <-].
  - intros [= <- <-]. rewrite rev_append_rev. cbn [rev]. rewrite !rev_app_distr, rev_involutive, app_nil_r.
    apply Z.eqb_neq in Ei. split; [cbn [rev]; by rewrite <- app_assoc |]. split; [| split; [intros e He; by apply not_elem_of_nil in He | done]].
    intros e He Hi. assert (e ∈ d :: q' \/ e ∈ p') as [Hq1 | Hp1]; [| exfalso | by apply Hp'].
    { rewrite elem_of_app, elem_of_rev, elem_of_cons in He. rewrite elem_of_cons. tauto. }
    apply sorted_app in Hs as (_ & Hs & _). apply sorted_cons in Hs as (_ & _ & Hb).
    pose proof (proj1 (Hq' d (list_elem_of_here _ _))). apply elem_of_cons in Hq1 as [-> | Hq1]; [done |].
    specialize (Hb e Hq1). unfold before in Hb. lia.
Qed.
Lemma find_dirty_from c ino off pre post : sorted (dirty_buffers c) -> find_dirty c ino off = (pre, post) -> forall d, d ∈ post -> ino <= d.1.1.
Proof.
  intros Hs E d Hd. destruct (find_dirty_spec c ino off pre post Hs E) as (El & _ & _ & Hhead). rewrite <- El in Hs. apply sorted_app in Hs as (_ & Hs & _).
  destruct post as [| e post]; [by apply not_elem_of_nil in Hd |]. specialize (Hhead e eq_refl). apply elem_of_cons in Hd as [-> | Hd]; [lia |].
  apply sorted_cons in Hs as (_ & _ & Hb). specialize (Hb d Hd). unfold before in Hb. lia.
Qed.
