(* ===== verification/WritebackCut.v ===== *)
(** References to blocks of memory, and the loop of [copy_write] that removes what
    a new operation overlaps ([cut_loop] of [Writeback.v]): the buffers that are
    left do not overlap the operation and all counters stay right. *)

From S2P Require Import Prelude.
From S2P Require Import Bitmap.
From S2P Require Import Writeback.
From S2P Require Import WritebackList.

(** * References *)

(** Every block has as many references as [n] says, and none is left without. *)
Definition counted (h : gmap nat block_t) (n : nat -> Z) : Prop :=
  forall i, match h !! i with Some m => refcnt m = n i /\ 0 < n i | None => n i = 0 end.
(** Blocks may go, but their contents do not change. *)
Definition same_bytes (h h' : gmap nat block_t) : Prop :=
  forall i m', h' !! i = Some m' -> exists m, h !! i = Some m /\ bytes m' = bytes m.

Lemma same_bytes_refl h : same_bytes h h.
Proof. intros i m Hm. by exists m. Qed.
Lemma same_bytes_trans h1 h2 h3 : same_bytes h1 h2 -> same_bytes h2 h3 -> same_bytes h1 h3.
Proof. intros H1 H2 i m Hm. destruct (H2 i m Hm) as (m2 & E2 & ->). destruct (H1 i m2 E2) as (m1 & E1 & ->). by exists m1. Qed.

Definition one (i j : nat) : Z := b2z (bool_decide (i = j)).
Lemma one_eq i : one i i = 1.
Proof. unfold one. by rewrite bool_decide_eq_true_2. Qed.
Lemma one_ne i j : i <> j -> one i j = 0.
Proof. intros. unfold one. by rewrite bool_decide_eq_false_2. Qed.
Lemma one_range i j : 0 <= one i j <= 1.
Proof. unfold one. case_bool_decide; simpl; lia. Qed.

Lemma counted_ext h n n' : (forall i, n i = n' i) -> counted h n -> counted h n'.
Proof. intros E H i. specialize (H i). by rewrite <- E. Qed.
Lemma counted_some h n i : counted h n -> 0 < n i -> exists m, h !! i = Some m /\ refcnt m = n i.
Proof. intros H Hi. specialize (H i). destruct (h !! i) as [m |]; [exists m; tauto | lia]. Qed.

Lemma unref_counted h n i : counted h n -> 0 < n i ->
  exists h', unref h i = Ok h' /\ counted h' (fun j => n j - one i j) /\ same_bytes h h'.
Proof.
  intros H Hi. destruct (counted_some h n i H Hi) as (m & Em & Er). unfold unref. rewrite Em, Er. eexists. split; [done |].
  destruct (Z.eqb_spec (n i - 1) 0) as [E1 | E1]; split.
  - intros j. destruct (decide (i = j)) as [<- | Hj]; [rewrite lookup_delete_eq, one_eq; lia |].
    rewrite lookup_delete_ne, one_ne, Z.sub_0_r by done. apply H.
  - intros j mj [_ Ej]%lookup_delete_Some. by exists mj.
  - intros j. destruct (decide (i = j)) as [<- | Hj]; [rewrite lookup_insert_eq, one_eq; simpl; lia |].
    rewrite lookup_insert_ne, one_ne, Z.sub_0_r by done. apply H.
  - intros j mj [[<- <-] | [_ Ej]]%lookup_insert_Some; [by exists m | by exists mj].
Qed.
Lemma ref_counted h n i : counted h n -> 0 < n i ->
  exists h', ref h i = Ok h' /\ counted h' (fun j => n j + one i j) /\ same_bytes h h'.
Proof.
  intros H Hi. destruct (counted_some h n i H Hi) as (m & Em & Er). unfold ref. rewrite Em, Er. eexists. split; [done |]. split.
  - intros j. destruct (decide (i = j)) as [<- | Hj]; [rewrite lookup_insert_eq, one_eq; simpl; lia |].
    rewrite lookup_insert_ne, one_ne, Z.add_0_r by done. apply H.
  - intros j mj [[<- <-] | [_ Ej]]%lookup_insert_Some; [by exists m | by exists mj].
Qed.

(** References of buffers, and of flushes that have not come back. *)
Definition holds (d : dbuf) (i : nat) : Z := match buf d.2 with Some (j, _) => one j i | None => 0 end.
Fixpoint refs (l : list dbuf) (i : nat) : Z := match l with [] => 0 | d :: l => holds d i + refs l i end.
Fixpoint frefs (fl : list (Z * nat)) (i : nat) : Z := match fl with [] => 0 | p :: fl => one p.2 i + frefs fl i end.

Lemma holds_nonneg d i : 0 <= holds d i.
Proof. unfold holds. destruct (buf d.2) as [[j o] |]; [| lia]. pose proof (one_range j i). lia. Qed.
Lemma refs_nonneg l i : 0 <= refs l i.
Proof. induction l as [| d l IH]; simpl; [lia |]. pose proof (holds_nonneg d i). lia. Qed.
Lemma frefs_nonneg fl i : 0 <= frefs fl i.
Proof. induction fl as [| p fl IH]; simpl; [lia |]. pose proof (one_range p.2 i). lia. Qed.
Lemma refs_app a b i : refs (a ++ b) i = refs a i + refs b i.
Proof. induction a as [| d a IH]; simpl; [done |]. lia. Qed.
Lemma frefs_app a b i : frefs (a ++ b) i = frefs a i + frefs b i.
Proof. induction a as [| d a IH]; simpl; [done |]. lia. Qed.
Lemma refs_in l d i o : d ∈ l -> buf d.2 = Some (i, o) -> 0 < refs l i.
Proof.
  intros (a & b & ->)%list_elem_of_split Hd. rewrite refs_app. simpl. unfold holds at 1. rewrite Hd, one_eq.
  pose proof (refs_nonneg a i). pose proof (refs_nonneg b i). lia.
Qed.

(** The bytes of a buffer lie inside its block. *)
Definition in_heap (h : gmap nat block_t) (d : dbuf) : Prop :=
  match buf d.2 with None => True | Some (i, o) => exists m, h !! i = Some m /\ 0 <= o /\ o + len d.2 <= zlen (bytes m) end.
Record heap_ok (h : gmap nat block_t) (l : list dbuf) (fl : list (Z * nat)) : Prop := {
  heap_counted : counted h (fun i => refs l i + frefs fl i);
  heap_in : forall d, d ∈ l -> in_heap h d }.

Lemma in_heap_keep h h' n d : same_bytes h h' -> counted h' n -> in_heap h d -> (forall i o, buf d.2 = Some (i, o) -> 0 < n i) -> in_heap h' d.
Proof.
  unfold in_heap. intros Hs Hc Hd Hn. destruct (buf d.2) as [[i o] |]; [| done].
  destruct Hd as (m & Em & Ho & Hl). destruct (counted_some h' n i Hc (Hn i o eq_refl)) as (m' & Em' & _).
  destruct (Hs i m' Em') as (m0 & E0 & Eb). exists m'. replace m0 with m in * by congruence. by rewrite Eb.
Qed.
Lemma heap_keep h h' l l' fl fl' :
  same_bytes h h' -> counted h' (fun i => refs l' i + frefs fl' i) -> (forall d, d ∈ l' -> d ∈ l) -> heap_ok h l fl -> heap_ok h' l' fl'.
Proof.
  intros Hs Hc Hl [_ Hin]. split; [done |]. intros d Hd. apply (in_heap_keep h h' _ d Hs Hc (Hin d (Hl d Hd))).
  intros i o Ho. pose proof (refs_in l' d i o Hd Ho). pose proof (frefs_nonneg fl' i). lia.
Qed.

(** A buffer is forgotten. *)
Lemma unref_buf_ok h a d b fl : heap_ok h (a ++ d :: b) fl ->
  exists h', unref_buf h d.2 = Ok h' /\ heap_ok h' (a ++ b) fl /\ same_bytes h h'.
Proof.
  intros Hok. pose proof Hok as [Hc _]. unfold unref_buf. destruct (buf d.2) as [[i o] |] eqn:Eb.
  - destruct (unref_counted h _ i Hc) as (h' & -> & Hc' & Hs).
    { pose proof (refs_in (a ++ d :: b) d i o ltac:(set_solver) Eb). pose proof (frefs_nonneg fl i). lia. }
    exists h'. split; [done |]. split; [| done].
    apply (heap_keep h h' (a ++ d :: b) _ fl); [done | | set_solver | done].
    refine (counted_ext _ _ _ _ Hc'). intros j. rewrite !refs_app. simpl. unfold holds at 1. rewrite Eb. lia.
  - exists h. split; [done |]. split; [| apply same_bytes_refl].
    apply (heap_keep h h (a ++ d :: b) _ fl); [apply same_bytes_refl | | set_solver | done].
    refine (counted_ext _ _ _ _ Hc). intros j. rewrite !refs_app. simpl. unfold holds at 1. rewrite Eb. lia.
Qed.

(** A buffer is replaced by one or two parts of it. *)
Definition part_of (h : gmap nat block_t) (d e : dbuf) : Prop := (forall j, holds e j = holds d j) /\ in_heap h e.
Lemma replace_one h a d e b fl : heap_ok h (a ++ d :: b) fl -> part_of h d e -> heap_ok h (a ++ e :: b) fl.
Proof.
  intros [Hc Hin] [He Hh]. split.
  - refine (counted_ext _ _ _ _ Hc). intros i. rewrite !refs_app. simpl. by rewrite He.
  - intros x [Hx | [-> | Hx]%elem_of_cons]%elem_of_app; [apply Hin; set_solver | done | apply Hin; set_solver].
Qed.
Lemma replace_two h a d e f b fl : heap_ok h (a ++ d :: b) fl -> part_of h d e -> part_of h d f ->
  exists h', match buf f.2 with None => Ok h | Some (i, _) => ref h i end = Ok h' /\ heap_ok h' (a ++ e :: f :: b) fl /\ same_bytes h h'.
Proof.
  intros [Hc Hin] [He Hh] [Hf Hg]. destruct (buf f.2) as [[i o] |] eqn:Ef.
  - assert (Hd : forall j, holds d j = one i j) by (intros j; rewrite <- Hf; unfold holds; by rewrite Ef).
    destruct (ref_counted h _ i Hc) as (h' & -> & Hc' & Hs).
    { rewrite refs_app. simpl. rewrite Hd, one_eq. pose proof (refs_nonneg a i). pose proof (refs_nonneg b i). pose proof (frefs_nonneg fl i). lia. }
    exists h'. split; [done |]. split; [| done].
    assert (Hc2 : counted h' (fun j => refs (a ++ e :: f :: b) j + frefs fl j)).
    { refine (counted_ext _ _ _ _ Hc'). intros j. rewrite !refs_app. simpl. rewrite He, Hf, !Hd. lia. }
    split; [done |]. intros x Hx. apply (in_heap_keep h h' _ x Hs Hc2).
    + rewrite elem_of_app, !elem_of_cons in Hx. destruct Hx as [Hx | [-> | [-> | Hx]]]; try done; apply Hin; set_solver.
    + intros j y Hj. pose proof (refs_in _ x j y Hx Hj). pose proof (frefs_nonneg fl j). lia.
  - assert (Hd : forall j, holds d j = 0) by (intros j; rewrite <- Hf; unfold holds; by rewrite Ef).
    exists h. split; [done |]. split; [| apply same_bytes_refl]. split.
    + refine (counted_ext _ _ _ _ Hc). intros j. rewrite !refs_app. simpl. rewrite He, Hf, !Hd. lia.
    + intros x Hx. rewrite elem_of_app, !elem_of_cons in Hx. destruct Hx as [Hx | [-> | [-> | Hx]]]; try done; apply Hin; set_solver.
Qed.

(** * Pieces of a buffer *)

Definition head_of (d : dbuf) (x : Z) : dbuf := (d.1, set_len d.2 (x - d.1.2)).
Definition tail_of (d : dbuf) (x : Z) : dbuf :=
  (d.1.1, x, mk_buffer (match buf d.2 with None => None | Some (i, o) => Some (i, o + x - d.1.2) end) (end_of d - x) (state d.2) (flush_id d.2)).

Lemma head_part h d x : in_heap h d -> d.1.2 < x < end_of d -> part_of h d (head_of d x).
Proof.
  unfold part_of, in_heap, end_of. intros Hd Hx. split; [done |]. simpl. destruct (buf d.2) as [[i o] |]; [| done].
  destruct Hd as (m & ? & ? & ?). exists m. split; [done |]. lia.
Qed.
Lemma tail_part h d x : in_heap h d -> d.1.2 < x < end_of d -> part_of h d (tail_of d x).
Proof.
  unfold part_of, in_heap, end_of, holds. intros Hd Hx. simpl. destruct (buf d.2) as [[i o] |]; [| done].
  split; [done |]. destruct Hd as (m & ? & ? & ?). exists m. split; [done |]. unfold end_of. lia.
Qed.
Lemma head_ok d x : buf_ok d -> d.1.2 < x < end_of d -> buf_ok (head_of d x).
Proof. unfold buf_ok, end_of. simpl. intros. lia. Qed.
Lemma tail_ok d x : buf_ok d -> d.1.2 < x < end_of d -> buf_ok (tail_of d x).
Proof. unfold buf_ok, end_of. simpl. unfold end_of. intros. lia. Qed.
Lemma end_of_head d x : end_of (head_of d x) = x.
Proof. unfold end_of. simpl. lia. Qed.
Lemma end_of_tail d x : end_of (tail_of d x) = end_of d.
Proof. unfold end_of. simpl. unfold end_of. lia. Qed.

Definition inside (ino a b i x : Z) : Prop := i = ino /\ a <= x < b.
Lemma look_head d x ino y : d.1.2 < x < end_of d -> ~ inside d.1.1 x (end_of d) ino y -> look [head_of d x] ino y = look [d] ino y.
Proof.
  intros Hx Hy. cbn [look]. unfold inside in Hy. repeat case_decide; unfold covers in *; rewrite ?end_of_head in *; simpl in *; try done; exfalso; lia.
Qed.
Lemma look_tail d x ino y : d.1.2 < x < end_of d -> ~ inside d.1.1 d.1.2 x ino y -> look [tail_of d x] ino y = look [d] ino y.
Proof.
  intros Hx Hy. cbn [look]. unfold inside in Hy.
  repeat case_decide; unfold covers in *; rewrite ?end_of_tail in *; simpl in *; try done; try (exfalso; lia).
  unfold cell_of. simpl. destruct (buf d.2) as [[i o] |]; [| done].
  by replace (o + x - d.1.2 + (y - x)) with (o + (y - d.1.2)) by lia.
Qed.
Lemma look_split d x z ino y : d.1.2 < x -> x < z < end_of d -> ~ inside d.1.1 x z ino y -> look [head_of d x; tail_of d z] ino y = look [d] ino y.
Proof.
  intros Hx Hz Hy. destruct (decide (x <= y)).
  - cbn [look]. rewrite decide_False by (unfold covers; rewrite end_of_head; simpl; lia).
    apply look_tail; [lia |]. unfold inside in *. lia.
  - rewrite <- (look_head d x) by (unfold inside in *; lia). simpl. case_decide; [done |].
    rewrite decide_False; [done |]. unfold covers. simpl. lia.
Qed.
Lemma look_replace a d p b ino y : look p ino y = look [d] ino y -> look (a ++ p ++ b) ino y = look (a ++ d :: b) ino y.
Proof. intros H. change (a ++ d :: b) with (a ++ [d] ++ b). by rewrite !look_app, H. Qed.

(** Links to the neighbours. *)
Lemma link_head p d x : link p (Some (head_of d x)) = link p (Some d).
Proof. by destruct p. Qed.
Lemma link_tail d x n : buf_ok d -> d.1.2 < x < end_of d -> link (Some (tail_of d x)) n = link (Some d) n.
Proof.
  intros Hd Hx. destruct n as [n |]; [| done]. unfold link, joined. rewrite !buf_end_ok, end_of_tail by (try apply tail_ok; done).
  unfold is_dirty, has_buf. simpl. by destruct (buf d.2) as [[i o] |].
Qed.
Lemma link_far p n : buf_ok p -> (p.1.1 = n.1.1 -> end_of p < n.1.2) -> link (Some p) (Some n) = 0.
Proof.
  intros Hp H. unfold link, joined. rewrite (buf_end_ok p Hp). destruct (Z.eqb_spec p.1.1 n.1.1) as [E | E]; [| by rewrite andb_false_r].
  rewrite (proj2 (Z.eqb_neq (end_of p) n.1.2)) by (specialize (H E); lia). by rewrite andb_false_r.
Qed.

(** * Replacing a buffer in a sorted list *)

Definition within (d e : dbuf) : Prop := e.1.1 = d.1.1 /\ d.1.2 <= e.1.2 /\ end_of e <= end_of d.
Lemma sorted_replace a d p b : sorted (a ++ d :: b) -> sorted p -> (forall e, e ∈ p -> within d e) -> sorted (a ++ p ++ b).
Proof.
  intros (Ha & Hd & Hab)%sorted_app Hp Hw. apply sorted_cons in Hd as (Hd & Hb & Hdb). apply sorted_app. split; [done |]. split.
  - apply sorted_app. split; [done |]. split; [done |]. intros x y Hx Hy. specialize (Hw x Hx). specialize (Hdb y Hy).
    unfold within, before in *. lia.
  - intros x y Hx [Hy | Hy]%elem_of_app; [| apply Hab; [done | by apply list_elem_of_further]].
    specialize (Hw y Hy). specialize (Hab x d Hx (list_elem_of_here _ _)). unfold within, before in *. lia.
Qed.
Lemma head_within d x : d.1.2 < x < end_of d -> within d (head_of d x).
Proof. unfold within. rewrite end_of_head. simpl. lia. Qed.
Lemma tail_within d x : d.1.2 < x < end_of d -> within d (tail_of d x).
Proof. unfold within. rewrite end_of_tail. simpl. lia. Qed.
Lemma sorted_one d : buf_ok d -> sorted [d].
Proof. intros. apply sorted_cons. split; [done |]. split; [apply sorted_nil |]. intros y Hy. by apply not_elem_of_nil in Hy. Qed.
Lemma sorted_two d x z : buf_ok d -> d.1.2 < x -> x <= z < end_of d -> sorted [head_of d x; tail_of d z].
Proof.
  intros Hd Hx Hz. apply sorted_cons. split; [apply head_ok; [done | lia] |]. split; [apply sorted_one, tail_ok; [done | lia] |].
  intros y ->%list_elem_of_singleton. right. rewrite end_of_head. simpl. lia.
Qed.

Section Neighbours.
Context (pre rest : list dbuf) (d : dbuf) (Hs : sorted (rev pre ++ d :: rest)).

Lemma mid_ok : buf_ok d.
Proof. apply sorted_app in Hs as (_ & H & _). by apply sorted_cons in H as (? & _). Qed.
Lemma pre_before p : p ∈ pre -> buf_ok p /\ before p d.
Proof.
  intros Hp. apply sorted_app in Hs as ([_ Hf] & _ & H). rewrite Forall_forall in Hf.
  split; [apply Hf | apply H; [| by apply list_elem_of_here]]; by apply elem_of_rev.
Qed.
Lemma rest_after n : n ∈ rest -> buf_ok n /\ before d n.
Proof.
  intros Hn. apply sorted_app in Hs as (_ & H & _). apply sorted_cons in H as (_ & [_ Hf] & H). rewrite Forall_forall in Hf. auto.
Qed.
Lemma runs_mid e : runs (rev pre ++ e :: rest) = runs (rev pre) + runs rest + b2z (is_dirty e) - link (head pre) (Some e) - link (Some e) (head rest).
Proof. rewrite runs_app, last_rev. cbn [runs head]. lia. Qed.
Lemma link_head_rest x : d.1.2 < x < end_of d -> link (Some (head_of d x)) (head rest) = 0.
Proof.
  intros Hx. destruct (head rest) as [n |] eqn:E; [| done]. destruct (rest_after n (head_Some_elem_of _ _ E)) as [_ Hn].
  apply link_far; [apply head_ok; [apply mid_ok | done] |]. intros Ei. rewrite end_of_head. simpl in *. unfold before in Hn. lia.
Qed.
Lemma link_pre_tail x : d.1.2 < x < end_of d -> link (head pre) (Some (tail_of d x)) = 0.
Proof.
  intros Hx. destruct (head pre) as [p |] eqn:E; [| done]. destruct (pre_before p (head_Some_elem_of _ _ E)) as [Hp Hb].
  apply link_far; [done |]. simpl in *. unfold before in Hb. lia.
Qed.
Lemma link_around : link (head pre) (head rest) = 0.
Proof.
  destruct (head pre) as [p |] eqn:E; [| done]. destruct (head rest) as [n |] eqn:E'; [| done].
  destruct (pre_before p (head_Some_elem_of _ _ E)) as [Hp Hb]. destruct (rest_after n (head_Some_elem_of _ _ E')) as [_ Hn].
  apply link_far; [done |]. pose proof mid_ok as (_ & Hl & _). unfold before, end_of in *. lia.
Qed.
End Neighbours.

Lemma elem_mid {A} (x : A) a b : x ∈ a ++ x :: b.
Proof. apply elem_of_app. right. apply list_elem_of_here. Qed.

(** * The counters *)

Record inv (c : writeback_cache_t) (l : list dbuf) : Prop := {
  inv_bytes : writeback_bytes c = u64 (dirty_bytes l);
  inv_runs : writeback_queue_size c = runs l;
  inv_heap : heap_ok (heap c) l (flushed_buffers c) }.

(** Only the counters and the blocks have changed. *)
Definition same_rest (c c' : writeback_cache_t) : Prop :=
  writebacks_active c' = writebacks_active c /\ last_flush_id c' = last_flush_id c /\ dirty_buffers c' = dirty_buffers c /\
  writeback_queue c' = writeback_queue c /\ flushed_buffers c' = flushed_buffers c /\ issued c' = issued c.
Lemma same_rest_trans c1 c2 c3 : same_rest c1 c2 -> same_rest c2 c3 -> same_rest c1 c3.
Proof. unfold same_rest. intros (? & ? & ? & ? & ? & ?) (? & ? & ? & ? & ? & ?). repeat split; congruence. Qed.

Lemma u64_u64_sub a b : u64 (u64 a - b) = u64 (a - b).
Proof. unfold u64. by rewrite Zminus_mod_idemp_l. Qed.
Lemma u64_u64_add a b : u64 (u64 a + b) = u64 (a + b).
Proof. unfold u64. by rewrite Zplus_mod_idemp_l. Qed.
Lemma u64_u64 a : u64 (u64 a) = u64 a.
Proof. unfold u64. by rewrite Zmod_mod. Qed.

Definition dirty_len (d : dbuf) : Z := if is_dirty d && has_buf d.2 then len d.2 else 0.
Lemma dirty_bytes_mid a d b : dirty_bytes (a ++ d :: b) = dirty_bytes a + dirty_bytes b + dirty_len d.
Proof. rewrite dirty_bytes_app. simpl. unfold dirty_len. lia. Qed.

Lemma count_cut_rest c d n q : same_rest c (count_cut c d n q) /\ heap (count_cut c d n q) = heap c.
Proof. unfold count_cut. by case_match. Qed.
Lemma count_cut_bytes c d n q l : writeback_bytes c = u64 l ->
  writeback_bytes (count_cut c d n q) = u64 (l - if is_dirty d && has_buf d.2 then n else 0).
Proof.
  intros H. unfold count_cut, is_dirty. destruct (state d.2 =? CACHE_DIRTY); simpl; [| by rewrite Z.sub_0_r].
  destruct (has_buf d.2); simpl; [| by rewrite Z.sub_0_r]. by rewrite H, u64_u64_sub.
Qed.
Lemma count_cut_runs c d n q : writeback_queue_size (count_cut c d n q) = writeback_queue_size c + if is_dirty d then q else 0.
Proof. unfold count_cut, is_dirty. destruct (state d.2 =? CACHE_DIRTY); simpl; lia. Qed.

(** * The loop *)

Section Cut.
Context (op : cluster_op_t).
Notation new_end := (offset op + op_len op).
Context (Hoff : 0 <= offset op) (Hlen : 0 < op_len op) (Hend : new_end < 18446744073709551616).

Definition in_op (ino x : Z) : Prop := inside (inode op) (offset op) new_end ino x.
Definition clear_of_op (d : dbuf) : Prop := d.1.1 = inode op -> end_of d <= offset op \/ new_end <= d.1.2.

Record cut_to (c : writeback_cache_t) (l : list dbuf) (c' : writeback_cache_t) (l' : list dbuf) : Prop := {
  cut_sorted : sorted l';
  cut_inv : inv c' l';
  cut_look : forall ino x, ~ in_op ino x -> look l' ino x = look l ino x;
  cut_rest : same_rest c c';
  cut_bytes : same_bytes (heap c) (heap c') }.

Lemma cut_refl c l : sorted l -> inv c l -> cut_to c l c l.
Proof. intros. split; try done. apply same_bytes_refl. Qed.
Lemma cut_trans c l c1 l1 c2 l2 : cut_to c l c1 l1 -> cut_to c1 l1 c2 l2 -> cut_to c l c2 l2.
Proof.
  intros [S1 I1 L1 R1 B1] [S2 I2 L2 R2 B2]. split; [done | done | | |].
  - intros ino x Hx. by rewrite L2, L1.
  - by apply (same_rest_trans c c1).
  - by apply (same_bytes_trans _ (heap c1)).
Qed.

Section Step.
Context (c : writeback_cache_t) (pre rest : list dbuf) (d : dbuf).
Context (Hs : sorted (rev pre ++ d :: rest)) (Hi : inv c (rev pre ++ d :: rest)) (Hd : d.1.1 = inode op).

Lemma mid_in_heap : in_heap (heap c) d.
Proof. apply (heap_in _ _ _ (inv_heap _ _ Hi)), elem_mid. Qed.

Lemma cut_head : d.1.2 < offset op < end_of d -> end_of d <= new_end ->
  cut_to c (rev pre ++ d :: rest)
    (count_cut c d (end_of d - offset op) (b2z (is_right_merged d rest))) (rev pre ++ head_of d (offset op) :: rest).
Proof.
  intros Hx He. pose proof (mid_ok _ _ _ Hs) as Hok. set (x := offset op) in *.
  destruct (count_cut_rest c d (end_of d - x) (b2z (is_right_merged d rest))) as [Hr Hh]. split.
  - apply (sorted_replace _ d [head_of d x]); [done | by apply sorted_one, head_ok |]. intros e ->%list_elem_of_singleton. by apply head_within.
  - split.
    + rewrite (count_cut_bytes _ _ _ _ _ (inv_bytes _ _ Hi)). f_equal. rewrite !dirty_bytes_mid. unfold dirty_len.
      change (is_dirty (head_of d x)) with (is_dirty d). change (has_buf (head_of d x).2) with (has_buf d.2).
      simpl. unfold end_of. destruct (is_dirty d && has_buf d.2); lia.
    + rewrite count_cut_runs, (inv_runs _ _ Hi), !runs_mid, link_head, (link_head_rest pre rest d Hs x Hx).
      change (is_dirty (head_of d x)) with (is_dirty d). destruct (is_dirty d) eqn:E; [rewrite (right_merged d rest E); lia |].
      rewrite (link_clean_l d) by done. lia.
    + rewrite Hh. destruct Hr as (_ & _ & _ & _ & -> & _). apply (replace_one _ _ d); [apply Hi |]. apply head_part; [apply mid_in_heap | done].
  - intros ino y Hy. apply (look_replace _ d [_]), look_head; [done |]. unfold in_op, inside in *. rewrite Hd. lia.
  - done.
  - rewrite Hh. apply same_bytes_refl.
Qed.

Lemma cut_tail : offset op <= d.1.2 -> d.1.2 < new_end < end_of d ->
  cut_to c (rev pre ++ d :: rest)
    (count_cut c d (new_end - d.1.2) (b2z (is_left_merged pre d))) (rev pre ++ tail_of d new_end :: rest).
Proof.
  intros Ho Hx. pose proof (mid_ok _ _ _ Hs) as Hok. set (x := new_end) in *.
  destruct (count_cut_rest c d (x - d.1.2) (b2z (is_left_merged pre d))) as [Hr Hh].
  assert (Hb : has_buf (tail_of d x).2 = has_buf d.2) by (unfold has_buf; simpl; by destruct (buf d.2) as [[] |]). split.
  - apply (sorted_replace _ d [tail_of d x]); [done | by apply sorted_one, tail_ok |]. intros e ->%list_elem_of_singleton. by apply tail_within.
  - split.
    + rewrite (count_cut_bytes _ _ _ _ _ (inv_bytes _ _ Hi)). f_equal. rewrite !dirty_bytes_mid. unfold dirty_len. rewrite Hb.
      change (is_dirty (tail_of d x)) with (is_dirty d). simpl. unfold end_of. destruct (is_dirty d && has_buf d.2); lia.
    + rewrite count_cut_runs, (inv_runs _ _ Hi), !runs_mid, link_tail, (link_pre_tail pre rest d Hs x Hx) by done.
      change (is_dirty (tail_of d x)) with (is_dirty d). destruct (is_dirty d) eqn:E; [rewrite (left_merged pre d E); lia |].
      rewrite (link_clean_r _ d) by done. lia.
    + rewrite Hh. destruct Hr as (_ & _ & _ & _ & -> & _). apply (replace_one _ _ d); [apply Hi |]. apply tail_part; [apply mid_in_heap | done].
  - intros ino y Hy. apply (look_replace _ d [_]), look_tail; [done |]. unfold in_op, inside in *. rewrite Hd. lia.
  - done.
  - rewrite Hh. apply same_bytes_refl.
Qed.

Lemma cut_split : d.1.2 < offset op -> new_end < end_of d ->
  exists h, match buf (tail_of d new_end).2 with None => Ok (heap c) | Some (i, _) => ref (heap c) i end = Ok h /\
    cut_to c (rev pre ++ d :: rest)
      (count_cut (with_heap c h) (tail_of d new_end) (op_len op) 1) (rev pre ++ head_of d (offset op) :: tail_of d new_end :: rest).
Proof.
  intros Ho He. pose proof (mid_ok _ _ _ Hs) as Hok. set (y := new_end) in *. set (x := offset op) in *.
  assert (d.1.2 < x < end_of d /\ d.1.2 < y < end_of d /\ x < y) as (Hx & Hy & Hxy) by (subst x y; lia).
  destruct (replace_two (heap c) (rev pre) d (head_of d x) (tail_of d y) rest (flushed_buffers c)) as (h & Eh & Hh & Hb);
    [apply Hi | apply head_part; [apply mid_in_heap | done] | apply tail_part; [apply mid_in_heap | done] |].
  exists h. split; [done |]. destruct (count_cut_rest (with_heap c h) (tail_of d y) (op_len op) 1) as [Hr Hh'].
  assert (Ht : has_buf (tail_of d y).2 = has_buf d.2) by (unfold has_buf; simpl; by destruct (buf d.2) as [[] |]). split.
  - apply (sorted_replace _ d [head_of d x; tail_of d y]); [done | apply sorted_two; [done | lia | lia] |].
    intros e [-> | ->%list_elem_of_singleton]%elem_of_cons; [by apply head_within | by apply tail_within].
  - split.
    + rewrite (count_cut_bytes (with_heap c h) _ _ _ _ (inv_bytes _ _ Hi)). f_equal.
      rewrite !dirty_bytes_mid. cbn [dirty_bytes]. unfold dirty_len, is_dirty. rewrite Ht. change (has_buf (head_of d x).2) with (has_buf d.2).
      simpl. unfold end_of. subst x y.
      destruct ((state d.2 =? CACHE_DIRTY) && has_buf d.2); lia.
    + rewrite count_cut_runs. cbn [with_heap writeback_queue_size]. rewrite (inv_runs _ _ Hi), !runs_mid. cbn [runs head].
      rewrite link_head, link_tail by done.
      rewrite (link_far (head_of d x) (tail_of d y)) by (try apply head_ok; try done; rewrite end_of_head; simpl; lia).
      change (is_dirty (head_of d x)) with (is_dirty d). change (is_dirty (tail_of d y)) with (is_dirty d).
      destruct (is_dirty d); simpl; lia.
    + rewrite Hh'. destruct Hr as (_ & _ & _ & _ & -> & _). done.
  - intros ino z Hz. apply (look_replace _ d [_; _]), look_split; [lia | lia |]. unfold in_op, inside in *. rewrite Hd. subst x y. lia.
  - done.
  - by rewrite Hh'.
Qed.

Lemma cut_whole (lm := is_left_merged pre d) (rm := is_right_merged d rest) :
  offset op <= d.1.2 -> end_of d <= new_end ->
  (negb (state d.2 =? CACHE_DIRTY) || lm || rm || (0 <? writeback_queue_size c)) = true /\
  exists h, unref_buf (heap (count_cut c d (len d.2) (if lm && rm then 1 else if lm || rm then 0 else -1))) d.2 = Ok h /\
    cut_to c (rev pre ++ d :: rest)
      (with_heap (count_cut c d (len d.2) (if lm && rm then 1 else if lm || rm then 0 else -1)) h) (rev pre ++ rest).
Proof.
  intros Ho He. pose proof (mid_ok _ _ _ Hs) as Hok. split.
  { fold (is_dirty d). destruct (is_dirty d) eqn:E; [| done]. rewrite (proj2 (Z.ltb_lt 0 _)); [by rewrite orb_true_r |].
    rewrite (inv_runs _ _ Hi). apply (runs_pos _ d); [apply elem_mid | done]. }
  set (q := if lm && rm then 1 else if lm || rm then 0 else -1). destruct (count_cut_rest c d (len d.2) q) as [Hr Hh]. rewrite Hh.
  destruct (unref_buf_ok (heap c) (rev pre) d rest (flushed_buffers c)) as (h & Eh & Hok' & Hb); [apply Hi |].
  exists h. split; [done |]. split.
  - apply (sorted_replace _ d [] rest Hs sorted_nil). intros e Hx. by apply not_elem_of_nil in Hx.
  - split.
    + change (writeback_bytes (with_heap ?x h)) with (writeback_bytes x). rewrite (count_cut_bytes _ _ _ _ _ (inv_bytes _ _ Hi)).
      f_equal. rewrite dirty_bytes_mid, dirty_bytes_app. unfold dirty_len. lia.
    + change (writeback_queue_size (with_heap ?x h)) with (writeback_queue_size x).
      rewrite count_cut_runs, (inv_runs _ _ Hi), runs_mid, runs_app, last_rev, (link_around pre rest d Hs). destruct (is_dirty d) eqn:E.
      * pose proof (left_merged pre d E) as El. pose proof (right_merged d rest E) as Er. fold lm in El. fold rm in Er. rewrite <- El, <- Er.
        subst q. destruct lm, rm; simpl; lia.
      * rewrite (link_clean_r _ d), (link_clean_l d) by done. simpl. lia.
    + cbn [with_heap heap flushed_buffers]. destruct Hr as (_ & _ & _ & _ & -> & _). done.
  - intros ino y Hy. apply (look_replace _ d []). cbn [look]. rewrite decide_False; [done |].
    unfold in_op, inside, covers in *. rewrite Hd. lia.
  - done.
  - done.
Qed.
End Step.

(** The pieces as the code computes them. *)
Lemma code_head d : buf_ok d -> d.1.2 < offset op -> (d.1, set_len d.2 (u64 (offset op - d.1.2))) = head_of d (offset op).
Proof. intros (? & _ & _) ?. unfold head_of. nowrap. done. Qed.
Lemma code_tail d : buf_ok d -> d.1.1 = inode op -> d.1.2 < new_end < end_of d -> (inode op, new_end, tail_buf d new_end) = tail_of d new_end.
Proof. intros Hd Hi Hx. unfold tail_of, tail_buf. rewrite (buf_end_ok d Hd), Hi. destruct Hd as (? & ? & ?). nowrap. done. Qed.

Lemma pre_lt pre d rest x : sorted (rev pre ++ d :: rest) -> d.1.2 < x -> forall e, e ∈ rev pre ++ [d] -> oid_lt e.1 (d.1.1, x) = true.
Proof.
  intros Hs Hx e [He | ->%list_elem_of_singleton]%elem_of_app; apply oid_lt_spec; simpl; [| lia].
  rewrite elem_of_rev in He. destruct (pre_before _ _ _ Hs e He) as [(? & ? & ?) Hb]. unfold before, end_of in *. lia.
Qed.
Lemma rest_gt pre d rest x : sorted (rev pre ++ d :: rest) -> x < end_of d -> forall e, e ∈ rest -> oid_lt (d.1.1, x) e.1 = true /\ oid_lt e.1 (d.1.1, x) = false.
Proof.
  intros Hs Hx e He. rewrite oid_lt_spec, oid_lt_false. simpl. destruct (rest_after _ _ _ Hs e He) as [_ Hb]. unfold before in Hb. lia.
Qed.

Lemma split_place pre d rest : sorted (rev pre ++ d :: rest) -> d.1.1 = inode op -> d.1.2 < offset op -> new_end < end_of d ->
  let t := tail_of d new_end in let h := head_of d (offset op) in
  map_lower_bound (inode op, new_end) [] (emplace (inode op, new_end) t.2 (rev_append pre (h :: rest))) = (h :: pre, t :: rest).
Proof.
  intros Hs Hi Ho He t h. pose proof (mid_ok _ _ _ Hs) as Hd.
  assert (Ht : t = (inode op, new_end, t.2)) by (subst t; unfold tail_of; simpl; by rewrite Hi).
  assert (Ha : forall e, e ∈ rev pre ++ [h] -> oid_lt e.1 (inode op, new_end) = true).
  { intros e Hh. rewrite <- Hi. apply elem_of_app in Hh as [Hh | ->%list_elem_of_singleton].
    - apply (pre_lt pre d rest); [done | lia | set_solver].
    - apply (pre_lt pre d rest new_end Hs ltac:(lia) d), elem_mid. }
  rewrite rev_append_rev. change (h :: rest) with ([h] ++ rest). rewrite app_assoc, (emplace_app _ _ _ rest Ha).
  - rewrite map_lower_bound_app; [| done |].
    + rewrite <- Ht. by rewrite app_nil_r, rev_app_distr, rev_involutive.
    + intros e [= <-]. apply oid_lt_false. simpl. lia.
  - intros e Hh. rewrite <- Hi. apply (rest_gt pre d rest); [done | lia | by apply head_Some_elem_of].
Qed.

Lemma filter_keys k l : (forall e : dbuf, e ∈ l -> e.1 <> k) -> erase k l = l.
Proof. intros H. apply filter_all_true. done. Qed.

Lemma tail_place pre d rest : sorted (rev pre ++ d :: rest) -> d.1.1 = inode op -> offset op <= d.1.2 -> d.1.2 < new_end < end_of d ->
  let t := tail_of d new_end in
  map_lower_bound (inode op, new_end) [] (erase d.1 (emplace (inode op, new_end) t.2 (rev_append pre (d :: rest)))) = (pre, t :: rest).
Proof.
  intros Hs Hi Ho He t. pose proof (mid_ok _ _ _ Hs) as Hd.
  assert (Ht : t = (inode op, new_end, t.2)) by (subst t; unfold tail_of; simpl; by rewrite Hi).
  assert (Ha : forall e, e ∈ rev pre ++ [d] -> oid_lt e.1 (inode op, new_end) = true).
  { intros e Hh. rewrite <- Hi. apply (pre_lt pre d rest); [done | lia | done]. }
  rewrite rev_append_rev. change (d :: rest) with ([d] ++ rest). rewrite app_assoc, (emplace_app _ _ _ rest Ha).
  - rewrite <- app_assoc. unfold erase. rewrite !filter_app. fold (erase d.1 (rev pre)). rewrite filter_keys.
    2: { intros e Hh Hk. rewrite elem_of_rev in Hh. destruct (pre_before _ _ _ Hs e Hh) as [(? & ? & ?) Hb].
         unfold before, end_of in *. rewrite Hk in *. lia. }
    rewrite (filter_all_false _ [d]) by (intros e ->%list_elem_of_singleton; auto). rewrite filter_cons_True by (simpl; intros E; rewrite <- E in *; simpl in *; lia).
    fold (erase d.1 rest). rewrite filter_keys.
    2: { intros e Hh Hk. destruct (rest_after _ _ _ Hs e Hh) as [_ Hb]. unfold before, end_of in *. rewrite Hk in *. destruct Hd as (_ & ? & _). lia. }
    cbn [app]. rewrite map_lower_bound_app; [| intros e Hh; apply Ha, elem_of_app; by left |].
    + rewrite <- Ht. by rewrite app_nil_r, rev_involutive.
    + intros e [= <-]. apply oid_lt_false. simpl. lia.
  - intros e Hh. rewrite <- Hi. apply (rest_gt pre d rest); [done | lia | by apply head_Some_elem_of].
Qed.

Lemma cut_loop_ok post : forall c pre,
  sorted (rev pre ++ post) -> inv c (rev pre ++ post) ->
  (forall d, d ∈ pre -> d.1.1 = inode op -> end_of d <= offset op) ->
  (forall d, d ∈ post -> inode op <= d.1.1 /\ (d.1.1 = inode op -> offset op < end_of d)) ->
  exists c' pre' post', cut_loop op c pre post = Ok (c', (pre', post')) /\
    cut_to c (rev pre ++ post) c' (rev pre' ++ post') /\ (forall d, d ∈ rev pre' ++ post' -> clear_of_op d).
Proof.
  induction post as [| d rest IH]; intros c pre Hs Hi Hpre Hpost; cbn [cut_loop].
  { exists c, pre, []. split; [done |]. split; [by apply cut_refl |].
    intros d Hd. rewrite app_nil_r, elem_of_rev in Hd. intros E. left. by apply Hpre. }
  pose proof (mid_ok _ _ _ Hs) as Hd. rewrite (buf_end_ok d Hd), (u64_small new_end) by lia.
  destruct (Hpost d (list_elem_of_here _ _)) as [Hino Hafter].
  destruct ((d.1.1 =? inode op) && (d.1.2 <? new_end)) eqn:E.
  2: { exists c, pre, (d :: rest). split; [done |]. split; [by apply cut_refl |]. intros e [He | He]%elem_of_app Ee.
       - left. apply Hpre; [by apply elem_of_rev | done].
       - right. rewrite andb_false_iff, Z.eqb_neq, Z.ltb_ge in E. apply elem_of_cons in He as [-> | He]; [lia |].
         destruct (rest_after _ _ _ Hs e He) as [_ Hb]. unfold before in Hb. destruct Hd as (_ & ? & _). unfold end_of in *. lia. }
  rewrite andb_true_iff, Z.eqb_eq, Z.ltb_lt in E. destruct E as [Ei Est]. specialize (Hafter Ei).
  rewrite (proj2 (Z.ltb_lt _ _) Hafter). destruct (Z.ltb_spec d.1.2 (offset op)) as [Hlt | Hge].
  - rewrite (code_head d Hd Hlt). destruct (Z.ltb_spec new_end (end_of d)) as [Hin | Hout].
    + replace (tail_buf d new_end) with (tail_of d new_end).2 by (rewrite <- (code_tail d); [done | done | done | lia]).
      rewrite (split_place pre d rest Hs Ei Hlt Hin). destruct (cut_split c pre rest d Hs Hi Ei Hlt Hin) as (h & -> & Hc).
      eexists _, _, _. split; [done |]. simpl. rewrite <- app_assoc. split; [done |].
      intros e He Ee. cbn [app] in He. rewrite elem_of_app, !elem_of_cons, elem_of_rev in He. destruct He as [He | [-> | [-> | He]]].
      * left. by apply Hpre.
      * left. by rewrite end_of_head.
      * right. simpl. lia.
      * right. destruct (rest_after _ _ _ Hs e He) as [_ Hb]. unfold before in Hb. lia.
    + pose proof (cut_head c pre rest d Hs Hi Ei ltac:(lia) Hout) as Hc.
      destruct (IH (count_cut c d (end_of d - offset op) (b2z (is_right_merged d rest))) (head_of d (offset op) :: pre)) as (c' & pre' & post' & E & Hc' & Hcl).
      * cbn [rev]. rewrite <- app_assoc. apply (cut_sorted _ _ _ _ Hc).
      * cbn [rev]. rewrite <- app_assoc. apply (cut_inv _ _ _ _ Hc).
      * intros e [-> | He]%elem_of_cons; [by rewrite end_of_head | by apply Hpre].
      * intros e He. apply Hpost. by apply list_elem_of_further.
      * exists c', pre', post'. split; [done |]. split; [| done]. eapply cut_trans; [apply Hc |]. simpl in Hc'. by rewrite <- app_assoc in Hc'.
  - destruct (Z.ltb_spec new_end (end_of d)) as [Hin | Hout].
    + replace (tail_buf d new_end) with (tail_of d new_end).2 by (rewrite <- (code_tail d); [done | done | done | lia]).
      rewrite (tail_place pre d rest Hs Ei Hge (conj Est Hin)). eexists _, _, _. split; [done |].
      split; [by apply cut_tail |]. intros e He Ee. rewrite elem_of_app, elem_of_cons, elem_of_rev in He. destruct He as [He | [-> | He]].
      * left. by apply Hpre.
      * right. simpl. lia.
      * right. destruct (rest_after _ _ _ Hs e He) as [_ Hb]. unfold before in Hb. lia.
    + destruct (cut_whole c pre rest d Hs Hi Ei Hge Hout) as (-> & h & -> & Hc). cbn [rbind].
      destruct (IH _ pre (cut_sorted _ _ _ _ Hc) (cut_inv _ _ _ _ Hc) Hpre) as (c' & pre' & post' & E & Hc' & Hcl).
      * intros e He. apply Hpost. by apply list_elem_of_further.
      * exists c', pre', post'. split; [done |]. split; [| done]. by eapply cut_trans.
Qed.
End Cut.
