(* ===== verification/WritebackOk.v ===== *)
(** [copy_write] of [Writeback.v] as an update of what is cached: the range of the
    operation gets its data, everything else stays, buffers do not overlap, no
    block of memory is lost or freed too early, and the counters are right. *)

From S2P Require Import Prelude.
From S2P Require Import Bitmap.
From S2P Require Import Writeback.
From S2P Require Import WritebackList.
From S2P Require Import WritebackCut.

(** * What is cached *)

Definition wb_ok (c : writeback_cache_t) : Prop := sorted (dirty_buffers c) /\ inv c (dirty_buffers c).

Definition byte_at (h : gmap nat block_t) (p : option (nat * Z)) : option Z :=
  match p with None => None | Some (i, o) => m ← h !! i; bytes m !! Z.to_nat o end.
(** State, number of the flush and byte (none for a deletion) at an offset. *)
Definition cached (c : writeback_cache_t) (ino x : Z) : option (Z * Z * option Z) :=
  match look (dirty_buffers c) ino x with None => None | Some (s, f, p) => Some (s, f, byte_at (heap c) p) end.

Lemma look_in_heap h l fl ino x s f i o : sorted l -> heap_ok h l fl -> look l ino x = Some (s, f, Some (i, o)) ->
  exists m, h !! i = Some m /\ 0 <= o < zlen (bytes m) /\ 0 < refs l i.
Proof.
  intros Hs [_ Hin] (d & Hd & (_ & Hx) & E)%look_inv. specialize (Hin d Hd). unfold in_heap, cell_of in *.
  destruct (buf d.2) as [[j p] |] eqn:Eb; [| done]. injection E as -> -> -> ->. destruct Hin as (m & Em & ? & ?).
  exists m. unfold end_of in Hx. split; [done |]. split; [lia |]. by apply (refs_in l d j p).
Qed.

(** Blocks that are still referenced keep their bytes. *)
Lemma byte_keep h h' l' fl' ino x s f p : same_bytes h h' -> sorted l' -> heap_ok h' l' fl' ->
  look l' ino x = Some (s, f, p) -> byte_at h' p = byte_at h p.
Proof.
  intros Hb Hs' Hh' El'. destruct p as [[i o] |]; [| done]. simpl.
  destruct (look_in_heap h' l' fl' ino x s f i o Hs' Hh' El') as (m' & Em' & _).
  destruct (Hb i m' Em') as (m & E & Eb). rewrite Em', E. simpl. by rewrite Eb.
Qed.

(** * Inserting a buffer *)

Lemma split_clear l ino off n : sorted l -> 0 < n -> (forall d, d ∈ l -> d.1.1 = ino -> end_of d <= off \/ off + n <= d.1.2) ->
  exists a b, l = a ++ b /\ (forall d, d ∈ a -> buf_ok d /\ ends_before ino off d) /\ (forall d, d ∈ b -> starts_from ino (off + n) d).
Proof.
  intros Hs Hn. induction l as [| d l IH]; intros Hcl.
  { exists [], []. split; [done |]. by split; intros d Hd%not_elem_of_nil. }
  apply sorted_cons in Hs as (Hd & Hl & Hb). destruct (Z.lt_trichotomy d.1.1 ino) as [E | [E | E]].
  - destruct IH as (a & b & -> & Ha & Hb'); [done | intros; apply Hcl; [by apply list_elem_of_further | done] |].
    exists (d :: a), b. split; [done |]. split; [| done]. intros e [-> | He]%elem_of_cons; [| by apply Ha]. split; [done | by left].
  - destruct (Hcl d (list_elem_of_here _ _) E) as [He | He].
    + destruct IH as (a & b & -> & Ha & Hb'); [done | intros; apply Hcl; [by apply list_elem_of_further | done] |].
      exists (d :: a), b. split; [done |]. split; [| done]. intros e [-> | Hx]%elem_of_cons; [| by apply Ha]. split; [done | by right].
    + exists [], (d :: l). split; [done |]. split; [by intros e He'%not_elem_of_nil |].
      intros e [-> | Hx]%elem_of_cons; [by right |]. specialize (Hb e Hx). unfold before, starts_from, end_of, buf_ok in *. lia.
  - exists [], (d :: l). split; [done |]. split; [by intros e He'%not_elem_of_nil |].
    intros e [-> | Hx]%elem_of_cons; [by left |]. specialize (Hb e Hx). unfold before, starts_from in *. lia.
Qed.

Section Insert.
Context (a b : list dbuf) (n : dbuf).
Context (Hs : sorted (a ++ b)) (Hn : buf_ok n).
Context (Ha : forall d, d ∈ a -> buf_ok d /\ ends_before n.1.1 n.1.2 d) (Hb : forall d, d ∈ b -> starts_from n.1.1 (end_of n) d).

Lemma insert_sorted : sorted (a ++ n :: b).
Proof.
  apply sorted_app in Hs as (Sa & Sb & Sab). apply sorted_app. split; [done |]. split.
  - apply sorted_cons. split; [done |]. split; [done |]. intros y Hy. specialize (Hb y Hy). unfold starts_from, before in *. lia.
  - intros x y Hx [-> | Hy]%elem_of_cons; [| by apply Sab]. destruct (Ha x Hx) as [_ Hx']. unfold ends_before, before in *. lia.
Qed.
Lemma insert_look ino x : look (a ++ n :: b) ino x = if decide (covers ino x n) then Some (cell_of x n) else look (a ++ b) ino x.
Proof.
  case_decide as H.
  - apply look_some; [apply insert_sorted | apply elem_mid | done].
  - rewrite !look_app. simpl. by rewrite decide_False.
Qed.
Lemma insert_gap : link (last a) (head b) = 0.
Proof.
  destruct (last a) as [p |] eqn:Ep; [| done]. destruct (head b) as [q |] eqn:Eq; [| done].
  apply last_Some_elem_of in Ep. apply head_Some_elem_of in Eq. destruct (Ha p Ep) as [Hp Hp']. specialize (Hb q Eq).
  apply link_far; [done |]. destruct Hn as (_ & ? & _). unfold ends_before, starts_from, end_of in *. lia.
Qed.
Lemma insert_runs : runs (a ++ n :: b) =
  runs (a ++ b) + if is_dirty n then 1 - b2z (is_left_merged (rev a) n) - b2z (is_right_merged n b) else 0.
Proof.
  rewrite !runs_app, insert_gap. cbn [runs head]. destruct (is_dirty n) eqn:E.
  - rewrite (left_merged (rev a) n E), (right_merged n b E). rewrite <- (last_rev (rev a)), rev_involutive. simpl. lia.
  - rewrite (link_clean_r _ n), (link_clean_l n) by done. simpl. lia.
Qed.
End Insert.

(** * Copying the data *)

Lemma copy_parts_ok parts : forall done rest, zlen done + zlen (concat parts) < 18446744073709551616 -> zlen rest = zlen (concat parts) ->
  copy_parts (done ++ rest) (zlen done) parts = Ok (done ++ concat parts).
Proof.
  induction parts as [| v parts IH]; intros done rest Hl Hr; simpl in *.
  - assert (rest = []) as -> by (apply nil_length_inv; unfold zlen in *; simpl in *; lia). done.
  - rewrite zlen_app in *. pose proof (zlen_nonneg done). pose proof (zlen_nonneg v). pose proof (zlen_nonneg (concat parts)).
    rewrite poke_poked by (rewrite ?zlen_app; lia). cbn [rbind]. rewrite u64_small by lia.
    unfold poked. rewrite zlen_to_nat, take_app_length, drop_app_add.
    rewrite (app_assoc done v). replace (zlen done + zlen v) with (zlen (done ++ v)) by apply zlen_app.
    rewrite IH; [by rewrite <- app_assoc | rewrite zlen_app; lia |]. unfold zlen in *. rewrite length_drop. lia.
Qed.

(** * Writing *)

Section Write.
Context (malloc : gset nat -> nat) (Hmalloc : forall d, malloc d ∉ d).
Context (op : cluster_op_t) (new_state new_flush_id : Z).
Notation new_end := (offset op + op_len op).
Context (Hoff : 0 <= offset op) (Hlen : 0 < op_len op) (Hend : new_end < 18446744073709551616).

Notation is_del := (opcode op =? OSD_OP_DELETE).
Definition data_ok : Prop := opcode op = OSD_OP_DELETE \/ zlen (concat (iov op)) = op_len op.

(** After the insertion of the new buffer into what [cut_loop] leaves. *)
Section New.
Context (c : writeback_cache_t) (l : list dbuf) (Hs : sorted l) (Hi : inv c l) (Hcl : forall d, d ∈ l -> clear_of_op op d).
Notation i := (malloc (dom (heap c))).
Definition new_buf : dbuf := (inode op, offset op, mk_buffer (if is_del then None else Some (i, 0)) (op_len op) new_state new_flush_id).
Definition new_heap (b : list Z) : gmap nat block_t := if is_del then heap c else <[i := mk_block 1 b]> (heap c).

Lemma new_buf_ok : buf_ok new_buf.
Proof. unfold buf_ok, end_of. simpl. lia. Qed.
Lemma end_of_new : end_of new_buf = new_end.
Proof. done. Qed.

Lemma fresh_none : heap c !! i = None.
Proof. apply not_elem_of_dom, Hmalloc. Qed.
Lemma fresh_refs : refs l i = 0 /\ frefs (flushed_buffers c) i = 0.
Proof.
  pose proof (heap_counted _ _ _ (inv_heap _ _ Hi) i) as H. rewrite fresh_none in H.
  pose proof (refs_nonneg l i). pose proof (frefs_nonneg (flushed_buffers c) i). lia.
Qed.

Lemma holds_new j : holds new_buf j = if is_del then 0 else one i j.
Proof. unfold holds, new_buf. simpl. by destruct is_del. Qed.

Lemma new_heap_ok a b d : a ++ b = l -> (is_del = false -> zlen d = op_len op) -> heap_ok (new_heap d) (a ++ new_buf :: b) (flushed_buffers c).
Proof.
  intros El Hd. pose proof (inv_heap _ _ Hi) as [Hc Hin]. pose proof fresh_refs as [Fr Ff]. unfold new_heap. rewrite <- El in Hc, Hin, Fr. clear Hs Hcl. split.
  - intros j. specialize (Hc j). cbv beta in Hc. rewrite !refs_app in *. cbn [refs]. rewrite holds_new. destruct is_del; [by rewrite Z.add_0_l |].
    destruct (decide (i = j)) as [<- | Hj]; [rewrite lookup_insert_eq, one_eq; simpl; lia |].
    by rewrite lookup_insert_ne, one_ne, Z.add_0_l by done.
  - intros e He. rewrite elem_of_app, elem_of_cons in He. assert (e = new_buf \/ e ∈ a ++ b) as [-> | He'] by (rewrite elem_of_app; tauto).
    + unfold in_heap. simpl. destruct is_del; [done |]. exists (mk_block 1 d). rewrite lookup_insert_eq. simpl. split; [done |]. rewrite (Hd eq_refl). lia.
    + specialize (Hin e He'). unfold in_heap in *. destruct (buf e.2) as [[j o] |]; [| done]. destruct is_del; [done |].
      destruct Hin as (m & Em & Hm). exists m. split; [| done]. rewrite lookup_insert_ne; [done |]. intros <-. by rewrite fresh_none in Em.
Qed.
Lemma new_inv a b d q : a ++ b = l -> (forall x, x ∈ a -> buf_ok x /\ ends_before (inode op) (offset op) x) ->
  (forall x, x ∈ b -> starts_from (inode op) new_end x) -> (is_del = false -> zlen d = op_len op) ->
  let lm := is_left_merged (rev a) new_buf in let rm := is_right_merged new_buf b in
  let dirty := is_dirty new_buf in
  q = (if dirty then if lm && rm then -1 else if lm || rm then 0 else 1 else 0) ->
  inv (with_heap (with_counts (with_bufs c (a ++ new_buf :: b))
         (u64 (writeback_bytes c + if dirty && negb is_del then op_len op else 0)) (writeback_queue_size c + q)) (new_heap d))
    (a ++ new_buf :: b).
Proof.
  intros El Ha Hb Hd lm rm dirty Hq. split; simpl.
  - rewrite (inv_bytes _ _ Hi), u64_u64_add, <- El, dirty_bytes_mid, dirty_bytes_app. f_equal. unfold dirty_len, has_buf. simpl.
    fold dirty. by destruct is_del, dirty.
  - rewrite (inv_runs _ _ Hi), <- El, (insert_runs a b new_buf new_buf_ok Ha Hb).
    fold lm rm dirty. rewrite Hq. destruct dirty, lm, rm; simpl; lia.
  - by apply new_heap_ok.
Qed.
End New.

(** What [copy_write] leaves of the fields that are not counters. *)
Definition queue_after (c : writeback_cache_t) (a b : list dbuf) (n : dbuf) : list (Z * Z) :=
  if is_dirty n && negb (is_left_merged (rev a) n) && negb (is_right_merged n b) then writeback_queue c ++ [(inode op, offset op)] else writeback_queue c.

(** The counters and the queue after the insertion between [a] and [b]. *)
Definition merged_count (lm rm : bool) : Z := if lm && rm then -1 else if lm || rm then 0 else 1.
Definition inserted (c : writeback_cache_t) (a b : list dbuf) (d : list Z) : writeback_cache_t :=
  let n := new_buf c in
  with_queue (with_heap (with_counts (with_bufs c (a ++ n :: b))
      (u64 (writeback_bytes c + if is_dirty n && negb is_del then op_len op else 0))
      (writeback_queue_size c + if is_dirty n then merged_count (is_left_merged (rev a) n) (is_right_merged n b) else 0))
      (new_heap c d)) (queue_after c a b n).

Lemma both_merged c a b : inv c (a ++ b) -> is_left_merged (rev a) (new_buf c) = true -> 0 < writeback_queue_size c.
Proof.
  intros Hi H. rewrite (inv_runs _ _ Hi). unfold is_left_merged in H. destruct (rev a) as [| p r] eqn:E; [done |].
  apply (runs_pos _ p); [| by apply andb_true_iff in H as [_ H]].
  apply elem_of_app. left. rewrite <- elem_of_rev, E. apply list_elem_of_here.
Qed.

Lemma insert_counts c a b h (n := new_buf c) (c0 := with_heap (with_bufs c (a ++ n :: b)) h)
    (lm := is_left_merged (rev a) n) (rm := is_right_merged n b) : inv c (a ++ b) ->
  (if new_state =? CACHE_DIRTY then
     assert! negb (lm && rm) || (0 <? writeback_queue_size c0) in
     let c1 := with_counts c0 (u64 (writeback_bytes c0 + if is_del then 0 else op_len op)) (writeback_queue_size c0 + merged_count lm rm) in
     Ok (if lm || rm then c1 else with_queue c1 (writeback_queue c1 ++ [(inode op, offset op)]))
   else Ok c0) =
  Ok (with_queue (with_counts c0 (u64 (writeback_bytes c + if is_dirty n && negb is_del then op_len op else 0))
        (writeback_queue_size c + if is_dirty n then merged_count lm rm else 0)) (queue_after c a b n)).
Proof.
  intros Hi. unfold queue_after. fold lm rm. change (is_dirty n) with (new_state =? CACHE_DIRTY). destruct (new_state =? CACHE_DIRTY).
  - assert (negb (lm && rm) || (0 <? writeback_queue_size c0) = true) as ->.
    { destruct (lm && rm) eqn:E; [| done]. apply andb_true_iff in E as [E _]. simpl. apply Z.ltb_lt. by apply (both_merged c a b). }
    cbn [andb]. destruct is_del, lm, rm; done.
  - simpl. rewrite !Z.add_0_r, (inv_bytes _ _ Hi), u64_u64, <- (inv_bytes _ _ Hi). by destruct c.
Qed.

Lemma insert_write_ok c pre post (l := rev pre ++ post) : data_ok -> sorted l -> inv c l -> (forall d, d ∈ l -> clear_of_op op d) ->
  exists a b, l = a ++ b /\ (forall d, d ∈ a -> buf_ok d /\ ends_before (inode op) (offset op) d) /\
    (forall d, d ∈ b -> starts_from (inode op) new_end d) /\
    insert_write malloc op new_state new_flush_id c pre post = Ok (inserted c a b (concat (iov op))).
Proof.
  intros Hdata Hs Hi Hcl. destruct (split_clear l (inode op) (offset op) (op_len op) Hs Hlen Hcl) as (a & b & El & Ha & Hb).
  exists a, b. split; [done |]. split; [done |]. split; [done |].
  destruct (emplace_at (inode op) (offset op) (new_buf c).2 a b) as [E1 E2].
  { done. } { intros d Hd. specialize (Hb d Hd). unfold starts_from in Hb. lia. }
  unfold insert_write. rewrite rev_append_rev. fold l. rewrite El in *.
  change (mk_buffer _ (op_len op) new_state new_flush_id) with (new_buf c).2. rewrite E1, E2, rev_append_rev, rev_involutive.
  change (inode op, offset op, (new_buf c).2) with (new_buf c). cbv zeta.
  pose proof (insert_counts c a b (new_heap c (replicate (Z.to_nat (op_len op)) 0)) Hi) as Hc.
  cbv zeta in Hc. unfold new_heap, merged_count in Hc. rewrite Hc. cbn [rbind]. unfold inserted, new_heap, merged_count.
  destruct (Z.eqb_spec (opcode op) OSD_OP_DELETE) as [E | E]; [done |]. destruct Hdata as [? | Hdata]; [done |].
  cbn [with_queue with_counts with_heap heap]. rewrite lookup_insert_eq. cbn [bytes refcnt].
  pose proof (copy_parts_ok (iov op) [] (replicate (Z.to_nat (op_len op)) 0)) as Hp. rewrite Hdata, zlen_replicate in Hp.
  simpl in Hp. change (zlen []) with 0 in Hp. rewrite Hp by lia. cbn [rbind]. by rewrite insert_insert_eq.
Qed.

Lemma inserted_ok c l a b d : sorted l -> inv c l -> l = a ++ b ->
  (forall x, x ∈ a -> buf_ok x /\ ends_before (inode op) (offset op) x) -> (forall x, x ∈ b -> starts_from (inode op) new_end x) ->
  (is_del = false -> zlen d = op_len op) -> sorted (dirty_buffers (inserted c a b d)) /\ inv (inserted c a b d) (dirty_buffers (inserted c a b d)) /\
  forall ino x, look (dirty_buffers (inserted c a b d)) ino x = if decide (in_op op ino x) then Some (cell_of x (new_buf c)) else look l ino x.
Proof.
  intros Hs Hi El Ha Hb Hd. pose proof (new_buf_ok c) as Hn. rewrite El in Hs. simpl. split; [| split].
  - by apply insert_sorted.
  - destruct (new_inv c l Hi a b d _ (eq_sym El) Ha Hb Hd eq_refl) as [I1 I2 I3]. by split.
  - intros ino x. rewrite (insert_look a b (new_buf c) Hs Hn Ha Hb), El.
    repeat case_decide; try done; exfalso; unfold in_op, inside, covers, end_of in *; simpl in *; naive_solver.
Qed.
End Write.

(** * The whole of [copy_write] *)

Lemma new_cache_ok : wb_ok new_cache.
Proof.
  split; [apply sorted_nil |]. split; [done | done |]. split; [| intros d Hd; by apply not_elem_of_nil in Hd].
  intros i. change (heap new_cache) with (∅ : gmap nat block_t). by rewrite lookup_empty.
Qed.

Record op_ok (op : cluster_op_t) : Prop := {
  op_offset : 0 <= offset op;
  op_positive : 0 < op_len op;
  op_end : offset op + op_len op < 18446744073709551616;
  op_data : data_ok op }.

Lemma copy_write_spec malloc op st fid c : (forall d, malloc d ∉ d) -> op_ok op -> wb_ok c ->
  exists c1 a b, copy_write malloc op st fid c = Ok (inserted malloc op st fid c1 a b (concat (iov op))) /\
    cut_to op c (dirty_buffers c) c1 (a ++ b) /\
    (forall x, x ∈ a -> buf_ok x /\ ends_before (inode op) (offset op) x) /\
    (forall x, x ∈ b -> starts_from (inode op) (offset op + op_len op) x).
Proof.
  intros Hm [Hoff Hlen Hend Hdata] [Hs Hi]. unfold copy_write. rewrite (proj2 (Z.eqb_neq (op_len op) 0)) by lia.
  destruct (find_dirty c (inode op) (offset op)) as [pre post] eqn:E.
  apply find_dirty_spec in E as (El & Hpre & Hpost & Hhead); [| done]. rewrite <- El in *.
  destruct (cut_loop_ok op Hoff Hlen Hend post c pre Hs Hi Hpre) as (c1 & pre1 & post1 & -> & Hc & Hcl).
  { intros d Hd. split; [| by apply Hpost]. destruct post as [| e post]; [by apply not_elem_of_nil in Hd |].
    specialize (Hhead e eq_refl). apply elem_of_cons in Hd as [-> | Hd]; [lia |].
    destruct (rest_after _ _ _ Hs d Hd) as [_ Hb]. unfold before in Hb. lia. }
  cbn [rbind]. destruct (insert_write_ok malloc op st fid Hoff Hlen Hend c1 pre1 post1) as (a & b & Eab & Ha & Hb & ->); try done.
  { apply (cut_sorted _ _ _ _ _ Hc). } { apply (cut_inv _ _ _ _ _ Hc). }
  exists c1, a, b. rewrite <- Eab. done.
Qed.

(** The new cache, and what is cached in it. *)
Lemma copy_write_effect malloc op st fid c : (forall d, malloc d ∉ d) -> op_ok op -> wb_ok c ->
  exists c1 a b, let c' := inserted malloc op st fid c1 a b (concat (iov op)) in
    copy_write malloc op st fid c = Ok c' /\ cut_to op c (dirty_buffers c) c1 (a ++ b) /\ wb_ok c' /\
    forall ino x, cached c' ino x =
      if decide (in_op op ino x)
      then Some (st, fid, if opcode op =? OSD_OP_DELETE then None else concat (iov op) !! Z.to_nat (x - offset op))
      else cached c ino x.
Proof.
  intros Hm Hop Hok. pose proof Hop as [Hoff Hlen Hend Hdata].
  destruct (copy_write_spec malloc op st fid c Hm Hop Hok) as (c1 & a & b & E & Hcut & Ha & Hb).
  exists c1, a, b. cbv zeta. split; [done |]. split; [done |]. destruct Hcut as [S1 I1 L1 _ B1].
  destruct (inserted_ok malloc Hm op st fid Hoff Hlen Hend c1 (a ++ b) a b (concat (iov op)) S1 I1 eq_refl Ha Hb) as (Hs & Hi & Hl).
  { intros Hd. destruct Hdata as [He | Hd']; [by apply Z.eqb_neq in Hd | done]. }
  split; [by split |]. intros ino x. unfold cached. rewrite Hl. case_decide as H.
  - unfold cell_of. simpl. unfold new_heap. destruct (opcode op =? OSD_OP_DELETE) eqn:Eo; [done |].
    simpl. rewrite lookup_insert_eq. by rewrite Z.add_0_l.
  - rewrite (L1 ino x H). destruct (look (dirty_buffers c) ino x) as [[[s f] p] |] eqn:El; [| done].
    do 2 f_equal. assert (look (a ++ b) ino x = Some (s, f, p)) as El' by by rewrite L1.
    rewrite <- (byte_keep _ _ _ _ ino x s f p B1 S1 (inv_heap _ _ I1) El').
    destruct p as [[i o] |]; [| done]. simpl. unfold new_heap. destruct (opcode op =? OSD_OP_DELETE); [done |].
    destruct (look_in_heap _ _ _ _ _ _ _ _ _ S1 (inv_heap _ _ I1) El') as (m & Em & _).
    rewrite lookup_insert_ne; [done |]. intros <-. by rewrite (fresh_none malloc Hm c1) in Em.
Qed.

(** A write or a deletion is an update of what is cached: its range gets the data of the operation in the given
    state, everything else stays as it was.  Afterwards buffers still do not overlap, every block of memory has as
    many references as its count says and is freed when there are none, and the numbers of dirty bytes and of runs of
    dirty buffers are right. *)
Theorem copy_write_ok malloc op st fid c :
  (forall d, malloc d ∉ d) -> op_ok op -> wb_ok c ->
  exists c', copy_write malloc op st fid c = Ok c' /\ wb_ok c' /\
    forall ino x, cached c' ino x =
      if decide (in_op op ino x)
      then Some (st, fid, if opcode op =? OSD_OP_DELETE then None else concat (iov op) !! Z.to_nat (x - offset op))
      else cached c ino x.
Proof. intros Hm Hop Hok. destruct (copy_write_effect malloc op st fid c Hm Hop Hok) as (c1 & a & b & E & _ & H1 & H2). eexists. split; [done |]. by split. Qed.
Lemma copy_write_ok_witness :
  exists c', copy_write fresh (mk_op OSD_OP_WRITE 1 1 0 4 [[1; 2]; [3; 4]] []) CACHE_DIRTY 0 new_cache = Ok c' /\ wb_ok c' /\
    forall ino x, cached c' ino x =
      if decide (in_op (mk_op OSD_OP_WRITE 1 1 0 4 [[1; 2]; [3; 4]] []) ino x)
      then Some (CACHE_DIRTY, 0, [1; 2; 3; 4] !! Z.to_nat (x - 0)) else cached new_cache ino x.
Proof.
  apply (copy_write_ok fresh (mk_op OSD_OP_WRITE 1 1 0 4 [[1; 2]; [3; 4]] []) CACHE_DIRTY 0 new_cache).
  - intros d. apply is_fresh.
  - split; [reflexivity | reflexivity | reflexivity | right; reflexivity].
  - apply new_cache_ok.
Defined.
