(* ===== verification/WritebackFlush.v ===== *)
(** Runs of dirty buffers: [start_writebacks] ([Writeback.v]) finds the run at an
    entry of the queue, takes it out of the counters and flushes it as one
    operation. *)

From S2P Require Import Prelude.
From S2P Require Import Bitmap.
From S2P Require Import Writeback.
From S2P Require Import WritebackList.
From S2P Require Import WritebackCut.
From S2P Require Import WritebackOk.

(** * Chains *)

(** Dirty buffers, each joined to the next one. *)
Fixpoint chain (l : list dbuf) : Prop :=
  match l with
  | [] => True
  | d :: t => is_dirty d = true /\ (match t with [] => True | e :: _ => joined d e = true end) /\ chain t
  end.

Lemma chain_cons d e t : chain (e :: t) -> joined d e = true -> chain (d :: e :: t).
Proof. intros Hc Hj. split; [by apply joined_dirty in Hj as [? _] | done]. Qed.
Lemma chain_dirty l d : chain l -> d ∈ l -> is_dirty d = true.
Proof.
  induction l as [| e l IH]; intros Hc Hd; [by apply not_elem_of_nil in Hd |]. destruct Hc as (He & _ & Hl).
  apply elem_of_cons in Hd as [-> | Hd]; auto.
Qed.
Lemma chain_runs d t : chain (d :: t) -> runs (d :: t) = 1.
Proof.
  revert d. induction t as [| e t IH]; intros d (Hd & Hj & Ht); cbn [runs head link]; rewrite Hd; [done |].
  rewrite Hj. specialize (IH e Ht). cbn [runs head link] in IH. simpl in *. lia.
Qed.
Lemma joined_spec p d : buf_ok p -> joined p d = true ->
  p.1.1 = d.1.1 /\ has_buf p.2 = has_buf d.2 /\ end_of p = d.1.2.
Proof. intros Hp H. unfold joined in H. rewrite (buf_end_ok p Hp), !andb_true_iff, !Z.eqb_eq, eqb_true_iff in H. tauto. Qed.

Fixpoint total (l : list dbuf) : Z := match l with [] => 0 | d :: l => len d.2 + total l end.
Lemma total_app a b : total (a ++ b) = total a + total b.
Proof. induction a as [| d a IH]; simpl; [done |]. lia. Qed.

(** Buffers of one inode without gaps. *)
Fixpoint contig (l : list dbuf) : Prop :=
  match l with
  | [] => True
  | d :: t => (match t with [] => True | e :: _ => d.1.1 = e.1.1 /\ end_of d = e.1.2 end) /\ contig t
  end.
Lemma chain_contig l : Forall buf_ok l -> chain l -> contig l.
Proof.
  induction l as [| d l IH]; intros Hf Hc; [done |]. apply Forall_cons in Hf as [Hd Hf]. destruct Hc as (_ & Hj & Hc). split; [| by apply IH].
  destruct l as [| e l]; [done |]. by destruct (joined_spec d e Hd Hj) as (? & _ & ?).
Qed.
Lemma contig_app a p b : contig (a ++ [p]) -> contig (p :: b) -> contig (a ++ p :: b).
Proof.
  induction a as [| d a IH]; intros Ha Hb; [done |]. destruct Ha as (Hd & Ha). simpl. split; [| by apply IH]. by destruct a.
Qed.

Lemma contig_facts d t : Forall buf_ok (d :: t) -> contig (d :: t) ->
  (forall e, e ∈ d :: t -> e.1.1 = d.1.1 /\ d.1.2 <= e.1.2 /\ end_of e <= d.1.2 + total (d :: t)) /\
  (forall e, last (d :: t) = Some e -> end_of e = d.1.2 + total (d :: t)).
Proof.
  revert d. induction t as [| e t IH]; intros d Hf (Hj & Ht); apply Forall_cons in Hf as [Hok Hf].
  - split; [intros e ->%list_elem_of_singleton; split; [done |] | intros e [= <-]]; unfold end_of; simpl; lia.
  - destruct (IH e Hf Ht) as [IH1 IH2]. destruct Hj as (E1 & E3). unfold end_of in E3. split.
    + intros f [-> | Hf']%elem_of_cons.
      * destruct (IH1 e (list_elem_of_here _ _)) as (_ & _ & H). unfold end_of in *. simpl in *. split; [done |].
        apply Forall_cons in Hf as [(_ & ? & _) _]. lia.
      * destruct (IH1 f Hf') as (-> & ? & ?). cbn [total] in *. destruct Hok as (_ & ? & _). split; [done |]. lia.
    + intros f Hl. change (last (e :: t) = Some f) in Hl. rewrite (IH2 f Hl). cbn [total]. lia.
Qed.
Lemma contig_covers d t ino x : Forall buf_ok (d :: t) -> contig (d :: t) ->
  (exists e, e ∈ d :: t /\ covers ino x e) <-> inside d.1.1 d.1.2 (d.1.2 + total (d :: t)) ino x.
Proof.
  intros Hf Hc. split.
  { intros (e & He & Ei & Hx). destruct (proj1 (contig_facts d t Hf Hc) e He) as (E1 & ? & ?). unfold inside. rewrite <- E1. lia. }
  revert d Hf Hc. induction t as [| e t IH]; intros d Hf (Hj & Ht) [-> Hx]; apply Forall_cons in Hf as [Hok Hf].
  - exists d. split; [by apply list_elem_of_singleton |]. unfold covers, end_of. simpl in *. lia.
  - destruct Hj as (E1 & E3). destruct (decide (x < e.1.2)).
    + exists d. split; [apply list_elem_of_here |]. split; [done |]. rewrite E3. lia.
    + destruct (IH e Hf Ht) as (f & Hf' & Hc); [| exists f; split; [by apply list_elem_of_further | done]].
      unfold inside, end_of in *. cbn [total] in *. lia.
Qed.
Lemma chain_bytes d t : Forall buf_ok (d :: t) -> chain (d :: t) -> has_buf d.2 = true -> dirty_bytes (d :: t) = total (d :: t).
Proof.
  revert d. induction t as [| e t IH]; intros d Hf (Hd & Hj & Ht) Hb; cbn [dirty_bytes total]; rewrite Hd, Hb; [done |].
  apply Forall_cons in Hf as [Hok Hf]. destruct (joined_spec d e Hok Hj) as (_ & E & _). rewrite Hb in E. f_equal. by apply IH.
Qed.

(** * Finding the run at a buffer *)

Lemma chain_app a p b : chain (a ++ [p]) -> chain (p :: b) -> chain (a ++ p :: b).
Proof.
  induction a as [| d a IH]; intros Ha Hb; [done |]. destruct Ha as (Hd & Hj & Ha). simpl. split; [done |]. split; [| by apply IH].
  by destruct a.
Qed.

Section Grow.
Context (is_del : bool) (ino : Z).
Definition member (d : dbuf) : Prop := is_dirty d = true /\ has_buf d.2 = negb is_del /\ d.1.1 = ino.
Definition stops (d : dbuf) (b : bool) : bool :=
  negb (state d.2 =? CACHE_DIRTY) || negb (eqb (negb (has_buf d.2)) is_del) || negb (d.1.1 =? ino) || negb b.

Lemma stops_spec d b : stops d b = false <-> member d /\ b = true.
Proof.
  unfold stops, member, is_dirty. rewrite <- (Z.eqb_eq d.1.1 ino).
  destruct (state d.2 =? CACHE_DIRTY), (has_buf d.2), is_del, (d.1.1 =? ino), b; simpl; naive_solver.
Qed.
Lemma joined_iff p f : joined p f = true <-> is_dirty p = true /\ is_dirty f = true /\ p.1.1 = f.1.1 /\ has_buf p.2 = has_buf f.2 /\ buf_end p = f.1.2.
Proof. unfold joined. rewrite !andb_true_iff, !Z.eqb_eq, eqb_true_iff. tauto. Qed.
Lemma stops_left p f : member f -> stops p (buf_end p =? f.1.2) = negb (joined p f).
Proof.
  intros (F1 & F2 & F3). destruct (joined p f) eqn:J; simpl.
  - apply stops_spec. apply joined_iff in J as (J1 & J2 & J3 & J4 & J5). rewrite J5, Z.eqb_refl. unfold member. rewrite J3, J4. done.
  - destruct (stops p _) eqn:E; [done |]. apply stops_spec in E as ((P1 & P2 & P3) & E%Z.eqb_eq). rewrite <- J. apply joined_iff. by rewrite P2, F2, P3, F3.
Qed.
Lemma stops_right f n : member f -> stops n (n.1.2 =? buf_end f) = negb (joined f n).
Proof.
  intros (F1 & F2 & F3). destruct (joined f n) eqn:J; simpl.
  - apply stops_spec. apply joined_iff in J as (J1 & J2 & J3 & J4 & J5). rewrite J5, Z.eqb_refl. unfold member. rewrite <- J3, <- J4. done.
  - destruct (stops n _) eqn:E; [done |]. apply stops_spec in E as ((P1 & P2 & P3) & E%Z.eqb_eq). rewrite <- J. apply joined_iff. by rewrite P2, F2, P3, F3.
Qed.
Lemma member_joined p f : member f -> joined p f = true -> member p.
Proof. intros Hf J. apply (stops_spec p (buf_end p =? f.1.2)). by rewrite (stops_left p f Hf), J. Qed.
Lemma joined_member f n : member f -> joined f n = true -> member n.
Proof. intros Hf J. apply (stops_spec n (n.1.2 =? buf_end f)). by rewrite (stops_right f n Hf), J. Qed.

Lemma grow_left_spec pre : forall f acc pre' run, member f -> grow_left is_del ino f.1.2 pre acc = (pre', run) ->
  exists g, run = g ++ acc /\ rev pre = rev pre' ++ g /\ chain (g ++ [f]) /\ link (head pre') (head (g ++ [f])) = 0.
Proof.
  induction pre as [| p pre IH]; intros f acc pre' run Hf; cbn [grow_left].
  - intros [= <- <-]. exists []. simpl. by destruct Hf as (-> & _).
  - fold (stops p (buf_end p =? f.1.2)). rewrite (stops_left p f Hf). destruct (joined p f) eqn:J; cbn [negb].
    + intros (g & -> & Hp & Hc & Hl)%IH; [| by apply (member_joined p f)]. exists (g ++ [p]). rewrite <- !app_assoc. simpl. rewrite Hp.
      split; [done |]. split; [by rewrite <- app_assoc |]. split; [| by destruct g].
      apply chain_app; [done |]. apply chain_cons; [| done]. simpl. by destruct Hf as (-> & _).
    + intros [= <- <-]. exists []. cbn [app head link chain rev]. rewrite J, app_nil_r. by destruct Hf as (-> & _).
Qed.
Lemma grow_right_spec post : forall f run post' off, buf_ok f -> Forall buf_ok post -> member f ->
  grow_right is_del ino (buf_end f) post = (run, post', off) ->
  post = run ++ post' /\ chain (f :: run) /\ link (last (f :: run)) (head post') = 0 /\ (exists e, last (f :: run) = Some e /\ off = end_of e).
Proof.
  induction post as [| n post IH]; intros f run post' off Hok Hp Hf; cbn [grow_right].
  - intros [= <- <- <-]. simpl. destruct Hf as (-> & _). split; [done |]. split; [done |]. split; [done |]. exists f. by rewrite buf_end_ok.
  - apply Forall_cons in Hp as [Hn Hp]. fold (stops n (n.1.2 =? buf_end f)). rewrite (stops_right f n Hf). destruct (joined f n) eqn:J; cbn [negb].
    + destruct (grow_right is_del ino (buf_end n) post) as [[r p'] o] eqn:E. intros [= <- <- <-].
      apply IH in E as (-> & Hc & Hl & He); [| done | done | by apply (joined_member f)]. split; [done |].
      split; [by apply chain_cons |]. split; done.
    + intros [= <- <- <-]. cbn [app head link chain last]. destruct Hf as (-> & _). rewrite J. split; [done |]. split; [done |]. split; [done |]. exists f. by rewrite buf_end_ok.
Qed.
End Grow.

(** * Changing the states of buffers *)

(** [f] leaves the places and the memory of buffers as they are. *)
Definition in_place (f : dbuf -> dbuf) : Prop := forall d, (f d).1 = d.1 /\ len (f d).2 = len d.2 /\ buf (f d).2 = buf d.2.
Definition repeated (id : Z) (d : dbuf) : dbuf := (d.1, set_state d.2 CACHE_REPEATING id).
Lemma repeated_in_place id : in_place (repeated id).
Proof. done. Qed.

Fixpoint find_buf (l : list dbuf) (ino x : Z) : option dbuf :=
  match l with [] => None | d :: l => if decide (covers ino x d) then Some d else find_buf l ino x end.
Lemma look_find l ino x : look l ino x = option_map (cell_of x) (find_buf l ino x).
Proof. induction l as [| d l IH]; simpl; [done |]. by case_decide. Qed.
Lemma find_buf_some l ino x d : find_buf l ino x = Some d -> d ∈ l /\ covers ino x d.
Proof.
  induction l as [| e l IH]; simpl; [done |]. case_decide as H; [intros [= <-]; split; [apply list_elem_of_here | done] |].
  intros [? ?]%IH. split; [by apply list_elem_of_further | done].
Qed.

Section InPlace.
Context (f : dbuf -> dbuf) (Hf : in_place f).
Lemma end_of_map d : end_of (f d) = end_of d.
Proof. unfold end_of. by destruct (Hf d) as (-> & -> & _). Qed.
Lemma before_map d e : before (f d) (f e) <-> before d e.
Proof. unfold before. rewrite end_of_map. by destruct (Hf d) as (-> & _), (Hf e) as (-> & _). Qed.
Lemma buf_ok_map d : buf_ok (f d) <-> buf_ok d.
Proof. unfold buf_ok. rewrite end_of_map. by destruct (Hf d) as (-> & -> & _). Qed.
Lemma sorted_map l : sorted (map f l) <-> sorted l.
Proof.
  induction l as [| d l IH]; [done |]. simpl. rewrite !sorted_cons, IH, buf_ok_map. split; intros (H1 & H2 & H3); (split; [done |]; split; [done |]).
  - intros y Hy. rewrite <- before_map. apply H3. by apply list_elem_of_fmap_2.
  - intros y (z & -> & Hz)%list_elem_of_fmap. rewrite before_map. by apply H3.
Qed.
Lemma find_buf_map l ino x : find_buf (map f l) ino x = option_map f (find_buf l ino x).
Proof.
  induction l as [| d l IH]; simpl; [done |].
  assert (covers ino x (f d) <-> covers ino x d) as H by (unfold covers; rewrite end_of_map; by destruct (Hf d) as (-> & _)).
  destruct (decide (covers ino x d)); [rewrite decide_True by tauto; done | rewrite decide_False by tauto; done].
Qed.
Lemma look_map l ino x : look (map f l) ino x = match find_buf l ino x with None => None | Some d => Some (cell_of x (f d)) end.
Proof. rewrite look_find, find_buf_map. by destruct (find_buf l ino x). Qed.
Lemma cell_map d x : cell_of x (f d) = (state (f d).2, flush_id (f d).2, (cell_of x d).2).
Proof. unfold cell_of. by destruct (Hf d) as (-> & _ & ->). Qed.
Lemma refs_map l i : refs (map f l) i = refs l i.
Proof. induction l as [| d l IH]; simpl; [done |]. rewrite IH. unfold holds. by destruct (Hf d) as (_ & _ & ->). Qed.
Lemma in_heap_map h d : in_heap h (f d) <-> in_heap h d.
Proof. unfold in_heap. by destruct (Hf d) as (_ & -> & ->). Qed.
Lemma total_map l : total (map f l) = total l.
Proof. induction l as [| d l IH]; simpl; [done |]. rewrite IH. by destruct (Hf d) as (_ & -> & _). Qed.
End InPlace.

Lemma clean_runs l : (forall d, d ∈ l -> is_dirty d = false) -> runs l = 0.
Proof.
  induction l as [| d l IH]; intros H; [done |]. cbn [runs]. rewrite (H d), link_clean_l, IH; [done | | | apply list_elem_of_here].
  - intros. apply H. by apply list_elem_of_further.
  - apply H, list_elem_of_here.
Qed.
Lemma repeated_clean id l d : d ∈ map (repeated id) l -> is_dirty d = false.
Proof. by intros (e & -> & _)%list_elem_of_fmap. Qed.

(** * Flushing a run *)

Fixpoint parts (l : list dbuf) : list (nat * Z * Z) :=
  match l with
  | [] => []
  | d :: l => match buf d.2 with None => parts l | Some (i, o) => (i, o, len d.2) :: parts l end
  end.
Lemma parts_refs id l i : frefs (map (fun p => (id, p.1.1)) (parts l)) i = refs l i.
Proof. induction l as [| d l IH]; simpl; [done |]. unfold holds. destruct (buf d.2) as [[j o] |]; simpl; lia. Qed.

Lemma mark_run_ok id run : forall h n, counted h n -> (forall d i o, d ∈ run -> buf d.2 = Some (i, o) -> 0 < n i) ->
  exists h', mark_run id h run = Ok (h', parts run, map (repeated id) run) /\ counted h' (fun i => n i + refs run i) /\ same_bytes h h'.
Proof.
  induction run as [| d run IH]; intros h n Hc Hn; cbn [mark_run].
  - exists h. split; [done |]. split; [| apply same_bytes_refl]. refine (counted_ext _ _ _ _ Hc). intros. simpl. lia.
  - assert (exists h1, match buf d.2 with None => Ok h | Some (i, _) => ref h i end = Ok h1 /\ counted h1 (fun i => n i + holds d i) /\ same_bytes h h1)
      as (h1 & -> & Hc1 & Hs1).
    { unfold holds. destruct (buf d.2) as [[i o] |] eqn:Eb.
      - apply (ref_counted h n i Hc). apply (Hn d i o); [apply list_elem_of_here | done].
      - exists h. split; [done |]. split; [| apply same_bytes_refl]. refine (counted_ext _ _ _ _ Hc). intros. lia. }
    cbn [rbind]. destruct (IH h1 _ Hc1) as (h2 & -> & Hc2 & Hs2).
    { intros e i o He Eb. pose proof (holds_nonneg d i). specialize (Hn e i o (list_elem_of_further _ _ _ He) Eb). lia. }
    exists h2. cbn [rbind]. split; [simpl; by destruct (buf d.2) as [[i o] |] |].
    split; [| by apply (same_bytes_trans _ h1)]. refine (counted_ext _ _ _ _ Hc2). intros. simpl. lia.
Qed.

Lemma sum_total l acc : 0 <= acc -> (forall d, d ∈ l -> 0 <= len d.2) -> acc + total l < 4294967296 -> foldl (fun n d => u32 (n + len d.2)) acc l = acc + total l.
Proof.
  revert acc. induction l as [| d l IH]; intros acc Ha Hl Ht; simpl in *; [lia |].
  assert (0 <= total l).
  { clear -Hl. induction l as [| e l IH]; simpl; [lia |]. pose proof (Hl e ltac:(set_solver)).
    assert (0 <= total l); [apply IH; intros f Hf; apply Hl; set_solver | lia]. }
  pose proof (Hl d (list_elem_of_here _ _)). rewrite u32_small by lia. rewrite IH; [lia | lia | | lia].
  intros e He. apply Hl. by apply list_elem_of_further.
Qed.

Definition flush_op (c : writeback_cache_t) (from : dbuf) (run : list dbuf) : flush_op_t :=
  mk_flush (if has_buf from.2 then OSD_OP_WRITE else OSD_OP_DELETE) from.1.1 from.1.2 (total run) (parts run) (last_flush_id c + 1)
    (negb (is_dirty from)).
Definition after_flush (c : writeback_cache_t) (pre run post : list dbuf) (from : dbuf) (h : gmap nat block_t) : writeback_cache_t :=
  let id := last_flush_id c + 1 in
  let op := flush_op c from run in
  with_heap (with_bufs (with_flushes c (writebacks_active c + 1) id (flushed_buffers c ++ map (fun p => (id, p.1.1)) (parts run))
    (if is_dirty from then issued c ++ [op] else op :: issued c)) (rev pre ++ map (repeated id) run ++ post)) h.

Lemma flush_buffers_eq c pre from t post (run := from :: t) (id := last_flush_id c + 1) :
  sorted (rev pre ++ run ++ post) -> heap_ok (heap c) (rev pre ++ run ++ post) (flushed_buffers c) ->
  (forall e, last run = Some e -> end_of e = from.1.2 + total run) ->
  exists h, flush_buffers c pre run post =
      (assert! foldl (fun n d => u32 (n + len d.2)) 0 (map (repeated id) run) =? total run in
       Ok (after_flush c pre run post from h, map (repeated id) run)) /\
    heap_ok h (rev pre ++ map (repeated id) run ++ post) (flushed_buffers c ++ map (fun p => (id, p.1.1)) (parts run)) /\ same_bytes (heap c) h.
Proof.
  intros Hs Hh Hlast. assert (Hrun : Forall buf_ok run).
  { destruct Hs as [_ Hs]. rewrite !Forall_app in Hs. tauto. }
  destruct (last run) as [e |] eqn:El; [| by apply last_None in El]. specialize (Hlast e eq_refl).
  assert (buf_ok e) as (E1 & E2 & E3) by (rewrite Forall_forall in Hrun; by apply Hrun, last_Some_elem_of).
  assert (0 <= from.1.2 /\ 0 < len from.2) as [F1 F2] by (apply Forall_cons in Hrun as [(? & ? & _) _]; done).
  assert (Hpos : 0 <= total t).
  { apply Forall_cons in Hrun as [_ Ht]. clear -Ht. induction Ht as [| d t (_ & ? & _) _ IH]; simpl; lia. }
  destruct (mark_run_ok id run (heap c) _ (heap_counted _ _ _ Hh)) as (h & Em & Hc & Hb).
  { intros d i o Hd Eb. pose proof (refs_in (rev pre ++ run ++ post) d i o ltac:(rewrite !elem_of_app; auto) Eb).
    pose proof (frefs_nonneg (flushed_buffers c) i). lia. }
  exists h. split.
  - cbv delta [flush_buffers run] beta iota. fold run. rewrite El. fold id. cbv zeta. replace (u64 (u64 (e.1.2 + len e.2) - from.1.2)) with (total run).
    2: { unfold end_of in *. unfold run in *. cbn [total] in *. rewrite (u64_small (e.1.2 + len e.2)) by lia. rewrite u64_small; lia. }
    rewrite Em. cbn [rbind]. unfold after_flush, flush_op. fold id. by rewrite rev_append_rev.
  - split; [| done]. assert (Hc' : counted h (fun i => refs (rev pre ++ map (repeated id) run ++ post) i + frefs (flushed_buffers c ++ map (fun p => (id, p.1.1)) (parts run)) i)).
    { refine (counted_ext _ _ _ _ Hc). intros i. rewrite frefs_app, parts_refs, !refs_app, refs_map by done. lia. }
    split; [done |]. intros d Hd.
    assert (exists f, f ∈ rev pre ++ run ++ post /\ len d.2 = len f.2 /\ buf d.2 = buf f.2) as (f & Hf & Ef & Ebf).
    { rewrite !elem_of_app in Hd. destruct Hd as [Hd | [(f & -> & Hf)%list_elem_of_fmap | Hd]]; [exists d | exists f | exists d]; rewrite !elem_of_app; auto. }
    apply (in_heap_keep (heap c) h _ d Hb Hc').
    + pose proof (heap_in _ _ _ Hh f Hf) as Hin. unfold in_heap in *. by rewrite Ef, Ebf.
    + intros i o Hi. pose proof (refs_in _ d i o Hd Hi). pose proof (frefs_nonneg (flushed_buffers c ++ map (fun p => (id, p.1.1)) (parts run)) i). lia.
Qed.

Lemma run_total run : Forall buf_ok run -> total run < 4294967296 -> forall id, foldl (fun n d => u32 (n + len d.2)) 0 (map (repeated id) run) = total run.
Proof.
  intros Hrun Ht id. rewrite sum_total, total_map; [done | done | lia | | rewrite total_map by done; lia].
  intros d (f & -> & Hf)%list_elem_of_fmap. rewrite Forall_forall in Hrun. destruct (Hrun f Hf) as (_ & ? & _). simpl. lia.
Qed.

(** * One entry of the queue *)

Definition dirty_at (l : list dbuf) (ino x : Z) : Prop := exists d, d ∈ l /\ covers ino x d /\ is_dirty d = true.
Definition all_data (c : writeback_cache_t) : Prop := forall d, d ∈ dirty_buffers c -> has_buf d.2 = true.

Lemma dirty_bytes_nonneg l : Forall buf_ok l -> 0 <= dirty_bytes l.
Proof. induction 1 as [| d l (_ & ? & _) _ IH]; simpl; [lia |]. destruct (is_dirty d && has_buf d.2); lia. Qed.

(** A buffer that ends where another one starts is the one before it. *)
Lemma adjacent_last a b d n : sorted (a ++ b) -> d ∈ a -> n ∈ b -> d.1.1 = n.1.1 -> end_of d = n.1.2 -> last a = Some d /\ head b = Some n.
Proof.
  intros Hs (a1 & a2 & ->)%list_elem_of_split (b1 & b2 & ->)%list_elem_of_split Hi He.
  replace ((a1 ++ d :: a2) ++ b1 ++ n :: b2) with (a1 ++ (d :: (a2 ++ b1) ++ n :: b2)) in Hs by (simpl; by rewrite <- !app_assoc).
  apply sorted_app in Hs as (_ & Hs & _). apply sorted_cons in Hs as (_ & Hs & Hd). apply sorted_app in Hs as (Hm & _ & Hn).
  assert (forall m, m ∉ a2 ++ b1) as Hno.
  { intros m Hin. specialize (Hd m ltac:(set_solver)). specialize (Hn m n Hin ltac:(set_solver)).
    destruct Hm as [_ Hm]. rewrite Forall_forall in Hm. destruct (Hm m Hin) as (_ & ? & _). unfold before, end_of in *. lia. }
  destruct a2 as [| m a2]; [| exfalso; apply (Hno m); set_solver]. destruct b1 as [| m b1]; [| exfalso; apply (Hno m); set_solver].
  by rewrite last_snoc.
Qed.

(** A maximal run of dirty buffers: [pre], [from :: t] and [post] are the buffers. *)
Record is_run (l pre : list dbuf) (from : dbuf) (t post : list dbuf) : Prop := {
  run_list : l = rev pre ++ (from :: t) ++ post;
  run_chain : chain (from :: t);
  run_left : link (head pre) (Some from) = 0;
  run_right : link (last (from :: t)) (head post) = 0 }.

Section Run.
Context (l pre : list dbuf) (from : dbuf) (t post : list dbuf).
Context (Hs : sorted l) (Hr : is_run l pre from t post).
Notation run := (from :: t).
Notation run_end := (from.1.2 + total run).

Lemma run_ok : Forall buf_ok run /\ Forall buf_ok l.
Proof. destruct Hs as [_ H]. rewrite (run_list _ _ _ _ _ Hr) in H. rewrite !Forall_app in H. split; [tauto |]. rewrite (run_list _ _ _ _ _ Hr). by rewrite !Forall_app. Qed.
Lemma run_in e : e ∈ run -> e ∈ l.
Proof. rewrite (run_list _ _ _ _ _ Hr), !elem_of_app. auto. Qed.
Lemma run_counts : runs l = runs (rev pre) + runs post + 1 /\ dirty_bytes l = dirty_bytes (rev pre) + dirty_bytes post + dirty_bytes run.
Proof.
  rewrite (run_list _ _ _ _ _ Hr), !dirty_bytes_app, !runs_app, last_rev. cbn [head app].
  rewrite (run_left _ _ _ _ _ Hr), (run_right _ _ _ _ _ Hr), (chain_runs from t (run_chain _ _ _ _ _ Hr)). lia.
Qed.
Lemma run_small : has_buf from.2 = true -> dirty_bytes run = total run /\ total run <= dirty_bytes l.
Proof.
  intros Hb. destruct run_ok as [Hrun Hl]. rewrite <- (chain_bytes from t Hrun (run_chain _ _ _ _ _ Hr) Hb). split; [done |].
  rewrite (proj2 run_counts). rewrite (run_list _ _ _ _ _ Hr) in Hl. rewrite !Forall_app in Hl. destruct Hl as (H1 & _ & H2).
  pose proof (dirty_bytes_nonneg _ H1). pose proof (dirty_bytes_nonneg _ H2). lia.
Qed.

(** The bytes of the run are those of its range. *)
Lemma run_range ino x : (exists e, e ∈ run /\ covers ino x e) <-> inside from.1.1 from.1.2 run_end ino x.
Proof.
  destruct run_ok as [Hrun _]. apply contig_covers; [done |]. apply chain_contig; [done |]. apply (run_chain _ _ _ _ _ Hr).
Qed.
Lemma outside_run e ino x : e ∈ l -> covers ino x e -> ~ inside from.1.1 from.1.2 run_end ino x -> e ∈ rev pre ++ post.
Proof.
  intros He Hc Hx. rewrite (run_list _ _ _ _ _ Hr), !elem_of_app in He. rewrite elem_of_app.
  destruct He as [? | [He | ?]]; [by left | | by right]. exfalso. apply Hx, run_range. by exists e.
Qed.

(** The bytes next to a maximal run are not dirty. *)
Lemma run_left_clean : (forall d, d ∈ l -> has_buf d.2 = true) -> ~ dirty_at l from.1.1 (from.1.2 - 1).
Proof.
  intros Hb (d & Hd & (Ei & Hx) & Hdd). pose proof (run_chain _ _ _ _ _ Hr) as (Hfd & _). destruct run_ok as [Hrun Hl].
  assert (Hnot : ~ inside from.1.1 from.1.2 run_end from.1.1 (from.1.2 - 1)) by (unfold inside; lia).
  pose proof (outside_run d _ _ Hd (conj Ei Hx) Hnot) as Hd'. pose proof Hs as Hs'. rewrite (run_list _ _ _ _ _ Hr) in Hs'.
  assert (d ∈ rev pre /\ end_of d = from.1.2) as [Hp He].
  { apply sorted_app in Hs' as (_ & Hs2 & Hpre). apply elem_of_app in Hd' as [Hd' | Hd'].
    - specialize (Hpre d from Hd' ltac:(set_solver)). unfold before in Hpre. split; [done | lia].
    - apply sorted_app in Hs2 as (_ & _ & Hpost). specialize (Hpost from d ltac:(set_solver) Hd').
      apply Forall_cons in Hrun as [(_ & ? & _) _]. unfold before, end_of in *. lia. }
  destruct (adjacent_last _ _ d from Hs' Hp ltac:(set_solver) Ei He) as [Hlast _]. rewrite last_rev in Hlast.
  pose proof (run_left _ _ _ _ _ Hr) as Hz. rewrite Hlast in Hz. cbn [link] in Hz.
  assert (joined d from = true) as J; [| by rewrite J in Hz]. apply joined_iff. rewrite Forall_forall in Hl.
  rewrite (buf_end_ok d (Hl d Hd)), (Hb d Hd), (Hb from) by (apply run_in, list_elem_of_here). done.
Qed.
Lemma run_right_clean : (forall d, d ∈ l -> has_buf d.2 = true) -> ~ dirty_at l from.1.1 run_end.
Proof.
  intros Hb (d & Hd & (Ei & Hx) & Hdd). pose proof (run_chain _ _ _ _ _ Hr) as Hc. destruct run_ok as [Hrun Hl].
  assert (Hnot : ~ inside from.1.1 from.1.2 run_end from.1.1 run_end) by (unfold inside; lia).
  pose proof (outside_run d _ _ Hd (conj Ei Hx) Hnot) as Hd'. pose proof Hs as Hs'. rewrite (run_list _ _ _ _ _ Hr), app_assoc in Hs'.
  destruct (last run) as [e |] eqn:El; [| by apply last_None in El]. pose proof (last_Some_elem_of _ _ El) as He.
  destruct (contig_facts from t Hrun (chain_contig _ Hrun Hc)) as [Hf1 Hf2]. destruct (Hf1 e He) as (Ee & _). specialize (Hf2 e El).
  assert (d ∈ post /\ end_of e = d.1.2) as [Hp Hde].
  { rewrite <- app_assoc in Hs'. apply sorted_app in Hs' as (_ & Hs2 & Hpre). apply elem_of_app in Hd' as [Hd' | Hd'].
    - specialize (Hpre d e Hd' ltac:(set_solver)). rewrite Forall_forall in Hrun. destruct (Hrun e He) as (_ & ? & _). unfold before, end_of in *. lia.
    - apply sorted_app in Hs2 as (_ & _ & Hpost). specialize (Hpost e d He Hd'). unfold before in Hpost. split; [done | lia]. }
  destruct (adjacent_last (rev pre ++ run) post e d Hs' ltac:(rewrite elem_of_app; by right) Hp ltac:(congruence) Hde) as [_ Hhead].
  pose proof (run_right _ _ _ _ _ Hr) as Hz. rewrite El, Hhead in Hz. cbn [link] in Hz.
  assert (joined e d = true) as J; [| by rewrite J in Hz]. apply joined_iff. rewrite Forall_forall in Hl.
  rewrite (buf_end_ok e (Hl e (run_in e He))), (Hb e (run_in e He)), (Hb d Hd), (chain_dirty _ e Hc He). split; [done |]. split; [done |].
  split; [congruence |]. done.
Qed.
End Run.

Lemma find_dirty_head c ino off pre post d : sorted (dirty_buffers c) -> find_dirty c ino off = (pre, post) ->
  d ∈ dirty_buffers c -> covers ino off d -> head post = Some d.
Proof.
  intros Hs E Hd (Ei & Hx). destruct (find_dirty_spec c ino off pre post Hs E) as (El & Hpre & Hpost & Hhead). rewrite <- El in Hs, Hd.
  apply elem_of_app in Hd as [Hd | Hd].
  - rewrite elem_of_rev in Hd. specialize (Hpre d Hd Ei). lia.
  - destruct post as [| e post]; [by apply not_elem_of_nil in Hd |]. apply elem_of_cons in Hd as [-> | Hd]; [done |]. exfalso.
    apply sorted_app in Hs as (_ & Hs & _). apply sorted_cons in Hs as (_ & _ & Hb). specialize (Hb d Hd). specialize (Hhead e eq_refl).
    specialize (Hpost e (list_elem_of_here _ _) Hhead). unfold before in Hb. lia.
Qed.

(** Places do not change, the order neither. *)
Lemma sorted_repeated id pre run post : sorted (rev pre ++ run ++ post) -> sorted (rev pre ++ map (repeated id) run ++ post).
Proof.
  intros (S1 & (S2 & S4 & S5)%sorted_app & S3)%sorted_app. apply sorted_app. split; [done |]. split.
  - apply sorted_app. split; [by apply sorted_map |]. split; [done |]. intros x y (z & -> & Hz)%list_elem_of_fmap Hy. apply (S5 z y Hz Hy).
  - intros x y Hx [(z & -> & Hz)%list_elem_of_fmap | Hy]%elem_of_app; [apply (S3 x z Hx); rewrite elem_of_app; by left | apply S3; [done |]; rewrite elem_of_app; by right].
Qed.

Definition flushed_run (c : writeback_cache_t) (pre : list dbuf) (from : dbuf) (t post : list dbuf) (h : gmap nat block_t) : writeback_cache_t :=
  after_flush (with_counts c (u64 (writeback_bytes c - total (from :: t))) (writeback_queue_size c - 1)) pre (from :: t) post from h.

Lemma flushed_run_ok c pre from t post (run := from :: t) : wb_ok c -> has_buf from.2 = true -> is_run (dirty_buffers c) pre from t post ->
  dirty_bytes (dirty_buffers c) < 4294967296 ->
  exists h, flush_buffers (with_counts c (u64 (writeback_bytes c - total run)) (writeback_queue_size c - 1)) pre run post =
      Ok (flushed_run c pre from t post h, map (repeated (last_flush_id c + 1)) run) /\
    wb_ok (flushed_run c pre from t post h) /\ same_bytes (heap c) h.
Proof.
  intros [Hs Hi] Hb Hr Hsmall. destruct (run_ok _ _ _ _ _ Hs Hr) as [Hrun _]. pose proof (run_chain _ _ _ _ _ Hr) as Hc.
  destruct (run_counts _ _ _ _ _ Hr) as [Hruns Hbytes]. destruct (run_small _ _ _ _ _ Hs Hr Hb) as [Hrb Hle].
  pose proof (run_list _ _ _ _ _ Hr) as El. fold run in El, Hrb, Hle, Hruns, Hbytes.
  destruct (flush_buffers_eq (with_counts c (u64 (writeback_bytes c - total run)) (writeback_queue_size c - 1)) pre from t post) as (h & Ef & Hh & Hsb).
  - change (sorted (rev pre ++ run ++ post)). by rewrite <- El.
  - change (heap_ok (heap c) (rev pre ++ run ++ post) (flushed_buffers c)). rewrite <- El. apply Hi.
  - apply (contig_facts from t Hrun (chain_contig _ Hrun Hc)).
  - exists h. rewrite run_total, Z.eqb_refl in Ef by (try done; fold run; lia). split; [done |]. split; [| done]. unfold flushed_run, after_flush. cbn [with_counts last_flush_id] in *. fold run in Hh |- *.
    set (id := last_flush_id c + 1) in *. rewrite El in Hs. split.
    + by apply sorted_repeated.
    + cbn [with_heap with_bufs with_flushes dirty_buffers]. split; cbn [with_heap with_bufs with_flushes with_counts writeback_bytes writeback_queue_size heap flushed_buffers].
      * rewrite (inv_bytes _ _ Hi), u64_u64_sub, !dirty_bytes_app, (clean_bytes (map _ run)) by apply repeated_clean. f_equal. lia.
      * rewrite (inv_runs _ _ Hi), !runs_app, last_rev, (clean_runs (map _ run)) by apply repeated_clean.
        change (head (map (repeated id) run ++ post)) with (Some (repeated id from)). rewrite link_clean_r by done.
        destruct (last (map (repeated id) run)) as [e |] eqn:Ee; [rewrite (link_clean_l e) by apply (repeated_clean id run), last_Some_elem_of, Ee | simpl]; lia.
      * done.
Qed.

Lemma start_one_ok req c : wb_ok c -> all_data c -> dirty_bytes (dirty_buffers c) < 4294967296 ->
  (start_one req c = Ok (c, false) /\ ~ dirty_at (dirty_buffers c) req.1 req.2) \/
  (exists pre from t post h, is_run (dirty_buffers c) pre from t post /\ start_one req c = Ok (flushed_run c pre from t post h, true) /\
     wb_ok (flushed_run c pre from t post h) /\ same_bytes (heap c) h /\
     (dirty_at (dirty_buffers c) req.1 req.2 -> inside from.1.1 from.1.2 (from.1.2 + total (from :: t)) req.1 req.2)).
Proof.
  intros Hok Hdata Hsmall. pose proof Hok as [Hs Hi]. unfold start_one.
  destruct (find_dirty c req.1 req.2) as [pre post] eqn:E. pose proof (find_dirty_spec _ _ _ _ _ Hs E) as (El & _ & _ & Hhead).
  destruct post as [| d rest].
  { left. split; [done |]. intros (d & Hd & Hc & _). by pose proof (find_dirty_head _ _ _ _ _ _ Hs E Hd Hc). }
  specialize (Hhead d eq_refl). rewrite Hhead, Z.eqb_refl. fold (is_dirty d). destruct (is_dirty d) eqn:Ed; cbn [negb orb].
  2: { left. split; [done |]. intros (e & He & Hc & Hde). pose proof (find_dirty_head _ _ _ _ _ _ Hs E He Hc) as [= ->]. congruence. }
  right. assert (Hbd : has_buf d.2 = true) by (apply Hdata; rewrite <- El; apply elem_mid). rewrite Hbd. cbn [negb].
  assert (Hm : member false req.1 d) by done.
  destruct (grow_left false req.1 d.1.2 pre []) as [pre' lft] eqn:EL.
  destruct (grow_left_spec false req.1 pre d [] pre' lft Hm EL) as (g & Eg & Hp & Hcl & Hll). rewrite app_nil_r in Eg. subst lft.
  assert (Hok' : Forall buf_ok (dirty_buffers c)) by apply Hs. rewrite <- El, Forall_app, Forall_cons in Hok'. destruct Hok' as (_ & Hdok & Hrok).
  destruct (grow_right false req.1 (buf_end d) rest) as [[rgt post'] off] eqn:ER.
  destruct (grow_right_spec false req.1 rest d rgt post' off Hdok Hrok Hm ER) as (-> & Hcr & Hlr & e & Ee & Eoff).
  assert (exists from t, g ++ d :: rgt = from :: t /\ head (g ++ [d]) = Some from) as (from & t & Erun & Ehead).
  { destruct g as [| from g]; [by exists d, rgt | by exists from, (g ++ d :: rgt)]. }
  pose proof (chain_app g d rgt Hcl Hcr) as Hc. rewrite Ehead in Hll.
  assert (Elast : last (from :: t) = Some e) by (rewrite <- Erun; by rewrite last_app_cons).
  assert (Hr : is_run (dirty_buffers c) pre' from t post').
  { split; [| by rewrite <- Erun | done | by rewrite Elast, <- Ee]. rewrite <- El, Hp, <- Erun. by rewrite <- !app_assoc. }
  rewrite Erun. destruct (run_ok _ _ _ _ _ Hs Hr) as [Hrun _]. destruct (contig_facts from t Hrun (chain_contig _ Hrun (run_chain _ _ _ _ _ Hr))) as [Hf1 Hf2].
  assert (Hbf : has_buf from.2 = true) by (apply Hdata, (run_in _ _ _ _ _ Hr), list_elem_of_here).
  assert (Hpos : 0 < runs (dirty_buffers c)) by (apply (runs_pos _ d); [rewrite <- El; apply elem_mid | done]).
  rewrite (inv_runs _ _ Hi), (proj2 (Z.ltb_lt 0 _) Hpos). cbv zeta. rewrite Eoff, (Hf2 e Elast), Z.add_simpl_l, <- (inv_runs _ _ Hi).
  destruct (run_small _ _ _ _ _ Hs Hr Hbf) as [Hrb Hle].
  assert (0 <= total (from :: t)) by (rewrite <- Hrb; by apply dirty_bytes_nonneg).
  rewrite (u64_small (total (from :: t))) by lia. destruct (flushed_run_ok c pre' from t post' Hok Hbf Hr Hsmall) as (h & Ef & Hok2 & Hsb).
  exists pre', from, t, post', h. split; [done |]. rewrite Ef. split.
  - assert (((0 <? writeback_queue_size (flushed_run c pre' from t post' h)) || (writeback_bytes (flushed_run c pre' from t post' h) =? 0)) = true) as Ha.
    { destruct Hok2 as [_ Hi2]. rewrite (inv_runs _ _ Hi2), (inv_bytes _ _ Hi2). set (l2 := dirty_buffers _). pose proof (runs_nonneg l2).
      destruct (Z.ltb_spec 0 (runs l2)) as [| Hz]; [done |]. rewrite (clean_bytes l2 (runs_zero l2 ltac:(lia))). done. }
    cbn [flushed_run after_flush with_heap with_bufs with_flushes with_counts writeback_queue_size writeback_bytes] in Ha |- *. by rewrite Ha.
  - split; [done |]. split; [done |]. intros (x & Hx & Hcx & _). apply (run_range _ _ _ _ _ Hs Hr).
    pose proof (find_dirty_head _ _ _ _ _ _ Hs E Hx Hcx) as [= <-]. exists d. split; [| done]. rewrite <- Erun. apply elem_mid.
Qed.
