(* ===== verification/WritebackSpec.v ===== *)
(** What the write-back cache promises, byte by byte: the state and the contents of
    every cached byte, the operations that are in flight with the data they carry,
    and what every event does to them.  [WritebackMain.v] shows that the cache of
    [Writeback.v] keeps these promises. *)

From S2P Require Import Prelude.
From S2P Require Import Writeback.
From S2P Require Import WritebackList.
From S2P Require Import WritebackCut.
From S2P Require Import WritebackOk.

(** * Views *)

(** An operation that the cache has sent and that has not come back. *)
Record flight : Type := mk_flight { f_id : Z; f_inode : Z; f_offset : Z; f_data : list Z }.
Definition in_flight (f : flight) (ino x : Z) : Prop := inside (f_inode f) (f_offset f) (f_offset f + zlen (f_data f)) ino x.
Definition f_byte (f : flight) (x : Z) : option Z := f_data f !! Z.to_nat (x - f_offset f).

Definition cells : Type := Z -> Z -> option (Z * Z * option Z).
Record view : Type := mk_view { v_cells : cells; v_flights : list flight; v_through : list flight; v_last : Z }.
Definition all_flights (v : view) : list flight := v_flights v ++ v_through v.

Definition part_data (h : gmap nat block_t) (p : nat * Z * Z) : list Z :=
  match h !! p.1.1 with None => [] | Some m => slice (bytes m) p.1.2 p.2 end.
Definition iov_data (h : gmap nat block_t) (iov : list (nat * Z * Z)) : list Z := concat (map (part_data h) iov).
Definition flight_of (h : gmap nat block_t) (op : flush_op_t) : flight := mk_flight (fl_id op) (fl_inode op) (fl_offset op) (iov_data h (fl_iov op)).

(** The cache, and the writes that the client has sent itself and the cache remembers. *)
Record client_t : Type := mk_client { wb : writeback_cache_t; through : list flight }.
Definition view_of (k : client_t) : view :=
  mk_view (cached (wb k)) (map (flight_of (heap (wb k))) (issued (wb k))) (through k) (last_flush_id (wb k)).

(** * Events *)

Inductive event : Type :=
| WWrite (op : cluster_op_t)                      (* a write is acknowledged from the cache *)
| WThrough (op : cluster_op_t)                    (* a write is remembered and sent by the client itself *)
| WThroughDone (f : flight)                       (* and has been written *)
| WStart (count : Z)                              (* write-back is started *)
| WRepeat (affected : Z -> Z -> Z -> bool)        (* an OSD or a PG has gone *)
| WDone (op : flush_op_t) (op_flags : Z)          (* an operation of the cache has come back *)
| WFsyncStart
| WFsyncError
| WFsyncOk.

(** The calls the client makes. *)
Definition on_cache (k : client_t) (r : res writeback_cache_t) : res client_t := let* c := r in Ok (mk_client c (through k)).
Definition wstep (malloc : gset nat -> nat) (ev : event) (k : client_t) : res client_t :=
  let c := wb k in
  match ev with
  | WWrite op => on_cache k (copy_write malloc op CACHE_DIRTY 0 c)
  | WThrough op =>
    let id := last_flush_id c + 1 in
    let* c := copy_write malloc op CACHE_REPEATING id (with_flushes c (writebacks_active c) id (flushed_buffers c) (issued c)) in
    Ok (mk_client c (through k ++ [mk_flight id (inode op) (offset op) (concat (iov op))]))
  | WThroughDone f =>
    Ok (mk_client (mark_flush_written (f_inode f) (f_offset f) (zlen (f_data f)) (f_id f) c) (filter (fun g => f_id g <> f_id f) (through k)))
  | WStart count => on_cache k (start_writebacks count c)
  | WRepeat affected => let* (c, _) := repeat_ops_for affected c in Ok (mk_client c (through k))
  | WDone op op_flags => on_cache k (flush_done op op_flags c)
  | WFsyncStart => Ok (mk_client (fsync_start c) (through k))
  | WFsyncError => Ok (mk_client (fsync_error c) (through k))
  | WFsyncOk => on_cache k (fsync_ok c)
  end.

(** * What they do *)

Definition written_cell (op : cluster_op_t) (s id : Z) (x : Z) : Z * Z * option Z := (s, id, concat (iov op) !! Z.to_nat (x - offset op)).
Definition restate (r : option (Z * Z * option Z)) (s id : Z) : option (Z * Z * option Z) :=
  match r with None => None | Some (_, _, b) => Some (s, id, b) end.
Definition in_state (r : option (Z * Z * option Z)) (P : Z -> Prop) : Prop := match r with None => False | Some (s, _, _) => P s end.
Definition of_flush (r : option (Z * Z * option Z)) (id : Z) : bool :=
  match r with None => false | Some (s, i, _) => (i =? id) && (s =? CACHE_REPEATING) end.

(** One operation is sent: it carries the bytes of its range, all of them in a state of [P]. *)
Record sent (P : Z -> Prop) (front : bool) (f : flight) (v v' : view) : Prop := {
  sent_id : f_id f = v_last v + 1;
  sent_last : v_last v' = f_id f;
  sent_some : 0 < zlen (f_data f);
  sent_through : v_through v' = v_through v;
  sent_flights : v_flights v' = if front then f :: v_flights v else v_flights v ++ [f];
  sent_in : forall ino x, in_flight f ino x -> exists s i b,
    v_cells v ino x = Some (s, i, Some b) /\ P s /\ f_byte f x = Some b /\ v_cells v' ino x = Some (CACHE_REPEATING, f_id f, Some b);
  sent_out : forall ino x, ~ in_flight f ino x -> v_cells v' ino x = v_cells v ino x }.
Definition all_sent (P : Z -> Prop) (front : bool) : view -> view -> Prop := rtc (fun v v' => exists f, sent P front f v v').

Definition is_dirty_state (s : Z) : Prop := s = CACHE_DIRTY.
Definition is_unsynced_state (s : Z) : Prop := s <> CACHE_DIRTY /\ s <> CACHE_REPEATING.

Definition moved (from to : Z) (r : option (Z * Z * option Z)) : option (Z * Z * option Z) :=
  match r with None => None | Some (s, i, b) => Some (if s =? from then to else s, i, b) end.

(** An operation with number [id] has come back; [stable] says that what it has written needs no sync. *)
Definition landed (id : Z) (stable : bool) (r : option (Z * Z * option Z)) : option (Z * Z * option Z) :=
  if of_flush r id then if stable then None else restate r CACHE_WRITTEN 0 else r.
Definition synced (r : option (Z * Z * option Z)) : option (Z * Z * option Z) :=
  match r with None => None | Some (s, i, b) => if s =? CACHE_FLUSHING then None else Some (s, i, b) end.

Definition others_kept (v v' : view) : Prop := v_flights v' = v_flights v /\ v_through v' = v_through v /\ v_last v' = v_last v.
Definition promises (ev : event) (v v' : view) : Prop :=
  match ev with
  | WWrite op =>
    others_kept v v' /\
    forall ino x, v_cells v' ino x = if decide (in_op op ino x) then Some (written_cell op CACHE_DIRTY 0 x) else v_cells v ino x
  | WThrough op =>
    let id := v_last v + 1 in
    v_flights v' = v_flights v /\ v_through v' = v_through v ++ [mk_flight id (inode op) (offset op) (concat (iov op))] /\ v_last v' = id /\
    forall ino x, v_cells v' ino x = if decide (in_op op ino x) then Some (written_cell op CACHE_REPEATING id x) else v_cells v ino x
  | WThroughDone f =>
    v_flights v' = v_flights v /\ v_through v' = filter (fun g => f_id g <> f_id f) (v_through v) /\ v_last v' = v_last v /\
    forall ino x, v_cells v' ino x = landed (f_id f) false (v_cells v ino x)
  | WStart count =>
    all_sent is_dirty_state false v v' /\ (count = 0 -> forall ino x, ~ in_state (v_cells v' ino x) is_dirty_state)
  | WRepeat affected =>
    all_sent is_unsynced_state true v v' /\
    (forall ino x, (forall off n, off <= x < off + n -> affected ino off n = true) -> ~ in_state (v_cells v' ino x) is_unsynced_state)
  | WDone op op_flags =>
    v_flights v' = filter (fun f => f_id f <> fl_id op) (v_flights v) /\ v_through v' = v_through v /\ v_last v' = v_last v /\
    forall ino x, v_cells v' ino x = landed (fl_id op) (negb (Z.land op_flags OP_IMMEDIATE_COMMIT =? 0)) (v_cells v ino x)
  | WFsyncStart => others_kept v v' /\ forall ino x, v_cells v' ino x = moved CACHE_WRITTEN CACHE_FLUSHING (v_cells v ino x)
  | WFsyncError => others_kept v v' /\ forall ino x, v_cells v' ino x = moved CACHE_FLUSHING CACHE_WRITTEN (v_cells v ino x)
  | WFsyncOk => others_kept v v' /\ forall ino x, v_cells v' ino x = synced (v_cells v ino x)
  end.

(** * What follows from the promises *)

(** Operations in flight have numbers of their own, and a cached byte that is being
    written is the byte that one of them carries. *)
Record v_ok (v : view) : Prop := {
  v_ids : NoDup (f_id <$> all_flights v);
  v_below : forall f, f ∈ all_flights v -> f_id f <= v_last v;
  v_flying : forall ino x i b, v_cells v ino x = Some (CACHE_REPEATING, i, b) -> exists f, f ∈ all_flights v /\ f_id f = i;
  v_carried : forall f ino x b, f ∈ all_flights v -> v_cells v ino x = Some (CACHE_REPEATING, f_id f, b) -> in_flight f ino x /\ f_byte f x = b }.

Lemma v_cells_below v ino x i b : v_ok v -> v_cells v ino x = Some (CACHE_REPEATING, i, b) -> i <= v_last v.
Proof. intros Hv Hx. destruct (v_flying v Hv ino x i b Hx) as (f & Hf & <-). by apply (v_below v Hv). Qed.

(** The flights stay or go, and no cell starts to be written by one. *)
Lemma fewer_ok v v' : v_ok v -> v_last v' = v_last v -> all_flights v' `sublist_of` all_flights v ->
  (forall ino x i b, v_cells v' ino x = Some (CACHE_REPEATING, i, b) -> v_cells v ino x = Some (CACHE_REPEATING, i, b)) ->
  (forall ino x f b, v_cells v' ino x = Some (CACHE_REPEATING, f_id f, b) -> f ∈ all_flights v -> f ∈ all_flights v') -> v_ok v'.
Proof.
  intros [H1 H2 H3 H4] El Ef Hc Hk.
  assert (Hin : forall f, f ∈ all_flights v' -> f ∈ all_flights v) by (intros f Hf; by apply (elem_of_sublist _ _ _ Hf Ef)).
  split.
  - apply (sublist_NoDup _ _ H1). by apply fmap_sublist.
  - intros f Hf. rewrite El. auto.
  - intros ino x i b Hx. destruct (H3 ino x i b (Hc _ _ _ _ Hx)) as (f & Hf & <-). exists f. split; [by apply (Hk ino x f b) | done].
  - intros f ino x b Hf Hx. eauto.
Qed.

(** A flight with a new number. *)
Lemma new_flight_ok v v' f : v_ok v -> f_id f = v_last v + 1 -> v_last v' = f_id f -> all_flights v' ≡ₚ f :: all_flights v ->
  (forall ino x, v_cells v' ino x = v_cells v ino x \/ exists s b, v_cells v' ino x = Some (s, f_id f, b) /\ in_flight f ino x /\ f_byte f x = b) -> v_ok v'.
Proof.
  intros Hv Ei El Ep Hc. pose proof Hv as [H1 H2 H3 H4].
  assert (Hin : forall g, g ∈ all_flights v' <-> g = f \/ g ∈ all_flights v) by (intros g; rewrite Ep; apply elem_of_cons).
  assert (Hnew : f_id f ∉ f_id <$> all_flights v) by (intros (g & Eg & Hg)%list_elem_of_fmap; specialize (H2 g Hg); lia).
  split.
  - rewrite Ep. cbn [fmap list_fmap]. by apply NoDup_cons.
  - intros g [-> | Hg]%Hin; [lia |]. specialize (H2 g Hg). lia.
  - intros ino x i b Hx. destruct (Hc ino x) as [E | (s & b' & E & _)]; rewrite E in Hx.
    + destruct (H3 ino x i b Hx) as (g & Hg & Eg). exists g. rewrite Hin. auto.
    + injection Hx as _ <- _. exists f. rewrite Hin. auto.
  - intros g ino x b Hg Hx. destruct (Hc ino x) as [E | (s & b' & E & E1 & E2)]; rewrite E in Hx.
    + apply Hin in Hg as [-> | Hg]; [pose proof (v_cells_below v _ _ _ _ Hv Hx); lia | by eapply H4].
    + injection Hx as _ Eg <-. apply Hin in Hg as [-> | Hg]; [done |]. specialize (H2 g Hg). lia.
Qed.
Lemma sent_ok P front f v v' : v_ok v -> sent P front f v v' -> v_ok v'.
Proof.
  intros Hv [S1 S2 S3 S4 S5 S6 S7]. apply (new_flight_ok v v' f Hv S1 S2).
  - unfold all_flights. rewrite S4, S5. destruct front; [done |]. rewrite (Permutation_app_comm (v_flights v) [f]). done.
  - intros ino x. destruct (decide (in_flight f ino x)) as [Hx | Hx]; [right | left; auto].
    destruct (S6 ino x Hx) as (s & i & b & _ & _ & Hb & E). by exists CACHE_REPEATING, (Some b).
Qed.
Lemma all_sent_ok P front v v' : v_ok v -> all_sent P front v v' -> v_ok v'.
Proof. intros Hv Hs. induction Hs as [| v1 v2 v3 (f & Hf) _ IH]; [done |]. apply IH. by apply (sent_ok P front f v1). Qed.

Lemma same_flights_ok v v' : v_ok v -> others_kept v v' ->
  (forall ino x i b, v_cells v' ino x = Some (CACHE_REPEATING, i, b) -> v_cells v ino x = Some (CACHE_REPEATING, i, b)) -> v_ok v'.
Proof.
  intros Hv (E1 & E2 & E3) Hc. assert (E : all_flights v' = all_flights v) by (unfold all_flights; by rewrite E1, E2).
  apply (fewer_ok v v' Hv E3); [by rewrite E | done |]. intros. by rewrite E.
Qed.
Lemma moved_repeating from to r i b : to <> CACHE_REPEATING -> moved from to r = Some (CACHE_REPEATING, i, b) -> r = Some (CACHE_REPEATING, i, b).
Proof. intros Ht. destruct r as [[[s j] d] |]; simpl; [| done]. destruct (s =? from); intros [= -> -> ->]; done. Qed.
Lemma landed_repeating id st r i b : landed id st r = Some (CACHE_REPEATING, i, b) -> r = Some (CACHE_REPEATING, i, b) /\ i <> id.
Proof.
  unfold landed. destruct (of_flush r id) eqn:E; [destruct st; [done |]; by destruct r as [[[s j] d] |] |]. intros ->. split; [done |].
  unfold of_flush in E. by destruct (Z.eqb_spec i id).
Qed.

(** The data of a write-through is as long as the write says. *)
Definition event_ok (ev : event) : Prop :=
  match ev with WWrite op | WThrough op => op_ok op /\ opcode op = OSD_OP_WRITE | _ => True end.
Lemma event_data op : op_ok op -> opcode op = OSD_OP_WRITE -> zlen (concat (iov op)) = op_len op.
Proof. intros [_ _ _ Hd] Ho. destruct Hd as [He | ?]; [by rewrite Ho in He | done]. Qed.

Lemma promises_ok ev v v' : v_ok v -> event_ok ev -> promises ev v v' -> v_ok v'.
Proof.
  intros Hv He. destruct ev as [op | op | f | count | aff | op fl | | |]; cbn [promises].
  - intros (Hk & Hc). apply (same_flights_ok v v' Hv Hk). intros ino x i b. rewrite Hc. by case_decide.
  - intros (E1 & E2 & E3 & Hc). destruct He as [Hop Ho]. apply (new_flight_ok v v' (mk_flight (v_last v + 1) (inode op) (offset op) (concat (iov op))) Hv eq_refl E3).
    + unfold all_flights. rewrite E1, E2, app_assoc. by rewrite Permutation_app_comm.
    + intros ino x. rewrite Hc. case_decide as Hx; [right | by left]. eexists _, _. split; [done |]. split; [| done].
      unfold in_flight. cbn [f_inode f_offset f_data]. by rewrite (event_data op Hop Ho).
  - intros (E1 & E2 & E3 & Hc). apply (fewer_ok v v' Hv E3).
    + unfold all_flights. rewrite E1, E2. apply sublist_app; [done |]. apply sublist_filter.
    + intros ino x i b. rewrite Hc. intros Hl. by apply landed_repeating in Hl as [? _].
    + intros ino x g b. rewrite Hc. intros [_ Hn]%landed_repeating. unfold all_flights. rewrite E1, E2, !elem_of_app, list_elem_of_filter. tauto.
  - intros [Hs _]. by apply (all_sent_ok _ _ _ _ Hv Hs).
  - intros [Hs _]. by apply (all_sent_ok _ _ _ _ Hv Hs).
  - intros (E1 & E2 & E3 & Hc). apply (fewer_ok v v' Hv E3).
    + unfold all_flights. rewrite E1, E2. apply sublist_app; [apply sublist_filter | done].
    + intros ino x i b. rewrite Hc. intros Hl. by apply landed_repeating in Hl as [? _].
    + intros ino x g b. rewrite Hc. intros [_ Hn]%landed_repeating. unfold all_flights. rewrite E1, E2, !elem_of_app, list_elem_of_filter. tauto.
  - intros (Hk & Hc). apply (same_flights_ok v v' Hv Hk). intros ino x i b. rewrite Hc. by apply moved_repeating.
  - intros (Hk & Hc). apply (same_flights_ok v v' Hv Hk). intros ino x i b. rewrite Hc. by apply moved_repeating.
  - intros (Hk & Hc). apply (same_flights_ok v v' Hv Hk). intros ino x i b. rewrite Hc. unfold synced.
    destruct (v_cells v ino x) as [[[s j] d] |]; [| done]. by case_match.
Qed.
