(* ===== verification/WritebackSend.v ===== *)
(** Sending a run of buffers as one operation ([flush_buffers] of [Writeback.v]),
    byte by byte: the operation carries the bytes that are cached, and goes on
    carrying them whatever happens to the buffers later. *)

From S2P Require Import Prelude.
From S2P Require Import Writeback.
From S2P Require Import WritebackList.
From S2P Require Import WritebackCut.
From S2P Require Import WritebackOk.
From S2P Require Import WritebackFlush.
From S2P Require Import WritebackSpec.

(** * The memory of operations in flight *)

Definition part_in (h : gmap nat block_t) (p : nat * Z * Z) : Prop :=
  exists m, h !! p.1.1 = Some m /\ 0 <= p.1.2 /\ 0 <= p.2 /\ p.1.2 + p.2 <= zlen (bytes m).
Definition op_refs (op : flush_op_t) : list (Z * nat) := map (fun p => (fl_id op, p.1.1)) (fl_iov op).
Record flights_ok (c : writeback_cache_t) : Prop := {
  fo_refs : flushed_buffers c ≡ₚ concat (map op_refs (issued c));
  fo_parts : forall op p, op ∈ issued c -> p ∈ fl_iov op -> part_in (heap c) p;
  fo_len : forall op, op ∈ issued c -> zlen (iov_data (heap c) (fl_iov op)) = fl_len op;
  fo_range : forall op, op ∈ issued c -> 0 <= fl_offset op /\ fl_offset op + fl_len op < 18446744073709551616 }.

Lemma frefs_perm a b i : a ≡ₚ b -> frefs a i = frefs b i.
Proof. induction 1; simpl; lia. Qed.
Lemma frefs_in fl p : p ∈ fl -> 0 < frefs fl p.2.
Proof.
  intros (a & b & ->)%list_elem_of_split. rewrite frefs_app. simpl. rewrite one_eq.
  pose proof (frefs_nonneg a p.2). pose proof (frefs_nonneg b p.2). lia.
Qed.
Lemma refs_of_op ops op p : op ∈ ops -> p ∈ fl_iov op -> (fl_id op, p.1.1) ∈ concat (map op_refs ops).
Proof.
  intros Ho Hp. apply list_elem_of_In, in_concat. exists (op_refs op). rewrite <- !list_elem_of_In. split; [by apply list_elem_of_fmap_2 |].
  unfold op_refs. apply list_elem_of_fmap. by exists p.
Qed.
(** Blocks that an operation refers to keep their bytes. *)
Lemma part_keep h h' n p : same_bytes h h' -> counted h' n -> 0 < n p.1.1 -> part_in h p -> part_in h' p /\ part_data h' p = part_data h p.
Proof.
  intros Hs Hc Hn (m & Em & ? & ? & ?). destruct (counted_some h' n _ Hc Hn) as (m' & Em' & _). destruct (Hs _ m' Em') as (m0 & E0 & Eb).
  replace m0 with m in * by congruence. unfold part_in, part_data. rewrite Em, Em', Eb. split; [| done]. exists m'. rewrite Eb. done.
Qed.
Lemma iov_keep h h' n iov : same_bytes h h' -> counted h' n -> (forall p, p ∈ iov -> 0 < n p.1.1 /\ part_in h p) -> iov_data h' iov = iov_data h iov.
Proof.
  intros Hs Hc Hp. unfold iov_data. f_equal. apply map_ext_in. intros p Hin%list_elem_of_In. destruct (Hp p Hin).
  by apply (part_keep h h' n).
Qed.

(** Some operations come back, the memory of the others stays. *)
Lemma flights_keep c c' n (P : flush_op_t -> Prop) `{forall o, Decision (P o)} :
  flights_ok c -> issued c' = filter P (issued c) -> flushed_buffers c' ≡ₚ concat (map op_refs (issued c')) ->
  same_bytes (heap c) (heap c') -> counted (heap c') n -> (forall i, frefs (flushed_buffers c') i <= n i) ->
  flights_ok c' /\ map (flight_of (heap c')) (issued c') = map (flight_of (heap c)) (issued c').
Proof.
  intros [Hr Hp Hl Hg] Ei Hr' Hs Hc Hn.
  assert (Hin : forall o, o ∈ issued c' -> o ∈ issued c) by (intros o; rewrite Ei, list_elem_of_filter; tauto).
  assert (Hpos : forall o p, o ∈ issued c' -> p ∈ fl_iov o -> 0 < n p.1.1 /\ part_in (heap c) p).
  { intros o p Ho Hip. split; [| by apply (Hp o); auto]. specialize (Hn p.1.1). enough (0 < frefs (flushed_buffers c') p.1.1) by lia.
    apply (frefs_in _ (fl_id o, p.1.1)). rewrite Hr'. by apply refs_of_op. }
  assert (Hd : forall o, o ∈ issued c' -> iov_data (heap c') (fl_iov o) = iov_data (heap c) (fl_iov o)).
  { intros o Ho. apply (iov_keep _ _ n _ Hs Hc). eauto. }
  split; [split; [done | | |] |].
  - intros o p Ho Hip. destruct (Hpos o p Ho Hip). by apply (part_keep (heap c) _ n).
  - intros o Ho. rewrite Hd by done. auto.
  - auto.
  - apply map_ext_in. intros o Ho%list_elem_of_In. unfold flight_of. by rewrite Hd.
Qed.

(** * The data of a run *)

Definition loaded (h : gmap nat block_t) (d : dbuf) : Prop := in_heap h d /\ has_buf d.2 = true.
Lemma parts_cons h d t : loaded h d -> buf_ok d -> exists b,
  iov_data h (parts (d :: t)) = b ++ iov_data h (parts t) /\ zlen b = len d.2 /\
  (exists p, parts (d :: t) = p :: parts t /\ part_in h p) /\
  (forall x, d.1.2 <= x < end_of d -> b !! Z.to_nat (x - d.1.2) = byte_at h (cell_of x d).2 /\ is_Some (b !! Z.to_nat (x - d.1.2))).
Proof.
  intros [Hin Hb] (_ & Hl & _). unfold in_heap, has_buf in *. cbn [parts]. unfold cell_of. destruct (buf d.2) as [[i o] |]; [| done].
  destruct Hin as (m & Em & Ho & Hm). exists (slice (bytes m) o (len d.2)). split.
  { unfold iov_data, part_data. cbn [map concat fst snd]. by rewrite Em. }
  split; [apply zlen_slice; lia |]. split; [exists (i, o, len d.2); split; [done |]; exists m; simpl; split; [done | lia] |].
  intros x Hx. cbn [snd byte_at]. rewrite Em. cbn [mbind option_bind]. unfold slice, end_of in *.
  rewrite lookup_take_lt, lookup_drop by lia. replace (Z.to_nat o + Z.to_nat (x - d.1.2))%nat with (Z.to_nat (o + (x - d.1.2))) by lia.
  split; [done |]. apply lookup_lt_is_Some. unfold zlen in Hm. lia.
Qed.
Lemma run_data h d t : Forall buf_ok (d :: t) -> contig (d :: t) -> (forall e, e ∈ d :: t -> loaded h e) ->
  zlen (iov_data h (parts (d :: t))) = total (d :: t) /\
  (forall p, p ∈ parts (d :: t) -> part_in h p) /\
  forall e x, e ∈ d :: t -> e.1.2 <= x < end_of e ->
    iov_data h (parts (d :: t)) !! Z.to_nat (x - d.1.2) = byte_at h (cell_of x e).2 /\ is_Some (byte_at h (cell_of x e).2).
Proof.
  revert d. induction t as [| n t IH]; intros d Hf Hc Hh; pose proof Hf as [Hd _]%Forall_cons.
  - destruct (parts_cons h d [] (Hh d (list_elem_of_here _ _)) Hd) as (b & Eb & Lb & (p & Ep & Hp) & Hx). rewrite Eb. cbn [total]. split; [rewrite app_nil_r; lia |]. rewrite Ep. split; [intros q ->%list_elem_of_singleton; done |].
    intros e x ->%list_elem_of_singleton He. rewrite app_nil_r. destruct (Hx x He) as [<- ?]. done.
  - destruct (parts_cons h d (n :: t) (Hh d (list_elem_of_here _ _)) Hd) as (b & Eb & Lb & (p & Ep & Hp) & Hx).
    destruct Hc as ((E1 & E2) & Hc). apply Forall_cons in Hf as [_ Hf].
    destruct (IH n Hf Hc) as (IH1 & IH2 & IH3); [intros e He; apply Hh; by apply list_elem_of_further |].
    rewrite Eb, zlen_app, IH1. split; [cbn [total]; lia |]. rewrite Ep. split; [intros q [-> | Hq]%elem_of_cons; auto |].
    intros e x [-> | He]%elem_of_cons Hex.
    + destruct (Hx x Hex) as [Hb Hs]. rewrite <- Hb. split; [| done]. apply lookup_app_l. unfold end_of, zlen in *. lia.
    + destruct (IH3 e x He Hex) as [Hb Hs]. rewrite <- Hb. split; [| by rewrite Hb].
      destruct (proj1 (contig_facts n t Hf Hc) e He) as (_ & ? & _). unfold end_of, zlen in *. rewrite lookup_app_r by lia. f_equal. lia.
Qed.

(** * Sending *)

Section Send.
Context (c : writeback_cache_t) (pre : list dbuf) (from : dbuf) (t post : list dbuf) (h : gmap nat block_t).
Notation run := (from :: t).
Notation id := (last_flush_id c + 1).
Notation c' := (after_flush c pre run post from h).
Context (Hl : dirty_buffers c = rev pre ++ run ++ post) (Hs : sorted (dirty_buffers c)).
Context (Hh : heap_ok (heap c) (dirty_buffers c) (flushed_buffers c)).
Context (Hh' : heap_ok h (dirty_buffers c') (flushed_buffers c')) (Hsame : same_bytes (heap c) h).
Context (Hc : contig run) (Hdata : forall e, e ∈ run -> has_buf e.2 = true).

Lemma send_run : Forall buf_ok run.
Proof. destruct Hs as [_ H]. rewrite Hl, !Forall_app in H. tauto. Qed.
Lemma send_in e : e ∈ run -> e ∈ dirty_buffers c.
Proof. intros He. rewrite Hl, !elem_of_app. auto. Qed.
Lemma send_loaded e : e ∈ run -> loaded (heap c) e.
Proof. intros He. split; [| by apply Hdata]. apply (heap_in _ _ _ Hh), send_in, He. Qed.
Lemma send_sorted : sorted (dirty_buffers c').
Proof. rewrite Hl in Hs. by apply sorted_repeated. Qed.
Lemma send_parts : iov_data h (parts run) = iov_data (heap c) (parts run).
Proof.
  apply (iov_keep _ _ _ _ Hsame (heap_counted _ _ _ Hh')). intros p Hp. split.
  - enough (0 < frefs (flushed_buffers c') p.1.1) by (pose proof (refs_nonneg (dirty_buffers c') p.1.1); lia).
    apply (frefs_in _ (id, p.1.1)). cbn [after_flush with_heap with_bufs with_flushes flushed_buffers]. rewrite elem_of_app. right.
    apply list_elem_of_fmap. by exists p.
  - by apply (run_data (heap c) from t send_run Hc send_loaded).
Qed.
Lemma send_look_in ino x e : e ∈ run -> covers ino x e ->
  look (dirty_buffers c) ino x = Some (cell_of x e) /\ look (dirty_buffers c') ino x = Some (CACHE_REPEATING, id, (cell_of x e).2).
Proof.
  intros He Hx. split; [by apply look_some; [| apply send_in |] |].
  rewrite (look_some _ ino x send_sorted (repeated id e)); [done | | done].
  change (repeated id e ∈ rev pre ++ map (repeated id) run ++ post). rewrite !elem_of_app. right. left. by apply list_elem_of_fmap_2.
Qed.
Lemma send_look_out ino x : (forall e, e ∈ run -> ~ covers ino x e) -> look (dirty_buffers c') ino x = look (dirty_buffers c) ino x.
Proof.
  intros Ho. change (dirty_buffers c') with (rev pre ++ map (repeated id) run ++ post). rewrite Hl, !look_app.
  rewrite (look_none run), (look_none (map (repeated id) run)); [done | | done]. intros d (e & -> & He)%list_elem_of_fmap. exact (Ho e He).
Qed.
Lemma send_cached_in ino x e : e ∈ run -> covers ino x e -> exists b,
  cached c ino x = Some (state e.2, flush_id e.2, Some b) /\ cached c' ino x = Some (CACHE_REPEATING, id, Some b) /\
  iov_data h (parts run) !! Z.to_nat (x - from.1.2) = Some b.
Proof.
  intros He Hx. destruct (send_look_in ino x e He Hx) as [E1 E2]. unfold cached. rewrite E1, E2.
  destruct (run_data (heap c) from t send_run Hc send_loaded) as (_ & _ & Hd). destruct (Hd e x He (proj2 Hx)) as [Hb [b Eb]].
  exists b. rewrite send_parts, Hb. change (heap c') with h.
  rewrite (byte_keep (heap c) h _ _ ino x _ _ _ Hsame send_sorted Hh' E2), Eb. split; [| done]. unfold cell_of in *. simpl in Eb. by rewrite Eb.
Qed.
Lemma send_cached_out ino x : (forall e, e ∈ run -> ~ covers ino x e) -> cached c' ino x = cached c ino x.
Proof.
  intros Ho. pose proof (send_look_out ino x Ho) as E. unfold cached. rewrite E. destruct (look (dirty_buffers c) ino x) as [[[s f] p] |] eqn:El; [| done].
  change (heap c') with h. by rewrite (byte_keep (heap c) h _ _ ino x _ _ _ Hsame send_sorted Hh' E).
Qed.
Lemma send_range : 0 <= from.1.2 /\ 0 < total run /\ from.1.2 + total run < 18446744073709551616.
Proof.
  pose proof send_run as Hrun. destruct (last run) as [e |] eqn:El; [| by apply last_None in El].
  pose proof (proj2 (contig_facts from t Hrun Hc) e El) as He.
  destruct (proj1 (contig_facts from t Hrun Hc) from (list_elem_of_here _ _)) as (_ & _ & Hf). rewrite Forall_forall in Hrun.
  destruct (Hrun from (list_elem_of_here _ _)) as (? & ? & _). destruct (Hrun e (last_Some_elem_of _ _ El)) as (_ & _ & ?). unfold end_of in *. lia.
Qed.

Context (Hfo : flights_ok c).
Lemma send_old op : op ∈ issued c -> iov_data h (fl_iov op) = iov_data (heap c) (fl_iov op) /\ forall p, p ∈ fl_iov op -> part_in h p.
Proof.
  intros Ho. assert (Hpos : forall p, p ∈ fl_iov op -> 0 < refs (dirty_buffers c') p.1.1 + frefs (flushed_buffers c') p.1.1 /\ part_in (heap c) p).
  { intros p Hp. split; [| by apply (fo_parts c Hfo op)]. pose proof (refs_nonneg (dirty_buffers c') p.1.1).
    enough (0 < frefs (flushed_buffers c') p.1.1) by lia. apply (frefs_in _ (fl_id op, p.1.1)).
    cbn [after_flush with_heap with_bufs with_flushes flushed_buffers]. rewrite elem_of_app, (fo_refs c Hfo). left. by apply refs_of_op. }
  pose proof (heap_counted _ _ _ Hh') as Hcnt. split; [by apply (iov_keep _ _ _ _ Hsame Hcnt) |].
  intros p Hp. destruct (Hpos p Hp). by apply (part_keep _ _ _ _ Hsame Hcnt).
Qed.
Lemma send_issued op : op ∈ issued c' <-> op = flush_op c from run \/ op ∈ issued c.
Proof.
  cbn [after_flush with_heap with_bufs with_flushes issued]. destruct (is_dirty from).
  - rewrite elem_of_app, list_elem_of_singleton. tauto.
  - apply elem_of_cons.
Qed.
Lemma send_flights : flights_ok c'.
Proof.
  destruct (run_data (heap c) from t send_run Hc send_loaded) as (Hlen & Hp & _).
  split.
  - cbn [after_flush with_heap with_bufs with_flushes issued flushed_buffers]. rewrite (fo_refs c Hfo).
    destruct (is_dirty from); [rewrite map_app, concat_app; simpl; by rewrite app_nil_r |]. cbn [map concat]. by rewrite Permutation_app_comm.
  - intros op p [-> | Ho]%send_issued Hip; [| by apply (send_old op)].
    apply (part_keep _ _ _ _ Hsame (heap_counted _ _ _ Hh')); [| by apply Hp].
    enough (0 < frefs (flushed_buffers c') p.1.1) by (pose proof (refs_nonneg (dirty_buffers c') p.1.1); lia).
    apply (frefs_in _ (id, p.1.1)). cbn [after_flush with_heap with_bufs with_flushes flushed_buffers]. rewrite elem_of_app. right.
    apply list_elem_of_fmap. by exists p.
  - intros op [-> | Ho]%send_issued; [cbn [flush_op fl_iov fl_len] | change (heap c') with h; rewrite (proj1 (send_old op Ho)); by apply (fo_len c Hfo)].
    change (zlen (iov_data h (parts run)) = total run). by rewrite send_parts.
  - intros op [-> | Ho]%send_issued; [| by apply (fo_range c Hfo)]. pose proof send_range. cbn [flush_op fl_offset fl_len]. lia.
Qed.

Lemma send_in_flight ino x : in_flight (flight_of h (flush_op c from run)) ino x <-> inside from.1.1 from.1.2 (from.1.2 + total run) ino x.
Proof.
  unfold in_flight, flight_of, flush_op. cbn [f_inode f_offset f_data fl_iov fl_inode fl_offset].
  by rewrite send_parts, (proj1 (run_data (heap c) from t send_run Hc send_loaded)).
Qed.
(** The run is sent. *)
Lemma send_sent (P : Z -> Prop) th : (forall e, e ∈ run -> P (state e.2)) ->
  sent P (negb (is_dirty from)) (flight_of h (flush_op c from run)) (view_of (mk_client c th)) (view_of (mk_client c' th)).
Proof.
  intros HP. destruct (run_data (heap c) from t send_run Hc send_loaded) as (Hlen & _). rewrite <- send_parts in Hlen.
  assert (Hin : forall ino x, in_flight (flight_of h (flush_op c from run)) ino x <-> exists e, e ∈ run /\ covers ino x e).
  { intros ino x. rewrite (contig_covers from t ino x send_run Hc). apply send_in_flight. }
  split; try done.
  - cbn [flight_of f_data flush_op fl_iov]. rewrite Hlen. apply send_range.
  - cbn [view_of v_flights wb]. change (heap c') with h. cbn [after_flush with_heap with_bufs with_flushes issued].
    assert (E : map (flight_of h) (issued c) = map (flight_of (heap c)) (issued c)).
    { apply map_ext_in. intros op Ho%list_elem_of_In. unfold flight_of. by rewrite (proj1 (send_old op Ho)). }
    destruct (is_dirty from); cbn [negb map]; [rewrite map_app, E | rewrite E]; done.
  - intros ino x (e & He & Hx)%Hin. destruct (send_cached_in ino x e He Hx) as (b & E1 & E2 & E3).
    exists (state e.2), (flush_id e.2), b. cbn [view_of v_cells wb]. rewrite E1, E2. split; [done |]. split; [by apply HP |]. split; done.
  - intros ino x Hx. apply send_cached_out. intros e He Hc'. apply Hx, Hin. by exists e.
Qed.
End Send.
