(* ===== verification/WritebackStart.v ===== *)
(** [start_writebacks] ([Writeback.v]): every dirty byte can be reached from an entry
    of the queue through dirty bytes only, so that after the whole queue has been
    handled there is nothing dirty left. *)

From S2P Require Import Prelude.
From S2P Require Import Writeback.
From S2P Require Import WritebackList.
From S2P Require Import WritebackCut.
From S2P Require Import WritebackOk.
From S2P Require Import WritebackFlush.
From S2P Require Import WritebackSpec.
From S2P Require Import WritebackSend.

(** * Dirty bytes and the queue *)

Definition dirty_cell (cs : cells) (ino x : Z) : Prop := in_state (cs ino x) is_dirty_state.
Definition covered (cs : cells) (queue : list (Z * Z)) : Prop :=
  forall ino x, dirty_cell cs ino x -> exists q, q ∈ queue /\ q.1 = ino /\ forall y, Z.min q.2 x <= y <= Z.max q.2 x -> dirty_cell cs ino y.

Lemma dirty_cell_at c ino x : sorted (dirty_buffers c) -> dirty_cell (cached c) ino x <-> dirty_at (dirty_buffers c) ino x.
Proof.
  intros Hs. unfold dirty_cell, dirty_at, cached, in_state, is_dirty_state. split.
  - destruct (look _ ino x) as [[[s f] p] |] eqn:E; [| done]. intros ->. apply look_inv in E as (d & Hd & Hx & E). exists d.
    injection E as E _ _. unfold is_dirty. by rewrite <- E.
  - intros (d & Hd & Hx & Hdd). rewrite (look_some _ ino x Hs d Hd Hx). unfold cell_of. by apply Z.eqb_eq in Hdd.
Qed.

(** A run that nothing dirty touches is sent: entries that lead into it are not needed any more. *)
Lemma covered_step cs cs' req queue ino0 a b :
  covered cs (req :: queue) -> (dirty_cell cs req.1 req.2 -> inside ino0 a b req.1 req.2) ->
  ~ dirty_cell cs ino0 (a - 1) -> ~ dirty_cell cs ino0 b ->
  (forall ino x, dirty_cell cs' ino x <-> dirty_cell cs ino x /\ ~ inside ino0 a b ino x) -> covered cs' queue.
Proof.
  intros Hc Hreq Ha Hb Hd ino x [Hx Hout]%Hd. destruct (Hc ino x Hx) as (q & Hq & Eq & Hy).
  assert (Hno : forall y, Z.min q.2 x <= y <= Z.max q.2 x -> ~ inside ino0 a b ino y).
  { intros y Hy' [-> Hin]. unfold inside in Hout. destruct (decide (x < a)).
    - apply Ha, Hy. lia.
    - apply Hb, Hy. lia. }
  exists q. apply elem_of_cons in Hq as [-> | Hq].
  - exfalso. apply (Hno req.2); [lia |]. rewrite <- Eq. apply Hreq. rewrite Eq. apply Hy. lia.
  - split; [done |]. split; [done |]. intros y Hy'. apply Hd. auto.
Qed.
Lemma covered_skip cs req queue : covered cs (req :: queue) -> ~ dirty_cell cs req.1 req.2 -> covered cs queue.
Proof.
  intros Hc Hn ino x Hx. destruct (Hc ino x Hx) as (q & [-> | Hq]%elem_of_cons & Eq & Hy); [| by exists q].
  exfalso. apply Hn. rewrite Eq. apply Hy. lia.
Qed.
Lemma covered_ext cs cs' queue : (forall ino x, dirty_cell cs' ino x <-> dirty_cell cs ino x) -> covered cs queue -> covered cs' queue.
Proof. intros He Hc ino x Hx%He. destruct (Hc ino x Hx) as (q & Hq & Eq & Hy). exists q. split; [done |]. split; [done |]. intros y Hy'. apply He. auto. Qed.

(** * One entry *)

Record cache_ok (c : writeback_cache_t) : Prop := {
  co_wb : wb_ok c;
  co_data : all_data c;
  co_flights : flights_ok c }.

Lemma sent_dirty P f front v v' : sent P front f v v' -> forall ino x, dirty_cell (v_cells v') ino x <-> dirty_cell (v_cells v) ino x /\ ~ in_flight f ino x.
Proof.
  intros H ino x. unfold dirty_cell. destruct (decide (in_flight f ino x)) as [Hx | Hx].
  - destruct (sent_in _ _ _ _ _ H ino x Hx) as (s & i & b & _ & _ & _ & ->). simpl. unfold is_dirty_state. split; [done | tauto].
  - rewrite (sent_out _ _ _ _ _ H ino x Hx). tauto.
Qed.

Lemma start_one_sent req c th queue : cache_ok c -> dirty_bytes (dirty_buffers c) < 4294967296 -> covered (cached c) (req :: queue) ->
  exists c' s, start_one req c = Ok (c', s) /\ cache_ok c' /\ covered (cached c') queue /\
    dirty_bytes (dirty_buffers c') <= dirty_bytes (dirty_buffers c) /\ writeback_queue c' = writeback_queue c /\
    all_sent is_dirty_state false (view_of (mk_client c th)) (view_of (mk_client c' th)).
Proof.
  intros [Hwb Hdata Hfo] Hsmall Hcov. pose proof Hwb as [Hs Hi].
  destruct (start_one_ok req c Hwb Hdata Hsmall) as [[-> Hn] | (pre & from & t & post & h & Hr & -> & Hwb' & Hsame & Hreq)].
  { exists c, false. split; [done |]. split; [done |]. split; [apply (covered_skip _ req); [done |]; by rewrite dirty_cell_at |].
    split; [done |]. split; [done |]. apply rtc_refl. }
  set (c1 := with_counts c (u64 (writeback_bytes c - total (from :: t))) (writeback_queue_size c - 1)).
  pose proof (run_list _ _ _ _ _ Hr) as Hl. destruct (run_ok _ _ _ _ _ Hs Hr) as [Hrun _].
  pose proof (chain_contig _ Hrun (run_chain _ _ _ _ _ Hr)) as Hc. pose proof (inv_heap _ _ Hi) as Hh. pose proof (inv_heap _ _ (proj2 Hwb')) as Hh'.
  assert (Hd1 : forall e, e ∈ from :: t -> has_buf e.2 = true) by (intros e He; by apply Hdata, (run_in _ _ _ _ _ Hr)).
  assert (Hfo1 : flights_ok c1) by (destruct Hfo; by split).
  pose proof (send_sent c1 pre from t post h Hl Hs Hh Hh' Hsame Hc Hd1 Hfo1 is_dirty_state th) as Hsent.
  pose proof (run_chain _ _ _ _ _ Hr) as Hch. rewrite (chain_dirty _ from Hch (list_elem_of_here _ _)) in Hsent.
  specialize (Hsent ltac:(intros e He; by apply Z.eqb_eq, (chain_dirty _ e Hch He))).
  exists (flushed_run c pre from t post h), true. split; [done |]. split; [split; [done | |] |].
  - intros d Hd. change (d ∈ rev pre ++ map (repeated (last_flush_id c + 1)) (from :: t) ++ post) in Hd. unfold all_data in Hdata. rewrite Hl in Hdata.
    rewrite !elem_of_app in Hd. destruct Hd as [Hd | [(e & -> & He)%list_elem_of_fmap | Hd]]; [| exact (Hd1 e He) |]; apply Hdata; rewrite !elem_of_app; auto.
  - by apply (send_flights c1 pre from t post h Hl Hs Hh Hh' Hsame Hc Hd1 Hfo1).
  - split; [| split; [| split; [done | by apply rtc_once; eexists]]].
    + pose proof (sent_dirty _ _ _ _ _ Hsent) as Hdc.
      pose proof (send_in_flight c1 pre from t post h Hl Hs Hh Hh' Hsame Hc Hd1) as Hin.
      apply (covered_step (cached c) _ req queue from.1.1 from.1.2 (from.1.2 + total (from :: t)) Hcov).
      * rewrite dirty_cell_at by done. done.
      * rewrite dirty_cell_at by done. by apply (run_left_clean _ _ _ _ _ Hs Hr).
      * rewrite dirty_cell_at by done. by apply (run_right_clean _ _ _ _ _ Hs Hr).
      * intros ino x. rewrite <- Hin. apply Hdc.
    + change (dirty_bytes (rev pre ++ map (repeated (last_flush_id c + 1)) (from :: t) ++ post) <= dirty_bytes (dirty_buffers c)).
      rewrite (proj2 (run_counts _ _ _ _ _ Hr)), !dirty_bytes_app, (clean_bytes (map _ (from :: t))) by apply repeated_clean.
      pose proof (dirty_bytes_nonneg _ Hrun). lia.
Qed.

(** * The loop *)

Lemma start_loop_sent count th queue : forall started c, cache_ok c -> dirty_bytes (dirty_buffers c) < 4294967296 -> covered (cached c) queue ->
  exists c' rest, start_loop count started queue c = Ok (c', rest) /\ cache_ok c' /\ covered (cached c') rest /\ (count = 0 -> rest = []) /\
    writeback_queue c' = writeback_queue c /\ all_sent is_dirty_state false (view_of (mk_client c th)) (view_of (mk_client c' th)).
Proof.
  induction queue as [| req queue IH]; intros started c Hok Hsmall Hcov; cbn [start_loop].
  { exists c, []. split; [done |]. split; [done |]. split; [done |]. split; [done |]. split; [done |]. apply rtc_refl. }
  destruct ((count =? 0) || (started <? count)) eqn:E.
  - destruct (start_one_sent req c th queue Hok Hsmall Hcov) as (c1 & s & -> & Hok1 & Hcov1 & Hb & Eq & Hs1). cbn [rbind].
    destruct (IH (started + b2z s) c1 Hok1 ltac:(lia) Hcov1) as (c2 & rest & -> & Hok2 & Hcov2 & Hz & Eq2 & Hs2).
    exists c2, rest. split; [done |]. split; [done |]. split; [done |]. split; [done |]. split; [congruence |]. by transitivity (view_of (mk_client c1 th)).
  - exists c, (req :: queue). split; [done |]. split; [done |]. split; [done |].
    split; [intros ->; done |]. split; [done |]. apply rtc_refl.
Qed.

Lemma start_writebacks_sent count c th : cache_ok c -> dirty_bytes (dirty_buffers c) < 4294967296 -> covered (cached c) (writeback_queue c) ->
  exists c', start_writebacks count c = Ok c' /\ cache_ok c' /\ covered (cached c') (writeback_queue c') /\
    promises (WStart count) (view_of (mk_client c th)) (view_of (mk_client c' th)).
Proof.
  intros Hok Hsmall Hcov. unfold start_writebacks.
  assert (Hnone : forall cs, covered cs [] -> forall ino x, ~ dirty_cell cs ino x).
  { intros cs Hc ino x Hx. destruct (Hc ino x Hx) as (q & Hq & _). by apply not_elem_of_nil in Hq. }
  destruct (writeback_queue c) as [| r q] eqn:Eq.
  { exists c. rewrite Eq. split; [done |]. split; [done |]. split; [done |]. split; [apply rtc_refl |]. intros _. by apply Hnone. }
  assert (Hok' : cache_ok (with_queue c [])) by (destruct Hok as [Hw Hd [F1 F2 F3 F4]]; split; [by destruct Hw as [? [? ? ?]] | done | by split]).
  destruct (start_loop_sent count th (r :: q) 0 (with_queue c []) Hok' Hsmall Hcov) as (c1 & rest & -> & Hok1 & Hcov1 & Hz & Eq1 & Hs1).
  cbn [rbind]. exists (with_queue c1 (rest ++ writeback_queue c1)). split; [done |]. rewrite Eq1. cbn [writeback_queue with_queue]. rewrite app_nil_r.
  split; [destruct Hok1 as [Hw Hd [F1 F2 F3 F4]]; split; [by destruct Hw as [? [? ? ?]] | done | by split] |]. split; [done |].
  split; [done |]. intros Hc0. rewrite (Hz Hc0) in Hcov1. by apply (Hnone (cached c1)).
Qed.
