(* ===== verification/WritebackRepeat.v ===== *)
(** [repeat_ops_for] ([Writeback.v]): when an OSD or a PG goes away, everything that
    has been written to it and not synced is sent again. *)

From S2P Require Import Prelude.
From S2P Require Import Writeback.
From S2P Require Import WritebackList.
From S2P Require Import WritebackCut.
From S2P Require Import WritebackOk.
From S2P Require Import WritebackFlush.
From S2P Require Import WritebackSpec.
From S2P Require Import WritebackSend.
From S2P Require Import WritebackStart.

Definition unsynced (d : dbuf) : bool := negb (state d.2 =? CACHE_REPEATING) && negb (state d.2 =? CACHE_DIRTY).
Lemma unsynced_spec d : unsynced d = true <-> is_unsynced_state (state d.2).
Proof. unfold unsynced, is_unsynced_state. rewrite andb_true_iff, !negb_true_iff, !Z.eqb_neq. tauto. Qed.
Lemma unsynced_clean d : unsynced d = true -> is_dirty d = false.
Proof. unfold unsynced, is_dirty. rewrite andb_true_iff, !negb_true_iff. tauto. Qed.

(** Buffers that are not dirty count for nothing. *)
Lemma clean_counts a m m' b : (forall d, d ∈ m -> is_dirty d = false) -> (forall d, d ∈ m' -> is_dirty d = false) -> m <> [] -> m' <> [] ->
  runs (a ++ m ++ b) = runs (a ++ m' ++ b) /\ dirty_bytes (a ++ m ++ b) = dirty_bytes (a ++ m' ++ b).
Proof.
  intros Hm Hm' N N'. rewrite !dirty_bytes_app, (clean_bytes m), (clean_bytes m') by done. split; [| done].
  assert (H : forall l, l <> [] -> (forall d, d ∈ l -> is_dirty d = false) -> runs (a ++ l ++ b) = runs a + runs b).
  { intros l Hl Hc. rewrite !runs_app, (clean_runs l Hc). destruct l as [| e l]; [done |]. cbn [head app].
    rewrite (link_clean_r _ e) by apply Hc, list_elem_of_here. destruct (last (e :: l)) as [f |] eqn:El; [| by apply last_None in El].
    rewrite (link_clean_l f) by apply Hc, last_Some_elem_of, El. lia. }
  by rewrite (H m), (H m').
Qed.

Lemma sub_total a m b : Forall buf_ok (a ++ m ++ b) -> total m <= total (a ++ m ++ b).
Proof.
  assert (H : forall l, Forall buf_ok l -> 0 <= total l) by (induction 1 as [| d l (_ & ? & _) _ IH]; simpl; lia).
  rewrite !Forall_app, !total_app. intros (H1 & _ & H2). pose proof (H _ H1). pose proof (H _ H2). lia.
Qed.

(** A run of buffers that have been written is sent once more. *)
Lemma resend c pre from t post th (run := from :: t) (flushed := map (repeated (last_flush_id c + 1)) run) :
  cache_ok c -> dirty_buffers c = rev pre ++ run ++ post -> contig run -> (forall e, e ∈ run -> unsynced e = true) ->
  total (dirty_buffers c) < 4294967296 ->
  exists c' f, flush_buffers c pre run post = Ok (c', flushed) /\ dirty_buffers c' = rev pre ++ flushed ++ post /\ cache_ok c' /\
    writeback_queue c' = writeback_queue c /\ sent is_unsynced_state true f (view_of (mk_client c th)) (view_of (mk_client c' th)).
Proof.
  intros [[Hs Hi] Hdata Hfo] Hl Hc Hun Hsmall. pose proof (inv_heap _ _ Hi) as Hh. pose proof Hs as [_ Hall]. rewrite Hl in Hall.
  pose proof (sub_total _ _ _ Hall) as Hle. rewrite <- Hl in Hle. assert (Hrun : Forall buf_ok run) by (rewrite !Forall_app in Hall; tauto).
  destruct (flush_buffers_eq c pre from t post) as (h & Ef & Hh' & Hsame).
  { fold run. by rewrite <- Hl. } { fold run. by rewrite <- Hl. } { apply (contig_facts from t Hrun Hc). }
  rewrite run_total, Z.eqb_refl in Ef by (try done; fold run; lia).
  assert (Hd1 : forall e, e ∈ run -> has_buf e.2 = true) by (intros e He; apply Hdata; rewrite Hl, !elem_of_app; auto).
  pose proof (send_sent c pre from t post h Hl Hs Hh Hh' Hsame Hc Hd1 Hfo is_unsynced_state th ltac:(intros e He; by apply unsynced_spec, Hun)) as Hsent.
  rewrite (unsynced_clean from (Hun from (list_elem_of_here _ _))) in Hsent.
  exists (after_flush c pre run post from h), (flight_of h (flush_op c from run)). split; [done |]. split; [done |]. split; [| split; done].
  split; [| | by apply (send_flights c pre from t post h Hl Hs Hh Hh' Hsame Hc Hd1 Hfo)].
  - split; [by apply (send_sorted c pre from t post h Hl Hs) |]. change (dirty_buffers (after_flush c pre run post from h)) with (rev pre ++ flushed ++ post).
    destruct (clean_counts (rev pre) run flushed post) as [Er Eb]; try done.
    { intros d Hd. by apply unsynced_clean, Hun. } { intros d Hd. by apply (repeated_clean _ _ d Hd). }
    rewrite Hl in Hi. split; [| | done].
    + rewrite <- Eb. apply (inv_bytes _ _ Hi).
    + rewrite <- Er. apply (inv_runs _ _ Hi).
  - intros d Hd. change (d ∈ rev pre ++ flushed ++ post) in Hd. unfold all_data in Hdata. rewrite Hl in Hdata.
    rewrite !elem_of_app in Hd. destruct Hd as [Hd | [(e & -> & He)%list_elem_of_fmap | Hd]]; [| exact (Hd1 e He) |]; apply Hdata; rewrite !elem_of_app; auto.
Qed.

(** * The loop *)

Section Repeat.
Context (affected : Z -> Z -> Z -> bool) (th : list flight).
Definition settled (d : dbuf) : Prop := unsynced d && affected d.1.1 d.1.2 (len d.2) = false.

(** The buffers before [done] need no repeating, those of [run] do. *)
Record at_position (c : writeback_cache_t) (done run post : list dbuf) : Prop := {
  at_list : dirty_buffers c = rev done ++ rev run ++ post;
  at_contig : contig (rev run);
  at_run : forall e, e ∈ run -> unsynced e = true;
  at_done : forall e, e ∈ done -> settled e }.

Lemma repeat_flush c done run post : cache_ok c -> total (dirty_buffers c) < 4294967296 -> at_position c done run post -> run <> [] ->
  exists c1 flushed f, flush_buffers c done (rev run) post = Ok (c1, flushed) /\ cache_ok c1 /\ total (dirty_buffers c1) < 4294967296 /\
    at_position c1 (rev_append flushed done) [] post /\ writeback_queue c1 = writeback_queue c /\
    sent is_unsynced_state true f (view_of (mk_client c th)) (view_of (mk_client c1 th)).
Proof.
  intros Hok Hsmall [Hl Hc Hr Hd] Hne. destruct (rev run) as [| from t] eqn:Er; [by apply (f_equal (@rev _)) in Er; rewrite rev_involutive in Er |].
  assert (Hr' : forall e, e ∈ from :: t -> unsynced e = true) by (intros e He; apply Hr; by rewrite <- elem_of_rev, Er).
  destruct (resend c done from t post th Hok Hl Hc Hr' Hsmall) as (c1 & f & Ef & El1 & Hok1 & Eq & Hs). eexists c1, _, f. split; [done |]. split; [done |].
  split; [rewrite El1, !total_app, total_map by done; by rewrite Hl, !total_app in Hsmall |]. split; [| done].
  rewrite rev_append_rev. split; [by rewrite El1, rev_app_distr, rev_involutive, <- app_assoc | done | |].
  - intros e He. by apply not_elem_of_nil in He.
  - intros e [He | He]%elem_of_app; [| by apply Hd]. apply elem_of_rev, list_elem_of_fmap in He as (g & -> & _). done.
Qed.

Lemma at_next c done run d rest : sorted (dirty_buffers c) -> at_position c done run (d :: rest) -> unsynced d = true ->
  (match run, last run with prev :: _, Some from => negb (d.1.1 =? from.1.1) || negb (d.1.2 =? buf_end prev) | _, _ => false end) = false ->
  at_position c done (d :: run) rest.
Proof.
  intros [_ Hall] [Hl Hc Hr Hd] Hu Hstop. split; [by rewrite Hl; simpl; rewrite <- app_assoc | | | done].
  - destruct run as [| prev run]; [done |]. simpl in Hc |- *. rewrite <- app_assoc. apply contig_app; [done |]. split; [| done].
    destruct (last (prev :: run)) as [from |] eqn:El; [| by apply last_None in El].
    rewrite Hl, !Forall_app in Hall. destruct Hall as (_ & Hall & _). simpl in Hall. apply orb_false_iff in Hstop as [E1%negb_false_iff%Z.eqb_eq E2%negb_false_iff%Z.eqb_eq].
    assert (Hp : buf_ok prev) by (rewrite Forall_forall in Hall; apply Hall, elem_of_app; right; by apply list_elem_of_singleton).
    rewrite <- (buf_end_ok prev Hp), E2. split; [| done].
    destruct (rev run ++ [prev]) as [| g t] eqn:Eg; [by destruct (rev run) |].
    assert (from = g) as ->.
    { change (rev (prev :: run) = g :: t) in Eg. apply (f_equal (@rev _)) in Eg. rewrite rev_involutive in Eg. rewrite Eg in El. cbn [rev] in El. rewrite last_snoc in El. by injection El. }
    rewrite E1. apply (contig_facts g t Hall Hc). rewrite <- Eg. apply elem_of_app. right. by apply list_elem_of_singleton.
  - intros e [-> | He]%elem_of_cons; auto.
Qed.

Lemma repeat_loop_sent post : forall c n done run, cache_ok c -> total (dirty_buffers c) < 4294967296 -> at_position c done run post ->
  exists c' n', repeat_loop affected c n done run post = Ok (c', n') /\ cache_ok c' /\ writeback_queue c' = writeback_queue c /\
    (forall d, d ∈ dirty_buffers c' -> settled d) /\ all_sent is_unsynced_state true (view_of (mk_client c th)) (view_of (mk_client c' th)).
Proof.
  induction post as [| d rest IH]; intros c n done run Hok Hsmall Hat.
  - destruct run as [| e run]; cbn [repeat_loop].
    + exists c, n. split; [done |]. split; [done |]. split; [done |]. split; [| apply rtc_refl]. destruct Hat as [Hl _ _ Hd].
      intros e He. apply Hd. rewrite Hl, app_nil_r in He. by apply elem_of_rev.
    + destruct (repeat_flush c done (e :: run) [] Hok Hsmall Hat ltac:(done)) as (c1 & fl & f & -> & Hok1 & _ & [Hl1 _ _ Hd1] & Eq & Hs).
      exists c1, (n + 1). split; [done |]. split; [done |]. split; [done |]. split; [| apply rtc_once; by exists f].
      intros g Hg. apply Hd1. rewrite Hl1, app_nil_r in Hg. by apply elem_of_rev.
  - cbn [repeat_loop]. fold (unsynced d). set (this := unsynced d && affected d.1.1 d.1.2 (len d.2)).
    match goal with |- context [negb this || ?s] => set (stop := s) end.
    assert (exists c1 n1 done1 run1, (match run with [] => Ok (c, n, done, run) | _ :: _ =>
              if negb this || stop then let* (c, flushed) := flush_buffers c done (rev run) (d :: rest) in Ok (c, n + 1, rev_append flushed done, []) else Ok (c, n, done, run) end)
            = Ok (c1, n1, done1, run1) /\ cache_ok c1 /\ total (dirty_buffers c1) < 4294967296 /\ at_position c1 done1 run1 (d :: rest) /\
            writeback_queue c1 = writeback_queue c /\ all_sent is_unsynced_state true (view_of (mk_client c th)) (view_of (mk_client c1 th)) /\
            (run1 = [] \/ (run1 = run /\ this = true /\ stop = false))) as (c1 & n1 & done1 & run1 & -> & Hok1 & Hsm1 & Hat1 & Eq1 & Hs1 & Hrun1).
    { assert (Hstay : all_sent is_unsynced_state true (view_of (mk_client c th)) (view_of (mk_client c th))) by apply rtc_refl.
      destruct run as [| e run]; [exists c, n, done, []; eauto 10 |]. destruct (negb this || stop) eqn:E.
      - destruct (repeat_flush c done (e :: run) (d :: rest) Hok Hsmall Hat ltac:(done)) as (c1 & fl & f & -> & Hok1 & Hsm1 & Hat1 & Eq & Hs).
        exists c1, (n + 1), (rev_append fl done), []. cbn [rbind]. split; [done |]. split; [done |]. split; [done |]. split; [done |]. split; [done |].
        split; [apply rtc_once; by exists f | by left].
      - apply orb_false_iff in E as [E1%negb_false_iff E2]. exists c, n, done, (e :: run). eauto 12. }
    cbn [rbind]. assert (Hnext : this = true -> at_position c1 done1 (d :: run1) rest).
    { intros Ht. apply at_next; [apply Hok1 | done | by apply andb_true_iff in Ht as [? _] |]. destruct Hrun1 as [-> | (-> & _ & Hstop)]; [done | exact Hstop]. }
    assert (Hskip : this = false -> at_position c1 (d :: done1) run1 rest).
    { intros Ht. destruct Hrun1 as [-> | (_ & ? & _)]; [| congruence]. destruct Hat1 as [Hl1 Hc1 Hr1 Hd1].
      split; [by rewrite Hl1; simpl; rewrite <- app_assoc | done | done |]. intros e [-> | He]%elem_of_cons; auto. }
    destruct this eqn:Et.
    + destruct (IH c1 n1 done1 (d :: run1) Hok1 Hsm1 (Hnext eq_refl)) as (c2 & n2 & -> & Hok2 & Eq2 & Hd2 & Hs2).
      exists c2, n2. split; [done |]. split; [done |]. split; [congruence |]. split; [done |]. by transitivity (view_of (mk_client c1 th)).
    + destruct (IH c1 n1 (d :: done1) run1 Hok1 Hsm1 (Hskip eq_refl)) as (c2 & n2 & -> & Hok2 & Eq2 & Hd2 & Hs2).
      exists c2, n2. split; [done |]. split; [done |]. split; [congruence |]. split; [done |]. by transitivity (view_of (mk_client c1 th)).
Qed.
End Repeat.
