(* ===== verification/WritebackDone.v ===== *)
(** What happens to buffers when an operation comes back ([mark_flush_written],
    [delete_flush] and the callback of [flush_buffers] in [Writeback.v]), and when
    everything written is synced ([fsync_start], [fsync_error], [fsync_ok]). *)

From S2P Require Import Prelude.
From S2P Require Import Writeback.
From S2P Require Import WritebackList.
From S2P Require Import WritebackCut.
From S2P Require Import WritebackOk.
From S2P Require Import WritebackFlush.
From S2P Require Import WritebackSpec.
From S2P Require Import WritebackSend.
From S2P Require Import WritebackStart.

(** * Forgetting buffers that are not dirty *)

Section Forget.
Context (P : dbuf -> Prop) `{forall d, Decision (P d)}.

Lemma sorted_filter l : sorted l -> sorted (filter P l).
Proof.
  induction l as [| d l IH]; intros Hs; [done |]. apply sorted_cons in Hs as (Hd & Hl & Hb). rewrite filter_cons. case_decide; [| by apply IH].
  apply sorted_cons. split; [done |]. split; [by apply IH |]. intros y [_ Hy]%list_elem_of_filter. by apply Hb.
Qed.
Lemma filter_link d l : sorted (d :: l) -> (forall e, e ∈ l -> ~ P e -> is_dirty e = false) -> link (Some d) (head (filter P l)) = link (Some d) (head l).
Proof.
  intros Hs Hc. destruct l as [| e l]; [done |]. rewrite filter_cons. case_decide as HP; [done |]. cbn [head].
  rewrite (link_clean_r _ e) by (apply Hc; [apply list_elem_of_here | done]). destruct (head (filter P l)) as [f |] eqn:Ef; [| done].
  apply head_Some_elem_of, list_elem_of_filter in Ef as [_ Hf]. apply sorted_cons in Hs as (Hd & Hs & Hb). apply sorted_cons in Hs as ((_ & He & _) & _ & Hb').
  specialize (Hb e (list_elem_of_here _ _)). specialize (Hb' f Hf). apply link_far; [done |]. unfold before, end_of in *. lia.
Qed.
Lemma filter_counts l : sorted l -> (forall e, e ∈ l -> ~ P e -> is_dirty e = false) -> runs (filter P l) = runs l /\ dirty_bytes (filter P l) = dirty_bytes l.
Proof.
  induction l as [| d l IH]; intros Hs Hc; [done |]. pose proof Hs as (_ & Hl & _)%sorted_cons.
  destruct IH as [IH1 IH2]; [done | intros e He; apply Hc; by apply list_elem_of_further |]. rewrite filter_cons. case_decide as HP.
  - cbn [runs dirty_bytes]. rewrite IH1, IH2, filter_link; [done | done |]. intros e He. apply Hc. by apply list_elem_of_further.
  - cbn [runs dirty_bytes]. rewrite link_clean_l, (Hc d) by (try done; try apply Hc; try apply list_elem_of_here; done). simpl. lia.
Qed.
Lemma refs_filter l i : refs l i = refs (filter P l) i + refs (filter (fun d => ~ P d) l) i.
Proof.
  induction l as [| d l IH]; [done |]. rewrite !filter_cons. cbn [refs]. rewrite IH. destruct (decide (P d)) as [HP | HP].
  - rewrite decide_False by tauto. cbn [refs]. lia.
  - rewrite decide_True by done. cbn [refs]. lia.
Qed.

Lemma look_filter l ino x : sorted l ->
  look (filter P l) ino x = match find_buf l ino x with None => None | Some d => if decide (P d) then Some (cell_of x d) else None end.
Proof.
  intros Hs. destruct (find_buf l ino x) as [d |] eqn:E.
  - apply find_buf_some in E as [Hd Hx]. case_decide as HP.
    + apply look_some; [by apply sorted_filter | by apply list_elem_of_filter | done].
    + apply look_none. intros e [He Hel]%list_elem_of_filter Hxe.
      pose proof (look_some _ _ _ Hs d Hd Hx). apply HP. replace d with e; [done |].
      destruct (list_elem_of_split l d Hd) as (a & b & ->). apply sorted_app in Hs as (_ & Hs & Hab). apply sorted_cons in Hs as (_ & _ & Hb).
      rewrite elem_of_app, elem_of_cons in Hel. destruct Hel as [Hel | [-> | Hel]]; [| done |]; exfalso.
      * specialize (Hab e d Hel (list_elem_of_here _ _)). unfold covers, before in *. lia.
      * specialize (Hb e Hel). unfold covers, before in *. lia.
  - apply look_none. intros d [_ Hd]%list_elem_of_filter Hx.
    pose proof (look_some _ _ _ Hs d Hd Hx) as El. by rewrite look_find, E in El.
Qed.
End Forget.

Lemma unref_all_ok l : forall h n, counted h (fun i => n i + refs l i) -> (forall i, 0 <= n i) ->
  exists h', unref_all h l = Ok h' /\ counted h' n /\ same_bytes h h'.
Proof.
  induction l as [| d l IH]; intros h n Hc Hn; cbn [unref_all].
  { exists h. split; [done |]. split; [| apply same_bytes_refl]. refine (counted_ext _ _ _ _ Hc). intros. simpl. lia. }
  assert (exists h1, unref_buf h d.2 = Ok h1 /\ counted h1 (fun i => n i + refs l i) /\ same_bytes h h1) as (h1 & -> & Hc1 & Hs1).
  { unfold unref_buf. cbn [refs] in Hc. unfold holds in Hc at 1. destruct (buf d.2) as [[i o] |].
    - destruct (unref_counted h _ i Hc) as (h1 & -> & Hc1 & Hs1).
      { cbv beta. rewrite one_eq. specialize (Hn i). pose proof (refs_nonneg l i). lia. }
      exists h1. split; [done |]. split; [| done]. refine (counted_ext _ _ _ _ Hc1). intros. lia.
    - exists h. split; [done |]. split; [| apply same_bytes_refl]. refine (counted_ext _ _ _ _ Hc). intros. lia. }
  cbn [rbind]. destruct (IH h1 n Hc1 Hn) as (h2 & -> & Hc2 & Hs2). exists h2. split; [done |]. split; [done |]. by apply (same_bytes_trans _ h1).
Qed.

(** The buffers for which [P] does not hold are forgotten. *)
Lemma forget_ok (P : dbuf -> Prop) `{forall d, Decision (P d)} c : cache_ok c -> (forall d, d ∈ dirty_buffers c -> ~ P d -> is_dirty d = false) ->
  exists h, unref_all (heap c) (filter (fun d => ~ P d) (dirty_buffers c)) = Ok h /\
    cache_ok (with_heap (with_bufs c (filter P (dirty_buffers c))) h) /\
    (forall th, others_kept (view_of (mk_client c th)) (view_of (mk_client (with_heap (with_bufs c (filter P (dirty_buffers c))) h) th))) /\
    forall ino x, cached (with_heap (with_bufs c (filter P (dirty_buffers c))) h) ino x =
      match find_buf (dirty_buffers c) ino x with None => None | Some d => if decide (P d) then cached c ino x else None end.
Proof.
  intros [[Hs Hi] Hdata Hfo] Hcl. set (l := dirty_buffers c) in *. pose proof (inv_heap _ _ Hi) as Hh.
  destruct (unref_all_ok (filter (fun d => ~ P d) l) (heap c) (fun i => refs (filter P l) i + frefs (flushed_buffers c) i)) as (h & Eu & Hc & Hsame).
  { refine (counted_ext _ _ _ _ (heap_counted _ _ _ Hh)). intros i. rewrite (refs_filter P l i). lia. }
  { intros i. pose proof (refs_nonneg (filter P l) i). pose proof (frefs_nonneg (flushed_buffers c) i). lia. }
  assert (Hh' : heap_ok h (filter P l) (flushed_buffers c)).
  { apply (heap_keep (heap c) h l _ (flushed_buffers c)); [done | done | intros d [_ ?]%list_elem_of_filter; done | done]. }
  destruct (filter_counts P l Hs Hcl) as [Er Eb]. pose proof (sorted_filter P l Hs) as Hs'.
  set (c' := with_heap (with_bufs c (filter P l)) h).
  destruct (flights_keep c c' (fun i => refs (filter P l) i + frefs (flushed_buffers c) i) (fun _ => True) Hfo) as [Hfo' Hfl]; [by symmetry; apply filter_all_true | apply Hfo | exact Hsame | exact Hc | |].
  { intros i. change (flushed_buffers c') with (flushed_buffers c). pose proof (refs_nonneg (filter P l) i). lia. }
  exists h. split; [done |]. split; [split; [split; [done |] | | done] | split].
  - destruct Hi as [I1 I2 _]. split; [change (writeback_bytes c = u64 (dirty_bytes (filter P l))); by rewrite Eb | change (writeback_queue_size c = runs (filter P l)); by rewrite Er | done].
  - intros d [_ Hd]%list_elem_of_filter. by apply Hdata.
  - intros th. by split.
  - intros ino x. unfold cached. cbn [with_heap with_bufs dirty_buffers heap]. fold l. pose proof (look_filter P l ino x Hs) as El.
    rewrite El. rewrite (look_find l). destruct (find_buf l ino x) as [d |] eqn:Ed; [| done]. case_decide; [| done]. cbn [option_map].
    destruct (cell_of x d) as [[s f] p]. by rewrite (byte_keep (heap c) h _ _ ino x s f p Hsame Hs' Hh' El).
Qed.

(** * Changing states *)

Lemma cached_find c ino x : cached c ino x =
  match find_buf (dirty_buffers c) ino x with None => None | Some d => Some (state d.2, flush_id d.2, byte_at (heap c) (cell_of x d).2) end.
Proof. unfold cached. rewrite look_find. by destruct (find_buf _ ino x). Qed.

Section Remark.
Context (g : dbuf -> dbuf) (Hg : in_place g) (Hgd : forall d, is_dirty (g d) = is_dirty d).
Lemma has_buf_map d : has_buf (g d).2 = has_buf d.2.
Proof. unfold has_buf. by destruct (Hg d) as (_ & _ & ->). Qed.
Lemma joined_map p d : joined (g p) (g d) = joined p d.
Proof. unfold joined, buf_end. rewrite !Hgd, !has_buf_map. by destruct (Hg p) as (-> & -> & _), (Hg d) as (-> & _). Qed.
Lemma counts_map l : runs (map g l) = runs l /\ dirty_bytes (map g l) = dirty_bytes l.
Proof.
  induction l as [| d l [IH1 IH2]]; [done |]. cbn [map runs dirty_bytes]. rewrite IH1, IH2, Hgd, has_buf_map. destruct (Hg d) as (_ & -> & _). split; [| done].
  destruct l as [| e l]; [done |]. cbn [map head link]. by rewrite joined_map.
Qed.

Lemma remark_ok c (c' := with_bufs c (map g (dirty_buffers c))) : cache_ok c ->
  cache_ok c' /\ (forall th, others_kept (view_of (mk_client c th)) (view_of (mk_client c' th))) /\
  forall ino x, cached c' ino x =
    match find_buf (dirty_buffers c) ino x with None => None | Some d => restate (cached c ino x) (state (g d).2) (flush_id (g d).2) end.
Proof.
  intros [[Hs Hi] Hdata Hfo]. destruct (counts_map (dirty_buffers c)) as [Er Eb]. split; [| split; [done |]].
  - split; [split; [by apply sorted_map |] | | by destruct Hfo; split].
    + destruct Hi as [I1 I2 I3]. split.
      * change (writeback_bytes c = u64 (dirty_bytes (map g (dirty_buffers c)))). by rewrite Eb.
      * change (writeback_queue_size c = runs (map g (dirty_buffers c))). by rewrite Er.
      * destruct I3 as [Hc Hin]. split.
        -- refine (counted_ext _ _ _ _ Hc). intros i. change (dirty_buffers c') with (map g (dirty_buffers c)). by rewrite refs_map.
        -- intros d (e & -> & He)%list_elem_of_fmap. rewrite in_heap_map by done. by apply Hin.
    + intros d (e & -> & He)%list_elem_of_fmap. rewrite has_buf_map. by apply Hdata.
  - intros ino x. rewrite !cached_find. change (dirty_buffers c') with (map g (dirty_buffers c)). rewrite (find_buf_map g Hg).
    destruct (find_buf _ ino x) as [d |]; [| done]. cbn [option_map restate]. by rewrite (cell_map g Hg).
Qed.
End Remark.

(** * Syncing *)

Definition move_buf (from to : Z) (d : dbuf) : dbuf := if state d.2 =? from then (d.1, set_state d.2 to (flush_id d.2)) else d.
Lemma move_state_ok from to c th : cache_ok c -> from <> CACHE_DIRTY -> to <> CACHE_DIRTY ->
  cache_ok (move_state from to c) /\ others_kept (view_of (mk_client c th)) (view_of (mk_client (move_state from to c) th)) /\
  forall ino x, cached (move_state from to c) ino x = moved from to (cached c ino x).
Proof.
  intros Hok Hf Ht.
  destruct (remark_ok (move_buf from to)) with (c := c) as (H1 & H2 & H3); [| | done |].
  - intros d. unfold move_buf. by destruct (state d.2 =? from).
  - intros d. unfold move_buf, is_dirty. destruct (Z.eqb_spec (state d.2) from) as [-> |]; [| done]. cbn [set_state state snd].
    by rewrite (proj2 (Z.eqb_neq to _) Ht), (proj2 (Z.eqb_neq from _) Hf).
  - split; [done |]. split; [done |]. intros ino x. unfold move_state. fold (move_buf from to). change (fun d => _) with (move_buf from to).
    rewrite H3, cached_find. destruct (find_buf _ ino x) as [d |]; [| done]. cbn [restate moved]. unfold move_buf. by destruct (state d.2 =? from).
Qed.

Lemma fsync_ok_ok c th : cache_ok c -> exists c', fsync_ok c = Ok c' /\ cache_ok c' /\ writeback_queue c' = writeback_queue c /\
  others_kept (view_of (mk_client c th)) (view_of (mk_client c' th)) /\ forall ino x, cached c' ino x = synced (cached c ino x).
Proof.
  intros Hok. unfold fsync_ok.
  destruct (forget_ok (fun d => state d.2 <> CACHE_FLUSHING) c Hok) as (h & Eh & H1 & H2 & H3).
  { intros d _ E%dec_stable. unfold is_dirty. by rewrite E. }
  rewrite (list_filter_iff (fun d => state d.2 = CACHE_FLUSHING) (fun d : dbuf => ~ state d.2 <> CACHE_FLUSHING)).
  2: { intros d. destruct (decide (state d.2 = CACHE_FLUSHING)); tauto. }
  rewrite Eh. eexists. split; [done |]. split; [done |]. split; [done |]. split; [done |]. intros ino x. rewrite H3, cached_find.
  destruct (find_buf _ ino x) as [d |]; [| done]. cbn [synced]. destruct (Z.eqb_spec (state d.2) CACHE_FLUSHING); case_decide; try done.
Qed.

(** * An operation comes back *)

Section Landing.
Context (ino off n id : Z) (Hoff : 0 <= off) (Hn : 0 <= n) (Hend : off + n < 18446744073709551616).
(** Buffers that are being written by the operation lie in its range. *)
Definition own_range (l : list dbuf) : Prop := forall d, d ∈ l -> in_flush id d = true -> d.1.1 = ino /\ off <= d.1.2 /\ end_of d <= off + n.
Definition written_buf (d : dbuf) : dbuf := if in_flush id d then (d.1, set_state d.2 CACHE_WRITTEN 0) else d.
Definition kept_buf (d : dbuf) : Prop := in_flush id d = false.

Lemma own_later d l : sorted (d :: l) -> own_range (d :: l) -> ino <= d.1.1 -> (d.1.1 =? ino) && (d.1.2 <? u64 (off + n)) = false ->
  forall e, e ∈ d :: l -> in_flush id e = false.
Proof.
  intros (Hd & Hl & Hb)%sorted_cons Ho Hi E e He. destruct (in_flush id e) eqn:Ee; [| done]. exfalso. rewrite u64_small in E by lia.
  destruct (Ho e He Ee) as (E1 & E2 & E3). assert (0 < len e.2) as Hlen.
  { apply elem_of_cons in He as [-> | He]; [by destruct Hd as (_ & ? & _) |]. destruct Hl as [_ Hl]. rewrite Forall_forall in Hl. by destruct (Hl e He) as (_ & ? & _). }
  apply andb_false_iff in E. rewrite Z.eqb_neq, Z.ltb_ge in E. destruct Hd as (_ & Hdl & _).
  apply elem_of_cons in He as [-> | He]; [unfold end_of in *; lia |]. specialize (Hb e He). unfold before, end_of in *. lia.
Qed.
Lemma own_tail d l : own_range (d :: l) -> own_range l.
Proof. intros Ho e He. apply Ho. by apply list_elem_of_further. Qed.

Lemma written_loop_map l : sorted l -> own_range l -> (forall d, d ∈ l -> ino <= d.1.1) -> written_loop ino off n id l = map written_buf l.
Proof.
  induction l as [| d l IH]; intros Hs Ho Hi; [done |]. cbn [written_loop map]. destruct (_ && _) eqn:E.
  - fold (written_buf d). f_equal. apply sorted_cons in Hs as (_ & Hs & _). apply IH; [done | by apply (own_tail d) |]. intros e He. apply Hi. by apply list_elem_of_further.
  - pose proof (own_later d l Hs Ho (Hi d (list_elem_of_here _ _)) E) as Hno. fold (map written_buf (d :: l)). symmetry.
    change (map written_buf (d :: l) = d :: l). clear -Hno. induction (d :: l) as [| e m IH]; [done |]. cbn [map].
    unfold written_buf at 1. rewrite (Hno e (list_elem_of_here _ _)). f_equal. apply IH. intros f Hf. apply Hno. by apply list_elem_of_further.
Qed.
Lemma delete_loop_filter l : forall h, sorted l -> own_range l -> (forall d, d ∈ l -> ino <= d.1.1) ->
  delete_loop ino off n id h l = let* h' := unref_all h (filter (fun d => ~ kept_buf d) l) in Ok (h', filter kept_buf l).
Proof.
  induction l as [| d l IH]; intros h Hs Ho Hi; [done |]. cbn [delete_loop]. destruct (_ && _) eqn:E.
  - pose proof Hs as (_ & Hs' & _)%sorted_cons. destruct (in_flush id d) eqn:Ef.
    + rewrite filter_cons_True, (filter_cons_False kept_buf) by (unfold kept_buf; congruence). cbn [unref_all]. destruct (unref_buf h d.2) as [h1 |]; [| done]. cbn [rbind].
      apply IH; [done | by apply (own_tail d) |]. intros e He. apply Hi. by apply list_elem_of_further.
    + rewrite filter_cons_False, (filter_cons_True kept_buf) by (unfold kept_buf; tauto). rewrite IH; [| done | by apply (own_tail d) | intros e He; apply Hi; by apply list_elem_of_further].
      by destruct (unref_all h _).
  - pose proof (own_later d l Hs Ho (Hi d (list_elem_of_here _ _)) E) as Hno.
    rewrite (filter_all_true kept_buf), (filter_all_false (fun d => ~ kept_buf d)); [done | |]; intros e He; unfold kept_buf; rewrite (Hno e He); tauto.
Qed.

Lemma find_from c pre post : sorted (dirty_buffers c) -> own_range (dirty_buffers c) -> find_dirty c ino off = (pre, post) ->
  rev pre ++ post = dirty_buffers c /\ sorted post /\ own_range post /\ (forall d, d ∈ post -> ino <= d.1.1) /\ (forall d, d ∈ rev pre -> in_flush id d = false).
Proof.
  intros Hs Ho E. destruct (find_dirty_spec c ino off pre post Hs E) as (El & Hpre & Hpost & Hhead). rewrite <- El in Hs, Ho.
  pose proof Hs as (Hsp & Hs' & _)%sorted_app. split; [done |]. split; [done |]. split; [intros d Hd; apply Ho, elem_of_app; by right |]. split.
  - rewrite El in Hs. apply (find_dirty_from c ino off pre post Hs E).
  - intros d Hd. destruct (in_flush id d) eqn:Ed; [| done]. exfalso. destruct (Ho d ltac:(rewrite elem_of_app; by left) Ed) as (E1 & E2 & E3).
    destruct Hsp as [_ Hsp]. rewrite Forall_forall in Hsp. destruct (Hsp d Hd) as (_ & ? & _). rewrite elem_of_rev in Hd. specialize (Hpre d Hd E1). unfold end_of in *. lia.
Qed.
Lemma mark_written_map c : sorted (dirty_buffers c) -> own_range (dirty_buffers c) ->
  mark_flush_written ino off n id c = with_bufs c (map written_buf (dirty_buffers c)).
Proof.
  intros Hs Ho. unfold mark_flush_written. destruct (find_dirty c ino off) as [pre post] eqn:E.
  destruct (find_from c pre post Hs Ho E) as (El & Hs' & Ho' & Hi & Hno). rewrite rev_append_rev, written_loop_map, <- El, map_app by done. do 2 f_equal.
  clear -Hno. induction (rev pre) as [| d l IH]; [done |]. cbn [map]. unfold written_buf at 1. rewrite (Hno d (list_elem_of_here _ _)). f_equal.
  apply IH. intros e He. apply Hno. by apply list_elem_of_further.
Qed.
Lemma delete_flush_filter c : sorted (dirty_buffers c) -> own_range (dirty_buffers c) ->
  delete_flush ino off n id c = let* h := unref_all (heap c) (filter (fun d => ~ kept_buf d) (dirty_buffers c)) in
    Ok (with_heap (with_bufs c (filter kept_buf (dirty_buffers c))) h).
Proof.
  intros Hs Ho. unfold delete_flush. destruct (find_dirty c ino off) as [pre post] eqn:E.
  destruct (find_from c pre post Hs Ho E) as (El & Hs' & Ho' & Hi & Hno). rewrite delete_loop_filter by done.
  rewrite <- El, !filter_app, (filter_all_true kept_buf (rev pre)) by done.
  rewrite (filter_all_false (fun d => ~ kept_buf d) (rev pre)) by (intros d Hd Hk; apply Hk; by apply Hno). rewrite app_nil_l.
  destruct (unref_all _ _) as [h |]; [| done]. cbn [rbind]. by rewrite rev_append_rev.
Qed.

Lemma of_flush_find c x i : of_flush (cached c i x) id = match find_buf (dirty_buffers c) i x with None => false | Some d => in_flush id d end.
Proof. rewrite cached_find. by destruct (find_buf _ i x). Qed.

Lemma mark_written_ok c th (c' := mark_flush_written ino off n id c) : cache_ok c -> own_range (dirty_buffers c) ->
  cache_ok c' /\ writeback_queue c' = writeback_queue c /\ others_kept (view_of (mk_client c th)) (view_of (mk_client c' th)) /\
  forall i x, cached c' i x = landed id false (cached c i x).
Proof.
  intros Hok Ho. unfold c'. rewrite mark_written_map by (try done; apply Hok).
  destruct (remark_ok written_buf) with (c := c) as (H1 & H2 & H3); [| | done |].
  - intros d. unfold written_buf. by destruct (in_flush id d).
  - intros d. unfold written_buf, is_dirty. destruct (in_flush id d) eqn:E; [| done]. unfold in_flush in E. apply andb_true_iff in E as [_ E%Z.eqb_eq]. by rewrite E.
  - split; [done |]. split; [done |]. split; [done |]. intros i x. rewrite H3. unfold landed. rewrite of_flush_find, cached_find.
    destruct (find_buf _ i x) as [d |]; [| done]. unfold written_buf. by destruct (in_flush id d).
Qed.
Lemma delete_flush_ok c th : cache_ok c -> own_range (dirty_buffers c) ->
  exists c', delete_flush ino off n id c = Ok c' /\ cache_ok c' /\ writeback_queue c' = writeback_queue c /\
    others_kept (view_of (mk_client c th)) (view_of (mk_client c' th)) /\ (forall i x, cached c' i x = landed id true (cached c i x)).
Proof.
  intros Hok Ho. rewrite delete_flush_filter by (try done; apply Hok).
  destruct (forget_ok kept_buf c Hok) as (h & -> & H1 & H2 & H3).
  { intros d _ Hk. unfold kept_buf, in_flush, is_dirty in *. destruct (flush_id d.2 =? id); [| done]. destruct (Z.eqb_spec (state d.2) CACHE_REPEATING) as [-> |]; [done |]. by simpl in Hk. }
  eexists. split; [done |]. split; [done |]. split; [done |]. split; [done |]. intros i x. rewrite H3. unfold landed. rewrite of_flush_find.
  rewrite cached_find. destruct (find_buf _ i x) as [d |]; [| done]. unfold kept_buf. destruct (in_flush id d); case_decide; done.
Qed.
End Landing.

(** The references of an operation are dropped. *)
Lemma unref_flushed_ok id fl : forall h n, counted h (fun i => n i + frefs (filter (fun p => p.1 = id) fl) i) -> (forall i, 0 <= n i) ->
  exists h', unref_flushed id h fl = Ok h' /\ counted h' n /\ same_bytes h h'.
Proof.
  induction fl as [| [j i] fl IH]; intros h n Hc Hn; cbn [unref_flushed].
  { exists h. split; [done |]. split; [| apply same_bytes_refl]. refine (counted_ext _ _ _ _ Hc). intros. simpl. lia. }
  rewrite filter_cons in Hc. cbn [fst] in Hc. destruct (Z.eqb_spec j id) as [-> | Hj].
  - rewrite decide_True in Hc by done. cbn [frefs snd] in Hc. destruct (unref_counted h _ i Hc) as (h1 & -> & Hc1 & Hs1).
    { cbv beta. rewrite one_eq. specialize (Hn i). pose proof (frefs_nonneg (filter (fun p => p.1 = id) fl) i). lia. }
    cbn [rbind]. destruct (IH h1 n) as (h2 & -> & Hc2 & Hs2); [| done |].
    + refine (counted_ext _ _ _ _ Hc1). intros. lia.
    + exists h2. split; [done |]. split; [done |]. by apply (same_bytes_trans _ h1).
  - rewrite decide_False in Hc by done. cbn [rbind]. by apply IH.
Qed.
Lemma frefs_filter id fl i : frefs fl i = frefs (filter (fun p => p.1 <> id) fl) i + frefs (filter (fun p => p.1 = id) fl) i.
Proof.
  induction fl as [| [j k] fl IH]; [done |]. rewrite !filter_cons. cbn [frefs fst snd]. rewrite IH. destruct (decide (j = id)) as [-> | Hj].
  - rewrite decide_False by tauto. cbn [frefs snd]. lia.
  - rewrite decide_True by done. cbn [frefs snd]. lia.
Qed.
Lemma filter_op_refs id ops :
  filter (fun p => p.1 <> id) (concat (map op_refs ops)) = concat (map op_refs (filter (fun o => fl_id o <> id) ops)).
Proof.
  induction ops as [| o ops IH]; [done |]. cbn [map concat]. rewrite filter_app, IH, filter_cons. case_decide as Ho.
  - cbn [map concat]. f_equal. apply filter_all_true. intros p (q & -> & _)%list_elem_of_fmap. done.
  - rewrite filter_all_false; [done |]. intros p (q & -> & _)%list_elem_of_fmap. intros Hn. exact (Hn Ho).
Qed.

Section Done.
Context (op : flush_op_t) (c : writeback_cache_t) (th : list flight) (Hok : cache_ok c).
Notation id := (fl_id op).
Definition dropped (h : gmap nat block_t) : writeback_cache_t :=
  with_heap (with_flushes c (writebacks_active c) (last_flush_id c)
    (filter (fun p => p.1 <> id) (flushed_buffers c)) (filter (fun o => fl_id o <> id) (issued c))) h.

Lemma drop_flight : exists h, unref_flushed id (heap c) (flushed_buffers c) = Ok h /\ cache_ok (dropped h) /\ (forall ino x, cached (dropped h) ino x = cached c ino x) /\
  v_flights (view_of (mk_client (dropped h) th)) = filter (fun f => f_id f <> id) (v_flights (view_of (mk_client c th))).
Proof.
  destruct Hok as [[Hs Hi] Hdata Hfo]. pose proof (inv_heap _ _ Hi) as Hh. set (l := dirty_buffers c) in *. set (fl := filter (fun p => p.1 <> id) (flushed_buffers c)).
  destruct (unref_flushed_ok id (flushed_buffers c) (heap c) (fun i => refs l i + frefs fl i)) as (h & Eu & Hc & Hsame).
  { refine (counted_ext _ _ _ _ (heap_counted _ _ _ Hh)). intros i. rewrite (frefs_filter id (flushed_buffers c) i). unfold fl. lia. }
  { intros i. pose proof (refs_nonneg l i). pose proof (frefs_nonneg fl i). lia. }
  assert (Hh' : heap_ok h l fl) by (by apply (heap_keep (heap c) h l _ (flushed_buffers c))).
  destruct (flights_keep c (dropped h) (fun i => refs l i + frefs fl i) (fun o => fl_id o <> id) Hfo) as [Hfo' Hfl]; [done | | exact Hsame | exact Hc | |].
  { cbn [dropped with_heap with_flushes flushed_buffers issued]. by rewrite <- filter_op_refs, (fo_refs c Hfo). }
  { intros i. change (flushed_buffers (dropped h)) with fl. pose proof (refs_nonneg l i). lia. }
  exists h. split; [done |]. split; [split; [split; [done |] | done | done] |]. { destruct Hi as [I1 I2 _]. by split. }
  split.
  - intros ino x. unfold cached. change (dirty_buffers (dropped h)) with l. change (heap (dropped h)) with h. fold l.
    destruct (look l ino x) as [[[s f] p] |] eqn:El; [| done]. by rewrite (byte_keep (heap c) h l fl ino x s f p Hsame Hs Hh' El).
  - cbn [view_of v_flights wb]. rewrite Hfl. cbn [dropped with_heap with_flushes issued]. clear.
    induction (issued c) as [| o ops IH]; [done |]. cbn [map]. rewrite !filter_cons. cbn [f_id flight_of]. case_decide; cbn [map]; by rewrite IH.
Qed.

Context (op_flags : Z) (Hop : op ∈ issued c) (Hown : own_range (fl_inode op) (fl_offset op) (fl_len op) (fl_id op) (dirty_buffers c)).
Lemma flush_done_ok : exists c', flush_done op op_flags c = Ok c' /\ cache_ok c' /\ writeback_queue c' = writeback_queue c /\
  promises (WDone op op_flags) (view_of (mk_client c th)) (view_of (mk_client c' th)).
Proof.
  destruct drop_flight as (h & Eu & Hok1 & Hc1 & Hf1). unfold flush_done. rewrite Eu. cbn [rbind]. fold (dropped h).
  pose proof (fo_range c (co_flights _ Hok) op Hop) as [Hoff Hend].
  pose proof (fo_len c (co_flights _ Hok) op Hop) as Hlen. pose proof (zlen_nonneg (iov_data (heap c) (fl_iov op))).
  assert (exists c2, (if negb (Z.land op_flags OP_IMMEDIATE_COMMIT =? 0) then delete_flush (fl_inode op) (fl_offset op) (fl_len op) id (dropped h)
      else Ok (mark_flush_written (fl_inode op) (fl_offset op) (fl_len op) id (dropped h))) = Ok c2 /\ cache_ok c2 /\
      writeback_queue c2 = writeback_queue c /\ others_kept (view_of (mk_client (dropped h) th)) (view_of (mk_client c2 th)) /\
      forall ino x, cached c2 ino x = landed id (negb (Z.land op_flags OP_IMMEDIATE_COMMIT =? 0)) (cached c ino x)) as (c2 & -> & Hok2 & Hq & Ho & Hc2).
  { destruct (negb _).
    - destruct (delete_flush_ok (fl_inode op) (fl_offset op) (fl_len op) id ltac:(lia) ltac:(lia) ltac:(lia) (dropped h) th Hok1 Hown) as (c2 & -> & H1 & H2 & H3 & H4).
      exists c2. split; [done |]. split; [done |]. split; [done |]. split; [done |]. intros ino x. by rewrite H4, Hc1.
    - destruct (mark_written_ok (fl_inode op) (fl_offset op) (fl_len op) id ltac:(lia) ltac:(lia) ltac:(lia) (dropped h) th Hok1 Hown) as (H1 & H2 & H3 & H4).
      eexists. split; [done |]. split; [done |]. split; [done |]. split; [done |]. intros ino x. by rewrite H4, Hc1. }
  cbn [rbind]. eexists. split; [done |]. split; [destruct Hok2 as [Hw Hd [F1 F2 F3 F4]]; split; [by destruct Hw as [? [? ? ?]] | done | by split] |].
  split; [done |]. destruct Ho as (O1 & O2 & O3). split; [| split; [done | split; [exact O3 | exact Hc2]]]. rewrite <- Hf1. exact O1.
Qed.
End Done.
