(* ===== verification/WritebackMain.v ===== *)
(** The write-back cache keeps its promises: every event of [WritebackSpec.v], in any
    order, is handled without an assertion failing, a block of memory used after it
    has been freed or kept when nothing refers to it, and does to every byte what
    [promises] says. *)

From S2P Require Import Prelude.
From S2P Require Import Writeback.
From S2P Require Import WritebackList.
From S2P Require Import WritebackCut.
From S2P Require Import WritebackOk.
From S2P Require Import WritebackFlush.
From S2P Require Import WritebackSpec.
From S2P Require Import WritebackSend.
From S2P Require Import WritebackStart.
From S2P Require Import WritebackRepeat.
From S2P Require Import WritebackDone.

(** * Writes *)

Section Writes.
Context (malloc : gset nat -> nat) (Hmalloc : forall d, malloc d ∉ d).
Context (op : cluster_op_t) (st fid : Z) (Hop : op_ok op) (Hw : opcode op = OSD_OP_WRITE).
Context (c : writeback_cache_t) (Hok : cache_ok c) (c1 : writeback_cache_t) (a b : list dbuf).
Notation c' := (inserted malloc op st fid c1 a b (concat (iov op))).
Notation n := (new_buf malloc op st fid c1).
Context (Hcut : cut_to op c (dirty_buffers c) c1 (a ++ b)) (Hwb : wb_ok c').
Context (Hcells : forall ino x, cached c' ino x = if decide (in_op op ino x) then Some (written_cell op st fid x) else cached c ino x).

Lemma write_bufs : dirty_buffers c' = a ++ n :: b.
Proof. done. Qed.
Lemma write_apart d : d ∈ a ++ b -> buf_ok d /\ ~ in_op op d.1.1 d.1.2.
Proof.
  intros Hd. destruct Hwb as [Hs _]. rewrite write_bufs in Hs. pose proof Hs as [_ Hf]. rewrite Forall_forall in Hf.
  assert (buf_ok d) as Hd' by (apply Hf; rewrite elem_of_app, elem_of_cons; apply elem_of_app in Hd; tauto). split; [done |].
  apply sorted_app in Hs as (_ & Hs & Hab). apply sorted_cons in Hs as (_ & _ & Hb). unfold in_op, inside. destruct Hd' as (_ & Hl & _).
  apply elem_of_app in Hd as [Hd | Hd].
  - specialize (Hab d n Hd (list_elem_of_here _ _)). unfold before, end_of in Hab. simpl in Hab. lia.
  - specialize (Hb d Hd). unfold before, end_of in Hb. simpl in Hb. lia.
Qed.
Lemma write_data : all_data c'.
Proof.
  intros d Hd. rewrite write_bufs, elem_of_app, elem_of_cons in Hd. assert (d = n \/ d ∈ a ++ b) as [-> | Hd'] by (rewrite elem_of_app; tauto).
  { unfold has_buf, new_buf. simpl. by rewrite Hw. }
  destruct (write_apart d Hd') as [(H0 & Hl & _) Hx]. pose proof (look_some _ d.1.1 d.1.2 (cut_sorted _ _ _ _ _ Hcut) d Hd') as Hlook.
  rewrite (cut_look _ _ _ _ _ Hcut _ _ Hx) in Hlook. specialize (Hlook ltac:(unfold covers, end_of; split; [done | lia])).
  apply look_inv in Hlook as (e & He & _ & E). pose proof (co_data _ Hok e He) as Hb. injection E as _ _ E.
  unfold has_buf in *. destruct (buf e.2) as [[i o] |]; [| done]. by destruct (buf d.2) as [[j p] |].
Qed.
Lemma write_rest : issued c' = issued c /\ flushed_buffers c' = flushed_buffers c /\ last_flush_id c' = last_flush_id c.
Proof. destruct (cut_rest _ _ _ _ _ Hcut) as (_ & E1 & _ & _ & E2 & E3). done. Qed.
Lemma write_flights : flights_ok c' /\ map (flight_of (heap c')) (issued c') = map (flight_of (heap c)) (issued c).
Proof.
  destruct write_rest as (E1 & E2 & _). pose proof (co_flights _ Hok) as Hfo.
  set (c2 := with_heap c (heap c1)). destruct (cut_rest _ _ _ _ _ Hcut) as (_ & _ & _ & _ & E3 & _).
  pose proof (heap_counted _ _ _ (inv_heap _ _ (cut_inv _ _ _ _ _ Hcut))) as Hc1.
  destruct (flights_keep c c2 _ (fun _ => True) Hfo (eq_sym (filter_all_true _ _ (fun _ _ => I))) (fo_refs c Hfo) (cut_bytes _ _ _ _ _ Hcut) Hc1) as [Hfo2 Hfl2].
  { intros i. change (flushed_buffers c2) with (flushed_buffers c). rewrite E3. pose proof (refs_nonneg (a ++ b) i). lia. }
  assert (Hpart : forall o p, o ∈ issued c -> p ∈ fl_iov o -> part_in (heap c') p /\ part_data (heap c') p = part_data (heap c2) p).
  { intros o p Ho Hp. pose proof (fo_parts c2 Hfo2 o p Ho Hp) as (m & Em & Hm). cbn [inserted with_queue with_heap heap]. unfold new_heap. rewrite Hw.
    cbn [Z.eqb OSD_OP_WRITE OSD_OP_DELETE Pos.eqb]. unfold part_in, part_data. change (heap c2) with (heap c1) in Em |- *. rewrite Em.
    rewrite lookup_insert_ne by (intros E; rewrite <- E, (fresh_none malloc Hmalloc c1) in Em; done). rewrite Em. split; [by exists m | done]. }
  assert (Hiov : forall o, o ∈ issued c -> iov_data (heap c') (fl_iov o) = iov_data (heap c2) (fl_iov o)).
  { intros o Ho. unfold iov_data. f_equal. apply map_ext_in. intros p Hp%list_elem_of_In. by apply (Hpart o). }
  rewrite E1. split.
  - split; rewrite ?E1, ?E2; [apply Hfo | | |].
    + intros o p Ho Hp. by apply (Hpart o).
    + intros o Ho. rewrite Hiov by done. apply (fo_len c2 Hfo2 o Ho).
    + apply Hfo.
  - change (issued c2) with (issued c) in Hfl2. rewrite <- Hfl2. apply map_ext_in. intros o Ho%list_elem_of_In. unfold flight_of. by rewrite Hiov.
Qed.
Lemma write_cache_ok : cache_ok c'.
Proof. split; [done | apply write_data | apply write_flights]. Qed.

(** The new buffer is in the queue, or touches something dirty that is. *)
Lemma write_queue : st = CACHE_DIRTY -> writeback_queue c' = writeback_queue c ++ [(inode op, offset op)] \/
  (writeback_queue c' = writeback_queue c /\ (dirty_cell (cached c') (inode op) (offset op - 1) \/ dirty_cell (cached c') (inode op) (offset op + op_len op))).
Proof.
  intros Hst. destruct (cut_rest _ _ _ _ _ Hcut) as (_ & _ & _ & Eq & _). cbn [inserted with_queue writeback_queue]. unfold queue_after. rewrite Eq.
  assert (Hn : is_dirty n = true) by (unfold is_dirty; simpl; by rewrite Hst). rewrite Hn. cbn [andb].
  pose proof (left_merged (rev a) n Hn) as HL. pose proof (right_merged n b Hn) as HR. destruct Hwb as [Hs _]. rewrite !dirty_cell_at, write_bufs by done.
  pose proof Hs as [_ Hf]. rewrite write_bufs, Forall_forall in Hf. destruct Hop as [H0 Hl Hend _].
  destruct (is_left_merged (rev a) n); [right; split; [done |]; left | destruct (is_right_merged n b); [right; split; [done |]; right | by left]].
  - rewrite <- last_rev, rev_involutive in HL. destruct (last a) as [p |] eqn:E; [| done]. simpl in HL. destruct (joined p n) eqn:J; [| done].
    apply joined_iff in J as (J1 & _ & J3 & _ & J5). pose proof (last_Some_elem_of _ _ E) as Hp.
    assert (p ∈ a ++ n :: b) as Hp' by (apply elem_of_app; by left). pose proof (Hf p Hp') as Hpok. rewrite (buf_end_ok p Hpok) in J5.
    exists p. split; [done |]. split; [| done]. destruct Hpok as (_ & Hpl & _). simpl in J3, J5. unfold covers, end_of in *. split; [done | lia].
  - destruct (head b) as [p |] eqn:E; [| done]. simpl in HR. destruct (joined n p) eqn:J; [| done].
    apply joined_iff in J as (_ & J1 & J3 & _ & J5). pose proof (head_Some_elem_of _ _ E) as Hp.
    assert (p ∈ a ++ n :: b) as Hp' by (apply elem_of_app; right; by apply list_elem_of_further). pose proof (Hf p Hp') as (_ & Hpl & _).
    rewrite (buf_end_ok n) in J5 by (split; [done |]; by split). exists p. split; [done |]. split; [| done]. unfold covers, end_of in *. simpl in J3, J5. split; [done | lia].
Qed.
End Writes.

(** A dirty write keeps the queue complete. *)
Lemma covered_write cs cs' queue queue' ino a b : a < b -> covered cs queue ->
  (forall i x, dirty_cell cs' i x <-> inside ino a b i x \/ dirty_cell cs i x) ->
  queue' = queue ++ [(ino, a)] \/ (queue' = queue /\ (dirty_cell cs' ino (a - 1) \/ dirty_cell cs' ino b)) -> covered cs' queue'.
Proof.
  intros Hab Hc Hd Hq i x Hx. assert (Hsub : forall q, q ∈ queue -> q ∈ queue') by (intros q Hin; destruct Hq as [-> | [-> _]]; [rewrite elem_of_app; by left | done]).
  assert (Hold : forall y, dirty_cell cs i y -> exists q, q ∈ queue' /\ q.1 = i /\ forall z, Z.min q.2 y <= z <= Z.max q.2 y -> dirty_cell cs' i z).
  { intros y Hy. destruct (Hc i y Hy) as (q & Hin & Eq & Hz). exists q. split; [by apply Hsub |]. split; [done |]. intros z Hz'. apply Hd. right. by apply Hz. }
  destruct (decide (inside ino a b i x)) as [[-> Hin] | Hout]; [| apply Hd in Hx as [? | Hx]; [done | by apply Hold]].
  assert (Hall : forall z, a <= z < b -> dirty_cell cs' ino z) by (intros z Hz; apply Hd; left; by split).
  destruct Hq as [-> | (-> & [Hn | Hn])].
  - exists (ino, a). rewrite elem_of_app, list_elem_of_singleton. split; [by right |]. split; [done |]. simpl. intros y Hy. apply Hall. lia.
  - pose proof Hn as [[_ ?] | Hn']%Hd; [lia |]. destruct (Hold _ Hn') as (q & Hq & Eq & Hz). exists q. split; [done |]. split; [done |].
    intros y Hy. destruct (decide (a <= y < b)); [by apply Hall |]. apply Hz. lia.
  - pose proof Hn as [[_ ?] | Hn']%Hd; [lia |]. destruct (Hold _ Hn') as (q & Hq & Eq & Hz). exists q. split; [done |]. split; [done |].
    intros y Hy. destruct (decide (a <= y < b)); [by apply Hall |]. apply Hz. lia.
Qed.

Lemma write_ok malloc op st fid c : (forall d, malloc d ∉ d) -> op_ok op -> opcode op = OSD_OP_WRITE -> cache_ok c ->
  exists c', copy_write malloc op st fid c = Ok c' /\ cache_ok c' /\
    map (flight_of (heap c')) (issued c') = map (flight_of (heap c)) (issued c) /\ last_flush_id c' = last_flush_id c /\
    (forall ino x, cached c' ino x = if decide (in_op op ino x) then Some (written_cell op st fid x) else cached c ino x) /\
    (covered (cached c) (writeback_queue c) -> st = CACHE_DIRTY \/ (st <> CACHE_DIRTY /\ forall ino x, in_op op ino x -> ~ dirty_cell (cached c) ino x) ->
     covered (cached c') (writeback_queue c')).
Proof.
  intros Hm Hop Hw Hok. destruct (copy_write_effect malloc op st fid c Hm Hop (co_wb _ Hok)) as (c1 & a & b & E & Hcut & Hwb & Hcells). cbv zeta in *.
  rewrite Hw in Hcells. cbn [Z.eqb OSD_OP_WRITE OSD_OP_DELETE Pos.eqb] in Hcells.
  pose proof (write_cache_ok malloc Hm op st fid Hw c Hok c1 a b Hcut Hwb) as Hok'.
  destruct (write_flights malloc Hm op st fid Hw c Hok c1 a b Hcut) as [_ Hfl]. destruct (write_rest malloc op st fid c c1 a b Hcut) as (_ & _ & El).
  eexists. split; [done |]. split; [done |]. split; [done |]. split; [done |]. split; [done |]. intros Hcov Hst.
  destruct Hst as [Hst | [Hst Hno]].
  - destruct Hop as [H0 Hl Hend Hdat]. refine (covered_write _ _ _ _ (inode op) (offset op) (offset op + op_len op) ltac:(lia) Hcov _ _).
    + intros i x. unfold dirty_cell. rewrite Hcells. fold (in_op op i x). case_decide; [| tauto]. simpl. unfold is_dirty_state. tauto.
    + by apply (write_queue malloc op st fid (Build_op_ok op H0 Hl Hend Hdat) c c1 a b Hcut Hwb).
  - cbn [inserted with_queue writeback_queue]. unfold queue_after. change (is_dirty _) with (st =? CACHE_DIRTY). rewrite (proj2 (Z.eqb_neq st _) Hst).
    destruct (cut_rest _ _ _ _ _ Hcut) as (_ & _ & _ & -> & _). apply (covered_ext (cached c)); [| done].
    intros i x. unfold dirty_cell. rewrite Hcells. case_decide as Hx; [| tauto]. simpl. split; [done | intros Hd; by destruct (Hno i x Hx)].
Qed.

(** * The invariant *)

Record wb_inv (k : client_t) : Prop := {
  wi_cache : cache_ok (wb k);
  wi_queue : covered (cached (wb k)) (writeback_queue (wb k));
  wi_view : v_ok (view_of k);
  wi_through : forall f, f ∈ through k -> 0 <= f_offset f /\ f_offset f + zlen (f_data f) < 18446744073709551616 }.

(** What the client sees to: operations are writes with data as long as they say, only what
    is in flight comes back, and at most 4 GB are cached when something is sent. *)
Definition enabled (ev : event) (k : client_t) : Prop :=
  event_ok ev /\
  match ev with
  | WThrough op => forall ino x, in_op op ino x -> ~ dirty_cell (cached (wb k)) ino x
  | WThroughDone f => f ∈ through k
  | WDone op _ => op ∈ issued (wb k)
  | WStart _ => dirty_bytes (dirty_buffers (wb k)) < 4294967296
  | WRepeat _ => total (dirty_buffers (wb k)) < 4294967296
  | _ => True
  end.

Lemma own_flight k f : wb_inv k -> f ∈ all_flights (view_of k) -> own_range (f_inode f) (f_offset f) (zlen (f_data f)) (f_id f) (dirty_buffers (wb k)).
Proof.
  intros [Hok _ Hv _] Hf d Hd Hin. pose proof (co_wb _ Hok) as [Hs _]. pose proof Hs as [_ Hall]. rewrite Forall_forall in Hall. destruct (Hall d Hd) as (H0 & Hl & _).
  unfold in_flush in Hin. apply andb_true_iff in Hin as [Ei%Z.eqb_eq Es%Z.eqb_eq].
  assert (Hx : forall x, d.1.2 <= x < end_of d -> in_flight f d.1.1 x).
  { intros x Hx. apply (v_carried _ Hv f _ x (byte_at (heap (wb k)) (cell_of x d).2) Hf). cbn [view_of v_cells]. unfold cached.
    rewrite (look_some _ d.1.1 x Hs d Hd) by done. unfold cell_of. by rewrite Ei, Es. }
  unfold end_of in *. pose proof (Hx d.1.2 ltac:(lia)) as [E1 H1]. pose proof (Hx (d.1.2 + len d.2 - 1) ltac:(lia)) as [_ H2]. split; [done |]. lia.
Qed.

Lemma in_state_moved from to r : from <> CACHE_DIRTY -> to <> CACHE_DIRTY -> in_state (moved from to r) is_dirty_state <-> in_state r is_dirty_state.
Proof.
  intros Hf Ht. destruct r as [[[s i] d] |]; [| done]. simpl. unfold is_dirty_state. destruct (Z.eqb_spec s from) as [-> |]; [| done].
  split; intros ?; congruence.
Qed.
Lemma in_state_landed id st r : in_state (landed id st r) is_dirty_state <-> in_state r is_dirty_state.
Proof.
  unfold landed, of_flush. destruct r as [[[s i] d] |]; [| done]. destruct (i =? id), (Z.eqb_spec s CACHE_REPEATING) as [-> |]; try done. by destruct st.
Qed.
Lemma in_state_synced r : in_state (synced r) is_dirty_state <-> in_state r is_dirty_state.
Proof. destruct r as [[[s i] d] |]; [| done]. simpl. by destruct (Z.eqb_spec s CACHE_FLUSHING) as [-> |]. Qed.
Lemma all_sent_dirty v v' : all_sent is_unsynced_state true v v' -> forall ino x, dirty_cell (v_cells v') ino x <-> dirty_cell (v_cells v) ino x.
Proof.
  induction 1 as [v0 | v1 v2 v3 (f & Hf) _ IH]; intros ino x; [done |]. rewrite IH, (sent_dirty _ _ _ _ _ Hf). split; [tauto |]. intros Hd. split; [done |].
  intros Hx. destruct (sent_in _ _ _ _ _ Hf ino x Hx) as (s & i & b & E & [Hs _] & _). unfold dirty_cell in Hd. rewrite E in Hd. done.
Qed.

(** * Steps *)

Section Steps.
Context (malloc : gset nat -> nat) (Hmalloc : forall d, malloc d ∉ d).

Lemma step_kept k c' ev : wb_inv k -> event_ok ev -> cache_ok c' -> covered (cached c') (writeback_queue c') ->
  promises ev (view_of k) (view_of (mk_client c' (through k))) -> wb_inv (mk_client c' (through k)).
Proof. intros [_ _ Hv Ht] He Hok Hc Hp. split; [done | done | by apply (promises_ok ev (view_of k)) | done]. Qed.
(** The same bytes are dirty. *)
Lemma step_clean k c' ev : wb_inv k -> event_ok ev -> cache_ok c' -> writeback_queue c' = writeback_queue (wb k) ->
  (forall ino x, dirty_cell (cached c') ino x <-> dirty_cell (cached (wb k)) ino x) ->
  promises ev (view_of k) (view_of (mk_client c' (through k))) -> wb_inv (mk_client c' (through k)).
Proof.
  intros Hk He Hok Eq Hd Hp. apply (step_kept k c' ev Hk He Hok); [| done]. rewrite Eq. apply (covered_ext (cached (wb k))); [done | apply Hk].
Qed.

Lemma write_step op k : wb_inv k -> enabled (WWrite op) k ->
  exists k', wstep malloc (WWrite op) k = Ok k' /\ wb_inv k' /\ promises (WWrite op) (view_of k) (view_of k').
Proof.
  intros Hk [[Hop Hw] _]. destruct (write_ok malloc op CACHE_DIRTY 0 (wb k) Hmalloc Hop Hw (wi_cache _ Hk)) as (c' & E & Hok & Hfl & El & Hc & Hcov).
  cbn [wstep]. rewrite E. cbn [on_cache rbind]. eexists. split; [done |].
  assert (Hp : promises (WWrite op) (view_of k) (view_of (mk_client c' (through k)))) by (split; [split; [exact Hfl |]; split; [done | exact El] | exact Hc]).
  split; [| done]. apply (step_kept k c' (WWrite op)); [done | done | done | | done]. apply Hcov; [apply Hk | by left].
Qed.
Lemma through_step op k : wb_inv k -> enabled (WThrough op) k ->
  exists k', wstep malloc (WThrough op) k = Ok k' /\ wb_inv k' /\ promises (WThrough op) (view_of k) (view_of k').
Proof.
  intros Hk [[Hop Hw] Hno]. set (id := last_flush_id (wb k) + 1). pose proof Hk as [[[Hs [I1 I2 I3]] Hd [F1 F2 F3 F4]] Hcov Hv Ht].
  set (c0 := with_flushes (wb k) (writebacks_active (wb k)) id (flushed_buffers (wb k)) (issued (wb k))).
  assert (Hok0 : cache_ok c0) by (split; [by split | done | by split]).
  destruct (write_ok malloc op CACHE_REPEATING id c0 Hmalloc Hop Hw Hok0) as (c' & E & Hok & Hfl & El & Hc & Hcov').
  cbn [wstep]. fold id c0. rewrite E. cbn [rbind]. eexists. split; [done |].
  match goal with |- wb_inv ?k' /\ _ => assert (Hp : promises (WThrough op) (view_of k) (view_of k')) end.
  { split; [exact Hfl |]. split; [done |]. split; [exact El | exact Hc]. }
  split; [| done]. split; [done | apply Hcov'; [done | right; by split] | by apply (promises_ok (WThrough op) (view_of k)) |].
  intros f [Hf | ->%list_elem_of_singleton]%elem_of_app; [by apply Ht |]. cbn [f_offset f_data]. rewrite (event_data op Hop Hw). destruct Hop. lia.
Qed.
Lemma through_done_step f k : wb_inv k -> enabled (WThroughDone f) k ->
  exists k', wstep malloc (WThroughDone f) k = Ok k' /\ wb_inv k' /\ promises (WThroughDone f) (view_of k) (view_of k').
Proof.
  intros Hk [_ Hf]. pose proof Hk as [Hok Hcov Hv Ht]. pose proof (zlen_nonneg (f_data f)). destruct (Ht f Hf) as [H0 H1].
  destruct (mark_written_ok (f_inode f) (f_offset f) (zlen (f_data f)) (f_id f) ltac:(lia) ltac:(lia) ltac:(lia) (wb k) (through k) Hok) as (Hok' & Eq & (O1 & _ & O3) & Hc).
  { apply own_flight; [done |]. apply elem_of_app. by right. }
  cbn [wstep]. eexists. split; [done |]. set (c' := mark_flush_written _ _ _ _ _) in *. set (k' := mk_client c' _).
  assert (Hp : promises (WThroughDone f) (view_of k) (view_of k')) by (split; [exact O1 |]; split; [done |]; split; [exact O3 | exact Hc]).
  split; [| done]. split; [done | | by apply (promises_ok (WThroughDone f) (view_of k)) |].
  - change (wb k') with c'. rewrite Eq. apply (covered_ext (cached (wb k))); [| done]. intros ino x. unfold dirty_cell. rewrite Hc. apply in_state_landed.
  - intros g [_ Hg]%list_elem_of_filter. by apply Ht.
Qed.
Lemma start_step count k : wb_inv k -> enabled (WStart count) k ->
  exists k', wstep malloc (WStart count) k = Ok k' /\ wb_inv k' /\ promises (WStart count) (view_of k) (view_of k').
Proof.
  intros Hk [_ Hsmall]. pose proof Hk as [Hok Hcov Hv Ht]. destruct (start_writebacks_sent count (wb k) (through k) Hok Hsmall Hcov) as (c' & E & Hok' & Hcov' & Hp).
  cbn [wstep]. rewrite E. cbn [on_cache rbind]. eexists. split; [done |]. destruct k as [c th]. split; [| done]. by apply (step_kept (mk_client c th) c' (WStart count)).
Qed.
Lemma repeat_step aff k : wb_inv k -> enabled (WRepeat aff) k ->
  exists k', wstep malloc (WRepeat aff) k = Ok k' /\ wb_inv k' /\ promises (WRepeat aff) (view_of k) (view_of k').
Proof.
  intros Hk [_ Hsmall]. pose proof Hk as [Hok Hcov Hv Ht]. destruct k as [c th]. cbn [wb through] in *.
  destruct (repeat_loop_sent aff th (dirty_buffers c) c 0 [] [] Hok Hsmall) as (c' & n & E & Hok' & Eq & Hset & Hs).
  { split; [done | done | |]; intros e He; by apply not_elem_of_nil in He. }
  cbn [wstep wb through]. unfold repeat_ops_for. rewrite E. cbn [rbind]. eexists. split; [done |].
  assert (Hp : promises (WRepeat aff) (view_of (mk_client c th)) (view_of (mk_client c' th))).
  { split; [exact Hs |]. intros ino x Ha. cbn [view_of v_cells wb]. rewrite cached_find. destruct (find_buf (dirty_buffers c') ino x) as [d |] eqn:Ed; [| tauto].
    apply find_buf_some in Ed as [Hd [Ei Hx]]. cbn [in_state]. intros Hun%unsynced_spec. specialize (Hset d Hd). unfold settled in Hset.
    rewrite Hun, Ei, (Ha d.1.2 (len d.2)) in Hset by (unfold end_of in Hx; lia). done. }
  split; [| done]. apply (step_clean (mk_client c th) c' (WRepeat aff)); try done. apply (all_sent_dirty _ _ Hs).
Qed.
Lemma done_step op fl k : wb_inv k -> enabled (WDone op fl) k ->
  exists k', wstep malloc (WDone op fl) k = Ok k' /\ wb_inv k' /\ promises (WDone op fl) (view_of k) (view_of k').
Proof.
  intros Hk [_ Hop]. pose proof Hk as [Hok Hcov Hv Ht].
  assert (Hf : flight_of (heap (wb k)) op ∈ all_flights (view_of k)) by (apply elem_of_app; left; by apply list_elem_of_fmap_2).
  pose proof (own_flight k _ Hk Hf) as Hown. cbn [flight_of f_inode f_offset f_data f_id] in Hown. rewrite (fo_len _ (co_flights _ Hok) op Hop) in Hown.
  destruct (flush_done_ok op (wb k) (through k) Hok fl Hop Hown) as (c' & E & Hok' & Eq & Hp).
  cbn [wstep]. rewrite E. cbn [on_cache rbind]. eexists. split; [done |]. destruct k as [c th]. split; [| done].
  apply (step_clean (mk_client c th) c' (WDone op fl)); try done.
  destruct Hp as (_ & _ & _ & Hc). intros ino x. unfold dirty_cell. cbn [view_of v_cells wb] in Hc. rewrite Hc. apply in_state_landed.
Qed.

Lemma move_step from to ev k : wb_inv k -> from <> CACHE_DIRTY -> to <> CACHE_DIRTY -> event_ok ev ->
  (forall k', promises ev (view_of k) (view_of k') <->
     others_kept (view_of k) (view_of k') /\ forall ino x, cached (wb k') ino x = moved from to (cached (wb k) ino x)) ->
  wb_inv (mk_client (move_state from to (wb k)) (through k)) /\ promises ev (view_of k) (view_of (mk_client (move_state from to (wb k)) (through k))).
Proof.
  intros Hk Hf Ht He Hp. destruct (move_state_ok from to (wb k) (through k) (wi_cache _ Hk) Hf Ht) as (Hok & Ho & Hc).
  assert (promises ev (view_of k) (view_of (mk_client (move_state from to (wb k)) (through k)))) as Hp' by by apply Hp. split; [| done].
  apply (step_clean k _ ev Hk He Hok); [done | | done]. intros ino x. unfold dirty_cell. rewrite Hc. by apply in_state_moved.
Qed.
(** Every event that can happen is handled, and does what is promised. *)
Lemma wb_step ev k : wb_inv k -> enabled ev k -> exists k', wstep malloc ev k = Ok k' /\ wb_inv k' /\ promises ev (view_of k) (view_of k').
Proof.
  intros Hk He. destruct ev as [op | op | f | count | aff | op fl | | |];
    [by apply write_step | by apply through_step | by apply through_done_step | by apply start_step | by apply repeat_step | by apply done_step | | |].
  - eexists. split; [done |]. by apply (move_step CACHE_WRITTEN CACHE_FLUSHING).
  - eexists. split; [done |]. by apply (move_step CACHE_FLUSHING CACHE_WRITTEN).
  - destruct (fsync_ok_ok (wb k) (through k) (wi_cache _ Hk)) as (c' & E & Hok' & Eq & Ho & Hc). cbn [wstep]. rewrite E. cbn [on_cache rbind]. eexists. split; [done |].
    assert (Hp : promises WFsyncOk (view_of k) (view_of (mk_client c' (through k)))) by (by split). split; [| done].
    apply (step_clean k c' WFsyncOk); try done. intros ino x. unfold dirty_cell. rewrite Hc. apply in_state_synced.
Qed.
End Steps.

(** * Histories *)

(** What has happened, latest first. *)
Inductive note : Type :=
| NWrite (op : cluster_op_t)
| NLanded (f : flight) (stable : bool)      (* an operation has come back *)
| NSyncStart
| NSyncError
| NSyncOk
| NOther.
Definition note_of (ev : event) (k : client_t) : note :=
  match ev with
  | WWrite op | WThrough op => NWrite op
  | WThroughDone f => NLanded f false
  | WDone op op_flags => NLanded (flight_of (heap (wb k)) op) (negb (Z.land op_flags OP_IMMEDIATE_COMMIT =? 0))
  | WFsyncStart => NSyncStart
  | WFsyncError => NSyncError
  | WFsyncOk => NSyncOk
  | _ => NOther
  end.

Definition fresh_client : client_t := mk_client new_cache [].
Inductive history (malloc : gset nat -> nat) : list note -> client_t -> Prop :=
| history_new : history malloc [] fresh_client
| history_step hist k ev k' : history malloc hist k -> enabled ev k -> wstep malloc ev k = Ok k' -> history malloc (note_of ev k :: hist) k'.

Lemma new_client_inv : wb_inv fresh_client.
Proof.
  split.
  - split; [apply new_cache_ok | intros d Hd; by apply not_elem_of_nil in Hd |]. split; [done | intros op p Ho | intros op Ho | intros op Ho]; by apply not_elem_of_nil in Ho.
  - intros ino x Hx. done.
  - split; [apply NoDup_nil_2 | intros f Hf | done | intros f ino x b Hf]; by apply not_elem_of_nil in Hf.
  - intros f Hf. by apply not_elem_of_nil in Hf.
Qed.
Lemma history_inv malloc hist k : (forall d, malloc d ∉ d) -> history malloc hist k -> wb_inv k.
Proof.
  intros Hm. induction 1 as [| hist k ev k' _ IH He E]; [apply new_client_inv |]. destruct (wb_step malloc Hm ev k IH He) as (k2 & E2 & Hk2 & _).
  by replace k' with k2 by congruence.
Qed.
