(* ===== verification/WritebackTrace.v ===== *)
(** Whole histories of the write-back cache: no write is lost, and a sync empties the
    cache. *)

From S2P Require Import Prelude.
From S2P Require Import Writeback.
From S2P Require Import WritebackList.
From S2P Require Import WritebackCut.
From S2P Require Import WritebackOk.
From S2P Require Import WritebackFlush.
From S2P Require Import WritebackSpec.
From S2P Require Import WritebackSend.
From S2P Require Import WritebackStart.
From S2P Require Import WritebackDone.
From S2P Require Import WritebackMain.

(** * The last write *)

Section Byte.
Context (ino x : Z).
(** The byte that has been written last. *)
Fixpoint last_byte (hist : list note) : option Z :=
  match hist with
  | [] => None
  | NWrite op :: h => if decide (in_op op ino x) then concat (iov op) !! Z.to_nat (x - offset op) else last_byte h
  | _ :: h => last_byte h
  end.

Definition carries (f : flight) (b : Z) : Prop := in_flight f ino x /\ f_byte f x = Some b.
(** Since that write, an operation that carried [b] has come back; *)
Fixpoint landed_since (hist : list note) (b : Z) : Prop :=
  match hist with
  | [] => False
  | NWrite op :: h => ~ in_op op ino x /\ landed_since h b
  | NLanded f _ :: h => carries f b \/ landed_since h b
  | _ :: h => landed_since h b
  end.
(** after that a sync has been started, and has not failed; *)
Fixpoint started_since (hist : list note) (b : Z) : Prop :=
  match hist with
  | [] => False
  | NWrite op :: h => ~ in_op op ino x /\ started_since h b
  | NSyncStart :: h => landed_since h b \/ started_since h b
  | NSyncError :: h => False
  | _ :: h => started_since h b
  end.
(** and has succeeded, or the operation needed no sync. *)
Fixpoint stable_since (hist : list note) (b : Z) : Prop :=
  match hist with
  | [] => False
  | NWrite op :: h => ~ in_op op ino x /\ stable_since h b
  | NLanded f true :: h => carries f b \/ stable_since h b
  | NSyncOk :: h => started_since h b \/ stable_since h b
  | _ :: h => stable_since h b
  end.

Lemma started_landed hist b : started_since hist b -> landed_since hist b.
Proof. induction hist as [| [op | f [] | | | |] h IH]; simpl; tauto. Qed.

Definition known_state (s : Z) : Prop := s = CACHE_DIRTY \/ s = CACHE_WRITTEN \/ s = CACHE_FLUSHING \/ s = CACHE_REPEATING.
(** What the history says about a cached byte. *)
Definition story (hist : list note) (r : option (Z * Z * option Z)) : Prop :=
  match last_byte hist with
  | None => r = None
  | Some b =>
    match r with
    | None => stable_since hist b
    | Some (s, _, b') => b' = Some b /\ known_state s /\ (s = CACHE_WRITTEN -> landed_since hist b) /\ (s = CACHE_FLUSHING -> started_since hist b)
    end
  end.

Lemma story_write hist op s i r : (s = CACHE_DIRTY \/ s = CACHE_REPEATING) -> op_ok op -> opcode op = OSD_OP_WRITE -> story hist r ->
  story (NWrite op :: hist) (if decide (in_op op ino x) then Some (written_cell op s i x) else r).
Proof.
  intros Hst Hop Hw Hr. unfold story in *. cbn [last_byte]. destruct (decide (in_op op ino x)) as [Hx | Hx].
  - pose proof (event_data op Hop Hw) as Hd. destruct Hx as [-> Hx]. unfold written_cell.
    destruct (concat (iov op) !! Z.to_nat (x - offset op)) as [b |] eqn:E; [| apply lookup_ge_None in E; unfold zlen in Hd; lia].
    split; [done |]. unfold known_state. destruct Hst as [-> | ->]; (split; [by auto | done]).
  - destruct (last_byte hist) as [b |]; [| done]. destruct r as [[[s' i'] b'] |]; cbn [landed_since started_since stable_since]; tauto.
Qed.
(** The byte is sent, or nothing happens to it. *)
Lemma story_sent hist r r' : story hist r -> r' = r \/ (exists s i b, r = Some (s, i, b) /\ exists i', r' = Some (CACHE_REPEATING, i', b)) -> story (NOther :: hist) r'.
Proof.
  unfold story. cbn [last_byte landed_since started_since stable_since]. intros Hr [-> | (s & i & b & -> & i' & ->)]; [done |].
  destruct (last_byte hist) as [b' |]; [| done]. destruct Hr as [-> _]. split; [done |]. split; [right; by auto | done].
Qed.
Lemma story_landed hist f st r : (forall b, r = Some (CACHE_REPEATING, f_id f, b) -> in_flight f ino x /\ f_byte f x = b) -> story hist r ->
  story (NLanded f st :: hist) (landed (f_id f) st r).
Proof.
  intros Hf Hr. unfold story in *. cbn [last_byte landed_since started_since]. destruct (last_byte hist) as [b |]; [| by rewrite Hr].
  unfold landed. destruct r as [[[s i] b'] |]; cbn [of_flush restate].
  - destruct Hr as (-> & H0 & H1 & H2). destruct ((i =? f_id f) && (s =? CACHE_REPEATING)) eqn:E; [| tauto].
    apply andb_true_iff in E as [->%Z.eqb_eq ->%Z.eqb_eq]. specialize (Hf _ eq_refl). destruct st; [by left |]. split; [done |]. split; [right; by left |]. split; [by left | done].
  - destruct st; [by right | done].
Qed.
Lemma story_start hist r : story hist r -> story (NSyncStart :: hist) (moved CACHE_WRITTEN CACHE_FLUSHING r).
Proof.
  unfold story. cbn [last_byte landed_since started_since stable_since]. destruct (last_byte hist) as [b |]; [| by intros ->].
  destruct r as [[[s i] b'] |]; [| done]. cbn [moved]. intros (-> & H0 & H1 & H2). unfold known_state in *.
  destruct (Z.eqb_spec s CACHE_WRITTEN) as [-> | Hs]; (split; [done |]); (split; [by auto |]); split; try done.
  - left. auto.
  - right. auto.
Qed.
Lemma story_error hist r : story hist r -> story (NSyncError :: hist) (moved CACHE_FLUSHING CACHE_WRITTEN r).
Proof.
  unfold story. cbn [last_byte landed_since started_since stable_since]. destruct (last_byte hist) as [b |]; [| by intros ->].
  destruct r as [[[s i] b'] |]; [| done]. cbn [moved]. intros (-> & H0 & H1 & H2). unfold known_state in *.
  destruct (Z.eqb_spec s CACHE_FLUSHING) as [-> | Hs]; (split; [done |]); (split; [by auto |]); split; try done.
  intros _. apply started_landed. auto.
Qed.
Lemma story_synced hist r : story hist r -> story (NSyncOk :: hist) (synced r).
Proof.
  unfold story. cbn [last_byte landed_since started_since stable_since]. destruct (last_byte hist) as [b |]; [| by intros ->].
  destruct r as [[[s i] b'] |]; [| by right]. cbn [synced]. intros (-> & H0 & H1 & H2). destruct (Z.eqb_spec s CACHE_FLUSHING) as [-> | Hs]; [left; auto | done].
Qed.

Lemma all_sent_cell P front v v' : all_sent P front v v' ->
  v_cells v' ino x = v_cells v ino x \/ (exists s i b, v_cells v ino x = Some (s, i, b) /\ exists i', v_cells v' ino x = Some (CACHE_REPEATING, i', b)).
Proof.
  induction 1 as [| v1 v2 v3 (f & Hf) _ IH]; [by left |]. destruct (decide (in_flight f ino x)) as [Hx | Hx].
  - destruct (sent_in _ _ _ _ _ Hf ino x Hx) as (s & i & b & E1 & _ & _ & E2). right. exists s, i, (Some b). split; [done |].
    destruct IH as [-> | (s' & i' & b' & E & i2 & ->)]; [by eexists |]. rewrite E2 in E. injection E as _ _ <-. by eexists.
  - rewrite <- (sent_out _ _ _ _ _ Hf ino x Hx). done.
Qed.

Lemma story_step hist ev k k' : wb_inv k -> enabled ev k -> promises ev (view_of k) (view_of k') ->
  story hist (cached (wb k) ino x) -> story (note_of ev k :: hist) (cached (wb k') ino x).
Proof.
  intros Hk He Hp Hr. destruct He as [He He']. destruct ev as [op | op | f | count | aff | op fl | | |]; cbn [promises view_of v_cells note_of event_ok] in *.
  - destruct Hp as [_ ->], He. by apply story_write; [left | | |].
  - destruct Hp as (_ & _ & _ & ->), He. by apply story_write; [right | | |].
  - destruct Hp as (_ & _ & _ & ->). apply story_landed; [| done]. intros b. apply (v_carried _ (wi_view _ Hk)). apply elem_of_app. by right.
  - destruct Hp as [Hp _]. apply (story_sent _ _ _ Hr). apply (all_sent_cell _ _ _ _ Hp).
  - destruct Hp as [Hp _]. apply (story_sent _ _ _ Hr). apply (all_sent_cell _ _ _ _ Hp).
  - destruct Hp as (_ & _ & _ & ->). change (fl_id op) with (f_id (flight_of (heap (wb k)) op)). apply story_landed; [| done]. intros b.
    apply (v_carried _ (wi_view _ Hk)). apply elem_of_app. left. by apply list_elem_of_fmap_2.
  - destruct Hp as [_ ->]. by apply story_start.
  - destruct Hp as [_ ->]. by apply story_error.
  - destruct Hp as [_ ->]. by apply story_synced.
Qed.
Lemma history_story malloc hist k : (forall d, malloc d ∉ d) -> history malloc hist k -> story hist (cached (wb k) ino x).
Proof.
  intros Hm. induction 1 as [| hist k ev k' Hh IH He E]; [done |]. pose proof (history_inv malloc hist k Hm Hh) as Hk.
  destruct (wb_step malloc Hm ev k Hk He) as (k2 & E2 & _ & Hp). replace k2 with k' in Hp by congruence. by apply story_step.
Qed.
End Byte.

(** * Emptying the cache *)

(** The calls of a sync, when everything that has been sent comes back. *)
Fixpoint land_all (malloc : gset nat -> nat) (op_flags : Z) (ops : list flush_op_t) (k : client_t) : res client_t :=
  match ops with [] => Ok k | op :: ops => let* k := wstep malloc (WDone op op_flags) k in land_all malloc op_flags ops k end.
Fixpoint land_through (malloc : gset nat -> nat) (fs : list flight) (k : client_t) : res client_t :=
  match fs with [] => Ok k | f :: fs => let* k := wstep malloc (WThroughDone f) k in land_through malloc fs k end.
Definition sync_all (malloc : gset nat -> nat) (op_flags : Z) (k : client_t) : res client_t :=
  let* k := wstep malloc (WStart 0) k in
  let* k := land_all malloc op_flags (issued (wb k)) k in
  let* k := land_through malloc (through k) k in
  let* k := wstep malloc WFsyncStart k in
  wstep malloc WFsyncOk k.

Lemma flush_done_issued op fl c c' : flush_done op fl c = Ok c' -> issued c' = filter (fun o => fl_id o <> fl_id op) (issued c).
Proof.
  unfold flush_done. destruct (unref_flushed _ _ _) as [h |]; [| done]. cbn [rbind]. destruct (negb _).
  - unfold delete_flush. destruct (find_dirty _ _ _) as [pre post]. destruct (delete_loop _ _ _ _ _ _) as [[h' p'] |]; [| done]. by intros [= <-].
  - unfold mark_flush_written. destruct (find_dirty _ _ _) as [pre post]. by intros [= <-].
Qed.
Lemma filter_others {A} (f : A -> Z) (x : A) l : NoDup (map f (x :: l)) -> filter (fun y => f y <> f x) (x :: l) = l.
Proof.
  intros [Hn _]%NoDup_cons. rewrite filter_cons_False by tauto. apply filter_all_true. intros y Hy E. apply Hn. rewrite <- E. by apply list_elem_of_fmap_2.
Qed.

Section Drain.
Context (malloc : gset nat -> nat) (Hmalloc : forall d, malloc d ∉ d) (op_flags : Z).
Definition no_dirty (k : client_t) : Prop := forall ino x, ~ dirty_cell (cached (wb k)) ino x.
Definition same_writes (hist hist' : list note) : Prop := forall ino x, last_byte ino x hist' = last_byte ino x hist.

Lemma history_more hist k ev : history malloc hist k -> enabled ev k ->
  exists k', wstep malloc ev k = Ok k' /\ history malloc (note_of ev k :: hist) k' /\ promises ev (view_of k) (view_of k').
Proof.
  intros Hh He. destruct (wb_step malloc Hmalloc ev k (history_inv _ _ _ Hmalloc Hh) He) as (k' & E & _ & Hp). exists k'. split; [done |]. split; [| done].
  by apply (history_step malloc hist k).
Qed.

Lemma land_all_ok ops : forall hist k, history malloc hist k -> no_dirty k -> issued (wb k) = ops ->
  exists hist' k', land_all malloc op_flags ops k = Ok k' /\ history malloc hist' k' /\ same_writes hist hist' /\ no_dirty k' /\ issued (wb k') = [].
Proof.
  induction ops as [| op ops IH]; intros hist k Hh Hn Ei; cbn [land_all]; [by exists hist, k |].
  destruct (history_more hist k (WDone op op_flags) Hh) as (k1 & E & Hh1 & Hp); [split; [done |]; rewrite Ei; apply list_elem_of_here |].
  rewrite E. cbn [rbind]. destruct (IH _ k1 Hh1) as (hist' & k' & R); [| | by exists hist', k'].
  - intros ino x. destruct Hp as (_ & _ & _ & Hc). unfold dirty_cell. cbn [view_of v_cells] in Hc. rewrite Hc, in_state_landed. apply Hn.
  - cbn [wstep] in E. destruct (flush_done op op_flags (wb k)) as [c1 |] eqn:Ef; [| done]. injection E as <-. cbn [wb].
    rewrite (flush_done_issued _ _ _ _ Ef), Ei. apply (filter_others fl_id).
    pose proof (v_ids _ (wi_view _ (history_inv _ _ _ Hmalloc Hh))) as Hnd. unfold all_flights in Hnd. rewrite fmap_app in Hnd. apply NoDup_app in Hnd as [Hnd _].
    cbn [view_of v_flights] in Hnd. rewrite Ei, <- list_fmap_compose in Hnd. exact Hnd.
Qed.
Lemma land_through_ok fs : forall hist k, history malloc hist k -> no_dirty k -> issued (wb k) = [] -> through k = fs ->
  exists hist' k', land_through malloc fs k = Ok k' /\ history malloc hist' k' /\ same_writes hist hist' /\ no_dirty k' /\ issued (wb k') = [] /\ through k' = [].
Proof.
  induction fs as [| f fs IH]; intros hist k Hh Hn Ei Et; cbn [land_through]; [by exists hist, k |].
  destruct (history_more hist k (WThroughDone f) Hh) as (k1 & E & Hh1 & Hp); [split; [done |]; rewrite Et; apply list_elem_of_here |].
  rewrite E. cbn [rbind]. pose proof Hp as (P1 & P2 & _ & Hc). cbn [view_of v_cells v_through v_flights] in Hc, P1, P2.
  destruct (IH _ k1 Hh1) as (hist' & k' & R); [| | | by exists hist', k'].
  - intros ino x. unfold dirty_cell. rewrite Hc, in_state_landed. apply Hn.
  - rewrite Ei in P1. by destruct (issued (wb k1)).
  - rewrite P2, Et. apply (filter_others f_id). pose proof (v_ids _ (wi_view _ (history_inv _ _ _ Hmalloc Hh))) as Hnd. unfold all_flights in Hnd.
    cbn [view_of v_flights v_through] in Hnd. by rewrite Ei, Et in Hnd.
Qed.

(** Nothing in flight and nothing dirty: everything has been written. *)
Lemma rest_written hist k ino x : history malloc hist k -> no_dirty k -> issued (wb k) = [] -> through k = [] ->
  match cached (wb k) ino x with None => True | Some (s, _, _) => s = CACHE_WRITTEN \/ s = CACHE_FLUSHING end.
Proof.
  intros Hh Hn Ei Et. pose proof (history_story ino x malloc hist k Hmalloc Hh) as Hs. pose proof (wi_view _ (history_inv _ _ _ Hmalloc Hh)) as Hv.
  destruct (cached (wb k) ino x) as [[[s i] b] |] eqn:E; [| done]. unfold story in Hs. destruct (last_byte ino x hist); [| done].
  destruct Hs as (_ & [-> | [-> | [-> | ->]]] & _); [| by left | by right |]; exfalso.
  - apply (Hn ino x). unfold dirty_cell. by rewrite E.
  - destruct (v_flying _ Hv ino x i b E) as (f & Hf & _). unfold all_flights in Hf. cbn [view_of v_flights v_through] in Hf. rewrite Ei, Et in Hf.
    by apply not_elem_of_nil in Hf.
Qed.
Lemma empty_cache k : wb_inv k -> (forall ino x, cached (wb k) ino x = None) -> issued (wb k) = [] ->
  dirty_buffers (wb k) = [] /\ heap (wb k) = ∅ /\ writeback_bytes (wb k) = 0 /\ writeback_queue_size (wb k) = 0.
Proof.
  intros [[[Hs [I1 I2 [Hc _]]] _ Hfo] _ _ _] Hnone Ei.
  assert (El : dirty_buffers (wb k) = []).
  { destruct (dirty_buffers (wb k)) as [| d l] eqn:El; [done |]. exfalso. specialize (Hnone d.1.1 d.1.2). unfold cached in Hnone. rewrite El in Hnone.
    pose proof Hs as ((_ & ? & _) & _)%sorted_cons. rewrite (look_some _ d.1.1 d.1.2 Hs d) in Hnone; [done | apply list_elem_of_here |]. unfold covers, end_of. split; [done | lia]. }
  rewrite El in *. split; [done |]. split; [| done]. apply map_eq. intros i. rewrite lookup_empty. specialize (Hc i).
  pose proof (fo_refs _ Hfo) as Hr. rewrite Ei in Hr. simpl in Hr. rewrite (proj1 (Permutation_nil_r _) Hr) in Hc. simpl in Hc.
  destruct (heap (wb k) !! i); [lia | done].
Qed.

Lemma sync_all_ok hist k : history malloc hist k -> dirty_bytes (dirty_buffers (wb k)) < 4294967296 ->
  exists k' hist', sync_all malloc op_flags k = Ok k' /\ history malloc hist' k' /\ same_writes hist hist' /\ issued (wb k') = [] /\ through k' = [] /\
    forall ino x, cached (wb k') ino x = None.
Proof.
  intros Hh Hsmall. unfold sync_all.
  destruct (history_more hist k (WStart 0) Hh) as (k1 & -> & Hh1 & Hp1); [by split |]. cbn [rbind].
  destruct (land_all_ok (issued (wb k1)) _ k1 Hh1) as (h2 & k2 & -> & Hh2 & Hw2 & Hn2 & Ei2); [exact (proj2 Hp1 eq_refl) | done |]. cbn [rbind].
  destruct (land_through_ok (through k2) _ k2 Hh2 Hn2 Ei2 eq_refl) as (h3 & k3 & -> & Hh3 & Hw3 & Hn3 & Ei3 & Et3). cbn [rbind].
  destruct (history_more h3 k3 WFsyncStart Hh3) as (k4 & -> & Hh4 & (F4 & T4 & _) & Hc4); [done |]. cbn [rbind].
  destruct (history_more _ k4 WFsyncOk Hh4) as (k5 & -> & Hh5 & (F5 & T5 & _) & Hc5); [done |].
  cbn [view_of v_flights v_through v_cells] in *. eexists k5, _. split; [done |]. split; [done |].
  split; [intros ino x; cbn [note_of last_byte]; by rewrite Hw3, Hw2 |]. split; [rewrite F4, Ei3 in F5; by destruct (issued (wb k5)) |].
  split; [congruence |]. intros ino x. rewrite Hc5, Hc4. pose proof (rest_written h3 k3 ino x Hh3 Hn3 Ei3 Et3) as Hr.
  destruct (cached (wb k3) ino x) as [[[s i] b] |]; [| done]. by destruct Hr as [-> | ->].
Qed.
End Drain.

(** * Theorems *)



(** C8: No write is lost.  The byte written last at an offset is what the cache returns for it, unless, after that write,
    an operation that carried this byte has come back as committed at once, or has come back and a sync started after that
    has succeeded. *)
Theorem no_write_lost malloc hist k ino x b :
  (forall d, malloc d ∉ d) -> history malloc hist k -> last_byte ino x hist = Some b ->
  match cached (wb k) ino x with Some (_, _, b') => b' = Some b | None => stable_since ino x hist b end.
Proof.
  intros Hm Hh Hl. pose proof (history_story ino x malloc hist k Hm Hh) as Hs. unfold story in Hs. rewrite Hl in Hs.
  destruct (cached (wb k) ino x) as [[[s i] b'] |]; [by destruct Hs | done].
Qed.


(** * Witnesses *)

Definition demo_write (off : Z) (d : list Z) : cluster_op_t := mk_op OSD_OP_WRITE 1 1 off (zlen d) [d] [].
Definition demo_after (ev : event) (k : client_t) : client_t := match wstep fresh ev k with Ok k' => k' | Err _ => k end.
Definition demo_1 : client_t := demo_after (WWrite (demo_write 0 [1; 2; 3])) fresh_client.
Definition demo_2 : client_t := demo_after (WWrite (demo_write 1 [7])) demo_1.
Definition demo_hist : list note := [NWrite (demo_write 1 [7]); NWrite (demo_write 0 [1; 2; 3])].
Lemma demo_history : history fresh demo_hist demo_2.
Proof.
  apply (history_step fresh [NWrite (demo_write 0 [1; 2; 3])] demo_1 (WWrite (demo_write 1 [7])) demo_2); [| | vm_compute; reflexivity].
  - apply (history_step fresh [] fresh_client (WWrite (demo_write 0 [1; 2; 3])) demo_1); [constructor | | vm_compute; reflexivity].
    split; [| done]. split; [| done]. split; [done | done | done | by right].
  - split; [| done]. split; [| done]. split; [done | done | done | by right].
Qed.
Lemma demo_fresh (d : gset nat) : fresh d ∉ d.
Proof. apply is_fresh. Qed.

Lemma no_write_lost_witness : match cached (wb demo_2) 1 1 with Some (_, _, b') => b' = Some 7 | None => stable_since 1 1 demo_hist 7 end.
Proof. apply (no_write_lost fresh demo_hist demo_2 1 1 7); [exact demo_fresh | exact demo_history | vm_compute; reflexivity]. Defined.
