(* ===== verification/WritebackRead.v ===== *)
(** Reading from the write-back cache ([read_from_cache] of [Writeback.v]): a read
    gets the cached bytes of its range, whichever parts of memory its buffers are made
    of, and the bitmap says which ones. *)

From S2P Require Import Prelude.
From S2P Require Import Bitmap.
From S2P Require Import Writeback.
From S2P Require Import WritebackList.
From S2P Require Import WritebackCut.
From S2P Require Import WritebackOk.
From S2P Require Import WritebackFlush.
From S2P Require Import WritebackSpec.
From S2P Require Import WritebackSend.
From S2P Require Import WritebackStart.
From S2P Require Import WritebackDone.
From S2P Require Import WritebackMain.
From S2P Require Import WritebackTrace.

(** * Buffers made of parts *)

Section Copy.
Context (src : Z -> Z -> res (list Z)) (bs : list Z) (off n : Z).
Context (Hoff : 0 <= off) (Hn : zlen bs = n) (Hend : off + n < 18446744073709551616).
Context (Hsrc : forall p m, 0 <= p -> 0 <= m -> p + m <= n -> src p m = Ok (slice bs p m)).

(** [l'] is [l], which starts at [cur], with the copied bytes. *)
Definition overlaid (cur : Z) (l l' : list Z) : Prop :=
  zlen l' = zlen l /\ forall k : nat, (k < length l)%nat -> l' !! k = if decide (off <= cur + Z.of_nat k < off + n) then bs !! Z.to_nat (cur + Z.of_nat k - off) else l !! k.

Lemma overlaid_none cur l : (off + n <= cur \/ cur + zlen l <= off) -> overlaid cur l l.
Proof.
  intros H. split; [done |]. intros k Hk. unfold zlen in *. rewrite decide_False; [done | lia].
Qed.
Lemma overlaid_nil cur : overlaid cur [] [].
Proof. split; [done |]. intros k Hk. simpl in Hk. lia. Qed.
Lemma overlaid_app cur a a' b b' : overlaid cur a a' -> overlaid (cur + zlen a) b b' -> overlaid cur (a ++ b) (a' ++ b').
Proof.
  intros [La Ha] [Lb Hb]. split; [rewrite !zlen_app; lia |]. intros k Hk. rewrite length_app in Hk. unfold zlen in *. destruct (decide (k < length a)%nat).
  - rewrite !lookup_app_l by lia. by apply Ha.
  - rewrite !lookup_app_r by lia. rewrite Hb by lia. replace (cur + Z.of_nat (length a) + Z.of_nat (k - length a')) with (cur + Z.of_nat k) by lia.
    replace (length a') with (length a) by lia. done.
Qed.

(** One part. *)
Lemma overlaid_part cur v : 0 <= cur -> cur + zlen v < 18446744073709551616 -> off < cur + zlen v \/ off <= cur -> cur < off + n ->
  let begin_ := if cur <? off then off else cur in
  let end_ := if u64 (off + n) <? u64 (cur + zlen v) then u64 (off + n) else u64 (cur + zlen v) in
  exists d v', src (if cur <=? off then 0 else u64 (cur - off)) (u64 (end_ - begin_)) = Ok d /\ poke v (begin_ - cur) d = Ok v' /\ overlaid cur v v'.
Proof.
  intros Hc Hv Ho Hlt. pose proof (zlen_nonneg v). pose proof (zlen_nonneg bs). rewrite !(u64_small (off + n)), !(u64_small (cur + zlen v)) by lia. cbv zeta.
  set (b := if cur <? off then off else cur). set (e := if off + n <? cur + zlen v then off + n else cur + zlen v).
  assert (Hb : b = Z.max cur off) by (unfold b; destruct (Z.ltb_spec cur off); lia).
  assert (He : e = Z.min (off + n) (cur + zlen v)) by (unfold e; destruct (Z.ltb_spec (off + n) (cur + zlen v)); lia).
  replace (if cur <=? off then 0 else u64 (cur - off)) with (b - off).
  2: { destruct (Z.leb_spec cur off); [lia |]. rewrite u64_small; lia. }
  rewrite u64_small by lia. rewrite Hsrc by lia. set (d := slice bs (b - off) (e - b)).
  assert (Ld : zlen d = e - b) by (apply zlen_slice; lia). exists d, (poked v (b - cur) d). split; [done |].
  rewrite poke_poked by lia. split; [done |]. split; [apply zlen_poked; lia |]. intros k Hk. rewrite lookup_poked by lia. rewrite Ld.
  destruct (decide (b - cur <= Z.of_nat k < b - cur + (e - b))).
  - rewrite decide_True by lia. unfold d. rewrite lookup_slice, decide_True by lia. f_equal. lia.
  - rewrite decide_False; [done |]. unfold zlen in *. lia.
Qed.
Lemma copy_iov_ok iov : forall cur, off <= cur -> cur + zlen (concat iov) < 18446744073709551616 ->
  exists iov', copy_iov src cur off n iov = Ok iov' /\ overlaid cur (concat iov) (concat iov').
Proof.
  induction iov as [| v iov IH]; intros cur Hc Hl; cbn [copy_iov]; [exists []; split; [done | apply overlaid_nil] |]. pose proof (zlen_nonneg bs).
  cbn [concat] in Hl. rewrite zlen_app in Hl. pose proof (zlen_nonneg v). pose proof (zlen_nonneg (concat iov)). assert (Hu : u64 (off + n) = off + n) by (apply u64_small; lia).
  destruct (Z.ltb_spec cur (u64 (off + n))).
  - destruct (overlaid_part cur v ltac:(lia) ltac:(lia) ltac:(lia) ltac:(lia)) as (d & v' & E1 & E2 & Hv). cbv zeta in E1, E2 |- *. rewrite E1. cbn [rbind]. rewrite E2. cbn [rbind].
    rewrite (u64_small (cur + zlen v)) by lia. destruct (IH (cur + zlen v) ltac:(lia) ltac:(lia)) as (iov' & -> & Hi). exists (v' :: iov'). split; [done |]. by apply overlaid_app.
  - exists (v :: iov). split; [done |]. apply overlaid_none. lia.
Qed.
Lemma copy_to_iov_ok iov : forall cur, 0 <= cur -> cur + zlen (concat iov) < 18446744073709551616 ->
  exists iov', (let '(skipped, rest, cur_offset) := skip_iov cur off iov in let* copied := copy_iov src cur_offset off n rest in Ok (skipped ++ copied)) = Ok iov' /\
    overlaid cur (concat iov) (concat iov').
Proof.
  induction iov as [| v iov IH]; intros cur Hc Hl; cbn [skip_iov]; [exists []; split; [done | apply overlaid_nil] |]. cbn [concat] in Hl. rewrite zlen_app in Hl.
  pose proof (zlen_nonneg v). pose proof (zlen_nonneg (concat iov)). pose proof (zlen_nonneg bs). rewrite (u64_small (cur + zlen v)) by lia. destruct (Z.leb_spec (cur + zlen v) off).
  - destruct (IH (cur + zlen v) ltac:(lia) ltac:(lia)) as (iov' & E & Hi). destruct (skip_iov (cur + zlen v) off iov) as [[sk rest] co].
    destruct (copy_iov src co off n rest) as [copied |]; [| done]. injection E as <-. exists (v :: sk ++ copied). split; [done |].
    apply overlaid_app; [apply overlaid_none; lia | done].
  - cbn [copy_iov]. assert (Hu : u64 (off + n) = off + n) by (apply u64_small; lia). destruct (Z.ltb_spec cur (u64 (off + n))).
    + destruct (overlaid_part cur v ltac:(lia) ltac:(lia) ltac:(lia) ltac:(lia)) as (d & v' & E1 & E2 & Hv). cbv zeta in E1, E2 |- *. rewrite E1. cbn [rbind]. rewrite E2. cbn [rbind].
      rewrite (u64_small (cur + zlen v)) by lia. destruct (copy_iov_ok iov (cur + zlen v) ltac:(lia) ltac:(lia)) as (iov' & -> & Hi). exists (v' :: iov'). split; [done |]. by apply overlaid_app.
    + exists (v :: iov). split; [done |]. apply overlaid_none. lia.
Qed.
End Copy.

(** * One buffer *)

(** The byte of a buffer at an offset; what has been deleted reads as zeros. *)
Definition buf_byte (h : gmap nat block_t) (d : dbuf) (x : Z) : option Z :=
  match buf d.2 with None => Some 0 | Some (i, o) => byte_at h (Some (i, o + (x - d.1.2))) end.

Section Reading.
Context (h : gmap nat block_t) (g : Z) (Hg : 0 < g).

Lemma src_ok d b e : buf_ok d -> in_heap h d -> d.1.2 <= b < e -> e <= end_of d ->
  exists bs, zlen bs = e - b /\
    (forall p m, 0 <= p -> 0 <= m -> p + m <= e - b ->
      src_bytes h (match buf d.2 with None => None | Some (i, o) => Some (i, o + b - d.1.2) end) p m = Ok (slice bs p m)) /\
    forall x, b <= x < e -> bs !! Z.to_nat (x - b) = buf_byte h d x.
Proof.
  intros (H0 & _) Hin Hb He. unfold in_heap, buf_byte, src_bytes in *. destruct (buf d.2) as [[i o] |].
  - destruct Hin as (m & Em & Ho & Hl). unfold end_of in He. exists (slice (bytes m) (o + b - d.1.2) (e - b)).
    split; [apply zlen_slice; lia |]. split.
    + intros p k Hp Hk Hle. rewrite Em, load_slice, slice_slice by lia. done.
    + intros x Hx. cbn [byte_at]. rewrite Em. cbn [mbind option_bind]. rewrite lookup_slice, decide_True by lia. f_equal. lia.
  - exists (replicate (Z.to_nat (e - b)) 0). split; [rewrite zlen_replicate; lia |]. split.
    + intros p k Hp Hk Hle. unfold slice. rewrite drop_replicate, take_replicate. do 2 f_equal. lia.
    + intros x Hx. apply lookup_replicate_2. lia.
Qed.

(** What stays the same during a read, and the shape of the rest. *)
Record read_op (op : cluster_op_t) : Prop := {
  ro_opcode : opcode op = OSD_OP_READ;
  ro_offset : 0 <= offset op;
  ro_len : 0 < op_len op;
  ro_end : offset op + op_len op < 18446744073709551616;
  ro_iov : zlen (concat (iov op)) = op_len op;
  ro_bytes : bytes_ok (bitmap_buf op);
  ro_bits : op_len op <= 8 * Z.of_nat (length (bitmap_buf op)) * g;
  ro_small : 8 * Z.of_nat (length (bitmap_buf op)) < 2 ^ 32 }.
Definition same_op (op op' : cluster_op_t) : Prop :=
  opcode op' = opcode op /\ inode op' = inode op /\ cur_inode op' = cur_inode op /\ offset op' = offset op /\ op_len op' = op_len op.
Definition op_byte (op : cluster_op_t) (x : Z) : option Z := concat (iov op) !! Z.to_nat (x - offset op).
Definition op_bit (op : cluster_op_t) (x : Z) : bool := bm_bit (bitmap_buf op) ((x - offset op) / g).
Definition on_grid (op : cluster_op_t) (x : Z) : Prop := (x - offset op) mod g = 0.

Lemma grid_div op x : on_grid op x -> x - offset op = g * ((x - offset op) / g).
Proof. unfold on_grid. intros H. pose proof (Z.div_mod (x - offset op) g ltac:(lia)). lia. Qed.
Lemma grid_next op x y : on_grid op x -> on_grid op y -> x < y -> x + g <= y /\ on_grid op (x + g).
Proof.
  intros Hx Hy Hlt. pose proof (grid_div op x Hx) as Ex. pose proof (grid_div op y Hy) as Ey. split.
  - set (a := (x - offset op) / g) in *. set (b := (y - offset op) / g) in *. assert (a + 1 <= b) by nia. nia.
  - unfold on_grid in *. replace (x + g - offset op) with (x - offset op + 1 * g) by lia. by rewrite Z_mod_plus_full.
Qed.

(** The bits of the granules of a range are set. *)
Lemma set_bits_ok op b e : read_op op -> offset op <= b < e -> e <= offset op + op_len op -> on_grid op b -> on_grid op e ->
  exists bm', bitmap_loop UINT8_MAX byte_set (S (Z.to_nat ((e - offset op) / g))) (bitmap_buf op) ((b - offset op) / g) ((e - offset op) / g) = Ok bm' /\
    bytes_ok bm' /\ length bm' = length (bitmap_buf op) /\
    forall x, offset op <= x -> on_grid op x -> bm_bit bm' ((x - offset op) / g) = if decide (b <= x < e) then true else op_bit op x.
Proof.
  intros [O1 O2 O3 O4 O5 O6 O7 O8] Hb He Gb Ge. pose proof (grid_div op b Gb). pose proof (grid_div op e Ge).
  destruct (bitmap_loop_ok UINT8_MAX byte_set true set_writer (S (Z.to_nat ((e - offset op) / g))) (bitmap_buf op) ((b - offset op) / g) ((e - offset op) / g))
    as (bm' & E & Hb' & Hl & Hbit); [done | nia | nia | done | nia |].
  exists bm'. split; [done |]. split; [done |]. split; [done |]. intros x Hx Gx. pose proof (grid_div op x Gx). rewrite Hbit by nia. unfold op_bit.
  repeat case_decide; try done; exfalso; nia.
Qed.
Lemma copy_from_ok op d b e : read_op op -> buf_ok d -> in_heap h d -> d.1.2 <= b < e -> e <= end_of d -> offset op <= b -> e <= offset op + op_len op ->
  on_grid op b -> on_grid op e ->
  exists op', copy_from h op d b e g = Ok op' /\ same_op op op' /\ read_op op' /\
    (forall x, offset op <= x < offset op + op_len op -> op_byte op' x = if decide (b <= x < e) then buf_byte h d x else op_byte op x) /\
    (forall x, offset op <= x -> on_grid op x -> op_bit op' x = if decide (b <= x < e /\ has_buf d.2 = true) then true else op_bit op x).
Proof.
  intros Hop Hd Hin Hb He Hob Hoe Gb Ge. pose proof Hop as [O1 O2 O3 O4 O5 O6 O7 O8]. destruct (src_ok d b e Hd Hin Hb He) as (bs & Lbs & Hsrc & Hbs).
  unfold copy_from, copy_to_op. rewrite O1. cbn [Z.eqb OSD_OP_READ Pos.eqb]. rewrite (u64_small (e - b)) by lia.
  destruct (copy_to_iov_ok _ bs b (e - b) ltac:(lia) Lbs ltac:(lia) Hsrc (iov op) (offset op) O2 ltac:(lia)) as (iov' & -> & Li & Hi). cbn [rbind].
  assert (Hbyte : forall x, offset op <= x < offset op + op_len op ->
    concat iov' !! Z.to_nat (x - offset op) = if decide (b <= x < e) then buf_byte h d x else op_byte op x).
  { intros x Hx. rewrite Hi by (unfold zlen in O5; lia). replace (offset op + Z.of_nat (Z.to_nat (x - offset op))) with x by lia.
    replace (b + (e - b)) with e by lia. case_decide; [by apply Hbs | done]. }
  unfold has_buf. destruct (buf d.2) as [[i o] |]; cbn [rbind].
  - rewrite (proj2 (Z.eqb_neq g 0)) by lia. rewrite !u64_small by lia. replace (b - offset op + (e - b)) with (e - offset op) by lia.
    destruct (set_bits_ok op b e Hop ltac:(lia) Hoe Gb Ge) as (bm' & -> & Hbm & Lbm & Hbit). cbn [rbind]. eexists. split; [done |]. split; [done |].
    split; [split; cbn [opcode offset op_len iov bitmap_buf]; rewrite ?Lbm; try done; by rewrite Li |]. split; [exact Hbyte |].
    intros x Hx Gx. unfold op_bit at 1. cbn [bitmap_buf offset]. rewrite (Hbit x Hx Gx). repeat case_decide; tauto || done.
  - eexists. split; [done |]. split; [done |]. split; [split; cbn [opcode offset op_len iov bitmap_buf]; try done; by rewrite Li |]. split; [exact Hbyte |].
    intros x Hx Gx. rewrite decide_False by (intros [_ ?]; done). done.
Qed.

(** * The granules of a buffer *)

Lemma scan_bit op cur : read_op op -> offset op <= cur < offset op + op_len op ->
  exists byte, aget (bitmap_buf op) (u32 (u64 (cur - offset op) / g) / 8) = Ok byte /\ Z.testbit byte (u32 (u64 (cur - offset op) / g) mod 8) = op_bit op cur.
Proof.
  intros [O1 O2 O3 O4 O5 O6 O7 O8] Hc. rewrite u64_small by lia. unfold op_bit, bm_bit. set (q := (cur - offset op) / g).
  assert (0 <= q < 8 * Z.of_nat (length (bitmap_buf op))) by (unfold q; split; [apply Z.div_pos; lia | apply Z.div_lt_upper_bound; nia]).
  rewrite u32_small by lia. destruct (aget_in_range (bitmap_buf op) (q / 8)) as [byte E]; [Z.div_mod_to_equations; lia |].
  exists byte. split; [done |]. apply aget_ok in E as [_ ->]. done.
Qed.
Lemma scan_rest op d copied prev e : read_op op -> e <= offset op + op_len op -> on_grid op e -> forall fuel cur, offset op <= cur <= e -> on_grid op cur ->
  (Z.to_nat (e - cur) < fuel)%nat -> (forall x, cur <= x < e -> on_grid op x -> op_bit op x = false) ->
  scan_loop fuel h d g op copied cur prev e false = Ok (op, copied, e, prev, false).
Proof.
  intros Hop Hoe Ge. induction fuel as [| fuel IH]; intros cur Hc Gc Hf Hz; [lia |]. cbn [scan_loop]. destruct (Z.ltb_spec cur e) as [Hlt |].
  - rewrite (proj2 (Z.eqb_neq g 0)) by lia. destruct (scan_bit op cur Hop ltac:(lia)) as (byte & E & Et). cbv zeta. rewrite E. cbn [rbind].
    rewrite Et, (Hz cur) by (try done; lia). cbn [eqb]. destruct (grid_next op cur e Gc Ge Hlt). pose proof (ro_end _ Hop). pose proof (ro_offset _ Hop).
    rewrite u64_small by lia. apply IH; [lia | done | lia |]. intros x Hx. apply Hz. lia.
  - by replace cur with e by lia.
Qed.
Lemma scan_ok op d copied b e : read_op op -> e <= offset op + op_len op -> offset op <= b < e -> on_grid op b -> on_grid op e ->
  (forall x, b <= x < e -> on_grid op x -> op_bit op x = false) ->
  scan_loop (S (Z.to_nat (e - b))) h d g op copied b b e true = Ok (op, copied, e, b, false).
Proof.
  intros Hop Hoe Hb Gb Ge Hz. cbn [scan_loop]. rewrite (proj2 (Z.ltb_lt b e)) by lia. rewrite (proj2 (Z.eqb_neq g 0)) by lia.
  destruct (scan_bit op b Hop ltac:(lia)) as (byte & E & Et). cbv zeta. rewrite E. cbn [rbind]. rewrite Et, (Hz b) by (try done; lia). cbn [eqb].
  rewrite Z.ltb_irrefl. cbn [andb rbind]. destruct (grid_next op b e Gb Ge ltac:(lia)). pose proof (ro_end _ Hop). pose proof (ro_offset _ Hop).
  rewrite u64_small by lia. apply scan_rest; [done | done | done | lia | done | lia |]. intros x Hx. apply Hz. lia.
Qed.

(** * All buffers *)

Definition in_read (op : cluster_op_t) (x : Z) : Prop := offset op <= x < offset op + op_len op.
Definition read_byte (l : list dbuf) (ino x : Z) (old : option Z) : option Z := match find_buf l ino x with Some d => buf_byte h d x | None => old end.
Definition read_bit (l : list dbuf) (ino x : Z) (old : bool) : bool :=
  match find_buf l ino x with Some d => if has_buf d.2 then true else old | None => old end.
(** The buffers lie where [find_dirty] has found them, on the grid of the read. *)
Record read_bufs (op : cluster_op_t) (l : list dbuf) : Prop := {
  rb_sorted : sorted l;
  rb_heap : forall d, d ∈ l -> in_heap h d;
  rb_from : forall d, d ∈ l -> cur_inode op <= d.1.1 /\ (d.1.1 = cur_inode op -> offset op < end_of d);
  rb_grid : forall d, d ∈ l -> d.1.1 = cur_inode op -> on_grid op d.1.2 /\ on_grid op (end_of d);
  rb_bits : forall d x, d ∈ l -> covers (cur_inode op) x d -> in_read op x -> on_grid op x -> op_bit op x = false }.

Lemma find_buf_none l ino x : (forall d, d ∈ l -> ~ covers ino x d) -> find_buf l ino x = None.
Proof. intros Hn. destruct (find_buf l ino x) as [d |] eqn:E; [| done]. apply find_buf_some in E as [Hd Hx]. by destruct (Hn d Hd). Qed.
Lemma read_stop op d l x : read_bufs op (d :: l) -> (d.1.1 =? cur_inode op) && (d.1.2 <? offset op + op_len op) = false -> in_read op x ->
  find_buf (d :: l) (cur_inode op) x = None.
Proof.
  intros [Hs _ Hf _ _] E Hx. apply find_buf_none. intros f Hin [Ei Hc]. apply sorted_cons in Hs as ((_ & Hl & _) & _ & Hb).
  apply andb_false_iff in E. rewrite Z.eqb_neq, Z.ltb_ge in E. destruct (Hf d (list_elem_of_here _ _)) as [Hle _]. unfold in_read in Hx.
  apply elem_of_cons in Hin as [-> | Hin]; [lia |]. specialize (Hb f Hin). unfold before, end_of in *. lia.
Qed.
Lemma same_op_grid op op' x : same_op op op' -> (on_grid op' x <-> on_grid op x) /\ (in_read op' x <-> in_read op x).
Proof. intros (_ & _ & _ & E1 & E2). unfold on_grid, in_read. by rewrite E1, E2. Qed.
Lemma same_op_trans a b c : same_op a b -> same_op b c -> same_op a c.
Proof. unfold same_op. intros (? & ? & ? & ? & ?) (? & ? & ? & ? & ?). repeat split; congruence. Qed.

(** The part of a buffer that is read. *)
Lemma read_part op d l (b := if d.1.2 <? offset op then offset op else d.1.2)
    (e := if offset op + op_len op <? end_of d then offset op + op_len op else end_of d) :
  read_op op -> on_grid op (offset op + op_len op) -> read_bufs op (d :: l) -> d.1.1 = cur_inode op -> d.1.2 < offset op + op_len op ->
  d.1.2 <= b < e /\ e <= end_of d /\ offset op <= b /\ e <= offset op + op_len op /\ on_grid op b /\ on_grid op e /\
  forall x, in_read op x -> covers (cur_inode op) x d <-> b <= x < e.
Proof.
  intros [O1 O2 O3 O4 O5 O6 O7 O8] Gop [Hs _ Hf Hgr _] Ei Elt. apply sorted_cons in Hs as ((_ & Hl & _) & _ & _). pose proof (list_elem_of_here d l) as Hdl.
  destruct (Hf d Hdl) as [_ Hoff]. specialize (Hoff Ei). destruct (Hgr d Hdl Ei) as [G1 G2].
  assert (Hbm : b = Z.max d.1.2 (offset op)) by (unfold b; destruct (Z.ltb_spec d.1.2 (offset op)); lia).
  assert (Hem : e = Z.min (end_of d) (offset op + op_len op)) by (unfold e; destruct (Z.ltb_spec (offset op + op_len op) (end_of d)); lia).
  assert (Gb : on_grid op b) by (unfold b; destruct (d.1.2 <? offset op); [| done]; unfold on_grid; by rewrite Z.sub_diag, Z.mod_0_l by lia).
  assert (Ge : on_grid op e) by (unfold e; by destruct (offset op + op_len op <? end_of d)).
  unfold end_of, covers, in_read in *. split; [lia |]. split; [lia |]. split; [lia |]. split; [lia |]. split; [done |]. split; [done |]. unfold end_of. intros x Hx. lia.
Qed.
Lemma read_one op copied d l : read_op op -> on_grid op (offset op + op_len op) -> read_bufs op (d :: l) -> d.1.1 = cur_inode op -> d.1.2 < offset op + op_len op ->
  exists op1, read_loop h g op copied (d :: l) = read_loop h g op1 true l /\ same_op op op1 /\ read_op op1 /\
    (forall x, in_read op x -> op_byte op1 x = if decide (covers (cur_inode op) x d) then buf_byte h d x else op_byte op x) /\
    (forall x, in_read op x -> on_grid op x -> op_bit op1 x = if decide (covers (cur_inode op) x d /\ has_buf d.2 = true) then true else op_bit op x).
Proof.
  intros Hop Gop Hrb Ei Elt. destruct (read_part op d l Hop Gop Hrb Ei Elt) as (Hb & He & Hob & Hoe & Gb & Ge & Hcov). cbn [read_loop].
  pose proof Hop as [O1 O2 O3 O4 O5 O6 O7 O8]. pose proof Hrb as [Hs Hh _ _ Hbit]. pose proof Hs as (Hd & _)%sorted_cons. pose proof (list_elem_of_here d l) as Hdl.
  rewrite !(u64_small (offset op + op_len op)) by lia. rewrite Ei, Z.eqb_refl, (proj2 (Z.ltb_lt _ _) Elt), (buf_end_ok d Hd). cbn [andb].
  set (b := if d.1.2 <? offset op then _ else _) in *. set (e := if _ <? end_of d then _ else _) in *. rewrite (scan_ok op d copied b e Hop ltac:(lia) ltac:(lia) Gb Ge).
  2: { intros x Hx Gx. assert (in_read op x) as Hir by (unfold in_read; lia). apply (Hbit d); [done | by apply Hcov | done | done]. }
  cbn [rbind]. rewrite (proj2 (Z.ltb_lt b e)) by lia. cbn [negb].
  destruct (copy_from_ok op d b e Hop Hd (Hh d Hdl) ltac:(lia) ltac:(lia) ltac:(lia) ltac:(lia) Gb Ge) as (op1 & -> & Hs1 & Hop1 & Hbyte1 & Hbit1). cbn [rbind].
  exists op1. split; [done |]. split; [done |]. split; [done |]. split; intros x Hx; [| intros Gx].
  - rewrite Hbyte1 by done. specialize (Hcov x Hx). repeat case_decide; tauto || done.
  - rewrite Hbit1 by (try done; apply Hx). specialize (Hcov x Hx). repeat case_decide; tauto || done.
Qed.
Lemma read_rest op op1 d l : read_bufs op (d :: l) -> same_op op op1 ->
  (forall x, in_read op x -> on_grid op x -> op_bit op1 x = if decide (covers (cur_inode op) x d /\ has_buf d.2 = true) then true else op_bit op x) ->
  read_bufs op1 l /\ forall x, covers (cur_inode op) x d -> find_buf l (cur_inode op) x = None.
Proof.
  intros [Hs Hh Hf Hgr Hbit] Hs1 Hbit1. pose proof Hs as (Hd & Hl & Hb)%sorted_cons. pose proof Hs1 as (_ & _ & E1 & E2 & E3).
  assert (Hout : forall f x, f ∈ l -> covers (cur_inode op) x f -> ~ covers (cur_inode op) x d).
  { intros f x Hin Hcf Hcd. specialize (Hb f Hin). unfold covers, before in *. lia. }
  split; [| intros x Hx; apply find_buf_none; intros f Hin Hcf; by apply (Hout f x)].
  split; [done | intros f Hin; apply Hh; by apply list_elem_of_further | | |].
  - intros f Hin. rewrite E1, E2. apply Hf. by apply list_elem_of_further.
  - intros f Hin. rewrite E1. intros Hif. destruct (Hgr f (list_elem_of_further _ _ _ Hin) Hif). by rewrite !(proj1 (same_op_grid op op1 _ Hs1)).
  - intros f x Hin. rewrite E1, (proj1 (same_op_grid op op1 _ Hs1)), (proj2 (same_op_grid op op1 _ Hs1)). intros Hcf Hx Gx.
    rewrite Hbit1 by done. rewrite decide_False; [apply (Hbit f); [by apply list_elem_of_further | done..] |]. intros [Hr _]. by apply (Hout f x Hin Hcf).
Qed.

Lemma read_loop_ok l : forall op copied, read_op op -> on_grid op (offset op + op_len op) -> read_bufs op l ->
  exists op' copied', read_loop h g op copied l = Ok (op', copied') /\ same_op op op' /\
    (forall x, in_read op x -> op_byte op' x = read_byte l (cur_inode op) x (op_byte op x)) /\
    (forall x, in_read op x -> on_grid op x -> op_bit op' x = read_bit l (cur_inode op) x (op_bit op x)).
Proof.
  induction l as [| d l IH]; intros op copied Hop Gop Hrb; [by exists op, copied |].
  destruct ((d.1.1 =? cur_inode op) && (d.1.2 <? offset op + op_len op)) eqn:Ec.
  2: { exists op, copied. cbn [read_loop]. pose proof (ro_offset _ Hop). pose proof (ro_len _ Hop). pose proof (ro_end _ Hop). rewrite !(u64_small (offset op + op_len op)), Ec by lia.
       split; [done |]. split; [done |]. unfold read_byte, read_bit. split; intros x Hx; [| intros _]; by rewrite (read_stop op d l x Hrb Ec Hx). }
  apply andb_true_iff in Ec as [Ei%Z.eqb_eq Elt%Z.ltb_lt].
  destruct (read_one op copied d l Hop Gop Hrb Ei Elt) as (op1 & -> & Hs1 & Hop1 & Hbyte1 & Hbit1).
  destruct (read_rest op op1 d l Hrb Hs1 Hbit1) as [Hrb1 Hfind]. pose proof Hs1 as (_ & _ & E1 & E2 & E3).
  destruct (IH op1 true Hop1) as (op' & copied' & -> & Hs' & Hbyte' & Hbit'); [apply (same_op_grid op op1 _ Hs1); by rewrite E2, E3 | done |].
  exists op', copied'. split; [done |]. split; [by apply (same_op_trans op op1) |]. rewrite E1 in Hbyte', Hbit'.
  split; intros x Hx; [| intros Gx].
  - rewrite Hbyte', Hbyte1 by (try done; by apply (same_op_grid op op1 x Hs1)). unfold read_byte. cbn [find_buf].
    destruct (decide (covers (cur_inode op) x d)) as [Hcd |]; [by rewrite (Hfind x Hcd) | done].
  - rewrite Hbit', Hbit1 by (try done; by apply (same_op_grid op op1 x Hs1)). unfold read_bit. cbn [find_buf].
    destruct (decide (covers (cur_inode op) x d /\ has_buf d.2 = true)) as [[Hcd Hb] | Hn].
    + by rewrite (Hfind x Hcd), decide_True, Hb by done.
    + destruct (decide (covers (cur_inode op) x d)) as [Hcd |]; [| done]. rewrite (Hfind x Hcd). destruct (has_buf d.2); [| done]. by destruct Hn.
Qed.
End Reading.

(** * Theorem *)

(** The operations and buffers of a client are aligned; the bitmap of a read is empty at first. *)
Record read_ok (g : Z) (op : cluster_op_t) : Prop := {
  rk_op : read_op g op;
  rk_len : op_len op mod g = 0;
  rk_bitmap : Forall (fun b => b = 0) (bitmap_buf op) }.
Definition aligned (g : Z) (op : cluster_op_t) (c : writeback_cache_t) : Prop :=
  forall d, d ∈ dirty_buffers c -> d.1.1 = cur_inode op -> (d.1.2 - offset op) mod g = 0 /\ len d.2 mod g = 0.

Lemma empty_bits g op x : Forall (fun b => b = 0) (bitmap_buf op) -> op_bit g op x = false.
Proof.
  intros Hf. unfold op_bit, bm_bit. destruct (bitmap_buf op !! _) as [b |] eqn:E; simpl; [| apply Z.testbit_0_l].
  rewrite (Forall_lookup_1 _ _ _ _ Hf E). apply Z.testbit_0_l.
Qed.
Lemma cached_byte c ino x : sorted (dirty_buffers c) -> heap_ok (heap c) (dirty_buffers c) (flushed_buffers c) ->
  match cached c ino x with
  | None => find_buf (dirty_buffers c) ino x = None
  | Some (_, _, Some b) => exists d, find_buf (dirty_buffers c) ino x = Some d /\ has_buf d.2 = true /\ buf_byte (heap c) d x = Some b
  | Some (_, _, None) => exists d, find_buf (dirty_buffers c) ino x = Some d /\ has_buf d.2 = false
  end.
Proof.
  intros Hs Hh. unfold cached. rewrite look_find. destruct (find_buf (dirty_buffers c) ino x) as [d |] eqn:E; [| done]. cbn [option_map].
  unfold cell_of, has_buf, buf_byte. destruct (buf d.2) as [[i o] |] eqn:Eb; [| by exists d; rewrite Eb].
  pose proof (find_buf_some _ _ _ _ E) as [Hd [_ Hx]]. pose proof (heap_in _ _ _ Hh d Hd) as Hin. unfold in_heap in Hin. rewrite Eb in Hin. destruct Hin as (m & Em & Ho & Hl).
  cbn [byte_at]. rewrite Em. cbn [mbind option_bind]. unfold end_of, zlen in *.
  destruct (lookup_lt_is_Some_2 (bytes m) (Z.to_nat (o + (x - d.1.2))) ltac:(lia)) as [b Ebt]. rewrite Ebt. exists d. rewrite Eb. cbn [byte_at]. by rewrite Em.
Qed.
Lemma find_buf_skip a b ino x : (forall d, d ∈ a -> ~ covers ino x d) -> find_buf (a ++ b) ino x = find_buf b ino x.
Proof.
  induction a as [| d a IH]; intros Hn; [done |]. cbn [app find_buf]. rewrite decide_False by apply Hn, list_elem_of_here.
  apply IH. intros e He. apply Hn. by apply list_elem_of_further.
Qed.

Lemma read_found g op c : 0 < g -> wb_ok c -> read_ok g op -> aligned g op c ->
  exists op' copied, read_from_cache op g c = Ok (op', copied) /\ same_op op op' /\
    (forall x, in_read op x -> op_byte op' x = read_byte (heap c) (dirty_buffers c) (cur_inode op) x (op_byte op x)) /\
    (forall x, in_read op x -> on_grid g op x -> op_bit g op' x = read_bit (dirty_buffers c) (cur_inode op) x false).
Proof.
  intros Hg [Hs Hi] [Hop Hlen Hbm] Hal. unfold read_from_cache. destruct (dirty_buffers c) as [| d0 l0] eqn:El.
  { exists op, false. split; [done |]. split; [done |]. split; [done |]. intros x _ _. by rewrite empty_bits. }
  rewrite (ro_opcode _ _ Hop). cbn [Z.eqb OSD_OP_READ Pos.eqb orb]. rewrite <- El in *. clear d0 l0 El.
  destruct (find_dirty c (cur_inode op) (offset op)) as [pre post] eqn:E. destruct (find_dirty_spec c _ _ pre post Hs E) as (El & Hpre & Hpost & _).
  pose proof (find_dirty_from c _ _ pre post Hs E) as Hfrom. cbn [snd].
  assert (Hin : forall d, d ∈ post -> d ∈ dirty_buffers c) by (intros d Hd; rewrite <- El, elem_of_app; by right).
  destruct (read_loop_ok (heap c) g Hg post op false Hop) as (op' & copied & -> & Hsame & Hbyte & Hbit).
  { unfold on_grid. by rewrite Z.add_simpl_l. }
  { split.
    - rewrite <- El in Hs. by apply sorted_app in Hs as (_ & ? & _).
    - intros d Hd. apply (heap_in _ _ _ (inv_heap _ _ Hi)). auto.
    - intros d Hd. auto.
    - intros d Hd Ei. destruct (Hal d (Hin d Hd) Ei) as [H1 H2]. split; [done |]. unfold on_grid, end_of.
      replace (d.1.2 + len d.2 - offset op) with ((d.1.2 - offset op) + len d.2) by lia. by rewrite Z.add_mod, H1, H2, Z.mod_0_l by lia.
    - intros d x _ _ _ _. by apply empty_bits. }
  assert (Hfind : forall x, in_read op x -> find_buf (dirty_buffers c) (cur_inode op) x = find_buf post (cur_inode op) x).
  { intros x Hx. rewrite <- El. apply find_buf_skip. intros d Hd [Ei Hc]. rewrite elem_of_rev in Hd. specialize (Hpre d Hd Ei). unfold in_read in Hx. lia. }
  exists op', copied. split; [done |]. split; [done |]. unfold read_byte, read_bit in *. split; intros x Hx; [| intros Gx]; rewrite (Hfind x Hx); [by apply Hbyte |].
  rewrite Hbit by done. by rewrite empty_bits.
Qed.

(** Reading from the cache gives every byte that is cached, in whatever state and from whichever buffer, zeros where a
    deletion is cached and nothing elsewhere, and sets the bits of exactly the granules whose data has been copied. *)
Theorem read_from_cache_ok g op c :
  0 < g -> wb_ok c -> read_ok g op -> aligned g op c ->
  exists op' copied, read_from_cache op g c = Ok (op', copied) /\
    forall x, in_read op x ->
      op_byte op' x = match cached c (cur_inode op) x with Some (_, _, Some b) => Some b | Some (_, _, None) => Some 0 | None => op_byte op x end /\
      (on_grid g op x -> op_bit g op' x = match cached c (cur_inode op) x with Some (_, _, Some _) => true | _ => false end).
Proof.
  intros Hg Hok Hop Hal. destruct (read_found g op c Hg Hok Hop Hal) as (op' & copied & E & _ & Hbyte & Hbit). exists op', copied. split; [done |].
  intros x Hx. pose proof (cached_byte c (cur_inode op) x (proj1 Hok) (inv_heap _ _ (proj2 Hok))) as Hc. specialize (Hbyte x Hx). specialize (Hbit x Hx).
  unfold read_byte, read_bit in *. destruct (cached c (cur_inode op) x) as [[[s f] [b |]] |].
  - destruct Hc as (d & Ed & Hb & Eb). rewrite Ed in Hbyte, Hbit. rewrite Hb in Hbit. by rewrite Hbyte, Eb.
  - destruct Hc as (d & Ed & Hb). rewrite Ed in Hbyte, Hbit. rewrite Hb in Hbit. rewrite Hbyte. split; [| done]. unfold buf_byte, has_buf in *. by destruct (buf d.2).
  - by rewrite Hc in Hbyte, Hbit.
Qed.
Definition demo_read : cluster_op_t := mk_op OSD_OP_READ 1 1 0 4 [[0; 0]; [0; 0]] [0].
Lemma demo_read_ok : read_ok 1 demo_read.
Proof.
  split; [split; [done | done | done | done | done | | done | done] | done |].
  - apply Forall_cons. split; [lia | constructor].
  - by repeat constructor.
Qed.
Lemma demo_cache_ok : wb_ok (wb demo_2).
Proof. apply (co_wb _ (wi_cache _ (history_inv fresh demo_hist demo_2 demo_fresh demo_history))). Qed.
Lemma demo_aligned : aligned 1 demo_read (wb demo_2).
Proof. intros d _ _. by rewrite !Z.mod_1_r. Qed.
Lemma read_from_cache_ok_witness : exists op' copied, read_from_cache demo_read 1 (wb demo_2) = Ok (op', copied) /\
    forall x, in_read demo_read x ->
      op_byte op' x = match cached (wb demo_2) 1 x with Some (_, _, Some b) => Some b | Some (_, _, None) => Some 0 | None => op_byte demo_read x end /\
      (on_grid 1 demo_read x -> op_bit 1 op' x = match cached (wb demo_2) 1 x with Some (_, _, Some _) => true | _ => false end).
Proof. apply (read_from_cache_ok 1 demo_read (wb demo_2)); [lia | exact demo_cache_ok | exact demo_read_ok | exact demo_aligned]. Defined.

