(* ===== verification/WritebackDelete.v ===== *)
(** Deletions in write-back mode.  The promises of [WritebackSpec.v] are about writes;
    with deletions the counters and the queue of the cache go wrong. *)

From S2P Require Import Prelude.
From S2P Require Import Writeback.
From S2P Require Import WritebackList.
From S2P Require Import WritebackOk.

Definition delete_op (ino off n : Z) : cluster_op_t := mk_op OSD_OP_DELETE ino ino off n [] [].

(** C40: Write-back of a cached deletion takes its length off the number of dirty bytes, to which it has never been added:
    when the deletion is all that is dirty, the assertion that there are no dirty bytes without dirty buffers fails. *)
Theorem delete_writeback_fails ino off n :
  0 <= off -> 0 < n -> off + n < 18446744073709551616 ->
  (let* c := copy_write fresh (delete_op ino off n) CACHE_DIRTY 0 new_cache in start_writebacks 0 c) = Err AssertFailed.
Proof.
  intros H0 Hn He. unfold copy_write. cbn [op_len delete_op]. rewrite (proj2 (Z.eqb_neq n 0)) by lia.
  cbn. unfold insert_write. cbn. assert (Eo : oid_lt (ino, off) (ino, off) = false) by (apply oid_lt_false; simpl; lia).
  rewrite Eo. cbn. unfold start_one, find_dirty. cbn. rewrite Eo. cbn. rewrite !Z.eqb_refl. cbn. unfold buf_end. cbn.
  rewrite (u64_small (off + n)), (u64_small (off + n - off)) by lia.
  assert ((u64 (u64 (0 + 0) - (off + n - off)) =? 0) = false) as ->; [| done].
  apply Z.eqb_neq. unfold u64. change (0 + 0) with 0. rewrite Z.mod_0_l by lia. intros E%Z.mod_divide; [| lia]. destruct E as [q Eq]. nia.
Qed.
Lemma delete_writeback_fails_witness :
  (let* c := copy_write fresh (delete_op 1 4096 8192) CACHE_DIRTY 0 new_cache in start_writebacks 0 c) = Err AssertFailed.
Proof. apply (delete_writeback_fails 1 4096 8192); lia. Defined.

(** A deletion inside a dirty write leaves its right part dirty without an entry of the queue: after the whole queue
    has been written back, as for a sync, the queue is empty and these bytes are still dirty. *)
Theorem delete_hides_dirty :
  exists c,
    (let* c := copy_write fresh (mk_op OSD_OP_WRITE 1 1 0 12 [[1; 2; 3; 4; 5; 6; 7; 8; 9; 10; 11; 12]] []) CACHE_DIRTY 0 new_cache in
     let* c := copy_write fresh (delete_op 1 4 4) CACHE_DIRTY 0 c in
     start_writebacks 0 c) = Ok c /\
    writeback_queue c = [] /\ cached c 1 8 = Some (CACHE_DIRTY, 0, Some 9).
Proof. eexists. split; [vm_compute; reflexivity |]. split; vm_compute; reflexivity. Qed.
