(* ===== verification/Journal.v ===== *)
(** * The journal of the blockstore: data and ring operations

    [journal_t] of blockstore/blockstore_journal.h, the space check and the entry
    allocation of blockstore_journal.cpp, the trimming position, and the end of
    [trim_journal] of blockstore_flush.cpp.

    The journal is a ring of blocks on a device; block 0 holds the superblock.
    Entries are put into sectors of one block, of which [sector_count] are kept in
    memory at a time.  Positions are [Z]; a [uint64_t] difference is written with its
    wrap-around.  [mem] is [journal.buffer] when the journal is in memory and
    [journal.sector_buf] otherwise: only one of them is allocated. *)

From S2P Require Import Prelude.
From S2P Require Import Crc32c.

(** ** Integers of the code *)

Definition i32 (x : Z) : Z := (x + 2 ^ 31) mod 2 ^ 32 - 2 ^ 31.

Lemma i32_small x : - 2 ^ 31 <= x < 2 ^ 31 -> i32 x = x.
Proof. intros H. unfold i32. rewrite Z.mod_small; lia. Qed.

(** The bytes of a little-endian integer. *)
Fixpoint le_bytes (n : nat) (x : Z) : list Z :=
  match n with O => [] | S n => x mod 256 :: le_bytes n (x / 256) end.

(** ** Data *)

Definition JOURNAL_MAGIC : Z := 0x4A33.
Definition JE_SMALL_WRITE : Z := 0x02.
Definition JE_BIG_WRITE : Z := 0x03.
Definition JE_STABLE : Z := 0x04.
Definition JE_DELETE : Z := 0x05.
Definition JE_ROLLBACK : Z := 0x06.
Definition JE_SMALL_WRITE_INSTANT : Z := 0x07.
Definition JE_BIG_WRITE_INSTANT : Z := 0x08.

(** Sizes of the packed structures. *)
Definition sizeof_small_write : Z := 60.
Definition sizeof_big_write : Z := 56.
Definition sizeof_stable : Z := 40.
Definition sizeof_rollback : Z := 40.
Definition sizeof_del : Z := 40.

Record journal_sector_info_t := mk_sector {
  sector_offset : Z;
  flush_count : Z;
  written : bool;
  dirty : bool;
  sector_submit_id : Z }.

(** [pending_op] is the operation that waits, by its number. *)
Record pending_journaling_t := mk_pending {
  pending : Z;
  sector : Z;
  pending_op : nat }.

Record journal_t := mk_journal {
  inmemory : bool;
  block_size : Z;
  len : Z;
  next_free : Z;
  used_start : Z;
  dirty_start : Z;
  crc32_last : Z;
  mem : list Z;
  sector_info : list journal_sector_info_t;
  sector_count : Z;
  no_same_sector_overwrites : bool;
  cur_sector : Z;
  in_sector_pos : Z;
  submitting_sectors : list Z;
  flushing_ops : list (Z * pending_journaling_t);
  submit_id : Z;
  used_sectors : gmap Z Z }.

Definition with_next_free (x : Z) (j : journal_t) : journal_t :=
  mk_journal (inmemory j) (block_size j) (len j) x (used_start j) (dirty_start j) (crc32_last j) (mem j) (sector_info j)
    (sector_count j) (no_same_sector_overwrites j) (cur_sector j) (in_sector_pos j) (submitting_sectors j) (flushing_ops j)
    (submit_id j) (used_sectors j).
Definition with_used_start (x : Z) (j : journal_t) : journal_t :=
  mk_journal (inmemory j) (block_size j) (len j) (next_free j) x (dirty_start j) (crc32_last j) (mem j) (sector_info j)
    (sector_count j) (no_same_sector_overwrites j) (cur_sector j) (in_sector_pos j) (submitting_sectors j) (flushing_ops j)
    (submit_id j) (used_sectors j).
Definition with_dirty_start (x : Z) (j : journal_t) : journal_t :=
  mk_journal (inmemory j) (block_size j) (len j) (next_free j) (used_start j) x (crc32_last j) (mem j) (sector_info j)
    (sector_count j) (no_same_sector_overwrites j) (cur_sector j) (in_sector_pos j) (submitting_sectors j) (flushing_ops j)
    (submit_id j) (used_sectors j).
Definition with_crc32_last (x : Z) (j : journal_t) : journal_t :=
  mk_journal (inmemory j) (block_size j) (len j) (next_free j) (used_start j) (dirty_start j) x (mem j) (sector_info j)
    (sector_count j) (no_same_sector_overwrites j) (cur_sector j) (in_sector_pos j) (submitting_sectors j) (flushing_ops j)
    (submit_id j) (used_sectors j).
Definition with_mem (x : list Z) (j : journal_t) : journal_t :=
  mk_journal (inmemory j) (block_size j) (len j) (next_free j) (used_start j) (dirty_start j) (crc32_last j) x (sector_info j)
    (sector_count j) (no_same_sector_overwrites j) (cur_sector j) (in_sector_pos j) (submitting_sectors j) (flushing_ops j)
    (submit_id j) (used_sectors j).
Definition with_sector_info (x : list journal_sector_info_t) (j : journal_t) : journal_t :=
  mk_journal (inmemory j) (block_size j) (len j) (next_free j) (used_start j) (dirty_start j) (crc32_last j) (mem j) x
    (sector_count j) (no_same_sector_overwrites j) (cur_sector j) (in_sector_pos j) (submitting_sectors j) (flushing_ops j)
    (submit_id j) (used_sectors j).
Definition with_cur_sector (x : Z) (j : journal_t) : journal_t :=
  mk_journal (inmemory j) (block_size j) (len j) (next_free j) (used_start j) (dirty_start j) (crc32_last j) (mem j)
    (sector_info j) (sector_count j) (no_same_sector_overwrites j) x (in_sector_pos j) (submitting_sectors j) (flushing_ops j)
    (submit_id j) (used_sectors j).
Definition with_in_sector_pos (x : Z) (j : journal_t) : journal_t :=
  mk_journal (inmemory j) (block_size j) (len j) (next_free j) (used_start j) (dirty_start j) (crc32_last j) (mem j)
    (sector_info j) (sector_count j) (no_same_sector_overwrites j) (cur_sector j) x (submitting_sectors j) (flushing_ops j)
    (submit_id j) (used_sectors j).
Definition with_submitting_sectors (x : list Z) (j : journal_t) : journal_t :=
  mk_journal (inmemory j) (block_size j) (len j) (next_free j) (used_start j) (dirty_start j) (crc32_last j) (mem j)
    (sector_info j) (sector_count j) (no_same_sector_overwrites j) (cur_sector j) (in_sector_pos j) x (flushing_ops j)
    (submit_id j) (used_sectors j).
Definition with_flushing_ops (x : list (Z * pending_journaling_t)) (j : journal_t) : journal_t :=
  mk_journal (inmemory j) (block_size j) (len j) (next_free j) (used_start j) (dirty_start j) (crc32_last j) (mem j)
    (sector_info j) (sector_count j) (no_same_sector_overwrites j) (cur_sector j) (in_sector_pos j) (submitting_sectors j) x
    (submit_id j) (used_sectors j).
Definition with_submit_id (x : Z) (j : journal_t) : journal_t :=
  mk_journal (inmemory j) (block_size j) (len j) (next_free j) (used_start j) (dirty_start j) (crc32_last j) (mem j)
    (sector_info j) (sector_count j) (no_same_sector_overwrites j) (cur_sector j) (in_sector_pos j) (submitting_sectors j)
    (flushing_ops j) x (used_sectors j).
Definition with_used_sectors (x : gmap Z Z) (j : journal_t) : journal_t :=
  mk_journal (inmemory j) (block_size j) (len j) (next_free j) (used_start j) (dirty_start j) (crc32_last j) (mem j)
    (sector_info j) (sector_count j) (no_same_sector_overwrites j) (cur_sector j) (in_sector_pos j) (submitting_sectors j)
    (flushing_ops j) (submit_id j) x.

(** The address of the memory buffer of a sector, relative to [mem]. *)
Definition sector_base (j : journal_t) (s : Z) : res Z :=
  if inmemory j then let* si := aget (sector_info j) s in Ok (sector_offset si) else Ok (block_size j * s).

Definition entry_fits (j : journal_t) (size : Z) : res bool :=
  if u64 (block_size j - in_sector_pos j) <? size then Ok false
  else if no_same_sector_overwrites j then let* si := aget (sector_info j) (cur_sector j) in Ok (negb (written si))
  else Ok true.

(** ** The space check *)

Definition WAIT_SQE : Z := 1.
Definition WAIT_JOURNAL : Z := 3.
Definition WAIT_JOURNAL_BUFFER : Z := 4.
Definition WAIT_FREE : Z := 5.

Record blockstore_journal_check_t := mk_check {
  next_pos : Z;
  next_sector : Z;
  next_in_pos : Z;
  sectors_to_write : Z;
  first_sector : Z;
  right_dir : bool }.

Definition journal_check (j : journal_t) : blockstore_journal_check_t :=
  mk_check (next_free j) (cur_sector j) (in_sector_pos j) 0 (-1) (used_start j <=? next_free j).

(** How many entries of [size] bytes fit in the sector the check is at. *)
Definition check_fits (j : journal_t) (c : blockstore_journal_check_t) (si : journal_sector_info_t) (size : Z) : res Z :=
  if no_same_sector_overwrites j && (next_pos c =? next_free j) && written si then Ok 0
  else if u64 size =? 0 then Err DivByZero
  else Ok (i32 (u64 (block_size j - next_in_pos c) / u64 size)).

(** [sectors_to_write++], except for the sector of the previous call. *)
Definition count_sector (prev_next : Z) (c : blockstore_journal_check_t) : Z :=
  if negb (next_sector c =? prev_next) || (sectors_to_write c =? 0) then sectors_to_write c + 1 else sectors_to_write c.

(** The [while (1)] of [check_available].  The number is [0] when all entries were
    placed and the value for [wait_for] when the next buffer is busy. *)
Fixpoint check_loop (fuel : nat) (j : journal_t) (size prev_next required : Z) (c : blockstore_journal_check_t)
    : res (blockstore_journal_check_t * Z) :=
  match fuel with
  | O => Err OutOfFuel
  | S fuel =>
    let* si := aget (sector_info j) (next_sector c) in
    let* fits := check_fits j c si size in
    let '(c, required) :=
      if 0 <? fits then
        let fits := if required <? fits then required else fits in
        (mk_check (next_pos c) (next_sector c) (next_in_pos c + fits * size) (count_sector prev_next c)
           (if first_sector c =? -1 then next_sector c else first_sector c) (right_dir c), required - fits)
      else if dirty si then
        (mk_check (next_pos c) (next_sector c) (next_in_pos c) (count_sector prev_next c) (first_sector c) (right_dir c), required)
      else (c, required) in
    if required <=? 0 then Ok (c, 0)
    else
      let pos := next_pos c + block_size j in
      let '(pos, dir) := if len j <=? pos then (block_size j, false) else (pos, right_dir c) in
      let next := (next_sector c + 1) mod sector_count j in
      if next =? first_sector c then Err Thrown
      else
        let c := mk_check pos next 0 (sectors_to_write c) (first_sector c) dir in
        let* si := aget (sector_info j) next in
        if (0 <? flush_count si) || dirty si then Ok (c, WAIT_JOURNAL_BUFFER)
        else check_loop fuel j size prev_next required c
  end.

Definition check_fuel (j : journal_t) : nat := S (S (Z.to_nat (sector_count j))).

(** [check_available]: [0] when the entries and the data fit, else the value for
    [wait_for] of the operation. *)
Definition check_available (j : journal_t) (c : blockstore_journal_check_t) (entries_required size data_after : Z)
    : res (blockstore_journal_check_t * Z) :=
  let* (c, w) := check_loop (check_fuel j) j size (next_sector c) entries_required c in
  if negb (w =? 0) then Ok (c, w)
  else
    let c :=
      if 0 <? data_after then
        let pos := next_pos c + data_after in
        if len j <=? pos then
          mk_check (if right_dir c then block_size j + data_after else pos) (next_sector c) (next_in_pos c) (sectors_to_write c) (first_sector c) false
        else mk_check pos (next_sector c) (next_in_pos c) (sectors_to_write c) (first_sector c) (right_dir c)
      else c in
    if negb (right_dir c) && (u64 (used_start j - block_size j) <=? next_pos c) then Ok (c, WAIT_JOURNAL)
    else Ok (c, 0).

(** ** Entries *)

(** The assertion that [next_free] does not cross [used_start] from the left. *)
Definition no_cross (j : journal_t) (next_next_free : Z) : bool :=
  (used_start j <=? next_free j) && (next_free j <=? next_next_free) || (next_next_free <? used_start j).

Definition store (j : journal_t) (addr : Z) (n : nat) (x : Z) : res journal_t :=
  let* m := poke (mem j) addr (le_bytes n x) in Ok (with_mem m j).

(** The part of [prefill_single_journal_entry] that moves to the next sector. *)
Definition move_to_next_sector (j : journal_t) : res journal_t :=
  let* si := aget (sector_info j) (cur_sector j) in
  assert! negb (dirty si) in
  let* j :=
    if 0 <? flush_count si then
      let cur := (cur_sector j + 1) mod sector_count j in
      let* si := aget (sector_info j) cur in
      assert! (flush_count si =? 0) in Ok (with_cur_sector cur j)
    else Ok (with_dirty_start (next_free j) j) in
  let* si := aget (sector_info j) (cur_sector j) in
  let* infos := aset (sector_info j) (cur_sector j) (mk_sector (next_free j) (flush_count si) false (dirty si) (sector_submit_id si)) in
  let j := with_in_sector_pos 0 (with_sector_info infos j) in
  let next_next_free := if next_free j + block_size j <? len j then next_free j + block_size j else block_size j in
  assert! no_cross j next_next_free in
  let j := with_next_free next_next_free j in
  let* base := sector_base j (cur_sector j) in
  let* m := poke (mem j) base (replicate (Z.to_nat (block_size j)) 0) in
  Ok (with_mem m j).

(** The entry is returned as its address in [mem]. *)
Definition prefill_single_journal_entry (j : journal_t) (type size : Z) : res (journal_t * Z) :=
  let* fits := entry_fits j size in
  let* j := if fits then Ok j else move_to_next_sector j in
  let* base := sector_base j (cur_sector j) in
  let je := base + in_sector_pos j in
  let j := with_in_sector_pos (in_sector_pos j + size) j in
  let* j := store j (je + 4) 2 JOURNAL_MAGIC in
  let* j := store j (je + 6) 2 type in
  let* j := store j (je + 8) 4 size in
  let* j := store j (je + 12) 4 (crc32_last j) in
  let* si := aget (sector_info j) (cur_sector j) in
  let* infos := aset (sector_info j) (cur_sector j) (mk_sector (sector_offset si) (flush_count si) (written si) true (sector_submit_id si)) in
  Ok (with_sector_info infos j, je).

(** [je->crc32 = je_crc32(je); journal.crc32_last = je->crc32].  By [je_crc32_ok] of
    Crc32c both routines compute [crc_ref]. *)
Definition seal_entry (j : journal_t) (je size : Z) : res journal_t :=
  let* b := load (mem j) (je + 4) (size - 4) in
  let crc := crc_ref 0x48674bc7 b in
  let* j := store j je 4 crc in
  Ok (with_crc32_last crc j).

(** ** Trimming *)

(** The first key of a [std::map] that is not less than [x]. *)
Definition used_lower_bound (m : gmap Z Z) (x : Z) : option Z :=
  map_fold (fun k _ r => if x <=? k then Some (match r with Some k' => Z.min k k' | None => k end) else r) None m.

Definition used_begin (m : gmap Z Z) : option Z :=
  map_fold (fun k _ r => Some (match r with Some k' => Z.min k k' | None => k end)) None m.

Definition get_trim_pos (j : journal_t) : Z :=
  match used_lower_bound (used_sectors j) (used_start j) with
  | None => match used_begin (used_sectors j) with None => next_free j | Some k => k end
  | Some k => if used_start j <? k then k else used_start j
  end.

(** The end of [trim_journal], when the superblock with the new start is on disk. *)
Definition trim_done (j : journal_t) (new_trim_pos : Z) : journal_t :=
  let j :=
    if (if new_trim_pos <? used_start j
        then (used_start j <=? dirty_start j) || (dirty_start j <? new_trim_pos)
        else (used_start j <=? dirty_start j) && (dirty_start j <? new_trim_pos))
    then with_dirty_start new_trim_pos j else j in
  with_used_start new_trim_pos j.
