(* ===== verification/JournalCheck.v ===== *)
(** * The space check of the journal

    What [check_available] finds out, in terms of the number of sectors after the
    current one that a batch of entries needs ([pack_all]). *)

From S2P Require Import Prelude.
From S2P Require Import Journal.

(** ** Geometry of the ring *)

Record geometry (j : journal_t) : Prop := {
  g_bs : 0 < block_size j < 2 ^ 31;
  g_len : (block_size j | len j);
  g_len_max : len j < 2 ^ 63;
  g_nf : (block_size j | next_free j) /\ block_size j <= next_free j < len j;
  g_us : (block_size j | used_start j) /\ block_size j <= used_start j < len j;
  g_sc : 2 <= sector_count j;
  g_ring : sector_count j * block_size j + block_size j <= len j;
  g_info : zlen (sector_info j) = sector_count j;
  g_cur : 0 <= cur_sector j < sector_count j;
  g_pos : 0 <= in_sector_pos j <= block_size j }.

Lemma aligned_next bs p q : 0 < bs -> (bs | p) -> (bs | q) -> p < q -> p + bs <= q.
Proof. intros H [x ->] [y ->] Hlt. assert (x < y) by nia. nia. Qed.

(** The position and the sector buffer after [k] moves. *)
Definition posn (j : journal_t) (k : Z) : Z :=
  let p := next_free j + k * block_size j in if p <? len j then p else p - (len j - block_size j).
Definition sec (j : journal_t) (k : Z) : Z := (cur_sector j + k) mod sector_count j.

Definition advance (j : journal_t) (p : Z) : Z := if len j <=? p + block_size j then block_size j else p + block_size j.

Lemma posn_0 j : geometry j -> posn j 0 = next_free j.
Proof. intros G. destruct (g_nf j G). unfold posn. rewrite Z.mul_0_l, Z.add_0_r. by rewrite (proj2 (Z.ltb_lt _ _)) by lia. Qed.

Lemma posn_aligned j k : geometry j -> (block_size j | posn j k).
Proof.
  intros G. destruct (g_nf j G) as [Hnf _], (g_len j G) as [y Hy]. unfold posn.
  assert (block_size j | next_free j + k * block_size j) by (apply Z.divide_add_r; [done | apply Z.divide_factor_r]).
  destruct (_ <? _); [done |]. apply Z.divide_sub_r; [done |]. apply Z.divide_sub_r; [by exists y | apply Z.divide_refl].
Qed.

Lemma blocks_left j k : geometry j -> 0 <= k < sector_count j -> 0 <= k * block_size j /\ k * block_size j + 2 * block_size j <= len j.
Proof. intros G Hk. destruct (g_bs j G). pose proof (g_ring j G). assert ((k + 1) * block_size j <= sector_count j * block_size j) by (apply Z.mul_le_mono_nonneg_r; lia). lia. Qed.

Lemma posn_range j k : geometry j -> 0 <= k < sector_count j -> block_size j <= posn j k < len j.
Proof.
  intros G Hk. destruct (g_nf j G), (g_bs j G). pose proof (blocks_left j k G Hk).
  unfold posn. destruct (Z.ltb_spec (next_free j + k * block_size j) (len j)); lia.
Qed.

Lemma posn_step j k : geometry j -> 0 <= k < sector_count j - 1 -> advance j (posn j k) = posn j (k + 1).
Proof.
  intros G Hk. destruct (g_nf j G) as [Hnf Hr], (g_bs j G). pose proof (blocks_left j k G ltac:(lia)).
  unfold posn, advance. rewrite Z.mul_add_distr_r, Z.mul_1_l, Z.add_assoc.
  assert (block_size j | next_free j + k * block_size j) as Ha by (apply Z.divide_add_r; [done | apply Z.divide_factor_r]).
  pose proof (aligned_next (block_size j) _ _ ltac:(lia) Ha (g_len j G)).
  destruct (Z.ltb_spec (next_free j + k * block_size j) (len j)).
  - destruct (Z.leb_spec (len j) (next_free j + k * block_size j + block_size j)); destruct (Z.ltb_spec (next_free j + k * block_size j + block_size j) (len j)); lia.
  - destruct (Z.leb_spec (len j) (next_free j + k * block_size j - (len j - block_size j) + block_size j));
      destruct (Z.ltb_spec (next_free j + k * block_size j + block_size j) (len j)); lia.
Qed.

Lemma posn_ne j k : geometry j -> 0 < k < sector_count j -> posn j k <> next_free j.
Proof.
  intros G Hk. destruct (g_nf j G), (g_bs j G). pose proof (blocks_left j k G ltac:(lia)).
  assert (0 < k * block_size j) by (apply Z.mul_pos_pos; lia).
  unfold posn. destruct (Z.ltb_spec (next_free j + k * block_size j) (len j)); lia.
Qed.

Lemma sec_range j k : geometry j -> 0 <= sec j k < sector_count j.
Proof. intros G. apply Z.mod_pos_bound. pose proof (g_sc j G). lia. Qed.

Lemma sec_step j k : geometry j -> (sec j k + 1) mod sector_count j = sec j (k + 1).
Proof. intros G. unfold sec. pose proof (g_sc j G). by rewrite Zplus_mod_idemp_l, Z.add_assoc. Qed.

Lemma sec_0 j : geometry j -> sec j 0 = cur_sector j.
Proof. intros G. unfold sec. rewrite Z.add_0_r. apply Z.mod_small, (g_cur j G). Qed.

Lemma sec_ne j k k' : geometry j -> k < k' < k + sector_count j -> sec j k <> sec j k'.
Proof.
  intros G Hk. pose proof (g_sc j G). unfold sec. intros Heq.
  assert ((k' - k) mod sector_count j = 0) as Hz.
  { replace (k' - k) with (cur_sector j + k' - (cur_sector j + k)) by lia. rewrite Zminus_mod, <- Heq, Z.sub_diag. apply Z.mod_0_l. lia. }
  rewrite Z.mod_small in Hz; lia.
Qed.

Lemma sec_lookup j k : geometry j -> exists si, aget (sector_info j) (sec j k) = Ok si.
Proof. intros G. apply aget_in_range. pose proof (sec_range j k G). pose proof (g_info j G) as Hi. unfold zlen in Hi. lia. Qed.

(** ** Packing entries into sectors *)

(** A sector that may not be written to again. *)
Definition blocked (j : journal_t) : bool :=
  no_same_sector_overwrites j && match aget (sector_info j) (cur_sector j) with Ok si => written si | Err _ => false end.

(** [k] moves so far and [ip] bytes used in the current sector: put an entry. *)
Definition pack1 (j : journal_t) (st : Z * Z) (size : Z) : Z * Z :=
  if (fst st =? 0) && blocked j || (block_size j - snd st <? size) then (fst st + 1, size) else (fst st, snd st + size).
Definition pack_all (j : journal_t) (st : Z * Z) (sizes : list Z) : Z * Z := fold_left (pack1 j) sizes st.

Lemma pack_all_app j st l l' : pack_all j st (l ++ l') = pack_all j (pack_all j st l) l'.
Proof. apply fold_left_app. Qed.

(** Entries that fit stay in the sector. *)
Lemma pack_stay j k ip size n :
  0 < size -> ((k =? 0) && blocked j) = false -> ip + Z.of_nat n * size <= block_size j ->
  pack_all j (k, ip) (replicate n size) = (k, ip + Z.of_nat n * size).
Proof.
  intros Hs Hb. revert ip. induction n as [| n IH]; intros ip Hip; [cbn; f_equal; lia |].
  cbn [replicate]. unfold pack_all. cbn [fold_left]. unfold pack1 at 2. cbn [fst snd].
  rewrite Hb, (proj2 (Z.ltb_ge _ _)) by lia. cbn [orb]. fold (pack_all j (k, ip + size) (replicate n size)).
  rewrite IH by lia. f_equal. lia.
Qed.

(** An entry that does not fit goes to the next sector. *)
Lemma pack_move j k ip size :
  0 <= k -> size <= block_size j -> (k =? 0) && blocked j || (block_size j - ip <? size) = true ->
  pack1 j (k, ip) size = pack1 j (k + 1, 0) size.
Proof.
  intros Hk Hs Hm. unfold pack1. cbn [fst snd]. rewrite Hm.
  rewrite (proj2 (Z.eqb_neq (k + 1) 0)) by lia. rewrite (proj2 (Z.ltb_ge _ _)) by lia. cbn. f_equal.
Qed.

Lemma pack1_mono j st size : fst st <= fst (pack1 j st size).
Proof. unfold pack1. destruct (_ || _); cbn; lia. Qed.
Lemma pack_all_mono j st l : fst st <= fst (pack_all j st l).
Proof.
  revert st. induction l as [| x l IH]; intros st; [done |]. cbn. pose proof (pack1_mono j st x). pose proof (IH (pack1 j st x)). unfold pack_all in *. lia.
Qed.

Lemma pack1_range j st size : 0 < block_size j -> 0 < size <= block_size j -> 0 <= fst st -> 0 <= snd st <= block_size j ->
  0 <= fst (pack1 j st size) /\ 0 < snd (pack1 j st size) <= block_size j.
Proof.
  intros Hb Hs Hk Hp. unfold pack1. destruct (_ && _); cbn [orb]; [cbn; lia |].
  destruct (Z.ltb_spec (block_size j - snd st) size); cbn; lia.
Qed.

(** ** The loop *)

Definition is_free (si : journal_sector_info_t) : Prop := flush_count si <= 0 /\ dirty si = false.
Definition free_sector (j : journal_t) (k : Z) : Prop := exists si, aget (sector_info j) (sec j k) = Ok si /\ is_free si.

(** The check stands at [ip] of the [k]-th sector. *)
Record stands (j : journal_t) (c : blockstore_journal_check_t) (k ip : Z) : Prop := {
  st_pos : next_pos c = posn j k;
  st_sec : next_sector c = sec j k;
  st_in : next_in_pos c = ip;
  st_dir : right_dir c = (used_start j <=? next_free j) && (next_free j + k * block_size j <? len j) }.

(** Has the current sector to be written, whatever the entries are? *)
Definition first_counted (j : journal_t) (size : Z) : bool :=
  negb (blocked j) && (size <=? block_size j - in_sector_pos j)
  || match aget (sector_info j) (cur_sector j) with Ok si => dirty si | Err _ => false end.

Lemma check_loop_mono fuel j size pn n c c' w :
  check_loop fuel j size pn n c = Ok (c', w) -> sectors_to_write c <= sectors_to_write c'.
Proof.
  revert n c. induction fuel as [| fuel IH]; intros n c; [done |]. cbn [check_loop].
  destruct (aget _ _) as [si |]; [| done]. cbn [rbind]. destruct (check_fits j c si size) as [f |]; [| done]. cbn [rbind].
  destruct (if 0 <? f then _ else _) as [c1 n1] eqn:E1.
  assert (sectors_to_write c <= sectors_to_write c1) as H1.
  { assert (sectors_to_write c <= count_sector pn c) by (unfold count_sector; destruct (_ || _); lia).
    destruct (0 <? f); [| destruct (dirty si)]; injection E1 as <- <-; cbn; lia. }
  destruct (n1 <=? 0); [intros [= <- <-]; done |].
  destruct (if len j <=? _ then _ else _) as [pos dir]. cbn zeta. destruct (_ mod _ =? _); [done |].
  destruct (aget _ _) as [si' |]; [| done]. cbn [rbind]. destruct (_ || _); [intros [= <- <-]; cbn; lia |].
  intros H2%IH. cbn in H2. lia.
Qed.

(** [fits] at the [k]-th sector. *)
Lemma check_fits_at j c k ip size si :
  geometry j -> 0 < size <= block_size j -> stands j c k ip -> 0 <= k < sector_count j -> 0 <= ip <= block_size j ->
  aget (sector_info j) (sec j k) = Ok si ->
  check_fits j c si size = Ok (if (k =? 0) && blocked j then 0 else (block_size j - ip) / size).
Proof.
  intros G Hs S Hk Hip Hsi. destruct (g_bs j G) as [Hb1 Hb2]. unfold check_fits.
  rewrite (st_pos _ _ _ _ S), (st_in _ _ _ _ S), !u64_small by lia. rewrite (proj2 (Z.eqb_neq size 0)) by lia.
  assert ((block_size j - ip) / size <= block_size j) by (apply Z.div_le_upper_bound; nia).
  assert (0 <= (block_size j - ip) / size) by (apply Z.div_pos; lia).
  rewrite i32_small by lia. destruct (decide (k = 0)) as [-> |].
  - rewrite posn_0, Z.eqb_refl by done. cbn [Z.eqb andb]. unfold blocked. rewrite sec_0 in Hsi by done. rewrite Hsi.
    by destruct (no_same_sector_overwrites j), (written si).
  - rewrite (proj2 (Z.eqb_neq (posn j k) _)) by (apply posn_ne; [done | lia]). rewrite (proj2 (Z.eqb_neq k 0)) by lia.
    by rewrite andb_false_r.
Qed.

(** The count of sectors: before the [k]-th sector is looked at, or when it has been
    counted by the previous call. *)
Definition counts (j : journal_t) (c : blockstore_journal_check_t) (k ip pn b0 size : Z) : Prop :=
  ((sec j k <> pn \/ sectors_to_write c = 0) /\ sectors_to_write c = (if k =? 0 then 0 else k - 1 + b0)
    /\ (if k =? 0 then ip = in_sector_pos j /\ b0 = Z.b2z (first_counted j size) else ip = 0))
  \/ (sec j k = pn /\ sectors_to_write c = k + b0 /\ sectors_to_write c <> 0).

Definition one_turn (j : journal_t) (pn n size f : Z) (si : journal_sector_info_t) (c : blockstore_journal_check_t) : blockstore_journal_check_t * Z :=
  if 0 <? f then
    let f := if n <? f then n else f in
    (mk_check (next_pos c) (next_sector c) (next_in_pos c + f * size) (count_sector pn c)
       (if first_sector c =? -1 then next_sector c else first_sector c) (right_dir c), n - f)
  else if dirty si then
    (mk_check (next_pos c) (next_sector c) (next_in_pos c) (count_sector pn c) (first_sector c) (right_dir c), n)
  else (c, n).

(** How many entries the [k]-th sector takes. *)
Definition takes (j : journal_t) (k ip n size : Z) : Z :=
  if (k =? 0) && blocked j then 0 else Z.min n ((block_size j - ip) / size).

Lemma one_turn_count j c k ip pn b0 size n si :
  geometry j -> 0 < size <= block_size j -> 0 < n -> stands j c k ip -> 0 <= k < sector_count j -> 0 <= ip <= block_size j ->
  aget (sector_info j) (sec j k) = Ok si -> counts j c k ip pn b0 size ->
  sectors_to_write (fst (one_turn j pn n size (if (k =? 0) && blocked j then 0 else (block_size j - ip) / size) si c)) = k + b0.
Proof.
  intros G Hs Hn S Hk Hip Hsi HC. unfold one_turn, count_sector. rewrite (st_sec _ _ _ _ S).
  destruct HC as [(Hpn & Hcnt & Hcase) | (Hpn & Hcnt & Hnz)].
  2: { rewrite Hpn, Z.eqb_refl, (proj2 (Z.eqb_neq (sectors_to_write c) 0)) by done. cbn [negb orb].
       destruct (0 <? _); [done |]. by destruct (dirty si). }
  assert (negb (sec j k =? pn) || (sectors_to_write c =? 0) = true) as ->.
  { destruct Hpn as [Hne | ->]; [by rewrite (proj2 (Z.eqb_neq _ _) Hne) | apply orb_true_r]. }
  rewrite Hcnt. destruct (Z.eqb_spec k 0) as [-> | Hk0]; cbn [andb].
  - destruct Hcase as [-> ->]. unfold first_counted. rewrite sec_0 in Hsi by done. rewrite Hsi.
    destruct (blocked j); cbn [negb andb orb].
    { cbn [Z.ltb Z.compare]. destruct (dirty si); cbn [fst sectors_to_write Z.b2z]; lia. }
    destruct (Z.leb_spec size (block_size j - in_sector_pos j)) as [Hle | Hgt]; cbn [orb].
    + assert (0 < (block_size j - in_sector_pos j) / size) by (apply Z.div_str_pos; lia).
      rewrite (proj2 (Z.ltb_lt 0 _)) by done. cbn [fst sectors_to_write Z.b2z]. lia.
    + rewrite Z.div_small by lia. cbn [Z.ltb Z.compare]. destruct (dirty si); cbn [fst sectors_to_write Z.b2z]; lia.
  - subst ip. assert (0 < (block_size j - 0) / size) by (apply Z.div_str_pos; lia).
    rewrite (proj2 (Z.ltb_lt 0 _)) by done. cbn [fst sectors_to_write]. lia.
Qed.

Lemma one_turn_stands j c k ip pn size n si :
  0 < size -> 0 < n -> 0 <= ip <= block_size j -> stands j c k ip ->
  let t := one_turn j pn n size (if (k =? 0) && blocked j then 0 else (block_size j - ip) / size) si c in
  let m := takes j k ip n size in
  stands j (fst t) k (ip + m * size) /\ snd t = n - m.
Proof.
  intros Hs Hn Hip S. cbn zeta. unfold one_turn, takes.
  assert (0 <= (block_size j - ip) / size) by (apply Z.div_pos; lia).
  destruct S as [S1 S2 S3 S4].
  destruct ((k =? 0) && blocked j).
  { cbn [Z.ltb Z.compare]. rewrite Z.mul_0_l, Z.add_0_r, Z.sub_0_r. by destruct (dirty si). }
  destruct (Z.ltb_spec 0 ((block_size j - ip) / size)) as [Hf | Hf].
  - cbn [fst snd]. assert ((if n <? (block_size j - ip) / size then n else (block_size j - ip) / size) = Z.min n ((block_size j - ip) / size)) as ->
      by (destruct (Z.ltb_spec n ((block_size j - ip) / size)); lia).
    split; [| done]. constructor; cbn; [done | done | by rewrite S3 | done].
  - replace (Z.min n ((block_size j - ip) / size)) with 0 by lia. rewrite Z.mul_0_l, Z.add_0_r, Z.sub_0_r. by destruct (dirty si).
Qed.

(** What does not stay in the sector does not fit in it. *)
Lemma takes_pack j k ip n size :
  geometry j -> 0 < size <= block_size j -> 0 < n -> 0 <= k -> 0 <= ip <= block_size j ->
  let m := takes j k ip n size in
  0 <= m <= n /\ 0 <= ip + m * size <= block_size j
  /\ pack_all j (k, ip) (replicate (Z.to_nat n) size) = pack_all j (k, ip + m * size) (replicate (Z.to_nat (n - m)) size)
  /\ (m < n -> (k =? 0) && blocked j || (block_size j - (ip + m * size) <? size) = true).
Proof.
  intros G Hs Hn Hk Hip. cbn zeta. unfold takes. destruct ((k =? 0) && blocked j) eqn:Eb.
  { rewrite Z.mul_0_l, Z.add_0_r, Z.sub_0_r. split_and!; [lia | lia | lia | lia | done | done]. }
  set (q := (block_size j - ip) / size). assert (0 <= q) by (apply Z.div_pos; lia).
  assert (q * size <= block_size j - ip < q * size + size) as [Hq1 Hq2].
  { subst q. pose proof (Z.mul_div_le (block_size j - ip) size ltac:(lia)). pose proof (Z.mul_succ_div_gt (block_size j - ip) size ltac:(lia)). lia. }
  assert (Z.min n q * size <= q * size) by (apply Z.mul_le_mono_nonneg_r; lia).
  assert (0 <= Z.min n q * size) by (apply Z.mul_nonneg_nonneg; lia).
  split_and!; [lia | lia | lia | lia | |].
  - replace (Z.to_nat n) with (Z.to_nat (Z.min n q) + Z.to_nat (n - Z.min n q))%nat by lia.
    rewrite replicate_add, pack_all_app, pack_stay by (done || lia). by rewrite Z2Nat.id by lia.
  - intros Hlt. rewrite Z.min_r by lia. cbn [orb]. apply Z.ltb_lt. lia.
Qed.

Definition next_turn (fuel : nat) (j : journal_t) (size pn : Z) (cn : blockstore_journal_check_t * Z) : res (blockstore_journal_check_t * Z) :=
  let '(c, n) := cn in
  if n <=? 0 then Ok (c, 0)
  else
    let '(pos, dir) := if len j <=? next_pos c + block_size j then (block_size j, false) else (next_pos c + block_size j, right_dir c) in
    let next := (next_sector c + 1) mod sector_count j in
    if next =? first_sector c then Err Thrown
    else
      let* si := aget (sector_info j) next in
      let c := mk_check pos next 0 (sectors_to_write c) (first_sector c) dir in
      if (0 <? flush_count si) || dirty si then Ok (c, WAIT_JOURNAL_BUFFER) else check_loop fuel j size pn n c.

Lemma check_loop_S fuel j size pn n c :
  check_loop (S fuel) j size pn n c =
  (let* si := aget (sector_info j) (next_sector c) in
   let* f := check_fits j c si size in next_turn fuel j size pn (one_turn j pn n size f si c)).
Proof.
  cbn [check_loop]. destruct (aget _ _) as [si |]; [| done]. cbn [rbind]. destruct (check_fits j c si size) as [f |]; [| done]. cbn [rbind].
  fold (one_turn j pn n size f si c). destruct (one_turn j pn n size f si c) as [c1 n1]. done.
Qed.

Lemma next_turn_mono fuel j size pn c n c' w : next_turn fuel j size pn (c, n) = Ok (c', w) -> sectors_to_write c <= sectors_to_write c'.
Proof.
  cbn [next_turn]. destruct (n <=? 0); [intros [= <- <-]; done |].
  destruct (if len j <=? _ then _ else _) as [pos dir]. cbn zeta. destruct (_ mod _ =? _); [done |].
  destruct (aget _ _) as [si' |]; [| done]. cbn [rbind]. destruct (_ || _); [intros [= <- <-]; cbn; lia |].
  intros H%check_loop_mono. done.
Qed.

(** Moves before and after the end of the journal. *)
Lemma posn_wraps j k : geometry j -> 0 <= k < sector_count j - 1 -> len j <= posn j k + block_size j -> len j <= next_free j + (k + 1) * block_size j.
Proof.
  intros G Hk. destruct (g_bs j G), (g_nf j G). pose proof (blocks_left j k G ltac:(lia)). unfold posn.
  destruct (Z.ltb_spec (next_free j + k * block_size j) (len j)); lia.
Qed.
Lemma posn_stays j k : geometry j -> 0 <= k < sector_count j - 1 -> posn j k + block_size j < len j ->
  (next_free j + k * block_size j <? len j) = (next_free j + (k + 1) * block_size j <? len j).
Proof.
  intros G Hk. destruct (g_bs j G), (g_nf j G). pose proof (blocks_left j k G ltac:(lia)). unfold posn.
  destruct (Z.ltb_spec (next_free j + k * block_size j) (len j)); destruct (Z.ltb_spec (next_free j + (k + 1) * block_size j) (len j)); lia.
Qed.

(** The step to the next sector. *)
Lemma next_turn_ok fuel j size pn c n k ip c' :
  geometry j -> 0 < n -> stands j c k ip -> 0 <= k < sector_count j - 1 ->
  next_turn fuel j size pn (c, n) = Ok (c', 0) ->
  exists c1, stands j c1 (k + 1) 0 /\ sectors_to_write c1 = sectors_to_write c /\ free_sector j (k + 1)
    /\ check_loop fuel j size pn n c1 = Ok (c', 0).
Proof.
  intros G Hn [S1 S2 S3 S4] Hk. cbn [next_turn]. rewrite (proj2 (Z.leb_gt _ _)) by done.
  rewrite S1, S2, (sec_step j k G), S4. pose proof (posn_step j k G Hk) as Hp. unfold advance in Hp.
  assert (exists pos dir, (if len j <=? posn j k + block_size j then (block_size j, false)
      else (posn j k + block_size j, (used_start j <=? next_free j) && (next_free j + k * block_size j <? len j))) = (pos, dir)
    /\ pos = posn j (k + 1) /\ dir = (used_start j <=? next_free j) && (next_free j + (k + 1) * block_size j <? len j))
    as (pos & dir & -> & -> & ->).
  { destruct (len j <=? posn j k + block_size j) eqn:Ew; (eexists _, _; split_and!; [done | done |]).
    - rewrite (proj2 (Z.ltb_ge _ _)), andb_false_r; [done |]. apply Z.leb_le in Ew. by apply posn_wraps.
    - f_equal. apply Z.leb_gt in Ew. by apply posn_stays. }
  cbn zeta. destruct (sec j (k + 1) =? _); [done |].
  destruct (sec_lookup j (k + 1) G) as [si Hsi]. rewrite Hsi. cbn [rbind].
  destruct ((0 <? flush_count si) || dirty si) eqn:Ef; [done |]. intros Hl. eexists. split_and!; [| | | exact Hl]; [done | done |].
  exists si. apply orb_false_iff in Ef as [?%Z.ltb_ge ?]. done.
Qed.

(** A successful check: where the batch ends, how many sectors it needs, and that
    the buffers it needs are free. *)
Lemma check_loop_counts fuel j size kp n c c' k ip b0 :
  geometry j -> 0 < size <= block_size j -> 0 < n -> stands j c k ip -> 0 <= kp <= k -> k < sector_count j ->
  0 <= ip <= block_size j -> 0 <= b0 -> counts j c k ip (sec j kp) b0 size ->
  check_loop fuel j size (sec j kp) n c = Ok (c', 0) -> sectors_to_write c' <= sector_count j - 2 ->
  let st := pack_all j (k, ip) (replicate (Z.to_nat n) size) in
  stands j c' (fst st) (snd st) /\ sectors_to_write c' = fst st + b0 /\ fst st < sector_count j
  /\ forall t, k < t <= fst st -> free_sector j t.
Proof.
  intros G Hs. revert n c k ip. induction fuel as [| fuel IH]; intros n c k ip Hn HS Hkp Hk Hip Hb0 HC; [done |].
  rewrite check_loop_S. destruct (sec_lookup j k G) as [si Hsi]. rewrite (st_sec _ _ _ _ HS), Hsi. cbn [rbind].
  rewrite (check_fits_at j c k ip size si G Hs HS ltac:(lia) Hip Hsi). cbn [rbind].
  pose proof (one_turn_count j c k ip (sec j kp) b0 size n si G Hs Hn HS ltac:(lia) Hip Hsi HC) as Hcnt.
  destruct (one_turn_stands j c k ip (sec j kp) size n si ltac:(lia) Hn Hip HS) as [S1 Hn1]. cbn zeta in S1, Hn1.
  destruct (takes_pack j k ip n size G Hs Hn ltac:(lia) Hip) as (Hm & Hip1 & Hpack & Hmove). cbn zeta in Hm, Hip1, Hpack, Hmove.
  destruct (one_turn _ _ _ _ _ _ _) as [c1 n1]. cbn [fst snd] in Hcnt, S1, Hn1. subst n1. cbn zeta. rewrite Hpack.
  destruct (decide (n - takes j k ip n size <= 0)) as [Hdone | Hmore].
  { cbn [next_turn]. rewrite (proj2 (Z.leb_le _ _)) by done. intros [= <-] Hle.
    replace (Z.to_nat (n - takes j k ip n size)) with 0%nat by lia. cbn [replicate pack_all fold_left fst snd].
    split_and!; [done | done | lia | lia]. }
  intros Hl Hle. set (m := takes j k ip n size) in *.
  assert (k < sector_count j - 1) as Hk1.
  { apply next_turn_mono in Hl. lia. }
  destruct (next_turn_ok fuel j size (sec j kp) c1 (n - m) k (ip + m * size) c' G ltac:(lia) S1 ltac:(lia) Hl) as (c2 & S2 & Hc2 & Hfree & Hl2).
  replace (Z.to_nat (n - m)) with (S (Z.to_nat (n - m - 1))) by lia. cbn [replicate]. cbn [pack_all fold_left].
  rewrite (pack_move j k (ip + m * size) size ltac:(lia) ltac:(lia) (Hmove ltac:(lia))).
  destruct (IH (n - m) c2 (k + 1) 0) as (IH1 & IH2 & IH3 & IH4); try done; try lia.
  { left. rewrite (proj2 (Z.eqb_neq (k + 1) 0)) by lia. rewrite Hc2, Hcnt. split_and!; [| lia | done].
    left. apply not_eq_sym, sec_ne; [done | lia]. }
  replace (Z.to_nat (n - m)) with (S (Z.to_nat (n - m - 1))) in * by lia. cbn [replicate pack_all fold_left] in IH1, IH2, IH3, IH4.
  split_and!; [done | done | done |]. intros t Ht. destruct (decide (t = k + 1)) as [-> |]; [done | apply IH4; lia].
Qed.
