(* ===== verification/Blockstore.v ===== *)
(** * The blockstore: state, flush queue and database of unflushed versions

    Types of blockstore/blockstore_impl.h and client/object_id.h, the queue of the
    flusher (blockstore_flush.cpp), and the operations on [dirty_db] of
    blockstore_stable.cpp and blockstore_rollback.cpp.

    [dirty_db] is a [std::map]: a list ordered by its keys, and an iterator into it
    is the reversed part before it and the part from it on.  Operations are numbered;
    [ops] is their memory.  Requests to io_uring are appended to [ring], finished
    operations to [finished].  The reference counts of [dyn_data], which keep its
    memory alive during reads, are not modelled: [dyn_data] is its bytes. *)

From S2P Require Import Prelude.
From S2P Require Import Allocator.
From S2P Require Import Crc32c.
From S2P Require Import Journal.

(** ** Objects *)

Record object_id := mk_oid { inode : Z; stripe : Z }.
Record obj_ver_id := mk_ov { oid : object_id; version : Z }.

#[global] Instance object_id_eq_dec : EqDecision object_id.
Proof. solve_decision. Defined.
#[global] Instance object_id_countable : Countable object_id.
Proof. apply (inj_countable' (fun o => (inode o, stripe o)) (fun p => mk_oid p.1 p.2)). by intros []. Defined.
#[global] Instance obj_ver_id_eq_dec : EqDecision obj_ver_id.
Proof. solve_decision. Defined.

Definition oid_ltb (a b : object_id) : bool :=
  (inode a <? inode b) || (inode a =? inode b) && (stripe a <? stripe b).
Definition oid_eqb (a b : object_id) : bool := bool_decide (a = b).
Definition ov_ltb (a b : obj_ver_id) : bool :=
  oid_ltb (oid a) (oid b) || oid_eqb (oid a) (oid b) && (version a <? version b).

(** ** States of a version *)

Definition BS_ST_SMALL_WRITE : Z := 0x01.
Definition BS_ST_BIG_WRITE : Z := 0x02.
Definition BS_ST_DELETE : Z := 0x03.
Definition BS_ST_WAIT_DEL : Z := 0x10.
Definition BS_ST_WAIT_BIG : Z := 0x20.
Definition BS_ST_IN_FLIGHT : Z := 0x30.
Definition BS_ST_SUBMITTED : Z := 0x40.
Definition BS_ST_WRITTEN : Z := 0x50.
Definition BS_ST_SYNCED : Z := 0x60.
Definition BS_ST_STABLE : Z := 0x70.
Definition BS_ST_INSTANT : Z := 0x100.

Definition BS_ST_TYPE_MASK : Z := 0x0F.
Definition BS_ST_WORKFLOW_MASK : Z := 0xF0.

Definition workflow (st : Z) : Z := Z.land st BS_ST_WORKFLOW_MASK.
(** [(state & ~BS_ST_WORKFLOW_MASK) | w] *)
Definition set_workflow (st w : Z) : Z := Z.lor (Z.ldiff st BS_ST_WORKFLOW_MASK) w.

Definition IS_IN_FLIGHT (st : Z) : bool := workflow st <=? BS_ST_SUBMITTED.
Definition IS_STABLE (st : Z) : bool := workflow st =? BS_ST_STABLE.
Definition IS_SYNCED (st : Z) : bool := BS_ST_SYNCED <=? workflow st.
Definition IS_JOURNAL (st : Z) : bool := Z.land st BS_ST_TYPE_MASK =? BS_ST_SMALL_WRITE.
Definition IS_BIG_WRITE (st : Z) : bool := Z.land st BS_ST_TYPE_MASK =? BS_ST_BIG_WRITE.
Definition IS_DELETE (st : Z) : bool := Z.land st BS_ST_TYPE_MASK =? BS_ST_DELETE.
Definition is_instant_bit (st : Z) : bool := negb (Z.land st BS_ST_INSTANT =? 0).
Definition IS_INSTANT (st : Z) : bool := IS_DELETE st || is_instant_bit st.

(** ** State of the blockstore *)

Record clean_entry := mk_clean { clean_version : Z; clean_location : Z }.

Record dirty_entry := mk_dirty {
  state : Z;
  location : Z;
  offset : Z;
  entry_len : Z;
  journal_sector : Z;
  dyn_data : list Z }.

Definition with_state (st : Z) (e : dirty_entry) : dirty_entry :=
  mk_dirty st (location e) (offset e) (entry_len e) (journal_sector e) (dyn_data e).
Definition with_location (x : Z) (e : dirty_entry) : dirty_entry :=
  mk_dirty (state e) x (offset e) (entry_len e) (journal_sector e) (dyn_data e).
Definition with_journal_sector (x : Z) (e : dirty_entry) : dirty_entry :=
  mk_dirty (state e) (location e) (offset e) (entry_len e) x (dyn_data e).

Abbreviation dirty_db_t := (list (obj_ver_id * dirty_entry)).

Record journal_flusher_t := mk_flusher {
  flush_queue : list object_id;
  flush_versions : gmap object_id Z;
  dequeuing : bool;
  trim_wanted : Z;
  journal_trim_counter : Z;
  flusher_start_threshold : Z }.

(** Options and disk geometry ([blockstore_disk_t]), which do not change. *)
Record config_t := mk_config {
  data_block_size : Z;
  block_order : Z;
  bitmap_granularity : Z;
  clean_entry_bitmap_size : Z;
  clean_dyn_size : Z;
  data_csum_type : Z;
  csum_block_size : Z;
  alloc_dyn_data : bool;
  inmemory_meta : bool;
  immediate_commit : Z;
  disable_data_fsync : bool;
  disable_journal_fsync : bool;
  max_write_iodepth : Z;
  autosync_writes : Z;
  throttle_small_writes : bool;
  throttle_target_iops : Z;
  throttle_target_mbs : Z;
  throttle_target_parallelism : Z;
  throttle_threshold_us : Z;
  no_inode_stats : gmap Z Z }.

Definition IMMEDIATE_NONE : Z := 0.
Definition IMMEDIATE_SMALL : Z := 1.
Definition IMMEDIATE_ALL : Z := 2.

(** Who is called back: the user of the blockstore, the two kinds of additional
    syncs, and the parts of a split operation (by the number of the split). *)
Inductive callback_t :=
| CbUser
| CbDelete
| CbUnshift
| CbSplit (g : nat)
| CbNone.

Definition BS_OP_WRITE : Z := 2.
Definition BS_OP_WRITE_STABLE : Z := 3.
Definition BS_OP_SYNC : Z := 4.
Definition BS_OP_STABLE : Z := 5.
Definition BS_OP_DELETE : Z := 6.
Definition BS_OP_ROLLBACK : Z := 8.

(** [blockstore_op_t] with its [blockstore_op_private_t].  [op_vers] is [buf] of
    STABLE and ROLLBACK, [op_data] that of writes. *)
Record op_t := mk_op {
  opcode : Z;
  op_ov : obj_ver_id;
  op_offset : Z;
  op_len : Z;
  op_data : list Z;
  op_vers : list obj_ver_id;
  op_bitmap : option (list Z);
  op_callback : callback_t;
  retval : Z;
  wait_for : Z;
  wait_detail : Z;
  wait_detail2 : Z;
  pending_ops : Z;
  op_state : Z;
  min_flushed_journal_sector : Z;
  max_flushed_journal_sector : Z;
  real_version : Z;
  tv_begin : Z;
  sync_big_writes : list obj_ver_id;
  sync_small_writes : list obj_ver_id }.

(** What a split operation shares between its parts. *)
Record split_t := mk_split {
  split_of : nat;
  split_op_counter : Z;
  orig_buf : list obj_ver_id;
  real_cb : callback_t }.

Inductive io_t :=
| JournalSectorWrite (flush_id addr off : Z)
| JournalDataWrite (flush_id : Z) (o : nat) (off n : Z)
| DataWrite (o : nat) (off n : Z)
| DataFsync (o : nat)
| JournalFsync (o : nat).

Record blockstore_impl_t := mk_bs {
  cfg : config_t;
  clean_db : gmap object_id clean_entry;
  clean_bitmaps : gmap Z (list Z);
  metadata : gmap Z obj_ver_id;
  dirty_db : dirty_db_t;
  submit_queue : list (option nat);
  unsynced_big_writes : list obj_ver_id;
  unsynced_small_writes : list obj_ver_id;
  unsynced_big_write_count : Z;
  unstable_unsynced : Z;
  unsynced_queued_ops : Z;
  data_alloc : allocator_t;
  used_blocks : Z;
  inode_space_stats : gmap Z Z;
  unstable_writes : gmap object_id Z;
  journal : journal_t;
  flusher : journal_flusher_t;
  big_to_flush : Z;
  write_iodepth : Z;
  stop_sync_submitted : bool;
  ops : gmap nat op_t;
  next_op : nat;
  splits : gmap nat split_t;
  sqes_left : Z;
  ring : list io_t;
  finished : list (nat * Z);
  timers : list (nat * Z);
  clock_us : Z }.

Definition with_dirty_db (x : dirty_db_t) (b : blockstore_impl_t) : blockstore_impl_t :=
  mk_bs (cfg b) (clean_db b) (clean_bitmaps b) (metadata b) x (submit_queue b) (unsynced_big_writes b) (unsynced_small_writes b)
    (unsynced_big_write_count b) (unstable_unsynced b) (unsynced_queued_ops b) (data_alloc b) (used_blocks b)
    (inode_space_stats b) (unstable_writes b) (journal b) (flusher b) (big_to_flush b) (write_iodepth b) (stop_sync_submitted b)
    (ops b) (next_op b) (splits b) (sqes_left b) (ring b) (finished b) (timers b) (clock_us b).
Definition with_submit_queue (x : list (option nat)) (b : blockstore_impl_t) : blockstore_impl_t :=
  mk_bs (cfg b) (clean_db b) (clean_bitmaps b) (metadata b) (dirty_db b) x (unsynced_big_writes b) (unsynced_small_writes b)
    (unsynced_big_write_count b) (unstable_unsynced b) (unsynced_queued_ops b) (data_alloc b) (used_blocks b)
    (inode_space_stats b) (unstable_writes b) (journal b) (flusher b) (big_to_flush b) (write_iodepth b) (stop_sync_submitted b)
    (ops b) (next_op b) (splits b) (sqes_left b) (ring b) (finished b) (timers b) (clock_us b).
Definition with_unsynced_big_writes (x : list obj_ver_id) (b : blockstore_impl_t) : blockstore_impl_t :=
  mk_bs (cfg b) (clean_db b) (clean_bitmaps b) (metadata b) (dirty_db b) (submit_queue b) x (unsynced_small_writes b)
    (unsynced_big_write_count b) (unstable_unsynced b) (unsynced_queued_ops b) (data_alloc b) (used_blocks b)
    (inode_space_stats b) (unstable_writes b) (journal b) (flusher b) (big_to_flush b) (write_iodepth b) (stop_sync_submitted b)
    (ops b) (next_op b) (splits b) (sqes_left b) (ring b) (finished b) (timers b) (clock_us b).
Definition with_unsynced_small_writes (x : list obj_ver_id) (b : blockstore_impl_t) : blockstore_impl_t :=
  mk_bs (cfg b) (clean_db b) (clean_bitmaps b) (metadata b) (dirty_db b) (submit_queue b) (unsynced_big_writes b) x
    (unsynced_big_write_count b) (unstable_unsynced b) (unsynced_queued_ops b) (data_alloc b) (used_blocks b)
    (inode_space_stats b) (unstable_writes b) (journal b) (flusher b) (big_to_flush b) (write_iodepth b) (stop_sync_submitted b)
    (ops b) (next_op b) (splits b) (sqes_left b) (ring b) (finished b) (timers b) (clock_us b).
Definition with_unsynced_big_write_count (x : Z) (b : blockstore_impl_t) : blockstore_impl_t :=
  mk_bs (cfg b) (clean_db b) (clean_bitmaps b) (metadata b) (dirty_db b) (submit_queue b) (unsynced_big_writes b)
    (unsynced_small_writes b) x (unstable_unsynced b) (unsynced_queued_ops b) (data_alloc b) (used_blocks b)
    (inode_space_stats b) (unstable_writes b) (journal b) (flusher b) (big_to_flush b) (write_iodepth b) (stop_sync_submitted b)
    (ops b) (next_op b) (splits b) (sqes_left b) (ring b) (finished b) (timers b) (clock_us b).
Definition with_unstable_unsynced (x : Z) (b : blockstore_impl_t) : blockstore_impl_t :=
  mk_bs (cfg b) (clean_db b) (clean_bitmaps b) (metadata b) (dirty_db b) (submit_queue b) (unsynced_big_writes b)
    (unsynced_small_writes b) (unsynced_big_write_count b) x (unsynced_queued_ops b) (data_alloc b) (used_blocks b)
    (inode_space_stats b) (unstable_writes b) (journal b) (flusher b) (big_to_flush b) (write_iodepth b) (stop_sync_submitted b)
    (ops b) (next_op b) (splits b) (sqes_left b) (ring b) (finished b) (timers b) (clock_us b).
Definition with_unsynced_queued_ops (x : Z) (b : blockstore_impl_t) : blockstore_impl_t :=
  mk_bs (cfg b) (clean_db b) (clean_bitmaps b) (metadata b) (dirty_db b) (submit_queue b) (unsynced_big_writes b)
    (unsynced_small_writes b) (unsynced_big_write_count b) (unstable_unsynced b) x (data_alloc b) (used_blocks b)
    (inode_space_stats b) (unstable_writes b) (journal b) (flusher b) (big_to_flush b) (write_iodepth b) (stop_sync_submitted b)
    (ops b) (next_op b) (splits b) (sqes_left b) (ring b) (finished b) (timers b) (clock_us b).
Definition with_data_alloc (x : allocator_t) (b : blockstore_impl_t) : blockstore_impl_t :=
  mk_bs (cfg b) (clean_db b) (clean_bitmaps b) (metadata b) (dirty_db b) (submit_queue b) (unsynced_big_writes b)
    (unsynced_small_writes b) (unsynced_big_write_count b) (unstable_unsynced b) (unsynced_queued_ops b) x (used_blocks b)
    (inode_space_stats b) (unstable_writes b) (journal b) (flusher b) (big_to_flush b) (write_iodepth b) (stop_sync_submitted b)
    (ops b) (next_op b) (splits b) (sqes_left b) (ring b) (finished b) (timers b) (clock_us b).
Definition with_used_blocks (x : Z) (b : blockstore_impl_t) : blockstore_impl_t :=
  mk_bs (cfg b) (clean_db b) (clean_bitmaps b) (metadata b) (dirty_db b) (submit_queue b) (unsynced_big_writes b)
    (unsynced_small_writes b) (unsynced_big_write_count b) (unstable_unsynced b) (unsynced_queued_ops b) (data_alloc b) x
    (inode_space_stats b) (unstable_writes b) (journal b) (flusher b) (big_to_flush b) (write_iodepth b) (stop_sync_submitted b)
    (ops b) (next_op b) (splits b) (sqes_left b) (ring b) (finished b) (timers b) (clock_us b).
Definition with_inode_space_stats (x : gmap Z Z) (b : blockstore_impl_t) : blockstore_impl_t :=
  mk_bs (cfg b) (clean_db b) (clean_bitmaps b) (metadata b) (dirty_db b) (submit_queue b) (unsynced_big_writes b)
    (unsynced_small_writes b) (unsynced_big_write_count b) (unstable_unsynced b) (unsynced_queued_ops b) (data_alloc b)
    (used_blocks b) x (unstable_writes b) (journal b) (flusher b) (big_to_flush b) (write_iodepth b) (stop_sync_submitted b)
    (ops b) (next_op b) (splits b) (sqes_left b) (ring b) (finished b) (timers b) (clock_us b).
Definition with_unstable_writes (x : gmap object_id Z) (b : blockstore_impl_t) : blockstore_impl_t :=
  mk_bs (cfg b) (clean_db b) (clean_bitmaps b) (metadata b) (dirty_db b) (submit_queue b) (unsynced_big_writes b)
    (unsynced_small_writes b) (unsynced_big_write_count b) (unstable_unsynced b) (unsynced_queued_ops b) (data_alloc b)
    (used_blocks b) (inode_space_stats b) x (journal b) (flusher b) (big_to_flush b) (write_iodepth b) (stop_sync_submitted b)
    (ops b) (next_op b) (splits b) (sqes_left b) (ring b) (finished b) (timers b) (clock_us b).
Definition with_journal (x : journal_t) (b : blockstore_impl_t) : blockstore_impl_t :=
  mk_bs (cfg b) (clean_db b) (clean_bitmaps b) (metadata b) (dirty_db b) (submit_queue b) (unsynced_big_writes b)
    (unsynced_small_writes b) (unsynced_big_write_count b) (unstable_unsynced b) (unsynced_queued_ops b) (data_alloc b)
    (used_blocks b) (inode_space_stats b) (unstable_writes b) x (flusher b) (big_to_flush b) (write_iodepth b)
    (stop_sync_submitted b) (ops b) (next_op b) (splits b) (sqes_left b) (ring b) (finished b) (timers b) (clock_us b).
Definition with_flusher (x : journal_flusher_t) (b : blockstore_impl_t) : blockstore_impl_t :=
  mk_bs (cfg b) (clean_db b) (clean_bitmaps b) (metadata b) (dirty_db b) (submit_queue b) (unsynced_big_writes b)
    (unsynced_small_writes b) (unsynced_big_write_count b) (unstable_unsynced b) (unsynced_queued_ops b) (data_alloc b)
    (used_blocks b) (inode_space_stats b) (unstable_writes b) (journal b) x (big_to_flush b) (write_iodepth b)
    (stop_sync_submitted b) (ops b) (next_op b) (splits b) (sqes_left b) (ring b) (finished b) (timers b) (clock_us b).
Definition with_big_to_flush (x : Z) (b : blockstore_impl_t) : blockstore_impl_t :=
  mk_bs (cfg b) (clean_db b) (clean_bitmaps b) (metadata b) (dirty_db b) (submit_queue b) (unsynced_big_writes b)
    (unsynced_small_writes b) (unsynced_big_write_count b) (unstable_unsynced b) (unsynced_queued_ops b) (data_alloc b)
    (used_blocks b) (inode_space_stats b) (unstable_writes b) (journal b) (flusher b) x (write_iodepth b)
    (stop_sync_submitted b) (ops b) (next_op b) (splits b) (sqes_left b) (ring b) (finished b) (timers b) (clock_us b).
Definition with_write_iodepth (x : Z) (b : blockstore_impl_t) : blockstore_impl_t :=
  mk_bs (cfg b) (clean_db b) (clean_bitmaps b) (metadata b) (dirty_db b) (submit_queue b) (unsynced_big_writes b)
    (unsynced_small_writes b) (unsynced_big_write_count b) (unstable_unsynced b) (unsynced_queued_ops b) (data_alloc b)
    (used_blocks b) (inode_space_stats b) (unstable_writes b) (journal b) (flusher b) (big_to_flush b) x (stop_sync_submitted b)
    (ops b) (next_op b) (splits b) (sqes_left b) (ring b) (finished b) (timers b) (clock_us b).
Definition with_stop_sync_submitted (x : bool) (b : blockstore_impl_t) : blockstore_impl_t :=
  mk_bs (cfg b) (clean_db b) (clean_bitmaps b) (metadata b) (dirty_db b) (submit_queue b) (unsynced_big_writes b)
    (unsynced_small_writes b) (unsynced_big_write_count b) (unstable_unsynced b) (unsynced_queued_ops b) (data_alloc b)
    (used_blocks b) (inode_space_stats b) (unstable_writes b) (journal b) (flusher b) (big_to_flush b) (write_iodepth b) x
    (ops b) (next_op b) (splits b) (sqes_left b) (ring b) (finished b) (timers b) (clock_us b).
Definition with_ops (x : gmap nat op_t) (b : blockstore_impl_t) : blockstore_impl_t :=
  mk_bs (cfg b) (clean_db b) (clean_bitmaps b) (metadata b) (dirty_db b) (submit_queue b) (unsynced_big_writes b)
    (unsynced_small_writes b) (unsynced_big_write_count b) (unstable_unsynced b) (unsynced_queued_ops b) (data_alloc b)
    (used_blocks b) (inode_space_stats b) (unstable_writes b) (journal b) (flusher b) (big_to_flush b) (write_iodepth b)
    (stop_sync_submitted b) x (next_op b) (splits b) (sqes_left b) (ring b) (finished b) (timers b) (clock_us b).
Definition with_next_op (x : nat) (b : blockstore_impl_t) : blockstore_impl_t :=
  mk_bs (cfg b) (clean_db b) (clean_bitmaps b) (metadata b) (dirty_db b) (submit_queue b) (unsynced_big_writes b)
    (unsynced_small_writes b) (unsynced_big_write_count b) (unstable_unsynced b) (unsynced_queued_ops b) (data_alloc b)
    (used_blocks b) (inode_space_stats b) (unstable_writes b) (journal b) (flusher b) (big_to_flush b) (write_iodepth b)
    (stop_sync_submitted b) (ops b) x (splits b) (sqes_left b) (ring b) (finished b) (timers b) (clock_us b).
Definition with_splits (x : gmap nat split_t) (b : blockstore_impl_t) : blockstore_impl_t :=
  mk_bs (cfg b) (clean_db b) (clean_bitmaps b) (metadata b) (dirty_db b) (submit_queue b) (unsynced_big_writes b)
    (unsynced_small_writes b) (unsynced_big_write_count b) (unstable_unsynced b) (unsynced_queued_ops b) (data_alloc b)
    (used_blocks b) (inode_space_stats b) (unstable_writes b) (journal b) (flusher b) (big_to_flush b) (write_iodepth b)
    (stop_sync_submitted b) (ops b) (next_op b) x (sqes_left b) (ring b) (finished b) (timers b) (clock_us b).
Definition with_sqes_left (x : Z) (b : blockstore_impl_t) : blockstore_impl_t :=
  mk_bs (cfg b) (clean_db b) (clean_bitmaps b) (metadata b) (dirty_db b) (submit_queue b) (unsynced_big_writes b)
    (unsynced_small_writes b) (unsynced_big_write_count b) (unstable_unsynced b) (unsynced_queued_ops b) (data_alloc b)
    (used_blocks b) (inode_space_stats b) (unstable_writes b) (journal b) (flusher b) (big_to_flush b) (write_iodepth b)
    (stop_sync_submitted b) (ops b) (next_op b) (splits b) x (ring b) (finished b) (timers b) (clock_us b).
Definition with_ring (x : list io_t) (b : blockstore_impl_t) : blockstore_impl_t :=
  mk_bs (cfg b) (clean_db b) (clean_bitmaps b) (metadata b) (dirty_db b) (submit_queue b) (unsynced_big_writes b)
    (unsynced_small_writes b) (unsynced_big_write_count b) (unstable_unsynced b) (unsynced_queued_ops b) (data_alloc b)
    (used_blocks b) (inode_space_stats b) (unstable_writes b) (journal b) (flusher b) (big_to_flush b) (write_iodepth b)
    (stop_sync_submitted b) (ops b) (next_op b) (splits b) (sqes_left b) x (finished b) (timers b) (clock_us b).
Definition with_finished (x : list (nat * Z)) (b : blockstore_impl_t) : blockstore_impl_t :=
  mk_bs (cfg b) (clean_db b) (clean_bitmaps b) (metadata b) (dirty_db b) (submit_queue b) (unsynced_big_writes b)
    (unsynced_small_writes b) (unsynced_big_write_count b) (unstable_unsynced b) (unsynced_queued_ops b) (data_alloc b)
    (used_blocks b) (inode_space_stats b) (unstable_writes b) (journal b) (flusher b) (big_to_flush b) (write_iodepth b)
    (stop_sync_submitted b) (ops b) (next_op b) (splits b) (sqes_left b) (ring b) x (timers b) (clock_us b).
Definition with_timers (x : list (nat * Z)) (b : blockstore_impl_t) : blockstore_impl_t :=
  mk_bs (cfg b) (clean_db b) (clean_bitmaps b) (metadata b) (dirty_db b) (submit_queue b) (unsynced_big_writes b)
    (unsynced_small_writes b) (unsynced_big_write_count b) (unstable_unsynced b) (unsynced_queued_ops b) (data_alloc b)
    (used_blocks b) (inode_space_stats b) (unstable_writes b) (journal b) (flusher b) (big_to_flush b) (write_iodepth b)
    (stop_sync_submitted b) (ops b) (next_op b) (splits b) (sqes_left b) (ring b) (finished b) x (clock_us b).

Definition set_ov (x : obj_ver_id) (o : op_t) : op_t :=
  mk_op (opcode o) x (op_offset o) (op_len o) (op_data o) (op_vers o) (op_bitmap o) (op_callback o) (retval o) (wait_for o)
    (wait_detail o) (wait_detail2 o) (pending_ops o) (op_state o) (min_flushed_journal_sector o) (max_flushed_journal_sector o)
    (real_version o) (tv_begin o) (sync_big_writes o) (sync_small_writes o).
Definition set_len (x : Z) (o : op_t) : op_t :=
  mk_op (opcode o) (op_ov o) (op_offset o) x (op_data o) (op_vers o) (op_bitmap o) (op_callback o) (retval o) (wait_for o)
    (wait_detail o) (wait_detail2 o) (pending_ops o) (op_state o) (min_flushed_journal_sector o) (max_flushed_journal_sector o)
    (real_version o) (tv_begin o) (sync_big_writes o) (sync_small_writes o).
Definition set_vers (x : list obj_ver_id) (o : op_t) : op_t :=
  mk_op (opcode o) (op_ov o) (op_offset o) (op_len o) (op_data o) x (op_bitmap o) (op_callback o) (retval o) (wait_for o)
    (wait_detail o) (wait_detail2 o) (pending_ops o) (op_state o) (min_flushed_journal_sector o) (max_flushed_journal_sector o)
    (real_version o) (tv_begin o) (sync_big_writes o) (sync_small_writes o).
Definition set_callback (x : callback_t) (o : op_t) : op_t :=
  mk_op (opcode o) (op_ov o) (op_offset o) (op_len o) (op_data o) (op_vers o) (op_bitmap o) x (retval o) (wait_for o)
    (wait_detail o) (wait_detail2 o) (pending_ops o) (op_state o) (min_flushed_journal_sector o) (max_flushed_journal_sector o)
    (real_version o) (tv_begin o) (sync_big_writes o) (sync_small_writes o).
Definition set_retval (x : Z) (o : op_t) : op_t :=
  mk_op (opcode o) (op_ov o) (op_offset o) (op_len o) (op_data o) (op_vers o) (op_bitmap o) (op_callback o) x (wait_for o)
    (wait_detail o) (wait_detail2 o) (pending_ops o) (op_state o) (min_flushed_journal_sector o) (max_flushed_journal_sector o)
    (real_version o) (tv_begin o) (sync_big_writes o) (sync_small_writes o).
Definition set_wait_for (x : Z) (o : op_t) : op_t :=
  mk_op (opcode o) (op_ov o) (op_offset o) (op_len o) (op_data o) (op_vers o) (op_bitmap o) (op_callback o) (retval o) x
    (wait_detail o) (wait_detail2 o) (pending_ops o) (op_state o) (min_flushed_journal_sector o) (max_flushed_journal_sector o)
    (real_version o) (tv_begin o) (sync_big_writes o) (sync_small_writes o).
Definition set_wait_detail (x : Z) (o : op_t) : op_t :=
  mk_op (opcode o) (op_ov o) (op_offset o) (op_len o) (op_data o) (op_vers o) (op_bitmap o) (op_callback o) (retval o)
    (wait_for o) x (wait_detail2 o) (pending_ops o) (op_state o) (min_flushed_journal_sector o) (max_flushed_journal_sector o)
    (real_version o) (tv_begin o) (sync_big_writes o) (sync_small_writes o).
Definition set_wait_detail2 (x : Z) (o : op_t) : op_t :=
  mk_op (opcode o) (op_ov o) (op_offset o) (op_len o) (op_data o) (op_vers o) (op_bitmap o) (op_callback o) (retval o)
    (wait_for o) (wait_detail o) x (pending_ops o) (op_state o) (min_flushed_journal_sector o) (max_flushed_journal_sector o)
    (real_version o) (tv_begin o) (sync_big_writes o) (sync_small_writes o).
Definition set_pending_ops (x : Z) (o : op_t) : op_t :=
  mk_op (opcode o) (op_ov o) (op_offset o) (op_len o) (op_data o) (op_vers o) (op_bitmap o) (op_callback o) (retval o)
    (wait_for o) (wait_detail o) (wait_detail2 o) x (op_state o) (min_flushed_journal_sector o) (max_flushed_journal_sector o)
    (real_version o) (tv_begin o) (sync_big_writes o) (sync_small_writes o).
Definition set_op_state (x : Z) (o : op_t) : op_t :=
  mk_op (opcode o) (op_ov o) (op_offset o) (op_len o) (op_data o) (op_vers o) (op_bitmap o) (op_callback o) (retval o)
    (wait_for o) (wait_detail o) (wait_detail2 o) (pending_ops o) x (min_flushed_journal_sector o)
    (max_flushed_journal_sector o) (real_version o) (tv_begin o) (sync_big_writes o) (sync_small_writes o).
Definition set_min_flushed_journal_sector (x : Z) (o : op_t) : op_t :=
  mk_op (opcode o) (op_ov o) (op_offset o) (op_len o) (op_data o) (op_vers o) (op_bitmap o) (op_callback o) (retval o)
    (wait_for o) (wait_detail o) (wait_detail2 o) (pending_ops o) (op_state o) x (max_flushed_journal_sector o) (real_version o)
    (tv_begin o) (sync_big_writes o) (sync_small_writes o).
Definition set_max_flushed_journal_sector (x : Z) (o : op_t) : op_t :=
  mk_op (opcode o) (op_ov o) (op_offset o) (op_len o) (op_data o) (op_vers o) (op_bitmap o) (op_callback o) (retval o)
    (wait_for o) (wait_detail o) (wait_detail2 o) (pending_ops o) (op_state o) (min_flushed_journal_sector o) x (real_version o)
    (tv_begin o) (sync_big_writes o) (sync_small_writes o).
Definition set_real_version (x : Z) (o : op_t) : op_t :=
  mk_op (opcode o) (op_ov o) (op_offset o) (op_len o) (op_data o) (op_vers o) (op_bitmap o) (op_callback o) (retval o)
    (wait_for o) (wait_detail o) (wait_detail2 o) (pending_ops o) (op_state o) (min_flushed_journal_sector o)
    (max_flushed_journal_sector o) x (tv_begin o) (sync_big_writes o) (sync_small_writes o).
Definition set_tv_begin (x : Z) (o : op_t) : op_t :=
  mk_op (opcode o) (op_ov o) (op_offset o) (op_len o) (op_data o) (op_vers o) (op_bitmap o) (op_callback o) (retval o)
    (wait_for o) (wait_detail o) (wait_detail2 o) (pending_ops o) (op_state o) (min_flushed_journal_sector o)
    (max_flushed_journal_sector o) (real_version o) x (sync_big_writes o) (sync_small_writes o).
Definition set_sync_big_writes (x : list obj_ver_id) (o : op_t) : op_t :=
  mk_op (opcode o) (op_ov o) (op_offset o) (op_len o) (op_data o) (op_vers o) (op_bitmap o) (op_callback o) (retval o)
    (wait_for o) (wait_detail o) (wait_detail2 o) (pending_ops o) (op_state o) (min_flushed_journal_sector o)
    (max_flushed_journal_sector o) (real_version o) (tv_begin o) x (sync_small_writes o).
Definition set_sync_small_writes (x : list obj_ver_id) (o : op_t) : op_t :=
  mk_op (opcode o) (op_ov o) (op_offset o) (op_len o) (op_data o) (op_vers o) (op_bitmap o) (op_callback o) (retval o)
    (wait_for o) (wait_detail o) (wait_detail2 o) (pending_ops o) (op_state o) (min_flushed_journal_sector o)
    (max_flushed_journal_sector o) (real_version o) (tv_begin o) (sync_big_writes o) x.

Definition get_op (b : blockstore_impl_t) (o : nat) : res op_t :=
  match ops b !! o with Some op => Ok op | None => Err Undefined end.
Definition upd_op (b : blockstore_impl_t) (o : nat) (f : op_t -> op_t) : res blockstore_impl_t :=
  let* op := get_op b o in Ok (with_ops (<[o := f op]> (ops b)) b).

(** ** The queue of the flusher *)

Definition start_dequeuing (f : journal_flusher_t) (force : bool) : journal_flusher_t :=
  if force || negb (dequeuing f) && ((flusher_start_threshold f <=? zlen (flush_queue f)) || (0 <? trim_wanted f))
  then mk_flusher (flush_queue f) (flush_versions f) true (trim_wanted f) (journal_trim_counter f) (flusher_start_threshold f)
  else f.

Definition enqueue_flush (ov : obj_ver_id) (f : journal_flusher_t) : journal_flusher_t :=
  let f :=
    match flush_versions f !! oid ov with
    | Some v => mk_flusher (flush_queue f) (if v <? version ov then <[oid ov := version ov]> (flush_versions f) else flush_versions f)
                  (dequeuing f) (trim_wanted f) (journal_trim_counter f) (flusher_start_threshold f)
    | None => mk_flusher (flush_queue f ++ [oid ov]) (<[oid ov := version ov]> (flush_versions f))
                (dequeuing f) (trim_wanted f) (journal_trim_counter f) (flusher_start_threshold f)
    end in
  start_dequeuing f false.

Definition unshift_flush (ov : obj_ver_id) (force : bool) (f : journal_flusher_t) : journal_flusher_t :=
  let '(q, vs) :=
    match flush_versions f !! oid ov with
    | Some v => (flush_queue f, if v <? version ov then <[oid ov := version ov]> (flush_versions f) else flush_versions f)
    | None => (if force then flush_queue f else oid ov :: flush_queue f, <[oid ov := version ov]> (flush_versions f))
    end in
  let q := if force then oid ov :: q else q in
  start_dequeuing (mk_flusher q vs (dequeuing f) (trim_wanted f) (journal_trim_counter f) (flusher_start_threshold f)) force.

Fixpoint remove_first (x : object_id) (l : list object_id) : list object_id :=
  match l with [] => [] | y :: l => if oid_eqb y x then l else y :: remove_first x l end.

Definition remove_flush (x : object_id) (f : journal_flusher_t) : journal_flusher_t :=
  match flush_versions f !! x with
  | Some _ => mk_flusher (remove_first x (flush_queue f)) (delete x (flush_versions f)) (dequeuing f) (trim_wanted f)
                (journal_trim_counter f) (flusher_start_threshold f)
  | None => f
  end.

Definition request_trim (f : journal_flusher_t) : journal_flusher_t :=
  mk_flusher (flush_queue f) (flush_versions f) true (trim_wanted f + 1) (journal_trim_counter f) (flusher_start_threshold f).
Definition release_trim (f : journal_flusher_t) : journal_flusher_t :=
  mk_flusher (flush_queue f) (flush_versions f) (dequeuing f) (trim_wanted f - 1) (journal_trim_counter f) (flusher_start_threshold f).
Definition mark_trim_possible (f : journal_flusher_t) : journal_flusher_t :=
  if 0 <? trim_wanted f
  then mk_flusher (flush_queue f) (flush_versions f) true (trim_wanted f) 0 (flusher_start_threshold f) else f.

(** ** [dirty_db] as an ordered map *)

(** Iterators [lower_bound] and [upper_bound]: the reversed part before, and the rest. *)
Fixpoint db_lower (rpre suf : dirty_db_t) (k : obj_ver_id) : dirty_db_t * dirty_db_t :=
  match suf with
  | x :: s => if ov_ltb (fst x) k then db_lower (x :: rpre) s k else (rpre, suf)
  | [] => (rpre, [])
  end.
Fixpoint db_upper (rpre suf : dirty_db_t) (k : obj_ver_id) : dirty_db_t * dirty_db_t :=
  match suf with
  | x :: s => if ov_ltb k (fst x) then (rpre, suf) else db_upper (x :: rpre) s k
  | [] => (rpre, [])
  end.

(** [find]: the reversed part before, the entry and the part after it. *)
Definition db_find (d : dirty_db_t) (k : obj_ver_id) : option (dirty_db_t * dirty_entry * dirty_db_t) :=
  match db_lower [] d k with
  | (rpre, (k', e) :: s) => if bool_decide (k' = k) then Some (rpre, e, s) else None
  | _ => None
  end.
Definition db_at (d : dirty_db_t) (k : obj_ver_id) : res dirty_entry :=
  match db_find d k with Some (_, e, _) => Ok e | None => Err Thrown end.
Definition db_set (d : dirty_db_t) (k : obj_ver_id) (e : dirty_entry) : dirty_db_t :=
  match db_find d k with Some (rpre, _, s) => rev_append rpre ((k, e) :: s) | None => d end.
Definition db_erase (d : dirty_db_t) (k : obj_ver_id) : dirty_db_t :=
  match db_find d k with Some (rpre, _, s) => rev_append rpre s | None => d end.
(** [emplace] does not overwrite. *)
Definition db_emplace (d : dirty_db_t) (k : obj_ver_id) (e : dirty_entry) : dirty_db_t :=
  match db_find d k with
  | Some _ => d
  | None => let '(rpre, s) := db_lower [] d k in rev_append rpre ((k, e) :: s)
  end.

(** ** Removal of versions *)

(** The states of writes that waited for a deletion, from [dirty_end] on. *)
Fixpoint unblock_after_delete (o : object_id) (next_state : Z) (suf : dirty_db_t) : dirty_db_t :=
  match suf with
  | (k, e) :: s =>
    if oid_eqb (oid k) o then
      if workflow (state e) =? BS_ST_WAIT_DEL then
        (k, with_state (set_workflow (state e) next_state) e)
          :: unblock_after_delete o (if IS_BIG_WRITE (state e) then BS_ST_WAIT_BIG else next_state) s
      else (k, e) :: unblock_after_delete o next_state s
    else suf
  | [] => []
  end.

(** [--journal.used_sectors.at(journal_sector)] and what follows from it. *)
Definition unuse_sector (sector : Z) (b : blockstore_impl_t) : res blockstore_impl_t :=
  let j := journal b in
  match used_sectors j !! sector with
  | None => Err Thrown
  | Some n =>
    let used := u64 (n - 1) in
    if used =? 0 then
      let j := with_used_sectors (delete sector (used_sectors j)) j in
      let* si := aget (sector_info j) (cur_sector j) in
      let j := if sector =? sector_offset si then with_in_sector_pos (block_size j) j else j in
      Ok (with_flusher (mark_trim_possible (flusher b)) (with_journal j b))
    else Ok (with_journal (with_used_sectors (<[sector := used]> (used_sectors j)) j) b)
  end.

(** One turn of the [while (1)] of [erase_dirty]. *)
Definition erase_one (clean_loc : Z) (e : dirty_entry) (b : blockstore_impl_t) : res blockstore_impl_t :=
  let b :=
    if (IS_BIG_WRITE (state e) || IS_DELETE (state e)) && IS_STABLE (state e)
    then with_big_to_flush (big_to_flush b - 1) b else b in
  let* b :=
    if IS_BIG_WRITE (state e) && negb (location e =? clean_loc) && negb (location e =? UINT64_MAX) then
      let* a := set (data_alloc b) (Z.shiftr (location e) (block_order (cfg b))) false in Ok (with_data_alloc a b)
    else Ok b in
  unuse_sector (journal_sector e) b.

Fixpoint erase_loop (clean_loc : Z) (rmid : dirty_db_t) (b : blockstore_impl_t) : res blockstore_impl_t :=
  match rmid with
  | [] => Ok b
  | (_, e) :: rmid => let* b := erase_one clean_loc e b in erase_loop clean_loc rmid b
  end.

(** [erase_dirty]: [rmid] is the reversed range, [rpre] the reversed part before it
    and [suf] the part from [dirty_end] on. *)
Definition erase_dirty (rpre rmid suf : dirty_db_t) (clean_loc : Z) (b : blockstore_impl_t) : res blockstore_impl_t :=
  match rmid with
  | [] => Ok (with_dirty_db (rev_append rpre suf) b)
  | (k, e) :: _ =>
    let suf := if IS_DELETE (state e) then unblock_after_delete (oid k) BS_ST_IN_FLIGHT suf else suf in
    let* b := erase_loop clean_loc rmid b in
    Ok (with_dirty_db (rev_append rpre suf) b)
  end.

(** The loop of [mark_rolled_back]: [mid] collects the range to remove. *)
Fixpoint rollback_walk (ov : obj_ver_id) (rpre mid : dirty_db_t) : dirty_db_t * dirty_db_t * Z :=
  match rpre with
  | [] => ([], mid, 0)
  | (k, e) :: r =>
    if negb (oid_eqb (oid k) (oid ov)) then (rpre, mid, 0)
    else if version k <=? version ov then (rpre, mid, if IS_STABLE (state e) then 0 else version k)
    else if IS_IN_FLIGHT (state e) || IS_STABLE (state e) then (rpre, mid, 0)
    else rollback_walk ov r ((k, e) :: mid)
  end.

Definition mark_rolled_back (ov : obj_ver_id) (b : blockstore_impl_t) : res blockstore_impl_t :=
  let '(rpre, suf) := db_lower [] (dirty_db b) (mk_ov (oid ov) UINT64_MAX) in
  let '(rpre, mid, max_unstable) := rollback_walk ov rpre [] in
  match mid with
  | [] => Ok b
  | _ =>
    let* b := erase_dirty rpre (rev_append mid []) suf UINT64_MAX b in
    match unstable_writes b !! oid ov with
    | None => Ok b
    | Some _ =>
      if max_unstable =? 0 then Ok (with_unstable_writes (delete (oid ov) (unstable_writes b)) b)
      else Ok (with_unstable_writes (<[oid ov := max_unstable]> (unstable_writes b)) b)
    end
  end.

(** ** Stabilization *)

Definition POOL_ID_BITS : Z := 16.

Definition space_id (c : config_t) (i : Z) : Z :=
  if negb (default 0 (no_inode_stats c !! Z.shiftr i (64 - POOL_ID_BITS)) =? 0)
  then Z.ldiff i (2 ^ (64 - POOL_ID_BITS) - 1) else i.

(** Is there a version of the object before the one at the head of [rpre]? *)
Definition exists_before (o : object_id) (rpre : dirty_db_t) (b : blockstore_impl_t) : bool :=
  match rpre with
  | (k, e) :: _ =>
    if oid_eqb (oid k) o then negb (IS_DELETE (state e))
    else match clean_db b !! o with Some _ => true | None => false end
  | [] => match clean_db b !! o with Some _ => true | None => false end
  end.

(** Counters for a version that becomes stable. *)
Definition count_stable (o : object_id) (rpre : dirty_db_t) (e : dirty_entry) (b : blockstore_impl_t) : blockstore_impl_t :=
  let sp := space_id (cfg b) (inode o) in
  let bsz := data_block_size (cfg b) in
  if IS_BIG_WRITE (state e) then
    let b :=
      if exists_before o rpre b then b
      else with_used_blocks (u64 (used_blocks b + 1))
             (with_inode_space_stats (<[sp := u64 (default 0 (inode_space_stats b !! sp) + bsz)]> (inode_space_stats b)) b) in
    with_big_to_flush (big_to_flush b + 1) b
  else if IS_DELETE (state e) then
    let used := default 0 (inode_space_stats b !! sp) in
    let stats := if bsz <? used then <[sp := used - bsz]> (inode_space_stats b) else delete sp (inode_space_stats b) in
    with_big_to_flush (big_to_flush b + 1) (with_used_blocks (u64 (used_blocks b - 1)) (with_inode_space_stats stats b))
  else b.

(** The versions of an object before an iterator, and the rest. *)
Fixpoint split_object (o : object_id) (rpre acc : dirty_db_t) : dirty_db_t * dirty_db_t :=
  match rpre with
  | (k, e) :: r => if oid_eqb (oid k) o then split_object o r ((k, e) :: acc) else (rpre, acc)
  | [] => ([], acc)
  end.

(** The [while (1)] of [mark_stable], which goes back from the iterator
    [((k, e) :: rpre, suf)]; [suf] are the entries after [e], already changed. *)
Fixpoint stable_loop (o : object_id) (forget_dirty : bool) (rpre : dirty_db_t) (k : obj_ver_id) (e : dirty_entry)
    (suf : dirty_db_t) (b : blockstore_impl_t) : res blockstore_impl_t :=
  let was_stable := IS_STABLE (state e) in
  let* (e, b) :=
    if workflow (state e) =? BS_ST_SYNCED then
      let e := with_state (set_workflow (state e) BS_ST_STABLE) e in Ok (e, count_stable o rpre e b)
    else if IS_IN_FLIGHT (state e) then Err Aborted
    else Ok (e, b) in
  if forget_dirty && (IS_BIG_WRITE (state e) || IS_DELETE (state e)) then
    let '(rpre, mid) := split_object o rpre [] in
    let clean_loc := match clean_db b !! o with Some c => clean_location c | None => UINT64_MAX end in
    erase_dirty rpre (rev_append mid []) ((k, e) :: suf) clean_loc b
  else if was_stable then Ok (with_dirty_db (rev_append rpre ((k, e) :: suf)) b)
  else
    match rpre with
    | (k', e') :: r =>
      if oid_eqb (oid k') o then stable_loop o forget_dirty r k' e' ((k, e) :: suf) b
      else Ok (with_dirty_db (rev_append rpre ((k, e) :: suf)) b)
    | [] => Ok (with_dirty_db ((k, e) :: suf) b)
    end.

(** Does an unstable version of the object precede? *)
Fixpoint unstable_before (o : object_id) (rpre : dirty_db_t) : bool :=
  match rpre with
  | (k, e) :: r => oid_eqb (oid k) o && (negb (IS_STABLE (state e)) || unstable_before o r)
  | [] => false
  end.

(** Advance over the synced versions of the object that follow. *)
Fixpoint advance_synced (o : object_id) (rpre : dirty_db_t) (k : obj_ver_id) (e : dirty_entry) (suf : dirty_db_t)
    : dirty_db_t * obj_ver_id * dirty_entry * dirty_db_t :=
  match suf with
  | (k', e') :: s => if oid_eqb (oid k') o && IS_SYNCED (state e') then advance_synced o ((k, e) :: rpre) k' e' s else (rpre, k, e, suf)
  | [] => (rpre, k, e, suf)
  end.

Definition forget_unstable (v : obj_ver_id) (b : blockstore_impl_t) : blockstore_impl_t :=
  match unstable_writes b !! oid v with
  | Some u => if u <=? version v then with_unstable_writes (delete (oid v) (unstable_writes b)) b else b
  | None => b
  end.

Definition mark_stable (v : obj_ver_id) (forget_dirty : bool) (b : blockstore_impl_t) : res blockstore_impl_t :=
  match db_find (dirty_db b) v with
  | None => Ok (forget_unstable v b)
  | Some (rpre, e, suf) =>
    if IS_INSTANT (state e) && unstable_before (oid v) rpre then Ok b
    else
      let '(rpre, k, e, suf) := if IS_INSTANT (state e) then advance_synced (oid v) rpre v e suf else (rpre, v, e, suf) in
      let* b := stable_loop (oid v) forget_dirty rpre k e suf b in
      Ok (forget_unstable k (with_flusher (enqueue_flush k (flusher b)) b))
  end.
