(* ===== verification/BlockstoreOps.v ===== *)
(** * The blockstore: operations

    Handlers of blockstore_write.cpp, blockstore_sync.cpp, blockstore_stable.cpp and
    blockstore_rollback.cpp, and the journal writes they share
    ([prepare_journal_sector_write], [handle_journal_write] of
    blockstore_journal.cpp).  A handler returns the state and the number the code
    returns: 0 to try again later, 1 while in progress, 2 to be dequeued.  Reads of
    the clock take [clock_us]. *)

From S2P Require Import Prelude.
From S2P Require Import Allocator.
From S2P Require Import Crc32c.
From S2P Require Import Journal.
From S2P Require Import Blockstore.

(** ** Completion of operations *)

(** [FINISH_OP]: call the callback.  The nesting of splits bounds the recursion. *)
Fixpoint run_callback (fuel : nat) (cb : callback_t) (o : nat) (b : blockstore_impl_t) : res blockstore_impl_t :=
  match fuel with
  | O => Err OutOfFuel
  | S fuel =>
    let* op := get_op b o in
    match cb with
    | CbUser => Ok (with_finished (finished b ++ [(o, retval op)]) (with_ops (delete o (ops b)) b))
    | CbDelete => Ok (with_ops (delete o (ops b)) b)
    | CbUnshift =>
      let b := with_flusher (unshift_flush (mk_ov (oid (op_ov op)) (version (op_ov op) - 1)) true (flusher b)) b in
      Ok (with_ops (delete o (ops b)) b)
    | CbSplit g =>
      match splits b !! g with
      | None => Err Undefined
      | Some s =>
        let* b := if negb (retval op =? 0) then upd_op b (split_of s) (set_retval (retval op)) else Ok b in
        let counter := split_op_counter s - 1 in
        assert! (0 <=? counter) in
        let b := if bool_decide (o = split_of s) then b else with_ops (delete o (ops b)) b in
        if counter =? 0 then
          let* b := upd_op b (split_of s) (set_vers (orig_buf s)) in
          run_callback fuel (real_cb s) (split_of s) (with_splits (delete g (splits b)) b)
        else Ok (with_splits (<[g := mk_split (split_of s) counter (orig_buf s) (real_cb s)]> (splits b)) b)
      end
    | CbNone => Err Undefined
    end
  end.

Definition finish_op (o : nat) (b : blockstore_impl_t) : res blockstore_impl_t :=
  let* op := get_op b o in run_callback (S (size (splits b))) (op_callback op) o b.

(** [init_op]: the constructor of the private part, which leaves [real_version]. *)
Definition init_op (op : op_t) : op_t :=
  mk_op (opcode op) (op_ov op) (op_offset op) (op_len op) (op_data op) (op_vers op) (op_bitmap op) (op_callback op) (retval op)
    0 0 0 0 0 0 0 (real_version op) (tv_begin op) [] [].

Definition new_op (opc : Z) (ov : obj_ver_id) (cb : callback_t) : op_t :=
  mk_op opc ov 0 0 [] [] None cb 0 0 0 0 0 0 0 0 0 0 [] [].

(** ** Submission queue entries *)

Definition get_sqe (b : blockstore_impl_t) : option blockstore_impl_t :=
  if 0 <? sqes_left b then Some (with_sqes_left (sqes_left b - 1) b) else None.

(** What [BS_SUBMIT_CHECK_SQES] and [BS_SUBMIT_GET_SQE] do when entries are missing. *)
Definition wait_sqe (o : nat) (n : Z) (b : blockstore_impl_t) : res (blockstore_impl_t * Z) :=
  let* b := upd_op b o (fun op => set_wait_for WAIT_SQE (set_wait_detail n op)) in Ok (b, 0).

(** [check_available] with its effect on the operation. *)
Definition space_available (b : blockstore_impl_t) (c : blockstore_journal_check_t) (o : nat) (required size data_after : Z)
    : res (blockstore_impl_t * blockstore_journal_check_t * bool) :=
  let* (c, w) := check_available (journal b) c required size data_after in
  if w =? 0 then Ok (b, c, true)
  else if w =? WAIT_JOURNAL then
    let b := with_flusher (request_trim (flusher b)) b in
    let* b := upd_op b o (fun op => set_wait_detail (used_start (journal b)) (set_wait_for WAIT_JOURNAL op)) in
    Ok (b, c, false)
  else
    let* b := upd_op b o (set_wait_for w) in Ok (b, c, false).

(** ** Journal writes *)

(** [std::multimap::emplace]: after the entries with the same key. *)
Fixpoint multimap_emplace {V} (k : Z) (v : V) (m : list (Z * V)) : list (Z * V) :=
  match m with
  | (k', v') :: m' => if k <? k' then (k, v) :: m else (k', v') :: multimap_emplace k v m'
  | [] => [(k, v)]
  end.

Definition prepare_journal_sector_write (s : Z) (o : nat) (b : blockstore_impl_t) : res blockstore_impl_t :=
  let j := journal b in
  let* si := aget (sector_info j) s in
  let* b :=
    if sector_submit_id si =? 0 then
      match get_sqe b with
      | None => Err AssertFailed
      | Some b =>
        let id := u64 (submit_id j + 1) in
        assert! negb (id =? 0) in
        let* infos := aset (sector_info j) s (mk_sector (sector_offset si) (flush_count si + 1) true (dirty si) id) in
        let j := with_submitting_sectors (submitting_sectors j ++ [s]) (with_submit_id id (with_sector_info infos j)) in
        let* addr := sector_base j s in
        Ok (with_ring (ring b ++ [JournalSectorWrite id addr (sector_offset si)]) (with_journal j b))
      end
    else Ok b in
  let j := journal b in
  let* si := aget (sector_info j) s in
  let* infos := aset (sector_info j) s (mk_sector (sector_offset si) (flush_count si) (written si) false (sector_submit_id si)) in
  let fl := multimap_emplace (sector_submit_id si) (mk_pending 1 s o) (flushing_ops j) in
  let b := with_journal (with_flushing_ops fl (with_sector_info infos j)) b in
  let* op := get_op b o in
  let mn := if min_flushed_journal_sector op =? 0 then 1 + s else min_flushed_journal_sector op in
  assert! (mn <=? sector_count j) in
  upd_op b o (fun op => set_max_flushed_journal_sector (1 + s)
    (set_min_flushed_journal_sector mn (set_pending_ops (pending_ops op + 1) op))).

(** One turn of the loop of [release_journal_sectors]. *)
Definition release_sector (s : Z) (j : journal_t) : res journal_t :=
  let* si := aget (sector_info j) (s - 1) in
  if negb (dirty si) && (flush_count si =? 0) then
    let j := if s =? 1 + cur_sector j then with_in_sector_pos (block_size j) j else j in
    let new_ds := sector_offset si + block_size j in
    let new_ds := if len j <=? new_ds then block_size j else new_ds in
    if dirty_start j + (if used_start j <=? dirty_start j then 0 else len j) <?
       new_ds + (if used_start j <=? new_ds then 0 else len j)
    then Ok (with_dirty_start new_ds j) else Ok j
  else Ok j.

Fixpoint release_loop (fuel : nat) (s last : Z) (j : journal_t) : res journal_t :=
  match fuel with
  | O => Err OutOfFuel
  | S fuel =>
    let* j := release_sector s j in
    if s =? last then Ok j else release_loop fuel (1 + s mod sector_count j) last j
  end.

Definition release_journal_sectors (o : nat) (b : blockstore_impl_t) : res blockstore_impl_t :=
  let* op := get_op b o in
  if (0 <? min_flushed_journal_sector op) && (0 <? max_flushed_journal_sector op) then
    let j := journal b in
    let* j := release_loop (S (Z.to_nat (sector_count j))) (min_flushed_journal_sector op) (max_flushed_journal_sector op) j in
    upd_op (with_journal j b) o (fun op => set_min_flushed_journal_sector 0 (set_max_flushed_journal_sector 0 op))
  else Ok b.

(** One completed request of an operation. *)
Definition complete_one (o : nat) (b : blockstore_impl_t) : res blockstore_impl_t :=
  let* op := get_op b o in
  let n := pending_ops op - 1 in
  assert! (0 <=? n) in
  let* b := upd_op b o (set_pending_ops n) in
  if n =? 0 then
    let* b := release_journal_sectors o b in
    upd_op b o (fun op => set_op_state (op_state op + 1) op)
  else Ok b.

(** [handle_write_event] for a request that succeeded; any other stops the process. *)
Definition handle_write_event (o : nat) (b : blockstore_impl_t) : res blockstore_impl_t := complete_one o b.

(** The [while] of [handle_journal_write]: [acc] are the entries that stay, reversed. *)
Fixpoint journal_write_loop (flush_id : Z) (is_first : bool) (acc l : list (Z * pending_journaling_t)) (b : blockstore_impl_t)
    : res (list (Z * pending_journaling_t) * blockstore_impl_t) :=
  match l with
  | [] => Ok (rev_append acc [], b)
  | (k, p) :: l =>
    let '(p, del) :=
      if k =? flush_id then (mk_pending 0 (sector p) (pending_op p), is_first) else (p, pending p =? 0) in
    if del then
      let* b := complete_one (pending_op p) b in journal_write_loop flush_id is_first acc l b
    else journal_write_loop flush_id is_first ((k, p) :: acc) l b
  end.

Fixpoint split_flushing (flush_id : Z) (l : list (Z * pending_journaling_t)) :=
  match l with
  | (k, p) :: l' => if k <? flush_id then let '(a, c) := split_flushing flush_id l' in ((k, p) :: a, c) else ([], l)
  | [] => ([], [])
  end.

(** [handle_journal_write] for a request that succeeded. *)
Definition handle_journal_write (flush_id : Z) (b : blockstore_impl_t) : res blockstore_impl_t :=
  let j := journal b in
  let '(before, from) := split_flushing flush_id (flushing_ops j) in
  let* j :=
    match from with
    | (k, p) :: _ =>
      if (k =? flush_id) && (0 <=? sector p) then
        let* si := aget (sector_info j) (sector p) in
        let* infos := aset (sector_info j) (sector p)
          (mk_sector (sector_offset si) (u64 (flush_count si - 1)) (written si) (dirty si) (sector_submit_id si)) in
        Ok (with_sector_info infos j)
      else Ok j
    | [] => Ok j
    end in
  let* (from, b) := journal_write_loop flush_id (bool_decide (before = [])) [] from (with_journal j b) in
  Ok (with_journal (with_flushing_ops (before ++ from) (journal b)) b).

(** The end of [blockstore_impl_t::loop]: everything prepared has been submitted. *)
Fixpoint clear_submit_ids (l : list Z) (infos : list journal_sector_info_t) : res (list journal_sector_info_t) :=
  match l with
  | [] => Ok infos
  | s :: l =>
    let* si := aget infos s in
    let* infos := aset infos s (mk_sector (sector_offset si) (flush_count si) (written si) (dirty si) 0) in
    clear_submit_ids l infos
  end.
Definition mark_submitted (b : blockstore_impl_t) : res blockstore_impl_t :=
  let j := journal b in
  let* infos := clear_submit_ids (submitting_sectors j) (sector_info j) in
  Ok (with_journal (with_submitting_sectors [] (with_sector_info infos j)) b).

(** ** Entries of the journal *)

Definition store_ov (j : journal_t) (je : Z) (ov : obj_ver_id) : res journal_t :=
  let* j := store j (je + 16) 8 (inode (oid ov)) in
  let* j := store j (je + 24) 8 (stripe (oid ov)) in
  store j (je + 32) 8 (version ov).

(** The body of the loops of [dequeue_stable] and [dequeue_rollback]. *)
Definition put_ov (type size : Z) (ov : obj_ver_id) (b : blockstore_impl_t) : res blockstore_impl_t :=
  let* (j, je) := prefill_single_journal_entry (journal b) type size in
  let* j := store_ov j je ov in
  let* j := seal_entry j je size in
  Ok (with_journal j b).

(** Is the sector in the used part of the ring? *)
Definition in_used_part (j : journal_t) (jsec : Z) : bool :=
  if used_start j <=? next_free j then (used_start j <=? jsec) && (jsec <? next_free j)
  else (used_start j <=? jsec) || (jsec <? next_free j).

Definition use_sector (sector : Z) (j : journal_t) : journal_t :=
  with_used_sectors (<[sector := u64 (default 0 (used_sectors j !! sector) + 1)]> (used_sectors j)) j.

(** The loop over a batch of entries: [size] and [put] of an item, [s] counts the
    sectors that were written. *)
Fixpoint write_batch {A} (size : A -> blockstore_impl_t -> res Z) (put : A -> blockstore_impl_t -> res blockstore_impl_t)
    (o : nat) (l : list A) (s : Z) (b : blockstore_impl_t) : res (blockstore_impl_t * Z) :=
  match l with
  | [] => let* b := prepare_journal_sector_write (cur_sector (journal b)) o b in Ok (b, s + 1)
  | x :: l =>
    let* sz := size x b in
    let* fits := entry_fits (journal b) sz in
    let* si := aget (sector_info (journal b)) (cur_sector (journal b)) in
    let* (b, s) :=
      if negb fits && dirty si then
        let* b := prepare_journal_sector_write (cur_sector (journal b)) o b in Ok (b, s + 1)
      else Ok (b, s) in
    let* b := put x b in
    write_batch size put o l s b
  end.

Definition dirty_dyn_size (c : config_t) (off n : Z) : Z :=
  u64 (clean_entry_bitmap_size c +
    (if negb (csum_block_size c =? 0) && (0 <? n)
     then u64 ((u64 (off + n + csum_block_size c - 1) / csum_block_size c - off / csum_block_size c) * Z.land (data_csum_type c) 0xFF)
     else 0)).

(** ** Sync *)

Definition SYNC_HAS_SMALL : Z := 1.
Definition SYNC_HAS_BIG : Z := 2.
Definition SYNC_DATA_SYNC_SENT : Z := 3.
Definition SYNC_DATA_SYNC_DONE : Z := 4.
Definition SYNC_JOURNAL_WRITE_SENT : Z := 5.
Definition SYNC_JOURNAL_WRITE_DONE : Z := 6.
Definition SYNC_JOURNAL_SYNC_SENT : Z := 7.
Definition SYNC_DONE : Z := 8.

(** Writes that waited for a big write may go on. *)
Fixpoint unblock_after_big (o : object_id) (suf : dirty_db_t) : dirty_db_t :=
  match suf with
  | (k, e) :: s =>
    if oid_eqb (oid k) o then
      (k, if workflow (state e) =? BS_ST_WAIT_BIG then with_state (set_workflow (state e) BS_ST_IN_FLIGHT) e else e) :: unblock_after_big o s
    else suf
  | [] => []
  end.

(** The effect of [unblock_after_big] behind version [v] of the database. *)
Definition unblock_from (v : obj_ver_id) (d : dirty_db_t) : dirty_db_t :=
  let '(rpre, suf) := db_upper [] d v in rev_append rpre (unblock_after_big (oid v) suf).

Definition note_unstable (v : obj_ver_id) (b : blockstore_impl_t) : blockstore_impl_t :=
  let u := default 0 (unstable_writes b !! oid v) in
  with_unstable_writes (<[oid v := if u <? version v then version v else u]> (unstable_writes b)) b.

Definition dec_unstable_unsynced (b : blockstore_impl_t) : res blockstore_impl_t :=
  let n := unstable_unsynced b - 1 in
  assert! (0 <=? n) in Ok (with_unstable_unsynced n b).

Definition ack_sync_big (v : obj_ver_id) (b : blockstore_impl_t) : res blockstore_impl_t :=
  let b := note_unstable v b in
  match db_find (dirty_db b) v with
  | None => Err Undefined
  | Some (_, e, _) =>
    let e := with_state (set_workflow (state e) BS_ST_SYNCED) e in
    let b := with_dirty_db (db_set (dirty_db b) v e) b in
    let* b := if is_instant_bit (state e) then mark_stable v false b else dec_unstable_unsynced b in
    Ok (with_dirty_db (unblock_from v (dirty_db b)) b)
  end.

(** [dirty_db[v]] creates a zero entry when there is none. *)
Definition db_index (v : obj_ver_id) (b : blockstore_impl_t) : dirty_entry * blockstore_impl_t :=
  match db_find (dirty_db b) v with
  | Some (_, e, _) => (e, b)
  | None => let e := mk_dirty 0 0 0 0 0 [] in (e, with_dirty_db (db_emplace (dirty_db b) v e) b)
  end.

Definition ack_sync_small (v : obj_ver_id) (b : blockstore_impl_t) : res blockstore_impl_t :=
  let b := note_unstable v b in
  let '(e, b) := db_index v b in
  if state e =? Z.lor BS_ST_DELETE BS_ST_WRITTEN then
    mark_stable v false (with_dirty_db (db_set (dirty_db b) v (with_state (Z.lor BS_ST_DELETE BS_ST_SYNCED) e)) b)
  else
    let e := with_state (set_workflow (state e) BS_ST_SYNCED) e in
    let b := with_dirty_db (db_set (dirty_db b) v e) b in
    if is_instant_bit (state e) then mark_stable v false b else dec_unstable_unsynced b.

Fixpoint for_each {A} (f : A -> blockstore_impl_t -> res blockstore_impl_t) (l : list A) (b : blockstore_impl_t) : res blockstore_impl_t :=
  match l with [] => Ok b | x :: l => let* b := f x b in for_each f l b end.

Definition ack_sync (o : nat) (b : blockstore_impl_t) : res blockstore_impl_t :=
  let* op := get_op b o in
  let* b := for_each ack_sync_big (sync_big_writes op) b in
  let* b := for_each ack_sync_small (sync_small_writes op) b in
  let* b := upd_op b o (set_retval 0) in
  finish_op o b.

Definition big_entry_size (v : obj_ver_id) (b : blockstore_impl_t) : res Z :=
  let* e := db_at (dirty_db b) v in
  Ok (sizeof_big_write + dirty_dyn_size (cfg b) (offset e) (entry_len e)).

(** The fields of a [journal_entry_big_write] and its [memcpy]. *)
Definition store_big (j : journal_t) (je : Z) (v : obj_ver_id) (off n loc : Z) (dyn : list Z) : res journal_t :=
  let* j := store_ov j je v in
  let* j := store j (je + 40) 4 off in
  let* j := store j (je + 44) 4 n in
  let* j := store j (je + 48) 8 loc in
  let* m := poke (mem j) (je + 56) dyn in Ok (with_mem m j).

Definition put_big (v : obj_ver_id) (b : blockstore_impl_t) : res blockstore_impl_t :=
  let* e := db_at (dirty_db b) v in
  let dyn_size := dirty_dyn_size (cfg b) (offset e) (entry_len e) in
  let size := sizeof_big_write + dyn_size in
  let* (j, je) := prefill_single_journal_entry (journal b) (if is_instant_bit (state e) then JE_BIG_WRITE_INSTANT else JE_BIG_WRITE) size in
  let* si := aget (sector_info j) (cur_sector j) in
  let jsec := sector_offset si in
  assert! in_used_part j jsec in
  let* dyn := load (dyn_data e) 0 dyn_size in
  let* j := store_big (use_sector jsec j) je v (offset e) (entry_len e) (location e) dyn in
  let* j := seal_entry j je size in
  Ok (with_dirty_db (db_set (dirty_db b) v (with_journal_sector jsec e)) (with_journal j b)).

(** The check of [continue_sync] when every entry has its own length. *)
Fixpoint check_each (o : nat) (l : list obj_ver_id) (b : blockstore_impl_t) (c : blockstore_journal_check_t)
    : res (blockstore_impl_t * blockstore_journal_check_t * bool) :=
  match l with
  | [] => Ok (b, c, true)
  | v :: l =>
    let* size := big_entry_size v b in
    let* (b, c, ok) := space_available b c o 1 size 0 in
    if ok : bool then check_each o l b c else Ok (b, c, false)
  end.

(** The space check for the entries: one by one when they have checksums. *)
Definition sync_check (o : nat) (big : list obj_ver_id) (b : blockstore_impl_t) : res (blockstore_impl_t * blockstore_journal_check_t * bool) :=
  if negb (csum_block_size (cfg b) =? 0) then check_each o big b (journal_check (journal b))
  else space_available b (journal_check (journal b)) o (i32 (zlen big)) (sizeof_big_write + clean_entry_bitmap_size (cfg b)) 0.

(** The state [SYNC_DATA_SYNC_DONE]: write the entries of the big writes. *)
Definition sync_write_entries (o : nat) (b : blockstore_impl_t) : res (blockstore_impl_t * Z) :=
  let* op := get_op b o in
  let big := sync_big_writes op in
  let* (b, c, ok) := sync_check o big b in
  if negb ok then Ok (b, 0)
  else if sqes_left b <? sectors_to_write c then wait_sqe o (sectors_to_write c) b
  else
    let* (b, s) := write_batch big_entry_size put_big o big 0 b in
    assert! (s =? sectors_to_write c) in
    let* b := upd_op b o (set_op_state SYNC_JOURNAL_WRITE_SENT) in
    Ok (b, 1).

(** Send an fsync for the operation and remember where to go on. *)
Definition submit_fsync (io : io_t) (o : nat) (next : Z) (b : blockstore_impl_t) : res (blockstore_impl_t * Z) :=
  match get_sqe b with
  | None => wait_sqe o 1 b
  | Some b =>
    let b := with_ring (ring b ++ [io]) b in
    let* b := upd_op b o (fun op => set_op_state next (set_pending_ops 1
      (set_min_flushed_journal_sector 0 (set_max_flushed_journal_sector 0 op)))) in
    Ok (b, 1)
  end.

(** The states from [SYNC_JOURNAL_WRITE_DONE] on. *)
Definition sync_journal_done (o : nat) (b : blockstore_impl_t) : res (blockstore_impl_t * Z) :=
  let* op := get_op b o in
  if (op_state op =? SYNC_JOURNAL_WRITE_DONE) && negb (disable_journal_fsync (cfg b)) then
    submit_fsync (JournalFsync o) o SYNC_JOURNAL_SYNC_SENT b
  else
    let* b := if op_state op =? SYNC_JOURNAL_WRITE_DONE then upd_op b o (set_op_state SYNC_DONE) else Ok b in
    let* op := get_op b o in
    if op_state op =? SYNC_DONE then let* b := ack_sync o b in Ok (b, 2) else Ok (b, 1).

(** The state 0: take over the writes to sync. *)
Definition sync_take_writes (o : nat) (b : blockstore_impl_t) : res blockstore_impl_t :=
  let* op := get_op b o in
  if op_state op =? 0 then
    let big := unsynced_big_writes b in
    let small := unsynced_small_writes b in
    let st := if 0 <? zlen big then SYNC_HAS_BIG else if 0 <? zlen small then SYNC_HAS_SMALL else SYNC_DONE in
    let b := with_stop_sync_submitted false (with_unsynced_big_write_count (unsynced_big_write_count b - zlen big)
      (with_unsynced_big_writes [] (with_unsynced_small_writes [] b))) in
    upd_op b o (fun op => set_op_state st (set_sync_big_writes big (set_sync_small_writes small op)))
  else Ok b.

Definition continue_sync (o : nat) (b : blockstore_impl_t) : res (blockstore_impl_t * Z) :=
  if immediate_commit (cfg b) =? IMMEDIATE_ALL then
    let* b := upd_op b o (set_retval 0) in
    let* b := finish_op o b in Ok (b, 2)
  else
    let* b := sync_take_writes o b in
    let* op := get_op b o in
    let* si := aget (sector_info (journal b)) (cur_sector (journal b)) in
    if (op_state op =? SYNC_HAS_SMALL) && dirty si then
      if sqes_left b <? 1 then wait_sqe o 1 b
      else
        let* b := prepare_journal_sector_write (cur_sector (journal b)) o b in
        let* b := upd_op b o (set_op_state SYNC_JOURNAL_WRITE_SENT) in Ok (b, 1)
    else
      let* b := if op_state op =? SYNC_HAS_SMALL then upd_op b o (set_op_state SYNC_JOURNAL_WRITE_DONE) else Ok b in
      if (op_state op =? SYNC_HAS_BIG) && negb (disable_data_fsync (cfg b)) then
        submit_fsync (DataFsync o) o SYNC_DATA_SYNC_SENT b
      else if (op_state op =? SYNC_HAS_BIG) || (op_state op =? SYNC_DATA_SYNC_DONE) then
        let* b := upd_op b o (set_op_state SYNC_DATA_SYNC_DONE) in sync_write_entries o b
      else sync_journal_done o b.

(** ** Splitting of STABLE and ROLLBACK *)

Definition STAB_SPLIT_DONE : Z := 1.
Definition STAB_SPLIT_WAIT : Z := 2.
Definition STAB_SPLIT_SYNC : Z := 3.
Definition STAB_SPLIT_TODO : Z := 4.
Definition ENOENT : Z := 2.

(** Take the versions up to [ov] of its object out of a list. *)
Definition check_unsynced (check : list obj_ver_id) (ov : obj_ver_id) : list obj_ver_id * list obj_ver_id :=
  let sel v := oid_eqb (oid v) (oid ov) && (version v <=? version ov) in
  (List.filter (fun v => negb (sel v)) check, List.filter sel check).

Definition selective_sync (o : nat) (b : blockstore_impl_t) : res (blockstore_impl_t * option nat) :=
  let* op := get_op b o in
  let big := unsynced_big_writes b in
  let small := unsynced_small_writes b in
  let b := with_unsynced_big_write_count (unsynced_big_write_count b - zlen big + zlen (sync_big_writes op))
    (with_unsynced_big_writes (sync_big_writes op) (with_unsynced_small_writes (sync_small_writes op) b)) in
  let* b := upd_op b o (fun op => set_sync_big_writes big (set_sync_small_writes small op)) in
  let sync_op := next_op b in
  let b := with_next_op (S sync_op) (with_ops (<[sync_op := new_op BS_OP_SYNC (mk_ov (mk_oid 0 0) 0) CbDelete]> (ops b)) b) in
  let* (b, sync_res) := continue_sync sync_op b in
  let b := if sync_res =? 2 then b else with_submit_queue (submit_queue b ++ [Some sync_op]) b in
  let* op := get_op b o in
  let big := unsynced_big_writes b in
  let small := unsynced_small_writes b in
  let b := with_unsynced_big_write_count (unsynced_big_write_count b - zlen big + zlen (sync_big_writes op))
    (with_unsynced_big_writes (sync_big_writes op) (with_unsynced_small_writes (sync_small_writes op) b)) in
  let* b := upd_op b o (fun op => set_sync_big_writes big (set_sync_small_writes small op)) in
  Ok (b, if sync_res =? 2 then None else Some sync_op).

(** The state of the loop of [split_stab_op]: [None] is a vector not allocated yet. *)
Record split_state := mk_split_state {
  add_sync : bool;
  good_vers : option (list obj_ver_id);
  bad_vers : list obj_ver_id;
  todo : Z }.

(** The turn for version [v] with [seen] before it, when the decision is no error. *)
Definition split_one (o : nat) (action : Z) (seen : list obj_ver_id) (v : obj_ver_id) (st : split_state) (b : blockstore_impl_t)
    : res (split_state * blockstore_impl_t) :=
  let good := Some (default seen (good_vers st)) in
  if action =? STAB_SPLIT_DONE then Ok (mk_split_state (add_sync st) good (bad_vers st) (todo st), b)
  else if action =? STAB_SPLIT_WAIT then Ok (mk_split_state (add_sync st) good (bad_vers st ++ [v]) (todo st), b)
  else if action =? STAB_SPLIT_SYNC then
    let* b := if add_sync st then Ok b else upd_op b o (fun op => set_sync_big_writes [] (set_sync_small_writes [] op)) in
    let '(small, to_small) := check_unsynced (unsynced_small_writes b) v in
    let '(big, to_big) := check_unsynced (unsynced_big_writes b) v in
    let b := with_unsynced_small_writes small (with_unsynced_big_writes big
      (with_unsynced_big_write_count (unsynced_big_write_count b - zlen to_big) b)) in
    let* b := upd_op b o (fun op => set_sync_small_writes (sync_small_writes op ++ to_small)
      (set_sync_big_writes (sync_big_writes op ++ to_big) op)) in
    Ok (mk_split_state true good (bad_vers st ++ [v]) (todo st), b)
  else
    Ok (mk_split_state (add_sync st) (match good_vers st with Some g => Some (g ++ [v]) | None => None end) (bad_vers st) (todo st + 1), b).

(** The loop: the third part is a negative result of the decider. *)
Fixpoint split_loop (decider : obj_ver_id -> blockstore_impl_t -> Z) (o : nat) (seen l : list obj_ver_id) (st : split_state)
    (b : blockstore_impl_t) : res (split_state * blockstore_impl_t * option Z) :=
  match l with
  | [] => Ok (st, b, None)
  | v :: l =>
    let action := decider v b in
    if action <? 0 then Ok (st, b, Some action)
    else
      let* (st, b) := split_one o action seen v st b in
      split_loop decider o (seen ++ [v]) l st b
  end.

(** Put back the writes taken from the unsynced lists and finish with an error. *)
Definition split_error (o : nat) (action : Z) (b : blockstore_impl_t) : res (blockstore_impl_t * Z) :=
  let* op := get_op b o in
  let b := with_unsynced_big_writes (unsynced_big_writes b ++ sync_big_writes op)
    (with_unsynced_big_write_count (unsynced_big_write_count b + zlen (sync_big_writes op))
      (with_unsynced_small_writes (unsynced_small_writes b ++ sync_small_writes op) b)) in
  let* b := upd_op b o (set_retval action) in
  let* b := finish_op o b in Ok (b, 2).

(** Create the operation for the versions that have to wait. *)
Definition split_bad (o : nat) (bad : list obj_ver_id) (b : blockstore_impl_t) : res (blockstore_impl_t * option nat) :=
  match bad with
  | [] => Ok (b, None)
  | _ =>
    let* op := get_op b o in
    let n := next_op b in
    let sop := set_len (zlen bad) (set_vers bad (new_op (opcode op) (mk_ov (mk_oid 0 0) 0) CbDelete)) in
    Ok (with_next_op (S n) (with_submit_queue (submit_queue b ++ [Some n]) (with_ops (<[n := sop]> (ops b)) b)), Some n)
  end.

Definition is_some {A} (x : option A) : bool := match x with Some _ => true | None => false end.

(** The wrapped callback, shared by the operation and its parts. *)
Definition split_callbacks (o : nat) (st : split_state) (sync_op stab_op : option nat) (b : blockstore_impl_t) : res blockstore_impl_t :=
  if is_some sync_op || is_some stab_op || is_some (good_vers st) then
    let* op := get_op b o in
    let n := next_op b in
    let counter := (if sync_op then 1 else 0) + (if stab_op then 1 else 0) + (if todo st =? 0 then 0 else 1) in
    let b := with_next_op (S n) (with_splits (<[n := mk_split o counter (op_vers op) (op_callback op)]> (splits b)) b) in
    let* b := match good_vers st with Some g => upd_op b o (fun op => set_len (zlen g) (set_vers g op)) | None => Ok b end in
    let* b := match sync_op with Some s => upd_op b s (set_callback (CbSplit n)) | None => Ok b end in
    let* b := match stab_op with Some s => upd_op b s (set_callback (CbSplit n)) | None => Ok b end in
    upd_op b o (set_callback (CbSplit n))
  else Ok b.

Definition split_stab_op (decider : obj_ver_id -> blockstore_impl_t -> Z) (o : nat) (b : blockstore_impl_t) : res (blockstore_impl_t * Z) :=
  let* op := get_op b o in
  let* (st, b, err) := split_loop decider o [] (op_vers op) (mk_split_state false None [] 0) b in
  match err with
  | Some action => split_error o action b
  | None =>
    let* op := get_op b o in
    let add := add_sync st && ((0 <? zlen (sync_big_writes op)) || (0 <? zlen (sync_small_writes op))) in
    let* b := upd_op b o (set_retval 0) in
    if (todo st =? 0) && (zlen (bad_vers st) =? 0) then let* b := finish_op o b in Ok (b, 2)
    else if (todo st =? 0) && negb add then Ok (b, 0)
    else
      let* (b, sync_op) := if add then selective_sync o b else Ok (b, None) in
      let* (b, stab_op) := split_bad o (bad_vers st) b in
      let* b := split_callbacks o st sync_op stab_op b in
      if todo st =? 0 then let* b := upd_op b o (set_callback CbNone) in Ok (b, 2)
      else Ok (b, 1)
  end.

(** ** Stable *)

(** The [while (true)] of the decider: versions from [ov] back. *)
Fixpoint stable_decide (o : object_id) (l : dirty_db_t) : Z :=
  match l with
  | (k, e) :: l =>
    if negb (oid_eqb (oid k) o) then STAB_SPLIT_TODO
    else if IS_IN_FLIGHT (state e) then STAB_SPLIT_WAIT
    else if negb (IS_SYNCED (state e)) then STAB_SPLIT_SYNC
    else if IS_STABLE (state e) then STAB_SPLIT_TODO
    else stable_decide o l
  | [] => STAB_SPLIT_TODO
  end.

Definition stable_decider (ov : obj_ver_id) (b : blockstore_impl_t) : Z :=
  match db_find (dirty_db b) ov with
  | None =>
    match clean_db b !! oid ov with
    | None => - ENOENT
    | Some c => if clean_version c <? version ov then - ENOENT else STAB_SPLIT_DONE
    end
  | Some (rpre, e, _) => if IS_STABLE (state e) then STAB_SPLIT_DONE else stable_decide (oid ov) ((ov, e) :: rpre)
  end.

(** The part of [dequeue_stable] and [dequeue_rollback] after the split. *)
Definition write_versions (type size : Z) (o : nat) (b : blockstore_impl_t) : res (blockstore_impl_t * Z) :=
  let* op := get_op b o in
  let* (b, c, ok) := space_available b (journal_check (journal b)) o (i32 (zlen (op_vers op))) size 0 in
  if negb ok then Ok (b, 0)
  else if sqes_left b <? sectors_to_write c then wait_sqe o (sectors_to_write c) b
  else
    let* (b, s) := write_batch (fun _ _ => Ok size) (put_ov type size) o (op_vers op) 0 b in
    assert! (s =? sectors_to_write c) in
    let* b := upd_op b o (set_op_state 1) in Ok (b, 1).

(** [continue_stable] and [continue_rollback] differ in what they do at the end. *)
Definition continue_versions (mark : obj_ver_id -> blockstore_impl_t -> res blockstore_impl_t) (o : nat) (b : blockstore_impl_t)
    : res (blockstore_impl_t * Z) :=
  let* op := get_op b o in
  if (op_state op =? 2) && negb (disable_journal_fsync (cfg b)) then submit_fsync (JournalFsync o) o 3 b
  else if (op_state op =? 2) || (op_state op =? 4) then
    let* b := for_each mark (op_vers op) b in
    let* b := upd_op b o (set_retval 0) in
    let* b := finish_op o b in Ok (b, 2)
  else Ok (b, 1).

Definition continue_stable (o : nat) (b : blockstore_impl_t) : res (blockstore_impl_t * Z) :=
  continue_versions (fun v => mark_stable v false) o b.

Definition dequeue_stable (o : nat) (b : blockstore_impl_t) : res (blockstore_impl_t * Z) :=
  let* op := get_op b o in
  if negb (op_state op =? 0) then continue_stable o b
  else
    let* (b, r) := split_stab_op stable_decider o b in
    if negb (r =? 1) then Ok (b, r) else write_versions JE_STABLE sizeof_stable o b.

(** ** Rollback *)

(** The [while] of the decider: versions greater than that of [ov], from the last one. *)
Fixpoint rollback_decide (ov : obj_ver_id) (l : dirty_db_t) : Z :=
  match l with
  | (k, e) :: l =>
    if oid_eqb (oid k) (oid ov) && (version ov <? version k) then
      if IS_IN_FLIGHT (state e) then STAB_SPLIT_WAIT
      else if negb (IS_SYNCED (state e)) || IS_STABLE (state e) then STAB_SPLIT_SYNC
      else rollback_decide ov l
    else STAB_SPLIT_TODO
  | [] => STAB_SPLIT_TODO
  end.

Definition rollback_decider (ov : obj_ver_id) (b : blockstore_impl_t) : Z :=
  match db_lower [] (dirty_db b) (mk_ov (oid ov) UINT64_MAX) with
  | ([], _) => STAB_SPLIT_DONE
  | ((k, e) :: r, _) =>
    if negb (oid_eqb (oid k) (oid ov)) || (version k <? version ov) then STAB_SPLIT_DONE
    else rollback_decide ov ((k, e) :: r)
  end.

Definition continue_rollback (o : nat) (b : blockstore_impl_t) : res (blockstore_impl_t * Z) :=
  continue_versions mark_rolled_back o b.

Definition dequeue_rollback (o : nat) (b : blockstore_impl_t) : res (blockstore_impl_t * Z) :=
  let* op := get_op b o in
  if negb (op_state op =? 0) then continue_rollback o b
  else
    let* (b, r) := split_stab_op rollback_decider o b in
    if negb (r =? 1) then Ok (b, r) else write_versions JE_ROLLBACK sizeof_rollback o b.
