(* ===== verification/DirtyDb.v ===== *)
(** * The ordered map of unflushed versions

    [dirty_db] as a strictly ordered list: iterators split it, and [find], [at],
    [emplace] and [erase] are lookups and updates of a finite map. *)

From S2P Require Import Prelude.
From S2P Require Import Journal.
From S2P Require Import Blockstore.
From S2P Require Import BlockstoreOps.

(** ** The order of keys *)

Definition ov_lt (a b : obj_ver_id) : Prop := ov_ltb a b = true.

Lemma oid_eqb_eq a b : oid_eqb a b = true <-> a = b.
Proof. apply bool_decide_eq_true. Qed.
Lemma oid_eqb_refl a : oid_eqb a a = true.
Proof. by apply oid_eqb_eq. Qed.
Lemma oid_eqb_neq a b : oid_eqb a b = false <-> a <> b.
Proof. apply bool_decide_eq_false. Qed.

Definition oid_lt (a b : object_id) : Prop := inode a < inode b \/ (inode a = inode b /\ stripe a < stripe b).
Lemma oid_ltb_lt a b : oid_ltb a b = true <-> oid_lt a b.
Proof. unfold oid_ltb, oid_lt. rewrite orb_true_iff, andb_true_iff, !Z.ltb_lt, Z.eqb_eq. done. Qed.

Lemma ov_lt_iff a b : ov_lt a b <-> oid_lt (oid a) (oid b) \/ (oid a = oid b /\ version a < version b).
Proof. unfold ov_lt, ov_ltb. rewrite orb_true_iff, andb_true_iff, oid_ltb_lt, oid_eqb_eq, Z.ltb_lt. done. Qed.

Lemma ov_lt_irrefl a : ~ ov_lt a a.
Proof. rewrite ov_lt_iff. unfold oid_lt. lia. Qed.
Lemma ov_lt_trans a b c : ov_lt a b -> ov_lt b c -> ov_lt a c.
Proof.
  rewrite !ov_lt_iff. unfold oid_lt. destruct a as [[i1 s1] v1], b as [[i2 s2] v2], c as [[i3 s3] v3]. cbn.
  intros [? | [[= -> ->] ?]] [? | [[= -> ->] ?]]; try (left; lia). right. split; [done | lia].
Qed.
Lemma ov_lt_total a b : ov_lt a b \/ a = b \/ ov_lt b a.
Proof.
  rewrite !ov_lt_iff. unfold oid_lt. destruct a as [[i1 s1] v1], b as [[i2 s2] v2]. cbn.
  destruct (Z.lt_total i1 i2) as [| [-> |]]; [by left; left; left | | by right; right; left; left].
  destruct (Z.lt_total s1 s2) as [| [-> |]]; [left; left; right; lia | | right; right; left; right; lia].
  destruct (Z.lt_total v1 v2) as [| [-> |]]; [left; right; split; [done | lia] | by right; left | right; right; right; split; [done | lia]].
Qed.
Lemma ov_ltb_false a b : ov_ltb a b = false <-> ~ ov_lt a b.
Proof. unfold ov_lt. by rewrite not_true_iff_false. Qed.

(** ** Strictly ordered lists *)

Definition key_lt (x y : obj_ver_id * dirty_entry) : Prop := ov_lt (fst x) (fst y).
Definition db_ok (d : dirty_db_t) : Prop := StronglySorted key_lt d.

Lemma db_ok_app d1 d2 : db_ok (d1 ++ d2) <-> db_ok d1 /\ db_ok d2 /\ forall x y, x ∈ d1 -> y ∈ d2 -> key_lt x y.
Proof.
  unfold db_ok. induction d1 as [| x d1 IH]; cbn.
  { split; [intros H; split_and!; [constructor | done | intros ? ? []%elem_of_nil] | by intros (_ & H & _)]. }
  split.
  - intros [H1 H2]%StronglySorted_inv. apply IH in H1 as (Ha & Hb & Hc). rewrite Forall_forall in H2.
    split_and!; [constructor; [done |] | done |].
    + apply Forall_forall. intros y Hy. apply H2, elem_of_app. by left.
    + intros y z [-> | Hy]%elem_of_cons Hz; [apply H2, elem_of_app; by right | by apply Hc].
  - intros ([H1 H2]%StronglySorted_inv & Hb & Hc). rewrite Forall_forall in H2. constructor.
    + apply IH. split_and!; [done | done |]. intros y z Hy Hz. apply Hc; [by apply list_elem_of_further | done].
    + apply Forall_forall. intros y [Hy | Hy]%elem_of_app; [by apply H2 | apply Hc; [apply list_elem_of_here | done]].
Qed.
Lemma db_ok_cons x d : db_ok (x :: d) <-> db_ok d /\ forall y, y ∈ d -> key_lt x y.
Proof.
  change (x :: d) with ([x] ++ d). rewrite db_ok_app. split.
  - intros (_ & H & Hc). split; [done |]. intros y Hy. apply Hc; [by apply list_elem_of_singleton | done].
  - intros (H & Hc). split_and!; [apply SSorted_cons; [constructor | done] | done |]. intros y z ->%list_elem_of_singleton Hz. by apply Hc.
Qed.

Lemma db_unique d k e e' : db_ok d -> (k, e) ∈ d -> (k, e') ∈ d -> e = e'.
Proof.
  induction d as [| x d IH]; [by intros _ ?%elem_of_nil |]. rewrite db_ok_cons. intros [Hd Hx] [E1 | He]%elem_of_cons [E | He']%elem_of_cons.
  - congruence.
  - subst x. by destruct (ov_lt_irrefl k (Hx _ He')).
  - subst x. by destruct (ov_lt_irrefl k (Hx _ He)).
  - by apply IH.
Qed.

(** ** Iterators *)

Lemma db_lower_split acc d k r s :
  db_lower acc d k = (r, s) -> exists p, d = p ++ s /\ r = rev p ++ acc /\ Forall (fun x => ov_lt (fst x) k) p
    /\ (forall x s', s = x :: s' -> ~ ov_lt (fst x) k).
Proof.
  revert acc. induction d as [| x d IH]; intros acc; cbn [db_lower].
  { intros [= <- <-]. by exists []. }
  destruct (ov_ltb (fst x) k) eqn:E.
  - intros (p & -> & -> & Hp & Hs)%IH. exists (x :: p). cbn. rewrite <- app_assoc. split_and!; [done | done | by constructor | done].
  - intros [= <- <-]. exists []. split_and!; [done | done | done |]. intros y s' [= -> ->]. by apply ov_ltb_false.
Qed.

Lemma db_lower_app p s k acc :
  Forall (fun x => ov_lt (fst x) k) p -> (forall x s', s = x :: s' -> ~ ov_lt (fst x) k) -> db_lower acc (p ++ s) k = (rev p ++ acc, s).
Proof.
  revert acc. induction p as [| x p IH]; intros acc Hp Hs; cbn.
  - destruct s as [| x s]; [done |]. cbn. by rewrite (proj2 (ov_ltb_false _ _) (Hs x s eq_refl)).
  - apply Forall_cons in Hp as [Hx Hp]. rewrite Hx. rewrite IH by done. by rewrite <- app_assoc.
Qed.

Lemma db_find_app p k e s : db_ok (p ++ (k, e) :: s) -> db_find (p ++ (k, e) :: s) k = Some (rev p, e, s).
Proof.
  intros (H1 & H2 & H3)%db_ok_app. unfold db_find. rewrite db_lower_app.
  - rewrite app_nil_r. by rewrite bool_decide_eq_true_2.
  - apply Forall_forall. intros x Hx. apply (H3 x (k, e)); [done | apply list_elem_of_here].
  - intros x s' [= <- <-]. apply ov_lt_irrefl.
Qed.

Lemma db_find_some d k r e s : db_find d k = Some (r, e, s) -> d = rev r ++ (k, e) :: s.
Proof.
  unfold db_find. destruct (db_lower [] d k) as [r' s'] eqn:E. apply db_lower_split in E as (p & -> & -> & _ & _).
  destruct s' as [| [k' e'] s']; [done |]. case_bool_decide as Hk; [| done]. intros [= <- <- <-]. subst k'.
  by rewrite app_nil_r, rev_involutive.
Qed.

Lemma db_find_elem d k e : db_ok d -> (k, e) ∈ d -> exists r s, db_find d k = Some (r, e, s) /\ d = rev r ++ (k, e) :: s.
Proof.
  intros Hd (p & s & ->)%list_elem_of_split. exists (rev p), s. rewrite db_find_app by done. by rewrite rev_involutive.
Qed.

Lemma db_find_none d k : db_ok d -> db_find d k = None -> forall e, (k, e) ∉ d.
Proof. intros Hd Hn e He. destruct (db_find_elem d k e Hd He) as (r & s & Hs & _). congruence. Qed.

Lemma db_at_elem d k e : db_ok d -> db_at d k = Ok e <-> (k, e) ∈ d.
Proof.
  intros Hd. unfold db_at. split.
  - destruct (db_find d k) as [[[r e'] s] |] eqn:E; [| done]. intros [= ->]. rewrite (db_find_some _ _ _ _ _ E).
    apply elem_of_app. right. apply list_elem_of_here.
  - intros He. by destruct (db_find_elem d k e Hd He) as (r & s & -> & _).
Qed.

(** ** Updates *)

Lemma db_ok_replace p k e e' s : db_ok (p ++ (k, e) :: s) -> db_ok (p ++ (k, e') :: s).
Proof.
  rewrite !db_ok_app, !db_ok_cons. intros (H1 & (H2 & H3) & H4). split_and!; [done | done | done |].
  intros x y Hx [-> | Hy]%elem_of_cons; [apply (H4 x (k, e)); [done | apply list_elem_of_here] | apply H4; [done | by apply list_elem_of_further]].
Qed.

Lemma db_set_ok d k e0 e : db_ok d -> (k, e0) ∈ d ->
  db_ok (db_set d k e) /\ forall k' e', (k', e') ∈ db_set d k e <-> (k' = k /\ e' = e) \/ (k' <> k /\ (k', e') ∈ d).
Proof.
  intros Hd He. destruct (db_find_elem d k e0 Hd He) as (r & s & Hf & ->). unfold db_set. rewrite Hf, rev_append_rev.
  split; [by eapply db_ok_replace |]. intros k' e'. apply db_ok_app in Hd as (H1 & [H2 H2']%db_ok_cons & H3).
  rewrite !elem_of_app, !elem_of_cons. split.
  - intros [Hin | [[= -> ->] | Hin]]; [| by left |].
    + right. split; [| by left]. intros ->. apply (ov_lt_irrefl k). apply (H3 (k, e') (k, e0)); [done | apply list_elem_of_here].
    + right. split; [| by right; right]. intros ->. apply (ov_lt_irrefl k). by apply (H2' (k, e')).
  - intros [[-> ->] | [Hne [Hin | [[= -> ->] | Hin]]]]; [by right; left | by left | done | by right; right].
Qed.

Lemma db_set_keys d k e : fst <$> db_set d k e = fst <$> d.
Proof.
  unfold db_set. destruct (db_find d k) as [[[r e0] s] |] eqn:E; [| done].
  rewrite (db_find_some _ _ _ _ _ E), rev_append_rev, !fmap_app. done.
Qed.

Lemma db_emplace_ok d k e : db_ok d -> (forall e', (k, e') ∉ d) ->
  db_ok (db_emplace d k e) /\ forall k' e', (k', e') ∈ db_emplace d k e <-> (k' = k /\ e' = e) \/ (k', e') ∈ d.
Proof.
  intros Hd Hn. unfold db_emplace. destruct (db_find d k) as [[[r e0] s] |] eqn:E.
  { exfalso. apply (Hn e0). rewrite (db_find_some _ _ _ _ _ E). apply elem_of_app. right. apply list_elem_of_here. }
  destruct (db_lower [] d k) as [r s] eqn:El. apply db_lower_split in El as (p & -> & -> & Hp & Hs).
  rewrite app_nil_r, rev_append_rev, rev_involutive. rewrite Forall_forall in Hp. apply db_ok_app in Hd as (H1 & H2 & H3).
  assert (forall y, y ∈ s -> ov_lt k (fst y)) as Hky.
  { destruct s as [| x s]; [by intros y ?%elem_of_nil |]. specialize (Hs x s eq_refl). apply db_ok_cons in H2 as [H2 H2'].
    assert (ov_lt k (fst x)) as Hx.
    { destruct (ov_lt_total k (fst x)) as [| [-> |]]; [done | | done]. exfalso. apply (Hn (snd x)). destruct x. apply elem_of_app. right. apply list_elem_of_here. }
    intros y [-> | Hy]%elem_of_cons; [done |]. by eapply ov_lt_trans; [| apply H2']. }
  split.
  - rewrite db_ok_app, db_ok_cons. split_and!; [done | done | done |].
    intros x y Hx [-> | Hy]%elem_of_cons; [by apply Hp | by apply H3].
  - intros k' e'. rewrite !elem_of_app, elem_of_cons. naive_solver.
Qed.
