(* ===== verification/JournalRing.v ===== *)
(** * The invariant of the journal

    [ring_ok]: geometry, sector buffers and references of the journal.  Lemmas on the
    allocation of an entry and on the submission of a sector. *)

From S2P Require Import Prelude.
From S2P Require Import Journal.
From S2P Require Import JournalCheck.
From S2P Require Import Blockstore.
From S2P Require Import BlockstoreOps.

(** ** The invariant *)

(** A block of the used part of the ring. *)
Definition sector_ok (j : journal_t) (p : Z) : Prop :=
  (block_size j | p) /\ block_size j <= p /\ p + block_size j <= len j /\ in_used_part j p = true.

Record info_ok (j : journal_t) (s : Z) (si : journal_sector_info_t) : Prop := {
  i_flush : 0 <= flush_count si;
  i_id : 0 <= sector_submit_id si;
  i_submitted : sector_submit_id si <> 0 -> 0 < flush_count si;
  i_dirty : dirty si = true -> s = cur_sector j }.

Record ring_ok (j : journal_t) : Prop := {
  r_geo : geometry j;
  r_mem : zlen (mem j) = if inmemory j then len j else sector_count j * block_size j;
  r_info : forall s si, aget (sector_info j) s = Ok si -> info_ok j s si;
  r_open : forall si, aget (sector_info j) (cur_sector j) = Ok si ->
    in_sector_pos j < block_size j \/ dirty si = true -> sector_ok j (sector_offset si);
  r_used : forall k n, used_sectors j !! k = Some n -> sector_ok j k;
  r_id : 0 <= submit_id j }.

(** ** The used part grows with [next_free] *)

Lemma no_cross_grows j p nnf :
  no_cross j nnf = true -> in_used_part j p = true ->
  (used_start j <= next_free j \/ next_free j <= nnf) -> in_used_part (with_next_free nnf j) p = true.
Proof.
  unfold no_cross, in_used_part. destruct j; cbn in *. intros Hc Hp Hd.
  repeat match goal with
  | H : context [?x <=? ?y] |- _ => destruct (Z.leb_spec x y)
  | H : context [?x <? ?y] |- _ => destruct (Z.ltb_spec x y)
  | |- context [?x <=? ?y] => destruct (Z.leb_spec x y)
  | |- context [?x <? ?y] => destruct (Z.ltb_spec x y)
  end; cbn in *; try done; lia.
Qed.

Lemma no_cross_new j nnf :
  no_cross j nnf = true -> nnf <> next_free j -> (used_start j <= next_free j \/ next_free j <= nnf) ->
  in_used_part (with_next_free nnf j) (next_free j) = true.
Proof.
  unfold no_cross, in_used_part. destruct j; cbn in *. intros Hc Hne Hd.
  repeat match goal with
  | H : context [?x <=? ?y] |- _ => destruct (Z.leb_spec x y)
  | H : context [?x <? ?y] |- _ => destruct (Z.ltb_spec x y)
  | |- context [?x <=? ?y] => destruct (Z.leb_spec x y)
  | |- context [?x <? ?y] => destruct (Z.ltb_spec x y)
  end; cbn in *; try done; lia.
Qed.

(** ** Stores *)

(** Equal but for the bytes, the checksum of the last entry and references to the
    current sector. *)
Definition same_but_contents (j j' : journal_t) : Prop :=
  exists m crc u, j' = with_used_sectors u (with_crc32_last crc (with_mem m j)) /\ zlen m = zlen (mem j)
    /\ forall k n, u !! k = Some n -> is_Some (used_sectors j !! k)
       \/ exists si, aget (sector_info j) (cur_sector j) = Ok si /\ k = sector_offset si.

Lemma zlen_le_bytes n x : zlen (le_bytes n x) = Z.of_nat n.
Proof. revert x. induction n as [| n IH]; intros x; [done |]. cbn [le_bytes]. rewrite zlen_cons, IH. lia. Qed.

Lemma mem_store_ok j addr n x :
  0 <= addr -> addr + Z.of_nat n <= zlen (mem j) ->
  exists m, store j addr n x = Ok (with_mem m j) /\ zlen m = zlen (mem j).
Proof.
  intros Ha Hn. unfold store. rewrite poke_poked by (rewrite ?zlen_le_bytes; lia). cbn [rbind].
  eexists. split; [done |]. apply zlen_poked; rewrite ?zlen_le_bytes; lia.
Qed.

Lemma with_mem_mem m j : mem (with_mem m j) = m.
Proof. by destruct j. Qed.
Lemma with_mem_twice m m' j : with_mem m (with_mem m' j) = with_mem m j.
Proof. by destruct j. Qed.

(** ** Allocation of an entry *)

Lemma entry_fits_ok j size si :
  geometry j -> aget (sector_info j) (cur_sector j) = Ok si -> 0 < size ->
  entry_fits j size = Ok (negb (blocked j || (block_size j - in_sector_pos j <? size))).
Proof.
  intros G Hsi Hs. destruct (g_bs j G), (g_pos j G). unfold entry_fits, blocked. rewrite u64_small by lia. rewrite Hsi. cbn [rbind].
  destruct (Z.ltb_spec (block_size j - in_sector_pos j) size); [by rewrite orb_true_r |].
  rewrite orb_false_r. by destruct (no_same_sector_overwrites j).
Qed.

(** The journal after a move to the next sector, but for the contents. *)
Definition opened (j : journal_t) (cur : Z) (si : journal_sector_info_t) (ds : Z) (m : list Z) : journal_t :=
  mk_journal (inmemory j) (block_size j) (len j) (advance j (next_free j)) (used_start j) ds (crc32_last j) m
    (<[Z.to_nat cur := mk_sector (next_free j) (flush_count si) false (dirty si) (sector_submit_id si)]> (sector_info j))
    (sector_count j) (no_same_sector_overwrites j) cur 0 (submitting_sectors j) (flushing_ops j) (submit_id j) (used_sectors j).

Lemma sector_room (x y bs : Z) : 0 < bs -> x < y -> bs * x + bs <= y * bs.
Proof. nia. Qed.

Lemma move_ok j si (cur := if 0 <? flush_count si then (cur_sector j + 1) mod sector_count j else cur_sector j) :
  geometry j -> zlen (mem j) = (if inmemory j then len j else sector_count j * block_size j) ->
  aget (sector_info j) (cur_sector j) = Ok si -> dirty si = false ->
  no_cross j (advance j (next_free j)) = true ->
  forall si', aget (sector_info j) cur = Ok si' -> (0 < flush_count si -> flush_count si' = 0) ->
  exists ds m, move_to_next_sector j = Ok (opened j cur si' ds m) /\ zlen m = zlen (mem j).
Proof.
  intros G Hmem Hsi Hd Hc si' Hsi' Hf. destruct (g_bs j G) as [Hb1 Hb2], (g_nf j G) as [Hnf1 Hnf2].
  pose proof (aligned_next (block_size j) _ _ Hb1 Hnf1 (g_len j G)) as Hroom.
  assert (0 <= cur < sector_count j) as Hcur.
  { subst cur. destruct (0 <? _); [apply Z.mod_pos_bound; pose proof (g_sc j G); lia | apply (g_cur j G)]. }
  pose proof (g_info j G) as Hlen. unfold zlen in Hlen.
  assert (exists base, (if inmemory j then next_free j else block_size j * cur) = base /\ 0 <= base /\ base + block_size j <= zlen (mem j)) as (base & Hbase & Hb0 & Hbl).
  { rewrite Hmem. destruct (inmemory j); eexists; (split; [done |]); [lia |]. pose proof (sector_room cur (sector_count j) (block_size j) Hb1). nia. }
  set (m := poked (mem j) base (replicate (Z.to_nat (block_size j)) 0)).
  exists (if 0 <? flush_count si then dirty_start j else next_free j), m.
  assert (zlen (replicate (Z.to_nat (block_size j)) 0) = block_size j) as Hz by (rewrite zlen_replicate; lia).
  split; [| apply zlen_poked; lia].
  assert ((if next_free j + block_size j <? len j then next_free j + block_size j else block_size j) = advance j (next_free j)) as Hadv.
  { unfold advance. destruct (Z.ltb_spec (next_free j + block_size j) (len j)); destruct (Z.leb_spec (len j) (next_free j + block_size j)); (done || lia). }
  assert (exists j1, (if 0 <? flush_count si
      then let* si0 := aget (sector_info j) ((cur_sector j + 1) mod sector_count j) in
           assert! flush_count si0 =? 0 in Ok (with_cur_sector ((cur_sector j + 1) mod sector_count j) j)
      else Ok (with_dirty_start (next_free j) j)) = Ok j1
    /\ j1 = with_dirty_start (if 0 <? flush_count si then dirty_start j else next_free j) (with_cur_sector cur j)) as (j1 & E1 & Hj1).
  { subst cur. destruct (Z.ltb_spec 0 (flush_count si)).
    - rewrite Hsi'. cbn [rbind]. rewrite (Hf ltac:(done)). eexists. split; [done |]. by destruct j.
    - eexists. split; [done |]. by destruct j. }
  unfold move_to_next_sector. rewrite Hsi. cbn [rbind]. rewrite Hd. cbn [negb]. rewrite E1. cbn [rbind].
  assert (sector_info j1 = sector_info j /\ cur_sector j1 = cur) as [-> ->] by (subst j1; by destruct j).
  rewrite Hsi'. cbn [rbind]. rewrite aset_in_range by lia. cbn [rbind]. cbn zeta.
  subst j1. unfold sector_base. destruct j as [im bs ln nf us ds crc mm infos sc ns cs ip ss fo sid u]; cbn in *. rewrite Hadv. unfold no_cross in *. cbn in *. rewrite Hc. cbn [rbind].
  assert (exists si2, aget (<[Z.to_nat cur := mk_sector nf (flush_count si') false (dirty si') (sector_submit_id si')]> infos) cur = Ok si2
    /\ sector_offset si2 = nf) as (si2 & Hsi2 & Ho2).
  { eexists. rewrite aget_insert by lia. rewrite bool_decide_eq_true_2 by done. done. }
  assert ((if im then let* si0 := aget (<[Z.to_nat cur := mk_sector nf (flush_count si') false (dirty si') (sector_submit_id si')]> infos) cur in
     Ok (sector_offset si0) else Ok (bs * cur)) = Ok base) as ->.
  { rewrite <- Hbase. destruct im; [| done]. rewrite Hsi2. cbn [rbind]. by rewrite Ho2. }
  cbn [rbind]. rewrite poke_poked by lia. done.
Qed.

(** The buffer of the current sector is inside the memory. *)
Lemma base_ok j si :
  geometry j -> zlen (mem j) = (if inmemory j then len j else sector_count j * block_size j) ->
  aget (sector_info j) (cur_sector j) = Ok si -> (inmemory j = true -> 0 <= sector_offset si /\ sector_offset si + block_size j <= len j) ->
  exists base, sector_base j (cur_sector j) = Ok base /\ 0 <= base /\ base + block_size j <= zlen (mem j).
Proof.
  intros G Hmem Hsi Ho. unfold sector_base. rewrite Hsi, Hmem. cbn [rbind]. destruct (g_bs j G), (g_cur j G).
  destruct (inmemory j); eexists; (split; [done |]); [by apply Ho |].
  pose proof (sector_room (cur_sector j) (sector_count j) (block_size j) ltac:(done) ltac:(done)). nia.
Qed.

(** The journal after an entry of [size] bytes has been put into the current sector. *)
Definition filled (j : journal_t) (size : Z) (si : journal_sector_info_t) (m : list Z) : journal_t :=
  with_sector_info (<[Z.to_nat (cur_sector j) := mk_sector (sector_offset si) (flush_count si) (written si) true (sector_submit_id si)]> (sector_info j))
    (with_in_sector_pos (in_sector_pos j + size) (with_mem m j)).

Definition fill_entry (j : journal_t) (type size : Z) : res (journal_t * Z) :=
  let* base := sector_base j (cur_sector j) in
  let je := base + in_sector_pos j in
  let j := with_in_sector_pos (in_sector_pos j + size) j in
  let* j := store j (je + 4) 2 JOURNAL_MAGIC in
  let* j := store j (je + 6) 2 type in
  let* j := store j (je + 8) 4 size in
  let* j := store j (je + 12) 4 (crc32_last j) in
  let* si := aget (sector_info j) (cur_sector j) in
  let* infos := aset (sector_info j) (cur_sector j) (mk_sector (sector_offset si) (flush_count si) (written si) true (sector_submit_id si)) in
  Ok (with_sector_info infos j, je).

Lemma prefill_fill j type size :
  prefill_single_journal_entry j type size =
  (let* fits := entry_fits j size in let* j := if fits then Ok j else move_to_next_sector j in fill_entry j type size).
Proof. done. Qed.

Lemma fill_ok j type size si base :
  sector_base j (cur_sector j) = Ok base -> 0 <= base -> base + block_size j <= zlen (mem j) ->
  aget (sector_info j) (cur_sector j) = Ok si -> 0 <= in_sector_pos j -> 16 <= size -> in_sector_pos j + size <= block_size j ->
  exists m, fill_entry j type size = Ok (filled j size si m, base + in_sector_pos j) /\ zlen m = zlen (mem j).
Proof.
  intros Hb Hb0 Hbl Hsi Hi Hs Hfit. unfold fill_entry. rewrite Hb. cbn [rbind]. cbn zeta.
  set (je := base + in_sector_pos j). set (j1 := with_in_sector_pos _ j).
  assert (zlen (mem j1) = zlen (mem j)) as Hm1 by (subst j1; by destruct j).
  destruct (mem_store_ok j1 (je + 4) 2 JOURNAL_MAGIC) as (m2 & -> & Hm2); [lia | lia |]. cbn [rbind].
  destruct (mem_store_ok (with_mem m2 j1) (je + 6) 2 type) as (m3 & -> & Hm3); [lia | rewrite with_mem_mem; lia |]. cbn [rbind].
  rewrite with_mem_twice, with_mem_mem in *.
  destruct (mem_store_ok (with_mem m3 j1) (je + 8) 4 size) as (m4 & -> & Hm4); [lia | rewrite with_mem_mem; lia |]. cbn [rbind].
  rewrite with_mem_twice, with_mem_mem in *.
  destruct (mem_store_ok (with_mem m4 j1) (je + 12) 4 (crc32_last (with_mem m4 j1))) as (m5 & -> & Hm5); [lia | rewrite with_mem_mem; lia |]. cbn [rbind].
  rewrite with_mem_twice, with_mem_mem in *.
  assert (sector_info (with_mem m5 j1) = sector_info j /\ cur_sector (with_mem m5 j1) = cur_sector j) as [-> ->] by (subst j1; by destruct j).
  rewrite Hsi. cbn [rbind]. rewrite aset_in_range by (by apply aget_lt in Hsi). cbn [rbind].
  exists m5. split; [done | lia].
Qed.

(** ** Submission of a sector *)

(** What [prepare_journal_sector_write] changes. *)
Record prepared (b b' : blockstore_impl_t) (o : nat) (s : Z) (si : journal_sector_info_t) : Prop := {
  p_db : dirty_db b' = dirty_db b;
  p_cfg : cfg b' = cfg b;
  p_journal : exists ss fo id,
    let si' := mk_sector (sector_offset si) (if sector_submit_id si =? 0 then flush_count si + 1 else flush_count si)
      (if sector_submit_id si =? 0 then true else written si) false (if sector_submit_id si =? 0 then id else sector_submit_id si) in
    journal b' = with_sector_info (<[Z.to_nat s := si']> (sector_info (journal b)))
      (with_submitting_sectors ss (with_flushing_ops fo (with_submit_id id (journal b))))
    /\ submit_id (journal b) <= id <= submit_id (journal b) + 1 /\ (sector_submit_id si = 0 -> 0 < id);
  p_sqes : sqes_left b - 1 <= sqes_left b' <= sqes_left b;
  p_ring : exists l, ring b' = ring b ++ l /\ (sector_submit_id si = 0 -> exists id addr, l = [JournalSectorWrite id addr (sector_offset si)])
    /\ (sector_submit_id si <> 0 -> l = []);
  p_op : exists op op', ops b !! o = Some op /\ ops b' = <[o := op']> (ops b) /\ op_vers op' = op_vers op
    /\ sync_big_writes op' = sync_big_writes op /\ pending_ops op' = pending_ops op + 1
    /\ 0 < min_flushed_journal_sector op' <= sector_count (journal b) }.

Lemma prepare_ok b o s si op :
  aget (sector_info (journal b)) s = Ok si -> zlen (sector_info (journal b)) = sector_count (journal b) -> 0 < sqes_left b -> 0 <= submit_id (journal b) < 2 ^ 64 - 1 ->
  ops b !! o = Some op -> 0 <= min_flushed_journal_sector op <= sector_count (journal b) ->
  exists b', prepare_journal_sector_write s o b = Ok b' /\ prepared b b' o s si.
Proof.
  intros Hsi Hlen Hsq Hid Hop Hmin. pose proof (aget_lt _ _ _ Hsi) as Hs. unfold zlen in Hlen.
  assert (forall si', aget (<[Z.to_nat s := si']> (sector_info (journal b))) s = Ok si') as Hget
    by (intros; rewrite aget_insert by lia; by rewrite bool_decide_eq_true_2 by done).
  assert (forall si' x, aset (<[Z.to_nat s := si']> (sector_info (journal b))) s x = Ok (<[Z.to_nat s := x]> (sector_info (journal b)))) as Hset
    by (intros; rewrite aset_in_range by (rewrite length_insert; lia); by rewrite list_insert_insert_eq).
  assert (forall si' ss id, exists base, sector_base (with_submitting_sectors ss (with_submit_id id
      (with_sector_info (<[Z.to_nat s := si']> (sector_info (journal b))) (journal b)))) s = Ok base) as Hbase.
  { intros. unfold sector_base. cbn. destruct (inmemory _); [| by eexists]. rewrite Hget. by eexists. }
  unfold prepare_journal_sector_write, get_sqe, upd_op, get_op. rewrite Hsi. cbn [rbind].
  rewrite (proj2 (Z.ltb_lt 0 (sqes_left b))) by done. cbn zeta. rewrite u64_small by lia.
  destruct (Z.eqb_spec (sector_submit_id si) 0) as [E0 | E0].
  - rewrite (proj2 (Z.eqb_neq (submit_id (journal b) + 1) 0)) by lia. cbn [negb]. rewrite aset_in_range by lia. cbn [rbind].
    match goal with |- context [sector_base ?x s] => destruct (Hbase (mk_sector (sector_offset si) (flush_count si + 1) true (dirty si) (submit_id (journal b) + 1))
      (submitting_sectors (journal b) ++ [s]) (submit_id (journal b) + 1)) as [base ->] end.
    cbn. rewrite Hget. cbn. rewrite Hset. cbn. rewrite Hop. cbn.
    rewrite (proj2 (Z.leb_le _ _)) by (destruct (_ =? 0); lia). eexists. split; [done |].
    split; cbn; try done; try lia.
    + eexists _, _, (submit_id (journal b) + 1). cbn. rewrite E0. cbn. split_and!; [done | lia | lia | lia].
    + eexists. split_and!; [done | by eexists _, _ | done].
    + eexists _, _. split_and!; [done | done | done | done | done | |]; cbn; destruct (Z.eqb_spec (min_flushed_journal_sector op) 0); lia.
  - cbn. rewrite Hsi. cbn [rbind]. rewrite aset_in_range by lia. cbn. rewrite Hop. cbn.
    rewrite (proj2 (Z.leb_le _ _)) by (destruct (_ =? 0); lia). eexists. split; [done |].
    split; cbn; try done; try lia.
    + eexists _, _, (submit_id (journal b)). cbn. rewrite (proj2 (Z.eqb_neq _ 0) E0). split_and!; [done | lia | lia | lia].
    + exists []. rewrite app_nil_r. done.
    + eexists _, _. split_and!; [done | done | done | done | done | |]; cbn; destruct (Z.eqb_spec (min_flushed_journal_sector op) 0); lia.
Qed.
