(* ===== verification/JournalBatch.v ===== *)
(** * Batches of journal entries

    The loops of [dequeue_stable], [dequeue_rollback] and [continue_sync] over a batch
    of entries, after a successful space check: every assertion holds, and exactly
    the sectors the check counted are written, all of them outside of the used part
    of the ring but for the current one. *)

From S2P Require Import Prelude.
From S2P Require Import Journal.
From S2P Require Import JournalCheck.
From S2P Require Import Blockstore.
From S2P Require Import BlockstoreOps.
From S2P Require Import JournalRing.

(** ** Room in the ring *)

(** The last test of [check_available] after [K] moves. *)
Definition room (j : journal_t) (K : Z) : Prop :=
  (used_start j <= next_free j /\ next_free j + K * block_size j < len j) \/ posn j K < used_start j - block_size j.

(** The used part does not end so close to the end of the journal, with its start
    behind it, that a batch could reach the end. *)
Definition no_double_wrap (j : journal_t) : Prop :=
  used_start j <= next_free j \/ next_free j + sector_count j * block_size j <= len j.

Section Room.
Context (j : journal_t) (K : Z).
Hypothesis G : geometry j.
Hypothesis HK : 0 <= K < sector_count j.
Hypothesis HR : room j K.
Hypothesis HW : no_double_wrap j.

Lemma blocks_mono k : 0 <= k < K -> (k + 1) * block_size j <= K * block_size j /\ 0 <= k * block_size j.
Proof. intros Hk. destruct (g_bs j G). split; [apply Z.mul_le_mono_nonneg_r; lia | lia]. Qed.

(** Where the [k]-th block is. *)
Lemma room_cases k : 0 <= k < K ->
  used_start j <= posn j k /\ posn j (k + 1) = posn j k + block_size j
  \/ used_start j <= next_free j <= posn j k /\ posn j (k + 1) = block_size j /\ block_size j < used_start j - block_size j
  \/ posn j (k + 1) = posn j k + block_size j /\ posn j (k + 1) < used_start j - block_size j
     /\ (used_start j <= next_free j \/ next_free j <= posn j k).
Proof.
  intros Hk. pose proof (blocks_mono k Hk) as [H1 H2]. destruct (g_bs j G), (g_nf j G), (g_us j G).
  pose proof (blocks_left j k G ltac:(lia)). pose proof (blocks_left j K G HK).
  rewrite <- (posn_step j k G) by lia. unfold advance.
  pose proof (aligned_next (block_size j) _ _ ltac:(done) (posn_aligned j k G) (g_len j G) (proj2 (posn_range j k G ltac:(lia)))).
  assert ((K + 1) * block_size j <= sector_count j * block_size j) by (apply Z.mul_le_mono_nonneg_r; lia).
  unfold no_double_wrap in HW. unfold room in HR. unfold posn in *.
  destruct (Z.ltb_spec (next_free j + k * block_size j) (len j)); destruct (Z.ltb_spec (next_free j + K * block_size j) (len j));
    destruct (Z.leb_spec (len j) (next_free j + k * block_size j + block_size j));
    try destruct (Z.leb_spec (len j) (next_free j + k * block_size j - (len j - block_size j) + block_size j)); lia.
Qed.

Lemma room_no_cross k j' : 0 <= k < K -> next_free j' = posn j k -> used_start j' = used_start j ->
  no_cross j' (posn j (k + 1)) = true /\ (used_start j' <= next_free j' \/ next_free j' <= posn j (k + 1)) /\ posn j (k + 1) <> next_free j'.
Proof.
  intros Hk Hn Hu. unfold no_cross. rewrite Hn, Hu. destruct (g_bs j G).
  pose proof (posn_range j k G ltac:(lia)). pose proof (g_nf j G). pose proof (g_us j G).
  destruct (room_cases k Hk) as [[? ->] | [(? & -> & ?) | (-> & ? & ?)]]; (split; [| lia]).
  - rewrite !(proj2 (Z.leb_le _ _)) by lia. done.
  - rewrite (proj2 (Z.ltb_lt _ _)) by lia. apply orb_true_r.
  - rewrite (proj2 (Z.ltb_lt _ _)) by lia. apply orb_true_r.
Qed.

(** The blocks of the batch are not in use. *)
Lemma room_fresh k : 0 <= k < K -> in_used_part j (posn j k) = false.
Proof.
  intros Hk. pose proof (blocks_mono k Hk). destruct (g_bs j G), (g_nf j G), (g_us j G).
  pose proof (blocks_left j k G ltac:(lia)). pose proof (blocks_left j K G HK).
  unfold in_used_part. unfold room, no_double_wrap, posn in *.
  assert ((K + 1) * block_size j <= sector_count j * block_size j) by (apply Z.mul_le_mono_nonneg_r; lia).
  destruct (Z.ltb_spec (next_free j + k * block_size j) (len j)); destruct (Z.ltb_spec (next_free j + K * block_size j) (len j));
    destruct (Z.leb_spec (used_start j) (next_free j)); try lia;
    repeat match goal with |- context [?x <=? ?y] => destruct (Z.leb_spec x y) | |- context [?x <? ?y] => destruct (Z.ltb_spec x y) end; try done; lia.
Qed.
End Room.

(** ** Items of a batch *)

(** What the loop relies on: an item has a size, and putting it allocates an entry of
    that size and fills it in. *)
Record batch_items {A} (size : A -> blockstore_impl_t -> res Z) (put : A -> blockstore_impl_t -> res blockstore_impl_t)
    (sz : A -> Z) (ready : list A -> blockstore_impl_t -> Prop) : Prop := {
  bi_frame : forall l b b', ready l b -> dirty_db b' = dirty_db b -> cfg b' = cfg b -> ready l b';
  bi_size : forall x l b, ready (x :: l) b -> size x b = Ok (sz x);
  bi_put : forall x l b, ready (x :: l) b -> exists type, forall j je si,
    prefill_single_journal_entry (journal b) type (sz x) = Ok (j, je) -> 0 <= je -> je + sz x <= zlen (mem j) ->
    aget (sector_info j) (cur_sector j) = Ok si -> in_used_part j (sector_offset si) = true ->
    exists b', put x b = Ok b' /\ same_but_contents j (journal b') /\ ops b' = ops b /\ sqes_left b' = sqes_left b
      /\ ring b' = ring b /\ ready l b' }.

Section Batch.
Context {A : Type} (size : A -> blockstore_impl_t -> res Z) (put : A -> blockstore_impl_t -> res blockstore_impl_t).
Context (sz : A -> Z) (ready : list A -> blockstore_impl_t -> Prop).
Context (b0 : blockstore_impl_t) (o : nat) (op0 : op_t) (si0 : journal_sector_info_t) (K : Z).
Let j0 := journal b0.

Hypothesis items : batch_items size put sz ready.
Hypothesis ok0 : ring_ok j0.
Hypothesis HK : 0 <= K < sector_count j0.
Hypothesis HR : room j0 K.
Hypothesis HW : no_double_wrap j0.
Hypothesis Hfree : forall t, 0 < t <= K -> free_sector j0 t.
Hypothesis Hop0 : ops b0 !! o = Some op0.
Hypothesis Hmin0 : 0 <= min_flushed_journal_sector op0 <= sector_count j0.
Hypothesis Hid0 : submit_id j0 + sector_count j0 < 2 ^ 64 - 1.
Hypothesis Hsi0 : aget (sector_info j0) (cur_sector j0) = Ok si0.

(** A sector write goes to the current sector or outside of the used part. *)
Definition write_ok (io : io_t) : Prop :=
  match io with
  | JournalSectorWrite _ _ off => off = sector_offset si0 \/ in_used_part j0 off = false
  | _ => False
  end.

(** After [k] moves and [s] sector writes, at the [u]-th buffer. *)
Record common (b : blockstore_impl_t) (k u s : Z) : Prop := {
  c_bs : block_size (journal b) = block_size j0;
  c_len : len (journal b) = len j0;
  c_us : used_start (journal b) = used_start j0;
  c_sc : sector_count (journal b) = sector_count j0;
  c_ns : no_same_sector_overwrites (journal b) = no_same_sector_overwrites j0;
  c_im : inmemory (journal b) = inmemory j0;
  c_mem : zlen (mem (journal b)) = zlen (mem j0);
  c_k : 0 <= k <= K;
  c_u : u = k \/ (u = k - 1 /\ 0 < k);
  c_nf : next_free (journal b) = posn j0 k;
  c_pos : 0 <= in_sector_pos (journal b) <= block_size j0;
  c_cur : cur_sector (journal b) = sec j0 u;
  c_info : zlen (sector_info (journal b)) = sector_count j0;
  c_rest : forall t, u < t <= K -> aget (sector_info (journal b)) (sec j0 t) = aget (sector_info j0) (sec j0 t);
  c_all : forall i si, aget (sector_info (journal b)) i = Ok si -> info_ok (journal b) i si;
  c_off : exists si, aget (sector_info (journal b)) (cur_sector (journal b)) = Ok si
    /\ sector_offset si = (if k =? 0 then sector_offset si0 else posn j0 (k - 1));
  c_used : forall p n, used_sectors (journal b) !! p = Some n -> sector_ok (journal b) p;
  c_id : submit_id j0 <= submit_id (journal b) <= submit_id j0 + s;
  c_sqes : sqes_left b0 - s <= sqes_left b;
  c_op : exists op, ops b !! o = Some op /\ 0 <= min_flushed_journal_sector op <= sector_count j0
    /\ op_vers op = op_vers op0 /\ sync_big_writes op = sync_big_writes op0;
  c_ring : exists l, ring b = ring b0 ++ l /\ Forall write_ok l /\ zlen l <= s }.

Lemma common_0 : common b0 0 0 0.
Proof.
  pose proof (r_geo _ ok0) as G. constructor; try done; try lia.
  - by rewrite posn_0.
  - apply (g_pos _ G).
  - by rewrite sec_0.
  - apply (g_info _ G).
  - apply (r_info _ ok0).
  - by exists si0.
  - apply (r_used _ ok0).
  - fold j0. lia.
  - by exists op0.
  - exists []. by rewrite app_nil_r.
Qed.

Lemma common_geo b k u s : common b k u s -> geometry (journal b).
Proof.
  intros C. pose proof (r_geo _ ok0) as G. pose proof (c_k _ _ _ _ C).
  constructor; rewrite ?(c_bs _ _ _ _ C), ?(c_len _ _ _ _ C), ?(c_us _ _ _ _ C), ?(c_sc _ _ _ _ C), ?(c_nf _ _ _ _ C), ?(c_cur _ _ _ _ C), ?(c_info _ _ _ _ C);
    try apply G; try done.
  - split; [by apply posn_aligned | apply posn_range; [done | lia]].
  - by apply sec_range.
  - apply (c_pos _ _ _ _ C).
Qed.

(** ** Submission of the current sector *)

Lemma prepare_common b k u s l :
  common b k u s -> ready l b -> s < sector_count j0 -> s < sqes_left b0 ->
  exists b' si, prepare_journal_sector_write (cur_sector (journal b)) o b = Ok b' /\ common b' k u (s + 1) /\ ready l b'
    /\ aget (sector_info (journal b')) (cur_sector (journal b')) = Ok si /\ dirty si = false /\ 0 < flush_count si
    /\ in_sector_pos (journal b') = in_sector_pos (journal b)
    /\ (forall si1, aget (sector_info (journal b)) (cur_sector (journal b)) = Ok si1 ->
          (sector_ok (journal b) (sector_offset si1) -> sector_ok (journal b') (sector_offset si)) /\ (written si1 = true -> written si = true)).
Proof.
  intros C Hr Hs Hsq. destruct (c_off _ _ _ _ C) as (si & Hsi & Hoff). destruct (c_op _ _ _ _ C) as (op & Hop & Hmin & Hv & Hb).
  pose proof (c_id _ _ _ _ C) as Hid. pose proof (r_id _ ok0). pose proof (c_sqes _ _ _ _ C) as Hsql.
  destruct (prepare_ok b o (cur_sector (journal b)) si op) as (b' & Hp & P); try done.
  { by rewrite (c_info _ _ _ _ C), (c_sc _ _ _ _ C). }
  { lia. }
  { fold j0 in Hid0. lia. }
  { by rewrite (c_sc _ _ _ _ C). }
  destruct P as [Pdb Pcfg (ss & fo & id & Pj & Pid & Pid0) Psq (wl & Pring & Pw1 & Pw2) (op1 & op' & Pop1 & Pops & Pv & Pb & Ppend & Pmin)].
  cbn zeta in Pj. pose proof (aget_lt _ _ _ Hsi) as Hlt. rewrite Hop in Pop1. injection Pop1 as <-.
  set (si' := mk_sector _ _ _ _ _) in Pj. pose proof (c_all _ _ _ _ C _ _ Hsi) as [If Ii Is Id].
  assert (aget (<[Z.to_nat (cur_sector (journal b)) := si']> (sector_info (journal b))) (cur_sector (journal b)) = Ok si') as Hget'.
  { rewrite aget_insert by lia. by rewrite bool_decide_eq_true_2 by done. }
  assert (forall i, i <> cur_sector (journal b) ->
    aget (<[Z.to_nat (cur_sector (journal b)) := si']> (sector_info (journal b))) i = aget (sector_info (journal b)) i) as Hget.
  { intros i Hi. rewrite aget_insert by lia. by rewrite bool_decide_eq_false_2 by congruence. }
  assert (0 < flush_count si') as Hfl by (subst si'; cbn; destruct (Z.eqb_spec (sector_submit_id si) 0); [lia | by apply Is]).
  exists b', si'. split; [done |]. split; [| split_and!; [by eapply bi_frame | by rewrite Pj | done | done | by rewrite Pj |]].
  2: { intros si1 Hsi1. rewrite Hsi in Hsi1. injection Hsi1 as <-. rewrite Pj. split; [done |]. intros Hw. unfold si'. cbn. destruct (sector_submit_id si =? 0); [done | exact Hw]. }
  destruct C. constructor; try done; try (rewrite Pj; cbn; done).
  - rewrite Pj. cbn. unfold zlen in *. by rewrite length_insert.
  - intros t Ht. rewrite Pj. cbn. rewrite Hget; [by apply c_rest0 |]. rewrite c_cur0. apply not_eq_sym, sec_ne; [apply ok0 | lia].
  - intros i si1. rewrite Pj. cbn. destruct (decide (i = cur_sector (journal b))) as [-> | Hne].
    + rewrite Hget'. intros [= <-]. constructor; [lia | | done | done]. subst si'; cbn. destruct (Z.eqb_spec (sector_submit_id si) 0) as [E |]; [specialize (Pid0 E) |]; lia.
    + rewrite Hget by done. intros Hi. destruct (c_all0 _ _ Hi). constructor; try done.
  - exists si'. rewrite Pj. cbn. split; [done | exact Hoff].
  - rewrite Pj. cbn. lia.
  - lia.
  - exists op'. rewrite Pops, lookup_insert_eq. split_and!; [done | lia | lia | congruence | congruence].
  - destruct c_ring0 as (l1 & Hl1 & Hf1 & Hn1). exists (l1 ++ wl). rewrite Pring, Hl1, app_assoc. split; [done |].
    assert (Forall write_ok wl /\ zlen wl <= 1) as [Hw Hn].
    { destruct (decide (sector_submit_id si = 0)) as [E | E].
      - destruct (Pw1 E) as (i & ad & ->). split; [| done]. apply Forall_singleton. cbn. rewrite Hoff.
        destruct (Z.eqb_spec k 0); [by left | right]. apply (room_fresh j0 K); try done; [apply ok0 | lia].
      - rewrite (Pw2 E). done. }
    split; [by apply Forall_app | rewrite zlen_app; lia].
Qed.

(** ** An entry in the current sector *)

(** The current sector holds an entry that has not been submitted. *)
Record holds (b : blockstore_impl_t) (pos : Z) (wr : bool) : Prop := {
  h_pos : in_sector_pos (journal b) = pos;
  h_si : exists si, aget (sector_info (journal b)) (cur_sector (journal b)) = Ok si /\ dirty si = true /\ written si = wr
    /\ sector_ok (journal b) (sector_offset si) }.

Lemma contents_common b j1 b' k u s si n m :
  common (with_journal j1 b) k u s -> aget (sector_info j1) (cur_sector j1) = Ok si -> sector_ok j1 (sector_offset si) ->
  same_but_contents (filled j1 n si m) (journal b') -> zlen m = zlen (mem j1) -> 0 <= n -> in_sector_pos j1 + n <= block_size j0 ->
  ops b' = ops b -> sqes_left b' = sqes_left b -> ring b' = ring b ->
  common b' k u s /\ holds b' (in_sector_pos j1 + n) (written si).
Proof.
  intros C Hsi Hok (m' & crc & us' & Hj' & Hm' & Hus) Hm Hn Hfit Hops Hsq Hring. pose proof (aget_lt _ _ _ Hsi) as Hlt.
  assert (forall i, i <> cur_sector j1 -> forall x, aget (<[Z.to_nat (cur_sector j1) := x]> (sector_info j1)) i = aget (sector_info j1) i) as Hget.
  { intros i Hi x. rewrite aget_insert by lia. by rewrite bool_decide_eq_false_2 by congruence. }
  assert (forall x, aget (<[Z.to_nat (cur_sector j1) := x]> (sector_info j1)) (cur_sector j1) = Ok x) as Hget'.
  { intros x. rewrite aget_insert by lia. by rewrite bool_decide_eq_true_2 by done. }
  destruct C as [C1 C2 C3 C4 C5 C6 C7 C8 C9 C10 C11 C12 C13 C14 C15 (si1 & C16 & C16') C17 C18 C19 C20 C21]. cbn in *.
  rewrite Hsi in C16. injection C16 as <-. split.
  - constructor; rewrite ?Hj', ?Hops, ?Hsq, ?Hring; cbn; try done; try lia.
    + unfold zlen in *. by rewrite length_insert.
    + intros t Ht. rewrite Hget; [by apply C14 |]. rewrite C12. apply not_eq_sym, sec_ne; [apply ok0 | lia].
    + intros i si2. destruct (decide (i = cur_sector j1)) as [-> | Hne].
      * rewrite Hget'. intros [= <-]. destruct (C15 _ _ Hsi). by constructor.
      * rewrite Hget by done. intros Hi. destruct (C15 _ _ Hi). by constructor.
    + eexists. by rewrite Hget'.
    + intros p q Hp. destruct (Hus p q Hp) as [[q' Hq] | (si2 & Hsi2 & ->)]; [exact (C17 p q' Hq) |].
      cbn in Hsi2. rewrite Hget' in Hsi2. injection Hsi2 as <-. exact Hok.
  - constructor; rewrite Hj'; cbn; [done |]. eexists. rewrite Hget'. split_and!; [done | done | done | exact Hok].
Qed.

Lemma fill_common b k u s x l si :
  common b k u s -> ready (x :: l) b -> 40 <= sz x -> aget (sector_info (journal b)) (cur_sector (journal b)) = Ok si ->
  sector_ok (journal b) (sector_offset si) -> blocked (journal b) = false -> in_sector_pos (journal b) + sz x <= block_size j0 ->
  exists b', put x b = Ok b' /\ ready l b' /\ common b' k u s /\ holds b' (in_sector_pos (journal b) + sz x) (written si).
Proof.
  intros C Hr Hsz Hsi Hok Hb Hfit. pose proof (common_geo _ _ _ _ C) as G. destruct (g_pos _ G) as [Hp0 _].
  destruct Hok as (Ho1 & Ho2 & Ho3 & Ho4).
  destruct (base_ok (journal b) si G) as (base & Hbase & Hb0 & Hbl); [| done | destruct (g_bs _ G); lia |].
  { rewrite (c_mem _ _ _ _ C), (c_im _ _ _ _ C), (c_len _ _ _ _ C), (c_sc _ _ _ _ C), (c_bs _ _ _ _ C). apply ok0. }
  destruct (bi_put _ _ _ _ items x l b Hr) as [type Hput].
  destruct (fill_ok (journal b) type (sz x) si base) as (m & Hf & Hm); try done; [lia | by rewrite (c_bs _ _ _ _ C) |].
  assert (prefill_single_journal_entry (journal b) type (sz x) = Ok (filled (journal b) (sz x) si m, base + in_sector_pos (journal b))) as Hpre.
  { rewrite prefill_fill, (entry_fits_ok _ _ si G Hsi) by lia. rewrite Hb. cbn [orb].
    rewrite (proj2 (Z.ltb_ge _ _)) by (rewrite (c_bs _ _ _ _ C); lia). done. }
  destruct (Hput _ _ (mk_sector (sector_offset si) (flush_count si) (written si) true (sector_submit_id si)) Hpre) as (b' & Hb' & Hsame & Hops & Hsq & Hring & Hr').
  { lia. }
  { cbn. rewrite Hm. rewrite (c_bs _ _ _ _ C) in Hbl. lia. }
  { cbn. rewrite aget_insert by (by apply aget_lt in Hsi). by rewrite bool_decide_eq_true_2 by done. }
  { exact Ho4. }
  destruct (contents_common b (journal b) b' k u s si (sz x) m) as [C' H']; try done; [by destruct b | lia |].
  exists b'. done.
Qed.

(** ** An entry in the next sector *)

Lemma advance_posn b k u s : common b k u s -> k + 1 <= K -> advance (journal b) (next_free (journal b)) = posn j0 (k + 1).
Proof.
  intros C Hk. rewrite <- (posn_step j0 k) by (apply ok0 || (pose proof (c_k _ _ _ _ C); lia)).
  unfold advance. by rewrite (c_len _ _ _ _ C), (c_bs _ _ _ _ C), (c_nf _ _ _ _ C).
Qed.

(** The next buffer. *)
Lemma next_buffer b k u s si :
  common b k u s -> k + 1 <= K -> aget (sector_info (journal b)) (cur_sector (journal b)) = Ok si -> dirty si = false -> (u < k -> 0 < flush_count si) ->
  exists u' si', (if 0 <? flush_count si then (cur_sector (journal b) + 1) mod sector_count (journal b) else cur_sector (journal b)) = sec j0 u'
    /\ u <= u' /\ (u' = k + 1 \/ u' = k) /\ aget (sector_info (journal b)) (sec j0 u') = Ok si' /\ dirty si' = false
    /\ (0 < flush_count si -> flush_count si' = 0).
Proof.
  intros C Hk Hsi Hd Hu. pose proof (c_u _ _ _ _ C) as Hcu. pose proof (c_k _ _ _ _ C). pose proof (r_geo _ ok0) as G.
  rewrite (c_cur _ _ _ _ C), (c_sc _ _ _ _ C) in *.
  destruct (Z.ltb_spec 0 (flush_count si)) as [Hf | Hf].
  - rewrite (sec_step j0 u G). destruct (Hfree (u + 1) ltac:(lia)) as (si' & Hsi' & Hf1 & Hd1). exists (u + 1), si'.
    rewrite (c_rest _ _ _ _ C) by lia. split_and!; [done | lia | lia | done | done |].
    intros _. pose proof (i_flush _ _ _ (r_info _ ok0 _ _ Hsi')). lia.
  - exists u, si. split_and!; [done | lia | lia | done | done | lia].
Qed.

Lemma opened_common b k u s si u' si' ds m :
  common b k u s -> k + 1 <= K -> aget (sector_info (journal b)) (cur_sector (journal b)) = Ok si -> dirty si = false ->
  u <= u' -> (u' = k + 1 \/ u' = k) -> aget (sector_info (journal b)) (sec j0 u') = Ok si' -> dirty si' = false ->
  zlen m = zlen (mem (journal b)) ->
  common (with_journal (opened (journal b) (sec j0 u') si' ds m) b) (k + 1) u' s
  /\ sector_ok (opened (journal b) (sec j0 u') si' ds m) (next_free (journal b)).
Proof.
  intros C Hk Hsi Hd Hu Hu' Hsi' Hd' Hm. pose proof (advance_posn _ _ _ _ C Hk) as Hadv. pose proof (r_geo _ ok0) as G.
  pose proof (c_k _ _ _ _ C) as Hck.
  destruct (room_no_cross j0 K G HK HR HW k (journal b) ltac:(lia) (c_nf _ _ _ _ C) (c_us _ _ _ _ C)) as (Hx1 & Hx2 & Hx3).
  pose proof (aget_lt _ _ _ Hsi') as Hlt.
  assert (forall i, i <> sec j0 u' -> forall x, aget (<[Z.to_nat (sec j0 u') := x]> (sector_info (journal b))) i = aget (sector_info (journal b)) i) as Hget.
  { intros i Hi x. rewrite aget_insert by lia. by rewrite bool_decide_eq_false_2 by congruence. }
  assert (forall x, aget (<[Z.to_nat (sec j0 u') := x]> (sector_info (journal b))) (sec j0 u') = Ok x) as Hget'.
  { intros x. rewrite aget_insert by lia. by rewrite bool_decide_eq_true_2 by done. }
  assert (forall p, in_used_part (opened (journal b) (sec j0 u') si' ds m) p = in_used_part (with_next_free (posn j0 (k + 1)) (journal b)) p) as Hused
    by (intros p; unfold in_used_part; cbn; by rewrite Hadv).
  destruct C as [C1 C2 C3 C4 C5 C6 C7 C8 C9 C10 C11 C12 C13 C14 C15 C16 C17 C18 C19 C20 C21]. split.
  - constructor; cbn; try done; try lia.
    + unfold zlen in *. by rewrite length_insert.
    + intros t Ht. rewrite Hget; [apply C14; lia |]. apply not_eq_sym, sec_ne; [done | lia].
    + intros i si2. destruct (decide (i = sec j0 u')) as [-> | Hne].
      * rewrite Hget'. intros [= <-]. destruct (C15 _ _ Hsi'). constructor; cbn; [done | done | done |]. by rewrite Hd'.
      * rewrite Hget by done. intros Hi. destruct (C15 _ _ Hi) as [I1 I2 I3 I4]. constructor; try done. intros Hdi.
        specialize (I4 Hdi). subst i. rewrite Hsi in Hi. injection Hi as <-. congruence.
    + eexists. rewrite Hget'. split; [done |]. cbn. rewrite (proj2 (Z.eqb_neq (k + 1) 0)) by lia. by rewrite Z.add_simpl_r.
    + intros p n Hp. destruct (C17 p n Hp) as (P1 & P2 & P3 & P4). split_and!; [done | done | done |].
      rewrite Hused. by apply no_cross_grows.
  - split_and!; cbn; rewrite ?C1, ?C2, ?C10; [by apply posn_aligned | apply posn_range; [done | lia] | |].
    + apply aligned_next; [apply (g_bs _ G) | by apply posn_aligned | apply (g_len _ G) | apply posn_range; [done | lia]].
    + rewrite Hused, <- C10. by apply no_cross_new.
Qed.

Lemma move_common b k u s x l si :
  common b k u s -> ready (x :: l) b -> 40 <= sz x <= block_size j0 -> k + 1 <= K ->
  aget (sector_info (journal b)) (cur_sector (journal b)) = Ok si -> dirty si = false -> (u < k -> 0 < flush_count si) ->
  blocked (journal b) || (block_size j0 - in_sector_pos (journal b) <? sz x) = true ->
  exists b' u', put x b = Ok b' /\ ready l b' /\ common b' (k + 1) u' s /\ holds b' (sz x) false.
Proof.
  intros C Hr Hsz Hk Hsi Hd Hu Hnofit. pose proof (common_geo _ _ _ _ C) as G. pose proof (r_geo _ ok0) as G0.
  pose proof (c_k _ _ _ _ C) as Hck.
  destruct (next_buffer _ _ _ _ _ C Hk Hsi Hd Hu) as (u' & si' & Hcur & Hu1 & Hu2 & Hsi' & Hd' & Hf').
  destruct (room_no_cross j0 K G0 HK HR HW k (journal b) ltac:(lia) (c_nf _ _ _ _ C) (c_us _ _ _ _ C)) as (Hx1 & _ & _).
  assert (zlen (mem (journal b)) = (if inmemory (journal b) then len (journal b) else sector_count (journal b) * block_size (journal b))) as Hmem.
  { rewrite (c_mem _ _ _ _ C), (c_im _ _ _ _ C), (c_len _ _ _ _ C), (c_sc _ _ _ _ C), (c_bs _ _ _ _ C). apply ok0. }
  destruct (move_ok (journal b) si G Hmem Hsi Hd) with (si' := si') as (ds & m & Hmove & Hm).
  { by rewrite (advance_posn _ _ _ _ C Hk). }
  { by rewrite Hcur. }
  { done. }
  rewrite Hcur in Hmove. destruct (opened_common b k u s si u' si' ds m) as [C1 Hok]; try done.
  set (j1 := opened _ _ _ _ _) in *. set (si1 := mk_sector (next_free (journal b)) (flush_count si') false (dirty si') (sector_submit_id si')).
  pose proof (aget_lt _ _ _ Hsi') as Hlt.
  assert (aget (sector_info j1) (cur_sector j1) = Ok si1) as Hsi1 by (cbn; rewrite aget_insert by lia; by rewrite bool_decide_eq_true_2 by done).
  pose proof (common_geo _ _ _ _ C1) as G1. cbn in G1. fold j1 in G1. destruct Hok as (Ho1 & Ho2 & Ho3 & Ho4).
  destruct (base_ok j1 si1 G1) as (base & Hbase & Hb0 & Hbl); [cbn; lia | done | destruct (g_bs _ G1); cbn in *; lia |].
  destruct (bi_put _ _ _ _ items x l b Hr) as [type Hput].
  destruct (fill_ok j1 type (sz x) si1 base) as (m1 & Hf & Hm1); try done; [cbn; lia | cbn; rewrite (c_bs _ _ _ _ C); lia |].
  assert (prefill_single_journal_entry (journal b) type (sz x) = Ok (filled j1 (sz x) si1 m1, base + in_sector_pos j1)) as Hpre.
  { rewrite prefill_fill, (entry_fits_ok _ _ si G Hsi) by lia. rewrite (c_bs _ _ _ _ C), Hnofit. cbn [negb rbind]. by rewrite Hmove. }
  destruct (Hput _ _ (mk_sector (sector_offset si1) (flush_count si1) (written si1) true (sector_submit_id si1)) Hpre) as (b' & Hb' & Hsame & Hops & Hsq & Hring & Hr').
  { cbn. lia. }
  { cbn [filled with_sector_info with_in_sector_pos with_mem mem]. rewrite Hm1. assert (block_size j1 = block_size j0) as E by apply (c_bs _ _ _ _ C). cbn [j1 opened in_sector_pos]. lia. }
  { cbn [filled with_sector_info with_in_sector_pos with_mem sector_info cur_sector]. rewrite aget_insert by (by apply aget_lt in Hsi1). by rewrite bool_decide_eq_true_2 by done. }
  { exact Ho4. }
  destruct (contents_common b j1 b' (k + 1) u' s si1 (sz x) m1) as [C' H']; try done; [lia | cbn; lia |].
  exists b', u'. done.
Qed.

(** ** The loop *)

(** The state of the loop after some entries; [c0] is 1 when the first sector is
    written. *)
Record going (b : blockstore_impl_t) (k ip u s c0 : Z) : Prop := {
  go_common : common b k u s;
  go_holds : exists wr, holds b ip wr /\ no_same_sector_overwrites j0 && wr = false;
  go_free : (k =? 0) && blocked j0 = false;
  go_ip : 0 < ip <= block_size j0;
  go_s : s = if k =? 0 then 0 else k - 1 + c0;
  go_c0 : 0 <= c0 <= 1 /\ (k = 0 -> c0 = 1) }.

Lemma going_blocked b k ip u s c0 : going b k ip u s c0 -> blocked (journal b) = false.
Proof.
  intros [C (wr & [_ (si & Hsi & _ & Hw & _)] & Hb) _ _ _ _]. unfold blocked. rewrite Hsi, Hw, (c_ns _ _ _ _ C). exact Hb.
Qed.

(** The turn for one entry. *)
Definition batch_turn (x : A) (s : Z) (b : blockstore_impl_t) : res (blockstore_impl_t * Z) :=
  let* n := size x b in
  let* fits := entry_fits (journal b) n in
  let* si := aget (sector_info (journal b)) (cur_sector (journal b)) in
  let* (b, s) :=
    if negb fits && dirty si then
      let* b := prepare_journal_sector_write (cur_sector (journal b)) o b in Ok (b, s + 1)
    else Ok (b, s) in
  let* b := put x b in Ok (b, s).

Lemma write_batch_cons x l s b :
  write_batch size put o (x :: l) s b = (let* (b, s) := batch_turn x s b in write_batch size put o l s b).
Proof.
  cbn [write_batch]. unfold batch_turn. destruct (size x b) as [n |]; [| done]. cbn [rbind].
  destruct (entry_fits _ _) as [f |]; [| done]. cbn [rbind].
  destruct (aget (sector_info (journal b)) (cur_sector (journal b))) as [si |]; [| done]. cbn [rbind].
  destruct (negb f && dirty si); [destruct (prepare_journal_sector_write _ _ _) as [b1 |]; [| done] |]; cbn [rbind]; by destruct (put x _).
Qed.

Lemma going_turn b k ip u s c0 x l :
  going b k ip u s c0 -> ready (x :: l) b -> 40 <= sz x <= block_size j0 ->
  fst (pack1 j0 (k, ip) (sz x)) <= K -> K + c0 <= sqes_left b0 ->
  exists b' u' s', batch_turn x s b = Ok (b', s') /\ ready l b'
    /\ going b' (fst (pack1 j0 (k, ip) (sz x))) (snd (pack1 j0 (k, ip) (sz x))) u' s' c0.
Proof.
  intros HG Hr Hsz HpK Hsq. pose proof (going_blocked _ _ _ _ _ _ HG) as Hbl. destruct HG as [C (wr & Hh & Hwr) Hfr Hip Hs Hc0].
  destruct Hh as [Hpos (si & Hsi & Hdirty & Hw & Hok)]. pose proof (common_geo _ _ _ _ C) as G. pose proof (c_k _ _ _ _ C) as Hk.
  unfold batch_turn. rewrite (bi_size _ _ _ _ items _ _ _ Hr). cbn [rbind]. rewrite (entry_fits_ok _ _ si G Hsi) by lia. cbn [rbind].
  rewrite Hsi. cbn [rbind]. rewrite Hdirty, andb_true_r, negb_involutive, Hbl, (c_bs _ _ _ _ C), Hpos.
  unfold pack1 in *. cbn [fst snd] in *. rewrite Hfr in *. cbn [orb] in *. destruct (Z.ltb_spec (block_size j0 - ip) (sz x)) as [Hno | Hfit]; cbn [fst snd] in *.
  - destruct (prepare_common b k u s (x :: l) C Hr) as (b1 & si1 & Hp & C1 & Hr1 & Hsi1 & Hd1 & Hf1 & Hpos1 & _); [destruct (k =? 0); lia | destruct (k =? 0); lia |].
    rewrite Hp. cbn [rbind]. destruct (move_common b1 k u (s + 1) x l si1) as (b' & u' & Hput & Hr' & C' & H'); try done.
    { apply orb_true_iff. right. apply Z.ltb_lt. by rewrite Hpos1, Hpos. }
    rewrite Hput. cbn [rbind]. exists b', u', (s + 1). split_and!; [done | done |]. constructor; try done.
    + exists false. by rewrite andb_false_r.
    + by rewrite (proj2 (Z.eqb_neq (k + 1) 0)) by lia.
    + lia.
    + rewrite (proj2 (Z.eqb_neq (k + 1) 0)) by lia. destruct (Z.eqb_spec k 0) as [-> |]; lia.
    + lia.
  - destruct (fill_common b k u s x l si) as (b' & Hput & Hr' & C' & H'); try done; [lia | lia |].
    cbn [rbind]. rewrite Hput. cbn [rbind]. exists b', u, s. split_and!; [done | done |]. rewrite Hpos in H'. constructor; try done; [| lia].
    exists (written si). split; [done |]. by rewrite Hw.
Qed.

(** The state at the end: everything has been submitted. *)
Record batch_done (b : blockstore_impl_t) (n : Z) : Prop := {
  bd_ring_ok : ring_ok (journal b);
  bd_clean : exists si, aget (sector_info (journal b)) (cur_sector (journal b)) = Ok si /\ dirty si = false /\ 0 < flush_count si;
  bd_start : used_start (journal b) = used_start j0;
  bd_next : next_free (journal b) = posn j0 K;
  bd_writes : exists l, ring b = ring b0 ++ l /\ Forall write_ok l /\ zlen l <= n;
  bd_sqes : sqes_left b0 - n <= sqes_left b;
  bd_op : exists op, ops b !! o = Some op /\ 0 <= min_flushed_journal_sector op <= sector_count j0
    /\ op_vers op = op_vers op0 /\ sync_big_writes op = sync_big_writes op0 }.

Lemma batch_end b k ip u s c0 l :
  going b K ip u s c0 -> k = K -> ready l b -> K + c0 <= sqes_left b0 ->
  exists b', write_batch size put o [] s b = Ok (b', K + c0) /\ batch_done b' (K + c0) /\ ready l b'.
Proof.
  intros [C (wr & Hh & Hwr) Hfr Hip Hs Hc0] -> Hr Hsq. destruct Hh as [Hpos (si & Hsi & Hdirty & Hw & Hok)].
  pose proof (c_k _ _ _ _ C) as Hk. assert (s + 1 = K + c0) as Hs1 by (destruct (Z.eqb_spec K 0); lia).
  destruct (prepare_common b K u s l C Hr ltac:(lia) ltac:(lia)) as (b1 & si1 & Hp & C1 & Hr1 & Hsi1 & Hd1 & Hf1 & Hpos1 & Hok1).
  cbn [write_batch]. rewrite Hp. cbn [rbind]. rewrite Hs1 in *. exists b1. split_and!; [done | | done].
  pose proof (common_geo _ _ _ _ C1) as G1. destruct C1. constructor; try done; try (by eexists).
  constructor; try done.
  - rewrite c_mem0, c_im0, c_len0, c_sc0, c_bs0. apply ok0.
  - intros si2 Hsi2 _. rewrite Hsi1 in Hsi2. injection Hsi2 as <-. by apply (Hok1 si).
  - pose proof (r_id _ ok0). lia.
Qed.

Lemma batch_rest l b k ip u s c0 :
  going b k ip u s c0 -> ready l b -> Forall (fun x => 40 <= sz x <= block_size j0) l ->
  fst (pack_all j0 (k, ip) (map sz l)) = K -> K + c0 <= sqes_left b0 ->
  exists b', write_batch size put o l s b = Ok (b', K + c0) /\ batch_done b' (K + c0) /\ ready [] b'.
Proof.
  revert b k ip u s. induction l as [| x l IH]; intros b k ip u s HG Hr Hl HK1 Hsq.
  { cbn in HK1. subst k. by eapply batch_end. }
  apply Forall_cons in Hl as [Hx Hl]. rewrite write_batch_cons.
  cbn [map pack_all fold_left] in HK1. pose proof (pack_all_mono j0 (pack1 j0 (k, ip) (sz x)) (map sz l)) as Hmono. unfold pack_all in Hmono.
  destruct (going_turn b k ip u s c0 x l HG Hr Hx ltac:(lia) Hsq) as (b1 & u1 & s1 & -> & Hr1 & HG1). cbn [rbind].
  apply (IH b1 _ _ u1 s1 HG1 Hr1 Hl); [| done]. unfold pack_all. by destruct (pack1 j0 (k, ip) (sz x)).
Qed.

Lemma batch_ok x l :
  ready (x :: l) b0 -> Forall (fun x => 40 <= sz x <= block_size j0) (x :: l) ->
  fst (pack_all j0 (0, in_sector_pos j0) (map sz (x :: l))) = K ->
  K + Z.b2z (first_counted j0 (sz x)) <= sqes_left b0 ->
  exists b', write_batch size put o (x :: l) 0 b0 = Ok (b', K + Z.b2z (first_counted j0 (sz x)))
    /\ batch_done b' (K + Z.b2z (first_counted j0 (sz x))) /\ ready [] b'.
Proof.
  intros Hr Hl HK1 Hsq. apply Forall_cons in Hl as [Hx Hl]. pose proof common_0 as C. pose proof (r_geo _ ok0) as G.
  destruct (g_pos _ G) as [Hp0 Hp1]. cbn [map pack_all fold_left] in HK1.
  pose proof (pack_all_mono j0 (pack1 j0 (0, in_sector_pos j0) (sz x)) (map sz l)) as Hmono. unfold pack_all in Hmono.
  set (c0 := Z.b2z (first_counted j0 (sz x))) in *. assert (0 <= c0 <= 1) by (subst c0; destruct (first_counted _ _); cbn; lia).
  assert (exists b1 u1 s1, batch_turn x 0 b0 = Ok (b1, s1) /\ ready l b1
    /\ going b1 (fst (pack1 j0 (0, in_sector_pos j0) (sz x))) (snd (pack1 j0 (0, in_sector_pos j0) (sz x))) u1 s1 c0)
    as (b1 & u1 & s1 & Ht & Hr1 & HG1).
  2: { rewrite write_batch_cons, Ht. cbn [rbind]. apply (batch_rest l b1 _ _ u1 s1 c0 HG1 Hr1 Hl); [| done]. unfold pack_all. by destruct (pack1 _ _ _). }
  unfold batch_turn. rewrite (bi_size _ _ _ _ items _ _ _ Hr). cbn [rbind]. fold j0. rewrite (entry_fits_ok _ _ si0 G Hsi0) by lia. cbn [rbind].
  rewrite Hsi0. cbn [rbind]. rewrite negb_involutive. unfold pack1 in *. cbn [fst snd] in *. cbn [Z.eqb andb] in *.
  destruct (blocked j0 || _) eqn:Efit; cbn [fst snd andb] in *.
  - assert (c0 = Z.b2z (dirty si0)) as Hc0.
    { subst c0. unfold first_counted. rewrite Hsi0. apply orb_true_iff in Efit as [-> | Hlt%Z.ltb_lt]; [done |].
      rewrite (proj2 (Z.leb_gt (sz x) _)) by lia. by rewrite andb_false_r. }
    assert (exists b1 si1 s1, (if dirty si0 then let* b := prepare_journal_sector_write (cur_sector j0) o b0 in Ok (b, 0 + 1) else Ok (b0, 0)) = Ok (b1, s1)
      /\ common b1 0 0 s1 /\ ready (x :: l) b1 /\ aget (sector_info (journal b1)) (cur_sector (journal b1)) = Ok si1 /\ dirty si1 = false
      /\ in_sector_pos (journal b1) = in_sector_pos j0 /\ s1 = c0 /\ (written si0 = true -> written si1 = true)) as (b1 & si1 & s1 & -> & C1 & Hr1 & Hsi1 & Hd1 & Hpos1 & Hs1 & Hw1).
    { destruct (dirty si0) eqn:Ed; cbn [Z.b2z] in Hc0.
      - destruct (prepare_common b0 0 0 0 (x :: l) C Hr ltac:(lia) ltac:(lia)) as (b1 & si1 & Hp & C1 & Hr1 & Hsi1 & Hd1 & Hf1 & Hpos1 & Hok1).
        fold j0 in Hp. rewrite Hp. cbn [rbind]. exists b1, si1, (0 + 1). split_and!; try done. apply (Hok1 si0 Hsi0).
      - exists b0, si0, 0. done. }
    cbn [rbind]. destruct (move_common b1 0 0 s1 x l si1) as (b' & u' & Hput & Hr' & C' & H'); try done.
    { lia. }
    { apply orb_true_iff. apply orb_true_iff in Efit as [E | E]; [left | right; by rewrite Hpos1].
      unfold blocked in *. rewrite Hsi0 in E. rewrite Hsi1, (c_ns _ _ _ _ C1). apply andb_true_iff in E as [-> E]. by rewrite (Hw1 E). }
    rewrite Hput. cbn [rbind]. exists b', u', s1. split_and!; [done | done |]. constructor; try done; try lia.
    + exists false. by rewrite andb_false_r.
  - apply orb_false_iff in Efit as [Eb Efit%Z.ltb_ge].
    destruct (fill_common b0 0 0 0 x l si0) as (b' & Hput & Hr' & C' & H'); try done; try lia.
    { apply (r_open _ ok0 si0 Hsi0). left. lia. }
    { fold j0. lia. }
    cbn [rbind]. rewrite Hput. cbn [rbind]. exists b', 0, 0. split_and!; [done | done |]. constructor; try done; try lia.
    + exists (written si0). split; [done |]. unfold blocked in Eb. by rewrite Hsi0 in Eb.
    + split; [done |]. intros _. subst c0. unfold first_counted. rewrite Eb, (proj2 (Z.leb_le (sz x) _)) by lia. done.
Qed.
End Batch.
