(* ===== verification/JournalItems.v ===== *)
(** * The entries that are written in batches

    Stabilizations, rollbacks and big writes are items in the sense of
    [batch_items]; what a successful space check says about a batch of them. *)

From S2P Require Import Prelude.
From S2P Require Import Journal.
From S2P Require Import JournalCheck.
From S2P Require Import Blockstore.
From S2P Require Import BlockstoreOps.
From S2P Require Import DirtyDb.
From S2P Require Import JournalRing.
From S2P Require Import JournalBatch.

(** ** Filling in entries *)

Lemma store_ov_ok j je ov : 0 <= je -> je + 40 <= zlen (mem j) -> exists m, store_ov j je ov = Ok (with_mem m j) /\ zlen m = zlen (mem j).
Proof.
  intros H0 H1. unfold store_ov.
  destruct (mem_store_ok j (je + 16) 8 (inode (oid ov))) as (m1 & -> & Hm1); [lia | lia |]. cbn [rbind].
  destruct (mem_store_ok (with_mem m1 j) (je + 24) 8 (stripe (oid ov))) as (m2 & -> & Hm2); [lia | cbn; lia |]. cbn [rbind].
  destruct (mem_store_ok (with_mem m2 (with_mem m1 j)) (je + 32) 8 (version ov)) as (m3 & -> & Hm3); [lia | cbn in *; lia |].
  exists m3. cbn in *. split; [done | lia].
Qed.

Lemma store_big_ok j je v off n loc dyn : 0 <= je -> je + 56 + zlen dyn <= zlen (mem j) ->
  exists m, store_big j je v off n loc dyn = Ok (with_mem m j) /\ zlen m = zlen (mem j).
Proof.
  intros H0 H1. pose proof (zlen_nonneg dyn). unfold store_big.
  destruct (store_ov_ok j je v) as (m1 & -> & Hm1); [lia | lia |]. cbn [rbind].
  destruct (mem_store_ok (with_mem m1 j) (je + 40) 4 off) as (m2 & -> & Hm2); [lia | cbn; lia |]. cbn [rbind].
  destruct (mem_store_ok (with_mem m2 (with_mem m1 j)) (je + 44) 4 n) as (m3 & -> & Hm3); [lia | cbn in *; lia |]. cbn [rbind].
  destruct (mem_store_ok (with_mem m3 (with_mem m2 (with_mem m1 j))) (je + 48) 8 loc) as (m4 & -> & Hm4); [lia | cbn in *; lia |]. cbn [rbind].
  cbn in *. rewrite poke_poked by lia. cbn [rbind]. eexists. split; [done |]. rewrite zlen_poked; lia.
Qed.

Lemma seal_ok j je n : 0 <= je -> 4 <= n -> je + n <= zlen (mem j) ->
  exists m crc, seal_entry j je n = Ok (with_crc32_last crc (with_mem m j)) /\ zlen m = zlen (mem j).
Proof.
  intros H0 H1 H2. unfold seal_entry. rewrite load_slice by lia. cbn [rbind]. cbn zeta.
  destruct (mem_store_ok j je 4 (Crc32c.crc_ref 0x48674bc7 (slice (mem j) (je + 4) (n - 4)))) as (m & -> & Hm); [lia | lia |].
  cbn [rbind]. by eexists m, _.
Qed.

(** ** Stabilizations and rollbacks *)

Definition any_time {A} (l : list A) (b : blockstore_impl_t) : Prop := True.

Lemma ov_items type n : 40 <= n -> batch_items (fun _ _ => Ok n) (put_ov type n) (fun _ => n) any_time.
Proof.
  intros Hn. constructor; [done | done |]. intros ov l b _. exists type. intros j je si Hpre H0 H1 Hsi Hu.
  unfold put_ov. rewrite Hpre. cbn [rbind].
  destruct (store_ov_ok j je ov) as (m1 & -> & Hm1); [lia | lia |]. cbn [rbind].
  destruct (seal_ok (with_mem m1 j) je n) as (m2 & crc & -> & Hm2); [lia | lia | cbn; lia |]. cbn [rbind].
  eexists. split_and!; [done | | done | done | done | done]. exists m2, crc, (used_sectors j). cbn in *. split_and!; [done | lia |].
  intros k q Hk. left. by exists q.
Qed.

(** ** Big writes *)

(** The versions are in the database with their dynamic data. *)
Definition big_ready (sz : obj_ver_id -> Z) (l : list obj_ver_id) (b : blockstore_impl_t) : Prop :=
  db_ok (dirty_db b) /\ forall v, v ∈ l -> exists e, (v, e) ∈ dirty_db b
    /\ sz v = sizeof_big_write + dirty_dyn_size (cfg b) (offset e) (entry_len e)
    /\ 0 <= dirty_dyn_size (cfg b) (offset e) (entry_len e) <= zlen (dyn_data e).

Lemma big_items sz : batch_items big_entry_size put_big sz (big_ready sz).
Proof.
  constructor.
  - intros l b b' [Hd Hl] Hdb Hcfg. unfold big_ready. by rewrite Hdb, Hcfg.
  - intros v l b [Hd Hl]. destruct (Hl v (list_elem_of_here _ _)) as (e & He & Hs & _). unfold big_entry_size.
    rewrite (proj2 (db_at_elem _ _ _ Hd) He). cbn [rbind]. by rewrite Hs.
  - intros v l b [Hd Hl]. destruct (Hl v (list_elem_of_here _ _)) as (e & He & Hs & Hdyn).
    exists (if is_instant_bit (state e) then JE_BIG_WRITE_INSTANT else JE_BIG_WRITE). intros j je si Hpre H0 H1 Hsi Hu.
    unfold put_big. rewrite (proj2 (db_at_elem _ _ _ Hd) He). cbn [rbind]. cbn zeta. rewrite <- Hs, Hpre. cbn [rbind]. rewrite Hsi. cbn [rbind].
    rewrite Hu. set (dyn := dirty_dyn_size _ _ _) in *. rewrite load_slice by lia. cbn [rbind].
    assert (zlen (slice (dyn_data e) 0 dyn) = dyn) as Hz by (apply zlen_slice; lia). unfold sizeof_big_write in Hs.
    destruct (store_big_ok (use_sector (sector_offset si) j) je v (offset e) (entry_len e) (location e) (slice (dyn_data e) 0 dyn)) as (m1 & -> & Hm1); [lia | cbn; lia |].
    cbn [rbind]. destruct (seal_ok (with_mem m1 (use_sector (sector_offset si) j)) je (sz v)) as (m2 & crc & -> & Hm2); [lia | lia | cbn in *; lia |].
    cbn [rbind]. eexists. split_and!; [done | | done | done | done |].
    + exists m2, crc, (used_sectors (use_sector (sector_offset si) j)). split_and!; [done | cbn in *; lia |].
      intros k q Hk. unfold use_sector in Hk. cbn [used_sectors with_used_sectors] in Hk. destruct (decide (k = sector_offset si)) as [-> | Hne].
      * right. by exists si.
      * rewrite lookup_insert_ne in Hk by done. left. by exists q.
    + destruct (db_set_ok (dirty_db b) v e (with_journal_sector (sector_offset si) e) Hd He) as [Hd' Hel]. split; [done |]. cbn.
      intros v' Hv'. destruct (Hl v' (list_elem_of_further _ _ _ Hv')) as (e' & He' & Hs' & Hdyn').
      destruct (decide (v' = v)) as [-> | Hne].
      * exists (with_journal_sector (sector_offset si) e). split; [apply Hel; by left |].
        rewrite (db_unique _ _ _ _ Hd He' He) in Hs', Hdyn'. done.
      * exists e'. split; [apply Hel; by right | done].
Qed.

(** ** The check *)

(** What a successful check of a batch of entries of the sizes [l] says. *)
Record checked (j : journal_t) (l : list Z) (c : blockstore_journal_check_t) (K : Z) : Prop := {
  ck_moves : K = fst (pack_all j (0, in_sector_pos j) l);
  ck_bound : 0 <= K < sector_count j;
  ck_room : room j K;
  ck_free : forall t, 0 < t <= K -> free_sector j t;
  ck_count : forall x l', l = x :: l' -> sectors_to_write c = K + Z.b2z (first_counted j x) }.

Lemma stands_0 j : geometry j -> stands j (journal_check j) 0 (in_sector_pos j).
Proof.
  intros G. constructor; cbn; [by rewrite posn_0 | by rewrite sec_0 | done |]. rewrite Z.mul_0_l, Z.add_0_r.
  destruct (g_nf j G). by rewrite (proj2 (Z.ltb_lt (next_free j) _)), andb_true_r by lia.
Qed.

Lemma counts_0 j n : geometry j -> counts j (journal_check j) 0 (in_sector_pos j) (sec j 0) (Z.b2z (first_counted j n)) n.
Proof. intros G. left. cbn. split_and!; [by right | done | done | done]. Qed.

(** The last test of the check. *)
Lemma room_of_check j c K ip d :
  geometry j -> stands j c K ip -> 0 <= K < sector_count j -> d <= 0 ->
  negb (right_dir c) && (u64 (used_start j - block_size j) <=? next_pos c) = false -> room j K.
Proof.
  intros G [S1 S2 S3 S4] HK Hd Ht. destruct (g_us j G), (g_bs j G). pose proof (g_len_max j G). rewrite u64_small in Ht by lia.
  rewrite S1, S4 in Ht. unfold room.
  destruct (Z.leb_spec (used_start j) (next_free j)); destruct (Z.ltb_spec (next_free j + K * block_size j) (len j)); cbn in Ht;
    try (left; lia); right; apply Z.leb_gt in Ht; lia.
Qed.

Lemma check_batch j n size c :
  geometry j -> 0 < size <= block_size j -> 0 < n -> check_available j (journal_check j) n size 0 = Ok (c, 0) ->
  sectors_to_write c <= sector_count j - 2 -> exists K, checked j (replicate (Z.to_nat n) size) c K.
Proof.
  intros G Hs Hn. unfold check_available. change (next_sector (journal_check j)) with (cur_sector j). rewrite <- (sec_0 j G).
  destruct (check_loop _ j size (sec j 0) n (journal_check j)) as [[c1 w] |] eqn:El; [| done]. cbn [rbind].
  destruct (Z.eqb_spec w 0) as [-> | Hw]; cbn [negb]; [| intros [= <- ->]; done].
  cbn [Z.ltb Z.compare]. destruct (_ && _) eqn:Et; [done |]. intros [= <-] Hle.
  assert (0 <= Z.b2z (first_counted j size)) as Hb by (destruct (first_counted _ _); cbn; lia). pose proof (g_sc j G).
  destruct (check_loop_counts (check_fuel j) j size 0 n (journal_check j) c1 0 (in_sector_pos j) (Z.b2z (first_counted j size)) G Hs Hn
    (stands_0 j G) ltac:(lia) ltac:(lia) (g_pos j G) Hb (counts_0 j size G) El Hle) as (S & Hc & HK & Hfree).
  cbn zeta in *. eexists. constructor; [done | | | done |].
  - split; [apply (pack_all_mono j (0, in_sector_pos j)) | done].
  - eapply room_of_check; [done | done | | reflexivity | done]. split; [apply (pack_all_mono j (0, in_sector_pos j)) | done].
  - intros x l' E. destruct (Z.to_nat n) eqn:En; [lia |]. cbn [replicate] in E. injection E as <- _. done.
Qed.

Lemma check_available_mono j c n size d c' w : check_available j c n size d = Ok (c', w) -> sectors_to_write c <= sectors_to_write c'.
Proof.
  unfold check_available. destruct (check_loop _ _ _ _ _ _) as [[c1 w1] |] eqn:E; [| done]. apply check_loop_mono in E. cbn [rbind].
  destruct (negb (w1 =? 0)); [intros [= <- <-]; done |]. cbn zeta. set (c2 := if 0 <? d then _ else _).
  assert (sectors_to_write c2 = sectors_to_write c1) as E2 by (subst c2; destruct (0 <? d); [destruct (len j <=? _) |]; done).
  destruct (_ && _); intros [= <- <-]; lia.
Qed.

(** One entry more, with a check that has already placed others. *)
Lemma check_one j c k ip b0 size c1 :
  geometry j -> 0 < size <= block_size j -> stands j c k ip -> 0 <= k < sector_count j -> 0 <= ip <= block_size j -> 0 <= b0 ->
  counts j c k ip (sec j k) b0 size -> check_available j c 1 size 0 = Ok (c1, 0) -> sectors_to_write c1 <= sector_count j - 2 ->
  let st := pack1 j (k, ip) size in
  stands j c1 (fst st) (snd st) /\ sectors_to_write c1 = fst st + b0 /\ 0 <= fst st < sector_count j
  /\ (forall t, k < t <= fst st -> free_sector j t) /\ room j (fst st)
  /\ forall size', counts j c1 (fst st) (snd st) (sec j (fst st)) b0 size'.
Proof.
  intros G Hs HS Hk Hip Hb HC. unfold check_available. rewrite (st_sec _ _ _ _ HS).
  destruct (check_loop _ j size (sec j k) 1 c) as [[c2 w] |] eqn:El; [| done]. cbn [rbind].
  destruct (Z.eqb_spec w 0) as [-> | Hw]; cbn [negb]; [| intros [= <- ->]; done].
  cbn [Z.ltb Z.compare]. destruct (_ && _) eqn:Et; [done |]. intros [= <-] Hle.
  destruct (check_loop_counts (check_fuel j) j size k 1 c c2 k ip b0 G Hs ltac:(lia) HS ltac:(lia) ltac:(lia) Hip Hb HC El Hle) as (HS1 & Hc & HK & Hfree).
  change (pack_all j (k, ip) (replicate (Z.to_nat 1) size)) with (pack1 j (k, ip) size) in *. cbn zeta. pose proof (pack1_mono j (k, ip) size) as Hm. cbn [fst] in Hm.
  split_and!; [done | done | lia | done | done | |].
  - apply (room_of_check j c2 _ (snd (pack1 j (k, ip) size)) 0); [done | done | lia | lia | done].
  - intros size'. right. split_and!; [done | done |]. rewrite Hc. destruct HC as [(_ & _ & Hcase) | (_ & Hcnt & Hnz)]; [| lia].
    unfold pack1 in *. cbn [fst snd] in *. destruct (Z.eqb_spec k 0) as [-> |]; cbn [andb] in *.
    + destruct Hcase as [-> ->]. destruct (blocked j || _) eqn:E; cbn [fst] in *; [destruct (first_counted j size); cbn; lia |].
      apply orb_false_iff in E as [Eb E%Z.ltb_ge]. unfold first_counted. rewrite Eb, (proj2 (Z.leb_le _ _)) by lia. done.
    + destruct (_ <? _); cbn [fst]; lia.
Qed.

Lemma check_each_mono o l b c b' c' ok : check_each o l b c = Ok (b', c', ok) -> sectors_to_write c <= sectors_to_write c'.
Proof.
  revert b c. induction l as [| v l IH]; intros b c; cbn [check_each]; [by intros [= <- <- <-] |].
  destruct (big_entry_size v b) as [n |]; [| done]. cbn [rbind]. unfold space_available.
  destruct (check_available _ _ _ _ _) as [[c1 w] |] eqn:E; [| done]. apply check_available_mono in E. cbn [rbind].
  destruct (w =? 0); cbn [rbind]; [intros H%IH; lia |].
  destruct (w =? WAIT_JOURNAL); (destruct (upd_op _ _ _); [| done]); cbn [rbind]; intros [= <- <- <-]; lia.
Qed.

Lemma check_each_rest sz o l b c b' c' k ip b0 :
  let j := journal b in
  geometry j -> big_ready sz l b -> Forall (fun v => 0 < sz v <= block_size j) l ->
  stands j c k ip -> 0 <= k < sector_count j -> 0 <= ip <= block_size j -> 0 <= b0 ->
  (forall v l', l = v :: l' -> counts j c k ip (sec j k) b0 (sz v)) -> (l = [] -> sectors_to_write c = k + b0 /\ room j k) ->
  check_each o l b c = Ok (b', c', true) -> sectors_to_write c' <= sector_count j - 2 ->
  let K := fst (pack_all j (k, ip) (map sz l)) in
  b' = b /\ sectors_to_write c' = K + b0 /\ 0 <= K < sector_count j /\ room j K /\ forall t, k < t <= K -> free_sector j t.
Proof.
  intros j G. revert c k ip. induction l as [| v l IH]; intros c k ip Hr Hsz HS Hk Hip Hb HC Hnil; cbn [check_each].
  { intros [= <- <-] Hle. destruct (Hnil eq_refl). cbn. split_and!; [done | done | lia | lia | done | lia]. }
  apply Forall_cons in Hsz as [Hv Hsz]. rewrite (bi_size _ _ _ _ (big_items sz) _ _ _ Hr). cbn [rbind]. unfold space_available. fold j.
  destruct (check_available _ _ _ _ _) as [[c1 w] |] eqn:E; [| done]. cbn [rbind]. destruct (Z.eqb_spec w 0) as [-> | Hw].
  2: { cbn [rbind]. destruct (w =? WAIT_JOURNAL); (destruct (upd_op _ _ _); [| done]); cbn [rbind]; by intros [= <- <-]. }
  cbn [rbind]. intros Hrest Hle. pose proof (check_each_mono _ _ _ _ _ _ _ Hrest) as Hmono.
  destruct (check_one j c k ip b0 (sz v) c1 G Hv HS Hk Hip Hb (HC v l eq_refl) E ltac:(lia)) as (HS1 & Hc1 & Hk1 & Hf1 & Hr1 & HC1). cbn zeta in *.
  destruct (pack1_range j (k, ip) (sz v)) as [_ Hip1]; [apply (g_bs j G) | done | cbn; lia | done |].
  assert (big_ready sz l b) as Hrl.
  { destruct Hr as [Hd Hl]. split; [done |]. intros v' Hv'. apply Hl. by apply list_elem_of_further. }
  destruct (IH c1 _ _ Hrl Hsz HS1 Hk1 ltac:(lia) Hb (fun v' l' _ => HC1 (sz v')) (fun _ => conj Hc1 Hr1) Hrest Hle) as (H1 & H2 & H3 & H4 & H5).
  cbn [map pack_all fold_left]. unfold pack_all in H2, H3, H4, H5. destruct (pack1 j (k, ip) (sz v)) as [k1 ip1]. cbn [fst snd] in *.
  split_and!; [done | done | lia | lia | done |]. intros t Ht. destruct (decide (t <= k1)); [apply Hf1; lia | apply H5; lia].
Qed.

Lemma check_each_ok sz o v l b b' c :
  let j := journal b in
  geometry j -> big_ready sz (v :: l) b -> Forall (fun v => 0 < sz v <= block_size j) (v :: l) ->
  check_each o (v :: l) b (journal_check j) = Ok (b', c, true) -> sectors_to_write c <= sector_count j - 2 ->
  b' = b /\ exists K, checked j (map sz (v :: l)) c K.
Proof.
  intros j G Hr Hsz Hc Hle. pose proof (g_sc j G).
  assert (0 <= Z.b2z (first_counted j (sz v))) as Hb0 by (destruct (first_counted _ _); cbn; lia).
  assert (forall v' l', v :: l = v' :: l' -> counts j (journal_check j) 0 (in_sector_pos j) (sec j 0) (Z.b2z (first_counted j (sz v))) (sz v')) as HC
    by (intros v' l' [= <- <-]; by apply counts_0).
  destruct (check_each_rest sz o (v :: l) b (journal_check j) b' c 0 (in_sector_pos j) _ G Hr Hsz (stands_0 j G) ltac:(fold j; lia) (g_pos j G) Hb0 HC
    ltac:(done) Hc Hle) as (H1 & H2 & H3 & H4 & H5).
  split; [done |]. eexists. constructor; [done | done | done | done |]. intros x l' [= <- _]. done.
Qed.
