(* ===== verification/JournalDemo.v ===== *)
(** * Small blockstores

    Concrete states of the journal and of the blockstore on which the theorems are
    evaluated. *)

From S2P Require Import Prelude.
From S2P Require Import Allocator.
From S2P Require Import Journal.
From S2P Require Import JournalCheck.
From S2P Require Import Blockstore.
From S2P Require Import BlockstoreOps.
From S2P Require Import DirtyDb.
From S2P Require Import JournalRing.
From S2P Require Import JournalBatch.

(** A journal of 15 blocks of 128 bytes with [n] sector buffers of which the current
    one is full and clean. *)
Definition demo_journal (n next used : Z) : journal_t :=
  mk_journal false 128 2048 next used used 0 (replicate (Z.to_nat (n * 128)) 0)
    (replicate (Z.to_nat n) (mk_sector 0 0 false false 0)) n false 0 128 [] [] 0 ∅.
Definition demo_config (csum : Z) : config_t :=
  mk_config 131072 17 4096 4 8 csum (if csum =? 0 then 0 else 4096) true true IMMEDIATE_NONE false false 128 128 false 0 0 0 0 ∅.
Definition demo_version (stripe : Z) : obj_ver_id := mk_ov (mk_oid 1 stripe) 1.
Definition demo_op (vers big : list obj_ver_id) : op_t :=
  mk_op 0 (demo_version 0) 0 0 [] vers None CbUser 0 0 0 0 0 0 0 0 0 0 big [].
Definition demo_store (csum : Z) (j : journal_t) (op : op_t) : blockstore_impl_t :=
  mk_bs (demo_config csum) ∅ ∅ ∅
    (map (fun v => (v, mk_dirty 0 0 0 4096 0 (repeat 0 8))) (sync_big_writes op))
    [] [] [] 0 0 0 (mk_allocator 0 0 0 0 []) 0 ∅ ∅ j (mk_flusher [] ∅ false 0 0 0) 0 0 false {[ 0%nat := op ]} 1 ∅ 100 [] [] [] 0.

Lemma demo_ring n x y : 2 <= n <= 14 -> 1 <= x < 16 -> 1 <= y < 16 -> ring_ok (demo_journal n (128 * x) (128 * y)).
Proof.
  intros Hn Hx Hy. constructor; cbn.
  - constructor; cbn; try lia; try (split; [apply Z.divide_factor_l | lia]).
    + by exists 16.
    + unfold zlen. rewrite length_replicate. lia.
  - unfold zlen. rewrite length_replicate. lia.
  - intros s si (_ & H)%aget_ok. apply lookup_replicate in H as [-> _]. by constructor.
  - intros si (_ & H)%aget_ok. apply lookup_replicate in H as [-> _]. cbn. intros [H | H]; [lia | done].
  - intros k q H. by rewrite lookup_empty in H.
  - done.
Qed.
