(* ===== verification/DirtyBooks.v ===== *)
(** * The books of the dirty database

    Every version in [dirty_db] that has a journal entry holds a reference to the
    sector of its entry ([used_sectors]), and [big_to_flush] counts the stable big
    writes and deletions.  [erase_dirty] and [mark_rolled_back] keep these books,
    release the data blocks of what they remove, and remove exactly that. *)

From S2P Require Import Prelude.
From S2P Require Import Allocator.
From S2P Require Import Journal.
From S2P Require Import JournalCheck.
From S2P Require Import Blockstore.
From S2P Require Import BlockstoreOps.
From S2P Require Import DirtyDb.
From S2P Require Import JournalRing.
From S2P Require Import JournalDemo.

(** ** Counting entries *)

Definition dcount (P : dirty_entry -> bool) (d : dirty_db_t) : Z := zlen (filter (fun x => P (snd x) = true) d).

Lemma dcount_nil P : dcount P [] = 0.
Proof. done. Qed.
Lemma dcount_cons P x d : dcount P (x :: d) = Z.b2z (P (snd x)) + dcount P d.
Proof. unfold dcount. rewrite filter_cons. destruct (P (snd x)); [rewrite decide_True by done; by rewrite zlen_cons | by rewrite decide_False by done]. Qed.
Lemma dcount_app P d1 d2 : dcount P (d1 ++ d2) = dcount P d1 + dcount P d2.
Proof. unfold dcount. by rewrite filter_app, zlen_app. Qed.
Lemma dcount_rev P d : dcount P (rev d) = dcount P d.
Proof. induction d as [| x d IH]; [done |]. cbn [rev]. rewrite dcount_app, !dcount_cons, dcount_nil. lia. Qed.
Lemma dcount_nonneg P d : 0 <= dcount P d.
Proof. apply zlen_nonneg. Qed.

Definition refers (s : Z) (e : dirty_entry) : bool := journal_sector e =? s.
Definition stable_big (e : dirty_entry) : bool := (IS_BIG_WRITE (state e) || IS_DELETE (state e)) && IS_STABLE (state e).

(** [m] has the references of the entries of [d]; 0 is no sector. *)
Record refs (m : gmap Z Z) (d : dirty_db_t) : Prop := {
  rf_count : forall s, s <> 0 -> default 0 (m !! s) = dcount (refers s) d;
  rf_used : forall s n, m !! s = Some n -> s <> 0 /\ 0 < n < 2 ^ 64 }.

Lemma refs_lookup m x d : refs m (x :: d) -> journal_sector (snd x) <> 0 ->
  m !! journal_sector (snd x) = Some (1 + dcount (refers (journal_sector (snd x))) d).
Proof.
  intros [R1 R2] Hs. specialize (R1 _ Hs). rewrite dcount_cons in R1. unfold refers at 1 in R1. rewrite Z.eqb_refl in R1. cbn [Z.b2z] in R1.
  pose proof (dcount_nonneg (refers (journal_sector (snd x))) d). destruct (m !! _); cbn in R1; [congruence | lia].
Qed.

Lemma refs_del m x d : refs m (x :: d) -> journal_sector (snd x) <> 0 ->
  let s := journal_sector (snd x) in
  refs (if dcount (refers s) d =? 0 then delete s m else <[s := dcount (refers s) d]> m) d.
Proof.
  intros HR Hs s. pose proof (refs_lookup m x d HR Hs) as Hl. fold s in Hl. destruct HR as [R1 R2]. destruct (R2 _ _ Hl) as [_ Hn].
  pose proof (dcount_nonneg (refers s) d). constructor.
  - intros t Ht. specialize (R1 t Ht). rewrite dcount_cons in R1. unfold refers at 1 in R1. fold s in R1.
    destruct (Z.eqb_spec (dcount (refers s) d) 0) as [E | E], (Z.eqb_spec s t) as [<- | Hne]; cbn [Z.b2z] in R1.
    + rewrite lookup_delete_eq. cbn. lia.
    + rewrite lookup_delete_ne by done. lia.
    + rewrite lookup_insert_eq. done.
    + rewrite lookup_insert_ne by done. lia.
  - intros t n. destruct (Z.eqb_spec (dcount (refers s) d) 0) as [E | E].
    + intros [_ H1]%lookup_delete_Some. by apply R2.
    + intros [[<- <-] | [_ H1]]%lookup_insert_Some; [split; [done | lia] | by apply R2].
Qed.

Lemma refs_perm m d d' : d ≡ₚ d' -> refs m d -> refs m d'.
Proof.
  intros HP [R1 R2]. constructor; [| done]. intros s Hs. rewrite (R1 s Hs). unfold dcount, zlen. by rewrite HP.
Qed.

(** ** Removal of versions *)

Definition location_block (c : config_t) (e : dirty_entry) : Z := Z.shiftr (location e) (block_order c).
Definition frees (clean_loc : Z) (e : dirty_entry) : bool :=
  IS_BIG_WRITE (state e) && negb (location e =? clean_loc) && negb (location e =? UINT64_MAX).

(** The data blocks of the removed versions. *)
Definition freed (c : config_t) (clean_loc : Z) (d : dirty_db_t) : gset Z :=
  list_to_set (location_block c ∘ snd <$> filter (fun x => frees clean_loc (snd x) = true) d).

Lemma freed_cons c loc x d : freed c loc (x :: d) = (if frees loc (snd x) then {[location_block c (snd x)]} else ∅) ∪ freed c loc d.
Proof. unfold freed. rewrite filter_cons. destruct (frees loc (snd x)); [by rewrite decide_True | rewrite decide_False by done; set_solver]. Qed.

(** A reference is dropped: the journal without it. *)
Lemma unuse_ok b d x :
  ring_ok (journal b) -> refs (used_sectors (journal b)) (x :: d) -> journal_sector (snd x) <> 0 ->
  exists j fl, unuse_sector (journal_sector (snd x)) b = Ok (with_flusher fl (with_journal j b)) /\ ring_ok j /\ refs (used_sectors j) d
    /\ used_start j = used_start (journal b) /\ next_free j = next_free (journal b).
Proof.
  intros Hr HR Hx. pose proof (refs_lookup _ _ _ HR Hx) as Hl. pose proof (refs_del _ _ _ HR Hx) as Hd. cbn zeta in Hd.
  destruct (rf_used _ _ HR _ _ Hl) as [_ Hn]. unfold unuse_sector. rewrite Hl. set (s := journal_sector (snd x)) in *.
  replace (1 + dcount (refers s) d - 1) with (dcount (refers s) d) by lia. pose proof (dcount_nonneg (refers s) d). rewrite u64_small by lia.
  assert (forall m pos, (forall t n, m !! t = Some n -> exists n', used_sectors (journal b) !! t = Some n') ->
    in_sector_pos (journal b) <= pos <= block_size (journal b) -> ring_ok (with_in_sector_pos pos (with_used_sectors m (journal b)))) as Hring.
  { intros m pos Hm Hpos. destruct Hr as [[] R2 R3 R4 R5 R6]. constructor; cbn; try done.
    - constructor; cbn; try done. lia.
    - intros t si Ht. destruct (R3 t si Ht). by constructor.
    - intros si Hsi Hc. apply (R4 si Hsi). destruct Hc; [left; lia | by right].
    - intros t n (n' & Ht)%Hm. by apply (R5 t n'). }
  destruct (g_pos _ (r_geo _ Hr)) as [Hp0 Hp1]. destruct (Z.eqb_spec (dcount (refers s) d) 0) as [E | E].
  - destruct (aget_in_range (sector_info (journal b)) (cur_sector (journal b))) as [si Hsi].
    { fold (zlen (sector_info (journal b))). rewrite (g_info _ (r_geo _ Hr)). apply (g_cur _ (r_geo _ Hr)). }
    change (sector_info (with_used_sectors _ _)) with (sector_info (journal b)). change (cur_sector (with_used_sectors _ _)) with (cur_sector (journal b)).
    rewrite Hsi. cbn [rbind]. eexists _, _. split; [done |].
    assert (forall t n, delete s (used_sectors (journal b)) !! t = Some n -> exists n', used_sectors (journal b) !! t = Some n') as Hm
      by (intros t n [_ H1]%lookup_delete_Some; eauto).
    destruct (s =? sector_offset si); (split_and!; [| done | done | done]).
    + by apply (Hring _ (block_size (journal b))).
    + specialize (Hring _ (in_sector_pos (journal b)) Hm ltac:(lia)). by destruct (journal b).
  - exists (with_used_sectors (<[s := dcount (refers s) d]> (used_sectors (journal b))) (journal b)), (flusher b). split; [by destruct b |]. split_and!; [| done | done | done].
    assert (forall t n, <[s := dcount (refers s) d]> (used_sectors (journal b)) !! t = Some n -> exists n', used_sectors (journal b) !! t = Some n') as Hm.
    { intros t n [[<- _] | [_ H1]]%lookup_insert_Some; eauto. }
    specialize (Hring _ (in_sector_pos (journal b)) Hm ltac:(lia)). by destruct (journal b).
Qed.

Lemma erase_loop_ok loc rmid b d U :
  ring_ok (journal b) -> refs (used_sectors (journal b)) (rmid ++ d) -> big_to_flush b = dcount stable_big (rmid ++ d) -> rep (data_alloc b) U ->
  Forall (fun x => journal_sector (snd x) <> 0 /\ 0 <= location_block (cfg b) (snd x) < a_size (data_alloc b)) rmid ->
  exists j fl a n, erase_loop loc rmid b = Ok (with_flusher fl (with_journal j (with_data_alloc a (with_big_to_flush n b))))
    /\ ring_ok j /\ refs (used_sectors j) d /\ n = dcount stable_big d /\ rep a (U ∖ freed (cfg b) loc rmid) /\ a_size a = a_size (data_alloc b)
    /\ used_start j = used_start (journal b) /\ next_free j = next_free (journal b).
Proof.
  revert b U. induction rmid as [| [k e] rmid IH]; intros b U Hr HR Hbig Ha Hall; cbn [erase_loop].
  { exists (journal b), (flusher b), (data_alloc b), (big_to_flush b). split_and!; try done; [by destruct b |].
    unfold freed. cbn. by rewrite difference_empty_L. }
  apply Forall_cons in Hall as [[Hs Hl] Hall]. cbn [snd] in *. unfold erase_one. cbn [app] in *. rewrite dcount_cons in Hbig. cbn [snd] in Hbig.
  fold (stable_big e). set (b1 := if stable_big e then _ else b).
  assert (b1 = with_big_to_flush (dcount stable_big (rmid ++ d)) b) as ->.
  { subst b1. destruct (stable_big e); cbn [Z.b2z] in Hbig; [f_equal; lia |]. rewrite Z.add_0_l in Hbig. rewrite <- Hbig. by destruct b. }
  fold (frees loc e). set (b1 := with_big_to_flush _ b).
  assert (exists a, (if frees loc e then let* a := set (data_alloc b1) (Z.shiftr (location e) (block_order (cfg b1))) false in Ok (with_data_alloc a b1) else Ok b1)
      = Ok (with_data_alloc a b1) /\ rep a (U ∖ (if frees loc e then {[location_block (cfg b) e]} else ∅)) /\ a_size a = a_size (data_alloc b)) as (a & -> & Ha' & Hsz).
  { destruct (frees loc e).
    - destruct (set_rep (data_alloc b) U (location_block (cfg b) e) false Ha) as (a & Hset & Hsz & Hrep); [lia |].
      rewrite decide_True in Hrep by lia. exists a. cbn. unfold location_block in Hset. by rewrite Hset.
    - exists (data_alloc b). split_and!; [done | by rewrite difference_empty_L | done]. }
  cbn [rbind]. destruct (unuse_ok (with_data_alloc a b1) (rmid ++ d) (k, e)) as (j & fl & Hu & Hr' & HR' & Hst & Hnf); [done | done | done |].
  cbn [snd] in Hu. rewrite Hu. cbn [rbind].
  destruct (IH (with_flusher fl (with_journal j (with_data_alloc a b1))) _ Hr' HR' eq_refl Ha') as (j' & fl' & a' & n' & -> & H1 & H2 & H3 & H4 & H5 & H6 & H7).
  { cbn. by rewrite Hsz. }
  exists j', fl', a', n'. split_and!; [done | done | done | done | | cbn in H5; congruence | cbn in *; congruence | cbn in *; congruence].
  rewrite freed_cons, <- difference_difference_l_L. done.
Qed.

(** ** The versions of an object *)

Definition of_object (o : object_id) (d : dirty_db_t) : Prop := Forall (fun x => oid (fst x) = o) d.

Lemma oid_lt_total a b : oid_lt a b \/ a = b \/ oid_lt b a.
Proof.
  unfold oid_lt. destruct a as [i1 s1], b as [i2 s2]. cbn.
  destruct (Z.lt_total i1 i2) as [| [-> |]]; [by left; left | | by right; right; left].
  destruct (Z.lt_total s1 s2) as [| [-> |]]; [left; right; lia | by right; left | right; right; right; lia].
Qed.

(** A later key is not of an earlier object. *)
Lemma key_lt_oid x y : key_lt x y -> ~ oid_lt (oid (fst y)) (oid (fst x)).
Proof. unfold key_lt. rewrite ov_lt_iff. unfold oid_lt. intros [H | [-> H]]; lia. Qed.

Lemma first_empty {A} (P : A -> Prop) l : Forall P l -> (forall x, x ∈ l -> ~ P x) -> l = [].
Proof. intros H Hn. destruct l as [| x l]; [done |]. apply Forall_cons in H as [Hx _]. by destruct (Hn x (list_elem_of_here _ _)). Qed.

(** The database around the versions of an object. *)
Lemma object_split d o : db_ok d ->
  exists pre vers suf, d = pre ++ vers ++ suf /\ Forall (fun x => oid_lt (oid (fst x)) o) pre /\ of_object o vers
    /\ Forall (fun x => oid_lt o (oid (fst x))) suf.
Proof.
  induction d as [| x d IH]; [intros _; exists [], [], []; split_and!; constructor |]. intros [Hd Hk]%db_ok_cons.
  destruct (IH Hd) as (pre & vers & suf & -> & H1 & H2 & H3). clear IH. pose proof (fun y Hy => key_lt_oid _ _ (Hk y Hy)) as Hx. unfold oid_lt in Hx.
  destruct (oid_lt_total (oid (fst x)) o) as [Hlt | [Heq | Hgt]].
  - exists (x :: pre), vers, suf. split_and!; [done | by constructor | done | done].
  - assert (pre = []) as ->.
    { eapply first_empty; [exact H1 |]. intros y Hy. cbn. rewrite <- Heq. apply Hx. apply elem_of_app. by left. }
    exists [], (x :: vers), suf. split_and!; [done | done | by constructor | done].
  - assert (pre = []) as ->.
    { eapply first_empty; [exact H1 |]. intros y Hy Hlt. apply (Hx y); [apply elem_of_app; by left |]. unfold oid_lt in *. lia. }
    assert (vers = []) as ->.
    { eapply first_empty; [exact H2 |]. intros y Hy Heq. apply (Hx y); [apply elem_of_app; right; apply elem_of_app; by left |]. rewrite Heq. exact Hgt. }
    exists [], [], (x :: suf). split_and!; [done | done | done | by constructor].
Qed.

Lemma version_split o vers v : db_ok vers -> of_object o vers ->
  exists lo hi, vers = lo ++ hi /\ Forall (fun x => version (fst x) <= v) lo /\ Forall (fun x => v < version (fst x)) hi.
Proof.
  induction vers as [| x vers IH]; [intros _ _; exists [], []; split_and!; constructor |]. intros [Hd Hx]%db_ok_cons [Ho Hof]%Forall_cons.
  destruct (IH Hd Hof) as (lo & hi & -> & H1 & H2). destruct (decide (version (fst x) <= v)).
  - exists (x :: lo), hi. split_and!; [done | by constructor | done].
  - exists [], (x :: lo ++ hi). split_and!; [done | constructor |]. constructor; [lia |]. apply Forall_forall. intros y Hy. specialize (Hx y Hy).
    unfold key_lt in Hx. rewrite ov_lt_iff in Hx. apply Forall_forall with (x := y) in Hof; [| done]. rewrite Ho, Hof in Hx. unfold oid_lt in Hx. lia.
Qed.

(** ** Rollback *)

Definition last_unstable (lo : dirty_db_t) : Z :=
  match rev lo with (k, e) :: _ => if IS_STABLE (state e) then 0 else version k | [] => 0 end.

Lemma walk_lo v pre lo mid :
  Forall (fun x => oid_lt (oid (fst x)) (oid v)) pre -> of_object (oid v) lo -> Forall (fun x => version (fst x) <= version v) lo ->
  rollback_walk v (rev lo ++ rev pre) mid = (rev lo ++ rev pre, mid, last_unstable lo).
Proof.
  intros Hp Ho Hv. unfold last_unstable. destruct (rev lo) as [| [k e] l] eqn:El; cbn [app].
  - destruct (rev pre) as [| [k e] r] eqn:Er; [done |]. cbn [rollback_walk].
    assert (oid_lt (oid k) (oid v)) as Hlt.
    { apply (proj1 (Forall_forall _ _) Hp (k, e)). rewrite <- (rev_involutive pre), Er. cbn. apply elem_of_app. right. by apply list_elem_of_singleton. }
    destruct (oid_eqb (oid k) (oid v)) eqn:E; [| done]. apply oid_eqb_eq in E. rewrite E in Hlt. unfold oid_lt in Hlt. lia.
  - assert ((k, e) ∈ lo) as Hin. { rewrite <- (rev_involutive lo), El. cbn. apply elem_of_app. right. by apply list_elem_of_singleton. }
    pose proof (proj1 (Forall_forall _ _) Ho _ Hin) as E1. pose proof (proj1 (Forall_forall _ _) Hv _ Hin) as E2. cbn in E1, E2.
    cbn [rollback_walk]. rewrite E1, oid_eqb_refl. cbn [negb]. by rewrite (proj2 (Z.leb_le _ _)) by done.
Qed.

Definition rolls_back (v : obj_ver_id) (x : obj_ver_id * dirty_entry) : Prop :=
  oid (fst x) = oid v /\ version v < version (fst x) /\ IS_IN_FLIGHT (state (snd x)) = false /\ IS_STABLE (state (snd x)) = false.

Lemma walk_hi v rhi rest mid : Forall (rolls_back v) rhi -> rollback_walk v (rhi ++ rest) mid = rollback_walk v rest (rev rhi ++ mid).
Proof.
  revert mid. induction rhi as [| [k e] rhi IH]; intros mid H; [done |]. apply Forall_cons in H as [(H1 & H2 & H3 & H4) H]. cbn in H1, H2, H3, H4.
  cbn [app rollback_walk]. rewrite H1, oid_eqb_refl, (proj2 (Z.leb_gt _ _)), H3, H4 by done. cbn. rewrite IH by done. by rewrite <- app_assoc.
Qed.

Lemma unblock_other o st suf : Forall (fun x => oid_lt o (oid (fst x))) suf -> unblock_after_delete o st suf = suf.
Proof.
  intros H. destruct suf as [| [k e] s]; [done |]. cbn. apply Forall_cons in H as [H _]. cbn in H.
  destruct (oid_eqb (oid k) o) eqn:E; [| done]. apply oid_eqb_eq in E. subst o. unfold oid_lt in H. lia.
Qed.

(** The books of the blockstore. *)
Record books_ok (b : blockstore_impl_t) : Prop := {
  bk_db : db_ok (dirty_db b);
  bk_ring : ring_ok (journal b);
  bk_refs : refs (used_sectors (journal b)) (dirty_db b);
  bk_big : big_to_flush b = dcount stable_big (dirty_db b) }.

(** Removal of [mid] from the end of the versions of an object. *)
Lemma erase_dirty_ok pre mid suf loc b U o :
  books_ok b -> dirty_db b = pre ++ mid ++ suf -> rep (data_alloc b) U -> of_object o mid -> Forall (fun x => oid_lt o (oid (fst x))) suf ->
  Forall (fun x => journal_sector (snd x) <> 0 /\ 0 <= location_block (cfg b) (snd x) < a_size (data_alloc b)) mid ->
  exists b', erase_dirty (rev pre) (rev mid) suf loc b = Ok b' /\ books_ok b' /\ dirty_db b' = pre ++ suf
    /\ rep (data_alloc b') (U ∖ freed (cfg b) loc (rev mid)) /\ unstable_writes b' = unstable_writes b.
Proof.
  intros [B1 B2 B3 B4] Hd Ha Ho Hsuf Hall. rewrite Hd in *.
  assert (pre ++ mid ++ suf ≡ₚ rev mid ++ pre ++ suf) as HP.
  { rewrite (Permutation_app_comm pre), <- app_assoc, (Permutation_app_comm suf). apply Permutation_app_tail, Permutation_rev. }
  destruct (erase_loop_ok loc (rev mid) b (pre ++ suf) U B2) as (j & fl & a & n & Hl & H1 & H2 & H3 & H4 & H5 & H6 & H7).
  { by eapply refs_perm. }
  { rewrite B4, !dcount_app, dcount_rev. lia. }
  { done. }
  { by apply Forall_rev. }
  assert (db_ok (pre ++ suf)) as Hok.
  { apply db_ok_app in B1 as (Q1 & (Q2 & Q3 & Q4)%db_ok_app & Q5). apply db_ok_app. split_and!; [done | done |]. intros x y Hx Hy. apply Q5; [done |]. apply elem_of_app. by right. }
  unfold erase_dirty. destruct (rev mid) as [| [k e] rm] eqn:Em.
  - rewrite rev_append_rev, rev_involutive. eexists. split; [done |]. injection Hl as Hb. destruct mid as [| x mid]; [| cbn in Em; by apply app_eq_nil in Em as [_ ?]].
    split_and!; [constructor; done | done | unfold freed; cbn; by rewrite difference_empty_L | done].
  - assert (oid k = o) as ->. { apply (proj1 (Forall_forall _ _) Ho (k, e)). rewrite <- (rev_involutive mid), Em. cbn. apply elem_of_app. right. by apply list_elem_of_singleton. }
    rewrite unblock_other by done. set (s := if IS_DELETE _ then _ else _). replace s with suf by (subst s; by destruct (IS_DELETE _)).
    cbn zeta. rewrite Hl. cbn [rbind]. rewrite rev_append_rev, rev_involutive. eexists. split; [done |]. split_and!; [constructor; done | done | done | done].
Qed.

(** A version that the rollback to [v] removes. *)
Definition above (v k : obj_ver_id) : Prop := oid k = oid v /\ version v < version k.

(** The parts of the database that a rollback to [v] looks at. *)
Lemma rollback_split d v : db_ok d -> (forall k e, (k, e) ∈ d -> version k < UINT64_MAX) ->
  exists pre lo hi suf, d = (pre ++ lo) ++ hi ++ suf /\ Forall (fun x => oid_lt (oid (fst x)) (oid v)) pre /\ of_object (oid v) lo
    /\ Forall (fun x => version (fst x) <= version v) lo /\ of_object (oid v) hi /\ Forall (fun x => version v < version (fst x)) hi
    /\ Forall (fun x => oid_lt (oid v) (oid (fst x))) suf
    /\ db_lower [] d (mk_ov (oid v) UINT64_MAX) = (rev ((pre ++ lo) ++ hi), suf).
Proof.
  intros Hd Hmax. destruct (object_split d (oid v) Hd) as (pre & vers & suf & -> & H1 & H2 & H3).
  pose proof Hd as (_ & (Hv & _ & _)%db_ok_app & _)%db_ok_app. destruct (version_split _ _ (version v) Hv H2) as (lo & hi & -> & H4 & H5).
  apply Forall_app in H2 as [H2 H2']. exists pre, lo, hi, suf. rewrite <- !app_assoc. split_and!; try done.
  replace (pre ++ lo ++ hi ++ suf) with ((pre ++ lo ++ hi) ++ suf) by (by rewrite <- !app_assoc). rewrite db_lower_app; [by rewrite app_nil_r | |].
  - rewrite !Forall_app. split_and!.
    + eapply Forall_impl; [exact H1 |]. intros x Hx. rewrite ov_lt_iff. by left.
    + apply Forall_forall. intros [k e] Hx. rewrite ov_lt_iff. right. cbn. split; [apply (proj1 (Forall_forall _ _) H2 _ Hx) |].
      apply (Hmax k e). rewrite !elem_of_app. naive_solver.
    + apply Forall_forall. intros [k e] Hx. rewrite ov_lt_iff. right. cbn. split; [apply (proj1 (Forall_forall _ _) H2' _ Hx) |].
      apply (Hmax k e). rewrite !elem_of_app. naive_solver.
  - intros x s' ->. apply Forall_cons in H3 as [Hx _]. rewrite ov_lt_iff. cbn. unfold oid_lt in *. intros [H | [H _]]; [lia |]. rewrite H in Hx. lia.
Qed.

Lemma rollback_run v b U pre lo hi suf :
  books_ok b -> rep (data_alloc b) U -> dirty_db b = (pre ++ lo) ++ hi ++ suf ->
  Forall (fun x => oid_lt (oid (fst x)) (oid v)) pre -> of_object (oid v) lo -> Forall (fun x => version (fst x) <= version v) lo ->
  Forall (rolls_back v) hi -> Forall (fun x => oid_lt (oid v) (oid (fst x))) suf ->
  db_lower [] (dirty_db b) (mk_ov (oid v) UINT64_MAX) = (rev ((pre ++ lo) ++ hi), suf) ->
  Forall (fun x => journal_sector (snd x) <> 0 /\ 0 <= location_block (cfg b) (snd x) < a_size (data_alloc b)) hi ->
  exists b', mark_rolled_back v b = Ok b' /\ books_ok b' /\ dirty_db b' = (pre ++ lo) ++ suf
    /\ rep (data_alloc b') (U ∖ freed (cfg b) UINT64_MAX (rev hi))
    /\ (hi <> [] -> forall u, unstable_writes b' !! oid v = Some u -> u <> 0 /\ last_unstable lo = u).
Proof.
  intros HB Ha Hd H1 H2 H3 H4 H5 Hlow Hall. unfold mark_rolled_back.
  rewrite Hlow, rev_app_distr, walk_hi, rev_involutive, app_nil_r, rev_app_distr, walk_lo by (done || by apply Forall_rev).
  destruct hi as [| x hi].
  { exists b. split_and!; [done | done | done | unfold freed; cbn; by rewrite difference_empty_L | done]. }
  rewrite rev_append_rev, app_nil_r, <- rev_app_distr.
  destruct (erase_dirty_ok (pre ++ lo) (x :: hi) suf UINT64_MAX b U (oid v) HB Hd Ha) as (b1 & -> & HB1 & Hd1 & Ha1 & Hu1); [| done | done |].
  { eapply Forall_impl; [exact H4 |]. by intros y []. }
  cbn [rbind]. rewrite Hu1.
  assert (forall m, books_ok (with_unstable_writes m b1)) as HB2 by (intros m; destruct HB1; by constructor).
  destruct (unstable_writes b !! oid v) as [u0 |] eqn:Eu.
  - destruct (Z.eqb_spec (last_unstable lo) 0) as [E | E]; (eexists; split; [done |]; split_and!; [apply HB2 | done | done |]); intros _ u; cbn.
    + by rewrite lookup_delete_eq.
    + rewrite lookup_insert_eq. by intros [= <-].
  - exists b1. split_and!; [done | done | done | done |]. intros _ u. rewrite Hu1. congruence.
Qed.

Lemma elem_of_reverse' {A} (x : A) l : x ∈ rev l <-> x ∈ l.
Proof. rewrite !list_elem_of_In. symmetry. apply in_rev. Qed.

Lemma elem_of_freed c loc d x : x ∈ freed c loc d <-> exists k e, (k, e) ∈ d /\ frees loc e = true /\ location_block c e = x.
Proof.
  unfold freed. rewrite elem_of_list_to_set, list_elem_of_fmap. split.
  - intros ([k e] & -> & [Hf Hin]%list_elem_of_filter). by exists k, e.
  - intros (k & e & Hin & Hf & <-). exists (k, e). split; [done |]. by apply list_elem_of_filter.
Qed.

Lemma last_unstable_elem o lo u : of_object o lo -> last_unstable lo = u -> u <> 0 ->
  exists e, (mk_ov o u, e) ∈ lo /\ IS_STABLE (state e) = false.
Proof.
  intros Ho Hl Hu. unfold last_unstable in Hl. destruct (rev lo) as [| [k e] l] eqn:El; [done |].
  assert ((k, e) ∈ lo) as Hin by (apply elem_of_reverse'; rewrite El; apply list_elem_of_here).
  pose proof (proj1 (Forall_forall _ _) Ho _ Hin) as Hk. cbn in Hk. destruct (IS_STABLE (state e)) eqn:Es; [done |]. exists e.
  split; [| done]. subst u o. by destruct k.
Qed.

(** The versions that stay are not above [v]. *)
Lemma not_above v (pre lo suf : dirty_db_t) :
  Forall (fun x => oid_lt (oid (fst x)) (oid v)) pre -> Forall (fun x => version (fst x) <= version v) lo ->
  Forall (fun x => oid_lt (oid v) (oid (fst x))) suf -> forall k e, (k, e) ∈ (pre ++ lo) ++ suf -> ~ above v k.
Proof.
  intros H1 H3 H6 k e [[Hin | Hin]%elem_of_app | Hin]%elem_of_app [E1 E2].
  - pose proof (proj1 (Forall_forall _ _) H1 _ Hin) as Hlt. cbn in Hlt. rewrite E1 in Hlt. unfold oid_lt in Hlt. lia.
  - pose proof (proj1 (Forall_forall _ _) H3 _ Hin) as Hlt. cbn in Hlt. lia.
  - pose proof (proj1 (Forall_forall _ _) H6 _ Hin) as Hlt. cbn in Hlt. rewrite E1 in Hlt. unfold oid_lt in Hlt. lia.
Qed.

(** C14: A rollback to version [v] removes exactly the versions of the object above [v]
    (when they are synced and not stable), frees the data blocks of their big writes
    and no other, drops their references to journal sectors so that [used_sectors]
    counts the remaining versions, keeps the invariants of the ring, of the database
    and of [big_to_flush], and leaves in [unstable_writes] at most a version that is
    there and not stable. *)
Theorem rollback_ok v b U :
  books_ok b -> rep (data_alloc b) U -> (forall k e, (k, e) ∈ dirty_db b -> version k < UINT64_MAX) ->
  (forall k e, (k, e) ∈ dirty_db b -> above v k -> IS_IN_FLIGHT (state e) = false /\ IS_STABLE (state e) = false
     /\ journal_sector e <> 0 /\ 0 <= location_block (cfg b) e < a_size (data_alloc b)) ->
  exists b' U', mark_rolled_back v b = Ok b' /\ books_ok b' /\ rep (data_alloc b') U'
    /\ (forall k e, (k, e) ∈ dirty_db b' <-> (k, e) ∈ dirty_db b /\ ~ above v k)
    /\ (forall x, x ∈ U' <-> x ∈ U /\ ~ exists k e, (k, e) ∈ dirty_db b /\ above v k /\ frees UINT64_MAX e = true /\ location_block (cfg b) e = x)
    /\ ((exists k e, (k, e) ∈ dirty_db b /\ above v k) -> forall u, unstable_writes b' !! oid v = Some u ->
          exists e, (mk_ov (oid v) u, e) ∈ dirty_db b' /\ IS_STABLE (state e) = false).
Proof.
  intros HB Ha Hmax Habove.
  destruct (rollback_split _ v (bk_db b HB) Hmax) as (pre & lo & hi & suf & Hd & H1 & H2 & H3 & H4 & H5 & H6 & Hlow).
  assert (forall k e, (k, e) ∈ (pre ++ lo) ++ suf -> ~ above v k) as Hnot by (eapply not_above; done).
  assert (forall k e, (k, e) ∈ hi <-> (k, e) ∈ dirty_db b /\ above v k) as Hhi.
  { intros k e. rewrite Hd. split.
    - intros Hin. split; [rewrite !elem_of_app; naive_solver |]. split; [apply (proj1 (Forall_forall _ _) H4 _ Hin) | apply (proj1 (Forall_forall _ _) H5 _ Hin)].
    - intros [Hin Hab]. pose proof (Hnot k e) as Hn. rewrite !elem_of_app in *. naive_solver. }
  destruct (rollback_run v b U pre lo hi suf HB Ha Hd H1 H2 H3) as (b' & -> & HB' & Hd' & Ha' & Hu'); [| done | done | |].
  { apply Forall_forall. intros [k e] Hin. apply Hhi in Hin as [Hin Hab]. destruct (Habove _ _ Hin Hab) as (? & ? & _). destruct Hab. by split_and!. }
  { apply Forall_forall. intros [k e] Hin. apply Hhi in Hin as [Hin Hab]. by destruct (Habove _ _ Hin Hab) as (_ & _ & ? & ?). }
  exists b', (U ∖ freed (cfg b) UINT64_MAX (rev hi)). split_and!; [done | done | done | | |].
  - intros k e. rewrite Hd', Hd. split.
    + intros Hin. split; [| by eapply Hnot]. rewrite !elem_of_app in *. naive_solver.
    + intros [Hin Hab]. assert ((k, e) ∉ hi) by (rewrite Hhi; naive_solver). rewrite !elem_of_app in *. naive_solver.
  - intros x. rewrite elem_of_difference. apply and_iff_compat_l, not_iff_compat. rewrite elem_of_freed. split.
    + intros (k & e & Hin & Hf). rewrite elem_of_reverse' in Hin. apply Hhi in Hin as [Hin Hab]. by exists k, e.
    + intros (k & e & Hin & Hab & Hf). exists k, e. split; [| done]. rewrite elem_of_reverse'. by apply Hhi.
  - intros (k & e & Hin & Hab) u Hu. destruct (Hu' ltac:(intros ->; apply (not_elem_of_nil (k, e)), Hhi; done) u Hu) as [Hne El].
    destruct (last_unstable_elem (oid v) lo u H2 El Hne) as (e' & He' & Hst). exists e'. split; [| done]. rewrite Hd', !elem_of_app. naive_solver.
Qed.

(** A stable small write and two synced big writes of an object, with their entries in
    the first block of the journal; the blocks 1 and 2 are in use. *)
Definition demo_entry (st loc : Z) : dirty_entry := mk_dirty st loc 0 4096 128 [].
Definition demo_object (v : Z) : obj_ver_id := mk_ov (mk_oid 1 0) v.
Definition used3 : allocator_t :=
  match set fresh3 1 true with Ok a => match set a 2 true with Ok a => a | Err _ => a end | Err _ => fresh3 end.
Definition three_versions : blockstore_impl_t :=
  with_dirty_db [(demo_object 1, demo_entry (Z.lor BS_ST_SMALL_WRITE BS_ST_STABLE) 0);
                 (demo_object 2, demo_entry (Z.lor BS_ST_BIG_WRITE BS_ST_SYNCED) (2 ^ 17));
                 (demo_object 3, demo_entry (Z.lor BS_ST_BIG_WRITE BS_ST_SYNCED) (2 * 2 ^ 17))]
    (with_unstable_writes {[ mk_oid 1 0 := 3 ]}
      (with_data_alloc used3 (demo_store 0 (with_used_sectors {[ 128 := 3 ]} (demo_journal 4 256 128)) (demo_op [] [])))).

Lemma used3_rep : rep used3 {[2; 1]} /\ a_size used3 = 3.
Proof.
  destruct (set_rep fresh3 none_used 1 true fresh3_rep ltac:(lia)) as (a1 & H1 & S1 & R1).
  destruct (set_rep a1 _ 2 true R1 ltac:(lia)) as (a2 & H2 & S2 & R2). unfold used3. rewrite H1, H2. rewrite S1 in *. split; [| done].
  rewrite !decide_True in R2 by done. replace ({[2; 1]} : gset Z) with ({[2]} ∪ ({[1]} ∪ none_used) : gset Z) by (apply set_eq; unfold none_used; set_solver). done.
Qed.

Lemma three_versions_books : books_ok three_versions.
Proof.
  constructor.
  - unfold db_ok. cbn. repeat (constructor; [| repeat constructor; vm_compute; reflexivity]). constructor.
  - pose proof (demo_ring 4 2 1 ltac:(lia) ltac:(lia) ltac:(lia)) as [[] R2 R3 R4 R5 R6]. constructor; try done.
    { intros s si Hs. destruct (R3 s si Hs). by constructor. }
    cbn [three_versions journal with_dirty_db with_unstable_writes with_data_alloc demo_store with_used_sectors used_sectors].
    intros k n [<- _]%lookup_singleton_Some. split_and!; cbn; [by exists 1 | lia | lia | done].
  - change (used_sectors (journal three_versions)) with ({[ 128 := 3 ]} : gmap Z Z). unfold three_versions. cbn [dirty_db with_dirty_db]. constructor.
    + intros s Hs. rewrite !dcount_cons, dcount_nil. unfold refers. cbn [snd journal_sector demo_entry]. destruct (Z.eqb_spec 128 s) as [<- | Hne]; [done |].
      rewrite lookup_singleton_ne by done. done.
    + intros s n [<- <-]%lookup_singleton_Some. lia.
  - done.
Qed.

Lemma rollback_ok_witness :
  exists b' U', mark_rolled_back (demo_object 1) three_versions = Ok b' /\ books_ok b' /\ rep (data_alloc b') U'
    /\ (forall k e, (k, e) ∈ dirty_db b' <-> (k, e) ∈ dirty_db three_versions /\ ~ above (demo_object 1) k)
    /\ (forall x, x ∈ U' <-> x ∈ ({[2; 1]} : gset Z) /\ ~ exists k e, (k, e) ∈ dirty_db three_versions /\ above (demo_object 1) k
          /\ frees UINT64_MAX e = true /\ location_block (cfg three_versions) e = x)
    /\ ((exists k e, (k, e) ∈ dirty_db three_versions /\ above (demo_object 1) k) -> forall u, unstable_writes b' !! mk_oid 1 0 = Some u ->
          exists e, (mk_ov (mk_oid 1 0) u, e) ∈ dirty_db b' /\ IS_STABLE (state e) = false).
Proof.
  apply (rollback_ok (demo_object 1) three_versions {[2; 1]}); [apply three_versions_books | apply used3_rep | |].
  - cbn. intros k e Hin. set_unfold. naive_solver (vm_compute; done).
  - unfold above. change (a_size (data_alloc three_versions)) with (a_size used3). rewrite (proj2 used3_rep). cbn. intros k e Hin.
    rewrite !elem_of_cons, elem_of_nil in Hin. destruct Hin as [[= -> ->] | [[= -> ->] | [[= -> ->] | []]]]; cbn; intros [_ H]; [lia | |]; split_and!; try done; vm_compute; done.
Defined.
