(* ===== verification/DirtyStable.v ===== *)
(** * Stabilization of versions

    [mark_stable]: which versions become stable, and what that does to the counters
    of used space and of versions to flush. *)

From S2P Require Import Prelude.
From S2P Require Import Allocator.
From S2P Require Import Journal.
From S2P Require Import JournalCheck.
From S2P Require Import Blockstore.
From S2P Require Import BlockstoreOps.
From S2P Require Import DirtyDb.
From S2P Require Import JournalRing.
From S2P Require Import JournalDemo.
From S2P Require Import DirtyBooks.

(** ** States *)

Lemma type_of_workflow st w : Z.land w BS_ST_TYPE_MASK = 0 -> Z.land (set_workflow st w) BS_ST_TYPE_MASK = Z.land st BS_ST_TYPE_MASK.
Proof.
  intros Hw. unfold set_workflow. rewrite Z.land_lor_distr_l, Hw, Z.lor_0_r, Z.ldiff_land, <- Z.land_assoc. done.
Qed.
Lemma workflow_set st w : Z.land w BS_ST_WORKFLOW_MASK = w -> workflow (set_workflow st w) = w.
Proof.
  intros Hw. unfold workflow, set_workflow. rewrite Z.land_lor_distr_l, Hw, Z.ldiff_land, <- Z.land_assoc.
  replace (Z.land (Z.lnot BS_ST_WORKFLOW_MASK) BS_ST_WORKFLOW_MASK) with 0 by done. by rewrite Z.land_0_r.
Qed.

Definition synced (e : dirty_entry) : bool := workflow (state e) =? BS_ST_SYNCED.
Definition make_stable (e : dirty_entry) : dirty_entry := with_state (set_workflow (state e) BS_ST_STABLE) e.
Definition big_or_delete (e : dirty_entry) : bool := IS_BIG_WRITE (state e) || IS_DELETE (state e).

Lemma make_stable_types e : IS_BIG_WRITE (state (make_stable e)) = IS_BIG_WRITE (state e) /\ IS_DELETE (state (make_stable e)) = IS_DELETE (state e)
  /\ IS_STABLE (state (make_stable e)) = true.
Proof.
  unfold IS_BIG_WRITE, IS_DELETE, IS_STABLE, make_stable. cbn [state with_state]. rewrite type_of_workflow, workflow_set by done. done.
Qed.
Lemma synced_stable e : synced e = true -> IS_STABLE (state e) = false.
Proof. unfold synced, IS_STABLE. intros ->%Z.eqb_eq. done. Qed.

(** ** The loop *)

(** The object exists after the versions [r] (the latest first), [base] without any. *)
Definition exists_after (base : bool) (r : dirty_db_t) : bool := match r with (_, e) :: _ => negb (IS_DELETE (state e)) | [] => base end.

Definition is_clean (b : blockstore_impl_t) (o : object_id) : bool := match clean_db b !! o with Some _ => true | None => false end.

Lemma exists_before_after o r pre b : of_object o r -> Forall (fun x => oid_lt (oid (fst x)) o) pre ->
  exists_before o (r ++ rev pre) b = exists_after (is_clean b o) r.
Proof.
  intros Hr Hp. destruct r as [| [k e] r]; cbn.
  - destruct (rev pre) as [| [k e] l] eqn:E; [done |]. cbn.
    assert (oid_lt (oid k) o) as Hlt by (apply (proj1 (Forall_forall _ _) Hp (k, e)); apply elem_of_reverse'; rewrite E; apply list_elem_of_here).
    destruct (oid_eqb (oid k) o) eqn:Eo; [| done]. apply oid_eqb_eq in Eo. rewrite Eo in Hlt. unfold oid_lt in Hlt. lia.
  - apply Forall_cons in Hr as [Hk _]. cbn in Hk. by rewrite Hk, oid_eqb_refl.
Qed.

(** The counters for the versions [l] (the latest first) before which there are [rest]. *)
Fixpoint count_all (o : object_id) (l rest : dirty_db_t) (b : blockstore_impl_t) : blockstore_impl_t :=
  match l with [] => b | (_, e) :: l => count_all o l rest (count_stable o (l ++ rest) (make_stable e) b) end.

Definition stab (x : obj_ver_id * dirty_entry) : obj_ver_id * dirty_entry := (fst x, if synced (snd x) then make_stable (snd x) else snd x).

Lemma loop_stop o k e suf b rpre : IS_STABLE (state e) = true -> stable_loop o false rpre k e suf b = Ok (with_dirty_db (rev rpre ++ (k, e) :: suf) b).
Proof.
  intros Hst. assert ((workflow (state e) =? BS_ST_SYNCED) = false /\ IS_IN_FLIGHT (state e) = false) as [E1 E2].
  { unfold IS_STABLE, IS_IN_FLIGHT in *. apply Z.eqb_eq in Hst. by rewrite Hst. }
  destruct rpre as [| [k' e'] r]; cbn [stable_loop]; rewrite E1, E2, Hst; cbn; by rewrite ?rev_append_rev, <- ?app_assoc.
Qed.

Lemma loop_step o rpre k e suf b : synced e = true ->
  let b1 := count_stable o rpre (make_stable e) b in
  stable_loop o false rpre k e suf b =
  match rpre with
  | (k', e') :: r =>
    if oid_eqb (oid k') o then stable_loop o false r k' e' ((k, make_stable e) :: suf) b1
    else Ok (with_dirty_db (rev rpre ++ (k, make_stable e) :: suf) b1)
  | [] => Ok (with_dirty_db ((k, make_stable e) :: suf) b1)
  end.
Proof.
  intros He. pose proof (synced_stable e He) as Hst. unfold synced in He. destruct rpre as [| [k' e'] r]; cbn [stable_loop]; rewrite He;
    fold (make_stable e); cbn [rbind andb]; rewrite Hst; [done |]. by rewrite rev_append_rev.
Qed.

Lemma loop_new o pre olds news k e suf b :
  synced e = true -> Forall (fun x => synced (snd x) = true) news -> Forall (fun x => IS_STABLE (state (snd x)) = true) olds ->
  of_object o (news ++ olds) -> Forall (fun x => oid_lt (oid (fst x)) o) pre ->
  stable_loop o false ((news ++ olds) ++ rev pre) k e suf b =
  Ok (with_dirty_db (pre ++ rev (map stab ((k, e) :: news) ++ olds) ++ suf) (count_all o ((k, e) :: news) (olds ++ rev pre) b)).
Proof.
  revert k e suf b. induction news as [| [k1 e1] news IH]; intros k e suf b He Hn Ho Hof Hp; rewrite loop_step by done; cbn zeta;
    (assert (stab (k, e) = (k, make_stable e)) as Hs by (unfold stab; cbn; by rewrite He)).
  - cbn [app map count_all]. rewrite Hs. destruct olds as [| [k' e'] olds]; cbn [app].
    + destruct (rev pre) as [| [k' e'] r] eqn:Er; cbn [rev app].
      { destruct pre as [| x pre]; [done |]. cbn in Er. by apply app_eq_nil in Er as [_ ?]. }
      assert (oid_lt (oid k') o) as Hlt by (apply (proj1 (Forall_forall _ _) Hp (k', e')); apply elem_of_reverse'; rewrite Er; apply list_elem_of_here).
      destruct (oid_eqb (oid k') o) eqn:Eo; [apply oid_eqb_eq in Eo; rewrite Eo in Hlt; unfold oid_lt in Hlt; lia |].
      rewrite <- (rev_involutive pre), Er. done.
    + apply Forall_cons in Hof as [Hk _], Ho as [Hst _]. cbn in Hk, Hst. rewrite Hk, oid_eqb_refl, loop_stop by done.
      cbn [rev]. rewrite rev_app_distr, rev_involutive, <- !app_assoc. done.
  - apply Forall_cons in Hn as [He1 Hn]. cbn [app] in *. apply Forall_cons in Hof as [Hk1 Hof]. cbn in Hk1, He1. rewrite Hk1, oid_eqb_refl, IH by done.
    cbn [map app rev count_all]. rewrite Hs, <- !app_assoc. done.
Qed.

(** ** The counters *)

(** Small writes and deletions are of objects that exist. *)
Fixpoint chain_ok (base : bool) (r : dirty_db_t) : Prop :=
  match r with
  | [] => True
  | (_, e) :: r => (IS_BIG_WRITE (state e) = true \/ exists_after base r = true) /\ chain_ok base r
  end.

Lemma count_stable_ok o r pre e b : of_object o r -> Forall (fun x => oid_lt (oid (fst x)) o) pre ->
  0 <= used_blocks b < 2 ^ 64 -> IS_BIG_WRITE (state e) = true \/ exists_after (is_clean b o) r = true ->
  exists st ub, count_stable o (r ++ rev pre) (make_stable e) b
      = with_big_to_flush (big_to_flush b + Z.b2z (big_or_delete e)) (with_used_blocks ub (with_inode_space_stats st b))
    /\ ub = u64 (used_blocks b + Z.b2z (negb (IS_DELETE (state e))) - Z.b2z (exists_after (is_clean b o) r)).
Proof.
  intros Hr Hp Hub Hc. destruct (make_stable_types e) as (T1 & T2 & _). unfold count_stable, big_or_delete. rewrite T1, T2.
  rewrite (exists_before_after o r pre b Hr Hp).
  assert (IS_BIG_WRITE (state e) = true -> IS_DELETE (state e) = false) as Hx by (unfold IS_BIG_WRITE, IS_DELETE; intros ->%Z.eqb_eq; done).
  destruct (IS_BIG_WRITE (state e)) eqn:Eb; cbn [orb].
  - rewrite (Hx eq_refl). cbn [negb Z.b2z]. destruct (exists_after _ _); cbn [Z.b2z].
    + exists (inode_space_stats b), (used_blocks b). split; [by destruct b |]. rewrite u64_small; lia.
    + eexists _, _. split; [done |]. f_equal. lia.
  - destruct Hc as [? | ->]; [done |]. destruct (IS_DELETE (state e)); cbn [Z.b2z negb].
    + eexists _, _. split; [done |]. f_equal. lia.
    + exists (inode_space_stats b), (used_blocks b). split; [destruct b; cbn; by rewrite Z.add_0_r |]. rewrite u64_small; lia.
Qed.

Lemma u64_plus x y : u64 (u64 x + y) = u64 (x + y).
Proof. apply Zplus_mod_idemp_l. Qed.

Lemma count_all_ok o l olds pre b : of_object o (l ++ olds) -> Forall (fun x => oid_lt (oid (fst x)) o) pre ->
  0 <= used_blocks b < 2 ^ 64 -> chain_ok (is_clean b o) (l ++ olds) ->
  exists st ub, count_all o l (olds ++ rev pre) b = with_big_to_flush (big_to_flush b + dcount big_or_delete l) (with_used_blocks ub (with_inode_space_stats st b))
    /\ ub = u64 (used_blocks b + Z.b2z (exists_after (is_clean b o) (l ++ olds)) - Z.b2z (exists_after (is_clean b o) olds)) /\ 0 <= ub < 2 ^ 64.
Proof.
  intros Hof Hp. revert b. induction l as [| [k e] l IH]; intros b Hub Hc; cbn [count_all app] in *.
  - exists (inode_space_stats b), (used_blocks b). split_and!; [destruct b; cbn; by rewrite Z.add_0_r | | lia | lia].
    rewrite Z.add_simpl_r, u64_small by lia. done.
  - destruct Hc as [Hc1 Hc]. apply Forall_cons in Hof as [Hk Hof].
    rewrite app_assoc. destruct (count_stable_ok o (l ++ olds) pre e b Hof Hp Hub Hc1) as (st1 & ub1 & -> & E1).
    assert (0 <= ub1 < 2 ^ 64) as Hub1 by (rewrite E1; apply u64_range).
    destruct (IH Hof (with_big_to_flush (big_to_flush b + Z.b2z (big_or_delete e)) (with_used_blocks ub1 (with_inode_space_stats st1 b))) Hub1 Hc) as (st2 & ub2 & -> & E2 & Hub2).
    exists st2, ub2. split_and!; [| | lia | lia].
    + cbn [big_to_flush with_big_to_flush with_used_blocks with_inode_space_stats]. rewrite dcount_cons. cbn [snd]. rewrite Z.add_assoc. done.
    + rewrite E2. cbn [used_blocks with_big_to_flush with_used_blocks]. rewrite E1.
      change (is_clean (with_big_to_flush _ _) o) with (is_clean b o). cbn [exists_after].
      rewrite <- Z.add_sub_assoc, u64_plus. f_equal. lia.
Qed.

(** ** Maps over the database *)

Lemma db_ok_keys d d' : map fst d = map fst d' -> db_ok d -> db_ok d'.
Proof.
  revert d'. induction d as [| x d IH]; intros [| y d'] E; try done. injection E as E1 E2. rewrite !db_ok_cons. intros [Hd Hx].
  split; [by apply IH |]. intros z Hz. unfold key_lt in *. rewrite <- E1.
  assert (fst z ∈ map fst d) as Hin by (rewrite E2; by apply list_elem_of_fmap_2). apply list_elem_of_fmap in Hin as (w & -> & Hw). by apply Hx.
Qed.

Lemma stab_fst x : fst (stab x) = fst x.
Proof. done. Qed.
Lemma map_stab_fst l : map fst (map stab l) = map fst l.
Proof. rewrite map_map. by apply map_ext. Qed.
Lemma dcount_refers_stab s l : dcount (refers s) (map stab l) = dcount (refers s) l.
Proof.
  induction l as [| x l IH]; [done |]. cbn [map]. rewrite !dcount_cons, IH. f_equal. f_equal. unfold refers, stab. cbn. by destruct (synced (snd x)).
Qed.
Lemma dcount_stab_synced l : Forall (fun x => synced (snd x) = true) l ->
  dcount stable_big (map stab l) = dcount big_or_delete l /\ dcount stable_big l = 0.
Proof.
  induction 1 as [| x l Hx Hl [IH1 IH2]]; [done |]. cbn [map]. rewrite !dcount_cons, IH1, IH2. unfold stab at 1. cbn [fst snd]. rewrite Hx.
  destruct (make_stable_types (snd x)) as (T1 & T2 & T3). unfold stable_big, big_or_delete. rewrite T1, T2, T3, (synced_stable _ Hx), andb_true_r, andb_false_r. done.
Qed.
Lemma map_id_on {A} (f : A -> A) l : Forall (fun x => f x = x) l -> map f l = l.
Proof. induction 1 as [| x l Hx Hl IH]; [done |]. cbn. by rewrite Hx, IH. Qed.
Lemma map_stab_stable l : Forall (fun x => IS_STABLE (state (snd x)) = true) l -> map stab l = l.
Proof.
  induction 1 as [| [k e] l Hx Hl IH]; [done |]. cbn. rewrite IH. f_equal. unfold stab. cbn. destruct (synced e) eqn:E; [| done].
  apply synced_stable in E. cbn in Hx. congruence.
Qed.

(** ** One object *)

(** Stable versions come first. *)
Definition stable_first (vers : dirty_db_t) : Prop :=
  forall l1 x l2, vers = l1 ++ x :: l2 -> IS_STABLE (state (snd x)) = true -> Forall (fun y => IS_STABLE (state (snd y)) = true) l1.

Lemma stable_split lo : stable_first lo -> Forall (fun x => synced (snd x) = true \/ IS_STABLE (state (snd x)) = true) lo ->
  exists olds news, lo = olds ++ news /\ Forall (fun x => IS_STABLE (state (snd x)) = true) olds /\ Forall (fun x => synced (snd x) = true) news.
Proof.
  induction lo as [| x lo IH] using rev_ind; intros Hf Hs; [by exists [], [] |]. apply Forall_app in Hs as [Hs [Hx _]%Forall_cons].
  destruct IH as (olds & news & -> & H1 & H2); [| done |].
  { intros l1 y l2 -> Hy. apply (Hf l1 y (l2 ++ [x])); [by rewrite <- app_assoc | done]. }
  destruct Hx as [Hx | Hx].
  - exists olds, (news ++ [x]). rewrite app_assoc. split_and!; [done | done |]. apply Forall_app. split; [done |]. by constructor.
  - pose proof (Hf (olds ++ news) x [] eq_refl Hx) as Hall. exists ((olds ++ news) ++ [x]), []. rewrite app_nil_r. split_and!; [done | | done].
    apply Forall_app. split; [done |]. by constructor.
Qed.

(** Is the object there, as far as it is stable? *)
Definition versions (o : object_id) (d : dirty_db_t) : dirty_db_t := filter (fun x => oid (fst x) = o) d.
Definition alive (o : object_id) (b : blockstore_impl_t) : bool :=
  exists_after (is_clean b o) (rev (filter (fun x => IS_STABLE (state (snd x)) = true) (versions o (dirty_db b)))).

Lemma filter_true {A} (P : A -> Prop) `{forall x, Decision (P x)} l : Forall P l -> filter P l = l.
Proof. induction 1 as [| x l Hx Hl IH]; [done |]. by rewrite filter_cons_True, IH. Qed.
Lemma filter_none {A} (P : A -> Prop) `{forall x, Decision (P x)} l : Forall (fun x => ~ P x) l -> filter P l = [].
Proof. induction 1 as [| x l Hx Hl IH]; [done |]. by rewrite filter_cons_False. Qed.

Lemma versions_split o pre vers suf : Forall (fun x => oid_lt (oid (fst x)) o) pre -> of_object o vers -> Forall (fun x => oid_lt o (oid (fst x))) suf ->
  versions o (pre ++ vers ++ suf) = vers.
Proof.
  intros H1 H2 H3. unfold versions. rewrite !filter_app.
  assert (forall a, ~ oid_lt a a) as Hirr by (intros a; unfold oid_lt; lia).
  rewrite (filter_none _ pre), (filter_true _ vers), (filter_none _ suf); [by rewrite app_nil_r | | done |].
  - eapply Forall_impl; [exact H3 |]. intros x Hx E. cbn in Hx, E. rewrite E in Hx. by eapply Hirr.
  - eapply Forall_impl; [exact H1 |]. intros x Hx E. cbn in Hx, E. rewrite E in Hx. by eapply Hirr.
Qed.

Lemma chain_ok_app base r1 r2 : chain_ok base (r1 ++ r2) -> chain_ok base r2.
Proof. induction r1 as [| [k e] r1 IH]; [done |]. cbn. intros [_ H]. by apply IH. Qed.

Lemma filter_stab_synced l : Forall (fun x => synced (snd x) = true) l ->
  filter (fun x => IS_STABLE (state (snd x)) = true) (map stab l) = map stab l /\ filter (fun x => IS_STABLE (state (snd x)) = true) l = [].
Proof.
  intros Hl. split.
  - apply filter_true. apply Forall_forall. intros y (x & -> & Hx)%list_elem_of_fmap. pose proof (proj1 (Forall_forall _ _) Hl x Hx) as Hs. cbn in Hs.
    unfold stab. cbn. rewrite Hs. apply make_stable_types.
  - apply filter_none. eapply Forall_impl; [exact Hl |]. cbn. intros x Hs%synced_stable. by rewrite Hs.
Qed.

(** Versions after an unstable one are not stable. *)
Lemma later_unstable lo k e hi : stable_first (lo ++ (k, e) :: hi) -> IS_STABLE (state e) = false ->
  filter (fun x => IS_STABLE (state (snd x)) = true) hi = [].
Proof.
  intros Hf He. apply filter_none, Forall_forall. intros x (l1 & l2 & ->)%list_elem_of_split Hx.
  specialize (Hf (lo ++ (k, e) :: l1) x l2). rewrite <- app_assoc in Hf. specialize (Hf eq_refl Hx). apply Forall_app in Hf as [_ [Hk _]%Forall_cons]. cbn in Hk. congruence.
Qed.

Section Core.
Context (o : object_id) (pre hi suf : dirty_db_t).
Hypothesis Hp : Forall (fun x => oid_lt (oid (fst x)) o) pre.
Hypothesis Hsuf : Forall (fun x => oid_lt o (oid (fst x))) suf.

(** The books after the versions [news] have become stable. *)
Lemma books_stab b b1 olds news :
  books_ok b -> dirty_db b = pre ++ ((olds ++ news) ++ hi) ++ suf -> Forall (fun x => synced (snd x) = true) news ->
  dirty_db b1 = pre ++ ((olds ++ map stab news) ++ hi) ++ suf -> journal b1 = journal b ->
  big_to_flush b1 = big_to_flush b + dcount big_or_delete news -> books_ok b1.
Proof.
  intros [B1 B2 B3 B4] Hd Hn Hd1 Hj Hbig. destruct (dcount_stab_synced news Hn) as [E1 E2]. constructor; rewrite ?Hd1, ?Hj.
  - eapply db_ok_keys; [| exact B1]. rewrite Hd, !map_app, map_stab_fst. done.
  - done.
  - destruct B3 as [R1 R2]. constructor; [| done]. intros s Hs. rewrite (R1 s Hs), Hd, !dcount_app, dcount_refers_stab. done.
  - rewrite Hbig, B4, Hd, !dcount_app. lia.
Qed.

Lemma alive_of b vers : dirty_db b = pre ++ vers ++ suf -> of_object o vers ->
  alive o b = exists_after (is_clean b o) (rev (filter (fun x => IS_STABLE (state (snd x)) = true) vers)).
Proof. intros Hd Hof. unfold alive. rewrite Hd, versions_split; done. Qed.

(** The loop over the versions [lo] and [(k, e)], after which there are [hi]. *)
Lemma stable_core lo k e b :
  of_object o (lo ++ (k, e) :: hi) -> books_ok b -> dirty_db b = pre ++ (lo ++ (k, e) :: hi) ++ suf -> 0 <= used_blocks b < 2 ^ 64 ->
  stable_first (lo ++ (k, e) :: hi) -> Forall (fun x => synced (snd x) = true \/ IS_STABLE (state (snd x)) = true) (lo ++ [(k, e)]) ->
  chain_ok (is_clean b o) (rev (lo ++ (k, e) :: hi)) ->
  exists b1, stable_loop o false (rev lo ++ rev pre) k e (hi ++ suf) b = Ok b1
    /\ dirty_db b1 = pre ++ (map stab (lo ++ [(k, e)]) ++ hi) ++ suf /\ books_ok b1
    /\ used_blocks b1 = u64 (used_blocks b + Z.b2z (alive o b1) - Z.b2z (alive o b))
    /\ flusher b1 = flusher b /\ unstable_writes b1 = unstable_writes b.
Proof.
  intros Hof HB Hd Hub Hfirst Hst Hchain. destruct (IS_STABLE (state e)) eqn:Ee.
  { rewrite loop_stop by done. exists b. pose proof (Hfirst lo (k, e) hi eq_refl Ee) as Hlo.
    rewrite map_stab_stable by (apply Forall_app; split; [done |]; by constructor).
    rewrite Z.add_simpl_r, u64_small by lia. split_and!; try done.
    - do 2 f_equal. rewrite rev_app_distr, !rev_involutive, <- app_assoc. rewrite <- app_assoc in Hd. cbn [app] in *. rewrite <- Hd. by destruct b.
    - rewrite Hd. by rewrite <- (app_assoc lo [(k, e)] hi). }
  assert (synced e = true) as He. { apply Forall_app in Hst as [_ [[? | ?] _]%Forall_cons]; [done |]. cbn in *. congruence. }
  destruct (stable_split lo) as (olds & news & -> & Holds & Hnews).
  { intros l1 y l2 -> Hy. apply (Hfirst l1 y (l2 ++ (k, e) :: hi)); [by rewrite <- app_assoc | done]. }
  { by apply Forall_app in Hst as [? _]. }
  assert (Forall (fun x => synced (snd x) = true) (news ++ [(k, e)])) as HN by (apply Forall_app; split; [done |]; by constructor).
  pose proof Hof as Hof'. rewrite <- app_assoc in Hof'. apply Forall_app in Hof' as [Ho1 [Ho2 [Ho3 Ho4]%Forall_cons]%Forall_app].
  rewrite rev_app_distr, loop_new; [| done | by apply Forall_rev | by apply Forall_rev | apply Forall_app; split; by apply Forall_rev | done].
  destruct (count_all_ok o ((k, e) :: rev news) (rev olds) pre b) as (st & ub & -> & Eub & _); [| done | done | |].
  { constructor; [done |]. apply Forall_app. split; by apply Forall_rev. }
  { rewrite rev_app_distr in Hchain. cbn [rev] in Hchain. rewrite <- app_assoc, rev_app_distr in Hchain. by eapply chain_ok_app. }
  assert (rev (map stab ((k, e) :: rev news) ++ rev olds) = olds ++ map stab (news ++ [(k, e)])) as Erev.
  { rewrite rev_app_distr, rev_involutive. f_equal. rewrite <- map_rev. cbn [rev]. by rewrite rev_involutive. }
  rewrite Erev. eexists. split; [done |]. set (b1 := with_dirty_db _ _).
  assert (dirty_db b1 = pre ++ ((olds ++ map stab (news ++ [(k, e)])) ++ hi) ++ suf) as Hd1 by (cbn; by rewrite !app_assoc).
  assert (of_object o ((olds ++ map stab (news ++ [(k, e)])) ++ hi)) as Hof1.
  { apply Forall_app. split; [| done]. apply Forall_app. split; [done |]. apply Forall_forall. intros y (x & -> & Hx)%list_elem_of_fmap. cbn.
    apply (proj1 (Forall_forall _ _) Hof). rewrite !elem_of_app in *. rewrite elem_of_cons. rewrite list_elem_of_singleton in Hx. naive_solver. }
  split_and!; try done.
  - rewrite Hd1, <- (app_assoc olds news), (map_app stab olds), (map_stab_stable olds) by done. done.
  - eapply (books_stab b b1 olds (news ++ [(k, e)])); [done | rewrite Hd; by rewrite <- !app_assoc | done | done | done |].
    cbn. rewrite !dcount_cons, dcount_app, dcount_rev, dcount_cons, dcount_nil. cbn. lia.
  - rewrite (alive_of b1 _ Hd1 Hof1), (alive_of b _ Hd Hof). rewrite !filter_app, filter_cons_False by (cbn; congruence).
    destruct (filter_stab_synced _ HN) as [F1 _]. destruct (filter_stab_synced _ Hnews) as [_ F2]. rewrite F1, F2, (filter_true _ olds Holds), (later_unstable _ _ _ _ Hfirst Ee), !app_nil_r.
    change (is_clean b1 o) with (is_clean b o). cbn [used_blocks b1 with_dirty_db with_big_to_flush with_used_blocks]. rewrite Eub. do 4 f_equal.
    rewrite map_app, rev_app_distr, rev_app_distr. cbn. rewrite He. destruct (make_stable_types e) as (_ & -> & _). done.
Qed.
End Core.

(** ** Which versions become stable *)

Lemma suf_other o (suf : dirty_db_t) k e s : Forall (fun x => oid_lt o (oid (fst x))) suf -> suf = (k, e) :: s -> oid_eqb (oid k) o = false.
Proof.
  intros H ->. apply Forall_cons in H as [H _]. cbn in H. apply oid_eqb_neq. intros E. rewrite E in H. unfold oid_lt in H. lia.
Qed.

Lemma advance_ok o hi (suf rpre : dirty_db_t) k e : of_object o hi -> Forall (fun x => oid_lt o (oid (fst x))) suf ->
  exists mid k' e' hi', advance_synced o rpre k e (hi ++ suf) = (rev mid ++ rpre, k', e', hi' ++ suf) /\ (k, e) :: hi = mid ++ (k', e') :: hi'
    /\ forall x, x ∈ mid ++ [(k', e')] -> x = (k, e) \/ IS_SYNCED (state (snd x)) = true.
Proof.
  intros Hof Hs. revert rpre k e. induction Hof as [| [k1 e1] hi Hk1 Hof IH]; intros rpre k e; cbn [app].
  - exists [], k, e, []. split_and!; [| done | intros x Hx%list_elem_of_singleton; by left].
    destruct suf as [| [k1 e1] s] eqn:Es; [done |]. cbn. rewrite <- Es in Hs. by rewrite (suf_other o suf k1 e1 s Hs Es).
  - cbn [advance_synced]. cbn in Hk1. rewrite Hk1, oid_eqb_refl. destruct (IS_SYNCED (state e1)) eqn:E1; cbn [andb].
    + destruct (IH ((k, e) :: rpre) k1 e1) as (mid & k' & e' & hi' & -> & Eh & Hx). exists ((k, e) :: mid), k', e', hi'. split_and!.
      * cbn [rev]. by rewrite <- app_assoc.
      * cbn. by rewrite Eh.
      * intros x [-> | Hin]%elem_of_cons; [by left |]. right. destruct (Hx x Hin) as [-> | H]; done.
    + exists [], k, e, ((k1, e1) :: hi). split_and!; [done | done | intros x Hx%list_elem_of_singleton; by left].
Qed.

Lemma unstable_before_elem o r : unstable_before o r = true -> exists k e, (k, e) ∈ r /\ oid k = o /\ IS_STABLE (state e) = false.
Proof.
  induction r as [| [k e] r IH]; [done |]. cbn. intros [Ho%oid_eqb_eq [Hs%negb_true_iff | Hr]%orb_true_iff]%andb_true_iff.
  - exists k, e. split_and!; [apply list_elem_of_here | done | done].
  - destruct (IH Hr) as (k' & e' & Hin & H). exists k', e'. split; [by apply list_elem_of_further | done].
Qed.

(** The state of the versions up to [k] of its object afterwards. *)
Definition stab_upto (k : obj_ver_id) (x : obj_ver_id * dirty_entry) : obj_ver_id * dirty_entry :=
  if oid_eqb (oid (fst x)) (oid k) && (version (fst x) <=? version k) then stab x else x.

Lemma map_stab_upto pre lo k e hi suf :
  Forall (fun x => oid_lt (oid (fst x)) (oid k)) pre -> of_object (oid k) (lo ++ (k, e) :: hi) -> Forall (fun x => oid_lt (oid k) (oid (fst x))) suf ->
  db_ok (lo ++ (k, e) :: hi) ->
  map (stab_upto k) (pre ++ (lo ++ (k, e) :: hi) ++ suf) = pre ++ (map stab (lo ++ [(k, e)]) ++ hi) ++ suf.
Proof.
  intros Hp Hof Hs Hd. assert (forall x, oid_lt (oid (fst x)) (oid k) \/ oid_lt (oid k) (oid (fst x)) -> stab_upto k x = x) as Hother.
  { intros x Hx. unfold stab_upto. destruct (oid_eqb _ _) eqn:E; [| done]. apply oid_eqb_eq in E. rewrite E in Hx. unfold oid_lt in Hx. lia. }
  apply db_ok_app in Hd as (_ & [_ Hhi]%db_ok_cons & Hlo). apply Forall_app in Hof as [Ho1 [_ Ho2]%Forall_cons].
  rewrite !map_app, (map_id_on _ pre), (map_id_on _ suf); [| eapply Forall_impl; [exact Hs |]; auto | eapply Forall_impl; [exact Hp |]; auto].
  f_equal. f_equal. cbn [map]. rewrite <- app_assoc. cbn [app]. f_equal; [| f_equal].
  - apply map_ext_Forall, Forall_forall. intros x Hx. unfold stab_upto. pose proof (proj1 (Forall_forall _ _) Ho1 x Hx) as E. cbn in E.
    specialize (Hlo x (k, e) Hx (list_elem_of_here _ _)). unfold key_lt in Hlo. rewrite ov_lt_iff in Hlo. cbn in Hlo.
    rewrite E, oid_eqb_refl, (proj2 (Z.leb_le _ _)); [done |]. rewrite E in Hlo. unfold oid_lt in Hlo. lia.
  - unfold stab_upto. cbn [fst]. by rewrite oid_eqb_refl, Z.leb_refl.
  - apply map_id_on, Forall_forall. intros x Hx. unfold stab_upto. pose proof (proj1 (Forall_forall _ _) Ho2 x Hx) as E. cbn in E.
    specialize (Hhi x Hx). unfold key_lt in Hhi. rewrite ov_lt_iff in Hhi. cbn in Hhi.
    rewrite E, oid_eqb_refl, (proj2 (Z.leb_gt _ _)); [done |]. rewrite E in Hhi. unfold oid_lt in Hhi. lia.
Qed.

Lemma workflow_16 st : exists q, workflow st = 16 * q.
Proof.
  exists (workflow st / 16). apply Z.div_exact; [done |]. unfold workflow, BS_ST_WORKFLOW_MASK.
  change 16 with (2 ^ 4). rewrite <- Z.land_ones, <- Z.land_assoc by done. change (Z.land 240 (Z.ones 4)) with 0. apply Z.land_0_r.
Qed.
Lemma synced_or_stable e : IS_SYNCED (state e) = true -> workflow (state e) <= BS_ST_STABLE -> synced e = true \/ IS_STABLE (state e) = true.
Proof.
  unfold IS_SYNCED, synced, IS_STABLE, BS_ST_STABLE, BS_ST_SYNCED. destruct (workflow_16 (state e)) as [q ->].
  intros H1%Z.leb_le H2. assert (q = 6 \/ q = 7) as [-> | ->] by lia; [by left | by right].
Qed.

Lemma find_version v e d : db_ok d -> (v, e) ∈ d ->
  exists pre lo hi suf, d = pre ++ (lo ++ (v, e) :: hi) ++ suf /\ Forall (fun x => oid_lt (oid (fst x)) (oid v)) pre
    /\ of_object (oid v) (lo ++ (v, e) :: hi) /\ Forall (fun x => oid_lt (oid v) (oid (fst x))) suf
    /\ db_find d v = Some (rev lo ++ rev pre, e, hi ++ suf).
Proof.
  intros Hd Hin. destruct (object_split d (oid v) Hd) as (pre & vers & suf & -> & H1 & H2 & H3).
  assert ((v, e) ∈ vers) as (lo & hi & ->)%list_elem_of_split.
  { assert (forall a, ~ oid_lt a a) as Hirr by (intros a; unfold oid_lt; lia). rewrite !elem_of_app in Hin. destruct Hin as [Hin | [Hin | Hin]]; [| done |].
    - destruct (Hirr _ (proj1 (Forall_forall _ _) H1 _ Hin)).
    - destruct (Hirr _ (proj1 (Forall_forall _ _) H3 _ Hin)). }
  exists pre, lo, hi, suf. split_and!; [done | done | done | done |]. rewrite <- rev_app_distr. rewrite <- (db_find_app (pre ++ lo) v e (hi ++ suf)).
  - f_equal. rewrite <- !app_assoc. done.
  - rewrite <- app_assoc in Hd. rewrite <- app_assoc. exact Hd.
Qed.

(** What [mark_stable] does after its loop. *)
Lemma stable_finish k b1 : let b' := forget_unstable k (with_flusher (enqueue_flush k (flusher b1)) b1) in
  dirty_db b' = dirty_db b1 /\ used_blocks b' = used_blocks b1 /\ (books_ok b1 -> books_ok b') /\ alive (oid k) b' = alive (oid k) b1
  /\ (exists u, flush_versions (flusher b') !! oid k = Some u /\ version k <= u)
  /\ forall u, unstable_writes b' !! oid k = Some u -> version k < u.
Proof.
  cbn zeta. set (b2 := with_flusher _ b1).
  assert (exists m, forget_unstable k b2 = with_unstable_writes m b2 /\ forall u, m !! oid k = Some u -> version k < u) as (m & -> & Hm).
  { unfold forget_unstable. destruct (unstable_writes b2 !! oid k) as [u |] eqn:E; [destruct (Z.leb_spec u (version k)) |].
    - exists (delete (oid k) (unstable_writes b2)). split; [done |]. intros u'. by rewrite lookup_delete_eq.
    - exists (unstable_writes b2). split; [by destruct b2 |]. intros u'. rewrite E. intros [= <-]. done.
    - exists (unstable_writes b2). split; [by destruct b2 |]. intros u'. congruence. }
  split_and!; [done | done | intros [B1 B2 B3 B4]; by constructor | done | | exact Hm].
  cbn. unfold enqueue_flush. set (f := match flush_versions (flusher b1) !! oid k with Some _ => _ | None => _ end).
  assert (flush_versions (start_dequeuing f false) = flush_versions f) as -> by (unfold start_dequeuing; by destruct (_ || _)). subst f.
  destruct (flush_versions (flusher b1) !! oid k) as [u |] eqn:E; cbn.
  - destruct (Z.ltb_spec u (version k)); [exists (version k); rewrite lookup_insert_eq; split; [done | lia] | exists u; split; [done | lia]].
  - exists (version k). rewrite lookup_insert_eq. split; [done | lia].
Qed.

(** What stabilization needs: books, stable versions first, writes and deletions that
    make sense, and everything up to [v] synced. *)
Record stable_ready (v : obj_ver_id) (b : blockstore_impl_t) : Prop := {
  sr_books : books_ok b;
  sr_used : 0 <= used_blocks b < 2 ^ 64;
  sr_first : stable_first (versions (oid v) (dirty_db b));
  sr_chain : chain_ok (is_clean b (oid v)) (rev (versions (oid v) (dirty_db b)));
  sr_states : forall k e, (k, e) ∈ dirty_db b -> oid k = oid v -> workflow (state e) <= BS_ST_STABLE;
  sr_synced : forall k e, (k, e) ∈ dirty_db b -> oid k = oid v -> version k <= version v -> IS_SYNCED (state e) = true }.

(** The state after the versions up to [k] have become stable. *)
Record stabilized (k : obj_ver_id) (b b' : blockstore_impl_t) : Prop := {
  sd_db : dirty_db b' = map (stab_upto k) (dirty_db b);
  sd_stable : forall k' e', (k', e') ∈ dirty_db b' -> oid k' = oid k -> version k' <= version k -> IS_STABLE (state e') = true;
  sd_books : books_ok b';
  sd_used : used_blocks b' = u64 (used_blocks b + Z.b2z (alive (oid k) b') - Z.b2z (alive (oid k) b));
  sd_flush : exists u, flush_versions (flusher b') !! oid k = Some u /\ version k <= u;
  sd_unstable : forall u, unstable_writes b' !! oid k = Some u -> version k < u }.

Lemma stabilize_at v b pre lo k e hi suf :
  stable_ready v b -> oid k = oid v -> dirty_db b = pre ++ (lo ++ (k, e) :: hi) ++ suf ->
  Forall (fun x => oid_lt (oid (fst x)) (oid k)) pre -> of_object (oid k) (lo ++ (k, e) :: hi) -> Forall (fun x => oid_lt (oid k) (oid (fst x))) suf ->
  (forall x, x ∈ lo ++ [(k, e)] -> IS_SYNCED (state (snd x)) = true) ->
  exists b', (let* b := stable_loop (oid k) false (rev lo ++ rev pre) k e (hi ++ suf) b in Ok (forget_unstable k (with_flusher (enqueue_flush k (flusher b)) b))) = Ok b'
    /\ stabilized k b b'.
Proof.
  intros [S1 S2 S3 S4 S5 _] Ek Hd Hp Hof Hs Hsync. rewrite <- Ek in *. rewrite Hd, versions_split in S3, S4 by done.
  assert (Forall (fun x => synced (snd x) = true \/ IS_STABLE (state (snd x)) = true) (lo ++ [(k, e)])) as Hst.
  { apply Forall_forall. intros [k1 e1] Hx. assert ((k1, e1) ∈ lo ++ (k, e) :: hi) as Hx' by (rewrite elem_of_app, elem_of_cons in *; rewrite elem_of_nil in Hx; naive_solver).
    apply synced_or_stable; [by apply (Hsync (k1, e1)) |]. apply (S5 k1 e1); [| apply (proj1 (Forall_forall _ _) Hof _ Hx')].
    rewrite Hd, !elem_of_app. right. left. rewrite elem_of_app in Hx'. done. }
  destruct (stable_core (oid k) pre hi suf Hp Hs lo k e b Hof S1 Hd S2 S3 Hst S4) as (b1 & -> & Hd1 & HB1 & Hu1 & _ & _).
  cbn [rbind]. eexists. split; [done |]. destruct (stable_finish k b1) as (F1 & F2 & F3 & F4 & F5 & F6). set (b' := forget_unstable _ _) in *.
  assert (db_ok (lo ++ (k, e) :: hi)) as Hok. { pose proof (bk_db b S1) as Hok. rewrite Hd in Hok. by apply db_ok_app in Hok as (_ & (? & _ & _)%db_ok_app & _). }
  pose proof (map_stab_upto pre lo k e hi suf Hp Hof Hs Hok) as Hmap.
  constructor; rewrite ?F1, ?F2, ?F4; try done; [| | by apply F3].
  - by rewrite Hd1, Hd, Hmap.
  - rewrite Hd1. intros k' e' Hin Eo Hv. rewrite !elem_of_app in Hin. apply db_ok_app in Hok as (_ & [_ Hhi]%db_ok_cons & _).
    assert (forall a, ~ oid_lt a a) as Hirr by (intros a; unfold oid_lt; lia). destruct Hin as [Hin | [[Hin | Hin] | Hin]].
    + pose proof (proj1 (Forall_forall _ _) Hp _ Hin) as Hlt. cbn in Hlt. rewrite Eo in Hlt. by destruct (Hirr _ Hlt).
    + apply list_elem_of_fmap in Hin as ([k1 e1] & E & Hx). injection E as -> ->. pose proof (proj1 (Forall_forall _ _) Hst _ Hx) as [Hy | Hy]; cbn in Hy.
      * rewrite Hy. apply make_stable_types.
      * destruct (synced e1); [apply make_stable_types | done].
    + specialize (Hhi _ Hin). unfold key_lt in Hhi. rewrite ov_lt_iff in Hhi. cbn in Hhi. rewrite Eo in Hhi. destruct Hhi as [Hlt | [_ ?]]; [by destruct (Hirr _ Hlt) | lia].
    + pose proof (proj1 (Forall_forall _ _) Hs _ Hin) as Hlt. cbn in Hlt. rewrite Eo in Hlt. by destruct (Hirr _ Hlt).
Qed.


(** A synced big write and a synced small write of a new object. *)
Definition two_versions (st1 st2 : Z) : blockstore_impl_t :=
  with_dirty_db [(demo_object 1, demo_entry (Z.lor st1 BS_ST_SYNCED) (2 ^ 17)); (demo_object 2, demo_entry (Z.lor st2 BS_ST_SYNCED) 0)]
    (with_unstable_writes {[ mk_oid 1 0 := 2 ]}
      (with_data_alloc used3 (demo_store 0 (with_used_sectors {[ 128 := 2 ]} (demo_journal 4 256 128)) (demo_op [] [])))).

Lemma two_versions_books : books_ok (two_versions BS_ST_BIG_WRITE BS_ST_SMALL_WRITE).
Proof.
  constructor.
  - unfold db_ok. cbn. repeat (constructor; [| repeat constructor; vm_compute; reflexivity]). constructor.
  - pose proof (demo_ring 4 2 1 ltac:(lia) ltac:(lia) ltac:(lia)) as [[] R2 R3 R4 R5 R6]. constructor; try done.
    { intros s si Hs. destruct (R3 s si Hs). by constructor. }
    cbn [two_versions journal with_dirty_db with_unstable_writes with_data_alloc demo_store with_used_sectors used_sectors].
    intros k n [<- _]%lookup_singleton_Some. split_and!; cbn; [by exists 1 | lia | lia | done].
  - change (used_sectors (journal (two_versions BS_ST_BIG_WRITE BS_ST_SMALL_WRITE))) with ({[ 128 := 2 ]} : gmap Z Z). unfold two_versions. cbn [dirty_db with_dirty_db]. constructor.
    + intros s Hs. rewrite !dcount_cons, dcount_nil. unfold refers. cbn [snd journal_sector demo_entry]. destruct (Z.eqb_spec 128 s) as [<- | Hne]; [done |].
      rewrite lookup_singleton_ne by done. done.
    + intros s n [<- <-]%lookup_singleton_Some. lia.
  - done.
Qed.

Lemma two_versions_ready : stable_ready (demo_object 2) (two_versions BS_ST_BIG_WRITE BS_ST_SMALL_WRITE).
Proof.
  constructor; [apply two_versions_books | done | | | |].
  - change (versions _ _) with (dirty_db (two_versions BS_ST_BIG_WRITE BS_ST_SMALL_WRITE)). cbn.
    intros [| y l1] x l2; [done |]. intros [= <- E] Hst. destruct l1 as [| z l1]; [injection E as <- <-; done |]. injection E as _ E. by destruct l1.
  - vm_compute. naive_solver.
  - cbn. intros k e Hin _. rewrite !elem_of_cons, elem_of_nil in Hin. destruct Hin as [[= -> ->] | [[= -> ->] | []]]; vm_compute; done.
  - cbn. intros k e Hin _ _. rewrite !elem_of_cons, elem_of_nil in Hin. destruct Hin as [[= -> ->] | [[= -> ->] | []]]; vm_compute; done.
Qed.

Definition small_synced : dirty_entry := demo_entry (Z.lor BS_ST_SMALL_WRITE BS_ST_SYNCED) 0.


(** An instant write that creates an object and a deletion of it, both synced. *)
Definition created_and_deleted : blockstore_impl_t := two_versions (Z.lor BS_ST_BIG_WRITE BS_ST_INSTANT) BS_ST_DELETE.

