(* ===== verification/JournalMain.v ===== *)
(** * Theorems about the journal

    A space check ends; after a successful one the batches of [dequeue_stable],
    [dequeue_rollback] and [continue_sync] are written without a failed assertion,
    in exactly as many sector writes as the check counted, none of them into the
    used part of the ring.  Cases in which the check succeeds and the batch fails. *)

From S2P Require Import Prelude.
From S2P Require Import Allocator.
From S2P Require Import Journal.
From S2P Require Import JournalCheck.
From S2P Require Import Blockstore.
From S2P Require Import BlockstoreOps.
From S2P Require Import DirtyDb.
From S2P Require Import JournalRing.
From S2P Require Import JournalBatch.
From S2P Require Import JournalItems.
From S2P Require Import JournalDemo.

(** ** The check ends *)

Definition ends {A} (m : res A) : Prop := (exists x, m = Ok x) \/ m = Err Thrown.

(** Moves until the first sector of the batch comes up again. *)
Definition moves_left (j : journal_t) (c : blockstore_journal_check_t) : Z := (first_sector c - next_sector c - 1) mod sector_count j.

Lemma moves_step n x y : 1 < n -> 0 <= x < n -> 0 <= y < n -> (y + 1) mod n <> x -> (x - (y + 1) mod n - 1) mod n < (x - y - 1) mod n.
Proof.
  intros Hn Hx Hy Hne. destruct (decide (y + 1 = n)) as [E | E].
  - rewrite E, Z.mod_same in * by lia. rewrite (Z.mod_small (x - 0 - 1)) by lia.
    rewrite <- (Z.mod_add (x - y - 1) 1), (Z.mod_small (x - y - 1 + 1 * n)) by lia. lia.
  - rewrite (Z.mod_small (y + 1)) in * by lia. destruct (decide (y + 1 < x)).
    + rewrite !Z.mod_small by lia. lia.
    + rewrite <- (Z.mod_add (x - y - 1) 1), <- (Z.mod_add (x - (y + 1) - 1) 1) by lia. rewrite !Z.mod_small by lia. lia.
Qed.

Lemma next_turn_ends fuel j size pn c n :
  geometry j ->
  (forall c', next_sector c' = (next_sector c + 1) mod sector_count j -> next_in_pos c' = 0 -> next_pos c' = advance j (next_pos c) ->
     first_sector c' = first_sector c -> next_sector c' <> first_sector c -> ends (check_loop fuel j size pn n c')) ->
  ends (next_turn fuel j size pn (c, n)).
Proof.
  intros G Hc. pose proof (g_sc j G). cbn [next_turn]. destruct (n <=? 0); [left; by eexists |].
  destruct (if len j <=? _ then _ else _) as [pos dir] eqn:E. cbn zeta.
  assert (pos = advance j (next_pos c)) as -> by (unfold advance; destruct (_ <=? _); by injection E as <- _).
  destruct (Z.eqb_spec ((next_sector c + 1) mod sector_count j) (first_sector c)); [by right |].
  pose proof (Z.mod_pos_bound (next_sector c + 1) (sector_count j) ltac:(lia)).
  destruct (aget_in_range (sector_info j) ((next_sector c + 1) mod sector_count j)) as [si ->]; [fold (zlen (sector_info j)); rewrite (g_info j G); lia |].
  cbn [rbind]. destruct (_ || _); [left; by eexists |]. by apply Hc.
Qed.

(** One turn: [f] entries fit. *)
Lemma turn_ends fuel j size pn n c :
  geometry j -> 0 < size <= block_size j -> 0 <= next_sector c < sector_count j ->
  (forall si f c', aget (sector_info j) (next_sector c) = Ok si -> check_fits j c si size = Ok f -> c' = fst (one_turn j pn n size f si c) ->
     ends (next_turn fuel j size pn (c', snd (one_turn j pn n size f si c)))) ->
  ends (check_loop (S fuel) j size pn n c).
Proof.
  intros G Hs Hn Hc. destruct (g_bs j G). rewrite check_loop_S.
  destruct (aget_in_range (sector_info j) (next_sector c)) as [si Hsi]; [fold (zlen (sector_info j)); rewrite (g_info j G); lia |].
  rewrite Hsi. cbn [rbind].
  assert (exists f, check_fits j c si size = Ok f) as [f Hf].
  { unfold check_fits. destruct (_ && _); [by eexists |]. rewrite (u64_small size), (proj2 (Z.eqb_neq size 0)) by lia. by eexists. }
  rewrite Hf. cbn [rbind]. specialize (Hc si f _ Hsi Hf eq_refl). by destruct (one_turn _ _ _ _ _ _ _).
Qed.

Lemma one_turn_same j pn n size f si c :
  let t := fst (one_turn j pn n size f si c) in
  next_sector t = next_sector c /\ next_pos t = next_pos c
  /\ first_sector t = if (0 <? f) && (first_sector c =? -1) then next_sector c else first_sector c.
Proof. cbn zeta. unfold one_turn. destruct (0 <? f); [| destruct (dirty si)]; cbn; done. Qed.

Lemma check_loop_first fuel j size pn n c :
  geometry j -> 0 < size <= block_size j -> 0 <= next_sector c < sector_count j -> 0 <= first_sector c < sector_count j ->
  moves_left j c < Z.of_nat fuel -> ends (check_loop fuel j size pn n c).
Proof.
  intros G Hs. pose proof (g_sc j G). revert n c. induction fuel as [| fuel IH]; intros n c Hn Hf Hd.
  { pose proof (Z.mod_pos_bound (first_sector c - next_sector c - 1) (sector_count j)). unfold moves_left in *. lia. }
  apply turn_ends; [done | done | done |]. intros si f c' _ _ ->. destruct (one_turn_same j pn n size f si c) as (E1 & _ & E2).
  rewrite (proj2 (Z.eqb_neq (first_sector c) (-1))), andb_false_r in E2 by lia.
  apply next_turn_ends; [done |]. intros c2 Hn2 _ _ Hf2 Hne. rewrite E1, E2 in *.
  pose proof (Z.mod_pos_bound (next_sector c + 1) (sector_count j) ltac:(lia)).
  apply IH; [lia | lia |]. unfold moves_left in *. rewrite Hn2, Hf2.
  pose proof (moves_step (sector_count j) (first_sector c) (next_sector c) ltac:(lia) Hf Hn ltac:(congruence)). lia.
Qed.

(** The turn in which the first entry is placed, and the one before it. *)
Lemma check_loop_second fuel j size pn n c :
  geometry j -> 0 < size <= block_size j -> 0 <= next_sector c < sector_count j -> first_sector c = -1 ->
  next_in_pos c = 0 -> next_pos c <> next_free j -> sector_count j <= Z.of_nat fuel -> ends (check_loop (S fuel) j size pn n c).
Proof.
  intros G Hs Hn Hf Hi Hp Hd. pose proof (g_sc j G). destruct (g_bs j G). apply turn_ends; [done | done | done |].
  intros si f c' _ Hfit ->. destruct (one_turn_same j pn n size f si c) as (E1 & _ & E2).
  unfold check_fits in Hfit. rewrite (proj2 (Z.eqb_neq (next_pos c) _)), andb_false_r in Hfit by done. cbn [andb] in Hfit.
  rewrite Hi, !u64_small, (proj2 (Z.eqb_neq size 0)) in Hfit by lia. injection Hfit as <-.
  assert (1 <= (block_size j - 0) / size) by (apply Z.div_le_lower_bound; lia).
  assert ((block_size j - 0) / size <= block_size j) by (apply Z.div_le_upper_bound; nia).
  rewrite i32_small in E1, E2 |- * by lia. rewrite Hf, (proj2 (Z.ltb_lt 0 _)) in E2 by lia. cbn [andb Z.eqb Pos.eqb] in E2.
  apply next_turn_ends; [done |]. intros c2 Hn2 _ _ Hf2 _. rewrite E1, E2 in *.
  pose proof (Z.mod_pos_bound (next_sector c + 1) (sector_count j) ltac:(lia)).
  apply check_loop_first; [done | done | lia | lia |]. pose proof (Z.mod_pos_bound (first_sector c2 - next_sector c2 - 1) (sector_count j)). unfold moves_left. lia.
Qed.

Lemma check_ends j n size d : geometry j -> 0 < size <= block_size j -> ends (check_available j (journal_check j) n size d).
Proof.
  intros G Hs. pose proof (g_sc j G). destruct (g_bs j G). unfold check_available. cbn [journal_check next_sector].
  assert (ends (check_loop (check_fuel j) j size (cur_sector j) n (journal_check j))) as [[[c w] ->] | ->].
  { unfold check_fuel. apply turn_ends; [done | done | apply (g_cur j G) |]. intros si f c' _ _ ->.
    destruct (one_turn_same j (cur_sector j) n size f si (journal_check j)) as (E1 & E2 & E3). cbn in E1, E2, E3. rewrite andb_true_r in E3.
    apply next_turn_ends; [done |]. intros c2 Hn2 Hi2 Hp2 Hf2 _. rewrite E1, E2, E3 in *. pose proof (g_cur j G).
    pose proof (Z.mod_pos_bound (cur_sector j + 1) (sector_count j) ltac:(lia)). destruct (0 <? f).
    - apply check_loop_first; [done | done | lia | lia |]. pose proof (Z.mod_pos_bound (first_sector c2 - next_sector c2 - 1) (sector_count j)). unfold moves_left. lia.
    - apply check_loop_second; [done | done | lia | done | done | | lia]. rewrite Hp2. rewrite <- (posn_0 j G) at 1. rewrite (posn_step j 0 G) by lia. apply posn_ne; [done | lia]. }
  - cbn [rbind]. destruct (negb (w =? 0)); [left; by eexists |]. cbn zeta. destruct (negb _ && _); left; by eexists.
  - by right.
Qed.

(** C21: [check_available] ends: for entries that are not larger than a block it
    gives an answer or throws "Can't fit", whatever the state of the ring is, how
    many entries are asked for and how much data follows them. *)
Theorem check_terminates j n size d :
  geometry j -> 0 < size <= block_size j ->
  (exists c w, check_available j (journal_check j) n size d = Ok (c, w)) \/ check_available j (journal_check j) n size d = Err Thrown.
Proof. intros G Hs. destruct (check_ends j n size d G Hs) as [[[c w] E] | E]; [left; by eexists _, _ | by right]. Qed.

Lemma check_terminates_witness :
  (exists c w, check_available (demo_journal 4 128 128) (journal_check (demo_journal 4 128 128)) 7 40 0 = Ok (c, w))
  \/ check_available (demo_journal 4 128 128) (journal_check (demo_journal 4 128 128)) 7 40 0 = Err Thrown.
Proof. apply check_terminates; [apply (r_geo _ (demo_ring 4 1 1 ltac:(lia) ltac:(lia) ltac:(lia))) | cbn; lia]. Defined.

(** ** Batches after a successful check *)

(** What a batch of entries for the operation [o] needs. *)
Record can_write (b : blockstore_impl_t) (o : nat) (op : op_t) : Prop := {
  cw_ring : ring_ok (journal b);
  cw_op : ops b !! o = Some op;
  cw_flushed : 0 <= min_flushed_journal_sector op <= sector_count (journal b);
  cw_id : submit_id (journal b) + sector_count (journal b) < 2 ^ 64 - 1;
  cw_wrap : no_double_wrap (journal b) }.

(** A sector write that leaves the used part of the ring alone: it is the current
    sector that is written again, or a sector outside of the used part. *)
Definition spares_used (b : blockstore_impl_t) (io : io_t) : Prop :=
  match io with
  | JournalSectorWrite _ _ off =>
    (exists si, aget (sector_info (journal b)) (cur_sector (journal b)) = Ok si /\ off = sector_offset si) \/ in_used_part (journal b) off = false
  | _ => False
  end.

(** The state after a batch that was expected to take [n] sector writes. *)
Record batch_written (b b' : blockstore_impl_t) (n : Z) : Prop := {
  bw_ring : ring_ok (journal b');
  bw_clean : exists si, aget (sector_info (journal b')) (cur_sector (journal b')) = Ok si /\ dirty si = false /\ 0 < flush_count si;
  bw_start : used_start (journal b') = used_start (journal b);
  bw_writes : exists l, ring b' = ring b ++ l /\ Forall (spares_used b) l /\ zlen l <= n;
  bw_sqes : sqes_left b - n <= sqes_left b' }.

Lemma batch_done_written b b' b2 o op si0 K n :
  aget (sector_info (journal b)) (cur_sector (journal b)) = Ok si0 ->
  batch_done b o op si0 K b' n -> journal b2 = journal b' -> ring b2 = ring b' -> sqes_left b2 = sqes_left b' -> batch_written b b2 n.
Proof.
  intros Hsi0 [D1 D2 D3 D4 (l & D5 & D6 & D7) D8 D9] Ej Er Es. constructor; rewrite ?Ej, ?Er, ?Es; try done.
  exists l. split_and!; [done | | done]. eapply Forall_impl; [exact D6 |]. intros []; cbn; try done. intros [-> | H]; [left; by exists si0 | by right].
Qed.

Lemma upd_op_some b o f op : ops b !! o = Some op -> upd_op b o f = Ok (with_ops (<[o := f op]> (ops b)) b).
Proof. intros H. unfold upd_op, get_op. by rewrite H. Qed.

Lemma map_all {A} (f : A -> Z) l n : (forall x, x ∈ l -> f x = n) -> map f l = replicate (Z.to_nat (zlen l)) n.
Proof.
  intros H. unfold zlen. rewrite Nat2Z.id. induction l as [| x l IH]; [done |]. cbn. rewrite (H x (list_elem_of_here _ _)), IH; [done |].
  intros y Hy. by apply H, list_elem_of_further.
Qed.

Lemma cur_info j : geometry j -> exists si, aget (sector_info j) (cur_sector j) = Ok si.
Proof. intros G. apply aget_in_range. fold (zlen (sector_info j)). rewrite (g_info j G). apply (g_cur j G). Qed.

(** The batch loop after a check that counted the sectors. *)
Lemma checked_batch {A} (size : A -> blockstore_impl_t -> res Z) put sz ready b o op (x : A) l c K :
  batch_items size put sz ready -> can_write b o op -> ready (x :: l) b ->
  Forall (fun x => 40 <= sz x <= block_size (journal b)) (x :: l) ->
  checked (journal b) (map sz (x :: l)) c K -> sectors_to_write c <= sqes_left b ->
  exists b' op', write_batch size put o (x :: l) 0 b = Ok (b', sectors_to_write c) /\ ops b' !! o = Some op'
    /\ forall f, batch_written b (with_ops f b') (sectors_to_write c).
Proof.
  intros Hit [Hr Hop Hfl Hid Hw] Hrd Hsz [M1 M2 M3 M4 M5] Hsq. pose proof (M5 _ _ eq_refl) as Hc. destruct (cur_info _ (r_geo _ Hr)) as [si0 Hsi0].
  destruct (batch_ok size put sz ready b o op si0 K Hit Hr M2 M3 Hw M4 Hop Hfl Hid Hsi0 x l Hrd Hsz) as (b' & Hb' & Hd & _); [done | lia |].
  rewrite <- Hc in *. destruct (bd_op _ _ _ _ _ _ _ Hd) as (op' & Hop' & _). exists b', op'. split_and!; [done | done |].
  intros f. by eapply batch_done_written.
Qed.

Lemma versions_written type o b op c :
  can_write b o op -> 40 <= block_size (journal b) -> op_vers op <> [] -> zlen (op_vers op) < 2 ^ 31 ->
  check_available (journal b) (journal_check (journal b)) (zlen (op_vers op)) 40 0 = Ok (c, 0) ->
  sectors_to_write c <= sector_count (journal b) - 2 -> sectors_to_write c <= sqes_left b ->
  exists b', write_versions type 40 o b = Ok (b', 1) /\ batch_written b b' (sectors_to_write c)
    /\ op_state <$> ops b' !! o = Some 1.
Proof.
  intros Hcw Hbs Hne Hlen Hc Hle Hsq. pose proof (r_geo _ (cw_ring _ _ _ Hcw)) as G. pose proof (zlen_nonneg (op_vers op)).
  unfold write_versions, get_op. rewrite (cw_op _ _ _ Hcw). cbn [rbind]. unfold space_available.
  rewrite i32_small, Hc by lia. cbn [rbind Z.eqb negb]. rewrite (proj2 (Z.ltb_ge _ _)) by done.
  destruct (op_vers op) as [| v l] eqn:Ev; [done |]. rewrite zlen_cons in *. pose proof (zlen_nonneg l).
  destruct (check_batch (journal b) (1 + zlen l) 40 c G ltac:(lia) ltac:(lia) Hc Hle) as [K HK].
  destruct (checked_batch _ _ (fun _ => 40) _ b o op v l c K (ov_items type 40 ltac:(done)) Hcw) as (b' & op' & -> & Hop' & Hw); try done.
  { apply Forall_forall. intros ? _. lia. }
  { rewrite (map_all _ _ 40), zlen_cons by done. done. }
  cbn [rbind]. rewrite Z.eqb_refl, (upd_op_some _ _ _ _ Hop'). cbn [rbind]. eexists. split_and!; [done | apply Hw |]. cbn. by rewrite lookup_insert_eq.
Qed.


(** Four stabilizations in a ring of seven sector buffers. *)
Definition demo_stable : op_t := demo_op (map demo_version [0; 1; 2; 3]) [].
Definition demo_stable_store : blockstore_impl_t := demo_store 0 (demo_journal 7 128 128) demo_stable.


(** ** Big writes of a sync *)

(** The big writes are in the database, and their entries fit in a block. *)
Definition big_in_db (b : blockstore_impl_t) (l : list obj_ver_id) : Prop :=
  db_ok (dirty_db b) /\ forall v, v ∈ l -> exists e, (v, e) ∈ dirty_db b
    /\ 0 <= dirty_dyn_size (cfg b) (offset e) (entry_len e) <= zlen (dyn_data e)
    /\ sizeof_big_write + dirty_dyn_size (cfg b) (offset e) (entry_len e) <= block_size (journal b).

Definition big_size (b : blockstore_impl_t) (v : obj_ver_id) : Z := match big_entry_size v b with Ok n => n | Err _ => 0 end.

Lemma big_in_db_ready b l : big_in_db b l -> big_ready (big_size b) l b /\ Forall (fun v => 40 <= big_size b v <= block_size (journal b)) l.
Proof.
  intros [Hd Hl]. assert (forall v e, (v, e) ∈ dirty_db b -> big_size b v = sizeof_big_write + dirty_dyn_size (cfg b) (offset e) (entry_len e)) as Hs.
  { intros v e He. unfold big_size, big_entry_size. by rewrite (proj2 (db_at_elem _ _ _ Hd) He). }
  split; [split; [done |] | apply Forall_forall]; intros v Hv; destruct (Hl v Hv) as (e & He & H1 & H2).
  - exists e. split_and!; [done | by apply Hs | lia | lia].
  - rewrite (Hs v e He). unfold sizeof_big_write in *. lia.
Qed.

Lemma sync_check_ok o v l b b1 c :
  geometry (journal b) -> big_in_db b (v :: l) -> zlen (v :: l) < 2 ^ 31 -> 0 <= clean_entry_bitmap_size (cfg b) < 2 ^ 32 -> sync_check o (v :: l) b = Ok (b1, c, true) ->
  sectors_to_write c <= sector_count (journal b) - 2 -> b1 = b /\ exists K, checked (journal b) (map (big_size b) (v :: l)) c K.
Proof.
  intros G Hdb Hlen Hcb. pose proof (zlen_nonneg l). destruct (big_in_db_ready b _ Hdb) as [Hr Hsz]. unfold sync_check.
  destruct (Z.eqb_spec (csum_block_size (cfg b)) 0) as [E0 | E0]; cbn [negb].
  - unfold space_available. rewrite zlen_cons in *. rewrite i32_small by lia.
    destruct (check_available _ _ _ _ _) as [[c1 w] |] eqn:E; [| done]. cbn [rbind]. destruct (Z.eqb_spec w 0) as [-> |].
    2: { destruct (w =? WAIT_JOURNAL); (destruct (upd_op _ _ _); [| done]); cbn [rbind]; done. }
    intros [= <- <-] Hle. split; [done |].
    assert (forall x, x ∈ v :: l -> big_size b x = sizeof_big_write + u64 (clean_entry_bitmap_size (cfg b))) as Hall.
    { intros x Hx. destruct Hr as [Hd Hl]. destruct (Hl x Hx) as (e & He & -> & _). unfold dirty_dyn_size. rewrite E0. cbn. by rewrite Z.add_0_r. }
    rewrite u64_small in Hall by lia. rewrite (map_all _ _ (sizeof_big_write + clean_entry_bitmap_size (cfg b))), zlen_cons by done. apply (check_batch _ _ _ _ G); [| lia | done | done].
    apply Forall_cons in Hsz as [Hv _]. rewrite (Hall v (list_elem_of_here _ _)) in Hv. lia.
  - intros Hc Hle. eapply check_each_ok; try done. eapply Forall_impl; [exact Hsz |]. cbn. lia.
Qed.

Lemma sync_written o b op b1 c :
  can_write b o op -> sync_big_writes op <> [] -> zlen (sync_big_writes op) < 2 ^ 31 -> big_in_db b (sync_big_writes op) ->
  0 <= clean_entry_bitmap_size (cfg b) < 2 ^ 32 ->
  sync_check o (sync_big_writes op) b = Ok (b1, c, true) ->
  sectors_to_write c <= sector_count (journal b) - 2 -> sectors_to_write c <= sqes_left b ->
  exists b', sync_write_entries o b = Ok (b', 1) /\ batch_written b b' (sectors_to_write c)
    /\ op_state <$> ops b' !! o = Some SYNC_JOURNAL_WRITE_SENT.
Proof.
  intros Hcw Hne Hlen Hdb Hcb Hc Hle Hsq. pose proof (r_geo _ (cw_ring _ _ _ Hcw)) as G.
  unfold sync_write_entries, get_op. rewrite (cw_op _ _ _ Hcw). cbn [rbind]. rewrite Hc. cbn [rbind negb].
  destruct (sync_big_writes op) as [| v l] eqn:Ev; [done |].
  destruct (sync_check_ok o v l b b1 c G Hdb Hlen Hcb Hc Hle) as [-> [K HK]]. rewrite (proj2 (Z.ltb_ge _ _)) by done.
  destruct (big_in_db_ready b _ Hdb) as [Hr Hsz].
  destruct (checked_batch _ _ _ _ b o op v l c K (big_items (big_size b)) Hcw) as (b' & op' & -> & Hop' & Hw); try done.
  cbn [rbind]. rewrite Z.eqb_refl, (upd_op_some _ _ _ _ Hop'). cbn [rbind]. eexists. split_and!; [done | apply Hw |]. cbn. by rewrite lookup_insert_eq.
Qed.

(** The same for the entries of the big writes of a sync, with checksums (one
    check per entry) and without: after a successful check they are written without a
    failed assertion, every version finds its place in the database, and exactly the
    counted sectors are written, none of them in the used part of the ring. *)
Theorem sync_batch_ok o b op b1 c :
  can_write b o op -> sync_big_writes op <> [] -> zlen (sync_big_writes op) < 2 ^ 31 -> big_in_db b (sync_big_writes op) ->
  0 <= clean_entry_bitmap_size (cfg b) < 2 ^ 32 ->
  sync_check o (sync_big_writes op) b = Ok (b1, c, true) ->
  sectors_to_write c <= sector_count (journal b) - 2 -> sectors_to_write c <= sqes_left b ->
  exists b', sync_write_entries o b = Ok (b', 1) /\ batch_written b b' (sectors_to_write c)
    /\ op_state <$> ops b' !! o = Some SYNC_JOURNAL_WRITE_SENT.
Proof. apply sync_written. Qed.

(** Three big writes with checksums. *)
Definition demo_sync : op_t := demo_op [] (map demo_version [0; 1; 2]).
Definition demo_sync_store : blockstore_impl_t := demo_store 4 (demo_journal 7 128 128) demo_sync.

Lemma demo_sync_db : big_in_db demo_sync_store (sync_big_writes demo_sync).
Proof.
  split.
  - unfold db_ok. cbn. repeat (constructor; [| repeat constructor]). constructor.
  - intros v Hv. exists (mk_dirty 0 0 0 4096 0 (repeat 0 8)). split; [| done]. cbn in Hv. by apply (list_elem_of_fmap_2 (fun v => (v, mk_dirty 0 0 0 4096 0 (repeat 0 8)))) in Hv.
Qed.

Lemma sync_batch_ok_witness :
  exists b', sync_write_entries 0 demo_sync_store = Ok (b', 1) /\ batch_written demo_sync_store b' 2
    /\ op_state <$> ops b' !! 0%nat = Some SYNC_JOURNAL_WRITE_SENT.
Proof.
  apply (sync_batch_ok 0 demo_sync_store demo_sync demo_sync_store (mk_check 384 2 64 2 1 true)); [| done | done | apply demo_sync_db | done | | done | done].
  - constructor; [apply (demo_ring 7 1 1); lia | done | done | done | left; done].
  - vm_compute. reflexivity.
Defined.

(** ** A check that succeeds before a batch that fails *)

(** The used part of the ring starts at its last but one block and ends right before
    it; ten entries need four blocks. *)
Definition full_store : blockstore_impl_t :=
  demo_store 0 (demo_journal 7 (128 * 13) (128 * 14)) (demo_op (map demo_version [0; 1; 2; 3; 4; 5; 6; 7; 8; 9]) []).


(** Twelve entries need all of the four sector buffers. *)
Definition all_buffers_store : blockstore_impl_t :=
  demo_store 0 (demo_journal 4 128 128) (demo_op (map demo_version [0; 1; 2; 3; 4; 5; 6; 7; 8; 9; 10; 11]) []).

(** When a batch needs all the sector buffers and the current one is full, clean
    and not in flight, the check comes back to the buffer it started from and does not
    count it: it finds one sector write less than the batch makes, and the assertion
    after the batch fails. *)
Theorem check_misses_last_sector :
  ring_ok (journal all_buffers_store)
  /\ (exists c, check_available (journal all_buffers_store) (journal_check (journal all_buffers_store)) 12 40 0 = Ok (c, 0) /\ sectors_to_write c = 3)
  /\ (exists b, write_batch (fun _ _ => Ok 40) (put_ov JE_STABLE 40) 0 (map demo_version [0; 1; 2; 3; 4; 5; 6; 7; 8; 9; 10; 11]) 0 all_buffers_store = Ok (b, 4))
  /\ write_versions JE_STABLE sizeof_stable 0 all_buffers_store = Err AssertFailed.
Proof.
  split_and!; [apply (demo_ring 4 1 1); lia | eexists; split; vm_compute; reflexivity | eexists; vm_compute; reflexivity | vm_compute; reflexivity].
Qed.
