(* ===== verification/JournalCompletion.v ===== *)
(** * Completion of journal writes

    [handle_journal_write] for the sector writes of [flushing_ops], in whatever order
    they complete: which operations go on, and when. *)

From stdpp Require Import sorting.
From S2P Require Import Prelude.
From S2P Require Import Journal.
From S2P Require Import JournalCheck.
From S2P Require Import Blockstore.
From S2P Require Import BlockstoreOps.
From S2P Require Import DirtyDb.
From S2P Require Import JournalRing.
From S2P Require Import JournalBatch.
From S2P Require Import JournalDemo.

(** ** Release of the sectors of an operation *)

(** The journal up to the position in the current sector and the start of the
    unsynced part. *)
Definition same_but_start (j j' : journal_t) : Prop := exists pos ds, j' = with_in_sector_pos pos (with_dirty_start ds j).

Lemma same_but_start_refl j : same_but_start j j.
Proof. exists (in_sector_pos j), (dirty_start j). by destruct j. Qed.
Lemma same_but_start_trans j1 j2 j3 : same_but_start j1 j2 -> same_but_start j2 j3 -> same_but_start j1 j3.
Proof. intros (p & d & ->) (p' & d' & ->). by exists p', d'. Qed.

Lemma release_sector_ok s j : 1 <= s <= zlen (sector_info j) -> exists j', release_sector s j = Ok j' /\ same_but_start j j'.
Proof.
  intros Hs. unfold release_sector. destruct (aget_in_range (sector_info j) (s - 1)) as [si ->]; [unfold zlen in *; lia |]. cbn [rbind].
  destruct (_ && _); [| eexists; split; [done | apply same_but_start_refl]].
  set (j1 := if s =? _ then _ else _). assert (same_but_start j j1) as H1.
  { subst j1. destruct (s =? _); [exists (block_size j), (dirty_start j); by destruct j | apply same_but_start_refl]. }
  set (nd := if len j1 <=? _ then _ else _). destruct (_ <? _); (eexists; split; [done |]); [| done].
  destruct H1 as (p & d & ->). by exists p, nd.
Qed.

Lemma step_back n x y : 1 < n -> 1 <= x <= n -> 1 <= y <= n -> y <> x -> (x - (1 + y mod n)) mod n = (x - y) mod n - 1.
Proof.
  intros Hn Hx Hy Hne. destruct (decide (y = n)) as [-> | E].
  - rewrite Z.mod_same, (Z.mod_small (x - (1 + 0))) by lia. rewrite <- (Z.mod_add (x - n) 1), (Z.mod_small (x - n + 1 * n)) by lia. lia.
  - rewrite (Z.mod_small y) by lia. destruct (decide (y < x)).
    + rewrite !Z.mod_small by lia. lia.
    + rewrite <- (Z.mod_add (x - y) 1), <- (Z.mod_add (x - (1 + y)) 1) by lia. rewrite !Z.mod_small by lia. lia.
Qed.

Lemma release_loop_ok fuel s last j :
  zlen (sector_info j) = sector_count j -> 1 <= s <= sector_count j -> 1 <= last <= sector_count j ->
  (last - s) mod sector_count j < Z.of_nat fuel ->
  exists j', release_loop fuel s last j = Ok j' /\ same_but_start j j'.
Proof.
  revert s j. induction fuel as [| fuel IH]; intros s j Hi Hs Hl Hf.
  { pose proof (Z.mod_pos_bound (last - s) (sector_count j)). lia. }
  cbn [release_loop]. destruct (release_sector_ok s j) as (j1 & -> & H1); [lia |]. cbn [rbind].
  destruct (Z.eqb_spec s last) as [-> | Hne]; [by exists j1 |].
  assert (sector_count j1 = sector_count j /\ sector_info j1 = sector_info j) as [Ec Ei] by (destruct H1 as (p & d & ->); done).
  destruct (IH (1 + s mod sector_count j1) j1) as (j2 & H2 & H12).
  - congruence.
  - rewrite Ec. pose proof (Z.mod_pos_bound s (sector_count j)). lia.
  - lia.
  - rewrite Ec. assert (1 < sector_count j) by lia.
    pose proof (Z.mod_pos_bound s (sector_count j) ltac:(lia)).
    assert ((last - (1 + s mod sector_count j)) mod sector_count j = (last - s) mod sector_count j - 1) as ->; [| lia].
    by apply step_back.
  - exists j2. split; [done | by eapply same_but_start_trans].
Qed.

(** The sectors an operation has flushed, and its pending requests. *)
Definition flushed_ok (n : Z) (op : op_t) : Prop :=
  0 <= min_flushed_journal_sector op <= n /\ 0 <= max_flushed_journal_sector op <= n.

Lemma release_ok o b op :
  ops b !! o = Some op -> zlen (sector_info (journal b)) = sector_count (journal b) -> flushed_ok (sector_count (journal b)) op ->
  exists b' op', release_journal_sectors o b = Ok b' /\ ops b' = <[o := op']> (ops b) /\ same_but_start (journal b) (journal b')
    /\ pending_ops op' = pending_ops op /\ op_state op' = op_state op /\ flushed_ok (sector_count (journal b)) op'.
Proof.
  intros Hop Hi [Hmin Hmax]. unfold release_journal_sectors, get_op. rewrite Hop. cbn [rbind].
  destruct (_ && _) eqn:E.
  - apply andb_true_iff in E as [E1%Z.ltb_lt E2%Z.ltb_lt].
    destruct (release_loop_ok (S (Z.to_nat (sector_count (journal b)))) (min_flushed_journal_sector op) (max_flushed_journal_sector op) (journal b))
      as (j' & -> & Hj'); [done | lia | lia | pose proof (Z.mod_pos_bound (max_flushed_journal_sector op - min_flushed_journal_sector op) (sector_count (journal b))); lia |].
    cbn [rbind]. unfold upd_op, get_op. cbn. rewrite Hop. cbn [rbind]. eexists _, _. split_and!; [done | done | done | done | done |].
    split; cbn; lia.
  - exists b, op. rewrite insert_id by done. split_and!; try done. apply same_but_start_refl.
Qed.

Lemma complete_one_ok o b op :
  ops b !! o = Some op -> 0 < pending_ops op -> zlen (sector_info (journal b)) = sector_count (journal b) -> flushed_ok (sector_count (journal b)) op ->
  exists b' op', complete_one o b = Ok b' /\ ops b' = <[o := op']> (ops b) /\ same_but_start (journal b) (journal b')
    /\ pending_ops op' = pending_ops op - 1 /\ op_state op' = op_state op + (if pending_ops op =? 1 then 1 else 0)
    /\ flushed_ok (sector_count (journal b)) op'.
Proof.
  intros Hop Hp Hi Hf. unfold complete_one, get_op. rewrite Hop. cbn [rbind]. rewrite (proj2 (Z.leb_le _ _)) by lia.
  unfold upd_op at 1, get_op. rewrite Hop. cbn [rbind]. set (b1 := with_ops _ b).
  assert (ops b1 !! o = Some (set_pending_ops (pending_ops op - 1) op)) as Hop1 by (cbn; apply lookup_insert_eq).
  destruct (Z.eqb_spec (pending_ops op - 1) 0) as [E | E].
  - destruct (release_ok o b1 _ Hop1) as (b2 & op2 & -> & H2 & Hj & Hp2 & Hs2 & Hf2); [done | exact Hf |]. cbn [rbind].
    unfold upd_op, get_op. rewrite H2, lookup_insert_eq. cbn [rbind]. eexists _, (set_op_state (op_state op2 + 1) op2). split_and!; [done | | exact Hj | | | exact Hf2].
    + cbn. rewrite !insert_insert_eq. done.
    + cbn in *. lia.
    + cbn in *. rewrite (proj2 (Z.eqb_eq _ _)) by lia. lia.
  - eexists b1, _. split_and!; [done | done | apply same_but_start_refl | done | | exact Hf]. rewrite (proj2 (Z.eqb_neq (pending_ops op) 1)) by lia. cbn. lia.
Qed.

(** ** Entries of the operations *)

Abbreviation flushing_t := (list (Z * pending_journaling_t)).

Definition entries (o : nat) (l : flushing_t) : Z := zlen (filter (fun x => pending_op (snd x) = o) l).

Lemma entries_cons o x l : entries o (x :: l) = (if decide (pending_op (snd x) = o) then 1 else 0) + entries o l.
Proof. unfold entries. rewrite filter_cons. destruct (decide _); [by rewrite zlen_cons | done]. Qed.
Lemma entries_app o l1 l2 : entries o (l1 ++ l2) = entries o l1 + entries o l2.
Proof. unfold entries. by rewrite filter_app, zlen_app. Qed.
Lemma entries_nonneg o l : 0 <= entries o l.
Proof. apply zlen_nonneg. Qed.

(** [r o] requests of each operation have completed. *)
Definition progress (n : Z) (r : nat -> Z) (m m' : gmap nat op_t) : Prop :=
  forall o, match m !! o with
  | None => m' !! o = None
  | Some op => exists op', m' !! o = Some op' /\ pending_ops op' = pending_ops op - r o
      /\ op_state op' = op_state op + (if (0 <? r o) && (pending_ops op' =? 0) then 1 else 0)
      /\ (flushed_ok n op -> flushed_ok n op')
  end.

Lemma progress_refl n m r : (forall o, r o = 0) -> progress n r m m.
Proof. intros Hr o. destruct (m !! o) as [op |]; [| done]. exists op. rewrite Hr. cbn. split_and!; [done | lia | lia | done]. Qed.

Lemma progress_trans n r1 r2 r m1 m2 m3 :
  progress n r1 m1 m2 -> progress n r2 m2 m3 -> (forall o, 0 <= r1 o /\ 0 <= r2 o /\ r o = r1 o + r2 o) ->
  (forall o op, m1 !! o = Some op -> 0 < r o -> r o <= pending_ops op) -> progress n r m1 m3.
Proof.
  intros H1 H2 Hr Hc o. specialize (H1 o). specialize (H2 o). specialize (Hr o). specialize (Hc o). destruct (m1 !! o) as [op |].
  - destruct H1 as (op1 & E1 & P1 & S1 & F1). rewrite E1 in H2. destruct H2 as (op2 & E2 & P2 & S2 & F2). specialize (Hc op eq_refl).
    exists op2. split_and!; [done | lia | | auto]. rewrite S2, S1, P2, P1.
    destruct (Z.ltb_spec 0 (r1 o)), (Z.ltb_spec 0 (r2 o)), (Z.ltb_spec 0 (r o)); cbn [andb]; try lia;
      repeat match goal with |- context [?x =? ?y] => destruct (Z.eqb_spec x y) end; lia.
  - by rewrite H1 in H2.
Qed.

(** The operations of the entries are there and wait for them. *)
Definition covers (n : Z) (m : gmap nat op_t) (l : flushing_t) : Prop :=
  forall o, 0 < entries o l -> exists op, m !! o = Some op /\ entries o l <= pending_ops op /\ flushed_ok n op.

Lemma covers_tail n m r m' x l :
  covers n m (x :: l) -> progress n r m m' -> (forall o, r o <= if decide (pending_op (snd x) = o) then 1 else 0) -> covers n m' l.
Proof.
  intros Hc Hp Hr o Ho. specialize (Hp o). specialize (Hr o). rewrite ?entries_cons in *. destruct (Hc o) as (op & Hop & He & Hf).
  { rewrite entries_cons. destruct (decide _); lia. }
  rewrite Hop in Hp. destruct Hp as (op' & Hop' & P & _ & F). rewrite entries_cons in He. exists op'. split_and!; [done | | auto].
  destruct (decide _); lia.
Qed.

(** What is left of the entries from [flush_id] on. *)
Definition after_write (flush_id : Z) (is_first : bool) (l : flushing_t) : flushing_t :=
  omap (fun '(k, p) => if k =? flush_id then if is_first then None else Some (k, mk_pending 0 (sector p) (pending_op p))
    else if pending p =? 0 then None else Some (k, p)) l.

Lemma entries_after id f o l : 0 <= entries o l - entries o (after_write id f l).
Proof.
  induction l as [| [k p] l IH]; [done |]. unfold after_write in *. cbn [omap list_omap]. rewrite entries_cons.
  destruct (k =? id); [destruct f | destruct (pending p =? 0)]; rewrite ?entries_cons; cbn [snd pending_op]; destruct (decide _); lia.
Qed.

Lemma write_loop_ok id f l acc b :
  let n := sector_count (journal b) in
  zlen (sector_info (journal b)) = n -> covers n (ops b) l ->
  exists b', journal_write_loop id f acc l b = Ok (rev acc ++ after_write id f l, b') /\ same_but_start (journal b) (journal b')
    /\ progress n (fun o => entries o l - entries o (after_write id f l)) (ops b) (ops b').
Proof.
  revert acc b. induction l as [| [k p] l IH]; intros acc b n Hi Hc.
  { exists b. cbn [journal_write_loop after_write omap list_omap]. rewrite rev_append_rev. split_and!; [done | apply same_but_start_refl | by apply progress_refl]. }
  cbn [journal_write_loop]. set (x := if k =? id then _ else _).
  assert (after_write id f ((k, p) :: l) = (if snd x then [] else [(k, fst x)]) ++ after_write id f l /\ pending_op (fst x) = pending_op p) as [Ha Eo].
  { unfold after_write, x. cbn [omap list_omap]. destruct (k =? id); [destruct f | destruct (pending p =? 0)]; done. }
  rewrite Ha. destruct x as [p' del]. cbn [fst snd] in *. destruct del.
  - destruct (Hc (pending_op p)) as (op & Hop & He & Hf).
    { rewrite entries_cons, decide_True by done. pose proof (entries_nonneg (pending_op p) l). lia. }
    rewrite entries_cons, decide_True in He by done. pose proof (entries_nonneg (pending_op p) l).
    rewrite Eo. destruct (complete_one_ok (pending_op p) b op) as (b1 & op1 & -> & Hops & Hj & Hp & Hs & Hf1); [done | lia | done | done |].
    cbn [rbind]. assert (progress n (fun o => if decide (pending_op p = o) then 1 else 0) (ops b) (ops b1)) as P1.
    { intros o. rewrite Hops. destruct (decide (pending_op p = o)) as [<- | Hne].
      - rewrite Hop, lookup_insert_eq. exists op1. split_and!; [done | lia | | done]. cbn.
        rewrite Hs, Hp. destruct (Z.eqb_spec (pending_ops op) 1), (Z.eqb_spec (pending_ops op - 1) 0); lia.
      - rewrite lookup_insert_ne by done. destruct (ops b !! o) as [op0 |]; [| done]. exists op0. cbn. split_and!; [done | lia | lia | done]. }
    assert (sector_count (journal b1) = n /\ sector_info (journal b1) = sector_info (journal b)) as [En Ei] by (destruct Hj as (? & ? & ->); done).
    destruct (IH acc b1) as (b2 & Hl & Hj2 & P2); [congruence | |].
    { rewrite En. eapply covers_tail; [exact Hc | exact P1 |]. intros o. cbn. done. }
    rewrite En in P2. exists b2. split_and!; [done | by eapply same_but_start_trans |]. cbn [app].
    eapply progress_trans; [exact P1 | exact P2 | |].
    + intros o. cbn. rewrite entries_cons. cbn. pose proof (entries_after id f o l). destruct (decide _); lia.
    + intros o op0 Ho Hr. cbn in Hr. destruct (Hc o) as (op' & Ho' & He' & _); [pose proof (entries_nonneg o (after_write id f l)); lia |].
      rewrite Ho in Ho'. injection Ho' as <-. pose proof (entries_nonneg o (after_write id f l)). lia.
  - destruct (IH ((k, p') :: acc) b) as (b' & Hl & Hj & P); [done | |].
    { eapply covers_tail; [exact Hc | by apply (progress_refl n _ (fun _ => 0)) |]. intros o. cbn. destruct (decide _); lia. }
    exists b'. split_and!; [| done |].
    + rewrite Hl. cbn [rev]. by rewrite <- app_assoc.
    + intros o. specialize (P o). cbn [app]. rewrite !entries_cons. cbn [snd]. rewrite Eo. destruct (ops b !! o); [| done].
      match type of P with context [?a - ?b] => replace ((if decide (pending_op p = o) then 1 else 0) + entries o l - ((if decide (pending_op p = o) then 1 else 0) + entries o (after_write id f l))) with (a - b) by lia end. done.
Qed.

(** ** The writes in flight *)

Definition pending_keys (l : flushing_t) : gset Z := list_to_set (fst <$> filter (fun x => pending (snd x) <> 0) l).
Definition sector_keys (l : flushing_t) (s : Z) : gset Z := list_to_set (fst <$> filter (fun x => pending (snd x) <> 0 /\ sector (snd x) = s) l).

Lemma elem_of_pending_keys k l : k ∈ pending_keys l <-> exists p, (k, p) ∈ l /\ pending p <> 0.
Proof.
  unfold pending_keys. rewrite elem_of_list_to_set, list_elem_of_fmap. split.
  - intros ([k' p] & -> & [Hp Hl]%list_elem_of_filter). by exists p.
  - intros (p & Hl & Hp). exists (k, p). split; [done |]. by apply list_elem_of_filter.
Qed.
Lemma elem_of_sector_keys k l s : k ∈ sector_keys l s <-> exists p, (k, p) ∈ l /\ pending p <> 0 /\ sector p = s.
Proof.
  unfold sector_keys. rewrite elem_of_list_to_set, list_elem_of_fmap. split.
  - intros ([k' p] & -> & [[Hp Hs] Hl]%list_elem_of_filter). by exists p.
  - intros (p & Hl & Hp). exists (k, p). split; [done |]. by apply list_elem_of_filter.
Qed.

Definition key_le (x y : Z * pending_journaling_t) : Prop := fst x <= fst y.

(** Operations wait for journal writes: their entries are ordered, entries of the same
    write agree, the first of them has not completed, and the sector buffers count the
    writes that are in flight. *)
Record waiting (b : blockstore_impl_t) : Prop := {
  w_info : zlen (sector_info (journal b)) = sector_count (journal b);
  w_sorted : StronglySorted key_le (flushing_ops (journal b));
  w_head : match flushing_ops (journal b) with (_, p) :: _ => pending p <> 0 | [] => True end;
  w_key : forall k p q, (k, p) ∈ flushing_ops (journal b) -> (k, q) ∈ flushing_ops (journal b) -> sector p = sector q /\ pending p = pending q;
  w_range : forall k p, (k, p) ∈ flushing_ops (journal b) -> sector p < sector_count (journal b);
  w_ops : covers (sector_count (journal b)) (ops b) (flushing_ops (journal b));
  w_flush : forall s si, aget (sector_info (journal b)) s = Ok si ->
    flush_count si = Z.of_nat (size (sector_keys (flushing_ops (journal b)) s)) /\ flush_count si < 2 ^ 64 }.

Lemma split_flushing_ok id l :
  StronglySorted key_le l ->
  exists before from, split_flushing id l = (before, from) /\ l = before ++ from
    /\ (forall k p, (k, p) ∈ before -> k < id) /\ (forall k p, (k, p) ∈ from -> id <= k).
Proof.
  induction 1 as [| [k p] l Hs IH Hf]; [exists [], []; split_and!; [done | done | by intros ? ? ?%elem_of_nil | by intros ? ? ?%elem_of_nil] |].
  cbn [split_flushing]. destruct (Z.ltb_spec k id) as [H | H].
  - destruct IH as (before & from & -> & -> & H1 & H2). exists ((k, p) :: before), from. split_and!; [done | done | | done].
    intros k' p' [[= <- <-] | Hin]%elem_of_cons; [done | by eapply H1].
  - exists [], ((k, p) :: l). split_and!; [done | done | by intros ? ? ?%elem_of_nil |].
    intros k' p' [[= <- <-] | Hin]%elem_of_cons; [done |]. rewrite Forall_forall in Hf. specialize (Hf _ Hin). unfold key_le in Hf. cbn in Hf. lia.
Qed.

Lemma elem_of_after id f l k p :
  (k, p) ∈ after_write id f l <->
  (k = id /\ f = false /\ exists q, (id, q) ∈ l /\ p = mk_pending 0 (sector q) (pending_op q)) \/ (k <> id /\ pending p <> 0 /\ (k, p) ∈ l).
Proof.
  unfold after_write. rewrite list_elem_of_omap. split.
  - intros ([k' q] & Hin & E). destruct (Z.eqb_spec k' id) as [-> | Hne]; [destruct f; [done |] | destruct (Z.eqb_spec (pending q) 0); [done |]];
      injection E as <- <-; [left; eauto | right; done].
  - intros [(-> & -> & q & Hin & ->) | (Hne & Hp & Hin)]; eexists; (split; [exact Hin |]); cbn beta iota.
    + by rewrite Z.eqb_refl.
    + by rewrite (proj2 (Z.eqb_neq k id)), (proj2 (Z.eqb_neq (pending p) 0)) by done.
Qed.

Lemma after_key id f l x : x ∈ after_write id f l -> exists y, y ∈ l /\ fst y = fst x.
Proof. destruct x as [k p]. intros [(-> & _ & q & H & _) | (_ & _ & H)]%elem_of_after; eauto. Qed.

Lemma after_sorted id f l : StronglySorted key_le l -> StronglySorted key_le (after_write id f l).
Proof.
  induction 1 as [| [k p] l Hs IH Hf]; [constructor |].
  assert (forall q, Forall (key_le (k, q)) (after_write id f l)) as Hall.
  { intros q. apply Forall_forall. intros x Hx. destruct (after_key _ _ _ _ Hx) as (y & Hy & E). rewrite Forall_forall in Hf.
    specialize (Hf _ Hy). unfold key_le in *. cbn in *. lia. }
  unfold after_write in *. cbn [omap list_omap]. destruct (k =? id); [destruct f | destruct (pending p =? 0)]; try done; by constructor.
Qed.

(** The list after the write [id] of [before ++ from] has completed. *)
Section Step.
Context (id : Z) (before from : flushing_t).
Hypothesis Hbefore : forall k p, (k, p) ∈ before -> k < id.
Let f := bool_decide (before = []).
Let old := before ++ from.
Let new := before ++ after_write id f from.

Lemma still_pending k p : ((k, p) ∈ new /\ pending p <> 0) <-> ((k, p) ∈ old /\ pending p <> 0 /\ k <> id).
Proof.
  unfold new, old. rewrite !elem_of_app, elem_of_after. split.
  - intros [[Hin | [(-> & _ & q & _ & ->) | (Hne & _ & Hin)]] Hp]; [| done |]; split_and!; try done; [by left | | by right]. specialize (Hbefore _ _ Hin). lia.
  - intros [[Hin | Hin] [Hp Hne]]; (split; [| done]); [by left |]. right. by right.
Qed.

Lemma new_elem k p : (k, p) ∈ new -> (k = id /\ pending p = 0 /\ exists q, (id, q) ∈ old /\ sector q = sector p) \/ (k <> id /\ (k, p) ∈ old).
Proof.
  unfold new, old. rewrite !elem_of_app, elem_of_after. intros [Hin | [(-> & _ & q & Hin & ->) | (Hne & _ & Hin)]].
  - right. split; [specialize (Hbefore _ _ Hin); lia | by left].
  - left. split_and!; [done | done |]. exists q. split; [apply elem_of_app; by right | done].
  - right. split; [done | by right].
Qed.

Lemma new_pending_keys : pending_keys new = pending_keys old ∖ {[id]}.
Proof.
  apply set_eq. intros k. rewrite elem_of_difference, elem_of_singleton, !elem_of_pending_keys. split.
  - intros (p & H). apply still_pending in H as (H1 & H2 & H3). eauto.
  - intros [(p & H1 & H2) H3]. exists p. by apply still_pending.
Qed.

Lemma new_sector_keys s : sector_keys new s = sector_keys old s ∖ {[id]}.
Proof.
  apply set_eq. intros k. rewrite elem_of_difference, elem_of_singleton, !elem_of_sector_keys. split.
  - intros (p & H1 & H2 & H3). destruct (proj1 (still_pending k p) (conj H1 H2)) as (H4 & _ & H5). eauto.
  - intros [(p & H1 & H2 & H4) H3]. exists p. destruct (proj2 (still_pending k p)) as [H5 _]; done.
Qed.

Lemma new_head : match old with (_, p) :: _ => pending p <> 0 | [] => True end -> match new with (_, p) :: _ => pending p <> 0 | [] => True end.
Proof.
  unfold old, new, f. destruct before as [| x l]; [| done]. cbn [app]. intros _.
  destruct (after_write id (bool_decide (@nil (Z * pending_journaling_t) = [])) from) as [| [k p] l] eqn:E; [done |].
  rewrite bool_decide_eq_true_2 in E by done. assert ((k, p) ∈ after_write id true from) as [(_ & ? & _) | (_ & Hp & _)]%elem_of_after; [rewrite E; apply list_elem_of_here | done | done].
Qed.

Lemma new_sorted : StronglySorted key_le old -> StronglySorted key_le new.
Proof.
  unfold old, new. rewrite !StronglySorted_app. intros (Hx & H1 & H2). split_and!; [| done | by apply after_sorted].
  intros x y Hin Hy. destruct (after_key _ _ _ _ Hy) as (y' & Hy' & E). specialize (Hx x y' Hin Hy'). unfold key_le in *. lia.
Qed.

Lemma new_entries o : entries o new = entries o old - (entries o from - entries o (after_write id f from)).
Proof. unfold new, old. rewrite !entries_app. lia. Qed.
End Step.

(** ** One completion *)

Lemma sector_keys_del l l' s id : sector_keys l' s = sector_keys l s ∖ {[id]} ->
  Z.of_nat (size (sector_keys l' s)) = Z.of_nat (size (sector_keys l s)) - (if decide (id ∈ sector_keys l s) then 1 else 0).
Proof.
  intros ->. destruct (decide (id ∈ sector_keys l s)) as [Hin | Hout].
  - rewrite size_difference, size_singleton by set_solver.
    assert (size (sector_keys l s) <> 0%nat) by (intros E%size_empty_inv; set_solver). lia.
  - rewrite difference_disjoint by set_solver. lia.
Qed.

(** The decrement of the sector's counter. *)
Definition finish_flush (id : Z) (from : flushing_t) (j : journal_t) : res journal_t :=
  match from with
  | (k, p) :: _ =>
    if (k =? id) && (0 <=? sector p) then
      let* si := aget (sector_info j) (sector p) in
      let* infos := aset (sector_info j) (sector p)
        (mk_sector (sector_offset si) (u64 (flush_count si - 1)) (written si) (dirty si) (sector_submit_id si)) in
      Ok (with_sector_info infos j)
    else Ok j
  | [] => Ok j
  end.

Lemma first_from id from p : StronglySorted key_le from -> (forall k p, (k, p) ∈ from -> id <= k) -> (id, p) ∈ from -> exists q l, from = (id, q) :: l.
Proof.
  intros Hs Hf Hin. destruct from as [| [k q] l]; [by apply elem_of_nil in Hin |]. exists q, l. do 2 f_equal.
  apply StronglySorted_cons in Hs as [Ha _]. rewrite Forall_forall in Ha. specialize (Hf k q (list_elem_of_here _ _)).
  apply elem_of_cons in Hin as [[= -> ->] | Hin]; [done |]. specialize (Ha _ Hin). unfold key_le in Ha. cbn in Ha. lia.
Qed.

Lemma finish_flush_ok id q l j (n : Z -> Z) :
  zlen (sector_info j) = sector_count j -> sector q < sector_count j ->
  (forall s si, aget (sector_info j) s = Ok si -> flush_count si = n s /\ n s < 2 ^ 64) -> (0 <= sector q -> 1 <= n (sector q)) ->
  exists infos, finish_flush id ((id, q) :: l) j = Ok (with_sector_info infos j) /\ zlen infos = sector_count j
    /\ forall s si, aget infos s = Ok si -> flush_count si = n s - (if decide (s = sector q) then 1 else 0).
Proof.
  intros Hi Hq Hn H1. cbn [finish_flush]. rewrite Z.eqb_refl. cbn [andb]. destruct (Z.leb_spec 0 (sector q)).
  - destruct (aget_in_range (sector_info j) (sector q)) as [si Hsi]; [unfold zlen in *; lia |]. rewrite Hsi. cbn [rbind].
    destruct (Hn _ _ Hsi) as [Hc Hm]. rewrite u64_small by lia. rewrite aset_in_range by (unfold zlen in *; lia). cbn [rbind].
    eexists. split_and!; [done | unfold zlen in *; by rewrite length_insert |]. intros s si'. rewrite aget_insert by (unfold zlen in *; lia).
    case_bool_decide as E; [intros [= <-]; subst s; rewrite decide_True by done; cbn; lia |].
    rewrite decide_False by congruence. intros Hs. destruct (Hn _ _ Hs). lia.
  - exists (sector_info j). split_and!; [by destruct j | done |]. intros s si Hs. pose proof (aget_lt _ _ _ Hs).
    destruct (Hn _ _ Hs). rewrite decide_False by lia. lia.
Qed.

Lemma completion_ok id b :
  waiting b -> id ∈ pending_keys (flushing_ops (journal b)) ->
  exists b', handle_journal_write id b = Ok b' /\ waiting b' /\ sector_count (journal b') = sector_count (journal b)
    /\ pending_keys (flushing_ops (journal b')) = pending_keys (flushing_ops (journal b)) ∖ {[id]}
    /\ progress (sector_count (journal b)) (fun o => entries o (flushing_ops (journal b)) - entries o (flushing_ops (journal b'))) (ops b) (ops b')
    /\ forall o, entries o (flushing_ops (journal b')) <= entries o (flushing_ops (journal b)).
Proof.
  intros [W1 W2 W3 W4 W5 W6 W7] (p & Hin & Hp)%elem_of_pending_keys. unfold handle_journal_write.
  destruct (split_flushing_ok id _ W2) as (before & from & -> & E & Hb & Hf). fold (finish_flush id from (journal b)). rewrite E in *.
  assert ((id, p) ∈ from) as Hin'. { apply elem_of_app in Hin as [Hin | Hin]; [specialize (Hb _ _ Hin); lia | done]. }
  pose proof W2 as Hs2. apply StronglySorted_app in Hs2 as (_ & _ & Hsf). destruct (first_from id from p Hsf Hf Hin') as (q & l & Eq).
  assert ((id, q) ∈ before ++ from) as Hq by (rewrite Eq; apply elem_of_app; right; apply list_elem_of_here).
  destruct (W4 _ _ _ Hin Hq) as [Esec Epend].
  assert (forall s, id ∈ sector_keys (before ++ from) s <-> s = sector q) as Hkeys.
  { intros s. rewrite elem_of_sector_keys. split; [intros (p' & H1 & _ & <-); by apply W4 with id | intros ->; by exists p]. }
  destruct (finish_flush_ok id q l (journal b) (fun s => Z.of_nat (size (sector_keys (before ++ from) s)))) as (infos & Hfin & Hinf & Hcnt).
  { done. }
  { by apply (W5 id). }
  { intros s si Hs. destruct (W7 _ _ Hs). lia. }
  { intros _. assert (size (sector_keys (before ++ from) (sector q)) <> 0%nat); [| lia].
    intros E0%size_empty_inv. specialize (proj2 (Hkeys (sector q)) eq_refl). set_solver. }
  rewrite <- Eq in Hfin. rewrite Hfin. cbn [rbind].
  destruct (write_loop_ok id (bool_decide (before = [])) from [] (with_journal (with_sector_info infos (journal b)) b)) as (b2 & -> & (pos & ds & Hj) & P).
  { done. }
  { intros o Ho. cbn in *. destruct (W6 o) as (op & Hop & He & Hfl); rewrite entries_app in *; pose proof (entries_nonneg o before); [lia |].
    exists op. split_and!; [done | lia | done]. }
  cbn [rbind rev app]. cbn in P. eexists. split; [done |]. set (new := before ++ _). cbn [journal with_journal with_flushing_ops flushing_ops ops].
  rewrite Hj. cbn [journal with_journal with_sector_info with_dirty_start with_in_sector_pos sector_count].
  assert (progress (sector_count (journal b)) (fun o => entries o (before ++ from) - entries o new) (ops b) (ops b2)) as P'.
  { intros o. specialize (P o). cbn beta in P |- *. replace (entries o (before ++ from) - entries o new) with (entries o from - entries o (after_write id (bool_decide (before = [])) from))
      by (subst new; rewrite new_entries; lia). done. }
  split_and!; [| done | by apply new_pending_keys | done |].
  2: { intros o. subst new. rewrite new_entries. pose proof (entries_after id (bool_decide (before = [])) o from). lia. }
  constructor; cbn [journal with_journal with_flushing_ops flushing_ops sector_info sector_count ops]; rewrite ?Hj;
    cbn [with_flushing_ops with_sector_info with_dirty_start with_in_sector_pos flushing_ops sector_info sector_count].
  - done.
  - by apply new_sorted.
  - by apply new_head.
  - intros k p1 p2 H1 H2. apply new_elem in H1, H2; [| done | done].
    destruct H1 as [(-> & Z1 & q1 & I1 & S1) | [N1 I1]], H2 as [(E2 & Z2 & q2 & I2 & S2) | [N2 I2]]; try done.
    + destruct (W4 _ _ _ I1 I2). split; congruence.
    + by apply (W4 k).
  - intros k p1 H1. apply new_elem in H1 as [(-> & _ & q1 & I1 & <-) | [_ I1]]; [by eapply W5 | by eapply W5 | done].
  - intros o Ho. destruct (W6 o) as (op & Hop & He & Hfl); [subst new; rewrite new_entries in Ho; pose proof (entries_after id (bool_decide (before = [])) o from); lia |].
    specialize (P' o). rewrite Hop in P'. destruct P' as (op' & Hop' & Hp' & _ & Hf'). exists op'. split_and!; [done | lia | auto].
  - intros s si Hs. specialize (Hcnt s si Hs). pose proof (sector_keys_del _ _ s id (new_sector_keys id before from Hb s)) as Hd. fold new in Hd.
    destruct (aget_in_range (sector_info (journal b)) s) as [si0 Hsi0]; [apply aget_lt in Hs; unfold zlen in *; lia |]. destruct (W7 _ _ Hsi0).
    rewrite Hd, Hcnt. destruct (decide (id ∈ _)) as [H' | H']; rewrite Hkeys in H'; [rewrite decide_True by done | rewrite decide_False by done]; lia.
Qed.

(** ** All of them *)

Lemma completions_ok ids b :
  waiting b -> NoDup ids -> list_to_set ids = pending_keys (flushing_ops (journal b)) ->
  exists b', for_each handle_journal_write ids b = Ok b' /\ waiting b' /\ pending_keys (flushing_ops (journal b')) = ∅
    /\ progress (sector_count (journal b)) (fun o => entries o (flushing_ops (journal b)) - entries o (flushing_ops (journal b'))) (ops b) (ops b')
    /\ forall o, entries o (flushing_ops (journal b')) <= entries o (flushing_ops (journal b)).
Proof.
  revert b. induction ids as [| id ids IH]; intros b W Hnd Hids; cbn [for_each].
  { exists b. split_and!; [done | done | by rewrite <- Hids | apply progress_refl; lia | done]. }
  apply NoDup_cons in Hnd as [Hnot Hnd]. cbn [list_to_set] in Hids.
  destruct (completion_ok id b W) as (b1 & -> & W1 & Hsc & Hk & P1 & Hm1); [rewrite <- Hids; set_solver |]. cbn [rbind].
  destruct (IH b1 W1 Hnd) as (b2 & Hb2 & W2 & Hk2 & P2 & Hm2); [rewrite Hk, <- Hids; set_solver |].
  exists b2. rewrite Hsc in P2. split_and!; [done | done | done | | intros o; specialize (Hm1 o); specialize (Hm2 o); lia].
  eapply progress_trans; [exact P1 | exact P2 | |].
  - intros o. specialize (Hm1 o). specialize (Hm2 o). lia.
  - intros o op Hop Hr. pose proof (entries_nonneg o (flushing_ops (journal b2))). destruct (w_ops b W o) as (op' & Hop' & He & _); [lia |].
    rewrite Hop in Hop'. injection Hop' as <-. lia.
Qed.

Lemma none_pending b : waiting b -> pending_keys (flushing_ops (journal b)) = ∅ -> flushing_ops (journal b) = [].
Proof.
  intros W Hk. pose proof (w_head b W) as Hh. destruct (flushing_ops (journal b)) as [| [k p] l] eqn:E; [done |].
  assert (k ∈ pending_keys ((k, p) :: l)) as H; [| rewrite Hk in H; set_solver].
  apply elem_of_pending_keys. exists p. split; [apply list_elem_of_here | done].
Qed.


(** Three operations, each of which waits for one sector write. *)
Definition waiting_op (s : Z) : op_t := mk_op 0 (demo_version 0) 0 0 [] [] None CbUser 0 0 0 0 1 1 (s + 1) (s + 1) 0 0 [] [].
Definition three_flushing : flushing_t := [(1, mk_pending 1 0 0); (2, mk_pending 1 1 1); (3, mk_pending 1 2 2)].
Definition three_writes : blockstore_impl_t :=
  with_ops {[ 0%nat := waiting_op 0; 1%nat := waiting_op 1; 2%nat := waiting_op 2 ]}
    (demo_store 0 (with_flushing_ops three_flushing
       (with_sector_info (replicate 3 (mk_sector 128 1 true false 0) ++ [mk_sector 0 0 false false 0]) (demo_journal 4 512 128))) (demo_op [] [])).

Lemma three_covers : covers 4 (ops three_writes) three_flushing.
Proof.
  intros o. unfold three_flushing. rewrite !entries_cons. cbn [snd pending_op]. change (entries o []) with 0.
  destruct (decide (0%nat = o)) as [<- |]; [intros _; by exists (waiting_op 0) |].
  destruct (decide (1%nat = o)) as [<- |]; [intros _; by exists (waiting_op 1) |].
  destruct (decide (2%nat = o)) as [<- |]; [intros _; by exists (waiting_op 2) | lia].
Qed.

Lemma three_waiting : waiting three_writes.
Proof.
  constructor; [done | repeat (constructor; [| repeat constructor; done]); constructor | done | | | exact three_covers |].
  - cbn. intros k p q. set_unfold. naive_solver lia.
  - cbn. intros k p. set_unfold. naive_solver lia.
  - intros s si Hs. pose proof (aget_lt _ _ _ Hs) as Hlt. cbn in Hlt.
    assert (s = 0 \/ s = 1 \/ s = 2 \/ s = 3) as [-> | [-> | [-> | ->]]] by lia; injection Hs as <-; split; vm_compute; reflexivity.
Qed.


(** "Do not complete this operation if previous writes are unfinished" does not
    hold: when of three sector writes the third and then the second complete, the
    operation of the third goes on to its next state although the first, an earlier
    part of the journal, is still in flight. *)
Theorem completed_before_earlier :
  waiting three_writes
  /\ exists b', for_each handle_journal_write [3; 2] three_writes = Ok b'
    /\ option_map (fun op => (pending_ops op, op_state op)) (ops b' !! 2%nat) = Some (0, 2)
    /\ option_map (fun op => (pending_ops op, op_state op)) (ops b' !! 0%nat) = Some (1, 1)
    /\ 1 ∈ pending_keys (flushing_ops (journal b')).
Proof.
  split; [apply three_waiting |]. eexists. split; [vm_compute; reflexivity |]. split; [vm_compute; reflexivity |].
  split; [vm_compute; reflexivity |]. apply elem_of_pending_keys. exists (mk_pending 1 0 0). split; [apply list_elem_of_here | done].
Qed.
