(* ===== verification/BlockstoreWrite.v ===== *)
(** * The blockstore: writes and deletions

    Handlers of blockstore_write.cpp and the waiting conditions of
    blockstore_impl.cpp.  Addresses of memory are not modelled, so data checksums are
    taken with the software routine of Crc32c at address 0, which is the same number
    by [crc32c_ok]. *)

From S2P Require Import Prelude.
From S2P Require Import Allocator.
From S2P Require Import Crc32c.
From S2P Require Import Journal.
From S2P Require Import Blockstore.
From S2P Require Import BlockstoreOps.

Definition EEXIST : Z := 17.
Definition ENOSPC : Z := 28.

(** ** Checksums of the data *)

Definition crc32c_sw_at0 (buf : list Z) : Z := crc32c manual_crc32b manual_crc32q false 0 0 buf.
Definition pad_or_not (pad : bool) (buf : list Z) (left_pad right_pad : Z) : Z :=
  if pad then crc32c_pad manual_crc32b manual_crc32q false 0 0 0 buf left_pad right_pad
  else crc32c_nopad manual_crc32b manual_crc32q false 0 0 buf left_pad right_pad.

(** The checksum blocks of a write; arithmetic is that of [uint32_t]. *)
Definition data_csums (c : config_t) (pad : bool) (off n : Z) (buf : list Z) : list Z :=
  let cs := csum_block_size c in
  let start := off / cs in
  let end_ := u32 (off + n - 1) / cs in
  if start =? end_ then
    [pad_or_not pad (take (Z.to_nat n) buf) (u32 (off - start * cs)) (u32 (end_ * cs - (off + n)))]
  else
    pad_or_not pad (slice buf 0 (u32 (cs * (start + 1) - off))) (u32 (off - start * cs)) 0
    :: map (fun i => crc32c_sw_at0 (slice buf (u32 (cs * i - off)) cs)) (seqZ (start + 1) (end_ - start - 1))
    ++ [pad_or_not pad (slice buf (u32 (end_ * cs - off)) (u32 (off + n - end_ * cs))) 0 (u32 ((end_ + 1) * cs - (off + n)))].

(** ** Enqueueing *)

(** [enqueue_op] of an additional sync. *)
Definition enqueue_sync (ov : obj_ver_id) (cb : callback_t) (b : blockstore_impl_t) : blockstore_impl_t :=
  let n := next_op b in
  with_unsynced_queued_ops 0 (with_next_op (S n) (with_submit_queue (submit_queue b ++ [Some n])
    (with_ops (<[n := init_op (new_op BS_OP_SYNC ov cb)]> (ops b)) b))).

(** What [enqueue_write] finds out about the object. *)
Record found_t := mk_found {
  f_version : Z;
  f_deleted : bool;
  f_unsynced : bool;
  f_wait_big : bool;
  f_wait_del : bool;
  f_dyn : option (list Z) }.

Definition find_last (is_del : bool) (o : object_id) (b : blockstore_impl_t) : found_t :=
  let clean :=
    match clean_db b !! o with
    | Some c => mk_found (clean_version c + 1) false false false false (if is_del then None else clean_bitmaps b !! clean_location c)
    | None => mk_found 1 true false false false None
    end in
  match db_upper [] (dirty_db b) (mk_ov o UINT64_MAX) with
  | ((k, e) :: _, _) =>
    if oid_eqb (oid k) o then
      let st := state e in
      let deleted := IS_DELETE st in
      mk_found (version k + 1) deleted (negb (IS_SYNCED st))
        (if Z.land st BS_ST_TYPE_MASK =? BS_ST_BIG_WRITE then negb (IS_SYNCED st) else workflow st =? BS_ST_WAIT_BIG)
        (workflow st =? BS_ST_WAIT_DEL)
        (if is_del || deleted then None else Some (dyn_data e))
    else clean
  | ([], _) => clean
  end.

(** The bytes of [dyn_data]: the external bitmap, then checksums. *)
Definition new_dyn (c : config_t) (big : bool) (from : option (list Z)) (op : op_t) : res (list Z) :=
  let bsz := clean_entry_bitmap_size c in
  let dyn := replicate (Z.to_nat (if alloc_dyn_data c then dirty_dyn_size c (op_offset op) (op_len op) else 8)) 0 in
  let* dyn := match from with Some d => let* d := load d 0 bsz in poke dyn 0 d | None => Ok dyn end in
  let* dyn := match op_bitmap op with Some d => let* d := load d 0 bsz in poke dyn 0 d | None => Ok dyn end in
  if negb (data_csum_type c =? 0) && (0 <? op_len op) then
    poke dyn bsz (concat (map (le_bytes 4) (data_csums c big (op_offset op) (op_len op) (op_data op))))
  else Ok dyn.

(** The state of the new version. *)
Definition write_state (c : config_t) (op : op_t) (deleted wait_big wait_del : bool) : Z :=
  if opcode op =? BS_OP_DELETE then Z.lor BS_ST_DELETE BS_ST_IN_FLIGHT
  else
    let st := if (op_len op =? data_block_size c) || deleted then BS_ST_BIG_WRITE else BS_ST_SMALL_WRITE in
    let w :=
      if wait_del then BS_ST_WAIT_DEL
      else if (st =? BS_ST_SMALL_WRITE) && wait_big then BS_ST_WAIT_BIG else BS_ST_IN_FLIGHT in
    Z.lor (Z.lor st w) (if opcode op =? BS_OP_WRITE_STABLE then BS_ST_INSTANT else 0).

(** The flush of a deletion that a lower version is written over. *)
Definition flush_delete (unsynced : bool) (ov : obj_ver_id) (b : blockstore_impl_t) : blockstore_impl_t :=
  if unsynced then enqueue_sync ov CbUnshift b
  else with_flusher (unshift_flush (mk_ov (oid ov) (version ov - 1)) true (flusher b)) b.

(** The syncs that [enqueue_write] adds, or the counter for [autosync_writes]. *)
Definition auto_sync (op : op_t) (wait_big deleted : bool) (b : blockstore_impl_t) : blockstore_impl_t :=
  let c := cfg b in
  let is_del := opcode op =? BS_OP_DELETE in
  let imm := if op_len op <? data_block_size c then negb (immediate_commit c =? IMMEDIATE_NONE) else immediate_commit c =? IMMEDIATE_ALL in
  if wait_big && negb is_del && negb deleted && (op_len op <? data_block_size c) && negb imm ||
     negb imm && negb (autosync_writes c =? 0) && (autosync_writes c <=? unsynced_queued_ops b)
  then enqueue_sync (mk_ov (mk_oid 0 0) 0) CbDelete b
  else if negb imm then with_unsynced_queued_ops (unsynced_queued_ops b + 1) b else b.

Definition enqueue_write (o : nat) (b : blockstore_impl_t) : res (blockstore_impl_t * bool) :=
  let* op := get_op b o in
  let is_del := opcode op =? BS_OP_DELETE in
  let op := if is_del then set_len 0 op else op in
  let f := find_last is_del (oid (op_ov op)) b in
  if f_deleted f && is_del then let* b := upd_op b o (fun _ => set_retval 0 op) in Ok (b, false)
  else
    let op := set_real_version 0 op in
    let low := negb (version (op_ov op) =? 0) && (version (op_ov op) <? f_version f) in
    if low && negb (f_deleted f || f_wait_del f) then
      let* b := upd_op b o (fun _ => set_retval (- EEXIST) op) in Ok (b, false)
    else
      let ov := mk_ov (oid (op_ov op)) (f_version f) in
      let op := if low then set_ov ov (set_real_version (version (op_ov op)) op)
                else if version (op_ov op) =? 0 then set_ov ov op else op in
      let wait_del := f_wait_del f || low in
      let* b := upd_op b o (fun _ => op) in
      let b := if low then flush_delete (f_unsynced f) ov b else b in
      let b := auto_sync op (f_wait_big f) (f_deleted f) b in
      let st := write_state (cfg b) op (f_deleted f) (f_wait_big f) wait_del in
      let* b := if negb is_del && (Z.land st BS_ST_TYPE_MASK =? BS_ST_SMALL_WRITE) && throttle_small_writes (cfg b)
                then upd_op b o (set_tv_begin (clock_us b)) else Ok b in
      let* dyn := if is_del then Ok [] else new_dyn (cfg b) (negb (Z.land st BS_ST_BIG_WRITE =? 0)) (f_dyn f) op in
      let e := mk_dirty st 0 (if is_del then 0 else op_offset op) (if is_del then 0 else op_len op) 0 dyn in
      Ok (with_dirty_db (db_emplace (dirty_db b) (op_ov op) e) b, true).

(** ** Cancellation *)

Fixpoint drop_object (o : object_id) (l : dirty_db_t) : dirty_db_t :=
  match l with (k, e) :: s => if oid_eqb (oid k) o then drop_object o s else l | [] => [] end.

(** Mark the writes of the object that are in the queue after the operation. *)
Fixpoint cancel_queued (o : nat) (x : object_id) (rv : Z) (found : bool) (q : list (option nat)) (b : blockstore_impl_t) : res blockstore_impl_t :=
  match q with
  | [] => Ok b
  | None :: q => cancel_queued o x rv found q b
  | Some n :: q =>
    if bool_decide (n = o) then cancel_queued o x rv true q b
    else
      let* op := get_op b n in
      if found && oid_eqb (oid (op_ov op)) x && ((opcode op =? BS_OP_WRITE) || (opcode op =? BS_OP_WRITE_STABLE)) then
        let* b := upd_op b n (fun op => set_real_version UINT64_MAX (set_retval rv op)) in cancel_queued o x rv found q b
      else cancel_queued o x rv found q b
  end.

(** [cancel_all_writes] from version [k] of the database on. *)
Definition cancel_all_writes (o : nat) (k : obj_ver_id) (rv : Z) (b : blockstore_impl_t) : res blockstore_impl_t :=
  let '(rpre, suf) := db_lower [] (dirty_db b) k in
  let b := with_dirty_db (rev_append rpre (drop_object (oid k) suf)) b in
  let* b := cancel_queued o (oid k) rv false (submit_queue b) b in
  let* b := upd_op b o (set_retval rv) in
  finish_op o b.

(** ** Acknowledgement *)

(** The pause of the reply that [throttle_small_writes] asks for. *)
Definition throttle_us (op : op_t) (b : blockstore_impl_t) : option Z :=
  let c := cfg b in
  let j := journal b in
  let exec_us := u64 (clock_us b - tv_begin op) in
  let start := get_trim_pos j in
  let free := if next_free j <? start then start - next_free j else u64 (len j - next_free j + start - block_size j) in
  let par := throttle_target_parallelism c in
  let ref_us :=
    (if write_iodepth b <=? par then 100 else 100 * write_iodepth b / par)
    * (1000000 / throttle_target_iops c + op_len op * 1000000 / throttle_target_mbs c / 1024 / 1024) / 100 in
  let ref_us := u64 (ref_us - ref_us * free / len j) in
  if u64 (exec_us + throttle_threshold_us c) <? ref_us then Some (ref_us - exec_us) else None.

(** The label [resume_6]. *)
Definition ack_write (o : nat) (b : blockstore_impl_t) : res (blockstore_impl_t * Z) :=
  let b := with_write_iodepth (write_iodepth b - 1) b in
  let* b := upd_op b o (fun op => set_retval (op_len op) op) in
  let* b := finish_op o b in Ok (b, 2).

(** The label [resume_4]: the version has been written. *)
Definition write_done (o : nat) (b : blockstore_impl_t) : res (blockstore_impl_t * Z) :=
  let* op := get_op b o in
  let v := op_ov op in
  match db_find (dirty_db b) v with
  | None => Err AssertFailed
  | Some (_, e, _) =>
    let ic := immediate_commit (cfg b) in
    let is_big := Z.land (state e) BS_ST_TYPE_MASK =? BS_ST_BIG_WRITE in
    let imm := if is_big then ic =? IMMEDIATE_ALL else negb (ic =? IMMEDIATE_NONE) in
    let inst := IS_INSTANT (state e) in
    let* b :=
      if imm then
        let b := note_unstable v b in
        if inst then Ok b else dec_unstable_unsynced b
      else Ok b in
    let b := with_dirty_db (db_set (dirty_db b) v (with_state (set_workflow (state e) (if imm then BS_ST_SYNCED else BS_ST_WRITTEN)) e)) b in
    let* b := if imm && inst then mark_stable v false b else Ok b in
    let b :=
      if imm then b
      else if is_big then with_unsynced_big_writes (unsynced_big_writes b ++ [v]) b
      else with_unsynced_small_writes (unsynced_small_writes b ++ [v]) b in
    let b := if imm && is_big then with_dirty_db (unblock_from v (dirty_db b)) b else b in
    match (if negb is_big && throttle_small_writes (cfg b) then throttle_us op b else None) with
    | Some us =>
      let* b := upd_op b o (set_op_state 5) in
      Ok (with_timers (timers b ++ [(o, us)]) b, 1)
    | None => ack_write o b
    end
  end.

(** The reserve for later entries: a sector for every unstable object. *)
Definition unstable_reserve (e : dirty_entry) (b : blockstore_impl_t) : Z :=
  (Z.of_nat (size (unstable_writes b)) + unstable_unsynced b + (if is_instant_bit (state e) then 0 else 1)) * block_size (journal b).

(** The label [resume_2]: the entry of a big write in the mode of immediate commit. *)
Definition write_big_entry (o : nat) (b : blockstore_impl_t) : res (blockstore_impl_t * Z) :=
  let* op := get_op b o in
  let v := op_ov op in
  match db_find (dirty_db b) v with
  | None => Err AssertFailed
  | Some (_, e, _) =>
    let dyn_size := dirty_dyn_size (cfg b) (op_offset op) (op_len op) in
    let size := sizeof_big_write + dyn_size in
    let* (b, _, ok) := space_available b (journal_check (journal b)) o 1 size (i32 (u64 (unstable_reserve e b))) in
    if negb ok then Ok (b, 0)
    else if sqes_left b <? 1 then wait_sqe o 1 b
    else
      let* (j, je) := prefill_single_journal_entry (journal b) (if opcode op =? BS_OP_WRITE_STABLE then JE_BIG_WRITE_INSTANT else JE_BIG_WRITE) size in
      let* si := aget (sector_info j) (cur_sector j) in
      let jsec := sector_offset si in
      if negb (in_used_part j jsec) then Err Aborted
      else
        let* dyn := load (dyn_data e) 0 dyn_size in
        let* j := store_big (use_sector jsec j) je v (op_offset op) (op_len op) (location e) dyn in
        let* j := seal_entry j je size in
        let b := with_dirty_db (db_set (dirty_db b) v (with_journal_sector jsec e)) (with_journal j b) in
        let* b := prepare_journal_sector_write (cur_sector (journal b)) o b in
        let* b := upd_op b o (set_op_state 3) in Ok (b, 1)
  end.

Definition continue_write (o : nat) (b : blockstore_impl_t) : res (blockstore_impl_t * Z) :=
  let* op := get_op b o in
  if op_state op =? 2 then write_big_entry o b
  else if op_state op =? 4 then write_done o b
  else if op_state op =? 6 then ack_write o b
  else Ok (b, 1).

(** ** Submission *)

(** A big write: into a free block of the data device. *)
Definition submit_big (o : nat) (op : op_t) (e : dirty_entry) (b : blockstore_impl_t) : res (blockstore_impl_t * Z) :=
  let c := cfg b in
  let v := op_ov op in
  let* (b, _, ok) := space_available b (journal_check (journal b)) o (i32 (unsynced_big_write_count b + 1))
    (sizeof_big_write + clean_dyn_size c) (i32 (u64 (unstable_reserve e b))) in
  if negb ok then Ok (b, 0)
  else
    let* loc := find_free (data_alloc b) in
    if loc =? UINT64_MAX then
      if 0 <? big_to_flush b then
        let* b := upd_op (with_flusher (request_trim (flusher b)) b) o (set_wait_for WAIT_FREE) in Ok (b, 0)
      else let* b := cancel_all_writes o v (- ENOSPC) b in Ok (b, 2)
    else if inmemory_meta c && is_some (metadata b !! loc) then Err Aborted
    else
      match get_sqe b with
      | None => wait_sqe o 1 b
      | Some b =>
        let byte_loc := Z.shiftl loc (block_order c) in
        let e := with_state (set_workflow (state e) BS_ST_SUBMITTED) (with_location byte_loc e) in
        let* a := set (data_alloc b) loc true in
        let so := op_offset op mod bitmap_granularity c in
        let se := (op_offset op + op_len op) mod bitmap_granularity c in
        let se := if se =? 0 then 0 else bitmap_granularity c - se in
        let b := with_ring (ring b ++ [DataWrite o (byte_loc + op_offset op - so) (op_len op + so + se)])
          (with_data_alloc a (with_write_iodepth (write_iodepth b + 1) (with_dirty_db (db_set (dirty_db b) v e) b))) in
        let b := if is_instant_bit (state e) then b else with_unstable_unsynced (unstable_unsynced b + 1) b in
        let all := immediate_commit c =? IMMEDIATE_ALL in
        let b := if all then b else with_unsynced_big_write_count (unsynced_big_write_count b + 1) b in
        let* b := upd_op b o (fun op => set_op_state (if all then 1 else 3) (set_pending_ops 1 op)) in
        Ok (b, 1)
      end.

(** The fields of a [journal_entry_small_write] and its [memcpy]. *)
Definition store_small (j : journal_t) (je : Z) (op : op_t) (crc_data : Z) (dyn : list Z) : res journal_t :=
  let* j := store_ov j je (op_ov op) in
  let* j := store j (je + 40) 4 (op_offset op) in
  let* j := store j (je + 44) 4 (op_len op) in
  let* j := store j (je + 48) 8 (next_free j) in
  let* j := store j (je + 56) 4 crc_data in
  let* m := poke (mem j) (je + 60) dyn in Ok (with_mem m j).

(** The entry of a small write, and [next_free] at the place of its data. *)
Definition put_small (op : op_t) (e : dirty_entry) (b : blockstore_impl_t) : res (blockstore_impl_t * dirty_entry) :=
  let c := cfg b in
  let dyn_size := dirty_dyn_size c (op_offset op) (op_len op) in
  let size := sizeof_small_write + dyn_size in
  let* (j, je) := prefill_single_journal_entry (journal b) (if opcode op =? BS_OP_WRITE_STABLE then JE_SMALL_WRITE_INSTANT else JE_SMALL_WRITE) size in
  let* si := aget (sector_info j) (cur_sector j) in
  let jsec := sector_offset si in
  if negb (in_used_part j jsec) then Err Aborted
  else
    let j := use_sector jsec j in
    let next_next_free := if next_free j + op_len op <=? len j then next_free j else block_size j in
    if (0 <? op_len op) && match used_lower_bound (used_sectors j) next_next_free with
                           | Some k => k <? next_next_free + op_len op | None => false end
    then Err Aborted
    else
      assert! no_cross j next_next_free in
      let j := with_next_free next_next_free j in
      let* dyn := load (dyn_data e) 0 dyn_size in
      let crc_data := if csum_block_size c =? 0 then crc32c_sw_at0 (take (Z.to_nat (op_len op)) (op_data op)) else 0 in
      let* j := store_small j je op crc_data dyn in
      let* j := seal_entry j je size in
      let e := with_journal_sector jsec e in
      Ok (with_dirty_db (db_set (dirty_db b) (op_ov op) e) (with_journal j b), e).

(** The write of the data of a small write; [false] without a submission entry. *)
Definition submit_journal_data (o : nat) (op : op_t) (b : blockstore_impl_t) : res (blockstore_impl_t * bool) :=
  let j := journal b in
  let* j := if inmemory j then let* m := poke (mem j) (next_free j) (take (Z.to_nat (op_len op)) (op_data op)) in Ok (with_mem m j) else Ok j in
  match get_sqe b with
  | None => Ok (with_journal j b, false)
  | Some b =>
    let id := u64 (submit_id j + 1) in
    assert! negb (id =? 0) in
    let j := with_flushing_ops (multimap_emplace id (mk_pending 1 (-1) o) (flushing_ops j)) (with_submit_id id j) in
    let b := with_ring (ring b ++ [JournalDataWrite id o (next_free j) (op_len op)]) (with_journal j b) in
    let* b := upd_op b o (fun op => set_pending_ops (pending_ops op + 1) op) in Ok (b, true)
  end.

(** After the data: its place and the new [next_free]. *)
Definition finish_small (o : nat) (op : op_t) (e : dirty_entry) (b : blockstore_impl_t) : res (blockstore_impl_t * Z) :=
  let j := journal b in
  let e := with_state (set_workflow (state e) BS_ST_SUBMITTED) (with_location (next_free j) e) in
  let next_next_free := if len j <=? next_free j + op_len op then block_size j else next_free j + op_len op in
  assert! no_cross j next_next_free in
  let b := with_dirty_db (db_set (dirty_db b) (op_ov op) e) (with_journal (with_next_free next_next_free j) b) in
  let b := if is_instant_bit (state e) then b else with_unstable_unsynced (unstable_unsynced b + 1) b in
  let* op' := get_op b o in
  if pending_ops op' =? 0 then let* b := upd_op b o (set_op_state 4) in continue_write o b
  else let* b := upd_op b o (set_op_state 3) in Ok (b, 1).

(** A small write: entry and data go to the journal. *)
Definition submit_small (o : nat) (op : op_t) (e : dirty_entry) (b : blockstore_impl_t) : res (blockstore_impl_t * Z) :=
  let c := cfg b in
  let dyn_size := dirty_dyn_size c (op_offset op) (op_len op) in
  let size := sizeof_small_write + dyn_size in
  let chk := journal_check (journal b) in
  let* (b, chk, ok) :=
    if unsynced_big_write_count b =? 0 then Ok (b, chk, true)
    else space_available b chk o (i32 (unsynced_big_write_count b)) (sizeof_big_write + clean_dyn_size c) 0 in
  if negb ok then Ok (b, 0)
  else
    let* (b, _, ok) := space_available b chk o 1 size (i32 (u64 (op_len op + unstable_reserve e b))) in
    if negb ok then Ok (b, 0)
    else
      let none := immediate_commit c =? IMMEDIATE_NONE in
      let* fits := entry_fits (journal b) size in
      let need := (if negb none || negb fits then 1 else 0) + (if 0 <? op_len op then 1 else 0) in
      if sqes_left b <? need then wait_sqe o need b
      else
        let b := with_write_iodepth (write_iodepth b + 1) b in
        let* b := if none && negb fits then prepare_journal_sector_write (cur_sector (journal b)) o b else Ok b in
        let* (b, e) := put_small op e b in
        let* b := if none then Ok b else prepare_journal_sector_write (cur_sector (journal b)) o b in
        if 0 <? op_len op then
          let* (b, sent) := submit_journal_data o op b in
          if sent : bool then finish_small o op e b else wait_sqe o 1 b
        else finish_small o op e b.

(** The number of an operation that was given a higher one because of a deletion. *)
Definition restore_version (o : nat) (op : op_t) (rpre : dirty_db_t) (e : dirty_entry) (suf : dirty_db_t) (b : blockstore_impl_t)
    : res (option (op_t * blockstore_impl_t)) :=
  let x := oid (op_ov op) in
  let invalid := match rpre with (k, _) :: _ => oid_eqb (oid k) x && (real_version op <=? version k) | [] => false end in
  if invalid then Ok None
  else
    let op := set_real_version 0 (set_ov (mk_ov x (real_version op)) op) in
    let* b := upd_op (with_dirty_db (db_emplace (rev_append rpre suf) (op_ov op) e) b) o (fun _ => op) in
    Ok (Some (op, b)).

Definition dequeue_write (o : nat) (b : blockstore_impl_t) : res (blockstore_impl_t * Z) :=
  let* op := get_op b o in
  if negb (op_state op =? 0) then continue_write o b
  else
    match db_find (dirty_db b) (op_ov op) with
    | None => Err AssertFailed
    | Some (rpre, e, suf) =>
      if workflow (state e) <? BS_ST_IN_FLIGHT then Ok (b, 0)
      else if real_version op =? UINT64_MAX then let* b := finish_op o b in Ok (b, 2)
      else
        let* r := if real_version op =? 0 then Ok (Some (op, b)) else restore_version o op rpre e suf b in
        match r with
        | None => let* b := cancel_all_writes o (op_ov op) (- EEXIST) b in Ok (b, 2)
        | Some (op, b) =>
          if max_write_iodepth (cfg b) <=? write_iodepth b then Ok (b, 0)
          else if Z.land (state e) BS_ST_TYPE_MASK =? BS_ST_BIG_WRITE then submit_big o op e b
          else submit_small o op e b
        end
    end.

Definition dequeue_del (o : nat) (b : blockstore_impl_t) : res (blockstore_impl_t * Z) :=
  let* op := get_op b o in
  if negb (op_state op =? 0) then continue_write o b
  else
    let v := op_ov op in
    match db_find (dirty_db b) v with
    | None => Err AssertFailed
    | Some (_, e, _) =>
      let reserve := (Z.of_nat (size (unstable_writes b)) + unstable_unsynced b) * block_size (journal b) in
      let* (b, _, ok) := space_available b (journal_check (journal b)) o 1 sizeof_del (i32 (u64 reserve)) in
      if negb ok then Ok (b, 0)
      else
        let none := immediate_commit (cfg b) =? IMMEDIATE_NONE in
        let* si := aget (sector_info (journal b)) (cur_sector (journal b)) in
        let full := (u64 (block_size (journal b) - in_sector_pos (journal b)) <? sizeof_del) && dirty si in
        let need := if negb none || full then 1 else 0 in
        if sqes_left b <? need then wait_sqe o need b
        else if max_write_iodepth (cfg b) <=? write_iodepth b then Ok (b, 0)
        else
          let b := with_write_iodepth (write_iodepth b + 1) b in
          let* b := if none && full then prepare_journal_sector_write (cur_sector (journal b)) o b else Ok b in
          let* (j, je) := prefill_single_journal_entry (journal b) JE_DELETE sizeof_del in
          let* si := aget (sector_info j) (cur_sector j) in
          let jsec := sector_offset si in
          let* j := store_ov (use_sector jsec j) je v in
          let* j := seal_entry j je sizeof_del in
          let e := with_state (Z.lor BS_ST_DELETE BS_ST_SUBMITTED) (with_journal_sector jsec e) in
          let b := with_dirty_db (db_set (dirty_db b) v e) (with_journal j b) in
          let* b := if none then Ok b else prepare_journal_sector_write (cur_sector (journal b)) o b in
          let* op := get_op b o in
          if pending_ops op =? 0 then let* b := upd_op b o (set_op_state 4) in continue_write o b
          else let* b := upd_op b o (set_op_state 3) in Ok (b, 1)
    end.

(** ** Waiting *)

(** [check_wait]: can a waiting operation be tried again? *)
Definition check_wait (o : nat) (b : blockstore_impl_t) : res blockstore_impl_t :=
  let* op := get_op b o in
  let j := journal b in
  if wait_for op =? WAIT_SQE then
    if sqes_left b <? wait_detail op then Ok b else upd_op b o (set_wait_for 0)
  else if wait_for op =? WAIT_JOURNAL then
    if (used_start j =? wait_detail op) && (Z.of_nat (size (unstable_writes b)) + unstable_unsynced b =? wait_detail2 op) then Ok b
    else upd_op (with_flusher (release_trim (flusher b)) b) o (set_wait_for 0)
  else if wait_for op =? WAIT_JOURNAL_BUFFER then
    let* si := aget (sector_info j) ((cur_sector j + 1) mod sector_count j) in
    if (0 <? flush_count si) || dirty si then Ok b else upd_op b o (set_wait_for 0)
  else if wait_for op =? WAIT_FREE then
    if (get_free_count (data_alloc b) =? 0) && (0 <? big_to_flush b) then Ok b
    else upd_op (with_flusher (release_trim (flusher b)) b) o (set_wait_for 0)
  else Err Thrown.
