(* ===== verification/WriteFaults.v ===== *)
(** * The blockstore: writes that go wrong

    Cancellation of queued writes (blockstore_write.cpp) and the first small write
    after a start. *)

From S2P Require Import Prelude.
From S2P Require Import Allocator.
From S2P Require Import Journal.
From S2P Require Import Blockstore.
From S2P Require Import BlockstoreOps.
From S2P Require Import DirtyDb.
From S2P Require Import JournalDemo.
From S2P Require Import DirtyBooks.
From S2P Require Import BlockstoreWrite.

(** ** The database *)

(** Erasing an object from its first version on erases all of it. *)
Lemma drop_object_gone o d : db_ok d -> (forall x, x ∈ d -> ~ oid_lt (oid (fst x)) o) ->
  forall x, x ∈ drop_object o d -> oid_lt o (oid (fst x)).
Proof.
  induction d as [| [k e] d IH]; intros Hd Hge x; cbn; [by intros ?%elem_of_nil |].
  apply db_ok_cons in Hd as [Hd Hk]. destruct (oid_eqb (oid k) o) eqn:E.
  - apply IH; [done |]. intros y Hy. apply Hge. by apply list_elem_of_further.
  - apply oid_eqb_neq in E. assert (oid_lt o (oid k)) as Hok.
    { destruct (oid_lt_total (oid k) o) as [H | [H | H]]; [| done | done]. by destruct (Hge (k, e)); [apply list_elem_of_here |]. }
    intros [-> | Hx]%elem_of_cons; [done |]. specialize (Hk x Hx). apply key_lt_oid in Hk. cbn in Hk.
    destruct (oid_lt_total o (oid (fst x))) as [H | [H | H]]; [done | by subst o | unfold oid_lt in *; lia].
Qed.

(** ** The queue *)

(** What cancellation leaves of an operation. *)
Definition same_write (op op' : op_t) : Prop :=
  op_ov op' = op_ov op /\ op_state op' = op_state op /\ opcode op' = opcode op /\ op_callback op' = op_callback op.
Definition cancelled (rv : Z) (op : op_t) : Prop := real_version op = UINT64_MAX /\ retval op = rv.

Record queue_cancelled (b b' : blockstore_impl_t) : Prop := {
  qc_db : dirty_db b' = dirty_db b;
  qc_ops : forall n op, ops b !! n = Some op -> exists op', ops b' !! n = Some op' /\ same_write op op' }.

Lemma qc_refl b : queue_cancelled b b.
Proof. constructor; [done |]. intros n op Hn. by exists op. Qed.

Lemma qc_mark n rv b op : ops b !! n = Some op ->
  queue_cancelled b (with_ops (<[n := set_real_version UINT64_MAX (set_retval rv op)]> (ops b)) b).
Proof.
  intros Hn. constructor; [done |]. intros m op' Hm. cbn. destruct (decide (m = n)) as [-> |].
  - rewrite lookup_insert_eq. eexists. split; [done |]. by simplify_eq.
  - rewrite lookup_insert_ne by done. by exists op'.
Qed.

Lemma qc_trans b1 b2 b3 : queue_cancelled b1 b2 -> queue_cancelled b2 b3 -> queue_cancelled b1 b3.
Proof.
  intros [H1 H2] [H3 H4]. constructor; [congruence |]. intros n op Hn. destruct (H2 n op Hn) as (op2 & Hn2 & S2).
  destruct (H4 n op2 Hn2) as (op3 & Hn3 & S3). exists op3. split; [done |]. unfold same_write in *. intuition congruence.
Qed.

Definition cancels (x : object_id) (op : op_t) : bool :=
  oid_eqb (oid (op_ov op)) x && ((opcode op =? BS_OP_WRITE) || (opcode op =? BS_OP_WRITE_STABLE)).

Lemma cancel_queued_ok o x rv q found b b' : cancel_queued o x rv found q b = Ok b' ->
  queue_cancelled b b' /\
  (forall n op, ops b !! n = Some op -> cancelled rv op -> exists op', ops b' !! n = Some op' /\ cancelled rv op') /\
  (found = true -> forall n op, Some n ∈ q -> n <> o -> ops b !! n = Some op -> cancels x op = true ->
    exists op', ops b' !! n = Some op' /\ cancelled rv op').
Proof.
  revert found b. induction q as [| [m |] q IH]; intros found b; cbn [cancel_queued].
  - intros [= <-]. split_and!; [apply qc_refl | naive_solver |]. intros _ n op ?%elem_of_nil. done.
  - case_bool_decide as Hmo.
    { intros (Hq & Hk & Hf)%IH. split_and!; [done | done |]. intros _ n op [[= ->] | Hn]%elem_of_cons; [done |]. by apply Hf. }
    unfold get_op at 1. destruct (ops b !! m) as [op |] eqn:Em; [| done]. cbn [rbind].
    destruct (found && oid_eqb (oid (op_ov op)) x && _) eqn:Ec.
    + unfold upd_op, get_op. rewrite Em. cbn [rbind]. intros (Hq & Hk & Hf)%IH.
      pose proof (qc_mark m rv b op Em) as Hm. split_and!; [by eapply qc_trans | |].
      * intros n op' Hn Hc. destruct (decide (n = m)) as [-> |].
        -- eapply Hk; [cbn; by rewrite lookup_insert_eq | by split].
        -- eapply Hk; [| done]. cbn. by rewrite lookup_insert_ne.
      * intros Hfd n op' [[= ->] | Hin]%elem_of_cons Hno Hn Hc.
        -- eapply Hk; [cbn; by rewrite lookup_insert_eq | by split].
        -- destruct (decide (n = m)) as [-> |]; [eapply Hk; [cbn; by rewrite lookup_insert_eq | by split] |].
           eapply (Hf Hfd n op'); [done | done | | done]. cbn. by rewrite lookup_insert_ne.
    + intros (Hq & Hk & Hf)%IH. split_and!; [done | done |].
      intros -> n op' [[= ->] | Hin]%elem_of_cons Hno Hn Hc; [| by eapply Hf].
      exfalso. simplify_eq. unfold cancels in Hc. cbn in Ec. congruence.
  - intros (Hq & Hk & Hf)%IH. split_and!; [done | done |]. intros Hfd n op [| Hin]%elem_of_cons; [done |]. by eapply Hf.
Qed.

Lemma cancel_queued_after o x rv q1 q2 found b b' : cancel_queued o x rv found (q1 ++ Some o :: q2) b = Ok b' ->
  forall n op, Some n ∈ q2 -> n <> o -> ops b !! n = Some op -> cancels x op = true -> exists op', ops b' !! n = Some op' /\ cancelled rv op'.
Proof.
  revert found b. induction q1 as [| [m |] q1 IH]; intros found b; cbn [cancel_queued app].
  - rewrite bool_decide_eq_true_2 by done. intros (_ & _ & Hf)%cancel_queued_ok. by apply Hf.
  - case_bool_decide; [apply IH |]. destruct (get_op b m) as [op |] eqn:Em; [| done]. cbn [rbind].
    destruct (_ && _); [| apply IH]. unfold upd_op. rewrite Em. cbn [rbind]. intros Hq n op' Hin Hno Hn Hc.
    unfold get_op in Em. destruct (ops b !! m) as [op1 |] eqn:Em1; [| done]. injection Em as ->.
    destruct (decide (n = m)) as [-> |].
    + eapply (IH _ _ Hq m); [done | done | cbn; by rewrite lookup_insert_eq |]. by simplify_eq.
    + eapply (IH _ _ Hq n op'); [done | done | | done]. cbn. by rewrite lookup_insert_ne.
  - apply IH.
Qed.

(** ** Cancelled writes *)

Lemma cancel_db k d : db_ok d -> let '(rpre, suf) := db_lower [] d k in
  forall v, oid v = oid k -> version k <= version v -> db_find (rev_append rpre (drop_object (oid k) suf)) v = None.
Proof.
  intros Hd. destruct (db_lower [] d k) as [rpre suf] eqn:El. intros v Hv Hver.
  apply db_lower_split in El as (p & -> & -> & Hp & Hs). rewrite app_nil_r, rev_append_rev, rev_involutive.
  apply db_ok_app in Hd as (H1 & H2 & H3).
  destruct (db_find _ v) as [[[r e] s] |] eqn:E; [| done]. exfalso. apply db_find_some in E.
  assert ((v, e) ∈ p ++ drop_object (oid k) suf) as Hin by (rewrite E, elem_of_app, elem_of_cons; auto).
  apply elem_of_app in Hin as [Hin | Hin].
  - rewrite Forall_forall in Hp. specialize (Hp _ Hin). cbn in Hp. apply ov_lt_iff in Hp. unfold oid_lt in Hp. rewrite Hv in Hp. lia.
  - apply drop_object_gone in Hin; [| done |].
    + cbn in Hin. unfold oid_lt in Hin. rewrite Hv in Hin. lia.
    + intros x Hx. destruct suf as [| y s']; [by apply elem_of_nil in Hx |]. specialize (Hs y s' eq_refl). rewrite ov_lt_iff in Hs.
      apply elem_of_cons in Hx as [-> | Hx]; [unfold oid_lt in *; lia |]. apply db_ok_cons in H2 as [_ H2].
      specialize (H2 x Hx). unfold key_lt in H2. apply ov_lt_iff in H2. unfold oid_lt in *. intros H.
      destruct H2 as [H2 | [H2 _]]; [lia | rewrite <- H2 in H; lia].
Qed.

Lemma finish_user o op b : ops b !! o = Some op -> op_callback op = CbUser ->
  finish_op o b = Ok (with_finished (finished b ++ [(o, retval op)]) (with_ops (delete o (ops b)) b)).
Proof. intros Ho Hc. unfold finish_op. unfold get_op at 1. rewrite Ho. cbn [rbind]. rewrite Hc. cbn. unfold get_op. by rewrite Ho. Qed.

(** C34: when a write fails (for lack of space, or because its version turned out to be
    too low), [cancel_all_writes] erases its version and all later versions of the
    object, and marks the writes of the object queued behind it as failed with its
    error, to be answered when they are dequeued.  But [dequeue_write] asserts that the
    version of a write is in the database before it looks at the mark: every write
    cancelled in this way, whatever the state of the blockstore, fails the assertion
    instead of returning the error. *)
Theorem cancelled_write_fails o op k rv b b' q1 q2 n nop :
  db_ok (dirty_db b) -> submit_queue b = q1 ++ Some o :: q2 -> ops b !! o = Some op -> op_callback op = CbUser ->
  Some n ∈ q2 -> n <> o -> ops b !! n = Some nop -> oid (op_ov nop) = oid k -> version k <= version (op_ov nop) ->
  opcode nop = BS_OP_WRITE \/ opcode nop = BS_OP_WRITE_STABLE -> op_state nop = 0 ->
  cancel_all_writes o k rv b = Ok b' ->
  (exists nop', ops b' !! n = Some nop' /\ real_version nop' = UINT64_MAX /\ retval nop' = rv) /\
  dequeue_write n b' = Err AssertFailed.
Proof.
  intros Hd Hq Ho Hcb Hn Hno Hnop Hoid Hver Hopc Hst. unfold cancel_all_writes. pose proof (cancel_db k _ Hd) as Hdb.
  destruct (db_lower [] (dirty_db b) k) as [rpre suf]. cbn [submit_queue with_dirty_db]. rewrite Hq.
  set (b1 := with_dirty_db _ b). destruct (cancel_queued _ _ _ _ _ b1) as [b2 |] eqn:E; [| done]. cbn [rbind].
  pose proof (cancel_queued_after _ _ _ _ _ _ _ _ E n nop Hn Hno Hnop) as Hc. destruct Hc as (nop' & Hn' & Hc1 & Hc2).
  { unfold cancels. rewrite Hoid, oid_eqb_refl. destruct Hopc as [-> | ->]; done. }
  apply cancel_queued_ok in E as ([Hqdb Hqops] & _ & _). destruct (Hqops o op Ho) as (op' & Ho' & _ & _ & _ & Hcb').
  destruct (Hqops n nop Hnop) as (nop2 & Hn2 & Sov & Sst & _). rewrite Hn' in Hn2. injection Hn2 as <-.
  unfold upd_op, get_op at 1. rewrite Ho'. cbn [rbind].
  rewrite (finish_user o (set_retval rv op')); [| cbn; by rewrite lookup_insert_eq | cbn; congruence]. intros [= <-].
  assert (delete o (<[o:=set_retval rv op']> (ops b2)) !! n = Some nop') as Hl
    by (rewrite lookup_delete_ne, lookup_insert_ne by done; done).
  split; [by exists nop' |]. unfold dequeue_write, get_op. cbn [ops with_finished with_ops dirty_db]. rewrite Hl. cbn [rbind].
  rewrite Sst, Hst. cbn [Z.eqb negb]. rewrite Hqdb, Sov. unfold b1. cbn [dirty_db with_dirty_db]. by rewrite Hdb.
Qed.

(** Two writes of one object, of the size of a block, in a store without a free block. *)
Definition no_space_store : blockstore_impl_t :=
  let v n := mk_ov (mk_oid 1 0) n in
  let op n := mk_op BS_OP_WRITE (v n) 0 131072 [] [] None CbUser 0 0 0 0 0 0 0 0 0 0 [] [] in
  let e := mk_dirty (Z.lor BS_ST_BIG_WRITE BS_ST_IN_FLIGHT) 0 0 131072 0 [] in
  let b := demo_store 0 (demo_journal 2 128 128) (demo_op [] []) in
  with_data_alloc used3 (with_submit_queue [Some 0%nat; Some 1%nat]
    (with_ops {[ 0%nat := op 1; 1%nat := op 2 ]} (with_dirty_db [(v 1, e); (v 2, e)] b))).

Lemma cancelled_write_fails_witness :
  exists b', cancel_all_writes 0 (mk_ov (mk_oid 1 0) 1) (- ENOSPC) no_space_store = Ok b' /\ dequeue_write 1 b' = Err AssertFailed.
Proof.
  eexists. split; [reflexivity |].
  eapply (cancelled_write_fails 0 _ (mk_ov (mk_oid 1 0) 1) (- ENOSPC) no_space_store _ [] [Some 1%nat] 1); try reflexivity.
  - apply db_ok_cons. split; [| intros y ->%list_elem_of_singleton; reflexivity]. apply db_ok_cons. split; [constructor |]. by intros y ?%elem_of_nil.
  - apply list_elem_of_here.
  - done.
  - done.
  - by left.
Defined.

(** ** The first write after a start *)

(** A blockstore that has just started on an empty journal, without immediate commits
    and without a copy of the journal in memory, and a write of 4 KB into an object
    that exists. *)
Definition just_started : blockstore_impl_t :=
  let v := mk_ov (mk_oid 1 0) 2 in
  let op := mk_op BS_OP_WRITE v 0 4096 (replicate 4096 1) [] None CbUser 0 0 0 0 0 0 0 0 0 0 [] [] in
  let e := mk_dirty (Z.lor BS_ST_SMALL_WRITE BS_ST_IN_FLIGHT) 0 0 4096 0 (replicate 8 0) in
  let j := mk_journal false 128 16384 128 128 128 0 (replicate 256 0) (replicate 2 (mk_sector 0 0 false false 0)) 2 false
    0 128 [] [] 0 ∅ in
  with_submit_queue [Some 0%nat] (with_ops {[ 0%nat := op ]} (with_dirty_db [(v, e)] (demo_store 0 j (demo_op [] [])))).

