(* ===== verification/Replay.v ===== *)
(** * The blockstore: reading the journal at start

    [blockstore_init_journal] of blockstore/blockstore_init.cpp: the superblock, the
    parts the journal is read in, and the replay of its entries.

    A part keeps the bytes of its buffer; with [inmemory] they are also put into
    [mem], the copy of the journal.  Reads complete in the order in which the code
    waits for them.  Checksums are [crc_ref], which the routines of Crc32c compute. *)

From S2P Require Import Prelude.
From S2P Require Import Allocator.
From S2P Require Import Crc32c.
From S2P Require Import Journal.
From S2P Require Import Blockstore.
From S2P Require Import BlockstoreOps.

Definition JE_MIN : Z := 0x01.
Definition JE_START : Z := 0x01.
Definition JE_MAX : Z := 0x08.
Definition JOURNAL_VERSION_V1 : Z := 1.
Definition JOURNAL_VERSION_V2 : Z := 2.
Definition JE_START_V0_SIZE : Z := 24.
Definition JE_START_V1_SIZE : Z := 32.
Definition JE_START_V2_SIZE : Z := 40.

(** An integer of [n] bytes at [pos]. *)
Definition ld (buf : list Z) (pos n : Z) : res Z := let* d := load buf pos n in Ok (le_word d).

(** [oid] and [version] of an entry. *)
Definition ld_ov (buf : list Z) (je : Z) : res obj_ver_id :=
  let* i := ld buf (je + 16) 8 in
  let* s := ld buf (je + 24) 8 in
  let* v := ld buf (je + 32) 8 in
  Ok (mk_ov (mk_oid i s) v).

(** [bs_init_journal_done]: [p_buf] are the [p_len] bytes that have been read from
    [p_pos] on. *)
Record bs_init_journal_done := mk_part { p_buf : list Z; p_pos : Z; p_len : Z }.

Record blockstore_init_journal := mk_init {
  ij_bs : blockstore_impl_t;
  entries_loaded : Z;
  ij_crc32_last : Z;
  started : bool;
  ij_next_free : Z;
  done : list bs_init_journal_done;
  double_allocs : list obj_ver_id;
  journal_pos : Z;
  continue_pos : Z;
  init_write : option (Z * list Z);
  wrapped : bool }.

Definition with_bs (x : blockstore_impl_t) (i : blockstore_init_journal) : blockstore_init_journal :=
  mk_init x (entries_loaded i) (ij_crc32_last i) (started i) (ij_next_free i) (done i) (double_allocs i) (journal_pos i)
    (continue_pos i) (init_write i) (wrapped i).
Definition with_ij_next_free (x : Z) (i : blockstore_init_journal) : blockstore_init_journal :=
  mk_init (ij_bs i) (entries_loaded i) (ij_crc32_last i) (started i) x (done i) (double_allocs i) (journal_pos i)
    (continue_pos i) (init_write i) (wrapped i).
Definition with_done (x : list bs_init_journal_done) (i : blockstore_init_journal) : blockstore_init_journal :=
  mk_init (ij_bs i) (entries_loaded i) (ij_crc32_last i) (started i) (ij_next_free i) x (double_allocs i) (journal_pos i)
    (continue_pos i) (init_write i) (wrapped i).
Definition with_double_allocs (x : list obj_ver_id) (i : blockstore_init_journal) : blockstore_init_journal :=
  mk_init (ij_bs i) (entries_loaded i) (ij_crc32_last i) (started i) (ij_next_free i) (done i) x (journal_pos i)
    (continue_pos i) (init_write i) (wrapped i).
Definition with_journal_pos (x : Z) (w : bool) (i : blockstore_init_journal) : blockstore_init_journal :=
  mk_init (ij_bs i) (entries_loaded i) (ij_crc32_last i) (started i) (ij_next_free i) (done i) (double_allocs i) x
    (continue_pos i) (init_write i) w.
Definition with_continue_pos (x : Z) (i : blockstore_init_journal) : blockstore_init_journal :=
  mk_init (ij_bs i) (entries_loaded i) (ij_crc32_last i) (started i) (ij_next_free i) (done i) (double_allocs i) (journal_pos i)
    x (init_write i) (wrapped i).
Definition with_init_write (x : option (Z * list Z)) (i : blockstore_init_journal) : blockstore_init_journal :=
  mk_init (ij_bs i) (entries_loaded i) (ij_crc32_last i) (started i) (ij_next_free i) (done i) (double_allocs i) (journal_pos i)
    (continue_pos i) x (wrapped i).

(** ** Entries *)

(** The condition for the end of the journal, negated; a field is read only when the
    tests before it have passed. *)
Definition entry_valid (i : blockstore_init_journal) (buf : list Z) (je n : Z) : res bool :=
  let* magic := ld buf (je + 4) 2 in
  if negb (magic =? JOURNAL_MAGIC) then Ok false
  else
    let* size := ld buf (je + 8) 4 in
    if n <? je + size then Ok false
    else
      let* body := load buf (je + 4) (u32 (size - 4)) in
      let* crc := ld buf je 4 in
      if negb (crc_ref 0x48674bc7 body =? crc) then Ok false
      else
        let* type := ld buf (je + 6) 2 in
        if (type <? JE_MIN) || (JE_MAX <? type) then Ok false
        else if started i then let* prev := ld buf (je + 12) 4 in Ok (prev =? ij_crc32_last i)
        else Ok true.

(** The parts of [location .. location + n] that have been read. *)
Definition data_parts (l : list bs_init_journal_done) (location n : Z) : list (list Z) :=
  omap (fun p =>
    if (p_pos p <? location + n) && (location <? p_pos p + p_len p) then
      let part_end := if location + n <? p_pos p + p_len p then location + n else p_pos p + p_len p in
      let part_begin := if location <? p_pos p then p_pos p else location in
      Some (slice (p_buf p) (part_begin - p_pos p) (part_end - part_begin))
    else None) l.

(** The checksums of the blocks of a small write, in the entry at [je]. *)
Fixpoint blocks_valid (c : config_t) (buf : list Z) (csums off n start end_ : Z) (blocks : list Z) (data : list Z) : res bool :=
  match blocks with
  | [] => Ok true
  | pos :: blocks =>
    let cs := csum_block_size c in
    let block_left :=
      if pos =? start then (if start =? end_ then n else cs - off mod cs)
      else if pos <? end_ then cs else u32 (off + n) mod cs in
    let block_left := if (start <? pos) && (pos =? end_) && (block_left =? 0) then cs else block_left in
    assert! (block_left <=? zlen data) in
    let* stored := ld buf (csums + 4 * (pos - start)) 4 in
    if negb (crc_ref 0 (take (Z.to_nat block_left) data) =? stored) then Ok false
    else blocks_valid c buf csums off n start end_ blocks (drop (Z.to_nat block_left) data)
  end.

Definition data_valid (c : config_t) (buf : list Z) (je size off n : Z) (data : list Z) : res bool :=
  if csum_block_size c =? 0 then let* crc := ld buf (je + 56) 4 in Ok (crc_ref 0 data =? crc)
  else if 0 <? n then
    let start := off / csum_block_size c in
    let end_ := u32 (off + n - 1) / csum_block_size c in
    let data_csum_size := u32 ((end_ - start + 1) * Z.land (data_csum_type c) 0xFF) in
    if negb (size =? u32 (sizeof_small_write + clean_entry_bitmap_size c + data_csum_size)) then Ok false
    else blocks_valid c buf (je + sizeof_small_write + clean_entry_bitmap_size c) off n start end_ (seqZ start (end_ - start + 1)) data
  else Ok true.

(** The bytes of [dyn_data] that follow the fields of an entry. *)
Definition load_dyn (c : config_t) (buf : list Z) (pos off n : Z) : res (list Z) :=
  let dyn_size := dirty_dyn_size c off n in
  let* d := load buf pos dyn_size in
  if alloc_dyn_data c then Ok d else poke (replicate 8 0) 0 d.

Definition is_newer (b : blockstore_impl_t) (ov : obj_ver_id) : bool :=
  match clean_db b !! oid ov with Some c => clean_version c <? version ov | None => true end.

(** A version that is found in the journal: [emplace], the reference and [unstable_writes]. *)
Definition add_version (ov : obj_ver_id) (e : dirty_entry) (b : blockstore_impl_t) : blockstore_impl_t :=
  with_journal (use_sector (journal_sector e) (journal b)) (with_dirty_db (db_emplace (dirty_db b) ov e) b).

(** A small write that is newer than the object on the data device. *)
Definition found_small (instant : bool) (ov : obj_ver_id) (off n loc sector : Z) (dyn : list Z) (b : blockstore_impl_t) : res blockstore_impl_t :=
  let b := note_unstable ov (add_version ov (mk_dirty (Z.lor BS_ST_SMALL_WRITE BS_ST_SYNCED) loc off n sector dyn) b) in
  if instant then mark_stable ov true b else Ok b.

(** The result of an entry: go on, the end of the journal, or wait for the data. *)
Inductive step_t := Go | Stop | Wait.

Definition replay_small (i : blockstore_init_journal) (p : bs_init_journal_done) (proc_pos pos type size : Z)
    : res (blockstore_init_journal * step_t) :=
  let b := ij_bs i in
  let j := journal b in
  let buf := p_buf p in
  let je := proc_pos - p_pos p + pos in
  let* ov := ld_ov buf je in
  let* off := ld buf (je + 40) 4 in
  let* n := ld buf (je + 44) 4 in
  let* data_offset := ld buf (je + 48) 8 in
  let prev_free := ij_next_free i in
  let location := if len j <? prev_free + n then block_size j else prev_free in
  let next := if len j <=? location + n then block_size j else location + n in
  if negb (location =? data_offset) then Err Thrown
  else
    let inside := (p_pos p <=? location) && (location + n <=? p_pos p + p_len p) in
    let data := if inside then slice buf (location - p_pos p) n else concat (data_parts (done i) location n) in
    if negb inside && (zlen data <? n) then Ok (with_continue_pos (proc_pos + pos) i, Wait)
    else
      let i := with_ij_next_free next i in
      let* valid := data_valid (cfg b) buf je size off n data in
      if negb valid then
        let* buf := poke buf je (replicate (Z.to_nat (block_size j - pos)) 0) in
        let* m := if inmemory j then poke (mem j) (proc_pos + pos) (replicate (Z.to_nat (block_size j - pos)) 0) else Ok (mem j) in
        let* sector := load buf (proc_pos - p_pos p) (block_size j) in
        let b := with_journal (with_mem m (with_next_free prev_free j)) b in
        Ok (with_init_write (Some (proc_pos, sector)) (with_bs b i), Stop)
      else if negb (is_newer b ov) then Ok (i, Go)
      else
        let* dyn := load_dyn (cfg b) buf (je + sizeof_small_write) off n in
        let* b := found_small (type =? JE_SMALL_WRITE_INSTANT) ov off n location proc_pos dyn b in
        Ok (with_bs b i, Go).

(** Forget the versions of an object up to an iterator whose entry is the head of
    [rpre]. *)
Definition erase_dirty_object (o : object_id) (exists_ : bool) (rpre suf : dirty_db_t) (b : blockstore_impl_t) : res blockstore_impl_t :=
  let '(rest, mid) := split_object o rpre [] in
  let clean_loc := match clean_db b !! o with Some c => clean_location c | None => UINT64_MAX end in
  let bsz := data_block_size (cfg b) in
  let b :=
    if exists_ && (clean_loc =? UINT64_MAX) then
      let sp := default 0 (inode_space_stats b !! inode o) in
      let stats := if bsz <? sp then <[inode o := sp - bsz]> (inode_space_stats b) else delete (inode o) (inode_space_stats b) in
      with_used_blocks (u64 (used_blocks b - 1)) (with_inode_space_stats stats b)
    else b in
  let* b := erase_dirty rest (rev_append mid []) suf clean_loc b in
  Ok (with_flusher (remove_flush o (flusher b)) b).

(** A big write over a deletion with a greater version forgets what was before. *)
Definition forget_deleted (ov : obj_ver_id) (b : blockstore_impl_t) : res blockstore_impl_t :=
  match db_upper [] (dirty_db b) (mk_ov (oid ov) UINT64_MAX) with
  | ((k, e) :: r, suf) =>
    if oid_eqb (oid k) (oid ov) && (version ov <=? version k) && (Z.land (state e) BS_ST_TYPE_MASK =? BS_ST_DELETE)
    then erase_dirty_object (oid ov) (negb (IS_DELETE (state e))) ((k, e) :: r) suf b else Ok b
  | ([], _) => Ok b
  end.

(** A big write that is newer than the object on the data device.  When its block is in
    use it is remembered, to be looked at again after the whole journal. *)
Definition found_big (instant : bool) (ov : obj_ver_id) (off n loc sector : Z) (dyn : list Z) (b : blockstore_impl_t) (l : list obj_ver_id)
    : res (blockstore_impl_t * list obj_ver_id) :=
  let block := Z.shiftr loc (block_order (cfg b)) in
  let b := add_version ov (mk_dirty (Z.lor BS_ST_BIG_WRITE BS_ST_SYNCED) loc off n sector dyn) b in
  let* taken := get (data_alloc b) block in
  let* (b, l) :=
    if taken : bool then
      let* e := db_at (dirty_db b) ov in
      Ok (with_dirty_db (db_set (dirty_db b) ov (with_location UINT64_MAX e)) b, l ++ [ov])
    else let* a := set (data_alloc b) block true in Ok (with_data_alloc a b, l) in
  let b := note_unstable ov b in
  let* b := if instant then mark_stable ov true b else Ok b in
  Ok (b, l).

Definition replay_big (i : blockstore_init_journal) (p : bs_init_journal_done) (proc_pos pos type : Z) : res blockstore_init_journal :=
  let buf := p_buf p in
  let je := proc_pos - p_pos p + pos in
  let* ov := ld_ov buf je in
  let* off := ld buf (je + 40) 4 in
  let* n := ld buf (je + 44) 4 in
  let* loc := ld buf (je + 48) 8 in
  let* b := forget_deleted ov (ij_bs i) in
  if negb (is_newer b ov) then Ok (with_bs b i)
  else
    let* dyn := load_dyn (cfg b) buf (je + sizeof_big_write) off n in
    let* (b, l) := found_big (type =? JE_BIG_WRITE_INSTANT) ov off n loc proc_pos dyn b (double_allocs i) in
    Ok (with_bs b (with_double_allocs l i)).

Definition replay_delete (ov : obj_ver_id) (proc_pos : Z) (b : blockstore_impl_t) : res blockstore_impl_t :=
  let '(rpre, suf) := db_upper [] (dirty_db b) (mk_ov (oid ov) UINT64_MAX) in
  let last := match rpre with (k, e) :: _ => if oid_eqb (oid k) (oid ov) then Some e else None | [] => None end in
  let clean_exists := match clean_db b !! oid ov with Some c => clean_version c <? version ov | None => false end in
  match last with
  | Some e =>
    if negb clean_exists then erase_dirty_object (oid ov) (negb (IS_DELETE (state e))) rpre suf b
    else mark_stable ov true (add_version ov (mk_dirty (Z.lor BS_ST_DELETE BS_ST_SYNCED) 0 0 0 proc_pos []) b)
  | None =>
    if clean_exists then mark_stable ov true (add_version ov (mk_dirty (Z.lor BS_ST_DELETE BS_ST_SYNCED) 0 0 0 proc_pos []) b)
    else Ok b
  end.

(** One valid entry. *)
Definition replay_entry (i : blockstore_init_journal) (p : bs_init_journal_done) (proc_pos pos : Z) : res (blockstore_init_journal * step_t) :=
  let buf := p_buf p in
  let je := proc_pos - p_pos p + pos in
  let* type := ld buf (je + 6) 2 in
  let* size := ld buf (je + 8) 4 in
  if (type =? JE_SMALL_WRITE) || (type =? JE_SMALL_WRITE_INSTANT) then replay_small i p proc_pos pos type size
  else if (type =? JE_BIG_WRITE) || (type =? JE_BIG_WRITE_INSTANT) then let* i := replay_big i p proc_pos pos type in Ok (i, Go)
  else if type =? JE_STABLE then
    let* ov := ld_ov buf je in let* b := mark_stable ov true (ij_bs i) in Ok (with_bs b i, Go)
  else if type =? JE_ROLLBACK then
    let* ov := ld_ov buf je in let* b := mark_rolled_back ov (ij_bs i) in Ok (with_bs b i, Go)
  else if type =? JE_DELETE then
    let* ov := ld_ov buf je in let* b := replay_delete ov proc_pos (ij_bs i) in Ok (with_bs b i, Go)
  else Ok (i, Go).

(** ** Sectors and parts *)

(** [while (pos < block_size)]. *)
Fixpoint sector_loop (fuel : nat) (i : blockstore_init_journal) (p : bs_init_journal_done) (proc_pos pos : Z)
    : res (blockstore_init_journal * step_t) :=
  match fuel with
  | O => Err OutOfFuel
  | S fuel =>
    let j := journal (ij_bs i) in
    if negb (pos <? block_size j) then Ok (i, Go)
    else
      let je := proc_pos - p_pos p + pos in
      let* valid := entry_valid i (p_buf p) je (p_len p) in
      if negb valid then
        if pos =? 0 then Ok (with_bs (with_journal (with_next_free proc_pos j) (ij_bs i)) i, Stop) else Ok (i, Go)
      else
        let* (i, s) := replay_entry i p proc_pos pos in
        match s with
        | Go =>
          let* size := ld (p_buf p) (je + 8) 4 in
          let* crc := ld (p_buf p) je 4 in
          let i := mk_init (ij_bs i) (entries_loaded i + 1) crc true (ij_next_free i) (done i) (double_allocs i) (journal_pos i)
            (continue_pos i) (init_write i) (wrapped i) in
          sector_loop fuel i p proc_pos (pos + size)
        | _ => Ok (i, s)
        end
  end.

Definition sector_fuel (j : journal_t) : nat := S (Z.to_nat (block_size j)).

(** [while (next_free >= done_pos && next_free < done_pos+len)]. *)
Fixpoint part_loop (fuel : nat) (i : blockstore_init_journal) (p : bs_init_journal_done) : res (blockstore_init_journal * step_t) :=
  match fuel with
  | O => Err OutOfFuel
  | S fuel =>
    let j := journal (ij_bs i) in
    let proc_pos := ij_next_free i in
    if (p_pos p <=? proc_pos) && (proc_pos <? p_pos p + p_len p) then
      let next := if len j <=? proc_pos + block_size j then block_size j else proc_pos + block_size j in
      let* (i, s) := sector_loop (sector_fuel j) (with_ij_next_free next i) p proc_pos 0 in
      match s with Go => part_loop fuel i p | _ => Ok (i, s) end
    else Ok (with_bs (with_journal (with_next_free (ij_next_free i) j) (ij_bs i)) i, Go)
  end.

Definition part_fuel (j : journal_t) : nat := S (S (Z.to_nat (len j / block_size j))).

Definition handle_journal_part (i : blockstore_init_journal) (p : bs_init_journal_done) : res (blockstore_init_journal * step_t) :=
  let j := journal (ij_bs i) in
  if negb (continue_pos i =? 0) then
    let proc_pos := continue_pos i / block_size j * block_size j in
    let pos := continue_pos i mod block_size j in
    let* (i, s) := sector_loop (sector_fuel j) (with_continue_pos 0 i) p proc_pos pos in
    match s with Go => part_loop (part_fuel j) i p | _ => Ok (i, s) end
  else part_loop (part_fuel j) i p.

(** ** Reading *)

Definition JOURNAL_BUFFER_SIZE : Z := 4 * 1024 * 1024.

(** The next read: its position and length. *)
Definition next_read (i : blockstore_init_journal) : option (Z * Z) :=
  let j := journal (ij_bs i) in
  if negb (wrapped i) || (journal_pos i <? used_start j) then
    let end_ := if journal_pos i <? used_start j then used_start j else len j in
    Some (journal_pos i, if end_ - journal_pos i <? JOURNAL_BUFFER_SIZE then end_ - journal_pos i else JOURNAL_BUFFER_SIZE)
  else None.

(** A read that has completed; [disk] is what the device holds. *)
Definition handle_event (disk : list Z) (r : Z * Z) (i : blockstore_init_journal) : res blockstore_init_journal :=
  let '(pos, n) := r in
  let j := journal (ij_bs i) in
  if n <=? 0 then Err Thrown
  else
    let* data := load disk pos n in
    let* m := if inmemory j then poke (mem j) pos data else Ok (mem j) in
    let i := with_bs (with_journal (with_mem m j) (ij_bs i)) (with_done (done i ++ [mk_part data pos n]) i) in
    Ok (if len j <=? pos + n then with_journal_pos (block_size j) true i else with_journal_pos (pos + n) (wrapped i) i).

(** [while (done.size() > 0)]. *)
Fixpoint drain (fuel : nat) (i : blockstore_init_journal) : res (blockstore_init_journal * step_t) :=
  match fuel with
  | O => Err OutOfFuel
  | S fuel =>
    match done i with
    | [] => Ok (i, Go)
    | p :: _ =>
      let* (i, s) := handle_journal_part i p in
      match s with
      | Go => drain fuel (with_done (drop 1 (done i)) i)
      | _ => Ok (i, s)
      end
    end
  end.

(** The [while (1)] of [loop]: the next part is read while the ones before it are
    replayed. *)
Fixpoint read_loop (fuel : nat) (disk : list Z) (i : blockstore_init_journal) : res blockstore_init_journal :=
  match fuel with
  | O => Err OutOfFuel
  | S fuel =>
    let submitted := next_read i in
    let* (i, s) := drain (S (length (done i))) i in
    let* i := match submitted with Some r => handle_event disk r i | None => Ok i end in
    match s, submitted with
    | Stop, _ => Ok (with_done [] i)
    | _, Some _ => read_loop fuel disk i
    | _, None => Ok i
    end
  end.

(** ** The superblock *)

Definition start_entry (c : config_t) (journal_start : Z) : list Z :=
  let body := le_bytes 2 JOURNAL_MAGIC ++ le_bytes 2 JE_START ++ le_bytes 4 JE_START_V2_SIZE ++ le_bytes 4 0
    ++ le_bytes 8 journal_start ++ le_bytes 8 JOURNAL_VERSION_V2 ++ le_bytes 4 (data_csum_type c) ++ le_bytes 4 (csum_block_size c) in
  le_bytes 4 (crc_ref 0x48674bc7 body) ++ body.

(** The start of the journal that a superblock gives, and the superblock, in which the
    checksum settings of older versions are cleared; [exit] when it is not valid. *)
Definition check_superblock (c : config_t) (buf : list Z) : res (Z * list Z) :=
  let* magic := ld buf 4 2 in
  let* type := ld buf 6 2 in
  let* size := ld buf 8 4 in
  if negb (magic =? JOURNAL_MAGIC) || negb (type =? JE_START) then Err Aborted
  else
    let* body := load buf 4 (u32 (size - 4)) in
    let* crc := ld buf 0 4 in
    if negb (crc_ref 0x48674bc7 body =? crc) then Err Aborted
    else if negb (size =? JE_START_V0_SIZE) && negb (size =? JE_START_V1_SIZE) && negb (size =? JE_START_V2_SIZE) then Err Aborted
    else
      let* ver := ld buf 24 8 in
      if (size =? JE_START_V0_SIZE) ||
         (negb (ver =? JOURNAL_VERSION_V1) || negb (size =? JE_START_V1_SIZE)) &&
         (negb (ver =? JOURNAL_VERSION_V2) || negb (size =? JE_START_V2_SIZE) && negb (size =? JE_START_V1_SIZE))
      then Err Aborted
      else
        let old := (ver =? JOURNAL_VERSION_V1) || (ver =? JOURNAL_VERSION_V2) && (size =? JE_START_V1_SIZE) in
        let* buf := if old then poke buf 32 (replicate 8 0) else Ok buf in
        let* csum_type := ld buf 32 4 in
        let* csum_size := ld buf 36 4 in
        if negb (csum_type =? data_csum_type c) || negb (csum_size =? csum_block_size c) then Err Aborted
        else let* start := ld buf 16 8 in Ok (start, buf).

(** [loop]: the state after the start and the blocks that have to be written.  The fuel
    is a read for every block. *)
Definition init_journal (disk : list Z) (b : blockstore_impl_t) : res (blockstore_impl_t * option (Z * list Z)) :=
  let j := journal b in
  let* first := load disk 0 (block_size j) in
  let* i :=
    if forallb (fun x => x =? 0) first then
      let start := start_entry (cfg b) (block_size j) in
      let two := start ++ replicate (Z.to_nat (2 * block_size j - zlen start)) 0 in
      let* m := if inmemory j then poke (mem j) 0 two else Ok (mem j) in
      let b := with_journal (with_mem m (with_next_free (block_size j) (with_used_start (block_size j) j))) b in
      Ok (mk_init b 0 0 false (block_size j) [] [] 0 0 (Some (0, two)) false)
    else
      let* (start, first) := check_superblock (cfg b) first in
      let* m := if inmemory j then poke (mem j) 0 first else Ok (mem j) in
      let b := with_journal (with_mem m (with_used_start start j)) b in
      read_loop (S (S (Z.to_nat (len j / block_size j)))) disk (mk_init b 0 0 false start [] [] start 0 None false) in
  let b := ij_bs i in
  if existsb (fun ov => match db_find (dirty_db b) ov with
                        | Some (_, e, _) => IS_BIG_WRITE (state e) && (location e =? UINT64_MAX) | None => false end) (double_allocs i)
  then Err Aborted
  else
    let j := journal b in
    let b := with_journal (with_crc32_last (ij_crc32_last i) (with_dirty_start (next_free j) j))
      (with_flusher (mark_trim_possible (flusher b)) b) in
    Ok (b, init_write i).
