(* ===== verification/ReplayLog.v ===== *)
(** * The blockstore: the journal as a log of entries

    Entries as values, their bytes with chained checksums, and images of a journal
    that hold a sequence of sectors with entries and the data of small writes between
    them. *)

From S2P Require Import Prelude.
From S2P Require Import Allocator.
From S2P Require Import Crc32c.
From S2P Require Import Journal.
From S2P Require Import Blockstore.
From S2P Require Import BlockstoreOps.
From S2P Require Import JournalCheck.
From S2P Require Import JournalRing.
From S2P Require Import Replay.

(** ** Integers and bytes *)

Lemma lor_shift8_add b w : 0 <= b < 256 -> Z.lor b (Z.shiftl w 8) = b + 256 * w.
Proof.
  intros Hb. rewrite lor_shift8 by done. rewrite <- Z.add_nocarry_lxor; [rewrite Z.shiftl_mul_pow2; lia |].
  apply Z.bits_inj'. intros i Hi. rewrite Z.land_spec, Z.bits_0. destruct (decide (i < 8)).
  - by rewrite Z.shiftl_spec_low, andb_false_r by lia.
  - by rewrite (testbit_ge 8 b) by lia.
Qed.

Lemma le_word_le_bytes n x : 0 <= x < 2 ^ (8 * Z.of_nat n) -> le_word (le_bytes n x) = x.
Proof.
  revert x. induction n as [| n IH]; intros x Hx; [cbn in *; lia |]. cbn [le_bytes le_word].
  replace (8 * Z.of_nat (S n)) with (8 + 8 * Z.of_nat n) in Hx by lia. rewrite Z.pow_add_r in Hx by lia.
  rewrite IH by (split; [apply Z.div_pos; lia | apply Z.div_lt_upper_bound; lia]).
  rewrite lor_shift8_add by (apply Z.mod_pos_bound; lia). rewrite (Z.div_mod x 256) at 3 by lia. lia.
Qed.

Lemma is_bytes_le_bytes n x : is_bytes (le_bytes n x).
Proof. revert x. induction n as [| n IH]; intros x; constructor; [apply Z.mod_pos_bound; lia | apply IH]. Qed.

(** [buf] has the bytes [d] at [a]. *)
Definition holds (buf : list Z) (a : Z) (d : list Z) : Prop := 0 <= a /\ a + zlen d <= zlen buf /\ slice buf a (zlen d) = d.

Lemma holds_app buf a d1 d2 : holds buf a (d1 ++ d2) <-> holds buf a d1 /\ holds buf (a + zlen d1) d2.
Proof.
  unfold holds. rewrite zlen_app. pose proof (zlen_nonneg d1). pose proof (zlen_nonneg d2). split.
  - intros (Ha & Hl & Hs). rewrite slice_split in Hs by lia.
    apply app_inj_1 in Hs as [H1 H2].
    + repeat split; try lia; done.
    + pose proof (zlen_slice buf a (zlen d1)) as E. unfold zlen in *. lia.
  - intros ((Ha & Hl & Hs) & (_ & Hl2 & Hs2)). repeat split; [lia | lia |]. rewrite slice_split by lia. congruence.
Qed.

Lemma holds_load buf a d : holds buf a d -> load buf a (zlen d) = Ok d.
Proof. intros (Ha & Hl & Hs). by rewrite load_slice, Hs by lia. Qed.

Lemma holds_ld buf a n k x : holds buf a (le_bytes n x) -> k = Z.of_nat n -> 0 <= x < 2 ^ (8 * Z.of_nat n) -> ld buf a k = Ok x.
Proof.
  intros H -> Hx. unfold ld. apply holds_load in H. rewrite zlen_le_bytes in H. rewrite H. cbn [rbind]. by rewrite le_word_le_bytes.
Qed.

(** ** Entries *)

Inductive entry_t :=
| SmallWrite (instant : bool) (ov : obj_ver_id) (off n loc crc : Z) (dyn : list Z)
| BigWrite (instant : bool) (ov : obj_ver_id) (off n loc : Z) (dyn : list Z)
| Stable (ov : obj_ver_id)
| Rollback (ov : obj_ver_id)
| Delete (ov : obj_ver_id).

Definition type_of (e : entry_t) : Z :=
  match e with
  | SmallWrite instant _ _ _ _ _ _ => if instant then JE_SMALL_WRITE_INSTANT else JE_SMALL_WRITE
  | BigWrite instant _ _ _ _ _ => if instant then JE_BIG_WRITE_INSTANT else JE_BIG_WRITE
  | Stable _ => JE_STABLE
  | Rollback _ => JE_ROLLBACK
  | Delete _ => JE_DELETE
  end.

Definition ov_bytes (v : obj_ver_id) : list Z := le_bytes 8 (inode (oid v)) ++ le_bytes 8 (stripe (oid v)) ++ le_bytes 8 (version v).
Definition ov_of (e : entry_t) : obj_ver_id :=
  match e with SmallWrite _ v _ _ _ _ _ | BigWrite _ v _ _ _ _ | Stable v | Rollback v | Delete v => v end.

(** What follows the header of 16 bytes and the version. *)
Definition fields_of (e : entry_t) : list Z :=
  match e with
  | SmallWrite _ _ off n loc crc dyn => le_bytes 4 off ++ le_bytes 4 n ++ le_bytes 8 loc ++ le_bytes 4 crc ++ dyn
  | BigWrite _ _ off n loc dyn => le_bytes 4 off ++ le_bytes 4 n ++ le_bytes 8 loc ++ dyn
  | _ => []
  end.

Definition size_of (e : entry_t) : Z := 40 + zlen (fields_of e).

(** All but the checksum, which is chained to that of the entry before. *)
Definition rest_of (prev : Z) (e : entry_t) : list Z :=
  le_bytes 2 JOURNAL_MAGIC ++ le_bytes 2 (type_of e) ++ le_bytes 4 (size_of e) ++ le_bytes 4 prev ++ ov_bytes (ov_of e) ++ fields_of e.
Definition crc_of (prev : Z) (e : entry_t) : Z := crc_ref 0x48674bc7 (rest_of prev e).
Definition encode (prev : Z) (e : entry_t) : list Z := le_bytes 4 (crc_of prev e) ++ rest_of prev e.

(** The fields are in the ranges of their types. *)
Definition ov_ok (v : obj_ver_id) : Prop :=
  0 <= inode (oid v) < 2 ^ 64 /\ 0 <= stripe (oid v) < 2 ^ 64 /\ 0 <= version v < 2 ^ 64.
Definition fields_ok (c : config_t) (e : entry_t) : Prop :=
  match e with
  | SmallWrite _ _ off n loc crc dyn =>
    0 <= off < 2 ^ 32 /\ 0 <= n < 2 ^ 32 /\ 0 <= loc < 2 ^ 64 /\ 0 <= crc < 2 ^ 32 /\ zlen dyn = dirty_dyn_size c off n /\ is_bytes dyn
  | BigWrite _ _ off n loc dyn =>
    0 <= off < 2 ^ 32 /\ 0 <= n < 2 ^ 32 /\ 0 <= loc < 2 ^ 64 /\ zlen dyn = dirty_dyn_size c off n /\ is_bytes dyn
  | _ => True
  end.
Definition entry_ok (c : config_t) (e : entry_t) : Prop := ov_ok (ov_of e) /\ fields_ok c e /\ size_of e < 2 ^ 32.

Lemma type_range e : 2 <= type_of e <= 8.
Proof. destruct e as [[] | [] | | |]; vm_compute; split; discriminate. Qed.

Lemma zlen_ov_bytes v : zlen (ov_bytes v) = 24.
Proof. unfold ov_bytes. by rewrite !zlen_app, !zlen_le_bytes. Qed.
Lemma zlen_rest prev e : zlen (rest_of prev e) = size_of e - 4.
Proof. unfold rest_of, size_of. rewrite !zlen_app, zlen_ov_bytes, !zlen_le_bytes. lia. Qed.
Lemma zlen_encode prev e : zlen (encode prev e) = size_of e.
Proof. unfold encode. rewrite zlen_app, zlen_le_bytes, zlen_rest. lia. Qed.
Lemma size_of_min e : 40 <= size_of e.
Proof. unfold size_of. pose proof (zlen_nonneg (fields_of e)). lia. Qed.

Lemma is_bytes_app a b : is_bytes a -> is_bytes b -> is_bytes (a ++ b).
Proof. intros. by apply Forall_app. Qed.
Lemma fields_bytes c e : fields_ok c e -> is_bytes (fields_of e).
Proof. destruct e; cbn [fields_ok fields_of]; intros H; [| | by apply Forall_nil ..]; repeat apply is_bytes_app; try apply is_bytes_le_bytes; apply H. Qed.
Lemma rest_bytes c prev e : fields_ok c e -> is_bytes (rest_of prev e).
Proof. intros H. unfold rest_of, ov_bytes. repeat apply is_bytes_app; try apply is_bytes_le_bytes. by eapply fields_bytes. Qed.
Lemma crc_of_range c prev e : fields_ok c e -> 0 <= crc_of prev e < 2 ^ 32.
Proof. intros H. apply crc_ref_range; [unfold is32; lia | by eapply rest_bytes]. Qed.

(** ** Reading an entry *)

Record reads (buf : list Z) (je prev : Z) (e : entry_t) : Prop := {
  rd_crc : ld buf je 4 = Ok (crc_of prev e);
  rd_magic : ld buf (je + 4) 2 = Ok JOURNAL_MAGIC;
  rd_type : ld buf (je + 6) 2 = Ok (type_of e);
  rd_size : ld buf (je + 8) 4 = Ok (size_of e);
  rd_prev : ld buf (je + 12) 4 = Ok prev;
  rd_rest : load buf (je + 4) (size_of e - 4) = Ok (rest_of prev e);
  rd_ov : ld_ov buf je = Ok (ov_of e);
  rd_fields : holds buf (je + 40) (fields_of e) }.

Lemma holds_ov buf je v : holds buf (je + 16) (ov_bytes v) -> ov_ok v -> ld_ov buf je = Ok v.
Proof.
  unfold ov_bytes. rewrite !holds_app, !zlen_le_bytes. intros (H1 & H2 & H3) (R1 & R2 & R3). unfold ld_ov.
  rewrite (holds_ld _ _ 8 8 _ H1) by done. cbn [rbind]. replace (je + 24) with (je + 16 + Z.of_nat 8) by lia.
  rewrite (holds_ld _ _ 8 8 _ H2) by done. cbn [rbind]. replace (je + 32) with (je + 16 + Z.of_nat 8 + Z.of_nat 8) by lia.
  rewrite (holds_ld _ _ 8 8 _ H3) by done. cbn [rbind]. by destruct v as [[] ?].
Qed.

Lemma encode_reads c buf je prev e : holds buf je (encode prev e) -> entry_ok c e -> 0 <= prev < 2 ^ 32 -> reads buf je prev e.
Proof.
  intros H (Hv & Hf & Hs) Hp. pose proof (crc_of_range c prev e Hf) as Rc. pose proof (type_range e) as Rt. pose proof (size_of_min e) as Rs.
  unfold encode in H. apply holds_app in H as [H0 Hr]. rewrite zlen_le_bytes in Hr. pose proof (holds_load _ _ _ Hr) as Hl.
  rewrite zlen_rest in Hl. unfold rest_of in Hr. rewrite !holds_app, !zlen_le_bytes, zlen_ov_bytes in Hr.
  destruct Hr as (H1 & H2 & H3 & H4 & H5 & H6). rewrite <- !Z.add_assoc in *. cbn in H2, H3, H4, H5, H6.
  constructor.
  - by apply (holds_ld _ _ 4 4).
  - by apply (holds_ld _ _ 2 2).
  - apply (holds_ld _ _ 2 2); [done | done | lia].
  - apply (holds_ld _ _ 4 4); [done | done | lia].
  - by apply (holds_ld _ _ 4 4).
  - done.
  - by apply holds_ov.
  - done.
Qed.

Lemma entry_valid_ok c i buf je n prev e :
  reads buf je prev e -> entry_ok c e -> je + size_of e <= n -> (started i = true -> ij_crc32_last i = prev) ->
  entry_valid i buf je n = Ok true.
Proof.
  intros R (_ & _ & Hs) Hn Hc. pose proof (size_of_min e). pose proof (type_range e). unfold entry_valid.
  rewrite (rd_magic _ _ _ _ R). cbn [rbind]. rewrite Z.eqb_refl. cbn [negb]. rewrite (rd_size _ _ _ _ R). cbn [rbind].
  rewrite (proj2 (Z.ltb_ge _ _)) by lia. rewrite u32_small by lia. rewrite (rd_rest _ _ _ _ R), (rd_crc _ _ _ _ R). cbn [rbind].
  unfold crc_of. rewrite Z.eqb_refl. cbn [negb]. rewrite (rd_type _ _ _ _ R). cbn [rbind]. unfold JE_MIN, JE_MAX.
  rewrite (proj2 (Z.ltb_ge _ _)), (proj2 (Z.ltb_ge _ _)) by lia. cbn [orb]. destruct (started i); [| done].
  rewrite (rd_prev _ _ _ _ R), Hc by done. cbn [rbind]. by rewrite Z.eqb_refl.
Qed.

(** ** Checksums of data *)

Section Checksums.
Variable c : config_t.
Hypothesis csum_type : csum_block_size c = 0 \/ 0 < csum_block_size c /\ Z.land (data_csum_type c) 0xFF = 4.
Hypothesis bitmap_size : 0 <= clean_entry_bitmap_size c < 2 ^ 16.
Variables off n : Z.
Hypothesis off_ok : 0 <= off.
Hypothesis n_ok : 0 < n.
Hypothesis end_ok : off + n < 2 ^ 32.

Definition csum_start : Z := off / csum_block_size c.
Definition csum_end : Z := (off + n - 1) / csum_block_size c.
Definition block_begin (pos : Z) : Z := Z.max off (pos * csum_block_size c).
Definition block_end (pos : Z) : Z := Z.min (off + n) ((pos + 1) * csum_block_size c).
(** The part of the data that is in checksum block [pos]. *)
Definition csum_block (data : list Z) (pos : Z) : list Z := slice data (block_begin pos - off) (block_end pos - block_begin pos).
Definition csum_list (data : list Z) : list Z := map (fun pos => crc_ref 0 (csum_block data pos)) (seqZ csum_start (csum_end - csum_start + 1)).

Lemma csum_bounds : csum_block_size c <> 0 ->
  0 < csum_block_size c /\ 0 <= csum_start <= csum_end /\ csum_start * csum_block_size c <= off < (csum_start + 1) * csum_block_size c
  /\ csum_end * csum_block_size c < off + n <= (csum_end + 1) * csum_block_size c.
Proof.
  intros Hcs. destruct csum_type as [| [H _]]; [done |]. unfold csum_start, csum_end.
  pose proof (Z.div_mod off (csum_block_size c) Hcs). pose proof (Z.mod_pos_bound off _ H).
  pose proof (Z.div_mod (off + n - 1) (csum_block_size c) Hcs). pose proof (Z.mod_pos_bound (off + n - 1) _ H).
  assert (0 <= off / csum_block_size c) by (apply Z.div_pos; lia).
  assert (off / csum_block_size c <= (off + n - 1) / csum_block_size c) by (apply Z.div_le_mono; lia). nia.
Qed.

(** The number of bytes the code takes for a block. *)
Lemma block_left_ok pos (cs := csum_block_size c) : cs <> 0 -> csum_start <= pos <= csum_end ->
  let left := if pos =? csum_start then (if csum_start =? csum_end then n else cs - off mod cs)
              else if pos <? csum_end then cs else u32 (off + n) mod cs in
  (if (csum_start <? pos) && (pos =? csum_end) && (left =? 0) then cs else left) = block_end pos - block_begin pos
  /\ block_begin pos - off = (if pos =? csum_start then 0 else block_end (pos - 1) - off).
Proof.
  intros Hcs Hpos. destruct (csum_bounds Hcs) as (H & H0 & H1 & H2). fold cs in H, H1, H2.
  assert (off mod cs = off - csum_start * cs) as Em by (unfold csum_start, cs; pose proof (Z.div_mod off (csum_block_size c) Hcs); lia).
  unfold block_begin, block_end. fold cs. cbn zeta. rewrite u32_small by lia.
  destruct (Z.eqb_spec pos csum_start) as [-> |].
  { rewrite (proj2 (Z.ltb_ge _ _)) by lia. cbn [andb]. split; [| lia].
    destruct (Z.eqb_spec csum_start csum_end) as [E |]; [nia |]. rewrite Em. nia. }
  rewrite (proj2 (Z.ltb_lt csum_start pos)) by lia. cbn [andb]. split; [| nia].
  destruct (Z.ltb_spec pos csum_end).
  - rewrite (proj2 (Z.eqb_neq pos csum_end)) by lia. cbn [andb]. nia.
  - assert (pos = csum_end) as -> by lia. rewrite Z.eqb_refl. cbn [andb].
    destruct (decide (off + n = (csum_end + 1) * cs)) as [E | E].
    + rewrite E, Z.mod_mul by lia. cbn [Z.eqb]. nia.
    + assert ((off + n) mod cs = off + n - csum_end * cs) as ->.
      { symmetry. apply (Z.mod_unique_pos _ _ csum_end); nia. }
      rewrite (proj2 (Z.eqb_neq _ _)) by lia. nia.
Qed.

Lemma slice_drop l a k m : 0 <= k -> 0 <= a -> slice (drop (Z.to_nat k) l) a m = slice l (k + a) m.
Proof. intros. unfold slice. by rewrite drop_drop, Z2Nat.inj_add by lia. Qed.

Lemma is_bytes_slice l a m : is_bytes l -> is_bytes (slice l a m).
Proof. intros. by apply is_bytes_take, is_bytes_drop. Qed.

Lemma blocks_valid_from buf csums data k : csum_block_size c <> 0 -> zlen data = n -> is_bytes data ->
  (forall pos, csum_start <= pos -> pos + Z.of_nat k = csum_end + 1 ->
   holds buf (csums + 4 * (pos - csum_start)) (concat (map (le_bytes 4) (map (fun pos => crc_ref 0 (csum_block data pos)) (seqZ pos (Z.of_nat k))))) ->
   blocks_valid c buf csums off n csum_start csum_end (seqZ pos (Z.of_nat k))
     (drop (Z.to_nat (if pos =? csum_start then 0 else block_end (pos - 1) - off)) data) = Ok true).
Proof.
  intros Hcs Hn Hb. destruct (csum_bounds Hcs) as (H & H0 & H1 & H2). induction k as [| k IH]; intros pos Hp Hk; [done |].
  rewrite seqZ_cons by lia. replace (Z.pred (Z.of_nat (S k))) with (Z.of_nat k) by lia. cbn [map concat blocks_valid].
  rewrite holds_app, zlen_le_bytes. intros (Hh & Hr). destruct (block_left_ok pos Hcs) as (-> & Hbeg); [lia |]. cbn zeta.
  rewrite <- Hbeg.
  assert (0 <= block_begin pos - off /\ block_begin pos <= block_end pos <= off + n) as (Hb0 & Hb1) by (unfold block_begin, block_end; nia).
  assert (zlen (drop (Z.to_nat (block_begin pos - off)) data) = n - (block_begin pos - off)) as Hl.
  { unfold zlen in *. rewrite length_drop. lia. }
  rewrite (proj2 (Z.leb_le _ _)) by lia. rewrite (holds_ld _ _ 4 4 _ Hh); [| done | ].
  2:{ apply crc_ref_range; [unfold is32; lia | by apply is_bytes_slice]. }
  cbn [rbind]. fold (slice data (block_begin pos - off) (block_end pos - block_begin pos)). fold (csum_block data pos).
  rewrite Z.eqb_refl. cbn [negb]. rewrite drop_drop, <- Z2Nat.inj_add by lia.
  replace (block_begin pos - off + (block_end pos - block_begin pos)) with (if Z.succ pos =? csum_start then 0 else block_end (Z.succ pos - 1) - off).
  - apply IH; [lia | lia |]. replace (csums + 4 * (Z.succ pos - csum_start)) with (csums + 4 * (pos - csum_start) + Z.of_nat 4) by lia. done.
  - rewrite (proj2 (Z.eqb_neq _ _)) by lia. replace (Z.succ pos - 1) with pos by lia. lia.
Qed.

(** The checksums a small write has in its entry are those the start expects. *)
Lemma data_valid_ok buf je size crc dyn data :
  zlen data = n -> is_bytes data -> 0 <= crc < 2 ^ 32 ->
  holds buf (je + 56) (le_bytes 4 crc ++ dyn) -> size = sizeof_small_write + zlen dyn -> size < 2 ^ 32 ->
  (if csum_block_size c =? 0 then crc = crc_ref 0 data
   else exists bitmap, zlen bitmap = clean_entry_bitmap_size c /\ dyn = bitmap ++ concat (map (le_bytes 4) (csum_list data))) ->
  data_valid c buf je size off n data = Ok true.
Proof.
  intros Hn Hb Hcrc [Hc Hd]%holds_app Hsz Hs2 Hv. unfold data_valid. rewrite zlen_le_bytes in Hd.
  destruct (Z.eqb_spec (csum_block_size c) 0) as [Hcs | Hcs].
  { rewrite (holds_ld _ _ 4 4 _ Hc) by done. cbn [rbind]. by rewrite Hv, Z.eqb_refl. }
  destruct Hv as (bitmap & Hbm & ->). destruct (csum_bounds Hcs) as (H & H0 & H1 & H2).
  destruct csum_type as [| [_ Ht]]; [done |]. rewrite Ht. rewrite (proj2 (Z.ltb_lt 0 n)) by done.
  rewrite (u32_small (off + n - 1)) by lia. fold csum_start csum_end.
  assert (zlen (concat (map (le_bytes 4) (csum_list data))) = 4 * (csum_end - csum_start + 1)) as Hl.
  { unfold csum_list. rewrite map_map. assert (forall l, zlen (concat (map (fun x => le_bytes 4 (crc_ref 0 (csum_block data x))) l)) = 4 * zlen l) as ->.
    - induction l as [| x l IH]; [done |]. cbn [map concat]. rewrite zlen_app, zlen_le_bytes, IH, zlen_cons. lia.
    - unfold zlen. rewrite length_seqZ. lia. }
  rewrite zlen_app, Hl in Hsz. unfold sizeof_small_write in *.
  rewrite (u32_small ((csum_end - csum_start + 1) * 4)), u32_small by lia.
  rewrite (proj2 (Z.eqb_eq size _)) by lia. cbn [negb]. apply holds_app in Hd as [_ Hd]. rewrite Hbm in Hd.
  pose proof (blocks_valid_from buf (je + 60 + clean_entry_bitmap_size c) data (Z.to_nat (csum_end - csum_start + 1)) Hcs Hn Hb csum_start) as E.
  rewrite Z2Nat.id, Z.eqb_refl in E by lia. apply E; [lia | lia |].
  replace (je + 60 + clean_entry_bitmap_size c + 4 * (csum_start - csum_start)) with (je + 56 + Z.of_nat 4 + clean_entry_bitmap_size c) by lia. done.
Qed.
End Checksums.
