(* ===== verification/ReplayApply.v ===== *)
(** * The blockstore: what an entry of the journal does

    The effect of an entry at start as a function of its fields, and its independence
    of the parts of the journal that change while the journal is read. *)

From S2P Require Import Prelude.
From S2P Require Import Allocator.
From S2P Require Import Journal.
From S2P Require Import Blockstore.
From S2P Require Import BlockstoreOps.
From S2P Require Import Replay.
From S2P Require Import ReplayLog.

Definition keep_dyn (c : config_t) (dyn : list Z) : res (list Z) :=
  if alloc_dyn_data c then Ok dyn else poke (replicate 8 0) 0 dyn.

(** The effect of an entry in [sector] on the blockstore and on the list of versions
    whose block was in use. *)
Definition apply_entry (sector : Z) (e : entry_t) (s : blockstore_impl_t * list obj_ver_id) : res (blockstore_impl_t * list obj_ver_id) :=
  let '(b, l) := s in
  match e with
  | SmallWrite instant ov off n loc _ dyn =>
    if is_newer b ov then
      let* dyn := keep_dyn (cfg b) dyn in
      let* b := found_small instant ov off n loc sector dyn b in Ok (b, l)
    else Ok (b, l)
  | BigWrite instant ov off n loc dyn =>
    let* b := forget_deleted ov b in
    if is_newer b ov then
      let* dyn := keep_dyn (cfg b) dyn in found_big instant ov off n loc sector dyn b l
    else Ok (b, l)
  | Stable ov => let* b := mark_stable ov true b in Ok (b, l)
  | Rollback ov => let* b := mark_rolled_back ov b in Ok (b, l)
  | Delete ov => let* b := replay_delete ov sector b in Ok (b, l)
  end.

Fixpoint apply_entries (sector : Z) (es : list entry_t) (s : blockstore_impl_t * list obj_ver_id) : res (blockstore_impl_t * list obj_ver_id) :=
  match es with [] => Ok s | e :: es => let* s := apply_entry sector e s in apply_entries sector es s end.

(** Sectors with their entries. *)
Fixpoint apply_log (log : list (Z * list entry_t)) (s : blockstore_impl_t * list obj_ver_id) : res (blockstore_impl_t * list obj_ver_id) :=
  match log with [] => Ok s | (p, es) :: log => let* s := apply_entries p es s in apply_log log s end.

(** ** Frames *)

(** The copy of the journal in memory and [next_free] change while it is read. *)
Definition tweak (m : list Z) (x : Z) (b : blockstore_impl_t) : blockstore_impl_t :=
  with_journal (with_mem m (with_next_free x (journal b))) b.

Record same_place (b b' : blockstore_impl_t) : Prop := {
  sp_cfg : cfg b' = cfg b;
  sp_inmemory : inmemory (journal b') = inmemory (journal b);
  sp_bs : block_size (journal b') = block_size (journal b);
  sp_len : len (journal b') = len (journal b);
  sp_us : used_start (journal b') = used_start (journal b);
  sp_nf : next_free (journal b') = next_free (journal b);
  sp_mem : mem (journal b') = mem (journal b) }.

Lemma same_place_refl b : same_place b b.
Proof. by constructor. Qed.
Lemma same_place_trans b1 b2 b3 : same_place b1 b2 -> same_place b2 b3 -> same_place b1 b3.
Proof. intros [] []. constructor; congruence. Qed.

Record framed (f : blockstore_impl_t -> res blockstore_impl_t) : Prop := {
  fr_tweak : forall m x b, f (tweak m x b) = let* b := f b in Ok (tweak m x b);
  fr_keep : forall b b', f b = Ok b' -> same_place b b' }.

Lemma framed_ok : framed Ok.
Proof. constructor; [done |]. intros b b' [= ->]. apply same_place_refl. Qed.

Lemma framed_pure g : (forall m x b, g (tweak m x b) = tweak m x (g b)) -> (forall b, same_place b (g b)) -> framed (fun b => Ok (g b)).
Proof. intros Ht Hk. constructor; [intros m x b; cbn; by rewrite Ht |]. by intros b b' [= <-]. Qed.

Lemma framed_err e : framed (fun _ => Err e).
Proof. by constructor. Qed.

Lemma framed_bind f g : framed f -> framed g -> framed (fun b => let* b := f b in g b).
Proof.
  intros [F1 F2] [G1 G2]. constructor.
  - intros m x b. rewrite F1. destruct (f b); [| done]. cbn [rbind]. apply G1.
  - intros b b' (b1 & H1 & H2)%rbind_ok. eapply same_place_trans; [by apply F2 | by apply G2].
Qed.

Lemma framed_if (c : blockstore_impl_t -> bool) f g :
  (forall m x b, c (tweak m x b) = c b) -> framed f -> framed g -> framed (fun b => if c b then f b else g b).
Proof.
  intros Hc [F1 F2] [G1 G2]. constructor.
  - intros m x b. rewrite Hc. by destruct (c b).
  - intros b b'. destruct (c b); [apply F2 | apply G2].
Qed.

Ltac pure_frame := apply framed_pure; [reflexivity | by constructor].

Lemma unuse_framed s : framed (unuse_sector s).
Proof.
  constructor.
  - intros m x b. unfold unuse_sector. cbn. destruct (used_sectors (journal b) !! s); [| done].
    destruct (_ =? 0); [| done]. destruct (aget (sector_info (journal b)) _); [| done]. cbn [rbind]. by destruct (_ =? _).
  - intros b b'. unfold unuse_sector. destruct (used_sectors (journal b) !! s); [| done].
    destruct (_ =? 0); [| by intros [= <-]]. cbn. destruct (aget (sector_info (journal b)) _); [| done]. cbn [rbind].
    destruct (_ =? _); by intros [= <-].
Qed.

Lemma alloc_framed loc v : framed (fun b => let* a := set (data_alloc b) (Z.shiftr loc (block_order (cfg b))) v in Ok (with_data_alloc a b)).
Proof.
  constructor; [intros m x b; cbn; by destruct (set _ _ _) |]. intros b b' (a & _ & [= <-])%rbind_ok. by constructor.
Qed.

Lemma framed_ext f g : (forall b, f b = g b) -> framed g -> framed f.
Proof. intros E [G1 G2]. constructor; [intros m x b; by rewrite !E | intros b b'; rewrite E; apply G2]. Qed.

Lemma erase_one_framed loc e : framed (erase_one loc e).
Proof.
  unfold erase_one. set (c1 := _ && IS_STABLE _). set (c2 := _ && negb (location e =? UINT64_MAX)).
  set (alloc b := let* a := set (data_alloc b) (Z.shiftr (location e) (block_order (cfg b))) false in Ok (with_data_alloc a b)).
  apply (framed_ext _ (fun b => let* b := Ok (if c1 then with_big_to_flush (big_to_flush b - 1) b else b) in
    let* b := if c2 then alloc b else Ok b in unuse_sector (journal_sector e) b)); [done |].
  apply framed_bind; [destruct c1; pure_frame |]. apply framed_bind; [| apply unuse_framed].
  destruct c2; [apply alloc_framed | apply framed_ok].
Qed.

Lemma erase_loop_framed loc rmid : framed (erase_loop loc rmid).
Proof.
  induction rmid as [| [k e] rmid IH]; [apply framed_ok |]. cbn [erase_loop]. apply (framed_bind _ _ (erase_one_framed loc e) IH).
Qed.

Lemma erase_dirty_framed rpre rmid suf loc : framed (erase_dirty rpre rmid suf loc).
Proof.
  unfold erase_dirty. destruct rmid as [| [k e] r]; [pure_frame |]. cbn zeta.
  apply (framed_bind _ (fun b => Ok (with_dirty_db _ b)) (erase_loop_framed loc _)). pure_frame.
Qed.

(** A tail of a handler that looks at the database first. *)
Lemma framed_db {A} (g : blockstore_impl_t -> A) (f : A -> blockstore_impl_t -> res blockstore_impl_t) :
  (forall m x b, g (tweak m x b) = g b) -> (forall a, framed (f a)) -> framed (fun b => f (g b) b).
Proof.
  intros Hg Hf. constructor; [intros m x b; rewrite Hg; apply (fr_tweak _ (Hf _)) | intros b b'; apply (fr_keep _ (Hf _))].
Qed.

Lemma rolled_back_framed v : framed (mark_rolled_back v).
Proof.
  apply (framed_db (fun b => db_lower [] (dirty_db b) (mk_ov (oid v) UINT64_MAX))
    (fun d b => let '(rpre, suf) := d in let '(rpre, mid, max_unstable) := rollback_walk v rpre [] in
      match mid with
      | [] => Ok b
      | _ =>
        let* b := erase_dirty rpre (rev_append mid []) suf UINT64_MAX b in
        match unstable_writes b !! oid v with
        | None => Ok b
        | Some _ =>
          if max_unstable =? 0 then Ok (with_unstable_writes (delete (oid v) (unstable_writes b)) b)
          else Ok (with_unstable_writes (<[oid v := max_unstable]> (unstable_writes b)) b)
        end
      end)); [done |]. intros [rpre suf]. destruct (rollback_walk v rpre []) as [[r mid] mu]. destruct mid as [| y mid]; [apply framed_ok |].
  apply framed_bind; [apply erase_dirty_framed |].
  apply (framed_db (fun b => unstable_writes b !! oid v) (fun u b => match u with None => Ok b | Some _ =>
    if mu =? 0 then Ok (with_unstable_writes (delete (oid v) (unstable_writes b)) b) else Ok (with_unstable_writes (<[oid v := mu]> (unstable_writes b)) b) end)); [done |].
  intros [u |]; [| apply framed_ok]. destruct (mu =? 0); pure_frame.
Qed.

Lemma count_framed o rpre e : framed (fun b => Ok (count_stable o rpre e b)).
Proof.
  apply framed_pure.
  - intros m x b. unfold count_stable. destruct (IS_BIG_WRITE _).
    + change (exists_before o rpre (tweak m x b)) with (exists_before o rpre b). by destruct (exists_before o rpre b).
    + by destruct (IS_DELETE _).
  - intros b. unfold count_stable. destruct (IS_BIG_WRITE _); [by destruct (exists_before o rpre b) |]. by destruct (IS_DELETE _).
Qed.

(** [stable_loop] after the change of state. *)
Definition stable_tail (o : object_id) (forget was : bool) (rpre : dirty_db_t) (k : obj_ver_id) (e : dirty_entry) (suf : dirty_db_t)
    (b : blockstore_impl_t) : res blockstore_impl_t :=
  if forget && (IS_BIG_WRITE (state e) || IS_DELETE (state e)) then
    let '(rpre, mid) := split_object o rpre [] in
    let clean_loc := match clean_db b !! o with Some c => clean_location c | None => UINT64_MAX end in
    erase_dirty rpre (rev_append mid []) ((k, e) :: suf) clean_loc b
  else if was then Ok (with_dirty_db (rev_append rpre ((k, e) :: suf)) b)
  else
    match rpre with
    | (k', e') :: r =>
      if oid_eqb (oid k') o then stable_loop o forget r k' e' ((k, e) :: suf) b
      else Ok (with_dirty_db (rev_append rpre ((k, e) :: suf)) b)
    | [] => Ok (with_dirty_db ((k, e) :: suf) b)
    end.

Lemma stable_loop_tail o forget rpre k e suf b :
  stable_loop o forget rpre k e suf b =
  if workflow (state e) =? BS_ST_SYNCED then
    let e' := with_state (set_workflow (state e) BS_ST_STABLE) e in
    stable_tail o forget (IS_STABLE (state e)) rpre k e' suf (count_stable o rpre e' b)
  else if IS_IN_FLIGHT (state e) then Err Aborted
  else stable_tail o forget (IS_STABLE (state e)) rpre k e suf b.
Proof. destruct rpre; cbn [stable_loop]; destruct (workflow (state e) =? BS_ST_SYNCED); try done; by destruct (IS_IN_FLIGHT (state e)). Qed.

Lemma framed_comp g h : framed (fun b => Ok (g b)) -> framed h -> framed (fun b => h (g b)).
Proof. intros Hg Hh. apply (framed_bind _ _ Hg Hh). Qed.

Lemma stable_tail_framed o forget was rpre k e suf :
  (forall k' e' r suf, rpre = (k', e') :: r -> framed (stable_loop o forget r k' e' suf)) -> framed (stable_tail o forget was rpre k e suf).
Proof.
  intros IH. unfold stable_tail. destruct (forget && _).
  - destruct (split_object o rpre []) as [r mid].
    apply (framed_db (fun b => clean_db b !! o) (fun u b => let clean_loc := match u with Some c => clean_location c | None => UINT64_MAX end in
      erase_dirty r (rev_append mid []) ((k, e) :: suf) clean_loc b)); [done |]. intros u. apply erase_dirty_framed.
  - destruct was; [pure_frame |]. destruct rpre as [| [k' e'] r]; [pure_frame |].
    destruct (oid_eqb _ _); [by apply IH | pure_frame].
Qed.

Lemma stable_loop_framed o forget rpre : forall k e suf, framed (stable_loop o forget rpre k e suf).
Proof.
  induction rpre as [| x rpre IH]; intros k e suf; (eapply framed_ext; [intros b; apply stable_loop_tail |]); destruct (_ =? _).
  1, 3: apply framed_comp; [apply count_framed |]; apply stable_tail_framed; intros ????; first [done | by intros [= -> ->]].
  all: destruct (IS_IN_FLIGHT _); [apply framed_err |]; apply stable_tail_framed; intros ????; first [done | by intros [= -> ->]].
Qed.

Lemma forget_framed v : framed (fun b => Ok (forget_unstable v b)).
Proof.
  apply framed_pure; [intros m x b | intros b]; unfold forget_unstable; cbn; destruct (unstable_writes b !! oid v); try done; by destruct (_ <=? _).
Qed.

Lemma mark_stable_framed v forget : framed (mark_stable v forget).
Proof.
  apply (framed_db (fun b => db_find (dirty_db b) v) (fun f b =>
    match f with
    | None => Ok (forget_unstable v b)
    | Some (rpre, e, suf) =>
      if IS_INSTANT (state e) && unstable_before (oid v) rpre then Ok b
      else
        let '(rpre, k, e, suf) := if IS_INSTANT (state e) then advance_synced (oid v) rpre v e suf else (rpre, v, e, suf) in
        let* b := stable_loop (oid v) forget rpre k e suf b in
        Ok (forget_unstable k (with_flusher (enqueue_flush k (flusher b)) b))
    end)); [done |]. intros [[[rpre e] suf] |]; [| apply forget_framed].
  destruct (IS_INSTANT (state e) && _); [apply framed_ok |].
  destruct (if IS_INSTANT (state e) then _ else _) as [[[r k] e'] s]. apply framed_bind; [apply stable_loop_framed |].
  apply (framed_bind (fun b => Ok (with_flusher (enqueue_flush k (flusher b)) b)) (fun b => Ok (forget_unstable k b))); [pure_frame | apply forget_framed].
Qed.

Lemma note_framed v : framed (fun b => Ok (note_unstable v b)).
Proof. pure_frame. Qed.
Lemma add_version_framed v e : framed (fun b => Ok (add_version v e b)).
Proof. pure_frame. Qed.

Lemma found_small_framed instant v off n loc sector dyn : framed (found_small instant v off n loc sector dyn).
Proof.
  unfold found_small. destruct instant.
  - apply framed_comp; [| apply mark_stable_framed]. pure_frame.
  - pure_frame.
Qed.

Lemma erase_object_framed o ex rpre suf : framed (erase_dirty_object o ex rpre suf).
Proof.
  unfold erase_dirty_object. destruct (split_object o rpre []) as [rest mid].
  apply (framed_db (fun b => clean_db b !! o) (fun u b =>
    let clean_loc := match u with Some c => clean_location c | None => UINT64_MAX end in
    let b := if ex && (clean_loc =? UINT64_MAX) then
        let sp := default 0 (inode_space_stats b !! inode o) in
        let stats := if data_block_size (cfg b) <? sp then <[inode o := sp - data_block_size (cfg b)]> (inode_space_stats b) else delete (inode o) (inode_space_stats b) in
        with_used_blocks (u64 (used_blocks b - 1)) (with_inode_space_stats stats b)
      else b in
    let* b := erase_dirty rest (rev_append mid []) suf clean_loc b in
    Ok (with_flusher (remove_flush o (flusher b)) b))); [done |]. intros u. cbn zeta.
  set (loc := match u with Some c => _ | None => _ end). destruct (ex && (loc =? UINT64_MAX)).
  - apply (framed_comp _ (fun b => let* b := erase_dirty rest (rev_append mid []) suf loc b in Ok (with_flusher (remove_flush o (flusher b)) b))); [pure_frame |].
    apply framed_bind; [apply erase_dirty_framed | pure_frame].
  - apply framed_bind; [apply erase_dirty_framed | pure_frame].
Qed.

Lemma forget_deleted_framed v : framed (forget_deleted v).
Proof.
  apply (framed_db (fun b => db_upper [] (dirty_db b) (mk_ov (oid v) UINT64_MAX)) (fun d b =>
    match d with
    | ((k, e) :: r, suf) =>
      if oid_eqb (oid k) (oid v) && (version v <=? version k) && (Z.land (state e) BS_ST_TYPE_MASK =? BS_ST_DELETE)
      then erase_dirty_object (oid v) (negb (IS_DELETE (state e))) ((k, e) :: r) suf b else Ok b
    | ([], _) => Ok b
    end)); [done |]. intros [[| [k e] r] suf]; [apply framed_ok |]. destruct (_ && _); [apply erase_object_framed | apply framed_ok].
Qed.

Lemma replay_delete_framed v sector : framed (replay_delete v sector).
Proof.
  apply (framed_db (fun b => (db_upper [] (dirty_db b) (mk_ov (oid v) UINT64_MAX), clean_db b !! oid v)) (fun d b =>
    let '(rpre, suf, cl) := d in
    let last := match rpre with (k, e) :: _ => if oid_eqb (oid k) (oid v) then Some e else None | [] => None end in
    let clean_exists := match cl with Some c => clean_version c <? version v | None => false end in
    match last with
    | Some e =>
      if negb clean_exists then erase_dirty_object (oid v) (negb (IS_DELETE (state e))) rpre suf b
      else mark_stable v true (add_version v (mk_dirty (Z.lor BS_ST_DELETE BS_ST_SYNCED) 0 0 0 sector []) b)
    | None =>
      if clean_exists then mark_stable v true (add_version v (mk_dirty (Z.lor BS_ST_DELETE BS_ST_SYNCED) 0 0 0 sector []) b)
      else Ok b
    end)).
  - done.
  - intros [[rpre suf] cl]. cbn zeta. set (ex := match cl with Some c => _ | None => _ end).
    clearbody ex.
    assert (framed (fun b => mark_stable v true (add_version v (mk_dirty (Z.lor BS_ST_DELETE BS_ST_SYNCED) 0 0 0 sector []) b))) as H.
    { apply framed_comp; [apply add_version_framed | apply mark_stable_framed]. }
    destruct rpre as [| [k e] r]; [destruct ex; [done | apply framed_ok] |].
    destruct (oid_eqb _ _), ex; cbn [negb]; [done | apply erase_object_framed | done | apply framed_ok].
Qed.

(** ** Entries *)

Definition tweak_pair (m : list Z) (x : Z) (s : blockstore_impl_t * list obj_ver_id) : blockstore_impl_t * list obj_ver_id := (tweak m x (fst s), snd s).

Record framed_pair (f : blockstore_impl_t * list obj_ver_id -> res (blockstore_impl_t * list obj_ver_id)) : Prop := {
  fp_tweak : forall m x s, f (tweak_pair m x s) = let* s := f s in Ok (tweak_pair m x s);
  fp_keep : forall s s', f s = Ok s' -> same_place (fst s) (fst s') }.

Lemma framed_lift f : framed f -> framed_pair (fun s => let '(b, l) := s in let* b := f b in Ok (b, l)).
Proof.
  intros [F1 F2]. constructor.
  - intros m x [b l]. cbn. rewrite F1. by destruct (f b).
  - intros [b l] s' (b' & Hb & [= <-])%rbind_ok. by apply F2.
Qed.

Lemma framed_pair_bind f g : framed_pair f -> framed_pair g -> framed_pair (fun s => let* s := f s in g s).
Proof.
  intros [F1 F2] [G1 G2]. constructor.
  - intros m x b. rewrite F1. destruct (f b); [| done]. cbn [rbind]. apply G1.
  - intros b b' (b1 & H1 & H2)%rbind_ok. eapply same_place_trans; [by apply F2 | by apply G2].
Qed.

Lemma framed_pair_ext f g : (forall s, f s = g s) -> framed_pair g -> framed_pair f.
Proof. intros E [G1 G2]. constructor; [intros m x b; by rewrite !E | intros b b'; rewrite E; apply G2]. Qed.

Lemma found_big_framed instant v off n loc sector dyn :
  framed_pair (fun s => found_big instant v off n loc sector dyn (fst s) (snd s)).
Proof.
  set (block b := Z.shiftr loc (block_order (cfg b))).
  set (add b := add_version v (mk_dirty (Z.lor BS_ST_BIG_WRITE BS_ST_SYNCED) loc off n sector dyn) b).
  set (place (s : blockstore_impl_t * list obj_ver_id) := let '(b, l) := s in
    let* taken := get (data_alloc b) (block b) in
    if taken : bool then
      let* e := db_at (dirty_db b) v in Ok (with_dirty_db (db_set (dirty_db b) v (with_location UINT64_MAX e)) b, l ++ [v])
    else let* a := set (data_alloc b) (block b) true in Ok (with_data_alloc a b, l)).
  assert (framed_pair place) as Hp.
  { constructor.
    - intros m x [b l]. unfold place, block. cbn. destruct (get _ _) as [[] |]; cbn; [| | done].
      + by destruct (db_at _ _).
      + by destruct (set _ _ _).
    - intros [b l] [b' l']. unfold place. destruct (get _ _) as [[] |]; cbn; [| | done].
      + destruct (db_at _ _); [| done]. by intros [= <- <-].
      + destruct (set _ _ _); [| done]. by intros [= <- <-]. }
  apply (framed_pair_ext _ (fun s => let* s := (fun s => let '(b, l) := s in let* b := Ok (add b) in Ok (b, l)) s in
    let* s := place s in (fun s => let '(b, l) := s in let* b := (if instant then mark_stable v true (note_unstable v b) else Ok (note_unstable v b)) in Ok (b, l)) s)).
  - intros [b l]. unfold found_big, place. cbn [fst snd rbind]. fold (block b). change (block (add b)) with (block b). fold (add b).
    destruct (get _ _) as [[] |]; cbn [rbind]; [| | done].
    + destruct (db_at _ _); cbn [rbind]; [| done]. by destruct instant.
    + destruct (set _ _ _); cbn [rbind]; [| done]. by destruct instant.
  - apply framed_pair_bind; [apply framed_lift, add_version_framed |]. apply framed_pair_bind; [done |].
    apply (framed_lift (fun b => if instant then mark_stable v true (note_unstable v b) else Ok (note_unstable v b))).
    destruct instant; [apply framed_comp; [apply note_framed | apply mark_stable_framed] | apply note_framed].
Qed.

Lemma apply_entry_framed sector e : framed_pair (apply_entry sector e).
Proof.
  destruct e as [instant v off n loc crc dyn | instant v off n loc dyn | v | v | v].
  - constructor.
    + intros m x [b l]. cbn. change (is_newer (tweak m x b) v) with (is_newer b v). destruct (is_newer b v); [| done].
      destruct (keep_dyn (cfg b) dyn); cbn [rbind]; [| done]. rewrite (fr_tweak _ (found_small_framed _ _ _ _ _ _ _)). by destruct (found_small _ _ _ _ _ _ _ b).
    + intros [b l] [b' l']. cbn. destruct (is_newer b v); [| intros [= <- <-]; apply same_place_refl].
      destruct (keep_dyn (cfg b) dyn); cbn [rbind]; [| done]. intros (b1 & Hb & [= <- <-])%rbind_ok. by eapply (fr_keep _ (found_small_framed _ _ _ _ _ _ _)).
  - apply (framed_pair_ext _ (fun s => let* s := (fun s => let '(b, l) := s in let* b := forget_deleted v b in Ok (b, l)) s in
      if is_newer (fst s) v then let* dyn := keep_dyn (cfg (fst s)) dyn in found_big instant v off n loc sector dyn (fst s) (snd s) else Ok s)).
    { intros [b l]. cbn. by destruct (forget_deleted v b). }
    apply framed_pair_bind; [apply framed_lift, forget_deleted_framed |]. constructor.
    + intros m x [b l]. cbn. change (is_newer (tweak m x b) v) with (is_newer b v). destruct (is_newer b v); [| done].
      destruct (keep_dyn (cfg b) dyn); cbn [rbind]; [| done]. apply (fp_tweak _ (found_big_framed instant v off n loc sector _) m x (b, l)).
    + intros [b l] s'. cbn. destruct (is_newer b v); [| intros [= <-]; apply same_place_refl].
      destruct (keep_dyn (cfg b) dyn); cbn [rbind]; [| done]. apply (fp_keep _ (found_big_framed instant v off n loc sector _) (b, l)).
  - apply framed_lift, mark_stable_framed.
  - apply framed_lift, rolled_back_framed.
  - apply framed_lift, replay_delete_framed.
Qed.
