(* ===== verification/ReplayRead.v ===== *)
(** * The blockstore: replay of an image of the journal

    When the journal on disk holds a log of entries, the start reads it, in whatever
    parts, and applies exactly these entries in order. *)

From S2P Require Import Prelude.
From S2P Require Import Allocator.
From S2P Require Import Crc32c.
From S2P Require Import Journal.
From S2P Require Import Blockstore.
From S2P Require Import BlockstoreOps.
From S2P Require Import JournalCheck.
From S2P Require Import JournalRing.
From S2P Require Import Replay.
From S2P Require Import ReplayLog.
From S2P Require Import ReplayApply.

(** ** Chains of entries *)

Fixpoint chain (prev : Z) (es : list entry_t) : list Z :=
  match es with [] => [] | e :: es => encode prev e ++ chain (crc_of prev e) es end.
Fixpoint chain_crc (prev : Z) (es : list entry_t) : Z :=
  match es with [] => prev | e :: es => chain_crc (crc_of prev e) es end.

Lemma entries_chain_app prev es es' : chain prev (es ++ es') = chain prev es ++ chain (chain_crc prev es) es'.
Proof. revert prev. induction es as [| e es IH]; intros prev; [done |]. cbn. by rewrite IH, app_assoc. Qed.
Lemma chain_crc_app prev es es' : chain_crc prev (es ++ es') = chain_crc (chain_crc prev es) es'.
Proof. revert prev. induction es as [| e es IH]; intros prev; [done |]. cbn. apply IH. Qed.
Lemma chain_crc_range c prev es : 0 <= prev < 2 ^ 32 -> Forall (entry_ok c) es -> 0 <= chain_crc prev es < 2 ^ 32.
Proof.
  revert prev. induction es as [| e es IH]; intros prev Hp; [done |]. intros [(_ & Hf & _) Hes]%Forall_cons. cbn. apply IH; [| done].
  by eapply crc_of_range.
Qed.
Lemma chain_min prev es : 40 * zlen es <= zlen (chain prev es).
Proof.
  revert prev. induction es as [| e es IH]; intros prev; [done |]. cbn [chain]. rewrite zlen_app, zlen_encode, zlen_cons.
  pose proof (size_of_min e). specialize (IH (crc_of prev e)). lia.
Qed.

(** The checksums of the data of a small write. *)
Definition csums_ok (c : config_t) (off n crc : Z) (dyn data : list Z) : Prop :=
  if csum_block_size c =? 0 then crc = crc_ref 0 data
  else 0 < n -> exists bitmap, zlen bitmap = clean_entry_bitmap_size c /\ dyn = bitmap ++ concat (map (le_bytes 4) (csum_list c off n data)).

Definition config_ok (c : config_t) : Prop :=
  (csum_block_size c = 0 \/ 0 < csum_block_size c /\ Z.land (data_csum_type c) 0xFF = 4) /\ 0 <= clean_entry_bitmap_size c < 2 ^ 16.

Lemma csums_valid c off n crc dyn data buf je size :
  config_ok c -> 0 <= off -> 0 <= n -> off + n < 2 ^ 32 -> zlen data = n -> is_bytes data -> 0 <= crc < 2 ^ 32 ->
  holds buf (je + 56) (le_bytes 4 crc ++ dyn) -> size = sizeof_small_write + zlen dyn -> size < 2 ^ 32 ->
  csums_ok c off n crc dyn data -> data_valid c buf je size off n data = Ok true.
Proof.
  intros [H1 H2] Ho Hn He Hd Hb Hc Hh Hs Hs2 Hv. destruct (decide (n = 0)) as [-> | Hn0].
  - unfold csums_ok, data_valid in *. destruct (csum_block_size c =? 0); [| done]. apply holds_app in Hh as [Hh _].
    rewrite (holds_ld _ _ 4 4 _ Hh) by done. cbn [rbind]. by rewrite Hv, Z.eqb_refl.
  - eapply (data_valid_ok c H1 H2 off n Ho ltac:(lia) He); [done | done | exact Hc | exact Hh | done | done |].
    unfold csums_ok in Hv. destruct (csum_block_size c =? 0); [done |]. apply Hv. lia.
Qed.

(** ** Images *)

Section Image.
Variable c : config_t.
Variable D : list Z.
Variables bs ln us : Z.
(** Is there room for the magic number of an entry, or nothing, behind the last entry
    of a sector? *)
Variable strict : bool.
Hypothesis cfg_ok : config_ok c.
Hypothesis D_bytes : is_bytes D.
Hypothesis D_len : ln <= zlen D.
Hypothesis bs_pos : 0 < bs.
Hypothesis bs_ln : (bs | ln).
Hypothesis bs_us : (bs | us).
Hypothesis bs_buf : (bs | JOURNAL_BUFFER_SIZE).
Hypothesis us_range : bs <= us < ln.
Hypothesis ln_max : ln < 2 ^ 63.

(** Positions in the order of the ring. *)
Definition vpos (x : Z) : Z := if us <=? x then x - us else ln - us + (x - bs).
Definition wrap (x : Z) : Z := if ln <=? x then bs else x.
Definition data_place (nf n : Z) : Z := if ln <? nf + n then bs else nf.

(** The data of the small writes in sector [p], and the position after them. *)
Inductive data_log (p : Z) : Z -> list entry_t -> Z -> Prop :=
| data_nil nf : data_log p nf [] nf
| data_small nf instant v off n loc crc dyn es nf' :
  loc = data_place nf n -> vpos p + bs <= vpos loc -> bs <= loc -> loc + n <= ln -> (loc < us -> loc + n <= us) ->
  off + n < 2 ^ 32 -> csums_ok c off n crc dyn (slice D loc n) -> vpos loc + n <= vpos nf' ->
  data_log p (wrap (loc + n)) es nf' -> data_log p nf (SmallWrite instant v off n loc crc dyn :: es) nf'
| data_other nf e es nf' :
  match e with SmallWrite _ _ _ _ _ _ _ => False | _ => True end ->
  data_log p nf es nf' -> data_log p nf (e :: es) nf'.

(** The entries from [pos] of sector [p] on, with the checksum before them. *)
Record sector_log (p pos prev : Z) (es : list entry_t) (nf nf' : Z) : Prop := {
  sl_begin : bs <= p;
  sl_end : p + bs <= ln;
  sl_align : (bs | p);
  sl_pos : 0 <= pos;
  sl_chain : holds D (p + pos) (chain prev es);
  sl_fits : pos + zlen (chain prev es) <= bs;
  sl_closed : pos + zlen (chain prev es) = bs \/
    pos + zlen (chain prev es) + 6 <= bs /\ le_word (slice D (p + pos + zlen (chain prev es) + 4) 2) <> JOURNAL_MAGIC \/
    strict = false /\ bs < pos + zlen (chain prev es) + 6;
  sl_prev : 0 <= prev < 2 ^ 32;
  sl_ok : Forall (entry_ok c) es;
  sl_data : data_log p nf es nf';
  sl_next : vpos p < vpos nf' }.

Inductive log : Z -> Z -> list (Z * list entry_t) -> Z -> Z -> Prop :=
| log_end p cr : log p cr [] p cr
| log_sector p cr es nf secs q cq :
  es <> [] -> sector_log p 0 cr es (wrap (p + bs)) nf -> log nf (chain_crc cr es) secs q cq ->
  log p cr ((p, es) :: secs) q cq.

(** ** Parts *)

Record part_ok (p : bs_init_journal_done) : Prop := {
  po_buf : p_buf p = slice D (p_pos p) (p_len p);
  po_begin : bs <= p_pos p;
  po_len : 0 < p_len p;
  po_end : p_pos p + p_len p <= ln;
  po_us : p_pos p < us -> p_pos p + p_len p <= us;
  po_align : (bs | p_pos p);
  po_align_len : (bs | p_len p) }.

(** Consecutive parts between two positions of the ring. *)
Inductive parts_ok : Z -> Z -> list bs_init_journal_done -> Prop :=
| parts_nil A : parts_ok A A []
| parts_cons p U l : part_ok p -> parts_ok (vpos (p_pos p) + p_len p) U l -> parts_ok (vpos (p_pos p)) U (p :: l).

Lemma part_holds p a d : part_ok p -> holds D a d -> p_pos p <= a -> a + zlen d <= p_pos p + p_len p -> holds (p_buf p) (a - p_pos p) d.
Proof.
  intros P (Ha & Hl & Hs) H1 H2. destruct P. rewrite po_buf0. pose proof (zlen_nonneg d). repeat split; [lia | rewrite zlen_slice; lia |].
  rewrite slice_slice by lia. replace (p_pos p + (a - p_pos p)) with a by lia. done.
Qed.

Lemma parts_le A U l : parts_ok A U l -> A <= U.
Proof. induction 1 as [| p U l P _ IH]; [lia |]. pose proof (po_len _ P). lia. Qed.

(** The bytes between two positions of the ring that are in the range of the data. *)
Lemma data_parts_ok A U l loc n : parts_ok A U l -> bs <= loc -> loc + n <= ln -> (loc < us -> loc + n <= us) -> 0 <= n ->
  let x := vpos loc in
  concat (data_parts l loc n) =
  if Z.max A x <? Z.min U (x + n) then slice D (loc + (Z.max A x - x)) (Z.min U (x + n) - Z.max A x) else [].
Proof.
  intros Hp H1 H2 H3 Hn. cbn zeta. induction Hp as [A | p U l P Hp IH].
  { cbn. by rewrite (proj2 (Z.ltb_ge _ _)) by lia. }
  pose proof (parts_le _ _ _ Hp). destruct P. set (x := vpos loc) in *. set (A := vpos (p_pos p)) in *.
  assert ((p_pos p <? loc + n) && (loc <? p_pos p + p_len p) = (A <? x + n) && (x <? A + p_len p) /\
    (A < x + n -> x < A + p_len p -> p_pos p - loc = A - x)) as [E1 E2].
  { unfold A, x, vpos. repeat match goal with |- context [?a <=? ?b] => destruct (Z.leb_spec a b) end;
      (split; [| lia]); repeat match goal with |- context [?a <? ?b] => destruct (Z.ltb_spec a b) end; try done; lia. }
  unfold data_parts. cbn [omap list_omap]. rewrite E1. clear E1.
  destruct (Z.ltb_spec A (x + n)), (Z.ltb_spec x (A + p_len p)); cbn [andb].
  2-4: fold (data_parts l loc n); rewrite IH;
    repeat match goal with |- context [?a <? ?b] => destruct (Z.ltb_spec a b) end; try done; try lia; f_equal; lia.
  cbn [concat]. fold (data_parts l loc n). rewrite IH. specialize (E2 ltac:(lia) ltac:(lia)).
  set (pe := if loc + n <? p_pos p + p_len p then loc + n else p_pos p + p_len p).
  set (pb := if loc <? p_pos p then p_pos p else loc).
  assert (pb = loc + (Z.max A x - x)) as Hpb by (unfold pb; destruct (Z.ltb_spec loc (p_pos p)); lia).
  assert (pe = loc + (Z.min (A + p_len p) (x + n) - x)) as Hpe by (unfold pe; destruct (Z.ltb_spec (loc + n) (p_pos p + p_len p)); lia).
  rewrite po_buf0, slice_slice by lia.
  destruct (Z.ltb_spec (Z.max (A + p_len p) x) (Z.min U (x + n))).
  - rewrite (proj2 (Z.ltb_lt _ _)) by lia.
    replace (Z.min U (x + n) - Z.max A x) with ((pe - pb) + (Z.min U (x + n) - Z.max (A + p_len p) x)) by lia.
    rewrite slice_split by lia. f_equal; f_equal; lia.
  - rewrite app_nil_r. destruct (Z.ltb_spec (Z.max A x) (Z.min U (x + n))); [f_equal; lia |].
    replace (pe - pb) with 0 by lia. done.
Qed.

(** The data a small write needs has been read, or not yet. *)
Lemma data_available U p l loc n (inside := (p_pos p <=? loc) && (loc + n <=? p_pos p + p_len p))
    (data := if inside then slice (p_buf p) (loc - p_pos p) n else concat (data_parts (p :: l) loc n)) :
  parts_ok (vpos (p_pos p)) U (p :: l) -> bs <= loc -> loc + n <= ln -> (loc < us -> loc + n <= us) -> 0 <= n -> vpos (p_pos p) <= vpos loc ->
  (negb inside && (zlen data <? n) = false /\ data = slice D loc n) \/ (negb inside && (zlen data <? n) = true /\ U < vpos loc + n).
Proof.
  intros Hp H1 H2 H3 Hn Hv. pose proof (data_parts_ok _ _ _ loc n Hp H1 H2 H3 Hn) as Hd. cbn zeta in Hd. inversion Hp as [| ? ? ? P Hl]; subst.
  pose proof (parts_le _ _ _ Hl). destruct P. subst data. destruct inside eqn:Hi; cbn [negb andb].
  - apply andb_prop in Hi as [Hi1%Z.leb_le Hi2%Z.leb_le]. left. split; [done |]. rewrite po_buf0, slice_slice by lia. f_equal; lia.
  - rewrite Hd. rewrite Z.max_r by lia. destruct (Z.ltb_spec (vpos loc) (Z.min U (vpos loc + n))).
    + replace (loc + (vpos loc - vpos loc)) with loc by lia. rewrite zlen_slice by lia.
      destruct (Z.ltb_spec (Z.min U (vpos loc + n) - vpos loc) n); [right; split; [done | lia] |].
      left. split; [done |]. f_equal. lia.
    + rewrite zlen_nil. destruct (Z.ltb_spec 0 n); [right; split; [done | lia] |]. left. split; [done |]. by replace n with 0 by lia.
Qed.

(** ** Entries *)

Record runs (i : blockstore_init_journal) (s : blockstore_impl_t * list obj_ver_id) : Prop := {
  ru_bs : exists m x, ij_bs i = tweak m x (fst s) /\ (inmemory (journal (fst s)) = true -> ln <= zlen m);
  ru_doubles : double_allocs i = snd s;
  ru_cfg : cfg (fst s) = c;
  ru_block : block_size (journal (fst s)) = bs;
  ru_len : len (journal (fst s)) = ln;
  ru_start : used_start (journal (fst s)) = us }.

(** What an entry leaves alone. *)
Record same_scan (i i' : blockstore_init_journal) : Prop := {
  ss_done : done i' = done i;
  ss_pos : journal_pos i' = journal_pos i;
  ss_write : init_write i' = init_write i;
  ss_wrapped : wrapped i' = wrapped i }.

Lemma same_scan_trans i1 i2 i3 : same_scan i1 i2 -> same_scan i2 i3 -> same_scan i1 i3.
Proof. intros [] []. constructor; congruence. Qed.

Lemma runs_step i s s' sector e : runs i s -> apply_entry sector e s = Ok s' -> exists b l,
  apply_entry sector e (ij_bs i, double_allocs i) = Ok (b, l) /\ forall i', ij_bs i' = b -> double_allocs i' = l -> runs i' s'.
Proof.
  intros [(m & x & Hb & Hm) Hl Hc Hbs Hln Hus] Ha. rewrite Hb, Hl.
  exists (tweak m x (fst s')), (snd s'). change (tweak m x (fst s), snd s) with (tweak_pair m x s).
  rewrite (fp_tweak _ (apply_entry_framed sector e)), Ha. split; [done |].
  destruct (fp_keep _ (apply_entry_framed sector e) _ _ Ha). intros i' H1 H2. constructor; try congruence.
  exists m, x. split; [done |]. intros Hi. apply Hm. congruence.
Qed.

(** The three fields that small and big writes begin with, and the rest. *)
Lemma holds_place buf je off n loc rest : holds buf (je + 40) (le_bytes 4 off ++ le_bytes 4 n ++ le_bytes 8 loc ++ rest) ->
  holds buf (je + 40) (le_bytes 4 off) /\ holds buf (je + 44) (le_bytes 4 n) /\ holds buf (je + 48) (le_bytes 8 loc) /\ holds buf (je + 56) rest.
Proof.
  rewrite !holds_app, !zlen_le_bytes. intros (H1 & H2 & H3 & H4).
  replace (je + 44) with (je + 40 + Z.of_nat 4) by lia. replace (je + 48) with (je + 40 + Z.of_nat 4 + Z.of_nat 4) by lia.
  by replace (je + 56) with (je + 40 + Z.of_nat 4 + Z.of_nat 4 + Z.of_nat 8) by lia.
Qed.

Lemma load_dyn_ok buf a off n dyn : holds buf a dyn -> zlen dyn = dirty_dyn_size c off n -> load_dyn c buf a off n = keep_dyn c dyn.
Proof. intros H E. unfold load_dyn, keep_dyn. by rewrite <- E, (holds_load _ _ _ H). Qed.

Lemma runs_place i s : runs i s -> cfg (ij_bs i) = c /\ block_size (journal (ij_bs i)) = bs /\ len (journal (ij_bs i)) = ln
  /\ used_start (journal (ij_bs i)) = us.
Proof. intros [(m & x & -> & _) _ Hc Hbs Hln Hus]. done. Qed.

Section Entry.
Variables (i : blockstore_init_journal) (p : bs_init_journal_done) (l : list bs_init_journal_done) (U : Z).
Variables (s s' : blockstore_impl_t * list obj_ver_id) (sector pos prev : Z) (e : entry_t).
Hypothesis Hrun : runs i s.
Hypothesis Hdone : done i = p :: l.
Hypothesis Hparts : parts_ok (vpos (p_pos p)) U (p :: l).
Hypothesis Hok : entry_ok c e.
Hypothesis Hrd : reads (p_buf p) (sector - p_pos p + pos) prev e.
Hypothesis Happ : apply_entry sector e s = Ok s'.
Hypothesis Hsec : vpos (p_pos p) <= vpos sector.

Lemma replay_small_ok instant v off n loc crc dyn es nf' (next := wrap (loc + n)) :
  e = SmallWrite instant v off n loc crc dyn -> data_log sector (ij_next_free i) (e :: es) nf' ->
  (exists i', replay_entry i p sector pos = Ok (i', Go) /\ runs i' s' /\ ij_next_free i' = next /\ same_scan i i' /\ continue_pos i' = continue_pos i) \/
  (replay_entry i p sector pos = Ok (with_continue_pos (sector + pos) i, Wait) /\ U < vpos loc + n).
Proof.
  intros E Hd. destruct (runs_place _ _ Hrun) as (Hcfg & Hbs & Hln & Hus). destruct Hok as (Hv & Hf & Hsz).
  destruct (runs_step _ _ _ _ _ Hrun Happ) as (b' & l' & Ha & Hr'). unfold replay_entry.
  rewrite (rd_type _ _ _ _ Hrd), (rd_size _ _ _ _ Hrd). cbn [rbind]. subst e. cbn [type_of].
  pose proof (rd_fields _ _ _ _ Hrd) as Hh. cbn [fields_of] in Hh. apply holds_place in Hh as (F1 & F2 & F3 & F4).
  cbn [fields_ok] in Hf. destruct Hf as (R1 & R2 & R3 & R4 & R5 & R6).
  assert ((if instant then JE_SMALL_WRITE_INSTANT else JE_SMALL_WRITE) =? JE_SMALL_WRITE_INSTANT = instant) as Einst by by destruct instant.
  replace (((if instant then JE_SMALL_WRITE_INSTANT else JE_SMALL_WRITE) =? JE_SMALL_WRITE) || ((if instant then JE_SMALL_WRITE_INSTANT else JE_SMALL_WRITE) =? JE_SMALL_WRITE_INSTANT)) with true by by destruct instant.
  unfold replay_small. rewrite (rd_ov _ _ _ _ Hrd). cbn [rbind ov_of].
  set (je := sector - p_pos p + pos) in *.
  rewrite (holds_ld _ _ 4 4 _ F1), (holds_ld _ _ 4 4 _ F2), (holds_ld _ _ 8 8 _ F3) by done. cbn [rbind].
  rewrite Hbs, Hln. inversion Hd as [| ? ? ? ? ? ? ? ? ? ? Hloc Hv1 Hl1 Hl2 Hl3 Hl4 Hcs _ Hd' | ? ? ? ? Hn _]; subst; [| done].
  fold (data_place (ij_next_free i) n). rewrite Z.eqb_refl. cbn [negb]. set (loc := data_place (ij_next_free i) n) in *.
  rewrite Hdone. destruct (data_available U p l loc n Hparts Hl1 Hl2 Hl3 ltac:(lia) ltac:(lia)) as [[Hin Hdata] | [Hin HU]].
  2:{ right. rewrite Hin. done. }
  left. rewrite Hin. cbn [negb]. rewrite Hdata. fold (wrap (loc + n)). rewrite Hcfg.
  rewrite (csums_valid c off n crc dyn); [| done | lia | lia | done | by apply zlen_slice; lia | by apply is_bytes_slice | lia | | | done | done].
  - cbn [rbind negb]. cbn [apply_entry] in Ha. destruct (is_newer (ij_bs i) v) eqn:En; cbn [negb].
    + rewrite (load_dyn_ok _ _ _ _ dyn); [| unfold sizeof_small_write; apply holds_app in F4 as [_ F5]; rewrite zlen_le_bytes in F5;
        replace (je + 60) with (je + 56 + Z.of_nat 4) by lia; exact F5 | done]. rewrite Hcfg in Ha. destruct (keep_dyn c dyn) as [dy |]; [| done].
      cbn [rbind] in *. rewrite Einst. apply rbind_ok in Ha as (b1 & Hb1 & [= -> <-]). rewrite Hb1. cbn [rbind].
      eexists. split; [reflexivity |]. split; [by apply Hr' |]. done.
    + eexists. split; [reflexivity |]. injection Ha as <- <-. split; [by apply Hr' |]. done.
  - exact F4.
  - unfold size_of, sizeof_small_write. cbn [fields_of]. rewrite !zlen_app, !zlen_le_bytes. lia.
Qed.

Lemma replay_other_ok : match e with SmallWrite _ _ _ _ _ _ _ => False | _ => True end ->
  exists i', replay_entry i p sector pos = Ok (i', Go) /\ runs i' s' /\ ij_next_free i' = ij_next_free i /\ same_scan i i'
    /\ continue_pos i' = continue_pos i.
Proof.
  intros Hns. destruct (runs_place _ _ Hrun) as (Hcfg & Hbs & Hln & Hus). destruct Hok as (Hv & Hf & Hsz).
  destruct (runs_step _ _ _ _ _ Hrun Happ) as (b' & l' & Ha & Hr'). unfold replay_entry.
  rewrite (rd_type _ _ _ _ Hrd), (rd_size _ _ _ _ Hrd). cbn [rbind]. pose proof (rd_ov _ _ _ _ Hrd) as Hov.
  pose proof (rd_fields _ _ _ _ Hrd) as Hh. set (je := sector - p_pos p + pos) in *.
  destruct e as [| instant v off n loc dyn | v | v | v]; [done | ..]; cbn [type_of ov_of apply_entry fields_of] in *.
  - replace (((if instant then JE_BIG_WRITE_INSTANT else JE_BIG_WRITE) =? JE_SMALL_WRITE) || ((if instant then JE_BIG_WRITE_INSTANT else JE_BIG_WRITE) =? JE_SMALL_WRITE_INSTANT)) with false by by destruct instant.
    replace (((if instant then JE_BIG_WRITE_INSTANT else JE_BIG_WRITE) =? JE_BIG_WRITE) || ((if instant then JE_BIG_WRITE_INSTANT else JE_BIG_WRITE) =? JE_BIG_WRITE_INSTANT)) with true by by destruct instant.
    apply holds_place in Hh as (F1 & F2 & F3 & F4). cbn [fields_ok] in Hf. destruct Hf as (R1 & R2 & R3 & R4 & R5).
    unfold replay_big. fold je. rewrite Hov. cbn [rbind].
    rewrite (holds_ld _ _ 4 4 _ F1), (holds_ld _ _ 4 4 _ F2), (holds_ld _ _ 8 8 _ F3) by done. cbn [rbind].
    apply rbind_ok in Ha as (b1 & Hb1 & Ha). rewrite Hb1. cbn [rbind].
    assert (cfg b1 = c) as Hc1. { rewrite <- Hcfg. apply (sp_cfg _ _ (fr_keep _ (forget_deleted_framed v) _ _ Hb1)). }
    destruct (is_newer b1 v); cbn [negb].
    + rewrite Hc1 in *. rewrite (load_dyn_ok _ _ _ _ dyn) by done. destruct (keep_dyn c dyn) as [dy |]; [| done]. cbn [rbind] in *.
      replace ((if instant then JE_BIG_WRITE_INSTANT else JE_BIG_WRITE) =? JE_BIG_WRITE_INSTANT) with instant by by destruct instant.
      rewrite Ha. cbn [rbind]. eexists. split; [reflexivity |]. split; [by apply Hr' |]. done.
    + injection Ha as -> <-. eexists. split; [reflexivity |]. split; [by apply Hr' |]. done.
  - cbn. rewrite Hov. cbn [rbind]. apply rbind_ok in Ha as (b1 & Hb1 & [= -> <-]). rewrite Hb1. cbn [rbind].
    eexists. split; [reflexivity |]. split; [by apply Hr' |]. done.
  - cbn. rewrite Hov. cbn [rbind]. apply rbind_ok in Ha as (b1 & Hb1 & [= -> <-]). rewrite Hb1. cbn [rbind].
    eexists. split; [reflexivity |]. split; [by apply Hr' |]. done.
  - cbn. rewrite Hov. cbn [rbind]. apply rbind_ok in Ha as (b1 & Hb1 & [= -> <-]). rewrite Hb1. cbn [rbind].
    eexists. split; [reflexivity |]. split; [by apply Hr' |]. done.
Qed.

End Entry.

(** An entry is applied, or its data has not been read yet. *)
Lemma replay_entry_ok i p l U s s' sector pos prev e es nf' :
  runs i s -> done i = p :: l -> parts_ok (vpos (p_pos p)) U (p :: l) -> entry_ok c e -> reads (p_buf p) (sector - p_pos p + pos) prev e ->
  apply_entry sector e s = Ok s' -> vpos (p_pos p) <= vpos sector -> data_log sector (ij_next_free i) (e :: es) nf' ->
  (exists i', replay_entry i p sector pos = Ok (i', Go) /\ runs i' s' /\ data_log sector (ij_next_free i') es nf' /\ same_scan i i'
    /\ continue_pos i' = continue_pos i) \/
  (replay_entry i p sector pos = Ok (with_continue_pos (sector + pos) i, Wait) /\ U < ln - bs).
Proof.
  intros Hrun Hdone Hparts Hok Hrd Happ Hsec Hd.
  inversion Hd as [| nf instant v off n loc crc dyn es1 nf1 H1 H2 H3 H4 H5 H6 H7 H9 H8 | nf e1 es1 nf1 H1 H2]; subst.
  - set (loc := data_place (ij_next_free i) n) in *.
    destruct (replay_small_ok i p l U s s' sector pos prev _ Hrun Hdone Hparts Hok Hrd Happ Hsec instant v off n loc crc dyn es nf' eq_refl Hd)
      as [(i' & G1 & G2 & G3 & G4 & G5) | [G1 G2]].
    + left. exists i'. rewrite G3. done.
    + right. split; [done |]. destruct Hok as (_ & (_ & Hn & _) & _). eapply Z.lt_le_trans; [exact G2 |].
      unfold vpos. destruct (Z.leb_spec us loc); lia.
  - left. destruct (replay_other_ok i p s s' sector pos prev e Hrun Hok Hrd Happ H1) as (i' & G1 & G2 & G3 & G4 & G5). exists i'. rewrite G3. done.
Qed.

(** ** Sectors *)

Lemma not_magic i p a n : part_ok p -> p_pos p <= a -> a + 6 <= p_pos p + p_len p -> le_word (slice D (a + 4) 2) <> JOURNAL_MAGIC ->
  entry_valid i (p_buf p) (a - p_pos p) n = Ok false.
Proof.
  intros P H1 H2 Hm. destruct P. unfold entry_valid, ld at 1. rewrite load_slice by (rewrite ?po_buf0, ?zlen_slice; lia). cbn [rbind].
  rewrite po_buf0, slice_slice by lia. replace (p_pos p + (a - p_pos p + 4)) with (a + 4) by lia. by rewrite (proj2 (Z.eqb_neq _ _)).
Qed.

(** The checksum the next entry has to refer to. *)
Definition at_crc (i : blockstore_init_journal) (crc : Z) : Prop := started i = true -> ij_crc32_last i = crc.

Record scanned (i i' : blockstore_init_journal) (es : list entry_t) : Prop := {
  sc_same : same_scan i i';
  sc_started : started i = true \/ es <> [] -> started i' = true }.

Lemma sector_log_tail p pos prev e es nf nf1 nf' : sector_log p pos prev (e :: es) nf nf' -> data_log p nf1 es nf' ->
  sector_log p (pos + size_of e) (crc_of prev e) es nf1 nf'.
Proof.
  intros [S1 S2 S3 S4 S5 S6 S7 S8 S9 S10 S11] Hd. cbn [chain] in *. rewrite zlen_app, zlen_encode in *. apply holds_app in S5 as [_ S5].
  rewrite zlen_encode in S5. apply Forall_cons in S9 as [(_ & Hf & _) S9]. pose proof (size_of_min e).
  assert (0 <= crc_of prev e < 2 ^ 32) by by eapply crc_of_range.
  constructor; try done; try lia; rewrite <- ?Z.add_assoc in *; done.
Qed.

Lemma sector_head p pos prev e es nf nf' q : sector_log p pos prev (e :: es) nf nf' -> part_ok q -> p_pos q <= p -> p + bs <= p_pos q + p_len q ->
  reads (p_buf q) (p - p_pos q + pos) prev e /\ entry_ok c e /\ pos + size_of e <= bs.
Proof.
  intros [S1 S2 S3 S4 S5 S6 S7 S8 S9 S10 S11] P H1 H2. cbn [chain] in *. rewrite zlen_app, zlen_encode in *. apply holds_app in S5 as [S5 _].
  apply Forall_cons in S9 as [He _]. pose proof (zlen_nonneg (chain (crc_of prev e) es)). split_and!; [| done | lia].
  apply (encode_reads c); [| done | done]. replace (p - p_pos q + pos) with (p + pos - p_pos q) by lia.
  apply part_holds; [done | done | lia |]. rewrite zlen_encode. lia.
Qed.

Hypothesis is_strict : strict = true.

Lemma sector_loop_ok es : forall fuel i s s' p l U sector pos prev nf',
  (length es < fuel)%nat -> runs i s -> done i = p :: l -> parts_ok (vpos (p_pos p)) U (p :: l) ->
  p_pos p <= sector -> sector + bs <= p_pos p + p_len p -> vpos (p_pos p) <= vpos sector ->
  sector_log sector pos prev es (ij_next_free i) nf' -> at_crc i prev -> (es = [] -> 0 < pos) -> apply_entries sector es s = Ok s' ->
  (exists i', sector_loop fuel i p sector pos = Ok (i', Go) /\ runs i' s' /\ scanned i i' es /\ ij_next_free i' = nf'
     /\ continue_pos i' = continue_pos i /\ at_crc i' (chain_crc prev es)) \/
  (exists i' es1 es2 s1, sector_loop fuel i p sector pos = Ok (i', Wait) /\ es = es1 ++ es2 /\ es2 <> [] /\ apply_entries sector es1 s = Ok s1
     /\ runs i' s1 /\ scanned i i' es1 /\ continue_pos i' = sector + (pos + zlen (chain prev es1)) /\ at_crc i' (chain_crc prev es1)
     /\ sector_log sector (pos + zlen (chain prev es1)) (chain_crc prev es1) es2 (ij_next_free i') nf' /\ U < ln - bs).
Proof.
  induction es as [| e es IH]; intros fuel i s s' p l U sector pos prev nf' Hfu Hr Hdn Hps Hp1 Hp2 Hv Hs Hcr Hne Ha;
    (destruct fuel as [| fuel]; [lia |]); cbn [sector_loop]; destruct (runs_place _ _ Hr) as (_ & Hbs & _ & _); rewrite Hbs;
    inversion Hps as [| ? ? ? P Hps']; subst.
  - left. exists i. pose proof (sl_closed _ _ _ _ _ _ Hs) as Hcl. cbn [chain] in Hcl. rewrite zlen_nil in Hcl. specialize (Hne eq_refl).
    assert (data_log sector (ij_next_free i) [] nf') as Hd by apply (sl_data _ _ _ _ _ _ Hs). inversion Hd; subst.
    injection Ha as <-. split; [| split_and!; [done | by constructor; [constructor | intros []] | done | done | done]].
    destruct (Z.ltb_spec pos bs) as [Hlt | Hge]; cbn [negb]; [| done]. destruct Hcl as [Hcl | [[Hcl Hm] | [Hcl _]]]; [lia | | congruence].
    replace (sector - p_pos p + pos) with (sector + pos - p_pos p) by lia. rewrite not_magic; [| done | lia | lia | by rewrite Z.add_0_r in Hm].
    cbn [rbind negb]. by rewrite (proj2 (Z.eqb_neq _ _)) by lia.
  - destruct (sector_head _ _ _ _ _ _ _ p Hs P Hp1 Hp2) as (Hrd & Hok & Hfit). pose proof (size_of_min e).
    rewrite (proj2 (Z.ltb_lt pos bs)) by lia. cbn [negb]. cbn [apply_entries] in Ha. apply rbind_ok in Ha as (s1 & Ha1 & Ha).
    rewrite (entry_valid_ok c i _ _ _ prev e Hrd Hok) by (done || lia). cbn [rbind negb].
    destruct (replay_entry_ok i p l U s s1 sector pos prev e es nf' Hr Hdn Hps Hok Hrd Ha1 Hv (sl_data _ _ _ _ _ _ Hs))
      as [(i1 & -> & Hr1 & Hd1 & Hss & Hcp) | [-> HU]]; cbn [rbind].
    + rewrite (rd_size _ _ _ _ Hrd), (rd_crc _ _ _ _ Hrd). cbn [rbind]. set (i2 := mk_init _ _ _ _ _ _ _ _ _ _ _).
      assert (runs i2 s1) as Hr2 by (destruct Hr1; by constructor).
      destruct (IH fuel i2 s1 s' p l U sector (pos + size_of e) (crc_of prev e) nf') as [(i' & E & G1 & G2 & G3 & G4 & G5) |
        (i' & es1 & es2 & s2 & E & -> & G1 & G2 & G3 & G4 & G5 & G6 & G7 & G8)]; try done.
      { cbn in Hfu. lia. } { cbn. rewrite (ss_done _ _ Hss). done. } { by eapply sector_log_tail. } { pose proof (sl_pos _ _ _ _ _ _ Hs). lia. }
      * left. exists i'. split_and!; [done | done | | done | cbn in G4; congruence | done].
        destruct G2 as [[] G2]. constructor; [constructor; cbn in *; destruct Hss; congruence | intros _; apply G2; by left].
      * right. exists i', (e :: es1), es2, s2. cbn [chain chain_crc]. rewrite zlen_app, zlen_encode. rewrite !Z.add_assoc in *.
        split_and!; try done.
        -- cbn. by rewrite Ha1.
        -- destruct G4 as [[] G4]. constructor; [constructor; cbn in *; destruct Hss; congruence | intros _; apply G4; by left].
    + right. exists (with_continue_pos (sector + pos) i), [], (e :: es), s. cbn [chain chain_crc]. rewrite zlen_nil, Z.add_0_r.
      split_and!; try done; [destruct Hr; by constructor | by constructor; [constructor | intros []]].
Qed.

(** ** Parts of the journal *)

Section End.
(** The end of the log and the checksum there; [nonempty] when there are entries. *)
Variables q cq : Z.
Variable nonempty : bool.
Hypothesis q_range : bs <= q /\ q + bs <= ln.
Hypothesis q_align : (bs | q).
Hypothesis q_end : forall p i, part_ok p -> p_pos p <= q -> q + bs <= p_pos p + p_len p -> at_crc i cq -> (nonempty = true -> started i = true) ->
  entry_valid i (p_buf p) (q - p_pos p) (p_len p) = Ok false.
(** The state after the whole log. *)
Variable s' : blockstore_impl_t * list obj_ver_id.

(** The next sector to look at is at [A] or later. *)
Record starting (i : blockstore_init_journal) (A : Z) : Prop := {
  sg_continue : continue_pos i = 0;
  sg_from : A <= vpos (ij_next_free i);
  sg_log : exists s cr secs, runs i s /\ at_crc i cr /\ log (ij_next_free i) cr secs q cq /\ apply_log secs s = Ok s'
    /\ (nonempty = true -> started i = true \/ secs <> []) }.

(** An entry of a sector of part [p] waits for its data. *)
Record midway (i : blockstore_init_journal) (p : bs_init_journal_done) : Prop := {
  mw_log : exists s s1 sector pos prev es nf secs, continue_pos i = sector + pos /\ pos < bs
    /\ p_pos p <= sector /\ sector + bs <= p_pos p + p_len p
    /\ runs i s /\ at_crc i prev /\ es <> [] /\ sector_log sector pos prev es (ij_next_free i) nf
    /\ apply_entries sector es s = Ok s1 /\ log nf (chain_crc prev es) secs q cq /\ apply_log secs s1 = Ok s' }.

Record finished (i : blockstore_init_journal) : Prop := {
  fi_runs : runs i s';
  fi_crc : at_crc i cq;
  fi_started : nonempty = true -> started i = true;
  fi_next : next_free (journal (ij_bs i)) = q }.

Lemma log_at p cr secs : log p cr secs q cq -> bs <= p /\ p + bs <= ln /\ (bs | p).
Proof. inversion 1 as [| ? ? ? ? ? ? ? ? S]; subst; [tauto |]. destruct S. tauto. Qed.

Lemma vpos_align x : (bs | x) -> (bs | vpos x).
Proof.
  intros Hx. unfold vpos. destruct (us <=? x); [by apply Z.divide_sub_r |]. apply Z.divide_add_r; by apply Z.divide_sub_r.
Qed.

Lemma vpos_range x : bs <= x < ln -> 0 <= vpos x < ln - bs.
Proof. intros. unfold vpos. destruct (Z.leb_spec us x); lia. Qed.

Lemma in_part p x : part_ok p -> bs <= x < ln -> (p_pos p <=? x) && (x <? p_pos p + p_len p) = (vpos (p_pos p) <=? vpos x) && (vpos x <? vpos (p_pos p) + p_len p).
Proof.
  intros P Hx. destruct P. unfold vpos. destruct (Z.leb_spec us x), (Z.leb_spec us (p_pos p));
    repeat match goal with |- context [?a <=? ?b] => destruct (Z.leb_spec a b) | |- context [?a <? ?b] => destruct (Z.ltb_spec a b) end; try done; lia.
Qed.

Lemma aligned_room a b : (bs | a) -> (bs | b) -> a < b -> a + bs <= b.
Proof. by apply aligned_next. Qed.

Lemma log_length p cr secs : log p cr secs q cq -> bs * zlen secs <= vpos q - vpos p.
Proof.
  revert p cr. induction secs as [| x secs IH]; intros p cr H; inversion H as [| ? ? es nf ? ? ? Hne S H']; subst; [rewrite zlen_nil; lia |].
  specialize (IH _ _ H'). destruct (log_at _ _ _ H') as (_ & _ & A1). pose proof (sl_next _ _ _ _ _ _ S).
  pose proof (sl_align _ _ _ _ _ _ S) as A2. rewrite zlen_cons.
  pose proof (aligned_room _ _ (vpos_align _ A2) (vpos_align _ A1) ltac:(done)). lia.
Qed.

Lemma runs_next_free i s x : runs i s -> runs (with_bs (with_journal (with_next_free x (journal (ij_bs i))) (ij_bs i)) i) s.
Proof. intros [(m & y & E & Hm) ?????]. constructor; try done. exists m, x. cbn. rewrite E. done. Qed.

Lemma runs_change i i' s : ij_bs i' = ij_bs i -> double_allocs i' = double_allocs i -> runs i s -> runs i' s.
Proof. intros E1 E2 [(m & y & E & Hm) ?????]. constructor; try congruence. exists m, y. by rewrite E1. Qed.

Lemma apply_log_cons p es secs s s2 : apply_log ((p, es) :: secs) s = Ok s2 -> exists s1, apply_entries p es s = Ok s1 /\ apply_log secs s1 = Ok s2.
Proof. cbn. by intros (s1 & H1 & H2)%rbind_ok; exists s1. Qed.

Lemma apply_entries_app p es1 es2 s : apply_entries p (es1 ++ es2) s = let* s := apply_entries p es1 s in apply_entries p es2 s.
Proof. revert s. induction es1 as [| e es1 IH]; intros s; [done |]. cbn. destruct (apply_entry p e s); [apply IH | done]. Qed.

Definition part_result (i : blockstore_init_journal) (p : bs_init_journal_done) (U : Z) (r : res (blockstore_init_journal * step_t)) : Prop :=
  exists i', same_scan i i' /\
  ((r = Ok (i', Go) /\ starting i' (vpos (p_pos p) + p_len p) /\ next_free (journal (ij_bs i')) = ij_next_free i') \/
   (r = Ok (i', Stop) /\ finished i') \/
   (r = Ok (i', Wait) /\ midway i' p /\ U < ln - bs)).

(** The next sector is not in this part. *)
Lemma part_done fuel i p U s cr secs : runs i s -> part_ok p -> continue_pos i = 0 -> at_crc i cr -> log (ij_next_free i) cr secs q cq ->
  apply_log secs s = Ok s' -> vpos (p_pos p) + p_len p <= vpos (ij_next_free i) -> (nonempty = true -> started i = true \/ secs <> []) ->
  part_result i p U (part_loop (S fuel) i p).
Proof.
  intros Hr P Hcp Hcr Hlog Ha Hv Hne. destruct (log_at _ _ _ Hlog) as (L1 & L2 & L3). cbn [part_loop].
  rewrite in_part by (done || lia). rewrite (proj2 (Z.ltb_ge _ _)), andb_false_r by done.
  eexists. split; [| left; split; [reflexivity |]]; [by constructor |]. split; [| done]. constructor; [done | done |].
  exists s, cr, secs. split; [by apply runs_next_free | done].
Qed.

Lemma sector_fuel_ok p pos prev es nf nf' i s : sector_log p pos prev es nf nf' -> runs i s -> (length es < sector_fuel (journal (ij_bs i)))%nat.
Proof.
  intros S Hr. destruct (runs_place _ _ Hr) as (_ & Hbs & _ & _). unfold sector_fuel. rewrite Hbs. pose proof (chain_min prev es).
  destruct S. unfold zlen in *. lia.
Qed.

Lemma part_loop_ok secs : forall fuel i p l U s cr,
  (length secs < fuel)%nat -> runs i s -> done i = p :: l -> parts_ok (vpos (p_pos p)) U (p :: l) -> continue_pos i = 0 -> at_crc i cr ->
  log (ij_next_free i) cr secs q cq -> apply_log secs s = Ok s' -> vpos (p_pos p) <= vpos (ij_next_free i) ->
  (nonempty = true -> started i = true \/ secs <> []) -> part_result i p U (part_loop fuel i p).
Proof.
  induction secs as [| [sec es] secs IH]; intros fuel i p l U s cr Hfu Hr Hdn Hps Hcp Hcr Hlog Ha Hv Hne;
    (destruct fuel as [| fuel]; [lia |]); destruct (runs_place _ _ Hr) as (_ & Hbs & Hln & _);
    inversion Hps as [| ? ? ? P Hps']; subst; destruct (log_at _ _ _ Hlog) as (L1 & L2 & L3);
    (destruct (Z_lt_ge_dec (vpos (ij_next_free i)) (vpos (p_pos p) + p_len p)) as [Hlt | Hge]; [| eapply part_done; try done; lia]);
    pose proof (in_part p (ij_next_free i) P ltac:(lia)) as Hin; rewrite (proj2 (Z.leb_le (vpos _) _)), (proj2 (Z.ltb_lt (vpos _) _)) in Hin by done;
    cbn [part_loop]; rewrite Hin; apply andb_prop in Hin as [Hi1%Z.leb_le Hi2%Z.ltb_lt];
    pose proof (aligned_room _ (p_pos p + p_len p) L3 (Z.divide_add_r _ _ _ (po_align _ P) (po_align_len _ P)) Hi2) as Hroom; rewrite Hln, Hbs.
  - assert (ij_next_free i = q /\ cr = cq) as [Eq Ec] by by inversion Hlog. rewrite Ec in *. rewrite Eq in *. injection Ha as Ha. set (i1 := with_ij_next_free _ i). unfold sector_fuel. cbn [sector_loop].
    change (journal (ij_bs i1)) with (journal (ij_bs i)). rewrite Hbs, (proj2 (Z.ltb_lt 0 bs)), Z.add_0_r by done. cbn [negb].
    assert (nonempty = true -> started i = true) as Hst by (intros Hn; by destruct (Hne Hn)).
    rewrite q_end by done. cbn [rbind negb]. eexists. split; [| right; left; split; [reflexivity |]]; [by constructor |].
    constructor; [| done | done | done]. rewrite <- Ha.
    eapply (runs_change (with_bs (with_journal (with_next_free q (journal (ij_bs i))) (ij_bs i)) i)); [done | done |]. by apply runs_next_free.
  - inversion Hlog as [| ? ? ? nf ? ? ? Hes S Hlog']; subst. apply apply_log_cons in Ha as (s1 & Ha1 & Ha2).
    fold (wrap (ij_next_free i + bs)). set (i1 := with_ij_next_free _ i). assert (runs i1 s) as Hr1 by by apply (runs_change i).
    pose proof (sector_fuel_ok _ _ _ _ _ _ _ _ S Hr1) as Hsf. change (journal (ij_bs i1)) with (journal (ij_bs i)) in Hsf.
    destruct (sector_loop_ok es _ i1 s s1 p l U (ij_next_free i) 0 cr nf Hsf Hr1 Hdn Hps Hi1 Hroom Hv S Hcr ltac:(done) Ha1)
      as [(i' & -> & G1 & G2 & G3 & G4 & G5) | (i' & es1 & es2 & s2 & -> & -> & G1 & G2 & G3 & G4 & G5 & G6 & G7 & G8)]; cbn [rbind].
    + destruct G2 as [G2 G2']. destruct (IH fuel i' p l U s1 (chain_crc cr es)) as (i2 & Hss & Hres).
      { cbn in Hfu. lia. } { done. } { rewrite (ss_done _ _ G2). done. } { done. } { by rewrite G4. } { done. } { by rewrite G3. } { done. }
      { rewrite G3. pose proof (sl_next _ _ _ _ _ _ S). lia. } { intros _. left. apply G2'. by right. }
      exists i2. split; [| done]. eapply same_scan_trans; [| done]. destruct G2. by constructor.
    + destruct G4 as [[] _]. exists i'. split; [by constructor |]. right. right. split_and!; [done | | done]. constructor.
      rewrite apply_entries_app, G2 in Ha1. cbn [rbind] in Ha1. pose proof (sl_fits _ _ _ _ _ _ S) as Hf. rewrite entries_chain_app, zlen_app in Hf.
      pose proof (chain_min (chain_crc cr es1) es2). assert (0 < zlen es2) by (destruct es2; [done | rewrite zlen_cons; pose proof (zlen_nonneg es2); lia]).
      exists s2, s1, (ij_next_free i), (0 + zlen (chain cr es1)), (chain_crc cr es1), es2, nf, secs.
      rewrite <- chain_crc_app. split_and!; try done; lia.
Qed.

Lemma part_fuel_ok i s p cr secs : runs i s -> bs <= p -> log p cr secs q cq -> (length secs < part_fuel (journal (ij_bs i)))%nat.
Proof.
  intros Hr Hp Hlog. destruct (runs_place _ _ Hr) as (_ & Hbs & Hln & _). unfold part_fuel. rewrite Hbs, Hln.
  pose proof (log_length _ _ _ Hlog). destruct (log_at _ _ _ Hlog) as (L1 & L2 & _).
  pose proof (vpos_range p ltac:(lia)). pose proof (vpos_range q ltac:(lia)).
  assert (zlen secs <= ln / bs) by (apply Z.div_le_lower_bound; lia). unfold zlen in *. lia.
Qed.

(** One part of the journal. *)
Lemma handle_part_ok i p l U : done i = p :: l -> parts_ok (vpos (p_pos p)) U (p :: l) ->
  starting i (vpos (p_pos p)) \/ midway i p -> part_result i p U (handle_journal_part i p).
Proof.
  intros Hdn Hps [[Hc Hv (s & cr & secs & Hr & Hcr & Hlog & Ha & Hne)] | [H]]; unfold handle_journal_part.
  - rewrite Hc. cbn [Z.eqb negb]. eapply part_loop_ok; try done. destruct (log_at _ _ _ Hlog) as (L1 & _). by eapply part_fuel_ok.
  - destruct H as (s & s1 & sector & pos & prev & es & nf & secs & Hc & Hpos & Hp1 & Hp2 & Hr & Hcr & Hes & S & Ha1 & Hlog & Ha2).
    destruct (runs_place _ _ Hr) as (_ & Hbs & Hln & _). pose proof S as [S1 S2 S3 S4 S5 S6 S7 S8 S9 S10 S11].
    inversion Hps as [| ? ? ? P Hps']; subst. rewrite Hbs, Hc, (proj2 (Z.eqb_neq _ 0)) by lia. cbn [negb].
    assert ((sector + pos) / bs * bs = sector /\ (sector + pos) mod bs = pos) as [-> ->].
    { destruct S3 as [k ->]. rewrite Z.div_add_l, (Z.add_comm (k * bs) pos), Z.mod_add by lia. rewrite Z.div_small, Z.mod_small by lia. lia. }
    set (i1 := with_continue_pos 0 i). assert (runs i1 s) as Hr1 by by apply (runs_change i).
    assert (vpos (p_pos p) <= vpos sector) as Hv.
    { pose proof (in_part p sector P ltac:(lia)) as Hin. rewrite (proj2 (Z.leb_le _ _)), (proj2 (Z.ltb_lt _ _)) in Hin by lia.
      symmetry in Hin. apply andb_prop in Hin as [Hi%Z.leb_le _]. done. }
    pose proof (sector_fuel_ok _ _ _ _ _ _ _ _ S Hr1) as Hsf. change (journal (ij_bs i1)) with (journal (ij_bs i)) in Hsf.
    destruct (sector_loop_ok es _ i1 s s1 p l U sector pos prev nf Hsf Hr1 Hdn Hps Hp1 Hp2 Hv S Hcr ltac:(done) Ha1)
      as [(i' & -> & G1 & G2 & G3 & G4 & G5) | (i' & es1 & es2 & s2 & -> & -> & G1 & G2 & G3 & G4 & G5 & G6 & G7 & G8)]; cbn [rbind].
    + destruct G2 as [G2 G2']. assert (same_scan i i') as Hss by (destruct G2; by constructor).
      destruct (part_loop_ok secs (part_fuel (journal (ij_bs i))) i' p l U s1 (chain_crc prev es)) as (i2 & Hss2 & Hres); try done.
      { destruct (log_at _ _ _ Hlog) as (L1 & _). by eapply part_fuel_ok. } { by rewrite (ss_done _ _ Hss). } { by rewrite G3. }
      { rewrite G3. lia. } { intros _. left. apply G2'. by right. }
      exists i2. split; [by eapply same_scan_trans | done].
    + destruct G4 as [[] _]. exists i'. split; [by constructor |]. right. right. split_and!; [done | | done]. constructor.
      rewrite apply_entries_app, G2 in Ha1. cbn [rbind] in Ha1. rewrite entries_chain_app, zlen_app in S6.
      pose proof (chain_min (chain_crc prev es1) es2). assert (0 < zlen es2) by (destruct es2; [done | rewrite zlen_cons; pose proof (zlen_nonneg es2); lia]).
      exists s2, s1, sector, (pos + zlen (chain prev es1)), (chain_crc prev es1), es2, nf, secs.
      rewrite <- chain_crc_app. split_and!; try done; lia.
Qed.

(** ** Reads *)

(** The state between two passes: the parts that wait for the replay end at [U]. *)
Record waiting (i : blockstore_init_journal) (A U : Z) : Prop := {
  wt_parts : parts_ok A U (done i);
  wt_state : starting i A \/ exists p l, done i = p :: l /\ midway i p }.

Definition same_reads (i i' : blockstore_init_journal) : Prop :=
  journal_pos i' = journal_pos i /\ wrapped i' = wrapped i /\ init_write i' = init_write i.

Lemma starting_done i A x : starting i A -> starting (with_done x i) A.
Proof.
  intros [H1 H2 (s & cr & secs & Hr & H)]. constructor; [done | done |]. exists s, cr, secs. split; [| done]. by apply (runs_change i).
Qed.

Lemma drain_ok fuel : forall i A U, (length (done i) < fuel)%nat -> waiting i A U -> exists i', same_reads i i' /\
  ((drain fuel i = Ok (i', Go) /\ done i' = [] /\ starting i' U) \/
   (drain fuel i = Ok (i', Stop) /\ finished i') \/
   (exists A', drain fuel i = Ok (i', Wait) /\ waiting i' A' U /\ U < ln - bs)).
Proof.
  induction fuel as [| fuel IH]; intros i A U Hf [Hps Hst]; [lia |]. cbn [drain]. destruct (done i) as [| p l] eqn:Hdn.
  - exists i. split; [done |]. left. split_and!; [done | done |]. inversion Hps; subst. destruct Hst as [| (? & ? & ? & _)]; [done | congruence].
  - assert (A = vpos (p_pos p)) as -> by by inversion Hps.
    destruct (handle_part_ok i p l U Hdn Hps) as (i1 & [] & Hres).
    { destruct Hst as [| (p' & l' & E & Hm)]; [by left | right; congruence]. }
    destruct Hres as [(-> & Hs & _) | [(-> & Hfin) | (-> & Hm & HU)]]; cbn [rbind].
    + rewrite ss_done0, Hdn. cbn [drop]. destruct (IH (with_done l i1) (vpos (p_pos p) + p_len p) U) as (i' & (E1 & E2 & E3) & Hres).
      { cbn in Hf |- *. lia. } { constructor; [by inversion Hps | left; by apply starting_done]. }
      exists i'. split; [| done]. unfold same_reads. cbn in *. split_and!; congruence.
    + exists i1. split; [done |]. by right; left.
    + exists i1. split; [done |]. right. right. exists (vpos (p_pos p)). split_and!; [done | | done].
      constructor; [by rewrite ss_done0, Hdn | right]. exists p, l. split; [congruence | done].
Qed.

(** The next read is at [U]. *)
Record next_at (i : blockstore_init_journal) (U : Z) : Prop := {
  na_block : block_size (journal (ij_bs i)) = bs;
  na_len : len (journal (ij_bs i)) = ln;
  na_start : used_start (journal (ij_bs i)) = us;
  na_align : (bs | journal_pos i);
  na_pos : if wrapped i then bs <= journal_pos i <= us /\ U = ln - us + (journal_pos i - bs) else us <= journal_pos i < ln /\ U = journal_pos i - us }.

Lemma next_read_ok i U : next_at i U ->
  match next_read i with
  | Some (pos, n) => pos = journal_pos i /\ U = vpos pos /\ part_ok (mk_part (slice D pos n) pos n) /\ (wrapped i = true -> pos + n <= us)
  | None => U = ln - bs
  end.
Proof.
  intros [H1 H2 H3 H4 H5]. unfold next_read. rewrite H2, H3. assert (0 < JOURNAL_BUFFER_SIZE) by done.
  assert (forall e, (bs | e) -> journal_pos i < e -> let n := if e - journal_pos i <? JOURNAL_BUFFER_SIZE then e - journal_pos i else JOURNAL_BUFFER_SIZE in
    0 < n /\ journal_pos i + n <= e /\ (bs | n)) as Hn.
  { intros e He Hlt. assert ((bs | e - journal_pos i)) by by apply Z.divide_sub_r. destruct (Z.ltb_spec (e - journal_pos i) JOURNAL_BUFFER_SIZE); split_and!; done || lia. }
  destruct (wrapped i); cbn [negb orb]; destruct H5 as [H5 ->].
  - destruct (Z.ltb_spec (journal_pos i) us); [| lia]. destruct (Hn us bs_us ltac:(lia)) as (N1 & N2 & N3).
    split; [done |]. split; [unfold vpos; destruct (Z.leb_spec us (journal_pos i)); lia |]. split; [constructor; cbn; done || lia | lia].
  - rewrite (proj2 (Z.ltb_ge (journal_pos i) us)) by lia. destruct (Hn ln bs_ln ltac:(lia)) as (N1 & N2 & N3).
    split; [done |]. split; [unfold vpos; destruct (Z.leb_spec us (journal_pos i)); lia |]. split; [constructor; cbn; done || lia | done].
Qed.

Lemma parts_snoc A U l p : parts_ok A U l -> part_ok p -> U = vpos (p_pos p) -> parts_ok A (U + p_len p) (l ++ [p]).
Proof.
  induction 1 as [| q' U l P H IH]; intros Hp E; cbn [app].
  - subst. constructor; [done |]. constructor.
  - constructor; [done |]. by apply IH.
Qed.

(** ** States of the blockstore that differ in the memory of the journal only *)

Lemma runs_mem i s m : runs i s -> (inmemory (journal (ij_bs i)) = true -> ln <= zlen m) ->
  runs (with_bs (with_journal (with_mem m (journal (ij_bs i))) (ij_bs i)) i) s.
Proof.
  intros [(m0 & x & E & Hm) ?????] H. constructor; try done. exists m, x. split; [cbn; by rewrite E |]. by rewrite E in H.
Qed.

Lemma runs_room i s : runs i s -> inmemory (journal (ij_bs i)) = true -> ln <= zlen (mem (journal (ij_bs i))).
Proof. intros [(m0 & x & E & Hm) ?????]. rewrite E. cbn. done. Qed.

Definition same_states (i i' : blockstore_init_journal) : Prop :=
  (forall s, runs i s -> runs i' s) /\ started i' = started i /\ ij_crc32_last i' = ij_crc32_last i /\ ij_next_free i' = ij_next_free i
  /\ continue_pos i' = continue_pos i /\ next_free (journal (ij_bs i')) = next_free (journal (ij_bs i)).

Lemma starting_same i i' A : same_states i i' -> starting i A -> starting i' A.
Proof.
  intros (F1 & F2 & F3 & F4 & F5 & F6) [H1 H2 (s & cr & secs & Hr & Hc & H)]. constructor; [congruence | congruence |].
  unfold at_crc in *. exists s, cr, secs. rewrite F2, F3, F4. split; [by apply F1 | done].
Qed.
Lemma midway_same i i' p : same_states i i' -> midway i p -> midway i' p.
Proof.
  intros (F1 & F2 & F3 & F4 & F5 & F6) [(s & s1 & sec & pos & prev & es & nf & secs & H1 & H2 & H3 & H4 & Hr & Hc & H)]. constructor.
  unfold at_crc in *. exists s, s1, sec, pos, prev, es, nf, secs. rewrite F2, F3, F4, F5. split_and!; try done; [by apply F1 | apply H ..].
Qed.
Lemma finished_same i i' : same_states i i' -> finished i -> finished i'.
Proof.
  intros (F1 & F2 & F3 & F4 & F5 & F6) [H1 H2 H3 H4]. unfold at_crc in *. constructor; unfold at_crc; rewrite ?F2, ?F3, ?F6; [by apply F1 | done ..].
Qed.

(** A read that completes adds a part and leaves the rest of the state. *)
Lemma handle_event_ok i s U r : runs i s -> next_at i U -> next_read i = Some r -> exists i' p,
  handle_event D r i = Ok i' /\ done i' = done i ++ [p] /\ part_ok p /\ U = vpos (p_pos p) /\ next_at i' (U + p_len p) /\ same_states i i'
  /\ init_write i' = init_write i.
Proof.
  intros Hr Hna Hnr. pose proof (next_read_ok _ _ Hna) as Hn. rewrite Hnr in Hn. destruct r as [pos n]. destruct Hn as (-> & HU & P & Hw).
  pose proof P as [P1 P2 P3 P4 P5 P6 P7]. cbn in P1, P2, P3, P4, P5, P6, P7. unfold handle_event.
  rewrite (proj2 (Z.leb_gt n 0)), load_slice by lia. cbn [rbind].
  set (d := slice D (journal_pos i) n) in *. assert (zlen d = n) as Hd by (apply zlen_slice; lia).
  assert (exists m, (if inmemory (journal (ij_bs i)) then poke (mem (journal (ij_bs i))) (journal_pos i) d else Ok (mem (journal (ij_bs i)))) = Ok m
    /\ (inmemory (journal (ij_bs i)) = true -> ln <= zlen m)) as (m & -> & Hm).
  { destruct (inmemory _) eqn:Him; [| by eexists]. pose proof (runs_room _ _ Hr Him). eexists. split; [apply poke_poked; lia |].
    intros _. rewrite zlen_poked; lia. }
  cbn [rbind]. set (i1 := with_bs _ _). destruct Hna as [N1 N2 N3 N4 N5].
  assert (same_states i i1) as Hss. { split_and!; try done. intros s0 Hs0. apply (runs_change (with_bs (with_journal (with_mem m (journal (ij_bs i))) (ij_bs i)) i)); [done | done |].
    by apply runs_mem. }
  destruct Hss as (F1 & F2 & F3 & F4 & F5 & F6).
  eexists _, (mk_part d (journal_pos i) n). split; [reflexivity |]. rewrite N2. cbn [p_pos p_len].
  destruct (Z.leb_spec ln (journal_pos i + n)).
  - do 3 (split; [done |]). split; [| split; [| done]]; [| split; [intros s0 Hs0; by apply (runs_change i1), F1 | done]].
    constructor; cbn; rewrite ?N1; try done. destruct (wrapped i); lia.
  - do 3 (split; [done |]). split; [| split; [| done]]; [| split; [intros s0 Hs0; by apply (runs_change i1), F1 | done]].
    constructor; cbn; try done; [by apply Z.divide_add_r |]. destruct (wrapped i); lia.
Qed.

(** ** The whole log *)

Lemma waiting_next i i' p A U : waiting i A U -> same_states i i' -> done i' = done i ++ [p] -> part_ok p -> U = vpos (p_pos p) ->
  waiting i' A (U + p_len p).
Proof.
  intros [H1 H2] Hss Hd P E. constructor; [rewrite Hd; by apply parts_snoc |].
  destruct H2 as [H2 | (q' & l & Hq & H2)]; [left; by eapply starting_same | right]. exists q', (l ++ [p]).
  split; [by rewrite Hd, Hq | by eapply midway_same].
Qed.

Lemma starting_waiting i U : starting i U -> done i = [] -> waiting i U U.
Proof. intros H E. constructor; [rewrite E; constructor | by left]. Qed.

Lemma waiting_runs i A U : waiting i A U -> exists s, runs i s.
Proof.
  intros [_ [[_ _ (s & ? & ? & H & _)] | (? & ? & _ & [(s & ? & ? & ? & ? & ? & ? & ? & _ & _ & _ & _ & H & _)])]]; by exists s.
Qed.

Lemma next_at_same i i' U s : runs i' s -> same_reads i i' -> next_at i U -> next_at i' U /\ next_read i' = next_read i.
Proof.
  intros Hr (E1 & E2 & _) [H1 H2 H3 H4 H5]. destruct (runs_place _ _ Hr) as (_ & G1 & G2 & G3).
  split; [constructor; rewrite ?E1, ?E2; done |]. unfold next_read. by rewrite E1, E2, G2, G3, H2, H3.
Qed.

Lemma journal_read_loop_ok fuel : forall i A U, ln - bs - U < bs * Z.of_nat fuel -> 0 <= U -> waiting i A U -> next_at i U -> exists i',
  read_loop (S fuel) D i = Ok i' /\ finished i' /\ init_write i' = init_write i.
Proof.
  induction fuel as [| fuel IH]; intros i A U Hf HU0 Hw Hna.
  { destruct Hna as [_ _ _ _ H]. destruct (wrapped i); lia. }
  destruct (waiting_runs _ _ _ Hw) as (s & Hr0).
  cbn [read_loop]. destruct (drain_ok (S (length (done i))) i A U ltac:(lia) Hw) as (i1 & Hsr & Hres).
  assert (exists s1, runs i1 s1) as (s1 & Hr1).
  { destruct Hres as [(_ & _ & [_ _ (s1 & ? & ? & H & _)]) | [(_ & [H _ _ _]) | (A' & _ & H & _)]]; [by exists s1 | by exists s' | by eapply waiting_runs]. }
  destruct (next_at_same _ _ _ _ Hr1 Hsr Hna) as [Hna1 Hnr]. rewrite <- Hnr.
  pose proof (next_read_ok _ _ Hna1) as Hn. destruct (next_read i1) as [r |] eqn:Er.
  - destruct (handle_event_ok _ _ _ _ Hr1 Hna1 Er) as (i2 & p & He & Hd & P & EU & Hna2 & Hss & Hiw).
    assert (bs <= p_len p) as Hpl. { pose proof (Z.divide_pos_le bs (p_len p) (po_len _ P) (po_align_len _ P)). lia. }
    assert (forall A', waiting i1 A' U -> exists i', read_loop (S fuel) D i2 = Ok i' /\ finished i' /\ init_write i' = init_write i) as Hgo.
    { intros A' Hw1. destruct (IH i2 A' (U + p_len p)) as (i' & E1 & E2 & E3); [lia | lia | by eapply waiting_next | done |].
      exists i'. split_and!; [done | done |]. destruct Hsr as (_ & _ & E). congruence. }
    destruct Hres as [(-> & Hdn & Hs) | [(-> & Hfin) | (A' & -> & Hw1 & _)]]; cbn [rbind]; rewrite He; cbn [rbind].
    + eapply Hgo, starting_waiting; done.
    + eexists. split; [reflexivity |]. split.
      * apply (finished_same i2); [| by eapply finished_same]. split_and!; try done. intros s0. by apply runs_change.
      * destruct Hsr as (_ & _ & E). cbn. congruence.
    + by eapply Hgo.
  - destruct Hres as [(-> & Hdn & [_ Hs (s0 & cr & secs & _ & _ & Hlog & _)]) | [(-> & Hfin) | (A' & -> & Hw1 & Hlt)]]; cbn [rbind].
    + destruct (log_at _ _ _ Hlog) as (L1 & L2 & _). pose proof (vpos_range (ij_next_free i1) ltac:(lia)). lia.
    + eexists. split; [reflexivity |]. split; [| by destruct Hsr as (_ & _ & E); cbn; congruence].
      apply (finished_same i1); [| done]. split_and!; try done. intros s0. by apply runs_change.
    + lia.
Qed.
End End.

(** What ends the log: a block that does not begin with an entry that refers to the last one. *)
Definition log_ends (q cq : Z) : Prop :=
  le_word (slice D (q + 4) 2) <> JOURNAL_MAGIC \/
  4 <= le_word (slice D (q + 8) 4) <= bs /\ le_word (slice D (q + 12) 4) <> cq.

Lemma log_ends_invalid q cq p i : 16 <= bs < 2 ^ 32 -> bs <= q -> q + bs <= ln -> log_ends q cq -> part_ok p -> p_pos p <= q -> q + bs <= p_pos p + p_len p -> at_crc i cq -> started i = true ->
  entry_valid i (p_buf p) (q - p_pos p) (p_len p) = Ok false.
Proof.
  intros Hb Q1 Q2 [Hm | [Hs Hc]] P H1 H2 Hcr Hst; [by apply not_magic; (done || lia) |].
  destruct P. unfold entry_valid, ld. rewrite po_buf0.
  assert (forall k n, 0 <= k -> 0 <= n -> k + n <= bs -> load (slice D (p_pos p) (p_len p)) (q - p_pos p + k) n = Ok (slice D (q + k) n)) as Hl.
  { intros k n Hk Hn Hkn. rewrite load_slice by (rewrite ?zlen_slice; lia). rewrite slice_slice by lia. do 2 f_equal. lia. }
  rewrite !Hl by lia. cbn [rbind]. destruct (_ =? JOURNAL_MAGIC); cbn [negb]; [| done].
  destruct (_ <? _); [done |]. set (size := le_word (slice D (q + 8) 4)) in *.
  pose proof (Hl 0 4 ltac:(lia) ltac:(lia) ltac:(lia)) as Hl0. rewrite !Z.add_0_r in Hl0.
  rewrite u32_small, !Hl, Hl0 by lia. cbn [rbind].
  destruct (_ =? _); cbn [negb]; [| done]. destruct (_ || _); [done |]. rewrite Hst, (Hcr Hst). by rewrite (proj2 (Z.eqb_neq _ _)).
Qed.
End Image.
