(* ===== verification/ReplayMain.v ===== *)
(** * The blockstore: the start on an image of the journal

    The journal on disk begins with a superblock and holds a log of entries: the start
    restores the state that these entries describe, and the journal continues after
    them. *)

From S2P Require Import Prelude.
From S2P Require Import Allocator.
From S2P Require Import Crc32c.
From S2P Require Import Journal.
From S2P Require Import Blockstore.
From S2P Require Import BlockstoreOps.
From S2P Require Import JournalCheck.
From S2P Require Import JournalRing.
From S2P Require Import Replay.
From S2P Require Import ReplayLog.
From S2P Require Import ReplayApply.
From S2P Require Import ReplayRead.

(** ** The superblock *)

Definition start_body (c : config_t) (us : Z) : list Z :=
  le_bytes 2 JOURNAL_MAGIC ++ le_bytes 2 JE_START ++ le_bytes 4 JE_START_V2_SIZE ++ le_bytes 4 0
    ++ le_bytes 8 us ++ le_bytes 8 JOURNAL_VERSION_V2 ++ le_bytes 4 (data_csum_type c) ++ le_bytes 4 (csum_block_size c).

Lemma zlen_start_body c us : zlen (start_body c us) = 36.
Proof. unfold start_body. by rewrite !zlen_app, !zlen_le_bytes. Qed.

Definition csum_config_ok (c : config_t) : Prop := 0 <= data_csum_type c < 2 ^ 32 /\ 0 <= csum_block_size c < 2 ^ 32.

Lemma check_superblock_ok c us buf : csum_config_ok c -> 0 <= us < 2 ^ 64 -> holds buf 0 (start_entry c us) -> check_superblock c buf = Ok (us, buf).
Proof.
  intros [C1 C2] Hus H. change (start_entry c us) with (le_bytes 4 (crc_ref 0x48674bc7 (start_body c us)) ++ start_body c us) in H.
  apply holds_app in H as [H0 Hb]. rewrite zlen_le_bytes in Hb. change (0 + Z.of_nat 4) with 4 in Hb.
  pose proof (holds_load _ _ _ Hb) as Hl. rewrite zlen_start_body in Hl.
  assert (0 <= crc_ref 0x48674bc7 (start_body c us) < 2 ^ 32) as Hcrc.
  { apply crc_ref_range; [done |]. unfold start_body. repeat apply is_bytes_app; apply is_bytes_le_bytes. }
  unfold start_body in Hb. rewrite !holds_app, !zlen_le_bytes in Hb. destruct Hb as (B1 & B2 & B3 & _ & B5 & B6 & B7 & B8).
  unfold check_superblock.
  rewrite (holds_ld buf 4 2 2 _ B1), (holds_ld buf 6 2 2 _ B2), (holds_ld buf 8 4 4 _ B3) by done. cbn [rbind].
  rewrite !Z.eqb_refl. cbn [negb orb]. change (u32 (JE_START_V2_SIZE - 4)) with 36. rewrite Hl. cbn [rbind].
  rewrite (holds_ld buf 0 4 4 _ H0) by done. cbn [rbind]. rewrite Z.eqb_refl. cbn [negb].
  rewrite (holds_ld buf 24 8 8 _ B6) by done. cbn -[ld].
  rewrite (holds_ld buf 32 4 4 _ B7), (holds_ld buf 36 4 4 _ B8) by done. cbn [rbind]. rewrite !Z.eqb_refl. cbn -[ld].
  by rewrite (holds_ld buf 16 8 8 _ B5).
Qed.

Lemma start_entry_nonzero c us buf : holds buf 0 (start_entry c us) -> forallb (fun x => x =? 0) buf = false.
Proof.
  intros H. destruct (forallb _ buf) eqn:E; [| done]. rewrite forallb_forall in E. exfalso.
  change (start_entry c us) with (le_bytes 4 (crc_ref 0x48674bc7 (start_body c us)) ++ start_body c us) in H.
  apply holds_app in H as [_ H]. unfold start_body in H. apply holds_app in H as [H _].
  destruct H as (_ & _ & H). rewrite !zlen_le_bytes in H. unfold slice in H.
  assert (In (JOURNAL_MAGIC mod 256) (take (Z.to_nat (Z.of_nat 2)) (drop (Z.to_nat (0 + Z.of_nat 4)) buf))) as Hin by (rewrite H; by left).
  assert (forall x, In x buf -> x = 0) as E' by (intros x Hx%E; by apply Z.eqb_eq).
  assert (JOURNAL_MAGIC mod 256 = 0); [| done]. apply E'.
  rewrite <- (take_drop (Z.to_nat (0 + Z.of_nat 4)) buf). apply in_or_app. right.
  rewrite <- (take_drop (Z.to_nat (Z.of_nat 2))). apply in_or_app. by left.
Qed.

(** ** The start *)

(** What the start relies on: the journal's size and the settings it is run with. *)
Record image_ok (b : blockstore_impl_t) (D : list Z) (us : Z) (bs := block_size (journal b)) (ln := len (journal b)) : Prop := {
  im_cfg : config_ok (cfg b);
  im_csum : csum_config_ok (cfg b);
  im_bytes : is_bytes D;
  im_len : ln <= zlen D;
  im_block : 40 <= bs < 2 ^ 32;
  im_align : (bs | ln);
  im_buffer : (bs | JOURNAL_BUFFER_SIZE);
  im_us_align : (bs | us);
  im_us : bs <= us < ln;
  im_ln_max : ln < 2 ^ 63;
  im_mem : inmemory (journal b) = true -> ln <= zlen (mem (journal b));
  im_start : holds D 0 (start_entry (cfg b) us) }.

Definition started_at (us : Z) (b : blockstore_impl_t) : blockstore_impl_t := with_journal (with_used_start us (journal b)) b.

(** The blockstore after the start: [next_free] and [dirty_start] are at the end of the
    log, and new entries continue its chain. *)
Definition restarted (m : list Z) (q cq : Z) (b : blockstore_impl_t) : blockstore_impl_t :=
  let j := with_mem m (with_next_free q (journal b)) in
  with_journal (with_crc32_last cq (with_dirty_start q j)) (with_flusher (mark_trim_possible (flusher b)) b).

Definition overlaps (b : blockstore_impl_t) (l : list obj_ver_id) : bool :=
  existsb (fun ov => match db_find (dirty_db b) ov with
                     | Some (_, e, _) => IS_BIG_WRITE (state e) && (location e =? UINT64_MAX) | None => false end) l.

(** The state before the first read, and what follows the last one. *)
Definition first_state (m : list Z) (us : Z) (b : blockstore_impl_t) : blockstore_init_journal :=
  mk_init (with_journal (with_mem m (with_used_start us (journal b))) b) 0 0 false us [] [] us 0 None false.
Definition finish_init (i : blockstore_init_journal) : res (blockstore_impl_t * option (Z * list Z)) :=
  let b := ij_bs i in
  if overlaps b (double_allocs i) then Err Aborted
  else Ok (with_journal (with_crc32_last (ij_crc32_last i) (with_dirty_start (next_free (journal b)) (journal b)))
    (with_flusher (mark_trim_possible (flusher b)) b), init_write i).

Lemma zlen_start_entry c us : zlen (start_entry c us) = 40.
Proof.
  change (start_entry c us) with (le_bytes 4 (crc_ref 0x48674bc7 (start_body c us)) ++ start_body c us). by rewrite zlen_app, zlen_le_bytes, zlen_start_body.
Qed.

Lemma init_journal_reads b D us (bs := block_size (journal b)) (ln := len (journal b)) : image_ok b D us ->
  exists m, (inmemory (journal b) = true -> ln <= zlen m) /\
  init_journal D b = let* i := read_loop (S (S (Z.to_nat (ln / bs)))) D (first_state m us b) in finish_init i.
Proof.
  intros []. fold bs ln in im_len0, im_block0, im_us0, im_ln_max0, im_mem0.
  unfold init_journal. fold bs ln. rewrite load_slice by lia. cbn [rbind]. set (first := slice D 0 bs).
  assert (holds first 0 (start_entry (cfg b) us)) as Hf.
  { destruct im_start0 as (_ & H2 & H3). pose proof (zlen_start_entry (cfg b) us) as E.
    rewrite E in *. unfold holds, first. rewrite zlen_slice by lia. rewrite E, slice_slice by lia. split_and!; [lia | lia | done]. }
  rewrite (start_entry_nonzero _ _ _ Hf), (check_superblock_ok (cfg b) us first im_csum0 ltac:(lia) Hf). cbn [rbind].
  assert (zlen first = bs) as Hzf by (apply zlen_slice; lia).
  assert (exists m, (if inmemory (journal b) then poke (mem (journal b)) 0 first else Ok (mem (journal b))) = Ok m
    /\ (inmemory (journal b) = true -> ln <= zlen m)) as (m & -> & Hm).
  { destruct (inmemory (journal b)); [| by eexists]. specialize (im_mem0 eq_refl). eexists. split; [apply poke_poked; lia |].
    intros _. rewrite zlen_poked; lia. }
  by exists m.
Qed.

Lemma init_journal_ok b D us cr secs q cq b1 l (bs := block_size (journal b)) (ln := len (journal b)) :
  image_ok b D us -> log (cfg b) D bs ln us true us cr secs q cq -> secs <> [] ->
  bs <= q -> q + bs <= ln -> (bs | q) -> log_ends D bs q cq ->
  apply_log secs (started_at us b, []) = Ok (b1, l) -> overlaps b1 l = false ->
  exists m, init_journal D b = Ok (restarted m q cq b1, None).
Proof.
  intros I Hlog Hne Q1 Q2 Q3 Hend Ha Hov. pose proof I as []. fold bs ln in im_len0, im_block0, im_align0, im_buffer0, im_us_align0, im_us0, im_ln_max0, im_mem0.
  destruct (init_journal_reads b D us I) as (m & Hm & ->). fold bs ln in Hm |- *.
  assert (exists i', read_loop (S (S (Z.to_nat (ln / bs)))) D (first_state m us b) = Ok i' /\ finished (cfg b) bs ln us q cq true (b1, l) i' /\ init_write i' = None)
    as (i' & -> & [F1 F2 F3 F4] & F5).
  { apply (journal_read_loop_ok (cfg b) D bs ln us true) with (A := 0) (U := 0); try done; try lia.
    - intros p i P H1 H2 Hc Hs. apply (log_ends_invalid D bs ln us) with (cq := cq); try done; [lia | lia | by apply Hs].
    - assert (ln = bs * (ln / bs)) by (apply Z.div_exact; [lia | by apply Z.mod_divide; [lia |]]). lia.
    - constructor; [constructor |]. left. constructor; [done | cbn; unfold vpos; rewrite Z.leb_refl; lia |].
      exists (started_at us b, []), cr, secs. split; [| split_and!; try done; by right].
      constructor; try done. by exists m, (next_free (journal b)).
    - constructor; try done. cbn. lia. }
  cbn [rbind]. destruct F1 as [(m' & x & Eb & _) Ed _ _ _ _]. cbn [fst snd] in *. unfold finish_init. rewrite Ed.
  assert (overlaps (ij_bs i') l = false) as Ho by by rewrite Eb. rewrite Ho.
  exists m'. rewrite (F2 (F3 eq_refl)), F5, Eb. rewrite Eb in F4. cbn in F4. subst x. done.
Qed.
