(* ===== verification/ReplayWrite.v ===== *)
(** * The blockstore: the log that the writers leave in the journal

    Entries that are appended to a journal in memory extend the log that the start
    reads, and leave the entries before them as they are. *)

From S2P Require Import Prelude.
From S2P Require Import Crc32c.
From S2P Require Import Journal.
From S2P Require Import JournalCheck.
From S2P Require Import Blockstore.
From S2P Require Import BlockstoreOps.
From S2P Require Import JournalRing.
From S2P Require Import Replay.
From S2P Require Import ReplayLog.
From S2P Require Import ReplayApply.
From S2P Require Import ReplayRead.

(** ** Writes to a buffer *)

(** The buffers differ between [lo] and [hi] only. *)
Definition only (lo hi : Z) (m m' : list Z) : Prop :=
  zlen m' = zlen m /\ (is_bytes m -> is_bytes m') /\
  forall a n, 0 <= a -> 0 <= n -> a + n <= zlen m -> a + n <= lo \/ hi <= a -> slice m' a n = slice m a n.

Lemma only_trans lo hi m1 m2 m3 : only lo hi m1 m2 -> only lo hi m2 m3 -> only lo hi m1 m3.
Proof.
  intros (A1 & A2 & A3) (B1 & B2 & B3). split; [lia |]. split; [tauto |]. intros a n H1 H2 H3 H4. rewrite B3 by (done || lia). by apply A3.
Qed.
Lemma only_wider lo hi lo' hi' m m' : lo' <= lo -> hi <= hi' -> only lo hi m m' -> only lo' hi' m m'.
Proof. intros Hl Hh (A1 & A2 & A3). split; [done |]. split; [done |]. intros a n H1 H2 H3 H4. apply A3; lia. Qed.

Lemma slice_poked_after l p d off n : 0 <= p -> 0 <= n -> p + zlen d <= off -> p + zlen d <= zlen l -> slice (poked l p d) off n = slice l off n.
Proof.
  intros. unfold slice, poked, zlen in *. rewrite app_assoc, drop_app_ge by (rewrite length_app, length_take; lia).
  rewrite drop_drop. do 2 f_equal. rewrite length_app, length_take. lia.
Qed.

Lemma poke_only m a d m' : 0 <= a -> is_bytes d -> poke m a d = Ok m' -> only a (a + zlen d) m m' /\ holds m' a d.
Proof.
  intros Ha Hd. unfold poke. destruct (Z.leb_spec (a + zlen d) (zlen m)) as [Hle |]; [| done]. intros [= <-].
  fold (poked m a d). pose proof (zlen_nonneg d). split.
  - split; [by apply zlen_poked |]. split.
    + intros Hm. unfold poked. apply is_bytes_app; [by apply Forall_take |]. apply is_bytes_app; [done | by apply Forall_drop].
    + intros x n H1 H2 H3 [H4 | H4]; [by apply slice_poked_before; lia | by apply slice_poked_after; lia].
  - split; [done |]. split; [by rewrite zlen_poked |]. apply slice_poked_at. lia.
Qed.

Lemma holds_only lo hi m m' a d : only lo hi m m' -> holds m a d -> a + zlen d <= lo \/ hi <= a -> holds m' a d.
Proof. intros (O1 & _ & O3) (H1 & H2 & H3) H. split; [done |]. split; [lia |]. rewrite O3; [done | done | apply zlen_nonneg | done | done]. Qed.

(** The bytes of a field go right behind those before it. *)
Lemma poke_next m a d d' m' x : holds m a d -> x = a + zlen d -> is_bytes d' -> poke m x d' = Ok m' ->
  holds m' a (d ++ d') /\ only a (a + zlen d + zlen d') m m'.
Proof.
  intros H -> Hb Hp. pose proof (zlen_nonneg d). pose proof (proj1 H). destruct (poke_only m (a + zlen d) d' m' ltac:(lia) Hb Hp) as [O H'].
  split; [apply holds_app; split; [eapply holds_only; [done | done | by left] | done] |]. eapply only_wider; [| | done]; lia.
Qed.

Lemma store_spec j a n x j' : 0 <= a -> store j a n x = Ok j' -> exists m, j' = with_mem m j /\ poke (mem j) a (le_bytes n x) = Ok m.
Proof. unfold store. intros Ha (m & Hm & [= <-])%rbind_ok. by exists m. Qed.

(** ** Journals that differ in their memory *)

(** The entry is being filled: [d] has been stored from [a] on. *)
Record filling (j0 j : journal_t) (a : Z) (d : list Z) : Prop := {
  fl_same : exists m, j = with_mem m j0;
  fl_holds : holds (mem j) a d;
  fl_only : only a (a + zlen d) (mem j0) (mem j) }.

Lemma fill_poke j0 j a d x d' m : filling j0 j a d -> x = a + zlen d -> is_bytes d' -> poke (mem j) x d' = Ok m -> filling j0 (with_mem m j) a (d ++ d').
Proof.
  intros [[m0 ->] H O] Hx Hb Hp. destruct (poke_next _ _ _ _ _ _ H Hx Hb Hp) as [H' O']. cbn [mem with_mem] in *. pose proof (zlen_nonneg d').
  constructor; [exists m; by destruct j0 | done |]. cbn [mem with_mem]. rewrite zlen_app. apply (only_trans _ _ _ m0).
  - apply (only_wider a (a + zlen d)); [lia | lia | done].
  - apply (only_wider a (a + zlen d + zlen d')); [lia | lia | done].
Qed.

Lemma fill_store j0 j a d x n y j' : filling j0 j a d -> x = a + zlen d -> store j x n y = Ok j' -> filling j0 j' a (d ++ le_bytes n y).
Proof.
  intros F Hx Hs. destruct (fl_holds _ _ _ _ F) as [Ha _]. pose proof (zlen_nonneg d).
  destruct (store_spec j x n y j' ltac:(lia) Hs) as (m & -> & Hm). by eapply fill_poke; [done | done | apply is_bytes_le_bytes |].
Qed.

Lemma fill_first j a n y j' : 0 <= a -> store j a n y = Ok j' -> filling j j' a (le_bytes n y).
Proof.
  intros Ha Hs. destruct (store_spec _ _ _ _ _ Ha Hs) as (m & -> & Hm). destruct (poke_only _ _ _ _ Ha (is_bytes_le_bytes n y) Hm) as [O H].
  constructor; [by exists m | done | done].
Qed.

Lemma fill_ov j0 j je d v j' : filling j0 j (je + 4) d -> zlen d = 12 -> store_ov j je v = Ok j' -> filling j0 j' (je + 4) (d ++ ov_bytes v).
Proof.
  intros F Hd. unfold store_ov. intros (j1 & H1 & (j2 & H2 & H3)%rbind_ok)%rbind_ok. unfold ov_bytes.
  eapply fill_store in H1; [| exact F | lia]. eapply fill_store in H2; [| exact H1 | rewrite zlen_app, zlen_le_bytes; lia].
  eapply fill_store in H3; [| exact H2 | rewrite !zlen_app, !zlen_le_bytes; lia]. by rewrite <- !app_assoc in H3.
Qed.

Lemma fill_big j0 j je d v off n loc dyn j' : filling j0 j (je + 4) d -> zlen d = 12 -> is_bytes dyn -> store_big j je v off n loc dyn = Ok j' ->
  filling j0 j' (je + 4) (d ++ ov_bytes v ++ le_bytes 4 off ++ le_bytes 4 n ++ le_bytes 8 loc ++ dyn).
Proof.
  intros F Hd Hb. unfold store_big. intros (j1 & H1 & (j2 & H2 & (j3 & H3 & (j4 & H4 & (m & H5 & [= <-])%rbind_ok)%rbind_ok)%rbind_ok)%rbind_ok)%rbind_ok.
  eapply fill_ov in H1; [| exact F | done]. pose proof (zlen_ov_bytes v).
  eapply fill_store in H2; [| exact H1 | rewrite !zlen_app; lia].
  eapply fill_store in H3; [| exact H2 | rewrite !zlen_app, !zlen_le_bytes; lia].
  eapply fill_store in H4; [| exact H3 | rewrite !zlen_app, !zlen_le_bytes; lia].
  eapply fill_poke in H5; [| exact H4 | rewrite !zlen_app, !zlen_le_bytes; lia | done]. by rewrite <- !app_assoc in H5.
Qed.

(** The checksum closes the entry. *)
Lemma seal_spec c j0 j je prev e j' : 0 <= je -> fields_ok c e -> filling j0 j (je + 4) (rest_of prev e) -> seal_entry j je (size_of e) = Ok j' ->
  exists m, j' = with_crc32_last (crc_of prev e) (with_mem m j0) /\ holds m je (encode prev e) /\ only je (je + size_of e) (mem j0) m.
Proof.
  intros Hje Hf [[m0 ->] H O] Hs. unfold seal_entry in Hs. rewrite <- (zlen_rest prev), (holds_load _ _ _ H) in Hs. cbn [rbind] in Hs.
  apply rbind_ok in Hs as (j1 & Hs & [= <-]). destruct (store_spec _ _ _ _ _ Hje Hs) as (m & -> & Hm). cbn [mem with_mem] in *.
  destruct (poke_only _ _ _ _ Hje (is_bytes_le_bytes 4 _) Hm) as [O' H']. rewrite zlen_le_bytes, zlen_rest in *. pose proof (size_of_min e).
  exists m. split; [by destruct j0 |]. split.
  - unfold encode. apply holds_app. split; [done |]. rewrite zlen_le_bytes. eapply holds_only; [done | done | by right].
  - apply (only_trans _ _ _ m0); eapply only_wider; [| | exact O | | | exact O']; lia.
Qed.

(** ** Allocation of an entry *)

Definition header (type size prev : Z) : list Z := le_bytes 2 JOURNAL_MAGIC ++ le_bytes 2 type ++ le_bytes 4 size ++ le_bytes 4 prev.

Lemma rest_header prev e : rest_of prev e = header (type_of e) (size_of e) prev ++ ov_bytes (ov_of e) ++ fields_of e.
Proof. unfold rest_of, header. by rewrite <- !app_assoc. Qed.
Lemma zlen_header type size prev : zlen (header type size prev) = 12.
Proof. unfold header. by rewrite !zlen_app, !zlen_le_bytes. Qed.

(** The block of the current sector. *)
Definition at_sector (j : journal_t) (p : Z) : Prop := exists si, aget (sector_info j) (cur_sector j) = Ok si /\ sector_offset si = p.

Record moved (j j' : journal_t) : Prop := {
  mo_inmem : inmemory j' = inmemory j;
  mo_bs : block_size j' = block_size j;
  mo_len : len j' = len j;
  mo_us : used_start j' = used_start j;
  mo_crc : crc32_last j' = crc32_last j;
  mo_pos : in_sector_pos j' = 0;
  mo_sector : at_sector j' (next_free j);
  mo_clean : exists si, aget (sector_info j) (cur_sector j) = Ok si /\ dirty si = false;
  mo_info : exists si, aget (sector_info j) (cur_sector j') = Ok si /\ flush_count si <= 0 /\
    sector_info j' = <[Z.to_nat (cur_sector j') := mk_sector (next_free j) (flush_count si) false (dirty si) (sector_submit_id si)]> (sector_info j);
  mo_next : next_free j' = if len j <=? next_free j + block_size j then block_size j else next_free j + block_size j;
  mo_cross : no_cross j (next_free j') = true;
  mo_mem : inmemory j = true -> poke (mem j) (next_free j) (replicate (Z.to_nat (block_size j)) 0) = Ok (mem j') }.

Lemma move_moved j j' : move_to_next_sector j = Ok j' -> moved j j'.
Proof.
  unfold move_to_next_sector. intros (si & Hsi & H)%rbind_ok. destruct (dirty si) eqn:Hdirty; [done |]. cbn [negb] in H.
  apply rbind_ok in H as (j1 & H1 & (si1 & Hs1 & (infos & Hi & H)%rbind_ok)%rbind_ok).
  assert (exists cur ds si2, j1 = with_dirty_start ds (with_cur_sector cur j) /\ aget (sector_info j) cur = Ok si2 /\ flush_count si2 <= 0) as (cur & ds & si2 & -> & Hcur & Hfc).
  { destruct (Z.ltb_spec 0 (flush_count si)); [| injection H1 as <-; exists (cur_sector j), (next_free j), si; split; [by destruct j | done]].
    apply rbind_ok in H1 as (si2 & H2 & H1). destruct (Z.eqb_spec (flush_count si2) 0); [| done]. injection H1 as <-.
    exists ((cur_sector j + 1) mod sector_count j), (dirty_start j), si2. split_and!; [by destruct j | done | lia]. }
  cbn in Hs1, Hi, H. assert (si2 = si1) as -> by congruence. apply aset_ok in Hi as [Hc ->].
  replace (if next_free j + block_size j <? len j then next_free j + block_size j else block_size j)
    with (if len j <=? next_free j + block_size j then block_size j else next_free j + block_size j) in H
    by (destruct (Z.leb_spec (len j) (next_free j + block_size j)), (Z.ltb_spec (next_free j + block_size j) (len j)); done || lia).
  set (nnf := if len j <=? next_free j + block_size j then _ else _) in *.
  destruct (no_cross _ nnf) eqn:Hx; [| done]. apply rbind_ok in H as (base & Hb & (m & Hm & [= <-])%rbind_ok).
  assert (at_sector (with_mem m (with_next_free nnf (with_in_sector_pos 0 (with_sector_info (<[Z.to_nat cur := mk_sector (next_free j) (flush_count si1) false (dirty si1) (sector_submit_id si1)]> (sector_info j)) (with_dirty_start ds (with_cur_sector cur j)))))) (next_free j)) as Hat.
  { eexists. split; [cbn; rewrite aget_insert by done; by rewrite bool_decide_eq_true_2 |]. done. }
  constructor; try done; [by exists si | by exists si1 |]. intros Him. destruct Hat as (si3 & H3 & H3'). unfold sector_base in Hb. cbn in Hb, H3, Hm. rewrite Him, H3 in Hb. cbn [rbind] in Hb.
  injection Hb as <-. by rewrite H3' in Hm.
Qed.

(** What [prefill_single_journal_entry] leaves for the fields of the entry. *)
Lemma prefill_spec j type size j' je : inmemory j = true -> prefill_single_journal_entry j type size = Ok (j', je) ->
  exists j1 fits p, entry_fits j size = Ok fits /\ (if fits then j1 = j else moved j j1) /\ at_sector j1 p /\ je = p + in_sector_pos j1
    /\ (0 <= je -> exists j2, filling j2 j' (je + 4) (header type size (crc32_last j1)) /\ at_sector j2 p
         /\ inmemory j2 = inmemory j1 /\ block_size j2 = block_size j1 /\ len j2 = len j1 /\ used_start j2 = used_start j1
         /\ next_free j2 = next_free j1 /\ mem j2 = mem j1 /\ in_sector_pos j2 = in_sector_pos j1 + size
         /\ cur_sector j2 = cur_sector j1 /\ exists si, aget (sector_info j1) (cur_sector j1) = Ok si
           /\ sector_info j2 = <[Z.to_nat (cur_sector j1) := mk_sector (sector_offset si) (flush_count si) (written si) true (sector_submit_id si)]> (sector_info j1)).
Proof.
  intros Him. unfold prefill_single_journal_entry. intros (fits & Hf & (j1 & H1 & (base & Hb & H)%rbind_ok)%rbind_ok)%rbind_ok.
  assert (if fits then j1 = j else moved j j1) as Hm by (destruct fits; [by injection H1 | by apply move_moved]).
  assert (inmemory j1 = true) as Him1 by (destruct fits; [by subst | by rewrite (mo_inmem _ _ Hm)]).
  unfold sector_base in Hb. rewrite Him1 in Hb. apply rbind_ok in Hb as (si & Hsi & [= <-]).
  apply rbind_ok in H as (ja & Ha & (jb & Hb & (jc & Hc & (jd & Hd & (si' & Hsi' & (infos & Hi & [= <- <-])%rbind_ok)%rbind_ok)%rbind_ok)%rbind_ok)%rbind_ok).
  exists j1, fits, (sector_offset si). split_and!; [done | done | by exists si | done |]. intros Hje.
  set (je := sector_offset si + in_sector_pos j1) in *. set (j0 := with_in_sector_pos (in_sector_pos j1 + size) j1) in *.
  apply fill_first in Ha; [| lia]. eapply fill_store in Hb; [| exact Ha | rewrite ?zlen_app, !zlen_le_bytes; lia].
  eapply fill_store in Hc; [| exact Hb | rewrite ?zlen_app, !zlen_le_bytes; lia]. eapply fill_store in Hd; [| exact Hc | rewrite ?zlen_app, !zlen_le_bytes; lia].
  assert (crc32_last jc = crc32_last j1) as Ec by by destruct Hc as [[mc ->] _ _]. rewrite Ec in Hd.
  destruct Hd as [[m ->] Hh Ho]. cbn in Hsi', Hi. rewrite Hsi in Hsi'. injection Hsi' as <-. apply aset_ok in Hi as [Hcur ->].
  exists (with_sector_info (<[Z.to_nat (cur_sector j1) := mk_sector (sector_offset si) (flush_count si) (written si) true (sector_submit_id si)]> (sector_info j1)) j0).
  split; [| split_and!; try done].
  - unfold header. rewrite <- !app_assoc in Hh, Ho. constructor; [by exists m | done | done].
  - eexists. cbn. rewrite aget_insert by done. rewrite bool_decide_eq_true_2 by done. done.
  - by exists si.
Qed.

(** ** Blocks behind the log *)

Section Frame.
Variable c : config_t.
Variables bs ln us hi : Z.
Variables D D' : list Z.
Hypothesis bs_pos : 0 < bs.
Hypothesis bs_ln : (bs | ln).
Hypothesis bs_us : (bs | us).
Hypothesis D_same_len : zlen D' = zlen D.

Notation vp := (vpos bs ln us).

(** The buffers agree on what is before [hi] in the ring. *)
Hypothesis D_same : forall a n, bs <= a -> 0 <= n -> a + n <= ln -> vp a + n <= hi -> slice D' a n = slice D a n.

Lemma data_log_same p nf es nf' : data_log c D bs ln us p nf es nf' -> Forall (entry_ok c) es -> vp nf' <= hi -> data_log c D' bs ln us p nf es nf'.
Proof.
  induction 1 as [| nf instant v off n loc crc dyn es nf' H1 H2 H3 H4 H5 H6 H7 H8 H IH | nf e es nf' H1 H IH]; intros Hok Hx; [constructor | |];
    apply Forall_cons in Hok as [(_ & Hf & _) Hok].
  - cbn [fields_ok] in Hf. apply data_small; try done; [| by apply IH]. by rewrite D_same by lia.
  - apply data_other; [done |]. by apply IH.
Qed.

Lemma same_in_block p k n : bs <= p -> p + bs <= ln -> vp p + bs <= hi -> 0 <= k -> 0 <= n -> k + n <= bs -> slice D' (p + k) n = slice D (p + k) n.
Proof.
  intros H1 H2 H3 H4 H5 H6. rewrite <- (slice_slice D' p bs k n), <- (slice_slice D p bs k n) by lia. by rewrite D_same by lia.
Qed.

Lemma sector_log_same p pos prev es nf nf' : sector_log c D bs ln us false p pos prev es nf nf' -> (bs | nf') -> vp nf' <= hi -> sector_log c D' bs ln us false p pos prev es nf nf'.
Proof.
  intros [S1 S2 S3 S4 S5 S6 S7 S8 S9 S10 S11] Hn Hx. pose proof (zlen_nonneg (chain prev es)).
  pose proof (aligned_next bs _ _ bs_pos (vpos_align bs ln us bs_ln bs_us p S3) (vpos_align bs ln us bs_ln bs_us nf' Hn) S11). constructor; try done.
  - destruct S5 as (A1 & A2 & A3). split; [done |]. split; [lia |]. by rewrite same_in_block by lia.
  - destruct S7 as [S7 | [[S7 Hm] | S7]]; [by left | right; left | by right; right]. split; [done |]. rewrite <- !Z.add_assoc in *. by rewrite same_in_block by lia.
  - by apply data_log_same.
Qed.

Lemma log_same p cr secs q cq : log c D bs ln us false p cr secs q cq -> (bs | q) -> vp q <= hi -> log c D' bs ln us false p cr secs q cq /\ vp p <= vp q /\ (bs | p).
Proof.
  induction 1 as [p cr | p cr es nf secs q cq Hes S H IH]; intros Hq Hx; [split_and!; [constructor | lia | done] |].
  destruct (IH Hq Hx) as (IH1 & IH2 & IH3). pose proof (sl_next _ _ _ _ _ _ _ _ _ _ _ _ S). split_and!; [| lia | apply S].
  econstructor; [done | | done]. apply sector_log_same; [done | done | lia].
Qed.
End Frame.

Lemma before_block bs ln us x D D' a n : 0 < bs -> (bs | us) -> bs <= us < ln -> (bs | x) -> bs <= x -> x + bs <= ln -> ln <= zlen D -> only x (x + bs) D D' ->
  bs <= a -> 0 <= n -> a + n <= ln -> vpos bs ln us a + n <= vpos bs ln us x -> slice D' a n = slice D a n.
Proof.
  intros Hbs Hus Hur Hx1 Hx2 Hx3 HD (_ & _ & O) H1 H2 H3 H4. apply O; [lia | lia | lia |].
  pose proof (aligned_next bs x us Hbs Hx1 Hus). unfold vpos in H4. destruct (Z.leb_spec us a), (Z.leb_spec us x); lia.
Qed.

(** Writing to a block behind the log. *)
Lemma log_frame c bs ln us x D D' p cr secs : 0 < bs -> (bs | ln) -> (bs | us) -> bs <= us < ln -> (bs | x) -> bs <= x -> x + bs <= ln -> ln <= zlen D ->
  only x (x + bs) D D' -> forall cq, log c D bs ln us false p cr secs x cq -> log c D' bs ln us false p cr secs x cq.
Proof.
  intros Hbs Hln Hus Hur Hx1 Hx2 Hx3 HD O cq H. pose proof O as (O1 & _ & _).
  refine (proj1 (log_same c bs ln us (vpos bs ln us x) D D' Hbs Hln Hus O1 _ p cr secs x cq H Hx1 (Z.le_refl _))).
  intros a n H1 H2 H3 H4. by apply (before_block bs ln us x).
Qed.

Lemma log_snoc c D bs ln us p cr secs q cq es nf : log c D bs ln us false p cr secs q cq -> es <> [] ->
  sector_log c D bs ln us false q 0 cq es (wrap bs ln (q + bs)) nf -> log c D bs ln us false p cr (secs ++ [(q, es)]) nf (chain_crc cq es).
Proof.
  induction 1 as [p cr | p cr es' nf' secs q cq Hes S H IH]; intros He Hs; cbn [app].
  - econstructor; [done | done |]. constructor.
  - econstructor; [done | done |]. by apply IH.
Qed.

(** The last entry of a sector leaves room for the magic number of another one, or no
    room at all. *)
Fixpoint fill (es : list entry_t) : Z := match es with [] => 0 | e :: es => size_of e + fill es end.
Definition roomy (bs : Z) (sector : Z * list entry_t) : Prop := fill (snd sector) = bs \/ fill (snd sector) + 6 <= bs.

Lemma zlen_chain prev es : zlen (chain prev es) = fill es.
Proof. revert prev. induction es as [| e es IH]; intros prev; [done |]. cbn [chain fill]. by rewrite zlen_app, zlen_encode, IH. Qed.

Lemma log_strict c D bs ln us p cr secs q cq : log c D bs ln us false p cr secs q cq -> Forall (roomy bs) secs -> log c D bs ln us true p cr secs q cq.
Proof.
  induction 1 as [p cr | p cr es nf secs q cq Hes S H IH]; intros Hr; [constructor |]. apply Forall_cons in Hr as [Hx Hr].
  econstructor; [done | | by apply IH]. destruct S as [S1 S2 S3 S4 S5 S6 S7 S8 S9 S10 S11]. constructor; try done.
  destruct S7 as [S7 | [S7 | [_ S7]]]; [by left | by right; left |]. unfold roomy in Hx. cbn in Hx. rewrite zlen_chain in S7 |- *. left. lia.
Qed.

(** ** The log of a journal *)

Record room_ok (j : journal_t) : Prop := {
  ro_inmem : inmemory j = true;
  ro_bs : 0 < block_size j;
  ro_len : (block_size j | len j);
  ro_two : 2 * block_size j < len j;
  ro_len_max : len j < 2 ^ 63;
  ro_us : (block_size j | used_start j) /\ block_size j <= used_start j < len j;
  ro_nf : (block_size j | next_free j) /\ block_size j <= next_free j < len j;
  ro_mem : len j <= zlen (mem j);
  ro_bytes : is_bytes (mem j) }.

Definition pos_of (j : journal_t) (x : Z) : Z := vpos (block_size j) (len j) (used_start j) x.
Definition log_of (c : config_t) (j : journal_t) : Z -> Z -> list (Z * list entry_t) -> Z -> Z -> Prop :=
  log c (mem j) (block_size j) (len j) (used_start j) false.

(** The current sector is at [p], with the entries [es] behind the log [secs]. *)
Record open_at (c : config_t) (j : journal_t) (cr : Z) (secs : list (Z * list entry_t)) (p crp : Z) (es : list entry_t) : Prop := {
  oa_room : room_ok j;
  oa_log : log_of c j (used_start j) cr secs p crp;
  oa_p : (block_size j | p) /\ block_size j <= p /\ p + block_size j <= len j;
  oa_next : pos_of j p < pos_of j (next_free j);
  oa_sector : at_sector j p;
  oa_chain : holds (mem j) p (chain crp es);
  oa_pos : in_sector_pos j = zlen (chain crp es);
  oa_fits : in_sector_pos j <= block_size j;
  oa_zero : forall a n, in_sector_pos j <= a -> 0 <= n -> a + n <= block_size j -> slice (mem j) (p + a) n = replicate (Z.to_nat n) 0;
  oa_ok : Forall (entry_ok c) es;
  oa_data : data_log c (mem j) (block_size j) (len j) (used_start j) p (wrap (block_size j) (len j) (p + block_size j)) es (next_free j);
  oa_crp : 0 <= crp < 2 ^ 32;
  oa_crc : crc32_last j = chain_crc crp es }.

(** The rest of the current sector ends the entries in it. *)
Lemma open_sector c j cr secs p crp es : open_at c j cr secs p crp es ->
  sector_log c (mem j) (block_size j) (len j) (used_start j) false p 0 crp es (wrap (block_size j) (len j) (p + block_size j)) (next_free j).
Proof.
  intros [R Hlog (P1 & P2 & P3) Hnx Hat Hch Hpos Hfit Hz Hok Hd Hcrp Hcrc]. pose proof (zlen_nonneg (chain crp es)).
  constructor; rewrite ?Z.add_0_r, ?Z.add_0_l; try done; try lia.
  destruct (Z.eq_dec (zlen (chain crp es)) (block_size j)); [by left | right].
  destruct (Z_lt_ge_dec (block_size j) (zlen (chain crp es) + 6)); [by right | left]. split; [lia |].
  rewrite <- Z.add_assoc, Hz by lia. done.
Qed.

(** The log of a journal with the entries of the current sector. *)
Inductive journaled (c : config_t) (j : journal_t) (cr : Z) : list (Z * list entry_t) -> Prop :=
| journaled_closed L : room_ok j -> log_of c j (used_start j) cr L (next_free j) (crc32_last j) -> in_sector_pos j = block_size j ->
  0 <= crc32_last j < 2 ^ 32 -> (forall si, aget (sector_info j) (cur_sector j) = Ok si -> dirty si = false) -> journaled c j cr L
| journaled_open secs p crp es : es <> [] -> open_at c j cr secs p crp es -> journaled c j cr (secs ++ [(p, es)]).

Lemma journaled_log c j cr L : journaled c j cr L ->
  room_ok j /\ log_of c j (used_start j) cr L (next_free j) (crc32_last j) /\ 0 <= in_sector_pos j <= block_size j /\ 0 <= crc32_last j < 2 ^ 32.
Proof.
  intros [L' R Hl Hp Hc _ | secs p crp es Hes O].
  - pose proof (ro_bs _ R). split_and!; (done || lia).
  - pose proof (zlen_nonneg (chain crp es)). pose proof O as [R Hlog ? ? ? ? Hpos Hfit ? Hok ? ? Hcrc]. split; [done |]. split; [| split; [lia |]].
    + rewrite Hcrc. eapply log_snoc; [done | done |]. by eapply open_sector.
    + rewrite Hcrc. eapply chain_crc_range; [done | done].
Qed.

(** ** An entry more *)

Lemma no_cross_vpos j : room_ok j -> let nnf := wrap (block_size j) (len j) (next_free j + block_size j) in
  no_cross j nnf = true -> pos_of j (next_free j) < pos_of j nnf /\ (block_size j | nnf) /\ block_size j <= nnf < len j.
Proof.
  intros R nnf Hx. destruct (ro_us _ R) as [U1 U2], (ro_nf _ R) as [N1 N2]. pose proof (ro_bs _ R).
  pose proof (aligned_next _ _ _ ltac:(done) N1 (ro_len _ R) (proj2 N2)).
  assert (block_size j < len j) by lia.
  assert ((block_size j | nnf) /\ block_size j <= nnf < len j) as Hr.
  { unfold nnf, wrap. destruct (Z.leb_spec (len j) (next_free j + block_size j)); (split; [| lia]); [apply Z.divide_refl | apply Z.divide_add_r; [done | apply Z.divide_refl]]. }
  split; [| done]. unfold no_cross in Hx. unfold pos_of, vpos. unfold nnf, wrap in *.
  pose proof (ro_two _ R). pose proof (aligned_next _ (next_free j) (used_start j) ltac:(done) N1 U1). apply orb_prop in Hx as [[A%Z.leb_le B%Z.leb_le]%andb_prop | A%Z.ltb_lt];
    destruct (Z.leb_spec (len j) (next_free j + block_size j));
    repeat match goal with |- context [?x <=? ?y] => destruct (Z.leb_spec x y) end; lia.
Qed.

Lemma moved_open c j cr L j' : journaled c j cr L -> moved j j' -> open_at c j' cr L (next_free j) (crc32_last j) [].
Proof.
  intros (R & Hlog & _ & Hcr)%journaled_log M. pose proof M as [M1 M2 M3 M4 M5 M6 M7 _ _ M8 M9 M10].
  destruct (ro_us _ R) as [U1 U2], (ro_nf _ R) as [N1 N2]. pose proof (ro_bs _ R). pose proof (ro_mem _ R).
  pose proof (aligned_next _ _ _ ltac:(done) N1 (ro_len _ R) (proj2 N2)).
  fold (wrap (block_size j) (len j) (next_free j + block_size j)) in M8. rewrite M8 in M9. destruct (no_cross_vpos j R M9) as (V1 & V2 & V3).
  specialize (M10 (ro_inmem _ R)). set (z := replicate (Z.to_nat (block_size j)) 0) in *.
  assert (is_bytes z) as Hz by (apply Forall_replicate; lia). assert (zlen z = block_size j) as Hzl by (unfold z; rewrite zlen_replicate; lia).
  destruct (poke_only (mem j) (next_free j) z (mem j') ltac:(lia) Hz M10) as [O Hh]. rewrite Hzl in O. pose proof O as (O1 & O2 & O3).
  assert (room_ok j') as R'.
  { constructor; rewrite ?M1, ?M2, ?M3, ?M4, ?M8, ?O1; try apply R; [by split | by apply O2, R]. }
  constructor; unfold pos_of, log_of; rewrite ?M1, ?M2, ?M3, ?M4, ?M5, ?M6, ?M8; try done.
  - apply (log_frame _ _ _ _ _ (mem j)); (done || apply R || lia).
  - split_and!; (done || lia).
  - cbn [chain]. unfold holds. change (zlen (@nil Z)) with 0. split_and!; [lia | lia | done].
  - lia.
  - intros a n Ha Hn Hle. destruct Hh as (_ & _ & Hh). rewrite <- (slice_slice (mem j') (next_free j) (zlen z)) by (rewrite ?Hzl; lia).
    rewrite Hh. unfold z, slice. rewrite drop_replicate, take_replicate. f_equal. lia.
  - constructor.
Qed.

Definition not_small (e : entry_t) : Prop := match e with SmallWrite _ _ _ _ _ _ _ => False | _ => True end.

Lemma data_log_snoc c D bs ln us p nf es nf' e : not_small e -> data_log c D bs ln us p nf es nf' -> data_log c D bs ln us p nf (es ++ [e]) nf'.
Proof.
  intros He. induction 1 as [| nf instant v off n loc crc dyn es nf' H1 H2 H3 H4 H5 H6 H7 H8 H IH | nf e' es nf' H1 H IH]; cbn [app].
  - apply data_other; [done | constructor].
  - by apply data_small.
  - by apply data_other.
Qed.

(** The data of small writes are behind the sector of their entries. *)
Lemma data_log_same_sector c D D' bs ln us p nf es nf' : 0 < bs -> (bs | us) -> bs <= us < ln -> (bs | p) -> bs <= p -> p + bs <= ln -> ln <= zlen D ->
  only p (p + bs) D D' -> Forall (entry_ok c) es -> data_log c D bs ln us p nf es nf' -> data_log c D' bs ln us p nf es nf'.
Proof.
  intros Hbs Hus Hur Hp1 Hp2 Hp3 HD (_ & _ & O) Hok.
  induction 1 as [| nf instant v off n loc crc dyn es nf' H1 H2 H3 H4 H5 H6 H7 H8 H IH | nf e' es nf' H1 H IH]; [constructor | |];
    apply Forall_cons in Hok as [(_ & Hf & _) Hok].
  - cbn [fields_ok] in Hf. apply data_small; try done; [| by apply IH].
    rewrite O; [done | lia | lia | lia |]. pose proof (aligned_next bs p us Hbs Hp1 Hus). unfold vpos in H2. destruct (Z.leb_spec us p), (Z.leb_spec us loc); lia.
  - apply data_other; [done |]. by apply IH.
Qed.

Section Append.
Context (c : config_t) (j j' : journal_t) (cr : Z) (secs : list (Z * list entry_t)) (p : Z) (e : entry_t).
Hypothesis J_inmem : inmemory j' = inmemory j.
Hypothesis J_bs : block_size j' = block_size j.
Hypothesis J_len : len j' = len j.
Hypothesis J_us : used_start j' = used_start j.
Hypothesis J_nf : next_free j' = next_free j.
Hypothesis J_sector : at_sector j' p.
Hypothesis J_pos : in_sector_pos j' = in_sector_pos j + size_of e.
Hypothesis J_crc : crc32_last j' = crc_of (crc32_last j) e.
Hypothesis e_ok : entry_ok c e.
Hypothesis e_fits : in_sector_pos j' <= block_size j.
Hypothesis J_holds : holds (mem j') (p + in_sector_pos j) (encode (crc32_last j) e).
Hypothesis J_only : only (p + in_sector_pos j) (p + in_sector_pos j + size_of e) (mem j) (mem j').

Lemma append_open crp es : not_small e -> open_at c j cr secs p crp es -> open_at c j' cr secs p crp (es ++ [e]).
Proof.
  intros Hns [R Hlog (P1 & P2 & P3) Hnx Hat Hch Hpos Hfit Hz Hok Hd Hcrp Hcrc]. pose proof J_only as (O1 & O2 & O3). pose proof (ro_bs _ R). pose proof (ro_mem _ R).
  destruct (ro_us _ R) as [U1 U2]. pose proof (zlen_nonneg (chain crp es)). pose proof (size_of_min e).
  assert (only p (p + block_size j) (mem j) (mem j')) as Ob by (eapply only_wider; [| | exact J_only]; lia).
  assert (room_ok j') as R'.
  { constructor; rewrite ?J_inmem, ?J_bs, ?J_len, ?J_us, ?J_nf, ?O1; try apply R. by apply O2, R. }
  constructor; unfold pos_of, log_of; rewrite ?J_inmem, ?J_bs, ?J_len, ?J_us, ?J_nf; try done.
  - apply (log_frame _ _ _ _ _ (mem j)); (done || apply R || lia).
  - rewrite entries_chain_app. apply holds_app. split; [eapply holds_only; [exact J_only | done | left; lia] |].
    cbn [chain]. rewrite app_nil_r, <- Hcrc, <- Hpos. done.
  - rewrite entries_chain_app, zlen_app. cbn [chain]. rewrite app_nil_r, zlen_encode. lia.
  - intros a n Ha Hn Hle. rewrite <- (Hz a n) by lia. apply O3; lia.
  - apply Forall_app. split; [done |]. by apply Forall_cons.
  - apply data_log_snoc; [done |]. eapply (data_log_same_sector c (mem j)); try done.
  - rewrite chain_crc_app, <- Hcrc. done.
Qed.
End Append.

Definition flat (L : list (Z * list entry_t)) : list entry_t := concat (map snd L).
Lemma flat_app L L' : flat (L ++ L') = flat L ++ flat L'.
Proof. unfold flat. by rewrite map_app, concat_app. Qed.
Lemma flat_one p es : flat [(p, es)] = es.
Proof. unfold flat. cbn. apply app_nil_r. Qed.

Lemma fits_room j size : 0 <= in_sector_pos j <= block_size j -> block_size j < 2 ^ 64 -> entry_fits j size = Ok true -> in_sector_pos j + size <= block_size j.
Proof. intros Hp Hb. unfold entry_fits. rewrite u64_small by lia. destruct (Z.ltb_spec (block_size j - in_sector_pos j) size); [done |]. lia. Qed.

(** The journal after an entry has been filled in. *)
Definition sealed (e : entry_t) (prev : Z) (m : list Z) (u : gmap Z Z) (j : journal_t) : journal_t :=
  with_crc32_last (crc_of prev e) (with_mem m (with_used_sectors u j)).

(** What an entry changes outside of the log: the block [p] of the current sector. *)
Record grown (j j' : journal_t) (p : Z) : Prop := {
  gr_inmem : inmemory j' = inmemory j;
  gr_bs : block_size j' = block_size j;
  gr_len : len j' = len j;
  gr_us : used_start j' = used_start j;
  gr_block : (block_size j | p) /\ block_size j <= p /\ p + block_size j <= len j;
  gr_only : only p (p + block_size j) (mem j) (mem j');
  gr_used : forall x, (block_size j | x) -> block_size j <= x -> x + block_size j <= len j ->
    pos_of j' x < pos_of j' (next_free j') -> x = p \/ pos_of j x < pos_of j (next_free j);
  gr_dirty : exists si, aget (sector_info j') (cur_sector j') = Ok si /\ dirty si = true /\ sector_offset si = p;
  gr_cur : forall si, aget (sector_info j) (cur_sector j) = Ok si -> dirty si = true -> sector_offset si = p;
  gr_infos : forall s si', aget (sector_info j') s = Ok si' -> exists si, aget (sector_info j) s = Ok si
    /\ sector_submit_id si' = sector_submit_id si /\ flush_count si' = flush_count si /\ (sector_offset si' = sector_offset si \/ flush_count si <= 0) }.

Lemma vpos_inj bs ln us x y : 0 < bs -> bs <= us < ln -> bs <= x < ln -> bs <= y < ln -> vpos bs ln us x = vpos bs ln us y -> x = y.
Proof. intros H1 H2 H3 H4. unfold vpos. destruct (Z.leb_spec us x), (Z.leb_spec us y); lia. Qed.

Lemma moved_used j j' x : room_ok j -> moved j j' -> (block_size j | x) -> block_size j <= x -> x + block_size j <= len j ->
  pos_of j x < pos_of j (next_free j') -> x = next_free j \/ pos_of j x < pos_of j (next_free j).
Proof.
  intros R M Hx H1 H2. destruct (ro_us _ R) as [U1 U2], (ro_nf _ R) as [N1 N2]. pose proof (ro_bs _ R). pose proof (ro_two _ R).
  pose proof (mo_cross _ _ M) as Hc. pose proof (mo_next _ _ M) as E. fold (wrap (block_size j) (len j) (next_free j + block_size j)) in E.
  rewrite E in *. destruct (no_cross_vpos j R Hc) as (V1 & V2 & V3).
  assert (pos_of j (wrap (block_size j) (len j) (next_free j + block_size j)) <= pos_of j (next_free j) + block_size j) as V4.
  { unfold pos_of, vpos, wrap in *. pose proof (aligned_next _ _ _ ltac:(done) N1 (ro_len _ R) (proj2 N2)). destruct (Z.leb_spec (len j) (next_free j + block_size j)), (Z.leb_spec (used_start j) (next_free j));
      repeat match goal with |- context [?x <=? ?y] => destruct (Z.leb_spec x y) end; lia. }
  intros Hlt. destruct (Z_lt_ge_dec (pos_of j x) (pos_of j (next_free j))) as [| Hge]; [by right | left].
  apply (vpos_inj (block_size j) (len j) (used_start j)); [done | done | lia | done |]. fold (pos_of j x) (pos_of j (next_free j)).
  pose proof (aligned_next (block_size j) (pos_of j (next_free j)) (pos_of j x) ltac:(done)
    (vpos_align _ _ _ (ro_len _ R) U1 _ N1) (vpos_align _ _ _ (ro_len _ R) U1 _ Hx)). lia.
Qed.

Section Grown.
Context (j j1 j2 j' : journal_t) (fits : bool) (p je n : Z).
Hypothesis R : room_ok j.
Hypothesis J1 : if fits then j1 = j else moved j j1.
Hypothesis J1_sector : at_sector j1 p.
Hypothesis p_block : (block_size j | p) /\ block_size j <= p /\ p + block_size j <= len j.
Hypothesis je_block : p <= je /\ je + n <= p + block_size j.
Hypothesis J2 : exists si, aget (sector_info j1) (cur_sector j1) = Ok si
  /\ sector_info j2 = <[Z.to_nat (cur_sector j1) := mk_sector (sector_offset si) (flush_count si) (written si) true (sector_submit_id si)]> (sector_info j1).
Hypothesis J2_same : inmemory j2 = inmemory j1 /\ block_size j2 = block_size j1 /\ len j2 = len j1 /\ used_start j2 = used_start j1
  /\ next_free j2 = next_free j1 /\ mem j2 = mem j1 /\ cur_sector j2 = cur_sector j1.
Hypothesis J'_same : inmemory j' = inmemory j2 /\ block_size j' = block_size j2 /\ len j' = len j2 /\ used_start j' = used_start j2
  /\ next_free j' = next_free j2 /\ sector_info j' = sector_info j2 /\ cur_sector j' = cur_sector j2.
Hypothesis J'_only : only je (je + n) (mem j2) (mem j').

Lemma j1_same : inmemory j1 = inmemory j /\ block_size j1 = block_size j /\ len j1 = len j /\ used_start j1 = used_start j.
Proof. destruct fits; [by subst |]. by destruct J1. Qed.

Lemma j1_sector_infos s si1 : aget (sector_info j1) s = Ok si1 -> exists si, aget (sector_info j) s = Ok si
  /\ sector_submit_id si1 = sector_submit_id si /\ flush_count si1 = flush_count si /\ (sector_offset si1 = sector_offset si \/ flush_count si <= 0).
Proof.
  destruct fits; [subst j1; intros H; exists si1; split_and!; [done | done | done | by left] |].
  destruct (mo_info _ _ J1) as (si & Hsi & Hfc & ->). pose proof (aget_lt _ _ _ Hsi) as Hlt. rewrite aget_insert by done.
  case_bool_decide as E; [intros [= <-]; rewrite <- E; exists si; split_and!; [done | done | done | by right] |].
  intros H. exists si1. split_and!; [done | done | done | by left].
Qed.

Lemma j1_only : only p (p + block_size j) (mem j) (mem j1).
Proof.
  destruct fits as [|] eqn:Ef; [subst j1; by split_and! |]. pose proof (mo_mem _ _ J1 (ro_inmem _ R)) as Hp. destruct (ro_nf _ R) as [_ N], p_block as (_ & P & _).
  pose proof (ro_bs _ R). assert (is_bytes (replicate (Z.to_nat (block_size j)) 0)) as Hz by (apply Forall_replicate; lia).
  destruct (poke_only (mem j) (next_free j) _ (mem j1) ltac:(lia) Hz Hp) as [O _].
  rewrite zlen_replicate in O. assert (next_free j = p) as <-.
  { destruct (mo_sector _ _ J1) as (s1 & E1 & <-), J1_sector as (s2 & E2 & <-). congruence. }
  eapply only_wider; [| | exact O]; lia.
Qed.

Lemma prefill_grown : grown j j' p.
Proof.
  destruct j1_same as (A1 & A2 & A3 & A4). destruct J2_same as (B1 & B2 & B3 & B4 & B5 & B6 & B7), J'_same as (C1 & C2 & C3 & C4 & C5 & C6 & C7).
  destruct J2 as (si & Hsi & Hin). pose proof (aget_lt _ _ _ Hsi) as Hlt.
  constructor; try congruence; try done.
  - eapply only_trans; [exact j1_only |]. rewrite <- B6. eapply only_wider; [| | exact J'_only]; lia.
  - unfold pos_of. rewrite C2, C3, C4, C5, B2, B3, B4, B5, A2, A3, A4. intros x H1 H2 H3 H4. destruct fits; [subst j1; by right |].
    destruct (moved_used j j1 x R J1 H1 H2 H3 H4) as [-> | H5]; [left | by right].
    destruct (mo_sector _ _ J1) as (s1 & E1 & <-), J1_sector as (s2 & E2 & <-). congruence.
  - eexists. rewrite C6, C7, B7, Hin, aget_insert, bool_decide_eq_true_2 by done. split_and!; [done | done |]. destruct J1_sector as (s2 & E2 & <-). cbn. congruence.
  - intros s0 Hs0 Hd. destruct fits; [subst j1; destruct J1_sector as (s2 & E2 & <-); congruence |].
    destruct (mo_clean _ _ J1) as (s1 & E1 & E2). congruence.
  - intros s si'. rewrite C6, Hin, aget_insert by done. case_bool_decide as E; [| apply j1_sector_infos].
    intros [= <-]. rewrite <- E. exact (j1_sector_infos _ _ Hsi).
Qed.
End Grown.

(** An entry is allocated behind the log; when its fields and its checksum are filled
    in, the log has one more entry. *)
Lemma prefill_log c j cr L e j' je (prev := crc32_last j) :
  journaled c j cr L -> entry_ok c e -> not_small e -> size_of e <= block_size j ->
  prefill_single_journal_entry j (type_of e) (size_of e) = Ok (j', je) ->
  0 <= je /\ exists j2, filling j2 j' (je + 4) (header (type_of e) (size_of e) prev) /\
  forall m u, holds m je (encode prev e) -> only je (je + size_of e) (mem j2) m ->
    exists L' p, journaled c (sealed e prev m u j2) cr L' /\ flat L' = flat L ++ [e] /\ grown j (sealed e prev m u j2) p.
Proof.
  intros HJ He Hns Hsz Hp. destruct (journaled_log _ _ _ _ HJ) as (R & _ & Hpos & _). pose proof (ro_len_max _ R). pose proof (ro_two _ R). pose proof (size_of_min e).
  destruct (prefill_spec _ _ _ _ _ (ro_inmem _ R) Hp) as (j1 & fits & p & Hf & Hm & Hat & Hje & Hfill).
  assert (exists secs crp es, open_at c j1 cr secs p crp es /\ flat (secs ++ [(p, es)]) = flat L /\ crc32_last j1 = prev /\ block_size j1 = block_size j /\ len j1 = len j
    /\ in_sector_pos j1 + size_of e <= block_size j) as (secs & crp & es & O & HL & Hc & Hb & Hln & Hfit).
  { destruct fits.
    - subst j1. apply fits_room in Hf; [| done | lia]. destruct HJ as [L _ _ Hip _ _ | secs p' crp es Hes O]; [lia |].
      assert (p' = p) as ->. { destruct (oa_sector _ _ _ _ _ _ _ O) as (s1 & E1 & <-), Hat as (s2 & E2 & <-). congruence. }
      exists secs, crp, es. done.
    - pose proof (moved_open _ _ _ _ _ HJ Hm) as O. assert (next_free j = p) as Enf.
      { destruct (oa_sector _ _ _ _ _ _ _ O) as (s1 & E1 & <-), Hat as (s2 & E2 & <-). congruence. }
      rewrite Enf in O. exists L, (crc32_last j), []. split; [done |]. rewrite flat_app, flat_one, app_nil_r.
      rewrite (mo_crc _ _ Hm), (mo_bs _ _ Hm), (mo_len _ _ Hm), (mo_pos _ _ Hm). split_and!; (done || lia). }
  pose proof (oa_p _ _ _ _ _ _ _ O) as (P1 & P2 & P3). pose proof (oa_pos _ _ _ _ _ _ _ O). pose proof (zlen_nonneg (chain crp es)).
  assert (0 <= je) as Hje0 by lia. split; [done |]. destruct (Hfill Hje0) as (j2 & F & Hat2 & E1 & E2 & E3 & E4 & E5 & E6 & E7 & E8 & Hinfo). rewrite Hc in F.
  exists j2. split; [done |]. intros m u Hh Ho. exists (secs ++ [(p, es ++ [e])]), p. split_and!.
  - apply journaled_open with (crp := crp); [by destruct es |]. rewrite <- Hc in *. eapply (append_open _ j1); try done; cbn [sealed in_sector_pos block_size with_crc32_last with_mem with_used_sectors mem].
    + lia.
    + by rewrite <- Hje.
    + by rewrite <- Hje, <- E6.
  - by rewrite flat_app, flat_one, app_assoc, <- HL, flat_app, flat_one.
  - rewrite Hb in P1, P2, P3. rewrite Hln in P3. eapply (prefill_grown j j1 j2 _ fits p je (size_of e)); (done || split_and!; (done || lia)).
Qed.
