(* ===== verification/ReplayDisk.v ===== *)
(** * The blockstore: batches of entries on the disk

    The log in memory and the writes that bring it to the disk, for the batches of
    stabilizations, rollbacks and syncs. *)

From S2P Require Import Prelude.
From S2P Require Import Crc32c.
From S2P Require Import Journal.
From S2P Require Import JournalCheck.
From S2P Require Import Blockstore.
From S2P Require Import BlockstoreOps.
From S2P Require Import DirtyDb.
From S2P Require Import JournalRing.
From S2P Require Import Replay.
From S2P Require Import ReplayLog.
From S2P Require Import ReplayApply.
From S2P Require Import ReplayRead.
From S2P Require Import ReplayWrite.

(** ** Writes to the disk *)

(** A write to the journal device takes its bytes from the memory of the journal. *)
Definition exec (j : journal_t) (D : list Z) (io : io_t) : list Z :=
  match io with
  | JournalSectorWrite _ addr off => poked D off (slice (mem j) addr (block_size j))
  | JournalDataWrite _ _ off n => poked D off (slice (mem j) off n)
  | _ => D
  end.
Definition disk_after (D : list Z) (j : journal_t) (r : list io_t) : list Z := fold_left (exec j) r D.

Definition io_fine (j : journal_t) (io : io_t) : Prop :=
  match io with
  | JournalSectorWrite _ addr off => addr = off /\ block_size j <= off /\ off + block_size j <= len j
  | JournalDataWrite _ _ off n => block_size j <= off /\ 0 <= n /\ off + n <= len j
  | _ => True
  end.

Definition sent (r : list io_t) (p : Z) : Prop := exists id, JournalSectorWrite id p p ∈ r.

(** Every block of the used part is on the disk, or on its way there, or it is the
    current sector with new entries. *)
Record on_disk (D : list Z) (j : journal_t) (r : list io_t) : Prop := {
  od_block : forall p, (block_size j | p) -> block_size j <= p -> p + block_size j <= len j -> pos_of j p < pos_of j (next_free j) ->
    slice D p (block_size j) = slice (mem j) p (block_size j) \/ sent r p \/
    (exists si, aget (sector_info j) (cur_sector j) = Ok si /\ dirty si = true /\ sector_offset si = p);
  od_sent : forall s si, aget (sector_info j) s = Ok si -> sector_submit_id si <> 0 -> 0 < flush_count si /\ sent r (sector_offset si);
  od_count : forall s si, aget (sector_info j) s = Ok si -> 0 <= flush_count si;
  od_ring : Forall (io_fine j) r;
  od_len : zlen D = zlen (mem j) }.

Lemma on_disk_grown D j j' p r : room_ok j -> grown j j' p -> on_disk D j r -> on_disk D j' r.
Proof.
  intros R [G1 G2 G3 G4 (P1 & P2 & P3) (O1 & _ & O3) Gu Gd Gc Gi] [Hb Hs Hf Hr Hl]. pose proof (ro_bs _ R). pose proof (ro_mem _ R). constructor; rewrite ?G2, ?G3.
  - intros x X1 X2 X3 X4. destruct (decide (x = p)) as [-> | Hne]; [by right; right |].
    destruct (Gu x X1 X2 X3 X4) as [| X5]; [done |]. destruct (Hb x X1 X2 X3 X5) as [E | [E | (si & E1 & E2 & E3)]]; [left | by right; left |].
    + rewrite E. symmetry. apply O3; try lia. pose proof (aligned_next _ x p ltac:(done) X1 P1). pose proof (aligned_next _ p x ltac:(done) P1 X1). lia.
    + specialize (Gc si E1 E2). congruence.
  - intros s si' H1 H2. destruct (Gi s si' H1) as (si & E1 & E2 & E3 & E4). rewrite E2 in H2. destruct (Hs s si E1 H2) as [H3 H4].
    rewrite E3. split; [done |]. destruct E4 as [-> | E4]; [done | lia].
  - intros s si' H1. destruct (Gi s si' H1) as (si & E1 & _ & -> & _). by eapply Hf.
  - eapply Forall_impl; [exact Hr |]. intros []; cbn; rewrite ?G2, ?G3; done.
  - lia.
Qed.

(** ** The disk after the writes *)

(** [D] has the bytes of the block [p] of the journal. *)
Definition same_block (D : list Z) (j : journal_t) (p : Z) : Prop := forall i, p <= Z.of_nat i < p + block_size j -> D !! i = mem j !! i.

Record exec_good (j : journal_t) (D D' : list Z) : Prop := {
  eg_len : zlen D' = zlen D;
  eg_bytes : is_bytes D -> is_bytes D';
  eg_first : forall i, Z.of_nat i < block_size j -> D' !! i = D !! i;
  eg_keep : forall p, same_block D j p -> same_block D' j p }.

Lemma exec_write j D off n : room_ok j -> zlen D = zlen (mem j) -> block_size j <= off -> 0 <= n -> off + n <= len j ->
  exec_good j D (poked D off (slice (mem j) off n)) /\
  forall i, off <= Z.of_nat i < off + n -> poked D off (slice (mem j) off n) !! i = mem j !! i.
Proof.
  intros R Hl H1 H2 H3. pose proof (ro_bs _ R). pose proof (ro_mem _ R).
  assert (zlen (slice (mem j) off n) = n) as Hz by (apply zlen_slice; lia).
  assert (forall i, poked D off (slice (mem j) off n) !! i = if decide (off <= Z.of_nat i < off + n) then mem j !! i else D !! i) as Hi.
  { intros i. rewrite lookup_poked, Hz by lia. case_decide; [| done]. rewrite lookup_slice, decide_True by lia. f_equal. lia. }
  split; [| intros i Hr; by rewrite Hi, decide_True].
  constructor.
  - apply zlen_poked; lia.
  - intros Hb. unfold poked. apply is_bytes_app; [by apply Forall_take |]. apply is_bytes_app; [by apply is_bytes_slice, R | by apply Forall_drop].
  - intros i Hlt. rewrite Hi, decide_False by lia. done.
  - intros p Hp i Hr. rewrite Hi. case_decide; [done | by apply Hp].
Qed.

Lemma exec_ok j D io : room_ok j -> io_fine j io -> zlen D = zlen (mem j) ->
  exec_good j D (exec j D io) /\ forall p, sent [io] p -> same_block (exec j D io) j p.
Proof.
  intros R Hio Hl. pose proof (ro_bs _ R).
  assert (exec_good j D D) as Hid by by constructor.
  destruct io as [id addr off | id o off n | | |]; cbn [exec]; try (split; [done |]; intros p (id' & Hp); by apply list_elem_of_singleton in Hp).
  - destruct Hio as (-> & H1 & H2). destruct (exec_write j D off (block_size j)) as [E1 E2]; [done | done | lia | lia | lia |]. split; [done |].
    intros p (id' & [= _ <- _]%list_elem_of_singleton). done.
  - destruct Hio as (H1 & H2 & H3). destruct (exec_write j D off n) as [E1 E2]; [done | done | lia | lia | lia |]. split; [done |].
    intros p (id' & Hp). by apply list_elem_of_singleton in Hp.
Qed.

Lemma disk_after_ok j r : forall D, room_ok j -> Forall (io_fine j) r -> zlen D = zlen (mem j) ->
  exec_good j D (disk_after D j r) /\ forall p, sent r p -> same_block (disk_after D j r) j p.
Proof.
  induction r as [| io r IH]; intros D R Hr Hl; [split; [by constructor |]; by intros p (id & H%elem_of_nil) |].
  apply Forall_cons in Hr as [Hio Hr]. destruct (exec_ok j D io R Hio Hl) as [E1 E2]. unfold disk_after. cbn [fold_left]. fold (disk_after (exec j D io) j r).
  destruct (IH (exec j D io) R Hr) as [F1 F2]; [rewrite (eg_len _ _ _ E1); done |]. split.
  - destruct E1, F1. constructor; [congruence | tauto | intros i Hi; rewrite eg_first1; [by apply eg_first0 | done] | intros p Hp; by apply eg_keep1, eg_keep0].
  - intros p (id & [H | H]%elem_of_cons); [| apply F2; by exists id]. apply (eg_keep _ _ _ F1), E2. exists id. rewrite H. by apply list_elem_of_singleton.
Qed.

(** Without new entries in the current sector, the used part is on the disk when the
    writes are. *)
Lemma on_disk_after D j r : room_ok j -> on_disk D j r -> (forall si, aget (sector_info j) (cur_sector j) = Ok si -> dirty si = false) ->
  forall p, (block_size j | p) -> block_size j <= p -> p + block_size j <= len j -> pos_of j p < pos_of j (next_free j) -> same_block (disk_after D j r) j p.
Proof.
  intros R [Hb Hs _ Hr Hl] Hd p P1 P2 P3 P4. pose proof (ro_bs _ R). pose proof (ro_mem _ R). destruct (disk_after_ok j r D R Hr Hl) as [E1 E2].
  destruct (Hb p P1 P2 P3 P4) as [E | [E | (si & F1 & F2 & _)]]; [| by apply E2 | rewrite (Hd si F1) in F2; done].
  apply (eg_keep _ _ _ E1). intros i. apply slice_lookup_eq; (done || lia).
Qed.

Section DiskLog.
Context (c : config_t) (j : journal_t) (D : list Z).
Hypothesis R : room_ok j.
Hypothesis D_len : zlen D = zlen (mem j).
Hypothesis D_blocks : forall p, (block_size j | p) -> block_size j <= p -> p + block_size j <= len j -> pos_of j p < pos_of j (next_free j) -> same_block D j p.

Lemma used_same a n : block_size j <= a -> 0 <= n -> a + n <= len j -> pos_of j a + n <= pos_of j (next_free j) -> slice D a n = slice (mem j) a n.
Proof.
  intros H1 H2 H3 H4. pose proof (ro_bs _ R). pose proof (ro_mem _ R). destruct (ro_us _ R) as [[u Hu] U2]. apply slice_lookup_eq; [lia | lia | lia | lia |].
  intros i Hi. destruct (ro_len _ R) as [l Hl]. set (k := Z.of_nat i / block_size j).
  assert (k * block_size j <= Z.of_nat i < (k + 1) * block_size j) as Hk.
  { unfold k. pose proof (Z.div_mod (Z.of_nat i) (block_size j) ltac:(lia)). pose proof (Z.mod_pos_bound (Z.of_nat i) (block_size j) ltac:(lia)). lia. }
  assert (1 <= k) by nia. assert (k + 1 <= l) by nia.
  apply (D_blocks (k * block_size j)); [by exists k | nia | nia | | lia]. eapply Z.le_lt_trans; [| eapply Z.lt_le_trans; [| exact H4]].
  - instantiate (1 := pos_of j (Z.of_nat i)). unfold pos_of, vpos. rewrite Hu in *.
    assert (u * block_size j <= Z.of_nat i -> u * block_size j <= k * block_size j) by (intros; apply Z.mul_le_mono_nonneg_r; [lia |]; assert (u < k + 1); [| lia]; apply (Z.mul_lt_mono_pos_r (block_size j)); lia).
    destruct (Z.leb_spec (u * block_size j) (k * block_size j)), (Z.leb_spec (u * block_size j) (Z.of_nat i)); lia.
  - unfold pos_of, vpos. destruct (Z.leb_spec (used_start j) a), (Z.leb_spec (used_start j) (Z.of_nat i)); lia.
Qed.

Lemma log_on_disk cr L cq : log_of c j (used_start j) cr L (next_free j) cq ->
  log c D (block_size j) (len j) (used_start j) false (used_start j) cr L (next_free j) cq.
Proof.
  intros H. refine (proj1 (log_same c (block_size j) (len j) (used_start j) (pos_of j (next_free j)) (mem j) D (ro_bs _ R) (ro_len _ R) (proj1 (ro_us _ R)) D_len _
    _ _ _ _ _ H (proj1 (ro_nf _ R)) (Z.le_refl _))). apply used_same.
Qed.
End DiskLog.

(** ** Submission of the current sector *)

Record prepared_at (s : Z) (b b' : blockstore_impl_t) (si si' : journal_sector_info_t) : Prop := {
  pa_db : dirty_db b' = dirty_db b;
  pa_cfg : cfg b' = cfg b;
  pa_si : aget (sector_info (journal b)) s = Ok si;
  pa_off : sector_offset si' = sector_offset si;
  pa_dirty : dirty si' = false;
  pa_journal : exists ss fo id, journal b' = with_sector_info (<[Z.to_nat s := si']> (sector_info (journal b)))
    (with_submitting_sectors ss (with_flushing_ops fo (with_submit_id id (journal b))));
  pa_ring : (sector_submit_id si = 0 /\ flush_count si' = flush_count si + 1 /\
      exists id addr, ring b' = ring b ++ [JournalSectorWrite id addr (sector_offset si)] /\ (inmemory (journal b) = true -> addr = sector_offset si)) \/
    (sector_submit_id si <> 0 /\ sector_submit_id si' = sector_submit_id si /\ flush_count si' = flush_count si /\ ring b' = ring b) }.

Lemma prepare_at s o b b' : prepare_journal_sector_write s o b = Ok b' -> exists si si', prepared_at s b b' si si'.
Proof.
  unfold prepare_journal_sector_write. intros (si & Hsi & (b1 & H1 & (si1 & Hsi1 & (infos & Hi & (op & Hop & H)%rbind_ok)%rbind_ok)%rbind_ok)%rbind_ok)%rbind_ok.
  pose proof (aget_lt _ _ _ Hsi) as Hlt. destruct (_ <=? _); [| done]. unfold upd_op in H. apply rbind_ok in H as (op' & _ & [= <-]).
  apply aset_ok in Hi as [_ ->]. exists si, (mk_sector (sector_offset si1) (flush_count si1) (written si1) false (sector_submit_id si1)). destruct (Z.eqb_spec (sector_submit_id si) 0) as [E | E].
  - destruct (get_sqe b) as [b0 |] eqn:Hq; [| done]. assert (b0 = with_sqes_left (sqes_left b - 1) b) as -> by (unfold get_sqe in Hq; destruct (0 <? sqes_left b); [by injection Hq | done]).
    destruct (u64 _ =? 0); [done |]. cbn [negb] in H1. rewrite aset_in_range in H1 by done. cbn [rbind] in H1. apply rbind_ok in H1 as (addr & Ha & [= <-]).
    cbn in Hsi1, Ha |- *. rewrite aget_insert, bool_decide_eq_true_2 in Hsi1 by done. injection Hsi1 as <-. constructor; try done; cbn.
    + eexists _, _, _. rewrite list_insert_insert_eq. reflexivity.
    + left. split_and!; [done | done |]. eexists _, _. split; [done |]. intros Him. unfold sector_base in Ha. cbn in Ha. rewrite Him, aget_insert, bool_decide_eq_true_2 in Ha by done.
      by injection Ha as <-.
  - injection H1 as <-. assert (si1 = si) as -> by congruence. constructor; try done; cbn.
    + exists (submitting_sectors (journal b)), (multimap_emplace (sector_submit_id si) (mk_pending 1 s o) (flushing_ops (journal b))), (submit_id (journal b)).
      by destruct (journal b).
    + by right.
Qed.

Lemma prepare_log c cr L D o b b' : prepare_journal_sector_write (cur_sector (journal b)) o b = Ok b' ->
  journaled c (journal b) cr L -> on_disk D (journal b) (ring b) -> (exists si, aget (sector_info (journal b)) (cur_sector (journal b)) = Ok si /\ dirty si = true) ->
  journaled c (journal b') cr L /\ on_disk D (journal b') (ring b') /\ dirty_db b' = dirty_db b /\ cfg b' = cfg b
  /\ (forall si, aget (sector_info (journal b')) (cur_sector (journal b')) = Ok si -> dirty si = false).
Proof.
  intros Hp HJ HD (si0 & Hsi0 & Hdirty). destruct (prepare_at _ _ _ _ Hp) as (si & si' & [P1 P2 P3 P4 P5 (ss & fo & id & Pj) Pr]).
  rewrite P3 in Hsi0. injection Hsi0 as <-. pose proof (aget_lt _ _ _ P3) as Hlt.
  destruct HJ as [L _ _ _ _ Hcl | secs p crp es Hes O]; [specialize (Hcl _ P3); congruence |].
  pose proof O as [R Hlog (Q1 & Q2 & Q3) Hnx Hat Hch Hpos Hfit Hz Hok Hd Hcrp Hcrc].
  assert (sector_offset si = p) as Hoff by (destruct Hat as (s2 & E2 & <-); congruence).
  assert (forall s x, aget (sector_info (journal b')) s = Ok x -> s = cur_sector (journal b) /\ x = si' \/ aget (sector_info (journal b)) s = Ok x) as Hget.
  { intros s x. rewrite Pj. cbn. rewrite aget_insert by done. case_bool_decide as E; [intros [= <-]; by left | by right]. }
  split; [| split; [| split_and!; [done | done |]]].
  - apply journaled_open with (crp := crp); [done |]. rewrite Pj. destruct R. constructor; try done.
    eexists. cbn. rewrite aget_insert, bool_decide_eq_true_2 by done. split; [done | congruence].
  - assert (exists wl, ring b' = ring b ++ wl /\ Forall (io_fine (journal b)) wl /\ sent (ring b') p) as (wl & Hring & Hwl & Hsent).
    { destruct Pr as [(E1 & _ & i & ad & E2 & E3) | (E1 & _ & _ & E2)].
      - exists [JournalSectorWrite i ad (sector_offset si)]. split; [done |]. rewrite E3, Hoff by apply R. split; [by repeat constructor |]. exists i.
        rewrite E2, E3, Hoff by apply R. apply elem_of_app. right. by apply list_elem_of_singleton.
      - exists []. rewrite app_nil_r. split; [done |]. split; [constructor |]. rewrite E2, <- Hoff. apply (od_sent _ _ _ HD _ _ P3 E1). }
    assert (forall x, sent (ring b) x -> sent (ring b') x) as Hkeep by (intros x (i & Hi); exists i; rewrite Hring; apply elem_of_app; by left).
    destruct HD as [Hb Hs Hf Hr Hl]. constructor.
    + rewrite Pj. cbn. intros x X1 X2 X3 X4. destruct (Hb x X1 X2 X3 X4) as [| [| (s0 & E1 & E2 & E3)]]; [by left | right; left; by apply Hkeep |].
      right. left. assert (x = p) as -> by congruence. done.
    + intros s x Hx Hne. destruct (Hget s x Hx) as [[-> ->] | Hx'].
      * rewrite P4, Hoff. split; [| done]. pose proof (Hf _ _ P3). destruct Pr as [(_ & -> & _) | (E1 & _ & -> & _)]; [lia |]. by apply (Hs _ _ P3).
      * destruct (Hs _ _ Hx' Hne). split; [done | by apply Hkeep].
    + intros s x Hx. destruct (Hget s x Hx) as [[-> ->] | Hx']; [| by eapply Hf]. pose proof (Hf _ _ P3). destruct Pr as [(_ & -> & _) | (_ & _ & -> & _)]; lia.
    + rewrite Hring, Pj. apply Forall_app. done.
    + rewrite Pj. done.
  - rewrite Pj. cbn. rewrite aget_insert, bool_decide_eq_true_2 by done. by intros x [= <-].
Qed.

(** ** Batches *)

Lemma filling_used u j0 j a d : filling j0 j a d -> filling (with_used_sectors u j0) (with_used_sectors u j) a d.
Proof. intros [[m ->] H O]. constructor; [by exists m | done | done]. Qed.

(** The entry of an item and what [put] does with it: it fills in the entry. *)
Record logged_items {A} (c : config_t) (size : A -> blockstore_impl_t -> res Z) (put : A -> blockstore_impl_t -> res blockstore_impl_t)
    (ent : A -> entry_t) (ready : list A -> blockstore_impl_t -> Prop) : Prop := {
  li_frame : forall l b b', ready l b -> dirty_db b' = dirty_db b -> cfg b' = cfg b -> ready l b';
  li_size : forall x l b, ready (x :: l) b -> size x b = Ok (size_of (ent x));
  li_fine : forall x l b, ready (x :: l) b -> entry_ok c (ent x) /\ not_small (ent x);
  li_put : forall x l b b', ready (x :: l) b -> put x b = Ok b' -> ready l b' /\ ring b' = ring b /\
    exists j je, prefill_single_journal_entry (journal b) (type_of (ent x)) (size_of (ent x)) = Ok (j, je) /\
    forall j2 prev, 0 <= je -> filling j2 j (je + 4) (header (type_of (ent x)) (size_of (ent x)) prev) ->
      exists m u, journal b' = sealed (ent x) prev m u j2 /\ holds m je (encode prev (ent x)) /\ only je (je + size_of (ent x)) (mem j2) m }.

Section Batch.
Context {A : Type} (c : config_t) (size : A -> blockstore_impl_t -> res Z) (put : A -> blockstore_impl_t -> res blockstore_impl_t).
Context (ent : A -> entry_t) (ready : list A -> blockstore_impl_t -> Prop).
Hypothesis items : logged_items c size put ent ready.

Definition has_new (j : journal_t) : Prop := exists si, aget (sector_info j) (cur_sector j) = Ok si /\ dirty si = true.

Lemma put_log x l b b' cr L D : ready (x :: l) b -> size_of (ent x) <= block_size (journal b) -> put x b = Ok b' ->
  journaled c (journal b) cr L -> on_disk D (journal b) (ring b) ->
  ready l b' /\ exists L' p, journaled c (journal b') cr L' /\ flat L' = flat L ++ [ent x] /\ on_disk D (journal b') (ring b') /\ grown (journal b) (journal b') p.
Proof.
  intros Hr Hsz Hp HJ HD. destruct (li_fine _ _ _ _ _ items _ _ _ Hr) as [Hf Hns]. destruct (li_put _ _ _ _ _ items _ _ _ _ Hr Hp) as (Hr' & Hring & j & je & Hpre & Hfill).
  split; [done |]. destruct (prefill_log _ _ _ _ _ _ _ HJ Hf Hns Hsz Hpre) as (Hje & j2 & F & Hlog). destruct (Hfill _ _ Hje F) as (m & u & -> & Hh & Ho).
  destruct (Hlog m u Hh Ho) as (L' & p & HJ' & HL & G). exists L', p. split_and!; [done | done | | done]. rewrite Hring.
  eapply on_disk_grown; [| exact G | done]. by apply journaled_log in HJ as [R _].
Qed.

Lemma batch_log o cr D l : forall s b b' s' L, write_batch size put o l s b = Ok (b', s') -> ready l b -> Forall (fun x => size_of (ent x) <= block_size (journal b)) l ->
  journaled c (journal b) cr L -> on_disk D (journal b) (ring b) -> (l = [] -> has_new (journal b)) ->
  exists L', journaled c (journal b') cr L' /\ flat L' = flat L ++ map ent l /\ on_disk D (journal b') (ring b')
    /\ (forall si, aget (sector_info (journal b')) (cur_sector (journal b')) = Ok si -> dirty si = false)
    /\ block_size (journal b') = block_size (journal b) /\ len (journal b') = len (journal b) /\ used_start (journal b') = used_start (journal b).
Proof.
  induction l as [| x l IH]; intros s b b' s' L; cbn [write_batch].
  - intros (b1 & Hp & [= <- _])%rbind_ok _ _ HJ HD Hn. destruct (prepare_log _ _ _ _ _ _ _ Hp HJ HD (Hn eq_refl)) as (H1 & H2 & _ & _ & H3).
    destruct (prepare_at _ _ _ _ Hp) as (si & si' & [_ _ _ _ _ (ss & fo & id & Pj) _]).
    exists L. rewrite app_nil_r. split_and!; try done; by rewrite Pj.
  - intros (sz & Hsz & (fits & Hfits & (si & Hsi & ([b1 s1] & Hb1 & (b2 & Hput & Hrest)%rbind_ok)%rbind_ok)%rbind_ok)%rbind_ok)%rbind_ok Hr [Hx Hl]%Forall_cons HJ HD _.
    assert (journaled c (journal b1) cr L /\ on_disk D (journal b1) (ring b1) /\ ready (x :: l) b1 /\ block_size (journal b1) = block_size (journal b)
      /\ len (journal b1) = len (journal b) /\ used_start (journal b1) = used_start (journal b)) as (HJ1 & HD1 & Hr1 & Eb & El & Eu).
    { destruct (negb fits && dirty si) eqn:E; [| by injection Hb1 as <- _]. apply andb_prop in E as [_ Hd]. apply rbind_ok in Hb1 as (b3 & Hp & [= <- _]).
      destruct (prepare_log _ _ _ _ _ _ _ Hp HJ HD (ex_intro _ si (conj Hsi Hd))) as (H1 & H2 & H3 & H4 & _).
      destruct (prepare_at _ _ _ _ Hp) as (si1 & si' & [_ _ _ _ _ (ss & fo & id & Pj) _]).
      split_and!; try done; [by eapply li_frame | by rewrite Pj ..]. }
    destruct (put_log x l b1 b2 cr L D Hr1 ltac:(by rewrite Eb) Hput HJ1 HD1) as (Hr2 & L2 & p & HJ2 & HL2 & HD2 & G). destruct G as [_ G2 G3 G4 _ _ _ (si2 & Hs2 & Hd2 & _) _ _].
    destruct (IH s1 b2 b' s' L2 Hrest Hr2) as (L' & H1 & H2 & H3 & H4 & H5 & H6 & H7); [by rewrite G2, Eb | done | done | intros _; by exists si2 |].
    exists L'. rewrite H2, HL2, <- app_assoc. split_and!; (done || congruence).
Qed.
End Batch.

(** ** Stabilizations, rollbacks and big writes *)

Definition vers_ready (l : list obj_ver_id) (b : blockstore_impl_t) : Prop := Forall ov_ok l.

Lemma sealed_same e prev m j : with_crc32_last (crc_of prev e) (with_mem m j) = sealed e prev m (used_sectors j) j.
Proof. by destruct j. Qed.

Lemma ov_logged c (mk : obj_ver_id -> entry_t) type : (forall v, type_of (mk v) = type /\ ov_of (mk v) = v /\ fields_of (mk v) = [] /\ fields_ok c (mk v) /\ not_small (mk v)) ->
  logged_items c (fun _ _ => Ok 40) (put_ov type 40) mk vers_ready.
Proof.
  intros Hmk. assert (forall v, size_of (mk v) = 40) as Hsz by (intros v; destruct (Hmk v) as (_ & _ & E & _); unfold size_of; by rewrite E).
  constructor.
  - done.
  - intros v l b _. by rewrite Hsz.
  - intros v l b [Hv _]%Forall_cons. destruct (Hmk v) as (_ & E & _ & Hf & Hns). split; [| done]. unfold entry_ok. rewrite E, Hsz. done.
  - intros v l b b' [Hv Hl]%Forall_cons H. unfold put_ov in H. apply rbind_ok in H as ([j je] & Hp & (j3 & H3 & (j4 & H4 & [= <-])%rbind_ok)%rbind_ok).
    split; [done |]. split; [done |]. exists j, je. destruct (Hmk v) as (Et & Eo & Ef & Hf & _). rewrite Et, Hsz. split; [done |]. intros j2 prev Hje F.
    eapply fill_ov in H3; [| exact F | apply zlen_header]. rewrite <- (Hsz v) in H4 at 1.
    destruct (seal_spec c j2 j3 je prev (mk v) j4 Hje Hf) as (m & -> & Hh & Ho); [| done |].
    + rewrite rest_header, Et, Eo, Ef, Hsz, app_nil_r. done.
    + exists m, (used_sectors j2). rewrite Hsz in Ho. split_and!; [apply sealed_same | done | done].
Qed.

Definition big_of (c : config_t) (v : obj_ver_id) (e : dirty_entry) : entry_t :=
  BigWrite (is_instant_bit (state e)) v (offset e) (entry_len e) (location e) (slice (dyn_data e) 0 (dirty_dyn_size c (offset e) (entry_len e))).

(** The big writes are in the database, and their entries are those of [ent]. *)
Definition bigs_ready (c : config_t) (ent : obj_ver_id -> entry_t) (l : list obj_ver_id) (b : blockstore_impl_t) : Prop :=
  cfg b = c /\ db_ok (dirty_db b) /\ forall v, v ∈ l -> exists e, (v, e) ∈ dirty_db b /\ ent v = big_of c v e /\ entry_ok c (ent v)
    /\ 0 <= dirty_dyn_size c (offset e) (entry_len e) <= zlen (dyn_data e).

Lemma big_logged c ent : logged_items c big_entry_size put_big ent (bigs_ready c ent).
Proof.
  assert (forall v e, 0 <= dirty_dyn_size c (offset e) (entry_len e) <= zlen (dyn_data e) -> size_of (big_of c v e) = sizeof_big_write + dirty_dyn_size c (offset e) (entry_len e)) as Hsz.
  { intros v e Hd. unfold size_of, big_of. cbn [fields_of]. rewrite !zlen_app, !zlen_le_bytes, zlen_slice by lia. unfold sizeof_big_write. lia. }
  constructor.
  - intros l b b' (H1 & H2 & H3) E1 E2. unfold bigs_ready. by rewrite E1, E2.
  - intros v l b (<- & H2 & H3). destruct (H3 v (list_elem_of_here _ _)) as (e & He & Hent & _ & Hd). unfold big_entry_size.
    rewrite (proj2 (db_at_elem _ _ _ H2) He). cbn [rbind]. by rewrite Hent, Hsz.
  - intros v l b (H1 & H2 & H3). destruct (H3 v (list_elem_of_here _ _)) as (e & He & Hent & Hf & Hd). split; [done | by rewrite Hent].
  - intros v l b b' (H1 & H2 & H3) H. destruct (H3 v (list_elem_of_here _ _)) as (e & He & Hent & Hf & Hd).
    unfold put_big in H. rewrite (proj2 (db_at_elem _ _ _ H2) He) in H. cbn [rbind] in H. cbn zeta in H. rewrite H1, <- (Hsz v e Hd) in H.
    apply rbind_ok in H as ([j je] & Hp & (si & Hsi & H)%rbind_ok). destruct (in_used_part j (sector_offset si)); [| done].
    rewrite load_slice in H by lia. cbn [rbind] in H. apply rbind_ok in H as (j3 & Hst & (j4 & Hse & [= <-])%rbind_ok).
    split; [| split; [done |]].
    + destruct (db_set_ok (dirty_db b) v e (with_journal_sector (sector_offset si) e) H2 He) as [Hd' Hel]. split; [done |]. split; [done |]. cbn.
      intros v' Hv'. destruct (H3 v' (list_elem_of_further _ _ _ Hv')) as (e' & He' & Hrest'). destruct (decide (v' = v)) as [-> | Hne].
      * exists (with_journal_sector (sector_offset si) e). split; [apply Hel; by left |]. rewrite (db_unique _ _ _ _ H2 He' He) in Hrest'. done.
      * exists e'. split; [apply Hel; by right | done].
    + exists j, je. rewrite Hent. split; [exact Hp |]. intros j2 prev Hje F. set (u := used_sectors (use_sector (sector_offset si) j)).
      rewrite Hent in Hf. destruct Hf as (_ & Hf & _). pose proof (fields_bytes _ _ Hf) as Hb.
      apply (filling_used u) in F. eapply fill_big in Hst; [| exact F | apply zlen_header | cbn [fields_of big_of] in Hf; apply Hf].
      destruct (seal_spec c (with_used_sectors u j2) j3 je prev (big_of c v e) j4 Hje Hf) as (m & -> & Hh & Ho); [by rewrite rest_header | done |].
      exists m, u. done.
Qed.
