(* ===== verification/ReplayRestart.v ===== *)
(** * The blockstore: a start after a batch

    What stabilizations, rollbacks and syncs have written to the journal is what the
    next start reads from it. *)

From S2P Require Import Prelude.
From S2P Require Import Crc32c.
From S2P Require Import Allocator.
From S2P Require Import Journal.
From S2P Require Import JournalCheck.
From S2P Require Import Blockstore.
From S2P Require Import BlockstoreOps.
From S2P Require Import DirtyDb.
From S2P Require Import JournalRing.
From S2P Require Import JournalBatch.
From S2P Require Import JournalDemo.
From S2P Require Import JournalMain.
From S2P Require Import Replay.
From S2P Require Import ReplayLog.
From S2P Require Import ReplayApply.
From S2P Require Import ReplayRead.
From S2P Require Import ReplayMain.
From S2P Require Import ReplayWrite.
From S2P Require Import ReplayDisk.

(** ** The image *)

(** The settings, and the superblock on disk. *)
Record disk_ok (b : blockstore_impl_t) (D : list Z) : Prop := {
  dk_cfg : config_ok (cfg b);
  dk_csum : csum_config_ok (cfg b);
  dk_block : 40 <= block_size (journal b) < 2 ^ 32;
  dk_buffer : (block_size (journal b) | JOURNAL_BUFFER_SIZE);
  dk_bytes : is_bytes D;
  dk_start : holds D 0 (start_entry (cfg b) (used_start (journal b))) }.

(** A blockstore that is started on the disk of [b]. *)
Record starts_on (b b0 : blockstore_impl_t) : Prop := {
  so_cfg : cfg b0 = cfg b;
  so_block : block_size (journal b0) = block_size (journal b);
  so_len : len (journal b0) = len (journal b);
  so_mem : inmemory (journal b0) = true -> len (journal b0) <= zlen (mem (journal b0)) }.

Definition final_disk (D : list Z) (b : blockstore_impl_t) : list Z := disk_after D (journal b) (ring b).

(** A start on the disk replays exactly the log [L]. *)
Definition restarts_with (D : list Z) (b : blockstore_impl_t) (L : list (Z * list entry_t)) : Prop :=
  Forall (roomy (block_size (journal b))) L ->
  forall b0 b1 l, starts_on b b0 -> apply_log L (started_at (used_start (journal b)) b0, []) = Ok (b1, l) -> overlaps b1 l = false ->
  log_ends (final_disk D b) (block_size (journal b)) (next_free (journal b)) (crc32_last (journal b)) ->
  exists m, init_journal (final_disk D b) b0 = Ok (restarted m (next_free (journal b)) (crc32_last (journal b)) b1, None).

Lemma holds_same_start D D' d : (forall i, Z.of_nat i < zlen d -> D' !! i = D !! i) -> zlen D' = zlen D -> holds D 0 d -> holds D' 0 d.
Proof.
  intros Hs Hl (_ & H2 & H3). pose proof (zlen_nonneg d). split; [done |]. split; [lia |]. rewrite <- H3 at 2. apply slice_lookup_eq; [lia | lia | lia | lia |].
  intros i Hi. apply Hs. lia.
Qed.

Lemma journaled_restarts D b cr L : disk_ok b D -> L <> [] -> journaled (cfg b) (journal b) cr L -> on_disk D (journal b) (ring b) ->
  (forall si, aget (sector_info (journal b)) (cur_sector (journal b)) = Ok si -> dirty si = false) -> restarts_with D b L.
Proof.
  intros [K1 K2 K3 K4 K5 K6] HL HJ HD Hcl Hroomy b0 b1 l [S1 S2 S3 S4] Ha Ho He. destruct (journaled_log _ _ _ _ HJ) as (R & Hlog & _ & _).
  destruct (disk_after_ok (journal b) (ring b) D R (od_ring _ _ _ HD) (od_len _ _ _ HD)) as [[E1 E2 E3 _] _]. fold (final_disk D b) in E1, E2, E3.
  pose proof (od_len _ _ _ HD) as HDl. pose proof (ro_mem _ R). destruct (ro_nf _ R) as [N1 N2]. destruct (ro_us _ R) as [U1 U2].
  pose proof (aligned_next _ _ _ (ro_bs _ R) N1 (ro_len _ R) (proj2 N2)).
  apply (log_on_disk (cfg b) (journal b) (final_disk D b) R) in Hlog; [| lia | by apply on_disk_after]. apply log_strict in Hlog; [| done].
  rewrite <- S2, <- S3, <- S1 in Hlog. eapply init_journal_ok; try done; rewrite ?S2, ?S3; try done; try lia.
  constructor; rewrite ?S1, ?S2, ?S3; try done; try lia.
  - by apply E2.
  - apply R.
  - apply R.
  - by rewrite S3 in S4.
  - apply (holds_same_start D); [| lia | done]. intros i Hi. apply E3. destruct K6 as (_ & K6 & _).
    rewrite zlen_start_entry in Hi. lia.
Qed.

(** ** Stabilizations and rollbacks *)

Lemma write_versions_inv type o b b' op : ops b !! o = Some op -> write_versions type 40 o b = Ok (b', 1) ->
  exists b1 s, write_batch (fun _ _ => Ok 40) (put_ov type 40) o (op_vers op) 0 b = Ok (b1, s) /\ journal b' = journal b1 /\ ring b' = ring b1 /\ cfg b' = cfg b1.
Proof.
  intros Hop. unfold write_versions, get_op, space_available. rewrite Hop. cbn [rbind].
  destruct (check_available _ _ _ _ _) as [[ck w] |]; [| done]. cbn [rbind]. destruct (w =? 0); cbn [rbind negb].
  2: { destruct (w =? WAIT_JOURNAL); (destruct (upd_op _ _ _); [| done]); done. }
  destruct (sqes_left b <? sectors_to_write ck); [unfold wait_sqe; destruct (upd_op _ _ _); done |].
  destruct (write_batch _ _ _ _ _ _) as [[b1 s] |]; [| done]. cbn [rbind]. destruct (s =? sectors_to_write ck); [| done].
  unfold upd_op. intros (b2 & (op2 & _ & [= <-])%rbind_ok & [= <-])%rbind_ok. by exists b1, s.
Qed.

(** The kinds of entries of a stabilization and of a rollback. *)
Definition version_entry (rollback : bool) : obj_ver_id -> entry_t := if rollback then Rollback else Stable.
Definition version_type (rollback : bool) : Z := if rollback then JE_ROLLBACK else JE_STABLE.

Lemma write_batch_cfg {A} size (put : A -> blockstore_impl_t -> res blockstore_impl_t) o l : (forall x b b', put x b = Ok b' -> cfg b' = cfg b) ->
  forall s b b' s', write_batch size put o l s b = Ok (b', s') -> cfg b' = cfg b.
Proof.
  intros Hput. assert (forall s o b b', prepare_journal_sector_write s o b = Ok b' -> cfg b' = cfg b) as Hprep.
  { intros s o' b b' H. destruct (prepare_at _ _ _ _ H) as (si & si' & []). done. }
  induction l as [| x l IH]; intros s b b' s'; cbn [write_batch].
  - intros (b1 & Hp & [= <- _])%rbind_ok. by eapply Hprep.
  - intros (sz & _ & (fits & _ & (si & _ & ([b1 s1] & Hb1 & (b2 & Hp & Hrest)%rbind_ok)%rbind_ok)%rbind_ok)%rbind_ok)%rbind_ok.
    rewrite (IH _ _ _ _ Hrest), (Hput _ _ _ Hp). destruct (negb fits && dirty si); [| by injection Hb1 as <- _].
    apply rbind_ok in Hb1 as (b3 & Hp3 & [= <- _]). by eapply Hprep.
Qed.

(** C4: After a successful space check a stabilization or a rollback writes its entries
    so that they survive a restart: when the writes it has queued have reached the
    disk, a start on that disk replays the entries that were in the journal before and
    then those of the operation, in this order and nothing else, and the journal goes
    on at the same place with the same checksum. *)
Theorem versions_survive rollback o b op ck D cr L :
  can_write b o op -> op_vers op <> [] -> zlen (op_vers op) < 2 ^ 31 -> Forall ov_ok (op_vers op) ->
  check_available (journal b) (journal_check (journal b)) (zlen (op_vers op)) 40 0 = Ok (ck, 0) ->
  sectors_to_write ck <= sector_count (journal b) - 2 -> sectors_to_write ck <= sqes_left b ->
  disk_ok b D -> journaled (cfg b) (journal b) cr L -> on_disk D (journal b) (ring b) ->
  exists b' L', write_versions (version_type rollback) 40 o b = Ok (b', 1)
    /\ flat L' = flat L ++ map (version_entry rollback) (op_vers op) /\ restarts_with D b' L'
    /\ journaled (cfg b') (journal b') cr L' /\ on_disk D (journal b') (ring b').
Proof.
  intros Hcw Hne Hlen Hov Hc Hle Hsq Hdk HJ HD. pose proof (dk_block _ _ Hdk) as Hbs.
  destruct (versions_written (version_type rollback) o b op ck Hcw ltac:(lia) Hne Hlen Hc Hle Hsq) as (b' & Hw & _).
  destruct (write_versions_inv _ _ _ _ _ (cw_op _ _ _ Hcw) Hw) as (b1 & s & Hb & Ej & Er & Ec).
  assert (logged_items (cfg b) (fun _ _ => Ok 40) (put_ov (version_type rollback) 40) (version_entry rollback) vers_ready) as Hit
    by (apply ov_logged; by destruct rollback).
  destruct (batch_log _ _ _ _ _ Hit o cr D _ _ _ _ _ L Hb Hov) as (L' & H1 & H2 & H3 & H4 & H5 & H6 & H7); [| done | done | done |].
  { apply Forall_forall. intros v _. destruct rollback; change (40 <= block_size (journal b)); lia. }
  assert (cfg b1 = cfg b) as Ecfg.
  { eapply write_batch_cfg; [| exact Hb]. intros x b2 b3. unfold put_ov. by intros ([? ?] & _ & (? & _ & (? & _ & [= <-])%rbind_ok)%rbind_ok)%rbind_ok. }
  exists b', L'. rewrite Ej, Er, Ec, Ecfg. split_and!; try done. apply (journaled_restarts _ _ cr); rewrite ?Ej, ?Er, ?Ec, ?Ecfg; try done.
  - destruct Hdk. constructor; rewrite ?Ej, ?Ec, ?Ecfg, ?H5, ?H7; done.
  - intros ->. cbn in H2. destruct (op_vers op); [done |]. symmetry in H2. by apply app_eq_nil in H2 as [_ ?].
Qed.

(** ** Syncs *)

Lemma sync_write_inv o b b' op : ops b !! o = Some op -> sync_write_entries o b = Ok (b', 1) -> exists b0 c,
  sync_check o (sync_big_writes op) b = Ok (b0, c, true) /\
  exists b1 s, write_batch big_entry_size put_big o (sync_big_writes op) 0 b0 = Ok (b1, s) /\ journal b' = journal b1 /\ ring b' = ring b1 /\ cfg b' = cfg b1.
Proof.
  intros Hop. unfold sync_write_entries, get_op. rewrite Hop. cbn [rbind]. intros ([[b0 c] ok] & Hc & H)%rbind_ok. destruct ok; [| done]. cbn [negb] in H.
  exists b0, c. split; [done |]. destruct (sqes_left b0 <? sectors_to_write c); [unfold wait_sqe in H; destruct (upd_op _ _ _); done |].
  apply rbind_ok in H as ([b1 s] & Hb & H). destruct (s =? sectors_to_write c); [| done].
  unfold upd_op in H. apply rbind_ok in H as (b2 & (op2 & _ & [= <-])%rbind_ok & [= <-]). by exists b1, s.
Qed.

(** The big writes are in the database, with fields in the ranges of their types and
    entries that fit in a block. *)
Definition bigs_fine (b : blockstore_impl_t) (l : list obj_ver_id) : Prop :=
  db_ok (dirty_db b) /\ forall v, v ∈ l -> exists e, (v, e) ∈ dirty_db b /\ entry_ok (cfg b) (big_of (cfg b) v e)
    /\ 0 <= dirty_dyn_size (cfg b) (offset e) (entry_len e) <= zlen (dyn_data e)
    /\ sizeof_big_write + dirty_dyn_size (cfg b) (offset e) (entry_len e) <= block_size (journal b).

Definition sync_entry (b : blockstore_impl_t) (v : obj_ver_id) : entry_t :=
  match db_at (dirty_db b) v with Ok e => big_of (cfg b) v e | Err _ => Stable v end.

Lemma bigs_fine_ready b l : bigs_fine b l -> big_in_db b l /\ bigs_ready (cfg b) (sync_entry b) l b /\ Forall (fun v => size_of (sync_entry b v) <= block_size (journal b)) l.
Proof.
  intros [Hd Hl]. assert (forall v e, (v, e) ∈ dirty_db b -> sync_entry b v = big_of (cfg b) v e) as Hs.
  { intros v e He. unfold sync_entry. by rewrite (proj2 (db_at_elem _ _ _ Hd) He). }
  split; [| split]; [split; [done |] | split; [done |]; split; [done |] | apply Forall_forall]; intros v Hv; destruct (Hl v Hv) as (e & He & H1 & H2 & H3).
  - by exists e.
  - exists e. rewrite (Hs v e He). done.
  - rewrite (Hs v e He). unfold size_of, big_of. cbn [fields_of]. rewrite !zlen_app, !zlen_le_bytes, zlen_slice by lia. unfold sizeof_big_write in *. lia.
Qed.

(** C15: The same for the big writes of a sync: a start on the disk replays the entries
    that were in the journal before and then an entry for each big write of the sync,
    with the location, the range and the bitmap and checksums that the database of
    unstable writes had for it. *)
Theorem sync_survives o b op b0 ck D cr L :
  can_write b o op -> sync_big_writes op <> [] -> zlen (sync_big_writes op) < 2 ^ 31 -> bigs_fine b (sync_big_writes op) ->
  sync_check o (sync_big_writes op) b = Ok (b0, ck, true) ->
  sectors_to_write ck <= sector_count (journal b) - 2 -> sectors_to_write ck <= sqes_left b ->
  disk_ok b D -> journaled (cfg b) (journal b) cr L -> on_disk D (journal b) (ring b) ->
  exists b' L', sync_write_entries o b = Ok (b', 1)
    /\ flat L' = flat L ++ map (sync_entry b) (sync_big_writes op) /\ restarts_with D b' L'
    /\ journaled (cfg b') (journal b') cr L' /\ on_disk D (journal b') (ring b').
Proof.
  intros Hcw Hne Hlen Hfine Hc Hle Hsq Hdk HJ HD. pose proof (dk_cfg _ _ Hdk) as [_ Hcb]. destruct (bigs_fine_ready _ _ Hfine) as (Hdb & Hrd & Hsz).
  destruct (sync_written o b op b0 ck Hcw Hne Hlen Hdb ltac:(lia) Hc Hle Hsq) as (b' & Hw & _).
  destruct (sync_write_inv _ _ _ _ (cw_op _ _ _ Hcw) Hw) as (b2 & ck2 & Hc2 & b1 & s & Hb & Ej & Er & Ec).
  assert (b2 = b) as ->.
  { rewrite Hc in Hc2. injection Hc2 as <- <-. destruct (sync_big_writes op) as [| v l]; [done |].
    by destruct (sync_check_ok o v l b b0 ck (r_geo _ (cw_ring _ _ _ Hcw)) Hdb Hlen ltac:(lia) Hc Hle) as [-> _]. }
  destruct (batch_log _ _ _ _ _ (big_logged (cfg b) (sync_entry b)) o cr D _ _ _ _ _ L Hb Hrd Hsz HJ HD) as (L' & H1 & H2 & H3 & H4 & H5 & H6 & H7); [done |].
  assert (cfg b1 = cfg b) as Ecfg.
  { eapply write_batch_cfg; [| exact Hb]. intros x b2 b3 Hp. unfold put_big in Hp. apply rbind_ok in Hp as (e & _ & ([j je] & _ & (si & _ & Hp)%rbind_ok)%rbind_ok).
    destruct (in_used_part _ _); [| done]. by apply rbind_ok in Hp as (? & _ & (? & _ & (? & _ & [= <-])%rbind_ok)%rbind_ok). }
  exists b', L'. rewrite Ej, Er, Ec, Ecfg. split_and!; try done. apply (journaled_restarts _ _ cr); rewrite ?Ej, ?Er, ?Ec, ?Ecfg; try done.
  - destruct Hdk. constructor; rewrite ?Ej, ?Ec, ?Ecfg, ?H5, ?H7; done.
  - intros ->. cbn in H2. destruct (sync_big_writes op); [done |]. symmetry in H2. by apply app_eq_nil in H2 as [_ ?].
Qed.

(** ** Examples *)

(** An empty journal that is kept in memory, with its superblock. *)
Definition demo_image : list Z := start_entry (demo_config 0) 128 ++ replicate 2008 0.
Definition mem_journal : journal_t :=
  mk_journal true 128 2048 128 128 128 0 demo_image (replicate 7 (mk_sector 0 0 false false 0)) 7 false 0 128 [] [] 0 ∅.

Lemma mem_ring : ring_ok mem_journal.
Proof.
  constructor; cbn [mem_journal inmemory block_size len next_free used_start mem sector_info sector_count cur_sector in_sector_pos submit_id used_sectors].
  - constructor; cbn; try lia; try (split; [apply Z.divide_refl | lia]); [by exists 16 | done].
  - vm_compute. reflexivity.
  - intros s si (_ & H)%aget_ok. apply (lookup_replicate 7) in H as [-> _]. by constructor.
  - intros si (_ & H)%aget_ok. apply (lookup_replicate 7) in H as [-> _]. cbn. intros [H | H]; [lia | done].
  - intros k q H. by rewrite lookup_empty in H.
  - done.
Qed.

Lemma mem_room : room_ok mem_journal.
Proof.
  constructor; try done; try (by split; [apply Z.divide_refl |]).
  - by exists 16.
  - apply Forall_forall. intros x Hx. assert (forallb (fun x => (0 <=? x) && (x <? 256)) (mem mem_journal) = true) as H by (vm_compute; reflexivity).
    rewrite forallb_forall in H. apply list_elem_of_In, H in Hx. lia.
Qed.

Lemma mem_journaled c : journaled c mem_journal 0 [].
Proof.
  apply journaled_closed; [apply mem_room | constructor | done | done |].
  intros si (_ & H)%aget_ok. apply (lookup_replicate 7) in H as [-> _]. done.
Qed.

Lemma mem_on_disk : on_disk demo_image mem_journal [].
Proof.
  constructor.
  - intros p _ H1 H2 H3. change (pos_of mem_journal (next_free mem_journal)) with 0 in H3. unfold pos_of, vpos in H3. change (used_start mem_journal) with 128 in H3. cbn in *.
    destruct (Z.leb_spec 128 p); lia.
  - intros s si (_ & H)%aget_ok. apply (lookup_replicate 7) in H as [-> _]. done.
  - intros s si (_ & H)%aget_ok. apply (lookup_replicate 7) in H as [-> _]. done.
  - constructor.
  - done.
Qed.

Definition mem_store (op : op_t) : blockstore_impl_t := demo_store 0 mem_journal op.

Lemma mem_can_write op : min_flushed_journal_sector op = 0 -> can_write (mem_store op) 0 op.
Proof. intros H. constructor; [apply mem_ring | done | cbn; lia | done | by left]. Qed.

Lemma mem_disk op : disk_ok (mem_store op) demo_image.
Proof.
  constructor; [by split; [left |] | done | done | by exists 32768 | apply (ro_bytes _ mem_room) |].
  split; [done |]. split; [by vm_compute |]. vm_compute. reflexivity.
Qed.

(** Four stabilizations take two sectors. *)
Lemma versions_survive_witness : exists b' L', write_versions JE_STABLE 40 0 (mem_store demo_stable) = Ok (b', 1)
  /\ flat L' = map Stable (op_vers demo_stable) /\ restarts_with demo_image b' L'
  /\ journaled (cfg b') (journal b') 0 L' /\ on_disk demo_image (journal b') (ring b').
Proof.
  apply (versions_survive false 0 (mem_store demo_stable) demo_stable (mk_check 384 2 40 2 1 true) demo_image 0 []); try done.
  - by apply mem_can_write.
  - repeat constructor; vm_compute; done.
  - apply mem_disk.
  - apply mem_journaled.
  - apply mem_on_disk.
Defined.

(** Four big writes that wait for a sync, and a blockstore that starts after it. *)
Definition big_dirty (st stripe sector : Z) : obj_ver_id * dirty_entry :=
  (demo_version stripe, mk_dirty st (131072 * stripe) 0 131072 sector [15; 0; 0; 0]).
Definition four_bigs : op_t := demo_op [] (map demo_version [0; 1; 2; 3]).
Definition big_store : blockstore_impl_t :=
  with_dirty_db (map (fun s => big_dirty (Z.lor BS_ST_BIG_WRITE BS_ST_WRITTEN) s 0) [0; 1; 2; 3]) (mem_store four_bigs).
Definition fresh_store : blockstore_impl_t :=
  with_data_alloc (match allocator_new 16 with Ok a => a | Err _ => mk_allocator 0 0 0 0 [] end) (mem_store (demo_op [] [])).

Lemma big_store_fine : bigs_fine big_store (sync_big_writes four_bigs).
Proof.
  split.
  - unfold db_ok. cbn. repeat (constructor; [| repeat constructor]). constructor.
  - intros v Hv. cbn in Hv. apply (list_elem_of_fmap_1 demo_version [0; 1; 2; 3]) in Hv as (s & -> & Hs).
    exists (snd (big_dirty (Z.lor BS_ST_BIG_WRITE BS_ST_WRITTEN) s 0)).
    split; [by apply (list_elem_of_fmap_2 (fun s => big_dirty (Z.lor BS_ST_BIG_WRITE BS_ST_WRITTEN) s 0)) in Hs |].
    assert (0 <= s <= 3) as Hr by (rewrite !elem_of_cons, elem_of_nil in Hs; lia).
    split; [| by split]. split; [unfold ov_ok; cbn -[Z.pow]; lia |]. split; [| done]. cbn -[Z.pow]. split_and!; try lia; [done |]. by repeat constructor.
Qed.

(** The disk after the sync, and the database that the next start finds there: the four
    big writes, synced and not yet stable. *)
Lemma sync_survives_witness :
  (exists b' L', sync_write_entries 0 big_store = Ok (b', 1) /\ flat L' = map (sync_entry big_store) (sync_big_writes four_bigs)
    /\ restarts_with demo_image b' L' /\ journaled (cfg b') (journal b') 0 L' /\ on_disk demo_image (journal b') (ring b'))
  /\ exists b' b2, sync_write_entries 0 big_store = Ok (b', 1) /\ init_journal (final_disk demo_image b') fresh_store = Ok (b2, None)
    /\ dirty_db b2 = map (fun p => big_dirty (Z.lor BS_ST_BIG_WRITE BS_ST_SYNCED) (fst p) (snd p)) [(0, 128); (1, 128); (2, 256); (3, 256)]
    /\ next_free (journal b2) = next_free (journal b') /\ crc32_last (journal b2) = crc32_last (journal b').
Proof.
  split.
  - apply (sync_survives 0 big_store four_bigs big_store (mk_check 384 2 120 2 1 true) demo_image 0 []); try done.
    + destruct (mem_can_write four_bigs eq_refl). by constructor.
    + apply big_store_fine.
    + destruct (mem_disk four_bigs). by constructor.
    + apply mem_journaled.
    + apply mem_on_disk.
  - eexists _, _. split; [vm_compute; reflexivity |]. split; [vm_compute; reflexivity |]. split_and!; vm_compute; reflexivity.
Defined.

(** ** Any log *)

(** C3: When the journal on disk has a valid superblock and holds a log - sectors of
    entries whose checksums are chained, each followed by the data of its small writes,
    around the end of the ring or not - the start reads it in whatever parts, waits for
    the data that a later read brings, applies exactly the entries of the log in order,
    and continues the journal right behind it with the checksum of the last entry. *)
Theorem start_replays_log b D us cr secs q cq b1 l :
  image_ok b D us -> log (cfg b) D (block_size (journal b)) (len (journal b)) us true us cr secs q cq -> secs <> [] ->
  block_size (journal b) <= q -> q + block_size (journal b) <= len (journal b) -> (block_size (journal b) | q) -> log_ends D (block_size (journal b)) q cq ->
  apply_log secs (started_at us b, []) = Ok (b1, l) -> overlaps b1 l = false ->
  exists m, init_journal D b = Ok (restarted m q cq b1, None).
Proof. apply init_journal_ok. Qed.

(** A small write with its data in the next block, and a stabilization. *)
Definition small_data : list Z := replicate 128 7.
Definition small_entries : list entry_t := [SmallWrite false (demo_version 2) 4096 128 256 (crc_ref 0 small_data) [2; 0; 0; 0]; Stable (demo_version 2)].
Definition small_disk : list Z :=
  let c := chain 0 small_entries in start_entry (demo_config 0) 128 ++ replicate 88 0 ++ c ++ replicate (128 - length c) 0 ++ small_data ++ replicate 1664 0.

Lemma small_image : image_ok fresh_store small_disk 128.
Proof.
  pose proof (mem_disk (demo_op [] [])) as [K1 K2 K3 K4 _ _]. constructor; try done.
  - apply Forall_forall. intros x Hx. assert (forallb (fun x => (0 <=? x) && (x <? 256)) small_disk = true) as H by (vm_compute; reflexivity).
    rewrite forallb_forall in H. apply list_elem_of_In, H in Hx. lia.
  - by exists 16.
Qed.

Lemma small_log : log (demo_config 0) small_disk 128 2048 128 true 128 0 [(128, small_entries)] 384 (chain_crc 0 small_entries).
Proof.
  econstructor; [done | | constructor]. constructor; try done.
  - right. left. split; [by vm_compute |]. by vm_compute.
  - apply Forall_cons. split; [| apply Forall_cons; split; [| by apply Forall_nil]]; (split; [unfold ov_ok; cbn -[Z.pow]; lia |]); (split; [| by vm_compute]); [| done].
    cbn [fields_ok]. split_and!; try lia; [by vm_compute | by vm_compute | by vm_compute |]. by repeat constructor.
  - apply data_small; [by vm_compute | by vm_compute | lia | lia | lia | lia | by vm_compute | by vm_compute |]. apply data_other; [done |]. constructor.
Qed.

Lemma start_replays_log_witness : exists b1 l m, apply_log [(128, small_entries)] (started_at 128 fresh_store, []) = Ok (b1, l)
  /\ init_journal small_disk fresh_store = Ok (restarted m 384 (chain_crc 0 small_entries) b1, None).
Proof.
  assert (exists b1 l, apply_log [(128, small_entries)] (started_at 128 fresh_store, []) = Ok (b1, l) /\ overlaps b1 l = false) as (b1 & l & E & Ho)
    by (eexists _, _; split; vm_compute; reflexivity).
  destruct (start_replays_log fresh_store small_disk 128 0 [(128, small_entries)] 384 (chain_crc 0 small_entries) b1 l small_image small_log
    ltac:(discriminate) ltac:(done) ltac:(done) ltac:(by exists 3) ltac:(left; by vm_compute) E Ho) as (m & Hm).
  exists b1, l, m. split; [exact E | exact Hm].
Defined.
