(* ===== verification/ReplayFaults.v ===== *)
(** * The blockstore: starts that go wrong

    A block behind the log that stops every start, deletions that are replayed with a
    wrong count of the used blocks, and synced writes that the next start does not
    find. *)

From S2P Require Import Prelude.
From S2P Require Import Crc32c.
From S2P Require Import Allocator.
From S2P Require Import Journal.
From S2P Require Import JournalCheck.
From S2P Require Import Blockstore.
From S2P Require Import BlockstoreOps.
From S2P Require Import JournalRing.
From S2P Require Import JournalDemo.
From S2P Require Import Replay.
From S2P Require Import ReplayLog.
From S2P Require Import ReplayApply.
From S2P Require Import ReplayRead.
From S2P Require Import ReplayMain.
From S2P Require Import ReplayWrite.
From S2P Require Import ReplayDisk.
From S2P Require Import ReplayRestart.

(** ** A block with a short entry *)

Lemma short_entry_faults i buf je n size : 0 <= je -> je + 12 <= zlen buf -> zlen buf < 2 ^ 31 -> le_word (slice buf (je + 4) 2) = JOURNAL_MAGIC ->
  le_word (slice buf (je + 8) 4) = size -> 0 <= size < 4 -> je + 4 <= n -> entry_valid i buf je n = Err OutOfBounds.
Proof.
  intros H1 H2 H3 Hm Hs Hr Hn. unfold entry_valid, ld. rewrite !load_slice by lia. cbn [rbind]. rewrite Hm, Z.eqb_refl. cbn [negb]. rewrite Hs.
  rewrite (proj2 (Z.ltb_ge _ _)) by lia. replace (u32 (size - 4)) with (2 ^ 32 + size - 4).
  - unfold load. rewrite (proj2 (Z.leb_gt _ (zlen buf))), andb_false_r by lia. done.
  - unfold u32. rewrite <- (Z.mod_add (size - 4) 1) by lia. rewrite Z.mod_small; lia.
Qed.

(** The first read is handled in the second pass. *)
Lemma first_pass k D m us b n (ln := len (journal b)) : 0 <= us < ln -> ln <= zlen D -> (inmemory (journal b) = true -> ln <= zlen m) ->
  n = (if ln - us <? JOURNAL_BUFFER_SIZE then ln - us else JOURNAL_BUFFER_SIZE) -> exists i,
  read_loop (S (S k)) D (first_state m us b) = read_loop (S k) D i /\ done i = [mk_part (slice D us n) us n] /\ continue_pos i = 0 /\ ij_next_free i = us
  /\ block_size (journal (ij_bs i)) = block_size (journal b).
Proof.
  intros Hus HD Hm Hn. assert (0 < n /\ us + n <= ln) as [Hn1 Hn2].
  { rewrite Hn. assert (0 < JOURNAL_BUFFER_SIZE) by done. destruct (Z.ltb_spec (ln - us) JOURNAL_BUFFER_SIZE); lia. }
  assert (next_read (first_state m us b) = Some (us, n)) as Hr by (unfold next_read; cbn; fold ln; by rewrite Z.ltb_irrefl, Hn).
  assert (exists i, handle_event D (us, n) (first_state m us b) = Ok i /\ done i = [mk_part (slice D us n) us n] /\ continue_pos i = 0 /\ ij_next_free i = us
    /\ block_size (journal (ij_bs i)) = block_size (journal b)) as (i & Hi & Hrest).
  { unfold handle_event. rewrite (proj2 (Z.leb_gt n 0)), load_slice by lia. cbn [rbind].
    assert (zlen (slice D us n) = n) as Hz by (apply zlen_slice; lia).
    assert (exists m', (if inmemory (journal b) then poke m us (slice D us n) else Ok m) = Ok m') as (m' & Hm').
    { destruct (inmemory (journal b)); [| by eexists]. specialize (Hm eq_refl). eexists. apply poke_poked; lia. }
    cbn. rewrite Hm'. cbn [rbind]. eexists. split; [reflexivity |]. by destruct (len (journal b) <=? us + n). }
  exists i. split; [| done]. cbn [read_loop]. rewrite Hr. cbn [first_state done drain length rbind].
  change (mk_init _ _ _ _ _ _ _ _ _ _ _) with (first_state m us b). by rewrite Hi.
Qed.

(** C32: A journal whose log is empty, as after everything has been flushed, and whose
    next block has the magic number of an entry and a length below 4 behind it, which
    the data of an earlier small write may have: the length of the entry without its
    checksum wraps around, the checksum is computed over 4 GB behind the block, and so
    on at every start. *)
Theorem short_entry_stops_start b D us :
  image_ok b D us ->
  le_word (slice D (us + 4) 2) = JOURNAL_MAGIC -> 0 <= le_word (slice D (us + 8) 4) < 4 ->
  init_journal D b = Err OutOfBounds.
Proof.
  intros I Hm Hs. destruct (init_journal_reads b D us I) as (m & Hmem & ->). destruct I as [I1 I2 I3 I4 I5 I6 I7 I8 I9 I10 I11 I12].
  set (bs := block_size (journal b)) in *. set (ln := len (journal b)) in *.
  set (n := if ln - us <? JOURNAL_BUFFER_SIZE then ln - us else JOURNAL_BUFFER_SIZE).
  assert (bs <= n <= JOURNAL_BUFFER_SIZE /\ us + n <= ln) as [Hn1 Hn2].
  { pose proof (aligned_next bs us ln ltac:(lia) I8 I6 ltac:(lia)). pose proof (Z.divide_pos_le bs JOURNAL_BUFFER_SIZE ltac:(done) I7).
    unfold n. destruct (Z.ltb_spec (ln - us) JOURNAL_BUFFER_SIZE); lia. }
  assert (JOURNAL_BUFFER_SIZE = 4194304) as EB by done.
  destruct (first_pass (Z.to_nat (ln / bs)) D m us b n ltac:(lia) I4 Hmem eq_refl) as (i & -> & Hd & Hc & Hnf & Hbs).
  cbn [read_loop]. rewrite Hd. cbn [length drain]. rewrite Hd. unfold handle_journal_part. rewrite Hc. cbn [negb Z.eqb].
  unfold part_fuel. cbn [part_loop p_pos p_len]. rewrite Hnf, (proj2 (Z.leb_le us us)), (proj2 (Z.ltb_lt us _)) by lia. cbn [andb].
  unfold sector_fuel. cbn [sector_loop p_pos p_buf p_len]. change (journal (ij_bs (with_ij_next_free ?x i))) with (journal (ij_bs i)).
  rewrite (proj2 (Z.ltb_lt 0 _)) by (cbn; fold bs in Hbs; lia). cbn [negb].
  rewrite (short_entry_faults _ _ _ _ (le_word (slice D (us + 8) 4))); [done | lia | rewrite zlen_slice; lia | rewrite zlen_slice; lia | | | lia | lia].
  all: rewrite slice_slice by lia; rewrite <- ?Hm; do 2 f_equal; lia.
Qed.

(** A disk with the superblock and the bytes [d] in the first block of the journal. *)
Definition disk_with (d : list Z) : list Z := start_entry (demo_config 0) 128 ++ replicate 88 0 ++ d ++ replicate (1920 - length d) 0.

Lemma disk_with_ok d : (length d <= 1920)%nat -> is_bytes d -> image_ok fresh_store (disk_with d) 128.
Proof.
  intros Hd Hb. pose proof (zlen_start_entry (demo_config 0) 128) as Hz. pose proof (mem_disk (demo_op [] [])) as [K1 K2 K3 K4 K5 K6].
  assert (zlen (disk_with d) = 2048) as Hl. { unfold disk_with. rewrite !zlen_app, Hz, !zlen_replicate. unfold zlen. lia. }
  constructor; try done.
  - unfold disk_with. apply is_bytes_app.
    + unfold demo_image in K5. by apply Forall_app in K5 as [K5 _].
    + apply is_bytes_app; [apply Forall_replicate; lia |]. apply is_bytes_app; [done | apply Forall_replicate; lia].
  - rewrite Hl. done.
  - by exists 16.
  - split; [done |]. change (cfg fresh_store) with (demo_config 0). rewrite Hz, Hl. split; [done |]. unfold disk_with, slice.
    change (Z.to_nat 0) with 0%nat. rewrite drop_0. apply take_app_length'. unfold zlen in Hz. lia.
Qed.

Lemma short_entry_stops_start_witness : init_journal (disk_with [0; 0; 0; 0; 0x33; 0x4A; 0; 0; 3; 0; 0; 0]) fresh_store = Err OutOfBounds.
Proof.
  apply (short_entry_stops_start fresh_store _ 128); [apply disk_with_ok; [cbn; lia | repeat constructor; done] | vm_compute; reflexivity | vm_compute; split; [discriminate | reflexivity]].
Defined.

(** ** A deletion of an object that was never stable *)

(** A journal with a big write that was not stabilized and the deletion of the same
    object: the start forgets the object, but it takes its block off the number of used
    blocks, where a block is only counted with its stabilization.  The counter wraps
    around, and the object stays in the list of unstable writes. *)
Theorem replayed_deletion_miscounts : exists b,
  init_journal (disk_with (chain 0 [BigWrite false (demo_version 5) 0 131072 0 [15; 0; 0; 0]; Delete (mk_ov (oid (demo_version 5)) 2)])) fresh_store = Ok (b, None)
  /\ used_blocks fresh_store = 0 /\ used_blocks b = 2 ^ 64 - 1 /\ dirty_db b = [] /\ clean_db b = ∅ /\ unstable_writes b !! oid (demo_version 5) = Some 1.
Proof. eexists. split; [vm_compute; reflexivity |]. split_and!; vm_compute; reflexivity. Qed.

(** ** Synced writes behind a cleared sector *)

(** The first entry of the only sector is a small write whose data did not reach the
    disk. *)
Definition torn_disk : list Z := disk_with (chain 0 [SmallWrite false (demo_version 2) 4096 128 256 (crc_ref 0 (replicate 128 7)) [2; 0; 0; 0]]).

(** The blockstore after a start, with four big writes and a sync of them. *)
Definition with_four_bigs (b : blockstore_impl_t) : blockstore_impl_t := with_ops {[ 0%nat := four_bigs ]} (with_dirty_db (dirty_db big_store) b).

