(* ===== verification/BlockstoreRead.v ===== *)
(** * The blockstore: reads

    blockstore/blockstore_read.cpp: collecting a read from the journal, the data
    device and the unallocated ranges of an object, newest version first, and
    completing it when the devices have answered.

    A read is the state [read_t]: the blockstore, the operation with its private part,
    the buffers it allocated, and the requests it has put into the ring.  [fulfilled] is
    the variable that dequeue_read passes by reference.  A pointer is the memory it
    points into and an offset; memory of [dyn_data] is its bytes, as in Blockstore.v, so
    its reference counts are left out.  Checksums are [crc_ref], which the routines of
    Crc32c compute.  Offsets are below the size of an object, which is below 2^32. *)

From S2P Require Import Prelude.
From S2P Require Import Allocator.
From S2P Require Import Crc32c.
From S2P Require Import Journal.
From S2P Require Import Blockstore.
From S2P Require Import BlockstoreOps.

Definition EDOM : Z := 33.
Definition IOV_MAX : Z := 1024.
Definition sizeof_clean_disk_entry : Z := 24.

Definition COPY_BUF_JOURNAL : Z := 1.
Definition COPY_BUF_DATA : Z := 2.
Definition COPY_BUF_ZERO : Z := 4.
Definition COPY_BUF_CSUM_FILL : Z := 8.
Definition COPY_BUF_META_BLOCK : Z := 32.
Definition COPY_BUF_JOURNALED_BIG : Z := 64.

(** ** Memory *)

Inductive mem_t :=
| MNull
| MDyn (bytes : list Z)   (* dyn_data of a version *)
| MMeta                   (* metadata_buffer, or clean_bitmaps *)
| MBuf (k : nat).         (* a buffer of the read *)
Record ptr_t := mk_ptr { p_mem : mem_t; p_off : Z }.
Definition ptr_add (p : ptr_t) (n : Z) : ptr_t := mk_ptr (p_mem p) (p_off p + n).

(** [iovec]: a part of the user's buffer, or of a buffer of the read. *)
Inductive dest_t :=
| DUser (off : Z)
| DBuf (k : nat) (off : Z).
Record iovec := mk_iov { iov_base : dest_t; iov_len : Z }.

Record copy_buffer_t := mk_cb {
  copy_flags : Z;
  cb_offset : Z;
  cb_len : Z;
  disk_offset : Z;
  cb_journal_sector : Z;
  cb_buf : option nat;
  csum_buf : option ptr_t }.

Definition has_flag (f : Z) (c : copy_buffer_t) : bool := negb (Z.land (copy_flags c) f =? 0).

Record used_clean_obj_t := mk_used { refs : Z; was_freed : bool; was_changed : bool }.

(** A buffer of the read, with the [iovec]s that read_checksum_block puts behind it. *)
Record buf_t := mk_buf { buf_data : list Z; buf_iov : list iovec }.

Inductive fd_t := JournalFd | DataFd | MetaFd.
Record read_req := mk_req { rq_fd : fd_t; rq_iov : list iovec; rq_off : Z; rq_len : Z }.

(** What reads use of the disks and the metadata: offsets of the areas, the memory that
    holds the metadata ([metadata_buffer] or [clean_bitmaps]), and whether a flusher is
    copying to a block. *)
Record read_env := mk_env {
  meta_block_size : Z;
  clean_entry_size : Z;
  meta_offset : Z;
  data_offset : Z;
  journal_dev_offset : Z;
  meta_mem : list Z;
  is_mutated : Z -> bool }.

Record read_t := mk_read {
  rt_bs : blockstore_impl_t;
  used_clean_objects : gmap Z used_clean_obj_t;
  rt_reqs : list read_req;
  r_oid : object_id;
  r_version : Z;
  r_offset : Z;
  r_len : Z;
  r_buf : list Z;
  r_bitmap : option (list Z);
  r_retval : Z;
  r_wait_for : Z;
  r_wait_detail : Z;
  r_pending : Z;
  clean_block_used : Z;
  read_vec : list copy_buffer_t;
  r_bufs : list buf_t;
  r_finished : bool;
  fulfilled : Z }.

Definition with_bs (x : blockstore_impl_t) (s : read_t) : read_t :=
  mk_read x (used_clean_objects s) (rt_reqs s) (r_oid s) (r_version s) (r_offset s) (r_len s) (r_buf s) (r_bitmap s) (r_retval s)
    (r_wait_for s) (r_wait_detail s) (r_pending s) (clean_block_used s) (read_vec s) (r_bufs s) (r_finished s) (fulfilled s).
Definition with_used (x : gmap Z used_clean_obj_t) (s : read_t) : read_t :=
  mk_read (rt_bs s) x (rt_reqs s) (r_oid s) (r_version s) (r_offset s) (r_len s) (r_buf s) (r_bitmap s) (r_retval s)
    (r_wait_for s) (r_wait_detail s) (r_pending s) (clean_block_used s) (read_vec s) (r_bufs s) (r_finished s) (fulfilled s).
Definition with_version (x : Z) (s : read_t) : read_t :=
  mk_read (rt_bs s) (used_clean_objects s) (rt_reqs s) (r_oid s) x (r_offset s) (r_len s) (r_buf s) (r_bitmap s) (r_retval s)
    (r_wait_for s) (r_wait_detail s) (r_pending s) (clean_block_used s) (read_vec s) (r_bufs s) (r_finished s) (fulfilled s).
Definition with_buf (x : list Z) (s : read_t) : read_t :=
  mk_read (rt_bs s) (used_clean_objects s) (rt_reqs s) (r_oid s) (r_version s) (r_offset s) (r_len s) x (r_bitmap s) (r_retval s)
    (r_wait_for s) (r_wait_detail s) (r_pending s) (clean_block_used s) (read_vec s) (r_bufs s) (r_finished s) (fulfilled s).
Definition with_bitmap (x : option (list Z)) (s : read_t) : read_t :=
  mk_read (rt_bs s) (used_clean_objects s) (rt_reqs s) (r_oid s) (r_version s) (r_offset s) (r_len s) (r_buf s) x (r_retval s)
    (r_wait_for s) (r_wait_detail s) (r_pending s) (clean_block_used s) (read_vec s) (r_bufs s) (r_finished s) (fulfilled s).
Definition with_retval (x : Z) (s : read_t) : read_t :=
  mk_read (rt_bs s) (used_clean_objects s) (rt_reqs s) (r_oid s) (r_version s) (r_offset s) (r_len s) (r_buf s) (r_bitmap s) x
    (r_wait_for s) (r_wait_detail s) (r_pending s) (clean_block_used s) (read_vec s) (r_bufs s) (r_finished s) (fulfilled s).
Definition with_wait (x d : Z) (s : read_t) : read_t :=
  mk_read (rt_bs s) (used_clean_objects s) (rt_reqs s) (r_oid s) (r_version s) (r_offset s) (r_len s) (r_buf s) (r_bitmap s)
    (r_retval s) x d (r_pending s) (clean_block_used s) (read_vec s) (r_bufs s) (r_finished s) (fulfilled s).
Definition with_pending (x : Z) (s : read_t) : read_t :=
  mk_read (rt_bs s) (used_clean_objects s) (rt_reqs s) (r_oid s) (r_version s) (r_offset s) (r_len s) (r_buf s) (r_bitmap s)
    (r_retval s) (r_wait_for s) (r_wait_detail s) x (clean_block_used s) (read_vec s) (r_bufs s) (r_finished s) (fulfilled s).
Definition with_reqs (x : list read_req) (s : read_t) : read_t :=
  mk_read (rt_bs s) (used_clean_objects s) x (r_oid s) (r_version s) (r_offset s) (r_len s) (r_buf s) (r_bitmap s) (r_retval s)
    (r_wait_for s) (r_wait_detail s) (r_pending s) (clean_block_used s) (read_vec s) (r_bufs s) (r_finished s) (fulfilled s).
Definition with_block_used (x : Z) (s : read_t) : read_t :=
  mk_read (rt_bs s) (used_clean_objects s) (rt_reqs s) (r_oid s) (r_version s) (r_offset s) (r_len s) (r_buf s) (r_bitmap s)
    (r_retval s) (r_wait_for s) (r_wait_detail s) (r_pending s) x (read_vec s) (r_bufs s) (r_finished s) (fulfilled s).
Definition with_read_vec (x : list copy_buffer_t) (s : read_t) : read_t :=
  mk_read (rt_bs s) (used_clean_objects s) (rt_reqs s) (r_oid s) (r_version s) (r_offset s) (r_len s) (r_buf s) (r_bitmap s)
    (r_retval s) (r_wait_for s) (r_wait_detail s) (r_pending s) (clean_block_used s) x (r_bufs s) (r_finished s) (fulfilled s).
Definition with_bufs (x : list buf_t) (s : read_t) : read_t :=
  mk_read (rt_bs s) (used_clean_objects s) (rt_reqs s) (r_oid s) (r_version s) (r_offset s) (r_len s) (r_buf s) (r_bitmap s)
    (r_retval s) (r_wait_for s) (r_wait_detail s) (r_pending s) (clean_block_used s) (read_vec s) x (r_finished s) (fulfilled s).
Definition with_fulfilled (x : Z) (s : read_t) : read_t :=
  mk_read (rt_bs s) (used_clean_objects s) (rt_reqs s) (r_oid s) (r_version s) (r_offset s) (r_len s) (r_buf s) (r_bitmap s)
    (r_retval s) (r_wait_for s) (r_wait_detail s) (r_pending s) (clean_block_used s) (read_vec s) (r_bufs s) (r_finished s) x.
(** [FINISH_OP] *)
Definition finish_read (s : read_t) : read_t :=
  mk_read (rt_bs s) (used_clean_objects s) (rt_reqs s) (r_oid s) (r_version s) (r_offset s) (r_len s) (r_buf s) (r_bitmap s)
    (r_retval s) (r_wait_for s) (r_wait_detail s) (r_pending s) (clean_block_used s) (read_vec s) (r_bufs s) true (fulfilled s).

Definition rt_cfg (s : read_t) : config_t := cfg (rt_bs s).
Definition rt_journal (s : read_t) : journal_t := journal (rt_bs s).

(** [memcpy] or [memset] into the user's buffer. *)
Definition put_user (off : Z) (bs : list Z) (s : read_t) : res read_t :=
  if off <? 0 then Err OutOfBounds else let* b := poke (r_buf s) off bs in Ok (with_buf b s).
Definition zeroes (n : Z) : list Z := replicate (Z.to_nat n) 0.

(** [rv.insert(rv.begin() + pos, el)] *)
Definition vec_insert (pos : nat) (el : copy_buffer_t) (s : read_t) : read_t :=
  with_read_vec (take pos (read_vec s) ++ el :: drop pos (read_vec s)) s.

Section Reads.
Context (E : read_env).

Definition mem_of (s : read_t) (m : mem_t) : res (list Z) :=
  match m with
  | MNull => Err Undefined
  | MDyn bytes => Ok bytes
  | MMeta => Ok (meta_mem E)
  | MBuf k => match r_bufs s !! k with Some b => Ok (buf_data b) | None => Err Undefined end
  end.
Definition load_ptr (s : read_t) (p : ptr_t) (n : Z) : res (list Z) :=
  let* m := mem_of s (p_mem p) in load m (p_off p) n.
(** [bitmap[i >> 3] & (1 << (i & 7))] *)
Definition bitmap_bit (s : read_t) (p : ptr_t) (i : Z) : res bool :=
  let* m := mem_of s (p_mem p) in
  let* x := aget m (p_off p + Z.shiftr i 3) in
  Ok (Z.testbit x (Z.land i 7)).
(** Element [i] of the array of [uint32_t] at [p]. *)
Definition csum_at (s : read_t) (p : ptr_t) (i : Z) : res Z :=
  let* d := load_ptr s (ptr_add p (4 * i)) 4 in Ok (le_word d).

(** [BS_SUBMIT_GET_SQE], [pending_ops++] and [io_uring_prep_readv]; [data->iov.iov_len] is [n]. *)
Definition submit_readv (fd : fd_t) (iov : list iovec) (off n : Z) (s : read_t) : read_t * bool :=
  match get_sqe (rt_bs s) with
  | None => (with_wait WAIT_SQE 1 s, false)
  | Some b => (with_reqs (rt_reqs s ++ [mk_req fd iov off n]) (with_pending (r_pending s + 1) (with_bs b s)), true)
  end.

Definition fulfill_read_push (buf off n item_state : Z) (s : read_t) : res (read_t * bool) :=
  if n =? 0 then Ok (s, true)
  else if IS_DELETE item_state then let* s := put_user buf (zeroes n) s in Ok (s, true)
  else
    assert! negb (IS_IN_FLIGHT item_state) in
    if inmemory (rt_journal s) && IS_JOURNAL item_state then
      let* d := load (mem (rt_journal s)) off n in
      let* s := put_user buf d s in Ok (s, true)
    else
      Ok (submit_readv (if IS_JOURNAL item_state then JournalFd else DataFd) [mk_iov (DUser buf) n]
            ((if IS_JOURNAL item_state then journal_dev_offset E else data_offset E) + off) n s).

(** ** Holes of [read_vec] *)

Section FindHoles.
(** What the callback changes, and the vector in it; the callback gets the position,
    [alloc], start and end. *)
Context {A : Type} (rv : A -> list copy_buffer_t) (callback : nat -> bool -> Z -> Z -> A -> res (A * nat)).

Fixpoint find_holes_loop (fuel : nat) (i : nat) (cur_start item_end : Z) (a : A) : res A :=
  match fuel with
  | O => Err OutOfFuel
  | S fuel =>
    if item_end <=? cur_start then Ok a
    else
      match rv a !! i with
      | Some el =>
        if has_flag COPY_BUF_CSUM_FILL el || (item_end <=? cb_offset el) then
          let* (a, _) := callback i false cur_start item_end a in Ok a
        else if cur_start <? cb_offset el then
          let cur_end := if item_end <? cb_offset el then item_end else cb_offset el in
          let* (a, d) := callback i false cur_start cur_end a in
          find_holes_loop fuel (i + d) cur_end item_end a
        else if cur_start <? cb_offset el + cb_len el then
          let cur_end := cb_offset el + cb_len el in
          let cur_end := if item_end <? cur_end then item_end else cur_end in
          let* (a, d) := callback i true cur_start cur_end a in
          find_holes_loop fuel (i + d + 1) cur_end item_end a
        else find_holes_loop fuel (i + 1) cur_start item_end a
      | None => let* (a, _) := callback i false cur_start item_end a in Ok a
      end
  end.

(** Every element is passed at most twice. *)
Definition find_holes (item_start item_end : Z) (a : A) : res A :=
  find_holes_loop (2 * length (rv a) + 2) 0 item_start item_end a.
End FindHoles.

(** ** Checksum blocks larger than the granularity of bitmaps *)

(** The first position from [pos] on, below [end_], whose bit is not [bit].  With [late]
    the bit is looked at before the bound. *)
Fixpoint scan_bits (late : bool) (s : read_t) (p : ptr_t) (bit : bool) (fuel : nat) (pos end_ : Z) : res Z :=
  if negb late && (end_ <=? pos) then Ok pos
  else
    let* x := bitmap_bit s p pos in
    if negb (Bool.eqb x bit) || (end_ <=? pos) then Ok pos
    else match fuel with O => Err OutOfFuel | S fuel => scan_bits late s p bit fuel (pos + 1) end_ end.

(** The [while (bmp_pos < bmp_end)] loop of read_range_fulfilled in one hole: zero-filled
    areas are inserted at [pos], the number of them is [diff]. *)
Fixpoint fill_zeroes (fuel : nat) (p : ptr_t) (pos : nat) (bmp_start bmp_end : Z) (diff : nat) (a : read_t * bool)
    : res ((read_t * bool) * nat) :=
  if bmp_end <=? bmp_start then Ok (a, diff)
  else
    match fuel with
    | O => Err OutOfFuel
    | S fuel =>
      let '(s, all_done) := a in
      let g := bitmap_granularity (rt_cfg s) in
      let* bmp_pos := scan_bits false s p false (Z.to_nat (bmp_end - bmp_start)) bmp_start bmp_end in
      let* (s, diff) :=
        if bmp_start <? bmp_pos then
          let s := vec_insert pos (mk_cb COPY_BUF_ZERO (bmp_start * g) ((bmp_pos - bmp_start) * g) 0 0 None None) s in
          let* s := put_user (bmp_start * g - r_offset s) (zeroes ((bmp_pos - bmp_start) * g)) s in
          Ok (with_fulfilled (fulfilled s + (bmp_pos - bmp_start) * g) s, S diff)
        else Ok (s, diff) in
      let bmp_start := bmp_pos in
      let* bmp_pos := scan_bits false s p true (Z.to_nat (bmp_end - bmp_start)) bmp_start bmp_end in
      fill_zeroes fuel p pos bmp_pos bmp_end diff (s, if bmp_start <? bmp_pos then false else all_done)
    end.

Definition read_range_fulfilled (p : ptr_t) (item_start item_end : Z) (s : read_t) : res (read_t * bool) :=
  find_holes (fun a => read_vec a.1)
    (fun pos alloc cur_start cur_end a =>
       if alloc then Ok (a, O)
       else
         let g := bitmap_granularity (rt_cfg a.1) in
         fill_zeroes (Z.to_nat (cur_end / g - cur_start / g)) p pos (cur_start / g) (cur_end / g) O a)
    item_start item_end (s, true).

(** The part of checksum block [blk] that is inside of the read. *)
Definition block_from (cs read_offset blk : Z) : Z := if blk * cs <? read_offset then read_offset else blk * cs.
Definition block_to (cs read_end blk : Z) : Z := if read_end <? (blk + 1) * cs then read_end else (blk + 1) * cs.

(** The inner loop: [end_block] is increased while the next block has to be read. *)
Fixpoint required_blocks (fuel : nat) (p : ptr_t) (read_offset read_end end_block : Z) (s : read_t) : res (read_t * Z) :=
  let cs := csum_block_size (rt_cfg s) in
  if (end_block + 1) * cs <? read_end then
    let* (s, ok) := read_range_fulfilled p (block_from cs read_offset (end_block + 1)) (block_to cs read_end (end_block + 1)) s in
    if ok then Ok (s, end_block)
    else match fuel with O => Err OutOfFuel | S fuel => required_blocks fuel p read_offset read_end (end_block + 1) s end
  else Ok (s, end_block).

Fixpoint partial_loop (fuel : nat) (p : ptr_t) (from_journal : bool) (read_offset read_end start_block last_block required : Z)
    (s : read_t) : res (read_t * Z) :=
  if last_block <? start_block then Ok (s, required)
  else
    match fuel with
    | O => Err OutOfFuel
    | S fuel =>
      let cs := csum_block_size (rt_cfg s) in
      let* (s, ok) := read_range_fulfilled p (block_from cs read_offset start_block) (block_to cs read_end start_block) s in
      if ok then partial_loop fuel p from_journal read_offset read_end (start_block + 1) last_block required s
      else
        let* (s, end_block) := required_blocks (Z.to_nat (last_block - start_block)) p read_offset read_end start_block s in
        let end_block := end_block + 1 in
        let el := mk_cb (Z.lor COPY_BUF_CSUM_FILL (if from_journal then COPY_BUF_JOURNALED_BIG else 0))
                    (start_block * cs) ((end_block - start_block) * cs) 0 0 None (if from_journal then Some p else None) in
        partial_loop fuel p from_journal read_offset read_end end_block last_block (required + 1)
          (with_read_vec (read_vec s ++ [el]) s)
    end.

Definition fill_partial_checksum_blocks (p : ptr_t) (from_journal : bool) (read_offset read_end : Z) (s : read_t)
    : res (read_t * Z) :=
  if read_end =? read_offset then Ok (s, 0)
  else
    let cs := csum_block_size (rt_cfg s) in
    let last_block := (read_end - 1) / cs in
    let start_block := read_offset / cs in
    partial_loop (Z.to_nat (last_block - start_block + 1)) p from_journal read_offset read_end start_block last_block 0 s.

(** The first pass of read_checksum_block: the size of the buffer and the number of
    [iovec]s. *)
Definition count_fill (s : read_t) (alloc : bool) (cur_start cur_end : Z) (a : Z * Z) : Z * Z :=
  let '(fill_size, n_iov) := a in
  let op_end := r_offset s + r_len s in
  if alloc then (fill_size + (cur_end - cur_start), n_iov + 1)
  else
    let '(fill_size, n_iov, cur_start) :=
      if cur_start <? r_offset s then (fill_size + (r_offset s - cur_start), n_iov + 1, r_offset s) else (fill_size, n_iov, cur_start) in
    let '(fill_size, n_iov, cur_end) :=
      if op_end <? cur_end then (fill_size + (cur_end - op_end), n_iov + 1, op_end) else (fill_size, n_iov, cur_end) in
    (fill_size, if cur_start <? cur_end then n_iov + 1 else n_iov).

(** The second pass: [iov] is filled, [k] is the new buffer. *)
Definition fill_iov (k : nat) (pos : nat) (alloc : bool) (cur_start cur_end : Z) (a : read_t * list iovec * Z)
    : res ((read_t * list iovec * Z) * nat) :=
  let '(s, iov, fill_size) := a in
  let op_end := r_offset s + r_len s in
  if alloc then Ok ((s, iov ++ [mk_iov (DBuf k fill_size) (cur_end - cur_start)], fill_size + (cur_end - cur_start)), O)
  else
    let '(iov, fill_size, cur_start) :=
      if cur_start <? r_offset s
      then (iov ++ [mk_iov (DBuf k fill_size) (r_offset s - cur_start)], fill_size + (r_offset s - cur_start), r_offset s)
      else (iov, fill_size, cur_start) in
    let lim_end := if op_end <? cur_end then op_end else cur_end in
    let '(s, iov, n) :=
      if cur_start <? lim_end then
        let s := vec_insert pos (mk_cb COPY_BUF_DATA cur_start (lim_end - cur_start) 0 0 None None) s in
        (with_fulfilled (fulfilled s + (lim_end - cur_start)) s, iov ++ [mk_iov (DUser (cur_start - r_offset s)) (lim_end - cur_start)], 1%nat)
      else (s, iov, O) in
    if op_end <? cur_end
    then Ok ((s, iov ++ [mk_iov (DBuf k fill_size) (cur_end - op_end)], fill_size + (cur_end - op_end)), n)
    else Ok ((s, iov, fill_size), n).

(** [for (int i = 0; i < IOV_MAX; i++) d_len += iov[n_pos+i].iov_len;] *)
Fixpoint iov_sum (n : nat) (iov : list iovec) (pos d_len : Z) : res Z :=
  match n with
  | O => Ok d_len
  | S n => let* v := aget iov pos in iov_sum n iov (pos + 1) (d_len + iov_len v)
  end.

Fixpoint submit_loop (fuel : nat) (fd : fd_t) (iov : list iovec) (n_pos off total d_pos : Z) (s : read_t) : res (read_t * bool) :=
  if zlen iov <=? n_pos then Ok (s, true)
  else
    match fuel with
    | O => Err OutOfFuel
    | S fuel =>
      let n_cur := if zlen iov - n_pos <? IOV_MAX then zlen iov - n_pos else IOV_MAX in
      let cur := take (Z.to_nat n_cur) (drop (Z.to_nat n_pos) iov) in
      let many := (0 <? n_pos) || (n_pos + IOV_MAX <? zlen iov) in
      let* d_len := if many && match get_sqe (rt_bs s) with Some _ => true | None => false end
                    then iov_sum (Z.to_nat IOV_MAX) iov n_pos 0 else Ok 0 in
      let '(s, ok) := submit_readv fd cur (off + d_pos) (if many then d_len else total) s in
      if negb ok then Ok (s, false)
      else submit_loop fuel fd iov (n_pos + IOV_MAX) off total (d_pos + d_len) s
    end.

Definition read_checksum_block (rv_pos clean_loc : Z) (s : read_t) : res (read_t * bool) :=
  let* vi := aget (read_vec s) (zlen (read_vec s) - rv_pos) in
  let item_start := cb_offset vi in
  let item_end := cb_offset vi + cb_len vi in
  let* (fill_size, n_iov) :=
    find_holes (fun _ => read_vec s) (fun _ alloc a b st => Ok (count_fill s alloc a b st, O)) item_start item_end (0, 0) in
  let k := length (r_bufs s) in
  let* (s, iov, fill) := find_holes (fun a => read_vec a.1.1) (fill_iov k) item_start item_end (s, [], 0) in
  if negb ((zlen iov =? n_iov) && (fill =? fill_size)) then Err OutOfBounds
  else
    let s := with_bufs (r_bufs s ++ [mk_buf (zeroes fill_size) iov]) s in
    let j := zlen (read_vec s) - rv_pos in
    let* vi := aget (read_vec s) j in
    let* v := aset (read_vec s) j
      (mk_cb (copy_flags vi) (cb_offset vi) (Z.lor (Z.shiftl (zlen iov) 32) fill) (clean_loc + item_start) 0 (Some k) (csum_buf vi)) in
    let s := with_read_vec v s in
    let is_journal := has_flag COPY_BUF_JOURNAL vi in
    let* (s, ok) :=
      submit_loop (length iov) (if is_journal then JournalFd else DataFd) iov 0
        ((if is_journal then journal_dev_offset E else data_offset E) + clean_loc + item_start) (item_end - item_start) 0 s in
    if negb ok then Ok (s, false)
    else Ok (if is_journal then s else with_block_used 1 s, true).

(** ** One version *)

Definition fulfill_item (item_start item_end item_state item_location sector : Z) (csum : option ptr_t)
    (pos : nat) (alloc : bool) (start end_ : Z) (a : read_t * bool) : res ((read_t * bool) * nat) :=
  let '(s, r) := a in
  let c := rt_cfg s in
  let cs := csum_block_size c in
  if negb r || alloc then Ok (a, O)
  else if negb (inmemory (rt_journal s)) && (bitmap_granularity c <? cs) && IS_JOURNAL item_state && negb (IS_DELETE item_state) then
    let blk_begin := start / cs * cs in
    let blk_begin := if blk_begin <? item_start then item_start else blk_begin in
    let blk_end := ((end_ - 1) / cs + 1) * cs in
    let blk_end := if item_end <? blk_end then item_end else blk_end in
    let el := mk_cb (Z.lor COPY_BUF_JOURNAL COPY_BUF_CSUM_FILL) blk_begin (blk_end - blk_begin) 0 0 None
      (Some (ptr_add (default (mk_ptr MNull 0) csum) ((blk_begin / cs - item_start / cs) * Z.land (data_csum_type c) 0xff))) in
    let* (s, ok) := read_checksum_block 1 (item_location - item_start) (with_read_vec (read_vec s ++ [el]) s) in
    Ok ((s, if ok then r else false), O)
  else
    let el := mk_cb (if IS_JOURNAL item_state then COPY_BUF_JOURNAL else COPY_BUF_DATA) start (end_ - start)
      (item_location + start - item_start) (if IS_JOURNAL item_state then sector else 0) None
      (match csum with None => None | Some p => Some (ptr_add p ((start - item_start) / cs * Z.land (data_csum_type c) 0xff)) end) in
    let s := if IS_BIG_WRITE item_state then with_block_used 1 s else s in
    let s := vec_insert pos el s in
    let s := with_fulfilled (fulfilled s + cb_len el) s in
    let* (s, ok) :=
      fulfill_read_push (cb_offset el - r_offset s) (item_location + cb_offset el - item_start) (cb_len el) item_state s in
    Ok ((s, if ok then r else false), 1%nat).

Definition fulfill_read (item_start item_end item_state item_location sector : Z) (csum : option ptr_t) (s : read_t)
    : res (read_t * bool) :=
  let op_end := r_offset s + r_len s in
  if (item_start <? op_end) && (r_offset s <? item_end) then
    let rd_start := if item_start <? r_offset s then r_offset s else item_start in
    let rd_end := if op_end <? item_end then op_end else item_end in
    find_holes (fun a => read_vec a.1) (fulfill_item item_start item_end item_state item_location sector csum) rd_start rd_end (s, true)
  else Ok (s, true).

(** ** Clean objects and big writes *)

Definition get_clean_entry_bitmap (c : config_t) (block_loc off : Z) : ptr_t :=
  let meta_loc := Z.shiftr block_loc (block_order c) in
  mk_ptr MMeta
    (if inmemory_meta c then
       let per_block := meta_block_size E / clean_entry_size E in
       meta_loc / per_block * meta_block_size E + meta_loc mod per_block * clean_entry_size E + sizeof_clean_disk_entry + off
     else meta_loc * 2 * clean_entry_bitmap_size c + off).

Definition read_clean_meta_block (clean_loc : Z) (rv_pos : nat) (s : read_t) : read_t * ptr_t :=
  let meta_loc := Z.shiftr clean_loc (block_order (rt_cfg s)) in
  let per_block := meta_block_size E / clean_entry_size E in
  let sector := meta_loc / per_block * meta_block_size E in
  let pos := meta_loc mod per_block * clean_entry_size E in
  let k := length (r_bufs s) in
  let s := with_bufs (r_bufs s ++ [mk_buf (zeroes (meta_block_size E)) []]) s in
  let s := vec_insert rv_pos (mk_cb (Z.lor COPY_BUF_META_BLOCK COPY_BUF_CSUM_FILL) pos 0 0 0 (Some k) None) s in
  let '(s, ok) := submit_readv MetaFd [mk_iov (DBuf k 0) (meta_block_size E)] (meta_offset E + meta_block_size E + sector)
                    (meta_block_size E) s in
  (s, if ok then mk_ptr (MBuf k) (pos + sizeof_clean_disk_entry) else mk_ptr MNull 0).

(** [assert(fulfill_read(..., (BS_ST_DELETE | BS_ST_STABLE), 0, 0, 0, NULL, NULL))] *)
Definition fulfill_zero (item_start item_end : Z) (s : read_t) : res read_t :=
  let* (s, ok) := fulfill_read item_start item_end (Z.lor BS_ST_DELETE BS_ST_STABLE) 0 0 None s in
  assert! ok in Ok s.

(** The loop over the bitmap of a clean object. *)
Fixpoint clean_loop (fuel : nat) (p csum : ptr_t) (csum_done : bool) (clean_loc bmp_start bmp_end bmp_size : Z) (s : read_t)
    : res (read_t * bool) :=
  if bmp_size <=? bmp_start then Ok (s, true)
  else
    match fuel with
    | O => Err OutOfFuel
    | S fuel =>
      let c := rt_cfg s in
      let g := bitmap_granularity c in
      let* bmp_end := scan_bits true s p false (Z.to_nat (bmp_size - bmp_end)) bmp_end bmp_size in
      let* s := if bmp_start <? bmp_end then fulfill_zero (bmp_start * g) (bmp_end * g) s else Ok s in
      let bmp_start := bmp_end in
      let* bmp_end := scan_bits true s p true (Z.to_nat (bmp_size - bmp_end)) bmp_end bmp_size in
      if bmp_start <? bmp_end then
        let '(s, csum, csum_done) :=
          if csum_done then (s, csum, true)
          else let '(s, q) := read_clean_meta_block clean_loc (length (read_vec s)) s in (s, q, true) in
        let* (s, ok) := fulfill_read (bmp_start * g) (bmp_end * g) (Z.lor BS_ST_BIG_WRITE BS_ST_STABLE) (clean_loc + bmp_start * g) 0
          (if csum_block_size c =? 0 then None
           else Some (ptr_add csum (2 * clean_entry_bitmap_size c + bmp_start * Z.land (data_csum_type c) 0xff))) s in
        if negb ok then Ok (s, false)
        else clean_loop fuel p csum csum_done clean_loc bmp_end bmp_end bmp_size s
      else clean_loop fuel p csum csum_done clean_loc bmp_start bmp_end bmp_size s
    end.

(** [for (int i = req; i > 0; i--)]: the checksum blocks at the end of [read_vec]. *)
Fixpoint read_required (i : nat) (clean_loc : Z) (s : read_t) : res (read_t * bool) :=
  match i with
  | O => Ok (s, true)
  | S i' =>
    let* (s, ok) := read_checksum_block (Z.of_nat i) clean_loc s in
    if ok then read_required i' clean_loc s else Ok (s, false)
  end.
Definition set_csum_buf (p : ptr_t) (el : copy_buffer_t) : copy_buffer_t :=
  mk_cb (copy_flags el) (cb_offset el) (cb_len el) (disk_offset el) (cb_journal_sector el) (cb_buf el) (Some p).

Definition clean_padded (p : ptr_t) (from_journal : bool) (clean_loc : Z) (s : read_t) : res (read_t * bool) :=
  let* (s, req) := fill_partial_checksum_blocks p from_journal (r_offset s) (r_offset s + r_len s) s in
  let s :=
    if negb (inmemory_meta (rt_cfg s)) && negb from_journal && (0 <? req) then
      let '(s, q) := read_clean_meta_block clean_loc (length (read_vec s) - Z.to_nat req) s in
      let n := (length (read_vec s) - Z.to_nat req)%nat in
      with_read_vec (take n (read_vec s) ++ map (set_csum_buf q) (drop n (read_vec s))) s
    else s in
  let* (s, ok) := read_required (Z.to_nat req) clean_loc s in
  if negb ok then Ok (s, false) else Ok (with_block_used (if 0 <? req then 1 else 0) s, true).

Definition clean_from_journal (p : ptr_t) (item_start item_end clean_loc : Z) (s : read_t) : res (read_t * bool) :=
  let c := rt_cfg s in
  let csum := if csum_block_size c =? 0 then None
    else Some (ptr_add p (clean_entry_bitmap_size c + item_start / csum_block_size c * Z.land (data_csum_type c) 0xff)) in
  let* (s, ok) := fulfill_read item_start item_end (Z.lor BS_ST_BIG_WRITE BS_ST_STABLE) (clean_loc + item_start) 0 csum s in
  if negb ok then Ok (s, false)
  else
    let* s := if (0 <? item_start) && (fulfilled s <? r_len s) then fulfill_zero 0 item_start s else Ok s in
    let* s := if (item_end <? data_block_size c) && (fulfilled s <? r_len s) then fulfill_zero item_end (data_block_size c) s else Ok s in
    Ok (s, true).

(** "Increment reference counter if clean data is being read from the disk" *)
Definition use_clean_block (clean_loc : Z) (s : read_t) : read_t :=
  if clean_block_used s =? 0 then s
  else
    let uo := default (mk_used 0 false false) (used_clean_objects s !! clean_loc) in
    let uo := mk_used (refs uo + 1) (was_freed uo)
      (if negb (csum_block_size (rt_cfg s) =? 0) && is_mutated E clean_loc then true else was_changed uo) in
    with_block_used clean_loc (with_used (<[clean_loc := uo]> (used_clean_objects s)) s).

(** [bmp] is the [clean_entry_bitmap] argument, with [None] for NULL. *)
Definition fulfill_clean_read (bmp : option ptr_t) (item_start item_end clean_loc : Z) (s : read_t) : res (read_t * bool) :=
  let c := rt_cfg s in
  let from_journal := match bmp with Some _ => true | None => false end in
  let p := default (get_clean_entry_bitmap c clean_loc 0) bmp in
  let* (s, ok) :=
    if bitmap_granularity c <? csum_block_size c then clean_padded p from_journal clean_loc s
    else if from_journal then clean_from_journal p item_start item_end clean_loc s
    else
      let bmp_size := data_block_size c / bitmap_granularity c in
      clean_loop (Z.to_nat bmp_size) p p ((csum_block_size c =? 0) || inmemory_meta c) clean_loc 0 0 bmp_size s in
  if negb ok then Ok (s, false) else Ok (use_clean_block clean_loc s, true).

(** ** The operation *)

Definition not_found (s : read_t) : read_t := finish_read (with_retval (- ENOENT) (with_version 0 s)).

(** [memcpy(read_op->bitmap, p, clean_entry_bitmap_size)], when there is a bitmap. *)
Definition copy_bitmap (p : ptr_t) (s : read_t) : res read_t :=
  match r_bitmap s with
  | None => Ok s
  | Some _ => let* d := load_ptr s p (clean_entry_bitmap_size (rt_cfg s)) in Ok (with_bitmap (Some d) s)
  end.

Inductive walk_t :=
| Walked (result_version : Z) (s : read_t)   (* the loop has ended *)
| Undo (s : read_t)                          (* goto undo_read *)
| Returned (s : read_t).                     (* return 2 *)

(** The loop over the versions of the object, newest first. *)
Fixpoint read_versions (versions : dirty_db_t) (result_version : Z) (s : read_t) : res walk_t :=
  match versions with
  | [] => Ok (Walked result_version s)
  | (k, e) :: rest =>
    if negb (oid_eqb (oid k) (r_oid s)) then Ok (Walked result_version s)
    else
      let version_ok := negb (IS_IN_FLIGHT (state e)) && (version k <=? r_version s) in
      let next s result_version :=
        if fulfilled s =? r_len s then Ok (Walked result_version s) else read_versions rest result_version s in
      if negb version_ok then next s result_version
      else if IS_DELETE (state e) then
        assert! result_version =? 0 in Ok (Returned (not_found s))
      else
        let bmp_ptr := mk_ptr (MDyn (dyn_data e)) 0 in
        let* s := if result_version =? 0 then copy_bitmap bmp_ptr s else Ok s in
        let result_version := if result_version =? 0 then version k else result_version in
        let* (s, ok) :=
          if negb (IS_JOURNAL (state e))
          then fulfill_clean_read (Some bmp_ptr) (offset e) (offset e + entry_len e) (location e) s
          else fulfill_read (offset e) (offset e + entry_len e) (state e) (location e) (journal_sector e + 1)
                 (if inmemory (rt_journal s) then None else Some (ptr_add bmp_ptr (clean_entry_bitmap_size (rt_cfg s)))) s in
        if negb ok then Ok (Undo s) else next s result_version
  end.

(** "record journal sector usage": [used_sectors.at(rv.journal_sector-1)++] *)
Fixpoint use_sectors (rv : list copy_buffer_t) (used : gmap Z Z) : res (gmap Z Z) :=
  match rv with
  | [] => Ok used
  | el :: rv =>
    if cb_journal_sector el =? 0 then use_sectors rv used
    else
      match used !! (cb_journal_sector el - 1) with
      | None => Err Thrown
      | Some n => use_sectors rv (<[cb_journal_sector el - 1 := n + 1]> used)
      end
  end.

Definition with_journal_of (j : journal_t) (s : read_t) : read_t := with_bs (with_journal j (rt_bs s)) s.

(** From the assertion to the label. *)
Definition read_submitted (result_version : Z) (s : read_t) : res (read_t * Z) :=
  if result_version =? 0 then Ok (not_found s, 2)
  else
    assert! fulfilled s =? r_len s in
    let s := with_version result_version s in
    if r_pending s =? 0 then
      let* s := match read_vec s with [] => put_user 0 (zeroes (r_len s)) s | _ => Ok s end in
      Ok (finish_read (with_retval (r_len s) s), 2)
    else
      let* s :=
        if inmemory (rt_journal s) then Ok s
        else let* u := use_sectors (read_vec s) (used_sectors (rt_journal s)) in Ok (with_journal_of (with_used_sectors u (rt_journal s)) s) in
      Ok (with_retval 0 s, 2).

Definition dequeue_read (s : read_t) : res (read_t * Z) :=
  let clean_it := clean_db (rt_bs s) !! r_oid s in
  let '(versions, _) := db_upper [] (dirty_db (rt_bs s)) (mk_ov (r_oid s) UINT64_MAX) in
  let dirty_found := match versions with (k, _) :: _ => oid_eqb (oid k) (r_oid s) | [] => false end in
  if match clean_it with None => negb dirty_found | Some _ => false end then Ok (not_found s, 2)
  else
    let s := with_fulfilled 0 (with_block_used 0 (with_pending 0 s)) in
    let undo s := Ok (with_read_vec [] s, 0) in
    let* w := if dirty_found then read_versions versions 0 s else Ok (Walked 0 s) in
    match w with
    | Returned s => Ok (s, 2)
    | Undo s => undo s
    | Walked result_version s =>
      match clean_it with
      | None => read_submitted result_version s
      | Some ce =>
        let* s :=
          if result_version =? 0
          then copy_bitmap (get_clean_entry_bitmap (rt_cfg s) (clean_location ce) (clean_entry_bitmap_size (rt_cfg s))) s else Ok s in
        let result_version := if result_version =? 0 then clean_version ce else result_version in
        if fulfilled s <? r_len s then
          let* (s, ok) := fulfill_clean_read None 0 (data_block_size (rt_cfg s)) (clean_location ce) s in
          if negb ok then undo s else read_submitted result_version s
        else read_submitted result_version s
      end
    end.

(** The branch of [blockstore_impl_t::loop] for a read: [ringloop->restore] drops the
    requests of an operation that has to wait. *)
Definition loop_read (s : read_t) : res (read_t * Z) :=
  let* (s', wr_st) := dequeue_read s in
  if wr_st =? 0 then Ok (with_reqs (rt_reqs s) (with_bs (with_sqes_left (sqes_left (rt_bs s)) (rt_bs s')) s'), wr_st)
  else Ok (s', wr_st).

(** ** Verification of checksums *)

Definition iov_bytes (s : read_t) (v : iovec) (start n : Z) : res (list Z) :=
  match iov_base v with
  | DUser off => load (r_buf s) (off + start) n
  | DBuf k off => match r_bufs s !! k with Some b => load (buf_data b) (off + start) n | None => Err Undefined end
  end.

(** [block_csum], [block_num] and [block_done] of the two functions, and whether no bad
    block was reported. *)
Record verify_t := mk_verify { block_csum : Z; block_num : Z; block_done : Z; all_ok : bool }.

(** [while (block_done+len >= dsk.csum_block_size)] and what follows it; with [pad] the
    bytes count as zeroes. *)
Fixpoint verify_blocks (fuel : nat) (s : read_t) (csums : ptr_t) (pad : bool) (v : iovec) (start n : Z) (t : verify_t)
    : res verify_t :=
  let cs := csum_block_size (rt_cfg s) in
  let bytes m := if pad then Ok (zeroes m) else iov_bytes s v start m in
  if cs <=? block_done t + n then
    let cur_len := cs - block_done t in
    let* d := bytes cur_len in
    let* stored := csum_at s csums (block_num t) in
    let ok := crc_ref (block_csum t) d =? stored in
    match fuel with
    | O => Err OutOfFuel
    | S fuel => verify_blocks fuel s csums pad v (start + cur_len) (n - cur_len) (mk_verify 0 (block_num t + 1) 0 (all_ok t && ok))
    end
  else if 0 <? n then
    let* d := bytes n in Ok (mk_verify (crc_ref (block_csum t) d) (block_num t) (block_done t + n) (all_ok t))
  else Ok t.

(** The runs of equal bits of the bitmap in one [iovec]. *)
Fixpoint padded_runs (fuel : nat) (s : read_t) (p csums : ptr_t) (v : iovec) (pos bmp_pos : Z) (t : verify_t) : res (verify_t * Z) :=
  if iov_len v <=? pos then Ok (t, bmp_pos)
  else
    match fuel with
    | O => Err OutOfFuel
    | S fuel =>
      let g := bitmap_granularity (rt_cfg s) in
      let left := (iov_len v - pos + g - 1) / g in
      let* bit := bitmap_bit s p bmp_pos in
      let* e := scan_bits false s p bit (Z.to_nat left) bmp_pos (bmp_pos + left) in
      let n := (e - bmp_pos) * g in
      let* t := verify_blocks (Z.to_nat (block_done t + n)) s csums (negb bit) v pos n t in
      padded_runs fuel s p csums v (pos + n) e t
    end.
Fixpoint padded_iovs (s : read_t) (p csums : ptr_t) (iov : list iovec) (bmp_pos : Z) (t : verify_t) : res verify_t :=
  match iov with
  | [] => Ok t
  | v :: iov => let* (t, bmp_pos) := padded_runs (Z.to_nat (iov_len v)) s p csums v 0 bmp_pos t in padded_iovs s p csums iov bmp_pos t
  end.

Definition verify_padded_checksums (s : read_t) (p csums : ptr_t) (off : Z) (iov : list iovec) : res bool :=
  let c := rt_cfg s in
  assert! off mod csum_block_size c =? 0 in
  let* t := padded_iovs s p csums iov (off / bitmap_granularity c) (mk_verify 0 (off / csum_block_size c) 0 true) in
  assert! block_done t =? 0 in Ok (all_ok t).

Fixpoint journal_iovs (s : read_t) (csums : ptr_t) (iov : list iovec) (t : verify_t) : res verify_t :=
  match iov with
  | [] => Ok t
  | v :: iov =>
    let* t := verify_blocks (Z.to_nat (block_done t + iov_len v)) s csums false v 0 (iov_len v) t in journal_iovs s csums iov t
  end.

Definition verify_journal_checksums (s : read_t) (csums : ptr_t) (off : Z) (iov : list iovec) : res bool :=
  let* t := journal_iovs s csums iov (mk_verify 0 0 (off mod csum_block_size (rt_cfg s)) true) in
  if 0 <? block_done t then let* stored := csum_at s csums (block_num t) in Ok (all_ok t && (block_csum t =? stored))
  else Ok (all_ok t).

Definition verify_clean_padded_checksums (s : read_t) (clean_loc : Z) (dyn : option ptr_t) (from_journal : bool) (iov : list iovec)
    : res bool :=
  let c := rt_cfg s in
  let off := clean_loc mod data_block_size c in
  match dyn with
  | Some p =>
    if from_journal then verify_padded_checksums s p (ptr_add p (clean_entry_bitmap_size c)) off iov
    else verify_padded_checksums s p (ptr_add p (2 * clean_entry_bitmap_size c)) off iov
  | None =>
    if from_journal then Err Undefined
    else
      assert! inmemory_meta c in
      let p := get_clean_entry_bitmap c (Z.shiftl (Z.shiftr clean_loc (block_order c)) (block_order c)) 0 in
      verify_padded_checksums s p (ptr_add p (2 * clean_entry_bitmap_size c)) off iov
  end.

(** ** Completion *)

(** The [COPY_BUF_CSUM_FILL] elements, from the end of [read_vec]; [meta] says that a
    metadata block was met. *)
Fixpoint check_fills (rrv : list copy_buffer_t) (meta : bool) (s : read_t) : res read_t :=
  match rrv with
  | [] => Ok s
  | el :: rrv =>
    if negb (has_flag COPY_BUF_CSUM_FILL el) then Ok s
    else if has_flag COPY_BUF_META_BLOCK el then assert! negb meta in check_fills rrv true s
    else
      match cb_buf el ≫= (fun k => r_bufs s !! k) with
      | None => Err Undefined
      | Some b =>
        let iov := take (Z.to_nat (Z.shiftr (cb_len el) 32)) (buf_iov b) in
        let* ok :=
          if has_flag COPY_BUF_JOURNAL el then
            match csum_buf el with
            | Some csums => verify_journal_checksums s csums (cb_offset el) iov
            | None => Err Undefined
            end
          else
            let o := block_order (rt_cfg s) in
            match used_clean_objects s !! Z.shiftl (Z.shiftr (disk_offset el) o) o with
            | None => Err Thrown
            | Some uo =>
              if was_changed uo then Ok true
              else verify_clean_padded_checksums s (disk_offset el) (csum_buf el) (has_flag COPY_BUF_JOURNALED_BIG el) iov
            end in
        check_fills rrv meta (if ok then s else with_retval (- EDOM) s)
      end
  end.

(** [for (size_t p = 0; p < vec.len; p += dsk.csum_block_size, csum++)]; [false] at the
    first wrong checksum. *)
Fixpoint blocks_match (fuel : nat) (s : read_t) (el : copy_buffer_t) (csums : ptr_t) (i : Z) : res bool :=
  let cs := csum_block_size (rt_cfg s) in
  if cb_len el <=? i * cs then Ok true
  else
    let* d := load (r_buf s) (cb_offset el - r_offset s + i * cs) cs in
    let* stored := csum_at s csums i in
    if negb (crc_ref 0 d =? stored) then Ok false
    else match fuel with O => Err OutOfFuel | S fuel => blocks_match fuel s el csums (i + 1) end.

Fixpoint check_vec (rv : list copy_buffer_t) (meta : bool) (s : read_t) : res read_t :=
  match rv with
  | [] => Ok s
  | el :: rv =>
    if has_flag COPY_BUF_META_BLOCK el then assert! negb meta in check_vec rv true s
    else
      let* ok := match csum_buf el with None => Ok true | Some csums => blocks_match (Z.to_nat (cb_len el)) s el csums 0 end in
      check_vec rv meta (if ok then s else with_retval (- EDOM) s)
  end.

(** "Release clean data block" *)
Definition release_block (s : read_t) : res read_t :=
  if clean_block_used s =? 0 then Ok s
  else
    match used_clean_objects s !! clean_block_used s with
    | None => Ok s
    | Some uo =>
      if refs uo - 1 <=? 0 then
        let* a := if was_freed uo then set (data_alloc (rt_bs s)) (clean_block_used s) false else Ok (data_alloc (rt_bs s)) in
        Ok (with_bs (with_data_alloc a (rt_bs s)) (with_used (delete (clean_block_used s) (used_clean_objects s)) s))
      else Ok (with_used (<[clean_block_used s := mk_used (refs uo - 1) (was_freed uo) (was_changed uo)]> (used_clean_objects s)) s)
    end.

(** "Release journal sector usage" *)
Fixpoint release_sectors (rv : list copy_buffer_t) (s : read_t) : res read_t :=
  match rv with
  | [] => Ok s
  | el :: rv =>
    if cb_journal_sector el =? 0 then release_sectors rv s
    else
      let k := cb_journal_sector el - 1 in
      match used_sectors (rt_journal s) !! k with
      | None => Err Thrown
      | Some n =>
        if n - 1 =? 0 then
          let b := with_journal (with_used_sectors (delete k (used_sectors (rt_journal s))) (rt_journal s)) (rt_bs s) in
          release_sectors rv (with_bs (with_flusher (mark_trim_possible (flusher b)) b) s)
        else release_sectors rv (with_journal_of (with_used_sectors (<[k := n - 1]> (used_sectors (rt_journal s))) (rt_journal s)) s)
      end
  end.

(** The last request of the read has been completed. *)
Definition complete_read (s : read_t) : res read_t :=
  let c := rt_cfg s in
  let* s :=
    if csum_block_size c =? 0 then Ok s
    else if bitmap_granularity c <? csum_block_size c then check_fills (reverse (read_vec s)) false s
    else check_vec (read_vec s) false s in
  let* s := release_block s in
  let* s := if inmemory (rt_journal s) then Ok s else release_sectors (read_vec s) s in
  Ok (finish_read (if r_retval s =? 0 then with_retval (r_len s) s else s)).

(** [data_res] is what the ring returned for request [rq]. *)
Definition handle_read_event (data_res : Z) (rq : read_req) (s : read_t) : res read_t :=
  let s := with_pending (r_pending s - 1) s in
  let s := if data_res =? rq_len rq then s else with_retval data_res s in
  if r_pending s =? 0 then complete_read s else Ok s.

(** ** [read_bitmap]: the result, the version and the bitmap *)

Fixpoint bitmap_version (versions : dirty_db_t) (o : object_id) (target_version : Z) : option (Z * dirty_entry) :=
  match versions with
  | [] => None
  | (k, e) :: rest =>
    if negb (oid_eqb (oid k) o) then None
    else if negb (IS_IN_FLIGHT (state e)) && (version k <=? target_version) then Some (version k, e)
    else bitmap_version rest o target_version
  end.

Definition read_bitmap (b : blockstore_impl_t) (o : object_id) (target_version : Z) : res (Z * Z * list Z) :=
  let n := clean_entry_bitmap_size (cfg b) in
  match bitmap_version (db_upper [] (dirty_db b) (mk_ov o UINT64_MAX)).1 o target_version with
  | Some (v, e) => let* d := load (dyn_data e) 0 n in Ok (0, v, d)
  | None =>
    match clean_db b !! o with
    | Some ce => let* d := load (meta_mem E) (p_off (get_clean_entry_bitmap (cfg b) (clean_location ce) n)) n in Ok (0, clean_version ce, d)
    | None => Ok (- ENOENT, 0, zeroes n)
    end
  end.
End Reads.
