(* ===== verification/ReadHoles.v ===== *)
(** * The vector of a read: ordered parts and its holes

    Without checksum blocks larger than the granularity [read_vec] is a list of disjoint
    parts of the object in order.  [find_holes] with a callback that inserts the holes it
    is given covers the range it is called for, and nothing else changes. *)

From S2P Require Import Prelude.
From S2P Require Import Blockstore.
From S2P Require Import BlockstoreRead.

(** ** Ordered parts *)

Definition is_part (el : copy_buffer_t) : Prop := has_flag COPY_BUF_CSUM_FILL el = false /\ has_flag COPY_BUF_META_BLOCK el = false.

Fixpoint segs (a : Z) (rv : list copy_buffer_t) (b : Z) : Prop :=
  match rv with
  | [] => a <= b
  | el :: rv => is_part el /\ a <= cb_offset el /\ 0 < cb_len el /\ segs (cb_offset el + cb_len el) rv b
  end.
Definition in_part (i : Z) (el : copy_buffer_t) : Prop := cb_offset el <= i < cb_offset el + cb_len el.
Definition covered (rv : list copy_buffer_t) (i : Z) : Prop := Exists (in_part i) rv.
(** The ends of all parts satisfy [B]. *)
Definition bounded (B : Z -> Prop) (rv : list copy_buffer_t) : Prop := Forall (fun el => B (cb_offset el) /\ B (cb_offset el + cb_len el)) rv.
Fixpoint total (rv : list copy_buffer_t) : Z := match rv with [] => 0 | el :: rv => cb_len el + total rv end.

Lemma segs_le a rv b : segs a rv b -> a <= b.
Proof. revert a. induction rv as [| el rv IH]; simpl; intros a; [done |]. intros (_ & ? & ? & H). apply IH in H. lia. Qed.
Lemma segs_from a a' rv b : a' <= a -> segs a rv b -> segs a' rv b.
Proof. destruct rv; simpl; [lia |]. intros ? (? & ? & ? & ?). split_and!; [done | lia | lia | done]. Qed.
Lemma segs_app a l1 l2 b : segs a (l1 ++ l2) b <-> exists c, segs a l1 c /\ segs c l2 b.
Proof.
  revert a. induction l1 as [| el l1 IH]; simpl; intros a.
  - split; [intros H; exists a; split; [apply Z.le_refl | done] |]. intros (c & ? & ?). by apply segs_from with c.
  - rewrite IH. naive_solver.
Qed.
Lemma segs_app_2 a l1 c l2 b : segs a l1 c -> segs c l2 b -> segs a (l1 ++ l2) b.
Proof. intros. apply segs_app. by exists c. Qed.
Lemma segs_to a rv b b' : b <= b' -> segs a rv b -> segs a rv b'.
Proof. revert a. induction rv as [| el rv IH]; simpl; [lia |]. naive_solver. Qed.
Lemma segs_covered a rv b i : segs a rv b -> covered rv i -> a <= i < b.
Proof.
  revert a. induction rv as [| el rv IH]; simpl; intros a; [intros _ H; by inversion H |].
  intros (_ & ? & ? & H) Hc. apply Exists_cons in Hc as [[? ?] | Hc]; [apply segs_le in H; lia |].
  specialize (IH _ H Hc). lia.
Qed.

Lemma covered_app l1 l2 i : covered (l1 ++ l2) i <-> covered l1 i \/ covered l2 i.
Proof. apply Exists_app. Qed.
Lemma covered_cons el l i : covered (el :: l) i <-> in_part i el \/ covered l i.
Proof. apply Exists_cons. Qed.
Lemma parts_total_app l1 l2 : total (l1 ++ l2) = total l1 + total l2.
Proof. induction l1; simpl; lia. Qed.

Lemma total_le a rv b : segs a rv b -> total rv <= b - a.
Proof. revert a. induction rv as [| el rv IH]; simpl; intros a; [lia |]. intros (_ & ? & ? & H). apply IH in H. lia. Qed.

(** The length of the parts is that of the range exactly when they cover it. *)
Lemma total_full a rv b : segs a rv b -> total rv = b - a <-> forall i, a <= i < b -> covered rv i.
Proof.
  revert a. induction rv as [| el rv IH]; simpl; intros a.
  - intros ?. split; [intros; lia |]. intros Hz. destruct (decide (a = b)); [lia |]. specialize (Hz a ltac:(lia)). by inversion Hz.
  - intros (_ & Ha & Hl & H). pose proof (total_le _ _ _ H) as Ht. pose proof (segs_le _ _ _ H) as Hb. specialize (IH _ H). split.
    + intros Ht' i Hi. apply covered_cons. destruct (decide (i < cb_offset el + cb_len el)); [left; unfold in_part; lia |].
      right. apply IH; lia.
    + intros Hc. assert (cb_offset el = a) as E.
      { destruct (decide (cb_offset el = a)) as [| Hne]; [done | exfalso].
        destruct (proj1 (covered_cons _ _ _) (Hc a ltac:(lia))) as [[? ?] | Hd]; [lia |]. pose proof (segs_covered _ _ _ _ H Hd). lia. }
      rewrite (proj2 IH); [lia |]. intros i Hi. destruct (proj1 (covered_cons _ _ _) (Hc i ltac:(lia))) as [[? ?] |]; [lia | done].
Qed.

(** ** [find_holes] *)

Section Holes.
Context {A : Type} (rv : A -> list copy_buffer_t) (cb : nat -> bool -> Z -> Z -> A -> res (A * nat)).
Context (good : A -> bool) (I W : A -> Prop) (B : Z -> Prop) (lo hi a b : Z).

(** [I] until the callback fails, and [W] then. *)
Definition fine (st : A) : Prop := if good st then I st else W st.

(** The callback ignores what is allocated; a hole it inserts as a part, and once it has
    failed it does nothing. *)
Context (Halloc : forall pos x y st, cb pos true x y st = Ok (st, O)).
Context (Hbad : forall pos x y st, good st = false -> cb pos false x y st = Ok (st, O)).
Context (Hhole : forall st pre suf x y c, I st -> good st = true -> rv st = pre ++ suf -> segs lo pre c -> c <= x -> x < y ->
  segs y suf hi -> a <= x -> y <= b -> B x -> B y ->
  exists st' el, cb (length pre) false x y st = Ok (st', 1%nat) /\ fine st' /\ rv st' = pre ++ el :: suf
    /\ is_part el /\ cb_offset el = x /\ cb_len el = y - x).

Context (Hb : b <= hi) (HBb : B b).

(** [c] is where the parts before position [length pre] end. *)
Definition enough (fuel : nat) (suf : list copy_buffer_t) (x : Z) : Prop :=
  (2 * length suf + 2 <= fuel)%nat
  \/ (2 * length suf + 1 <= fuel)%nat /\ match suf with [] => False | el :: _ => cb_offset el <= x end.

Lemma find_holes_insert st pre suf x y c : fine st -> rv st = pre ++ suf -> segs lo pre c -> c <= x -> x < y ->
  segs y suf hi -> a <= x -> y <= b -> bounded B (rv st) -> B x -> B y ->
  exists st' pre', cb (length pre) false x y st = Ok (st', (length pre' - length pre)%nat) /\ (length pre <= length pre')%nat
    /\ rv st' = pre' ++ suf /\ segs lo pre' y /\ bounded B (rv st') /\ fine st' /\ (good st' = true -> good st = true)
    /\ (good st' = true -> forall i, covered (rv st') i <-> covered (rv st) i \/ x <= i < y).
Proof using Hbad Hhole.
  intros HI Hrv Hpre Hc Hxy Hsuf Ha Hy HB HBx HBy. destruct (good st) eqn:Hg.
  - destruct (Hhole st pre suf x y c) as (st' & el & Hcb & HI' & Hrv' & Hp & Ho & Hl); try done; [unfold fine in HI; by rewrite Hg in HI |].
    exists st', (pre ++ [el]). rewrite length_app. simpl. replace (length pre + 1 - length pre)%nat with 1%nat by lia.
    split_and!; [done | lia | by rewrite <- app_assoc | | | done | done |].
    + apply segs_app_2 with c; [done |]. simpl. split_and!; [done | lia | lia | lia].
    + rewrite Hrv in HB. apply Forall_app in HB as [HB1 HB2]. rewrite Hrv'. apply Forall_app. split; [done |]. apply Forall_cons. split; [| done].
      rewrite Ho, Hl. by replace (x + (y - x)) with y by lia.
    + intros _ i. rewrite Hrv, Hrv', !covered_app, covered_cons. unfold in_part. rewrite Ho, Hl.
      replace (x + (y - x)) with y by lia. tauto.
  - exists st, pre. rewrite Nat.sub_diag. split_and!; [by apply Hbad | lia | done | apply segs_to with c; [lia | done] | done | done | congruence | congruence].
Qed.

Lemma find_holes_loop_ok fuel : forall pre suf x st c, rv st = pre ++ suf -> fine st -> segs lo pre c -> c <= x ->
  segs c suf hi -> a <= x -> enough fuel suf x -> bounded B (rv st) -> B x ->
  exists st', find_holes_loop rv cb fuel (length pre) x b st = Ok st' /\ (segs lo (rv st') hi /\ bounded B (rv st'))
    /\ fine st' /\ (good st' = true -> good st = true)
    /\ (good st' = true -> forall i, covered (rv st') i <-> covered (rv st) i \/ x <= i < b).
Proof using Halloc Hbad Hhole Hb HBb.
  induction fuel as [| fuel IH]; intros pre suf x st c Hrv HI Hpre Hc Hsuf Ha Hf HB HBx; [destruct Hf; lia |]. simpl.
  assert (segs lo (rv st) hi) as Hall by (rewrite Hrv; by apply segs_app_2 with c).
  destruct (b <=? x) eqn:Hbx.
  { apply Z.leb_le in Hbx. exists st. split_and!; [done | done | done | done | done |]. intros _ i. split; [tauto |]. intros [| ?]; [done | lia]. }
  apply Z.leb_gt in Hbx. assert (rv st !! length pre = suf !! O) as -> by (rewrite Hrv, lookup_app_r, Nat.sub_diag by lia; done).
  assert (forall s0, segs b s0 hi -> s0 = suf -> exists st', (let* (a0, _) := cb (length pre) false x b st in Ok a0) = Ok st'
    /\ (segs lo (rv st') hi /\ bounded B (rv st')) /\ fine st' /\ (good st' = true -> good st = true)
    /\ (good st' = true -> forall i, covered (rv st') i <-> covered (rv st) i \/ x <= i < b)) as Hend.
  { intros s0 Hs0 ->. destruct (find_holes_insert st pre suf x b c) as (st' & pre' & Hcb & _ & Hrv' & Hp' & HB' & H1 & H0 & H2); try done.
    exists st'. rewrite Hcb. simpl. split_and!; [done | rewrite Hrv'; by apply segs_app_2 with b | done | done | done | done]. }
  destruct suf as [| el suf]; simpl; [by apply (Hend []) |].
  assert (B (cb_offset el) /\ B (cb_offset el + cb_len el)) as [HBo HBe].
  { rewrite Hrv in HB. apply Forall_app in HB as [_ HB]. by apply Forall_cons in HB as [HB _]. }
  destruct Hsuf as (Hpart & Hco & Hl & Hsuf). rewrite (proj1 Hpart). simpl.
  destruct (b <=? cb_offset el) eqn:Hbo.
  { apply Z.leb_le in Hbo. apply (Hend (el :: suf)); [simpl; split_and!; first [done | lia] | done]. }
  apply Z.leb_gt in Hbo. rewrite (proj2 (Z.ltb_ge b _)) by lia. destruct (x <? cb_offset el) eqn:Hxo.
  - apply Z.ltb_lt in Hxo.
    destruct (find_holes_insert st pre (el :: suf) x (cb_offset el) c) as (st' & pre' & Hcb & Hlen & Hrv' & Hp' & HB' & H1 & H0 & H2); try done; try lia.
    rewrite Hcb. simpl. replace (length pre + (length pre' - length pre))%nat with (length pre') by lia.
    destruct (IH pre' (el :: suf) (cb_offset el) st' (cb_offset el)) as (st'' & Hl' & Hs'' & H1' & H0' & H2'); try done; try lia.
    { right. destruct Hf as [| [_ ?]]; simpl in *; lia. }
    exists st''. split_and!; [done | apply Hs'' | apply Hs'' | done | naive_solver |]. intros Hg i. specialize (H0' Hg) as Hg'.
    rewrite (H2' Hg), (H2 Hg'). assert (x <= i < b <-> x <= i < cb_offset el \/ cb_offset el <= i < b) by lia. tauto.
  - apply Z.ltb_ge in Hxo. assert (rv st = (pre ++ [el]) ++ suf) as Hrv2 by (rewrite Hrv; by rewrite <- app_assoc).
    assert (segs lo (pre ++ [el]) (cb_offset el + cb_len el)) as Hpre2.
    { apply segs_app_2 with c; [done |]. simpl. split_and!; [done | lia | lia | lia]. }
    assert (enough fuel suf (cb_offset el + cb_len el)) as Hf' by (left; destruct Hf as [? | [? _]]; simpl in *; lia).
    assert (forall i, in_part i el -> covered (rv st) i) as Hin.
    { intros i Hi. rewrite Hrv, covered_app, covered_cons. tauto. }
    replace (length pre + 1)%nat with (length (pre ++ [el])) by (rewrite length_app; simpl; lia).
    destruct (x <? cb_offset el + cb_len el) eqn:Hxe.
    + rewrite Halloc. simpl. replace (length pre + 0 + 1)%nat with (length (pre ++ [el])) by (rewrite length_app; simpl; lia).
      destruct (b <? cb_offset el + cb_len el) eqn:Hbe.
      * destruct fuel as [| fuel]; [destruct Hf'; lia |]. simpl. rewrite Z.leb_refl. exists st. split_and!; [done | done | done | done | done |].
        intros _ i. split; [tauto |]. intros [| ?]; [done |]. apply Hin. unfold in_part. lia.
      * destruct (IH (pre ++ [el]) suf (cb_offset el + cb_len el) st (cb_offset el + cb_len el)) as (st' & Hl' & Hs' & H1 & H0 & H2); try done; try lia.
        exists st'. split_and!; [done | apply Hs' | apply Hs' | done | done |]. intros Hg i. rewrite (H2 Hg). split; [intros [| ?]; [tauto | right; lia] |].
        intros [| ?]; [tauto |]. destruct (decide (i < cb_offset el + cb_len el)); [left; apply Hin; unfold in_part; lia | right; lia].
    + apply Z.ltb_ge in Hxe. destruct (IH (pre ++ [el]) suf x st (cb_offset el + cb_len el)) as (st' & Hl' & Hs' & H1 & H0 & H2); try done; try lia.
      { destruct Hf' as [? | [? ?]]; [left; lia | right]. split; [lia |]. destruct suf; [done |]. simpl in *. lia. }
      exists st'. split_and!; [done | apply Hs' | apply Hs' | done | done | done].
Qed.

Lemma find_holes_ok st : segs lo (rv st) hi -> bounded B (rv st) -> B a -> good st = true -> I st -> lo <= a ->
  exists st', find_holes rv cb a b st = Ok st' /\ (segs lo (rv st') hi /\ bounded B (rv st')) /\ fine st'
    /\ (good st' = true -> forall i, covered (rv st') i <-> covered (rv st) i \/ a <= i < b).
Proof using Halloc Hbad Hhole Hb HBb.
  intros Hs HB HBa Hg HI Hlo. unfold find_holes.
  destruct (find_holes_loop_ok (2 * length (rv st) + 2) [] (rv st) a st lo) as (st' & Hl & Hs' & H1 & H0 & H2); try done; simpl; try lia.
  { unfold fine. by rewrite Hg. } { by left. }
  exists st'. split; [done |]. split; [done |]. by split.
Qed.
End Holes.
