(* ===== verification/ReadCollect.v ===== *)
(** * What a read collects

    Every part of a read is either in the user's buffer already or will be written there
    by a request, with the byte that [src] has for it.  [fulfill_read] keeps this
    invariant and covers the range of its item; so do the reads of big writes and clean
    objects when checksum blocks are not larger than the granularity of bitmaps. *)

From S2P Require Import Prelude.
From S2P Require Import Journal.
From S2P Require Import Blockstore.
From S2P Require Import BlockstoreOps.
From S2P Require Import BlockstoreRead.
From S2P Require Import ReadHoles.

(** ** What stays the same while a read is collected *)

Record frame0 (s s' : read_t) : Prop := mk_frame0 {
  f_bs : rt_bs s' = with_sqes_left (sqes_left (rt_bs s')) (rt_bs s);
  f_oid : r_oid s' = r_oid s;
  f_version : r_version s' = r_version s;
  f_off : r_offset s' = r_offset s;
  f_len : r_len s' = r_len s;
  f_retval : r_retval s' = r_retval s;
  f_bufs : r_bufs s' = r_bufs s;
  f_finished : r_finished s' = r_finished s }.
Definition frame (s s' : read_t) : Prop :=
  frame0 s s' /\ used_clean_objects s' = used_clean_objects s /\ r_bitmap s' = r_bitmap s.

Lemma frame0_refl s : frame0 s s.
Proof. split; try done. by destruct s as [[]]. Qed.
Lemma frame0_trans s1 s2 s3 : frame0 s1 s2 -> frame0 s2 s3 -> frame0 s1 s3.
Proof. intros [B1] [B2]. split; try congruence. rewrite B2, B1. done. Qed.
Lemma frame_refl s : frame s s.
Proof. by split; [apply frame0_refl |]. Qed.
Lemma frame_trans s1 s2 s3 : frame s1 s2 -> frame s2 s3 -> frame s1 s3.
Proof. intros (? & ? & ?) (? & ? & ?). split_and!; [by apply frame0_trans with s2 | congruence | congruence]. Qed.
Lemma frame0_cfg s s' : frame0 s s' -> rt_cfg s' = rt_cfg s.
Proof. intros [B]. unfold rt_cfg. by rewrite B. Qed.
Lemma frame0_journal s s' : frame0 s s' -> rt_journal s' = rt_journal s.
Proof. intros [B]. unfold rt_journal. by rewrite B. Qed.
#[export] Hint Resolve frame0_refl frame_refl : reads.

(** The operation waits because the ring has no place. *)
Definition ring_full (s : read_t) : Prop := r_wait_for s = WAIT_SQE /\ sqes_left (rt_bs s) <= 0.

Section Collect.
Context (E : read_env) (disk : fd_t -> Z -> Z).

(** ** The byte of an item *)

Definition item_fd (st : Z) : fd_t := if IS_JOURNAL st then JournalFd else DataFd.
Definition item_base (st : Z) : Z := if IS_JOURNAL st then journal_dev_offset E else data_offset E.
Definition byte_at (j : journal_t) (st pos : Z) : Z :=
  if IS_DELETE st then 0
  else if inmemory j && IS_JOURNAL st then default 0 (mem j !! Z.to_nat pos)
  else disk (item_fd st) (item_base st + pos).

(** The item can be read: it is not in flight, and inside the journal if that is in memory. *)
Definition readable_item (j : journal_t) (st loc n : Z) : Prop :=
  IS_DELETE st = true \/ IS_IN_FLIGHT st = false /\ (inmemory j && IS_JOURNAL st = true -> 0 <= loc /\ loc + n <= zlen (mem j)).

Lemma zlen_zeroes n : 0 <= n -> zlen (zeroes n) = n.
Proof. intros. unfold zeroes. rewrite zlen_replicate. lia. Qed.
Lemma put_user_ok s buf d : 0 <= buf -> buf + zlen d <= zlen (r_buf s) -> put_user buf d s = Ok (with_buf (poked (r_buf s) buf d) s).
Proof. intros Hb Hd. unfold put_user. rewrite (proj2 (Z.ltb_ge _ _)) by lia. by rewrite poke_poked by lia. Qed.

(** A part of [m] bytes at [buf] of the user's buffer is filled with the bytes [f], now
    or by a request. *)
Definition filled (f : Z -> Z) (buf m : Z) (s s' : read_t) : Prop :=
  rt_reqs s' = rt_reqs s /\ r_pending s' = r_pending s
    /\ (exists d, r_buf s' = poked (r_buf s) buf d /\ zlen d = m /\ forall j, 0 <= j < m -> d !! Z.to_nat j = Some (f j))
  \/ exists fd pos, rt_reqs s' = rt_reqs s ++ [mk_req fd [mk_iov (DUser buf) m] pos m] /\ r_pending s' = r_pending s + 1
       /\ r_buf s' = r_buf s /\ forall j, 0 <= j < m -> disk fd (pos + j) = f j.

Lemma push_ok s buf off m st : 0 <= buf -> 0 < m -> buf + m <= zlen (r_buf s) -> readable_item (rt_journal s) st off m ->
  exists s' r, fulfill_read_push E buf off m st s = Ok (s', r) /\ frame s s' /\ read_vec s' = read_vec s
    /\ fulfilled s' = fulfilled s /\ clean_block_used s' = clean_block_used s
    /\ if r then filled (fun j => byte_at (rt_journal s) st (off + j)) buf m s s'
         /\ (IS_DELETE st = true \/ inmemory (rt_journal s) && IS_JOURNAL st = true \/ rt_reqs s' <> []) else IS_DELETE st = false /\ ring_full s'.
Proof.
  intros Hb Hm Hbm Hr. unfold fulfill_read_push. rewrite (proj2 (Z.eqb_neq _ _)) by lia.
  destruct (IS_DELETE st) eqn:Hd.
  { rewrite put_user_ok by (rewrite ?zlen_zeroes; lia). simpl. eexists _, true.
    split_and!; [done | split_and!; [split; try done; by destruct s as [[]] | done | done] | done | done | done | | by left]. left.
    split_and!; [done | done |]. exists (zeroes m). split_and!; [done | by rewrite zlen_zeroes by lia |]. intros j Hj.
    unfold byte_at. rewrite Hd. apply lookup_replicate_2. lia. }
  destruct Hr as [Hr | [Hf Hj]]; [congruence |]. rewrite Hf. simpl.
  destruct (inmemory (rt_journal s) && IS_JOURNAL st) eqn:Hij.
  { destruct (Hj eq_refl) as [H1 H2]. rewrite load_slice by lia. simpl.
    assert (zlen (slice (mem (rt_journal s)) off m) = m) as Hz by (apply zlen_slice; lia).
    rewrite put_user_ok by lia. simpl. eexists _, true.
    split_and!; [done | split_and!; [split; try done; by destruct s as [[]] | done | done] | done | done | done | | by right; left]. left.
    split_and!; [done | done |]. eexists. split_and!; [done | done |]. intros j Hjm. rewrite lookup_slice, decide_True by lia.
    unfold byte_at. rewrite Hd, Hij. destruct (lookup_lt_is_Some_2 (mem (rt_journal s)) (Z.to_nat off + Z.to_nat j)) as [x Hx].
    { unfold zlen in *. lia. } rewrite Hx. replace (Z.to_nat (off + j)) with (Z.to_nat off + Z.to_nat j)%nat by lia. by rewrite Hx. }
  unfold submit_readv, get_sqe. destruct (0 <? sqes_left (rt_bs s)) eqn:Hq; cycle 1.
  { apply Z.ltb_ge in Hq. eexists _, false. split_and!; try done. split; try done. by destruct s as [[]]. }
  eexists _, true. split_and!; [done | split_and!; [by split | done | done] | done | done | done | |]; [right |].
  - eexists _, _. split_and!; [done | done | done |]. intros j Hjm. unfold byte_at. rewrite Hd, Hij.
    unfold item_fd, item_base. destruct (IS_JOURNAL st); f_equal; lia.
  - right. right. simpl. by destruct (rt_reqs s).
Qed.

(** ** The invariant: [src] is the object, the read is [n] bytes at [lo], and [U] are the
    used sectors of the journal; [B] holds of the ends of parts and [K] of the parts *)

Context (src : Z -> Z) (lo n : Z) (U : gmap Z Z) (B : Z -> Prop) (K : copy_buffer_t -> Prop).
Context (HBlo : B lo) (HBhi : B (lo + n)).

Definition good_req (rq : read_req) : Prop :=
  exists fd o m pos, rq = mk_req fd [mk_iov (DUser o) m] pos m /\ 0 <= o /\ 0 <= m /\ o + m <= n
    /\ forall j, 0 <= j < m -> disk fd (pos + j) = src (lo + o + j).
Definition req_at (k : Z) (rq : read_req) : Prop := exists o m, rq_iov rq = [mk_iov (DUser o) m] /\ o <= k < o + m.
Definition sector_ok (k : Z) : Prop := k = 0 \/ is_Some (U !! (k - 1)).

Record inv (s : read_t) : Prop := mk_inv {
  i_off : r_offset s = lo;
  i_len : r_len s = n;
  i_segs : segs lo (read_vec s) (lo + n);
  i_total : fulfilled s = total (read_vec s);
  i_buf : zlen (r_buf s) = n;
  i_reqs : Forall good_req (rt_reqs s);
  i_bytes : forall i, covered (read_vec s) i -> Exists (req_at (i - lo)) (rt_reqs s) \/ r_buf s !! Z.to_nat (i - lo) = Some (src i);
  i_pending : r_pending s = zlen (rt_reqs s);
  i_sectors : Forall (fun el => sector_ok (cb_journal_sector el)) (read_vec s);
  i_bounds : bounded B (read_vec s);
  i_parts : Forall K (read_vec s);
  i_csum : Forall (fun el => csum_buf el = None \/ rt_reqs s <> []) (read_vec s) }.

(** A part with the right bytes is added. *)
Lemma inv_filled s s' pre suf c el x y f : inv s -> read_vec s = pre ++ suf -> segs lo pre c -> c <= x -> x < y -> segs y suf (lo + n) ->
  frame s s' -> read_vec s' = pre ++ el :: suf -> is_part el -> cb_offset el = x -> cb_len el = y - x ->
  sector_ok (cb_journal_sector el) -> K el -> B x -> B y -> csum_buf el = None \/ rt_reqs s' <> [] -> fulfilled s' = fulfilled s + (y - x) ->
  filled f (x - lo) (y - x) s s' -> (forall i, x <= i < y -> src i = f (i - x)) -> inv s'.
Proof.
  intros [Ho Hl Hs Ht Hb Hr Hby Hp Hse HB HK Hcs] Hrv Hpre Hc Hxy Hsuf Hf Hrv' Hpart Hx Hlen Hsec HKe HBx HBy Hce Hful Hfill Hsrc.
  pose proof (segs_le _ _ _ Hpre) as Hlo. pose proof (segs_le _ _ _ Hsuf) as Hhi. destruct Hf as [[? ? ? Fo Fl _ _ _] _].
  assert (segs lo (read_vec s') (lo + n)) as Hs'.
  { rewrite Hrv'. apply segs_app_2 with c; [done |]. simpl. rewrite Hx, Hlen. replace (x + (y - x)) with y by lia.
    split; [done |]. split; [done |]. split; [lia | done]. }
  assert (Hcov : forall i, covered (read_vec s') i -> x <= i < y \/ covered (read_vec s) i /\ lo <= i < lo + n).
  { intros i Hi. pose proof (segs_covered _ _ _ _ Hs' Hi). revert Hi. rewrite Hrv', Hrv, !covered_app, covered_cons. unfold in_part.
    rewrite Hx, Hlen. intros [| [? |]]; [tauto | lia | tauto]. }
  split; try congruence.
  - rewrite Hful, Hrv', Ht, Hrv, !parts_total_app. simpl. lia.
  - destruct Hfill as [(_ & _ & d & -> & Hd & _) | (fd & pos & _ & _ & -> & _)]; [rewrite zlen_poked by lia; done | done].
  - destruct Hfill as [(-> & _) | (fd & pos & -> & _ & _ & Hdisk)]; [done |]. apply Forall_app. split; [done |]. apply Forall_singleton.
    exists fd, (x - lo), (y - x), pos. split_and!; [done | lia | lia | lia |]. intros j Hj. rewrite Hdisk by lia.
    rewrite Hsrc by lia. f_equal. lia.
  - intros i Hi. destruct Hfill as [(-> & _ & d & -> & Hd & Hbytes) | (fd & pos & -> & _ & -> & _)].
    + pose proof (segs_covered _ _ _ _ Hs' Hi). rewrite lookup_poked by lia. case_decide as Hin.
      * right. replace (Z.to_nat (Z.of_nat (Z.to_nat (i - lo)) - (x - lo))) with (Z.to_nat (i - x)) by lia.
        rewrite Hbytes by lia. by rewrite Hsrc by lia.
      * apply Hby. destruct (Hcov i Hi) as [? | [? _]]; [| done]. exfalso. apply Hin. rewrite Hd. lia.
    + destruct (Hcov i Hi) as [Hin | [Hc' _]].
      * left. apply Exists_app. right. apply Exists_cons. left. exists (x - lo), (y - x). split; [done | lia].
      * destruct (Hby i Hc') as [| ?]; [left; apply Exists_app; by left | by right].
  - destruct Hfill as [(-> & -> & _) | (fd & pos & -> & -> & _)]; [done |]. rewrite zlen_app. unfold zlen in *. simpl. lia.
  - rewrite Hrv in Hse. apply Forall_app in Hse as [? ?]. rewrite Hrv'. apply Forall_app. split; [done |]. by apply Forall_cons.
  - rewrite Hrv in HB. apply Forall_app in HB as [? ?]. rewrite Hrv'. apply Forall_app. split; [done |]. apply Forall_cons. split; [| done].
    rewrite Hx, Hlen. by replace (x + (y - x)) with y by lia.
  - rewrite Hrv in HK. apply Forall_app in HK as [? ?]. rewrite Hrv'. apply Forall_app. split; [done |]. by apply Forall_cons.
  - assert (Forall (fun el => csum_buf el = None \/ rt_reqs s' <> []) (read_vec s)) as Hcs'.
    { apply (Forall_impl _ _ _ Hcs). intros e [| Hne]; [by left | right]. destruct Hfill as [(-> & _) | (fd & pos & -> & _)]; [done | by destruct (rt_reqs s)]. }
    rewrite Hrv in Hcs'. apply Forall_app in Hcs' as [? ?]. rewrite Hrv'. apply Forall_app. split; [done |]. by apply Forall_cons.
Qed.

(** ** One item *)

Section Item.
Context (cf : config_t) (j : journal_t) (item_start item_end st loc sector : Z) (csum : option ptr_t).
Definition item_part (x y : Z) : copy_buffer_t :=
  mk_cb (if IS_JOURNAL st then COPY_BUF_JOURNAL else COPY_BUF_DATA) x (y - x) (loc + x - item_start) (if IS_JOURNAL st then sector else 0) None
    (match csum with None => None | Some p => Some (ptr_add p ((x - item_start) / csum_block_size cf * Z.land (data_csum_type cf) 0xff)) end).
Context (Hcs : csum_block_size cf <= bitmap_granularity cf) (HBs : B item_start) (HBe : B item_end).
Context (HK : forall x y, B x -> B y -> item_start <= x -> x < y -> y <= item_end -> K (item_part x y)).
Context (Hcn : csum = None \/ IS_DELETE st = false /\ inmemory j && IS_JOURNAL st = false).
Context (Hitem : readable_item j st loc (item_end - item_start)) (Hsec : IS_JOURNAL st = true -> sector_ok sector).

Lemma fulfill_item_ok s pre suf c x y : inv s -> rt_journal s = j -> rt_cfg s = cf -> B x -> B y ->
  read_vec s = pre ++ suf -> segs lo pre c -> c <= x -> x < y -> segs y suf (lo + n) -> item_start <= x -> y <= item_end ->
  (forall i, x <= i < y -> src i = byte_at j st (loc + i - item_start)) ->
  exists s' r el, fulfill_item E item_start item_end st loc sector csum (length pre) false x y (s, true) = Ok ((s', r), 1%nat)
    /\ frame s s' /\ read_vec s' = pre ++ el :: suf /\ is_part el /\ cb_offset el = x /\ cb_len el = y - x
    /\ clean_block_used s' = (if IS_BIG_WRITE st then 1 else clean_block_used s)
    /\ if r then inv s' else IS_DELETE st = false /\ ring_full s'.
Proof using Hitem Hsec Hcs HK Hcn.
  intros Hi Hj Hcf HBx HBy Hrv Hpre Hc Hxy Hsuf Hx Hy Hsrc. unfold fulfill_item. cbn [negb orb]. rewrite Hcf.
  rewrite (proj2 (Z.ltb_ge (bitmap_granularity _) _)) by lia. rewrite andb_false_r. cbn [andb]. fold (item_part x y).
  set (el := item_part x y). set (s1 := if IS_BIG_WRITE st then with_block_used 1 s else s).
  set (s2 := with_fulfilled _ _).
  assert (frame s s2) as Hf by (unfold s2, s1; split; [split; destruct (IS_BIG_WRITE st); try done; by destruct s as [[]] | by destruct (IS_BIG_WRITE st)]).
  pose proof (segs_le _ _ _ Hpre) as Hlo. pose proof (segs_le _ _ _ Hsuf) as Hhi.
  assert (r_buf s2 = r_buf s /\ r_offset s2 = lo /\ fulfilled s2 = fulfilled s + (y - x) /\ rt_reqs s2 = rt_reqs s /\ r_pending s2 = r_pending s
    /\ clean_block_used s2 = (if IS_BIG_WRITE st then 1 else clean_block_used s) /\ read_vec s2 = pre ++ el :: suf) as (Hb2 & Ho2 & Hf2 & Hr2 & Hp2 & Hc2 & Hv2).
  { rewrite <- (i_off _ Hi). unfold s2, s1, vec_insert. destruct (IS_BIG_WRITE st); simpl; rewrite Hrv;
      rewrite take_app_length, drop_app_length; done. }
  rewrite Ho2. simpl. destruct (push_ok s2 (x - lo) (loc + x - item_start) (y - x) st) as (s' & r & Hpush & Hf' & Hv' & Hful' & Hc' & Hres).
  { lia. } { lia. } { rewrite Hb2, (i_buf _ Hi). lia. }
  { rewrite (frame0_journal s s2), Hj by apply Hf. destruct Hitem as [| [? Hm]]; [by left | right]. split; [done |]. intros Hij.
    specialize (Hm Hij). lia. }
  rewrite Hpush. simpl. exists s', (if r then true else false), el.
  assert (is_part el) as Hpart by (unfold el, item_part; split; destruct (IS_JOURNAL st); done).
  assert (frame s s') as Hfs by (by apply frame_trans with s2).
  split_and!; [done | done | congruence | done | done | done | congruence |]. destruct r; [| done].
  eapply (inv_filled s s' pre suf c el x y); try done; [congruence | | by apply HK | | congruence | | ].
  - unfold el. simpl. destruct (IS_JOURNAL st); [by apply Hsec | by left].
  - destruct Hres as [_ Hreq]. rewrite (frame0_journal s s2), Hj in Hreq by apply Hf. unfold el, item_part. simpl.
    destruct Hcn as [-> | [Hnd Hnj]]; [by left |]. right. rewrite Hnd, Hnj in Hreq. by destruct Hreq as [? | [? | ?]].
  - destruct Hres as [Hres _]. unfold filled in Hres |- *. rewrite Hr2, Hp2, Hb2 in Hres. exact Hres.
  - intros i Hix. simpl. rewrite (frame0_journal s s2), Hj by apply Hf. rewrite Hsrc by done. f_equal. lia.
Qed.

Definition in_read (i : Z) : Prop := lo <= i < lo + n.

Lemma fulfill_read_ok s : inv s -> rt_journal s = j -> rt_cfg s = cf ->
  (forall i, item_start <= i < item_end -> in_read i -> ~ covered (read_vec s) i -> src i = byte_at j st (loc + i - item_start)) ->
  exists s' r, fulfill_read E item_start item_end st loc sector csum s = Ok (s', r) /\ frame s s'
    /\ (clean_block_used s' = clean_block_used s \/ IS_BIG_WRITE st = true /\ clean_block_used s' = 1)
    /\ if r then inv s' /\ forall i, covered (read_vec s') i <-> covered (read_vec s) i \/ item_start <= i < item_end /\ in_read i
       else IS_DELETE st = false /\ ring_full s'.
Proof using Hitem Hsec Hcs HK HBs HBe HBlo HBhi Hcn.
  intros Hi Hj Hcf Hsrc. unfold fulfill_read. pose proof (i_off _ Hi) as Ho. pose proof (i_len _ Hi) as Hl.
  rewrite Ho, Hl. destruct ((item_start <? lo + n) && (lo <? item_end)) eqn:Hx; cycle 1.
  { exists s, true. split_and!; [done | apply frame_refl | by left | done |]. intros i. unfold in_read.
    apply andb_false_iff in Hx. rewrite !Z.ltb_ge in Hx. split; [tauto |]. intros [| ?]; [done | lia]. }
  apply andb_true_iff in Hx as [Hx1%Z.ltb_lt Hx2%Z.ltb_lt].
  set (a := if item_start <? lo then lo else item_start). set (b := if lo + n <? item_end then lo + n else item_end).
  assert (lo <= a /\ item_start <= a /\ (a = lo \/ a = item_start) /\ b <= lo + n /\ b <= item_end /\ (b = lo + n \/ b = item_end)) as (Ha1 & Ha2 & Ha3 & Hb1 & Hb2 & Hb3).
  { unfold a, b. destruct (item_start <? lo) eqn:?, (lo + n <? item_end) eqn:?; lia. }
  assert (B a /\ B b) as [HBa HBb] by (destruct Ha3 as [-> | ->], Hb3 as [-> | ->]; done).
  set (same st' := frame s st' /\ (clean_block_used st' = clean_block_used s \/ IS_BIG_WRITE st = true /\ clean_block_used st' = 1)).
  destruct (find_holes_ok (fun t : read_t * bool => read_vec t.1) (fulfill_item E item_start item_end st loc sector csum) (fun t => t.2)
    (fun t => inv t.1 /\ same t.1 /\ forall i, covered (read_vec s) i -> covered (read_vec t.1) i) (fun t => same t.1 /\ IS_DELETE st = false /\ ring_full t.1)
    B lo (lo + n) a b) with (st := (s, true)) as ([s' r] & Hfh & _ & Hfine & Hcov); try done.
  - intros pos x y [st0 r]. simpl. by rewrite orb_true_r.
  - intros pos x y [st0 r]. simpl. by intros ->.
  - intros [t r] pre suf x y c (Hi' & [Hf Hbu] & Hsub) Hg Hrv Hpre Hc Hxy Hsuf Hax Hyb HBx HBy. simpl in *. subst r.
    destruct (fulfill_item_ok t pre suf c x y) as (t' & r & el & Hit & Hf' & Hrv' & Hp & Hof & Hlen & Hbu' & Hr); try done; try lia.
    { rewrite (frame0_journal s t); [done | apply Hf]. }
    { rewrite (frame0_cfg s t); [done | apply Hf]. }
    { intros i Hin. apply Hsrc; [lia | unfold in_read; pose proof (segs_le _ _ _ Hpre); lia |]. intros Hcv. apply Hsub in Hcv.
      rewrite Hrv, covered_app in Hcv. destruct Hcv as [Hcv | Hcv]; eapply segs_covered in Hcv; try done; lia. }
    exists (t', r), el. split_and!; try done. unfold fine. simpl.
    assert (same t') as Hsame. { split; [by apply frame_trans with t |]. rewrite Hbu'. destruct (IS_BIG_WRITE st); [by right; split | done]. }
    destruct r; [| done]. split_and!; [done | done |]. intros i Hcv. apply Hsub in Hcv. rewrite Hrv' , covered_app, covered_cons.
    rewrite Hrv, covered_app in Hcv. tauto.
  - apply Hi.
  - apply Hi.
  - split_and!; [done | | done]. split; [apply frame_refl | by left].
  - exists s', r. unfold fine in Hfine. simpl in *. destruct r.
    + destruct Hfine as (Hi' & [Hf Hbu] & _). split_and!; [done | done | done | done |]. intros i. rewrite Hcov by done.
      assert (a <= i < b <-> item_start <= i < item_end /\ in_read i) as -> by (unfold in_read; lia). done.
    + destruct Hfine as ([Hf Hbu] & Hw & Hq). split; [done |]. split; [done |]. by split.
Qed.
End Item.

(** ** Zeroes, big writes and clean objects *)

Definition DATA_STATE : Z := Z.lor BS_ST_BIG_WRITE BS_ST_STABLE.
Definition ZERO_STATE : Z := Z.lor BS_ST_DELETE BS_ST_STABLE.

(** [r] parts are all there, or the operation has to wait for the ring. *)
Definition reads_all (s : read_t) (s' : read_t) (r : bool) : Prop :=
  frame s s' /\ (clean_block_used s' = clean_block_used s \/ clean_block_used s' = 1)
  /\ if r then inv s' /\ forall i, in_read i -> covered (read_vec s') i else ring_full s'.

Section Clean.
Context (c : config_t) (Hcs : csum_block_size c <= bitmap_granularity c).

Lemma fulfill_zero_ok s a b : inv s -> rt_cfg s = c -> B a -> B b ->
  (forall x y, B x -> B y -> a <= x -> x < y -> y <= b -> K (item_part c a ZERO_STATE 0 0 None x y)) ->
  (forall i, a <= i < b -> in_read i -> ~ covered (read_vec s) i -> src i = 0) ->
  exists s', fulfill_zero E a b s = Ok s' /\ frame s s' /\ clean_block_used s' = clean_block_used s /\ inv s'
    /\ forall i, covered (read_vec s') i <-> covered (read_vec s) i \/ a <= i < b /\ in_read i.
Proof using Hcs HBlo HBhi.
  intros Hi Hc HBa HBb HKz Hsrc. unfold fulfill_zero. fold ZERO_STATE.
  destruct (fulfill_read_ok c (rt_journal s) a b ZERO_STATE 0 0 None) with (s := s) as (s' & r & Hr & Hf & Hb & Hres); try done.
  { by left. } { by left. }
  rewrite Hr. simpl. destruct r; [| by destruct Hres]. exists s'. destruct Hres as [Hi' Hcov].
  split_and!; try done. by destruct Hb as [| [? _]].
Qed.

Lemma inv_full s : inv s -> n <= fulfilled s -> forall i, in_read i -> covered (read_vec s) i.
Proof.
  intros Hi Hn. apply (proj1 (total_full lo (read_vec s) (lo + n) (i_segs _ Hi))). rewrite (i_total _ Hi) in Hn.
  pose proof (total_le _ _ _ (i_segs _ Hi)). lia.
Qed.
Lemma full_fulfilled s : inv s -> (forall i, in_read i -> covered (read_vec s) i) -> fulfilled s = n.
Proof.
  intros Hi Hn. rewrite (i_total _ Hi). rewrite (proj2 (total_full lo (read_vec s) (lo + n) (i_segs _ Hi))); [lia | done].
Qed.

Lemma data_item_ok s a b loc csum : inv s -> rt_cfg s = c -> B a -> B b ->
  (forall x y, B x -> B y -> a <= x -> x < y -> y <= b -> K (item_part c a DATA_STATE (loc + a) 0 csum x y)) ->
  (forall i, a <= i < b -> in_read i -> ~ covered (read_vec s) i -> src i = disk DataFd (data_offset E + (loc + i))) ->
  exists s' r, fulfill_read E a b DATA_STATE (loc + a) 0 csum s = Ok (s', r) /\ frame s s'
    /\ (clean_block_used s' = clean_block_used s \/ clean_block_used s' = 1)
    /\ if r then inv s' /\ forall i, covered (read_vec s') i <-> covered (read_vec s) i \/ a <= i < b /\ in_read i
       else ring_full s'.
Proof using Hcs HBlo HBhi.
  intros Hi Hc HBa HBb HKd Hsrc.
  destruct (fulfill_read_ok c (rt_journal s) a b DATA_STATE (loc + a) 0 csum) with (s := s) as (s' & r & Hr & Hf & Hb & Hres); try done.
  { right. split; [done |]. by rewrite andb_false_r. } { right. split; [done |]. by rewrite andb_false_r. }
  { intros i Hin Hr Hcov. rewrite Hsrc by done. unfold byte_at. change (IS_DELETE DATA_STATE) with false. change (IS_JOURNAL DATA_STATE) with false.
    rewrite andb_false_r. unfold item_fd, item_base. change (IS_JOURNAL DATA_STATE) with false. cbv iota. f_equal. lia. }
  exists s', r. split_and!; [done | done | by destruct Hb as [| [_ ?]]; [left | right] |]. destruct r; [done | by destruct Hres].
Qed.

(** A big write: data inside of its range and zeroes outside. *)
Definition big_byte (a b loc i : Z) : Z := if (a <=? i) && (i <? b) then disk DataFd (data_offset E + (loc + i)) else 0.

Lemma clean_from_journal_ok s p a b loc : inv s -> rt_cfg s = c -> 0 <= lo -> lo + n <= data_block_size c -> 0 <= a -> a <= b -> b <= data_block_size c ->
  (forall x, B x) -> (forall el, K el) ->
  (forall i, in_read i -> ~ covered (read_vec s) i -> src i = big_byte a b loc i) ->
  exists s' r, clean_from_journal E p a b loc s = Ok (s', r) /\ reads_all s s' r.
Proof using Hcs HBlo HBhi.
  intros Hi Hc H0 Hd Ha Hab Hbd HB HK Hsrc. unfold clean_from_journal. rewrite Hc. set (csum := if csum_block_size c =? 0 then _ else _).
  destruct (data_item_ok s a b loc csum) as (s1 & r & Hr & Hf1 & Hb1 & Hres); try done.
  { intros i Hin Hr Hcov. rewrite Hsrc by done. unfold big_byte. by rewrite (proj2 (Z.leb_le _ _)), (proj2 (Z.ltb_lt _ _)) by lia. }
  fold DATA_STATE. rewrite Hr. cbn [rbind]. destruct r; cbn [negb]; [| exists s1, false; by split_and!].
  destruct Hres as [Hi1 Hcov1].
  assert (exists s2, (if (0 <? a) && (fulfilled s1 <? r_len s1) then fulfill_zero E 0 a s1 else Ok s1) = Ok s2 /\ frame s1 s2
    /\ clean_block_used s2 = clean_block_used s1 /\ inv s2 /\ (forall i, covered (read_vec s1) i -> covered (read_vec s2) i)
    /\ forall i, in_read i -> i < b -> covered (read_vec s2) i) as (s2 & -> & Hf2 & Hb2 & Hi2 & Hsub2 & Hcov2).
  { destruct (0 <? a) eqn:Ha0; cbn [andb]; cycle 1.
    { apply Z.ltb_ge in Ha0. exists s1. split_and!; try done; [apply frame_refl |]. intros i Hr' Hib. apply Hcov1. right. split; [| done].
      unfold in_read in Hr'. lia. }
    destruct (fulfilled s1 <? r_len s1) eqn:Hfl; cycle 1.
    { apply Z.ltb_ge in Hfl. rewrite (i_len _ Hi1) in Hfl. exists s1. split_and!; try done; [apply frame_refl |].
      intros i Hr' _. by apply (inv_full _ Hi1). }
    destruct (fulfill_zero_ok s1 0 a) as (s2 & Hz & Hf2 & Hb2 & Hi2 & Hcov2); try done.
    { rewrite (frame0_cfg s s1); [done | apply Hf1]. }
    { intros i Hin Hr' Hnc. rewrite Hsrc; [| done | intros Hx; apply Hnc, Hcov1; by left]. unfold big_byte. by rewrite (proj2 (Z.leb_gt a i)) by lia. }
    exists s2. split_and!; try done; [intros i Hx; apply Hcov2; by left |]. intros i Hr' Hib. apply Hcov2.
    destruct (decide (i < a)); [right; unfold in_read in Hr'; split; [lia | done] | left; apply Hcov1; right; split; [lia | done]]. }
  cbn [rbind].
  assert (exists s3, (if (b <? data_block_size c) && (fulfilled s2 <? r_len s2) then fulfill_zero E b (data_block_size c) s2 else Ok s2) = Ok s3
    /\ frame s2 s3 /\ clean_block_used s3 = clean_block_used s2 /\ inv s3 /\ forall i, in_read i -> covered (read_vec s3) i)
    as (s3 & -> & Hf3 & Hb3 & Hi3 & Hcov3).
  { destruct (b <? data_block_size c) eqn:Hbb; cbn [andb]; cycle 1.
    { apply Z.ltb_ge in Hbb. exists s2. split_and!; try done; [apply frame_refl |]. intros i Hr'. apply Hcov2; [done |]. unfold in_read in Hr'. lia. }
    destruct (fulfilled s2 <? r_len s2) eqn:Hfl; cycle 1.
    { apply Z.ltb_ge in Hfl. rewrite (i_len _ Hi2) in Hfl. exists s2. split_and!; try done; [apply frame_refl | by apply (inv_full _ Hi2)]. }
    destruct (fulfill_zero_ok s2 b (data_block_size c)) as (s3 & Hz & Hf3 & Hb3 & Hi3 & Hcov3); try done.
    { rewrite (frame0_cfg s1 s2), (frame0_cfg s s1); [done | apply Hf1 | apply Hf2]. }
    { intros i Hin Hr' Hnc. rewrite Hsrc; [| done | intros Hx; apply Hnc, Hsub2, Hcov1; by left]. unfold big_byte.
      rewrite (proj2 (Z.ltb_ge i b)) by lia. by rewrite andb_false_r. }
    exists s3. split_and!; try done. intros i Hr'. apply Hcov3. destruct (decide (i < b)); [left; by apply Hcov2 |].
    right. unfold in_read in Hr'. split; [lia | done]. }
  cbn [rbind]. exists s3, true. split; [done |]. split_and!; [| by rewrite Hb3, Hb2 | done | done].
  apply frame_trans with s1; [done |]. by apply frame_trans with s2.
Qed.

(** ** Scanning a bitmap *)

Section Bitmap.
Context (p : ptr_t) (bit : Z -> bool) (size : Z) (Hbit : forall s i, 0 <= i <= size -> bitmap_bit E s p i = Ok (bit i)).

Lemma scan_bits_ok late s v fuel : forall pos, 0 <= pos <= size -> size - pos <= Z.of_nat fuel ->
  exists e, scan_bits E late s p v fuel pos size = Ok e /\ pos <= e <= size /\ (forall k, pos <= k < e -> bit k = v) /\ (e = size \/ bit e <> v).
Proof using Hbit.
  induction fuel as [| fuel IH]; intros pos Hp Hf; simpl.
  - assert (pos = size) as -> by lia. rewrite Z.leb_refl, andb_true_r. destruct late; simpl.
    + rewrite Hbit by lia. simpl. rewrite orb_true_r. exists size. split_and!; [done | lia | lia | intros; lia | by left].
    + exists size. split_and!; [done | lia | lia | intros; lia | by left].
  - destruct (size <=? pos) eqn:Hs.
    { apply Z.leb_le in Hs. assert (pos = size) as -> by lia. rewrite andb_true_r. destruct late; simpl;
        [rewrite Hbit by lia; simpl; rewrite orb_true_r |]; (exists size; split_and!; [done | lia | lia | intros; lia | by left]). }
    rewrite andb_false_r, Hbit by lia. simpl. rewrite orb_false_r. apply Z.leb_gt in Hs. destruct (Bool.eqb (bit pos) v) eqn:Hb; simpl.
    + apply Bool.eqb_prop in Hb. destruct (IH (pos + 1)) as (e & He & Hle & Hall & Hend); try lia. exists e. split_and!; try done; try lia.
      intros k Hk. destruct (decide (k = pos)) as [-> |]; [done | apply Hall; lia].
    + exists pos. split_and!; [done | lia | lia | intros; lia |]. right. intros Hx. rewrite Hx, eqb_reflx in Hb. done.
Qed.

Definition clean_byte (loc i : Z) : Z := if bit (i / bitmap_granularity c) then disk DataFd (data_offset E + (loc + i)) else 0.

(** The checksums of a run of granules that begins with [e]. *)
Definition csum_for (csum : ptr_t) (e : Z) : option ptr_t :=
  if csum_block_size c =? 0 then None else Some (ptr_add csum (2 * clean_entry_bitmap_size c + e * Z.land (data_csum_type c) 0xff)).

Context (loc : Z) (csum : ptr_t) (HBg : forall q, B (q * bitmap_granularity c)).
Context (HKz : forall q e x y, (forall k, q <= k < e -> bit k = false) -> B x -> B y -> q * bitmap_granularity c <= x -> x < y ->
  y <= e * bitmap_granularity c -> K (item_part c (q * bitmap_granularity c) ZERO_STATE 0 0 None x y)).
Context (HKc : forall e e' x y, 0 <= e -> (forall k, e <= k < e' -> bit k = true) -> B x -> B y -> e * bitmap_granularity c <= x -> x < y ->
  y <= e' * bitmap_granularity c ->
  K (item_part c (e * bitmap_granularity c) DATA_STATE (loc + e * bitmap_granularity c) 0 (csum_for csum e) x y)).
Context (Hg : 0 < bitmap_granularity c) (Hsize : data_block_size c <= size * bitmap_granularity c) (Hd : lo + n <= data_block_size c).

Lemma clean_loop_ok fuel : forall q s, inv s -> rt_cfg s = c -> 0 <= q <= size -> size - q <= Z.of_nat fuel ->
  (forall i, in_read i -> i < q * bitmap_granularity c -> covered (read_vec s) i) ->
  (forall i, in_read i -> ~ covered (read_vec s) i -> src i = clean_byte loc i) ->
  exists s' r, clean_loop E fuel p csum true loc q q size s = Ok (s', r) /\ reads_all s s' r.
Proof using Hcs Hbit Hg Hsize Hd HBlo HBhi HBg HKc HKz.
  unfold csum_for in HKc. set (g := bitmap_granularity c) in *.
  induction fuel as [| fuel IH]; intros q s Hi Hc Hq Hf Hdone Hsrc; simpl.
  { rewrite (proj2 (Z.leb_le _ _)) by lia. exists s, true. split; [done |]. split_and!; [apply frame_refl | by left | done |].
    intros i Hr. apply Hdone; [done |]. unfold in_read in Hr. nia. }
  destruct (size <=? q) eqn:Hsq.
  { apply Z.leb_le in Hsq. exists s, true. split; [done |]. split_and!; [apply frame_refl | by left | done |].
    intros i Hr. apply Hdone; [done |]. unfold in_read in Hr. nia. }
  apply Z.leb_gt in Hsq. rewrite Hc. fold g.
  destruct (scan_bits_ok true s false (Z.to_nat (size - q)) q) as (e & -> & He & Hz & Hend); try lia. cbn [rbind].
  assert (exists s1, (if q <? e then fulfill_zero E (q * g) (e * g) s else Ok s) = Ok s1 /\ frame s s1 /\ clean_block_used s1 = clean_block_used s
    /\ inv s1 /\ forall i, covered (read_vec s1) i <-> covered (read_vec s) i \/ q * g <= i < e * g /\ in_read i) as (s1 & -> & Hf1 & Hb1 & Hi1 & Hcov1).
  { destruct (q <? e) eqn:Hqe; cycle 1.
    { apply Z.ltb_ge in Hqe. exists s. split_and!; try done; [apply frame_refl |]. intros i. split; [tauto |]. intros [| [? _]]; [done | nia]. }
    apply fulfill_zero_ok; try done; [intros x y; by apply HKz |]. intros i Hin Hr Hnc. rewrite Hsrc by done. unfold clean_byte. rewrite Hz; [done |].
    fold g. split; [apply Z.div_le_lower_bound; lia | apply Z.div_lt_upper_bound; lia]. }
  cbn [rbind].
  destruct (scan_bits_ok true s1 true (Z.to_nat (size - e)) e) as (e' & -> & He' & Ho & Hend'); try lia. cbn [rbind].
  assert (rt_cfg s1 = c) as Hc1 by (rewrite (frame0_cfg s s1); [done | apply Hf1]).
  destruct (e <? e') eqn:Hee; cycle 1.
  { apply Z.ltb_ge in Hee. assert (e' = e) as -> by lia.
    destruct (IH e s1) as (s' & r & Hl & Hfr & Hbu & Hres); try done.
    - lia.
    - destruct Hend as [-> | Hne]; [lia |]. destruct Hend' as [-> | Hne']; [lia |]. by destruct (bit e).
    - intros i Hr Hlt. apply Hcov1. destruct (decide (i < q * g)); [left; by apply Hdone | right; split; [lia | done]].
    - intros i Hr Hnc. apply Hsrc; [done |]. intros Hx. apply Hnc, Hcov1. by left.
    - exists s', r. split; [done |]. split_and!; [by apply frame_trans with s1 | by rewrite <- Hb1 | done]. }
  apply Z.ltb_lt in Hee. cbn iota beta.
  destruct (data_item_ok s1 (e * g) (e' * g) loc (if csum_block_size c =? 0 then None
    else Some (ptr_add csum (2 * clean_entry_bitmap_size c + e * Z.land (data_csum_type c) 0xff)))) as (s2 & r & Hr & Hf2 & Hb2 & Hres); try done.
  { intros x y HBx HBy Hx Hxy Hy. apply HKc with e'; try done. lia. }
  { intros i Hin Hr Hnc. rewrite Hsrc; [| done | intros Hx; apply Hnc, Hcov1; by left]. unfold clean_byte. rewrite Ho; [done |].
    fold g. split; [apply Z.div_le_lower_bound; lia | apply Z.div_lt_upper_bound; lia]. }
  fold DATA_STATE. rewrite Hr. cbn [rbind]. destruct r; cbn [negb]; cycle 1.
  { exists s2, false. split; [done |]. split_and!; [by apply frame_trans with s1 | by rewrite <- Hb1 | done]. }
  destruct Hres as [Hi2 Hcov2].
  destruct (IH e' s2) as (s' & r & Hl & Hfr & Hbu & Hres); try done; try lia.
  - rewrite (frame0_cfg s1 s2); [done | apply Hf2].
  - intros i Hr' Hlt. apply Hcov2. destruct (decide (i < q * g)); [left; apply Hcov1; left; by apply Hdone |].
    destruct (decide (i < e * g)); [left; apply Hcov1; right; split; [lia | done] | right; split; [lia | done]].
  - intros i Hr' Hnc. apply Hsrc; [done |]. intros Hx. apply Hnc, Hcov2. left. apply Hcov1. by left.
  - exists s', r. split; [done |]. split_and!; [apply frame_trans with s1; [done | by apply frame_trans with s2] | | done].
    destruct Hbu as [Hbu | Hbu]; [rewrite Hbu, <- Hb1; done | by right].
Qed.
End Bitmap.
End Clean.
End Collect.
