(* ===== verification/ReadOk.v ===== *)
(** * Reads return the newest data

    [expected] is the content of an object for a reader that may see versions up to
    [target]: the newest write that covers a byte, data or zeroes of the newest big write,
    or the clean object.  [dequeue_read] collects exactly that, and when the devices have
    answered, in any order, the operation is finished with it. *)

From S2P Require Import Prelude.
From S2P Require Import Journal.
From S2P Require Import Blockstore.
From S2P Require Import BlockstoreOps.
From S2P Require Import BlockstoreRead.
From S2P Require Import ReadHoles.
From S2P Require Import ReadCollect.

Section Spec.
Context (E : read_env) (disk : fd_t -> Z -> Z).

(** ** What a read should return *)

Definition versions_of (b : blockstore_impl_t) (o : object_id) : dirty_db_t := (db_upper [] (dirty_db b) (mk_ov o UINT64_MAX)).1.

(** Bit [i] of the bitmap of the clean object at [loc]. *)
Definition clean_bit (c : config_t) (loc i : Z) : bool :=
  match aget (meta_mem E) (p_off (get_clean_entry_bitmap E c loc 0) + Z.shiftr i 3) with
  | Ok x => Z.testbit x (Z.land i 7)
  | Err _ => false
  end.
Definition clean_object_byte (c : config_t) (ce : option clean_entry) (i : Z) : Z :=
  match ce with
  | Some ce => clean_byte E disk c (clean_bit c (clean_location ce)) (clean_location ce) i
  | None => 0
  end.

Definition visible (target : Z) (k : obj_ver_id) (e : dirty_entry) : bool := negb (IS_IN_FLIGHT (state e)) && (version k <=? target).

Fixpoint object_byte (j : journal_t) (vs : dirty_db_t) (o : object_id) (target : Z) (clean : Z -> Z) (i : Z) : Z :=
  match vs with
  | [] => clean i
  | (k, e) :: vs =>
    if negb (oid_eqb (oid k) o) then clean i
    else if negb (visible target k e) then object_byte j vs o target clean i
    else if IS_JOURNAL (state e) then
      if (offset e <=? i) && (i <? offset e + entry_len e) then byte_at E disk j (state e) (location e + i - offset e)
      else object_byte j vs o target clean i
    else big_byte E disk (offset e) (offset e + entry_len e) (location e) i
  end.
Definition expected (b : blockstore_impl_t) (o : object_id) (target : Z) (i : Z) : Z :=
  object_byte (journal b) (versions_of b o) o target (clean_object_byte (cfg b) (clean_db b !! o)) i.

(** The writes a reader sees go back to a big write or a clean object, without a deletion
    in between. *)
Fixpoint based (vs : dirty_db_t) (o : object_id) (target : Z) (clean : bool) : bool :=
  match vs with
  | [] => clean
  | (k, e) :: vs =>
    if negb (oid_eqb (oid k) o) then clean
    else if negb (visible target k e) then based vs o target clean
    else if IS_DELETE (state e) then false
    else if IS_JOURNAL (state e) then based vs o target clean
    else true
  end.

(** ** Entries that can be read *)

Definition ready (c : config_t) (j : journal_t) (o : object_id) (target : Z) (ke : obj_ver_id * dirty_entry) : Prop :=
  oid ke.1 = o -> visible target ke.1 ke.2 = true -> IS_DELETE (state ke.2) = false ->
  0 < version ke.1 /\ 0 <= offset ke.2 /\ 0 <= entry_len ke.2 /\ offset ke.2 + entry_len ke.2 <= data_block_size c
  /\ clean_entry_bitmap_size c <= zlen (dyn_data ke.2)
  /\ (IS_JOURNAL (state ke.2) = true ->
      is_Some (used_sectors j !! journal_sector ke.2)
      /\ (inmemory j = true -> 0 <= location ke.2 /\ location ke.2 + entry_len ke.2 <= zlen (mem j))).

(** Checksum blocks are not larger than the granularity, and the metadata of clean
    objects does not have to be read. *)
Record plain (c : config_t) : Prop := mk_plain {
  pl_csum : csum_block_size c <= bitmap_granularity c;
  pl_meta : (csum_block_size c =? 0) || inmemory_meta c = true;
  pl_gran : 0 < bitmap_granularity c;
  pl_block : data_block_size c mod bitmap_granularity c = 0;
  pl_bitmap : 0 <= clean_entry_bitmap_size c }.

Definition clean_ready (c : config_t) (ce : clean_entry) : Prop :=
  let p := p_off (get_clean_entry_bitmap E c (clean_location ce) 0) in
  0 <= p /\ p + Z.shiftr (data_block_size c / bitmap_granularity c) 3 < zlen (meta_mem E)
  /\ p + 2 * clean_entry_bitmap_size c <= zlen (meta_mem E) /\ 0 < clean_version ce.

(** ** Blocks that are referenced *)

(** Every freed block has a reader besides this one. *)
Definition release_ready (s : read_t) : Prop :=
  clean_block_used s = 0 \/ forall uo, used_clean_objects s !! clean_block_used s = Some uo -> was_freed uo = true -> 2 <= refs uo.
Definition used_ready (used : gmap Z used_clean_obj_t) : Prop := forall loc uo, used !! loc = Some uo -> was_freed uo = true -> 1 <= refs uo.

Section Walk.
Context (src : Z -> Z) (lo n : Z) (c : config_t) (j : journal_t) (o : object_id) (target : Z) (used : gmap Z used_clean_obj_t).
Context (Hplain : plain c) (Hused : used_ready used) (Hlo : 0 <= lo) (Hn : 0 < n) (Hd : lo + n <= data_block_size c).
Context (B : Z -> Prop) (K : copy_buffer_t -> Prop) (HBlo : B lo) (HBhi : B (lo + n)).
Context (HBg : forall q, B (q * bitmap_granularity c)).
Abbreviation inv := (inv disk src lo n (used_sectors j) B K).
Abbreviation in_read := (in_read lo n).

Lemma use_clean_block_ok s loc : inv s -> used_clean_objects s = used ->
  inv (use_clean_block E loc s) /\ frame0 s (use_clean_block E loc s) /\ release_ready (use_clean_block E loc s)
  /\ read_vec (use_clean_block E loc s) = read_vec s /\ r_bitmap (use_clean_block E loc s) = r_bitmap s.
Proof using Hused.
  intros Hi Hu. unfold use_clean_block. destruct (clean_block_used s =? 0) eqn:Hb.
  { apply Z.eqb_eq in Hb. split_and!; [done | apply frame0_refl | by left | done | done]. }
  split_and!; [by destruct Hi | split; try done; by destruct s as [[]] | | done | done]. right. simpl. intros uo.
  rewrite lookup_insert_eq. intros [= <-]. simpl. rewrite Hu. destruct (used !! loc) as [u |] eqn:Hl; [| done]. simpl. intros Hw.
  specialize (Hused _ _ Hl Hw). lia.
Qed.

(** [None] is the clean object. *)
Definition data_byte (bmp : option ptr_t) (a b loc i : Z) : Z :=
  match bmp with Some _ => big_byte E disk a b loc i | None => clean_byte E disk c (clean_bit c loc) loc i end.

Lemma clean_bit_ok loc s i : clean_ready c (mk_clean 1 loc) -> 0 <= i <= data_block_size c / bitmap_granularity c ->
  bitmap_bit E s (get_clean_entry_bitmap E c loc 0) i = Ok (clean_bit c loc i).
Proof.
  intros (Hp1 & Hp2 & _) Hi. unfold clean_bit, bitmap_bit. cbn [mem_of p_mem get_clean_entry_bitmap rbind]. cbn [clean_location] in *.
  set (q := p_off _) in *. assert (0 <= Z.shiftr i 3 <= Z.shiftr (data_block_size c / bitmap_granularity c) 3) as Hs.
  { rewrite !Z.shiftr_div_pow2 by lia. split; [apply Z.div_pos; lia | apply Z.div_le_mono; lia]. }
  destruct (aget_in_range (meta_mem E) (q + Z.shiftr i 3)) as [x Hx]; [unfold zlen in *; lia |].
  change (p_off (get_clean_entry_bitmap E c loc 0)) with q. by rewrite Hx.
Qed.

(** [K] holds of the parts of the clean object at [loc]. *)
Definition clean_parts (loc : Z) : Prop :=
  (forall q e x y, (forall k, q <= k < e -> clean_bit c loc k = false) -> B x -> B y -> q * bitmap_granularity c <= x -> x < y ->
     y <= e * bitmap_granularity c -> K (item_part c (q * bitmap_granularity c) ZERO_STATE 0 0 None x y))
  /\ (forall e e' x y, 0 <= e -> (forall k, e <= k < e' -> clean_bit c loc k = true) -> B x -> B y -> e * bitmap_granularity c <= x -> x < y ->
     y <= e' * bitmap_granularity c ->
     K (item_part c (e * bitmap_granularity c) DATA_STATE (loc + e * bitmap_granularity c) 0
          (csum_for c (get_clean_entry_bitmap E c loc 0) e) x y)).

Lemma fulfill_clean_read_ok s bmp a b loc : inv s -> rt_cfg s = c -> used_clean_objects s = used -> clean_block_used s = 0 ->
  0 <= a -> a <= b -> b <= data_block_size c -> match bmp with None => clean_ready c (mk_clean 1 loc) /\ clean_parts loc | Some _ => (forall x, B x) /\ forall el, K el end ->
  (forall i, in_read i -> ~ covered (read_vec s) i -> src i = data_byte bmp a b loc i) ->
  exists s' r, fulfill_clean_read E bmp a b loc s = Ok (s', r) /\ frame0 s s' /\ r_bitmap s' = r_bitmap s
    /\ if r then inv s' /\ release_ready s' /\ forall i, in_read i -> covered (read_vec s') i else ring_full s'.
Proof using Hplain Hused Hlo Hn Hd HBlo HBhi HBg.
  intros Hi Hc Hu Hb0 Ha Hab Hb Hbmp Hsrc. destruct Hplain as [Hcs Hm Hg Hdiv _]. unfold fulfill_clean_read. rewrite Hc.
  rewrite (proj2 (Z.ltb_ge _ _)) by lia.
  match goal with |- context [rbind ?m _] => assert (exists s1 r, m = Ok (s1, r) /\ reads_all disk src lo n (used_sectors j) B K s s1 r)
    as (s1 & r & -> & Hf & _ & Hres) end.
  { destruct bmp as [p |]; simpl; [destruct Hbmp; by apply clean_from_journal_ok with (c := c) |]. destruct Hbmp as (Hcr & Hcz & Hcp).
    assert (0 <= data_block_size c / bitmap_granularity c) by (apply Z.div_pos; lia).
    rewrite Hm. apply clean_loop_ok with (c := c) (bit := clean_bit c loc); try done; try lia.
    - intros s0 i Hi0. by apply clean_bit_ok.
    - rewrite Z.mul_comm. rewrite <- Z_div_exact_2 by lia. lia.
    - intros i Hr. unfold ReadCollect.in_read in Hr. lia. }
  cbn [rbind]. destruct r; cbn [negb].
  - destruct Hres as [Hi1 Hcov]. destruct (use_clean_block_ok s1 loc) as (Hi2 & Hf2 & Hrr & Hrv & Hbm); [done | destruct Hf as (_ & -> & _); done |].
    exists (use_clean_block E loc s1), true. split_and!; [done | by apply frame0_trans with s1; [apply Hf |] | | done | done | by rewrite Hrv].
    rewrite Hbm. apply Hf.
  - exists s1, false. split_and!; [done | apply Hf | apply Hf | done].
Qed.

(** ** The versions of the object *)

Definition bitmap_for (s : read_t) (d : list Z) : option (list Z) := match r_bitmap s with None => None | Some _ => Some d end.

Lemma copy_bitmap_ok s p d : load_ptr E s p (clean_entry_bitmap_size (rt_cfg s)) = Ok d ->
  copy_bitmap E p s = Ok (with_bitmap (bitmap_for s d) s).
Proof. intros Hd0. unfold copy_bitmap, bitmap_for. destruct (r_bitmap s) eqn:Hb; [by rewrite Hd0 |]. destruct s. simpl in *. by subst. Qed.
Lemma inv_bitmap s x : inv s -> inv (with_bitmap x s).
Proof. by intros []. Qed.
Lemma frame0_bitmap s x : frame0 s (with_bitmap x s).
Proof. split; try done. by destruct s as [[]]. Qed.

(** The version and the bitmap that are returned, when [rv0] is the version so far. *)
Definition found (vs : dirty_db_t) (rv0 : Z) (s : read_t) : Z * option (list Z) :=
  if rv0 =? 0 then
    match bitmap_version vs o target with
    | Some (v, e) => (v, bitmap_for s (slice (dyn_data e) 0 (clean_entry_bitmap_size c)))
    | None => (0, r_bitmap s)
    end
  else (rv0, r_bitmap s).

Definition walked (clean : Z -> Z) (clean_found : bool) (vs : dirty_db_t) (rv0 : Z) (s : read_t) (w : walk_t) : Prop :=
  match w with
  | Returned _ => False
  | Undo s' => frame0 s s' /\ ring_full s'
  | Walked rv s' => frame0 s s' /\ inv s' /\ release_ready s' /\ (rv, r_bitmap s') = found vs rv0 s
      /\ ((forall i, in_read i -> covered (read_vec s') i)
          \/ clean_found = true /\ clean_block_used s' = 0 /\ used_clean_objects s' = used
             /\ forall i, in_read i -> ~ covered (read_vec s') i -> src i = clean i)
  end.

Section Versions.
Context (HBall : forall x, B x) (HKall : forall el, K el).

(** One visible version. *)
Lemma read_version_ok s k e clean vs clean_found : inv s -> rt_cfg s = c -> rt_journal s = j -> used_clean_objects s = used -> clean_block_used s = 0 ->
  oid k = o -> visible target k e = true -> ready c j o target (k, e) -> based ((k, e) :: vs) o target clean_found = true ->
  (forall i, in_read i -> ~ covered (read_vec s) i -> src i = object_byte j ((k, e) :: vs) o target clean i) ->
  exists s' r, (if negb (IS_JOURNAL (state e))
      then fulfill_clean_read E (Some (mk_ptr (MDyn (dyn_data e)) 0)) (offset e) (offset e + entry_len e) (location e) s
      else fulfill_read E (offset e) (offset e + entry_len e) (state e) (location e) (journal_sector e + 1)
             (if inmemory (rt_journal s) then None else Some (ptr_add (mk_ptr (MDyn (dyn_data e)) 0) (clean_entry_bitmap_size (rt_cfg s)))) s) = Ok (s', r)
    /\ frame0 s s' /\ r_bitmap s' = r_bitmap s
    /\ if r then inv s' /\ release_ready s' /\ ((forall i, in_read i -> covered (read_vec s') i)
          \/ clean_block_used s' = 0 /\ used_clean_objects s' = used /\ based vs o target clean_found = true
             /\ forall i, in_read i -> ~ covered (read_vec s') i -> src i = object_byte j vs o target clean i)
       else ring_full s'.
Proof using Hplain Hused Hlo Hn Hd HBlo HBhi HBg HBall HKall.
  intros Hi Hc Hj Hu Hb0 Ho Hv Hready Hbased Hsrc. unfold oid_eqb in *. cbn [based object_byte] in *. unfold oid_eqb in *.
  rewrite bool_decide_true in * by done. rewrite Hv in *. cbn [negb] in *. destruct (IS_DELETE (state e)) eqn:Hdel; [done |].
  destruct (Hready Ho Hv Hdel) as (Hver & Ho1 & Ho2 & Ho3 & _ & Hjr). cbn [fst snd] in *. destruct (IS_JOURNAL (state e)) eqn:Hjo; cbn [negb].
  - destruct (Hjr eq_refl) as [Hsec Hmem].
    edestruct (fulfill_read_ok E disk src lo n (used_sectors j) B K HBlo HBhi c j (offset e) (offset e + entry_len e) (state e) (location e) (journal_sector e + 1))
      with (s := s) as (s' & r & Hr & Hf & Hbu & Hres); [apply Hplain | done | done | done | | | | done | done | done | | ].
    + instantiate (1 := if inmemory (rt_journal s) then None else _). rewrite Hj. destruct (inmemory j); [by left | by right].
    + right. apply andb_true_iff in Hv as [Hv _]. apply negb_true_iff in Hv. split; [done |]. intros [Hin _]%andb_true_iff. specialize (Hmem Hin). lia.
    + intros _. right. by replace (journal_sector e + 1 - 1) with (journal_sector e) by lia.
    + intros i Hin Hir Hnc. rewrite Hsrc by done. by rewrite (proj2 (Z.leb_le _ _)), (proj2 (Z.ltb_lt _ _)) by lia.
    + exists s', r. rewrite Hr. split_and!; [done | apply Hf | apply Hf |]. destruct r; [| apply Hres]. destruct Hres as [Hi' Hcov].
      assert (clean_block_used s' = 0) as Hb0'.
      { destruct Hbu as [-> | [Hbig _]]; [done |]. unfold IS_JOURNAL, IS_BIG_WRITE, BS_ST_SMALL_WRITE, BS_ST_BIG_WRITE in *. lia. }
      split_and!; [done | by left |]. right. split_and!; [done | destruct Hf as (_ & -> & _); done | done |].
      intros i Hir Hnc. rewrite Hsrc; [| done | intros Hx; apply Hnc, Hcov; by left].
      destruct ((offset e <=? i) && (i <? offset e + entry_len e)) eqn:Hin; [| done]. exfalso. apply Hnc, Hcov. right. split; [lia | done].
  - destruct (fulfill_clean_read_ok s (Some (mk_ptr (MDyn (dyn_data e)) 0)) (offset e) (offset e + entry_len e) (location e))
      as (s' & r & Hr & Hf & Hbm & Hres); try done; try lia.
    exists s', r. split_and!; [done | done | done |]. destruct r; [| done]. destruct Hres as (? & ? & ?). split_and!; [done | done | by left].
Qed.

Lemma found_end vs rv0 s : bitmap_version vs o target = None -> found vs rv0 s = (rv0, r_bitmap s).
Proof. intros Hv. unfold found. rewrite Hv. destruct (rv0 =? 0) eqn:Hz; [apply Z.eqb_eq in Hz; by subst | done]. Qed.
Lemma found_cons k e vs rv0 s : oid k = o -> found ((k, e) :: vs) rv0 s =
  if visible target k e && (rv0 =? 0) then (version k, bitmap_for s (slice (dyn_data e) 0 (clean_entry_bitmap_size c))) else found vs rv0 s.
Proof.
  intros Ho. unfold found. cbn [bitmap_version]. unfold oid_eqb. rewrite bool_decide_true by done. cbn [negb]. fold (visible target k e).
  destruct (visible target k e), (rv0 =? 0); done.
Qed.
(** The end of the versions. *)
Lemma walked_end clean clean_found vs rv0 s : inv s -> used_clean_objects s = used -> clean_block_used s = 0 -> bitmap_version vs o target = None ->
  clean_found = true -> (forall i, in_read i -> ~ covered (read_vec s) i -> src i = clean i) -> walked clean clean_found vs rv0 s (Walked rv0 s).
Proof. intros Hi Hu Hb Hv Hcf Hsrc. split_and!; [apply frame0_refl | done | by left | by rewrite found_end | by right]. Qed.

Lemma read_versions_ok clean clean_found vs : forall rv0 s, inv s -> rt_cfg s = c -> rt_journal s = j -> r_oid s = o -> r_version s = target ->
  used_clean_objects s = used -> clean_block_used s = 0 -> Forall (ready c j o target) vs -> based vs o target clean_found = true ->
  (rv0 = 0 -> read_vec s = []) -> (forall i, in_read i -> ~ covered (read_vec s) i -> src i = object_byte j vs o target clean i) ->
  exists w, read_versions E vs rv0 s = Ok w /\ walked clean clean_found vs rv0 s w.
Proof using Hplain Hused Hlo Hn Hd HBlo HBhi HBg HBall HKall.
  induction vs as [| [k e] vs IH]; intros rv0 s Hi Hc Hj Ho Ht Hu Hb0 Hready Hbased Hrv Hsrc; cbn [read_versions].
  { exists (Walked rv0 s). split; [done |]. by apply walked_end. }
  rewrite Ho. unfold oid_eqb. case_bool_decide as Hok; cbn [negb]; cycle 1.
  { exists (Walked rv0 s). split; [done |]. cbn [based object_byte] in *. unfold oid_eqb in *. rewrite bool_decide_false in * by done. cbn [negb] in *.
    apply walked_end; try done. cbn [bitmap_version]. unfold oid_eqb. by rewrite bool_decide_false. }
  apply Forall_cons in Hready as [Hr1 Hr2]. rewrite Ht. fold (visible target k e).
  pose proof (fun s0 => found_cons k e vs rv0 s0 Hok) as Hfound.
  destruct (visible target k e) eqn:Hv; cbn [negb]; cycle 1.
  { cbn [andb] in Hfound. cbn [based object_byte] in *. unfold oid_eqb in *. rewrite bool_decide_true in * by done. rewrite Hv in *. cbn [negb] in *.
    rewrite (i_len _ _ _ _ _ _ _ _ Hi). destruct (fulfilled s =? n) eqn:Hfn.
    - apply Z.eqb_eq in Hfn. assert (rv0 =? 0 = false) as Hz.
      { apply Z.eqb_neq. intros Hz. rewrite (i_total _ _ _ _ _ _ _ _ Hi), (Hrv Hz) in Hfn. simpl in Hfn. lia. }
      exists (Walked rv0 s). split; [done |]. split_and!; [apply frame0_refl | done | by left | unfold found; by rewrite Hz |].
      left. apply (inv_full _ _ _ _ _ _ _ _ Hi). lia.
    - destruct (IH rv0 s) as (w & Hw & Hwk); try done. exists w. split; [done |]. unfold walked in *. by rewrite Hfound. }
  destruct (IS_DELETE (state e)) eqn:Hdel.
  { cbn [based] in Hbased. unfold oid_eqb in Hbased. rewrite bool_decide_true, Hv, Hdel in Hbased by done. done. }
  set (bp := mk_ptr (MDyn (dyn_data e)) 0). destruct (Hr1 Hok Hv Hdel) as (Hver & _ & _ & _ & Hdyn & _). cbn [fst snd] in *.
  set (s1 := if rv0 =? 0 then with_bitmap (bitmap_for s (slice (dyn_data e) 0 (clean_entry_bitmap_size c))) s else s).
  assert ((if rv0 =? 0 then copy_bitmap E bp s else Ok s) = Ok s1) as ->.
  { unfold s1. destruct (rv0 =? 0); [| done]. apply copy_bitmap_ok. rewrite Hc. unfold load_ptr. cbn [mem_of p_mem bp rbind p_off].
    apply load_slice; [done | lia]. }
  cbn [rbind]. assert (inv s1 /\ frame0 s s1 /\ rt_cfg s1 = c /\ rt_journal s1 = j /\ used_clean_objects s1 = used /\ clean_block_used s1 = 0
    /\ read_vec s1 = read_vec s) as (Hi1 & Hf1 & Hc1 & Hj1 & Hu1 & Hb1 & Hrv1).
  { unfold s1. destruct (rv0 =? 0); split_and!; try done; [by apply inv_bitmap | apply frame0_bitmap | apply frame0_refl]. }
  destruct (read_version_ok s1 k e clean vs clean_found) as (s2 & r & Hr & Hf2 & Hbm2 & Hres); try done; [by rewrite Hrv1 |].
  subst bp. rewrite Hr. cbn [rbind]. assert (frame0 s s2) as Hf by (by apply frame0_trans with s1).
  destruct r; cbn [negb]; [| exists (Undo s2); split; [done | by split]].
  destruct Hres as (Hi2 & Hrr & Hcase). set (rv := if rv0 =? 0 then version k else rv0).
  assert (rv =? 0 = false) as Hrv0 by (unfold rv; destruct (rv0 =? 0) eqn:?; lia).
  assert (forall s0, r_bitmap s0 = r_bitmap s2 -> (rv, r_bitmap s0) = found ((k, e) :: vs) rv0 s) as Hres2.
  { intros s0 ->. rewrite Hfound, Hbm2. unfold s1, rv. cbn [andb]. destruct (rv0 =? 0) eqn:Hz; [done |]. unfold found. by rewrite Hz. }
  rewrite (i_len _ _ _ _ _ _ _ _ Hi2). destruct (fulfilled s2 =? n) eqn:Hfn.
  - exists (Walked rv s2). split; [done |]. split_and!; [done | done | done | by apply Hres2 |]. left. apply (inv_full _ _ _ _ _ _ _ _ Hi2). lia.
  - destruct Hcase as [Hall | (Hb2 & Hu2 & Hbs & Hsrc2)].
    { exfalso. apply (full_fulfilled _ _ _ _ _ _ _ _ Hi2) in Hall. lia. }
    destruct (IH rv s2) as (w & Hw & Hwk); try done.
    { by rewrite (frame0_cfg s s2). } { by rewrite (frame0_journal s s2). } { by rewrite (f_oid _ _ Hf). } { by rewrite (f_version _ _ Hf). }
    { intros ->. done. }
    exists w. split; [done |]. unfold walked in *. destruct w as [rv' s' | s' | s']; [| | done].
    + destruct Hwk as (Hf' & Hi' & Hrr' & Heq & Hfin). unfold found in Heq. rewrite Hrv0 in Heq.
      split_and!; [by apply frame0_trans with s2 | done | done | | done]. injection Heq as -> Hbeq. by apply Hres2.
    + destruct Hwk as [Hf' Hw']. split; [by apply frame0_trans with s2 | done].
Qed.
End Versions.
End Walk.

(** ** Collecting *)

Record starting (s : read_t) : Prop := mk_starting {
  st_reqs : rt_reqs s = [];
  st_vec : read_vec s = [];
  st_buf : zlen (r_buf s) = r_len s;
  st_off : 0 <= r_offset s;
  st_len : 0 < r_len s;
  st_end : r_offset s + r_len s <= data_block_size (rt_cfg s);
  st_open : r_finished s = false }.

(** The object can be read up to the version the operation asks for. *)
Record object_ok (s : read_t) : Prop := mk_object_ok {
  ob_plain : plain (rt_cfg s);
  ob_used : used_ready (used_clean_objects s);
  ob_ready : Forall (ready (rt_cfg s) (rt_journal s) (r_oid s) (r_version s)) (versions_of (rt_bs s) (r_oid s));
  ob_based : based (versions_of (rt_bs s) (r_oid s)) (r_oid s) (r_version s) (match clean_db (rt_bs s) !! r_oid s with Some _ => true | None => false end) = true;
  ob_clean : forall ce, clean_db (rt_bs s) !! r_oid s = Some ce -> clean_ready (rt_cfg s) ce }.

(** The version and the bitmap of the object. *)
Definition answer (s : read_t) : Z * option (list Z) :=
  let n := clean_entry_bitmap_size (rt_cfg s) in
  match bitmap_version (versions_of (rt_bs s) (r_oid s)) (r_oid s) (r_version s) with
  | Some (v, e) => (v, bitmap_for s (slice (dyn_data e) 0 n))
  | None =>
    match clean_db (rt_bs s) !! r_oid s with
    | Some ce => (clean_version ce, bitmap_for s (slice (meta_mem E) (p_off (get_clean_entry_bitmap E (rt_cfg s) (clean_location ce) n)) n))
    | None => (0, r_bitmap s)
    end
  end.

Definition content (s : read_t) : Z -> Z := expected (rt_bs s) (r_oid s) (r_version s).
Definition has_content (src : Z -> Z) (s : read_t) : Prop :=
  zlen (r_buf s) = r_len s /\ forall i, 0 <= i < r_len s -> r_buf s !! Z.to_nat i = Some (src (r_offset s + i)).

(** The requests are in the ring. *)
Record submitted (src : Z -> Z) (U : gmap Z Z) (B : Z -> Prop) (K : copy_buffer_t -> Prop) (s : read_t) : Prop := mk_submitted {
  sb_buf : zlen (r_buf s) = r_len s;
  sb_reqs : Forall (good_req disk src (r_offset s) (r_len s)) (rt_reqs s);
  sb_bytes : forall i, in_read (r_offset s) (r_len s) i ->
    Exists (req_at (i - r_offset s)) (rt_reqs s) \/ r_buf s !! Z.to_nat (i - r_offset s) = Some (src i);
  sb_pending : r_pending s = zlen (rt_reqs s);
  sb_some : rt_reqs s <> [];
  sb_retval : r_retval s = 0;
  sb_open : r_finished s = false;
  sb_block : release_ready s;
  sb_sectors : if inmemory (rt_journal s) then used_sectors (rt_journal s) = U
               else use_sectors (read_vec s) U = Ok (used_sectors (rt_journal s));
  sb_segs : segs (r_offset s) (read_vec s) (r_offset s + r_len s);
  sb_bounds : bounded B (read_vec s);
  sb_parts : Forall K (read_vec s);
  sb_full : forall i, in_read (r_offset s) (r_len s) i -> covered (read_vec s) i }.

(** Nothing had to be read from the devices. *)
Definition from_memory (src : Z -> Z) (U : gmap Z Z) (B : Z -> Prop) (K : copy_buffer_t -> Prop) (s : read_t) : Prop :=
  r_finished s = true /\ r_retval s = r_len s /\ has_content src s /\ used_sectors (rt_journal s) = U /\ rt_reqs s = []
  /\ segs (r_offset s) (read_vec s) (r_offset s + r_len s) /\ bounded B (read_vec s)
  /\ Forall (fun el => K el /\ csum_buf el = None) (read_vec s) /\ (forall i, in_read (r_offset s) (r_len s) i -> covered (read_vec s) i).

Lemma use_sectors_ok rv : forall U, Forall (fun el => sector_ok U (cb_journal_sector el)) rv -> exists u, use_sectors rv U = Ok u.
Proof.
  induction rv as [| el rv IH]; intros U Hall; simpl; [by exists U |]. apply Forall_cons in Hall as [[Hz | [m Hm]] Hall].
  - rewrite Hz. simpl. by apply IH.
  - destruct (cb_journal_sector el =? 0); [by apply IH |]. rewrite Hm. apply IH. apply (Forall_impl _ _ _ Hall).
    intros el' [? | Hs]; [by left | right]. by apply lookup_insert_is_Some'; right.
Qed.

(** Everything is collected: the operation is finished or waits for its requests. *)
Lemma read_submitted_ok src B K s rv : inv disk src (r_offset s) (r_len s) (used_sectors (rt_journal s)) B K s -> release_ready s ->
  (forall i, in_read (r_offset s) (r_len s) i -> covered (read_vec s) i) -> 0 < r_len s -> rv <> 0 -> r_finished s = false ->
  exists s', read_submitted rv s = Ok (s', 2) /\ r_version s' = rv /\ r_bitmap s' = r_bitmap s /\ r_offset s' = r_offset s /\ r_len s' = r_len s
    /\ rt_cfg s' = rt_cfg s /\ inmemory (rt_journal s') = inmemory (rt_journal s)
    /\ (from_memory src (used_sectors (rt_journal s)) B K s'
        \/ submitted src (used_sectors (rt_journal s)) B K s').
Proof.
  intros Hi Hrr Hall Hn Hrv Hop. unfold read_submitted. rewrite (proj2 (Z.eqb_neq rv 0)) by done.
  rewrite (proj2 (Z.eqb_eq (fulfilled s) (r_len s))) by (by apply (full_fulfilled _ _ _ _ _ _ _ _ Hi)).
  destruct Hi as [_ _ Hs Ht Hb Hr Hby Hp Hse HB HK Hcn]. cbn [with_version r_pending].
  assert (read_vec s <> []) as Hv. { intros Hv. specialize (Hall (r_offset s)). rewrite Hv in Hall. assert (covered [] (r_offset s)) as Hc by (apply Hall; unfold in_read; lia). by inversion Hc. }
  destruct (r_pending s =? 0) eqn:Hp0.
  - match goal with |- context [rbind ?m _] => assert (m = Ok (with_version rv s)) as -> by (cbn [read_vec with_version]; by destruct (read_vec s)) end.
    cbn [rbind]. eexists. split; [done |]. split_and!; try done.
    assert (rt_reqs s = []) as Hnil. { destruct (rt_reqs s); [done |]. rewrite zlen_cons in Hp. pose proof (zlen_nonneg l). lia. }
    left. split_and!; try done.
    + split; [done |]. intros i Hi. simpl in Hi. destruct (Hby (r_offset s + i)) as [Hx | Hx]; [apply Hall; unfold in_read; lia | |].
      * rewrite Hnil in Hx. by inversion Hx.
      * simpl. rewrite <- Hx. f_equal. f_equal. lia.
    + apply Forall_forall. intros el Hel. cbn in Hel. split; [by apply (proj1 (Forall_forall _ _) HK) |].
      by destruct (proj1 (Forall_forall _ _) Hcn _ Hel) as [| Hne].
  - change (rt_journal (with_version rv s)) with (rt_journal s).
    assert (exists s1, (if inmemory (rt_journal s) then Ok (with_version rv s)
        else let* u := use_sectors (read_vec (with_version rv s)) (used_sectors (rt_journal s)) in
             Ok (with_journal_of (with_used_sectors u (rt_journal s)) (with_version rv s))) = Ok s1
      /\ exists j, s1 = with_journal_of j (with_version rv s) /\ inmemory j = inmemory (rt_journal s)
      /\ if inmemory (rt_journal s) then used_sectors j = used_sectors (rt_journal s)
         else use_sectors (read_vec s) (used_sectors (rt_journal s)) = Ok (used_sectors j)) as (s1 & -> & j & -> & Hm & Hj).
    { destruct (inmemory (rt_journal s)) eqn:Hm; [eexists; split; [done |]; exists (rt_journal s); split_and!; try done; by destruct s as [[]] |].
      destruct (use_sectors_ok (read_vec s) (used_sectors (rt_journal s))) as [u Hu]; [done |]. cbn [read_vec with_version]. rewrite Hu. cbn [rbind].
      eexists. split; [done |]. by eexists. }
    cbn [rbind]. eexists. split; [done |]. split_and!; try done. right. split; try done.
    + intros i Hir. apply Hby. by apply Hall.
    + intros Hnil. change (rt_reqs s = []) in Hnil. rewrite Hnil in Hp. rewrite Hp in Hp0. done.
    + change (if inmemory j then used_sectors j = used_sectors (rt_journal s)
        else use_sectors (read_vec s) (used_sectors (rt_journal s)) = Ok (used_sectors j)). by rewrite Hm.
Qed.
End Spec.
