(* ===== verification/ReadMain.v ===== *)
(** * Reads: the operation from its submission to its end *)

From S2P Require Import Prelude.
From S2P Require Import Journal.
From S2P Require Import Blockstore.
From S2P Require Import BlockstoreOps.
From S2P Require Import BlockstoreRead.
From S2P Require Import ReadHoles.
From S2P Require Import ReadCollect.
From S2P Require Import ReadOk.

(** ** The devices *)

Section Serve.
Context (E : read_env) (disk : fd_t -> Z -> Z).

(** The device writes [iov] of a request. *)
Fixpoint deliver (fd : fd_t) (pos : Z) (iov : list iovec) (s : read_t) : res read_t :=
  match iov with
  | [] => Ok s
  | v :: iov =>
    let d := map (fun i => disk fd (pos + i)) (seqZ 0 (iov_len v)) in
    let* s :=
      match iov_base v with
      | DUser off => put_user off d s
      | DBuf k off =>
        match r_bufs s !! k with
        | Some b => let* x := poke (buf_data b) off d in Ok (with_bufs (<[k := mk_buf x (buf_iov b)]> (r_bufs s)) s)
        | None => Err Undefined
        end
      end in
    deliver fd (pos + iov_len v) iov s
  end.
(** A request is served completely and its callback is called. *)
Definition serve (rq : read_req) (s : read_t) : res read_t :=
  let* s := deliver (rq_fd rq) (rq_off rq) (rq_iov rq) s in handle_read_event E (rq_len rq) rq s.
Fixpoint serve_all (rqs : list read_req) (s : read_t) : res read_t :=
  match rqs with [] => Ok s | rq :: rqs => let* s := serve rq s in serve_all rqs s end.

(** ** Submission *)

Lemma based_none vs o target cf : bitmap_version vs o target = None -> based vs o target cf = cf.
Proof.
  induction vs as [| [k e] vs IH]; simpl; [done |]. destruct (oid_eqb (oid k) o); simpl; [| done].
  fold (visible target k e). destruct (visible target k e); [done |]. apply IH.
Qed.
Lemma based_some c j vs o target cf v e : Forall (ready c j o target) vs -> based vs o target cf = true ->
  bitmap_version vs o target = Some (v, e) -> v <> 0.
Proof.
  induction vs as [| [k e'] vs IH]; simpl; [done |]. unfold oid_eqb. case_bool_decide as Ho; simpl; [| done].
  intros [Hr1 Hr2]%Forall_cons Hb. fold (visible target k e'). destruct (visible target k e') eqn:Hv; simpl in *; [| by apply IH].
  intros [= <- <-]. destruct (IS_DELETE (state e')) eqn:Hdel; [done |]. destruct (Hr1 Ho Hv Hdel) as [H _]. simpl in H. lia.
Qed.

Lemma not_dirty vs o s : (match vs with (k, _) :: _ => oid_eqb (oid k) o | [] => false end) = false -> r_oid s = o ->
  read_versions E vs 0 s = Ok (Walked 0 s).
Proof. intros Hd <-. destruct vs as [| [k e] vs]; [done |]. simpl. by rewrite Hd. Qed.

(** The result of [dequeue_read]: finished, in the ring, or back to the queue. *)
Definition dequeued (B : Z -> Prop) (K : copy_buffer_t -> Prop) (s s' : read_t) (r : Z) : Prop :=
  r_offset s' = r_offset s /\ r_len s' = r_len s /\ rt_cfg s' = rt_cfg s
  /\ (r = 0 /\ ring_full s' /\ read_vec s' = []
      \/ r = 2 /\ (r_version s', r_bitmap s') = answer E s /\ inmemory (rt_journal s') = inmemory (rt_journal s)
         /\ (from_memory (content E disk s) (used_sectors (rt_journal s)) B K s'
             \/ submitted disk (content E disk s) (used_sectors (rt_journal s)) B K s')).

Section Dequeue.
Context (s : read_t) (Hst : starting s) (Hob : object_ok E s) (B : Z -> Prop) (K : copy_buffer_t -> Prop).
Abbreviation inv := (inv disk (content E disk s) (r_offset s) (r_len s) (used_sectors (rt_journal s)) B K).
Abbreviation dequeued := (dequeued B K).
Abbreviation all_covered := (fun t => forall i, in_read (r_offset s) (r_len s) i -> covered (read_vec t) i).

Lemma finish_dequeue t rv : frame0 s t -> inv t -> release_ready t -> all_covered t -> rv <> 0 -> (rv, r_bitmap t) = answer E s ->
  exists s' r, read_submitted rv t = Ok (s', r) /\ dequeued s s' r.
Proof using Hst.
  intros Hf Hi Hrr Hall Hrv Hans. pose proof (frame0_journal _ _ Hf) as Hj.
  destruct (read_submitted_ok disk (content E disk s) B K t rv) as (s' & Hs & Hv & Hbm & Ho & Hl & Hc & Hm & Hres); try done.
  { by rewrite (f_off _ _ Hf), (f_len _ _ Hf), Hj. } { by rewrite (f_off _ _ Hf), (f_len _ _ Hf). }
  { rewrite (f_len _ _ Hf). apply Hst. } { rewrite (f_finished _ _ Hf). apply Hst. }
  exists s', 2. split; [done |]. rewrite Hj in *. split_and!; [by rewrite Ho, (f_off _ _ Hf) | by rewrite Hl, (f_len _ _ Hf) |
    by rewrite Hc, (frame0_cfg _ _ Hf) |]. right. split_and!; [done | by rewrite Hv, Hbm | done |]. rewrite (f_len _ _ Hf) in *. done.
Qed.

Lemma undo_dequeue t : frame0 s t -> ring_full t -> dequeued s (with_read_vec [] t) 0.
Proof. intros Hf Hw. split_and!; [apply Hf | apply Hf | apply (frame0_cfg _ _ Hf) |]. by left. Qed.

Definition start : read_t := with_fulfilled 0 (with_block_used 0 (with_pending 0 s)).
Lemma start_inv : inv start.
Proof using Hst.
  destruct Hst as [Hr Hv Hb Ho Hl He _]. unfold start. split; simpl; rewrite ?Hr, ?Hv; try done; try apply Forall_nil_2; [simpl; lia | by intros i Hx; inversion Hx].
Qed.
Lemma start_frame : frame0 s start.
Proof. unfold start. generalize s. intros t. split; try done. by destruct t as [[]]. Qed.

Context (HBlo : B (r_offset s)) (HBhi : B (r_offset s + r_len s)) (HBg : forall q, B (q * bitmap_granularity (rt_cfg s))).

(** The clean object, after the versions. *)
Lemma finish_clean ce t rv : clean_db (rt_bs s) !! r_oid s = Some ce -> clean_parts E (rt_cfg s) B K (clean_location ce) ->
  frame0 s t -> inv t -> release_ready t ->
  (rv, r_bitmap t) = found (rt_cfg s) (r_oid s) (r_version s) (versions_of (rt_bs s) (r_oid s)) 0 s ->
  (all_covered t \/ clean_block_used t = 0 /\ used_clean_objects t = used_clean_objects s
     /\ forall i, in_read (r_offset s) (r_len s) i -> ~ covered (read_vec t) i -> content E disk s i = clean_object_byte E disk (rt_cfg s) (Some ce) i) ->
  exists s' r, (let* t := if rv =? 0
      then copy_bitmap E (get_clean_entry_bitmap E (rt_cfg t) (clean_location ce) (clean_entry_bitmap_size (rt_cfg t))) t else Ok t in
    let rv := if rv =? 0 then clean_version ce else rv in
    if fulfilled t <? r_len t then
      let* (t, ok) := fulfill_clean_read E None 0 (data_block_size (rt_cfg t)) (clean_location ce) t in
      if negb ok then Ok (with_read_vec [] t, 0) else read_submitted rv t
    else read_submitted rv t) = Ok (s', r) /\ dequeued s s' r.
Proof using Hst Hob HBlo HBhi HBg.
  intros Hce Hcp Hf Hi Hrr Hfound Hcase. destruct Hob as [Hpl Hus Hrd Hba Hcl]. destruct (Hcl _ Hce) as (Hp1 & Hp2 & Hp3 & Hver).
  rewrite (frame0_cfg _ _ Hf). set (n := clean_entry_bitmap_size (rt_cfg s)) in *.
  set (p := get_clean_entry_bitmap E (rt_cfg s) (clean_location ce) n).
  assert (p_off p = p_off (get_clean_entry_bitmap E (rt_cfg s) (clean_location ce) 0) + n) as Hpo.
  { unfold p, get_clean_entry_bitmap. simpl. destruct (inmemory_meta (rt_cfg s)); lia. }
  set (t1 := if rv =? 0 then with_bitmap (bitmap_for t (slice (meta_mem E) (p_off p) n)) t else t).
  assert ((if rv =? 0 then copy_bitmap E p t else Ok t) = Ok t1) as ->.
  { unfold t1. destruct (rv =? 0); [| done]. apply copy_bitmap_ok. rewrite (frame0_cfg _ _ Hf). unfold load_ptr. cbn [mem_of p_mem p get_clean_entry_bitmap rbind].
    pose proof (pl_bitmap _ Hpl). fold n. apply load_slice; fold p; fold n in H; rewrite Hpo; lia. }
  cbn [rbind]. assert (frame0 s t1 /\ inv t1 /\ release_ready t1 /\ read_vec t1 = read_vec t /\ clean_block_used t1 = clean_block_used t
    /\ used_clean_objects t1 = used_clean_objects t) as (Hf1 & Hi1 & Hrr1 & Hv1 & Hb1 & Hu1).
  { unfold t1. destruct (rv =? 0); split_and!; try done; [apply frame0_trans with t; [done | apply frame0_bitmap] | by apply inv_bitmap]. }
  set (rv1 := if rv =? 0 then clean_version ce else rv). assert (rv1 <> 0) as Hrv1 by (unfold rv1; destruct (rv =? 0) eqn:?; lia).
  assert ((rv1, r_bitmap t1) = answer E s) as Hans.
  { unfold answer, found in *. cbn [Z.eqb] in Hfound. fold n p. rewrite Hce. unfold rv1, t1. destruct (bitmap_version _ _ _) as [[v e] |] eqn:Hbv.
    - injection Hfound as -> Hbm. pose proof (based_some _ _ _ _ _ _ _ _ Hrd Hba Hbv). rewrite (proj2 (Z.eqb_neq v 0)) by done. by rewrite Hbm.
    - injection Hfound as -> Hbm. cbn [Z.eqb with_bitmap r_bitmap]. unfold bitmap_for. by rewrite Hbm. }
  rewrite (i_len _ _ _ _ _ _ _ _ Hi1), (frame0_cfg _ _ Hf1). destruct (fulfilled t1 <? r_len s) eqn:Hfl; cycle 1.
  { apply finish_dequeue; try done. apply (inv_full _ _ _ _ _ _ _ _ Hi1). lia. }
  destruct Hcase as [Hall | (Hb0 & Hu0 & Hsrc)].
  { exfalso. rewrite <- Hv1 in Hall. apply (full_fulfilled _ _ _ _ _ _ _ _ Hi1) in Hall. lia. }
  destruct Hst as [_ _ _ Hoff Hlen Hend _].
  destruct (fulfill_clean_read_ok E disk (content E disk s) (r_offset s) (r_len s) (rt_cfg s) (rt_journal s) (used_clean_objects s))
    with (B := B) (K := K) (s := t1) (bmp := @None ptr_t) (a := 0) (b := data_block_size (rt_cfg s)) (loc := clean_location ce) as (t2 & r & Hr & Hf2 & Hbm2 & Hres);
    try done; try lia; try congruence.
  { by rewrite (frame0_cfg _ _ Hf1). } { by rewrite Hv1. }
  rewrite Hr. cbn [rbind]. assert (frame0 s t2) as Hf' by (by apply frame0_trans with t1). destruct r; cbn [negb].
  - destruct Hres as (Hi2 & Hrr2 & Hall). apply finish_dequeue; try done. by rewrite Hbm2.
  - eexists _, _. split; [done |]. by apply undo_dequeue.
Qed.

Lemma dequeue_ok : (forall x, B x) -> (forall el, K el) -> exists s' r, dequeue_read E s = Ok (s', r) /\ dequeued s s' r.
Proof using Hst Hob HBlo HBhi HBg.
  intros HB HK.
  unfold dequeue_read. pose proof (eq_refl (versions_of (rt_bs s) (r_oid s))) as Hvs. unfold versions_of in Hvs at 1.
  destruct (db_upper [] (dirty_db (rt_bs s)) (mk_ov (r_oid s) UINT64_MAX)) as [vs suf]. cbn [fst] in Hvs.
  set (df := match vs with (k, _) :: _ => oid_eqb (oid k) (r_oid s) | [] => false end).
  destruct Hob as [Hpl Hus Hrd Hba Hcl]. rewrite <- Hvs in Hrd, Hba.
  assert ((match clean_db (rt_bs s) !! r_oid s with None => negb df | Some _ => false end) = false) as ->.
  { destruct (clean_db (rt_bs s) !! r_oid s); [done |]. unfold df. destruct vs as [| [k e] vs]; [done |]. simpl in Hba.
    by destruct (oid_eqb (oid k) (r_oid s)). }
  fold start. assert ((if df then read_versions E vs 0 start else Ok (Walked 0 start)) = read_versions E vs 0 start) as ->.
  { destruct df eqn:Hdf; [done |]. symmetry. by apply not_dirty with (r_oid s). }
  destruct (read_versions_ok E disk (content E disk s) (r_offset s) (r_len s) (rt_cfg s) (rt_journal s) (r_oid s) (r_version s) (used_clean_objects s))
    with (B := B) (K := K) (clean := clean_object_byte E disk (rt_cfg s) (clean_db (rt_bs s) !! r_oid s)) (vs := vs) (rv0 := 0) (s := start)
    (clean_found := match clean_db (rt_bs s) !! r_oid s with Some _ => true | None => false end) as (w & -> & Hw); try done; try apply Hst.
  { apply start_inv. } { intros _. apply (st_vec _ Hst). } { intros i _ _. unfold content, expected. by rewrite <- Hvs. }
  cbn [rbind]. destruct w as [rv t | t | t]; [| | done]; cycle 1.
  { destruct Hw as [Hf Hwt]. eexists _, _. split; [done |]. apply undo_dequeue; [| done]. by apply frame0_trans with start; [apply start_frame |]. }
  destruct Hw as (Hf & Hi & Hrr & Hfound & Hcase). assert (frame0 s t) as Hf' by (by apply frame0_trans with start; [apply start_frame |]).
  destruct (clean_db (rt_bs s) !! r_oid s) as [ce |] eqn:Hce.
  - apply finish_clean; try done; [by rewrite <- Hvs |]. destruct Hcase as [| (_ & ? & ? & ?)]; [by left | by right].
  - destruct Hcase as [Hall | [? _]]; [| done]. unfold found in Hfound. cbn [Z.eqb] in Hfound.
    destruct (bitmap_version vs (r_oid s) (r_version s)) as [[v e] |] eqn:Hbv; [| by rewrite based_none in Hba].
    injection Hfound as -> Hbm. apply finish_dequeue; try done; [by apply (based_some _ _ _ _ _ _ _ _ Hrd Hba Hbv) |].
    unfold answer. rewrite <- Hvs, Hbv, Hbm. done.
Qed.

(** An object without unflushed versions. *)
Lemma dequeue_clean_ok ce : versions_of (rt_bs s) (r_oid s) = [] -> clean_db (rt_bs s) !! r_oid s = Some ce -> clean_parts E (rt_cfg s) B K (clean_location ce) ->
  exists s' r, dequeue_read E s = Ok (s', r) /\ dequeued s s' r.
Proof using Hst Hob HBlo HBhi HBg.
  intros Hvs Hce Hcp. unfold dequeue_read. pose proof Hvs as Hvs'. unfold versions_of in Hvs'.
  destruct (db_upper [] (dirty_db (rt_bs s)) (mk_ov (r_oid s) UINT64_MAX)) as [vs suf]. cbn [fst] in Hvs'. subst vs. rewrite Hce. cbn [rbind].
  fold start. apply finish_clean; try done; [apply start_frame | apply start_inv | by left | unfold found; by rewrite Hvs |].
  right. split_and!; [done | done |]. intros i _ _. unfold content, expected. by rewrite Hvs, Hce.
Qed.
End Dequeue.

(** ** Completion *)

(** Counts of the sectors of the journal: what [use_sectors] adds is taken off again. *)
Lemma use_sectors_insert rv : forall u u' k m, use_sectors rv (<[k := m + 1]> u) = Ok u' -> u !! k = Some m ->
  exists u0 m0, use_sectors rv u = Ok u0 /\ u0 !! k = Some m0 /\ m <= m0 /\ u' = <[k := m0 + 1]> u0.
Proof.
  induction rv as [| el rv IH]; simpl; intros u u' k m Hu Hk.
  { injection Hu as <-. exists u, m. split_and!; [done | done | lia | done]. }
  destruct (cb_journal_sector el =? 0); [by apply IH |]. set (q := cb_journal_sector el - 1) in *.
  destruct (decide (q = k)) as [-> | Hne].
  - rewrite lookup_insert_eq in Hu. rewrite insert_insert_eq in Hu. rewrite Hk.
    destruct (IH (<[k := m + 1]> u) u' k (m + 1)) as (u0 & m0 & H1 & H2 & H3 & H4); [by rewrite insert_insert_eq | by rewrite lookup_insert_eq |].
    exists u0, m0. split_and!; [done | done | lia | done].
  - rewrite lookup_insert_ne in Hu by done. destruct (u !! q) as [x |] eqn:Hq; [| done]. rewrite insert_insert_ne in Hu by done.
    apply IH in Hu; [done |]. by rewrite lookup_insert_ne.
Qed.

Lemma release_sectors_ok rv : forall s U, use_sectors rv U = Ok (used_sectors (rt_journal s)) -> map_Forall (fun _ m => 0 < m) U ->
  exists b, release_sectors rv s = Ok (with_bs b s) /\ used_sectors (journal b) = U /\ data_alloc b = data_alloc (rt_bs s).
Proof.
  induction rv as [| el rv IH]; simpl; intros s U Hu Hpos.
  { injection Hu as ->. exists (rt_bs s). by destruct s. }
  destruct (cb_journal_sector el =? 0); [by apply IH |]. set (q := cb_journal_sector el - 1) in *.
  destruct (U !! q) as [m |] eqn:Hq; [| done]. assert (0 < m) as Hm by (apply (Hpos _ _ Hq)).
  destruct (use_sectors_insert _ _ _ _ _ Hu Hq) as (u0 & m0 & Hu0 & Hq0 & Hle & ->). rewrite lookup_insert_eq.
  rewrite (proj2 (Z.eqb_neq (m0 + 1 - 1) 0)) by lia. replace (m0 + 1 - 1) with m0 by lia. rewrite insert_insert_eq, insert_id by done.
  destruct (IH (with_journal_of (with_used_sectors u0 (rt_journal s)) s) U) as (b & Hr & Hb & Ha); [done | done |].
  exists b. rewrite Hr. done.
Qed.

Lemma release_block_ok s : release_ready s -> exists used, release_block s = Ok (with_used used s).
Proof.
  intros Hr. unfold release_block. destruct (clean_block_used s =? 0) eqn:Hz; [exists (used_clean_objects s); by destruct s |].
  destruct (used_clean_objects s !! clean_block_used s) as [uo |] eqn:Hu; [| exists (used_clean_objects s); by destruct s].
  destruct (refs uo - 1 <=? 0) eqn:Hle; [| by eexists]. destruct Hr as [? | Hr]; [lia |]. specialize (Hr uo Hu).
  destruct (was_freed uo); [specialize (Hr eq_refl); lia |]. simpl. eexists. by destruct s as [[]].
Qed.

(** The checksums, and their effect on the operation. *)
Definition verify (s : read_t) : res read_t :=
  if csum_block_size (rt_cfg s) =? 0 then Ok s
  else if bitmap_granularity (rt_cfg s) <? csum_block_size (rt_cfg s) then check_fills E (reverse (read_vec s)) false s
  else check_vec E (read_vec s) false s.
Definition marked (ok : bool) (s : read_t) : read_t := if ok then s else with_retval (- EDOM) s.

(** The end of the operation. *)
Definition finished_as (U : gmap Z Z) (ok : bool) (s s' : read_t) : Prop :=
  r_finished s' = true /\ r_retval s' = (if ok then r_len s else - EDOM) /\ r_buf s' = r_buf s /\ r_version s' = r_version s
  /\ r_bitmap s' = r_bitmap s /\ r_offset s' = r_offset s /\ r_len s' = r_len s /\ used_sectors (rt_journal s') = U.

Lemma complete_read_ok U ok s : verify s = Ok (marked ok s) -> release_ready s -> r_retval s = 0 -> map_Forall (fun _ m => 0 < m) U ->
  (if inmemory (rt_journal s) then used_sectors (rt_journal s) = U else use_sectors (read_vec s) U = Ok (used_sectors (rt_journal s))) ->
  exists s', complete_read E s = Ok s' /\ finished_as U ok s s'.
Proof.
  intros Hc Hr Hv Hpos Hu. unfold complete_read. fold (verify s). rewrite Hc. cbn [rbind]. set (t := marked ok s).
  assert (release_ready t /\ rt_journal t = rt_journal s /\ read_vec t = read_vec s) as (Hr' & Hj & Hv') by (unfold t, marked; by destruct ok).
  destruct (release_block_ok t Hr') as [used ->]. cbn [rbind].
  change (rt_journal (with_used used t)) with (rt_journal t). change (read_vec (with_used used t)) with (read_vec t). rewrite Hj, Hv'.
  assert (exists b, (if inmemory (rt_journal s) then Ok (with_used used t) else release_sectors (read_vec s) (with_used used t)) = Ok (with_bs b (with_used used t))
    /\ used_sectors (journal b) = U) as (b & -> & Hb).
  { destruct (inmemory (rt_journal s)); [exists (rt_bs t); split; [by destruct t |]; by rewrite <- Hu, <- Hj |].
    destruct (release_sectors_ok (read_vec s) (with_used used t) U) as (b & -> & Hb & _); [by rewrite <- Hj in Hu | done | by exists b]. }
  cbn [rbind]. eexists. split; [done |]. unfold t, marked. destruct ok; cbn; [rewrite Hv |]; cbn; by split_and!.
Qed.

Lemma zlen_map_seqZ (f : Z -> Z) m : 0 <= m -> zlen (map f (seqZ 0 m)) = m.
Proof. intros. unfold zlen. rewrite length_map, length_seqZ. lia. Qed.

Lemma serve_all_ok src U ok order : forall s, release_ready s -> r_retval s = 0 -> map_Forall (fun _ m => 0 < m) U ->
  (if inmemory (rt_journal s) then used_sectors (rt_journal s) = U else use_sectors (read_vec s) U = Ok (used_sectors (rt_journal s))) ->
  (forall b p, has_content src (with_buf b s) -> verify (with_pending p (with_buf b s)) = Ok (marked ok (with_pending p (with_buf b s)))) ->
  zlen (r_buf s) = r_len s -> Forall (good_req disk src (r_offset s) (r_len s)) order -> r_pending s = zlen order -> order <> [] ->
  (forall i, in_read (r_offset s) (r_len s) i -> Exists (req_at (i - r_offset s)) order \/ r_buf s !! Z.to_nat (i - r_offset s) = Some (src i)) ->
  exists s', serve_all order s = Ok s' /\ finished_as U ok (with_buf (r_buf s') s) s' /\ has_content src s'.
Proof.
  induction order as [| rq order IH]; intros s Hr Hv Hpos Hu Hver Hb Hgood Hp Hne Hby; [done |].
  apply Forall_cons in Hgood as [(fd & o & m & pos & -> & Ho & Hm & Hom & Hdisk) Hgood].
  cbn [serve_all serve rq_fd rq_iov rq_off rq_len]. unfold serve. cbn [deliver rq_fd rq_iov rq_off rq_len iov_base iov_len].
  set (d := map _ _). assert (zlen d = m) as Hd by (by apply zlen_map_seqZ). rewrite put_user_ok by lia. cbn [rbind].
  set (s1 := with_buf (poked (r_buf s) o d) s). unfold handle_read_event. rewrite Z.eqb_refl.
  set (s2 := with_pending (r_pending s1 - 1) s1). assert (r_pending s2 = zlen order) as Hp2 by (unfold s2, s1; simpl; rewrite Hp, zlen_cons; lia).
  assert (zlen (r_buf s2) = r_len s) as Hb2 by (unfold s2, s1; simpl; by rewrite zlen_poked by lia).
  assert (forall i, in_read (r_offset s) (r_len s) i -> Exists (req_at (i - r_offset s)) order \/ r_buf s2 !! Z.to_nat (i - r_offset s) = Some (src i)) as Hby2.
  { intros i Hir. unfold s2, s1. cbn [r_buf with_buf with_pending]. unfold in_read in Hir. rewrite lookup_poked by lia. case_decide as Hin.
    - right. unfold d. rewrite list_lookup_fmap. rewrite lookup_seqZ_lt by lia. simpl. rewrite Hdisk by lia. do 2 f_equal. lia.
    - destruct (Hby i Hir) as [Hx | Hx]; [| by right]. apply Exists_cons in Hx as [(o' & m' & [= <- <-] & Hx) | Hx]; [| by left].
      exfalso. apply Hin. lia. }
  rewrite Hp2. destruct order as [| rq' order].
  - assert (has_content src s1) as Hcont.
    { split; [done |]. intros i Hi. change (r_len s1) with (r_len s) in Hi. change (r_offset s1) with (r_offset s).
      destruct (Hby2 (r_offset s + i)) as [Hx | Hx]; [unfold in_read; lia | by inversion Hx |]. rewrite <- Hx. f_equal. f_equal. lia. }
    destruct (complete_read_ok U ok s2) as (s' & -> & Hf); try done; [by apply Hver |].
    cbn [zlen length Z.of_nat Z.eqb rbind serve_all]. exists s'. split; [done |].
    destruct Hf as (F1 & F2 & F3 & F4 & F5 & F6 & F7 & F8). split; [by split_and! |]. unfold has_content. rewrite F3, F6, F7. exact Hcont.
  - rewrite (proj2 (Z.eqb_neq (zlen (rq' :: order)) 0)) by (rewrite zlen_cons; pose proof (zlen_nonneg order); lia). cbn [rbind].
    destruct (IH s2) as (s' & Hs & Hf & Hc'); try done. exists s'. split; [exact Hs |]. split; [exact Hf | exact Hc'].
Qed.
End Serve.
