(* ===== verification/ReadClaims.v ===== *)
(** * Reads: what they return *)

From S2P Require Import Prelude.
From S2P Require Import Allocator.
From S2P Require Import Journal.
From S2P Require Import Blockstore.
From S2P Require Import BlockstoreOps.
From S2P Require Import BlockstoreRead.
From S2P Require Import ReadHoles.
From S2P Require Import ReadCollect.
From S2P Require Import ReadOk.
From S2P Require Import ReadMain.

Lemma content_map src s : 0 <= r_len s -> has_content src s -> r_buf s = map src (seqZ (r_offset s) (r_len s)).
Proof.
  intros Hn [Hl Hb]. apply list_eq. intros i. rewrite list_lookup_fmap. destruct (decide (Z.of_nat i < r_len s)) as [Hi | Hi].
  - rewrite lookup_seqZ_lt by lia. specialize (Hb (Z.of_nat i) ltac:(lia)). by rewrite Nat2Z.id in Hb.
  - rewrite lookup_seqZ_ge by lia. apply lookup_ge_None_2. unfold zlen in Hl. lia.
Qed.

(** The operation that was put into the ring ends with the content of the object. *)
Lemma serve_dequeued E disk B K s s' ok : starting s ->
  map_Forall (fun _ m => 0 < m) (used_sectors (rt_journal s)) -> dequeued E disk B K s s' 2 ->
  (forall b p, has_content (content E disk s) (with_buf b s') -> submitted disk (content E disk s) (used_sectors (rt_journal s)) B K s' ->
     verify E (with_pending p (with_buf b s')) = Ok (marked ok (with_pending p (with_buf b s')))) ->
  (from_memory (content E disk s) (used_sectors (rt_journal s)) B K s' -> ok = true) ->
  forall order, order ≡ₚ rt_reqs s' -> exists s'', serve_all E disk order s' = Ok s'' /\ r_finished s'' = true
    /\ r_retval s'' = (if ok then r_len s else - EDOM)
    /\ (r_version s'', r_bitmap s'') = answer E s /\ r_buf s'' = map (content E disk s) (seqZ (r_offset s) (r_len s))
    /\ used_sectors (rt_journal s'') = used_sectors (rt_journal s).
Proof.
  intros Hst Hpos (Ho & Hl & Hc & [[? _] | (_ & Hans & Hm & Hres)]) Hver Hmem order Hord; [done |]. pose proof (st_len _ Hst) as Hn.
  destruct Hres as [Hfm | Hsub]; [| pose proof Hsub as [Hb Hr Hby Hp Hne Hrv _ Hrr Hsec _ _ _ _]].
  - rewrite (Hmem Hfm). destruct Hfm as (Hfin & Hrv & Hcont & Hus & Hnil & _). rewrite Hnil in Hord. rewrite Hl in Hrv. apply Permutation_nil_r in Hord as ->. exists s'. split_and!; try done. apply content_map in Hcont; [| lia].
    by rewrite Hcont, Ho, Hl.
  - destruct (serve_all_ok E disk (content E disk s) (used_sectors (rt_journal s)) ok order s') as (s'' & Hs & Hf & Hcont); try done.
    + intros b p Hcont. by apply Hver. + by rewrite Hord. + rewrite Hp. unfold zlen. by rewrite Hord.
    + intros ->. apply Permutation_nil_l in Hord. done. + intros i Hi. rewrite Hord. by apply Hby.
    + exists s''. destruct Hf as (F1 & F2 & _ & F4 & F5 & F6 & F7 & F8). cbn in F2, F4, F5, F6, F7. apply content_map in Hcont; [| lia].
      split_and!; [done | done | by rewrite F2; destruct ok | by rewrite F4, F5 | by rewrite Hcont, F6, F7, Ho, Hl | done].
Qed.

(** C5: A read without checksums returns, for every byte, the newest write not newer than
    the requested version and not in flight, zeroes where the object is not allocated, and
    the version and attribute bitmap of the newest of these versions.  It is finished when
    the devices have answered its requests in any order, and the use counts of the sectors
    of the journal are then as before.  It is left in the queue, with its requests taken
    back, only when the ring has become full. *)
Theorem read_returns_newest E disk s : starting s -> object_ok E s -> csum_block_size (rt_cfg s) = 0 ->
  map_Forall (fun _ m => 0 < m) (used_sectors (rt_journal s)) ->
  exists s' r, loop_read E s = Ok (s', r)
    /\ (r = 0 /\ rt_reqs s' = [] /\ sqes_left (rt_bs s') = sqes_left (rt_bs s)
          /\ (exists s1, dequeue_read E s = Ok (s1, 0) /\ r_wait_for s1 = WAIT_SQE /\ sqes_left (rt_bs s1) <= 0)
        \/ r = 2 /\ forall order, order ≡ₚ rt_reqs s' -> exists s'', serve_all E disk order s' = Ok s''
             /\ r_finished s'' = true /\ r_retval s'' = r_len s /\ (r_version s'', r_bitmap s'') = answer E s
             /\ r_buf s'' = map (expected E disk (rt_bs s) (r_oid s) (r_version s)) (seqZ (r_offset s) (r_len s))
             /\ used_sectors (rt_journal s'') = used_sectors (rt_journal s)).
Proof.
  intros Hst Hob Hcs Hpos. destruct (dequeue_ok E disk s Hst Hob (fun _ => True) (fun _ => True)) as (s1 & r & Hd & Hres); try done. unfold loop_read. rewrite Hd. cbn [rbind].
  destruct (r =? 0) eqn:Hr.
  - apply Z.eqb_eq in Hr as ->. destruct Hres as (_ & _ & _ & [(_ & [Hw Hq] & _) | [? _]]); [| done]. eexists _, 0. split; [done |]. left.
    split_and!; [done | apply (st_reqs _ Hst) | done | by exists s1].
  - assert (r = 2) as ->. { destruct Hres as (_ & _ & _ & [[-> _] | [? _]]); done. }
    exists s1, 2. split; [done |]. right. split; [done |].
    apply (serve_dequeued E disk (fun _ => True) (fun _ => True) s s1 true); try done. intros b p _ _. unfold verify.
    change (rt_cfg (with_pending p (with_buf b s1))) with (rt_cfg s1). destruct Hres as (_ & _ & -> & _). by rewrite Hcs.
Qed.

(** C26: A read of an object whose newest version not newer than the requested one and not
    in flight is a deletion, or that has no such version and is not clean, ends at once
    with ENOENT and version 0. *)
Theorem read_not_found E s : 0 < r_len s ->
  match bitmap_version (versions_of (rt_bs s) (r_oid s)) (r_oid s) (r_version s) with
  | Some (_, e) => IS_DELETE (state e)
  | None => match clean_db (rt_bs s) !! r_oid s with None => true | Some _ => false end
  end = true ->
  exists s', dequeue_read E s = Ok (s', 2) /\ r_finished s' = true /\ r_retval s' = - ENOENT /\ r_version s' = 0
    /\ rt_reqs s' = rt_reqs s /\ r_buf s' = r_buf s.
Proof.
  intros Hn. unfold dequeue_read, versions_of. destruct (db_upper [] (dirty_db (rt_bs s)) (mk_ov (r_oid s) UINT64_MAX)) as [vs suf]. cbn [fst].
  set (df := match vs with (k, _) :: _ => oid_eqb (oid k) (r_oid s) | [] => false end). set (t := with_fulfilled 0 _). intros Hbv.
  destruct (match clean_db (rt_bs s) !! r_oid s with None => negb df | Some _ => false end); [by exists (not_found s) |].
  assert ((if df then read_versions E vs 0 t else Ok (Walked 0 t)) = read_versions E vs 0 t) as ->.
  { destruct df eqn:Hdf; [done |]. symmetry. by apply not_dirty with (r_oid s). }
  assert (read_versions E vs 0 t = Ok (match bitmap_version vs (r_oid s) (r_version s) with Some _ => Returned (not_found t) | None => Walked 0 t end)) as ->.
  { clear df. induction vs as [| [k e] vs IH]; [done |]. cbn [read_versions bitmap_version] in *. change (r_oid t) with (r_oid s).
    change (r_version t) with (r_version s). destruct (oid_eqb (oid k) (r_oid s)); cbn [negb] in *; [| done].
    destruct (negb (IS_IN_FLIGHT (state e)) && (version k <=? r_version s)); cbn [negb] in *; [by rewrite Hbv |].
    change (fulfilled t) with 0. change (r_len t) with (r_len s). rewrite (proj2 (Z.eqb_neq 0 (r_len s))) by lia. by apply IH. }
  cbn [rbind]. destruct (bitmap_version vs (r_oid s) (r_version s)) as [[v e] |]; [by exists (not_found t) |].
  destruct (clean_db (rt_bs s) !! r_oid s); [done |]. by exists (not_found t).
Qed.

(** For an object that can be read, [read_bitmap] gives the version and the bitmap
    that a read returns with the data. *)
Theorem read_bitmap_agrees E s bm : object_ok E s -> r_bitmap s = Some bm ->
  exists v d, read_bitmap E (rt_bs s) (r_oid s) (r_version s) = Ok (0, v, d) /\ answer E s = (v, Some d).
Proof.
  intros [Hpl _ Hrd Hba Hcl] Hbm. unfold read_bitmap, answer, bitmap_for. rewrite Hbm. fold (versions_of (rt_bs s) (r_oid s)). fold (rt_cfg s).
  pose proof (pl_bitmap _ Hpl) as Hn. destruct (bitmap_version _ _ _) as [[v e] |] eqn:Hbv.
  - assert (clean_entry_bitmap_size (rt_cfg s) <= zlen (dyn_data e)) as Hd.
    { revert Hrd Hba Hbv. generalize (versions_of (rt_bs s) (r_oid s)) as vs.
      induction vs as [| [k e'] vs IH]; simpl; [done |]. unfold oid_eqb. case_bool_decide as Ho; simpl; [| done].
      intros [Hr1 Hr2]%Forall_cons Hb. fold (visible (r_version s) k e'). destruct (visible (r_version s) k e') eqn:Hv; simpl in *; [| by apply IH].
      intros [= _ <-]. destruct (IS_DELETE (state e')) eqn:Hdel; [done |]. by destruct (Hr1 Ho Hv Hdel) as (_ & _ & _ & _ & H & _). }
    rewrite load_slice by lia. simpl. by eexists _, _.
  - rewrite based_none in Hba by done. destruct (clean_db (rt_bs s) !! r_oid s) as [ce |] eqn:Hce; [| done].
    destruct (Hcl _ eq_refl) as (Hp1 & _ & Hp3 & _). set (n := clean_entry_bitmap_size (rt_cfg s)) in *.
    assert (p_off (get_clean_entry_bitmap E (rt_cfg s) (clean_location ce) n) = p_off (get_clean_entry_bitmap E (rt_cfg s) (clean_location ce) 0) + n) as Hpo.
    { unfold get_clean_entry_bitmap. simpl. destruct (inmemory_meta (rt_cfg s)); lia. }
    rewrite load_slice by lia. simpl. by eexists _, _.
Qed.

(** ** An example *)

(** Objects of 32 bytes with a granularity of 4.  The object is clean in block 2 with its
    first four granules; version 2 is a small write of 8 bytes at 4, version 3 is in
    flight, version 4 is a big write. *)
Definition demo_read_config (csum csum_block : Z) (inmem : bool) : config_t :=
  mk_config 32 5 4 1 2 csum csum_block true inmem IMMEDIATE_NONE false false 128 128 false 0 0 0 0 ∅.
Definition demo_oid : object_id := mk_oid 1 0.
Definition demo_read_store (c : config_t) (db : dirty_db_t) (clean : gmap object_id clean_entry) (inmem : bool) : blockstore_impl_t :=
  mk_bs c clean ∅ ∅ db [] [] [] 0 0 0 (mk_allocator 0 0 0 0 []) 0 ∅ ∅
    (mk_journal inmem 128 2048 128 128 128 0 (replicate (Z.to_nat 2048) 7) [] 0 false 0 128 [] [] 0 {[ 256 := 1 ]})
    (mk_flusher [] ∅ false 0 0 0) 0 0 false ∅ 1 ∅ 100 [] [] [] 0.
Definition demo_env (meta : list Z) : read_env := mk_env 128 26 0 1000 5000 meta (fun _ => false).
Definition demo_disk (fd : fd_t) (pos : Z) : Z := (match fd with JournalFd => 0 | DataFd => 100 | MetaFd => 200 end + pos) mod 256.
Definition demo_read (b : blockstore_impl_t) (target off n : Z) : read_t :=
  mk_read b ∅ [] demo_oid target off n (replicate (Z.to_nat n) 255) (Some [0]) 0 0 0 0 0 [] [] false 0.

Definition demo_versions : dirty_db_t :=
  [(mk_ov demo_oid 2, mk_dirty 0x61 512 4 8 256 [0x5]); (mk_ov demo_oid 3, mk_dirty 0x31 640 0 16 256 [0x6]);
   (mk_ov demo_oid 4, mk_dirty 0x62 128 0 32 0 [0x7])].
Definition demo_meta : list Z := replicate 76 0 ++ [0x0f; 0xaa] ++ replicate 50 0.
Definition demo_small_read : read_t :=
  demo_read (demo_read_store (demo_read_config 0 0 true) demo_versions {[ demo_oid := mk_clean 1 64 ]} false) 3 0 32.

Lemma demo_object_ok : object_ok (demo_env demo_meta) demo_small_read.
Proof.
  constructor.
  - by constructor.
  - intros loc uo Hu. change ((∅ : gmap Z used_clean_obj_t) !! loc = Some uo) in Hu. by rewrite lookup_empty in Hu.
  - change (versions_of (rt_bs demo_small_read) (r_oid demo_small_read)) with (reverse demo_versions).
    repeat (apply Forall_cons; split); [intros _ Hv _; by vm_compute in Hv | intros _ Hv _; by vm_compute in Hv | intros _ _ _ | by apply Forall_nil].
    split_and!; try (vm_compute; congruence). intros _. split; [by eexists | done].
  - done.
  - intros ce [= <-]. split_and!; vm_compute; congruence.
Qed.

Lemma read_returns_newest_witness : exists s' r, loop_read (demo_env demo_meta) demo_small_read = Ok (s', r)
    /\ (r = 0 /\ rt_reqs s' = [] /\ sqes_left (rt_bs s') = 100
          /\ (exists s1, dequeue_read (demo_env demo_meta) demo_small_read = Ok (s1, 0) /\ r_wait_for s1 = WAIT_SQE /\ sqes_left (rt_bs s1) <= 0)
        \/ r = 2 /\ forall order, order ≡ₚ rt_reqs s' -> exists s'', serve_all (demo_env demo_meta) demo_disk order s' = Ok s''
             /\ r_finished s'' = true /\ r_retval s'' = 32 /\ (r_version s'', r_bitmap s'') = (2, Some [0x5])
             /\ r_buf s'' = map (expected (demo_env demo_meta) demo_disk (rt_bs demo_small_read) demo_oid 3) (seqZ 0 32)
             /\ used_sectors (rt_journal s'') = {[ 256 := 1 ]}).
Proof.
  apply (read_returns_newest (demo_env demo_meta) demo_disk demo_small_read).
  - by constructor.
  - apply demo_object_ok.
  - done.
  - apply map_Forall_singleton. done.
Defined.

Definition deleted_read : read_t :=
  demo_read (demo_read_store (demo_read_config 0 0 true) [(mk_ov demo_oid 2, mk_dirty 0x63 0 0 0 0 [])] {[ demo_oid := mk_clean 1 64 ]} false) 3 0 32.
Lemma read_not_found_witness : exists s', dequeue_read (demo_env demo_meta) deleted_read = Ok (s', 2) /\ r_finished s' = true
    /\ r_retval s' = - ENOENT /\ r_version s' = 0 /\ rt_reqs s' = [] /\ r_buf s' = replicate (Z.to_nat 32) 255.
Proof. apply (read_not_found (demo_env demo_meta) deleted_read); done. Defined.

Lemma read_bitmap_agrees_witness : exists v d, read_bitmap (demo_env demo_meta) (rt_bs demo_small_read) demo_oid 3 = Ok (0, v, d)
    /\ answer (demo_env demo_meta) demo_small_read = (v, Some d).
Proof. apply (read_bitmap_agrees (demo_env demo_meta) demo_small_read [0]); [apply demo_object_ok | done]. Defined.
