(* ===== verification/ReadVerify.v ===== *)
(** * Reads: checksums

    With a checksum for every granule of the object and the metadata in memory, a read of
    a clean object succeeds exactly when the allocated granules it covers have the stored
    checksums. *)

From S2P Require Import Prelude.
From S2P Require Import Allocator.
From S2P Require Import Crc32c.
From S2P Require Import Journal.
From S2P Require Import Blockstore.
From S2P Require Import BlockstoreOps.
From S2P Require Import BlockstoreRead.
From S2P Require Import ReadHoles.
From S2P Require Import ReadCollect.
From S2P Require Import ReadOk.
From S2P Require Import ReadMain.
From S2P Require Import ReadClaims.

Section Verify.
Context (E : read_env) (c : config_t) (loc : Z) (src : Z -> Z).
Abbreviation g := (bitmap_granularity c).
Definition meta_of : ptr_t := get_clean_entry_bitmap E c loc 0.
Definition csum_pos (q : Z) : Z := p_off meta_of + 2 * clean_entry_bitmap_size c + 4 * q.

(** The stored checksum of granule [q], and whether the content has it. *)
Definition stored_csum (q : Z) : Z := le_word (slice (meta_mem E) (csum_pos q) 4).
Definition granule (q : Z) : list Z := map src (seqZ (q * bitmap_granularity c) (bitmap_granularity c)).
Definition granule_ok (q : Z) : bool := negb (clean_bit E c loc q) || (crc_ref 0 (granule q) =? stored_csum q).

(** What is known of a part: it has no allocated granules, or all are allocated and it
    points to the checksum of the first one. *)
Definition aligned (x : Z) : Prop := (g | x).
Definition checked_part (el : copy_buffer_t) : Prop :=
  forall q, cb_offset el <= q * g < cb_offset el + cb_len el ->
    match csum_buf el with
    | None => clean_bit E c loc q = false
    | Some r => clean_bit E c loc q = true /\ r = ptr_add meta_of (2 * clean_entry_bitmap_size c + 4 * (cb_offset el / g))
    end.

Context (Hg : 0 < g) (Hcs : csum_block_size c = g) (Hty : Z.land (data_csum_type c) 0xff = 4).

Lemma checked_parts : clean_parts E c aligned checked_part loc.
Proof using Hg Hcs Hty.
  split.
  - intros q e x y Hbits _ _ Hx Hxy Hy k Hk. simpl in *. apply Hbits. replace (x + (y - x)) with y in Hk by lia. nia.
  - intros e e' x y He Hbits [kx ->] _ Hx Hxy Hy k Hk. unfold csum_for, item_part in *. rewrite Hcs, Hty in *.
    rewrite (proj2 (Z.eqb_neq g 0)) in * by lia. simpl in *. split; [apply Hbits; nia |]. fold meta_of. unfold ptr_add. simpl. f_equal.
    rewrite Z.div_mul by lia. replace (kx * g - e * g) with ((kx - e) * g) by lia. rewrite Z.div_mul by lia. lia.
Qed.

(** ** Checking the parts *)

Context (s : read_t) (Hc : rt_cfg s = c) (Hcont : has_content src s).
Context (Hoff : 0 <= r_offset s) (Hend : r_offset s + r_len s <= data_block_size c).
Context (Hmeta : 0 <= p_off meta_of) (Hbsz : 0 <= clean_entry_bitmap_size c) (Hroom : csum_pos (data_block_size c / g) <= zlen (meta_mem E)).

Lemma load_granule q : r_offset s <= q * g -> q * g + g <= r_offset s + r_len s -> load (r_buf s) (q * g - r_offset s) g = Ok (granule q).
Proof using Hg Hcont.
  intros H1 H2. destruct Hcont as [Hl Hb]. rewrite load_slice by lia. f_equal. apply list_eq. intros i. rewrite lookup_slice by lia.
  unfold granule. rewrite list_lookup_fmap. case_decide as Hi.
  - rewrite lookup_seqZ_lt by lia. simpl. replace (Z.to_nat (q * g - r_offset s) + i)%nat with (Z.to_nat (q * g - r_offset s + Z.of_nat i)) by lia.
    rewrite Hb by lia. do 2 f_equal. lia.
  - rewrite lookup_seqZ_ge by lia. done.
Qed.

Lemma load_csum q i : 0 <= i -> 0 <= q -> q + i < data_block_size c / g ->
  csum_at E s (ptr_add meta_of (2 * clean_entry_bitmap_size c + 4 * q)) i = Ok (stored_csum (q + i)).
Proof using Hmeta Hbsz Hroom.
  intros Hi Hq Hqi. unfold csum_at, load_ptr. set (p := meta_of) in *. cbn [ptr_add p_mem p_off].
  change (p_mem p) with MMeta. cbn [mem_of rbind]. subst p.
  unfold stored_csum, csum_pos in *.
  replace (p_off meta_of + (2 * clean_entry_bitmap_size c + 4 * q) + 4 * i) with (p_off meta_of + 2 * clean_entry_bitmap_size c + 4 * (q + i)) by lia.
  rewrite load_slice by lia. done.
Qed.

(** The granules of a part that begins with granule [q] and has [m] of them. *)
Lemma blocks_match_ok el q m fuel : forall i, cb_offset el = q * g -> cb_len el = m * g -> 0 <= q -> 0 <= i <= m -> m - i <= Z.of_nat fuel ->
  r_offset s <= q * g -> (q + m) * g <= r_offset s + r_len s -> (forall k, q <= k < q + m -> clean_bit E c loc k = true) ->
  blocks_match E fuel s el (ptr_add meta_of (2 * clean_entry_bitmap_size c + 4 * q)) i = Ok (forallb granule_ok (seqZ (q + i) (m - i))).
Proof using Hg Hcs Hc Hcont Hend Hmeta Hbsz Hroom.
  induction fuel as [| fuel IH]; intros i Ho Hl Hq Hi Hf Hlo Hhi Hbits; cbn [blocks_match]; rewrite Hc, Hcs, Hl.
  { assert (i = m) as -> by lia. rewrite (proj2 (Z.leb_le _ _)) by lia. by rewrite Z.sub_diag. }
  destruct (m * g <=? i * g) eqn:Hm; [apply Z.leb_le in Hm; assert (i = m) as -> by nia; by rewrite Z.sub_diag |]. apply Z.leb_gt in Hm.
  assert (i < m) by nia. rewrite Ho. replace (q * g - r_offset s + i * g) with ((q + i) * g - r_offset s) by lia.
  rewrite load_granule by nia. cbn [rbind]. rewrite load_csum; [| lia | lia |]; cycle 1.
  { apply Z.lt_le_trans with (q + m); [lia |]. apply Z.div_le_lower_bound; lia. }
  cbn [rbind]. rewrite (seqZ_cons (q + i)) by lia. cbn [forallb]. unfold granule_ok at 1. rewrite Hbits by lia. cbn [negb orb].
  destruct (crc_ref 0 (granule (q + i)) =? stored_csum (q + i)); cbn [negb andb]; [| done].
  rewrite IH by (try lia; done). replace (q + (i + 1)) with (Z.succ (q + i)) by lia. by replace (m - (i + 1)) with (Z.pred (m - i)) by lia.
Qed.

Definition part_ok (el : copy_buffer_t) : bool :=
  match csum_buf el with None => true | Some _ => forallb granule_ok (seqZ (cb_offset el / g) (cb_len el / g)) end.

Lemma check_part a el : is_part el -> a <= cb_offset el -> r_offset s <= a -> 0 < cb_len el -> cb_offset el + cb_len el <= r_offset s + r_len s ->
  aligned (cb_offset el) -> aligned (cb_offset el + cb_len el) -> checked_part el ->
  (match csum_buf el with None => Ok true | Some csums => blocks_match E (Z.to_nat (cb_len el)) s el csums 0 end) = Ok (part_ok el).
Proof using Hg Hcs Hc Hcont Hoff Hend Hmeta Hbsz Hroom.
  intros _ Ha Hlo Hl Hhi [q Hq] [q2 Hq2] Hk. unfold part_ok. unfold checked_part in Hk. destruct (csum_buf el) as [r |]; [| done].
  assert (cb_len el = (q2 - q) * g) as Hlen by lia. assert (0 < q2 - q) by nia.
  destruct (Hk q) as [_ ->]; [lia |]. rewrite Hq, Hlen, !Z.div_mul by lia.
  rewrite (blocks_match_ok el q (q2 - q)); try done; try nia.
  - by rewrite Z.add_0_r, Z.sub_0_r.
  - intros k Hkk. apply Hk. nia.
Qed.

Lemma check_vec_ok ok rv : forall a, segs a rv (r_offset s + r_len s) -> r_offset s <= a -> bounded aligned rv -> Forall checked_part rv ->
  check_vec E rv false (marked ok s) = Ok (marked (ok && forallb part_ok rv) s).
Proof using Hg Hcs Hc Hcont Hoff Hend Hmeta Hbsz Hroom.
  revert ok. induction rv as [| el rv IH]; intros ok a Hs Ha HB HK; cbn [check_vec forallb]; [by rewrite andb_true_r |].
  destruct Hs as (Hp & Ho & Hl & Hs). apply Forall_cons in HB as [[HB1 HB2] HB]. apply Forall_cons in HK as [HK1 HK].
  rewrite (proj2 Hp). pose proof (segs_le _ _ _ Hs) as Hle.
  assert (forall q i f, blocks_match E f (marked ok s) el q i = blocks_match E f s el q i) as Hbm.
  { intros q i f. revert i. induction f as [| f IHf]; intros i; simpl; destruct ok; try done. by rewrite IHf. }
  assert ((match csum_buf el with None => Ok true | Some csums => blocks_match E (Z.to_nat (cb_len el)) (marked ok s) el csums 0 end) = Ok (part_ok el)) as ->.
  { rewrite <- (check_part a el) by done. destruct (csum_buf el); [apply Hbm | done]. }
  cbn [rbind]. assert ((if part_ok el then marked ok s else with_retval (- EDOM) (marked ok s)) = marked (ok && part_ok el) s) as ->.
  { by destruct ok, (part_ok el). }
  rewrite (IH (ok && part_ok el) (cb_offset el + cb_len el)) by (done || lia). by rewrite andb_assoc.
Qed.

(** ** All granules of the read *)

Lemma forallb_elem {A} (f : A -> bool) l : forallb f l = true <-> forall x, x ∈ l -> f x = true.
Proof. rewrite forallb_forall. split; intros H x Hx; apply H; by apply list_elem_of_In. Qed.

Lemma parts_ok rv lo n : segs lo rv (lo + n) -> bounded aligned rv -> Forall checked_part rv -> aligned lo -> aligned n ->
  (forall i, in_read lo n i -> covered rv i) -> forallb part_ok rv = forallb granule_ok (seqZ (lo / g) (n / g)).
Proof using Hg.
  intros Hs HB HK [l0 ->] [m0 ->] Hall. rewrite !Z.div_mul by lia. apply eq_true_iff_eq. rewrite !forallb_elem. split.
  - intros H q Hq. apply elem_of_seqZ in Hq. destruct (proj1 (Exists_exists _ _) (Hall (q * g) ltac:(unfold in_read; nia))) as (el & Hel & Hin).
    pose proof (proj1 (Forall_forall _ _) HK _ Hel q Hin) as Hkq. specialize (H _ Hel). unfold part_ok in H. unfold granule_ok.
    destruct (csum_buf el) as [r |]; [| by rewrite Hkq]. rewrite forallb_elem in H. unfold granule_ok in H. apply H. apply elem_of_seqZ.
    destruct (proj1 (Forall_forall _ _) HB _ Hel) as [[a Ha] [b Hb]]. unfold in_part in Hin. assert (cb_len el = (b - a) * g) as -> by lia.
    rewrite Ha, !Z.div_mul by lia. nia.
  - intros H el Hel. unfold part_ok. destruct (csum_buf el) as [r |]; [| done]. rewrite forallb_elem. intros q Hq. apply elem_of_seqZ in Hq. apply H.
    destruct (proj1 (Forall_forall _ _) HB _ Hel) as [[a Ha] [b Hb]]. assert (cb_len el = (b - a) * g) as Hlen by lia.
    rewrite Ha, Hlen, !Z.div_mul in Hq by lia. apply elem_of_seqZ.
    assert (covered rv (q * g)) as Hcv by (apply Exists_exists; exists el; split; [done |]; unfold in_part; nia).
    pose proof (segs_covered _ _ _ _ Hs Hcv). nia.
Qed.
End Verify.

(** ** The operation *)

(** C12: With a checksum for every granule and the metadata in memory, a read of a clean
    object fills the buffer with the content of the object, and ends with its length if
    every allocated granule it covers has the stored checksum and with EDOM if one of them
    has not, whatever order its requests are answered in. *)
Theorem clean_read_verified E disk s ce : starting s -> object_ok E s -> map_Forall (fun _ m => 0 < m) (used_sectors (rt_journal s)) ->
  versions_of (rt_bs s) (r_oid s) = [] -> clean_db (rt_bs s) !! r_oid s = Some ce ->
  csum_block_size (rt_cfg s) = bitmap_granularity (rt_cfg s) -> Z.land (data_csum_type (rt_cfg s)) 0xff = 4 ->
  (bitmap_granularity (rt_cfg s) | r_offset s) -> (bitmap_granularity (rt_cfg s) | r_len s) ->
  csum_pos E (rt_cfg s) (clean_location ce) (data_block_size (rt_cfg s) / bitmap_granularity (rt_cfg s)) <= zlen (meta_mem E) ->
  exists s' r, loop_read E s = Ok (s', r)
    /\ (r = 0 /\ rt_reqs s' = [] /\ (exists s1, dequeue_read E s = Ok (s1, 0) /\ r_wait_for s1 = WAIT_SQE /\ sqes_left (rt_bs s1) <= 0)
        \/ r = 2 /\ forall order, order ≡ₚ rt_reqs s' -> exists s'', serve_all E disk order s' = Ok s'' /\ r_finished s'' = true
             /\ r_buf s'' = map (expected E disk (rt_bs s) (r_oid s) (r_version s)) (seqZ (r_offset s) (r_len s))
             /\ r_retval s'' =
                  if forallb (granule_ok E (rt_cfg s) (clean_location ce) (expected E disk (rt_bs s) (r_oid s) (r_version s)))
                       (seqZ (r_offset s / bitmap_granularity (rt_cfg s)) (r_len s / bitmap_granularity (rt_cfg s)))
                  then r_len s else - EDOM).
Proof.
  intros Hst Hob Hpos Hvs Hce Hcs Hty Ho Hl Hroom. pose proof (pl_gran _ (ob_plain _ _ Hob)) as Hg. set (c := rt_cfg s) in *. set (loc := clean_location ce) in *.
  set (B := aligned c). set (K := checked_part E c loc). set (ok := forallb _ _). fold (content E disk s) in ok.
  destruct (dequeue_clean_ok E disk s Hst Hob B K) with (ce := ce) as (s1 & r & Hd & Hres); try done.
  { by apply Z.divide_add_r. } { intros q. apply Z.divide_factor_r. } { by apply checked_parts. }
  unfold loop_read. rewrite Hd. cbn [rbind]. destruct (r =? 0) eqn:Hr.
  - apply Z.eqb_eq in Hr as ->. destruct Hres as (_ & _ & _ & [(_ & [Hw Hq] & _) | [? _]]); [| done]. eexists _, 0. split; [done |]. left.
    split_and!; [done | apply (st_reqs _ Hst) | by exists s1].
  - assert (r = 2) as ->. { destruct Hres as (_ & _ & _ & [[-> _] | [? _]]); done. }
    exists s1, 2. split; [done |]. right. split; [done |]. pose proof Hres as (Ho1 & Hl1 & Hc1 & _). destruct (ob_clean _ _ Hob _ Hce) as (Hp & _ & _ & _).
    intros order Hord. destruct (serve_dequeued E disk B K s s1 ok) with (order := order) as (s'' & Hs & Hfin & Hrv & _ & Hbuf & _); try done.
    + intros b p Hcont [_ _ _ _ _ _ _ _ _ Hsegs HB HK Hfull]. unfold verify. change (rt_cfg (with_pending p (with_buf b s1))) with (rt_cfg s1).
      rewrite Hc1. fold c. rewrite Hcs, (proj2 (Z.eqb_neq _ 0)), Z.ltb_irrefl by lia. change (read_vec (with_pending p (with_buf b s1))) with (read_vec s1).
      set (t := with_pending p (with_buf b s1)). change t with (marked true t) at 1.
      rewrite (check_vec_ok E c loc (content E disk s) Hg Hcs t Hc1) with (a := r_offset s1); try done; try lia.
      * do 2 f_equal. cbn [andb]. rewrite (parts_ok E c loc (content E disk s)) with (lo := r_offset s1) (n := r_len s1); try done.
        -- by rewrite Ho1, Hl1. -- by rewrite Ho1. -- by rewrite Hl1.
      * change (r_offset t) with (r_offset s1). rewrite Ho1. apply Hst.
      * change (r_offset t) with (r_offset s1). change (r_len t) with (r_len s1). rewrite Ho1, Hl1. apply Hst.
      * apply (pl_bitmap _ (ob_plain _ _ Hob)).
    + intros (_ & _ & _ & _ & _ & Hsegs & HB & HK & Hfull). unfold ok. apply forallb_elem. intros q Hq%elem_of_seqZ. unfold granule_ok. apply orb_true_iff. left.
      rewrite Ho1, Hl1 in *. destruct Ho as [l0 Hl0], Hl as [m0 Hm0]. rewrite Hl0, Hm0, !Z.div_mul in Hq by lia.
      destruct (proj1 (Exists_exists _ _) (Hfull (q * bitmap_granularity c) ltac:(unfold in_read; nia))) as (el & Hel & Hin).
      destruct (proj1 (Forall_forall _ _) HK _ Hel) as [Hkq Hnone]. specialize (Hkq q Hin). rewrite Hnone in Hkq. by rewrite Hkq.
    + exists s''. by split_and!.
Qed.

(** A clean object with two granules and their checksums. *)
Definition csum_meta : list Z :=
  replicate 152 0 ++ [0x03; 0xaa]
  ++ concat (map (fun q => le_bytes 4 (crc_ref 0 (map (fun i => demo_disk DataFd (1064 + i)) (seqZ (4 * q) 4)))) [0; 1]) ++ replicate 94 0.
Definition csum_env : read_env := mk_env 128 58 0 1000 5000 csum_meta (fun _ => false).
Definition csum_read : read_t :=
  demo_read (demo_read_store (demo_read_config 0x104 4 true) [] {[ demo_oid := mk_clean 1 64 ]} false) 3 0 16.

Lemma clean_read_verified_witness : exists s' r, loop_read csum_env csum_read = Ok (s', r)
    /\ (r = 0 /\ rt_reqs s' = [] /\ (exists s1, dequeue_read csum_env csum_read = Ok (s1, 0) /\ r_wait_for s1 = WAIT_SQE /\ sqes_left (rt_bs s1) <= 0)
        \/ r = 2 /\ forall order, order ≡ₚ rt_reqs s' -> exists s'', serve_all csum_env demo_disk order s' = Ok s'' /\ r_finished s'' = true
             /\ r_buf s'' = map (expected csum_env demo_disk (rt_bs csum_read) demo_oid 3) (seqZ 0 16)
             /\ r_retval s'' =
                  if forallb (granule_ok csum_env (rt_cfg csum_read) 64 (expected csum_env demo_disk (rt_bs csum_read) demo_oid 3)) (seqZ 0 4)
                  then 16 else - EDOM).
Proof.
  apply (clean_read_verified csum_env demo_disk csum_read (mk_clean 1 64)); try done.
  - constructor; try done. intros ce [= <-]. split_and!; vm_compute; congruence.
  - by apply map_Forall_singleton.
  - by exists 0.
  - by exists 4.
Defined.
