(* ===== verification/ReadFaults.v ===== *)
(** * Reads: where they go wrong *)

From S2P Require Import Prelude.
From S2P Require Import Allocator.
From S2P Require Import Crc32c.
From S2P Require Import Journal.
From S2P Require Import Blockstore.
From S2P Require Import BlockstoreOps.
From S2P Require Import BlockstoreWrite.
From S2P Require Import BlockstoreRead.
From S2P Require Import ReadMain.
From S2P Require Import ReadClaims.

(** Submission and completion with the requests in order. *)
Definition run_read (E : read_env) (disk : fd_t -> Z -> Z) (s : read_t) : res read_t :=
  let* (s, _) := loop_read E s in serve_all E disk (rt_reqs s) s.
Definition result (m : res read_t) : res (Z * Z * list Z) := let* s := m in Ok (r_retval s, r_version s, r_buf s).

Definition DATA_CSUM : Z := 0x104.
Definition clean_read (csum csum_block loc : Z) : read_t :=
  demo_read (demo_read_store (demo_read_config csum csum_block true) [] {[ demo_oid := mk_clean 1 loc ]} false) 3 0 32.
Definition dirty_read (csum csum_block : Z) (e : dirty_entry) : read_t :=
  demo_read (demo_read_store (demo_read_config csum csum_block true) [(mk_ov demo_oid 2, e)] ∅ false) 3 0 32.


(** An unflushed big write of 8 bytes at [off], with the checksum that enqueue_write
    stores for it, and a device that has its data. *)
Definition written_data : list Z := [1; 2; 3; 4; 5; 6; 7; 8].
Definition big_entry (off : Z) : dirty_entry :=
  mk_dirty 0x62 64 off 8 0 (0xff :: concat (map (le_bytes 4) (data_csums (demo_read_config DATA_CSUM 4 true) true off 8 written_data))).
Definition written_disk (off : Z) (fd : fd_t) (pos : Z) : Z := default 0 (written_data !! Z.to_nat (pos - (1000 + 64 + off))).



(** 64 blocks, of which 1 and 32 are allocated. *)
Definition two_blocks : res allocator_t :=
  let* a := allocator_new 64 in let* a := set a 1 true in set a 32 true.
Definition with_alloc (a : allocator_t) (s : read_t) : read_t := with_bs (with_data_alloc a (rt_bs s)) s.
(** A flusher frees the block while it is read. *)
Definition freed_meanwhile (loc : Z) (s : read_t) : read_t :=
  with_used (alter (fun uo => mk_used (refs uo) true (was_changed uo)) loc (used_clean_objects s)) s.
Definition read_freed (loc : Z) : res read_t :=
  let* a := two_blocks in
  let* (s, _) := loop_read (demo_env (replicate 128 0xff)) (with_alloc a (clean_read 0 0 loc)) in
  serve_all (demo_env (replicate 128 0xff)) demo_disk (rt_reqs s) (freed_meanwhile loc s).


(** For a deleted object a read ends with ENOENT, but read_bitmap returns the version of
    the deletion as a success, or reads through a null pointer when [dyn_data] is
    allocated. *)
Theorem deleted_bitmap E b o target v e : bitmap_version (db_upper [] (dirty_db b) (mk_ov o UINT64_MAX)).1 o target = Some (v, e) ->
  IS_DELETE (state e) = true -> 0 < clean_entry_bitmap_size (cfg b) ->
  read_bitmap E b o target =
    if clean_entry_bitmap_size (cfg b) <=? zlen (dyn_data e) then Ok (0, v, slice (dyn_data e) 0 (clean_entry_bitmap_size (cfg b))) else Err OutOfBounds.
Proof.
  intros Hv _ Hn. unfold read_bitmap. rewrite Hv. unfold load. simpl. by destruct (_ <=? _).
Qed.
